(* ===== verification/_CoqProject ===== *)
-Q . S2P
Prelude.v
Bits.v
Blocks.v
HpackTables.v
Http2Env.v
Http2Send.v
Huffman.v
HuffmanProofs.v
Hpack.v
HpackProofs.v
Http2.v
Http2Proofs.v
Http2Main.v
Validate.v
Buf.v
Eperd.v
EperdProofs.v
Response.v
Dns.v
DnsProofs.v
DnsMain.v
Cstr.v
Packet.v
Double.v
Wp.v
Tcp.v
TcpProofs.v
TcpMain.v
Http1.v
Http1Proofs.v
Http1Loop.v
Http1Main.v
Http1Post.v
Http1Life.v
TcpHttp.v
Results.v
Ping.v
PingProofs.v
PingRun.v
PingLife.v
PingMeasure.v
PingMain.v
PingCases.v
NtpFormat.v
NtpTime.v
Ntp.v
NtpProofs.v
NtpText.v
NtpLife.v
NtpMain.v
NtpCases.v
Local.v
LocalProofs.v
Ooq.v
OoqProofs.v
OoqMain.v
OoqFiles.v
OoqCases.v
TrtPacket.v
TrtParis.v
Trt.v
TrtProofs.v
TrtRun.v
TrtReply.v
TrtStep.v
TrtHandle.v
TrtStart.v
TrtLife.v
TrtMain.v
TrtMatch.v
TrtCases.v
Condmv.v
CondmvProofs.v
CondmvMain.v
CondmvCases.v
Post.v
PostProofs.v
PostMain.v
PostDeliver.v
PostCases.v
