(* ===== verification/Prelude.v ===== *)
(** * RIPE Atlas software probe: verification development (root file)

    The program is the RIPE Atlas software probe.  Its own C code is the
    measurement daemon [eperd] and its helpers in [probe-busybox/]; libevent, most
    of busybox ([libbb], [archival], [hash_md5_sha]) and the hostname
    check from cURL ([eperd/tls-hostcheck.c]) are other projects' code.

    [eperd] reads a crontab of measurements, keeps a table of lines with one
    libevent timer each, and starts the built-in test of a line when its timer
    fires.  A test talks to the network through buffers of libevent and writes
    one line of JSON per measurement.  The DNS test [evtdig] builds a query,
    prints the answer field by field and keeps EDNS cookies per server; its
    DNS-over-HTTPS transport hands its connection to the HTTP/2 client of
    [eperd/http2.c]: frames, HPACK header compression with its Huffman code,
    flow control.  The HTTP test [evhttpget] has a client of its own for
    HTTP/1, a state machine that is driven by the callbacks of a bufferevent
    and whose connections are made by the TCP helper [eperd/tcputil.c].  The ping, traceroute and NTP
    tests send and receive packets on sockets of their own, with timers for lost
    replies.  The daemon [eooqd] runs the same tests once each, from a queue.
    Results are moved from file to file by [condmv] and sent to the controller by [httppost].
    [libbb] has the helpers all tests share: validation of file
    names, identifiers and target addresses, growing buffers and base64, IPv6
    option headers, and recorded responses for regression tests.

    ** Files and the code they model

    - [Prelude], [Bits], [Blocks]: machine integers, C strings, the outcomes of a
      computation ([Done], or [Crash] by a failed assertion, a call of [fatal] or
      [exit], undefined behaviour, or exhausted fuel), the state monad over it,
      heap blocks with per-cell initialisation, bit strings.
    - [HpackTables], [Huffman], [Hpack]: [static_table] and [huffman_encode] row by
      row; [init_huffman] and [Xdecode_huffman2]; [Xdecode_int2], [add_dyn],
      [Xget_dyn], [Xdecode_header2], [Xreport_header] (http2.c).
    - [Http2Env], [Http2]: [struct http2_env], [http2_init], [http2_free], the
      [send_*2] and [add_*2] functions, the [Xreceive_*2] receivers,
      [Xhttp2_dns_input1], [http2_dns_input] and [http2_dns] (http2.c).
      The connection is a record that every function passes on; the output
      buffer of libevent is part of it, the input buffer and the callbacks are
      in [conn].
    - [Eperd]: [struct CronLine], [do_distr], [set_timeout], [Insert], [DeleteFile],
      [atlas_init], [Start], [SynchronizeFile], [SynchronizeDir], [RunJob]
      (eperd.c).  The linked list of lines is a list, pointers into it are
      positions.  [gettimeofday], [random] and the tests are functions of
      the number of outside calls made before, so they may answer
      differently each time.
    - [Dns]: the packet code of evtdig.c.  Names ([ChangetoDnsNameFormat],
      [ReadName] with compression pointers, [dns_namelen]), the query builder
      [mk_dns_buff] with its EDNS0 options (NSID, client subnet, cookies), [get_rr_len] and
      [get_edns_opt], the cookie state and [update_server_cookie], the answer
      section of [printReply] (TXT and SOA records) and [process_reply].
      A packet is a heap block, so a read behind its end is an outcome
      of the model.
    - [Cstr], [Http1]: C strings, [strtoul] and JSON quoting; httpget.c with
      [struct hgstate] as a record: [parse_url], [httpget_start],
      [httpget_delete], the readers of the response ([get_input] and the
      [read_*] functions under [readcb]), the writer of the request
      ([writecb], POST parts included), [report] and the callbacks
      of libevent and of the TCP helper.
    - [Validate]: validate_filename.c, validate_atlas_id.c, atlas_check_addr.c.
      [Buf]: atlas_bb64.c.  [Response]: atlas_read_response.c,
      atlas_write_response.c, atlas_ipv6_option.c.
    - [Packet], [Double], [Wp], [Results]: what the measurement engines share.  Fields of
      packets and checksums; double precision arithmetic and [%f] as exact
      rational computations with rounding; weakest preconditions for the state monad; the
      result buffer of a measurement ([add_str]) as a class that the engines
      instantiate, tables of measurements, checks of file names.
    - [Tcp]: tcputil.c ([tu_connect_to_name], [tu_restart_connect], [dns_cb], [create_bev],
      [eventcb], [tu_cleanup], [tu_fake_ttr]) against a class of clients, the callbacks
      of [struct tu_env]; [TcpHttp] makes the HTTP test a client.
    - [Ping]: ping.c ([fmticmp4], [fmticmp6], [ping_xmit], [ready_callback4],
      [ready_callback6], [noreply_callback], [ping_cb], [report], [ping_init],
      [ping_start], [ping_delete]) with [struct pingstate] in three records
      (parameters, session, sockets and events).
    - [NtpFormat], [Ntp]: ntp.c in the same way ([send_pkt], [ready_callback] with the
      round-trip time and offset in doubles, [noreply_callback], [gap_callback], [create_socket],
      [dns_cb], [report], [ntp_init], [ntp_start], [ntp_delete]).
    - [TrtPacket], [Trt]: traceroute.c ([in_cksum], [send_pkt] with its six kinds of probes, [do_icmp_multi],
      [ready_callback4], [ready_callback6], [ready_tcp4], [ready_tcp6], [noreply_callback], [create_socket], [dns_cb],
      [report], [traceroute_init], [traceroute_start], [traceroute_delete]).  What the branches for
      TCP, UDP and ICMP repeat is one definition with the kind of probe as an argument.
    - [Local]: readresolv.c, atlas_name_macro.c, atlas_probe.c.
    - [Ooq]: the one-off queue eooqd.c ([checkQueue], [add_line], [cmddone],
      [post_results], [check_resolv_conf2]); files are a finite map from names to contents.
    - [Condmv]: eperd/condmv.c ([condmv_init], [condmv_start], [condmv_delete]) in its module [Test] and
      coreutils/condmv.c ([condmv_main], [do_dir], [do_cprm]) in [Applet]; the file system is a map from resolved names to
      regular files, directories and other objects.
    - [Post]: networking/httppost.c ([parse_url], [do_dir], [connect_to_name], [write_to_tcp_fd], [check_result], [eat_headers],
      [copy_chunked], [copy_bytes], [copy_all], [httppost_main]) over the file system of [Condmv].

    ** What is shown

    - [HuffmanProofs]: [init_huffman] succeeds and fills all eight tables; the code is
      prefix free; decoding is complete, sound and terminating with respect
      to the bit string of the code words (a simulation of the 32-bit accumulator by
      a queue of bits, then finite checks of the tables by computation); the
      two inputs on which the C code leaves its tables or stops.
    - [Http2Send], [HpackProofs]: the exact bytes of a request; integers and header
      fields are decoded as their representations say; decoding never claims
      more bytes than it has; where the decoder departs from RFC 7541.
    - [Http2Proofs], [Http2Main]: a small program logic for the connection monad;
      [http2_dns_input] terminates, does not depend on how input is cut into
      chunks, assembles frames, and answers a complete response; functional
      behaviour of DATA and WINDOW_UPDATE frames; the heap overflow that [add_dyn]
      prepares.
    - [EperdProofs]: splitting of command lines, timers, the table after
      synchronisation with a crontab, when and how often a test runs, and the
      crontab parameter that makes [do_distr] divide by zero.
    - [DnsProofs], [DnsMain]: a name that is encoded, with or without compression,
      is read back; the query is the message RFC 1035 and RFC 6891 describe;
      options are found where they are; the cookie exchange follows RFC 7873;
      the printer of a reply terminates without leaving the reply on every
      packet it accepts; TXT strings are printed faithfully; and the packets
      on which the code reads behind its buffer.
    - [Http1Proofs], [Http1Loop], [Http1Main]: the line buffer as a view of the
      stream; every callback returns; a whole response (status line, header
      lines, a body delimited by length, by chunks or by the end of the
      connection) is measured with the counts the report prints, however the
      stream is cut into reads; URLs round-trip; header lines are quoted.
    - [Http1Post], [Http1Life]: the bytes of a request, POST parts included;
      a relation of the callbacks the event loop may make and the invariant of
      the reachable states, from which [httpget_delete] is safe; the places
      where the client departs from what its messages say.
    - [Validate], [Buf], [Response]: accepted paths are confined to their
      directory, addresses are refused exactly when they are in a listed
      prefix, base64 and recorded responses round-trip, option headers are well
      formed.
    - [TcpProofs], [TcpMain], [TcpHttp]: over every sequence of calls and callbacks, under the conditions they name, nothing is
      freed twice, used after it was freed or lost, except as the cases at the end
      show; addresses are tried in order; the HTTP test keeps the client's side of the interface.
    - [PingProofs], [PingRun], [PingLife], [PingMeasure], [PingMain], [PingCases]: checksums and
      layout of requests, the callbacks in every order, the line a whole
      measurement prints, isolation of measurements from each other, and the
      cases in which the line is not what was measured.
    - [NtpTime], [NtpProofs], [NtpText], [NtpLife], [NtpMain], [NtpCases]: the double
      precision times are the exact ones for results up to 24 days; the callbacks in every order, the
      line a whole measurement prints, its end, and the cases where the code departs from it.
    - [TrtParis], [TrtProofs], [TrtRun], [TrtReply], [TrtStep], [TrtHandle], [TrtStart], [TrtLife], [TrtMain], [TrtMatch],
      [TrtCases]: packets with the checksums a Paris traceroute asks for; every read of a reply stays in the buffer;
      the callbacks in every order, the order of hops and probes, the line and the end of a whole
      measurement; errors are matched with the probe they quote; and the cases where the code departs from it.
    - [LocalProofs]: name macros and resolver configurations against reference definitions.
    - [OoqProofs], [OoqMain], [OoqFiles], [OoqCases]: slots, barriers and the order of
      lines over every sequence of events; the queue is worked off; result
      files are never overwritten.
    - [CondmvProofs], [CondmvMain], [CondmvCases]: moving files loses and overwrites none, under
      conditions on the answers of the system that the theorems name; the contents of a directory are moved completely; all that is written to a
      source is delivered in order; and the cases in which data is lost.
    - [PostProofs], [PostMain], [PostDeliver], [PostCases]: what is removed was posted and accepted, is larger than
      half of the maximum, or is the rebased name of what was posted; a post is
      one request with the announced length, whichever way the response is coded; and the cases where another file is
      removed, one that could be posted is dropped or an address is not tried.

    ** Fuel and bounds

    Loops that are not structural take fuel.  [huff_loop] has eight rounds per
    input byte and one more, [headers_loop] one per byte and one more,
    [add_length2_loop] six (32 bits in groups of seven), [split_loop] two more than
    the characters, [pad_loop] one per byte; the proofs
    show that none of them is exhausted.  [draw] has one round: [random] is below
    2^31 and the bound it is compared with is above that for every admissible
    parameter.  [input_loop] has the fuel of its caller, and
    [http2_dns_input_terminates] says that one round more than there are bytes is
    enough.  [ReadName] has 400 rounds, more than the jumps and labels its own
    counters allow; [readcb] takes its fuel from its caller, and
    [readcb_returns] says that four rounds and three per byte are enough;
    the writer's loop has six, one more than its states.  [restart_loop] and [dns_loop] of the TCP helper go
    through a list of addresses, [checkQueue] has one round more than the
    bytes of the queue file, which [ooq_queue_order] shows to be enough, and [post_rounds] the five of the code.
    [hdropts] and [ext_objects] have one round per byte, of which each takes four or more ([hdropts_fuel], [ext_objects_fuel]).
    The loops of [Post] that read the response have one round more than there are bytes, of which each round takes one or more
    ([wp_eat_headers], [wp_copy_data], [wp_copy_chunks]).
    [malloc] and [realloc] do not fail (the code does not test them, or
    exits); [size_t] and [time_t] have 64 bits, [int] 32.
    An assertion that fails is an outcome of its own ([Crash]); the build defines
    [NDEBUG], so in production the code goes on behind it.

    ** Not modelled

    Of evtdig.c: the parsing of the command line, sockets and retries, the
    TCP and TLS transports, and the records [printReply] prints beside those above.
    Of httpget.c: the parsing of the command line ([httpget_init]).  Of eperd.c: [eperd_main] and the signal and
    watchdog handling.  Of all engines: the recording of packets and their replay for regression
    tests.  Of httppost.c: signals.  The engine [evsslgetcert], the reporting tools
    ([atlasinit], [telnetd], [rptra6], [rptaddrs], [rxtxrpt]), [perd], and the libraries of other
    projects.  Planned next, in this order: the rest of evtdig.c,
    sslgetcert.c, [atlasinit]. *)

From stdpp Require Import base list list_numbers numbers option strings.
From Stdlib Require Import ZArith Lia.

Open Scope Z_scope.

(** ** Machine integers

    A C unsigned integer of width [w] is a [Z]; a conversion to (or an
    assignment into a variable of) that type reduces modulo [2^w]. *)

Definition u8 (z : Z) : Z := z `mod` 2 ^ 8.
Definition u16 (z : Z) : Z := z `mod` 2 ^ 16.
Definition u32 (z : Z) : Z := z `mod` 2 ^ 32.
Definition u64 (z : Z) : Z := z `mod` 2 ^ 64.

(** Conversions to the signed types, in two's complement. *)
Definition s8 (z : Z) : Z := (z + 2 ^ 7) `mod` 2 ^ 8 - 2 ^ 7.
Definition s32 (z : Z) : Z := (z + 2 ^ 31) `mod` 2 ^ 32 - 2 ^ 31.
Definition s64 (z : Z) : Z := (z + 2 ^ 63) `mod` 2 ^ 64 - 2 ^ 63.

(** [is_byte z]: [z] is a value an [uint8_t] can hold. *)
Definition is_byte (z : Z) : Prop := 0 ≤ z < 256.
Definition is_u32 (z : Z) : Prop := 0 ≤ z < 2 ^ 32.

(** Length of a list as a [size_t]. *)
Definition zlen {A} (l : list A) : Z := Z.of_nat (length l).

(** The bytes of a C string literal, without the terminating NUL. *)
Fixpoint bytes_of_string (s : string) : list Z :=
  match s with
  | EmptyString => []
  | String c s' => Z.of_N (Ascii.N_of_ascii c) :: bytes_of_string s'
  end.

(** [cstr l]: what [strlen]/[strcmp] see of a buffer that holds [l], that is
    the bytes before the first NUL. *)
Fixpoint cstr (l : list Z) : list Z :=
  match l with
  | [] => []
  | c :: l' => if c =? 0 then [] else c :: cstr l'
  end.

(** Decimal digits of a non-negative number, most significant first; what
    [printf "%u"], ["%lu"] and ["%d"] write for it.  [n] bounds the number of
    digits. *)
Fixpoint dec_digits (n : nat) (z : Z) : list Z :=
  match n with
  | O => []
  | S n' => if z <? 10 then [48 + z]
            else dec_digits n' (z / 10) ++ [48 + z `mod` 10]
  end.
(** 64-bit values have at most 20 digits. *)
Definition print_dec (z : Z) : list Z := dec_digits 20 z.

(** Big-endian byte strings ([htons], [htonl]). *)
Definition be16 (z : Z) : list Z := [u8 (z ≫ 8); u8 z].
Definition be32 (z : Z) : list Z := [u8 (z ≫ 24); u8 (z ≫ 16); u8 (z ≫ 8); u8 z].

(** Character classes of the C locale. *)
Definition isspace (c : Z) : bool := (c =? 32) || ((9 <=? c) && (c <=? 13)).
Definition isdigit (c : Z) : bool := (48 <=? c) && (c <=? 57).
Definition isascii (c : Z) : bool := (0 <=? c) && (c <=? 127).
Definition tolower (c : Z) : Z := if (65 <=? c) && (c <=? 90) then c + 32 else c.

(** ** Outcomes

    A C function returns, or the process stops: a failed [assert], a call of
    [fatal]/[crondlog(DIE9 ..)]/[exit], or undefined behaviour (an access
    outside an object, a read of an uninitialised byte, an over-wide shift, a
    null dereference).  [OutOfFuel] is the answer of a fuelled loop whose fuel
    is used up; the theorems show it is never reached. *)
Inductive crash := AssertFail | Fatal | Undefined | OutOfFuel.

Inductive outcome (A : Type) : Type :=
| Done (a : A)
| Crash (c : crash).
Arguments Done {A} a.
Arguments Crash {A} c.

#[export] Instance crash_eq_dec : EqDecision crash.
Proof. solve_decision. Defined.

(** Stateful code: state passing with outcomes. *)
Definition M (S A : Type) : Type := S → outcome (A * S).

#[export] Instance M_ret {S} : MRet (M S) := λ A a s, Done (a, s).
#[export] Instance M_bind {S} : MBind (M S) := λ A B f m s,
  match m s with
  | Done (a, s') => f a s'
  | Crash c => Crash c
  end.

#[export] Instance outcome_ret : MRet outcome := λ A a, Done a.
#[export] Instance outcome_bind : MBind outcome := λ A B f m,
  match m with Done a => f a | Crash c => Crash c end.

Definition mcrash {S A} (c : crash) : M S A := λ _, Crash c.
Definition massert {S} (b : bool) : M S unit := if b then mret tt else mcrash AssertFail.
Definition get {S} : M S S := λ s, Done (s, s).
Definition modify {S} (f : S → S) : M S unit := λ s, Done (tt, f s).
Definition lift {S A} (m : outcome A) : M S A := λ s,
  match m with Done a => Done (a, s) | Crash c => Crash c end.

(** [Done]-ness of an outcome, as a boolean. *)
Definition is_done {A} (o : outcome A) : bool :=
  match o with Done _ => true | Crash _ => false end.

(** Signed 64-bit arithmetic: overflow is undefined. *)
Definition LONG_MAX : Z := 2 ^ 63 - 1.
Definition chk64 (z : Z) : outcome Z :=
  if (- 2 ^ 63 <=? z) && (z <=? LONG_MAX) then Done z else Crash Undefined.

(** ** Heap blocks

    A block of the C heap is the list of its cells; a cell that was not
    written since it was allocated is [None].  The length of the list is the
    size that was really allocated, whatever the program believes it to be. *)
Abbreviation blk A := (list (option A)).

(** [realloc]: keeps the common prefix, new cells are uninitialised. *)
Definition realloc {A} (b : blk A) (n : nat) : blk A :=
  take n b ++ replicate (n - length b) None.

(** Stores outside the block are undefined behaviour. *)
Definition store {A} (b : blk A) (off : nat) (l : list A) : outcome (blk A) :=
  if decide (off + length l ≤ length b)%nat
  then Done (take off b ++ (Some <$> l) ++ drop (off + length l) b)
  else Crash Undefined.

(** A load needs an initialised cell of the block. *)
Definition load {A} (b : blk A) (i : nat) : outcome A :=
  match b !! i with
  | Some (Some a) => Done a
  | _ => Crash Undefined
  end.

(** [loadn b off n]: [memcpy] of [n] cells out of a block. *)
Fixpoint loadn {A} (b : blk A) (off n : nat) : outcome (list A) :=
  match n with
  | O => Done []
  | S n' => a ← load b off; l ← loadn b (S off) n'; mret (a :: l)
  end.

(** [for] loops over a list that may stop the process. *)
Fixpoint foldM {St X} (f : St → X → outcome St) (l : list X) (s : St) : outcome St :=
  match l with
  | [] => Done s
  | x :: l' => s' ← f s x; foldM f l' s'
  end.

Definition oassert (b : bool) : outcome unit := if b then Done tt else Crash AssertFail.

(** ** Reasoning about the monads *)

Lemma M_bind_done {S A B} (m : M S A) (f : A → M S B) s a s' :
  m s = Done (a, s') → (m ≫= f) s = f a s'.
Proof. intros E. unfold mbind, M_bind. by rewrite E. Qed.

Lemma M_bind_crash {S A B} (m : M S A) (f : A → M S B) s c :
  m s = Crash c → (m ≫= f) s = Crash c.
Proof. intros E. unfold mbind, M_bind. by rewrite E. Qed.

Lemma O_bind_done {A B} (m : outcome A) (f : A → outcome B) a :
  m = Done a → (m ≫= f) = f a.
Proof. by intros ->. Qed.

(** [lift] of an outcome, resolved into its two cases. *)
Lemma lift_done {S A} (m : outcome A) (s : S) a : m = Done a → lift m s = Done (a, s).
Proof. by intros ->. Qed.
Lemma lift_crash {S A} (m : outcome A) (s : S) c : m = Crash c → lift (A := A) m s = Crash c.
Proof. by intros ->. Qed.

Lemma zlen_app {A} (l k : list A) : zlen (l ++ k) = zlen l + zlen k.
Proof. unfold zlen. rewrite length_app. lia. Qed.
Lemma zlen_nonneg {A} (l : list A) : 0 ≤ zlen l.
Proof. unfold zlen. lia. Qed.

(** [mrun E] runs the first action of a [M] computation whose result is [E]. *)
Ltac mrun E := first [rewrite (M_bind_done _ _ _ _ _ E) | rewrite (M_bind_crash _ _ _ _ E)].

(** Equations of the monadic plumbing, for [autorewrite]. *)
Section Equations.
Context {St A B C : Type}.
Implicit Types (s : St) (m : M St A) (f : A → M St B) (g : B → M St C).

Lemma bind_ret a f s : (mret a ≫= f) s = f a s.
Proof. done. Qed.
Lemma bind_get (k : St → M St B) s : (get ≫= k) s = k s s.
Proof. done. Qed.
Lemma bind_modify (h : St → St) (k : unit → M St B) s : (modify h ≫= k) s = k tt (h s).
Proof. done. Qed.
Lemma bind_lift_done a f s : (lift (Done a) ≫= f) s = f a s.
Proof. done. Qed.
Lemma bind_lift_crash c f s : (lift (Crash c) ≫= f) s = Crash c.
Proof. done. Qed.
Lemma bind_assert_true (k : unit → M St B) s : (massert true ≫= k) s = k tt s.
Proof. done. Qed.
Lemma bind_assert_false (k : unit → M St B) s : (massert false ≫= k) s = Crash AssertFail.
Proof. done. Qed.
Lemma bind_mcrash c f s : (mcrash c ≫= f) s = Crash c.
Proof. done. Qed.
Lemma bind_assoc m f g s : ((m ≫= f) ≫= g) s = (m ≫= (λ a, f a ≫= g)) s.
Proof. unfold mbind, M_bind. by destruct (m s) as [[a s']|c]. Qed.
Lemma obind_done (a : A) (h : A → outcome B) : (Done a ≫= h) = h a.
Proof. done. Qed.
Lemma obind_crash c (h : A → outcome B) : (Crash c ≫= h) = Crash c.
Proof. done. Qed.
Lemma obind_assert_true (h : unit → outcome B) : (oassert true ≫= h) = h tt.
Proof. done. Qed.
Lemma obind_assert_false (h : unit → outcome B) : (oassert false ≫= h) = Crash AssertFail.
Proof. done. Qed.
Lemma ret_M (a : A) s : (mret a : M St A) s = Done (a, s).
Proof. done. Qed.
Lemma modify_M (h : St → St) s : modify h s = Done (tt, h s).
Proof. done. Qed.
Lemma lift_done_M (a : A) s : lift (Done a) s = Done (a, s).
Proof. done. Qed.
Lemma lift_crash_M c s : lift (A := A) (Crash c) s = Crash c.
Proof. done. Qed.
End Equations.

Create Rewrite HintDb mon.
#[export] Hint Rewrite @bind_ret @bind_get @bind_modify @bind_lift_done @bind_lift_crash
  @bind_assert_true @bind_assert_false @bind_mcrash @bind_assoc
  @obind_done @obind_crash @obind_assert_true @obind_assert_false
  @ret_M @modify_M @lift_done_M @lift_crash_M : mon.

(** Run the monadic plumbing whose results are known, and nothing else. *)
Ltac msimpl := autorewrite with mon.
Ltac msimpl_in H := autorewrite with mon in H.

(** [Forall is_byte] of a concrete list. *)
Ltac solve_bytes :=
  repeat first [apply Forall_nil_2 | apply Forall_cons_2; [unfold is_byte; lia|]].

Lemma zlen_cons {A} (a : A) l : zlen (a :: l) = zlen l + 1.
Proof. unfold zlen. simpl. lia. Qed.
Lemma zlen_nil {A} : zlen (@nil A) = 0.
Proof. done. Qed.

(** A sequence that ends has ended its first action. *)
Lemma M_bind_inv {S A B} (m : M S A) (f : A → M S B) s b s'' :
  (m ≫= f) s = Done (b, s'') → ∃ a s', m s = Done (a, s') ∧ f a s' = Done (b, s'').
Proof. unfold mbind, M_bind. destruct (m s) as [[a s']|c]; [eauto|done]. Qed.

Lemma O_bind_inv {A B} (m : outcome A) (f : A → outcome B) b :
  (m ≫= f) = Done b → ∃ a, m = Done a ∧ f a = Done b.
Proof. destruct m as [a|c]; [eauto|done]. Qed.

Lemma lift_inv {S A} (m : outcome A) (s : S) a s' :
  lift m s = Done (a, s') → m = Done a ∧ s' = s.
Proof. unfold lift. destruct m; [|done]. intros [= -> ->]. done. Qed.

(** [minv H] splits the run [H] of a sequence into the runs of its parts. *)
Ltac minv H :=
  let a := fresh "a" in let s := fresh "s" in let E := fresh "E" in
  apply M_bind_inv in H as (a & s & E & H).
