(* ===== verification/Bits.v ===== *)
(** * Bit strings

    Machine words as lists of bits, most significant bit first: [bits_of n z]
    is the [n] low bits of [z], [bval] the number a bit string denotes.  The
    lemmas relate shifts, masks and concatenation; they are shared by the
    Huffman decoder and the encoders. *)

From S2P Require Import Prelude.
From stdpp Require Import base list numbers.
From Stdlib Require Import ZArith Lia.

Open Scope Z_scope.

Fixpoint bits_of (n : nat) (z : Z) : list bool :=
  match n with
  | O => []
  | S n' => Z.testbit z (Z.of_nat n') :: bits_of n' z
  end.

Definition bval (l : list bool) : Z :=
  fold_left (λ a (b : bool), 2 * a + (if b then 1 else 0)) l 0.

(** The bits of a byte string. *)
Definition bytes_bits (l : list Z) : list bool := mjoin (bits_of 8 <$> l).

Lemma length_bits_of n z : length (bits_of n z) = n.
Proof. induction n; simpl; auto. Qed.

Lemma bits_of_ext n x y :
  (∀ i, 0 ≤ i < Z.of_nat n → Z.testbit x i = Z.testbit y i) → bits_of n x = bits_of n y.
Proof.
  induction n as [|n IH]; intros Hxy; simpl; [done|].
  f_equal; [apply Hxy; lia|]. apply IH. intros i Hi. apply Hxy. lia.
Qed.

Lemma bits_of_app n m z :
  bits_of (n + m) z = bits_of n (z ≫ Z.of_nat m) ++ bits_of m z.
Proof.
  induction n as [|n IH]; simpl; [done|].
  f_equal; [|done]. rewrite Z.shiftr_spec by lia. f_equal. lia.
Qed.

Lemma bits_of_mod n w z :
  Z.of_nat n ≤ w → bits_of n (z `mod` 2 ^ w) = bits_of n z.
Proof.
  intros. apply bits_of_ext. intros i Hi. apply Z.mod_pow2_bits_low. lia.
Qed.

Lemma testbit_above z n i : 0 ≤ z < 2 ^ n → n ≤ i → Z.testbit z i = false.
Proof.
  intros Hz Hi. destruct (decide (0 ≤ n)).
  - rewrite <- (Z.mod_small z (2 ^ n)) by done. apply Z.mod_pow2_bits_high. lia.
  - rewrite Z.pow_neg_r in Hz by lia. lia.
Qed.

(** Appending [b] (of [m] bits) to [z]: [(z << m) | b]. *)
Lemma bits_of_lor_shiftl n m z b :
  0 ≤ b < 2 ^ Z.of_nat m →
  bits_of (n + m) (Z.lor (z ≪ Z.of_nat m) b) = bits_of n z ++ bits_of m b.
Proof.
  intros Hb. rewrite bits_of_app. f_equal; apply bits_of_ext; intros i Hi.
  - rewrite Z.shiftr_spec, Z.lor_spec, Z.shiftl_spec by lia.
    rewrite (testbit_above b (Z.of_nat m)) by lia.
    rewrite orb_false_r. f_equal. lia.
  - rewrite Z.lor_spec, Z.shiftl_spec_low by lia. done.
Qed.

Lemma bits_of_shiftl n k z :
  bits_of (n + k) (z ≪ Z.of_nat k) = bits_of n z ++ replicate k false.
Proof.
  rewrite bits_of_app. f_equal.
  - apply bits_of_ext. intros i Hi. rewrite Z.shiftr_spec, Z.shiftl_spec by lia.
    f_equal. lia.
  - induction k as [|k IH]; [done|].
    change (replicate (S k) false) with (false :: replicate k false).
    simpl bits_of. f_equal; [apply Z.shiftl_spec_low; lia|]. rewrite <- IH.
    apply bits_of_ext. intros i Hi. rewrite !Z.shiftl_spec_low by lia. done.
Qed.

(** The top [n] of [n + k] bits. *)
Lemma take_bits_of n k z : take n (bits_of (n + k) z) = bits_of n (z ≫ Z.of_nat k).
Proof.
  rewrite bits_of_app, take_app_length'; [done|]. by rewrite length_bits_of.
Qed.

Lemma drop_bits_of n k z : drop n (bits_of (n + k) z) = bits_of k z.
Proof.
  rewrite bits_of_app, drop_app_length'; [done|]. by rewrite length_bits_of.
Qed.

Lemma bval_snoc l b : bval (l ++ [b]) = 2 * bval l + (if b then 1 else 0).
Proof. unfold bval. by rewrite fold_left_app. Qed.

Lemma bval_bound l : 0 ≤ bval l < 2 ^ Z.of_nat (length l).
Proof.
  induction l as [|b l IH] using rev_ind; [done|].
  rewrite bval_snoc, length_app, Nat2Z.inj_add. simpl (Z.of_nat (length [b])).
  rewrite Z.pow_add_r by lia. change (2 ^ 1) with 2. destruct b; lia.
Qed.

Lemma bits_of_snoc n z : bits_of (S n) z = bits_of n (z / 2) ++ [Z.odd z].
Proof.
  replace (S n) with (n + 1)%nat by lia. rewrite bits_of_app.
  rewrite Z.shiftr_div_pow2 by lia. by destruct z.
Qed.

Lemma bval_bits_of n z : bval (bits_of n z) = z `mod` 2 ^ Z.of_nat n.
Proof.
  revert z. induction n as [|n IH]; intros z; [by rewrite Z.mod_1_r|].
  rewrite bits_of_snoc, bval_snoc, IH, Nat2Z.inj_succ, Z.pow_succ_r by lia.
  rewrite Z.rem_mul_r by (try apply Z.pow_nonzero; lia).
  rewrite Zmod_odd. destruct (Z.odd z); lia.
Qed.

Lemma bits_of_bval l : bits_of (length l) (bval l) = l.
Proof.
  induction l as [|b l IH] using rev_ind; [done|].
  rewrite length_app, bval_snoc. replace (length l + length [b])%nat with (S (length l))
    by (simpl; lia).
  rewrite bits_of_snoc. f_equal.
  - replace ((2 * bval l + (if b then 1 else 0)) / 2) with (bval l); [done|].
    destruct b; Z.to_euclidean_division_equations; lia.
  - rewrite Z.add_comm, Z.odd_add_mul_2. by destruct b.
Qed.

Lemma bval_inj l1 l2 : length l1 = length l2 → bval l1 = bval l2 → l1 = l2.
Proof.
  intros Hl Hv. rewrite <- (bits_of_bval l1), <- (bits_of_bval l2). congruence.
Qed.

Lemma bits_of_ones n : bits_of n (Z.ones (Z.of_nat n)) = replicate n true.
Proof.
  enough (∀ k, Z.of_nat n ≤ k → bits_of n (Z.ones k) = replicate n true) by (apply H; lia).
  induction n as [|n IH]; intros k Hk; [done|]. simpl. f_equal; [|apply IH; lia].
  apply Z.ones_spec_low. lia.
Qed.

Lemma length_bytes_bits l : length (bytes_bits l) = (8 * length l)%nat.
Proof.
  induction l as [|b l IH]; [done|]. change (bytes_bits (b :: l)) with
    (bits_of 8 b ++ bytes_bits l). rewrite length_app, length_bits_of, IH. simpl. lia.
Qed.

(** The bit strings of length [n], as a list (for exhaustive checks). *)
Fixpoint all_bits (n : nat) : list (list bool) :=
  match n with
  | O => [[]]
  | S n' => (cons false <$> all_bits n') ++ (cons true <$> all_bits n')
  end.

Lemma all_bits_complete l : l ∈ all_bits (length l).
Proof.
  induction l as [|b l IH]; simpl; [by apply list_elem_of_singleton|].
  apply elem_of_app. destruct b; [right|left]; apply list_elem_of_fmap; eauto.
Qed.

(** Or of a multiple of [2^n] and a number below [2^n] is their sum. *)
Lemma lor_add a b n :
  0 ≤ n → 0 ≤ b < 2 ^ n → a `mod` 2 ^ n = 0 → Z.lor a b = a + b.
Proof.
  intros Hn Hb Ha. symmetry. apply Z.add_nocarry_lor, Z.bits_inj'. intros i Hi.
  rewrite Z.land_spec, Z.bits_0. destruct (Z.lt_ge_cases i n).
  - rewrite <- (Z.mod_pow2_bits_low a n) by lia. by rewrite Ha, Z.bits_0.
  - rewrite (testbit_above b n) by lia. apply andb_false_r.
Qed.

Lemma land_ones_mod a n : 0 ≤ n → Z.land a (2 ^ n - 1) = a `mod` 2 ^ n.
Proof. intros. rewrite <- Z.land_ones, Z.ones_equiv by done. f_equal. Qed.
