(* ===== verification/Blocks.v ===== *)
(** * Blocks with known contents

    Reading from and writing to a heap block whose first cells hold a known list
    of values, as [(Some <$> l) ++ tl], and the byte order of 16-bit numbers. *)

From stdpp Require Import base list list_numbers numbers option strings.
From Stdlib Require Import ZArith Lia.
From S2P Require Import Prelude Bits.

Open Scope Z_scope.

Lemma load_cells {A} (l : list A) tl i a : l !! i = Some a → load ((Some <$> l) ++ tl) i = Done a.
Proof.
  intros E. unfold load. rewrite lookup_app_l by (rewrite length_fmap; by eapply lookup_lt_Some).
  by rewrite list_lookup_fmap, E.
Qed.

Lemma loadn_slice {A} (l : list A) tl i n :
  (i + n ≤ length l)%nat → loadn ((Some <$> l) ++ tl) i n = Done (take n (drop i l)).
Proof.
  revert i. induction n as [|n IH]; intros i Hi; [done|]. cbn [loadn].
  destruct (lookup_lt_is_Some_2 l i) as [a Ha]; [lia|].
  rewrite (load_cells l tl i a Ha). msimpl. rewrite IH by lia. msimpl.
  by rewrite (drop_S _ _ _ Ha).
Qed.

Lemma store_slice {A} (l : list A) tl i l' :
  (i + length l' ≤ length l)%nat →
  store ((Some <$> l) ++ tl) i l' = Done ((Some <$> (take i l ++ l' ++ drop (i + length l') l)) ++ tl).
Proof.
  intros Hi. unfold store. rewrite decide_True by (rewrite length_app, length_fmap; lia). f_equal.
  rewrite take_app_le, drop_app_le by (rewrite length_fmap; lia).
  by rewrite !fmap_app, fmap_take, fmap_drop, <- !app_assoc.
Qed.

(** Overwriting the middle of a list. *)
Lemma store_mid {A} (pre old post new : list A) tl :
  length old = length new →
  store ((Some <$> (pre ++ old ++ post)) ++ tl) (length pre) new = Done ((Some <$> (pre ++ new ++ post)) ++ tl).
Proof.
  intros Hl. rewrite store_slice by (rewrite !length_app; lia). rewrite take_app_length, <- Hl.
  rewrite drop_app_add, drop_app_length. done.
Qed.

(** The concatenation of the encodings of a list. *)
Lemma join_cons {A B} (f : A → list B) x xs : mjoin (f <$> x :: xs) = f x ++ mjoin (f <$> xs).
Proof. done. Qed.

(** Big-endian numbers. *)
Lemma be16_join a b : 0 ≤ b < 256 → Z.lor (a ≪ 8) b = a * 256 + b.
Proof.
  intros Hb. rewrite Z.shiftl_mul_pow2 by lia. rewrite (lor_add _ _ 8); [done|lia|done|].
  apply Z.mod_mul. lia.
Qed.

Lemma be16_value z : 0 ≤ z < 2 ^ 16 → Z.lor (u8 (z ≫ 8) ≪ 8) (u8 z) = z.
Proof.
  intros Hz. rewrite be16_join by (unfold u8; apply Z.mod_pos_bound; lia).
  unfold u8. rewrite Z.shiftr_div_pow2 by lia. change (2 ^ 8) with 256.
  rewrite (Z.mod_small (z / 256)) by (split; [apply Z.div_pos; lia|apply Z.div_lt_upper_bound; lia]).
  pose proof (Z.div_mod z 256 ltac:(lia)). lia.
Qed.
