(* ===== verification/HpackTables.v ===== *)
(** * HPACK tables (probe-busybox/eperd/http2.c)

    The two constant tables of the HTTP/2 header decompressor, row by row:
    [static_table] (the HPACK static table) and [huffman_encode] (one row per
    byte value: the code word, its length in bits and the byte itself). *)

From S2P Require Import Prelude.
From stdpp Require Import base list strings.

Open Scope Z_scope.

(** [struct table_ent]; [NULL] is [None]. *)
Record table_ent := TE { te_name : option string; te_value : option string }.

(** [struct huffman_encode]. *)
Record huffman_encode_ent := HE { he_encoding : Z; he_bits : Z; he_value : Z }.

Definition HPACK_STATIC_NR : Z := 61.
Definition HPACK_HUFF_ENC_NO : Z := 256.

Definition static_table : list table_ent := [
  (*  0 *) TE (None) (None);
  (*  1 *) TE (Some ":authority") (None);
  (*  2 *) TE (Some ":method") (Some "GET");
  (*  3 *) TE (Some ":method") (Some "POST");
  (*  4 *) TE (Some ":path") (Some "/");
  (*  5 *) TE (Some ":path") (Some "/index.html");
  (*  6 *) TE (Some ":scheme") (Some "http");
  (*  7 *) TE (Some ":scheme") (Some "https");
  (*  8 *) TE (Some ":status") (Some "200");
  (*  9 *) TE (Some ":status") (Some "204");
  (* 10 *) TE (Some ":status") (Some "206");
  (* 11 *) TE (Some ":status") (Some "304");
  (* 12 *) TE (Some ":status") (Some "400");
  (* 13 *) TE (Some ":status") (Some "404");
  (* 14 *) TE (Some ":status") (Some "500");
  (* 15 *) TE (Some "accept-charset") (None);
  (* 16 *) TE (Some "accept-encoding") (Some "gzip, deflate");
  (* 17 *) TE (Some "accept-language") (None);
  (* 18 *) TE (Some "accept-ranges") (None);
  (* 19 *) TE (Some "accept") (None);
  (* 20 *) TE (Some "accept-control-allow-origin") (None);
  (* 21 *) TE (Some "age") (None);
  (* 22 *) TE (Some "allow") (None);
  (* 23 *) TE (Some "authorization") (None);
  (* 24 *) TE (Some "cache-control") (None);
  (* 25 *) TE (Some "content-disposition") (None);
  (* 26 *) TE (Some "content-encoding") (None);
  (* 27 *) TE (Some "content-language") (None);
  (* 28 *) TE (Some "content-length") (None);
  (* 29 *) TE (Some "content-location") (None);
  (* 30 *) TE (Some "content-range") (None);
  (* 31 *) TE (Some "content-type") (None);
  (* 32 *) TE (Some "cookie") (None);
  (* 33 *) TE (Some "date") (None);
  (* 34 *) TE (Some "etag") (None);
  (* 35 *) TE (Some "expect") (None);
  (* 36 *) TE (Some "expires") (None);
  (* 37 *) TE (Some "from") (None);
  (* 38 *) TE (Some "host") (None);
  (* 39 *) TE (Some "if-match") (None);
  (* 40 *) TE (Some "if-modified-since") (None);
  (* 41 *) TE (Some "if-none-match") (None);
  (* 42 *) TE (Some "if-range") (None);
  (* 43 *) TE (Some "if-unmodified-since") (None);
  (* 44 *) TE (Some "last-modified") (None);
  (* 45 *) TE (Some "link") (None);
  (* 46 *) TE (Some "location") (None);
  (* 47 *) TE (Some "max-forwards") (None);
  (* 48 *) TE (Some "proxy-authentication") (None);
  (* 49 *) TE (Some "proxy-authorization") (None);
  (* 50 *) TE (Some "range") (None);
  (* 51 *) TE (Some "referer") (None);
  (* 52 *) TE (Some "refresh") (None);
  (* 53 *) TE (Some "retry-after") (None);
  (* 54 *) TE (Some "server") (None);
  (* 55 *) TE (Some "set-cookie") (None);
  (* 56 *) TE (Some "strict-transport-security") (None);
  (* 57 *) TE (Some "transfer-encoding") (None);
  (* 58 *) TE (Some "user-agent") (None);
  (* 59 *) TE (Some "vary") (None);
  (* 60 *) TE (Some "via") (None);
  (* 61 *) TE (Some "www-authenticate") (None)
]%string.

(** Rows 0 to 127 of [huffman_encode]. *)
Definition huffman_encode_lo : list huffman_encode_ent := [
  HE 0x1ff8 13 0;
  HE 0x7fffd8 23 1;
  HE 0xfffffe2 28 2;
  HE 0xfffffe3 28 3;
  HE 0xfffffe4 28 4;
  HE 0xfffffe5 28 5;
  HE 0xfffffe6 28 6;
  HE 0xfffffe7 28 7;
  HE 0xfffffe8 28 8;
  HE 0xffffea 24 9;
  HE 0x3ffffffc 30 10;
  HE 0xfffffe9 28 11;
  HE 0xfffffea 28 12;
  HE 0x3ffffffd 30 13;
  HE 0xfffffeb 28 14;
  HE 0xfffffec 28 15;
  HE 0xfffffed 28 16;
  HE 0xfffffee 28 17;
  HE 0xfffffef 28 18;
  HE 0xffffff0 28 19;
  HE 0xffffff1 28 20;
  HE 0xffffff2 28 21;
  HE 0x3ffffffe 30 22;
  HE 0xffffff3 28 23;
  HE 0xffffff4 28 24;
  HE 0xffffff5 28 25;
  HE 0xffffff6 28 26;
  HE 0xffffff7 28 27;
  HE 0xffffff8 28 28;
  HE 0xffffff9 28 29;
  HE 0xffffffa 28 30;
  HE 0xffffffb 28 31;
  HE 0x14 6 32;
  HE 0x3f8 10 33;
  HE 0x3f9 10 34;
  HE 0xffa 12 35;
  HE 0x1ff9 13 36;
  HE 0x15 6 37;
  HE 0xf8 8 38;
  HE 0x7fa 11 39;
  HE 0x3fa 10 40;
  HE 0x3fb 10 41;
  HE 0xf9 8 42;
  HE 0x7fb 11 43;
  HE 0xfa 8 44;
  HE 0x16 6 45;
  HE 0x17 6 46;
  HE 0x18 6 47;
  HE 0x0 5 48;
  HE 0x1 5 49;
  HE 0x2 5 50;
  HE 0x19 6 51;
  HE 0x1a 6 52;
  HE 0x1b 6 53;
  HE 0x1c 6 54;
  HE 0x1d 6 55;
  HE 0x1e 6 56;
  HE 0x1f 6 57;
  HE 0x5c 7 58;
  HE 0xfb 8 59;
  HE 0x7ffc 15 60;
  HE 0x20 6 61;
  HE 0xffb 12 62;
  HE 0x3fc 10 63;
  HE 0x1ffa 13 64;
  HE 0x21 6 65;
  HE 0x5d 7 66;
  HE 0x5e 7 67;
  HE 0x5f 7 68;
  HE 0x60 7 69;
  HE 0x61 7 70;
  HE 0x62 7 71;
  HE 0x63 7 72;
  HE 0x64 7 73;
  HE 0x65 7 74;
  HE 0x66 7 75;
  HE 0x67 7 76;
  HE 0x68 7 77;
  HE 0x69 7 78;
  HE 0x6a 7 79;
  HE 0x6b 7 80;
  HE 0x6c 7 81;
  HE 0x6d 7 82;
  HE 0x6e 7 83;
  HE 0x6f 7 84;
  HE 0x70 7 85;
  HE 0x71 7 86;
  HE 0x72 7 87;
  HE 0xfc 8 88;
  HE 0xf3 7 89;
  HE 0xfd 8 90;
  HE 0x1ffb 13 91;
  HE 0x7fff0 19 92;
  HE 0x1ffc 13 93;
  HE 0x3ffc 14 94;
  HE 0x22 6 95;
  HE 0x7ffd 15 96;
  HE 0x3 5 97;
  HE 0x23 6 98;
  HE 0x4 5 99;
  HE 0x24 6 100;
  HE 0x5 5 101;
  HE 0x25 6 102;
  HE 0x26 6 103;
  HE 0x27 6 104;
  HE 0x6 5 105;
  HE 0x74 7 106;
  HE 0x75 7 107;
  HE 0x28 6 108;
  HE 0x29 6 109;
  HE 0x2a 6 110;
  HE 0x7 5 111;
  HE 0x2b 6 112;
  HE 0x76 7 113;
  HE 0x2c 6 114;
  HE 0x8 5 115;
  HE 0x9 5 116;
  HE 0x2d 6 117;
  HE 0x77 7 118;
  HE 0x78 7 119;
  HE 0x79 7 120;
  HE 0x7a 7 121;
  HE 0x7b 7 122;
  HE 0x7ffe 15 123;
  HE 0x7fc 11 124;
  HE 0x3ffd 14 125;
  HE 0x1ffd 13 126;
  HE 0xffffffc 28 127
].

(** Rows 128 to 255 of [huffman_encode]. *)
Definition huffman_encode_hi : list huffman_encode_ent := [
  HE 0xfffe6 20 128;
  HE 0x3fffd2 22 129;
  HE 0xfffe7 20 130;
  HE 0xfffe8 20 131;
  HE 0x3fffd3 22 132;
  HE 0x3fffd4 22 133;
  HE 0x3fffd5 22 134;
  HE 0x7fffd9 23 135;
  HE 0x3fffd6 22 136;
  HE 0x7fffda 23 137;
  HE 0x7fffdb 23 138;
  HE 0x7fffdc 23 139;
  HE 0x7fffdd 23 140;
  HE 0x7fffde 23 141;
  HE 0xffffeb 24 142;
  HE 0x7fffdf 23 143;
  HE 0xffffec 24 144;
  HE 0xffffed 24 145;
  HE 0x3fffd7 22 146;
  HE 0x7fffe0 23 147;
  HE 0xffffee 24 148;
  HE 0x7fffe1 23 149;
  HE 0x7fffe2 23 150;
  HE 0x7fffe3 23 151;
  HE 0x7fffe4 23 152;
  HE 0x1fffdc 21 153;
  HE 0x3fffd8 22 154;
  HE 0x7fffe5 23 155;
  HE 0x3fffd9 22 156;
  HE 0x7fffe6 23 157;
  HE 0x7fffe7 23 158;
  HE 0xffffef 24 159;
  HE 0x3fffda 22 160;
  HE 0x1fffdd 21 161;
  HE 0xfffe9 20 162;
  HE 0x3fffdb 22 163;
  HE 0x3fffdc 22 164;
  HE 0x7fffe8 23 165;
  HE 0x7fffe9 23 166;
  HE 0x1fffde 21 167;
  HE 0x7fffea 23 168;
  HE 0x3fffdd 22 169;
  HE 0x3fffde 22 170;
  HE 0xfffff0 24 171;
  HE 0x1fffdf 21 172;
  HE 0x3fffdf 22 173;
  HE 0x7fffeb 23 174;
  HE 0x7fffec 23 175;
  HE 0x1fffe0 21 176;
  HE 0x1fffe1 21 177;
  HE 0x3fffe0 22 178;
  HE 0x1fffe2 21 179;
  HE 0x7fffed 23 180;
  HE 0x3fffe1 22 181;
  HE 0x7fffee 23 182;
  HE 0x7fffef 23 183;
  HE 0xfffea 20 184;
  HE 0x3fffe2 22 185;
  HE 0x3fffe3 22 186;
  HE 0x3fffe4 22 187;
  HE 0x7ffff0 23 188;
  HE 0x3fffe5 22 189;
  HE 0x3fffe6 22 190;
  HE 0x7ffff1 23 191;
  HE 0x3ffffe0 26 192;
  HE 0x3ffffe1 26 193;
  HE 0xfffeb 20 194;
  HE 0x7fff1 19 195;
  HE 0x3fffe7 22 196;
  HE 0x7ffff2 23 197;
  HE 0x3fffe8 22 198;
  HE 0x1ffffec 25 199;
  HE 0x3ffffe2 26 200;
  HE 0x3ffffe3 26 201;
  HE 0x3ffffe4 26 202;
  HE 0x7ffffde 27 203;
  HE 0x7ffffdf 27 204;
  HE 0x3ffffe5 26 205;
  HE 0xfffff1 24 206;
  HE 0x1ffffed 25 207;
  HE 0x7fff2 19 208;
  HE 0x1fffe3 21 209;
  HE 0x3ffffe6 26 210;
  HE 0x7ffffe0 27 211;
  HE 0x7ffffe1 27 212;
  HE 0x3ffffe7 26 213;
  HE 0x7ffffe2 27 214;
  HE 0xfffff2 24 215;
  HE 0x1fffe4 21 216;
  HE 0x1fffe5 21 217;
  HE 0x3ffffe8 26 218;
  HE 0x3ffffe9 26 219;
  HE 0xffffffd 28 220;
  HE 0x7ffffe3 27 221;
  HE 0x7ffffe4 27 222;
  HE 0x7ffffe5 27 223;
  HE 0xfffec 20 224;
  HE 0xfffff3 24 225;
  HE 0xfffed 20 226;
  HE 0x1fffe6 21 227;
  HE 0x3fffe9 22 228;
  HE 0x1fffe7 21 229;
  HE 0x1fffe8 21 230;
  HE 0x7ffff3 23 231;
  HE 0x3fffea 22 232;
  HE 0x3fffeb 22 233;
  HE 0x1ffffee 25 234;
  HE 0x1ffffef 25 235;
  HE 0xfffff4 24 236;
  HE 0xfffff5 24 237;
  HE 0x3ffffea 26 238;
  HE 0x7ffff4 23 239;
  HE 0x3ffffeb 26 240;
  HE 0x7ffffe6 27 241;
  HE 0x3ffffec 26 242;
  HE 0x3ffffed 26 243;
  HE 0x7ffffe7 27 244;
  HE 0x7ffffe8 27 245;
  HE 0x7ffffe9 27 246;
  HE 0x7ffffea 27 247;
  HE 0x7ffffeb 27 248;
  HE 0xffffffe 28 249;
  HE 0x7ffffec 27 250;
  HE 0x7ffffed 27 251;
  HE 0x7ffffee 27 252;
  HE 0x7ffffef 27 253;
  HE 0x7fffff0 27 254;
  HE 0x3ffffee 26 255
].

Definition huffman_encode : list huffman_encode_ent :=
  huffman_encode_lo ++ huffman_encode_hi.
