(* ===== verification/Http2Env.v ===== *)
(** * HTTP/2 connection state and output (probe-busybox/eperd/http2.c)

    [struct http2_env], its initialisation and release, the frames the client
    writes ([send_*]), and the header block it builds ([add_*]).  A libevent
    [evbuffer] is a queue of bytes; [env->outbuf] is [None] when it is [NULL],
    and writing to it is then undefined behaviour.  Messages to [stderr] are
    not part of the state. *)

From S2P Require Import Prelude.
From stdpp Require Import base list numbers strings.

Open Scope Z_scope.

Definition HTTP2_HDR_TYPE_DATA : Z := 0.
Definition HTTP2_HDR_TYPE_HEADERS : Z := 1.
Definition HTTP2_HDR_TYPE_RST_STREAM : Z := 3.
Definition HTTP2_HDR_TYPE_SETTINGS : Z := 4.
Definition HTTP2_HDR_TYPE_PING : Z := 6.
Definition HTTP2_HDR_TYPE_GOAWAY : Z := 7.
Definition HTTP2_HDR_TYPE_WINDOW_UPDATE : Z := 8.

Definition HTTP2_HDR_DATA_END_STREAM : Z := 0x01.
Definition HTTP2_HDR_DATA_PADDED : Z := 0x08.
Definition HTTP2_HDR_HEADERS_END_STREAM : Z := 0x01.
Definition HTTP2_HDR_HEADERS_END_HEADERS : Z := 0x04.
Definition HTTP2_HDR_HEADERS_PADDED : Z := 0x08.
Definition HTTP2_HDR_HEADERS_PRIORITY : Z := 0x20.
Definition HTTP2_HDR_SETTINGS_ACK : Z := 0x01.
Definition HTTP2_HDR_SETTINGS_ENABLE_PUSH : Z := 0x02.

Definition HTTP2_DEFAULT_WINDOW : Z := 65535.
Definition HTTP2_MAX_WINDOW : Z := 0x7fffffff.

Definition HTTP2_PROTOCOL_ERROR : Z := 0x1.
Definition HTTP2_INTERNAL_ERROR : Z := 0x2.
Definition HTTP2_FLOW_CONTROL_ERROR : Z := 0x3.
Definition HTTP2_FRAME_SIZE_ERROR : Z := 0x6.
Definition HTTP2_COMPRESSION_ERROR : Z := 0x9.

(** [struct dyn]: a dynamic table entry (key and value with their lengths). *)
Record dyn := Dyn { dyn_key : list Z; dyn_value : list Z }.

(** [struct http2_env].  Pointers with their allocated cells are [blk]s;
    [status] is [None] until the first [:status] header (the field is not
    initialised by [http2_init]). *)
Record http2_env := Env {
  http2_send_global_credits : Z;
  http2_send_stream1_credits : Z;
  http2_connection_window : Z;
  http2_stream1_window : Z;
  http2_headers : blk Z;
  http2_headers_max : Z;
  http2_headers_offset : Z;
  http2_dyn : blk dyn;
  http2_dyn_max : Z;
  http2_dyn_idx : Z;
  http2_input : blk Z;
  http2_input_max : Z;
  http2_input_len : Z;
  http2_data : blk Z;
  http2_data_max : Z;
  http2_data_len : Z;
  type_html : bool;
  type_dns : bool;
  done : bool;
  status : option Z;
  outbuf : option (list Z)
}.

Definition set_http2_send_global_credits (v : Z) (e : http2_env) : http2_env :=
  Env v (http2_send_stream1_credits e) (http2_connection_window e)
    (http2_stream1_window e) (http2_headers e) (http2_headers_max e)
    (http2_headers_offset e) (http2_dyn e) (http2_dyn_max e) (http2_dyn_idx
    e) (http2_input e) (http2_input_max e) (http2_input_len e) (http2_data
    e) (http2_data_max e) (http2_data_len e) (type_html e) (type_dns e)
    (done e) (status e) (outbuf e).
Definition set_http2_send_stream1_credits (v : Z) (e : http2_env) : http2_env :=
  Env (http2_send_global_credits e) v (http2_connection_window e)
    (http2_stream1_window e) (http2_headers e) (http2_headers_max e)
    (http2_headers_offset e) (http2_dyn e) (http2_dyn_max e) (http2_dyn_idx
    e) (http2_input e) (http2_input_max e) (http2_input_len e) (http2_data
    e) (http2_data_max e) (http2_data_len e) (type_html e) (type_dns e)
    (done e) (status e) (outbuf e).
Definition set_http2_connection_window (v : Z) (e : http2_env) : http2_env :=
  Env (http2_send_global_credits e) (http2_send_stream1_credits e) v
    (http2_stream1_window e) (http2_headers e) (http2_headers_max e)
    (http2_headers_offset e) (http2_dyn e) (http2_dyn_max e) (http2_dyn_idx
    e) (http2_input e) (http2_input_max e) (http2_input_len e) (http2_data
    e) (http2_data_max e) (http2_data_len e) (type_html e) (type_dns e)
    (done e) (status e) (outbuf e).
Definition set_http2_stream1_window (v : Z) (e : http2_env) : http2_env :=
  Env (http2_send_global_credits e) (http2_send_stream1_credits e)
    (http2_connection_window e) v (http2_headers e) (http2_headers_max e)
    (http2_headers_offset e) (http2_dyn e) (http2_dyn_max e) (http2_dyn_idx
    e) (http2_input e) (http2_input_max e) (http2_input_len e) (http2_data
    e) (http2_data_max e) (http2_data_len e) (type_html e) (type_dns e)
    (done e) (status e) (outbuf e).
Definition set_http2_headers (v : blk Z) (e : http2_env) : http2_env :=
  Env (http2_send_global_credits e) (http2_send_stream1_credits e)
    (http2_connection_window e) (http2_stream1_window e) v
    (http2_headers_max e) (http2_headers_offset e) (http2_dyn e)
    (http2_dyn_max e) (http2_dyn_idx e) (http2_input e) (http2_input_max e)
    (http2_input_len e) (http2_data e) (http2_data_max e) (http2_data_len e)
    (type_html e) (type_dns e) (done e) (status e) (outbuf e).
Definition set_http2_headers_max (v : Z) (e : http2_env) : http2_env :=
  Env (http2_send_global_credits e) (http2_send_stream1_credits e)
    (http2_connection_window e) (http2_stream1_window e) (http2_headers e) v
    (http2_headers_offset e) (http2_dyn e) (http2_dyn_max e) (http2_dyn_idx
    e) (http2_input e) (http2_input_max e) (http2_input_len e) (http2_data
    e) (http2_data_max e) (http2_data_len e) (type_html e) (type_dns e)
    (done e) (status e) (outbuf e).
Definition set_http2_headers_offset (v : Z) (e : http2_env) : http2_env :=
  Env (http2_send_global_credits e) (http2_send_stream1_credits e)
    (http2_connection_window e) (http2_stream1_window e) (http2_headers e)
    (http2_headers_max e) v (http2_dyn e) (http2_dyn_max e) (http2_dyn_idx
    e) (http2_input e) (http2_input_max e) (http2_input_len e) (http2_data
    e) (http2_data_max e) (http2_data_len e) (type_html e) (type_dns e)
    (done e) (status e) (outbuf e).
Definition set_http2_dyn (v : blk dyn) (e : http2_env) : http2_env :=
  Env (http2_send_global_credits e) (http2_send_stream1_credits e)
    (http2_connection_window e) (http2_stream1_window e) (http2_headers e)
    (http2_headers_max e) (http2_headers_offset e) v (http2_dyn_max e)
    (http2_dyn_idx e) (http2_input e) (http2_input_max e) (http2_input_len
    e) (http2_data e) (http2_data_max e) (http2_data_len e) (type_html e)
    (type_dns e) (done e) (status e) (outbuf e).
Definition set_http2_dyn_max (v : Z) (e : http2_env) : http2_env :=
  Env (http2_send_global_credits e) (http2_send_stream1_credits e)
    (http2_connection_window e) (http2_stream1_window e) (http2_headers e)
    (http2_headers_max e) (http2_headers_offset e) (http2_dyn e) v
    (http2_dyn_idx e) (http2_input e) (http2_input_max e) (http2_input_len
    e) (http2_data e) (http2_data_max e) (http2_data_len e) (type_html e)
    (type_dns e) (done e) (status e) (outbuf e).
Definition set_http2_dyn_idx (v : Z) (e : http2_env) : http2_env :=
  Env (http2_send_global_credits e) (http2_send_stream1_credits e)
    (http2_connection_window e) (http2_stream1_window e) (http2_headers e)
    (http2_headers_max e) (http2_headers_offset e) (http2_dyn e)
    (http2_dyn_max e) v (http2_input e) (http2_input_max e) (http2_input_len
    e) (http2_data e) (http2_data_max e) (http2_data_len e) (type_html e)
    (type_dns e) (done e) (status e) (outbuf e).
Definition set_http2_input (v : blk Z) (e : http2_env) : http2_env :=
  Env (http2_send_global_credits e) (http2_send_stream1_credits e)
    (http2_connection_window e) (http2_stream1_window e) (http2_headers e)
    (http2_headers_max e) (http2_headers_offset e) (http2_dyn e)
    (http2_dyn_max e) (http2_dyn_idx e) v (http2_input_max e)
    (http2_input_len e) (http2_data e) (http2_data_max e) (http2_data_len e)
    (type_html e) (type_dns e) (done e) (status e) (outbuf e).
Definition set_http2_input_max (v : Z) (e : http2_env) : http2_env :=
  Env (http2_send_global_credits e) (http2_send_stream1_credits e)
    (http2_connection_window e) (http2_stream1_window e) (http2_headers e)
    (http2_headers_max e) (http2_headers_offset e) (http2_dyn e)
    (http2_dyn_max e) (http2_dyn_idx e) (http2_input e) v (http2_input_len
    e) (http2_data e) (http2_data_max e) (http2_data_len e) (type_html e)
    (type_dns e) (done e) (status e) (outbuf e).
Definition set_http2_input_len (v : Z) (e : http2_env) : http2_env :=
  Env (http2_send_global_credits e) (http2_send_stream1_credits e)
    (http2_connection_window e) (http2_stream1_window e) (http2_headers e)
    (http2_headers_max e) (http2_headers_offset e) (http2_dyn e)
    (http2_dyn_max e) (http2_dyn_idx e) (http2_input e) (http2_input_max e)
    v (http2_data e) (http2_data_max e) (http2_data_len e) (type_html e)
    (type_dns e) (done e) (status e) (outbuf e).
Definition set_http2_data (v : blk Z) (e : http2_env) : http2_env :=
  Env (http2_send_global_credits e) (http2_send_stream1_credits e)
    (http2_connection_window e) (http2_stream1_window e) (http2_headers e)
    (http2_headers_max e) (http2_headers_offset e) (http2_dyn e)
    (http2_dyn_max e) (http2_dyn_idx e) (http2_input e) (http2_input_max e)
    (http2_input_len e) v (http2_data_max e) (http2_data_len e) (type_html
    e) (type_dns e) (done e) (status e) (outbuf e).
Definition set_http2_data_max (v : Z) (e : http2_env) : http2_env :=
  Env (http2_send_global_credits e) (http2_send_stream1_credits e)
    (http2_connection_window e) (http2_stream1_window e) (http2_headers e)
    (http2_headers_max e) (http2_headers_offset e) (http2_dyn e)
    (http2_dyn_max e) (http2_dyn_idx e) (http2_input e) (http2_input_max e)
    (http2_input_len e) (http2_data e) v (http2_data_len e) (type_html e)
    (type_dns e) (done e) (status e) (outbuf e).
Definition set_http2_data_len (v : Z) (e : http2_env) : http2_env :=
  Env (http2_send_global_credits e) (http2_send_stream1_credits e)
    (http2_connection_window e) (http2_stream1_window e) (http2_headers e)
    (http2_headers_max e) (http2_headers_offset e) (http2_dyn e)
    (http2_dyn_max e) (http2_dyn_idx e) (http2_input e) (http2_input_max e)
    (http2_input_len e) (http2_data e) (http2_data_max e) v (type_html e)
    (type_dns e) (done e) (status e) (outbuf e).
Definition set_type_html (v : bool) (e : http2_env) : http2_env :=
  Env (http2_send_global_credits e) (http2_send_stream1_credits e)
    (http2_connection_window e) (http2_stream1_window e) (http2_headers e)
    (http2_headers_max e) (http2_headers_offset e) (http2_dyn e)
    (http2_dyn_max e) (http2_dyn_idx e) (http2_input e) (http2_input_max e)
    (http2_input_len e) (http2_data e) (http2_data_max e) (http2_data_len e)
    v (type_dns e) (done e) (status e) (outbuf e).
Definition set_type_dns (v : bool) (e : http2_env) : http2_env :=
  Env (http2_send_global_credits e) (http2_send_stream1_credits e)
    (http2_connection_window e) (http2_stream1_window e) (http2_headers e)
    (http2_headers_max e) (http2_headers_offset e) (http2_dyn e)
    (http2_dyn_max e) (http2_dyn_idx e) (http2_input e) (http2_input_max e)
    (http2_input_len e) (http2_data e) (http2_data_max e) (http2_data_len e)
    (type_html e) v (done e) (status e) (outbuf e).
Definition set_done (v : bool) (e : http2_env) : http2_env :=
  Env (http2_send_global_credits e) (http2_send_stream1_credits e)
    (http2_connection_window e) (http2_stream1_window e) (http2_headers e)
    (http2_headers_max e) (http2_headers_offset e) (http2_dyn e)
    (http2_dyn_max e) (http2_dyn_idx e) (http2_input e) (http2_input_max e)
    (http2_input_len e) (http2_data e) (http2_data_max e) (http2_data_len e)
    (type_html e) (type_dns e) v (status e) (outbuf e).
Definition set_status (v : option Z) (e : http2_env) : http2_env :=
  Env (http2_send_global_credits e) (http2_send_stream1_credits e)
    (http2_connection_window e) (http2_stream1_window e) (http2_headers e)
    (http2_headers_max e) (http2_headers_offset e) (http2_dyn e)
    (http2_dyn_max e) (http2_dyn_idx e) (http2_input e) (http2_input_max e)
    (http2_input_len e) (http2_data e) (http2_data_max e) (http2_data_len e)
    (type_html e) (type_dns e) (done e) v (outbuf e).
Definition set_outbuf (v : option (list Z)) (e : http2_env) : http2_env :=
  Env (http2_send_global_credits e) (http2_send_stream1_credits e)
    (http2_connection_window e) (http2_stream1_window e) (http2_headers e)
    (http2_headers_max e) (http2_headers_offset e) (http2_dyn e)
    (http2_dyn_max e) (http2_dyn_idx e) (http2_input e) (http2_input_max e)
    (http2_input_len e) (http2_data e) (http2_data_max e) (http2_data_len e)
    (type_html e) (type_dns e) (done e) (status e) v.

(** The state monad of the connection. *)
Abbreviation H := (M http2_env).

(** ** libevent buffers *)

(** [struct evbuffer *]: [None] is [NULL]. *)
Definition evbuffer : Type := option (list Z).

Definition evbuffer_add (b : evbuffer) (l : list Z) : outcome evbuffer :=
  match b with
  | Some q => Done (Some (q ++ l))
  | None => Crash Undefined
  end.

(** ** Life cycle *)

Definition http2_init : http2_env :=
  {| http2_send_global_credits := 0; http2_send_stream1_credits := 0;
     http2_connection_window := HTTP2_DEFAULT_WINDOW;
     http2_stream1_window := HTTP2_DEFAULT_WINDOW;
     http2_headers := []; http2_headers_max := 0; http2_headers_offset := 0;
     http2_dyn := []; http2_dyn_max := 0; http2_dyn_idx := 0;
     http2_input := []; http2_input_max := 0; http2_input_len := 0;
     http2_data := []; http2_data_max := 0; http2_data_len := 0;
     type_html := false; type_dns := false; done := false;
     status := None; outbuf := None |}.

(** [http2_free] walks the first [http2_dyn_idx] dynamic entries to free their
    strings; every one of them has to be an initialised cell. *)
Definition http2_free (e : http2_env) : outcome unit :=
  _ ← loadn (http2_dyn e) 0 (Z.to_nat (http2_dyn_idx e)); Done tt.

(** ** Frames the client writes *)

(** [struct http2_hdr] filled in for a frame: 24-bit length, type, flags and
    31-bit stream identifier, in network byte order. *)
Definition http2_hdr_bytes (length type flags stream_id : Z) : list Z :=
  [Z.land (length ≫ 16) 0xff; Z.land (length ≫ 8) 0xff; Z.land length 0xff;
   type; flags;
   Z.land (stream_id ≫ 24) 0x7f; Z.land (stream_id ≫ 16) 0xff;
   Z.land (stream_id ≫ 8) 0xff; Z.land stream_id 0xff].

Definition send_settings2 (outbuf : evbuffer) : outcome evbuffer :=
  let length := 2 + 4 in
  b ← evbuffer_add outbuf (http2_hdr_bytes length HTTP2_HDR_TYPE_SETTINGS 0 0);
  b ← evbuffer_add b (be16 HTTP2_HDR_SETTINGS_ENABLE_PUSH);
  evbuffer_add b (be32 0).

(** [send_headers2] writes the collected header block and releases it. *)
Definition send_headers2 (outbuf : evbuffer) (stream_id : Z) : H evbuffer :=
  e ← get;
  let length := http2_headers_offset e in
  b ← lift (evbuffer_add outbuf
        (http2_hdr_bytes length HTTP2_HDR_TYPE_HEADERS
           HTTP2_HDR_HEADERS_END_HEADERS stream_id));
  block ← lift (loadn (http2_headers e) 0 (Z.to_nat length));
  b ← lift (evbuffer_add b block);
  modify (set_http2_headers []);;
  modify (set_http2_headers_max 0);;
  modify (set_http2_headers_offset 0);;
  mret b.

Definition send_data2 (outbuf : evbuffer) (data : list Z) (stream_id : Z)
    : outcome evbuffer :=
  let length := zlen data in
  b ← evbuffer_add outbuf
        (http2_hdr_bytes length HTTP2_HDR_TYPE_DATA
           HTTP2_HDR_DATA_END_STREAM stream_id);
  evbuffer_add b data.

Definition send_goaway2 (outbuf : evbuffer) (error_code last_stream_id : Z)
    (reason : option string) : outcome evbuffer :=
  let data := be32 last_stream_id ++ be32 error_code in
  let text := default [] (bytes_of_string <$> reason) in
  let length := zlen data + zlen text in
  b ← evbuffer_add outbuf (http2_hdr_bytes length HTTP2_HDR_TYPE_GOAWAY 0 0);
  b ← evbuffer_add b data;
  match reason with
  | Some _ => evbuffer_add b text
  | None => Done b
  end.

(** [send_goaway2(env->outbuf, code, 0, reason)], the way every receiver
    reports an error. *)
Definition goaway (error_code : Z) (reason : string) : H unit :=
  e ← get;
  b ← lift (send_goaway2 (outbuf e) error_code 0 (Some reason));
  modify (set_outbuf b).

(** ** The header block the client builds *)

Definition HPACK_LHFNI : Z := 0x10.

Definition add_byte2 (byte : Z) : H unit :=
  e ← get;
  (if http2_headers_max e <? http2_headers_offset e + 1 then
     let newsize := http2_headers_offset e + 64 in
     modify (set_http2_headers (realloc (http2_headers e) (Z.to_nat newsize)));;
     modify (set_http2_headers_max newsize)
   else mret tt);;
  e ← get;
  b ← lift (store (http2_headers e) (Z.to_nat (http2_headers_offset e)) [u8 byte]);
  modify (set_http2_headers b);;
  modify (set_http2_headers_offset (http2_headers_offset e + 1)).

(** The [while (value > 0x7f)] loop of [add_length2].  Each round divides
    [value] by 128, so five rounds are enough for a [uint32_t]. *)
Fixpoint add_length2_loop (fuel : nat) (value : Z) : H unit :=
  match fuel with
  | O => mcrash OutOfFuel
  | S fuel' =>
      if 0x7f <? value then
        add_byte2 (Z.lor 0x80 (Z.land value 0x7f));;
        add_length2_loop fuel' (value ≫ 7)
      else add_byte2 value
  end.

Definition add_length2 (prefix_len prefix_value value : Z) : H unit :=
  massert (prefix_len <? 8);;
  let first_bits := 8 - prefix_len in
  let first_max := (1 ≪ first_bits) - 1 in
  if value <? first_max then add_byte2 (Z.lor prefix_value value)
  else
    add_byte2 (Z.lor prefix_value first_max);;
    add_length2_loop 6 (u32 (value - first_max)).

Definition add_str2 (str : list Z) : H unit :=
  e ← get;
  let len := zlen str in
  (if http2_headers_max e <? http2_headers_offset e + len then
     let newsize := http2_headers_offset e + len + 64 in
     modify (set_http2_headers (realloc (http2_headers e) (Z.to_nat newsize)));;
     modify (set_http2_headers_max newsize)
   else mret tt);;
  e ← get;
  b ← lift (store (http2_headers e) (Z.to_nat (http2_headers_offset e)) str);
  modify (set_http2_headers b);;
  modify (set_http2_headers_offset (http2_headers_offset e + len)).

(** A literal header field that is never indexed, without compression.
    [name] and [value] are the bytes of NUL-terminated strings. *)
Definition add_header2 (name value : list Z) : H unit :=
  add_byte2 HPACK_LHFNI;;
  add_length2 1 0x00 (u32 (zlen name));;
  add_str2 name;;
  add_length2 1 0x00 (u32 (zlen value));;
  add_str2 value.

Definition http2_preface : list Z :=
  bytes_of_string "PRI * HTTP/2.0" ++ [13; 10; 13; 10] ++
  bytes_of_string "SM" ++ [13; 10; 13; 10].

Definition send_request2 (outbuf : evbuffer) (hostname_port path data : list Z)
    : H evbuffer :=
  b ← lift (evbuffer_add outbuf http2_preface);
  b ← lift (send_settings2 b);
  let str := take 19 (print_dec (zlen data)) in
  add_header2 (bytes_of_string ":method") (bytes_of_string "POST");;
  add_header2 (bytes_of_string ":scheme") (bytes_of_string "https");;
  add_header2 (bytes_of_string ":authority") hostname_port;;
  add_header2 (bytes_of_string ":path") path;;
  add_header2 (bytes_of_string "user-agent") (bytes_of_string "RIPE Atlas");;
  add_header2 (bytes_of_string "accept") (bytes_of_string "application/dns-message");;
  add_header2 (bytes_of_string "content-type") (bytes_of_string "application/dns-message");;
  add_header2 (bytes_of_string "content-length") str;;
  b ← send_headers2 b 1;
  lift (send_data2 b data 1).

(** ** Facts *)

(** The bytes of a GOAWAY frame with last stream 0. *)
Definition goaway_frame (error_code : Z) (reason : string) : list Z :=
  http2_hdr_bytes (8 + zlen (bytes_of_string reason)) HTTP2_HDR_TYPE_GOAWAY 0 0 ++
  be32 0 ++ be32 error_code ++ bytes_of_string reason.

Lemma goaway_some error_code reason e q :
  outbuf e = Some q →
  goaway error_code reason e =
    Done (tt, set_outbuf (Some (q ++ goaway_frame error_code reason)) e).
Proof.
  intros Eq. unfold goaway, send_goaway2, goaway_frame.
  rewrite (M_bind_done get _ _ e e) by done. rewrite Eq.
  erewrite (M_bind_done (lift _)); [|reflexivity].
  unfold modify. by rewrite <- !app_assoc.
Qed.

Lemma goaway_none error_code reason e :
  outbuf e = None → goaway error_code reason e = Crash Undefined.
Proof.
  intros Eq. unfold goaway, send_goaway2. rewrite (M_bind_done get _ _ e e) by done.
  by rewrite Eq.
Qed.
