(* ===== verification/Http2Send.v ===== *)
(** * What the HTTP/2 client sends

    The header block that [add_header2] and its helpers build in a growing heap
    buffer is the HPACK representation of the header list, and the request
    [send_request2] writes is the connection preface followed by well-formed
    SETTINGS, HEADERS and DATA frames. *)

From S2P Require Import Prelude.
From S2P Require Import Bits.
From S2P Require Import Http2Env.
From stdpp Require Import base list numbers strings.
From Stdlib Require Import ZArith Lia.

Open Scope Z_scope.

(** ** Specification: HPACK integers and literals as byte strings *)

(** The continuation bytes of an integer: base 128, least significant digit
    first, all but the last with the high bit set. *)
Fixpoint int_tail (fuel : nat) (value : Z) : list Z :=
  match fuel with
  | O => []
  | S fuel' => if value <? 128 then [value]
               else (128 + value `mod` 128) :: int_tail fuel' (value / 128)
  end.

(** An integer behind a prefix of [prefix_len] bits with the value [prefix_value]. *)
Definition int_bytes (prefix_len prefix_value value : Z) : list Z :=
  let first_max := 2 ^ (8 - prefix_len) - 1 in
  if value <? first_max then [prefix_value + value]
  else (prefix_value + first_max) :: int_tail 6 (value - first_max).

(** A string literal that is not Huffman coded. *)
Definition str_bytes (s : list Z) : list Z := int_bytes 1 0 (zlen s) ++ s.

(** A literal header field that is never indexed, with a new name. *)
Definition header_bytes (name value : list Z) : list Z :=
  HPACK_LHFNI :: str_bytes name ++ str_bytes value.

(** A frame: the nine bytes of its header and the payload. *)
Definition frame (type flags stream_id : Z) (payload : list Z) : list Z :=
  http2_hdr_bytes (zlen payload) type flags stream_id ++ payload.

(** ** The header buffer *)

(** [hdr_ok e l]: the header buffer of [e] holds the bytes [l]; the recorded
    size is the size of the allocation. *)
Record hdr_ok (e : http2_env) (l : list Z) : Prop := {
  hdr_cells : take (length l) (http2_headers e) = Some <$> l;
  hdr_offset : http2_headers_offset e = zlen l;
  hdr_max : http2_headers_max e = zlen (http2_headers e);
  hdr_fits : zlen l ≤ zlen (http2_headers e)
}.

(** The rest of the connection state. *)
Definition no_hdr (e : http2_env) : http2_env :=
  set_http2_headers [] (set_http2_headers_max 0 (set_http2_headers_offset 0 e)).

Lemma hdr_ok_empty e :
  http2_headers e = [] → http2_headers_max e = 0 → http2_headers_offset e = 0 → hdr_ok e [].
Proof. intros E1 E2 E3. split; rewrite ?E1, ?E2, ?E3; done. Qed.

Lemma take_realloc {A} (b : blk A) n m :
  (m ≤ length b)%nat → (m ≤ n)%nat → take m (realloc b n) = take m b.
Proof.
  intros. unfold realloc.
  rewrite take_app_le by (rewrite length_take; lia). rewrite take_take. f_equal. lia.
Qed.

Lemma length_realloc {A} (b : blk A) n : length (realloc b n) = n.
Proof. unfold realloc. rewrite length_app, length_take, length_replicate. lia. Qed.

Lemma store_ok {A} (b : blk A) off l :
  (off + length l ≤ length b)%nat →
  ∃ b', store b off l = Done b' ∧ length b' = length b ∧
        take (off + length l) b' = take off b ++ (Some <$> l).
Proof.
  intros Hl. unfold store. rewrite decide_True by done. eexists; split; [done|].
  rewrite !length_app, length_take, length_fmap, length_drop. split; [lia|].
  rewrite app_assoc, take_app_le.
  - apply take_ge. rewrite length_app, length_take, length_fmap. lia.
  - rewrite length_app, length_take, length_fmap. lia.
Qed.

(** Appending to the header buffer, growing it when needed: the common part of
    [add_byte2] and [add_str2]. *)
Lemma hdr_append e l s newsize :
  hdr_ok e l → zlen l + zlen s ≤ newsize →
  ∃ e', (e ← get;
         (if http2_headers_max e <? http2_headers_offset e + zlen s then
            modify (set_http2_headers (realloc (http2_headers e) (Z.to_nat newsize)));;
            modify (set_http2_headers_max newsize)
          else mret tt);;
         e ← get;
         b ← lift (store (http2_headers e) (Z.to_nat (http2_headers_offset e)) s);
         modify (set_http2_headers b);;
         modify (set_http2_headers_offset (http2_headers_offset e + zlen s))) e
        = Done (tt, e') ∧ hdr_ok e' (l ++ s) ∧ no_hdr e' = no_hdr e.
Proof.
  intros [Hc Ho Hm Hf] Hn. msimpl. rewrite Ho, Hm.
  pose proof (zlen_nonneg l). pose proof (zlen_nonneg s).
  assert (Hgo : ∀ b, take (length l) b = Some <$> l → zlen l + zlen s ≤ zlen b →
    ∃ b', store b (Z.to_nat (zlen l)) s = Done b' ∧ length b' = length b ∧
          take (length (l ++ s)) b' = Some <$> (l ++ s)).
  { intros b Hb Hz. unfold zlen in *. rewrite Nat2Z.id.
    destruct (store_ok b (length l) s) as (b' & E & Hl & Ht); [lia|].
    exists b'. by rewrite length_app, Ht, Hb, fmap_app. }
  destruct (Z.ltb_spec (zlen (http2_headers e)) (zlen l + zlen s)); msimpl; simpl; rewrite Ho.
  - destruct (Hgo (realloc (http2_headers e) (Z.to_nat newsize))) as (b' & E & Hl & Ht).
    { rewrite take_realloc; [done|unfold zlen in *; lia..]. }
    { unfold zlen at 3. rewrite length_realloc. lia. }
    rewrite E. msimpl. eexists; split; [reflexivity|]. split; [|done].
    split; simpl; rewrite ?zlen_app; [done|done| |].
    + unfold zlen. rewrite Hl, length_realloc. lia.
    + unfold zlen in *. rewrite Hl, length_realloc. lia.
  - destruct (Hgo (http2_headers e)) as (b' & E & Hl & Ht); [done|lia|].
    rewrite E. msimpl. eexists; split; [reflexivity|]. split; [|done].
    split; simpl; rewrite ?zlen_app; [done|done| |].
    + unfold zlen in *. by rewrite Hl.
    + unfold zlen in *. rewrite Hl. lia.
Qed.

Lemma add_byte2_ok e l byte :
  hdr_ok e l → ∃ e', add_byte2 byte e = Done (tt, e') ∧ hdr_ok e' (l ++ [u8 byte]) ∧
                     no_hdr e' = no_hdr e.
Proof.
  intros Hok. destruct (hdr_append e l [u8 byte] (zlen l + 64) Hok) as (e' & E & H' & Hn).
  { unfold zlen; simpl; lia. }
  exists e'. split; [|done]. rewrite <- E. unfold add_byte2. msimpl.
  by rewrite (hdr_offset e l Hok).
Qed.

Lemma add_str2_ok e l str :
  hdr_ok e l → ∃ e', add_str2 str e = Done (tt, e') ∧ hdr_ok e' (l ++ str) ∧
                     no_hdr e' = no_hdr e.
Proof.
  intros Hok. destruct (hdr_append e l str (zlen l + zlen str + 64) Hok) as (e' & E & H' & Hn).
  { lia. }
  exists e'. split; [|done]. rewrite <- E. unfold add_str2. msimpl.
  by rewrite (hdr_offset e l Hok).
Qed.

Lemma u8_small z : 0 ≤ z < 256 → u8 z = z.
Proof. intros. unfold u8. by apply Z.mod_small. Qed.
Lemma u32_small z : 0 ≤ z < 2 ^ 32 → u32 z = z.
Proof. intros. unfold u32. by apply Z.mod_small. Qed.

Lemma add_length2_loop_ok fuel e l value :
  hdr_ok e l → 0 ≤ value < 128 ^ Z.of_nat fuel → (0 < fuel)%nat →
  ∃ e', add_length2_loop fuel value e = Done (tt, e') ∧
        hdr_ok e' (l ++ int_tail fuel value) ∧ no_hdr e' = no_hdr e.
Proof.
  revert e l value. induction fuel as [|fuel IH]; intros e l value Hok Hv Hf; [lia|].
  rewrite Nat2Z.inj_succ, Z.pow_succ_r in Hv by lia.
  simpl. destruct (Z.ltb_spec 0x7f value), (Z.ltb_spec value 128); try lia.
  - destruct (add_byte2_ok e l (Z.lor 0x80 (Z.land value 0x7f)) Hok) as (e1 & E1 & Hok1 & Hn1).
    rewrite (M_bind_done _ _ _ _ _ E1).
    change 0x7f with (2 ^ 7 - 1) in Hok1. rewrite land_ones_mod in Hok1 by lia.
    pose proof (Z.mod_pos_bound value (2 ^ 7) ltac:(lia)).
    change (2 ^ 7) with 128 in *.
    rewrite (lor_add 0x80 _ 7), u8_small in Hok1 by (reflexivity || simpl; lia).
    destruct (IH e1 _ (value ≫ 7) Hok1) as (e2 & E2 & Hok2 & Hn2).
    { rewrite Z.shiftr_div_pow2 by lia. change (2 ^ 7) with 128.
      split; [apply Z.div_pos; lia|apply Z.div_lt_upper_bound; lia]. }
    { destruct fuel; [simpl in Hv|]; lia. }
    exists e2. rewrite E2, <- app_assoc in *. split; [done|].
    rewrite Z.shiftr_div_pow2 in Hok2 by lia. split; [exact Hok2|congruence].
  - destruct (add_byte2_ok e l value Hok) as (e1 & E1 & Hok1 & Hn1).
    rewrite u8_small in Hok1 by lia. eauto.
Qed.

Lemma add_length2_ok e l prefix_len prefix_value value :
  hdr_ok e l → 0 ≤ prefix_len < 8 → 0 ≤ prefix_value < 256 →
  prefix_value `mod` 2 ^ (8 - prefix_len) = 0 → is_u32 value →
  ∃ e', add_length2 prefix_len prefix_value value e = Done (tt, e') ∧
        hdr_ok e' (l ++ int_bytes prefix_len prefix_value value) ∧ no_hdr e' = no_hdr e.
Proof.
  intros Hok Hp Hpv Hmod Hv. unfold is_u32 in Hv. unfold add_length2, int_bytes.
  replace (prefix_len <? 8) with true by lia. msimpl.
  rewrite Z.shiftl_1_l. set (m := 2 ^ (8 - prefix_len)) in *.
  assert (2 ≤ m ≤ 256) as Hm.
  { unfold m. split; [apply (Z.pow_le_mono_r 2 1)|apply (Z.pow_le_mono_r 2 _ 8)]; lia. }
  assert (prefix_value + m ≤ 256) as Hsum.
  { assert (256 = 2 ^ prefix_len * m) as E.
    { unfold m. rewrite <- Z.pow_add_r by lia. change 256 with (2 ^ 8). f_equal. lia. }
    apply Z.div_exact in Hmod; [|lia].
    assert (prefix_value / m < 2 ^ prefix_len) by (apply Z.div_lt_upper_bound; lia). nia. }
  destruct (Z.ltb_spec value (m - 1)).
  - destruct (add_byte2_ok e l (Z.lor prefix_value value) Hok) as (e1 & E1 & Hok1 & Hn1).
    rewrite (lor_add _ _ (8 - prefix_len)), u8_small in Hok1 by (fold m; lia). eauto.
  - destruct (add_byte2_ok e l (Z.lor prefix_value (m - 1)) Hok) as (e1 & E1 & Hok1 & Hn1).
    rewrite (lor_add _ _ (8 - prefix_len)), u8_small in Hok1 by (fold m; lia).
    rewrite (M_bind_done _ _ _ _ _ E1). rewrite u32_small by lia.
    destruct (add_length2_loop_ok 6 e1 _ (value - (m - 1)) Hok1) as (e2 & E2 & Hok2 & Hn2).
    { change (128 ^ Z.of_nat 6) with (2 ^ 42). lia. }
    { lia. }
    exists e2. rewrite <- app_assoc in Hok2. split; [done|]. split; [exact Hok2|congruence].
Qed.

Lemma add_header2_ok e l name value :
  hdr_ok e l → zlen name < 2 ^ 32 → zlen value < 2 ^ 32 →
  ∃ e', add_header2 name value e = Done (tt, e') ∧
        hdr_ok e' (l ++ header_bytes name value) ∧ no_hdr e' = no_hdr e.
Proof.
  intros Hok Hname Hvalue. pose proof (zlen_nonneg name). pose proof (zlen_nonneg value).
  unfold add_header2, header_bytes, str_bytes. rewrite !u32_small by lia.
  destruct (add_byte2_ok e l HPACK_LHFNI Hok) as (e1 & E1 & Hok1 & Hn1).
  destruct (add_length2_ok e1 _ 1 0 (zlen name) Hok1) as (e2 & E2 & Hok2 & Hn2);
    try done; try lia.
  destruct (add_str2_ok e2 _ name Hok2) as (e3 & E3 & Hok3 & Hn3).
  destruct (add_length2_ok e3 _ 1 0 (zlen value) Hok3) as (e4 & E4 & Hok4 & Hn4);
    try done; try lia.
  destruct (add_str2_ok e4 _ value Hok4) as (e5 & E5 & Hok5 & Hn5).
  mrun E1. mrun E2. mrun E3. mrun E4. exists e5. split; [done|]. split; [|congruence].
  rewrite <- !app_assoc in Hok5. rewrite <- app_assoc. exact Hok5.
Qed.

(** The header list of a request. *)
Definition request_headers (hostname_port path : list Z) (datalen : Z) : list (list Z * list Z) :=
  [(bytes_of_string ":method", bytes_of_string "POST");
   (bytes_of_string ":scheme", bytes_of_string "https");
   (bytes_of_string ":authority", hostname_port);
   (bytes_of_string ":path", path);
   (bytes_of_string "user-agent", bytes_of_string "RIPE Atlas");
   (bytes_of_string "accept", bytes_of_string "application/dns-message");
   (bytes_of_string "content-type", bytes_of_string "application/dns-message");
   (bytes_of_string "content-length", take 19 (print_dec datalen))].

Definition header_block (hs : list (list Z * list Z)) : list Z :=
  mjoin ((λ h, header_bytes h.1 h.2) <$> hs).

(** The SETTINGS frame of the client: ENABLE_PUSH is 0. *)
Definition settings_frame : list Z := frame HTTP2_HDR_TYPE_SETTINGS 0 0 (be16 2 ++ be32 0).

Lemma loadn_app {A} (b : blk A) off l :
  take (length l) (drop off b) = Some <$> l → loadn b off (length l) = Done l.
Proof.
  revert off. induction l as [|a l IH]; intros off E; [done|]. simpl.
  destruct (drop off b) as [|x b'] eqn:Ed; [done|]. simpl in E. injection E as -> E.
  assert (b !! off = Some (Some a)) as El.
  { rewrite <- (Nat.add_0_r off), <- lookup_drop, Ed. done. }
  unfold load. rewrite El. msimpl. rewrite (IH (S off)); [done|].
  replace (S off) with (off + 1)%nat by lia. rewrite <- drop_drop, Ed. exact E.
Qed.

Lemma send_headers2_ok e l q stream_id :
  hdr_ok e l →
  ∃ e', send_headers2 (Some q) stream_id e =
          Done (Some (q ++ frame HTTP2_HDR_TYPE_HEADERS HTTP2_HDR_HEADERS_END_HEADERS
                             stream_id l), e') ∧
        hdr_ok e' [] ∧ no_hdr e' = no_hdr e.
Proof.
  intros Hok. unfold send_headers2. msimpl. rewrite (hdr_offset e l Hok).
  simpl evbuffer_add. msimpl. unfold zlen at 2. rewrite Nat2Z.id.
  rewrite (loadn_app (http2_headers e) 0 l) by (rewrite drop_0; apply Hok). msimpl.
  simpl evbuffer_add. msimpl. eexists. unfold frame. rewrite <- app_assoc.
  split; [reflexivity|]. split; [by apply hdr_ok_empty|done].
Qed.

Lemma send_settings2_some q : send_settings2 (Some q) = Done (Some (q ++ settings_frame)).
Proof. unfold send_settings2. simpl evbuffer_add. msimpl. simpl. by rewrite <- !app_assoc. Qed.

Lemma add_header2_then e l name value {A} (k : H A) :
  hdr_ok e l → zlen name < 2 ^ 32 → zlen value < 2 ^ 32 →
  ∃ e', (add_header2 name value;; k) e = k e' ∧
        hdr_ok e' (l ++ header_bytes name value) ∧ no_hdr e' = no_hdr e.
Proof.
  intros Hok Hname Hvalue.
  destruct (add_header2_ok e l name value Hok Hname Hvalue) as (e' & E & Hok' & Hn).
  exists e'. split; [by mrun E|done].
Qed.

(** Run the next [add_header2] of a request. *)
Ltac header_step Hok :=
  let e' := fresh "e" in let E := fresh "E" in let Hn := fresh "Hn" in
  match goal with
  | |- context [(add_header2 ?n ?v ≫= (λ _, ?k)) ?e] =>
      destruct (add_header2_then e _ n v k Hok) as (e' & E & Hok' & Hn);
      [first [done | vm_compute; reflexivity] ..|];
      rewrite E; clear E Hok; rename Hok' into Hok
  end.

Lemma length_print_dec_take z : zlen (take 19 (print_dec z)) < 2 ^ 32.
Proof. unfold zlen. rewrite length_take. lia. Qed.

(** ** Theorems *)

(** The integers [add_length2] writes are the HPACK representation: for every
    prefix length below 8, prefix value and 32-bit number, exactly the bytes of
    [int_bytes] are appended to the header buffer, whatever its size, and
    nothing else changes. *)
Theorem add_length2_appends e l prefix_len prefix_value value :
  hdr_ok e l → 0 ≤ prefix_len < 8 → 0 ≤ prefix_value < 256 →
  prefix_value `mod` 2 ^ (8 - prefix_len) = 0 → is_u32 value →
  ∃ e', add_length2 prefix_len prefix_value value e = Done (tt, e') ∧
        hdr_ok e' (l ++ int_bytes prefix_len prefix_value value) ∧ no_hdr e' = no_hdr e.
Proof. apply add_length2_ok. Qed.

Lemma add_length2_appends_witness :
  ∃ e', add_length2 1 0 1337 http2_init = Done (tt, e') ∧
        hdr_ok e' ([] ++ int_bytes 1 0 1337) ∧ no_hdr e' = no_hdr http2_init.
Proof.
  apply (add_length2_appends http2_init [] 1 0 1337);
    [apply hdr_ok_empty; reflexivity | lia | lia | reflexivity | unfold is_u32; lia].
Defined.

(** C36: a request is the HTTP/2 connection preface, a SETTINGS frame that turns
    push off, one HEADERS frame (END_HEADERS, stream 1) with the eight request
    headers, and one DATA frame (END_STREAM, stream 1) with the query; the
    header buffer is released and the rest of the connection is unchanged. *)
Theorem send_request2_bytes q hostname_port path data e :
  hdr_ok e [] → zlen hostname_port < 2 ^ 32 → zlen path < 2 ^ 32 →
  ∃ e', send_request2 (Some q) hostname_port path data e =
    Done (Some (q ++ http2_preface ++ settings_frame ++
                frame HTTP2_HDR_TYPE_HEADERS HTTP2_HDR_HEADERS_END_HEADERS 1
                  (header_block (request_headers hostname_port path (zlen data))) ++
                frame HTTP2_HDR_TYPE_DATA HTTP2_HDR_DATA_END_STREAM 1 data), e') ∧
    hdr_ok e' [] ∧ no_hdr e' = no_hdr e.
Proof.
  intros Hok Hhost Hpath. pose proof (length_print_dec_take (zlen data)).
  unfold send_request2. simpl evbuffer_add. msimpl. rewrite send_settings2_some. msimpl.
  do 8 header_step Hok.
  match type of Hok with hdr_ok _ ?l =>
    replace l with (header_block (request_headers hostname_port path (zlen data))) in Hok end.
  2: { unfold header_block, request_headers. cbn [fmap list_fmap mjoin list_join fst snd].
       by rewrite <- !app_assoc, app_nil_r. }
  edestruct send_headers2_ok as (e9 & E9 & Hok9 & Hn9); [exact Hok|].
  mrun E9. unfold send_data2. simpl evbuffer_add. msimpl. simpl evbuffer_add. msimpl.
  exists e9. split; [|split; [done|congruence]].
  unfold frame. by rewrite <- !app_assoc.
Qed.

Lemma send_request2_bytes_witness :
  ∃ e', send_request2 (Some []) (bytes_of_string "dns.example") (bytes_of_string "/dns-query")
          [0; 42] http2_init =
    Done (Some ([] ++ http2_preface ++ settings_frame ++
                frame HTTP2_HDR_TYPE_HEADERS HTTP2_HDR_HEADERS_END_HEADERS 1
                  (header_block (request_headers (bytes_of_string "dns.example")
                     (bytes_of_string "/dns-query") (zlen [0; 42]))) ++
                frame HTTP2_HDR_TYPE_DATA HTTP2_HDR_DATA_END_STREAM 1 [0; 42]), e') ∧
    hdr_ok e' [] ∧ no_hdr e' = no_hdr http2_init.
Proof.
  apply (send_request2_bytes [] (bytes_of_string "dns.example") (bytes_of_string "/dns-query"));
    [apply hdr_ok_empty; reflexivity | vm_compute; reflexivity | vm_compute; reflexivity].
Defined.
