(* ===== verification/Huffman.v ===== *)
(** * HPACK Huffman coding (probe-busybox/eperd/http2.c)

    [init_huffman] builds the eight decoding tables from [huffman_encode];
    [Xdecode_huffman2] decodes a Huffman coded string with them.  This file has
    the definitions; HuffmanProofs.v has the theorems. *)

From S2P Require Import Prelude.
From S2P Require Import HpackTables.
From S2P Require Import Http2Env.
From stdpp Require Import base list numbers strings.

Open Scope Z_scope.

(** ** Building the tables: [init_huffman] *)

(** [struct huffman_decode]; the tables are static, hence zero at start. *)
Record huffman_decode := HD { hd_bits : Z; hd_value : Z }.
Definition hd_table : Type := list huffman_decode.
Definition hd_empty (n : nat) : hd_table := replicate n (HD 0 0).

(** Array accesses of the table: out of range is undefined behaviour. *)
Definition tbl_get (t : hd_table) (i : Z) : outcome huffman_decode :=
  match t !! Z.to_nat i with
  | Some e => if 0 <=? i then Done e else Crash Undefined
  | None => Crash Undefined
  end.
Definition tbl_set (t : hd_table) (i : Z) (e : huffman_decode) : outcome hd_table :=
  _ ← tbl_get t i; Done (<[Z.to_nat i := e]> t).

(** The branch [len >= 8]: the index is a prefix of the code word, shared by
    all code words that start with it.  [chk] is the index whose entry the
    "existing entry" check reads. *)
Definition put_long (lim : Z) (t : hd_table) (byte chk len value : Z) : outcome hd_table :=
  e ← tbl_get t byte;
  if hd_bits e =? 0 then tbl_set t byte (HD (u8 len) value)
  else
    c ← tbl_get t chk;
    if (hd_bits c <=? lim) || (len <=? lim) then Crash Fatal else Done t.

(** The loop [for (j= 0; j<= mask; j++)]: every index that starts with the code
    word gets the entry; an occupied one is fatal. *)
Fixpoint put_short (n : nat) (t : hd_table) (byte len value : Z) : outcome hd_table :=
  match n with
  | O => Done t
  | S n' =>
      e ← tbl_get t byte;
      if negb (hd_bits e =? 0) then Crash Fatal
      else t' ← tbl_set t byte (HD (u8 len) value); put_short n' t' (byte + 1) len value
  end.

(** [byte= encoding << (8-len); mask= (1 << (8-len))-1; for (..)]; a negative
    shift count is undefined. *)
Definition put_padded (width : Z) (t : hd_table) (idx len value : Z) : outcome hd_table :=
  if width - len <? 0 then Crash Undefined
  else
    let mask := u8 ((1 ≪ (width - len)) - 1) in
    put_short (S (Z.to_nat mask)) t idx len value.

(** The first loop: [huffman_decode0], indexed by the first byte.  The state
    carries the C variable [byte] with the table. *)
Definition fill_decode0_row (s : hd_table * Z) (r : huffman_encode_ent)
    : outcome (hd_table * Z) :=
  let '(t, byte) := s in
  let len := he_bits r in
  if 8 <=? len then
    let byte := u8 (he_encoding r ≫ (len - 8)) in
    t ← put_long 8 t byte byte len (he_value r); Done (t, byte)
  else
    let byte := u8 (he_encoding r ≪ (8 - len)) in
    t ← put_padded 8 t byte len (he_value r); Done (t, byte).

(** How a loop treats code words that do not end within the next byte. *)
Inductive long_rule :=
| LongAssert    (** [assert(len < 8)] *)
| LongShared    (** entries shared by longer codes, as in [huffman_decode0] *)
| LongNone.     (** no special case *)

(** The loops for the tables behind a prefix of [plen] bits. *)
Definition fill_prefixed_row (rule : long_rule) (plen prefix : Z)
    (s : hd_table * Z) (r : huffman_encode_ent) : outcome (hd_table * Z) :=
  let '(t, byte) := s in
  let len := he_bits r in
  if len <=? plen then Done s
  else if negb (Z.land (he_encoding r ≫ (len - plen)) ((1 ≪ plen) - 1) =? prefix)
  then Done s
  else
    let len := len - plen in
    _ ← oassert (match rule with LongAssert => len <? 8 | _ => true end);
    match rule with
    | LongShared =>
        if 8 <=? len then
          let byte := u8 (he_encoding r ≫ (len - 8)) in
          t ← put_long 8 t byte byte len (he_value r); Done (t, byte)
        else
          let byte := u8 (he_encoding r ≪ (8 - len)) in
          t ← put_padded 8 t byte len (he_value r); Done (t, byte)
    | _ =>
        let byte := u8 (he_encoding r ≪ (8 - len)) in
        t ← put_padded 8 t byte len (he_value r); Done (t, byte)
    end.

(** The loop for [huffman_decode_fffffe], indexed by a nibble.  The check of an
    existing entry reads [huffman_decode_fffffe[byte]] with the value [byte]
    has from the loops before. *)
Definition fill_fffffe_row (byte : Z) (t : hd_table) (r : huffman_encode_ent)
    : outcome hd_table :=
  let len := he_bits r in
  if len <=? 24 then Done t
  else if negb (Z.land (he_encoding r ≫ (len - 24)) 0xffffff =? 0xfffffe) then Done t
  else
    let len := len - 24 in
    if 4 <=? len then
      let nibble := Z.land (he_encoding r ≫ (len - 4)) 0xf in
      put_long 4 t nibble byte len (he_value r)
    else
      let nibble := Z.land (he_encoding r ≪ (4 - len)) 0xf in
      put_padded 4 t nibble len (he_value r).

(** "Check that all entries have been filled-in". *)
Definition all_filled (t : hd_table) : bool := forallb (λ e, 0 <? hd_bits e) t.

Definition fatal_unless (b : bool) : outcome unit := if b then Done tt else Crash Fatal.

Fixpoint values_match (i : Z) (l : list huffman_encode_ent) : bool :=
  match l with
  | [] => true
  | r :: l' => (he_value r =? i) && values_match (i + 1) l'
  end.

(** "Check consistency of huffman_encode". *)
Definition check_huffman_encode : outcome unit :=
  _ ← oassert (zlen huffman_encode =? HPACK_HUFF_ENC_NO);
  fatal_unless (values_match 0 huffman_encode).

Definition fill_decode0 (byte : Z) : outcome (hd_table * Z) :=
  s ← foldM fill_decode0_row huffman_encode (hd_empty 256, byte);
  _ ← oassert (all_filled s.1); Done s.

Definition fill_prefixed (rule : long_rule) (plen prefix byte : Z)
    : outcome (hd_table * Z) :=
  foldM (fill_prefixed_row rule plen prefix) huffman_encode (hd_empty 256, byte).

Definition fill_decode_fe (byte : Z) : outcome (hd_table * Z) :=
  s ← fill_prefixed LongAssert 8 0xfe byte; _ ← fatal_unless (all_filled s.1); Done s.
Definition fill_decode_ff (byte : Z) : outcome (hd_table * Z) :=
  s ← fill_prefixed LongShared 8 0xff byte; _ ← fatal_unless (all_filled s.1); Done s.
Definition fill_decode_fffe (byte : Z) : outcome (hd_table * Z) :=
  s ← fill_prefixed LongNone 16 0xfffe byte; _ ← fatal_unless (all_filled s.1); Done s.
Definition fill_decode_ffff (byte : Z) : outcome (hd_table * Z) :=
  s ← fill_prefixed LongShared 16 0xffff byte; _ ← fatal_unless (all_filled s.1); Done s.
Definition fill_decode_fffff (byte : Z) : outcome (hd_table * Z) :=
  s ← fill_prefixed LongShared 20 0xfffff byte; _ ← fatal_unless (all_filled s.1); Done s.
Definition fill_decode_fffffe (byte : Z) : outcome hd_table :=
  t ← foldM (fill_fffffe_row byte) huffman_encode (hd_empty 16);
  _ ← fatal_unless (all_filled t); Done t.

(** The last table; its four unused entries 252 to 255 are claimed with the
    value 42 before the check. *)
Definition fill_decode_ffffff (byte : Z) : outcome (hd_table * Z) :=
  s ← fill_prefixed LongNone 24 0xffffff byte;
  t ← foldM (λ t j, tbl_set t j (HD 42 42)) [252; 253; 254; 255] s.1;
  _ ← fatal_unless (all_filled t); Done (t, s.2).

(** The static tables of http2.c. *)
Record huffman_tables := HT {
  huffman_decode0 : hd_table;
  huffman_decode_fe : hd_table;
  huffman_decode_ff : hd_table;
  huffman_decode_fffe : hd_table;
  huffman_decode_ffff : hd_table;
  huffman_decode_fffff : hd_table;
  huffman_decode_fffffe : hd_table;
  huffman_decode_ffffff : hd_table
}.

(** [init_huffman]. *)
Definition init_huffman : outcome huffman_tables :=
  _ ← check_huffman_encode;
  '(t0, byte) ← fill_decode0 0;
  '(tfe, byte) ← fill_decode_fe byte;
  '(tff, byte) ← fill_decode_ff byte;
  '(tfffe, byte) ← fill_decode_fffe byte;
  '(tffff, byte) ← fill_decode_ffff byte;
  '(tfffff, byte) ← fill_decode_fffff byte;
  tfffffe ← fill_decode_fffffe byte;
  '(tffffff, byte) ← fill_decode_ffffff byte;
  Done (HT t0 tfe tff tfffe tffff tfffff tfffffe tffffff).

(** ** Decoding: [Xdecode_huffman2] *)

(** The locals of the loop: input offset [o], output so far ([o_out] is its
    length), the bit accumulator [bits] and the number [bitslen] of its low
    bits that are still to be decoded. *)
Record hstate := HS { h_o : Z; h_out : list Z; h_bits : Z; h_bitslen : Z }.

(** How an iteration ends: [continue], [return 0] after an error was sent, or
    [break] at the end of the string. *)
Inductive hres := HCont (st : hstate) | HFail | HEnd (st : hstate).

(** [if (bitslen < n && o < len) { bits= (bits << 8) | buf[o]; bitslen += 8; o++; }] *)
Definition refill (n : Z) (buf : blk Z) (len : Z) (st : hstate) : H hstate :=
  if (h_bitslen st <? n) && (h_o st <? len) then
    b ← lift (load buf (Z.to_nat (h_o st)));
    mret (HS (h_o st + 1) (h_out st) (Z.lor (u32 (h_bits st ≪ 8)) b) (h_bitslen st + 8))
  else mret st.

(** The next eight bits, padded with zeros at the end of the input. *)
Definition peek8 (st : hstate) : Z :=
  if h_bitslen st <? 8 then u8 (h_bits st ≪ (8 - h_bitslen st))
  else Z.land (h_bits st ≫ (h_bitslen st - 8)) 0xff.

(** The next four bits; the padded form is not masked to four bits. *)
Definition peek4 (st : hstate) : Z :=
  if h_bitslen st <? 4 then u8 (h_bits st ≪ (4 - h_bitslen st))
  else Z.land (h_bits st ≫ (h_bitslen st - 4)) 0xf.

(** [bitslen -= n]. *)
Definition consume (n : Z) (st : hstate) : hstate :=
  HS (h_o st) (h_out st) (h_bits st) (h_bitslen st - n).

(** Output [decval] when all [declen] bits of the symbol are there, otherwise
    report [msg]. *)
Definition emit (outbuflen : Z) (st : hstate) (d : huffman_decode) (msg : string) : H hres :=
  if hd_bits d <=? h_bitslen st then
    if outbuflen <=? zlen (h_out st) then
      goaway HTTP2_COMPRESSION_ERROR "no space in output buffer";; mret HFail
    else
      mret (HCont (HS (h_o st) (h_out st ++ [hd_value d]) (h_bits st)
                      (h_bitslen st - hd_bits d)))
  else goaway HTTP2_COMPRESSION_ERROR msg;; mret HFail.

Section Decode.
Context (T : huffman_tables) (buf : blk Z) (len outbuflen : Z).

(** Second byte after FE. *)
Definition huff_fe (st : hstate) : H hres :=
  st ← refill 8 buf len st;
  d ← lift (tbl_get (huffman_decode_fe T) (peek8 st));
  massert (hd_bits d <=? 8);;
  emit outbuflen st d "not enough bits".

(** First byte, not FF: a symbol of at most eight bits, or the end of the
    string, where the remaining bits have to be ones. *)
Definition huff_0 (st : hstate) (byte : Z) : H hres :=
  d ← lift (tbl_get (huffman_decode0 T) byte);
  if hd_bits d <=? h_bitslen st then
    massert (hd_bits d <=? 8);;
    emit outbuflen st d ""
  else
    massert (h_bitslen st <? 8);;
    massert (h_o st =? len);;
    let mask := u8 ((1 ≪ h_bitslen st) - 1) in
    if Z.land (h_bits st) mask =? mask then mret (HEnd st)
    else goaway HTTP2_COMPRESSION_ERROR "garbage at end of string";; mret HFail.

(** Third byte after FFFE. *)
Definition huff_fffe (st : hstate) : H hres :=
  st ← refill 8 buf len st;
  d ← lift (tbl_get (huffman_decode_fffe T) (peek8 st));
  massert (hd_bits d <=? 8);;
  emit outbuflen st d "not enough bits".

(** High nibble of the fourth byte after FFFFFE. *)
Definition huff_fffffe (st : hstate) : H hres :=
  st ← refill 4 buf len st;
  d ← lift (tbl_get (huffman_decode_fffffe T) (peek4 st));
  massert (hd_bits d <=? 4);;
  emit outbuflen st d "not enough bits".

(** Low nibble of the third and high nibble of the fourth byte after FFFFF. *)
Definition huff_fffff (st : hstate) : H hres :=
  st ← refill 8 buf len st;
  d ← lift (tbl_get (huffman_decode_fffff T) (peek8 st));
  massert (hd_bits d <=? 8);;
  emit outbuflen st d "not enough bits".

(** Fourth byte after FFFFFF. *)
Definition huff_ffffff (st : hstate) : H hres :=
  st ← refill 8 buf len st;
  let byte := peek8 st in
  if negb (byte =? 0xff) then
    d ← lift (tbl_get (huffman_decode_ffffff T) byte);
    massert (hd_bits d <=? 8);;
    emit outbuflen st d "garbage at end of string"
  else goaway HTTP2_COMPRESSION_ERROR "should decode ff";; mret HFail.

(** Third byte after FFFF. *)
Definition huff_ffff (st : hstate) : H hres :=
  st ← refill 8 buf len st;
  let byte := peek8 st in
  if (8 <=? h_bitslen st) && (byte =? 0xfe) then huff_fffffe (consume 8 st)
  else if (8 <=? h_bitslen st) && (Z.land byte 0xf0 =? 0xf0) && negb (byte =? 0xff) then
    huff_fffff (consume 4 st)
  else if negb (byte =? 0xff) then
    d ← lift (tbl_get (huffman_decode_ffff T) byte);
    massert (hd_bits d <=? 8);;
    emit outbuflen st d "garbage at end of string"
  else
    massert (8 <=? h_bitslen st);;
    huff_ffffff (consume 8 st).

(** Second byte after FF. *)
Definition huff_ff (st : hstate) : H hres :=
  st ← refill 8 buf len st;
  let byte := peek8 st in
  if (8 <=? h_bitslen st) && (byte =? 0xfe) then huff_fffe (consume 8 st)
  else if negb (byte =? 0xff) then
    d ← lift (tbl_get (huffman_decode_ff T) byte);
    massert (hd_bits d <=? 8);;
    emit outbuflen st d "garbage at end of string"
  else
    massert (8 <=? h_bitslen st);;
    huff_ffff (consume 8 st).

(** One iteration of the [for(;;)] loop. *)
Definition huff_step (st : hstate) : H hres :=
  st ← refill 8 buf len st;
  let byte := peek8 st in
  if (8 <=? h_bitslen st) && (byte =? 0xfe) then huff_fe (consume 8 st)
  else if negb (byte =? 0xff) then huff_0 st byte
  else
    massert (8 <=? h_bitslen st);;
    huff_ff (consume 8 st).

Fixpoint huff_loop (fuel : nat) (st : hstate) : H (list Z) :=
  match fuel with
  | O => mcrash OutOfFuel
  | S fuel' =>
      r ← huff_step st;
      match r with
      | HCont st' => huff_loop fuel' st'
      | HFail => mret []
      | HEnd st' => mret (h_out st')
      end
  end.

(** [Xdecode_huffman2]: the bytes written to [outbuf]; the C function returns
    their number, and 0 (here the empty list) after an error.  Every iteration
    that continues consumes at least one bit. *)
Definition Xdecode_huffman2 : H (list Z) :=
  huff_loop (S (8 * Z.to_nat len)) (HS 0 [] 0 0).

End Decode.
