(* ===== verification/HuffmanProofs.v ===== *)
(** * Correctness of the HPACK Huffman decoder

    The decoder of http2.c works on a 32-bit accumulator that is refilled byte
    by byte and looks symbols up in eight tables.  Here it is related to a
    decoder on bit strings ([astep]), and through it to the code itself: a
    Huffman coded string is the concatenation of the code words of its bytes,
    padded with at most seven one bits. *)

From S2P Require Import Prelude.
From S2P Require Import Bits.
From S2P Require Import HpackTables.
From S2P Require Import Http2Env.
From S2P Require Import Huffman.
From stdpp Require Import base list numbers strings.
From Stdlib Require Import ZArith Lia.

Open Scope Z_scope.

(** ** The specification: code words *)

(** The code word of a byte value: the [bits] low bits of [encoding]. *)
Definition code (c : Z) : list bool :=
  match huffman_encode !! Z.to_nat c with
  | Some r => bits_of (Z.to_nat (he_bits r)) (he_encoding r)
  | None => []
  end.

Definition huff_code (s : list Z) : list bool := mjoin (code <$> s).

(** [bs] is the Huffman coding of [s]: the code words followed by fewer than
    eight one bits up to the byte boundary. *)
Definition huff_encodes (s bs : list Z) : Prop :=
  ∃ p, (p < 8)%nat ∧ bytes_bits bs = huff_code s ++ replicate p true.

(** ** The decoder on bit strings *)

(** The next [n] bits of a bit string, padded with zeros. *)
Definition pk (n : nat) (q : list bool) : Z := bval (take n (q ++ replicate n false)).

Inductive ares := ASym (c : Z) (rest : list bool) | AEnd | AErr.

Definition asym (q : list bool) (d : huffman_decode) : ares :=
  if hd_bits d <=? zlen q then ASym (hd_value d) (drop (Z.to_nat (hd_bits d)) q) else AErr.

Definition atab (t : hd_table) (q : list bool) : outcome ares :=
  d ← tbl_get t (pk 8 q); _ ← oassert (hd_bits d <=? 8); Done (asym q d).

Section Abstract.
Context (T : huffman_tables).

Definition a_0 (q : list bool) : outcome ares :=
  d ← tbl_get (huffman_decode0 T) (pk 8 q);
  if hd_bits d <=? zlen q then _ ← oassert (hd_bits d <=? 8); Done (asym q d)
  else _ ← oassert (zlen q <? 8);
       Done (if decide (q = replicate (length q) true) then AEnd else AErr).

Definition a_fffffe (q : list bool) : outcome ares :=
  if zlen q <? 4 then Crash Undefined
  else d ← tbl_get (huffman_decode_fffffe T) (pk 4 q);
       _ ← oassert (hd_bits d <=? 4); Done (asym q d).

Definition a_ffffff (q : list bool) : outcome ares :=
  if negb (pk 8 q =? 0xff) then atab (huffman_decode_ffffff T) q else Done AErr.

Definition a_ffff (q : list bool) : outcome ares :=
  if (8 <=? zlen q) && (pk 8 q =? 0xfe) then a_fffffe (drop 8 q)
  else if (8 <=? zlen q) && (Z.land (pk 8 q) 0xf0 =? 0xf0) && negb (pk 8 q =? 0xff) then
    atab (huffman_decode_fffff T) (drop 4 q)
  else if negb (pk 8 q =? 0xff) then atab (huffman_decode_ffff T) q
  else _ ← oassert (8 <=? zlen q); a_ffffff (drop 8 q).

Definition a_ff (q : list bool) : outcome ares :=
  if (8 <=? zlen q) && (pk 8 q =? 0xfe) then atab (huffman_decode_fffe T) (drop 8 q)
  else if negb (pk 8 q =? 0xff) then atab (huffman_decode_ff T) q
  else _ ← oassert (8 <=? zlen q); a_ffff (drop 8 q).

Definition astep (q : list bool) : outcome ares :=
  if (8 <=? zlen q) && (pk 8 q =? 0xfe) then atab (huffman_decode_fe T) (drop 8 q)
  else if negb (pk 8 q =? 0xff) then a_0 q
  else _ ← oassert (8 <=? zlen q); a_ff (drop 8 q).

End Abstract.

(** What the proofs need to know of the tables: every entry is filled in, and
    the first table has a symbol of at most eight bits except at FE and FF. *)
Record tables_ok (T : huffman_tables) : Prop := {
  ok_filled : forallb all_filled
                [huffman_decode0 T; huffman_decode_fe T; huffman_decode_ff T;
                 huffman_decode_fffe T; huffman_decode_ffff T; huffman_decode_fffff T;
                 huffman_decode_fffffe T; huffman_decode_ffffff T] = true;
  ok_short : ∀ i d, tbl_get (huffman_decode0 T) i = Done d →
               i ≠ 0xfe → i ≠ 0xff → hd_bits d ≤ 8;
  ok_nibbles : length (huffman_decode_fffffe T) = 16%nat
}.

Lemma tbl_get_filled t i d : all_filled t = true → tbl_get t i = Done d → 0 < hd_bits d.
Proof.
  unfold all_filled, tbl_get. intros Hf Hd.
  destruct (t !! Z.to_nat i) as [e|] eqn:E; [|done].
  destruct (0 <=? i); [|done]. injection Hd as ->.
  rewrite forallb_forall in Hf. specialize (Hf d).
  apply list_elem_of_lookup_2, list_elem_of_In, Hf in E. lia.
Qed.

Lemma tbl_get_oob (t : hd_table) i : Z.of_nat (length t) ≤ i → tbl_get t i = Crash Undefined.
Proof.
  intros Hi. unfold tbl_get. destruct (t !! Z.to_nat i) as [d|] eqn:E; [|done].
  apply lookup_lt_Some in E. lia.
Qed.

(** ** Simulation: the accumulator implements the bit string *)

Section Simulation.
Context (T : huffman_tables) (HT : tables_ok T).
Context (bs : list Z) (Hbs : Forall is_byte bs) (tl : blk Z) (outbuflen : Z).

(** The input, and whatever the buffer holds behind it. *)
Abbreviation buf := ((Some <$> bs) ++ tl).
Abbreviation len := (zlen bs).

(** The bits still to be decoded: the low [bitslen] bits of the accumulator and
    the bytes not read yet. *)
Definition queue (st : hstate) : list bool :=
  bits_of (Z.to_nat (h_bitslen st)) (h_bits st) ++ bytes_bits (drop (Z.to_nat (h_o st)) bs).

Definition wf_st (st : hstate) : Prop :=
  0 ≤ h_bitslen st ≤ 15 ∧ 0 ≤ h_o st ≤ len ∧ 0 ≤ h_bits st < 2 ^ 32.

(** At least [n] bits in the accumulator unless the input is used up. *)
Definition filled (n : Z) (st : hstate) : Prop := n ≤ h_bitslen st ∨ h_o st = len.

Lemma refill_spec n st (e : http2_env) :
  wf_st st → 0 < n ≤ 8 →
  ∃ st', refill n buf len st e = Done (st', e) ∧ wf_st st' ∧ queue st' = queue st ∧
         h_out st' = h_out st ∧ filled n st' ∧ h_bitslen st ≤ h_bitslen st' ∧
         (h_bitslen st' < n → st' = st).
Proof.
  intros (Hl & Ho & Hb) Hn. unfold refill.
  destruct (Z.ltb_spec (h_bitslen st) n), (Z.ltb_spec (h_o st) len); simpl;
    try by (exists st; unfold wf_st, filled; repeat split; auto; lia).
  assert (∃ b, bs !! Z.to_nat (h_o st) = Some b) as [b Eb].
  { apply lookup_lt_is_Some_2. unfold zlen in *. lia. }
  pose proof (Forall_lookup_1 _ _ _ _ Hbs Eb) as Hbb. unfold is_byte in Hbb.
  assert (load buf (Z.to_nat (h_o st)) = Done b) as El.
  { unfold load. rewrite lookup_app_l by (rewrite length_fmap; apply lookup_lt_Some in Eb; done).
    by rewrite list_lookup_fmap, Eb. }
  rewrite (M_bind_done _ _ _ _ _ (lift_done _ _ _ El)).
  eexists; split; [reflexivity|]. unfold wf_st, filled, queue; simpl.
  repeat split; try lia; [apply Z.lor_nonneg; unfold u32; split; [apply Z.mod_pos_bound|]; lia | | ].
  - apply Z.log2_lt_cancel. rewrite Z.log2_pow2 by lia.
    rewrite Z.log2_lor; [|apply Z.mod_pos_bound; lia|lia].
    apply Z.max_lub_lt.
    + destruct (decide (u32 (h_bits st ≪ 8) = 0)) as [->|]; [done|].
      pose proof (Z.mod_pos_bound (h_bits st ≪ 8) (2 ^ 32)).
      apply Z.log2_lt_pow2; unfold u32 in *; lia.
    + destruct (decide (b = 0)) as [->|]; [done|].
      apply Z.log2_lt_pow2; [lia|]. lia.
  - replace (Z.to_nat (h_bitslen st + 8)) with (Z.to_nat (h_bitslen st) + 8)%nat by lia.
    replace (Z.to_nat (h_o st + 1)) with (S (Z.to_nat (h_o st))) by lia.
    rewrite (drop_S bs b (Z.to_nat (h_o st))) by done.
    change (bytes_bits (b :: ?l)) with (bits_of 8 b ++ bytes_bits l).
    rewrite app_assoc. f_equal.
    rewrite <- (bits_of_lor_shiftl (Z.to_nat (h_bitslen st)) 8 (h_bits st) b) by (simpl; lia).
    apply bits_of_ext. intros i Hi. rewrite !Z.lor_spec. unfold u32.
    rewrite Z.mod_pow2_bits_low by lia. done.
Qed.

Lemma queue_empty_input st :
  h_o st = len → queue st = bits_of (Z.to_nat (h_bitslen st)) (h_bits st).
Proof.
  intros Ho. unfold queue. rewrite Ho. unfold zlen. rewrite Nat2Z.id, drop_all.
  apply app_nil_r.
Qed.

Lemma zlen_queue_ge st : wf_st st → h_bitslen st ≤ zlen (queue st).
Proof.
  intros (? & ? & ?). unfold queue. rewrite zlen_app. unfold zlen at 1.
  rewrite length_bits_of. pose proof (zlen_nonneg (bytes_bits (drop (Z.to_nat (h_o st)) bs))).
  lia.
Qed.

(** A bound of at most [n] bits can be tested on the accumulator. *)
Lemma leb_queue n k st :
  wf_st st → filled n st → k ≤ n → (k <=? zlen (queue st)) = (k <=? h_bitslen st).
Proof.
  intros Hwf [Hf|Hf] Hk; pose proof (zlen_queue_ge st Hwf).
  - lia.
  - rewrite queue_empty_input by done. unfold zlen. rewrite length_bits_of.
    rewrite Z2Nat.id by apply Hwf. done.
Qed.

Lemma peek_high n st :
  wf_st st → Z.of_nat n ≤ h_bitslen st →
  pk n (queue st) = (h_bits st ≫ (h_bitslen st - Z.of_nat n)) `mod` 2 ^ Z.of_nat n.
Proof.
  intros (? & ? & ?) Hn. unfold pk, queue.
  replace (Z.to_nat (h_bitslen st)) with (n + Z.to_nat (h_bitslen st - Z.of_nat n))%nat by lia.
  rewrite <- app_assoc, take_app_le by (rewrite length_bits_of; lia).
  rewrite take_bits_of, bval_bits_of. do 2 f_equal. lia.
Qed.

Lemma peek_low n st :
  wf_st st → h_bitslen st < Z.of_nat n → h_o st = len →
  pk n (queue st) = (h_bits st ≪ (Z.of_nat n - h_bitslen st)) `mod` 2 ^ Z.of_nat n.
Proof.
  intros (? & ? & ?) Hn Ho. unfold pk. rewrite queue_empty_input by done.
  pose proof (bits_of_shiftl (Z.to_nat (h_bitslen st)) (n - Z.to_nat (h_bitslen st)) (h_bits st)) as E.
  rewrite take_app_ge, length_bits_of, take_replicate by (rewrite length_bits_of; lia).
  rewrite Nat.min_l by lia. rewrite <- E.
  replace (Z.to_nat (h_bitslen st) + (n - Z.to_nat (h_bitslen st)))%nat with n by lia.
  rewrite bval_bits_of. do 2 f_equal. lia.
Qed.

Lemma peek8_spec st : wf_st st → filled 8 st → peek8 st = pk 8 (queue st).
Proof.
  intros Hwf Hf. unfold peek8. destruct (Z.ltb_spec (h_bitslen st) 8).
  - rewrite (peek_low 8) by (done || destruct Hf; lia). done.
  - rewrite (peek_high 8) by (done || lia).
    change 0xff with (Z.ones 8). by rewrite Z.land_ones.
Qed.

Lemma peek4_spec st : wf_st st → 4 ≤ h_bitslen st → peek4 st = pk 4 (queue st).
Proof.
  intros Hwf Hf. unfold peek4. destruct (Z.ltb_spec (h_bitslen st) 4); [lia|].
  rewrite (peek_high 4) by (done || lia).
  change 0xf with (Z.ones 4). by rewrite Z.land_ones.
Qed.

(** With fewer than four bits left after FE, the unmasked padding of [peek4]
    leaves bits of the FE in the index. *)
Lemma peek4_stale st :
  peek8 st = 0xfe → 8 ≤ h_bitslen st < 12 → 16 ≤ peek4 (consume 8 st).
Proof.
  intros Hp Hl. unfold peek8 in Hp. destruct (Z.ltb_spec (h_bitslen st) 8); [lia|].
  unfold peek4; simpl. destruct (Z.ltb_spec (h_bitslen st - 8) 4); [|lia].
  assert (Z.testbit (u8 (h_bits st ≪ (4 - (h_bitslen st - 8)))) 7 = true) as Hbit.
  { unfold u8. rewrite Z.mod_pow2_bits_low, Z.shiftl_spec by lia.
    assert (Z.testbit (Z.land (h_bits st ≫ (h_bitslen st - 8)) 0xff) 3 = true) as Hfe
      by by rewrite Hp.
    rewrite Z.land_spec, Z.shiftr_spec in Hfe by lia.
    apply andb_true_iff in Hfe as [Hfe _]. rewrite <- Hfe. f_equal. lia. }
  pose proof (Z.mod_pos_bound (h_bits st ≪ (4 - (h_bitslen st - 8))) (2 ^ 8)) as Hr.
  destruct (Z.le_gt_cases 16 (u8 (h_bits st ≪ (4 - (h_bitslen st - 8))))); [done|].
  rewrite (testbit_above _ 4 7) in Hbit; [done|unfold u8 in *; lia|lia].
Qed.

Lemma wf_consume k st : wf_st st → 0 ≤ k ≤ h_bitslen st → wf_st (consume k st).
Proof. unfold wf_st; simpl; lia. Qed.

Lemma queue_consume k st :
  wf_st st → 0 ≤ k ≤ h_bitslen st → queue (consume k st) = drop (Z.to_nat k) (queue st).
Proof.
  intros (? & ? & ?) Hk. unfold queue; simpl.
  rewrite drop_app_le by (rewrite length_bits_of; lia). f_equal.
  replace (Z.to_nat (h_bitslen st)) with (Z.to_nat k + Z.to_nat (h_bitslen st - k))%nat by lia.
  by rewrite drop_bits_of.
Qed.

(** One iteration against one step on bit strings. *)
Definition sim (out : list Z) (e : http2_env) (r : outcome (hres * http2_env))
    (a : outcome ares) : Prop :=
  match a with
  | Crash c => r = Crash c
  | Done AEnd => ∃ st', r = Done (HEnd st', e) ∧ h_out st' = out
  | Done AErr => ∃ e', r = Done (HFail, e')
  | Done (ASym c rest) =>
      (zlen out < outbuflen →
         ∃ st', r = Done (HCont st', e) ∧ wf_st st' ∧ queue st' = rest ∧
                h_out st' = out ++ [c]) ∧
      (outbuflen ≤ zlen out → ∃ e', r = Done (HFail, e'))
  end.

Context (e : http2_env) (Hout : is_Some (outbuf e)).

Lemma goaway_fails reason code :
  ∃ e', (goaway code reason;; mret HFail) e = Done (HFail, e').
Proof.
  destruct Hout as [q Hq]. eexists.
  by rewrite (M_bind_done _ _ _ _ _ (goaway_some code reason e q Hq)).
Qed.

Lemma emit_sim n st d msg :
  wf_st st → filled n st → 0 < hd_bits d ≤ n →
  sim (h_out st) e (emit outbuflen st d msg e) (Done (asym (queue st) d)).
Proof.
  intros Hwf Hf Hd. unfold sim, asym, emit. rewrite (leb_queue n) by (done || lia).
  destruct (Z.leb_spec (hd_bits d) (h_bitslen st)); [|apply goaway_fails].
  split; intros Hlen.
  - destruct (Z.leb_spec outbuflen (zlen (h_out st))); [lia|].
    eexists; split; [reflexivity|]. repeat split; try (destruct Hwf; simpl in *; lia).
    exact (queue_consume (hd_bits d) st Hwf ltac:(lia)).
  - destruct (Z.leb_spec outbuflen (zlen (h_out st))); [apply goaway_fails|lia].
Qed.

(** A table indexed with the next eight bits. *)
Lemma table_sim t msg st :
  all_filled t = true → wf_st st → filled 8 st →
  sim (h_out st) e
    ((d ← lift (tbl_get t (peek8 st)); massert (hd_bits d <=? 8);;
      emit outbuflen st d msg) e)
    (atab t (queue st)).
Proof.
  intros Ht Hwf Hf. unfold atab. rewrite peek8_spec by done.
  destruct (tbl_get t (pk 8 (queue st))) as [d|c] eqn:Ed; [|exact eq_refl].
  pose proof (tbl_get_filled _ _ _ Ht Ed). msimpl.
  destruct (Z.leb_spec (hd_bits d) 8); msimpl; [|done].
  apply (emit_sim 8); (done || lia).
Qed.

Ltac table_of HT :=
  eapply (proj1 (forallb_forall _ _) (ok_filled _ HT)); repeat first [left; reflexivity | right].

(** Run the refill at the head of a stage. *)
Ltac do_refill n st Hwf :=
  let st' := fresh "st" in
  let E := fresh "E" in let Hq := fresh "Hq" in let Ho := fresh "Ho" in
  let Hf := fresh "Hf" in let Hwf' := fresh "Hwf" in let Hle := fresh "Hle" in let Hsame := fresh "Hsame" in
  destruct (refill_spec n st e Hwf ltac:(lia)) as (st' & E & Hwf' & Hq & Ho & Hf & Hle & Hsame);
  rewrite (M_bind_done _ _ _ _ _ E); rewrite <- Hq, <- Ho; clear E Hq Ho.

Lemma stage_sim t msg st :
  all_filled t = true → wf_st st →
  sim (h_out st) e
    ((st ← refill 8 buf len st; d ← lift (tbl_get t (peek8 st));
      massert (hd_bits d <=? 8);; emit outbuflen st d msg) e)
    (atab t (queue st)).
Proof. intros Ht Hwf. do_refill 8 st Hwf. by apply table_sim. Qed.

Lemma fffffe_sim st :
  wf_st st → peek8 st = 0xfe → 8 ≤ h_bitslen st →
  sim (h_out st) e (huff_fffffe T buf len outbuflen (consume 8 st) e)
      (a_fffffe T (drop 8 (queue st))).
Proof.
  intros Hwf Hp Hl. change 8%nat with (Z.to_nat 8).
  rewrite <- queue_consume by (done || lia).
  assert (wf_st (consume 8 st)) as Hwf8 by (apply wf_consume; done || lia).
  change (h_out st) with (h_out (consume 8 st)).
  pose proof (peek4_stale st Hp) as Hstale.
  unfold huff_fffffe, a_fffffe. remember (consume 8 st) as st8 eqn:E8.
  do_refill 4 st8 Hwf8. rewrite (Z.ltb_antisym 4 (zlen (queue st0))).
  rewrite (leb_queue 4) by (done || lia).
  destruct (Z.leb_spec 4 (h_bitslen st0)) as [H4|H4]; cbn [negb].
  - rewrite peek4_spec by done.
    destruct (tbl_get _ (pk 4 (queue st0))) as [d|c] eqn:Ed; [|exact eq_refl].
    assert (0 < hd_bits d) by (eapply tbl_get_filled; [|done]; table_of HT). msimpl.
    destruct (Z.leb_spec (hd_bits d) 4); msimpl; [|done].
    apply (emit_sim 4); (done || lia).
  - destruct Hf as [Hf|Hf]; [lia|].
    assert (st0 = st8) as -> by (apply Hsame; lia).
    subst st8. simpl in H4. specialize (Hstale ltac:(lia)).
    rewrite tbl_get_oob; [by msimpl|]. rewrite (ok_nibbles _ HT). lia.
Qed.

Lemma ffffff_sim st :
  wf_st st →
  sim (h_out st) e (huff_ffffff T buf len outbuflen st e) (a_ffffff T (queue st)).
Proof.
  intros Hwf. unfold huff_ffffff, a_ffffff. do_refill 8 st Hwf.
  rewrite <- peek8_spec by done. destruct (peek8 st0 =? 0xff); cbn [negb].
  - apply goaway_fails.
  - apply table_sim; [table_of HT|done..].
Qed.

(** The two conditions that guard a longer prefix: they only look at the next
    eight bits. *)
Lemma prefix_cond st : wf_st st → filled 8 st →
  peek8 st = pk 8 (queue st) ∧ (8 <=? h_bitslen st) = (8 <=? zlen (queue st)).
Proof. intros. split; [by apply peek8_spec|]. symmetry. by apply (leb_queue 8). Qed.

Lemma consume_queue k st :
  wf_st st → (0 <=? k) && (k <=? h_bitslen st) = true →
  wf_st (consume k st) ∧ drop (Z.to_nat k) (queue st) = queue (consume k st).
Proof.
  intros Hwf Hk. split; [apply wf_consume|symmetry; apply queue_consume]; (done || lia).
Qed.

Lemma ffff_sim st :
  wf_st st →
  sim (h_out st) e (huff_ffff T buf len outbuflen st e) (a_ffff T (queue st)).
Proof.
  intros Hwf. unfold huff_ffff, a_ffff. do_refill 8 st Hwf.
  destruct (prefix_cond st0 Hwf0 Hf) as [<- <-].
  destruct (Z.leb_spec 8 (h_bitslen st0)) as [H8|H8]; cbn [andb].
  - destruct (Z.eqb_spec (peek8 st0) 0xfe); [by apply fffffe_sim|].
    destruct (consume_queue 4 st0) as [Hc4 Hq4]; [done|lia|].
    destruct (consume_queue 8 st0) as [Hc8 Hq8]; [done|lia|].
    change 8%nat with (Z.to_nat 8). change 4%nat with (Z.to_nat 4). rewrite Hq4, Hq8.
    destruct ((Z.land (peek8 st0) 0xf0 =? 0xf0) && negb (peek8 st0 =? 0xff)).
    { apply (stage_sim _ _ (consume 4 st0)); [table_of HT|done]. }
    destruct (peek8 st0 =? 0xff); cbn [negb]; msimpl.
    + by apply (ffffff_sim (consume 8 st0)).
    + apply table_sim; [table_of HT|done..].
  - destruct (peek8 st0 =? 0xff); cbn [negb]; msimpl; [done|].
    apply table_sim; [table_of HT|done..].
Qed.

Lemma ff_sim st :
  wf_st st → sim (h_out st) e (huff_ff T buf len outbuflen st e) (a_ff T (queue st)).
Proof.
  intros Hwf. unfold huff_ff, a_ff. do_refill 8 st Hwf.
  destruct (prefix_cond st0 Hwf0 Hf) as [<- <-].
  destruct (Z.leb_spec 8 (h_bitslen st0)) as [H8|H8]; cbn [andb].
  - destruct (consume_queue 8 st0) as [Hc8 Hq8]; [done|lia|].
    change 8%nat with (Z.to_nat 8). rewrite Hq8.
    destruct (peek8 st0 =? 0xfe).
    { apply (stage_sim _ _ (consume 8 st0)); [table_of HT|done]. }
    destruct (peek8 st0 =? 0xff); cbn [negb]; msimpl.
    + by apply (ffff_sim (consume 8 st0)).
    + apply table_sim; [table_of HT|done..].
  - destruct (peek8 st0 =? 0xff); cbn [negb]; msimpl; [done|].
    apply table_sim; [table_of HT|done..].
Qed.

(** The end-of-string test on the accumulator. *)
Lemma ones_test st :
  wf_st st → h_bitslen st < 8 → h_o st = len →
  (Z.land (h_bits st) (u8 ((1 ≪ h_bitslen st) - 1)) =? u8 ((1 ≪ h_bitslen st) - 1)) =
  bool_decide (queue st = replicate (length (queue st)) true).
Proof.
  intros (Hl & _ & _) H8 Ho. rewrite queue_empty_input by done. rewrite length_bits_of.
  assert (u8 ((1 ≪ h_bitslen st) - 1) = Z.ones (h_bitslen st)) as ->.
  { unfold u8. rewrite Z.mod_small; [done|]. rewrite Z.shiftl_1_l.
    pose proof (Z.pow_le_mono_r 2 (h_bitslen st) 7). pose proof (Z.pow_pos_nonneg 2 (h_bitslen st)).
    lia. }
  rewrite Z.land_ones by lia. rewrite <- (bits_of_ones (Z.to_nat (h_bitslen st))), Z2Nat.id by lia.
  assert (Z.ones (h_bitslen st) = Z.ones (h_bitslen st) `mod` 2 ^ h_bitslen st) as Hones.
  { rewrite Z.mod_small; [done|]. rewrite Z.ones_equiv.
    pose proof (Z.pow_pos_nonneg 2 (h_bitslen st)). lia. }
  apply eq_bool_prop_intro. rewrite Is_true_true, bool_decide_spec, Z.eqb_eq.
  split; intros E.
  - apply bval_inj; [by rewrite !length_bits_of|].
    rewrite !bval_bits_of, Z2Nat.id by lia. congruence.
  - apply (f_equal bval) in E. rewrite !bval_bits_of, Z2Nat.id in E by lia. congruence.
Qed.

Lemma decode0_sim st :
  wf_st st → filled 8 st → peek8 st ≠ 0xff → (8 ≤ h_bitslen st → peek8 st ≠ 0xfe) →
  sim (h_out st) e (huff_0 T len outbuflen st (peek8 st) e) (a_0 T (queue st)).
Proof.
  intros Hwf Hf Hff Hfe. unfold huff_0, a_0. rewrite <- peek8_spec by done.
  destruct (tbl_get _ (peek8 st)) as [d|c] eqn:Ed; [|exact eq_refl]. msimpl.
  assert (0 < hd_bits d) by (eapply tbl_get_filled; [|done]; table_of HT).
  destruct (Z.leb_spec 8 (h_bitslen st)) as [H8|H8].
  - assert (hd_bits d ≤ 8) by (eapply (ok_short _ HT); eauto).
    rewrite (leb_queue 8) by (done || lia).
    destruct (Z.leb_spec (hd_bits d) (h_bitslen st)); [|lia].
    destruct (Z.leb_spec (hd_bits d) 8); [|lia]. msimpl. apply (emit_sim 8); (done || lia).
  - assert (h_o st = len) as Ho by (destruct Hf; (done || lia)).
    assert (zlen (queue st) = h_bitslen st) as Hz.
    { rewrite queue_empty_input by done. unfold zlen. rewrite length_bits_of.
      destruct Hwf. lia. }
    rewrite Hz. destruct (Z.leb_spec (hd_bits d) (h_bitslen st)).
    + destruct (Z.leb_spec (hd_bits d) 8); [|lia]. msimpl. apply (emit_sim 8); (done || lia).
    + destruct (Z.ltb_spec (h_bitslen st) 8); [|lia].
      rewrite Ho, Z.eqb_refl. msimpl. rewrite ones_test by done.
      case_bool_decide as E; destruct (decide _); try done; [by exists st|].
      apply goaway_fails.
Qed.

Lemma step_sim st :
  wf_st st → sim (h_out st) e (huff_step T buf len outbuflen st e) (astep T (queue st)).
Proof.
  intros Hwf. unfold huff_step, astep. do_refill 8 st Hwf.
  destruct (prefix_cond st0 Hwf0 Hf) as [<- <-].
  destruct (Z.leb_spec 8 (h_bitslen st0)) as [H8|H8]; cbn [andb].
  - destruct (consume_queue 8 st0) as [Hc8 Hq8]; [done|lia|].
    change 8%nat with (Z.to_nat 8). rewrite Hq8.
    destruct (Z.eqb_spec (peek8 st0) 0xfe).
    { apply (stage_sim _ _ (consume 8 st0)); [table_of HT|done]. }
    destruct (Z.eqb_spec (peek8 st0) 0xff); cbn [negb]; msimpl.
    + by apply (ff_sim (consume 8 st0)).
    + by apply decode0_sim.
  - destruct (Z.eqb_spec (peek8 st0) 0xff); cbn [negb]; msimpl; [done|].
    apply decode0_sim; try done. lia.
Qed.

End Simulation.

(** ** The tables of [init_huffman] *)

(** The tables as [init_huffman] leaves them. *)
Definition huffman_tables_init : huffman_tables :=
  match init_huffman with
  | Done t => t
  | Crash _ => HT [] [] [] [] [] [] [] []
  end.

Lemma init_huffman_result : init_huffman = Done huffman_tables_init.
Proof. vm_compute. reflexivity. Qed.

(** Turn a check over the indices of a table into a statement on [tbl_get]. *)
Definition tbl_forall (P : Z → huffman_decode → bool) (t : hd_table) : bool :=
  forallb (λ i, match tbl_get t (Z.of_nat i) with Done d => P (Z.of_nat i) d | Crash _ => true end)
    (seq 0 (length t)).

Lemma tbl_forall_get P t i d :
  tbl_forall P t = true → tbl_get t i = Done d → P i d = true.
Proof.
  intros Hall Hd. unfold tbl_forall in Hall. rewrite forallb_forall in Hall.
  assert (0 ≤ i ∧ (Z.to_nat i < length t)%nat) as [Hi Hl].
  { unfold tbl_get in Hd. destruct (t !! Z.to_nat i) eqn:E; [|done].
    apply lookup_lt_Some in E. destruct (Z.leb_spec 0 i); [lia|done]. }
  specialize (Hall (Z.to_nat i)). rewrite Z2Nat.id, Hd in Hall by done.
  apply Hall, in_seq. lia.
Qed.

Lemma tables_ok_init : tables_ok huffman_tables_init.
Proof.
  split.
  - vm_compute. reflexivity.
  - intros i d Hd Hfe Hff.
    assert (tbl_forall (λ i d, (i =? 0xfe) || (i =? 0xff) || (hd_bits d <=? 8))
              (huffman_decode0 huffman_tables_init) = true) as Hall by (vm_compute; reflexivity).
    pose proof (tbl_forall_get _ _ _ _ Hall Hd) as Hi; simpl in Hi. lia.
  - vm_compute. reflexivity.
Qed.

(** ** Every code word is decoded to its byte *)

Lemma pk_app n w rest :
  (length w ≤ n)%nat → ∃ s, length s = (n - length w)%nat ∧ pk n (w ++ rest) = bval (w ++ s).
Proof.
  intros Hw. exists (take (n - length w) (rest ++ replicate n false)).
  rewrite length_take, length_app, length_replicate. split; [lia|].
  unfold pk. by rewrite <- app_assoc, take_app_ge by lia.
Qed.

Lemma pk_app_ge n w rest : (n ≤ length w)%nat → pk n (w ++ rest) = bval (take n w).
Proof. intros Hw. unfold pk. by rewrite <- app_assoc, take_app_le. Qed.

(** All [n]-bit indices that start with [w] satisfy [P]. *)
Definition all_ext (n : nat) (P : Z → bool) (w : list bool) : bool :=
  forallb (λ s, P (bval (w ++ s))) (all_bits (n - length w)).

Lemma all_ext_pk n P w rest :
  all_ext n P w = true → (length w ≤ n)%nat → P (pk n (w ++ rest)) = true.
Proof.
  intros Hall Hw. destruct (pk_app n w rest Hw) as (s & Hs & ->).
  unfold all_ext in Hall. rewrite forallb_forall in Hall. apply Hall, list_elem_of_In.
  rewrite <- Hs. apply all_bits_complete.
Qed.

Definition entry_is (t : hd_table) (w : list bool) (c : Z) (i : Z) : bool :=
  match tbl_get t i with
  | Done d => (hd_bits d =? zlen w) && (hd_value d =? c)
  | Crash _ => false
  end.

Lemma asym_app d w c rest :
  hd_bits d = zlen w → hd_value d = c → asym (w ++ rest) d = ASym c rest.
Proof.
  intros Hb Hv. unfold asym. rewrite Hb, Hv, zlen_app.
  pose proof (zlen_nonneg rest). destruct (Z.leb_spec (zlen w) (zlen w + zlen rest)); [|lia].
  unfold zlen. by rewrite Nat2Z.id, drop_app_length.
Qed.

Lemma atab_sym t w c rest :
  (length w ≤ 8)%nat → all_ext 8 (entry_is t w c) w = true →
  atab t (w ++ rest) = Done (ASym c rest).
Proof.
  intros Hw Hall. apply (all_ext_pk _ _ _ rest) in Hall; [|done].
  unfold entry_is in Hall. unfold atab.
  destruct (tbl_get t (pk 8 (w ++ rest))) as [d|]; [|done].
  apply andb_true_iff in Hall as [Hb%Z.eqb_eq Hv%Z.eqb_eq]. msimpl.
  rewrite (asym_app d w c) by done.
  replace (hd_bits d <=? 8) with true; [done|]. unfold zlen in *. lia.
Qed.

(** Checks that mirror the stages of [astep] on the bits [w] of a code word. *)
Section Checks.
Context (T : huffman_tables) (c : Z).

Definition is_prefix (p : Z) (w : list bool) : bool :=
  (8 <? zlen w) && (bval (take 8 w) =? p).

Definition ends_in (t : hd_table) (w : list bool) : bool :=
  (zlen w <=? 8) && all_ext 8 (entry_is t w c) w.

Definition ch_fffffe (w : list bool) : bool :=
  (zlen w <=? 4) && all_ext 4 (entry_is (huffman_decode_fffffe T) w c) w &&
  ((4 <=? zlen w) || ((c =? 254) && (zlen w =? 3))).

Definition ch_ffffff (w : list bool) : bool :=
  ends_in (huffman_decode_ffffff T) w && all_ext 8 (λ i, negb (i =? 0xff)) w.

Definition ch_ffff (w : list bool) : bool :=
  if is_prefix 0xfe w then ch_fffffe (drop 8 w)
  else if is_prefix 0xff w then ch_ffffff (drop 8 w)
  else if (8 <=? zlen w) && (Z.land (bval (take 8 w)) 0xf0 =? 0xf0) then
    let b := bval (take 8 w) in
    negb (b =? 0xfe) && negb (b =? 0xff) && ends_in (huffman_decode_fffff T) (drop 4 w)
  else ends_in (huffman_decode_ffff T) w && all_ext 8 (λ i, negb (Z.land i 0xf0 =? 0xf0)) w.

Definition ch_ff (w : list bool) : bool :=
  if is_prefix 0xfe w then ends_in (huffman_decode_fffe T) (drop 8 w)
  else if is_prefix 0xff w then ch_ffff (drop 8 w)
  else ends_in (huffman_decode_ff T) w &&
       all_ext 8 (λ i, negb (i =? 0xfe) && negb (i =? 0xff)) w.

Definition ch_step (w : list bool) : bool :=
  if is_prefix 0xfe w then ends_in (huffman_decode_fe T) (drop 8 w)
  else if is_prefix 0xff w then ch_ff (drop 8 w)
  else ends_in (huffman_decode0 T) w &&
       all_ext 8 (λ i, negb (i =? 0xfe) && negb (i =? 0xff)) w.

(** [rest] is what follows the code word; only the byte 254 needs it not to be
    empty. *)
Context (rest : list bool) (Hrest : c = 254 → rest ≠ []).

Lemma is_prefix_spec p w :
  is_prefix p w = true →
  pk 8 (w ++ rest) = p ∧ (8 <=? zlen (w ++ rest)) = true ∧ drop 8 (w ++ rest) = drop 8 w ++ rest.
Proof.
  unfold is_prefix. intros [Hl%Z.ltb_lt Hp%Z.eqb_eq]%andb_true_iff.
  unfold zlen in *. rewrite pk_app_ge, drop_app_le, length_app by lia.
  split; [done|]. split; [apply Z.leb_le; lia|done].
Qed.

Lemma ends_in_spec t w :
  ends_in t w = true → (length w ≤ 8)%nat ∧ atab t (w ++ rest) = Done (ASym c rest).
Proof.
  unfold ends_in. intros [Hl%Z.leb_le Ha]%andb_true_iff. unfold zlen in Hl.
  split; [lia|]. apply atab_sym; [lia|done].
Qed.

Lemma ch_fffffe_ok w : ch_fffffe w = true → a_fffffe T (w ++ rest) = Done (ASym c rest).
Proof.
  unfold ch_fffffe, a_fffffe. rewrite !andb_true_iff. intros [[Hl%Z.leb_le Ha] Hn].
  apply (all_ext_pk _ _ _ rest) in Ha; [|unfold zlen in *; lia].
  destruct (Z.ltb_spec (zlen (w ++ rest)) 4) as [Hlt|_].
  { exfalso. rewrite zlen_app in Hlt. pose proof (zlen_nonneg rest).
    apply orb_true_iff in Hn as [Hn%Z.leb_le|[H1%Z.eqb_eq Hn%Z.eqb_eq]%andb_true_iff]; [lia|].
    apply (Hrest H1). apply length_zero_iff_nil. unfold zlen in *. lia. }
  unfold entry_is in Ha. destruct (tbl_get _ _) as [d|]; [|done].
  apply andb_true_iff in Ha as [Hb%Z.eqb_eq Hv%Z.eqb_eq]. msimpl.
  rewrite (asym_app d w c) by done. by replace (hd_bits d <=? 4) with true by lia.
Qed.

Lemma ch_ffffff_ok w : ch_ffffff w = true → a_ffffff T (w ++ rest) = Done (ASym c rest).
Proof.
  unfold ch_ffffff, a_ffffff. intros [[Hl He]%ends_in_spec Ha]%andb_true_iff.
  apply (all_ext_pk _ _ _ rest) in Ha; [|done]. by rewrite Ha.
Qed.

Lemma ch_ffff_ok w : ch_ffff w = true → a_ffff T (w ++ rest) = Done (ASym c rest).
Proof.
  unfold ch_ffff, a_ffff.
  destruct (is_prefix 0xfe w) eqn:Efe; [|destruct (is_prefix 0xff w) eqn:Eff].
  - apply is_prefix_spec in Efe as (-> & -> & ->). apply ch_fffffe_ok.
  - apply is_prefix_spec in Eff as (-> & -> & ->). apply ch_ffffff_ok.
  - clear Efe Eff.
    destruct ((8 <=? zlen w) && (Z.land (bval (take 8 w)) 0xf0 =? 0xf0)) eqn:Ef.
    + apply andb_true_iff in Ef as [H8%Z.leb_le H1].
      rewrite !andb_true_iff. intros [[H2 H3] [Hl He]%ends_in_spec].
      unfold zlen in H8. rewrite pk_app_ge, !drop_app_le by lia.
      assert ((8 <=? zlen (w ++ rest)) = true) as ->.
      { apply Z.leb_le. unfold zlen. rewrite length_app. lia. }
      destruct (bval (take 8 w) =? 254); [done|]. by rewrite H1, H3.
    + intros [[Hl He]%ends_in_spec Ha]%andb_true_iff.
      apply (all_ext_pk _ _ _ rest) in Ha; [|done]. apply negb_true_iff in Ha.
      destruct (Z.eqb_spec (pk 8 (w ++ rest)) 254) as [E|E]; [by rewrite E in Ha|].
      rewrite Ha, !andb_false_r. simpl.
      destruct (Z.eqb_spec (pk 8 (w ++ rest)) 255) as [E'|E']; [by rewrite E' in Ha|done].
Qed.

Lemma ch_ff_ok w : ch_ff w = true → a_ff T (w ++ rest) = Done (ASym c rest).
Proof.
  unfold ch_ff, a_ff.
  destruct (is_prefix 0xfe w) eqn:Efe; [|destruct (is_prefix 0xff w) eqn:Eff].
  - apply is_prefix_spec in Efe as (-> & -> & ->). intros He. by apply ends_in_spec.
  - apply is_prefix_spec in Eff as (-> & -> & ->). apply ch_ffff_ok.
  - intros [[Hl He]%ends_in_spec Ha]%andb_true_iff.
    apply (all_ext_pk _ _ _ rest) in Ha; [|done]. apply andb_true_iff in Ha as [H1 H2].
    by rewrite H2, (proj1 (negb_true_iff _) H1), andb_false_r.
Qed.

Lemma ch_step_ok w :
  (0 < length w)%nat → ch_step w = true → astep T (w ++ rest) = Done (ASym c rest).
Proof.
  intros Hpos. unfold ch_step, astep.
  destruct (is_prefix 0xfe w) eqn:Efe; [|destruct (is_prefix 0xff w) eqn:Eff].
  - apply is_prefix_spec in Efe as (-> & -> & ->). intros He. by apply ends_in_spec.
  - apply is_prefix_spec in Eff as (-> & -> & ->). apply ch_ff_ok.
  - intros [[Hl He]%ends_in_spec Ha]%andb_true_iff.
    apply (all_ext_pk _ _ _ rest) in Ha; [|done]. apply andb_true_iff in Ha as [H1 H2].
    rewrite H2, (proj1 (negb_true_iff _) H1), andb_false_r. unfold a_0, atab in *.
    destruct (tbl_get _ _) as [d|]; [|done]. msimpl_in He. msimpl.
    destruct (hd_bits d <=? 8); [|done]. msimpl_in He. unfold asym in *.
    destruct (hd_bits d <=? zlen (w ++ rest)); [done|done].
Qed.

End Checks.

Definition all_codes_decode : bool :=
  forallb (λ n, (0 <? zlen (code (Z.of_nat n))) && ch_step huffman_tables_init (Z.of_nat n) (code (Z.of_nat n)))
    (seq 0 256).

Lemma all_codes_decode_true : all_codes_decode = true.
Proof. vm_compute. reflexivity. Qed.

Lemma byte_in_seq c (P : nat → bool) :
  is_byte c → forallb P (seq 0 256) = true → P (Z.to_nat c) = true.
Proof.
  unfold is_byte. intros Hc Hall. rewrite forallb_forall in Hall. apply Hall, in_seq. lia.
Qed.

Lemma codes_decode c :
  is_byte c →
  (0 <? zlen (code c)) && ch_step huffman_tables_init c (code c) = true.
Proof.
  intros Hc. pose proof (byte_in_seq c _ Hc all_codes_decode_true) as Hok. cbv beta in Hok.
  rewrite Z2Nat.id in Hok by apply Hc. exact Hok.
Qed.

Lemma astep_code c rest :
  is_byte c → (c = 254 → rest ≠ []) →
  astep huffman_tables_init (code c ++ rest) = Done (ASym c rest).
Proof.
  intros Hc Hr. pose proof (codes_decode c Hc) as [Hl Hok]%andb_true_iff.
  apply ch_step_ok; [done| |done]. unfold zlen in Hl. lia.
Qed.

Lemma code_nonempty c : is_byte c → (0 < length (code c))%nat.
Proof.
  intros Hc. pose proof (codes_decode c Hc) as [Hl _]%andb_true_iff. unfold zlen in Hl. lia.
Qed.

(** ** Whatever is decoded is a code word *)

(** The entries of [t] that pass the [assert] agree with the code words that
    start with [p]. *)
Definition table_sound (n : nat) (p : list bool) (t : hd_table) : bool :=
  tbl_forall (λ i d,
    implb (hd_bits d <=? Z.of_nat n)
      (bool_decide (p ++ take (Z.to_nat (hd_bits d)) (bits_of n i) = code (hd_value d)) &&
       (0 <=? hd_value d) && (hd_value d <? 256))) t.

(** [pk n] gives the first [n] bits back. *)
Lemma take_pk n k q :
  (k ≤ n)%nat → (k ≤ length q)%nat → take k q = take k (bits_of n (pk n q)).
Proof.
  intros Hn Hq. unfold pk.
  assert (length (take n (q ++ replicate n false)) = n) as Hl.
  { rewrite length_take, length_app, length_replicate. lia. }
  rewrite <- Hl at 1. rewrite bits_of_bval, take_take, Nat.min_l by lia.
  by rewrite take_app_le.
Qed.

Lemma asym_sound n p t q d c rest :
  table_sound n p t = true → all_filled t = true → tbl_get t (pk n q) = Done d →
  (hd_bits d <=? Z.of_nat n) = true →
  asym q d = ASym c rest → is_byte c ∧ p ++ q = code c ++ rest.
Proof.
  intros Ht Hf Hd Hn Ha. pose proof (tbl_get_filled _ _ _ Hf Hd).
  pose proof (tbl_forall_get _ _ _ _ Ht Hd) as Hc; simpl in Hc.
  rewrite Hn in Hc. unfold implb in Hc. rewrite !andb_true_iff, bool_decide_eq_true in Hc.
  unfold asym in Ha. destruct (Z.leb_spec (hd_bits d) (zlen q)); [|done].
  injection Ha as <- <-. destruct Hc as [[Hc ?] ?]. split; [unfold is_byte; lia|].
  rewrite <- Hc, <- app_assoc. f_equal. unfold zlen in *.
  rewrite <- (take_pk n) by lia. symmetry. apply take_drop.
Qed.

Lemma atab_sound p t q c rest :
  table_sound 8 p t = true → all_filled t = true →
  atab t q = Done (ASym c rest) → is_byte c ∧ p ++ q = code c ++ rest.
Proof.
  intros Ht Hf Ha. unfold atab in Ha. destruct (tbl_get t (pk 8 q)) as [d|] eqn:Ed; [|done].
  msimpl_in Ha. destruct (hd_bits d <=? 8) eqn:H8; [|done]. msimpl_in Ha.
  injection Ha as Ha. by apply (asym_sound 8 p t q d).
Qed.

(** The prefix a stage has seen is really there. *)
Lemma pk_prefix n m q p :
  (m ≤ n)%nat → (Z.of_nat n <=? zlen q) = true →
  take m (bits_of n (pk n q)) = p → q = p ++ drop m q.
Proof.
  intros Hm Hq%Z.leb_le <-. unfold zlen in Hq. rewrite <- take_pk by lia.
  symmetry. apply take_drop.
Qed.

Record tables_sound (T : huffman_tables) : Prop := {
  snd_ok : tables_ok T;
  snd_0 : table_sound 8 [] (huffman_decode0 T) = true;
  snd_fe : table_sound 8 (bits_of 8 0xfe) (huffman_decode_fe T) = true;
  snd_ff : table_sound 8 (bits_of 8 0xff) (huffman_decode_ff T) = true;
  snd_fffe : table_sound 8 (bits_of 16 0xfffe) (huffman_decode_fffe T) = true;
  snd_ffff : table_sound 8 (bits_of 16 0xffff) (huffman_decode_ffff T) = true;
  snd_fffff : table_sound 8 (bits_of 20 0xfffff) (huffman_decode_fffff T) = true;
  snd_fffffe : table_sound 4 (bits_of 24 0xfffffe) (huffman_decode_fffffe T) = true;
  snd_ffffff : table_sound 8 (bits_of 24 0xffffff) (huffman_decode_ffffff T) = true
}.

Lemma tables_sound_init : tables_sound huffman_tables_init.
Proof. split; [apply tables_ok_init | vm_compute; reflexivity ..]. Qed.

Section Soundness.
Context (T : huffman_tables) (HS : tables_sound T).

Ltac filled_table :=
  eapply (proj1 (forallb_forall _ _) (ok_filled _ (snd_ok _ HS)));
  repeat first [left; reflexivity | right].

Lemma fffffe_sound q c rest :
  a_fffffe T q = Done (ASym c rest) → is_byte c ∧ bits_of 24 0xfffffe ++ q = code c ++ rest.
Proof.
  unfold a_fffffe. intros Ha. destruct (zlen q <? 4); [done|].
  destruct (tbl_get _ (pk 4 q)) as [d|] eqn:Ed; [|done]. msimpl_in Ha.
  destruct (hd_bits d <=? 4) eqn:H4; [|done]. msimpl_in Ha. injection Ha as Ha.
  eapply (asym_sound 4); try done; [apply snd_fffffe, HS|filled_table].
Qed.

Lemma ffff_sound q c rest :
  a_ffff T q = Done (ASym c rest) → is_byte c ∧ bits_of 16 0xffff ++ q = code c ++ rest.
Proof.
  unfold a_ffff. intros Ha. destruct (8 <=? zlen q) eqn:H8; cbn [andb] in Ha.
  - destruct (Z.eqb_spec (pk 8 q) 0xfe) as [E|_].
    { rewrite (pk_prefix 8 8 q (bits_of 8 0xfe)) by (done || by rewrite E).
      rewrite app_assoc. by apply fffffe_sound. }
    destruct ((Z.land (pk 8 q) 0xf0 =? 0xf0) && negb (pk 8 q =? 0xff)) eqn:Ef.
    { apply andb_true_iff in Ef as [Ef%Z.eqb_eq _].
      assert (take 4 (bits_of 8 (pk 8 q)) = bits_of 4 0xf) as E4.
      { change 8%nat with (4 + 4)%nat at 1. rewrite take_bits_of. apply bits_of_ext.
        intros i Hi. rewrite Z.shiftr_spec by lia.
        assert (Z.testbit (Z.land (pk 8 q) 0xf0) (i + 4) = Z.testbit 0xf0 (i + 4)) as Et
          by by rewrite Ef.
        assert (i = 0 ∨ i = 1 ∨ i = 2 ∨ i = 3) as Hc by lia.
        rewrite Z.land_spec in Et.
        destruct Hc as [->|[->|[->| ->]]]; simpl in Et; rewrite andb_true_r in Et; exact Et. }
      rewrite (pk_prefix 8 4 q (bits_of 4 0xf)) by (done || lia).
      rewrite app_assoc. eapply atab_sound; [apply snd_fffff, HS|filled_table|done]. }
    destruct (Z.eqb_spec (pk 8 q) 0xff) as [E|_]; cbn [negb] in Ha; msimpl_in Ha.
    + rewrite (pk_prefix 8 8 q (bits_of 8 0xff)) by (done || by rewrite E).
      rewrite app_assoc. unfold a_ffffff in Ha.
      destruct (pk 8 (drop 8 q) =? 255); [done|].
      eapply atab_sound; [apply snd_ffffff, HS|filled_table|done].
    + eapply atab_sound; [apply snd_ffff, HS|filled_table|done].
  - destruct (negb _); msimpl_in Ha; [|done].
    eapply atab_sound; [apply snd_ffff, HS|filled_table|done].
Qed.

Lemma ff_sound q c rest :
  a_ff T q = Done (ASym c rest) → is_byte c ∧ bits_of 8 0xff ++ q = code c ++ rest.
Proof.
  unfold a_ff. intros Ha. destruct (8 <=? zlen q) eqn:H8; cbn [andb] in Ha.
  - destruct (Z.eqb_spec (pk 8 q) 0xfe) as [E|_].
    { rewrite (pk_prefix 8 8 q (bits_of 8 0xfe)) by (done || by rewrite E).
      rewrite app_assoc. eapply atab_sound; [apply snd_fffe, HS|filled_table|done]. }
    destruct (Z.eqb_spec (pk 8 q) 0xff) as [E|_]; cbn [negb] in Ha; msimpl_in Ha.
    + rewrite (pk_prefix 8 8 q (bits_of 8 0xff)) by (done || by rewrite E).
      rewrite app_assoc. by apply ffff_sound.
    + eapply atab_sound; [apply snd_ff, HS|filled_table|done].
  - destruct (negb _); msimpl_in Ha; [|done].
    eapply atab_sound; [apply snd_ff, HS|filled_table|done].
Qed.

Lemma a_0_sound q c rest :
  a_0 T q = Done (ASym c rest) → is_byte c ∧ q = code c ++ rest.
Proof.
  unfold a_0. intros Ha. destruct (tbl_get _ (pk 8 q)) as [d|] eqn:Ed; [|done].
  msimpl_in Ha. destruct (hd_bits d <=? zlen q).
  - destruct (hd_bits d <=? 8) eqn:H8; [|done]. msimpl_in Ha. injection Ha as Ha.
    apply (asym_sound 8 [] (huffman_decode0 T) q d); try done; [apply snd_0, HS|filled_table].
  - destruct (zlen q <? 8); [|done]. msimpl_in Ha. by destruct (decide _).
Qed.

Lemma astep_sound q c rest :
  astep T q = Done (ASym c rest) → is_byte c ∧ q = code c ++ rest.
Proof.
  unfold astep. intros Ha. destruct (8 <=? zlen q) eqn:H8; cbn [andb] in Ha.
  - destruct (Z.eqb_spec (pk 8 q) 0xfe) as [E|_].
    { rewrite (pk_prefix 8 8 q (bits_of 8 0xfe)) by (done || by rewrite E).
      eapply atab_sound; [apply snd_fe, HS|filled_table|done]. }
    destruct (Z.eqb_spec (pk 8 q) 0xff) as [E|_]; cbn [negb] in Ha; msimpl_in Ha.
    + rewrite (pk_prefix 8 8 q (bits_of 8 0xff)) by (done || by rewrite E).
      by apply ff_sound.
    + by apply a_0_sound.
  - destruct (negb _); msimpl_in Ha; [by apply a_0_sound|done].
Qed.

(** The decoder only stops regularly at fewer than eight one bits. *)
Lemma astep_end q : astep T q = Done AEnd → (length q < 8)%nat ∧ q = replicate (length q) true.
Proof.
  assert (∀ t q, atab t q ≠ Done AEnd) as Htab.
  { intros t q' Ha. unfold atab in Ha. destruct (tbl_get _ _); [|done]. msimpl_in Ha.
    destruct (_ <=? 8); [|done]. msimpl_in Ha. unfold asym in Ha. by destruct (_ <=? _). }
  assert (∀ q, a_fffffe T q ≠ Done AEnd) as Hfffffe.
  { intros q' Ha. unfold a_fffffe in Ha. destruct (_ <? 4); [done|].
    destruct (tbl_get _ _); [|done]. msimpl_in Ha. destruct (_ <=? 4); [|done].
    msimpl_in Ha. unfold asym in Ha. by destruct (_ <=? _). }
  intros Ha. unfold astep, a_ff, a_ffff, a_ffffff in Ha.
  repeat (match type of Ha with
    | (if ?b then _ else _) = _ => destruct b
    | (oassert ?b ≫= _) = _ => destruct b
    end; msimpl_in Ha; try done; try (by apply Htab in Ha); try (by apply Hfffffe in Ha)).
  all: unfold a_0 in Ha; destruct (tbl_get _ _) as [d|]; [|done]; msimpl_in Ha.
  all: destruct (_ <=? _); [destruct (_ <=? 8); [|done]; msimpl_in Ha; unfold asym in Ha;
         by destruct (_ <=? _)|].
  all: destruct (Z.ltb_spec (zlen q) 8); [|done]; msimpl_in Ha;
       destruct (decide _) as [E|E]; [|done]; split; [unfold zlen in *; lia|done].
Qed.

End Soundness.

(** ** The loop *)

Lemma astep_ones p :
  (p < 8)%nat → astep huffman_tables_init (replicate p true) = Done AEnd.
Proof.
  intros Hp. do 8 (destruct p as [|p]; [vm_compute; reflexivity|]). lia.
Qed.

Lemma astep_crash T q c : astep T q = Crash c → c = Undefined ∨ c = AssertFail.
Proof.
  assert (∀ t i, tbl_get t i = Crash c → c = Undefined) as Hget.
  { intros t i. unfold tbl_get. destruct (t !! _); [destruct (0 <=? i)|]; congruence. }
  intros Ha. unfold astep, a_ff, a_ffff, a_ffffff, a_fffffe, a_0, atab in Ha.
  repeat (match type of Ha with
    | (if ?b then _ else _) = _ => destruct b
    | (oassert ?b ≫= _) = _ => destruct b
    | (tbl_get ?t ?i ≫= _) = _ => destruct (tbl_get t i) as [d|] eqn:?
    end; msimpl_in Ha; try (right; congruence); try (left; congruence); try done).
  all: try (left; injection Ha as ->; eauto).
Qed.

Lemma huff_code_cons c s : huff_code (c :: s) = code c ++ huff_code s.
Proof. done. Qed.
Lemma huff_code_app s s' : huff_code (s ++ s') = huff_code s ++ huff_code s'.
Proof. unfold huff_code. by rewrite fmap_app, join_app. Qed.

Lemma huff_code_nil_inv s : Forall is_byte s → huff_code s = [] → s = [].
Proof.
  intros [|c s' Hc _] E; [done|]. rewrite huff_code_cons in E.
  apply app_eq_nil in E as [E _]. pose proof (code_nonempty c Hc). rewrite E in *. simpl in *. lia.
Qed.

Section Loop.
Context (bs : list Z) (Hbs : Forall is_byte bs) (tl : blk Z) (outbuflen : Z).
Context (e : http2_env) (Hout : is_Some (outbuf e)).

Abbreviation loop := (huff_loop huffman_tables_init ((Some <$> bs) ++ tl) (zlen bs) outbuflen).
Abbreviation queue := (queue bs).
Abbreviation wf_st := (wf_st bs).

Lemma step_init st : wf_st st →
  sim bs outbuflen (h_out st) e
    (huff_step huffman_tables_init ((Some <$> bs) ++ tl) (zlen bs) outbuflen st e)
    (astep huffman_tables_init (queue st)).
Proof. apply step_sim; [apply tables_ok_init|done|done]. Qed.

(** Decoding the code words of [s] and whatever [tail] does afterwards. *)
Lemma loop_symbols s tail fuel st :
  wf_st st → queue st = huff_code s ++ tail → Forall is_byte s →
  (last s = Some 254 → tail ≠ []) → zlen (h_out st) + zlen s ≤ outbuflen →
  ∃ st', loop (length s + fuel) st e = loop fuel st' e ∧ wf_st st' ∧ queue st' = tail ∧
         h_out st' = h_out st ++ s.
Proof.
  revert st. induction s as [|c s IH]; intros st Hwf Hq Hs Hlast Hlen.
  { exists st. by rewrite app_nil_r. }
  inversion Hs as [|? ? Hc Hs']; subst. change (length (c :: s) + fuel)%nat with
    (S (length s + fuel)). simpl huff_loop.
  pose proof (step_init st Hwf) as Hsim. rewrite Hq, huff_code_cons, <- app_assoc in Hsim.
  rewrite astep_code in Hsim; [|done|].
  2: { intros -> [E1 E2]%app_eq_nil. apply huff_code_nil_inv in E1; [subst|done].
       by apply Hlast. }
  change (zlen (c :: s)) with (Z.of_nat (S (length s))) in Hlen.
  destruct Hsim as [(st1 & E1 & Hwf1 & Hq1 & Ho1) _]; [unfold zlen in *; lia|].
  rewrite (M_bind_done _ _ _ _ _ E1).
  destruct (IH st1) as (st2 & E2 & Hwf2 & Hq2 & Ho2); try done.
  { intros Hl. apply Hlast. destruct s; [done|]. exact Hl. }
  { rewrite Ho1, zlen_app. unfold zlen in *. simpl. lia. }
  exists st2. split; [done|]. split; [done|]. split; [done|].
  by rewrite Ho2, Ho1, <- app_assoc.
Qed.

Lemma loop_complete s p fuel st :
  wf_st st → queue st = huff_code s ++ replicate p true → (p < 8)%nat → Forall is_byte s →
  (last s = Some 254 → p ≠ 0%nat) → zlen (h_out st) + zlen s ≤ outbuflen →
  loop (length s + S fuel) st e = Done (h_out st ++ s, e).
Proof.
  intros Hwf Hq Hp Hs Hlast Hlen.
  destruct (loop_symbols s (replicate p true) (S fuel) st) as (st' & -> & Hwf' & Hq' & Ho');
    try done.
  { intros Hl. by destruct p; [destruct (Hlast Hl)|]. }
  simpl huff_loop. pose proof (step_init st' Hwf') as Hsim.
  rewrite Hq', astep_ones in Hsim by done. destruct Hsim as (st2 & E & Ho).
  rewrite (M_bind_done _ _ _ _ _ E). cbn beta iota. msimpl. by rewrite Ho, Ho'.
Qed.

Lemma loop_sound fuel st r e' :
  wf_st st → zlen (h_out st) ≤ outbuflen →
  loop fuel st e = Done (r, e') → r ≠ [] →
  ∃ s p, (p < 8)%nat ∧ queue st = huff_code s ++ replicate p true ∧ r = h_out st ++ s ∧
         Forall is_byte s ∧ zlen r ≤ outbuflen ∧ e' = e.
Proof.
  revert st. induction fuel as [|fuel IH]; intros st Hwf Hlen Hl Hr; [done|].
  simpl huff_loop in Hl. pose proof (step_init st Hwf) as Hsim. unfold sim in Hsim.
  destruct (astep huffman_tables_init (queue st)) as [[c rest| |]|c] eqn:Ea.
  - apply (astep_sound _ tables_sound_init) in Ea as [Hc Hq].
    destruct (Z.lt_ge_cases (zlen (h_out st)) outbuflen) as [Hlt|Hge].
    + destruct (proj1 Hsim Hlt) as (st' & E & Hwf' & Hq' & Ho).
      rewrite (M_bind_done _ _ _ _ _ E) in Hl.
      destruct (IH st' Hwf') as (s & p & Hp & Hs & -> & Hb & Hz & ->); try done.
      { rewrite Ho, zlen_app. unfold zlen in *. simpl. lia. }
      exists (c :: s), p. rewrite Hq, <- Hq', Hs, huff_code_cons, app_assoc.
      repeat split; auto. by rewrite Ho, <- app_assoc.
    + destruct (proj2 Hsim Hge) as (e1 & E).
      rewrite (M_bind_done _ _ _ _ _ E) in Hl. injection Hl as <- _. done.
  - destruct Hsim as (st' & E & Ho). rewrite (M_bind_done _ _ _ _ _ E) in Hl.
    injection Hl as <- <-. apply (astep_end _) in Ea as [Hp Hq].
    exists [], (length (queue st)). rewrite app_nil_r, Ho in *. by repeat split.
  - destruct Hsim as (e1 & E). rewrite (M_bind_done _ _ _ _ _ E) in Hl.
    injection Hl as <- _. done.
  - by rewrite (M_bind_crash _ _ _ _ Hsim) in Hl.
Qed.

Lemma loop_terminates fuel st :
  wf_st st → (length (queue st) < fuel)%nat → loop fuel st e ≠ Crash OutOfFuel.
Proof.
  revert st. induction fuel as [|fuel IH]; intros st Hwf Hf Hl; [lia|].
  simpl huff_loop in Hl. pose proof (step_init st Hwf) as Hsim. unfold sim in Hsim.
  destruct (astep huffman_tables_init (queue st)) as [[c rest| |]|c] eqn:Ea.
  - apply (astep_sound _ tables_sound_init) in Ea as [Hc Hq].
    destruct (Z.lt_ge_cases (zlen (h_out st)) outbuflen) as [Hlt|Hge].
    + destruct (proj1 Hsim Hlt) as (st' & E & Hwf' & Hq' & Ho).
      rewrite (M_bind_done _ _ _ _ _ E) in Hl. apply (IH st'); try done.
      pose proof (code_nonempty c Hc). apply (f_equal length) in Hq.
      rewrite length_app in Hq. rewrite Hq'. lia.
    + destruct (proj2 Hsim Hge) as (e1 & E). by rewrite (M_bind_done _ _ _ _ _ E) in Hl.
  - destruct Hsim as (st' & E & Ho). by rewrite (M_bind_done _ _ _ _ _ E) in Hl.
  - destruct Hsim as (e1 & E). by rewrite (M_bind_done _ _ _ _ _ E) in Hl.
  - rewrite (M_bind_crash _ _ _ _ Hsim) in Hl. injection Hl as ->.
    by apply astep_crash in Ea as [|].
Qed.

Lemma wf_start : wf_st (HS 0 [] 0 0).
Proof. unfold HuffmanProofs.wf_st; simpl. pose proof (zlen_nonneg bs). lia. Qed.

Lemma queue_start : queue (HS 0 [] 0 0) = bytes_bits bs.
Proof. done. Qed.

End Loop.

(** A whole byte at the front of a bit string. *)
Lemma pk_byte b q : 0 ≤ b < 256 → pk 8 (bits_of 8 b ++ q) = b.
Proof.
  intros Hb. rewrite pk_app_ge by (by rewrite length_bits_of).
  rewrite take_ge by (by rewrite length_bits_of). rewrite bval_bits_of.
  apply Z.mod_small. lia.
Qed.

Lemma len_byte b q : (8 <=? zlen (bits_of 8 b ++ q)) = true.
Proof. apply Z.leb_le. unfold zlen. rewrite length_app, length_bits_of. lia. Qed.

Lemma drop_byte b q : drop 8 (bits_of 8 b ++ q) = q.
Proof. apply drop_app_length'. by rewrite length_bits_of. Qed.

(** ** Theorems *)

Lemma huff_code_length s : Forall is_byte s → (length s ≤ length (huff_code s))%nat.
Proof.
  induction 1 as [|c s Hc _ IH]; [done|]. rewrite huff_code_cons, length_app. simpl.
  pose proof (code_nonempty c Hc). lia.
Qed.

(** [init_huffman] runs to its end: no consistency check of the code table
    fails, no table slot is claimed twice, and all slots of the eight tables
    are filled in (the tables are what [huffman_tables_init] names). *)
Theorem init_huffman_ok :
  init_huffman = Done huffman_tables_init ∧
  length <$> [huffman_decode0 huffman_tables_init; huffman_decode_fe huffman_tables_init;
              huffman_decode_ff huffman_tables_init; huffman_decode_fffe huffman_tables_init;
              huffman_decode_ffff huffman_tables_init; huffman_decode_fffff huffman_tables_init;
              huffman_decode_fffffe huffman_tables_init;
              huffman_decode_ffffff huffman_tables_init]
    = [256; 256; 256; 256; 256; 256; 16; 256]%nat ∧
  tables_ok huffman_tables_init.
Proof.
  split; [apply init_huffman_result|]. split; [vm_compute; reflexivity|apply tables_ok_init].
Qed.

(** The rows of [huffman_encode] are a prefix code: no code word is a
    prefix of the code word of another byte. *)
Theorem huffman_encode_prefix_free a b rest :
  is_byte a → is_byte b → code b = code a ++ rest → a = b.
Proof.
  intros Ha Hb E.
  assert (astep huffman_tables_init (code b ++ [true]) = Done (ASym b [true])) as H1
    by (apply astep_code; done).
  rewrite E, <- app_assoc, astep_code in H1; [congruence|done|].
  intros _ []%app_eq_nil. done.
Qed.

Lemma huffman_encode_prefix_free_witness :
  code 65 = code 65 ++ [] ∧ (65 : Z) = 65.
Proof.
  assert (code 65 = code 65 ++ []) as E by (vm_compute; reflexivity).
  split; [exact E|].
  apply (huffman_encode_prefix_free 65 65 []); [unfold is_byte; lia|unfold is_byte; lia|exact E].
Defined.

Lemma decode_huffman2_ok s p bs tl outbuflen e :
  Forall is_byte s → Forall is_byte bs → is_Some (outbuf e) →
  bytes_bits bs = huff_code s ++ replicate p true → (p < 8)%nat →
  (last s = Some 254 → p ≠ 0%nat) → zlen s ≤ outbuflen →
  Xdecode_huffman2 huffman_tables_init ((Some <$> bs) ++ tl) (zlen bs) outbuflen e = Done (s, e).
Proof.
  intros Hs Hbs Hout Hq Hp Hlast Hlen. unfold Xdecode_huffman2.
  assert (length s ≤ 8 * Z.to_nat (zlen bs))%nat as Hfuel.
  { pose proof (huff_code_length s Hs) as Hl. apply (f_equal length) in Hq.
    rewrite length_bytes_bits, length_app in Hq. unfold zlen. lia. }
  replace (S (8 * Z.to_nat (zlen bs))) with
    (length s + S (8 * Z.to_nat (zlen bs) - length s))%nat by lia.
  apply (loop_complete bs Hbs tl outbuflen e Hout s p _ (HS 0 [] 0 0)); try done.
  apply wf_start.
Qed.

(** C1: Huffman decoding is complete: from the coding of a byte string [s] that
    fits the output buffer, [Xdecode_huffman2] gives back [s] and leaves the
    connection untouched.  Excluded is the one case the code gets wrong, a
    string that ends in byte 254 with no padding bits after it. *)
Theorem Xdecode_huffman2_complete s p bs tl outbuflen e :
  Forall is_byte s → Forall is_byte bs → is_Some (outbuf e) →
  bytes_bits bs = huff_code s ++ replicate p true → (p < 8)%nat →
  (last s = Some 254 → p ≠ 0%nat) → zlen s ≤ outbuflen →
  Xdecode_huffman2 huffman_tables_init ((Some <$> bs) ++ tl) (zlen bs) outbuflen e = Done (s, e).
Proof. intros. by apply (decode_huffman2_ok s p). Qed.

Lemma Xdecode_huffman2_complete_witness :
  Xdecode_huffman2 huffman_tables_init ((Some <$> [0xf1; 0xe3; 0xc2; 0xff]) ++ []) 4 255
    (set_outbuf (Some []) http2_init)
  = Done ([119; 119; 119; 46], set_outbuf (Some []) http2_init).
Proof.
  apply (Xdecode_huffman2_complete [119; 119; 119; 46] 5 [0xf1; 0xe3; 0xc2; 0xff] []);
    [solve_bytes | solve_bytes
    | eexists; reflexivity | vm_compute; reflexivity | lia | discriminate
    | vm_compute; discriminate].
Defined.

(** C3: Huffman decoding is sound: a non-empty result of [Xdecode_huffman2] is
    the byte string the input is the coding of, it fits the output buffer, and
    nothing was written to the connection. *)
Theorem Xdecode_huffman2_sound s bs tl outbuflen e e' :
  Forall is_byte bs → is_Some (outbuf e) → 0 ≤ outbuflen → s ≠ [] →
  Xdecode_huffman2 huffman_tables_init ((Some <$> bs) ++ tl) (zlen bs) outbuflen e = Done (s, e') →
  huff_encodes s bs ∧ Forall is_byte s ∧ zlen s ≤ outbuflen ∧ e' = e.
Proof.
  intros Hbs Hout Hlen Hne Hdec.
  apply (loop_sound bs Hbs tl outbuflen e Hout _ (HS 0 [] 0 0)) in Hdec; [|apply wf_start|done|done].
  destruct Hdec as (s' & p & Hp & Hq & E & Hb & Hz & He). simpl in E. subst s'.
  split; [exists p; split; [done|exact Hq]|done].
Qed.

Lemma Xdecode_huffman2_sound_witness :
  huff_encodes [119; 119; 119; 46] [0xf1; 0xe3; 0xc2; 0xff].
Proof.
  refine (proj1 (Xdecode_huffman2_sound [119; 119; 119; 46] [0xf1; 0xe3; 0xc2; 0xff] [] 255
    (set_outbuf (Some []) http2_init) (set_outbuf (Some []) http2_init) _ _ _ _ _));
    [solve_bytes | eexists; reflexivity | lia | discriminate
    | vm_compute; reflexivity].
Defined.

Lemma Xdecode_huffman2_no_fuel bs tl outbuflen e :
  Forall is_byte bs → is_Some (outbuf e) →
  Xdecode_huffman2 huffman_tables_init ((Some <$> bs) ++ tl) (zlen bs) outbuflen e ≠ Crash OutOfFuel.
Proof.
  intros Hbs Hout. unfold Xdecode_huffman2.
  apply (loop_terminates bs Hbs tl outbuflen e Hout _ (HS 0 [] 0 0)); [apply wf_start|].
  change (queue bs (HS 0 [] 0 0)) with (bytes_bits bs).
  rewrite length_bytes_bits. unfold zlen. lia.
Qed.

(** [Xdecode_huffman2] terminates on every input: its loop never needs more
    iterations than the input has bits. *)
Theorem Xdecode_huffman2_terminates bs tl outbuflen e :
  Forall is_byte bs → is_Some (outbuf e) →
  Xdecode_huffman2 huffman_tables_init ((Some <$> bs) ++ tl) (zlen bs) outbuflen e ≠ Crash OutOfFuel.
Proof. apply Xdecode_huffman2_no_fuel. Qed.

Lemma Xdecode_huffman2_terminates_witness :
  Xdecode_huffman2 huffman_tables_init ((Some <$> [0xff; 0xff; 0xff; 0xff]) ++ []) 4 10
    (set_outbuf (Some []) http2_init) ≠ Crash OutOfFuel.
Proof.
  apply (Xdecode_huffman2_terminates [0xff; 0xff; 0xff; 0xff] []);
    [solve_bytes | eexists; reflexivity].
Defined.

(** The excluded case of the completeness theorem: the coding of a string
    that ends in byte 254 exactly at a byte boundary makes [Xdecode_huffman2]
    index [huffman_decode_fffffe] (16 entries) with an unmasked value above
    15. *)
Theorem Xdecode_huffman2_fe_out_of_bounds s bs tl outbuflen e :
  Forall is_byte s → Forall is_byte bs → is_Some (outbuf e) →
  bytes_bits bs = huff_code (s ++ [254]) → last s ≠ Some 254 → zlen s ≤ outbuflen →
  Xdecode_huffman2 huffman_tables_init ((Some <$> bs) ++ tl) (zlen bs) outbuflen e = Crash Undefined.
Proof.
  intros Hs Hbs Hout Hq Hlast Hlen. unfold Xdecode_huffman2.
  assert (length s ≤ 8 * Z.to_nat (zlen bs))%nat as Hfuel.
  { pose proof (huff_code_length s Hs) as Hl. apply (f_equal length) in Hq.
    rewrite length_bytes_bits, huff_code_app, length_app in Hq. unfold zlen. lia. }
  replace (S (8 * Z.to_nat (zlen bs))) with
    (length s + S (8 * Z.to_nat (zlen bs) - length s))%nat by lia.
  destruct (loop_symbols bs Hbs tl outbuflen e Hout s (code 254)
    (S (8 * Z.to_nat (zlen bs) - length s)) (HS 0 [] 0 0)) as (st' & -> & Hwf & Hqs & _);
    try done; [apply wf_start|change (bytes_bits bs = huff_code s ++ code 254);
    rewrite Hq, huff_code_app; f_equal; apply app_nil_r|].
  simpl huff_loop. pose proof (step_init bs Hbs tl outbuflen e Hout st' Hwf) as Hsim.
  rewrite Hqs in Hsim.
  assert (astep huffman_tables_init (code 254) = Crash Undefined) as E by (vm_compute; reflexivity).
  rewrite E in Hsim. by rewrite (M_bind_crash _ _ _ _ Hsim).
Qed.

(** The string "0" followed by byte 254 is coded in four bytes. *)
Lemma Xdecode_huffman2_fe_out_of_bounds_witness :
  Xdecode_huffman2 huffman_tables_init ((Some <$> [0x07; 0xff; 0xff; 0xf0]) ++ []) 4 1024
    (set_outbuf (Some []) http2_init) = Crash Undefined.
Proof.
  apply (Xdecode_huffman2_fe_out_of_bounds [48] [0x07; 0xff; 0xff; 0xf0] []);
    [solve_bytes | solve_bytes
    | eexists; reflexivity | vm_compute; reflexivity | discriminate | vm_compute; discriminate].
Defined.

(** A string that contains the EOS code word (30 one bits) followed by a
    zero within the byte stops the process: the slots of
    [huffman_decode_ffffff] that [init_huffman] claims for it have length 42
    and fail [assert(declen <= 8)]. *)
Theorem Xdecode_huffman2_eos_asserts b bs tl outbuflen e :
  0xfc ≤ b ≤ 0xfe → Forall is_byte bs → is_Some (outbuf e) →
  Xdecode_huffman2 huffman_tables_init
    ((Some <$> [0xff; 0xff; 0xff; b] ++ bs) ++ tl) (zlen ([0xff; 0xff; 0xff; b] ++ bs)) outbuflen e
  = Crash AssertFail.
Proof.
  intros Hb Hbs Hout. unfold Xdecode_huffman2. simpl huff_loop.
  assert (Forall is_byte ([0xff; 0xff; 0xff; b] ++ bs)) as Hall.
  { apply Forall_app. split; [|done]. solve_bytes. }
  pose proof (step_init _ Hall tl outbuflen e Hout (HS 0 [] 0 0) (wf_start _)) as Hsim.
  change (queue ([255; 255; 255; b] ++ bs) (HS 0 [] 0 0)) with
    (bits_of 8 0xff ++ bits_of 8 0xff ++ bits_of 8 0xff ++ bits_of 8 b ++ bytes_bits bs) in Hsim.
  assert (∀ q, astep huffman_tables_init (bits_of 8 0xff ++ bits_of 8 0xff ++ bits_of 8 0xff ++
            bits_of 8 b ++ q) = Crash AssertFail) as E.
  { intros q. unfold astep. rewrite len_byte, pk_byte, drop_byte by lia. cbn [andb negb Z.eqb Pos.eqb]. msimpl.
    unfold a_ff. rewrite len_byte, pk_byte, drop_byte by lia. cbn [andb negb Z.eqb Pos.eqb]. msimpl.
    unfold a_ffff. rewrite len_byte, pk_byte, drop_byte by lia. cbn [andb negb Z.eqb Pos.eqb Z.land Pos.land]. msimpl.
    unfold a_ffffff, atab. rewrite pk_byte by lia.
    assert (b = 0xfc ∨ b = 0xfd ∨ b = 0xfe) as [->|[->| ->]] by lia; vm_compute; reflexivity. }
  rewrite E in Hsim. by rewrite (M_bind_crash _ _ _ _ Hsim).
Qed.

Lemma Xdecode_huffman2_eos_asserts_witness :
  Xdecode_huffman2 huffman_tables_init ((Some <$> [0xff; 0xff; 0xff; 0xfc]) ++ []) 4 1024
    (set_outbuf (Some []) http2_init) = Crash AssertFail.
Proof.
  apply (Xdecode_huffman2_eos_asserts 0xfc [] []); [lia | solve_bytes | eexists; reflexivity].
Defined.
