(* ===== verification/Hpack.v ===== *)
(** * HPACK header decoding (probe-busybox/eperd/http2.c)

    Integers ([Xdecode_int2]), the dynamic table ([add_dyn], [Xget_dyn]), the
    effect of a header field on the connection ([Xreport_header]) and header
    fields ([Xdecode_header2]).  A C pointer into the input buffer is the list
    of the cells from there to the end of the allocation. *)

From S2P Require Import Prelude.
From S2P Require Import HpackTables.
From S2P Require Import Http2Env.
From S2P Require Import Huffman.
From stdpp Require Import base list numbers strings.
From Stdlib Require Import ZArith Lia.

Open Scope Z_scope.

Definition HPACK_IHF : Z := 0x80.
Definition HPACK_IHF_MASK : Z := 0x80.
Definition HPACK_IHF_PREFIX_LEN : Z := 1.
Definition HPACK_LHFII : Z := 0x40.
Definition HPACK_LHFII_MASK : Z := 0xC0.
Definition HPACK_LHFII_PREFIX_LEN : Z := 2.
Definition HPACK_LHFwI : Z := 0x00.
Definition HPACK_LHFwI_MASK : Z := 0xF0.
Definition HPACK_LHFwI_PREFIX_LEN : Z := 4.
Definition HPACK_INT_MORE : Z := 0x80.
Definition HPACK_H : Z := 0x80.
Definition HPACK_H_MASK : Z := 0x80.
Definition HPACK_H_PREFIX_LEN : Z := 1.

(** Error of the decompressor: GOAWAY with COMPRESSION_ERROR. *)
Definition comp_error (reason : string) : H unit := goaway HTTP2_COMPRESSION_ERROR reason.

(** [buf[i]] *)
Definition rd (buf : blk Z) (i : Z) : H Z := lift (load buf (Z.to_nat i)).

(** ** Integers *)

(** The loop [for (o= 1; o<len; o++)] of [Xdecode_int2]; [n] is [len - o].  The
    answer is the number of bytes used (0 after an error) and the value.  A
    shift by 32 or more is undefined behaviour. *)
Fixpoint decode_int2_loop (n : nat) (buf : blk Z) (o v max_value : Z) : H (Z * Z) :=
  match n with
  | O => comp_error "multi-byte int runs beyond buffer";; mret (0, 0)
  | S n' =>
      byte ← rd buf o;
      let new_bits := Z.land byte 0x7f in
      let shift := (o - 1) * 7 in
      if 32 <=? shift then mcrash Undefined
      else
        let new_value := u32 (new_bits ≪ shift) in
        if negb (new_value ≫ shift =? new_bits) then
          comp_error "overflow in multi-byte integer";; mret (0, 0)
        else
          let v := Z.lor v new_value in
          if negb (Z.land byte HPACK_INT_MORE =? 0) then
            decode_int2_loop n' buf (o + 1) v max_value
          else
            let v := u32 (v + max_value) in
            if v <? max_value then
              comp_error "overflow in multi-byte integer";; mret (0, 0)
            else mret (o + 1, v)
  end.

Definition Xdecode_int2 (buf : blk Z) (len prefix_len : Z) : H (Z * Z) :=
  massert (prefix_len <? 8);;
  let bits := 8 - prefix_len in
  let mask := (1 ≪ bits) - 1 in
  massert (1 <=? len);;
  byte ← rd buf 0;
  let byte := Z.land byte mask in
  if byte <? mask then mret (1, byte)
  else decode_int2_loop (Z.to_nat (len - 1)) buf 1 0 mask.

(** ** The dynamic table *)

(** [add_dyn]: the table is grown whenever [http2_dyn_max] is too small, but the
    new size is recorded in [http2_input_max]. *)
Definition add_dyn (key value : list Z) : H unit :=
  e ← get;
  (if http2_dyn_max e <? http2_dyn_idx e + 1 then
     let needed := http2_dyn_idx e + 16 in
     modify (set_http2_dyn (realloc (http2_dyn e) (Z.to_nat needed)));;
     modify (set_http2_input_max needed)
   else mret tt);;
  e ← get;
  d ← lift (store (http2_dyn e) (Z.to_nat (http2_dyn_idx e)) [Dyn key value]);
  modify (set_http2_dyn d);;
  modify (set_http2_dyn_idx (http2_dyn_idx e + 1)).

(** [Xget_dyn]: [None] stands for [return -1]. *)
Definition Xget_dyn (value : Z) : H (option dyn) :=
  if value <? HPACK_STATIC_NR then mcrash Fatal
  else
    let value := value - HPACK_STATIC_NR in
    e ← get;
    if http2_dyn_idx e <=? value then comp_error "bad dynamic index";; mret None
    else
      d ← lift (load (http2_dyn e) (Z.to_nat (http2_dyn_idx e - 1 - value)));
      mret (Some d).

(** ** Header fields the client looks at *)

Definition bytes_eqb (a b : list Z) : bool := bool_decide (a = b).

Definition HTTP2_HEADER_STATUS : list Z := bytes_of_string ":status".
Definition HTTP2_CONTENT_TYPE : list Z := bytes_of_string "content-type".
Definition TEXT_HTML : list Z := bytes_of_string "text/html".
Definition APPLICATION_DNS_MESSAGE : list Z := bytes_of_string "application/dns-message".

(** [memcasecmp] of two byte strings of the same length. *)
Fixpoint memcasecmp (p1 p2 : list Z) : Z :=
  match p1, p2 with
  | c1 :: p1', c2 :: p2' =>
      if c1 =? c2 then memcasecmp p1' p2'
      else if isascii c1 && isascii c2 && (tolower c1 =? tolower c2) then memcasecmp p1' p2'
      else if c1 <? c2 then -1 else 1
  | _, _ => 0
  end.

(** [Xparse_status_code2]: three digits; [None] stands for [return -1]. *)
Definition Xparse_status_code2 (value : list Z) : H (option Z) :=
  if negb (zlen value =? 3) then
    goaway HTTP2_PROTOCOL_ERROR "bad status code";; mret None
  else if negb (forallb isdigit value) then
    goaway HTTP2_PROTOCOL_ERROR "error parsing status code";; mret None
  else mret (Some (fold_left (λ a c, 10 * a + (c - 48)) value 0)).

Fixpoint skip_space (l : list Z) : list Z :=
  match l with
  | c :: l' => if isspace c then skip_space l' else l
  | [] => []
  end.

(** The media type of a content-type value: up to the first [';'], without the
    white space around it. *)
Fixpoint before_semicolon (l : list Z) : list Z :=
  match l with
  | c :: l' => if c =? 59 then [] else c :: before_semicolon l'
  | [] => []
  end.
Definition media_type (value : list Z) : list Z :=
  skip_space (reverse (skip_space (reverse (before_semicolon value)))).

(** [Xreport_header], with [verbose] off; the result is the C return value. *)
Definition Xreport_header (key value : list Z) : H Z :=
  r ← (if bytes_eqb key HTTP2_HEADER_STATUS then
         s ← Xparse_status_code2 value;
         match s with
         | None => mret (-1)
         | Some status => modify (set_status (Some status));; mret 0
         end
       else mret 0);
  if r =? -1 then mret (-1)
  else
    (if bytes_eqb key HTTP2_CONTENT_TYPE then
       let p := media_type value in
       (if (zlen p =? zlen TEXT_HTML) && (memcasecmp p TEXT_HTML =? 0)
        then modify (set_type_html true) else mret tt);;
       (if (zlen p =? zlen APPLICATION_DNS_MESSAGE) &&
           (memcasecmp p APPLICATION_DNS_MESSAGE =? 0)
        then modify (set_type_dns true) else mret tt)
     else mret tt);;
    mret 0.

(** ** Header fields *)

Section Decode.
Context (T : huffman_tables).

(** The length of a string literal at [buf[o]]: the offset behind the length,
    the length and the Huffman flag; [None] after an error. *)
Definition literal_length (buf : blk Z) (len o : Z) : H (option (Z * Z * bool)) :=
  if len <=? o then comp_error "out of space";; mret None
  else
    byte ← rd buf o;
    '(tmplen, value) ← Xdecode_int2 (drop (Z.to_nat o) buf) (len - o) HPACK_H_PREFIX_LEN;
    if tmplen =? 0 then mret None
    else
      let o := o + tmplen in
      massert (o <=? len);;
      if len - o <? value then comp_error "string too large for space";; mret None
      else mret (Some (o, value, Z.land byte HPACK_H_MASK =? HPACK_H)).

(** A name literal, copied into [namebuf[256]] and used as a C string. *)
Definition name_literal (buf : blk Z) (len o : Z) : H (option (Z * list Z)) :=
  l ← literal_length buf len o;
  match l with
  | None => mret None
  | Some (o, value, true) =>
      name ← Xdecode_huffman2 T (drop (Z.to_nat o) buf) value 255;
      if zlen name =? 0 then mret None else mret (Some (o + value, cstr name))
  | Some (o, value, false) =>
      if 255 <? value then comp_error "name too long";; mret None
      else
        name ← lift (loadn buf (Z.to_nat o) (Z.to_nat value));
        mret (Some (o + value, cstr name))
  end.

(** A value literal: Huffman coded into [strbuf[1024]], or in place. *)
Definition value_literal (buf : blk Z) (len o : Z) : H (option (Z * list Z)) :=
  l ← literal_length buf len o;
  match l with
  | None => mret None
  | Some (o, value, true) =>
      str ← Xdecode_huffman2 T (drop (Z.to_nat o) buf) value 1024;
      if zlen str =? 0 then mret None else mret (Some (o + value, str))
  | Some (o, value, false) =>
      str ← lift (loadn buf (Z.to_nat o) (Z.to_nat value));
      mret (Some (o + value, str))
  end.

(** [report_or_fail]: [r= Xreport_header(..); if (r == -1) return 0; return n]. *)
Definition report_or_fail (key value : list Z) (n : Z) : H Z :=
  r ← Xreport_header key value;
  if r =? -1 then mret 0 else mret n.

(** Indexed Header Field. *)
Definition decode_indexed (buf : blk Z) (len : Z) : H Z :=
  '(tmplen, value) ← Xdecode_int2 buf len HPACK_IHF_PREFIX_LEN;
  if tmplen =? 0 then mret 0
  else if value =? 0 then comp_error "bad index";; mret 0
  else if HPACK_STATIC_NR <? value then
    d ← Xget_dyn value;
    match d with
    | None => mret 0
    | Some d => report_or_fail (dyn_key d) (dyn_value d) tmplen
    end
  else
    match static_table !! Z.to_nat value with
    | Some (TE (Some name) (Some val)) =>
        add_dyn (bytes_of_string name) (bytes_of_string val);;
        report_or_fail (bytes_of_string name) (bytes_of_string val) tmplen
    | Some (TE _ None) => comp_error "entry has no value";; mret 0
    | _ => mcrash Undefined
    end.

(** Literal Header Field with Incremental Indexing or without Indexing, New
    Name: both are entered into the dynamic table. *)
Definition decode_new_name (buf : blk Z) (len : Z) : H Z :=
  n ← name_literal buf len 1;
  match n with
  | None => mret 0
  | Some (o, name) =>
      v ← value_literal buf len o;
      match v with
      | None => mret 0
      | Some (o, val) => add_dyn name val;; report_or_fail name val o
      end
  end.

(** The name of a literal with an indexed name; [None] after an error. *)
Definition indexed_name (value : Z) : H (option (list Z)) :=
  if HPACK_STATIC_NR <? value then
    d ← Xget_dyn value; mret (dyn_key <$> d)
  else
    match static_table !! Z.to_nat value with
    | Some (TE (Some name) _) => mret (Some (bytes_of_string name))
    | _ => mcrash Undefined
    end.

(** Literal Header Field, Indexed Name, with Incremental Indexing ([add] is
    true) or without Indexing. *)
Definition decode_indexed_name (prefix_len : Z) (add : bool) (buf : blk Z) (len : Z) : H Z :=
  '(tmplen, value) ← Xdecode_int2 buf len prefix_len;
  if tmplen =? 0 then mret 0
  else if value =? 0 then comp_error "bad index";; mret 0
  else
    n ← indexed_name value;
    match n with
    | None => mret 0
    | Some name =>
        v ← value_literal buf len tmplen;
        match v with
        | None => mret 0
        | Some (o, val) =>
            (if add then add_dyn name val else mret tt);;
            report_or_fail name val o
        end
    end.

(** [Xdecode_header2]: the number of bytes of one header field, 0 after an
    error. *)
Definition Xdecode_header2 (buf : blk Z) (len : Z) : H Z :=
  massert (zlen static_table =? HPACK_STATIC_NR + 1);;
  byte ← rd buf 0;
  if Z.land byte HPACK_IHF_MASK =? HPACK_IHF then decode_indexed buf len
  else if (byte =? HPACK_LHFII) || (byte =? HPACK_LHFwI) then decode_new_name buf len
  else if Z.land byte HPACK_LHFII_MASK =? HPACK_LHFII then
    decode_indexed_name HPACK_LHFII_PREFIX_LEN true buf len
  else if Z.land byte HPACK_LHFwI_MASK =? HPACK_LHFwI then
    decode_indexed_name HPACK_LHFwI_PREFIX_LEN false buf len
  else comp_error "bad first byte";; mret 0.

End Decode.
