(* ===== verification/HpackProofs.v ===== *)
(** * Correctness of HPACK header decoding

    Integers: round trip with the encoder, soundness, and the inputs on which
    the shift is undefined.  The dynamic table: which entry an index denotes.
    Header fields: functional behaviour of literals, bounds on the number of
    bytes used, rejected representations. *)

From S2P Require Import Prelude.
From S2P Require Import Bits.
From S2P Require Import HpackTables.
From S2P Require Import Http2Env.
From S2P Require Import Http2Send.
From S2P Require Import Huffman.
From S2P Require Import HuffmanProofs.
From S2P Require Import Hpack.
From stdpp Require Import base list numbers strings.
From Stdlib Require Import ZArith Lia.

Open Scope Z_scope.

(** ** Integers *)

(** Value of continuation bytes. *)
Fixpoint tail_value (l : list Z) : Z :=
  match l with
  | [] => 0
  | b :: l' => b `mod` 128 + 128 * tail_value l'
  end.

(** All continuation bytes but the last have the high bit set. *)
Fixpoint tail_wf (l : list Z) : Prop :=
  match l with
  | [] => False
  | [b] => b < 128
  | b :: l' => 128 ≤ b ∧ tail_wf l'
  end.

(** [int_decodes prefix_len bytes v]: [bytes] represent [v] behind a prefix of
    [prefix_len] bits. *)
Definition int_decodes (prefix_len : Z) (bytes : list Z) (v : Z) : Prop :=
  let max := 2 ^ (8 - prefix_len) - 1 in
  match bytes with
  | [] => False
  | b :: l => if decide (b `mod` 2 ^ (8 - prefix_len) < max)
              then l = [] ∧ v = b `mod` 2 ^ (8 - prefix_len)
              else tail_wf l ∧ v = max + tail_value l
  end.

Lemma load_app {A} (pre : blk A) a rest : load (pre ++ Some a :: rest) (length pre) = Done a.
Proof. unfold load. by rewrite list_lookup_middle. Qed.

Lemma rd_app pre a rest (e : http2_env) o :
  o = zlen pre → rd (pre ++ Some a :: rest) o e = Done (a, e).
Proof. intros ->. unfold rd, zlen. rewrite Nat2Z.id. by rewrite load_app. Qed.

Lemma lor_shiftl a b n : 0 ≤ n → 0 ≤ a < 2 ^ n → Z.lor a (b ≪ n) = a + b * 2 ^ n.
Proof.
  intros Hn Ha. rewrite Z.lor_comm, Z.shiftl_mul_pow2 by done.
  rewrite (lor_add _ a n); [lia|done|done|]. apply Z.mod_mul. lia.
Qed.

Lemma land_80 b : 0 ≤ b < 256 → Z.land b 0x80 = if b <? 128 then 0 else 0x80.
Proof.
  intros Hb. assert (∀ n, (n < 256)%nat → Z.land (Z.of_nat n) 0x80 =
    if Z.of_nat n <? 128 then 0 else 0x80) as Hall.
  { intros n Hn. do 256 (destruct n as [|n]; [reflexivity|]). lia. }
  specialize (Hall (Z.to_nat b)). rewrite Z2Nat.id in Hall by lia. apply Hall. lia.
Qed.

(** One continuation byte [b], as [decode_int2_loop] treats it when nothing
    overflows. *)
Lemma int2_loop_step n pre b rest o v max e :
  o = zlen pre → 0 ≤ b < 256 → 1 ≤ o → (o - 1) * 7 < 32 → 0 ≤ v < 2 ^ ((o - 1) * 7) →
  (b `mod` 128) * 2 ^ ((o - 1) * 7) < 2 ^ 32 →
  decode_int2_loop (S n) (pre ++ Some b :: rest) o v max e =
  (if 128 <=? b then
     decode_int2_loop n (pre ++ Some b :: rest) (o + 1)
       (v + (b `mod` 128) * 2 ^ ((o - 1) * 7)) max e
   else
     let v := u32 (v + (b `mod` 128) * 2 ^ ((o - 1) * 7) + max) in
     (if v <? max then comp_error "overflow in multi-byte integer";; mret (0, 0)
      else mret (o + 1, v)) e).
Proof.
  intros Ho Hb Ho1 Hs Hv Hlt. simpl decode_int2_loop.
  rewrite (M_bind_done _ _ _ _ _ (rd_app pre b rest e o Ho)).
  destruct (Z.leb_spec 32 ((o - 1) * 7)); [lia|].
  change 0x7f with (2 ^ 7 - 1). rewrite land_ones_mod by lia. change (2 ^ 7) with 128.
  pose proof (Z.mod_pos_bound b 128 ltac:(lia)).
  assert (0 < 2 ^ ((o - 1) * 7)) by (apply Z.pow_pos_nonneg; lia).
  rewrite u32_small by (rewrite Z.shiftl_mul_pow2 by lia; nia).
  rewrite Z.shiftr_shiftl_l, Z.sub_diag, Z.shiftl_0_r, Z.eqb_refl by lia. simpl negb.
  rewrite lor_shiftl by lia. unfold HPACK_INT_MORE. rewrite land_80 by done.
  destruct (Z.ltb_spec b 128), (Z.leb_spec 128 b); try lia; done.
Qed.

Lemma int_tail_decodes fuel w pre rest n o v max e :
  o = zlen pre → 1 ≤ o → 0 ≤ max → 0 ≤ w < 128 ^ Z.of_nat fuel → (0 < fuel)%nat →
  (o = 1 ∨ 1 ≤ w) → 0 ≤ v < 2 ^ ((o - 1) * 7) →
  v + w * 2 ^ ((o - 1) * 7) + max < 2 ^ 32 → (length (int_tail fuel w) ≤ n)%nat →
  decode_int2_loop n (pre ++ (Some <$> int_tail fuel w) ++ rest) o v max e =
  Done ((o + zlen (int_tail fuel w), v + w * 2 ^ ((o - 1) * 7) + max), e).
Proof.
  revert w pre n o v. induction fuel as [|fuel IH]; intros w pre n o v Ho Ho1 Hm Hw Hf Hw1 Hv Hlt Hn;
    [lia|].
  assert (0 < 2 ^ ((o - 1) * 7)) as Hp by (apply Z.pow_pos_nonneg; lia).
  assert ((o - 1) * 7 < 32) as Hs.
  { destruct Hw1 as [->|Hw1]; [lia|]. apply (Z.pow_lt_mono_r_iff 2); [lia|lia|]. nia. }
  rewrite Nat2Z.inj_succ, Z.pow_succ_r in Hw by lia.
  simpl int_tail in *. destruct (Z.ltb_spec w 128) as [Hlow|Hhigh].
  - destruct n as [|n]; [simpl in Hn; lia|]. rewrite fmap_cons. cbn [app].
    rewrite int2_loop_step; [|done|lia|lia|lia|done|rewrite Z.mod_small by lia; nia].
    rewrite (Z.mod_small w) by lia. destruct (Z.leb_spec 128 w); [lia|]. cbv zeta.
    rewrite u32_small by nia. destruct (Z.ltb_spec (v + w * 2 ^ ((o - 1) * 7) + max) max); [nia|].
    done.
  - destruct n as [|n]; [simpl in Hn; lia|]. rewrite fmap_cons. cbn [app].
    pose proof (Z.mod_pos_bound w 128 ltac:(lia)) as Hr.
    pose proof (Z.div_mod w 128 ltac:(lia)) as Hdm.
    assert ((128 + w `mod` 128) `mod` 128 = w `mod` 128) as Hmod.
    { Z.to_euclidean_division_equations. lia. }
    rewrite int2_loop_step; [|done|lia|lia|lia|done|rewrite Hmod; nia].
    rewrite Hmod. destruct (Z.leb_spec 128 (128 + w `mod` 128)); [|lia].
    simpl in Hn.
    assert (2 ^ ((o + 1 - 1) * 7) = 128 * 2 ^ ((o - 1) * 7)) as Hpow.
    { replace ((o + 1 - 1) * 7) with (7 + (o - 1) * 7) by lia. by rewrite Z.pow_add_r by lia. }
    replace (pre ++ Some (128 + w `mod` 128) :: (Some <$> int_tail fuel (w / 128)) ++ rest) with
      ((pre ++ [Some (128 + w `mod` 128)]) ++ (Some <$> int_tail fuel (w / 128)) ++ rest)
      by by rewrite <- app_assoc.
    assert (1 ≤ w / 128) by (apply Z.div_le_lower_bound; lia).
    rewrite IH; rewrite ?Hpow.
    + f_equal. f_equal. f_equal; [|nia]. rewrite zlen_cons. lia.
    + rewrite zlen_app, Ho. done.
    + lia.
    + lia.
    + split; [lia|apply Z.div_lt_upper_bound; lia].
    + destruct fuel; [simpl in Hw|]; lia.
    + by right.
    + nia.
    + nia.
    + lia.
Qed.

(** The cells of a buffer hold bytes. *)
Definition cells_ok (buf : blk Z) : Prop := ∀ i b, buf !! i = Some (Some b) → is_byte b.

Lemma cells_ok_bytes l : Forall is_byte l → cells_ok (Some <$> l).
Proof.
  intros Hl i b E. rewrite list_lookup_fmap in E.
  destruct (l !! i) as [c|] eqn:Ec; [|done]. injection E as ->.
  by apply (Forall_lookup_1 _ _ _ _ Hl Ec).
Qed.
Lemma cells_ok_drop n buf : cells_ok buf → cells_ok (drop n buf).
Proof. intros Hb i b. rewrite lookup_drop. apply Hb. Qed.

Lemma rd_inv buf o e r :
  rd buf o e = r →
  (∃ b, r = Done (b, e) ∧ buf !! Z.to_nat o = Some (Some b)) ∨ r = Crash Undefined.
Proof.
  unfold rd, load. intros <-. destruct (buf !! Z.to_nat o) as [[b|]|]; [left|right..]; eauto.
Qed.

(** An error of the decompressor is [Done] with 0, or a crash on a closed
    connection. *)
Lemma comp_error_inv {A} reason (a : A) e r e' :
  (comp_error reason;; mret a) e = Done (r, e') → r = a.
Proof.
  unfold comp_error. intros E. destruct (outbuf e) as [q|] eqn:Eq.
  - rewrite (M_bind_done _ _ _ _ _ (goaway_some _ _ _ _ Eq)) in E. msimpl_in E. congruence.
  - by rewrite (M_bind_crash _ _ _ _ (goaway_none _ _ _ Eq)) in E.
Qed.

(** The overflow check of one byte. *)
Lemma shift_check nb s :
  0 ≤ nb → 0 ≤ s → u32 (nb ≪ s) ≫ s = nb → nb * 2 ^ s < 2 ^ 32 ∧ u32 (nb ≪ s) = nb * 2 ^ s.
Proof.
  intros Hnb Hs E. assert (0 < 2 ^ s) by (apply Z.pow_pos_nonneg; lia).
  rewrite Z.shiftr_div_pow2 in E by lia.
  pose proof (Z.mod_pos_bound (nb ≪ s) (2 ^ 32) ltac:(lia)) as Hu. fold (u32 (nb ≪ s)) in Hu.
  pose proof (Z.mul_div_le (u32 (nb ≪ s)) (2 ^ s) ltac:(lia)) as Hle. rewrite E in Hle.
  assert (nb * 2 ^ s < 2 ^ 32) by lia. split; [done|].
  rewrite Z.shiftl_mul_pow2 by lia. apply u32_small. nia.
Qed.

Lemma acc_bound v nb s :
  0 ≤ s ≤ 32 → 0 ≤ v < 2 ^ s → nb * 2 ^ s < 2 ^ 32 → v + nb * 2 ^ s < 2 ^ 32.
Proof.
  intros Hs Hv Hnb. assert (2 ^ 32 = 2 ^ (32 - s) * 2 ^ s) as E.
  { rewrite <- Z.pow_add_r by lia. f_equal. lia. }
  assert (nb < 2 ^ (32 - s)) by nia. nia.
Qed.

Lemma drop_lookup {A} (l : list A) n x : l !! n = Some x → drop n l = x :: drop (S n) l.
Proof. apply drop_S. Qed.

Lemma int2_loop_sound n buf o v max e r v' e' :
  cells_ok buf → 1 ≤ o → 0 ≤ v < 2 ^ ((o - 1) * 7) → 0 ≤ max < 2 ^ 32 →
  decode_int2_loop n buf o v max e = Done ((r, v'), e') → r ≠ 0 →
  ∃ tl, take (length tl) (drop (Z.to_nat o) buf) = Some <$> tl ∧ tail_wf tl ∧
        r = o + zlen tl ∧ zlen tl ≤ Z.of_nat n ∧
        v' = v + tail_value tl * 2 ^ ((o - 1) * 7) + max ∧ v' < 2 ^ 32 ∧ e' = e.
Proof.
  intros Hb. revert o v. induction n as [|n IH]; intros o v Ho Hv Hmax E Hr.
  { apply comp_error_inv in E. congruence. }
  simpl decode_int2_loop in E.
  destruct (rd_inv buf o e _ eq_refl) as [(b & Eb & Elk)|Ec];
    [rewrite (M_bind_done _ _ _ _ _ Eb) in E|by rewrite (M_bind_crash _ _ _ _ Ec) in E].
  pose proof (Hb _ _ Elk) as Hbyte. unfold is_byte in Hbyte.
  destruct (Z.leb_spec 32 ((o - 1) * 7)) as [|Hs]; [done|].
  change 0x7f with (2 ^ 7 - 1) in E. rewrite land_ones_mod in E by lia. change (2 ^ 7) with 128 in E.
  pose proof (Z.mod_pos_bound b 128 ltac:(lia)) as Hnb.
  destruct (Z.eqb_spec (u32 ((b `mod` 128) ≪ ((o - 1) * 7)) ≫ ((o - 1) * 7)) (b `mod` 128)) as [Ech|_];
    cbn [negb] in E; [|apply comp_error_inv in E; congruence].
  apply shift_check in Ech as [Hlt Ech]; [|lia|lia]. rewrite Ech in E.
  rewrite <- Z.shiftl_mul_pow2, lor_shiftl in E by lia.
  pose proof (acc_bound v (b `mod` 128) ((o - 1) * 7) ltac:(lia) Hv Hlt) as Hacc.
  assert (0 < 2 ^ ((o - 1) * 7)) by (apply Z.pow_pos_nonneg; lia).
  unfold HPACK_INT_MORE in E. rewrite land_80 in E by lia.
  apply drop_S in Elk. destruct (Z.ltb_spec b 128) as [Hlast|Hmore]; cbn [negb Z.eqb] in E.
  - destruct (Z.ltb_spec (u32 (v + b `mod` 128 * 2 ^ ((o - 1) * 7) + max)) max);
      [apply comp_error_inv in E; congruence|].
    msimpl_in E. injection E as <- <- <-. exists [b]. rewrite Elk. simpl.
    assert (v + b `mod` 128 * 2 ^ ((o - 1) * 7) + max < 2 ^ 32).
    { destruct (Z.lt_ge_cases (v + b `mod` 128 * 2 ^ ((o - 1) * 7) + max) (2 ^ 32)); [done|].
      exfalso. unfold u32 in *.
      rewrite <- (Z.mod_add _ (-1)), Z.mod_small in H0 by nia. nia. }
    rewrite u32_small by nia. rewrite zlen_cons, zlen_nil. repeat split; try lia.
  - assert (2 ^ ((o + 1 - 1) * 7) = 128 * 2 ^ ((o - 1) * 7)) as Hpow.
    { replace ((o + 1 - 1) * 7) with (7 + (o - 1) * 7) by lia. by rewrite Z.pow_add_r by lia. }
    apply IH in E as (tl & Ht & Hwf & -> & Hn & -> & Hv' & ->); [|lia|rewrite Hpow; nia|done|done].
    exists (b :: tl). rewrite Elk. rewrite Hpow in *.
    replace (Z.to_nat (o + 1)) with (S (Z.to_nat o)) in Ht by lia.
    rewrite zlen_cons. cbn [length take fmap list_fmap tail_value]. rewrite Ht.
    repeat split; try nia. destruct tl; [done|]. split; [lia|done].
Qed.

Lemma pow_prefix prefix_len : 0 ≤ prefix_len < 8 → 2 ≤ 2 ^ (8 - prefix_len) ≤ 256.
Proof.
  intros Hp. split; [apply (Z.pow_le_mono_r 2 1)|apply (Z.pow_le_mono_r 2 _ 8)]; lia.
Qed.

(** The first byte of an integer, and the two ways to go on. *)
Lemma Xdecode_int2_first buf len prefix_len b e :
  0 ≤ prefix_len < 8 → 1 ≤ len → buf !! 0%nat = Some (Some b) →
  Xdecode_int2 buf len prefix_len e =
  (if b `mod` 2 ^ (8 - prefix_len) <? 2 ^ (8 - prefix_len) - 1
   then mret (1, b `mod` 2 ^ (8 - prefix_len))
   else decode_int2_loop (Z.to_nat (len - 1)) buf 1 0 (2 ^ (8 - prefix_len) - 1)) e.
Proof.
  intros Hp Hl Eb. unfold Xdecode_int2.
  replace (prefix_len <? 8) with true by lia. replace (1 <=? len) with true by lia. msimpl.
  unfold rd, load. change (Z.to_nat 0) with 0%nat. rewrite Eb. msimpl. rewrite Z.shiftl_1_l, land_ones_mod by lia. done.
Qed.

Lemma int_bytes_nonempty prefix_len prefix_value value :
  ∃ b l, int_bytes prefix_len prefix_value value = b :: l.
Proof. unfold int_bytes. destruct (_ <? _); eauto. Qed.

Lemma Xdecode_int2_int_bytes prefix_len prefix_value value rest len e :
  0 ≤ prefix_len < 8 → prefix_value `mod` 2 ^ (8 - prefix_len) = 0 → is_u32 value →
  zlen (int_bytes prefix_len prefix_value value) ≤ len →
  Xdecode_int2 ((Some <$> int_bytes prefix_len prefix_value value) ++ rest) len prefix_len e =
  Done ((zlen (int_bytes prefix_len prefix_value value), value), e).
Proof.
  intros Hp Hmod Hv Hlen. pose proof (pow_prefix prefix_len Hp) as Hm.
  unfold is_u32 in Hv. unfold int_bytes in *.
  assert (∀ x, 0 ≤ x < 2 ^ (8 - prefix_len) → (prefix_value + x) `mod` 2 ^ (8 - prefix_len) = x) as Hx.
  { intros x Hx. rewrite Z.add_mod, Hmod, Z.add_0_l, Z.mod_mod by lia. by apply Z.mod_small. }
  set (m := 2 ^ (8 - prefix_len)) in *.
  destruct (Z.ltb_spec value (m - 1)).
  - erewrite Xdecode_int2_first; [|done|rewrite zlen_cons, zlen_nil in Hlen; lia|done].
    fold m. rewrite Hx by lia. destruct (Z.ltb_spec value (m - 1)); [done|lia].
  - rewrite zlen_cons in Hlen. pose proof (zlen_nonneg (int_tail 6 (value - (m - 1)))).
    erewrite Xdecode_int2_first; [|done|lia|done]. fold m. rewrite Hx by lia.
    destruct (Z.ltb_spec (m - 1) (m - 1)); [lia|].
    rewrite fmap_cons. change ((?x :: ?l) ++ ?r) with ([x] ++ l ++ r).
    assert (value - (m - 1) < 128 ^ Z.of_nat 6).
    { change (128 ^ Z.of_nat 6) with (2 ^ 42). lia. }
    rewrite int_tail_decodes; [|done|lia|lia|lia|lia|by left|simpl; lia|simpl; lia|unfold zlen in *; lia].
    rewrite zlen_cons. f_equal. f_equal. f_equal; [lia|]. simpl. lia.
Qed.

(** Results of [Xdecode_int2], for all inputs. *)
Lemma Xdecode_int2_inv buf len prefix_len e n v e' :
  cells_ok buf → 0 ≤ prefix_len < 8 →
  Xdecode_int2 buf len prefix_len e = Done ((n, v), e') → n ≠ 0 →
  e' = e ∧ 1 ≤ n ≤ len ∧ is_u32 v ∧
  ∃ bytes, take (Z.to_nat n) buf = Some <$> bytes ∧ zlen bytes = n ∧
           int_decodes prefix_len bytes v.
Proof.
  intros Hb Hp E Hn. pose proof (pow_prefix prefix_len Hp) as Hm.
  destruct (Z.leb_spec 1 len) as [Hl|Hl].
  2: { unfold Xdecode_int2 in E. replace (prefix_len <? 8) with true in E by lia.
       replace (1 <=? len) with false in E by lia. done. }
  destruct (buf !! 0%nat) as [[b|]|] eqn:Eb.
  2,3: unfold Xdecode_int2 in E; replace (prefix_len <? 8) with true in E by lia;
       replace (1 <=? len) with true in E by lia; msimpl_in E;
       unfold rd, load in E; change (Z.to_nat 0) with 0%nat in E; rewrite Eb in E; done.
  rewrite (Xdecode_int2_first buf len prefix_len b e Hp Hl Eb) in E.
  pose proof (Z.mod_pos_bound b (2 ^ (8 - prefix_len)) ltac:(lia)) as Hbm.
  destruct (Z.ltb_spec (b `mod` 2 ^ (8 - prefix_len)) (2 ^ (8 - prefix_len) - 1)) as [Hlow|Hhigh].
  - msimpl_in E. injection E as <- <- <-. split; [done|]. split; [lia|].
    split; [unfold is_u32; lia|]. exists [b]. split; [|split; [done|]].
    + change (Z.to_nat 1) with 1%nat. apply drop_S in Eb. rewrite drop_0 in Eb. by rewrite Eb.
    + unfold int_decodes. by rewrite decide_True.
  - apply int2_loop_sound in E as (tl & Ht & Hwf & -> & Hz & -> & Hv & ->); try done; try lia.
    split; [done|]. pose proof (zlen_nonneg tl). split; [lia|].
    assert (∀ l, 0 ≤ tail_value l) as Htv.
    { induction l as [|x l IHl]; simpl; [lia|]. pose proof (Z.mod_pos_bound x 128). lia. }
    specialize (Htv tl). split; [unfold is_u32; simpl in *; lia|].
    exists (b :: tl). apply drop_S in Eb. rewrite drop_0 in Eb.
    rewrite zlen_cons. split; [|split; [lia|]].
    + rewrite Eb, Z2Nat.inj_add by lia. change (Z.to_nat 1) with 1%nat in *.
      unfold zlen. rewrite Nat2Z.id. simpl. f_equal. rewrite Eb in Ht. exact Ht.
    + unfold int_decodes. rewrite decide_False by lia. split; [done|]. simpl. lia.
Qed.

(** ** The dynamic table *)

(** [dyn_ok e l]: the dynamic table of [e] has the entries [l], oldest first.
    [http2_dyn_max] keeps its initial value because [add_dyn] never sets it. *)
Record dyn_ok (e : http2_env) (l : list dyn) : Prop := {
  dyn_cells : take (length l) (http2_dyn e) = Some <$> l;
  dyn_index : http2_dyn_idx e = zlen l;
  dyn_max_0 : http2_dyn_max e = 0
}.

(** The rest of the connection state, but for [http2_input_max]. *)
Definition no_dyn (e : http2_env) : http2_env :=
  set_http2_dyn [] (set_http2_dyn_idx 0 (set_http2_input_max 0 e)).

Lemma dyn_ok_init : dyn_ok http2_init [].
Proof. by split. Qed.

Lemma add_dyn_ok e l k v :
  dyn_ok e l →
  ∃ e', add_dyn k v e = Done (tt, e') ∧ dyn_ok e' (l ++ [Dyn k v]) ∧
        no_dyn e' = no_dyn e ∧ http2_input_max e' = zlen l + 16.
Proof.
  intros [Hc Hi Hm]. pose proof (zlen_nonneg l). unfold add_dyn. msimpl. rewrite Hm, Hi.
  destruct (Z.ltb_spec 0 (zlen l + 1)); [|lia]. msimpl. simpl. rewrite Hi.
  destruct (store_ok (realloc (http2_dyn e) (Z.to_nat (zlen l + 16))) (Z.to_nat (zlen l)) [Dyn k v])
    as (b & E & Hl & Ht); [rewrite length_realloc; simpl; lia|].
  assert (length l ≤ length (http2_dyn e))%nat as Hle.
  { apply (f_equal length) in Hc. rewrite length_take, length_fmap in Hc. lia. }
  rewrite E. msimpl. eexists. split; [reflexivity|]. split; [|done].
  split; simpl; [|by rewrite zlen_app|done].
  unfold zlen in Ht. rewrite Nat2Z.id in Ht. rewrite length_app, Ht, fmap_app. f_equal.
  rewrite take_realloc; [done|done|unfold zlen; lia].
Qed.

Lemma Xget_dyn_ok e l value :
  dyn_ok e l → HPACK_STATIC_NR ≤ value →
  Xget_dyn value e =
    match reverse l !! Z.to_nat (value - HPACK_STATIC_NR) with
    | Some d => Done (Some d, e)
    | None => (comp_error "bad dynamic index";; mret None) e
    end.
Proof.
  intros [Hc Hi _] Hv. unfold Xget_dyn.
  destruct (Z.ltb_spec value HPACK_STATIC_NR); [lia|]. msimpl. rewrite Hi.
  set (n := value - HPACK_STATIC_NR) in *. assert (0 ≤ n) by (unfold n; lia). unfold zlen.
  destruct (Z.leb_spec (Z.of_nat (length l)) n).
  - rewrite lookup_ge_None_2; [done|]. rewrite length_reverse. lia.
  - rewrite reverse_lookup by lia.
    replace (Z.to_nat (Z.of_nat (length l) - 1 - n)) with (length l - S (Z.to_nat n))%nat by lia.
    destruct (l !! (length l - S (Z.to_nat n))%nat) as [d|] eqn:Ed.
    + unfold load. rewrite <- (lookup_take_lt _ (length l)), Hc, list_lookup_fmap, Ed by lia. done.
    + apply lookup_ge_None in Ed. lia.
Qed.

(** ** Header fields: bounds *)

Lemma literal_length_inv buf len o e o' value h e' :
  cells_ok buf → 0 ≤ o →
  literal_length buf len o e = Done (Some (o', value, h), e') →
  e' = e ∧ o < o' ≤ len ∧ 0 ≤ value ≤ len - o'.
Proof.
  intros Hb Ho E. unfold literal_length in E.
  destruct (Z.leb_spec len o); [by apply comp_error_inv in E|].
  minv E. destruct (rd_inv _ _ _ _ E0) as [(b & [= -> ->] & Eb)|?]; [|done].
  minv E. destruct a as [tmplen v].
  destruct (Z.eqb_spec tmplen 0); [msimpl_in E; done|].
  apply Xdecode_int2_inv in E1 as (-> & Hn & Hv & _); [|by apply cells_ok_drop|done|done].
  replace (o + tmplen <=? len) with true in E by lia. msimpl_in E.
  destruct (Z.ltb_spec (len - (o + tmplen)) v); [by apply comp_error_inv in E|].
  msimpl_in E. injection E as <- <- <- <-. unfold is_u32 in Hv. split; [done|lia].
Qed.

Lemma name_literal_inv T buf len o e o' s e' :
  cells_ok buf → 0 ≤ o →
  name_literal T buf len o e = Done (Some (o', s), e') → o < o' ≤ len.
Proof.
  intros Hb Ho E. unfold name_literal in E. minv E.
  destruct a as [[[o1 v] [|]]|]; [| |done].
  - apply literal_length_inv in E0 as (-> & ? & ?); [|done|done]. minv E.
    destruct (_ =? 0); [done|]. injection E as <- _. lia.
  - apply literal_length_inv in E0 as (-> & ? & ?); [|done|done].
    destruct (255 <? v); [by apply comp_error_inv in E|]. minv E. injection E as <- _. lia.
Qed.

Lemma value_literal_inv T buf len o e o' s e' :
  cells_ok buf → 0 ≤ o →
  value_literal T buf len o e = Done (Some (o', s), e') → o < o' ≤ len.
Proof.
  intros Hb Ho E. unfold value_literal in E. minv E.
  destruct a as [[[o1 v] [|]]|]; [| |done].
  - apply literal_length_inv in E0 as (-> & ? & ?); [|done|done]. minv E.
    destruct (_ =? 0); [done|]. injection E as <- _. lia.
  - apply literal_length_inv in E0 as (-> & ? & ?); [|done|done].
    minv E. injection E as <- _. lia.
Qed.

Lemma report_or_fail_inv k v n e r e' :
  report_or_fail k v n e = Done (r, e') → r = 0 ∨ r = n.
Proof.
  unfold report_or_fail. intros E. minv E. destruct (_ =? -1); msimpl_in E; injection E; auto.
Qed.

Lemma decode_indexed_inv buf len e n e' :
  cells_ok buf → 0 ≤ len → decode_indexed buf len e = Done (n, e') → 0 ≤ n ≤ len.
Proof.
  intros Hb Hl E. unfold decode_indexed in E. minv E. destruct a as [tmplen value].
  destruct (Z.eqb_spec tmplen 0); [injection E as <- _; lia|].
  apply Xdecode_int2_inv in E0 as (-> & Hn & _); [|done|done|done].
  destruct (value =? 0); [apply comp_error_inv in E; lia|].
  destruct (HPACK_STATIC_NR <? value).
  - minv E. destruct a as [d|]; [apply report_or_fail_inv in E; lia|injection E; lia].
  - destruct (static_table !! Z.to_nat value) as [[[name|] [val|]]|]; try done;
      try (apply comp_error_inv in E; lia).
    minv E. apply report_or_fail_inv in E. lia.
Qed.

Lemma decode_new_name_inv T buf len e n e' :
  cells_ok buf → 0 ≤ len → decode_new_name T buf len e = Done (n, e') → 0 ≤ n ≤ len.
Proof.
  intros Hb Hl E. unfold decode_new_name in E. minv E.
  destruct a as [[o name]|]; [|injection E; lia].
  apply name_literal_inv in E0; [|done|lia]. minv E.
  destruct a as [[o' val]|]; [|injection E; lia].
  apply value_literal_inv in E1; [|done|lia].
  minv E. apply report_or_fail_inv in E. lia.
Qed.

Lemma decode_indexed_name_inv T prefix_len add buf len e n e' :
  cells_ok buf → 0 ≤ len → 0 ≤ prefix_len < 8 →
  decode_indexed_name T prefix_len add buf len e = Done (n, e') → 0 ≤ n ≤ len.
Proof.
  intros Hb Hl Hp E. unfold decode_indexed_name in E. minv E. destruct a as [tmplen value].
  destruct (Z.eqb_spec tmplen 0); [injection E as <- _; lia|].
  apply Xdecode_int2_inv in E0 as (-> & Hn & _); [|done|done|done].
  destruct (value =? 0); [apply comp_error_inv in E; lia|].
  minv E. destruct a as [name|]; [|injection E; lia].
  minv E. destruct a as [[o val]|]; [|injection E; lia].
  apply value_literal_inv in E1; [|done|lia].
  minv E. apply report_or_fail_inv in E. lia.
Qed.

Lemma Xdecode_header2_inv T buf len e n e' :
  cells_ok buf → 0 ≤ len → Xdecode_header2 T buf len e = Done (n, e') → 0 ≤ n ≤ len.
Proof.
  intros Hb Hl E. unfold Xdecode_header2 in E. minv E. minv E.
  destruct (_ =? HPACK_IHF); [eapply decode_indexed_inv; [..|exact E]; (done || lia)|].
  destruct (_ || _); [eapply decode_new_name_inv; [..|exact E]; (done || lia)|].
  destruct (_ =? HPACK_LHFII); [eapply decode_indexed_name_inv; [..|exact E]; (done || lia)|].
  destruct (_ =? HPACK_LHFwI); [eapply decode_indexed_name_inv; [..|exact E]; (done || lia)|].
  apply comp_error_inv in E. lia.
Qed.

(** ** Header fields: what a representation means *)

(** [literal max s bytes]: [bytes] is a string literal for [s], raw or Huffman
    coded; a Huffman coded one has to fit a buffer of [max] bytes, is not empty
    and does not end in byte 254 at a byte boundary. *)
Inductive literal (max : Z) (s : list Z) : list Z → Prop :=
| literal_raw : zlen s < 2 ^ 32 → literal max s (str_bytes s)
| literal_huffman p bs :
    Forall is_byte s → Forall is_byte bs → s ≠ [] → zlen bs < 2 ^ 32 →
    bytes_bits bs = huff_code s ++ replicate p true → (p < 8)%nat →
    (last s = Some 254 → p ≠ 0%nat) → zlen s ≤ max →
    literal max s (int_bytes 1 0x80 (zlen bs) ++ bs).

(** The representations of a header field: an index of the static or of the dynamic table, or a literal with or without
    incremental indexing and with a new or an indexed name. *)
Inductive repr := Indexed (static : bool) | Literal (incremental new_name : bool).
(** The fields that RFC 7541 lets a decoder enter into its dynamic table: literals with incremental indexing. *)
Definition rfc_enters (r : repr) : bool := match r with Literal incremental _ => incremental | Indexed _ => false end.
(** The fields [Xdecode_header2] enters: also those of the static table and the literals without indexing that have a new name. *)
Definition enters (r : repr) : bool :=
  match r with Literal incremental new_name => incremental || new_name | Indexed static => static end.

Lemma enters_rfc r : enters r = rfc_enters r ↔ r ≠ Indexed true ∧ r ≠ Literal false true.
Proof. destruct r as [[]|[] []]; cbn; intuition congruence. Qed.

(** [field_repr l bytes name value r]: the representations of a header field
    that the decoder understands when its dynamic table is [l]. *)
Inductive field_repr (l : list dyn) : list Z → list Z → list Z → repr → Prop :=
| repr_static i name value :
    0 < i ≤ HPACK_STATIC_NR → static_table !! Z.to_nat i = Some (TE (Some name) (Some value)) →
    field_repr l (int_bytes 1 0x80 i) (bytes_of_string name) (bytes_of_string value) (Indexed true)
| repr_dynamic i d :
    HPACK_STATIC_NR < i < 2 ^ 32 → reverse l !! Z.to_nat (i - HPACK_STATIC_NR) = Some d →
    field_repr l (int_bytes 1 0x80 i) (dyn_key d) (dyn_value d) (Indexed false)
| repr_new_name (incremental : bool) name value nb vb :
    cstr name = name → zlen name ≤ 255 →
    literal 255 name nb → literal 1024 value vb →
    field_repr l ((if incremental then HPACK_LHFII else HPACK_LHFwI) :: nb ++ vb) name value (Literal incremental true)
| repr_static_name (incremental : bool) i name v value vb :
    0 < i ≤ HPACK_STATIC_NR → static_table !! Z.to_nat i = Some (TE (Some name) v) →
    literal 1024 value vb →
    field_repr l ((if incremental then int_bytes 2 0x40 i else int_bytes 4 0x00 i) ++ vb)
      (bytes_of_string name) value (Literal incremental false)
| repr_dynamic_name (incremental : bool) i d value vb :
    HPACK_STATIC_NR < i < 2 ^ 32 → reverse l !! Z.to_nat (i - HPACK_STATIC_NR) = Some d →
    literal 1024 value vb →
    field_repr l ((if incremental then int_bytes 2 0x40 i else int_bytes 4 0x00 i) ++ vb)
      (dyn_key d) value (Literal incremental false).

(** The buffer [pre ++ bytes ++ tl] with the C pointer at [bytes]. *)
Lemma drop_cells (pre : list Z) (rest : blk Z) o :
  o = zlen pre → drop (Z.to_nat o) ((Some <$> pre) ++ rest) = rest.
Proof.
  intros ->. unfold zlen. rewrite Nat2Z.id. rewrite <- (length_fmap Some pre).
  by rewrite drop_app_length.
Qed.

Lemma first_byte_flag b n (pre : blk Z) bs :
  ∃ x, (Some <$> int_bytes 1 b n) ++ (Some <$> bs) ++ pre = Some x :: drop 1 ((Some <$> int_bytes 1 b n) ++ (Some <$> bs) ++ pre) ∧
       int_bytes 1 b n = x :: drop 1 (int_bytes 1 b n) ∧
       (b = 0 → 0 ≤ n → 0 ≤ x < 128) ∧ (b = 0x80 → 0 ≤ n → 128 ≤ x < 256).
Proof.
  unfold int_bytes. change (2 ^ (8 - 1) - 1) with 127.
  destruct (Z.ltb_spec n 127); simpl; eexists; (split; [reflexivity|]); (split; [reflexivity|]); lia.
Qed.

(** [literal_length] on a length written by [int_bytes], raw or Huffman. *)
Lemma literal_length_ok pre (h : bool) (bs : list Z) tl len o e :
  o = zlen pre → zlen bs < 2 ^ 32 →
  zlen (pre ++ int_bytes 1 (if h then 0x80 else 0) (zlen bs) ++ bs) ≤ len →
  literal_length ((Some <$> pre) ++ (Some <$> int_bytes 1 (if h then 0x80 else 0) (zlen bs)) ++
                  (Some <$> bs) ++ tl) len o e =
  Done (Some (o + zlen (int_bytes 1 (if h then 0x80 else 0) (zlen bs)), zlen bs, h), e).
Proof.
  intros Ho Hbs Hlen. set (ib := int_bytes 1 (if h then 0x80 else 0) (zlen bs)) in *.
  destruct (first_byte_flag (if h then 0x80 else 0) (zlen bs) tl bs) as (x & Ex & Ei & H0 & H1).
  fold ib in Ex, Ei. rewrite !zlen_app in Hlen.
  pose proof (zlen_nonneg pre). pose proof (zlen_nonneg bs). pose proof (zlen_nonneg (drop 1 ib)).
  assert (1 ≤ zlen ib) by (rewrite Ei, zlen_cons; lia).
  unfold literal_length. destruct (Z.leb_spec len o); [lia|].
  rewrite (drop_cells pre _ o Ho).
  erewrite M_bind_done.
  2: { rewrite Ex. apply rd_app. by rewrite Ho; unfold zlen; rewrite length_fmap. }
  erewrite M_bind_done.
  2: { apply (Xdecode_int2_int_bytes 1 (if h then 0x80 else 0) (zlen bs));
       [lia|by destruct h|unfold is_u32; lia|fold ib; lia]. }
  fold ib. cbv beta iota. destruct (Z.eqb_spec (zlen ib) 0); [lia|].
  replace (o + zlen ib <=? len) with true by (symmetry; apply Z.leb_le; lia). msimpl.
  destruct (Z.ltb_spec (len - (o + zlen ib)) (zlen bs)); [lia|].
  unfold HPACK_H_MASK, HPACK_H. rewrite land_80 by (destruct h; lia).
  destruct h; [specialize (H1 eq_refl); destruct (Z.ltb_spec x 128); [lia|done]
              |specialize (H0 eq_refl); destruct (Z.ltb_spec x 128); [done|lia]].
Qed.

#[local] Opaque huffman_tables_init.

Lemma loadn_cells (pre bs : list Z) tl o :
  o = zlen pre →
  loadn ((Some <$> pre) ++ (Some <$> bs) ++ tl) (Z.to_nat o) (Z.to_nat (zlen bs)) = Done bs.
Proof.
  intros Ho. unfold zlen at 1. rewrite Nat2Z.id. apply loadn_app.
  rewrite (drop_cells pre _ o Ho). rewrite <- (length_fmap Some bs) at 1. apply take_app_length.
Qed.

(** The two shapes of a literal at [o], up to the point where the string is
    fetched. *)
Lemma literal_split max s bytes :
  literal max s bytes →
  ∃ (h : bool) bs, bytes = int_bytes 1 (if h then 0x80 else 0) (zlen bs) ++ bs ∧ zlen bs < 2 ^ 32 ∧
    (if h then s ≠ [] ∧ ∀ tl n e, is_Some (outbuf e) → max ≤ n →
       Xdecode_huffman2 huffman_tables_init ((Some <$> bs) ++ tl) (zlen bs) n e = Done (s, e)
     else bs = s).
Proof.
  intros [Hs|p bs Hs Hbs Hne Hz Hq Hp Hl Hm].
  - by exists false, s.
  - exists true, bs. split; [done|]. split; [done|]. split; [done|]. intros tl n e Ho Hn.
    apply (decode_huffman2_ok s p); try done. lia.
Qed.

Lemma value_literal_ok pre s bytes tl len o e :
  literal 1024 s bytes → o = zlen pre → zlen (pre ++ bytes) ≤ len → is_Some (outbuf e) →
  value_literal huffman_tables_init ((Some <$> pre) ++ (Some <$> bytes) ++ tl) len o e =
  Done (Some (o + zlen bytes, s), e).
Proof.
  intros (h & bs & -> & Hbs & Hh)%literal_split Ho Hlen Hout.
  rewrite fmap_app, <- app_assoc. unfold value_literal.
  rewrite (M_bind_done _ _ _ _ _ (literal_length_ok pre h bs tl len o e Ho Hbs Hlen)).
  set (ib := int_bytes 1 (if h then 0x80 else 0) (zlen bs)) in *.
  assert (o + zlen ib = zlen (pre ++ ib)) as Ho' by (rewrite zlen_app; lia).
  rewrite app_assoc, <- fmap_app, zlen_app. destruct h.
  - destruct Hh as [Hne Hd]. rewrite (drop_cells (pre ++ ib) _ _ Ho').
    rewrite (M_bind_done _ _ _ _ _ (Hd tl 1024 e Hout ltac:(lia))).
    destruct (Z.eqb_spec (zlen s) 0) as [E|_]; [by destruct s|]. msimpl. by rewrite Z.add_assoc.
  - subst bs. rewrite loadn_cells by done. msimpl. by rewrite Z.add_assoc.
Qed.

Lemma name_literal_ok pre s bytes tl len o e :
  literal 255 s bytes → zlen s ≤ 255 → cstr s = s →
  o = zlen pre → zlen (pre ++ bytes) ≤ len → is_Some (outbuf e) →
  name_literal huffman_tables_init ((Some <$> pre) ++ (Some <$> bytes) ++ tl) len o e =
  Done (Some (o + zlen bytes, s), e).
Proof.
  intros (h & bs & -> & Hbs & Hh)%literal_split Hmax Hc Ho Hlen Hout.
  rewrite fmap_app, <- app_assoc. unfold name_literal.
  rewrite (M_bind_done _ _ _ _ _ (literal_length_ok pre h bs tl len o e Ho Hbs Hlen)).
  set (ib := int_bytes 1 (if h then 0x80 else 0) (zlen bs)) in *.
  assert (o + zlen ib = zlen (pre ++ ib)) as Ho' by (rewrite zlen_app; lia).
  rewrite app_assoc, <- fmap_app, zlen_app. destruct h.
  - destruct Hh as [Hne Hd]. rewrite (drop_cells (pre ++ ib) _ _ Ho').
    rewrite (M_bind_done _ _ _ _ _ (Hd tl 255 e Hout ltac:(lia))).
    destruct (Z.eqb_spec (zlen s) 0) as [E|_]; [by destruct s|]. msimpl.
    by rewrite Z.add_assoc, Hc.
  - subst bs. destruct (Z.ltb_spec 255 (zlen s)); [lia|]. rewrite loadn_cells by done. msimpl.
    by rewrite Z.add_assoc, Hc.
Qed.

(** A decidable fact about bytes holds when it holds of all 256. *)
Lemma byte_cases (P : Z → bool) :
  forallb P (seqZ 0 256) = true → ∀ b, 0 ≤ b < 256 → P b = true.
Proof.
  intros HP b Hb. apply forallb_forall with (x := b) in HP; [done|].
  apply list_elem_of_In, elem_of_seqZ. lia.
Qed.

(** The classes [Xdecode_header2] sorts first bytes into. *)
Definition first_byte_class (b : Z) : Z :=
  if 0x80 <=? b then 0
  else if (b =? 0x40) || (b =? 0) then 1
  else if 0x40 <=? b then 2 else if b <? 16 then 3 else 4.

Lemma Xdecode_header2_dispatch T buf len b e :
  buf !! 0%nat = Some (Some b) → 0 ≤ b < 256 →
  Xdecode_header2 T buf len e =
  (if first_byte_class b =? 0 then decode_indexed buf len
   else if first_byte_class b =? 1 then decode_new_name T buf len
   else if first_byte_class b =? 2 then decode_indexed_name T 2 true buf len
   else if first_byte_class b =? 3 then decode_indexed_name T 4 false buf len
   else comp_error "bad first byte";; mret 0) e.
Proof.
  intros Eb Hb. unfold Xdecode_header2.
  replace (zlen static_table =? HPACK_STATIC_NR + 1) with true by (vm_compute; reflexivity).
  msimpl. unfold rd, load. change (Z.to_nat 0) with 0%nat. rewrite Eb. msimpl.
  pose proof (byte_cases (λ b,
    Bool.eqb (Z.land b HPACK_IHF_MASK =? HPACK_IHF) (first_byte_class b =? 0) &&
    ((first_byte_class b =? 0) ||
     Bool.eqb ((b =? HPACK_LHFII) || (b =? HPACK_LHFwI)) (first_byte_class b =? 1)) &&
    ((first_byte_class b <=? 1) ||
     Bool.eqb (Z.land b HPACK_LHFII_MASK =? HPACK_LHFII) (first_byte_class b =? 2)) &&
    ((first_byte_class b <=? 2) ||
     Bool.eqb (Z.land b HPACK_LHFwI_MASK =? HPACK_LHFwI) (first_byte_class b =? 3)))
    ltac:(vm_compute; reflexivity) b Hb) as Hcls. cbv beta in Hcls.
  rewrite !andb_true_iff, !orb_true_iff, !eqb_true_iff in Hcls.
  destruct Hcls as (((-> & H1) & H2) & H3).
  destruct (Z.eqb_spec (first_byte_class b) 0); [done|].
  destruct H1 as [?| ->]; [done|]. destruct (Z.eqb_spec (first_byte_class b) 1); [done|].
  assert (0 ≤ first_byte_class b) by (unfold first_byte_class; repeat case_match; lia).
  destruct H2 as [?%Z.leb_le| ->]; [lia|]. destruct (Z.eqb_spec (first_byte_class b) 2); [done|].
  destruct H3 as [?%Z.leb_le| ->]; [lia|]. done.
Qed.

(** First bytes of the integers the representations start with. *)
Lemma int_bytes_class (pl pv i : Z) :
  (pl, pv) ∈ [(1, 0x80); (2, 0x40); (4, 0)] → 0 < i →
  ∃ x l, int_bytes pl pv i = x :: l ∧ 0 ≤ x < 256 ∧
         first_byte_class x = (if pl =? 1 then 0 else if pl =? 2 then 2 else 3).
Proof.
  intros Hin Hi. unfold int_bytes.
  assert (∀ x, 0 ≤ x < 256 → (if pl =? 1 then 0x80 ≤ x else if pl =? 2 then 0x40 < x < 0x80 else 0 < x < 16) →
    first_byte_class x = (if pl =? 1 then 0 else if pl =? 2 then 2 else 3)) as Hx.
  { intros x Hx Hc. unfold first_byte_class. rewrite !elem_of_cons in Hin.
    destruct Hin as [[= -> ->]|[[= -> ->]|[[= -> ->]|[]%elem_of_nil]]]; simpl in *;
      repeat case_match; rewrite ?orb_true_iff, ?orb_false_iff in *; lia. }
  rewrite !elem_of_cons in Hin.
  destruct Hin as [[= -> ->]|[[= -> ->]|[[= -> ->]|[]%elem_of_nil]]];
    cbv zeta; match goal with |- context [i <? ?m] => destruct (Z.ltb_spec i m) end; simpl in *; eexists _, _; (split; [reflexivity|]);
    (split; [lia|]); apply Hx; lia.
Qed.

Lemma dispatch_int_bytes (pl pv i : Z) rest tl len e :
  (pl, pv) ∈ [(1, 0x80); (2, 0x40); (4, 0)] → 0 < i →
  Xdecode_header2 huffman_tables_init ((Some <$> int_bytes pl pv i ++ rest) ++ tl) len e =
  (if pl =? 1 then decode_indexed ((Some <$> int_bytes pl pv i ++ rest) ++ tl) len
   else decode_indexed_name huffman_tables_init pl (pl =? 2)
          ((Some <$> int_bytes pl pv i ++ rest) ++ tl) len) e.
Proof.
  intros Hin Hi. destruct (int_bytes_class pl pv i Hin Hi) as (x & l & E & Hx & Hc).
  rewrite (Xdecode_header2_dispatch _ _ _ x); [|by rewrite E|done]. rewrite Hc.
  rewrite !elem_of_cons in Hin.
  destruct Hin as [[= -> ->]|[[= -> ->]|[[= -> ->]|[]%elem_of_nil]]]; reflexivity.
Qed.

Lemma decode_index_prefix (pl pv i : Z) rest tl len e :
  (pl, pv) ∈ [(1, 0x80); (2, 0x40); (4, 0)] → is_u32 i → zlen (int_bytes pl pv i ++ rest) ≤ len →
  Xdecode_int2 ((Some <$> int_bytes pl pv i ++ rest) ++ tl) len pl e =
  Done ((zlen (int_bytes pl pv i), i), e).
Proof.
  intros Hin Hi Hlen. rewrite zlen_app in Hlen. pose proof (zlen_nonneg rest).
  rewrite fmap_app, <- app_assoc. apply Xdecode_int2_int_bytes; [..|done|lia];
    rewrite !elem_of_cons in Hin;
    destruct Hin as [[= -> ->]|[[= -> ->]|[[= -> ->]|[]%elem_of_nil]]]; (reflexivity || lia).
Qed.

Lemma zlen_int_bytes_pos pl pv i : zlen (int_bytes pl pv i) <> 0.
Proof.
  destruct (int_bytes_nonempty pl pv i) as (b & l & ->). rewrite zlen_cons.
  pose proof (zlen_nonneg l). lia.
Qed.

Lemma indexed_name_ok l e i name :
  dyn_ok e l →
  (0 < i ≤ HPACK_STATIC_NR ∧ ∃ s v, static_table !! Z.to_nat i = Some (TE (Some s) v) ∧
                                   name = bytes_of_string s) ∨
  (HPACK_STATIC_NR < i ∧ ∃ d, reverse l !! Z.to_nat (i - HPACK_STATIC_NR) = Some d ∧
                              name = dyn_key d) →
  indexed_name i e = Done (Some name, e).
Proof.
  intros Hd [[Hi (s & v & Es & ->)]|[Hi (d & Ed & ->)]]; unfold indexed_name.
  - destruct (Z.ltb_spec HPACK_STATIC_NR i); [lia|]. by rewrite Es.
  - destruct (Z.ltb_spec HPACK_STATIC_NR i); [|lia].
    erewrite M_bind_done; [|rewrite (Xget_dyn_ok e l i Hd) by lia; rewrite Ed; reflexivity]. done.
Qed.

Lemma decode_indexed_name_ok (add : bool) i name value vb tl len e :
  0 < i < 2 ^ 32 → indexed_name i e = Done (Some name, e) → literal 1024 value vb →
  is_Some (outbuf e) →
  let ib := if add then int_bytes 2 0x40 i else int_bytes 4 0x00 i in
  zlen (ib ++ vb) ≤ len →
  Xdecode_header2 huffman_tables_init ((Some <$> ib ++ vb) ++ tl) len e =
  ((if add then add_dyn name value else mret tt);; report_or_fail name value (zlen (ib ++ vb))) e.
Proof.
  intros Hi Hn Hlit Hout ib Hlen.
  pose (pl := if add then 2 else 4). pose (pv := if add then 0x40 else 0x00).
  assert ((pl, pv) ∈ [(1, 0x80); (2, 0x40); (4, 0)]) as Hin
    by (destruct add; rewrite !elem_of_cons; auto).
  assert (ib = int_bytes pl pv i) as Eib by (by destruct add).
  rewrite Eib in *. rewrite dispatch_int_bytes by (done || lia).
  replace (pl =? 1) with false by (by destruct add).
  replace (pl =? 2) with add by (by destruct add). unfold decode_indexed_name.
  rewrite (M_bind_done _ _ _ _ _ (decode_index_prefix pl pv i vb tl len e Hin ltac:(unfold is_u32; lia) Hlen)).
  cbv beta iota. destruct (Z.eqb_spec (zlen (int_bytes pl pv i)) 0) as [E|_];
    [by apply zlen_int_bytes_pos in E|].
  destruct (Z.eqb_spec i 0); [lia|]. rewrite (M_bind_done _ _ _ _ _ Hn).
  rewrite fmap_app, <- app_assoc.
  rewrite (M_bind_done _ _ _ _ _ (value_literal_ok _ _ _ tl len _ e Hlit eq_refl Hlen Hout)).
  by rewrite zlen_app.
Qed.

Lemma decode_indexed_ok i tl len e :
  0 < i < 2 ^ 32 → zlen (int_bytes 1 0x80 i) ≤ len →
  Xdecode_header2 huffman_tables_init ((Some <$> int_bytes 1 0x80 i) ++ tl) len e =
  (if HPACK_STATIC_NR <? i then
     d ← Xget_dyn i;
     match d with
     | None => mret 0
     | Some d => report_or_fail (dyn_key d) (dyn_value d) (zlen (int_bytes 1 0x80 i))
     end
   else
     match static_table !! Z.to_nat i with
     | Some (TE (Some name) (Some val)) =>
         add_dyn (bytes_of_string name) (bytes_of_string val);;
         report_or_fail (bytes_of_string name) (bytes_of_string val) (zlen (int_bytes 1 0x80 i))
     | Some (TE _ None) => comp_error "entry has no value";; mret 0
     | _ => mcrash Undefined
     end) e.
Proof.
  intros Hi Hlen.
  assert ((1, 0x80) ∈ [(1, 0x80); (2, 0x40); (4, 0)]) as Hin by (rewrite elem_of_cons; auto).
  rewrite <- (app_nil_r (int_bytes 1 0x80 i)) in Hlen.
  rewrite <- (app_nil_r (int_bytes 1 0x80 i)) at 1.
  rewrite dispatch_int_bytes by (done || lia). change (1 =? 1) with true. cbv iota.
  unfold decode_indexed.
  rewrite (M_bind_done _ _ _ _ _ (decode_index_prefix 1 0x80 i [] tl len e Hin ltac:(unfold is_u32; lia) Hlen)).
  cbv beta iota. destruct (Z.eqb_spec (zlen (int_bytes 1 0x80 i)) 0) as [E|_];
    [by apply zlen_int_bytes_pos in E|].
  destruct (Z.eqb_spec i 0); [lia|]. done.
Qed.

Lemma Xdecode_header2_field e l bytes name value r tl len :
  dyn_ok e l → is_Some (outbuf e) → field_repr l bytes name value r → zlen bytes ≤ len →
  Xdecode_header2 huffman_tables_init ((Some <$> bytes) ++ tl) len e =
  ((if enters r then add_dyn name value else mret tt);; report_or_fail name value (zlen bytes)) e.
Proof.
  intros Hd Hout Hr Hlen. destruct Hr as
    [i name value Hi Es|i d Hi Ed|incr name value nb vb Hc Hz Hn Hv|add i name v value vb Hi Es Hl
    |add i d value vb Hi Ed Hl]; cbn [enters]; rewrite ?orb_true_r, ?orb_false_r.
  1,2: rewrite decode_indexed_ok by (unfold HPACK_STATIC_NR in *; lia);
    destruct (Z.ltb_spec HPACK_STATIC_NR i); try lia.
  - by rewrite Es.
  - erewrite M_bind_done; [|rewrite (Xget_dyn_ok e l i Hd) by lia; rewrite Ed; reflexivity]. done.
  - set (b := if incr then _ else _) in *. assert (b = HPACK_LHFII ∨ b = HPACK_LHFwI) as Hb by (unfold b; destruct incr; auto).
    clearbody b. rewrite (Xdecode_header2_dispatch _ _ _ b); [|done|destruct Hb as [-> | ->]; done].
    replace (first_byte_class b) with 1 by (destruct Hb as [-> | ->]; done).
    change (1 =? 0) with false. change (1 =? 1) with true. cbv iota.
    unfold decode_new_name.
    replace ((Some <$> b :: nb ++ vb) ++ tl) with
      ((Some <$> [b]) ++ (Some <$> nb) ++ (Some <$> vb) ++ tl)
      by (rewrite (fmap_cons Some b (nb ++ vb)), fmap_app; cbn [app]; by rewrite <- app_assoc).
    change (b :: nb ++ vb) with ([b] ++ nb ++ vb) in *.
    assert (zlen ([b] ++ nb) ≤ len) as Hlen1.
    { rewrite app_assoc, zlen_app in Hlen. pose proof (zlen_nonneg vb). lia. }
    rewrite (M_bind_done _ _ _ _ _
      (name_literal_ok [b] name nb ((Some <$> vb) ++ tl) len 1 e Hn Hz Hc eq_refl Hlen1 Hout)).
    rewrite (app_assoc (Some <$> [b])), <- fmap_app. rewrite app_assoc in Hlen.
    assert (1 + zlen nb = zlen ([b] ++ nb)) as Ho by (by rewrite zlen_app).
    rewrite (M_bind_done _ _ _ _ _
      (value_literal_ok ([b] ++ nb) value vb tl len _ e Hv Ho Hlen Hout)).
    cbv beta iota. by rewrite !zlen_app, Z.add_assoc.
  - apply decode_indexed_name_ok; try done; [unfold HPACK_STATIC_NR in *; lia|].
    eapply indexed_name_ok; [done|]. left. eauto 6.
  - apply decode_indexed_name_ok; try done; [unfold HPACK_STATIC_NR in *; lia|].
    eapply indexed_name_ok; [done|]. right. split; [lia|eauto].
Qed.

(** A continuation byte with the high bit set, as one round of the loop. *)
Lemma int2_loop_more n pre b rest o v max e :
  o = zlen pre → 1 ≤ o → (o - 1) * 7 < 32 → 128 ≤ b < 256 →
  0 ≤ v < 2 ^ ((o - 1) * 7) → (b - 128) * 2 ^ ((o - 1) * 7) < 2 ^ 32 →
  ∃ v', decode_int2_loop (S n) ((Some <$> pre) ++ Some b :: rest) o v max e =
        decode_int2_loop n ((Some <$> (pre ++ [b])) ++ rest) (o + 1) v' max e ∧
        0 ≤ v' < 2 ^ ((o + 1 - 1) * 7).
Proof.
  intros Hz Ho Hs Hb Hv Hlt. assert (b `mod` 128 = b - 128) as Hm.
  { Z.to_euclidean_division_equations. lia. }
  assert (0 < 2 ^ ((o - 1) * 7)) by (apply Z.pow_pos_nonneg; lia).
  eexists. rewrite int2_loop_step; [|unfold zlen in *; by rewrite length_fmap|lia|done|done|done|lia].
  destruct (Z.leb_spec 128 b); [|lia]. rewrite fmap_app, <- app_assoc.
  split; [reflexivity|]. rewrite Hm.
  replace ((o + 1 - 1) * 7) with (7 + (o - 1) * 7) by lia.
  rewrite Z.pow_add_r by lia. change (2 ^ 7) with 128. nia.
Qed.

(** ** Theorems *)

(** What the encoder writes the decoder reads: the integer that
    [add_length2] appends to the header buffer is read back by [Xdecode_int2]
    from that place, with the number of bytes it takes, for every prefix and
    every 32-bit value, whatever follows it in the buffer. *)
Theorem Xdecode_int2_roundtrip e l prefix_len prefix_value value r :
  hdr_ok e l → 0 ≤ prefix_len < 8 → 0 ≤ prefix_value < 256 →
  prefix_value `mod` 2 ^ (8 - prefix_len) = 0 → is_u32 value →
  ∃ e', add_length2 prefix_len prefix_value value e = Done (tt, e') ∧
    Xdecode_int2 (drop (length l) (http2_headers e'))
      (http2_headers_offset e' - zlen l) prefix_len r =
    Done ((http2_headers_offset e' - zlen l, value), r).
Proof.
  intros Hok Hp Hpv Hmod Hv.
  destruct (add_length2_ok e l _ _ _ Hok Hp Hpv Hmod Hv) as (e' & E & [Hc Ho Hm Hf] & _).
  exists e'. split; [done|]. rewrite Ho, zlen_app.
  set (ib := int_bytes prefix_len prefix_value value) in *.
  assert (drop (length l) (http2_headers e') =
          (Some <$> ib) ++ drop (length (l ++ ib)) (http2_headers e')) as ->.
  { rewrite <- (take_drop (length (l ++ ib)) (http2_headers e')) at 1. rewrite Hc, fmap_app, <- app_assoc.
    rewrite <- (length_fmap Some l) at 1. apply drop_app_length. }
  replace (zlen l + zlen ib - zlen l) with (zlen ib) by lia.
  by apply Xdecode_int2_int_bytes.
Qed.

Lemma Xdecode_int2_roundtrip_witness :
  ∃ e', add_length2 3 0xe0 1337 http2_init = Done (tt, e') ∧
    Xdecode_int2 (drop 0 (http2_headers e')) (http2_headers_offset e' - 0) 3 http2_init =
    Done ((http2_headers_offset e' - 0, 1337), http2_init).
Proof.
  apply (Xdecode_int2_roundtrip http2_init [] 3 0xe0 1337 http2_init);
    [apply hdr_ok_empty; reflexivity | lia | lia | reflexivity | unfold is_u32; lia].
Defined.

(** integer decoding is sound: whenever [Xdecode_int2] accepts, the bytes it
    used are within the given length and are a representation of the value
    it returns, which fits 32 bits; nothing is written to the connection. *)
Theorem Xdecode_int2_sound buf len prefix_len e n v e' :
  cells_ok buf → 0 ≤ prefix_len < 8 →
  Xdecode_int2 buf len prefix_len e = Done ((n, v), e') → n ≠ 0 →
  e' = e ∧ 1 ≤ n ≤ len ∧ is_u32 v ∧
  ∃ bytes, take (Z.to_nat n) buf = Some <$> bytes ∧ zlen bytes = n ∧
           int_decodes prefix_len bytes v.
Proof. apply Xdecode_int2_inv. Qed.

Lemma Xdecode_int2_sound_witness :
  http2_init = http2_init ∧ 1 ≤ 3 ≤ 4 ∧ is_u32 1337 ∧
  ∃ bytes, take (Z.to_nat 3) (Some <$> [0x1f; 0x9a; 0x0a; 0x00]) = Some <$> bytes ∧
           zlen bytes = 3 ∧ int_decodes 3 bytes 1337.
Proof.
  apply (Xdecode_int2_sound (Some <$> [0x1f; 0x9a; 0x0a; 0x00]) 4 3 http2_init);
    [apply cells_ok_bytes; solve_bytes | lia | vm_compute; reflexivity | discriminate].
Defined.

(** An integer with six continuation bytes whose first five have the
    high bit set and do not overflow makes [Xdecode_int2] shift a 32-bit number
    by 35, which is undefined. *)
Theorem Xdecode_int2_overshift b0 b1 b2 b3 b4 b5 b6 prefix_len tl len e :
  0 ≤ prefix_len < 8 → b0 `mod` 2 ^ (8 - prefix_len) = 2 ^ (8 - prefix_len) - 1 →
  Forall (λ b, 0x80 ≤ b < 0x100) [b1; b2; b3; b4] → 0x80 ≤ b5 < 0x90 → 7 ≤ len →
  Xdecode_int2 ((Some <$> [b0; b1; b2; b3; b4; b5; b6]) ++ tl) len prefix_len e = Crash Undefined.
Proof.
  intros Hp H0 HF H5 Hlen. rewrite !Forall_cons in HF. destruct HF as (H1 & H2 & H3 & H4 & _).
  rewrite (Xdecode_int2_first _ _ _ b0) by (done || lia). rewrite H0, Z.ltb_irrefl.
  pose proof (pow_prefix prefix_len Hp). set (m := 2 ^ (8 - prefix_len) - 1).
  set (n := (Z.to_nat (len - 1) - 6)%nat).
  replace (Z.to_nat (len - 1)) with (S (5 + n)) by lia.
  cbn [fmap list_fmap app Nat.add].
  destruct (int2_loop_more (5 + n) [b0] b1 ((Some <$> [b2; b3; b4; b5; b6]) ++ tl) 1 0 m e)
    as (v1 & E1 & V1); [done|simpl in *; lia ..|].
  change (1 + 1) with 2 in *. cbn [fmap list_fmap app Nat.add] in E1. rewrite E1. clear E1.
  destruct (int2_loop_more (4 + n) [b0; b1] b2 ((Some <$> [b3; b4; b5; b6]) ++ tl) 2 v1 m e)
    as (v2 & E2 & V2); [done|simpl in *; lia ..|].
  change (2 + 1) with 3 in *. cbn [fmap list_fmap app Nat.add] in E2. rewrite E2. clear E2.
  destruct (int2_loop_more (3 + n) [b0; b1; b2] b3 ((Some <$> [b4; b5; b6]) ++ tl) 3 v2 m e)
    as (v3 & E3 & V3); [done|simpl in *; lia ..|].
  change (3 + 1) with 4 in *. cbn [fmap list_fmap app Nat.add] in E3. rewrite E3. clear E3.
  destruct (int2_loop_more (2 + n) [b0; b1; b2; b3] b4 ((Some <$> [b5; b6]) ++ tl) 4 v3 m e)
    as (v4 & E4 & V4); [done|simpl in *; lia ..|].
  change (4 + 1) with 5 in *. cbn [fmap list_fmap app Nat.add] in E4. rewrite E4. clear E4.
  destruct (int2_loop_more (1 + n) [b0; b1; b2; b3; b4] b5 ((Some <$> [b6]) ++ tl) 5 v4 m e)
    as (v5 & E5 & V5); [done|simpl in *; lia ..|].
  change (5 + 1) with 6 in *. cbn [fmap list_fmap app Nat.add] in E5. rewrite E5. clear E5.
  cbn [Nat.add decode_int2_loop].
  erewrite M_bind_done; [|cbn [fmap list_fmap app]; reflexivity]. done.
Qed.

Lemma Xdecode_int2_overshift_witness :
  Xdecode_int2 ((Some <$> [0xff; 0x80; 0x80; 0x80; 0x80; 0x80; 0x00]) ++ []) 7 1 http2_init
  = Crash Undefined.
Proof.
  apply (Xdecode_int2_overshift 0xff 0x80 0x80 0x80 0x80 0x80 0x00 1 [] 7 http2_init);
    [lia | reflexivity | | lia | lia].
  repeat first [apply Forall_nil_2 | apply Forall_cons_2; [lia|]].
Defined.

(** After a field is entered, [Xget_dyn] of index 62 denotes the entry that
    was entered {e before} it, 63 the one before that, and so on: the newest
    entry of the dynamic table has no index (RFC 7541 gives it index 62). *)
Theorem Xget_dyn_skips_newest e l k v value :
  dyn_ok e l → HPACK_STATIC_NR < value →
  ∃ e', add_dyn k v e = Done (tt, e') ∧
    Xget_dyn value e' =
      match reverse l !! Z.to_nat (value - (HPACK_STATIC_NR + 1)) with
      | Some d => Done (Some d, e')
      | None => (comp_error "bad dynamic index";; mret None) e'
      end.
Proof.
  intros Hd Hv. destruct (add_dyn_ok e l k v Hd) as (e' & E & Hd' & _).
  exists e'. split; [done|]. rewrite (Xget_dyn_ok _ _ _ Hd') by lia.
  rewrite reverse_app. cbn [reverse rev_append app].
  replace (Z.to_nat (value - HPACK_STATIC_NR)) with
    (S (Z.to_nat (value - (HPACK_STATIC_NR + 1)))) by lia. done.
Qed.

Lemma Xget_dyn_skips_newest_witness :
  ∃ e', add_dyn [97] [98] http2_init = Done (tt, e') ∧
    Xget_dyn 62 e' = (comp_error "bad dynamic index";; mret None) e'.
Proof. apply (Xget_dyn_skips_newest http2_init [] [97] [98] 62); [apply dyn_ok_init | reflexivity]. Defined.



(** [Xdecode_header2] never claims more bytes than it was given, so the
    loop over a header block never leaves the frame. *)
Theorem Xdecode_header2_bounds T buf len e n e' :
  cells_ok buf → 0 ≤ len → Xdecode_header2 T buf len e = Done (n, e') → 0 ≤ n ≤ len.
Proof. apply Xdecode_header2_inv. Qed.

Lemma Xdecode_header2_bounds_witness : 0 ≤ 1 ≤ 2.
Proof.
  refine (Xdecode_header2_bounds (HT [] [] [] [] [] [] [] []) (Some <$> [0x82; 0x84]) 2 http2_init 1 _ _ _ eq_refl).
  - apply cells_ok_bytes; solve_bytes.
  - lia.
Defined.

(** A field whose first byte is 0x10 to 0x3f (a never-indexed literal or a
    change of the table size) is refused with COMPRESSION_ERROR; in particular the
    representation [add_header2] writes for every field of a request is not
    understood by the client's own decoder. *)
Theorem Xdecode_header2_refuses_own_encoding T e name value tl len q :
  outbuf e = Some q →
  (∀ b rest, 0x10 ≤ b ≤ 0x3f →
     Xdecode_header2 T (Some b :: rest) len e =
     Done (0, set_outbuf (Some (q ++ goaway_frame HTTP2_COMPRESSION_ERROR "bad first byte")) e)) ∧
  Xdecode_header2 T ((Some <$> header_bytes name value) ++ tl) len e =
  Done (0, set_outbuf (Some (q ++ goaway_frame HTTP2_COMPRESSION_ERROR "bad first byte")) e).
Proof.
  intros Hq.
  assert (∀ b rest, 0x10 ≤ b ≤ 0x3f → Xdecode_header2 T (Some b :: rest) len e =
    Done (0, set_outbuf (Some (q ++ goaway_frame HTTP2_COMPRESSION_ERROR "bad first byte")) e)) as Hb.
  { intros b rest Hb. rewrite (Xdecode_header2_dispatch _ _ _ b) by (done || lia).
    replace (first_byte_class b) with 4; [|unfold first_byte_class; repeat case_match;
      rewrite ?orb_true_iff, ?orb_false_iff in *; lia].
    unfold comp_error. cbn [Z.eqb Pos.eqb]. by mrun (goaway_some HTTP2_COMPRESSION_ERROR "bad first byte" e q Hq). }
  split; [exact Hb|]. apply Hb. unfold HPACK_LHFNI. lia.
Qed.

Lemma Xdecode_header2_refuses_own_encoding_witness :
  let e := set_outbuf (Some []) http2_init in
  let T := HT [] [] [] [] [] [] [] [] in
  (∀ b rest, 0x10 ≤ b ≤ 0x3f →
     Xdecode_header2 T (Some b :: rest) 3 e =
     Done (0, set_outbuf (Some ([] ++ goaway_frame HTTP2_COMPRESSION_ERROR "bad first byte")) e)) ∧
  Xdecode_header2 T ((Some <$> header_bytes [97] [98]) ++ []) 3 e =
  Done (0, set_outbuf (Some ([] ++ goaway_frame HTTP2_COMPRESSION_ERROR "bad first byte")) e).
Proof.
  intros e T. apply (Xdecode_header2_refuses_own_encoding T e [97] [98] [] 3 []). reflexivity.
Defined.
