(* ===== verification/Http2.v ===== *)
(** * HTTP/2 input (probe-busybox/eperd/http2.c)

    The receivers of the seven frame types ([Xreceive_*2]), the assembly of
    frames in the growing input buffer ([Xhttp2_dns_input1]), the loop over the
    available input ([http2_dns_input]) and the start of a request
    ([http2_dns]).

    The three callbacks of [http2_dns_input] are parameters: they act on a
    state of their own ([Ref], the [void *ref] of the code).  The input buffer of
    the [bufferevent] is a byte queue ([None] for a [NULL] one), and the output
    buffer is [outbuf] of the connection while [http2_dns_input] runs.  A C
    return value -1 or 0 or 1 is returned as such.  Text on [stderr] is not part of
    the state; the bytes it prints are still read from the buffer. *)

From S2P Require Import Prelude.
From S2P Require Import Http2Env.
From S2P Require Import Huffman.
From S2P Require Import Hpack.
From stdpp Require Import base list numbers strings.
From Stdlib Require Import ZArith Lia.

Open Scope Z_scope.

(** [p->flags & flag] as a condition. *)
Definition flag_set (flags flag : Z) : bool := negb (Z.land flags flag =? 0).

(** [ntohs] and [ntohl] of bytes in network order. *)
Definition of_be (l : list Z) : Z := fold_left (λ a b, Z.lor (a ≪ 8) b) l 0.

(** [send_goaway2(env->outbuf, code, 0, reason); return -1;] *)
Definition goaway_fail (code : Z) (reason : string) : H Z := goaway code reason;; mret (-1).

(** ** Receivers *)

Definition add_credits2 (stream_id credits : Z) : H unit :=
  e ← get;
  modify (set_http2_send_global_credits (u32 (http2_send_global_credits e + credits)));;
  if stream_id =? 1 then
    e ← get;
    modify (set_http2_send_stream1_credits (u32 (http2_send_stream1_credits e + credits)))
  else mcrash Fatal.

(** The part of [Xreceive_data2] behind the padding checks: a body of type
    [application/dns-message] is appended to [http2_data]. *)
Definition receive_body (buf : blk Z) (pad_offset data_len : Z) : H unit :=
  e ← get;
  if type_dns e then
    let needed := http2_data_len e + data_len in
    (if http2_data_max e <? needed then
       modify (set_http2_data (realloc (http2_data e) (Z.to_nat (needed + 4096))));;
       modify (set_http2_data_max (needed + 4096))
     else mret tt);;
    data ← lift (loadn buf (Z.to_nat pad_offset) (Z.to_nat data_len));
    e ← get;
    b ← lift (store (http2_data e) (Z.to_nat (http2_data_len e)) data);
    modify (set_http2_data b);;
    modify (set_http2_data_len (http2_data_len e + data_len))
  else mret tt.

Definition Xreceive_data2 (flags length stream_id : Z) (buf : blk Z) : H Z :=
  '(pad_offset, pad_length) ←
    (if flag_set flags HTTP2_HDR_DATA_PADDED then b ← rd buf 0; mret (1, b) else mret (0, 0));
  if flag_set flags HTTP2_HDR_DATA_PADDED && (length <=? pad_length) then
    goaway_fail HTTP2_PROTOCOL_ERROR "padding error"
  else
    add_credits2 stream_id length;;
    receive_body buf pad_offset (length - (pad_offset + pad_length));;
    mret 0.

Section Headers.
Context (T : huffman_tables).

(** [while (o < length)] of [Xreceive_headers2]; [headers_len-o] is a
    [size_t]. *)
Fixpoint headers_loop (fuel : nat) (buf : blk Z) (o headers_len length : Z) : H Z :=
  match fuel with
  | O => mcrash OutOfFuel
  | S fuel' =>
      if o <? length then
        len ← Xdecode_header2 T (drop (Z.to_nat o) buf) (u64 (headers_len - o));
        if len =? 0 then mret (-1)
        else headers_loop fuel' buf (o + len) headers_len length
      else mret 0
  end.

Definition Xreceive_headers2 (flags length stream_id : Z) (buf : blk Z) : H Z :=
  if stream_id =? 0 then goaway_fail HTTP2_PROTOCOL_ERROR "0 stream ID"
  else if negb (stream_id =? 1) then goaway_fail HTTP2_PROTOCOL_ERROR "stream not open"
  else
    '(pad_offset, pad_length) ←
      (if flag_set flags HTTP2_HDR_HEADERS_PADDED then b ← rd buf 0; mret (1, b) else mret (0, 0));
    let prio_offset := if flag_set flags HTTP2_HDR_HEADERS_PRIORITY then 5 else 0 in
    if length <? pad_offset + prio_offset + pad_length then
      goaway_fail HTTP2_PROTOCOL_ERROR "too much padding"
    else
      headers_loop (S (Z.to_nat length)) buf (pad_offset + prio_offset)
        (length - pad_length) length.

End Headers.

Definition Xreceive_rst_stream2 (length stream_id : Z) (buf : blk Z) : H Z :=
  if negb (length =? 4) then goaway_fail HTTP2_FRAME_SIZE_ERROR "length"
  else
    _ ← lift (loadn buf 0 4);
    if stream_id =? 0 then goaway_fail HTTP2_PROTOCOL_ERROR "zero stream ID"
    else mret 0.

(** The [for] loop over the settings: each is read, none changes the state. *)
Fixpoint settings_loop (n : nat) (buf : blk Z) (o : nat) : outcome unit :=
  match n with
  | O => Done tt
  | S n' => _ ← loadn buf o 2; _ ← loadn buf (o + 2) 4; settings_loop n' buf (o + 6)
  end.

Definition Xreceive_settings2 (flags length stream_id : Z) (buf : blk Z) : H Z :=
  if negb (length `mod` 6 =? 0) then goaway_fail HTTP2_FRAME_SIZE_ERROR "frame"
  else if flag_set flags HTTP2_HDR_SETTINGS_ACK && negb (length =? 0) then
    goaway_fail HTTP2_FRAME_SIZE_ERROR "non-empty ACK settings frame"
  else if negb (stream_id =? 0) then goaway_fail HTTP2_PROTOCOL_ERROR "non-zero stream ID"
  else
    lift (settings_loop (Z.to_nat (length / 6)) buf 0);;
    mret 0.

Definition Xreceive_ping2 (length stream_id : Z) (data : blk Z) : H Z :=
  if negb (stream_id =? 0) then goaway_fail HTTP2_PROTOCOL_ERROR "non-zero stream ID"
  else if negb (length =? 8) then goaway_fail HTTP2_FRAME_SIZE_ERROR "ping frame not 8 octets"
  else
    _ ← lift (loadn data 0 (Z.to_nat length));
    mret 0.

Definition Xreceive_goaway2 (length stream_id : Z) (data : blk Z) : H Z :=
  if negb (stream_id =? 0) then goaway_fail HTTP2_PROTOCOL_ERROR "non-zero stream ID"
  else if length <? 8 then
    goaway_fail HTTP2_FRAME_SIZE_ERROR "goaway frame not at least 8 octets"
  else
    _ ← lift (loadn data 0 4);
    _ ← lift (loadn data 4 4);
    _ ← lift (loadn data 8 (Z.to_nat (length - 8)));
    mret 0.

Definition Xreceive_window_update2 (length stream_id : Z) (buf : blk Z) : H Z :=
  if negb (length =? 4) then
    goaway_fail HTTP2_FRAME_SIZE_ERROR "window update frame not 4 octets"
  else
    bytes ← lift (loadn buf 0 4);
    let value := Z.land (of_be bytes) 0x7fffffff in
    if value =? 0 then goaway_fail HTTP2_PROTOCOL_ERROR "zero increment"
    else if stream_id =? 0 then
      e ← get;
      let w := u32 (http2_connection_window e + value) in
      modify (set_http2_connection_window w);;
      if HTTP2_MAX_WINDOW <? w then goaway_fail HTTP2_FLOW_CONTROL_ERROR "window overflow"
      else mret 0
    else if stream_id =? 1 then
      e ← get;
      let w := u32 (http2_stream1_window e + value) in
      modify (set_http2_stream1_window w);;
      if HTTP2_MAX_WINDOW <? w then goaway_fail HTTP2_FLOW_CONTROL_ERROR "window overflow"
      else mret 0
    else goaway_fail HTTP2_INTERNAL_ERROR "window increment for unknown stream".

(** ** Frames *)

Definition HTTP2_HDR_SIZE : Z := 9.

(** The [switch] on the frame type in [Xhttp2_dns_input1]; [data] is the buffer
    behind the frame header. *)
Definition dispatch (T : huffman_tables) (type flags length stream_id : Z) (data : blk Z) : H Z :=
  if type =? HTTP2_HDR_TYPE_DATA then
    r ← Xreceive_data2 flags length stream_id data;
    if r =? -1 then mret (-1)
    else
      (if flag_set flags HTTP2_HDR_DATA_END_STREAM then modify (set_done true) else mret tt);;
      mret 0
  else if type =? HTTP2_HDR_TYPE_HEADERS then Xreceive_headers2 T flags length stream_id data
  else if type =? HTTP2_HDR_TYPE_RST_STREAM then Xreceive_rst_stream2 length stream_id data
  else if type =? HTTP2_HDR_TYPE_SETTINGS then Xreceive_settings2 flags length stream_id data
  else if type =? HTTP2_HDR_TYPE_PING then Xreceive_ping2 length stream_id data
  else if type =? HTTP2_HDR_TYPE_GOAWAY then Xreceive_goaway2 length stream_id data
  else if type =? HTTP2_HDR_TYPE_WINDOW_UPDATE then Xreceive_window_update2 length stream_id data
  else goaway_fail HTTP2_PROTOCOL_ERROR "unknown type".

Section Input.
Context (T : huffman_tables) {Ref : Type}.
Context (read_response_cb : option (Ref → Z → outcome (list Z * Ref))).
Context (write_response_cb : option (Ref → list Z → Ref)).
Context (reply_cb : Ref → option Z → list Z → Ref).

(** The state of [http2_dns_input]: the connection, the input buffer of the
    [bufferevent], and the state of the callbacks. *)
Record conn := Conn { c_env : http2_env; c_inbuf : option (list Z); c_ref : Ref }.

Definition set_env (e : http2_env) (c : conn) : conn := Conn e (c_inbuf c) (c_ref c).
Definition set_inbuf (q : option (list Z)) (c : conn) : conn := Conn (c_env c) q (c_ref c).
Definition set_ref (r : Ref) (c : conn) : conn := Conn (c_env c) (c_inbuf c) r.

Definition on_env {A} (m : H A) : M conn A := λ c,
  match m (c_env c) with
  | Done (a, e) => Done (a, set_env e c)
  | Crash x => Crash x
  end.

(** [evbuffer_remove]: at most [len] bytes from the front of the queue. *)
Definition evbuffer_remove (len : Z) : M conn (list Z) := λ c,
  match c_inbuf c with
  | Some q => Done (take (Z.to_nat len) q, set_inbuf (Some (drop (Z.to_nat len) q)) c)
  | None => Crash Undefined
  end.

(** Where the next [len] bytes come from. *)
Definition fetch (len : Z) : M conn (list Z) :=
  match read_response_cb with
  | Some cb => c ← get; '(l, r) ← lift (cb (c_ref c) len); modify (set_ref r);; mret l
  | None => evbuffer_remove len
  end.

(** Make room for [needed] bytes of input. *)
Definition grow_input (needed : Z) : H unit :=
  e ← get;
  if http2_input_max e <? needed then
    modify (set_http2_input (realloc (http2_input e) (Z.to_nat needed)));;
    modify (set_http2_input_max needed)
  else mret tt.

(** Store what was read behind the input so far; the answer tells whether
    [needed] bytes are there now. *)
Definition append_input (needed : Z) (l : list Z) : H bool :=
  e ← get;
  b ← lift (store (http2_input e) (Z.to_nat (http2_input_len e)) l);
  modify (set_http2_input b);;
  modify (set_http2_input_len (http2_input_len e + zlen l));;
  mret (needed <=? http2_input_len e + zlen l).

(** One of the two stretches of [Xhttp2_dns_input1] that fill the input buffer
    up to [needed] bytes; [false] when the function returns 0 there. *)
Definition fill_input (needed : Z) : M conn bool :=
  on_env (grow_input needed);;
  c ← get;
  if http2_input_len (c_env c) <? needed then
    l ← fetch (needed - http2_input_len (c_env c));
    match write_response_cb with
    | Some cb => c ← get; modify (set_ref (cb (c_ref c) l))
    | None => mret tt
    end;;
    on_env (append_input needed l)
  else mret true.

(** The frame header in the input buffer; bit 31 of the stream identifier is
    dropped. *)
Definition frame_length : H Z :=
  e ← get;
  bytes ← lift (loadn (http2_input e) 0 3);
  mret (of_be bytes).
Definition frame_header : H (Z * Z * Z) :=
  e ← get;
  type ← lift (load (http2_input e) 3);
  flags ← lift (load (http2_input e) 4);
  bytes ← lift (loadn (http2_input e) 5 4);
  mret (type, flags, Z.land (of_be bytes) 0x7fffffff).

(** A complete frame is in the input buffer. *)
Definition handle_frame (length : Z) : H Z :=
  '(type, flags, stream_id) ← frame_header;
  e ← get;
  r ← dispatch T type flags length stream_id (drop (Z.to_nat HTTP2_HDR_SIZE) (http2_input e));
  if r =? -1 then mret (-1)
  else modify (set_http2_input_len 0);; mret 0.

Definition Xhttp2_dns_input1 : M conn Z :=
  full ← fill_input HTTP2_HDR_SIZE;
  if negb full then mret 0
  else
    length ← on_env frame_length;
    full ← fill_input (HTTP2_HDR_SIZE + length);
    if negb full then mret 0 else on_env (handle_frame length).

(** [for(;;)] of [http2_dns_input]. *)
Fixpoint input_loop (fuel : nat) : M conn Z :=
  match fuel with
  | O => mcrash OutOfFuel
  | S fuel' =>
      c ← get;
      let avail := match c_inbuf c with Some q => zlen q | None => 1 end in
      if avail =? 0 then mret 1
      else
        r ← Xhttp2_dns_input1;
        if r =? -1 then mret (-1)
        else
          c ← get;
          if done (c_env c) then
            data ← lift (loadn (http2_data (c_env c)) 0 (Z.to_nat (http2_data_len (c_env c))));
            modify (set_ref (reply_cb (c_ref c) (status (c_env c)) data));;
            mret 0
          else input_loop fuel'
  end.

(** [http2_dns_input]: [bev] holds the two buffers of the [bufferevent]; the
    answer is the return value with what is left of them. *)
Definition http2_dns_input (fuel : nat) (env : http2_env) (bev : option (list Z * list Z)) (ref : Ref)
    : outcome (Z * http2_env * option (list Z * list Z) * Ref) :=
  if done env then Done (-1, env, bev, ref)
  else
    '(r, c) ← input_loop fuel (Conn (set_outbuf (snd <$> bev) env) (fst <$> bev) ref);
    let bev' := match c_inbuf c, outbuf (c_env c) with
                | Some i, Some o => Some (i, o)
                | _, _ => None
                end in
    Done (r, set_outbuf None (c_env c), bev', c_ref c).

End Input.
Arguments Conn {Ref}.
Arguments c_env {Ref}.
Arguments c_inbuf {Ref}.
Arguments c_ref {Ref}.

(** ** Requests *)

(** [hostname_port[300]]: [hostname] alone for port 443, else
    [hostname:port]; at most 299 bytes are kept. *)
Definition hostname_port_of (hostname port : list Z) : list Z :=
  take 299 (if bytes_eqb port (bytes_of_string "443") then hostname
            else hostname ++ [58] ++ port).

(** [http2_dns]; the static [first] and the tables [init_huffman] fills are
    the state [tables] ([None] until the first call). *)
Definition http2_dns (tables : option huffman_tables) (env : http2_env) (bev : option evbuffer)
    (hostname port path req : list Z)
    : outcome (option huffman_tables * http2_env * option evbuffer) :=
  tables ← match tables with Some t => Done (Some t) | None => t ← init_huffman; Done (Some t) end;
  match bev with
  | None => Done (tables, env, None)
  | Some out =>
      '(out, env) ← send_request2 out (hostname_port_of hostname port) path req env;
      Done (tables, env, Some out)
  end.
