(* ===== verification/Http2Proofs.v ===== *)
(** * Correctness of HTTP/2 input

    A small program logic for the connection monad shows that the receivers
    leave the input buffer alone, only append to the output and never run out of
    fuel; on top of it: frames are assembled and dispatched as they were
    written, input may arrive in any chunks, the input loop terminates, windows
    do not wrap, bodies are collected, and the places where the code goes
    wrong. *)

From S2P Require Import Prelude.
From S2P Require Import Bits.
From S2P Require Import HpackTables.
From S2P Require Import Http2Env.
From S2P Require Import Http2Send.
From S2P Require Import Huffman.
From S2P Require Import HuffmanProofs.
From S2P Require Import Hpack.
From S2P Require Import HpackProofs.
From S2P Require Import Http2.
From stdpp Require Import base list numbers strings.
From Stdlib Require Import ZArith Lia.

Open Scope Z_scope.

#[local] Opaque huffman_tables_init.

(** ** A program logic for the receivers *)

(** What a receiver may do to the connection outside its own fields: append to
    the output; the input buffer stays as it is. *)
Record evolves (e e' : http2_env) : Prop := {
  ev_input : http2_input e' = http2_input e;
  ev_input_len : http2_input_len e' = http2_input_len e;
  ev_outbuf : ∀ p, outbuf e = Some p → ∃ q, outbuf e' = Some (p ++ q)
}.

#[export] Instance evolves_preorder : PreOrder evolves.
Proof.
  split.
  - intros e. split; [done|done|]. intros p Hp. exists []. by rewrite app_nil_r.
  - intros e1 e2 e3 [I1 L1 O1] [I2 L2 O2]. split; [congruence|congruence|].
    intros p Hp. destruct (O1 p Hp) as [q Hq]. destruct (O2 _ Hq) as [q' Hq'].
    exists (q ++ q'). by rewrite app_assoc.
Qed.

Lemma evolves_some e e' : evolves e e' → is_Some (outbuf e) → is_Some (outbuf e').
Proof. intros [_ _ Ho] [p Hp]. destruct (Ho p Hp) as [q Hq]. rewrite Hq. eauto. Qed.

(** [hoare bad Q m]: with an output buffer, [m] evolves the connection and its
    result satisfies [Q], or it stops the process in a way that is not [bad]. *)
Definition hoare {A} (bad : crash → Prop) (Q : A → Prop) (m : H A) : Prop :=
  ∀ e, is_Some (outbuf e) →
    match m e with
    | Done (a, e') => evolves e e' ∧ Q a
    | Crash c => ¬ bad c
    end.

Section Hoare.
Context {A B : Type} (bad : crash → Prop).
Implicit Types (Q : A → Prop) (R : B → Prop).

Lemma hoare_bind Q R (m : H A) (f : A → H B) :
  hoare bad Q m → (∀ a, Q a → hoare bad R (f a)) → hoare bad R (m ≫= f).
Proof.
  intros Hm Hf e He. specialize (Hm e He). unfold mbind, M_bind.
  destruct (m e) as [[a e']|c]; [|done]. destruct Hm as [Hev HQ].
  specialize (Hf a HQ e' (evolves_some _ _ Hev He)).
  destruct (f a e') as [[b e'']|c]; [|done]. split; [transitivity e'; [done|apply Hf]|apply Hf].
Qed.

Lemma hoare_conseq Q Q' (m : H A) : hoare bad Q m → (∀ a, Q a → Q' a) → hoare bad Q' m.
Proof.
  intros Hm HQ e He. specialize (Hm e He). destruct (m e) as [[a e']|c]; [|done].
  split; [apply Hm|apply HQ, Hm].
Qed.

Lemma hoare_ret Q a : Q a → hoare bad Q (mret a).
Proof. intros HQ e He. split; [reflexivity|done]. Qed.

Lemma hoare_crash Q c : ¬ bad c → hoare bad Q (mcrash c).
Proof. intros Hc e He. done. Qed.

Lemma hoare_get_bind R (f : http2_env → H B) :
  (∀ e, is_Some (outbuf e) → hoare bad R (f e)) → hoare bad R (get ≫= f).
Proof. intros Hf e He. rewrite bind_get. by apply Hf. Qed.

Lemma hoare_modify (R : unit → Prop) (g : http2_env → http2_env) :
  (∀ e, evolves e (g e)) → R tt → hoare bad R (modify g).
Proof. intros Hg HR e He. rewrite modify_M. split; [apply Hg|done]. Qed.

Lemma hoare_lift Q (m : outcome A) :
  match m with Done a => Q a | Crash c => ¬ bad c end → hoare bad Q (lift m).
Proof. intros Hm e He. unfold lift. destruct m; [split; [reflexivity|done]|done]. Qed.

Lemma hoare_assert (R : unit → Prop) b : ¬ bad AssertFail → R tt → hoare bad R (massert b).
Proof. intros Hb HR e He. destruct b; [split; [reflexivity|done]|done]. Qed.

Lemma hoare_goaway (R : unit → Prop) code reason : R tt → hoare bad R (goaway code reason).
Proof.
  intros HR e [q Hq]. rewrite (goaway_some _ _ _ _ Hq). split; [|done].
  split; [done|done|]. intros p Hp. rewrite Hq in Hp. injection Hp as ->. simpl. eauto.
Qed.
End Hoare.

(** Loads and stores stop the process as [Undefined] only. *)
Lemma load_crash {A} (b : blk A) i c : load b i = Crash c → c = Undefined.
Proof. unfold load. destruct (b !! i) as [[a|]|]; congruence. Qed.
Lemma loadn_crash {A} (b : blk A) i n c : loadn b i n = Crash c → c = Undefined.
Proof.
  revert i. induction n as [|n IH]; intros i; simpl; [done|].
  destruct (load b i) as [a|x] eqn:E; msimpl; [|intros [= ->]; by apply load_crash in E].
  destruct (loadn b (S i) n) as [l|x] eqn:El; msimpl; [done|]. intros [= ->]. eauto.
Qed.
Lemma store_crash {A} (b : blk A) i l c : store b i l = Crash c → c = Undefined.
Proof. unfold store. destruct (decide _); congruence. Qed.
Lemma tbl_get_crash t i c : tbl_get t i = Crash c → c = Undefined.
Proof. unfold tbl_get. repeat case_match; congruence. Qed.

(** Stops other than by a used-up loop counter. *)
Abbreviation nofuel := (λ c : crash, c = OutOfFuel).
(** Nothing is ruled out. *)
Abbreviation any := (λ _ : crash, False).

Create HintDb hoare.
#[export] Hint Resolve load_crash loadn_crash store_crash tbl_get_crash : hoare.

(** Solve the side conditions: records that evolve, outcomes that stop as
    [Undefined]. *)
Ltac hoare_side :=
  try done;
  match goal with
  | |- evolves ?e ?e' => split; [done|done|intros p Hp; exists []; rewrite app_nil_r; exact Hp]
  | |- match ?m with Done _ => _ | Crash _ => _ end =>
      let E := fresh "E" in
      destruct m eqn:E; [try done|];
      first [apply load_crash in E | apply loadn_crash in E | apply store_crash in E
            | apply tbl_get_crash in E]; congruence
  | |- ¬ _ => congruence
  | _ => idtac
  end.

(** One step through a monadic program. *)
Ltac hoare_step :=
  lazymatch goal with
  | |- ∀ _, _ => intros ?
  | |- hoare _ _ (mbind _ get) => apply hoare_get_bind
  | |- hoare ?b _ (mbind _ _) => apply (hoare_bind b (λ _, True))
  | |- hoare _ _ (mret _) => apply hoare_ret
  | |- hoare _ _ (mcrash _) => apply hoare_crash
  | |- hoare _ _ (modify _) => apply hoare_modify
  | |- hoare _ _ (lift _) => apply hoare_lift
  | |- hoare _ _ (massert _) => apply hoare_assert
  | |- hoare _ _ (goaway _ _) => apply hoare_goaway
  | |- hoare _ _ (match ?x with _ => _ end) => destruct x
  | |- hoare _ _ ?f => first [progress (cbv beta zeta) | fail 1]
  end.
Ltac hoare_go := repeat (hoare_step; hoare_side).

Lemma huff_step_any T buf len outbuflen st :
  hoare any (λ _, True) (huff_step T buf len outbuflen st).
Proof.
  unfold huff_step, huff_fe, huff_0, huff_ff, huff_ffff, huff_ffffff, huff_fffff, huff_fffffe,
    huff_fffe, emit, refill.
  hoare_go.
Qed.

(** The Huffman decoder evolves the connection. *)
Lemma huff_loop_any T buf len outbuflen fuel st :
  hoare any (λ _, True) (huff_loop T buf len outbuflen fuel st).
Proof.
  revert st. induction fuel as [|fuel IH]; intros st; simpl huff_loop.
  - apply hoare_crash; intros [].
  - eapply hoare_bind; [apply huff_step_any|]. intros [st'| |st'] _; [apply IH|by apply hoare_ret..].
Qed.

Lemma Xdecode_huffman2_hoare bs tl outbuflen :
  Forall is_byte bs →
  hoare nofuel (λ _, True) (Xdecode_huffman2 huffman_tables_init ((Some <$> bs) ++ tl) (zlen bs) outbuflen).
Proof.
  intros Hbs e He.
  pose proof (huff_loop_any huffman_tables_init ((Some <$> bs) ++ tl) (zlen bs) outbuflen
                (S (8 * Z.to_nat (zlen bs))) (HS 0 [] 0 0) e He) as Hany.
  pose proof (Xdecode_huffman2_no_fuel bs tl outbuflen e Hbs He) as Hf.
  unfold Xdecode_huffman2 in *.
  destruct (huff_loop _ _ _ _ _ _ e) as [[l e']|c]; [done|]. intros ->. done.
Qed.

(** A postcondition known from elsewhere. *)
Lemma hoare_post {A} bad (Q P : A → Prop) (m : H A) :
  hoare bad Q m → (∀ e a e', m e = Done (a, e') → P a) → hoare bad P m.
Proof.
  intros Hm HP e He. specialize (Hm e He). specialize (HP e).
  destruct (m e) as [[a e']|c]; [|done]. split; [apply Hm|by eapply HP].
Qed.

(** ** The header decoder never runs out of fuel *)

Section Decoder.
Context (bs : list Z) (Hbs : Forall is_byte bs) (tl : blk Z).
Let buf : blk Z := (Some <$> bs) ++ tl.
Context (Hcells : cells_ok buf).

Lemma decode_int2_loop_hoare n b o v max :
  hoare nofuel (λ _, True) (decode_int2_loop n b o v max).
Proof.
  revert o v. induction n as [|n IH]; intros o v; simpl decode_int2_loop; unfold comp_error, rd.
  - hoare_go.
  - hoare_go; apply IH.
Qed.

Lemma Xdecode_int2_hoare b len prefix_len : hoare nofuel (λ _, True) (Xdecode_int2 b len prefix_len).
Proof. unfold Xdecode_int2, rd. hoare_go. apply decode_int2_loop_hoare. Qed.

Lemma add_dyn_hoare k v : hoare nofuel (λ _, True) (add_dyn k v).
Proof. unfold add_dyn. hoare_go. Qed.

Lemma Xget_dyn_hoare value : hoare nofuel (λ _, True) (Xget_dyn value).
Proof. unfold Xget_dyn, comp_error. hoare_go. Qed.

Lemma report_or_fail_hoare k v n : hoare nofuel (λ _, True) (report_or_fail k v n).
Proof. unfold report_or_fail, Xreport_header, Xparse_status_code2. hoare_go. Qed.

Lemma literal_length_hoare o :
  0 ≤ o →
  hoare nofuel (λ r, match r with
                     | Some (o', value, _) => o < o' ≤ zlen bs ∧ 0 ≤ value ≤ zlen bs - o'
                     | None => True end) (literal_length buf (zlen bs) o).
Proof.
  intros Ho. apply (hoare_post _ (λ _, True)).
  - unfold literal_length, comp_error, rd. hoare_go. apply Xdecode_int2_hoare.
  - intros e [[[o' value] h]|] e' E; [|done].
    by apply literal_length_inv in E as (_ & ? & ?).
Qed.

(** The Huffman decoder on a part of the input. *)
Lemma huffman_part_hoare o value outbuflen :
  0 ≤ o → 0 ≤ value ≤ zlen bs - o →
  hoare nofuel (λ _, True) (Xdecode_huffman2 huffman_tables_init (drop (Z.to_nat o) buf) value outbuflen).
Proof.
  intros Ho Hv. unfold buf.
  assert (drop (Z.to_nat o) ((Some <$> bs) ++ tl) =
          (Some <$> take (Z.to_nat value) (drop (Z.to_nat o) bs)) ++
          ((Some <$> drop (Z.to_nat value) (drop (Z.to_nat o) bs)) ++ tl)) as ->.
  { rewrite app_assoc, <- fmap_app, take_drop. unfold zlen in Hv.
    rewrite drop_app_le by (rewrite length_fmap; lia). by rewrite fmap_drop. }
  assert (value = zlen (take (Z.to_nat value) (drop (Z.to_nat o) bs))) as Ev.
  { unfold zlen in *. rewrite length_take, length_drop. lia. }
  rewrite Ev at 3. apply Xdecode_huffman2_hoare. by apply Forall_take, Forall_drop.
Qed.

Lemma name_literal_hoare o :
  0 ≤ o → hoare nofuel (λ _, True) (name_literal huffman_tables_init buf (zlen bs) o).
Proof.
  intros Ho. unfold name_literal, comp_error.
  eapply hoare_bind; [by apply literal_length_hoare|].
  intros [[[o' value] [|]]|] Hr; hoare_go. apply huffman_part_hoare; lia.
Qed.

Lemma value_literal_hoare o :
  0 ≤ o → hoare nofuel (λ _, True) (value_literal huffman_tables_init buf (zlen bs) o).
Proof.
  intros Ho. unfold value_literal.
  eapply hoare_bind; [by apply literal_length_hoare|].
  intros [[[o' value] [|]]|] Hr; hoare_go. apply huffman_part_hoare; lia.
Qed.

(** Results of the first integer and of a name literal, with their bounds. *)
Lemma first_int_hoare prefix_len :
  0 ≤ prefix_len < 8 →
  hoare nofuel (λ r, 0 ≤ r.1) (Xdecode_int2 buf (zlen bs) prefix_len).
Proof.
  intros Hp. apply (hoare_post _ (λ _, True)); [apply Xdecode_int2_hoare|].
  intros e [n v] e' E. destruct (decide (n = 0)) as [->|Hn]; [done|]. simpl.
  apply Xdecode_int2_inv in E as (_ & ? & _); [lia|done..].
Qed.
Lemma first_name_hoare :
  hoare nofuel (λ r, match r with Some (o, _) => 0 ≤ o | None => True end)
    (name_literal huffman_tables_init buf (zlen bs) 1).
Proof.
  apply (hoare_post _ (λ _, True)); [by apply name_literal_hoare|].
  intros e [[o s]|] e' E; [|done]. apply name_literal_inv in E; [lia|done|lia].
Qed.

Lemma decode_indexed_hoare : hoare nofuel (λ _, True) (decode_indexed buf (zlen bs)).
Proof.
  unfold decode_indexed, comp_error. eapply hoare_bind; [apply Xdecode_int2_hoare|].
  hoare_go; try apply report_or_fail_hoare; try apply Xget_dyn_hoare; apply add_dyn_hoare.
Qed.

Lemma decode_new_name_hoare :
  hoare nofuel (λ _, True) (decode_new_name huffman_tables_init buf (zlen bs)).
Proof.
  unfold decode_new_name. eapply hoare_bind; [apply first_name_hoare|].
  intros [[o name]|] Ho; [|hoare_go]. eapply hoare_bind; [by apply value_literal_hoare|].
  hoare_go; [apply add_dyn_hoare|apply report_or_fail_hoare].
Qed.

Lemma decode_indexed_name_hoare prefix_len add :
  0 ≤ prefix_len < 8 →
  hoare nofuel (λ _, True) (decode_indexed_name huffman_tables_init prefix_len add buf (zlen bs)).
Proof.
  intros Hp. unfold decode_indexed_name, indexed_name, comp_error.
  eapply hoare_bind; [by apply first_int_hoare|]. intros [tmplen value] Ht.
  hoare_go; try apply Xget_dyn_hoare; try (by apply value_literal_hoare); try apply add_dyn_hoare;
    apply report_or_fail_hoare.
Qed.

Lemma Xdecode_header2_hoare :
  hoare nofuel (λ n, 0 ≤ n ≤ zlen bs) (Xdecode_header2 huffman_tables_init buf (zlen bs)).
Proof.
  apply (hoare_post _ (λ _, True)).
  2: { intros e n e' E. eapply Xdecode_header2_inv; [..|exact E]; [done|apply zlen_nonneg]. }
  unfold Xdecode_header2, comp_error, rd.
  hoare_go; [apply decode_indexed_hoare|apply decode_new_name_hoare|by apply decode_indexed_name_hoare..].
Qed.

End Decoder.

(** ** Receivers *)

Lemma goaway_fail_hoare code reason : hoare nofuel (λ _, True) (goaway_fail code reason).
Proof. unfold goaway_fail. hoare_go. Qed.
#[export] Hint Resolve goaway_fail_hoare : hoare.

Lemma Xreceive_data2_hoare flags length stream_id buf :
  hoare nofuel (λ _, True) (Xreceive_data2 flags length stream_id buf).
Proof. unfold Xreceive_data2, add_credits2, receive_body, goaway_fail, rd. hoare_go. Qed.

(** The rest of the frame from offset [o] on. *)
Lemma cells_split (bs : list Z) tl o :
  0 ≤ o ≤ zlen bs →
  drop (Z.to_nat o) ((Some <$> bs) ++ tl) = (Some <$> drop (Z.to_nat o) bs) ++ tl.
Proof.
  intros Ho. unfold zlen in Ho. rewrite drop_app_le by (rewrite length_fmap; lia).
  by rewrite fmap_drop.
Qed.

(** A header block that ends before the frame does: bytes [o] to
    [headers_len]. *)
Lemma headers_part (bs : list Z) tl o headers_len :
  0 ≤ o ≤ headers_len → headers_len ≤ zlen bs → zlen bs < 2 ^ 64 →
  ∃ bs' tl', drop (Z.to_nat o) ((Some <$> bs) ++ tl) = (Some <$> bs') ++ tl' ∧
             u64 (headers_len - o) = zlen bs' ∧ (Forall is_byte bs → Forall is_byte bs').
Proof.
  intros Ho Hh Hz. exists (take (Z.to_nat (headers_len - o)) (drop (Z.to_nat o) bs)).
  exists ((Some <$> drop (Z.to_nat (headers_len - o)) (drop (Z.to_nat o) bs)) ++ tl).
  rewrite cells_split by lia. split; [by rewrite app_assoc, <- fmap_app, take_drop|].
  split; [|intros; by apply Forall_take, Forall_drop].
  unfold u64, zlen in *. rewrite length_take, length_drop, Z.mod_small by lia. lia.
Qed.

Lemma headers_loop_hoare fuel (bs : list Z) tl o headers_len :
  Forall is_byte bs → cells_ok ((Some <$> bs) ++ tl) → zlen bs < 2 ^ 64 →
  0 ≤ o ≤ headers_len → headers_len ≤ zlen bs → zlen bs - o < Z.of_nat fuel →
  hoare nofuel (λ r, headers_len < zlen bs → r = -1)
    (headers_loop huffman_tables_init fuel ((Some <$> bs) ++ tl) o headers_len (zlen bs)).
Proof.
  intros Hbs Hcells Hz. revert o. induction fuel as [|fuel IH]; intros o Ho Hh Hf; [lia|].
  simpl headers_loop. destruct (Z.ltb_spec o (zlen bs)).
  - destruct (headers_part bs tl o headers_len Ho Hh Hz) as (bs' & tl' & E & Eu & Hb).
    rewrite E, Eu. eapply hoare_bind.
    { apply (Xdecode_header2_hoare bs' (Hb Hbs) tl'). rewrite <- E. by apply cells_ok_drop. }
    intros len Hlen. rewrite <- Eu in Hlen.
    unfold u64 in Hlen. rewrite Z.mod_small in Hlen by lia.
    destruct (Z.eqb_spec len 0); [by apply hoare_ret|]. apply IH; lia.
  - apply hoare_ret. lia.
Qed.

Lemma Xreceive_headers2_hoare flags stream_id (bs : list Z) tl :
  Forall is_byte bs → cells_ok ((Some <$> bs) ++ tl) → zlen bs < 2 ^ 64 →
  hoare nofuel (λ _, True)
    (Xreceive_headers2 huffman_tables_init flags (zlen bs) stream_id ((Some <$> bs) ++ tl)).
Proof.
  intros Hbs Hcells Hz. pose proof (zlen_nonneg bs). unfold Xreceive_headers2, rd.
  destruct (stream_id =? 0); [apply goaway_fail_hoare|].
  destruct (negb _); [apply goaway_fail_hoare|].
  apply (hoare_bind _ (λ r, 0 ≤ r.1 ∧ 0 ≤ r.2)).
  { destruct (flag_set _ _); [|by apply hoare_ret].
    apply (hoare_bind _ (λ b, 0 ≤ b)); [|intros; by apply hoare_ret].
    apply hoare_lift. unfold load. destruct (_ !! _) as [[b|]|] eqn:E; [|congruence..].
    apply (Hcells _ _ E). }
  intros [po pl] [H1 H2]. simpl in H1, H2. set (pr := if flag_set _ _ then 5 else 0).
  assert (0 ≤ pr) by (unfold pr; case_match; lia).
  destruct (Z.ltb_spec (zlen bs) (po + pr + pl)); [apply goaway_fail_hoare|].
  eapply hoare_conseq; [apply headers_loop_hoare; try done; lia|done].
Qed.

Lemma settings_loop_crash n buf o c : settings_loop n buf o = Crash c → c = Undefined.
Proof.
  revert o. induction n as [|n IH]; intros o; [done|]. cbn [settings_loop].
  destruct (loadn buf o 2) as [?|x] eqn:E1; msimpl; [|intros [= ->]; by apply loadn_crash in E1].
  destruct (loadn buf (o + 2) 4) as [?|x] eqn:E2; msimpl;
    [|intros [= ->]; by apply loadn_crash in E2]. apply IH.
Qed.

Lemma dispatch_hoare type flags stream_id (bs : list Z) tl :
  Forall is_byte bs → cells_ok ((Some <$> bs) ++ tl) → zlen bs < 2 ^ 64 →
  hoare nofuel (λ _, True)
    (dispatch huffman_tables_init type flags (zlen bs) stream_id ((Some <$> bs) ++ tl)).
Proof.
  intros Hbs Hcells Hz. unfold dispatch, Xreceive_rst_stream2, Xreceive_settings2, Xreceive_ping2,
    Xreceive_goaway2, Xreceive_window_update2.
  hoare_go; try apply goaway_fail_hoare; try apply Xreceive_data2_hoare;
    try (by apply Xreceive_headers2_hoare).
  destruct (settings_loop _ _ _) eqn:E; [done|]. apply settings_loop_crash in E. congruence.
Qed.

(** ** Filling the input buffer *)

Lemma store_inv {A} (b b' : blk A) off l :
  store b off l = Done b' →
  b' = take off b ++ (Some <$> l) ++ drop (off + length l) b ∧ (off + length l ≤ length b)%nat.
Proof. unfold store. destruct (decide _); [|done]. by intros [= <-]. Qed.

Lemma length_store {A} (b b' : blk A) off l : store b off l = Done b' → length b' = length b.
Proof.
  intros [-> Hl]%store_inv. rewrite !length_app, length_take, length_fmap, length_drop. lia.
Qed.

(** Two stores in a row. *)
Lemma store_store {A} (b b1 : blk A) off l1 l2 :
  store b off l1 = Done b1 → store b off (l1 ++ l2) = store b1 (off + length l1) l2.
Proof.
  intros E. pose proof (length_store _ _ _ _ E) as Hlen.
  apply store_inv in E as [Eb Hl]. unfold store. rewrite Hlen, length_app.
  destruct (decide (off + (length l1 + length l2) ≤ length b)%nat) as [Hd|Hd].
  2: { by rewrite decide_False by lia. }
  rewrite decide_True by lia. f_equal.
  assert (take (off + length l1) b1 = take off b ++ (Some <$> l1)) as ->.
  { rewrite Eb, app_assoc, take_app_length'; [done|].
    rewrite length_app, length_take, length_fmap. lia. }
  assert (drop (off + length l1 + length l2) b1 = drop (off + (length l1 + length l2)) b) as ->.
  { rewrite Eb, app_assoc, drop_app_ge; rewrite length_app, length_take, length_fmap; [|lia].
    rewrite drop_drop. f_equal. lia. }
  by rewrite fmap_app, <- !app_assoc.
Qed.

(** The first [n] cells survive a store behind them. *)
Lemma take_store {A} (b b' : blk A) off l n :
  (n ≤ off)%nat → store b off l = Done b' → take n b' = take n b.
Proof.
  intros Hn [-> Hl]%store_inv. rewrite take_app_le by (rewrite length_take; lia).
  rewrite take_take. f_equal. lia.
Qed.

Lemma load_take {A} (b b' : blk A) n i : take n b = take n b' → (i < n)%nat → load b i = load b' i.
Proof.
  intros E Hi. unfold load. by rewrite <- (lookup_take_lt b n i), E, (lookup_take_lt b' n i) by lia.
Qed.
Lemma loadn_take {A} (b b' : blk A) n i k :
  take n b = take n b' → (i + k ≤ n)%nat → loadn b i k = loadn b' i k.
Proof.
  intros E. revert i. induction k as [|k IH]; intros i Hi; [done|]. simpl.
  rewrite (load_take b b' n i E) by lia. by rewrite IH by lia.
Qed.

Section Fill.
Context {Ref : Type}.
Implicit Types (c : conn (Ref := Ref)) (e : http2_env) (r : Ref).

(** Reading from an [evbuffer], without the callback that logs the input. *)
Abbreviation fill := (fill_input (Ref := Ref) None None).

Lemma on_env_bind {A B} (m : H A) (f : A → M conn B) c :
  (on_env m ≫= f) c =
  match m (c_env c) with Done (a, e) => f a (set_env e c) | Crash x => Crash x end.
Proof. unfold mbind, M_bind, on_env. by destruct (m (c_env c)) as [[a e]|x]. Qed.

Definition grown (needed : Z) (e : http2_env) : http2_env :=
  if http2_input_max e <? needed
  then set_http2_input_max needed (set_http2_input (realloc (http2_input e) (Z.to_nat needed)) e)
  else e.

Lemma grow_input_done needed e : grow_input needed e = Done (tt, grown needed e).
Proof. unfold grow_input, grown. msimpl. by destruct (_ <? _). Qed.

Lemma grown_idem needed e : grown needed (grown needed e) = grown needed e.
Proof.
  unfold grown at 1. replace (http2_input_max (grown needed e) <? needed) with false; [done|].
  unfold grown. destruct (Z.ltb_spec (http2_input_max e) needed); simpl;
    [by rewrite Z.ltb_irrefl|by destruct (Z.ltb_spec (http2_input_max e) needed); [lia|]].
Qed.

Lemma grown_len needed e : http2_input_len (grown needed e) = http2_input_len e.
Proof. unfold grown. by destruct (_ <? _). Qed.

(** [fill_input] as one equation. *)
Lemma fill_eq needed e q r :
  fill needed (Conn e (Some q) r) =
  let g := grown needed e in
  if http2_input_len e <? needed then
    match store (http2_input g) (Z.to_nat (http2_input_len e))
                (take (Z.to_nat (needed - http2_input_len e)) q) with
    | Done b =>
        let n := http2_input_len e + zlen (take (Z.to_nat (needed - http2_input_len e)) q) in
        Done (needed <=? n, Conn (set_http2_input_len n (set_http2_input b g))
                              (Some (drop (Z.to_nat (needed - http2_input_len e)) q)) r)
    | Crash x => Crash x
    end
  else Done (true, Conn g (Some q) r).
Proof.
  unfold fill_input. rewrite on_env_bind. cbn [c_env]. rewrite grow_input_done. msimpl.
  unfold set_env. cbn [c_env c_inbuf c_ref]. rewrite grown_len. cbv zeta. destruct (_ <? _); [|done].
  unfold fetch, evbuffer_remove. unfold mbind at 1, M_bind at 1. cbn [c_inbuf]. msimpl.
  unfold on_env, append_input, set_inbuf. cbn [c_env c_inbuf c_ref]. msimpl. rewrite grown_len.
  destruct (store _ _ _) as [b|x]; msimpl; done.
Qed.

Lemma grown_outbuf needed e : outbuf (grown needed e) = outbuf e.
Proof. unfold grown. by destruct (_ <? _). Qed.
Lemma grown_done needed e : done (grown needed e) = done e.
Proof. unfold grown. by destruct (_ <? _). Qed.

Lemma grown_max needed e : needed ≤ http2_input_max (grown needed e).
Proof. unfold grown. destruct (Z.ltb_spec (http2_input_max e) needed); simpl; lia. Qed.

Lemma grown_id needed e : needed ≤ http2_input_max e → grown needed e = e.
Proof. intros. unfold grown. destruct (Z.ltb_spec (http2_input_max e) needed); [lia|done]. Qed.

(** [filled needed e l]: the connection after [l] was added to the input. *)
Definition filled (needed : Z) (e : http2_env) (l : list Z) : outcome http2_env :=
  match store (http2_input (grown needed e)) (Z.to_nat (http2_input_len e)) l with
  | Done b => Done (set_http2_input_len (http2_input_len e + zlen l)
                      (set_http2_input b (grown needed e)))
  | Crash x => Crash x
  end.

Lemma fill_filled needed e q r :
  http2_input_len e < needed →
  fill needed (Conn e (Some q) r) =
  let k := Z.to_nat (needed - http2_input_len e) in
  match filled needed e (take k q) with
  | Done e1 => Done (needed <=? http2_input_len e + zlen (take k q), Conn e1 (Some (drop k q)) r)
  | Crash x => Crash x
  end.
Proof.
  intros Hlt. rewrite fill_eq. unfold filled.
  destruct (Z.ltb_spec (http2_input_len e) needed); [|lia].
  cbv zeta. by destruct (store _ _ _).
Qed.

(** What the connection looks like then. *)
Lemma filled_inv needed e l e1 :
  0 ≤ http2_input_len e → filled needed e l = Done e1 →
  http2_input_len e1 = http2_input_len e + zlen l ∧ needed ≤ http2_input_max e1 ∧
  done e1 = done e ∧ outbuf e1 = outbuf e ∧
  ∃ b, store (http2_input (grown needed e)) (Z.to_nat (http2_input_len e)) l = Done b ∧
       e1 = set_http2_input_len (http2_input_len e + zlen l) (set_http2_input b (grown needed e)).
Proof.
  intros Hl. unfold filled. destruct (store _ _ _) as [b|x] eqn:E; [|done]. intros [= <-].
  split; [done|]. split; [apply grown_max|]. split; [apply grown_done|].
  split; [apply grown_outbuf|]. eauto.
Qed.

(** Adding [l1] and then [l2] is adding both. *)
Lemma filled_app needed e l1 l2 e1 :
  0 ≤ http2_input_len e → filled needed e l1 = Done e1 →
  filled needed e (l1 ++ l2) = filled needed e1 l2.
Proof.
  intros Hl E. apply filled_inv in E as (El & Hm & _ & _ & b & Hs & ->); [|done].
  unfold filled. rewrite (grown_id needed (set_http2_input_len _ _)) by done. simpl.
  rewrite (store_store _ _ _ _ l2 Hs), zlen_app.
  replace (Z.to_nat (http2_input_len e + zlen l1)) with
    (Z.to_nat (http2_input_len e) + length l1)%nat by (unfold zlen; lia).
  destruct (store b _ l2) as [b'|x]; [|done]. f_equal. rewrite Z.add_assoc.
  by generalize (grown needed e).
Qed.

Lemma take_short {A} (l l' : list A) k : (length l ≤ k)%nat → take k (l ++ l') = l ++ take (k - length l) l'.
Proof. intros. rewrite take_app_ge by lia. done. Qed.

(** A fill that stays short took all there was, and goes on with the next
    bytes as if they had been there from the start. *)
Lemma fill_short needed e q1 r c1 :
  0 ≤ http2_input_len e →
  fill needed (Conn e (Some q1) r) = Done (false, c1) →
  ∃ e1, c1 = Conn e1 (Some []) r ∧ filled needed e q1 = Done e1 ∧
    http2_input_len e + zlen q1 < needed ∧
    ∀ q2, fill needed (Conn e (Some (q1 ++ q2)) r) = fill needed (Conn e1 (Some q2) r).
Proof.
  intros Hl E. destruct (Z.lt_ge_cases (http2_input_len e) needed) as [Hlt|Hge].
  2: { rewrite fill_eq in E. destruct (Z.ltb_spec (http2_input_len e) needed); [lia|done]. }
  rewrite fill_filled in E by done. cbv zeta in E.
  set (k := Z.to_nat (needed - http2_input_len e)) in *.
  destruct (filled needed e (take k q1)) as [e1|x] eqn:Ef; [|done].
  injection E as Eb <-. apply Z.leb_gt in Eb.
  assert (length q1 < k)%nat as Hk.
  { unfold zlen in Eb. rewrite length_take in Eb. lia. }
  rewrite take_ge in Eb, Ef by lia. rewrite drop_ge by lia. exists e1.
  split; [done|]. split; [done|]. split; [done|].
  intros q2. pose proof (filled_inv _ _ _ _ Hl Ef) as (Hlen & _).
  rewrite (fill_filled _ e), (fill_filled _ e1) by lia. cbv zeta. fold k.
  rewrite Hlen.
  replace (Z.to_nat (needed - (http2_input_len e + zlen q1))) with (k - length q1)%nat
    by (unfold k, zlen in *; lia).
  rewrite take_short by lia. rewrite (filled_app _ _ _ _ _ Hl Ef), zlen_app, Z.add_assoc.
  rewrite drop_app_ge by lia. done.
Qed.

(** A fill that is complete does not look at what comes behind. *)
Lemma fill_complete needed e q1 r c1 :
  0 ≤ http2_input_len e →
  fill needed (Conn e (Some q1) r) = Done (true, c1) →
  ∃ e1 q1' l, c1 = Conn e1 (Some q1') r ∧ q1 = l ++ q1' ∧
    (if http2_input_len e <? needed then filled needed e l else Done (grown needed e)) = Done e1 ∧
    needed ≤ http2_input_len e1 ∧ http2_input_len e1 = http2_input_len e + zlen l ∧
    (http2_input_len e ≤ needed → http2_input_len e1 = needed) ∧
    ∀ q2, fill needed (Conn e (Some (q1 ++ q2)) r) = Done (true, Conn e1 (Some (q1' ++ q2)) r).
Proof.
  intros Hl E. destruct (Z.lt_ge_cases (http2_input_len e) needed) as [Hlt|Hge].
  - rewrite fill_filled in E by done. cbv zeta in E.
    set (k := Z.to_nat (needed - http2_input_len e)) in *.
    destruct (filled needed e (take k q1)) as [e1|x] eqn:Ef; [|done].
    injection E as Eb <-. apply Z.leb_le in Eb.
    pose proof (filled_inv _ _ _ _ Hl Ef) as (Hlen & _).
    assert (k ≤ length q1)%nat as Hk.
    { unfold zlen in Eb. rewrite length_take in Eb. unfold k in *. lia. }
    exists e1, (drop k q1), (take k q1). split; [done|]. split; [by rewrite take_drop|].
    destruct (Z.ltb_spec (http2_input_len e) needed); [|lia].
    split; [done|]. split; [lia|]. split; [done|].
    split; [intros; rewrite Hlen; unfold zlen; rewrite length_take; lia|].
    intros q2. rewrite fill_filled by done. cbv zeta. fold k.
    rewrite take_app_le, drop_app_le, Ef by lia.
    replace (needed <=? _) with true by (symmetry; by apply Z.leb_le). done.
  - rewrite fill_eq in E. destruct (Z.ltb_spec (http2_input_len e) needed); [lia|].
    injection E as <-. exists (grown needed e), q1, []. rewrite grown_len. cbn [app].
    split; [done|]. split; [done|].
    split; [by destruct (Z.ltb_spec (http2_input_len e) needed); [lia|]|].
    split; [done|]. split; [unfold zlen; simpl; lia|]. split; [lia|].
    intros q2. rewrite fill_eq. by destruct (Z.ltb_spec (http2_input_len e) needed); [lia|].
Qed.

Abbreviation input1 := (Xhttp2_dns_input1 huffman_tables_init (Ref := Ref) None None).

Lemma loadn_length {A} (b : blk A) i n l : loadn b i n = Done l → (n = 0 ∨ i + n ≤ length b)%nat.
Proof.
  revert i l. induction n as [|n IH]; intros i l E; [by left|]. right. simpl in E.
  destruct (load b i) as [a|x] eqn:El; [|done]. msimpl_in E.
  destruct (loadn b (S i) n) as [l'|x] eqn:E'; [|done].
  assert (i < length b)%nat.
  { unfold load in El. destruct (b !! i) eqn:Eb; [|done]. by apply lookup_lt_Some in Eb. }
  destruct (IH _ _ E'); lia.
Qed.

Lemma frame_length_filled needed e l e1 L :
  9 ≤ http2_input_len e → 9 ≤ needed → filled needed e l = Done e1 →
  frame_length e = Done (L, e) → frame_length e1 = Done (L, e1).
Proof.
  intros Hl Hn Hf HL. unfold frame_length in *. msimpl. msimpl_in HL.
  destruct (loadn (http2_input e) 0 3) as [bytes|x] eqn:E; msimpl_in HL; [|done].
  injection HL as <-.
  apply filled_inv in Hf as (_ & _ & _ & _ & b & Hs & ->); [|lia].
  cbn [http2_input set_http2_input_len set_http2_input].
  rewrite (loadn_take _ (http2_input e) 3); [by rewrite E| |lia].
  rewrite (take_store _ _ (Z.to_nat (http2_input_len e)) l 3 ltac:(lia) Hs).
  destruct (loadn_length _ _ _ _ E); [done|].
  unfold grown. destruct (_ <? _); [|done]. simpl. apply take_realloc; lia.
Qed.

(** [Xhttp2_dns_input1] with its plumbing removed. *)
Lemma input1_eq c :
  input1 c =
  match fill_input (Ref := Ref) None None HTTP2_HDR_SIZE c with
  | Done (true, c1) =>
      match frame_length (c_env c1) with
      | Done (L, e2) =>
          match fill_input (Ref := Ref) None None (HTTP2_HDR_SIZE + L) (set_env e2 c1) with
          | Done (true, c3) => on_env (handle_frame huffman_tables_init L) c3
          | Done (false, c3) => Done (0, c3)
          | Crash x => Crash x
          end
      | Crash x => Crash x
      end
  | Done (false, c1) => Done (0, c1)
  | Crash x => Crash x
  end.
Proof.
  unfold Xhttp2_dns_input1. unfold mbind at 1, M_bind at 1.
  destruct (fill_input _ _ HTTP2_HDR_SIZE c) as [[[|] c1]|x]; [|done..].
  cbn [negb]. rewrite on_env_bind. destruct (frame_length (c_env c1)) as [[L e2]|x]; [|done].
  unfold mbind, M_bind. destruct (fill_input _ _ _ _) as [[[|] c3]|x]; done.
Qed.

Lemma frame_length_env e L e2 : frame_length e = Done (L, e2) → e2 = e.
Proof.
  unfold frame_length. msimpl. destruct (loadn _ _ _); msimpl; [|done]. by intros [= _ ->].
Qed.

(** The two ways in which [Xhttp2_dns_input1] ends on a queue: the frame is
    incomplete and more bytes are needed, or it was handled and what is behind it
    was not looked at. *)
Lemma input1_split e q1 r res c1 :
  0 ≤ http2_input_len e →
  input1 (Conn e (Some q1) r) = Done (res, c1) →
  (∃ e1, res = 0 ∧ c1 = Conn e1 (Some []) r ∧ 0 ≤ http2_input_len e1 ∧ outbuf e1 = outbuf e ∧
     ∀ q2, input1 (Conn e (Some (q1 ++ q2)) r) = input1 (Conn e1 (Some q2) r)) ∨
  (∃ e1 q1', c1 = Conn e1 (Some q1') r ∧ (res ≠ -1 → http2_input_len e1 = 0) ∧
     ∀ q2, input1 (Conn e (Some (q1 ++ q2)) r) = Done (res, Conn e1 (Some (q1' ++ q2)) r)).
Proof.
  intros Hl E. rewrite input1_eq in E.
  destruct (fill_input None None HTTP2_HDR_SIZE (Conn e (Some q1) r)) as [[[|] c2]|x] eqn:E1; [| |done].
  2: { injection E as <- <-. left.
       apply fill_short in E1 as (e1 & -> & Hf & _ & Hq); [|done]. exists e1.
       apply filled_inv in Hf as (Hlen & _ & Hd & Ho & _); [|done].
       pose proof (zlen_nonneg q1). split; [done|]. split; [done|]. split; [lia|]. split; [done|].
       intros q2. by rewrite (input1_eq (Conn e _ _)), (input1_eq (Conn e1 _ _)), Hq. }
  apply fill_complete in E1 as (e1 & q1' & l & -> & Eq & He1 & Hn & Hlen & _ & Hq); [|done].
  cbn [c_env] in E. destruct (frame_length e1) as [[L e2]|x] eqn:EL; [|done].
  pose proof (frame_length_env _ _ _ EL) as ->. unfold set_env in E. cbn [c_inbuf c_ref] in E.
  pose proof (zlen_nonneg l). unfold HTTP2_HDR_SIZE in *.
  assert (outbuf e1 = outbuf e) as Ho1.
  { destruct (_ <? _) in He1; [|injection He1 as <-; apply grown_outbuf].
    by apply filled_inv in He1 as (_ & _ & _ & ? & _). }
  destruct (fill_input None None (9 + L) (Conn e1 (Some q1') r)) as [[[|] c3]|x] eqn:E2; [| |done].
  - apply fill_complete in E2 as (e3 & q3 & l3 & -> & -> & He3 & Hn3 & Hlen3 & _ & Hq3); [|lia].
    right. unfold on_env in E. cbn [c_env] in E.
    destruct (handle_frame huffman_tables_init L e3) as [[res' e4]|x] eqn:Eh; [|done].
    injection E as <- <-. exists e4, q3. split; [done|]. split.
    { intros Hres. unfold handle_frame in Eh. minv Eh. destruct a as [[type flags] sid].
      minv Eh. minv Eh. destruct (_ =? -1); msimpl_in Eh; injection Eh; intros; subst; done. }
    intros q2. rewrite (input1_eq (Conn e _ _)). unfold HTTP2_HDR_SIZE. rewrite Hq. cbn [c_env]. rewrite EL.
    unfold set_env. cbn [c_inbuf c_ref]. rewrite Hq3. unfold on_env. cbn [c_env]. by rewrite Eh.
  - injection E as <- <-. left.
    apply fill_short in E2 as (e3 & -> & Hf & Hs & Hq3); [|lia]. exists e3.
    pose proof (filled_inv _ e1 _ _ ltac:(lia) Hf) as (Hlen3 & Hmax & Hd3 & Ho3 & _).
    pose proof (zlen_nonneg q1').
    split; [done|]. split; [done|]. split; [lia|]. split; [congruence|].
    intros q2. rewrite (input1_eq (Conn e _ _)), (input1_eq (Conn e3 _ _)).
    unfold HTTP2_HDR_SIZE. rewrite Hq. cbn [c_env]. rewrite EL.
    unfold set_env. cbn [c_inbuf c_ref]. rewrite Hq3.
    rewrite (fill_eq 9 e3). destruct (Z.ltb_spec (http2_input_len e3) 9); [lia|].
    rewrite (grown_id 9 e3) by lia. cbv zeta. cbn [c_env].
    rewrite (frame_length_filled (9 + L) e1 q1' e3 L); [done|lia|lia|done|done].
Qed.

(** More fuel does not change a result. *)
Lemma input_loop_fuel reply f f' c x :
  input_loop huffman_tables_init None None reply f c = Done x → (f ≤ f')%nat →
  input_loop huffman_tables_init None None reply f' c = Done x.
Proof.
  destruct x as [v cx]. revert f' c. induction f as [|f IH]; intros f' c E Hf; [done|].
  destruct f' as [|f']; [lia|]. cbn [input_loop] in *. msimpl. msimpl_in E.
  destruct (_ =? 0); [done|]. minv E. mrun E0. destruct (_ =? -1); [done|].
  msimpl. msimpl_in E. destruct (done (c_env s)); [done|]. apply IH; [done|lia].
Qed.

(** Chunks: when the queue [q1] is used up, going on with [q2] is the same as
    having had both from the start. *)
Lemma input_loop_app reply f1 f2 e q1 q2 r e1 q1' r1 x :
  0 ≤ http2_input_len e →
  input_loop huffman_tables_init None None reply f1 (Conn e (Some q1) r) =
    Done (1, Conn e1 (Some q1') r1) →
  input_loop huffman_tables_init None None reply f2 (Conn e1 (Some q2) r1) = Done x →
  input_loop huffman_tables_init None None reply (f1 + f2) (Conn e (Some (q1 ++ q2)) r) = Done x.
Proof.
  destruct x as [v cx].
  revert e q1. induction f1 as [|f1 IH]; intros e q1 Hl E1 E2; [done|].
  pose proof E1 as E1'. cbn [input_loop] in E1. msimpl_in E1. cbn [c_inbuf] in E1.
  destruct (Z.eqb_spec (zlen q1) 0) as [Hz|Hz].
  { assert (q1 = []) as -> by (destruct q1; [done|rewrite zlen_cons in Hz; pose proof (zlen_nonneg q1); lia]).
    injection E1 as <- <- <-. apply (input_loop_fuel _ f2); [done|lia]. }
  minv E1. destruct (Z.eqb_spec a (-1)); [done|]. msimpl_in E1.
  destruct (done (c_env s)) eqn:Ed; [by minv E1; msimpl_in E1|].
  apply input1_split in E as [(e' & -> & -> & Hl' & _ & Hq)|(e' & q' & -> & Hl' & Hq)]; [| |done].
  - destruct f1 as [|f1]; [done|]. cbn in E1. injection E1 as -> <- <-.
    destruct (Z.eqb_spec (zlen q2) 0) as [Hz2|Hz2].
    { assert (q2 = []) as -> by (destruct q2; [done|rewrite zlen_cons in Hz2; pose proof (zlen_nonneg q2); lia]).
      rewrite app_nil_r. destruct f2 as [|f2]; [done|]. cbn in E2. injection E2 as <- <-.
      apply (input_loop_fuel _ (S (S f1))); [exact E1'|lia]. }
    change (S (S f1) + f2)%nat with (S (S f1 + f2)). remember (S f1 + f2)%nat as F eqn:EF.
    cbn [input_loop]. msimpl. cbn [c_inbuf].
    rewrite zlen_app. pose proof (zlen_nonneg q1). pose proof (zlen_nonneg q2).
    destruct (Z.eqb_spec (zlen q1 + zlen q2) 0); [lia|].
    destruct f2 as [|f2]; [done|]. cbn [input_loop] in E2. msimpl_in E2. cbn [c_inbuf] in E2.
    destruct (Z.eqb_spec (zlen q2) 0); [lia|].
    minv E2. erewrite M_bind_done by (rewrite Hq; exact E).
    destruct (_ =? -1); [done|]. msimpl. msimpl_in E2. destruct (done (c_env s)); [done|].
    apply (input_loop_fuel _ f2); [done|lia].
  - cbn [Nat.add input_loop]. msimpl. cbn [c_inbuf].
    rewrite zlen_app. pose proof (zlen_nonneg q1). pose proof (zlen_nonneg q2).
    destruct (Z.eqb_spec (zlen q1 + zlen q2) 0); [lia|].
    erewrite M_bind_done by (apply Hq). destruct (Z.eqb_spec a (-1)); [done|]. msimpl.
    cbn [c_env] in Ed |- *. rewrite Ed. apply (IH e' q'); [rewrite Hl' by done; lia|done|done].
Qed.
End Fill.

(** ** Input that arrived so far *)

(** [buf_holds e l]: the input buffer starts with the bytes [l] received so far
    of a frame, and all its cells are bytes. *)
Record buf_holds (e : http2_env) (l : list Z) : Prop := {
  bh_cells : take (length l) (http2_input e) = Some <$> l;
  bh_len : http2_input_len e = zlen l;
  bh_bytes : cells_ok (http2_input e)
}.

Lemma cells_ok_app b1 b2 : cells_ok b1 → cells_ok b2 → cells_ok (b1 ++ b2).
Proof. intros H1 H2 i b E. apply lookup_app_Some in E as [E|[_ E]]; eauto. Qed.
Lemma cells_ok_take n b : cells_ok b → cells_ok (take n b).
Proof. intros Hb i x E. apply lookup_take_Some in E as [E _]. eauto. Qed.
Lemma cells_ok_realloc b n : cells_ok b → cells_ok (realloc b n).
Proof.
  intros Hb. apply cells_ok_app; [by apply cells_ok_take|].
  intros i x [E _]%lookup_replicate. done.
Qed.
Lemma cells_ok_store b b' off l :
  cells_ok b → Forall is_byte l → store b off l = Done b' → cells_ok b'.
Proof.
  intros Hb Hl [-> _]%store_inv. apply cells_ok_app; [by apply cells_ok_take|].
  apply cells_ok_app; [by apply cells_ok_bytes|by apply cells_ok_drop].
Qed.

Lemma take_fmap_length {A} (b : blk A) l : take (length l) b = Some <$> l → (length l ≤ length b)%nat.
Proof. intros E. apply (f_equal length) in E. rewrite length_take, length_fmap in E. lia. Qed.

Lemma buf_holds_bytes e l : buf_holds e l → Forall is_byte l.
Proof.
  intros [Hc _ Hb]. apply Forall_lookup_2. intros i x Ex. apply (Hb i x).
  rewrite <- (lookup_take_lt _ (length l)) by (by apply lookup_lt_Some in Ex).
  by rewrite Hc, list_lookup_fmap, Ex.
Qed.

Lemma grown_holds needed e l : buf_holds e l → zlen l ≤ needed → buf_holds (grown needed e) l.
Proof.
  intros [Hc Hl Hb] Hn. pose proof (take_fmap_length _ _ Hc). unfold grown.
  destruct (_ <? _); [|by split]. split; simpl; [|done|by apply cells_ok_realloc].
  rewrite take_realloc; [done|done|unfold zlen in Hn; lia].
Qed.

Lemma filled_holds needed e l l' e1 :
  buf_holds e l → Forall is_byte l' → zlen l ≤ needed → filled needed e l' = Done e1 →
  buf_holds e1 (l ++ l').
Proof.
  intros Hh Hl' Hn E. destruct (grown_holds needed e l Hh Hn) as [Hc Hl Hb].
  pose proof (bh_len e l Hh) as He. pose proof (zlen_nonneg l).
  apply filled_inv in E as (_ & _ & _ & _ & b & Hs & ->); [|lia].
  rewrite He in Hs |- *. unfold zlen in Hs. rewrite Nat2Z.id in Hs. split; simpl.
  - apply store_inv in Hs as [-> Hfit]. rewrite length_app, app_assoc, Hc, fmap_app.
    rewrite take_app_length'; [done|]. by rewrite length_app, !length_fmap.
  - by rewrite zlen_app.
  - by eapply cells_ok_store.
Qed.

Lemma of_be3 a b c : is_byte a → is_byte b → is_byte c → of_be [a; b; c] = a * 2 ^ 16 + b * 2 ^ 8 + c.
Proof.
  unfold is_byte. intros Ha Hb Hc. unfold of_be. cbn [fold_left].
  rewrite Z.shiftl_0_l, Z.lor_0_l.
  rewrite (lor_add (a ≪ 8) b 8); rewrite ?Z.shiftl_mul_pow2 by lia;
    [|lia|lia|by apply Z.mod_mul].
  rewrite (lor_add _ c 8); [lia|lia|lia|by apply Z.mod_mul].
Qed.

Lemma load_holds e l i :
  buf_holds e l → (i < length l)%nat → load (http2_input e) i = Done (l !!! i).
Proof.
  intros [Hc _ _] Hi. unfold load. rewrite <- (lookup_take_lt _ (length l)) by done.
  rewrite Hc, list_lookup_fmap, list_lookup_lookup_total_lt by done. done.
Qed.

Lemma loadn_holds e l i n :
  buf_holds e l → (i + n ≤ length l)%nat → loadn (http2_input e) i n = Done (take n (drop i l)).
Proof.
  intros [Hc _ _] Hi. rewrite <- (length_take_le (drop i l) n) at 1 by (rewrite length_drop; lia).
  apply loadn_app. rewrite length_take_le by (rewrite length_drop; lia).
  rewrite <- (take_drop (length l) (http2_input e)), Hc.
  rewrite drop_app_le by (rewrite length_fmap; lia).
  rewrite take_app_le by (rewrite length_drop, length_fmap; lia).
  by rewrite <- fmap_drop, <- fmap_take.
Qed.

Lemma frame_length_holds e l :
  buf_holds e l → 9 ≤ zlen l →
  ∃ L, frame_length e = Done (L, e) ∧ L = of_be (take 3 l) ∧ 0 ≤ L < 2 ^ 24.
Proof.
  intros Hh Hl. pose proof (buf_holds_bytes e l Hh) as Hb. unfold zlen in Hl.
  exists (of_be (take 3 l)). split; [|split; [done|]].
  - unfold frame_length. msimpl. rewrite (loadn_holds e l 0 3 Hh) by lia. done.
  - destruct l as [|a [|b [|c l]]]; [simpl in Hl; lia..|].
    rewrite !Forall_cons in Hb. destruct Hb as (Ha & Hb & Hc & _).
    simpl take. rewrite take_0, of_be3 by done. unfold is_byte in *. lia.
Qed.

(** A complete frame is handled without running out of fuel; the input is
    then empty unless the frame was refused. *)
Lemma handle_frame_ok e l L :
  buf_holds e l → zlen l = 9 + L → 0 ≤ L < 2 ^ 24 → is_Some (outbuf e) →
  match handle_frame huffman_tables_init L e with
  | Done (res, e') => is_Some (outbuf e') ∧ (res ≠ -1 → buf_holds e' [])
  | Crash c => c ≠ OutOfFuel
  end.
Proof.
  intros Hh Hl HL Ho. unfold handle_frame, frame_header. msimpl. unfold zlen in Hl.
  rewrite !(load_holds e l) by (done || lia). msimpl. rewrite (loadn_holds e l 5 4) by (done || lia).
  msimpl. unfold HTTP2_HDR_SIZE. change (Z.to_nat 9) with 9%nat.
  assert (drop 9 (http2_input e) = (Some <$> drop 9 l) ++ drop (length l) (http2_input e)) as Ed.
  { rewrite <- (take_drop (length l) (http2_input e)) at 1. rewrite (bh_cells e l Hh).
    rewrite drop_app_le by (rewrite length_fmap; lia). by rewrite fmap_drop. }
  assert (L = zlen (drop 9 l)) as EL by (unfold zlen; rewrite length_drop; lia).
  pose proof (dispatch_hoare (l !!! 3%nat) (l !!! 4%nat) (Z.land (of_be (take 4 (drop 5 l))) 0x7fffffff)
    (drop 9 l) (drop (length l) (http2_input e))) as Hd.
  rewrite <- EL, <- Ed in Hd.
  specialize (Hd ltac:(apply Forall_drop; by eapply buf_holds_bytes)
                 ltac:(by apply cells_ok_drop, Hh) ltac:(lia) e Ho).
  unfold mbind, M_bind. destruct (dispatch _ _ _ _ _ _ e) as [[res e']|c]; [|done].
  destruct Hd as [Hev _]. pose proof (evolves_some _ _ Hev Ho) as Ho'.
  destruct (res =? -1); msimpl; (split; [done|]); [done|]. intros _.
  split; simpl; [by rewrite take_0|done|]. rewrite (ev_input _ _ Hev). apply Hh.
Qed.

Section Progress.
Context {Ref : Type}.
Implicit Types (r : Ref).
Abbreviation fill := (fill_input (Ref := Ref) None None).
Abbreviation input1 := (Xhttp2_dns_input1 huffman_tables_init (Ref := Ref) None None).

Lemma fill_step needed e l q r :
  buf_holds e l → zlen l ≤ needed → Forall is_byte q →
  match fill needed (Conn e (Some q) r) with
  | Done (full, c1) => ∃ e1 l' q',
      c1 = Conn e1 (Some q') r ∧ q = l' ++ q' ∧ buf_holds e1 (l ++ l') ∧ outbuf e1 = outbuf e ∧
      needed ≤ http2_input_max e1 ∧
      if full : bool then zlen (l ++ l') = needed else q' = [] ∧ zlen (l ++ l') < needed
  | Crash c => c = Undefined
  end.
Proof.
  intros Hh Hn Hq. pose proof (zlen_nonneg l). pose proof (bh_len e l Hh) as Hl.
  destruct (Z.lt_ge_cases (http2_input_len e) needed) as [Hlt|Hge].
  - rewrite fill_filled by done. cbv zeta. set (k := Z.to_nat (needed - http2_input_len e)).
    destruct (filled needed e (take k q)) as [e1|c] eqn:Ef.
    2: { unfold filled in Ef. destruct (store _ _ _) eqn:Es; [done|]. injection Ef as <-.
         by apply store_crash in Es. }
    exists e1, (take k q), (drop k q). split; [done|]. split; [by rewrite take_drop|].
    assert (zlen l + zlen (take k q) = needed ∨
            (length q < k)%nat ∧ zlen l + zlen (take k q) < needed) as Hcase.
    { unfold zlen. rewrite length_take. unfold k, zlen in *. lia. }
    split; [by eapply filled_holds; [| apply Forall_take| |]|].
    apply filled_inv in Ef as (_ & Hm & _ & Ho & _); [|lia].
    split; [done|]. split; [done|]. rewrite zlen_app, Hl.
    destruct (Z.leb_spec needed (zlen l + zlen (take k q))); [lia|].
    split; [apply drop_ge; lia|lia].
  - rewrite fill_eq. destruct (Z.ltb_spec (http2_input_len e) needed); [lia|].
    exists (grown needed e), [], q. rewrite app_nil_r. split; [done|]. split; [done|].
    split; [by apply grown_holds|]. split; [apply grown_outbuf|]. split; [apply grown_max|]. lia.
Qed.

(** [waiting e l]: between two calls of [Xhttp2_dns_input1], the bytes [l] of an
    incomplete frame have been received. *)
Record waiting (e : http2_env) (l : list Z) : Prop := {
  w_holds : buf_holds e l;
  w_outbuf : is_Some (outbuf e);
  w_partial : 9 ≤ zlen l → 9 ≤ http2_input_max e ∧ zlen l < 9 + of_be (take 3 l)
}.

Lemma take3_app (l l' : list Z) : 9 ≤ zlen l → take 3 (l ++ l') = take 3 l.
Proof. intros Hl. apply take_app_le. unfold zlen in Hl. lia. Qed.

(** The first fill of [Xhttp2_dns_input1] either completes the frame header or
    takes something from the input. *)
Lemma first_fill_progress e l q r :
  waiting e l → Forall is_byte q → q ≠ [] →
  (∃ full e1 l1 q1, fill 9 (Conn e (Some q) r) = Done (full, Conn e1 (Some q1) r) ∧
    buf_holds e1 l1 ∧ is_Some (outbuf e1) ∧ Forall is_byte q1 ∧
    if full : bool then 9 ≤ zlen l1 ∧
      ((length q1 < length q)%nat ∧ zlen l1 = 9 ∨ q1 = q ∧ zlen l1 < 9 + of_be (take 3 l1))
    else (length q1 < length q)%nat ∧ zlen l1 < 9) ∨
  fill 9 (Conn e (Some q) r) = Crash Undefined.
Proof.
  intros [Hh Ho Hp] Hq Hne. destruct (Z.lt_ge_cases (zlen l) 9) as [Hlt|Hge].
  - pose proof (fill_step 9 e l q r Hh ltac:(lia) Hq) as Hs.
    destruct (fill 9 (Conn e (Some q) r)) as [[full c1]|c]; [left|right; by rewrite Hs].
    destruct Hs as (e1 & l' & q' & -> & -> & Hh1 & Ho1 & _ & Hf). apply Forall_app in Hq as [_ Hq].
    exists full, e1, (l ++ l'), q'. rewrite Ho1. split_and!; [done..|].
    rewrite length_app. destruct full.
    + split; [lia|]. left. rewrite zlen_app in Hf. unfold zlen in *. rewrite length_app. lia.
    + destruct Hf as [-> Hf]. split; [|done]. destruct l'; [done|]. simpl. lia.
  - destruct (Hp ltac:(lia)) as [Hm Hl]. left. exists true, e, l, q.
    rewrite fill_eq, (bh_len e l Hh). destruct (Z.ltb_spec (zlen l) 9); [lia|].
    rewrite grown_id by done. split_and!; [done..|lia|]. by right.
Qed.

(** Each call uses up some input and leaves the connection waiting. *)
Lemma input1_progress e l q r :
  waiting e l → Forall is_byte q → q ≠ [] →
  match input1 (Conn e (Some q) r) with
  | Done (res, c1) => res = -1 ∨ ∃ e1 l1 q1, c1 = Conn e1 (Some q1) r ∧ waiting e1 l1 ∧
                        (length q1 < length q)%nat ∧ Forall is_byte q1
  | Crash c => c ≠ OutOfFuel
  end.
Proof.
  intros Hw Hq Hne. rewrite input1_eq. unfold HTTP2_HDR_SIZE.
  destruct (first_fill_progress e l q r) as [(full & e1 & l1 & q1 & Hfill)|Hfill]; [done..| |].
  2: { by rewrite Hfill. }
  destruct Hfill as (-> & Hh1 & Ho1 & Hq1 & Hf). destruct full.
  2: { right. exists e1, l1, q1. destruct Hf as [Hf1 Hf2]. split_and!; [done| |done|done].
       split; [done|done|lia]. }
  destruct Hf as [H9 Hf]. cbn [c_env].
  destruct (frame_length_holds e1 l1 Hh1 H9) as (L & -> & EL & HL). rewrite <- EL in Hf.
  unfold set_env. cbn [c_inbuf c_ref].
  pose proof (fill_step (9 + L) e1 l1 q1 r Hh1 ltac:(lia) Hq1) as Hs.
  destruct (fill (9 + L) (Conn e1 (Some q1) r)) as [[full c3]|c]; [|by rewrite Hs].
  destruct Hs as (e3 & l3 & q3 & -> & -> & Hh3 & Ho3 & Hm3 & Hfull).
  apply Forall_app in Hq1 as [_ Hq3].
  assert (is_Some (outbuf e3)) as Ho3' by (by rewrite Ho3).
  assert (length q3 < length q)%nat as Hlt.
  { rewrite length_app in Hf. destruct Hf as [[? ?]|[<- ?]]; [lia|].
    rewrite length_app. destruct l3; [|simpl; lia]. exfalso.
    rewrite app_nil_r in Hfull. destruct full; [lia|]. by destruct Hfull as [-> _]. }
  destruct full.
  - pose proof (handle_frame_ok e3 (l1 ++ l3) L Hh3 Hfull HL Ho3') as Hd.
    unfold on_env. cbn [c_env].
    destruct (handle_frame huffman_tables_init L e3) as [[res e4]|c]; [|done].
    destruct (decide (res = -1)) as [->|Hres]; [by left|]. right.
    destruct Hd as [Ho4 Hd]. exists e4, [], q3. split_and!; [done| |done|done].
    split; [by apply Hd|done|done].
  - right. destruct Hfull as [-> Hfull]. exists e3, (l1 ++ l3), []. split_and!; [done| |done|done].
    split; [done|done|]. intros _. rewrite take3_app, <- EL by done. split; [lia|done].
Qed.

Lemma input_loop_no_fuel reply f e l q r :
  waiting e l → Forall is_byte q → (length q < f)%nat →
  input_loop huffman_tables_init None None reply f (Conn e (Some q) r) ≠ Crash OutOfFuel.
Proof.
  revert e l q r. induction f as [|f IH]; intros e l q r Hw Hq Hf; [lia|].
  cbn [input_loop]. msimpl. cbn [c_inbuf].
  destruct (Z.eqb_spec (zlen q) 0) as [|Hz]; [done|].
  assert (q ≠ []) as Hne by (intros ->; by apply Hz).
  pose proof (input1_progress e l q r Hw Hq Hne) as Hp. unfold mbind at 1, M_bind at 1.
  destruct (input1 (Conn e (Some q) r)) as [[res c1]|c]; [|congruence].
  destruct (Z.eqb_spec res (-1)); [done|]. destruct Hp as [|(e1 & l1 & q1 & -> & Hw1 & Hlt & Hq1)]; [done|].
  msimpl. cbn [c_env]. destruct (done e1).
  - destruct (loadn _ _ _) eqn:E; msimpl; [done|]. apply loadn_crash in E. congruence.
  - apply (IH e1 l1); [done|done|lia].
Qed.
End Progress.

(** ** Whole frames *)

Lemma land_byte z : Z.land z 0xff = z `mod` 256.
Proof. change 0xff with (2 ^ 8 - 1). by rewrite land_ones_mod by lia. Qed.

Lemma of_be4 a b c d :
  is_byte a → is_byte b → is_byte c → is_byte d →
  of_be [a; b; c; d] = a * 2 ^ 24 + b * 2 ^ 16 + c * 2 ^ 8 + d.
Proof.
  intros Ha Hb Hc Hd. unfold of_be. change [a; b; c; d] with ([a; b; c] ++ [d]).
  rewrite fold_left_app. fold (of_be [a; b; c]). rewrite of_be3 by done. cbn [fold_left].
  unfold is_byte in *. rewrite (lor_add _ d 8); rewrite ?Z.shiftl_mul_pow2 by lia;
    [lia|lia|lia|by apply Z.mod_mul].
Qed.

(** The header of a frame, read back. *)
Lemma hdr_length_roundtrip n :
  0 ≤ n < 2 ^ 24 →
  of_be [Z.land (n ≫ 16) 0xff; Z.land (n ≫ 8) 0xff; Z.land n 0xff] = n.
Proof.
  intros Hn. rewrite !land_byte, !Z.shiftr_div_pow2 by lia.
  rewrite of_be3 by (unfold is_byte; apply Z.mod_pos_bound; lia).
  Z.to_euclidean_division_equations. lia.
Qed.

Lemma hdr_stream_roundtrip n :
  0 ≤ n < 2 ^ 31 →
  Z.land (of_be [Z.land (n ≫ 24) 0x7f; Z.land (n ≫ 16) 0xff; Z.land (n ≫ 8) 0xff; Z.land n 0xff])
    0x7fffffff = n.
Proof.
  intros Hn. change 0x7f with (2 ^ 7 - 1). change 0x7fffffff with (2 ^ 31 - 1).
  rewrite !land_byte, !land_ones_mod, !Z.shiftr_div_pow2 by lia.
  rewrite of_be4 by (unfold is_byte; Z.to_euclidean_division_equations; lia).
  rewrite Z.mod_small; Z.to_euclidean_division_equations; lia.
Qed.

(** The recorded size of the input buffer is at most its real size. *)
Definition max_ok (e : http2_env) : Prop := http2_input_max e ≤ zlen (http2_input e).

(** The connection without its input buffer. *)
Definition no_input (e : http2_env) : http2_env :=
  set_http2_input [] (set_http2_input_max 0 (set_http2_input_len 0 e)).

Lemma no_input_grown needed e : no_input (grown needed e) = no_input e.
Proof. unfold grown. by destruct (_ <? _). Qed.

Lemma max_ok_grown needed e :
  max_ok e → 0 ≤ needed → max_ok (grown needed e) ∧ needed ≤ zlen (http2_input (grown needed e)).
Proof.
  unfold max_ok, grown. intros Hm Hn. destruct (Z.ltb_spec (http2_input_max e) needed); simpl; [|lia].
  unfold zlen. rewrite length_realloc. lia.
Qed.

Lemma filled_total needed e l l' :
  buf_holds e l → max_ok e → zlen l + zlen l' ≤ needed →
  ∃ e1, filled needed e l' = Done e1 ∧ max_ok e1 ∧ no_input e1 = no_input e.
Proof.
  intros Hh Hm Hn. pose proof (zlen_nonneg l). pose proof (zlen_nonneg l').
  destruct (max_ok_grown needed e Hm) as [Hm' Hz]; [lia|].
  unfold filled. rewrite (bh_len e l Hh).
  destruct (store (http2_input (grown needed e)) (Z.to_nat (zlen l)) l') as [b|c] eqn:Es.
  - eexists. split; [done|]. apply length_store in Es. split.
    + unfold max_ok, zlen in *. simpl. by rewrite Es.
    + by rewrite <- (no_input_grown needed e).
  - unfold store in Es. rewrite decide_True in Es; [done|]. unfold zlen in *. lia.
Qed.

Section Frame.
Context {Ref : Type}.
Implicit Types (r : Ref).
Abbreviation input1 := (Xhttp2_dns_input1 huffman_tables_init (Ref := Ref) None None).

(** A fill that finds all the bytes it needs. *)
Lemma fill_exact needed e l l' rest r :
  buf_holds e l → max_ok e → zlen l + zlen l' = needed → Forall is_byte l' →
  ∃ e1, fill_input (Ref := Ref) None None needed (Conn e (Some (l' ++ rest)) r) =
          Done (true, Conn e1 (Some rest) r) ∧
        buf_holds e1 (l ++ l') ∧ max_ok e1 ∧ no_input e1 = no_input e.
Proof.
  intros Hh Hm Hn Hb. pose proof (bh_len e l Hh) as Hl. pose proof (zlen_nonneg l').
  destruct (Z.lt_ge_cases (zlen l) needed) as [Hlt|Hge].
  - rewrite fill_filled by lia. cbv zeta. rewrite Hl.
    replace (Z.to_nat (needed - zlen l)) with (length l') by (unfold zlen in *; lia).
    rewrite take_app_length, drop_app_length.
    destruct (filled_total needed e l l' Hh Hm ltac:(lia)) as (e1 & Ef & Hm1 & Hn1).
    rewrite Ef. exists e1. replace (needed <=? zlen l + zlen l') with true by (symmetry; apply Z.leb_le; lia).
    split; [done|]. split; [|done]. apply (filled_holds needed e l l' e1); (done || lia).
  - assert (l' = []) as -> by (destruct l'; [done|rewrite zlen_cons in *; pose proof (zlen_nonneg l'); lia]).
    rewrite fill_eq. destruct (Z.ltb_spec (http2_input_len e) needed); [lia|].
    exists (grown needed e). rewrite app_nil_r. split; [done|]. pose proof (zlen_nonneg l).
    split; [apply grown_holds; [done|lia]|]. split; [apply max_ok_grown; [done|lia]|apply no_input_grown].
Qed.

Lemma input1_frame e type flags sid payload rest r :
  buf_holds e [] → max_ok e → is_byte type → is_byte flags → 0 ≤ sid < 2 ^ 31 →
  Forall is_byte payload → zlen payload < 2 ^ 24 →
  ∃ e1 tl, no_input e1 = no_input e ∧ max_ok e1 ∧ cells_ok (http2_input e1) ∧
    http2_input e1 = (Some <$> frame type flags sid payload) ++ tl ∧
    input1 (Conn e (Some (frame type flags sid payload ++ rest)) r) =
      match dispatch huffman_tables_init type flags (zlen payload) sid ((Some <$> payload) ++ tl) e1 with
      | Done (res, e2) =>
          if res =? -1 then Done (-1, Conn e2 (Some rest) r)
          else Done (0, Conn (set_http2_input_len 0 e2) (Some rest) r)
      | Crash c => Crash c
      end.
Proof.
  intros Hh Hm Ht Hf Hs Hp HL. unfold frame. pose proof (zlen_nonneg payload).
  set (hdr := http2_hdr_bytes (zlen payload) type flags sid).
  assert (Forall is_byte hdr) as Hhdr.
  { unfold hdr, http2_hdr_bytes. change 0x7f with (2 ^ 7 - 1).
    rewrite !land_byte, !land_ones_mod by lia.
    repeat (apply Forall_cons_2; [try done; unfold is_byte; Z.to_euclidean_division_equations; lia|]).
    done. }
  rewrite <- app_assoc, input1_eq.
  destruct (fill_exact 9 e [] hdr (payload ++ rest) r Hh Hm) as (e1 & E1 & Hh1 & Hm1 & Hn1); [done|done|].
  unfold HTTP2_HDR_SIZE. rewrite E1. cbn [c_env app] in *.
  destruct (frame_length_holds e1 hdr Hh1) as (L & EL & -> & _); [done|].
  replace (of_be (take 3 hdr)) with (zlen payload) in *
    by (symmetry; unfold hdr; simpl take; apply hdr_length_roundtrip; lia).
  rewrite EL. unfold set_env. cbn [c_inbuf c_ref].
  destruct (fill_exact (9 + zlen payload) e1 hdr payload rest r Hh1 Hm1) as (e2 & E2 & Hh2 & Hm2 & Hn2);
    [done|done|].
  rewrite E2. exists e2, (drop (length (hdr ++ payload)) (http2_input e2)).
  assert (http2_input e2 = (Some <$> hdr ++ payload) ++ drop (length (hdr ++ payload)) (http2_input e2)) as Ei.
  { rewrite <- (bh_cells _ _ Hh2). by rewrite take_drop. }
  split; [congruence|]. split; [done|]. split; [apply Hh2|]. split; [done|].
  unfold on_env, handle_frame, frame_header. cbn [c_env]. msimpl.
  rewrite !(load_holds e2 (hdr ++ payload)) by (done || rewrite length_app; simpl; lia). msimpl.
  rewrite (loadn_holds e2 (hdr ++ payload) 5 4) by (done || rewrite length_app; simpl; lia). msimpl.
  change ((hdr ++ payload) !!! 3%nat) with type. change ((hdr ++ payload) !!! 4%nat) with flags.
  replace (Z.land (of_be (take 4 (drop 5 (hdr ++ payload)))) 0x7fffffff) with sid
    by (symmetry; apply hdr_stream_roundtrip; lia).
  unfold HTTP2_HDR_SIZE. rewrite Ei at 1. rewrite fmap_app, <- app_assoc.
  change (drop (Z.to_nat 9) ((Some <$> hdr) ++ ?x)) with x.
  unfold mbind, M_bind. destruct (dispatch _ _ _ _ _ _ e2) as [[res e3]|c]; [|done].
  by destruct (res =? -1).
Qed.
End Frame.

(** ** The response body *)

(** [data_ok e l]: the body received so far is [l]. *)
Record data_ok (e : http2_env) (l : list Z) : Prop := {
  data_cells : take (length l) (http2_data e) = Some <$> l;
  data_len : http2_data_len e = zlen l;
  data_max : http2_data_max e = zlen (http2_data e)
}.

(** The connection without the body and the credits. *)
Definition no_data (e : http2_env) : http2_env :=
  set_http2_data [] (set_http2_data_max 0 (set_http2_data_len 0
    (set_http2_send_global_credits 0 (set_http2_send_stream1_credits 0 e)))).

(** [data_payload flags body payload]: a DATA frame with these flags and payload
    carries [body]; a padded one has the length of the padding in front. *)
Definition data_payload (flags : Z) (body payload : list Z) : Prop :=
  if flag_set flags HTTP2_HDR_DATA_PADDED
  then ∃ pad, zlen pad < 256 ∧ payload = zlen pad :: body ++ pad
  else payload = body.

Lemma receive_body_ok e l pre body post tl :
  type_dns e = true → data_ok e l →
  ∃ e', receive_body ((Some <$> pre ++ body ++ post) ++ tl) (zlen pre) (zlen body) e = Done (tt, e') ∧
        data_ok e' (l ++ body) ∧ no_data e' = no_data e ∧
        http2_send_global_credits e' = http2_send_global_credits e.
Proof.
  intros Ht [Hc Hl Hm]. unfold receive_body. msimpl. rewrite Ht. cbv zeta.
  pose proof (zlen_nonneg l). pose proof (zlen_nonneg body).
  rewrite !fmap_app, <- !app_assoc. rewrite loadn_cells by done. rewrite Hl, Hm.
  pose proof (take_fmap_length _ _ Hc).
  assert (∀ b, take (length l) b = Some <$> l → zlen l + zlen body ≤ zlen b →
    ∃ b', store b (Z.to_nat (zlen l)) body = Done b' ∧ length b' = length b ∧
          take (length (l ++ body)) b' = Some <$> (l ++ body)) as Hst.
  { intros b Hb Hz. unfold zlen in *. rewrite Nat2Z.id.
    destruct (store_ok b (length l) body) as (b' & E & Hlen & Htk); [lia|].
    exists b'. by rewrite length_app, Htk, Hb, fmap_app. }
  destruct (Z.ltb_spec (zlen (http2_data e)) (zlen l + zlen body)) as [Hlt|Hge]; msimpl;
    cbn [http2_data http2_data_len set_http2_data set_http2_data_max]; rewrite Hl.
  - destruct (Hst (realloc (http2_data e) (Z.to_nat (zlen l + zlen body + 4096)))) as (b' & -> & Hlen & Htk).
    { rewrite take_realloc; [done|done|unfold zlen; lia]. }
    { unfold zlen at 3. rewrite length_realloc. lia. }
    msimpl. eexists. split; [reflexivity|]. split; [|done].
    split; simpl; [done|by rewrite zlen_app|]. unfold zlen. rewrite Hlen, length_realloc. unfold zlen. lia.
  - destruct (Hst (http2_data e)) as (b' & -> & Hlen & Htk); [done|lia|].
    msimpl. eexists. split; [reflexivity|]. split; [|done].
    split; simpl; [done|by rewrite zlen_app|]. unfold zlen in *. by rewrite Hlen.
Qed.

Lemma add_credits2_1 n e :
  add_credits2 1 n e =
  Done (tt, set_http2_send_stream1_credits (u32 (http2_send_stream1_credits e + n))
              (set_http2_send_global_credits (u32 (http2_send_global_credits e + n)) e)).
Proof. unfold add_credits2. msimpl. done. Qed.

Lemma receive_data2_ok e l flags body payload tl :
  type_dns e = true → data_ok e l → data_payload flags body payload →
  ∃ e', Xreceive_data2 flags (zlen payload) 1 ((Some <$> payload) ++ tl) e = Done (0, e') ∧
        data_ok e' (l ++ body) ∧ no_data e' = no_data e ∧
        http2_send_global_credits e' = u32 (http2_send_global_credits e + zlen payload).
Proof.
  intros Ht Hd Hp. unfold data_payload, Xreceive_data2 in *.
  set (e1 := set_http2_send_stream1_credits (u32 (http2_send_stream1_credits e + zlen payload))
              (set_http2_send_global_credits (u32 (http2_send_global_credits e + zlen payload)) e)).
  assert (data_ok e1 l) as Hd1 by (destruct Hd; by split).
  destruct (flag_set flags HTTP2_HDR_DATA_PADDED).
  - destruct Hp as (pad & Hz & ->). pose proof (zlen_nonneg pad). pose proof (zlen_nonneg body).
    rewrite fmap_cons. cbn [app]. unfold rd at 1. change (Z.to_nat 0) with 0%nat.
    unfold load at 1. cbn [lookup list_lookup]. msimpl.
    destruct (Z.leb_spec (zlen (zlen pad :: body ++ pad)) (zlen pad)) as [Hle|_].
    { rewrite zlen_cons, zlen_app in Hle. lia. }
    cbn [andb]. rewrite (M_bind_done _ _ _ _ _ (add_credits2_1 _ _)). fold e1.
    destruct (receive_body_ok e1 l [zlen pad] body pad tl Ht Hd1) as (e' & E & Hd' & Hn & Hc).
    replace (zlen (zlen pad :: body ++ pad) - (1 + zlen pad)) with (zlen body)
      by (rewrite zlen_cons, zlen_app; lia).
    cbn [app] in E. rewrite fmap_cons in E. change (zlen [zlen pad]) with 1 in E. cbn [app] in E.
    mrun E. exists e'. split; [done|]. split; [done|]. split; [by rewrite Hn|by rewrite Hc].
  - subst payload. msimpl. cbn [andb]. rewrite (M_bind_done _ _ _ _ _ (add_credits2_1 _ _)). fold e1.
    destruct (receive_body_ok e1 l [] body [] tl Ht Hd1) as (e' & E & Hd' & Hn & Hc).
    cbn [app] in E. rewrite app_nil_r in E. change (zlen []) with 0 in E.
    replace (zlen body - (0 + 0)) with (zlen body) by lia.
    mrun E. exists e'. split; [done|]. split; [done|]. split; [by rewrite Hn|by rewrite Hc].
Qed.
