(* ===== verification/Http2Main.v ===== *)
(** * HTTP/2 input: the theorems

    Termination and chunk independence of [http2_dns_input], assembly and
    dispatch of frames, flow-control windows, response bodies, a whole response,
    and the inputs on which the code goes wrong. *)

From S2P Require Import Prelude.
From S2P Require Import Bits.
From S2P Require Import HpackTables.
From S2P Require Import Http2Env.
From S2P Require Import Http2Send.
From S2P Require Import Huffman.
From S2P Require Import HuffmanProofs.
From S2P Require Import Hpack.
From S2P Require Import HpackProofs.
From S2P Require Import Http2.
From S2P Require Import Http2Proofs.
From stdpp Require Import base list numbers strings.
From Stdlib Require Import ZArith Lia.

Open Scope Z_scope.

#[local] Opaque huffman_tables_init.

(** ** The input loop *)

(** [http2_dns_input] terminates: on a connection that waits for input (a
    fresh one, or one that keeps the first bytes of an incomplete frame), with
    any bytes in the input buffer, the loop needs at most one round more than
    there are bytes.  (No loop of a frame's receiver runs on either.) *)
Theorem http2_dns_input_terminates {Ref : Type} (reply_cb : Ref → option Z → list Z → Ref) e l q o r :
  waiting (set_outbuf (Some o) e) l → Forall is_byte q →
  http2_dns_input huffman_tables_init None None reply_cb (S (length q)) e (Some (q, o)) r
  ≠ Crash OutOfFuel.
Proof.
  intros Hw Hq. unfold http2_dns_input. destruct (done e); [done|]. cbn [fmap option_fmap option_map fst snd].
  pose proof (input_loop_no_fuel reply_cb (S (length q)) _ l q r Hw Hq ltac:(lia)) as Hl.
  destruct (input_loop _ _ _ _ _ _) as [[x c]|c]; [done|]. rewrite obind_crash. congruence.
Qed.

Lemma waiting_init o : waiting (set_outbuf (Some o) http2_init) [].
Proof.
  split; [|by eexists|done]. split; [done|done|]. intros i b E. done.
Qed.

Lemma http2_dns_input_terminates_witness :
  http2_dns_input huffman_tables_init None None (λ (r : unit) _ _, r)
    (S (length [0; 0; 0; 4; 1; 0])) http2_init (Some ([0; 0; 0; 4; 1; 0], [])) tt
  ≠ Crash OutOfFuel.
Proof.
  apply (http2_dns_input_terminates (λ (r : unit) _ _, r) http2_init []);
    [apply waiting_init | solve_bytes].
Defined.

(** The loop asks for more only while the response is not complete. *)
Lemma input_loop_more {Ref : Type} (reply_cb : Ref → option Z → list Z → Ref) f c c1 :
  input_loop huffman_tables_init None None reply_cb f c = Done (1, c1) →
  done (c_env c) = false → done (c_env c1) = false.
Proof.
  revert c. induction f as [|f IH]; intros c E Hd; [done|]. cbn [input_loop] in E. msimpl_in E.
  destruct (_ =? 0); [msimpl_in E; by injection E as <-|].
  minv E. destruct (_ =? -1); [done|]. msimpl_in E.
  destruct (done (c_env s)) eqn:Ed; [by minv E; msimpl_in E|]. by eapply IH.
Qed.

Lemma set_outbuf_id e p q : outbuf e = Some q → set_outbuf (Some q) (set_outbuf p e) = e.
Proof. destruct e. simpl. intros ->. done. Qed.

(** C2: input may arrive in any chunks: when [http2_dns_input] asks for more
    after [q1] and is called again with [q2], the return value, the connection,
    the output, the reply and what is left are the same as when
    [q1 ++ q2] had been there at once. *)
Theorem http2_dns_input_chunks {Ref : Type} (reply_cb : Ref → option Z → list Z → Ref)
    f1 f2 e q1 q2 o r e1 q1' o1 r1 res :
  0 ≤ http2_input_len e →
  http2_dns_input huffman_tables_init None None reply_cb f1 e (Some (q1, o)) r =
    Done (1, e1, Some (q1', o1), r1) →
  http2_dns_input huffman_tables_init None None reply_cb f2 e1 (Some (q2, o1)) r1 = Done res →
  http2_dns_input huffman_tables_init None None reply_cb (f1 + f2) e (Some (q1 ++ q2, o)) r =
    Done res.
Proof.
  intros Hl E1 E2. unfold http2_dns_input in *. destruct (done e) eqn:Hd; [done|].
  cbn [fmap option_fmap option_map fst snd] in *.
  apply O_bind_inv in E1 as ([v c1] & L1 & E1). injection E1 as -> <- Hb <-.
  pose proof (input_loop_more _ _ _ _ L1 Hd) as Hd1. simpl in E2. rewrite Hd1 in E2.
  apply O_bind_inv in E2 as ([v2 c2] & L2 & E2).
  destruct c1 as [e' [q'|] r']; cbn [c_inbuf c_env c_ref] in *; [|done].
  destruct (outbuf e') as [o'|] eqn:Ho; [|done]. injection Hb as -> ->.
  rewrite (set_outbuf_id e' None o1 Ho) in L2.
  by rewrite (input_loop_app _ f1 f2 (set_outbuf (Some o) e) q1 q2 r _ _ _ _ Hl L1 L2).
Qed.

(** A connection after the first five bytes of an empty SETTINGS frame. *)
Definition five_bytes : http2_env :=
  match http2_dns_input huffman_tables_init None None (λ (r : unit) _ _, r) 6 http2_init
          (Some ([0; 0; 0; 4; 0], [])) tt with
  | Done (_, e, _, _) => e
  | Crash _ => http2_init
  end.

Lemma http2_dns_input_chunks_witness :
  http2_dns_input huffman_tables_init None None (λ (r : unit) _ _, r) (6 + 5) http2_init
    (Some ([0; 0; 0; 4; 0] ++ [0; 0; 0; 0], [])) tt =
  http2_dns_input huffman_tables_init None None (λ (r : unit) _ _, r) 5 five_bytes
    (Some ([0; 0; 0; 0], [])) tt.
Proof.
  destruct (http2_dns_input huffman_tables_init None None (λ (r : unit) _ _, r) 5 five_bytes
    (Some ([0; 0; 0; 0], [])) tt) as [res|c] eqn:E.
  - apply (http2_dns_input_chunks (λ (r : unit) _ _, r) 6 5 http2_init [0; 0; 0; 4; 0] [0; 0; 0; 0]
             [] tt five_bytes [] [] tt res); [reflexivity | vm_compute; reflexivity | exact E].
  - vm_compute in E. discriminate E.
Defined.

(** ** Frames *)

(** Frames are read as they are written: a complete frame at the head of the
    input buffer (header in the layout of [http2_hdr_bytes], any payload up to
    2^24-1 bytes) is taken out of it, and its type, flags, length,
    31-bit stream identifier and payload reach the receiver for its type; when the
    receiver refuses the frame the result is -1, otherwise the input buffer of
    the connection is empty again. *)
Theorem Xhttp2_dns_input1_frame {Ref : Type} e type flags sid payload rest (r : Ref) :
  buf_holds e [] → max_ok e → is_byte type → is_byte flags → 0 ≤ sid < 2 ^ 31 →
  Forall is_byte payload → zlen payload < 2 ^ 24 →
  ∃ e1 tl, no_input e1 = no_input e ∧
    Xhttp2_dns_input1 huffman_tables_init None None
      (Conn e (Some (frame type flags sid payload ++ rest)) r) =
      match dispatch huffman_tables_init type flags (zlen payload) sid ((Some <$> payload) ++ tl) e1 with
      | Done (res, e2) =>
          if res =? -1 then Done (-1, Conn e2 (Some rest) r)
          else Done (0, Conn (set_http2_input_len 0 e2) (Some rest) r)
      | Crash c => Crash c
      end.
Proof.
  intros Hh Hm Ht Hf Hs Hp HL.
  destruct (input1_frame e type flags sid payload rest r Hh Hm Ht Hf Hs Hp HL)
    as (e1 & tl & Hn & _ & _ & _ & E). eauto.
Qed.

Lemma buf_holds_init o : buf_holds (set_outbuf (Some o) http2_init) [].
Proof. apply waiting_init. Qed.

Lemma Xhttp2_dns_input1_frame_witness :
  ∃ e1 tl, no_input e1 = no_input (set_outbuf (Some []) http2_init) ∧
    Xhttp2_dns_input1 huffman_tables_init None None
      (Conn (set_outbuf (Some []) http2_init) (Some (frame 8 0 1 [0; 0; 1; 0] ++ [7])) tt) =
      match dispatch huffman_tables_init 8 0 4 1 ((Some <$> [0; 0; 1; 0]) ++ tl) e1 with
      | Done (res, e2) =>
          if res =? -1 then Done (-1, Conn e2 (Some [7]) tt)
          else Done (0, Conn (set_http2_input_len 0 e2) (Some [7]) tt)
      | Crash c => Crash c
      end.
Proof.
  apply (Xhttp2_dns_input1_frame (set_outbuf (Some []) http2_init) 8 0 1 [0; 0; 1; 0] [7] tt);
    [apply buf_holds_init | unfold max_ok, zlen; simpl; lia | unfold is_byte; lia
    | unfold is_byte; lia | lia | solve_bytes | unfold zlen; simpl; lia].
Defined.

(** A padded HEADERS frame with at least one byte of padding is never
    accepted: the loop over the header block runs on into the padding, so that the
    frame is refused, or the process stops. *)
Theorem Xreceive_headers2_padding flags length pad (block : list Z) tl e :
  flag_set flags HTTP2_HDR_HEADERS_PADDED = true → 0 < pad →
  length = zlen (pad :: block) → length < 2 ^ 64 →
  Forall is_byte (pad :: block) → cells_ok tl → is_Some (outbuf e) →
  match Xreceive_headers2 huffman_tables_init flags length 1 ((Some <$> pad :: block) ++ tl) e with
  | Done (r, _) => r = -1
  | Crash c => c ≠ OutOfFuel
  end.
Proof.
  intros Hf Hpad Hlen Hz Hb Htl Ho. unfold Xreceive_headers2. rewrite Hf.
  cbn [Z.eqb Pos.eqb negb]. rewrite bind_assoc.
  rewrite (M_bind_done _ _ _ _ _ (rd_app [] pad ((Some <$> block) ++ tl) e 0 eq_refl)).
  msimpl. cbv zeta. set (pr := if flag_set _ _ then 5 else 0).
  assert (0 ≤ pr) by (unfold pr; clear; by destruct (flag_set _ _)).
  destruct (Z.ltb_spec length (1 + pr + pad)).
  { unfold goaway_fail. destruct Ho as [q Hq]. by mrun (goaway_some HTTP2_PROTOCOL_ERROR "too much padding" e q Hq). }
  pose proof (headers_loop_hoare (S (Z.to_nat length)) (pad :: block) tl (1 + pr) (length - pad) Hb) as Hl.
  rewrite <- Hlen in Hl.
  specialize (Hl ltac:(apply cells_ok_app; [by apply cells_ok_bytes|done])
    Hz ltac:(lia) ltac:(lia) ltac:(lia) e Ho).
  destruct (headers_loop _ _ _ _ _ _ e) as [[r e']|c]; [apply Hl; lia|done].
Qed.

Lemma Xreceive_headers2_padding_witness :
  match Xreceive_headers2 huffman_tables_init 0x0c 3 1 ((Some <$> [1; 0x88; 0x00]) ++ [])
          (set_outbuf (Some []) http2_init) with
  | Done (r, _) => r = -1
  | Crash c => c ≠ OutOfFuel
  end.
Proof.
  apply (Xreceive_headers2_padding 0x0c 3 1 [0x88; 0x00] [] (set_outbuf (Some []) http2_init));
    [reflexivity | lia | reflexivity | lia | solve_bytes | | eexists; reflexivity].
  intros i b E; destruct i; discriminate E.
Defined.

(** ** Flow control *)

(** The windows of a connection are within the limit of the protocol. *)
Definition windows_ok (e : http2_env) : Prop :=
  0 ≤ http2_connection_window e ≤ HTTP2_MAX_WINDOW ∧ 0 ≤ http2_stream1_window e ≤ HTTP2_MAX_WINDOW.

(** WINDOW_UPDATE on every branch: with windows within the limit, an
    increment [value] (31 bits) for the connection or for stream 1 is added
    exactly, and the frame is accepted if and only if the sum stays
    within 2^31-1 (no 32-bit wrap-around); zero increments, other streams and other
    lengths are refused with the error of their kind, with the windows
    unchanged. *)
Theorem Xreceive_window_update2_spec e q bytes tl sid length :
  windows_ok e → outbuf e = Some q → Forall is_byte bytes → zlen bytes = 4 → 0 ≤ length →
  let value := of_be bytes `mod` 2 ^ 31 in
  let refuse code reason e := Done (-1, set_outbuf (Some (q ++ goaway_frame code reason)) e) in
  Xreceive_window_update2 length sid ((Some <$> bytes) ++ tl) e =
    if negb (length =? 4) then refuse HTTP2_FRAME_SIZE_ERROR "window update frame not 4 octets"%string e
    else if value =? 0 then refuse HTTP2_PROTOCOL_ERROR "zero increment"%string e
    else if sid =? 0 then
      let w := http2_connection_window e + value in
      let e' := set_http2_connection_window w e in
      if w <=? HTTP2_MAX_WINDOW then Done (0, e')
      else refuse HTTP2_FLOW_CONTROL_ERROR "window overflow"%string e'
    else if sid =? 1 then
      let w := http2_stream1_window e + value in
      let e' := set_http2_stream1_window w e in
      if w <=? HTTP2_MAX_WINDOW then Done (0, e')
      else refuse HTTP2_FLOW_CONTROL_ERROR "window overflow"%string e'
    else refuse HTTP2_INTERNAL_ERROR "window increment for unknown stream"%string e.
Proof.
  intros [Hw1 Hw2] Hq Hb Hz Hlen value refuse. unfold Xreceive_window_update2, goaway_fail.
  assert (∀ e' code reason, outbuf e' = Some q →
    (goaway code reason;; mret (-1)) e' = refuse code reason e') as Hr.
  { intros e' code reason Hq'. by mrun (goaway_some code reason e' q Hq'). }
  destruct (negb (length =? 4)); [by apply Hr|].
  pose proof (loadn_cells [] bytes tl 0 eq_refl) as El. rewrite Hz in El.
  change (Z.to_nat 0) with 0%nat in El. change (Z.to_nat 4) with 4%nat in El. cbn [fmap list_fmap app] in El.
  rewrite El. msimpl. cbv zeta.
  change 0x7fffffff with (2 ^ 31 - 1). rewrite land_ones_mod by lia. fold value.
  assert (0 ≤ value < 2 ^ 31) as Hv by (apply Z.mod_pos_bound; lia).
  destruct (value =? 0); [by apply Hr|]. unfold HTTP2_MAX_WINDOW in *.
  destruct (sid =? 0); [|destruct (sid =? 1); [|by apply Hr]]; msimpl; rewrite u32_small by lia.
  - destruct (Z.ltb_spec 0x7fffffff (http2_connection_window e + value)),
      (Z.leb_spec (http2_connection_window e + value) 0x7fffffff); try lia; [by apply Hr|done].
  - destruct (Z.ltb_spec 0x7fffffff (http2_stream1_window e + value)),
      (Z.leb_spec (http2_stream1_window e + value) 0x7fffffff); try lia; [by apply Hr|done].
Qed.

Lemma Xreceive_window_update2_spec_witness :
  Xreceive_window_update2 4 1 ((Some <$> [0x7f; 0xff; 0x00; 0x01]) ++ []) (set_outbuf (Some []) http2_init) =
  Done (-1, set_outbuf (Some ([] ++ goaway_frame HTTP2_FLOW_CONTROL_ERROR "window overflow"))
              (set_http2_stream1_window 0x80000000 (set_outbuf (Some []) http2_init))).
Proof.
  apply (Xreceive_window_update2_spec (set_outbuf (Some []) http2_init) [] [0x7f; 0xff; 0x00; 0x01] [] 1 4);
    [split; split; vm_compute; discriminate | reflexivity | solve_bytes | reflexivity | lia].
Defined.

(** ** Responses *)

(** DATA frames of a DNS response are collected: whatever was received
    before, the body the frame carries (the payload, or the part between the pad
    length and the padding) is appended to [http2_data], the credits grow by the
    whole payload, and nothing else changes. *)
Theorem Xreceive_data2_collects e l flags body payload tl :
  type_dns e = true → data_ok e l → data_payload flags body payload →
  ∃ e', Xreceive_data2 flags (zlen payload) 1 ((Some <$> payload) ++ tl) e = Done (0, e') ∧
        data_ok e' (l ++ body) ∧ no_data e' = no_data e ∧
        http2_send_global_credits e' = u32 (http2_send_global_credits e + zlen payload).
Proof. apply receive_data2_ok. Qed.

Lemma Xreceive_data2_collects_witness :
  ∃ e', Xreceive_data2 0x09 5 1 ((Some <$> [2; 65; 66; 0; 0]) ++ []) (set_type_dns true http2_init)
          = Done (0, e') ∧
        data_ok e' ([] ++ [65; 66]) ∧ no_data e' = no_data (set_type_dns true http2_init) ∧
        http2_send_global_credits e' = 5.
Proof.
  apply (Xreceive_data2_collects (set_type_dns true http2_init) [] 0x09 [65; 66] [2; 65; 66; 0; 0] []);
    [reflexivity | split; reflexivity | exists [0; 0]; split; reflexivity].
Defined.

(** *** Headers *)

(** A header block: representations of fields, each read with the dynamic table the earlier ones leave. *)
Inductive block : list dyn → list Z → list (list Z * list Z) → list dyn → Prop :=
| block_nil l : block l [] [] l
| block_cons l bytes name value r bs fields l' :
    field_repr l bytes name value r → block (if enters r then l ++ [Dyn name value] else l) bs fields l' →
    block l (bytes ++ bs) ((name, value) :: fields) l'.

Definition is_status (f : list Z * list Z) : bool := bytes_eqb f.1 HTTP2_HEADER_STATUS.
(** A content type that says DNS *)
Definition is_dns (f : list Z * list Z) : bool :=
  bytes_eqb f.1 HTTP2_CONTENT_TYPE && (zlen (media_type f.2) =? zlen APPLICATION_DNS_MESSAGE) &&
  (memcasecmp (media_type f.2) APPLICATION_DNS_MESSAGE =? 0).
(** Three digits, the number [code] *)
Definition code_text (code : Z) (v : list Z) : Prop :=
  zlen v = 3 ∧ forallb isdigit v = true ∧ fold_left (λ a c, 10 * a + (c - 48)) v 0 = code.

(** The connection without the dynamic table, the size that [add_dyn] records, and what header fields say *)
Definition no_fields (e : http2_env) : http2_env :=
  set_status None (set_type_html false (set_type_dns false (no_dyn e))).

Lemma report_field e code n name value :
  (is_status (name, value) = true → code_text code value) →
  ∃ e', report_or_fail name value n e = Done (n, e') ∧ no_fields e' = no_fields e ∧
        http2_dyn e' = http2_dyn e ∧ http2_dyn_idx e' = http2_dyn_idx e ∧ http2_input_max e' = http2_input_max e ∧
        status e' = (if is_status (name, value) then Some code else status e) ∧ type_dns e' = type_dns e || is_dns (name, value).
Proof.
  intros Hc. unfold report_or_fail, Xreport_header, is_status, is_dns in *. cbn [fst snd] in *.
  assert (bytes_eqb name HTTP2_HEADER_STATUS = true → bytes_eqb name HTTP2_CONTENT_TYPE = false) as Hno.
  { unfold bytes_eqb. rewrite bool_decide_eq_true. intros ->. by vm_compute. }
  destruct (bytes_eqb name HTTP2_HEADER_STATUS).
  - destruct (Hc eq_refl) as (H1 & H2 & H3). rewrite (Hno eq_refl). unfold Xparse_status_code2. rewrite H1, H2. cbn [negb Z.eqb Pos.eqb].
    msimpl. cbn [Z.eqb]. msimpl. rewrite H3. eexists. split; [reflexivity|]. cbn. rewrite orb_false_r. done.
  - msimpl. cbn [Z.eqb]. destruct (bytes_eqb name HTTP2_CONTENT_TYPE); cbn [andb].
    + destruct ((_ =? _) && (memcasecmp _ TEXT_HTML =? 0)), ((_ =? _) && (memcasecmp _ APPLICATION_DNS_MESSAGE =? 0));
        msimpl; cbn [Z.eqb]; msimpl; eexists; (split; [reflexivity|]); cbn; by rewrite ?orb_false_r, ?orb_true_r.
    + msimpl. cbn [Z.eqb]. msimpl. eexists. split; [reflexivity|]. by rewrite orb_false_r.
Qed.

Lemma field_repr_pos l bytes name value r : field_repr l bytes name value r → zlen bytes ≠ 0.
Proof.
  assert (∀ a b n, 0 ≤ zlen (int_bytes a b n) ∧ zlen (int_bytes a b n) ≠ 0) as Hi.
  { intros a b n. split; [apply zlen_nonneg|]. intros E. by apply zlen_int_bytes_pos in E. }
  intros [i name' value' _ _|i d _ _|[] name' value' nb vb _ _ _ _|[] i name' v value' vb _ _ _|[] i d value' vb _ _ _];
    rewrite ?zlen_app, ?zlen_cons; try apply Hi; try (pose proof (zlen_nonneg (nb ++ vb)); lia);
    pose proof (zlen_nonneg vb); pose proof (Hi 2 0x40 i); pose proof (Hi 4 0 i); lia.
Qed.

(** What a decoded block leaves. *)
Definition decoded (code : Z) (fields : list (list Z * list Z)) (l l' : list dyn) (e e' : http2_env) : Prop :=
  no_fields e' = no_fields e ∧ dyn_ok e' l' ∧
  http2_input_max e' = (if bool_decide (length l' = length l) then http2_input_max e else zlen l' + 15) ∧
  status e' = (if existsb is_status fields then Some code else status e) ∧
  type_dns e' = type_dns e || existsb is_dns fields.

Lemma dyn_ok_same e e' l : dyn_ok e l → no_fields e' = no_fields e → http2_dyn e' = http2_dyn e → http2_dyn_idx e' = http2_dyn_idx e → dyn_ok e' l.
Proof. intros [H1 H2 H3] Hn Hd Hi. split; [congruence|congruence|]. by injection Hn; congruence. Qed.

Lemma field_decoded e l bytes name value r code tl len :
  dyn_ok e l → is_Some (outbuf e) → field_repr l bytes name value r → zlen bytes ≤ len →
  (is_status (name, value) = true → code_text code value) →
  ∃ e', Xdecode_header2 huffman_tables_init ((Some <$> bytes) ++ tl) len e = Done (zlen bytes, e') ∧
        decoded code [(name, value)] l (if enters r then l ++ [Dyn name value] else l) e e'.
Proof.
  intros Hd Ho Hr Hl Hc. rewrite (Xdecode_header2_field e l bytes name value r tl len Hd Ho Hr Hl). unfold decoded. cbn [existsb].
  destruct (enters r).
  - destruct (add_dyn_ok e l name value Hd) as (e1 & E1 & Hd1 & Hn1 & Hm1). rewrite (M_bind_done _ _ _ _ _ E1).
    destruct (report_field e1 code (zlen bytes) name value Hc) as (e2 & E2 & Hn2 & H1 & H2 & H3 & H4 & H5).
    exists e2. split; [exact E2|]. assert (no_fields e1 = no_fields e) as Hn1' by (unfold no_fields; by rewrite Hn1).
    assert (status e1 = status e ∧ type_dns e1 = type_dns e) as [Es Et] by (by injection Hn1).
    split_and!; [congruence|by eapply dyn_ok_same| | |]; rewrite ?orb_false_r.
    + rewrite bool_decide_false by (rewrite length_app; cbn; lia). rewrite H3, Hm1, zlen_app. unfold zlen. cbn. lia.
    + by rewrite H4, Es.
    + by rewrite H5, Et.
  - msimpl. destruct (report_field e code (zlen bytes) name value Hc) as (e2 & E2 & Hn2 & H1 & H2 & H3 & H4 & H5).
    exists e2. split; [exact E2|]. rewrite !orb_false_r, bool_decide_true by done.
    split_and!; try done. by eapply dyn_ok_same.
Qed.

Lemma decoded_trans code f1 f2 l1 l2 l3 e1 e2 e3 :
  (length l1 ≤ length l2)%nat → (length l2 ≤ length l3)%nat →
  decoded code f1 l1 l2 e1 e2 → decoded code f2 l2 l3 e2 e3 → decoded code (f1 ++ f2) l1 l3 e1 e3.
Proof.
  intros Hl1 Hl2 (A1 & A2 & A3 & A4 & A5) (B1 & B2 & B3 & B4 & B5). unfold decoded. rewrite !existsb_app.
  split_and!; [congruence|done| | |].
  - rewrite B3, A3. repeat case_bool_decide; try lia; try done; unfold zlen in *; lia.
  - rewrite B4, A4. by destruct (existsb is_status f1), (existsb is_status f2).
  - by rewrite B5, A5, orb_assoc.
Qed.

Lemma block_length l bs fields l' : block l bs fields l' → (length l ≤ length l')%nat.
Proof. induction 1 as [|l bytes name value r bs fields l' _ _ IH]; [done|]. destruct (enters r); [rewrite length_app in IH; cbn in IH|]; lia. Qed.

Lemma no_fields_proj e e' :
  no_fields e' = no_fields e →
  outbuf e' = outbuf e ∧ done e' = done e ∧ http2_input e' = http2_input e ∧ http2_input_len e' = http2_input_len e ∧
  http2_data e' = http2_data e ∧ http2_data_len e' = http2_data_len e ∧ http2_data_max e' = http2_data_max e.
Proof. intros E. by injection E. Qed.

Lemma headers_loop_block l bs fields l' code tl pre fuel e :
  block l bs fields l' → dyn_ok e l → is_Some (outbuf e) → (∀ f, f ∈ fields → is_status f = true → code_text code f.2) →
  zlen bs < Z.of_nat fuel → zlen pre + zlen bs < 2 ^ 64 →
  ∃ e', headers_loop huffman_tables_init fuel ((Some <$> pre ++ bs) ++ tl) (zlen pre) (zlen pre + zlen bs) (zlen pre + zlen bs) e = Done (0, e') ∧
        decoded code fields l l' e e'.
Proof.
  intros Hb. revert pre fuel e. induction Hb as [l|l bytes name value r bs fields l' Hr Hb IH]; intros pre fuel e Hd Ho Hc Hf Hz;
    (destruct fuel as [|fuel]; [unfold zlen in Hf; cbn in Hf; lia|]); cbn [headers_loop].
  - rewrite (proj2 (Z.ltb_ge _ _)) by (unfold zlen; cbn; lia). msimpl. exists e. split; [done|]. unfold decoded. cbn.
    rewrite orb_false_r, bool_decide_true by done. done.
  - pose proof (field_repr_pos _ _ _ _ _ Hr). pose proof (zlen_nonneg bytes). pose proof (zlen_nonneg bs). pose proof (zlen_nonneg pre).
    rewrite zlen_app in *. rewrite (proj2 (Z.ltb_lt _ _)) by lia.
    replace (drop (Z.to_nat (zlen pre)) ((Some <$> pre ++ bytes ++ bs) ++ tl)) with ((Some <$> bytes) ++ (Some <$> bs) ++ tl).
    2:{ rewrite !fmap_app, <- !app_assoc. symmetry. by apply drop_cells. }
    destruct (field_decoded e l bytes name value r code ((Some <$> bs) ++ tl) (u64 (zlen pre + (zlen bytes + zlen bs) - zlen pre)))
      as (e1 & E1 & D1); [done|done|done|unfold u64; rewrite Z.mod_small by lia; lia|intros Hs; by apply (Hc (name, value)); [left|]|].
    rewrite (M_bind_done _ _ _ _ _ E1). rewrite (proj2 (Z.eqb_neq _ _)) by done.
    destruct (IH (pre ++ bytes) fuel e1) as (e2 & E2 & D2).
    + apply D1.
    + destruct (no_fields_proj e e1 (proj1 D1)) as [-> _]. done.
    + intros f Hin. apply Hc. by right.
    + lia.
    + rewrite zlen_app. lia.
    + exists e2. rewrite <- app_assoc, !zlen_app, <- !Z.add_assoc in E2. rewrite <- E2. split; [f_equal|].
      apply (decoded_trans code [(name, value)] fields l (if enters r then l ++ [Dyn name value] else l) l' e e1);
        [destruct (enters r); rewrite ?length_app; lia|by eapply block_length|done|done].
Qed.

Lemma no_data_proj e e' : no_data e' = no_data e → done e' = done e ∧ status e' = status e ∧ outbuf e' = outbuf e.
Proof. intros E. by injection E. Qed.
Lemma no_input_proj e e' :
  no_input e' = no_input e →
  done e' = done e ∧ status e' = status e ∧ outbuf e' = outbuf e ∧ type_dns e' = type_dns e ∧
  http2_data e' = http2_data e ∧ http2_data_len e' = http2_data_len e ∧ http2_data_max e' = http2_data_max e.
Proof. intros E. by injection E. Qed.

Lemma zlen_frame type flags sid payload rest : zlen (frame type flags sid payload ++ rest) ≠ 0.
Proof. unfold zlen, frame, http2_hdr_bytes. simpl. lia. Qed.

(** A last DATA frame ends the loop with a reply. *)
Lemma last_data_frame {Ref} (reply_cb : Ref → option Z → list Z → Ref) e l flags body payload rest r fuel :
  buf_holds e [] → max_ok e → data_ok e l → type_dns e = true → done e = false →
  is_byte flags → flag_set flags HTTP2_HDR_DATA_END_STREAM = true →
  data_payload flags body payload → Forall is_byte payload → zlen payload < 2 ^ 24 →
  ∃ e', input_loop huffman_tables_init None None reply_cb (S fuel)
          (Conn e (Some (frame HTTP2_HDR_TYPE_DATA flags 1 payload ++ rest)) r) =
        Done (0, Conn e' (Some rest) (reply_cb r (status e) (l ++ body))) ∧
        done e' = true ∧ outbuf e' = outbuf e.
Proof.
  intros Hh Hm Hd Ht Hdone Hf Hend Hp Hb Hz.
  destruct (input1_frame e HTTP2_HDR_TYPE_DATA flags 1 payload rest r Hh Hm) as
    (e1 & tl & Hn & _ & _ & _ & E); [unfold is_byte, HTTP2_HDR_TYPE_DATA; lia|done|lia|done|done|].
  apply no_input_proj in Hn as (Hd1 & Hs1 & Ho1 & Ht1 & Hx1 & Hx2 & Hx3).
  destruct (receive_data2_ok e1 l flags body payload tl) as (e2 & E2 & Hd2 & Hn2 & _);
    [congruence|destruct Hd; split; congruence|done|].
  apply no_data_proj in Hn2 as (Hdn2 & Hs2 & Ho2).
  unfold dispatch in E. cbn [Z.eqb HTTP2_HDR_TYPE_DATA] in E.
  rewrite (M_bind_done _ _ _ _ _ E2) in E. cbn [Z.eqb] in E. rewrite Hend in E. msimpl_in E.
  cbn [Z.eqb] in E. cbn [input_loop]. msimpl. cbn [c_inbuf].
  destruct (Z.eqb_spec (zlen (frame HTTP2_HDR_TYPE_DATA flags 1 payload ++ rest)) 0) as [Hz0|_];
    [by apply zlen_frame in Hz0|].
  rewrite (M_bind_done _ _ _ _ _ E). cbn [Z.eqb]. msimpl. cbn [c_env done set_http2_input_len set_done].
  cbn [http2_data http2_data_len status c_ref set_http2_input_len set_done].
  rewrite (data_len e2 _ Hd2). unfold zlen. rewrite Nat2Z.id.
  rewrite (loadn_app _ 0 (l ++ body)) by (rewrite drop_0; apply Hd2). msimpl.
  eexists. split; [rewrite Hs2, Hs1; reflexivity|]. simpl. split; [done|congruence].
Qed.

(** *** Whole responses *)

(** A frame that does not end the stream is taken in one round. *)
Lemma loop_frame {Ref} (reply_cb : Ref → option Z → list Z → Ref) e type flags payload rest r fuel (Q : http2_env → Prop) :
  buf_holds e [] → max_ok e → is_byte type → is_byte flags → Forall is_byte payload → zlen payload < 2 ^ 24 → done e = false →
  (∀ e1 tl, no_input e1 = no_input e → max_ok e1 → cells_ok (http2_input e1) →
     http2_input e1 = (Some <$> frame type flags 1 payload) ++ tl →
     ∃ e2, dispatch huffman_tables_init type flags (zlen payload) 1 ((Some <$> payload) ++ tl) e1 = Done (0, e2) ∧ done e2 = false ∧
           Q (set_http2_input_len 0 e2)) →
  ∃ e', Q e' ∧ input_loop huffman_tables_init None None reply_cb (S fuel) (Conn e (Some (frame type flags 1 payload ++ rest)) r) =
               input_loop huffman_tables_init None None reply_cb fuel (Conn e' (Some rest) r).
Proof.
  intros Hh Hm Ht Hf Hb Hz Hdone Hgo.
  destruct (input1_frame e type flags 1 payload rest r Hh Hm Ht Hf ltac:(lia) Hb Hz) as (e1 & tl & Hn & Hm1 & Hc1 & Hi1 & E).
  destruct (Hgo e1 tl Hn Hm1 Hc1 Hi1) as (e2 & E2 & Hd2 & HQ). rewrite E2 in E. cbn [Z.eqb] in E.
  eexists. split; [exact HQ|]. cbn [input_loop]. msimpl. cbn [c_inbuf].
  destruct (Z.eqb_spec (zlen (frame type flags 1 payload ++ rest)) 0) as [Hz0|_]; [by apply zlen_frame in Hz0|].
  rewrite (M_bind_done _ _ _ _ _ E). cbn [Z.eqb]. msimpl. cbn [c_env]. change (done (set_http2_input_len 0 e2)) with (done e2). by rewrite Hd2.
Qed.

Lemma buf_empty e : http2_input_len e = 0 → cells_ok (http2_input e) → buf_holds e [].
Proof. intros H1 H2. by split. Qed.

(** The headers of a DNS response *)
Record heading (flags code : Z) (bs : list Z) : Prop := Heading {
  h_flags : is_byte flags ∧ flag_set flags HTTP2_HDR_HEADERS_PADDED = false ∧ flag_set flags HTTP2_HDR_HEADERS_PRIORITY = false;
  h_bytes : Forall is_byte bs ∧ zlen bs < 2 ^ 24;
  h_block : ∃ fields l, block [] bs fields l ∧ existsb is_status fields = true ∧ existsb is_dns fields = true ∧
    (∀ f, f ∈ fields → is_status f = true → code_text code f.2) ∧ (l = [] ∨ zlen l + 6 ≤ zlen bs)
}.

(** The connection while the body is received *)
Record receiving (o : list Z) (code : Z) (l : list Z) (e : http2_env) : Prop := Receiving {
  rc_status : status e = Some code; rc_type : type_dns e = true; rc_done : done e = false; rc_out : outbuf e = Some o;
  rc_data : data_ok e l; rc_buf : buf_holds e []; rc_max : max_ok e
}.

Lemma frame_zlen type flags sid payload : zlen (frame type flags sid payload) = 9 + zlen payload.
Proof. unfold frame, http2_hdr_bytes, zlen. rewrite length_app. cbn [length]. lia. Qed.
Lemma zlen_cells (l : list Z) : zlen (Some <$> l) = zlen l.
Proof. unfold zlen. by rewrite length_fmap. Qed.

Lemma heading_received {Ref} (reply_cb : Ref → option Z → list Z → Ref) flags code bs rest o r fuel :
  heading flags code bs →
  ∃ e', receiving o code [] e' ∧
    input_loop huffman_tables_init None None reply_cb (S fuel)
      (Conn (set_outbuf (Some o) http2_init) (Some (frame HTTP2_HDR_TYPE_HEADERS flags 1 bs ++ rest)) r) =
    input_loop huffman_tables_init None None reply_cb fuel (Conn e' (Some rest) r).
Proof.
  intros [(Hf & Hpad & Hprio) [Hby Hlen] (fields & l & Hb & Hst & Hty & Hc & Hroom)].
  apply loop_frame; try done.
  intros e1 tl Hn Hm Hcells Hin. apply no_input_proj in Hn as Hp. destruct Hp as (Hd1 & Hs1 & Ho1 & Ht1 & Hx1 & Hx2 & Hx3).
  cbn in Hd1, Hs1, Ho1, Ht1, Hx1, Hx2, Hx3.
  destruct (headers_loop_block [] bs fields l code tl [] (S (Z.to_nat (zlen bs))) e1 Hb) as (e2 & E2 & D1 & D2 & D3 & D4 & D5).
  { assert (http2_dyn_idx e1 = 0 ∧ http2_dyn_max e1 = 0) as [G1 G2] by (by injection Hn). by split. }
  { rewrite Ho1. by eexists. }
  { done. } { lia. } { unfold zlen in *. cbn. lia. }
  exists e2. unfold dispatch. cbn [Z.eqb HTTP2_HDR_TYPE_HEADERS HTTP2_HDR_TYPE_DATA Pos.eqb]. unfold Xreceive_headers2. rewrite Hpad, Hprio.
  cbn [Z.eqb Pos.eqb negb]. msimpl. rewrite (proj2 (Z.ltb_ge _ _)) by (pose proof (zlen_nonneg bs); lia). rewrite Z.sub_0_r.
  cbn [app] in E2. change (zlen []) with 0 in E2. split; [exact E2|].
  apply no_fields_proj in D1 as (F1 & F2 & F3 & F4 & F5 & F6 & F7). split; [congruence|].
  constructor; cbn; try congruence.
  - by rewrite D4, Hst.
  - by rewrite D5, Hty, orb_true_r.
  - split; cbn; [by rewrite F5, Hx1|by rewrite F6, Hx2|by rewrite F7, F5, Hx3, Hx1].
  - apply buf_empty; [done|]. cbn. by rewrite F3.
  - unfold max_ok. cbn. rewrite D3, F3, Hin, zlen_app, zlen_cells, frame_zlen. pose proof (zlen_nonneg tl). pose proof (zlen_nonneg bs).
    unfold max_ok in Hm. rewrite Hin, zlen_app, zlen_cells, frame_zlen in Hm. case_bool_decide as Hl; [lia|].
    destruct Hroom as [->|]; [done|lia].
Qed.

(** DATA frames before the last: flags, body and payload *)
Definition part_ok (x : Z * list Z * list Z) : Prop :=
  is_byte x.1.1 ∧ flag_set x.1.1 HTTP2_HDR_DATA_END_STREAM = false ∧ data_payload x.1.1 x.1.2 x.2 ∧ Forall is_byte x.2 ∧ zlen x.2 < 2 ^ 24.
Definition part_frame (x : Z * list Z * list Z) : list Z := frame HTTP2_HDR_TYPE_DATA x.1.1 1 x.2.

Lemma part_received {Ref} (reply_cb : Ref → option Z → list Z → Ref) x rest o code l r fuel e :
  receiving o code l e → part_ok x →
  ∃ e', receiving o code (l ++ x.1.2) e' ∧
    input_loop huffman_tables_init None None reply_cb (S fuel) (Conn e (Some (part_frame x ++ rest)) r) =
    input_loop huffman_tables_init None None reply_cb fuel (Conn e' (Some rest) r).
Proof.
  intros [] (Hf & Hend & Hp & Hby & Hlen). apply loop_frame; try done.
  intros e1 tl Hn Hm Hcells Hin. apply no_input_proj in Hn as (Hd1 & Hs1 & Ho1 & Ht1 & Hx1 & Hx2 & Hx3).
  destruct (receive_data2_ok e1 l x.1.1 x.1.2 x.2 tl) as (e2 & E2 & Hd2 & Hn2 & _);
    [congruence|destruct rc_data0; split; congruence|done|].
  exists e2. unfold dispatch. cbn [Z.eqb HTTP2_HDR_TYPE_DATA]. rewrite (M_bind_done _ _ _ _ _ E2). cbn [Z.eqb]. rewrite Hend. msimpl.
  split; [done|]. assert (http2_input e2 = http2_input e1 ∧ http2_input_max e2 = http2_input_max e1 ∧ type_dns e2 = type_dns e1) as (G1 & G2 & G3)
    by (by injection Hn2). apply no_data_proj in Hn2 as (Hdn2 & Hs2 & Ho2).
  split; [congruence|]. constructor; cbn; try congruence.
  - destruct Hd2. by split.
  - apply buf_empty; [done|]. cbn. by rewrite G1.
  - unfold max_ok in *. cbn. by rewrite G1, G2.
Qed.

Lemma parts_received {Ref} (reply_cb : Ref → option Z → list Z → Ref) xs rest o code l r fuel e :
  receiving o code l e → Forall part_ok xs →
  ∃ e', receiving o code (l ++ concat ((λ x, x.1.2) <$> xs)) e' ∧
    input_loop huffman_tables_init None None reply_cb (length xs + fuel) (Conn e (Some (concat (part_frame <$> xs) ++ rest)) r) =
    input_loop huffman_tables_init None None reply_cb fuel (Conn e' (Some rest) r).
Proof.
  intros Hr Hxs. revert l e Hr. induction Hxs as [|x xs Hx _ IH]; intros l e Hr; cbn [fmap list_fmap concat length Nat.add].
  - exists e. rewrite app_nil_r. done.
  - rewrite <- app_assoc. destruct (part_received reply_cb x (concat (part_frame <$> xs) ++ rest) o code l r (length xs + fuel) e Hr Hx) as (e1 & Hr1 & ->).
    destruct (IH _ _ Hr1) as (e2 & Hr2 & ->). exists e2. by rewrite app_assoc.
Qed.

(** C19: a complete response is answered: when the server sends, on a fresh connection, a HEADERS frame whose header block says one three-digit status and the DNS
    content type, in whatever representations the decoder understands and among whatever other fields ([heading]), and
    then the body in any number of DATA frames (padded or not) the last of which ends the stream, [http2_dns_input] returns 0 and calls
    the reply callback once, with that status and exactly the bodies one after the other; nothing is sent.  The frame is not padded and has no priority, and the
    block is longer by 6 than the number of fields it enters into the dynamic table, or enters none: the size recorded
    by [add_dyn] then does not exceed the buffer (otherwise see [add_dyn_overflows_input]). *)
Theorem http2_dns_input_reply {Ref : Type} (reply_cb : Ref → option Z → list Z → Ref)
    hflags code bs xs flags body payload rest o r fuel :
  heading hflags code bs → Forall part_ok xs →
  is_byte flags → flag_set flags HTTP2_HDR_DATA_END_STREAM = true →
  data_payload flags body payload → Forall is_byte payload → zlen payload < 2 ^ 24 → (length xs + 2 ≤ fuel)%nat →
  ∃ e', http2_dns_input huffman_tables_init None None reply_cb fuel http2_init
          (Some (frame HTTP2_HDR_TYPE_HEADERS hflags 1 bs ++ concat (part_frame <$> xs) ++
                 frame HTTP2_HDR_TYPE_DATA flags 1 payload ++ rest, o)) r =
        Done (0, e', Some (rest, o), reply_cb r (Some code) (concat ((λ x, x.1.2) <$> xs) ++ body)) ∧ done e' = true.
Proof.
  intros Hhd Hxs Hf Hend Hp Hb Hz Hfuel. unfold http2_dns_input. cbn [done http2_init fmap option_fmap option_map fst snd].
  destruct fuel as [|fuel]; [lia|].
  destruct (heading_received reply_cb hflags code bs (concat (part_frame <$> xs) ++ frame HTTP2_HDR_TYPE_DATA flags 1 payload ++ rest) o r fuel Hhd)
    as (e1 & Hr1 & ->).
  replace fuel with (length xs + S (fuel - length xs - 1))%nat by lia.
  destruct (parts_received reply_cb xs (frame HTTP2_HDR_TYPE_DATA flags 1 payload ++ rest) o code [] r (S (fuel - length xs - 1)) e1 Hr1 Hxs)
    as (e2 & [] & ->).
  destruct (last_data_frame reply_cb e2 _ flags body payload rest r (fuel - length xs - 1) rc_buf0 rc_max0 rc_data0 rc_type0 rc_done0
              Hf Hend Hp Hb Hz) as (e' & E & Hdone & Ho').
  rewrite E. msimpl. cbn [c_inbuf c_env c_ref]. rewrite Ho', rc_out0, rc_status0. eexists. split; [reflexivity|]. done.
Qed.

(** The header block of a successful response: [:status] 200
    (indexed) and the content type (literal with an indexed name). *)
Definition dns_headers : list Z :=
  [0x88; 0x5f; 0x17] ++ bytes_of_string "application/dns-message".

Lemma dns_heading : heading HTTP2_HDR_HEADERS_END_HEADERS 200 dns_headers.
Proof.
  split; [split_and!; [by vm_compute|done|done]| |].
  { split; [|by vm_compute]. let l := eval vm_compute in dns_headers in change dns_headers with l. solve_bytes. }
  exists [(HTTP2_HEADER_STATUS, bytes_of_string "200"); (HTTP2_CONTENT_TYPE, APPLICATION_DNS_MESSAGE)],
    [Dyn HTTP2_HEADER_STATUS (bytes_of_string "200"); Dyn HTTP2_CONTENT_TYPE APPLICATION_DNS_MESSAGE].
  split_and!; try (by vm_compute); [| |right; by vm_compute].
  - apply (block_cons [] [0x88] _ _ (Indexed true)); [apply (repr_static [] 8 ":status" "200"); [unfold HPACK_STATIC_NR; lia|done]|].
    rewrite <- (app_nil_r (0x5f :: _)). apply (block_cons _ ([0x5f] ++ str_bytes APPLICATION_DNS_MESSAGE) _ _ (Literal true false)); [|apply block_nil].
    apply (repr_static_name _ true 31 "content-type" None); [unfold HPACK_STATIC_NR; lia|by vm_compute|]. apply literal_raw. by vm_compute.
  - intros f Hin. repeat (apply elem_of_cons in Hin as [->|Hin]; [by vm_compute|]). by apply elem_of_nil in Hin.
Qed.

Lemma http2_dns_input_reply_witness :
  ∃ e', http2_dns_input huffman_tables_init None None (λ _ s d, (s, d)) 3 http2_init
          (Some (frame HTTP2_HDR_TYPE_HEADERS HTTP2_HDR_HEADERS_END_HEADERS 1 dns_headers ++
                 concat (part_frame <$> [(0, [1], [1])]) ++ frame HTTP2_HDR_TYPE_DATA 1 1 [2; 3] ++ [], [])) (None, []) =
        Done (0, e', Some ([], []), (Some 200, [1; 2; 3])) ∧ done e' = true.
Proof.
  apply (http2_dns_input_reply (λ _ s d, (s, d)) HTTP2_HDR_HEADERS_END_HEADERS 200 dns_headers [(0, [1], [1])] 1 [2; 3] [2; 3] [] [] (None, []) 3);
    [exact dns_heading | | unfold is_byte; lia | reflexivity | reflexivity | solve_bytes | unfold zlen; simpl; lia | simpl; lia].
  constructor; [|constructor]. split_and!; [cbn; unfold is_byte; lia|reflexivity|reflexivity|cbn; solve_bytes|unfold zlen; simpl; lia].
Defined.

(** ** A heap overflow *)

(** C40: [add_dyn] records the size of the dynamic table as the size of the
    input buffer.  After a HEADERS frame of a single indexed field (10 bytes of
    input buffer) the recorded size is 16, so that any following frame with 2 to
    7 bytes of payload is written beyond the end of the buffer. *)
Theorem add_dyn_overflows_input {Ref : Type} (reply_cb : Ref → option Z → list Z → Ref)
    type flags sid payload rest o r :
  2 ≤ zlen payload ≤ 7 →
  http2_dns_input huffman_tables_init None None reply_cb 3 http2_init
    (Some (frame HTTP2_HDR_TYPE_HEADERS HTTP2_HDR_HEADERS_END_HEADERS 1 [0x88] ++
           frame type flags sid payload ++ rest, o)) r = Crash Undefined.
Proof.
  unfold zlen. intros Hz.
  destruct payload as [|p1 [|p2 payload]]; [simpl in Hz; lia..|].
  do 6 (destruct payload as [|? payload]; [vm_compute; reflexivity|]). simpl in Hz. lia.
Qed.

Lemma add_dyn_overflows_input_witness :
  http2_dns_input huffman_tables_init None None (λ (r : unit) _ _, r) 3 http2_init
    (Some (frame HTTP2_HDR_TYPE_HEADERS HTTP2_HDR_HEADERS_END_HEADERS 1 [0x88] ++
           frame HTTP2_HDR_TYPE_SETTINGS 0 0 [0; 1; 0; 0; 0; 0] ++ [], [])) tt = Crash Undefined.
Proof.
  apply (add_dyn_overflows_input (λ (r : unit) _ _, r) HTTP2_HDR_TYPE_SETTINGS 0 0 [0; 1; 0; 0; 0; 0] [] [] tt).
  unfold zlen; simpl; lia.
Defined.
