(* ===== verification/Validate.v ===== *)
(** * Input validation (probe-busybox/libbb)

    [rebased_validated_common] and its two callers ([validate_filename.c]),
    [validate_atlas_id] and [atlas_check_addr].  A C string is the list of its
    bytes before the terminating NUL; [char_at] reads that NUL at the end. *)

From S2P Require Import Prelude.
From S2P Require Import Bits.
From stdpp Require Import base list numbers strings.
From Stdlib Require Import ZArith Lia.

Open Scope Z_scope.

(** ** File names *)

Definition ATLAS_HOME : list Z := bytes_of_string "/home/atlas".
Definition slash : Z := 47.
Definition dotdot : list Z := [46; 46].

(** [str[i]] for an index up to the length of the string. *)
Definition char_at (str : list Z) (i : nat) : Z := default 0 (str !! i).

(** [memcmp(a+off, b, strlen(b)) == 0], with [off + strlen(b)] within [a]. *)
Definition memeq (a : list Z) (off : nat) (b : list Z) : bool :=
  bool_decide (take (length b) (drop off a) = b).

(** [strstr(str, pat) != NULL] *)
Fixpoint strstr (str pat : list Z) : bool :=
  memeq str 0 pat || match str with [] => false | _ :: str' => strstr str' pat end.

(** [path] starts with [root/prefix], followed by ['/'] or, without
    [require_slash], by the end of the string: the checks made twice in the
    [else] branch. *)
Definition under (root path prefix : list Z) (require_slash : bool) : bool :=
  let at_ := (length root + 1 + length prefix)%nat in
  negb (length path <? at_)%nat &&
  memeq path 0 root &&
  (char_at path (length root) =? slash) &&
  memeq path (length root + 1) prefix &&
  ((char_at path at_ =? slash) || (negb require_slash && (char_at path at_ =? 0))).

(** [rebased_validated_common]; [unsafe] is the answer of [atlas_unsafe],
    [None] stands for [NULL]. *)
Definition rebased_validated_common (unsafe : bool) (base path prefix : list Z) (require_slash : bool)
    : option (list Z) :=
  if unsafe then Some path
  else
    checked ← (if char_at prefix 0 =? slash then
                 if (length path <? length prefix)%nat then None
                 else if negb (memeq path 0 prefix) then None
                 else if negb (char_at path (length prefix) =? slash) &&
                         (require_slash || negb (char_at path (length prefix) =? 0)) then None
                 else Some false
               else if under ATLAS_HOME path prefix require_slash then Some true
               else if under base path prefix require_slash then Some false
               else None);
    let do_replace : bool := checked in
    if strstr path ([slash] ++ dotdot ++ [slash]) then None
    else if (3 <=? length path)%nat && bool_decide (drop (length path - 3) path = [slash] ++ dotdot) then None
    else if do_replace then Some (base ++ drop (length ATLAS_HOME) path)
    else Some path.

Definition rebased_validated_filename (unsafe : bool) (base path prefix : list Z) : option (list Z) :=
  rebased_validated_common unsafe base path prefix true.
Definition rebased_validated_dir (unsafe : bool) (base path prefix : list Z) : option (list Z) :=
  rebased_validated_common unsafe base path prefix false.

(** ** Measurement identifiers *)

(** [strspn(str, "0123456789")] *)
Fixpoint strspn_digits (str : list Z) : nat :=
  match str with
  | [] => 0
  | c :: str' => if isdigit c then S (strspn_digits str') else 0
  end.

Definition validate_atlas_id (atlas_id : list Z) : Z :=
  if (strspn_digits atlas_id =? length atlas_id)%nat then 1 else 0.

(** ** Addresses *)

Record ipv4_prefix := P4 { p4_addr : Z; p4_len : Z }.
Definition bad_ipv4 : list ipv4_prefix :=
  [P4 0x7F000000 8; P4 0x0A000000 8; P4 0xAC100000 12; P4 0xC0A80000 16; P4 0xA9FE0000 16;
   P4 0xE0000000 4].

Record ipv6_prefix := P6 { p6_addr : list Z; p6_len : Z }.
Definition bad_ipv6 : list ipv6_prefix :=
  [P6 [0; 0; 0; 0; 0; 0; 0; 1] 128; P6 [0; 0; 0; 0; 0; 0xFFFF; 0; 0] 96;
   P6 [0xE000; 0; 0; 0; 0; 0; 0; 0] 3].

(** A socket address: IPv4 address in host order, IPv6 address as its eight
    16-bit groups in host order, or another family; [len] is the [socklen_t]
    the caller passes. *)
Inductive sockaddr := AF_INET (addr4 : Z) | AF_INET6 (groups : list Z) | AF_OTHER (family : Z).
Definition sizeof_sockaddr_in : Z := 16.
Definition sizeof_sockaddr_in6 : Z := 28.

(** [mask4= ~((1ul << (32-len))-1)], assigned to a [uint32_t]; same for 16
    bits. *)
Definition mask4 (len : Z) : Z := u32 (Z.lnot ((1 ≪ (32 - len)) - 1)).
Definition mask2 (prefix_len : Z) : Z := u16 (Z.lnot ((1 ≪ (16 - prefix_len `mod` 16)) - 1)).

(** The inner loop for one IPv6 prefix, from bit [j] on; [n] bounds the number
    of groups left.  True stands for [return -1]. *)
Fixpoint match_ipv6 (n : nat) (groups addr : list Z) (j prefix_len : Z) : bool :=
  match n with
  | O => true
  | S n' =>
      if j <? prefix_len then
        let addr2 := groups !!! Z.to_nat (j / 16) in
        if j + 16 <=? prefix_len then
          if negb (addr2 =? addr !!! Z.to_nat (j / 16)) then false
          else match_ipv6 n' groups addr (j + 16) prefix_len
        else Z.land addr2 (mask2 prefix_len) =? addr !!! Z.to_nat (j / 16)
      else true
  end.

(** [atlas_check_addr]; [allow_all] is set by the environment. *)
Definition atlas_check_addr (allow_all : bool) (sa : sockaddr) (len : Z) : Z :=
  if allow_all then 0
  else
    match sa with
    | AF_INET addr4 =>
        if len <? sizeof_sockaddr_in then -1
        else if existsb (λ p, Z.land addr4 (mask4 (p4_len p)) =? p4_addr p) bad_ipv4 then -1 else 0
    | AF_INET6 groups =>
        if len <? sizeof_sockaddr_in6 then -1
        else if existsb (λ p, match_ipv6 9 groups (p6_addr p) 0 (p6_len p)) bad_ipv6 then -1 else 0
    | AF_OTHER _ => -1
    end.

(** ** Specification: what a path denotes *)

(** The components of a path. *)
Fixpoint components (path : list Z) : list (list Z) :=
  match path with
  | [] => [[]]
  | c :: path' =>
      if c =? slash then [] :: components path'
      else match components path' with
           | [] => [[c]]
           | x :: xs => (c :: x) :: xs
           end
  end.

(** Lexical resolution: the directory names from the root down. *)
Definition resolve1 (stack : list (list Z)) (c : list Z) : list (list Z) :=
  if bool_decide (c = [] ∨ c = [46]) then stack
  else if bool_decide (c = dotdot) then take (length stack - 1) stack
  else stack ++ [c].
Definition resolve (path : list Z) : list (list Z) := fold_left resolve1 (components path) [].

(** ** Strings *)

Lemma memeq_true a off b : memeq a off b = true ↔ ∃ rest, drop off a = b ++ rest.
Proof.
  unfold memeq. rewrite bool_decide_eq_true. split.
  - intros E. exists (drop (length b) (drop off a)). rewrite <- E at 1. by rewrite take_drop.
  - intros [rest E]. rewrite E. apply take_app_length.
Qed.

Lemma strstr_true str pat : strstr str pat = true ↔ ∃ a b, str = a ++ pat ++ b.
Proof.
  induction str as [|c str IH]; simpl; rewrite orb_true_iff, memeq_true, drop_0.
  - split; [|by intros (a & b & E); left; exists b; destruct a].
    intros [[rest E]|]; [|done]. by exists [], rest.
  - rewrite IH. split.
    + intros [[rest E]|(a & b & E)]; [by exists [], rest|exists (c :: a), b; by rewrite E].
    + intros ([|x a] & b & E); [left; by exists b|]. simplify_eq/=. right. eauto.
Qed.

Lemma components_app a t : components (a ++ slash :: t) = components a ++ components t.
Proof.
  induction a as [|c a IH]; [done|]. cbn [app components]. rewrite IH.
  destruct (c =? slash); [done|]. destruct (components a) eqn:E; [|done].
  exfalso. destruct a as [|x a]; simpl in E; [done|]. destruct (x =? slash); [done|].
  by destruct (components a).
Qed.

(** A component of [t] lies in [slash :: t] between a slash and the next one or
    the end. *)
Lemma component_in c t :
  c ∈ components t → ∃ pre post, slash :: t = pre ++ slash :: c ++ post ∧
                                 (post = [] ∨ ∃ post', post = slash :: post').
Proof.
  assert (∀ t, ∃ x xs post, components t = x :: xs ∧ t = x ++ post ∧
            (post = [] ∧ xs = [] ∨ ∃ post', post = slash :: post' ∧ xs = components post')) as Hhd.
  { clear. induction t as [|a t IH]; [by exists [], [], []; eauto|].
    destruct IH as (x & xs & post & E & -> & Hp). simpl. destruct (Z.eqb_spec a slash) as [-> |Ha].
    - exists [], (components (x ++ post)), (slash :: x ++ post). eauto 6.
    - rewrite E. exists (a :: x), xs, post. eauto 6. }
  remember (length t) as n eqn:Hn. revert t Hn.
  induction n as [n IH] using lt_wf_ind. intros t -> Hc.
  destruct (Hhd t) as (x & xs & post & E & Et & Hp). rewrite E in Hc.
  apply elem_of_cons in Hc as [-> |Hc].
  - exists [], post. rewrite Et at 1. split; [done|]. destruct Hp as [[-> _]|(post' & -> & _)]; eauto.
  - destruct Hp as [[-> ->]|(post' & -> & ->)]; [by apply elem_of_nil in Hc|].
    destruct (IH (length post') ltac:(rewrite Et, length_app; simpl; lia) post' eq_refl Hc)
      as (pre & post & E' & Hpost).
    exists (slash :: x ++ pre), post. split; [|done]. rewrite Et at 1. rewrite E'.
    cbn [app]. by rewrite <- app_assoc.
Qed.

(** The checks for ["/../"] and a trailing ["/.."] rule out a parent
    component. *)
Lemma no_dotdot path x t :
  strstr path ([slash] ++ dotdot ++ [slash]) = false →
  ((3 <=? length path)%nat && bool_decide (drop (length path - 3) path = [slash] ++ dotdot)) = false →
  path = x ++ slash :: t → dotdot ∉ components t.
Proof.
  intros Hs Hend Ep Hin. destruct (component_in _ _ Hin) as (pre & post & E & Hpost).
  rewrite E in Ep. destruct Hpost as [-> |(post' & ->)].
  - rewrite app_nil_r in Ep. apply andb_false_iff in Hend as [Hend|Hend].
    + apply Nat.leb_gt in Hend. rewrite Ep, !length_app in Hend. simpl in Hend. lia.
    + apply bool_decide_eq_false in Hend. apply Hend. rewrite Ep, app_assoc.
      rewrite length_app. replace (length (x ++ pre) + length (slash :: dotdot) - 3)%nat
        with (length (x ++ pre)) by (simpl; lia). apply drop_app_length.
  - apply not_true_iff_false in Hs. apply Hs, strstr_true. exists (x ++ pre), post'.
    rewrite Ep. by rewrite <- !app_assoc.
Qed.

(** Without parent components resolution only goes down. *)
Lemma resolve_down cs stack :
  dotdot ∉ cs → stack `prefix_of` fold_left resolve1 cs stack.
Proof.
  revert stack. induction cs as [|c cs IH]; intros stack Hc; [done|]. simpl.
  apply not_elem_of_cons in Hc as [Hne Hc]. etransitivity; [|by apply IH].
  unfold resolve1. case_bool_decide; [done|]. rewrite bool_decide_false by congruence.
  by apply prefix_app_r.
Qed.

Lemma resolve_under start t :
  dotdot ∉ components t → resolve start `prefix_of` resolve (start ++ slash :: t).
Proof.
  intros Ht. unfold resolve. rewrite components_app, fold_left_app. by apply resolve_down.
Qed.

(** [tail_ok require_slash tail]: what may follow the prefix. *)
Definition tail_ok (require_slash : bool) (tail : list Z) : Prop :=
  (∃ t, tail = slash :: t) ∨ (require_slash = false ∧ tail = []).

Lemma char_at_tail a rest rs :
  0 ∉ a ++ rest →
  (char_at (a ++ rest) (length a) =? slash) ||
    (negb rs && (char_at (a ++ rest) (length a) =? 0)) = true →
  tail_ok rs rest.
Proof.
  intros H0 Hc. unfold char_at in Hc. rewrite lookup_app_r, Nat.sub_diag in Hc by done.
  destruct rest as [|c rest]; simpl in Hc.
  - right. by destruct rs.
  - left. destruct (Z.eqb_spec c slash) as [-> |_]; [eauto|].
    destruct (Z.eqb_spec c 0) as [-> |_]; [|by rewrite andb_false_r in Hc].
    exfalso. apply H0. apply elem_of_app. right. by left.
Qed.

Lemma under_true root path prefix rs :
  0 ∉ path → under root path prefix rs = true →
  ∃ tail, path = (root ++ slash :: prefix) ++ tail ∧ tail_ok rs tail.
Proof.
  intros H0 Hu. unfold under in Hu. rewrite !andb_true_iff in Hu.
  destruct Hu as ((((Hlen & Hroot) & Hsl) & Hpre) & Hend).
  apply memeq_true in Hroot as [r1 E1]. rewrite drop_0 in E1. subst path.
  unfold char_at in Hsl. rewrite lookup_app_r, Nat.sub_diag in Hsl by done.
  destruct r1 as [|c r1]; [done|]. simpl in Hsl. apply Z.eqb_eq in Hsl as ->.
  apply memeq_true in Hpre as [r2 E2].
  rewrite drop_app_ge in E2 by lia. replace (length root + 1 - length root)%nat with 1%nat in E2 by lia.
  simpl in E2. rewrite drop_0 in E2. subst r1. exists r2.
  replace (root ++ slash :: prefix ++ r2) with ((root ++ slash :: prefix) ++ r2) in *
    by (by rewrite <- app_assoc).
  split; [done|]. apply (char_at_tail (root ++ slash :: prefix)); [done|].
  rewrite length_app. simpl. by replace (length root + S (length prefix))%nat
    with (length root + 1 + length prefix)%nat by lia.
Qed.

(** The directory a validated path is confined to. *)
Definition confined_to (base prefix : list Z) : list Z :=
  if char_at prefix 0 =? slash then prefix else base ++ slash :: prefix.

(** An accepted name is the directory and a tail without parent components. *)
Lemma validated_shape base path prefix require_slash r :
  0 ∉ path → rebased_validated_common false base path prefix require_slash = Some r →
  ∃ tail, r = confined_to base prefix ++ tail ∧ tail_ok require_slash tail ∧
          ∀ t, tail = slash :: t → dotdot ∉ components t.
Proof.
  intros H0 E. unfold rebased_validated_common in E.
  apply bind_Some in E as (do_replace & Echk & E).
  destruct (strstr path _) eqn:Hs; [done|].
  destruct ((3 <=? length path)%nat && _) eqn:Hend; [done|].
  assert (∃ start tail, path = start ++ tail ∧ tail_ok require_slash tail ∧
            r = confined_to base prefix ++ tail) as (start & tail & Ep & Htail & ->).
  { unfold confined_to. destruct (char_at prefix 0 =? slash).
    - destruct (_ <? _)%nat; [done|]. destruct (memeq path 0 prefix) eqn:Em; [|done].
      simpl in Echk. destruct (_ && _) eqn:Ec; [done|]. injection Echk as <-. injection E as <-.
      apply memeq_true in Em as [rest Er]. rewrite drop_0 in Er. subst path.
      exists prefix, rest. split; [done|]. split; [|done]. apply (char_at_tail prefix); [done|].
      destruct (_ =? slash); [done|]. destruct require_slash; [done|]. simpl in *.
      by destruct (_ =? 0).
    - destruct (under ATLAS_HOME path prefix require_slash) eqn:Eu.
      + injection Echk as <-. apply under_true in Eu as (tail & -> & Ht); [|done].
        exists (ATLAS_HOME ++ slash :: prefix), tail. split; [done|]. split; [done|].
        apply (inj Some) in E. subst r. rewrite <- !app_assoc, drop_app_length. done.
      + destruct (under base path prefix require_slash) eqn:Eu2; [|done].
        injection Echk as <-. apply under_true in Eu2 as (tail & -> & Ht); [|done].
        exists (base ++ slash :: prefix), tail. injection E as <-. done. }
  exists tail. split_and!; [done..|]. intros t ->. by eapply no_dotdot.
Qed.

(** ** Theorems *)

(** C26: an accepted path is confined: whatever the (NUL-free) path is, a non-NULL
    result of [rebased_validated_common] is the allowed directory
    ([prefix] when it is absolute, [base/prefix] otherwise) followed by nothing or a
    slash and more, and resolving it, [".."] components included, ends in
    or below that directory. *)
Theorem rebased_validated_common_confined base path prefix require_slash r :
  0 ∉ path → rebased_validated_common false base path prefix require_slash = Some r →
  ∃ tail, r = confined_to base prefix ++ tail ∧ tail_ok require_slash tail ∧
          resolve (confined_to base prefix) `prefix_of` resolve r.
Proof.
  intros H0 E. destruct (validated_shape _ _ _ _ _ H0 E) as (tail & -> & Htail & Hdd).
  exists tail. split; [done|]. split; [done|]. destruct Htail as [[t ->]|[_ ->]].
  - by apply resolve_under, Hdd.
  - by rewrite app_nil_r.
Qed.

Lemma rebased_validated_common_confined_witness :
  ∃ tail, bytes_of_string "/var/spool/data/new/x" =
            confined_to (bytes_of_string "/var/spool") (bytes_of_string "data/new") ++ tail ∧
          tail_ok true tail ∧
          resolve (confined_to (bytes_of_string "/var/spool") (bytes_of_string "data/new"))
            `prefix_of` resolve (bytes_of_string "/var/spool/data/new/x").
Proof.
  apply (rebased_validated_common_confined (bytes_of_string "/var/spool")
           (bytes_of_string "/home/atlas/data/new/x") (bytes_of_string "data/new") true).
  - apply (bool_decide_unpack _). vm_compute. exact I.
  - vm_compute. reflexivity.
Defined.

(** The converse of [no_dotdot]. *)
Lemma dotdot_free path :
  dotdot ∉ components path →
  strstr path ([slash] ++ dotdot ++ [slash]) = false ∧
  ((3 <=? length path)%nat && bool_decide (drop (length path - 3) path = [slash] ++ dotdot)) = false.
Proof.
  intros Hc. split.
  - apply not_true_iff_false. intros (a & b & E)%strstr_true. apply Hc.
    replace path with (a ++ slash :: (dotdot ++ slash :: b)) by (by rewrite E, <- !app_assoc).
    rewrite !components_app. apply elem_of_app. right. apply elem_of_app. left. by left.
  - apply not_true_iff_false. intros [_ E%bool_decide_eq_true]%andb_true_iff. apply Hc.
    rewrite <- (take_drop (length path - 3) path), E. change ([slash] ++ dotdot) with (slash :: dotdot).
    rewrite components_app. apply elem_of_app. right. by left.
Qed.

(** Legitimate names are accepted and rebased: every name below
    [/home/atlas/prefix] without parent components (prefix relative) is mapped to
    the same name below [base/prefix]. *)
Theorem rebased_validated_filename_accepts base prefix t :
  char_at prefix 0 ≠ slash →
  dotdot ∉ components (ATLAS_HOME ++ slash :: prefix ++ slash :: t) →
  rebased_validated_filename false base (ATLAS_HOME ++ slash :: prefix ++ slash :: t) prefix =
  Some (base ++ slash :: prefix ++ slash :: t).
Proof.
  intros Hp Hc. unfold rebased_validated_filename, rebased_validated_common.
  destruct (Z.eqb_spec (char_at prefix 0) slash); [done|].
  destruct (dotdot_free _ Hc) as [Hs Hend].
  assert (under ATLAS_HOME (ATLAS_HOME ++ slash :: prefix ++ slash :: t) prefix true = true) as ->.
  { unfold under. rewrite !andb_true_iff, orb_true_iff. split_and!.
    - rewrite !length_app. simpl. rewrite length_app. simpl. apply negb_true_iff, Nat.ltb_ge. lia.
    - apply memeq_true. rewrite drop_0. eauto.
    - done.
    - apply memeq_true. rewrite drop_app_ge by lia.
      replace (length ATLAS_HOME + 1 - length ATLAS_HOME)%nat with 1%nat by lia. simpl.
      rewrite drop_0. eauto.
    - left. unfold char_at. rewrite lookup_app_r by lia.
      replace (length ATLAS_HOME + 1 + length prefix - length ATLAS_HOME)%nat
        with (S (length prefix)) by lia. simpl.
      by rewrite list_lookup_middle. }
  cbn [mbind option_bind]. rewrite Hs, Hend. by rewrite drop_app_length.
Qed.

Lemma rebased_validated_filename_accepts_witness :
  rebased_validated_filename false (bytes_of_string "/var/spool")
    (ATLAS_HOME ++ slash :: bytes_of_string "data" ++ slash :: bytes_of_string "7.out")
    (bytes_of_string "data") =
  Some (bytes_of_string "/var/spool" ++ slash :: bytes_of_string "data" ++ slash :: bytes_of_string "7.out").
Proof.
  apply (rebased_validated_filename_accepts (bytes_of_string "/var/spool") (bytes_of_string "data")
           (bytes_of_string "7.out")).
  - vm_compute. discriminate.
  - apply (bool_decide_unpack _). vm_compute. exact I.
Defined.

(** [validate_atlas_id] accepts exactly the strings of decimal digits. *)
Theorem validate_atlas_id_digits atlas_id :
  validate_atlas_id atlas_id = if forallb isdigit atlas_id then 1 else 0.
Proof.
  unfold validate_atlas_id.
  assert ((strspn_digits atlas_id =? length atlas_id)%nat = forallb isdigit atlas_id ∧
          (strspn_digits atlas_id ≤ length atlas_id)%nat) as [-> _]; [|done].
  induction atlas_id as [|c s [IH Hle]]; [done|]. simpl. destruct (isdigit c); [|split; [done|lia]].
  simpl. split; [done|lia].
Qed.

(** *** Addresses *)

(** [in_prefix width addr p len]: the first [len] bits of the [width]-bit
    numbers [addr] and [p] agree. *)
Definition in_prefix (width addr p len : Z) : bool :=
  addr / 2 ^ (width - len) =? p / 2 ^ (width - len).

(** An IPv6 address as a number. *)
Definition addr128 (groups : list Z) : Z := fold_left (λ a g, a * 2 ^ 16 + g) groups 0.

Lemma land_mask a k w :
  0 ≤ k ≤ w → 0 ≤ a < 2 ^ w → Z.land a ((Z.lnot ((1 ≪ k) - 1)) `mod` 2 ^ w) = a / 2 ^ k * 2 ^ k.
Proof.
  intros Hk Ha. assert (0 < 2 ^ k) by (apply Z.pow_pos_nonneg; lia).
  rewrite Z.shiftl_1_l.
  assert (Z.lnot (2 ^ k - 1) = - 2 ^ k) as -> by (unfold Z.lnot; lia).
  apply Z.bits_inj'. intros n Hn. rewrite Z.land_spec.
  destruct (Z.lt_ge_cases n w) as [Hw|Hw].
  - rewrite Z.mod_pow2_bits_low by lia.
    destruct (Z.lt_ge_cases n k) as [Hlt|Hge].
    + rewrite Z.mul_pow2_bits_low by lia.
      replace (- 2 ^ k) with (-1 * 2 ^ k) by lia. rewrite Z.mul_pow2_bits_low by lia. apply andb_false_r.
    + rewrite Z.mul_pow2_bits, Z.div_pow2_bits by lia.
      replace (- 2 ^ k) with (-1 * 2 ^ k) by lia.
      rewrite Z.mul_pow2_bits by lia. rewrite Z.bits_m1 by lia. rewrite andb_true_r. f_equal. lia.
  - rewrite (testbit_above a w n) by lia. symmetry. cbn [andb].
    rewrite Z.mul_pow2_bits, Z.div_pow2_bits by lia. rewrite (testbit_above a w) by lia. done.
Qed.

(** Masking and comparing is comparing the first bits. *)
Lemma mask_prefix w a p len :
  0 ≤ len ≤ w → 0 ≤ a < 2 ^ w → p `mod` 2 ^ (w - len) = 0 →
  (Z.land a ((Z.lnot ((1 ≪ (w - len)) - 1)) `mod` 2 ^ w) =? p) = in_prefix w a p len.
Proof.
  intros Hl Ha Hp. rewrite land_mask by lia. unfold in_prefix.
  assert (0 < 2 ^ (w - len)) by (apply Z.pow_pos_nonneg; lia).
  apply Z.div_exact in Hp; [|lia].
  destruct (Z.eqb_spec (a / 2 ^ (w - len)) (p / 2 ^ (w - len))) as [->|Hne];
    destruct (Z.eqb_spec (a / 2 ^ (w - len) * 2 ^ (w - len)) p); try done; nia.
Qed.

Lemma check_ipv4 addr4 :
  0 ≤ addr4 < 2 ^ 32 →
  existsb (λ p, Z.land addr4 (mask4 (p4_len p)) =? p4_addr p) bad_ipv4 =
  existsb (λ p, in_prefix 32 addr4 (p4_addr p) (p4_len p)) bad_ipv4.
Proof.
  intros Ha. cbn [existsb bad_ipv4 p4_len p4_addr]. unfold mask4, u32.
  by rewrite !mask_prefix by (done || lia).
Qed.

Lemma addr128_groups g0 g1 g2 g3 g4 g5 g6 g7 :
  addr128 [g0; g1; g2; g3; g4; g5; g6; g7] =
  g0 * 2 ^ 112 + g1 * 2 ^ 96 + g2 * 2 ^ 80 + g3 * 2 ^ 64 + g4 * 2 ^ 48 + g5 * 2 ^ 32 + g6 * 2 ^ 16 + g7.
Proof. unfold addr128. cbn [fold_left]. lia. Qed.

(** The loop unrolled for the two prefixes that are whole groups. *)
Lemma match_loopback g0 g1 g2 g3 g4 g5 g6 g7 :
  match_ipv6 9 [g0; g1; g2; g3; g4; g5; g6; g7] [0; 0; 0; 0; 0; 0; 0; 1] 0 128 =
  (g0 =? 0) && (g1 =? 0) && (g2 =? 0) && (g3 =? 0) && (g4 =? 0) && (g5 =? 0) && (g6 =? 0) && (g7 =? 1).
Proof.
  cbv -[Z.eqb].
  do 8 (match goal with |- context [?g =? ?c] => is_var g; destruct (g =? c); [|reflexivity] end).
  reflexivity.
Qed.
Lemma match_mapped g0 g1 g2 g3 g4 g5 g6 g7 :
  match_ipv6 9 [g0; g1; g2; g3; g4; g5; g6; g7] [0; 0; 0; 0; 0; 0xFFFF; 0; 0] 0 96 =
  (g0 =? 0) && (g1 =? 0) && (g2 =? 0) && (g3 =? 0) && (g4 =? 0) && (g5 =? 0xFFFF).
Proof.
  cbv -[Z.eqb].
  do 6 (match goal with |- context [?g =? ?c] => is_var g; destruct (g =? c); [|reflexivity] end).
  reflexivity.
Qed.

(** The loop over whole groups and a rest, for an address of eight groups. *)
Lemma check_ipv6 groups :
  length groups = 8%nat → Forall (λ g, 0 ≤ g < 2 ^ 16) groups →
  existsb (λ p, match_ipv6 9 groups (p6_addr p) 0 (p6_len p)) bad_ipv6 =
  existsb (λ p, in_prefix 128 (addr128 groups) (addr128 (p6_addr p)) (p6_len p)) bad_ipv6.
Proof.
  intros Hlen Hg.
  destruct groups as [|g0 [|g1 [|g2 [|g3 [|g4 [|g5 [|g6 [|g7 [|]]]]]]]]]; try done.
  rewrite !Forall_cons in Hg. destruct Hg as (H0 & H1 & H2 & H3 & H4 & H5 & H6 & H7 & _).
  cbn [existsb bad_ipv6 p6_len p6_addr]. unfold in_prefix. rewrite !addr128_groups.
  f_equal; [|f_equal; [|f_equal]].
  - rewrite match_loopback. change (128 - 128) with 0. rewrite !Z.div_1_r. apply eq_true_iff_eq. rewrite !andb_true_iff, !Z.eqb_eq. lia.
  - rewrite match_mapped. apply eq_true_iff_eq. rewrite !andb_true_iff, !Z.eqb_eq. change (128 - 96) with 32.
    Z.to_euclidean_division_equations. lia.
  - cbn [match_ipv6]. change (0 <? 3) with true. change (0 + 16 <=? 3) with false. cbv iota zeta.
    change (Z.to_nat (0 / 16)) with 0%nat. cbn [lookup_total list_lookup_total].
    unfold mask2, u16. change (3 `mod` 16) with 3.
    rewrite (mask_prefix 16 g0 0xE000 3) by (done || lia). unfold in_prefix.
    apply eq_true_iff_eq. rewrite !Z.eqb_eq. change (128 - 3) with 125. change (16 - 3) with 13.
    Z.to_euclidean_division_equations. lia.
Qed.

(** [atlas_check_addr] refuses exactly the listed address ranges: with the
    check enabled, a complete IPv4 or IPv6 socket address is allowed if and only if
    the address, as a 32-bit or 128-bit number, shares its first [len] bits with
    none of the prefixes of its table (loopback, private, link-local and multicast
    for IPv4; loopback, IPv4-mapped and e000::/3 for IPv6). *)
Theorem atlas_check_addr_ranges :
  (∀ addr4 len, 0 ≤ addr4 < 2 ^ 32 → sizeof_sockaddr_in ≤ len →
     atlas_check_addr false (AF_INET addr4) len =
     if existsb (λ p, in_prefix 32 addr4 (p4_addr p) (p4_len p)) bad_ipv4 then -1 else 0) ∧
  (∀ groups len, length groups = 8%nat → Forall (λ g, 0 ≤ g < 2 ^ 16) groups →
     sizeof_sockaddr_in6 ≤ len →
     atlas_check_addr false (AF_INET6 groups) len =
     if existsb (λ p, in_prefix 128 (addr128 groups) (addr128 (p6_addr p)) (p6_len p)) bad_ipv6
     then -1 else 0).
Proof.
  split.
  - intros addr4 len Ha Hl. unfold atlas_check_addr. destruct (Z.ltb_spec len sizeof_sockaddr_in); [lia|].
    by rewrite check_ipv4.
  - intros groups len Hlen Hg Hl. unfold atlas_check_addr.
    destruct (Z.ltb_spec len sizeof_sockaddr_in6); [lia|]. by rewrite check_ipv6.
Qed.

Lemma atlas_check_addr_ranges_witness :
  atlas_check_addr false (AF_INET 0xAC1F0001) 16 = -1 ∧
  atlas_check_addr false (AF_INET6 [0x2001; 0x67c; 0x2e8; 0; 0; 0; 0; 1]) 28 = 0.
Proof.
  split.
  - apply (proj1 atlas_check_addr_ranges 0xAC1F0001 16); unfold sizeof_sockaddr_in; lia.
  - apply (proj2 atlas_check_addr_ranges [0x2001; 0x67c; 0x2e8; 0; 0; 0; 0; 1] 28);
      [reflexivity | | unfold sizeof_sockaddr_in6; lia].
    repeat first [apply Forall_nil_2 | apply Forall_cons_2; [lia|]].
Defined.
