(* ===== verification/Buf.v ===== *)
(** * Growing buffers and base64 (probe-busybox/libbb/atlas_bb64.c)

    [struct buf] with [buf_init], [buf_add], [buf_add_b64] and [buf_cleanup].
    The bytes between [offset] and [size] are the contents; [malloc] is taken to
    succeed. *)

From S2P Require Import Prelude.
From S2P Require Import Bits.
From S2P Require Import Http2Send.
From stdpp Require Import base list numbers strings.
From Stdlib Require Import ZArith Lia.

Open Scope Z_scope.

Definition BUF_CHUNK : Z := 256.

Record buf := Buf { b_offset : Z; b_size : Z; b_maxsize : Z; b_buf : blk Z; b_fd : Z }.

Definition buf_init (fd : Z) : buf := Buf 0 0 0 [] fd.

Definition buf_add (b : buf) (data : list Z) : outcome buf :=
  let len := zlen data in
  if b_size b + len <=? b_maxsize b then
    m ← store (b_buf b) (Z.to_nat (b_size b)) data;
    Done (Buf (b_offset b) (b_size b + len) (b_maxsize b) m (b_fd b))
  else
    let maxsize := b_size b - b_offset b + len + BUF_CHUNK in
    let newbuf := replicate (Z.to_nat maxsize) None in
    '(newbuf, size) ←
      (if b_offset b <? b_size b then
         old ← loadn (b_buf b) (Z.to_nat (b_offset b)) (Z.to_nat (b_size b - b_offset b));
         m ← store newbuf 0 old;
         Done (m, b_size b - b_offset b)
       else Done (newbuf, 0));
    m ← store newbuf (Z.to_nat size) data;
    Done (Buf 0 (size + len) maxsize m (b_fd b)).

Definition buf_cleanup (b : buf) : buf := Buf 0 0 0 [] (b_fd b).

(** ** base64 *)

Definition b64 : list Z :=
  bytes_of_string "ABCDEFGHIJKLMNOPQRSTUVWXYZabcdefghijklmnopqrstuvwxyz0123456789+/".
(** [b64[(v >> n) & 63]] *)
Definition b64_char (v n : Z) : Z := b64 !!! Z.to_nat (Z.land (v ≫ n) 63).

(** The loop over groups of three bytes and the [switch] on the rest, from
    position [i] on. *)
Fixpoint b64_loop (b : buf) (data : list Z) (mime_nl : bool) (i : Z) : outcome buf :=
  match data with
  | p0 :: p1 :: p2 :: rest =>
      let v := (p0 ≪ 16) + (p1 ≪ 8) + p2 in
      b ← buf_add b [b64_char v 18; b64_char v 12; b64_char v 6; b64_char v 0];
      b ← (if mime_nl && (i `mod` 48 =? 45) then buf_add b [10] else Done b);
      b64_loop b rest mime_nl (i + 3)
  | [p0; p1] =>
      let v := (p0 ≪ 16) + (p1 ≪ 8) in
      buf_add b [b64_char v 18; b64_char v 12; b64_char v 6; 61]
  | [p0] =>
      let v := p0 ≪ 16 in
      buf_add b [b64_char v 18; b64_char v 12; 61; 61]
  | [] => Done b
  end.

Definition buf_add_b64 (b : buf) (data : list Z) (mime_nl : bool) : outcome buf :=
  b64_loop b data mime_nl 0.

(** ** Contents *)

(** [buf_holds b l]: the contents of [b] are [l]. *)
Record buf_ok (b : buf) (l : list Z) : Prop := {
  bo_bounds : 0 ≤ b_offset b ≤ b_size b;
  bo_size : b_size b - b_offset b = zlen l;
  bo_max : b_maxsize b = zlen (b_buf b);
  bo_fits : b_size b ≤ b_maxsize b;
  bo_cells : take (length l) (drop (Z.to_nat (b_offset b)) (b_buf b)) = Some <$> l
}.

Lemma buf_init_ok fd : buf_ok (buf_init fd) [].
Proof. by split. Qed.

Lemma buf_cleanup_ok b : buf_ok (buf_cleanup b) [].
Proof. by split. Qed.

(** Storing behind the contents. *)
Lemma store_behind (m : blk Z) off l data :
  take (length l) (drop off m) = Some <$> l → (off + length l + length data ≤ length m)%nat →
  ∃ m', store m (off + length l) data = Done m' ∧ length m' = length m ∧
        take (length (l ++ data)) (drop off m') = Some <$> (l ++ data).
Proof.
  intros Hc Hl. unfold store. rewrite decide_True by lia. eexists. split; [done|].
  rewrite !length_app, length_take, length_fmap, length_drop. split; [lia|].
  assert (take (off + length l) m = take off m ++ (Some <$> l)) as ->.
  { rewrite <- (take_drop off m) at 1. rewrite take_app_ge by (rewrite length_take; lia).
    rewrite length_take_le by lia. rewrite <- Hc. f_equal. f_equal. lia. }
  rewrite <- !app_assoc, drop_app_length' by (rewrite length_take; lia).
  rewrite app_assoc, <- fmap_app, take_app_length'; [done|by rewrite length_fmap, length_app].
Qed.

Lemma buf_add_ok b l data :
  buf_ok b l → ∃ b', buf_add b data = Done b' ∧ buf_ok b' (l ++ data) ∧ b_fd b' = b_fd b.
Proof.
  intros [Hb Hs Hm Hf Hc]. pose proof (zlen_nonneg l). pose proof (zlen_nonneg data). unfold buf_add.
  destruct (Z.leb_spec (b_size b + zlen data) (b_maxsize b)).
  - destruct (store_behind (b_buf b) (Z.to_nat (b_offset b)) l data Hc) as (m & E & Hl & Hc').
    { unfold zlen in *. lia. }
    replace (Z.to_nat (b_size b)) with (Z.to_nat (b_offset b) + length l)%nat by (unfold zlen in *; lia).
    rewrite E. msimpl. eexists. split; [done|]. split; [|done]. split; simpl.
    + lia.
    + rewrite zlen_app. lia.
    + unfold zlen in *. by rewrite Hl.
    + lia.
    + done.
  - set (maxsize := b_size b - b_offset b + zlen data + BUF_CHUNK).
    assert (∃ m, (if b_offset b <? b_size b then
         old ← loadn (b_buf b) (Z.to_nat (b_offset b)) (Z.to_nat (b_size b - b_offset b));
         m ← store (replicate (Z.to_nat maxsize) None) 0 old; Done (m, b_size b - b_offset b)
       else Done (replicate (Z.to_nat maxsize) None, 0)) = Done (m, zlen l) ∧
       length m = Z.to_nat maxsize ∧ take (length l) (drop 0 m) = Some <$> l) as (m & -> & Hlm & Hcm).
    { destruct (Z.ltb_spec (b_offset b) (b_size b)).
      - rewrite Hs. replace (Z.to_nat (zlen l)) with (length l) by (unfold zlen; lia).
        rewrite loadn_app by done. msimpl.
        destruct (store_behind (replicate (Z.to_nat maxsize) None) 0 [] l) as (m & E & Hl & Hc').
        { by rewrite take_0. }
        { rewrite length_replicate. unfold maxsize, BUF_CHUNK. simpl. unfold zlen in *. lia. }
        simpl in E. rewrite E. msimpl. exists m. rewrite Hl, length_replicate. done.
      - assert (l = []) as -> by (destruct l; [done|rewrite zlen_cons in *; pose proof (zlen_nonneg l); lia]).
        eexists. split; [done|]. by rewrite length_replicate, take_0. }
    msimpl. destruct (store_behind m 0 l data Hcm) as (m' & E & Hl & Hc').
    { rewrite Hlm. unfold maxsize, BUF_CHUNK, zlen in *. simpl. lia. }
    replace (Z.to_nat (zlen l)) with (length l) by (unfold zlen; lia). simpl in E. rewrite E. msimpl.
    eexists. split; [done|]. split; [|done]. split; simpl.
    + lia.
    + rewrite zlen_app. lia.
    + unfold zlen at 1. rewrite Hl, Hlm. unfold maxsize, BUF_CHUNK. lia.
    + unfold maxsize, BUF_CHUNK. lia.
    + done.
Qed.

(** ** What base64 text is *)

(** The text [buf_add_b64] writes from position [i] on. *)
Fixpoint b64_text (mime_nl : bool) (i : Z) (data : list Z) : list Z :=
  match data with
  | p0 :: p1 :: p2 :: rest =>
      let v := (p0 ≪ 16) + (p1 ≪ 8) + p2 in
      [b64_char v 18; b64_char v 12; b64_char v 6; b64_char v 0] ++
      (if mime_nl && (i `mod` 48 =? 45) then [10] else []) ++ b64_text mime_nl (i + 3) rest
  | [p0; p1] => let v := (p0 ≪ 16) + (p1 ≪ 8) in [b64_char v 18; b64_char v 12; b64_char v 6; 61]
  | [p0] => let v := p0 ≪ 16 in [b64_char v 18; b64_char v 12; 61; 61]
  | [] => []
  end.

(** A decoder, independent of the encoder: the position of a character in the
    alphabet; newlines are skipped. *)
Fixpoint index_of (c : Z) (l : list Z) : Z :=
  match l with [] => 0 | x :: l' => if c =? x then 0 else 1 + index_of c l' end.
Definition b64_val (c : Z) : Z := index_of c b64.

Fixpoint b64_groups (l : list Z) : option (list Z) :=
  match l with
  | [] => Some []
  | c0 :: c1 :: c2 :: c3 :: rest =>
      let v := b64_val c0 * 2 ^ 18 + b64_val c1 * 2 ^ 12 in
      if c3 =? 61 then
        match rest with
        | [] => if c2 =? 61 then Some [v / 2 ^ 16]
                else let v := v + b64_val c2 * 2 ^ 6 in Some [v / 2 ^ 16; (v / 2 ^ 8) `mod` 256]
        | _ => None
        end
      else
        let v := v + b64_val c2 * 2 ^ 6 + b64_val c3 in
        r ← b64_groups rest;
        Some (v / 2 ^ 16 :: (v / 2 ^ 8) `mod` 256 :: v `mod` 256 :: r)
  | _ => None
  end.
Definition b64_decode (l : list Z) : option (list Z) := b64_groups (filter (λ c, c ≠ 10) l).

Lemma b64_char_val v n : 0 ≤ n → b64_val (b64_char v n) = (v / 2 ^ n) `mod` 64.
Proof.
  intros Hn. unfold b64_char. change 63 with (2 ^ 6 - 1). rewrite land_ones_mod by lia.
  rewrite Z.shiftr_div_pow2 by done. change (2 ^ 6) with 64.
  pose proof (Z.mod_pos_bound (v / 2 ^ n) 64 ltac:(lia)) as Hk. set (k := _ `mod` 64) in *.
  assert (forallb (λ k, b64_val (b64 !!! Z.to_nat k) =? k) (seqZ 0 64) = true) as Hall
    by (vm_compute; reflexivity).
  apply forallb_forall with (x := k) in Hall; [|apply list_elem_of_In, elem_of_seqZ; lia].
  by apply Z.eqb_eq in Hall.
Qed.

Lemma b64_char_plain v n : b64_char v n ≠ 61 ∧ b64_char v n ≠ 10.
Proof.
  unfold b64_char. change 63 with (2 ^ 6 - 1). rewrite land_ones_mod by lia. change (2 ^ 6) with 64.
  pose proof (Z.mod_pos_bound (v ≫ n) 64 ltac:(lia)) as Hk. set (k := _ `mod` 64) in *.
  assert (forallb (λ k, negb (b64 !!! Z.to_nat k =? 61) && negb (b64 !!! Z.to_nat k =? 10)) (seqZ 0 64) = true)
    as Hall by (vm_compute; reflexivity).
  apply forallb_forall with (x := k) in Hall; [|apply list_elem_of_In, elem_of_seqZ; lia].
  apply andb_true_iff in Hall as [H1 H2]. apply negb_true_iff, Z.eqb_neq in H1, H2. done.
Qed.

Lemma b64_loop_ok b l data mime_nl i :
  buf_ok b l →
  ∃ b', b64_loop b data mime_nl i = Done b' ∧ buf_ok b' (l ++ b64_text mime_nl i data) ∧ b_fd b' = b_fd b.
Proof.
  remember (length data) as n eqn:Hn. revert data Hn b l i.
  induction n as [n IH] using lt_wf_ind. intros data -> b l i Hb.
  destruct data as [|p0 [|p1 [|p2 rest]]]; cbn [b64_loop b64_text].
  - exists b. by rewrite app_nil_r.
  - by apply buf_add_ok.
  - by apply buf_add_ok.
  - edestruct (buf_add_ok b l) as (b1 & -> & Hb1 & Hf1); [done|]. msimpl.
    assert (∃ b2, (if mime_nl && (i `mod` 48 =? 45) then buf_add b1 [10] else Done b1) = Done b2 ∧
      buf_ok b2 ((l ++ [b64_char ((p0 ≪ 16) + (p1 ≪ 8) + p2) 18; b64_char ((p0 ≪ 16) + (p1 ≪ 8) + p2) 12;
                   b64_char ((p0 ≪ 16) + (p1 ≪ 8) + p2) 6; b64_char ((p0 ≪ 16) + (p1 ≪ 8) + p2) 0]) ++
                 (if mime_nl && (i `mod` 48 =? 45) then [10] else [])) ∧ b_fd b2 = b_fd b1)
      as (b2 & -> & Hb2 & Hf2).
    { destruct (mime_nl && _); [by apply buf_add_ok|]. exists b1. by rewrite app_nil_r. }
    msimpl. destruct (IH (length rest) ltac:(simpl; lia) rest eq_refl b2 _ (i + 3) Hb2) as (b3 & E & Hb3 & Hf3).
    exists b3. split; [done|]. split; [|congruence]. by rewrite <- !app_assoc in Hb3.
Qed.

Lemma b64_groups_text mime_nl i data :
  Forall is_byte data → b64_decode (b64_text mime_nl i data) = Some data.
Proof.
  remember (length data) as n eqn:Hn. revert data Hn i.
  induction n as [n IH] using lt_wf_ind. intros data -> i Hb. unfold b64_decode.
  destruct data as [|p0 [|p1 [|p2 rest]]]; cbn [b64_text]; [done|..];
    rewrite !Forall_cons in Hb; unfold is_byte in Hb; rewrite !Z.shiftl_mul_pow2 by lia.
  - set (v := p0 * 2 ^ 16). destruct (b64_char_plain v 18), (b64_char_plain v 12).
    rewrite !filter_cons_True by done. cbn [filter list_filter b64_groups]. simpl Z.eqb. cbv iota.
    rewrite !b64_char_val by lia. unfold v. f_equal. f_equal. destruct Hb as [Hb _].
    Z.to_euclidean_division_equations. lia.
  - set (v := p0 * 2 ^ 16 + p1 * 2 ^ 8).
    destruct (b64_char_plain v 18), (b64_char_plain v 12), (b64_char_plain v 6) as [Hp ?].
    rewrite !filter_cons_True by done. cbn [filter list_filter b64_groups]. simpl Z.eqb. cbv iota.
    destruct (Z.eqb_spec (b64_char v 6) 61); [done|]. rewrite !b64_char_val by lia. unfold v.
    destruct Hb as (Hb0 & Hb1 & _). f_equal. f_equal; [|f_equal];
    Z.to_euclidean_division_equations; lia.
  - set (v := p0 * 2 ^ 16 + p1 * 2 ^ 8 + p2).
    destruct (b64_char_plain v 18), (b64_char_plain v 12), (b64_char_plain v 6),
      (b64_char_plain v 0) as [Hp ?].
    cbn [app]. rewrite !filter_cons_True by done.
    assert (filter (λ c, c ≠ 10) ((if mime_nl && (i `mod` 48 =? 45) then [10] else []) ++
              b64_text mime_nl (i + 3) rest) = filter (λ c, c ≠ 10) (b64_text mime_nl (i + 3) rest)) as ->.
    { by destruct (mime_nl && _). }
    cbn [b64_groups]. destruct (Z.eqb_spec (b64_char v 0) 61); [done|].
    destruct Hb as (Hb0 & Hb1 & Hb2 & Hb).
    pose proof (IH (length rest) ltac:(simpl; lia) rest eq_refl (i + 3) Hb) as E. unfold b64_decode in E.
    rewrite E. cbn [mbind option_bind]. rewrite !b64_char_val by lia. unfold v. f_equal.
    f_equal; [|f_equal; [|f_equal]]; Z.to_euclidean_division_equations; lia.
Qed.

(** ** Theorems *)

(** [buf_add] appends: from any well-formed buffer (contents between
    [offset] and [size], recorded size the real one), growing or not, the
    contents afterwards are the old contents followed by the data, and the buffer is
    well-formed; no access is outside the block. *)
Theorem buf_add_appends b l data :
  buf_ok b l → ∃ b', buf_add b data = Done b' ∧ buf_ok b' (l ++ data) ∧ b_fd b' = b_fd b.
Proof. apply buf_add_ok. Qed.

Lemma buf_add_appends_witness :
  ∃ b', buf_add (buf_init 3) [1; 2; 3] = Done b' ∧ buf_ok b' ([] ++ [1; 2; 3]) ∧
        b_fd b' = b_fd (buf_init 3).
Proof. apply (buf_add_appends (buf_init 3) [] [1; 2; 3]). apply buf_init_ok. Defined.

(** Base64 round trip: [buf_add_b64] appends a text from which an
    independent decoder, which skips newlines, recovers exactly the data; with
    or without MIME line breaks, and for every length. *)
Theorem buf_add_b64_roundtrip b l data mime_nl :
  buf_ok b l → Forall is_byte data →
  ∃ b' text, buf_add_b64 b data mime_nl = Done b' ∧ buf_ok b' (l ++ text) ∧
             b64_decode text = Some data.
Proof.
  intros Hb Hd. destruct (b64_loop_ok b l data mime_nl 0 Hb) as (b' & E & Hb' & _).
  exists b', (b64_text mime_nl 0 data). split; [done|]. split; [done|]. by apply b64_groups_text.
Qed.

Lemma buf_add_b64_roundtrip_witness :
  ∃ b' text, buf_add_b64 (buf_init 3) [0; 255; 16; 131] true = Done b' ∧ buf_ok b' ([] ++ text) ∧
             b64_decode text = Some [0; 255; 16; 131].
Proof.
  apply (buf_add_b64_roundtrip (buf_init 3) [] [0; 255; 16; 131] true); [apply buf_init_ok | solve_bytes].
Defined.
