(* ===== verification/Eperd.v ===== *)
(** * The measurement scheduler (probe-busybox/eperd/eperd.c)

    Crontab lines ([struct CronLine]), their timers ([do_distr],
    [set_timeout]), the table of lines ([Insert], [DeleteFile], [Start],
    [SynchronizeFile], [SynchronizeDir]), the split of a command line into
    arguments ([atlas_init]) and the timer callback ([RunJob]).

    What the code gets from outside is a parameter: the clock and the random
    numbers are sequences indexed by the number of calls so far, the built-in
    tests ([struct testops]) are their [init] and [delete] functions, and a
    crontab is the list of the token lists that [config_read] returns for its
    lines ([None] when it cannot be opened).  Fields that only feed log messages
    ([lasttime], [debug_cycle], [debug_generated]) are left out.  [time_t] and [long] have 64 bits, and
    signed overflow is undefined. *)

From S2P Require Import Prelude.
From stdpp Require Import base list numbers strings.
From Stdlib Require Import ZArith Lia.

Open Scope Z_scope.

Definition INT_MAX : Z := 2 ^ 31 - 1.
Definition MAX_INTERVAL : Z := 2 * 366 * 24 * 3600.
Definition MAXLINES : Z := 256.
Definition ATLAS_NARGS : nat := 64.
Definition ATLAS_ARGSIZE : nat := 512.

Record timeval := TV { tv_sec : Z; tv_usec : Z }.
Inductive distribution := DISTR_NONE | DISTR_UNIFORM.

Section Eperd.
Context {State : Type}.
(** [gettimeofday], [random], the built-in tests. *)
Context (clock : nat → timeval) (random : nat → Z).
Context (test_init : nat → list Z → list (list Z) → option State).
Context (test_delete : nat → list Z → State → Z).
(** Whether [out_filename] is set. *)
Context (out_filename : bool).

(** [event] is the timeout the event was last added with. *)
Record CronLine := CL {
  cl_Shell : list Z;
  interval : Z;
  nextcycle : Z;
  start_time : Z;
  end_time : Z;
  distr : distribution;
  distr_param : Z;
  distr_offset : timeval;
  event : option timeval;
  testops : option (list Z);
  teststate : option State;
  needs_delete : bool;
  nexttime : Z;
  waittime : Z
}.

Definition set_nextcycle (v : Z) (l : CronLine) : CronLine :=
  CL (cl_Shell l) (interval l) v (start_time l) (end_time l) (distr l) (distr_param l)
    (distr_offset l) (event l) (testops l) (teststate l) (needs_delete l) (nexttime l) (waittime l).
Definition set_end_time (v : Z) (l : CronLine) : CronLine :=
  CL (cl_Shell l) (interval l) (nextcycle l) (start_time l) v (distr l) (distr_param l)
    (distr_offset l) (event l) (testops l) (teststate l) (needs_delete l) (nexttime l) (waittime l).
Definition set_distr_offset (v : timeval) (l : CronLine) : CronLine :=
  CL (cl_Shell l) (interval l) (nextcycle l) (start_time l) (end_time l) (distr l) (distr_param l)
    v (event l) (testops l) (teststate l) (needs_delete l) (nexttime l) (waittime l).
Definition set_event (tv : timeval) (next wait : Z) (l : CronLine) : CronLine :=
  CL (cl_Shell l) (interval l) (nextcycle l) (start_time l) (end_time l) (distr l) (distr_param l)
    (distr_offset l) (Some tv) (testops l) (teststate l) (needs_delete l) next wait.
Definition set_test (ops : option (list Z)) (st : option State) (l : CronLine) : CronLine :=
  CL (cl_Shell l) (interval l) (nextcycle l) (start_time l) (end_time l) (distr l) (distr_param l)
    (distr_offset l) (event l) ops st (needs_delete l) (nexttime l) (waittime l).
Definition set_needs_delete (v : bool) (l : CronLine) : CronLine :=
  CL (cl_Shell l) (interval l) (nextcycle l) (start_time l) (end_time l) (distr l) (distr_param l)
    (distr_offset l) (event l) (testops l) (teststate l) v (nexttime l) (waittime l).

(** The globals: the list of lines, [oldLine] (a position in it), the number of
    outside calls made, the tests started and the error reports written. *)
Record globals := G {
  LineBase : list CronLine;
  oldLine : option nat;
  calls : nat;
  started : list State;
  reports : list (string * list Z)
}.
Definition set_LineBase (v : list CronLine) (g : globals) : globals :=
  G v (oldLine g) (calls g) (started g) (reports g).
Definition set_oldLine (v : option nat) (g : globals) : globals :=
  G (LineBase g) v (calls g) (started g) (reports g).
Definition add_started (s : State) (g : globals) : globals :=
  G (LineBase g) (oldLine g) (calls g) (started g ++ [s]) (reports g).
Definition add_report (reason : string) (cmd : list Z) (g : globals) : globals :=
  G (LineBase g) (oldLine g) (calls g) (started g) (reports g ++ [(reason, cmd)]).

Abbreviation E := (M globals).

(** An outside call gets the number of such calls made before it. *)
Definition outside {A} (f : nat → A) : E A := λ g,
  Done (f (calls g), G (LineBase g) (oldLine g) (S (calls g)) (started g) (reports g)).
Definition gettimeofday : E timeval := outside clock.

(** ** Timers *)

(** [do { r= random(); } while (r >= max);] *)
Fixpoint draw (fuel : nat) (max : Z) : E Z :=
  match fuel with
  | O => mcrash OutOfFuel
  | S fuel' => r ← outside random; if max <=? r then draw fuel' max else mret r
  end.

(** [random()] is below 2^31 and [max] is close to 2^63, so one draw is
    enough. *)
Definition do_distr (line : CronLine) : E CronLine :=
  let line := set_distr_offset (TV 0 0) line in
  match distr line with
  | DISTR_NONE => mret line
  | DISTR_UNIFORM =>
      if distr_param line =? INT_MAX then mcrash Undefined
      else
        let modulus := distr_param line + 1 in
        if modulus =? 0 then mcrash Undefined
        else
          let n := Z.quot LONG_MAX modulus in
          let max := n * modulus in
          r ← draw 1 max;
          let r := Z.rem r modulus in
          u ← outside random;
          mret (set_distr_offset (TV (r - Z.quot (distr_param line) 2) (Z.rem u 1000000)) line)
  end.

(** [nextcycle*interval + start_time + distr_offset.tv_sec] *)
Definition next_time (line : CronLine) : outcome Z :=
  a ← chk64 (nextcycle line * interval line);
  a ← chk64 (a + start_time line);
  chk64 (a + tv_sec (distr_offset line)).

(** The [if (init_next_cycle)] block of [set_timeout]. *)
Definition init_cycle (line : CronLine) (now : timeval) : E CronLine :=
  line ← (if tv_sec now <? start_time line then mret (set_nextcycle 0 line)
          else if interval line =? 0 then mcrash Undefined
          else
            d ← lift (chk64 (tv_sec now - start_time line));
            mret (set_nextcycle (Z.quot d (interval line) + 1) line));
  do_distr line.

(** The timeout from [now] to the next start, and [event_add]. *)
Definition arm_timer (line : CronLine) (now : timeval) : E CronLine :=
  next ← lift (next_time line);
  sec ← lift (chk64 (next - tv_sec now));
  let usec := tv_usec (distr_offset line) - tv_usec now in
  let '(sec, usec) := if usec <? 0 then (sec - 1, usec + 1000000) else (sec, usec) in
  let '(sec, usec) := if sec <? 0 then (0, 0) else (sec, usec) in
  mret (set_event (TV sec usec) next sec line).

Definition set_timeout (line : CronLine) (init_next_cycle : bool) : E CronLine :=
  now ← gettimeofday;
  if end_time line <? tv_sec now then mret line
  else
    line ← (if init_next_cycle then init_cycle line now else mret line);
    arm_timer line now.

(** ** The table of lines *)

(** [interval], [start_time] and the command identify a line. *)
Definition same_line (a b : CronLine) : bool :=
  (interval a =? interval b) && (start_time a =? start_time b) &&
  bool_decide (cl_Shell a = cl_Shell b).

(** Position of the first line that matches. *)
Fixpoint find_line (line : CronLine) (ls : list CronLine) : option nat :=
  match ls with
  | [] => None
  | l :: ls' => if same_line l line then Some 0%nat else S <$> find_line line ls'
  end.

(** [Insert]: true when the line is new and was appended. *)
Definition Insert (line : CronLine) : E bool :=
  g ← get;
  let old := match oldLine g with
             | Some i => match LineBase g !! i with
                         | Some l => if same_line l line then Some i else None
                         | None => None
                         end
             | None => None
             end in
  let old := match old with Some i => Some i | None => find_line line (LineBase g) end in
  modify (set_oldLine old);;
  match old with
  | Some i =>
      match LineBase g !! i with
      | None => mcrash Undefined
      | Some l =>
          l ← set_timeout (set_needs_delete false (set_end_time (end_time line) l)) false;
          g ← get;
          modify (set_LineBase (<[i := l]> (LineBase g)));;
          mret false
      end
  | None => modify (set_LineBase (LineBase g ++ [line]));; mret true
  end.

(** The loop of [DeleteFile]: lines that need no delete stay, busy tests stay,
    the others are removed. *)
Fixpoint delete_loop (ls : list CronLine) : E (list CronLine) :=
  match ls with
  | [] => mret []
  | l :: ls' =>
      if negb (needs_delete l) then rest ← delete_loop ls'; mret (l :: rest)
      else
        busy ← match testops l, teststate l with
               | Some ops, Some st => r ← outside (λ n, test_delete n ops st); mret (negb (r =? 1))
               | _, _ => mret false
               end;
        rest ← delete_loop ls';
        mret (if busy : bool then l :: rest else rest)
  end.

Definition DeleteFile : E unit :=
  modify (set_oldLine None);;
  g ← get;
  ls ← delete_loop (LineBase g);
  modify (set_LineBase ls).

(** ** Command lines *)

Definition char_of (args : list Z) (i : nat) : Z := default 0 (args !! i).

(** [while (cp[0] != '\0' && p(cp[0])) cp++;] *)
Fixpoint skip_while (p : Z → bool) (l : list Z) : nat :=
  match l with
  | c :: l' => if negb (c =? 0) && p c then S (skip_while p l') else 0
  | [] => 0
  end.
Definition skip_space (args : list Z) (cp : nat) : nat := cp + skip_while isspace (drop cp args).
Definition skip_nonspace (args : list Z) (cp : nat) : nat :=
  cp + skip_while (λ c, negb (isspace c)) (drop cp args).
Definition find_eos (args : list Z) (cp : nat) : nat :=
  cp + skip_while (λ c, negb (c =? 34)) (drop cp args).

Definition builtin_cmds : list (list Z) :=
  bytes_of_string <$> ["evhttpget"; "evntp"; "evping"; "evsslgetcert"; "evtdig"; "evtraceroute"; "condmv"].

(** The first built-in that [cmdline] starts with, followed by a blank. *)
Definition find_builtin (cmdline : list Z) : option (list Z) :=
  find (λ cmd, bool_decide (take (length cmd) cmdline = cmd) && (char_of cmdline (length cmd) =? 32))
    builtin_cmds.

(** The [for(;;)] that splits [args] in place; [argv] holds offsets into
    [args].  Every round moves [cp] on or ends the string there. *)
Fixpoint split_loop (fuel : nat) (args : list Z) (cp argc : nat) (argv : list nat)
    : outcome (string + list Z * list nat) :=
  match fuel with
  | O => Crash OutOfFuel
  | S fuel' =>
      if char_of args cp =? 0 then
        let argc := S argc in
        if (ATLAS_NARGS <=? argc)%nat then Done (inl "too many arguments"%string)
        else Done (inr (args, argv))
      else
        let ncp := skip_space args cp in
        let args := <[cp := 0]> args in
        let argc := S argc in
        if (ATLAS_NARGS - 1 <=? argc)%nat then Done (inl "too many arguments"%string)
        else
          let cp := ncp in
          if char_of args cp =? 34 then
            let ncp := find_eos args (cp + 1) in
            if negb (char_of args ncp =? 34) then Done (inl "end of string not found"%string)
            else split_loop fuel' (<[ncp := 0]> args) (ncp + 1) argc (argv ++ [cp + 1])%nat
          else split_loop fuel' args (skip_nonspace args cp) argc (argv ++ [cp])
  end.

(** The command line as arguments, or the reason why not. *)
Definition split_cmdline (cmdline : list Z) : outcome (string + list (list Z)) :=
  if (ATLAS_ARGSIZE <? length cmdline + 1)%nat then Done (inl "command line too big"%string)
  else
    let args := cmdline ++ [0] in
    r ← split_loop (S (S (length cmdline))) args (skip_nonspace args 0) 0 [0%nat];
    match r : string + list Z * list nat with
    | inl reason => Done (inl reason)
    | inr (args, argv) => Done (inr ((λ o, cstr (drop o args)) <$> argv))
    end.

Definition report (reason : string) (line : CronLine) : E CronLine :=
  (if out_filename then modify (add_report reason (cl_Shell line)) else mret tt);; mret line.

Definition atlas_init (line : CronLine) : E CronLine :=
  match find_builtin (cl_Shell line) with
  | None => report "command not found" line
  | Some cmd =>
      r ← lift (split_cmdline (cl_Shell line));
      match r with
      | inl reason => report reason line
      | inr argv =>
          st ← outside (λ n, test_init n cmd argv);
          let line := set_test (Some cmd) st line in
          match st with
          | Some _ => mret line
          | None => report "" line
          end
      end
  end.

Definition Start (line : CronLine) : E CronLine :=
  line ← atlas_init (set_test None (teststate line) line);
  match testops line with
  | None => mret line
  | Some _ => set_timeout line true
  end.

(** ** Crontabs *)

(** [strtoul(str, &end, 10)]: the value and the rest of the string. *)
Fixpoint digits (l : list Z) : list Z * list Z :=
  match l with
  | c :: l' => if isdigit c then let '(d, r) := digits l' in (c :: d, r) else ([], l)
  | [] => ([], [])
  end.
Fixpoint skip_blanks (l : list Z) : list Z :=
  match l with c :: l' => if isspace c then skip_blanks l' else l | [] => [] end.
Definition strtoul (str : list Z) : Z * list Z :=
  let s := skip_blanks str in
  let '(neg, s) := match s with
                   | 45 :: s' => (true, s')
                   | 43 :: s' => (false, s')
                   | _ => (false, s)
                   end in
  match digits s with
  | ([], _) => (0, str)
  | (ds, rest) =>
      let v := fold_left (λ a c, 10 * a + (c - 48)) ds 0 in
      (if 2 ^ 64 <=? v then 2 ^ 64 - 1 else if neg : bool then (- v) `mod` 2 ^ 64 else v, rest)
  end.

(** A line of the crontab; [None] when it is skipped. *)
Definition parse_line (tokens : list (list Z)) : option CronLine :=
  match tokens with
  | t0 :: t1 :: t2 :: t3 :: t4 :: t5 :: _ =>
      if bool_decide (take 7 t0 = bytes_of_string "MAILTO=") then None
      else
        let '(iv, check0) := strtoul t0 in
        let '(st, check1) := strtoul t1 in
        let '(et, check2) := strtoul t2 in
        let iv := u32 iv in
        if (iv =? 0) || (MAX_INTERVAL <? iv) || negb (bool_decide (check0 = [])) ||
           negb (bool_decide (check1 = [])) || negb (bool_decide (check2 = [])) then None
        else
          let mk d p := CL t5 iv 0 (s64 st) (s64 et) d p (TV 0 0) None None None false 0 0 in
          if bool_decide (t3 = bytes_of_string "NONE") then Some (mk DISTR_NONE 0)
          else if bool_decide (t3 = bytes_of_string "UNIFORM") then
            let '(p, check0) := strtoul t4 in
            if negb (bool_decide (check0 = [])) then None
            else
              let p := s32 p in
              if (p =? 0) || (Z.quot LONG_MAX p =? 0) then Some (mk DISTR_NONE p)
              else Some (mk DISTR_UNIFORM p)
          else Some (mk DISTR_NONE 0)
  | _ => None
  end.

(** One valid line of the file: [Insert], then [Start] when it is new. *)
Definition sync_line (line : CronLine) : E unit :=
  new ← Insert line;
  if new : bool then
    line ← Start line;
    g ← get;
    modify (set_LineBase (<[(length (LineBase g) - 1)%nat := line]> (LineBase g)))
  else mret tt.

(** The [while (1)] loop; [maxLines] lines at most. *)
Fixpoint sync_lines (maxLines : nat) (lines : list (list (list Z))) : E unit :=
  match maxLines, lines with
  | S n, tokens :: rest =>
      match parse_line tokens with
      | Some line => sync_line line
      | None => mret tt
      end;;
      sync_lines n rest
  | _, _ => mret tt
  end.

(** [SynchronizeFile]; [root] tells whether the file is the one of root.
    [if (!--maxLines) break;] comes before each read. *)
Definition SynchronizeFile (root : bool) (file : option (list (list (list Z)))) : E unit :=
  g ← get;
  modify (set_LineBase (set_needs_delete true <$> LineBase g));;
  match file with
  | None => DeleteFile
  | Some lines =>
      sync_lines (Z.to_nat ((if root then 65535 else MAXLINES) - 1)) lines;;
      DeleteFile
  end.

(** [SynchronizeDir]: the crontab of root is loaded, then [DeleteFile] runs
    once more. *)
Definition SynchronizeDir (file : option (list (list (list Z)))) : E unit :=
  SynchronizeFile true file;; DeleteFile.

(** ** The timer callback *)

(** The next cycle of a job that runs: one on, or the first after [now] when
    that has passed. *)
Definition advance (line : CronLine) (now : timeval) : E CronLine :=
  let line := set_nextcycle (nextcycle line + 1) line in
  a ← lift (chk64 (nextcycle line * interval line));
  a ← lift (chk64 (start_time line + a));
  if a <? tv_sec now then
    if interval line =? 0 then mcrash Undefined
    else
      d ← lift (chk64 (tv_sec now - start_time line));
      mret (set_nextcycle (Z.quot d (interval line) + 1) line)
  else mret line.

(** [RunJob] for line [i]. *)
Definition RunJob (i : nat) : E unit :=
  g ← get;
  match LineBase g !! i with
  | None => mcrash Undefined
  | Some line =>
      if needs_delete line then mret tt
      else
        now ← gettimeofday;
        if (tv_sec now <? nexttime line - 10) || (nexttime line + 10 <? tv_sec now) then
          _ ← report "inconsistent time" line;
          line ← set_timeout line true;
          g ← get;
          modify (set_LineBase (<[i := line]> (LineBase g)))
        else if end_time line <? tv_sec now then mret tt
        else
          match teststate line with
          | None => mret tt
          | Some st =>
              match testops line with
              | None => mcrash Undefined
              | Some _ =>
                  modify (add_started st);;
                  line ← advance line now;
                  line ← do_distr line;
                  line ← set_timeout line false;
                  g ← get;
                  modify (set_LineBase (<[i := line]> (LineBase g)))
              end
          end
  end.

End Eperd.
