(* ===== verification/EperdProofs.v ===== *)
(** * Correctness of the measurement scheduler

    Command lines: what is written as words and quoted strings is split back
    into them.  Timers: the randomisation stays within its range, the timeout is
    the distance to the next cycle, the values on which the code divides by zero.
    The table of lines: no line twice, and synchronisation with a crontab leaves
    exactly its lines and the busy ones. *)

From S2P Require Import Prelude.
From S2P Require Import Eperd.
From stdpp Require Import base list numbers strings.
From Stdlib Require Import ZArith Lia.

Open Scope Z_scope.

(** ** Command lines *)

(** An argument as it is written: a word, or a string in double quotes. *)
Inductive arg := Word (w : list Z) | Quoted (s : list Z).
Definition arg_value (a : arg) : list Z := match a with Word w => w | Quoted s => s end.
Definition render (a : arg) : list Z := match a with Word w => w | Quoted s => [34] ++ s ++ [34] end.
Definition plain (c : Z) : bool := negb (c =? 0) && negb (isspace c).
Definition arg_ok (a : arg) : Prop :=
  match a with
  | Word w => forallb plain w = true ∧ w ≠ [] ∧ w !! 0%nat ≠ Some 34
  | Quoted s => Forall (λ c, c ≠ 0 ∧ c ≠ 34) s
  end.

(** The arguments behind the command, each after one blank. *)
Definition render_args (l : list arg) : list Z := mjoin ((λ a, 32 :: render a) <$> l).

Lemma skip_while_app p l rest :
  forallb (λ c, negb (c =? 0) && p c) l = true →
  (∀ c rest', rest = c :: rest' → negb (c =? 0) && p c = false) →
  skip_while p (l ++ rest) = length l.
Proof.
  intros Hl Hr. induction l as [|c l IH]; simpl in *.
  - destruct rest as [|c rest]; [done|]. simpl. by rewrite (Hr c rest eq_refl).
  - apply andb_true_iff in Hl as [Hc Hl]. rewrite Hc. f_equal. by apply IH.
Qed.

Lemma char_of_app pre c rest : char_of (pre ++ c :: rest) (length pre) = c.
Proof. unfold char_of. by rewrite list_lookup_middle. Qed.

Lemma insert_app_mid (pre rest : list Z) c x : <[length pre := x]> (pre ++ c :: rest) = pre ++ x :: rest.
Proof. rewrite insert_app_r_alt by lia. by rewrite Nat.sub_diag. Qed.

(** What the rest of the command line starts with. *)
Lemma render_args_head l : ∃ c r, render_args l ++ [0] = c :: r ∧ plain c = false ∧ (c = 0 ∨ c = 32).
Proof. destruct l as [|a l]; [by exists 0, []; auto|]. eexists 32, _. simpl. eauto. Qed.

Lemma cstr_app w tl : Forall (λ c, c ≠ 0) w → cstr (w ++ 0 :: tl) = w.
Proof.
  induction 1 as [|c w Hc _ IH]; [done|]. simpl. destruct (Z.eqb_spec c 0); [done|]. by rewrite IH.
Qed.

Lemma plain_nonzero w : forallb plain w = true → Forall (λ c, c ≠ 0) w.
Proof.
  intros Hw. apply Forall_forall. intros c Hc. apply list_elem_of_In in Hc.
  rewrite forallb_forall in Hw. specialize (Hw c Hc). unfold plain in Hw.
  destruct (Z.eqb_spec c 0); [done|done].
Qed.

(** The strings at the offsets [offs] once the byte behind [pre] is a NUL. *)
Definition strings_at (pre : list Z) (offs : list nat) (ws : list (list Z)) : Prop :=
  ∀ tl, (λ o, cstr (drop o (pre ++ 0 :: tl))) <$> offs = ws.

Lemma strings_at_snoc pre offs ws s w o :
  strings_at pre offs ws → o = (length pre + 1 + length s)%nat → Forall (λ c, c ≠ 0) w →
  strings_at (pre ++ 0 :: s ++ w) (offs ++ [o]) (ws ++ [w]).
Proof.
  intros Hs -> Hw tl. rewrite fmap_app. f_equal.
  - rewrite <- app_assoc. cbn [app]. apply Hs.
  - cbn [fmap list_fmap]. f_equal.
    replace ((pre ++ 0 :: s ++ w) ++ 0 :: tl) with ((pre ++ 0 :: s) ++ (w ++ 0 :: tl))
      by (by rewrite <- ?app_assoc; cbn [app]; rewrite <- ?app_assoc).
    rewrite drop_app_length'; [by apply cstr_app|]. rewrite length_app. simpl. lia.
Qed.

(** Behind a closing quote the string already ends. *)
Lemma strings_at_quoted pre offs ws :
  strings_at pre offs ws → strings_at (pre ++ [0]) offs ws.
Proof. intros Hs tl. rewrite <- app_assoc. apply Hs. Qed.

(** The [forallb] of [skip_while] for the three scans. *)
Lemma skip_nonspace_word pre w rest c :
  forallb plain w = true → plain c = false →
  skip_nonspace (pre ++ w ++ c :: rest) (length pre) = length (pre ++ w).
Proof.
  intros Hw Hc. unfold skip_nonspace. rewrite drop_app_length, length_app. f_equal.
  apply skip_while_app; [exact Hw|]. intros x r [= <- _]. exact Hc.
Qed.

Lemma find_eos_string pre s rest :
  Forall (λ c, c ≠ 0 ∧ c ≠ 34) s →
  find_eos (pre ++ s ++ 34 :: rest) (length pre) = length (pre ++ s).
Proof.
  intros Hs. unfold find_eos. rewrite drop_app_length, length_app. f_equal.
  apply skip_while_app; [|by intros x r [= <- _]].
  apply forallb_forall. intros c Hc%list_elem_of_In. rewrite Forall_forall in Hs.
  destruct (Hs c Hc) as [H0 H34]. by rewrite (proj2 (Z.eqb_neq _ _) H0), (proj2 (Z.eqb_neq _ _) H34).
Qed.

Lemma render_head a :
  arg_ok a → ∃ c r, render a = c :: r ∧ isspace c = false ∧
                    (c =? 34) = match a with Word _ => false | Quoted _ => true end.
Proof.
  destruct a as [[|c w]|s]; simpl.
  - by intros (_ & ? & _).
  - intros (Hp & _ & Hq). apply andb_true_iff in Hp as [Hp _]. apply andb_true_iff in Hp as [_ Hp].
    exists c, w. split; [done|]. split; [by apply negb_true_iff|]. apply Z.eqb_neq. by intros ->.
  - intros _. by exists 34, (s ++ [34]).
Qed.

Lemma skip_blank pre a rest :
  arg_ok a → skip_space (pre ++ 32 :: render a ++ rest) (length pre) = length (pre ++ [0]).
Proof.
  intros (c & r & -> & Hc & _)%render_head. unfold skip_space. rewrite drop_app_length, length_app.
  f_equal. simpl. rewrite Hc. by rewrite andb_false_r.
Qed.

(** The loop over the rest of the command line. *)
Lemma split_loop_ok l fuel pre argc offs ws :
  Forall arg_ok l → strings_at pre offs ws → (argc + length l < 63)%nat → (length l < fuel)%nat →
  ∃ args offs', split_loop fuel (pre ++ render_args l ++ [0]) (length pre) argc offs =
      Done (inr (args, offs')) ∧
    (λ o, cstr (drop o args)) <$> offs' = ws ++ (arg_value <$> l).
Proof.
  revert fuel pre argc offs ws.
  induction l as [|a l IH]; intros fuel pre argc offs ws Hok Hs Hargc Hf;
    (destruct fuel as [|fuel]; [simpl in Hf; lia|]).
  - cbn [split_loop render_args fmap list_fmap mjoin list_join app]. rewrite char_of_app. cbn [Z.eqb].
    destruct (Nat.leb_spec ATLAS_NARGS (S argc)); [unfold ATLAS_NARGS in *; simpl in Hargc; lia|].
    eexists _, _. split; [done|]. rewrite app_nil_r. apply (Hs []).
  - simpl in Hf, Hargc. apply Forall_cons in Hok as [Ha Hok].
    change (render_args (a :: l)) with (32 :: render a ++ render_args l). rewrite <- app_comm_cons, <- app_assoc.
    cbn [split_loop]. rewrite char_of_app. change (32 =? 0) with false. cbv iota zeta.
    rewrite skip_blank by done. rewrite insert_app_mid.
    destruct (Nat.leb_spec (ATLAS_NARGS - 1) (S argc)); [unfold ATLAS_NARGS in *; lia|].
    replace (pre ++ 0 :: render a ++ render_args l ++ [0]) with ((pre ++ [0]) ++ render a ++ render_args l ++ [0])
      by (by rewrite <- app_assoc).
    destruct (render_head a Ha) as (c & r & Ec & _ & Hq).
    assert (char_of ((pre ++ [0]) ++ render a ++ render_args l ++ [0]) (length (pre ++ [0])) = c) as ->.
    { rewrite Ec. cbn [app]. apply char_of_app. }
    rewrite Hq. clear c r Ec Hq. destruct a as [w|s]; cbn [render].
    + destruct Ha as (Hp & Hne & _).
      destruct (render_args_head l) as (c & r & Er & Hc & _). rewrite Er.
      rewrite skip_nonspace_word by done. rewrite <- Er.
      rewrite (app_assoc (pre ++ [0]) w).
      destruct (IH fuel ((pre ++ [0]) ++ w) (S argc) (offs ++ [length (pre ++ [0])]) (ws ++ [w])) as
        (args & offs' & E & Hr); [done| |lia|lia|].
      { rewrite <- app_assoc. apply (strings_at_snoc pre offs ws [] w);
          [done|rewrite length_app; simpl; lia|by apply plain_nonzero]. }
      exists args, offs'. split; [done|]. rewrite Hr. by rewrite <- app_assoc.
    + set (rest := render_args l ++ [0]). cbn [arg_ok] in Ha.
      replace ((pre ++ [0]) ++ ([34] ++ s ++ [34]) ++ rest) with ((pre ++ [0; 34]) ++ s ++ 34 :: rest)
        by (rewrite <- ?app_assoc; cbn [app]; by rewrite <- ?app_assoc).
      replace (length (pre ++ [0%Z]) + 1)%nat with (length (pre ++ [0; 34])) by (rewrite !length_app; simpl; lia).
      rewrite find_eos_string by done. rewrite app_assoc, char_of_app. cbn [Z.eqb Pos.eqb negb].
      rewrite insert_app_mid.
      replace (((pre ++ [0; 34]) ++ s) ++ 0 :: rest) with ((((pre ++ [0; 34]) ++ s) ++ [0]) ++ rest)
        by (by rewrite <- app_assoc).
      replace (length ((pre ++ [0%Z; 34%Z]) ++ s) + 1)%nat with (length (((pre ++ [0; 34]) ++ s) ++ [0]))
        by (rewrite !length_app; simpl; lia).
      destruct (IH fuel (((pre ++ [0; 34]) ++ s) ++ [0]) (S argc) (offs ++ [length (pre ++ [0; 34])]) (ws ++ [s]))
        as (args & offs' & E & Hr); [done| |lia|lia|].
      { apply strings_at_quoted. rewrite <- app_assoc.
        apply (strings_at_snoc pre offs ws [34] s); [done|rewrite length_app; simpl; lia|].
        eapply Forall_impl; [exact Ha|]. by intros c []. }
      exists args, offs'. split; [done|]. rewrite Hr. by rewrite <- app_assoc.
Qed.

(** C39: command lines are split into their arguments: a command followed by
    words and quoted strings (which may contain blanks), each behind a blank, gives
    back exactly the command, the words and the contents of the strings, as long as
    there are at most 62 arguments and 511 bytes. *)
Theorem split_cmdline_roundtrip cmd l :
  forallb plain cmd = true → Forall arg_ok l → (length l < 63)%nat →
  (length (cmd ++ render_args l) < ATLAS_ARGSIZE)%nat →
  split_cmdline (cmd ++ render_args l) = Done (inr (cmd :: (arg_value <$> l))).
Proof.
  intros Hc Hl Hn Hlen. unfold split_cmdline.
  destruct (Nat.ltb_spec ATLAS_ARGSIZE (length (cmd ++ render_args l) + 1)); [lia|].
  rewrite <- app_assoc. destruct (render_args_head l) as (c & r & Er & Hpc & _).
  pose proof (skip_nonspace_word [] cmd r c Hc Hpc) as Hsk. cbn [app length] in Hsk.
  rewrite <- Er in Hsk. rewrite Hsk.
  assert (length l ≤ length (render_args l))%nat as Hle.
  { clear. induction l as [|a l IH]; [done|]. change (render_args (a :: l)) with (32 :: render a ++ render_args l).
    simpl. rewrite length_app. lia. }
  destruct (split_loop_ok l (S (S (length (cmd ++ render_args l)))) cmd 0 [0%nat] [cmd]) as (args & offs & E & Hr);
    [done| |lia|rewrite length_app; lia|].
  { intros tl. cbn [fmap list_fmap]. rewrite drop_0. by rewrite cstr_app by (by apply plain_nonzero). }
  rewrite E. msimpl. by rewrite Hr.
Qed.

Lemma split_cmdline_roundtrip_witness :
  split_cmdline (bytes_of_string "evping" ++
    render_args [Word (bytes_of_string "-4"); Quoted (bytes_of_string "a b"); Word (bytes_of_string "x.nl")]) =
  Done (inr [bytes_of_string "evping"; bytes_of_string "-4"; bytes_of_string "a b"; bytes_of_string "x.nl"]).
Proof.
  apply (split_cmdline_roundtrip (bytes_of_string "evping")
    [Word (bytes_of_string "-4"); Quoted (bytes_of_string "a b"); Word (bytes_of_string "x.nl")]).
  - reflexivity.
  - apply Forall_cons_2; [split; [reflexivity | split; discriminate] |].
    apply Forall_cons_2; [|apply Forall_cons_2; [split; [reflexivity | split; discriminate] | apply Forall_nil_2]].
    repeat first [apply Forall_nil_2 | apply Forall_cons_2; [split; discriminate|]].
  - apply Nat.ltb_lt; reflexivity.
  - apply Nat.ltb_lt; reflexivity.
Defined.

(** Splitting always comes to an end: every round moves [cp] on, or it has just
    written the end of the string at [cp]. *)
Lemma skip_while_head p l c : head l = Some c → c ≠ 0 → p c = true → (1 ≤ skip_while p l)%nat.
Proof.
  destruct l as [|x l]; [done|]. intros [= ->] Hc Hp. cbn [skip_while].
  destruct (Z.eqb_spec c 0); [done|]. rewrite Hp. simpl. lia.
Qed.

Lemma skip_while_stop p l c : head l = Some c → c = 0 ∨ p c = false → skip_while p l = 0%nat.
Proof.
  destruct l as [|x l]; [done|]. intros [= ->] [-> |Hp]; cbn [skip_while]; [done|].
  rewrite Hp. by rewrite andb_false_r.
Qed.

Lemma char_of_head args cp : char_of args cp ≠ 0 → head (drop cp args) = Some (char_of args cp).
Proof.
  unfold char_of. intros H. destruct (args !! cp) as [c|] eqn:E; [|done].
  by rewrite (drop_S _ _ _ E).
Qed.

Lemma split_loop_total fuel args cp argc argv :
  (length args - cp + 1 ≤ fuel)%nat ∨ char_of args cp = 0 ∧ (1 ≤ fuel)%nat →
  ∃ r, split_loop fuel args cp argc argv = Done r.
Proof.
  revert args cp argc argv. induction fuel as [|fuel IH]; intros args cp argc argv Hf; [lia|].
  cbn [split_loop]. destruct (Z.eqb_spec (char_of args cp) 0) as [|Hc].
  { destruct (_ <=? _)%nat; eauto. }
  destruct Hf as [Hf|[]]; [|done]. destruct (_ <=? _)%nat; [eauto|]. cbv zeta.
  assert (cp < length args)%nat as Hlt.
  { unfold char_of in Hc. destruct (args !! cp) eqn:E; [by eapply lookup_lt_Some|done]. }
  pose proof (char_of_head _ _ Hc) as Hh. destruct (isspace (char_of args cp)) eqn:Hsp.
  - assert (cp + 1 ≤ Eperd.skip_space args cp)%nat as Hsk.
    { unfold Eperd.skip_space. pose proof (skip_while_head isspace _ _ Hh Hc Hsp). lia. }
    destruct (_ =? 34).
    + destruct (negb _); [eauto|]. apply IH. left. rewrite !length_insert. unfold find_eos. lia.
    + apply IH. left. rewrite length_insert. unfold skip_nonspace. lia.
  - assert (Eperd.skip_space args cp = cp) as ->.
    { unfold Eperd.skip_space. rewrite (skip_while_stop isspace _ _ Hh) by auto. lia. }
    assert (char_of (<[cp:=0]> args) cp = 0) as Hz.
    { unfold char_of. by rewrite list_lookup_insert_eq. }
    rewrite Hz. cbn [Z.eqb]. apply IH. right. split; [|lia].
    unfold skip_nonspace. rewrite (skip_while_stop _ _ 0); [by rewrite Nat.add_0_r| |by left].
    rewrite (drop_S _ 0 cp); [done|]. by rewrite list_lookup_insert_eq.
Qed.

Lemma split_cmdline_total cmdline : ∃ r, split_cmdline cmdline = Done r.
Proof.
  unfold split_cmdline. destruct (_ <? _)%nat; [eauto|]. cbv zeta.
  edestruct (split_loop_total (S (S (length cmdline))) (cmdline ++ [0])) as [[reason|[args argv]] ->].
  - left. rewrite length_app. simpl. lia.
  - msimpl. eauto.
  - msimpl. eauto.
Qed.

(** ** Timers *)

Section Eperd.
Context {State : Type}.
Context (clock : nat → timeval) (random : nat → Z).
Context (test_init : nat → list Z → list (list Z) → option State).
Context (test_delete : nat → list Z → State → Z).
Context (out_filename : bool).
Implicit Types (line l : CronLine (State := State)) (g : globals (State := State)).

(** What POSIX says of [random] and [gettimeofday]. *)
Context (Hrandom : ∀ n, 0 ≤ random n < 2 ^ 31).
Context (Hclock : ∀ n, 0 ≤ tv_sec (clock n) < 2 ^ 40 ∧ 0 ≤ tv_usec (clock n) < 1000000).

(** [max] of [do_distr] is out of reach of [random]. *)
Lemma max_large modulus : 1 ≤ modulus ≤ 2 ^ 31 → 2 ^ 31 ≤ Z.quot LONG_MAX modulus * modulus.
Proof.
  intros Hm. rewrite Z.quot_div_nonneg by (unfold LONG_MAX; lia).
  pose proof (Z.mod_pos_bound LONG_MAX modulus ltac:(lia)).
  pose proof (Z.div_mod LONG_MAX modulus ltac:(lia)). unfold LONG_MAX in *. nia.
Qed.

Lemma do_distr_ok line g :
  distr line = DISTR_UNIFORM → 0 < distr_param line < INT_MAX →
  ∃ off g', do_distr random line g = Done (set_distr_offset off line, g') ∧
    - (distr_param line / 2) ≤ tv_sec off ≤ distr_param line - distr_param line / 2 ∧
    0 ≤ tv_usec off < 1000000 ∧ LineBase g' = LineBase g ∧ calls g' = (calls g + 2)%nat.
Proof.
  intros Hd Hp. unfold do_distr. cbn [distr set_distr_offset distr_param]. rewrite Hd.
  destruct (Z.eqb_spec (distr_param line) INT_MAX); [lia|].
  destruct (Z.eqb_spec (distr_param line + 1) 0); [lia|]. cbv zeta.
  pose proof (max_large (distr_param line + 1) ltac:(unfold INT_MAX in *; lia)) as Hmax.
  cbn [draw]. pose proof (Hrandom (calls g)) as Hr.
  unfold mbind, M_bind, outside.
  destruct (Z.leb_spec (Z.quot LONG_MAX (distr_param line + 1) * (distr_param line + 1)) (random (calls g)));
    [lia|].
  unfold mret, M_ret. cbn [calls]. eexists _, _. split; [reflexivity|].
  cbn [tv_sec tv_usec LineBase calls].
  rewrite !Z.rem_mod_nonneg, Z.quot_div_nonneg by (try apply Hrandom; lia).
  pose proof (Z.mod_pos_bound (random (calls g)) (distr_param line + 1) ltac:(lia)).
  pose proof (Z.mod_pos_bound (random (S (calls g))) 1000000 ltac:(lia)).
  split; [lia|]. split; [done|]. split; [done|lia].
Qed.

(** Lines within the range of the protocol: intervals up to two years, times
    and cycles far from the limits of [time_t]. *)
Record line_ok line : Prop := {
  lo_interval : 1 ≤ interval line ≤ MAX_INTERVAL;
  lo_start : 0 ≤ start_time line < 2 ^ 40;
  lo_cycle : 0 ≤ nextcycle line;
  lo_next : nextcycle line * interval line < 2 ^ 41;
  lo_param : distr line = DISTR_UNIFORM → 0 < distr_param line < INT_MAX;
  lo_offset : - 2 ^ 31 ≤ tv_sec (distr_offset line) ≤ 2 ^ 31;
  lo_usec : 0 ≤ tv_usec (distr_offset line) < 1000000
}.

(** When line starts next, in microseconds. *)
Definition target_us line : Z :=
  (nextcycle line * interval line + start_time line + tv_sec (distr_offset line)) * 1000000
  + tv_usec (distr_offset line).
Definition tv_us (tv : timeval) : Z := tv_sec tv * 1000000 + tv_usec tv.

Lemma chk64_ok z : - 2 ^ 63 ≤ z < 2 ^ 63 → chk64 z = Done z.
Proof.
  intros Hz. unfold chk64, LONG_MAX.
  replace (- 2 ^ 63 <=? z) with true by lia. replace (z <=? 2 ^ 63 - 1) with true by lia. done.
Qed.

(** The second half of [set_timeout]. *)
Lemma arm_ok line (now : timeval) g :
  line_ok line → 0 ≤ tv_sec now < 2 ^ 40 → 0 ≤ tv_usec now < 1000000 →
  ∃ tv, arm_timer line now g =
        Done (set_event tv (nextcycle line * interval line + start_time line + tv_sec (distr_offset line))
                (tv_sec tv) line, g) ∧
        0 ≤ tv_usec tv < 1000000 ∧ tv_us tv = Z.max 0 (target_us line - tv_us now).
Proof.
  intros [Hi Hs Hc Hn _ Ho Hu] Hsec Husec. unfold arm_timer, next_time.
  assert (0 ≤ nextcycle line * interval line) by (unfold MAX_INTERVAL in *; nia).
  rewrite (chk64_ok (nextcycle line * interval line)) by lia. msimpl.
  rewrite (chk64_ok (nextcycle line * interval line + start_time line)) by lia. msimpl.
  rewrite chk64_ok by lia. msimpl. rewrite chk64_ok by lia. msimpl. cbv zeta.
  unfold target_us, tv_us.
  set (next := nextcycle line * interval line + start_time line + tv_sec (distr_offset line)) in *.
  destruct (Z.ltb_spec (tv_usec (distr_offset line) - tv_usec now) 0); cbv iota.
  - destruct (Z.ltb_spec (next - tv_sec now - 1) 0); msimpl;
      match goal with |- context [set_event (TV ?a ?b) _ _ _] => exists (TV a b) end;
      (split; [reflexivity|]); cbn [tv_sec tv_usec]; lia.
  - destruct (Z.ltb_spec (next - tv_sec now) 0); msimpl;
      match goal with |- context [set_event (TV ?a ?b) _ _ _] => exists (TV a b) end;
      (split; [reflexivity|]); cbn [tv_sec tv_usec]; lia.
Qed.

(** The outside calls [do_distr] makes. *)
Definition draws line : nat := match distr line with DISTR_NONE => 0 | DISTR_UNIFORM => 2 end.

(** [do_distr] draws an offset, also when there is nothing to distribute. *)
Lemma do_distr_any line g :
  line_ok line →
  ∃ off g', do_distr random line g = Done (set_distr_offset off line, g') ∧
    line_ok (set_distr_offset off line) ∧ LineBase g' = LineBase g ∧
    (distr line = DISTR_UNIFORM →
       - (distr_param line / 2) ≤ tv_sec off ≤ distr_param line - distr_param line / 2) ∧
    calls g' = (calls g + draws line)%nat.
Proof.
  intros [Hi Hs Hc Hn Hp Ho Hu]. unfold draws. destruct (distr line) eqn:Hd.
  - unfold do_distr. cbn [distr set_distr_offset]. rewrite Hd.
    exists (TV 0 0), g. split; [done|]. split; [|split_and!; [done..|lia]].
    split; cbn; try lia. congruence.
  - destruct (do_distr_ok line g Hd (Hp eq_refl)) as (off & g' & E & Hoff & Hus & Hl & Hca).
    exists off, g'. split; [done|]. split; [|done]. specialize (Hp eq_refl).
    assert (0 ≤ distr_param line / 2 ≤ distr_param line) by (Z.to_euclidean_division_equations; lia).
    split; cbn [interval start_time nextcycle distr distr_param distr_offset set_distr_offset];
      unfold INT_MAX in *; intros; lia.
Qed.

(** [set_nextcycle] of [set_timeout]: the cycle that comes after [now]. *)
Definition first_cycle_after (now : Z) line : Prop :=
  if now <? start_time line then nextcycle line = 0
  else (nextcycle line - 1) * interval line ≤ now - start_time line < nextcycle line * interval line.

(** What [init_cycle] does to a line: the next cycle and a new offset. *)
Lemma init_cycle_ok line (now : timeval) g :
  line_ok line → 0 ≤ tv_sec now < 2 ^ 40 →
  ∃ nc off g', init_cycle random line now g = Done (set_distr_offset off (set_nextcycle nc line), g') ∧
    line_ok (set_distr_offset off (set_nextcycle nc line)) ∧
    first_cycle_after (tv_sec now) (set_nextcycle nc line) ∧ LineBase g' = LineBase g ∧
    (distr line = DISTR_UNIFORM →
       - (distr_param line / 2) ≤ tv_sec off ≤ distr_param line - distr_param line / 2).
Proof.
  intros [Hi Hs Hc Hn Hp Ho Hu] Hsec. unfold init_cycle.
  assert (∃ nc, (if tv_sec now <? start_time line then mret (set_nextcycle 0 line)
                 else if interval line =? 0 then mcrash Undefined
                 else d ← lift (chk64 (tv_sec now - start_time line));
                      mret (set_nextcycle (Z.quot d (interval line) + 1) line)) g =
                Done (set_nextcycle nc line, g) ∧ 0 ≤ nc ∧ nc * interval line < 2 ^ 41 ∧
                first_cycle_after (tv_sec now) (set_nextcycle nc line)) as (nc & E & Hnc & Hnc' & Hfc).
  { unfold first_cycle_after. cbn [start_time set_nextcycle nextcycle interval].
    destruct (Z.ltb_spec (tv_sec now) (start_time line)); [exists 0; split; [done|lia]|].
    destruct (Z.eqb_spec (interval line) 0); [lia|]. rewrite chk64_ok by lia. msimpl.
    rewrite Z.quot_div_nonneg by lia.
    pose proof (Z.div_mod (tv_sec now - start_time line) (interval line) ltac:(lia)).
    pose proof (Z.mod_pos_bound (tv_sec now - start_time line) (interval line) ltac:(lia)).
    pose proof (Z.div_pos (tv_sec now - start_time line) (interval line) ltac:(lia) ltac:(lia)).
    eexists. split; [reflexivity|]. unfold MAX_INTERVAL in *. split; [lia|]. split; nia. }
  mrun E. destruct (do_distr_any (set_nextcycle nc line) g) as (off & g' & E' & Hok & Hl & Hoff & _).
  { by split. }
  exists nc, off, g'. done.
Qed.

Lemma set_timeout_ok line init g :
  line_ok line → tv_sec (clock (calls g)) ≤ end_time line →
  ∃ line' tv g', set_timeout clock random line init g = Done (line', g') ∧
    event line' = Some tv ∧ 0 ≤ tv_usec tv < 1000000 ∧
    tv_us tv = Z.max 0 (target_us line' - tv_us (clock (calls g))) ∧
    (if init then first_cycle_after (tv_sec (clock (calls g))) line' ∧
       (distr line = DISTR_UNIFORM →
          - (distr_param line / 2) ≤ tv_sec (distr_offset line') ≤ distr_param line - distr_param line / 2)
     else target_us line' = target_us line) ∧
    interval line' = interval line ∧ start_time line' = start_time line ∧ LineBase g' = LineBase g.
Proof.
  intros Hok Hexp. destruct (Hclock (calls g)) as [Hsec Husec].
  set (now := clock (calls g)) in *.
  set (g1 := G (LineBase g) (oldLine g) (S (calls g)) (started g) (reports g)).
  unfold set_timeout, gettimeofday.
  rewrite (M_bind_done (outside clock) _ g now g1) by done.
  destruct (Z.ltb_spec (end_time line) (tv_sec now)); [lia|]. destruct init.
  - destruct (init_cycle_ok line now g1 Hok Hsec) as (nc & off & g2 & E & Hok1 & Hfc & Hg & Hoff).
    mrun E. edestruct arm_ok as (tv & -> & Hu & Htv); [exact Hok1|done|done|].
    eexists _, tv, g2. split; [reflexivity|]. split; [done|]. split; [done|]. split; [exact Htv|]. done.
  - msimpl. destruct (arm_ok line now g1 Hok Hsec Husec) as (tv & -> & Hu & Htv).
    eexists _, tv, g1. split; [reflexivity|]. split; [done|]. split; [done|]. split; [exact Htv|]. done.
Qed.

(** ** The table of lines *)

(** [quiet Q m]: [m] leaves the table and the tests alone and its result
    satisfies [Q]. *)
Definition quiet {A} (Q : A → Prop) (m : M (globals (State := State)) A) : Prop :=
  ∀ g a g', m g = Done (a, g') →
    LineBase g' = LineBase g ∧ (oldLine g', started g') = (oldLine g, started g) ∧ Q a.

Lemma quiet_bind {A B} (Q : A → Prop) (R : B → Prop) m (f : A → M globals B) :
  quiet Q m → (∀ a, Q a → quiet R (f a)) → quiet R (m ≫= f).
Proof.
  intros Hm Hf g b g' E. apply M_bind_inv in E as (a & g1 & E1 & E2).
  destruct (Hm _ _ _ E1) as (L1 & O1 & HQ). destruct (Hf a HQ _ _ _ E2) as (L2 & O2 & HR).
  split; [congruence|]. split; [congruence|done].
Qed.
Lemma quiet_ret {A} (Q : A → Prop) a : Q a → quiet Q (mret a).
Proof. intros HQ g b g' [= <- <-]. done. Qed.
Lemma quiet_crash {A} (Q : A → Prop) c : quiet Q (mcrash c).
Proof. by intros g b g'. Qed.
Lemma quiet_lift {A} (m : outcome A) : quiet (λ _, True) (lift m).
Proof. intros g b g' [_ ->]%lift_inv. done. Qed.
Lemma quiet_outside {A} (f : nat → A) : quiet (λ _, True) (outside (State := State) f).
Proof. by intros g b g' [= <- <-]. Qed.

Lemma quiet_conseq {A} (Q R : A → Prop) m : quiet Q m → (∀ a, Q a → R a) → quiet R m.
Proof. intros Hm HR g a g' E. destruct (Hm g a g' E) as (? & ? & ?). auto. Qed.

(** The identity of a line and its deletion mark. *)
Definition key line : Z * Z * list Z := (interval line, start_time line, cl_Shell line).
(** The distribution of its starts. *)
Definition spread line : distribution * Z := (distr line, distr_param line).
Definition same_id line line' : Prop :=
  key line' = key line ∧ needs_delete line' = needs_delete line ∧ end_time line' = end_time line ∧ spread line' = spread line.

#[local] Instance same_id_preorder : PreOrder same_id.
Proof. split; [done|]. intros a b c (?&?&?&?) (?&?&?&?). split_and!; congruence. Qed.

Ltac quiet_go :=
  repeat first
    [ progress intros
    | match goal with
      | |- quiet _ (mbind _ (outside _)) => eapply quiet_bind; [apply quiet_outside|]
      | |- quiet _ (mbind _ (lift _)) => eapply quiet_bind; [apply quiet_lift|]
      | |- quiet _ (mret _) => apply quiet_ret; try done
      | |- quiet _ (mcrash _) => apply quiet_crash
      | |- quiet _ (match ?x with _ => _ end) => destruct x
      end
    | progress cbv zeta ].

Lemma draw_quiet fuel max : quiet (λ _, True) (draw (State := State) random fuel max).
Proof. induction fuel as [|fuel IH]; cbn [draw]; quiet_go. exact IH. Qed.

Lemma do_distr_quiet line : quiet (same_id line) (do_distr random line).
Proof.
  unfold do_distr. quiet_go. eapply quiet_bind; [apply draw_quiet|]. quiet_go.
Qed.

Lemma set_timeout_quiet line init : quiet (same_id line) (set_timeout clock random line init).
Proof.
  unfold set_timeout, gettimeofday, arm_timer. quiet_go. apply (quiet_bind (same_id line)).
  - destruct init; [|by apply quiet_ret]. unfold init_cycle. apply (quiet_bind (same_id line)).
    + quiet_go.
    + intros l Hl. eapply quiet_conseq; [apply do_distr_quiet|]. intros l' Hl'. by transitivity l.
  - intros l Hl. quiet_go.
Qed.

Lemma advance_quiet line now : quiet (same_id line) (advance line now).
Proof. unfold advance. quiet_go. Qed.

Lemma report_quiet reason line : quiet (same_id line) (report out_filename reason line).
Proof. unfold report. destruct out_filename; intros g a g' [= <- <-]; done. Qed.

Lemma atlas_init_quiet line : quiet (same_id line) (atlas_init test_init out_filename line).
Proof.
  unfold atlas_init. destruct (find_builtin (cl_Shell line)) as [cmd|]; [|apply report_quiet].
  eapply quiet_bind; [apply quiet_lift|]. intros [reason|argv] _; [apply report_quiet|].
  eapply quiet_bind; [apply quiet_outside|]. intros [st|] _; [by apply quiet_ret|].
  eapply quiet_conseq; [apply report_quiet|]. by intros l [].
Qed.

Lemma Start_quiet line : quiet (same_id line) (Start clock random test_init out_filename line).
Proof.
  unfold Start. eapply quiet_bind; [apply atlas_init_quiet|]. intros l Hl.
  assert (same_id line l) by exact Hl. destruct (testops l); [|by apply quiet_ret].
  eapply quiet_conseq; [apply set_timeout_quiet|]. intros l' Hl'. by transitivity l.
Qed.

Lemma same_line_key l line : same_line l line = true ↔ key l = key line.
Proof.
  unfold same_line, key. rewrite !andb_true_iff, !Z.eqb_eq, bool_decide_eq_true. split.
  - intros [[-> ->] ->]. done.
  - intros [= -> -> ->]. done.
Qed.

Lemma find_line_spec line ls :
  match find_line line ls with
  | Some i => ∃ l, ls !! i = Some l ∧ key l = key line
  | None => key line ∉ key <$> ls
  end.
Proof.
  induction ls as [|l ls IH]; simpl; [by apply not_elem_of_nil|].
  destruct (same_line l line) eqn:E.
  - apply same_line_key in E. by exists l.
  - destruct (find_line line ls) as [i|]; [exact IH|]. simpl.
    apply not_elem_of_cons. split; [|exact IH]. intros Hk.
    apply not_true_iff_false in E. apply E, same_line_key. done.
Qed.

(** The keys of the lines that are not marked for deletion. *)
Definition active_keys (ls : list CronLine) : list (Z * Z * list Z) :=
  key <$> filter (λ l, needs_delete l = false) ls.

Lemma elem_of_active k ls :
  k ∈ active_keys ls ↔ ∃ l, l ∈ ls ∧ key l = k ∧ needs_delete l = false.
Proof.
  unfold active_keys. rewrite list_elem_of_fmap. split.
  - intros (l & -> & Hl). apply list_elem_of_filter in Hl as [Hn Hl]. eauto.
  - intros (l & Hl & <- & Hn). exists l. split; [done|]. by apply list_elem_of_filter.
Qed.

(** Replacing a line by one with the same key. *)
Lemma keys_insert (ls : list CronLine) i l l' : ls !! i = Some l → key l' = key l → key <$> <[i := l']> ls = key <$> ls.
Proof.
  intros Hi Hk. rewrite list_fmap_insert, Hk. apply list_insert_id.
  rewrite list_lookup_fmap, Hi. done.
Qed.

Lemma active_insert (ls : list CronLine) i l l' k :
  NoDup (key <$> ls) → ls !! i = Some l → key l' = key l → needs_delete l' = false →
  k ∈ active_keys (<[i := l']> ls) ↔ k ∈ active_keys ls ∨ k = key l.
Proof.
  intros Hnd Hi Hk Hn. rewrite !elem_of_active. split.
  - intros (x & Hx & <- & Hxn). apply list_elem_of_lookup in Hx as [j Hj].
    destruct (decide (i = j)) as [<-|Hne].
    + rewrite list_lookup_insert_eq in Hj by (by eapply lookup_lt_Some). injection Hj as <-. by right.
    + rewrite list_lookup_insert_ne in Hj by done. left. exists x. split; [|done].
      by eapply list_elem_of_lookup_2.
  - intros [(x & Hx & <- & Hxn)| ->].
    + apply list_elem_of_lookup in Hx as [j Hj]. destruct (decide (i = j)) as [<-|Hne].
      * rewrite Hi in Hj. injection Hj as ->. exists l'. split; [|done].
        eapply list_elem_of_lookup_2, list_lookup_insert_eq. by eapply lookup_lt_Some.
      * exists x. split; [|done]. eapply list_elem_of_lookup_2. by rewrite list_lookup_insert_ne.
    + exists l'. split; [|done]. eapply list_elem_of_lookup_2, list_lookup_insert_eq. by eapply lookup_lt_Some.
Qed.

(** Adding a line at the end. *)
Lemma active_snoc (ls : list CronLine) line k :
  needs_delete line = false → k ∈ active_keys (ls ++ [line]) ↔ k ∈ active_keys ls ∨ k = key line.
Proof.
  intros Hn. unfold active_keys. rewrite filter_app, fmap_app, elem_of_app.
  rewrite filter_cons_True by done. cbn [filter list_filter fmap list_fmap].
  by rewrite list_elem_of_singleton.
Qed.

(** *** What the table says of a key *)

Definition with_key (k : Z * Z * list Z) (ls : list CronLine) : list CronLine := filter (λ l, key l = k) ls.
Definition entry line : bool * Z * (distribution * Z) := (needs_delete line, end_time line, spread line).
Definition tab (ls : list CronLine) (k : Z * Z * list Z) : option (bool * Z * (distribution * Z)) := entry <$> head (with_key k ls).

(** The line [line] of the file sets the end time and clears the mark; the distribution is that of the table if there is one. *)
Definition renewed line (o : option (bool * Z * (distribution * Z))) : option (bool * Z * (distribution * Z)) :=
  Some (false, end_time line, match o with Some x => x.2 | None => spread line end).

Lemma with_key_none k ls : k ∉ key <$> ls → with_key k ls = [].
Proof.
  intros Hk. unfold with_key. induction ls as [|l ls IH]; [done|]. cbn [fmap list_fmap] in Hk. apply not_elem_of_cons in Hk as [H1 H2].
  rewrite filter_cons_False by congruence. auto.
Qed.
Lemma head_with_key ls i l : NoDup (key <$> ls) → ls !! i = Some l → head (with_key (key l) ls) = Some l.
Proof.
  unfold with_key. revert i. induction ls as [|x ls IH]; intros i Hnd Hi; [done|]. apply NoDup_cons in Hnd as [Hx Hnd].
  destruct i as [|i]; cbn in Hi; [injection Hi as ->; by rewrite filter_cons_True|]. rewrite filter_cons_False; [by eapply IH|].
  intros E. apply Hx. rewrite E. apply list_elem_of_fmap_2. by eapply list_elem_of_lookup_2.
Qed.
Lemma with_key_insert k ls i l l' : ls !! i = Some l → key l ≠ k → key l' ≠ k → with_key k (<[i := l']> ls) = with_key k ls.
Proof.
  unfold with_key. revert i. induction ls as [|x ls IH]; intros [|i] Hi H1 H2; cbn in Hi; try done; cbn [insert list_insert].
  - injection Hi as ->. by rewrite !filter_cons_False.
  - rewrite !filter_cons. specialize (IH i Hi H1 H2). destruct (decide _); [f_equal|]; exact IH.
Qed.

Lemma tab_insert ls i l l' k :
  NoDup (key <$> ls) → ls !! i = Some l → key l' = key l →
  tab (<[i := l']> ls) k = if decide (k = key l) then Some (entry l') else tab ls k.
Proof.
  intros Hnd Hi Hk. unfold tab. destruct (decide _) as [->|Hne]; [|by rewrite (with_key_insert _ _ _ l) by congruence].
  rewrite <- Hk, (head_with_key _ i l'); [done|by rewrite (keys_insert _ i l)|]. apply list_lookup_insert_eq. by eapply lookup_lt_Some.
Qed.
Lemma tab_snoc ls l k : key l ∉ key <$> ls → tab (ls ++ [l]) k = if decide (k = key l) then Some (entry l) else tab ls k.
Proof.
  intros Hk. unfold tab, with_key. rewrite filter_app. fold (with_key k ls). destruct (decide _) as [->|Hne].
  - rewrite with_key_none by done. by rewrite filter_cons_True.
  - rewrite filter_cons_False by congruence. by rewrite app_nil_r.
Qed.
Lemma tab_none ls k : k ∉ key <$> ls → tab ls k = None.
Proof. intros Hk. unfold tab. by rewrite with_key_none. Qed.

(** The line [Insert] settles on has the key of the new one. *)
Lemma Insert_old line g i l :
  match oldLine g with
  | Some i => match LineBase g !! i with
              | Some l => if same_line l line then Some i else None
              | None => None
              end
  | None => None
  end = Some i → LineBase g !! i = Some l → key l = key line.
Proof.
  intros E Hl. destruct (oldLine g) as [j|]; [|done]. destruct (LineBase g !! j) as [x|] eqn:Ej; [|done].
  destruct (same_line x line) eqn:Es; [|done]. injection E as ->. rewrite Ej in Hl. injection Hl as ->.
  by apply same_line_key.
Qed.

Lemma Insert_ok line g new g' :
  NoDup (key <$> LineBase g) → needs_delete line = false →
  Eperd.Insert clock random line g = Done (new, g') →
  NoDup (key <$> LineBase g') ∧
  (∀ k, k ∈ active_keys (LineBase g') ↔ k ∈ active_keys (LineBase g) ∨ k = key line) ∧
  if new : bool then LineBase g' = LineBase g ++ [line] ∧ key line ∉ key <$> LineBase g
  else (key <$> LineBase g' = key <$> LineBase g ∧ key line ∈ key <$> LineBase g) ∧
       ∀ k, tab (LineBase g') k = if decide (k = key line) then renewed line (tab (LineBase g) k) else tab (LineBase g) k.
Proof.
  intros Hnd Hn E. unfold Eperd.Insert in E. msimpl_in E. cbv zeta in E.
  set (old := match oldLine g with Some _ => _ | None => None end) in E.
  set (old' := match old with Some i => Some i | None => find_line line (LineBase g) end) in E.
  assert (match old' with
          | Some i => ∀ l, LineBase g !! i = Some l → key l = key line
          | None => key line ∉ key <$> LineBase g end) as Hold.
  { unfold old'. destruct old as [i|] eqn:Eo.
    - intros l. by apply Insert_old.
    - pose proof (find_line_spec line (LineBase g)) as Hf. destruct (find_line line (LineBase g)); [|done].
      destruct Hf as (l & Hl & Hk). intros l' Hl'. congruence. }
  destruct old' as [i|].
  - destruct (LineBase g !! i) as [l|] eqn:Hi; [|done]. specialize (Hold l eq_refl).
    minv E. destruct (set_timeout_quiet _ _ _ _ _ E0) as (HL & _ & Hk & Hnd' & He' & Hs').
    msimpl_in E. injection E as <- <-. cbn [LineBase set_LineBase]. rewrite HL. cbn [LineBase set_oldLine].
    assert (key a = key l) as Hka by (by rewrite Hk). rewrite (keys_insert _ i l) by done.
    split; [done|]. split; [|split; [split; [done|]|]].
    + intros k. rewrite (active_insert _ i l) by done. by rewrite Hold.
    + rewrite <- Hold. apply list_elem_of_fmap_2. by eapply list_elem_of_lookup_2.
    + intros k. rewrite (tab_insert _ i l) by done. rewrite <- Hold. destruct (decide _) as [->|]; [|done].
      unfold tab. rewrite (head_with_key _ i l) by done. cbn [fmap option_fmap option_map]. unfold renewed, entry. cbn [snd].
      rewrite Hnd', He', Hs'. done.
  - msimpl_in E. injection E as <- <-. cbn [LineBase set_LineBase set_oldLine]. rewrite fmap_app.
    split; [|split; [intros k; by apply active_snoc|done]].
    apply NoDup_app. split; [done|]. split; [|apply NoDup_singleton].
    intros k Hk. cbn [fmap list_fmap]. rewrite list_elem_of_singleton. by intros ->.
Qed.

Lemma sync_line_ok line g u g' :
  NoDup (key <$> LineBase g) → needs_delete line = false →
  sync_line clock random test_init out_filename line g = Done (u, g') →
  NoDup (key <$> LineBase g') ∧
  (∀ k, k ∈ active_keys (LineBase g') ↔ k ∈ active_keys (LineBase g) ∨ k = key line) ∧
  ∀ k, tab (LineBase g') k = if decide (k = key line) then renewed line (tab (LineBase g) k) else tab (LineBase g) k.
Proof.
  intros Hnd Hn E. unfold sync_line in E. minv E.
  destruct (Insert_ok _ _ _ _ Hnd Hn E0) as (Hnd1 & Ha1 & Hcase). destruct a.
  - minv E. destruct (Start_quiet _ _ _ _ E1) as (HL & _ & Hk & Hn' & He' & Hs').
    msimpl_in E. injection E as _ <-. cbn [LineBase set_LineBase]. rewrite HL.
    destruct Hcase as [Els Hnew]. rewrite Els, length_app. cbn [length].
    replace (length (LineBase g) + 1 - 1)%nat with (length (LineBase g)) by lia.
    rewrite insert_app_r_alt, Nat.sub_diag by lia. cbn [insert list_insert].
    rewrite Els in Hnd1. rewrite fmap_app in *. cbn [fmap list_fmap] in *. rewrite Hk.
    split; [done|]. split; [intros k; rewrite active_snoc by congruence; by rewrite Hk|].
    intros k. rewrite tab_snoc by (by rewrite Hk). rewrite Hk. destruct (decide _) as [->|]; [|done].
    unfold renewed. rewrite tab_none by done. unfold entry. by rewrite Hn', He', Hs', Hn.
  - msimpl_in E. injection E as _ <-. split; [done|]. split; [done|]. apply Hcase.
Qed.

(** The valid lines of a crontab. *)
Definition crontab_lines (n : nat) (lines : list (list (list Z))) : list (CronLine (State := State)) :=
  omap parse_line (take n lines).

Lemma parse_line_active tokens line : parse_line (State := State) tokens = Some line → needs_delete line = false.
Proof.
  unfold parse_line. destruct tokens as [|t0 [|t1 [|t2 [|t3 [|t4 [|t5 tokens]]]]]]; try done.
  case_bool_decide; [done|]. destruct (strtoul t0), (strtoul t1), (strtoul t2). cbv zeta.
  destruct (_ || _); [done|]. case_bool_decide; [by intros [= <-]|].
  case_bool_decide; [|by intros [= <-]]. destruct (strtoul t4). destruct (negb _); [done|].
  destruct (_ || _); by intros [= <-].
Qed.

(** The entries after the lines of a file: the end time of the last line with the key, and the distribution of the first,
    or of the line that was there before. *)
Definition entry_after (ls lines : list CronLine) (k : Z * Z * list Z) : option (bool * Z * (distribution * Z)) :=
  match last (with_key k lines) with
  | Some b => (λ a, (false, end_time b, spread a)) <$> head (with_key k (ls ++ lines))
  | None => tab ls k
  end.

Lemma spread_app ls1 ls2 k :
  spread <$> head (with_key k (ls1 ++ ls2)) = match tab ls1 k with Some x => Some x.2 | None => spread <$> head (with_key k ls2) end.
Proof. unfold tab, with_key. rewrite filter_app. by destruct (filter _ ls1). Qed.

Lemma entry_after_spread ls lines k :
  entry_after ls lines k = match last (with_key k lines) with
                           | Some b => (λ x, (false, end_time b, x)) <$> (spread <$> head (with_key k (ls ++ lines)))
                           | None => tab ls k
                           end.
Proof. unfold entry_after. destruct (last _); [|done]. by destruct (head _). Qed.

Lemma entry_after_cons ls ls1 line lines k :
  (∀ k, tab ls1 k = if decide (k = key line) then renewed line (tab ls k) else tab ls k) →
  entry_after ls1 lines k = entry_after ls (line :: lines) k.
Proof.
  intros H1. rewrite !entry_after_spread, !spread_app, H1. unfold with_key. rewrite filter_cons.
  destruct (decide (k = key line)) as [->|Hne].
  - rewrite decide_True by done. rewrite last_cons. cbn [head fmap option_fmap option_map]. unfold renewed. cbn [snd].
    destruct (last _); [by destruct (tab ls (key line))|]. by destruct (tab ls (key line)).
  - by rewrite decide_False by congruence.
Qed.

Lemma sync_lines_ok n lines g u g' :
  NoDup (key <$> LineBase g) →
  sync_lines clock random test_init out_filename n lines g = Done (u, g') →
  NoDup (key <$> LineBase g') ∧
  (∀ k, k ∈ active_keys (LineBase g') ↔ k ∈ active_keys (LineBase g) ∨ k ∈ key <$> crontab_lines n lines) ∧
  ∀ k, tab (LineBase g') k = entry_after (LineBase g) (crontab_lines n lines) k.
Proof.
  unfold crontab_lines. revert lines g. induction n as [|n IH]; intros [|tokens lines] g Hnd E; cbn [sync_lines] in E.
  1-3: msimpl_in E; injection E as _ <-; (split; [done|]); (split; [|done]); intros k; cbn [take omap list_omap fmap list_fmap];
    rewrite elem_of_nil; tauto.
  minv E. cbn [take omap list_omap]. destruct (parse_line tokens) as [line|] eqn:Ep.
  - destruct (sync_line_ok _ _ _ _ Hnd (parse_line_active _ _ Ep) E0) as (Hnd1 & Ha1 & Ht1).
    destruct (IH _ _ Hnd1 E) as (Hnd2 & Ha2 & Ht2). split; [done|]. split.
    + intros k. rewrite Ha2, Ha1. cbn [fmap list_fmap]. rewrite elem_of_cons. tauto.
    + intros k. rewrite Ht2. by apply entry_after_cons.
  - msimpl_in E0. injection E0 as _ <-. by apply IH.
Qed.

Lemma delete_loop_ok ls g ls' g' :
  delete_loop test_delete ls g = Done (ls', g') →
  sublist ls' ls ∧ oldLine g' = oldLine g ∧
  (∀ l, l ∈ ls → needs_delete l = false → l ∈ ls') ∧
  (∀ l, l ∈ ls' → needs_delete l = true → is_Some (testops l) ∧ is_Some (teststate l)).
Proof.
  revert ls' g. induction ls as [|l ls IH]; intros ls' g E; cbn [delete_loop] in E.
  { msimpl_in E. injection E as <- <-. split; [done|]. split; [done|]. by split; intros l ?%elem_of_nil. }
  destruct (needs_delete l) eqn:Hn; cbn [negb] in E.
  - minv E. minv E. msimpl_in E. injection E as <- <-.
    assert (oldLine s = oldLine g ∧ (a = true → is_Some (testops l) ∧ is_Some (teststate l))) as [HL Hb].
    { destruct (testops l), (teststate l); try (msimpl_in E0; by injection E0 as <- <-). }
    destruct (IH _ _ E1) as (Hsub & HL' & Hkeep & Hbusy). rewrite HL' in *.
    split; [destruct a; [by constructor|by constructor]|]. split; [congruence|]. split.
    + intros x [-> |Hx]%elem_of_cons Hxn; [congruence|]. destruct a; [right|]; auto.
    + intros x Hx Hxn. destruct a; [|auto]. apply elem_of_cons in Hx as [-> |Hx]; auto.
  - minv E. msimpl_in E. injection E as <- <-.
    destruct (IH _ _ E0) as (Hsub & HL' & Hkeep & Hbusy).
    split; [by constructor|]. split; [done|]. split.
    + intros x [-> |Hx]%elem_of_cons Hxn; [by left|right; auto].
    + intros x [-> |Hx]%elem_of_cons Hxn; [congruence|auto].
Qed.

(** [DeleteFile] keeps what is active and, of the rest, only what is busy. *)
Lemma DeleteFile_ok g u g' :
  NoDup (key <$> LineBase g) → DeleteFile test_delete g = Done (u, g') →
  NoDup (key <$> LineBase g') ∧ oldLine g' = None ∧ sublist (LineBase g') (LineBase g) ∧
  (∀ k, k ∈ active_keys (LineBase g') ↔ k ∈ active_keys (LineBase g)) ∧
  (∀ l, l ∈ LineBase g' → needs_delete l = true → is_Some (testops l) ∧ is_Some (teststate l)).
Proof.
  intros Hnd E. unfold DeleteFile in E. msimpl_in E. minv E. msimpl_in E. injection E as _ <-.
  cbn [LineBase oldLine set_LineBase set_oldLine] in *.
  apply delete_loop_ok in E0 as (Hsub & Ho & Hkeep & Hbusy). cbn [oldLine] in Ho.
  split; [eapply sublist_NoDup; [done|by apply fmap_sublist]|]. split; [done|]. split; [done|].
  split; [|done]. intros k. rewrite !elem_of_active. split; intros (l & Hl & Hk & Hn); exists l.
  - split; [|done]. by eapply elem_of_sublist.
  - auto.
Qed.

(** No line is active right after all were marked. *)
Lemma active_marked (ls : list CronLine) k : k ∉ active_keys (set_needs_delete true <$> ls).
Proof.
  rewrite elem_of_active. intros (l & Hl & _ & Hn). apply list_elem_of_fmap in Hl as (x & -> & _). done.
Qed.

Lemma keys_marked (ls : list CronLine) : key <$> (set_needs_delete true <$> ls) = key <$> ls.
Proof. rewrite <- list_fmap_compose. by apply list_fmap_ext. Qed.

Lemma with_key_marked k (ls : list CronLine) : with_key k (set_needs_delete true <$> ls) = set_needs_delete true <$> with_key k ls.
Proof.
  unfold with_key. induction ls as [|l ls IH]; [done|]. cbn [fmap list_fmap]. rewrite !filter_cons.
  destruct (decide (key l = k)); [rewrite decide_True by done|rewrite decide_False by done]; cbn [fmap list_fmap]; by rewrite <- IH.
Qed.

(** The lines in use have the end time of the last line of the file with their key, and the distribution of the line that was
    in the table before or else of the first in the file. *)
Definition renewed_all (ls lines ls' : list CronLine) : Prop :=
  ∀ l, l ∈ ls' → needs_delete l = false →
    end_time <$> last (with_key (key l) lines) = Some (end_time l) ∧
    spread <$> head (with_key (key l) (ls ++ lines)) = Some (spread l).

Lemma entry_after_active ls lines ls' :
  NoDup (key <$> ls') → (∀ k, tab ls' k = entry_after (set_needs_delete true <$> ls) lines k) → renewed_all ls lines ls'.
Proof.
  intros Hnd Ht l Hl Hn. apply list_elem_of_lookup in Hl as [i Hi]. specialize (Ht (key l)).
  unfold tab at 1 in Ht. rewrite (head_with_key _ i l) in Ht by done. cbn [fmap option_fmap option_map] in Ht.
  unfold entry_after in Ht. destruct (last (with_key (key l) lines)) as [b|].
  - unfold with_key in Ht at 1. rewrite filter_app in Ht. fold (with_key (key l) (set_needs_delete true <$> ls)) in Ht.
    rewrite with_key_marked in Ht. unfold with_key at 1. rewrite filter_app. fold (with_key (key l) ls).
    destruct (with_key (key l) ls) as [|a ls0]; cbn [fmap list_fmap app head option_fmap option_map] in *.
    + destruct (head _); cbn in Ht; [|done]. injection Ht as ? ? ?. split; unfold spread; cbn; congruence.
    + injection Ht as ? ? ?. split; unfold spread; cbn; congruence.
  - unfold tab in Ht. rewrite with_key_marked in Ht. destruct (with_key (key l) ls); [done|]. cbn in Ht. injection Ht as ? ? ?. congruence.
Qed.

Lemma SynchronizeFile_ok root file g u g' :
  NoDup (key <$> LineBase g) →
  SynchronizeFile clock random test_init test_delete out_filename root file g = Done (u, g') →
  NoDup (key <$> LineBase g') ∧ oldLine g' = None ∧
  (∀ k, k ∈ active_keys (LineBase g') ↔
        k ∈ key <$> crontab_lines (Z.to_nat ((if root then 65535 else MAXLINES) - 1)) (default [] file)) ∧
  renewed_all (LineBase g) (crontab_lines (Z.to_nat ((if root then 65535 else MAXLINES) - 1)) (default [] file)) (LineBase g') ∧
  (∀ l, l ∈ LineBase g' → needs_delete l = true → is_Some (testops l) ∧ is_Some (teststate l)).
Proof.
  intros Hnd E. unfold SynchronizeFile in E. msimpl_in E.
  set (g1 := set_LineBase _ g) in E.
  assert (NoDup (key <$> LineBase g1)) as Hnd1 by (unfold g1; cbn [LineBase set_LineBase]; by rewrite keys_marked).
  assert (∀ k, k ∉ active_keys (LineBase g1)) as Ha1 by (intros k; apply active_marked).
  set (n := Z.to_nat _) in *. destruct file as [lines|].
  - minv E. destruct (sync_lines_ok _ _ _ _ _ Hnd1 E0) as (Hnd2 & Ha2 & Ht2).
    destruct (DeleteFile_ok _ _ _ Hnd2 E) as (Hnd3 & Ho & Hsub & Ha3 & Hb).
    split; [done|]. split; [done|]. split; [|split; [|done]].
    + intros k. rewrite Ha3, Ha2. cbn [default]. split; [|auto]. by intros [?%Ha1|?].
    + intros l Hl. apply (entry_after_active _ _ (LineBase s)); [done|done|]. by eapply elem_of_sublist.
  - destruct (DeleteFile_ok _ _ _ Hnd1 E) as (Hnd3 & Ho & Hsub & Ha3 & Hb).
    split; [done|]. split; [done|]. split; [|split; [|done]].
    + intros k. rewrite Ha3. unfold crontab_lines. cbn [default].
      rewrite take_nil. cbn [omap list_omap fmap list_fmap]. rewrite elem_of_nil. split; [apply Ha1|done].
    + intros l Hl Hn. exfalso. apply (Ha1 (key l)), elem_of_active. exists l. split; [by eapply elem_of_sublist|done].
Qed.

(** ** Totality *)

(** Lines stay within the range of the protocol. *)
Lemma line_ok_event tv next wait line : line_ok line → line_ok (set_event tv next wait line).
Proof. by intros []. Qed.
Lemma line_ok_test ops st line : line_ok line → line_ok (set_test ops st line).
Proof. by intros []. Qed.
Lemma line_ok_needs_delete v line : line_ok line → line_ok (set_needs_delete v line).
Proof. by intros []. Qed.
Lemma line_ok_end_time v line : line_ok line → line_ok (set_end_time v line).
Proof. by intros []. Qed.
Hint Resolve line_ok_event line_ok_test line_ok_needs_delete line_ok_end_time : core.

Lemma set_timeout_total line init g :
  line_ok line → ∃ line' g', set_timeout clock random line init g = Done (line', g') ∧ line_ok line'.
Proof.
  intros Hok. unfold set_timeout, gettimeofday. destruct (Hclock (calls g)) as [Hsec Husec].
  set (now := clock (calls g)) in *.
  set (g1 := G (LineBase g) (oldLine g) (S (calls g)) (started g) (reports g)).
  rewrite (M_bind_done (outside clock) _ g now g1) by done.
  destruct (_ <? _); [msimpl; eauto|]. destruct init.
  - destruct (init_cycle_ok line now g1 Hok Hsec) as (nc & off & g2 & E & Hok1 & _).
    mrun E. edestruct arm_ok as (tv & -> & _); [exact Hok1|done|done|]. eauto 6.
  - msimpl. destruct (arm_ok line now g1 Hok Hsec Husec) as (tv & -> & _). eauto 6.
Qed.

Lemma report_total reason line g : ∃ g', report out_filename reason line g = Done (line, g').
Proof. unfold report. destruct out_filename; msimpl; eauto. Qed.

Lemma atlas_init_total line g :
  line_ok line → ∃ line' g', atlas_init test_init out_filename line g = Done (line', g') ∧ line_ok line'.
Proof.
  intros Hok. unfold atlas_init. destruct (find_builtin (cl_Shell line)) as [cmd|].
  2: { destruct (report_total "command not found" line g) as [g' ->]. eauto. }
  destruct (split_cmdline_total (cl_Shell line)) as [r ->]. msimpl. destruct r as [reason|argv].
  { destruct (report_total reason line g) as [g' ->]. eauto. }
  unfold mbind, M_bind, outside. destruct (test_init (calls g) cmd argv) as [st|]; [msimpl; eauto|].
  edestruct (report_total "") as [g' ->]. eauto.
Qed.

Lemma Start_total line g :
  line_ok line → ∃ line' g', Start clock random test_init out_filename line g = Done (line', g') ∧ line_ok line'.
Proof.
  intros Hok. unfold Start.
  destruct (atlas_init_total (set_test None (teststate line) line) g) as (l & g1 & E & Hl); [auto|].
  mrun E. destruct (testops l); [by apply set_timeout_total|msimpl; eauto].
Qed.

Lemma find_line_lookup line ls i : find_line line ls = Some i → is_Some (ls !! i).
Proof. intros E. pose proof (find_line_spec line ls) as H. rewrite E in H. destruct H as (l & ? & _). eauto. Qed.

Lemma Insert_total line g :
  Forall line_ok (LineBase g) → line_ok line →
  ∃ new g', Eperd.Insert clock random line g = Done (new, g') ∧ Forall line_ok (LineBase g').
Proof.
  intros Hls Hok. unfold Eperd.Insert. msimpl. cbv zeta.
  set (old := match oldLine g with Some _ => _ | None => None end).
  set (old' := match old with Some i => Some i | None => find_line line (LineBase g) end).
  assert (∀ i, old' = Some i → is_Some (LineBase g !! i)) as Hold.
  { unfold old', old. intros i. destruct (oldLine g) as [j|]; [|apply find_line_lookup].
    destruct (LineBase g !! j) eqn:Ej; [|apply find_line_lookup].
    destruct (same_line _ _); [|apply find_line_lookup]. intros [= <-]. rewrite Ej. eauto. }
  destruct old' as [i|].
  - destruct (Hold i eq_refl) as [l Hl]. rewrite Hl.
    pose proof (Forall_lookup_1 _ _ _ _ Hls Hl) as Hlok.
    edestruct (set_timeout_total (set_needs_delete false (set_end_time (end_time line) l)) false)
      as (l' & g1 & E & Hl'); [auto|].
    mrun E. destruct (set_timeout_quiet _ _ _ _ _ E) as (HL & _). msimpl. eexists _, _. split; [done|].
    cbn [LineBase set_LineBase]. rewrite HL. by apply Forall_insert.
  - msimpl. eexists _, _. split; [done|]. cbn [LineBase set_LineBase]. apply Forall_app. auto.
Qed.

Lemma sync_line_total line g :
  Forall line_ok (LineBase g) → line_ok line →
  ∃ g', sync_line clock random test_init out_filename line g = Done (tt, g') ∧ Forall line_ok (LineBase g').
Proof.
  intros Hls Hok. unfold sync_line. destruct (Insert_total line g Hls Hok) as (new & g1 & E & Hls1).
  mrun E. destruct new; [|msimpl; eauto].
  destruct (Start_total line g1 Hok) as (line' & g2 & E2 & Hok'). mrun E2.
  destruct (Start_quiet _ _ _ _ E2) as (HL & _). msimpl. eexists. split; [done|].
  cbn [LineBase set_LineBase]. rewrite HL. by apply Forall_insert.
Qed.

Lemma sync_lines_total n lines g :
  Forall line_ok (LineBase g) → Forall line_ok (crontab_lines n lines) →
  ∃ g', sync_lines clock random test_init out_filename n lines g = Done (tt, g') ∧ Forall line_ok (LineBase g').
Proof.
  unfold crontab_lines. revert lines g.
  induction n as [|n IH]; intros [|tokens lines] g Hls Hf; cbn [sync_lines]; [msimpl; eauto..|].
  cbn [take omap list_omap] in Hf. destruct (parse_line tokens) as [line|].
  - apply Forall_cons in Hf as [Hl Hf]. destruct (sync_line_total line g Hls Hl) as (g1 & E & Hls1).
    mrun E. by apply IH.
  - msimpl. by apply IH.
Qed.

Lemma delete_loop_total ls g : ∃ ls' g', delete_loop test_delete ls g = Done (ls', g').
Proof.
  revert g. induction ls as [|l ls IH]; intros g; cbn [delete_loop]; [msimpl; eauto|].
  destruct (negb (needs_delete l)).
  { destruct (IH g) as (ls' & g' & E). mrun E. msimpl. eauto. }
  set (q := match testops l with Some _ => _ | None => _ end).
  assert (∃ b g1, q g = Done (b, g1)) as (b & g1 & E).
  { unfold q. destruct (testops l), (teststate l); msimpl; eauto. }
  mrun E. destruct (IH g1) as (ls' & g' & E'). mrun E'. msimpl. eauto.
Qed.

Lemma DeleteFile_total g :
  ∃ g', DeleteFile test_delete g = Done (tt, g') ∧ sublist (LineBase g') (LineBase g).
Proof.
  unfold DeleteFile. msimpl.
  edestruct (delete_loop_total (LineBase (set_oldLine None g))) as (ls & g1 & E). mrun E.
  apply delete_loop_ok in E as (Hsub & _). msimpl. eauto.
Qed.

Lemma SynchronizeFile_total (root : bool) (file : option (list (list (list Z)))) g :
  Forall line_ok (LineBase g) →
  Forall line_ok (crontab_lines (Z.to_nat ((if root then 65535 else MAXLINES) - 1)) (default [] file)) →
  ∃ g', SynchronizeFile clock random test_init test_delete out_filename root file g = Done (tt, g') ∧
        Forall line_ok (LineBase g').
Proof.
  intros Hls Hf. unfold SynchronizeFile. msimpl. set (g1 := set_LineBase _ g).
  assert (Forall line_ok (LineBase g1)) as Hls1.
  { apply Forall_fmap. eapply Forall_impl; [exact Hls|]. intros l. apply line_ok_needs_delete. }
  assert (∃ g2, match file with
                | None => mret tt
                | Some lines => sync_lines clock random test_init out_filename
                                  (Z.to_nat ((if root then 65535 else MAXLINES) - 1)) lines
                end g1 = Done (tt, g2) ∧ Forall line_ok (LineBase g2)) as (g2 & E & Hls2).
  { destruct file as [lines|]; [by apply sync_lines_total|msimpl; eauto]. }
  destruct (DeleteFile_total g2) as (g3 & E3 & Hsub).
  exists g3. split.
  2: { apply Forall_forall. intros l Hl. eapply Forall_forall; [exact Hls2|by eapply elem_of_sublist]. }
  destruct file as [lines|]; [by mrun E|]. msimpl_in E. by injection E as <-.
Qed.

(** When [RunJob] starts a test. *)
Lemma RunJob_started i g u g' line :
  LineBase g !! i = Some line →
  RunJob clock random out_filename i g = Done (u, g') →
  started g' = started g ∨
  ∃ st, started g' = started g ++ [st] ∧ teststate line = Some st ∧ needs_delete line = false ∧
        nexttime line - 10 ≤ tv_sec (clock (calls g)) ≤ nexttime line + 10 ∧
        tv_sec (clock (calls g)) ≤ end_time line.
Proof.
  intros Hi E. unfold RunJob in E. msimpl_in E. rewrite Hi in E.
  destruct (needs_delete line) eqn:Hn; [left; msimpl_in E; by injection E as _ <-|].
  minv E. injection E0 as <- <-. set (now := clock (calls g)) in *.
  destruct ((tv_sec now <? nexttime line - 10) || (nexttime line + 10 <? tv_sec now)) eqn:Ew.
  { left. minv E. destruct (report_quiet _ _ _ _ _ E0) as (_ & [= _ H1] & _).
    minv E. destruct (set_timeout_quiet _ _ _ _ _ E1) as (_ & [= _ H2] & _).
    msimpl_in E. injection E as _ <-. cbn [started set_LineBase] in *. congruence. }
  apply orb_false_iff in Ew as [Ew1 Ew2]. apply Z.ltb_ge in Ew1, Ew2.
  destruct (Z.ltb_spec (end_time line) (tv_sec now)); [left; msimpl_in E; by injection E as _ <-|].
  destruct (teststate line) as [st|] eqn:Et; [|left; msimpl_in E; by injection E as _ <-].
  destruct (testops line); [|done]. right. exists st. split; [|done].
  msimpl_in E. minv E. destruct (advance_quiet _ _ _ _ _ E0) as (_ & [= _ H0] & _).
  minv E. destruct (do_distr_quiet _ _ _ _ E1) as (_ & [= _ H1] & _).
  minv E. destruct (set_timeout_quiet _ _ _ _ _ E2) as (_ & [= _ H2] & _).
  msimpl_in E. injection E as _ <-. cbn [started set_LineBase add_started] in *. congruence.
Qed.
(** A line whose timer was set: [nexttime] is the start of its cycle. *)
Definition armed line : Prop :=
  line_ok line ∧
  nexttime line = nextcycle line * interval line + start_time line + tv_sec (distr_offset line).

(** [set_timeout] without a new cycle, for a line that has not expired. *)
Lemma set_timeout_arms line g :
  line_ok line → tv_sec (clock (calls g)) ≤ end_time line →
  ∃ line' g', set_timeout clock random line false g = Done (line', g') ∧ armed line' ∧
    nextcycle line' = nextcycle line ∧ key line' = key line ∧
    ∃ tv, event line' = Some tv ∧ tv_us tv = Z.max 0 (target_us line' - tv_us (clock (calls g))).
Proof.
  intros Hok Hexp. destruct (Hclock (calls g)) as [Hsec Husec]. unfold set_timeout, gettimeofday.
  set (now := clock (calls g)) in *.
  set (g1 := G (LineBase g) (oldLine g) (S (calls g)) (started g) (reports g)).
  rewrite (M_bind_done (outside clock) _ g now g1) by done.
  destruct (Z.ltb_spec (end_time line) (tv_sec now)); [lia|]. msimpl.
  destruct (arm_ok line now g1 Hok Hsec Husec) as (tv & -> & Hu & Htv).
  eexists _, g1. split; [reflexivity|]. split; [split; [auto|done]|]. eauto.
Qed.

Lemma set_timeout_cycle line g line' g' :
  set_timeout clock random line false g = Done (line', g') → nextcycle line' = nextcycle line.
Proof.
  intros E. unfold set_timeout in E. minv E. destruct (_ <? _); [by injection E as <- _|].
  msimpl_in E. unfold arm_timer in E. minv E. minv E. cbv zeta in E.
  destruct (_ <? 0) in E; cbv iota in E; destruct (_ <? 0) in E; by injection E as <- _.
Qed.

(** The next cycle as [RunJob] computes it: one on, or the first after now. *)
Lemma advance_ok line (now : timeval) g :
  armed line → 0 ≤ tv_sec now < 2 ^ 40 → tv_sec now ≤ nexttime line + 10 → nexttime line - 10 ≤ tv_sec now →
  ∃ nc, advance line now g = Done (set_nextcycle nc line, g) ∧
    line_ok (set_nextcycle nc line) ∧ nextcycle line < nc ∧ tv_sec now ≤ start_time line + nc * interval line.
Proof.
  intros [[Hi Hs Hc Hn Hp Ho Hu] Hnext] Hsec H1 H2. unfold advance. cbv zeta.
  cbn [nextcycle interval start_time set_nextcycle].
  assert (0 ≤ nextcycle line * interval line) by nia. unfold MAX_INTERVAL in *.
  rewrite (chk64_ok ((nextcycle line + 1) * interval line)) by lia. msimpl.
  rewrite (chk64_ok (start_time line + _)) by lia. msimpl.
  destruct (Z.ltb_spec (start_time line + (nextcycle line + 1) * interval line) (tv_sec now)).
  - destruct (Z.eqb_spec (interval line) 0); [lia|]. rewrite chk64_ok by lia. msimpl.
    rewrite Z.quot_div_nonneg by lia.
    pose proof (Z.div_mod (tv_sec now - start_time line) (interval line) ltac:(lia)).
    pose proof (Z.mod_pos_bound (tv_sec now - start_time line) (interval line) ltac:(lia)).
    eexists. split; [reflexivity|]. cbn [nextcycle set_nextcycle]. unfold MAX_INTERVAL in *.
    split; [split; cbn; unfold MAX_INTERVAL; (done || nia)|]. split; nia.
  - eexists. split; [reflexivity|]. split; [split; cbn; unfold MAX_INTERVAL; (done || nia)|]. lia.
Qed.

(** [RunJob] of a line that is due. *)
Lemma RunJob_due i g line st ops :
  LineBase g !! i = Some line → armed line → needs_delete line = false →
  teststate line = Some st → testops line = Some ops →
  nexttime line - 10 ≤ tv_sec (clock (calls g)) ≤ nexttime line + 10 →
  tv_sec (clock (calls g)) ≤ end_time line →
  let n := (calls g + 1 + draws line)%nat in
  ∃ line' g', RunJob clock random out_filename i g = Done (tt, g') ∧
    LineBase g' = <[i := line']> (LineBase g) ∧ started g' = started g ++ [st] ∧
    key line' = key line ∧ line_ok line' ∧ nextcycle line < nextcycle line' ∧
    tv_sec (clock (calls g)) ≤ start_time line + nextcycle line' * interval line ∧
    (tv_sec (clock n) ≤ end_time line →
       armed line' ∧ ∃ tv, event line' = Some tv ∧ tv_us tv = Z.max 0 (target_us line' - tv_us (clock n))).
Proof.
  intros Hi Ha Hn Hst Hops Hdue Hexp. cbv zeta. unfold RunJob. msimpl. rewrite Hi, Hn.
  destruct (Hclock (calls g)) as [Hsec Husec]. unfold gettimeofday.
  set (now := clock (calls g)) in *.
  set (g1 := G (LineBase g) (oldLine g) (S (calls g)) (started g) (reports g)).
  rewrite (M_bind_done (outside clock) _ g now g1) by done.
  destruct (Z.ltb_spec (tv_sec now) (nexttime line - 10)); [lia|].
  destruct (Z.ltb_spec (nexttime line + 10) (tv_sec now)); [lia|]. cbn [orb].
  destruct (Z.ltb_spec (end_time line) (tv_sec now)); [lia|]. rewrite Hst, Hops. msimpl.
  edestruct (advance_ok line now) as (nc & E & Hok & Hnc & Hafter); [done|done|lia..|]. mrun E.
  edestruct (do_distr_any (set_nextcycle nc line)) as (off & g2 & E2 & Hok2 & HL2 & _ & Hca); [done|]. mrun E2.
  destruct (do_distr_quiet _ _ _ _ E2) as (_ & [= _ Hs2] & _).
  set (line2 := set_distr_offset off (set_nextcycle nc line)) in *.
  destruct (set_timeout_total line2 false g2 Hok2) as (line' & g3 & E3 & Hok').
  destruct (set_timeout_quiet _ _ _ _ _ E3) as (HL3 & [= _ Hs3] & Hk & _). mrun E3. msimpl.
  assert (nextcycle line' = nc) as Hnc' by (by apply set_timeout_cycle in E3).
  exists line', (set_LineBase (<[i:=line']> (LineBase g3)) g3).
  split; [done|]. cbn [LineBase started set_LineBase]. rewrite HL3, HL2, Hs3, Hs2, Hnc'.
  split_and!; [done..|]. intros Hexp2.
  change (calls g2 = S (calls g) + draws line)%nat in Hca.
  replace (calls g + 1 + draws line)%nat with (calls g2) in * by lia.
  destruct (set_timeout_arms line2 g2 Hok2 Hexp2) as (line3 & g4 & E4 & Harm & _ & _ & Hev).
  rewrite E4 in E3. by injection E3 as -> ->.
Qed.
End Eperd.

(** ** Theorems *)

(** A clock that stands still, a random source and tests that always start and
    are never busy, for the examples. *)
Definition clock0 (n : nat) : timeval := TV 1000000 500000.
Definition random0 (n : nat) : Z := 123456789.
Definition init0 (n : nat) (cmd : list Z) (argv : list (list Z)) : option unit := Some tt.
Definition delete0 (n : nat) (cmd : list Z) (st : unit) : Z := 1.
Definition globals0 : globals (State := unit) := G [] None 0 [] [].
Definition line0 : CronLine (State := unit) :=
  CL (bytes_of_string "evping x") 240 0 999900 2000000 DISTR_UNIFORM 10 (TV 0 0) None None None false 0 0.

(** Timers are set to the next cycle: for a line within the range of the
    protocol that has not expired, [set_timeout] arms the timer with exactly the time
    from now to the start of the cycle plus its random offset (0 when that has
    passed), normalised; with [init_next_cycle] the cycle is the first one that
    starts after now, and the offset stays within half the parameter around it;
    without, the start is kept.  No arithmetic overflows. *)
Theorem set_timeout_next_cycle {State : Type} (clock : nat → timeval) (random : nat → Z)
    (line : CronLine (State := State)) init (g : globals (State := State)) :
  (∀ n, 0 ≤ random n < 2 ^ 31) →
  (∀ n, 0 ≤ tv_sec (clock n) < 2 ^ 40 ∧ 0 ≤ tv_usec (clock n) < 1000000) →
  line_ok line → tv_sec (clock (calls g)) ≤ end_time line →
  ∃ line' tv g', set_timeout clock random line init g = Done (line', g') ∧
    event line' = Some tv ∧ 0 ≤ tv_usec tv < 1000000 ∧
    tv_us tv = Z.max 0 (target_us line' - tv_us (clock (calls g))) ∧
    (if init : bool then first_cycle_after (tv_sec (clock (calls g))) line' ∧
       (distr line = DISTR_UNIFORM →
          - (distr_param line / 2) ≤ tv_sec (distr_offset line') ≤ distr_param line - distr_param line / 2)
     else target_us line' = target_us line) ∧
    interval line' = interval line ∧ start_time line' = start_time line ∧ LineBase g' = LineBase g.
Proof. intros Hr Hc. by apply set_timeout_ok. Qed.

Lemma set_timeout_next_cycle_witness :
  ∃ line' tv g', set_timeout clock0 random0 line0 true globals0 = Done (line', g') ∧
    event line' = Some tv ∧ 0 ≤ tv_usec tv < 1000000 ∧
    tv_us tv = Z.max 0 (target_us line' - tv_us (clock0 0)) ∧
    (first_cycle_after (tv_sec (clock0 0)) line' ∧
       (distr line0 = DISTR_UNIFORM →
          - (distr_param line0 / 2) ≤ tv_sec (distr_offset line') ≤ distr_param line0 - distr_param line0 / 2)) ∧
    interval line' = interval line0 ∧ start_time line' = start_time line0 ∧ LineBase g' = LineBase globals0.
Proof.
  apply (set_timeout_next_cycle clock0 random0 line0 true globals0);
    [intros n; unfold random0; lia | intros n; unfold clock0; simpl; lia
    | split; unfold INT_MAX, MAX_INTERVAL; simpl; intros; lia | simpl; lia].
Defined.

(** C22: synchronisation with a crontab: from a table without duplicates (no two
    lines with the same interval, start time and command) whose lines, and those
    of the file, are within the range of the protocol ([line_ok]: intervals up to two years, times far from the limits of [time_t], and
    a parameter of a uniform distribution that is positive and below [INT_MAX]), [SynchronizeFile] ends
    normally and gives a table without duplicates in which the lines in use have exactly the keys (interval, start time, command) of the valid lines of the file (up to its line limit; none when the file is
    missing); each has the end time of the last line of the file with its key, and the distribution of the line that was in the
    table before, or else of the first line of the file with its key: a new distribution of an old line is not taken over; every other line that is left belongs to a test that is still there
    to be deleted, and all lines are within the range again. *)
Theorem SynchronizeFile_table {State : Type} (clock : nat → timeval) (random : nat → Z)
    (test_init : nat → list Z → list (list Z) → option State)
    (test_delete : nat → list Z → State → Z) out_filename (root : bool)
    (file : option (list (list (list Z)))) (g : globals (State := State)) :
  let lines := crontab_lines (State := State) (Z.to_nat ((if root then 65535 else MAXLINES) - 1)) (default [] file) in
  (∀ n, 0 ≤ random n < 2 ^ 31) →
  (∀ n, 0 ≤ tv_sec (clock n) < 2 ^ 40 ∧ 0 ≤ tv_usec (clock n) < 1000000) →
  NoDup (key <$> LineBase g) → Forall line_ok (LineBase g) → Forall line_ok lines →
  ∃ g', SynchronizeFile clock random test_init test_delete out_filename root file g = Done (tt, g') ∧
    NoDup (key <$> LineBase g') ∧ Forall line_ok (LineBase g') ∧ oldLine g' = None ∧
    (∀ k, k ∈ active_keys (LineBase g') ↔ k ∈ key <$> lines) ∧ renewed_all (LineBase g) lines (LineBase g') ∧
    (∀ l, l ∈ LineBase g' → needs_delete l = true → is_Some (testops l) ∧ is_Some (teststate l)).
Proof.
  intros lines Hr Hc Hnd Hls Hf.
  destruct (SynchronizeFile_total clock random test_init test_delete out_filename Hr Hc root file g Hls Hf)
    as (g' & E & Hls').
  destruct (SynchronizeFile_ok _ _ _ _ _ _ _ _ _ _ Hnd E) as (Hnd' & Ho & Ha & Hrn & Hb). by exists g'.
Qed.

(** A crontab with one line. *)
Definition file0 : list (list (list Z)) :=
  [[bytes_of_string "240"; bytes_of_string "999900"; bytes_of_string "2000000"; bytes_of_string "UNIFORM";
    bytes_of_string "10"; bytes_of_string "evping x"]].
Definition synced0 : globals (State := unit) :=
  match SynchronizeFile clock0 random0 init0 delete0 true true (Some file0) globals0 with
  | Done (_, g) => g
  | Crash _ => globals0
  end.

Lemma SynchronizeFile_table_witness :
  ∃ g', SynchronizeFile clock0 random0 init0 delete0 true true (Some file0) globals0 = Done (tt, g') ∧
    NoDup (key <$> LineBase g') ∧ Forall line_ok (LineBase g') ∧ oldLine g' = None ∧
    (∀ k, k ∈ active_keys (LineBase g') ↔
          k ∈ key <$> crontab_lines (State := unit) (Z.to_nat (65535 - 1)) file0) ∧
    renewed_all [] (crontab_lines (State := unit) (Z.to_nat (65535 - 1)) file0) (LineBase g') ∧
    (∀ l, l ∈ LineBase g' → needs_delete l = true → is_Some (testops l) ∧ is_Some (teststate l)).
Proof.
  apply (SynchronizeFile_table clock0 random0 init0 delete0 true true (Some file0) globals0).
  - intros n. unfold random0. lia.
  - intros n. unfold clock0. simpl. lia.
  - apply NoDup_nil_2.
  - apply Forall_nil_2.
  - replace (crontab_lines _ _) with [line0] by (vm_compute; reflexivity).
    apply Forall_cons_2; [|apply Forall_nil_2]. split; vm_compute; (split; congruence) || congruence.
Defined.

(** [RunJob] starts the test of a line at most once per timer event, and only
    when the line is not marked for deletion, its test is initialised, the time
    is within ten seconds of the scheduled one and the line has not expired. *)
Theorem RunJob_starts {State : Type} (clock : nat → timeval) (random : nat → Z) out_filename i
    (g : globals (State := State)) u g' line :
  LineBase g !! i = Some line →
  RunJob clock random out_filename i g = Done (u, g') →
  started g' = started g ∨
  ∃ st, started g' = started g ++ [st] ∧ teststate line = Some st ∧ needs_delete line = false ∧
        nexttime line - 10 ≤ tv_sec (clock (calls g)) ≤ nexttime line + 10 ∧
        tv_sec (clock (calls g)) ≤ end_time line.
Proof. apply RunJob_started. Qed.

Lemma RunJob_starts_witness :
  ∃ g', RunJob clock0 random0 true 0 synced0 = Done (tt, g') ∧
  (started g' = started synced0 ∨
   ∃ st line, LineBase synced0 !! 0%nat = Some line ∧ started g' = started synced0 ++ [st] ∧
     teststate line = Some st).
Proof.
  destruct (RunJob clock0 random0 true 0 synced0) as [[[] g']|c] eqn:E;
    [|vm_compute in E; discriminate E].
  exists g'. split; [reflexivity|].
  destruct (LineBase synced0 !! 0%nat) as [line|] eqn:El; [|vm_compute in El; discriminate El].
  destruct (RunJob_starts clock0 random0 true 0 synced0 tt g' line El E) as [H|(st & H1 & H2 & _)];
    [left; exact H | right; exists st, line; split; [reflexivity | split; assumption]].
Defined.

(** C23: periodic execution: when the timer of an armed line with an initialised
    test fires at its time (give or take ten seconds) before the end time,
    [RunJob] ends normally, starts the test exactly once, and moves the line to a
    later cycle that does not start before now; unless the line has expired by
    then, its timer is armed with exactly the time to that cycle plus the new offset
    (so the line is armed again).  The clock is read a second time after the
    [random] calls of [do_distr]. *)
Theorem RunJob_periodic {State : Type} (clock : nat → timeval) (random : nat → Z) out_filename i
    (g : globals (State := State)) line st ops :
  (∀ n, 0 ≤ random n < 2 ^ 31) →
  (∀ n, 0 ≤ tv_sec (clock n) < 2 ^ 40 ∧ 0 ≤ tv_usec (clock n) < 1000000) →
  LineBase g !! i = Some line → armed line → needs_delete line = false →
  teststate line = Some st → testops line = Some ops →
  nexttime line - 10 ≤ tv_sec (clock (calls g)) ≤ nexttime line + 10 →
  tv_sec (clock (calls g)) ≤ end_time line →
  let n := (calls g + 1 + draws line)%nat in
  ∃ line' g', RunJob clock random out_filename i g = Done (tt, g') ∧
    LineBase g' = <[i := line']> (LineBase g) ∧ started g' = started g ++ [st] ∧
    key line' = key line ∧ line_ok line' ∧ nextcycle line < nextcycle line' ∧
    tv_sec (clock (calls g)) ≤ start_time line + nextcycle line' * interval line ∧
    (tv_sec (clock n) ≤ end_time line →
       armed line' ∧ ∃ tv, event line' = Some tv ∧ tv_us tv = Z.max 0 (target_us line' - tv_us (clock n))).
Proof. intros Hr Hc. by apply RunJob_due. Qed.

(** A line that is due at the time of [clock0]. *)
Definition due0 : CronLine (State := unit) :=
  CL (bytes_of_string "evping x") 240 2 999520 2000000 DISTR_NONE 0 (TV 0 0) None
     (Some (bytes_of_string "evping")) (Some tt) false 1000000 0.

Lemma RunJob_periodic_witness :
  ∃ line' g', RunJob clock0 random0 true 0 (G [due0] None 0 [] []) = Done (tt, g') ∧
    started g' = [tt] ∧ LineBase g' = [line'] ∧ nextcycle due0 < nextcycle line' ∧ armed line'.
Proof.
  destruct (RunJob_periodic clock0 random0 true 0 (G [due0] None 0 [] []) due0 tt (bytes_of_string "evping"))
    as (line' & g' & E & HL & Hs & _ & _ & Hn & _ & Ha).
  - intros n. unfold random0. lia.
  - intros n. unfold clock0. simpl. lia.
  - reflexivity.
  - split; [|reflexivity]. split; vm_compute; (split; congruence) || congruence.
  - reflexivity.
  - reflexivity.
  - reflexivity.
  - vm_compute. split; congruence.
  - vm_compute. congruence.
  - exists line', g'. split; [exact E|]. split; [exact Hs|]. split; [exact HL|]. split; [exact Hn|].
    apply Ha. vm_compute. congruence.
Defined.

(** The parameter of a uniform distribution is read as an unsigned long and
    stored in an [int]: a crontab line with the parameter 4294967295 is accepted with
    -1, and [do_distr] then divides by zero; with 2147483647 the addition of 1
    overflows. *)
Theorem do_distr_undefined {State : Type} (random : nat → Z) (t1 t2 t5 : list Z) p st et (g : globals) :
  p = bytes_of_string "4294967295" ∨ p = bytes_of_string "2147483647" →
  strtoul t1 = (st, []) → strtoul t2 = (et, []) →
  ∃ line, parse_line (State := State) [bytes_of_string "240"; t1; t2; bytes_of_string "UNIFORM"; p; t5] = Some line ∧
          do_distr random line g = Crash Undefined.
Proof.
  intros Hp H1 H2.
  assert (∃ v, strtoul p = (v, []) ∧ (s32 v = -1 ∨ s32 v = INT_MAX)) as (v & Ep & Hv).
  { destruct Hp as [-> | ->]; eexists; (split; [vm_compute; reflexivity|]); [left|right]; reflexivity. }
  exists (CL t5 240 0 (s64 st) (s64 et) DISTR_UNIFORM (s32 v) (TV 0 0) None None None false 0 0). split.
  - unfold parse_line. rewrite H1, H2, Ep.
    replace (strtoul (bytes_of_string "240")) with (240, @nil Z) by (vm_compute; reflexivity).
    rewrite (bool_decide_false (take 7 _ = _)) by (vm_compute; discriminate). cbv zeta.
    rewrite !(bool_decide_true (@nil Z = [])) by done.
    rewrite (bool_decide_false (bytes_of_string "UNIFORM" = bytes_of_string "NONE")) by (vm_compute; discriminate).
    rewrite (bool_decide_true (bytes_of_string "UNIFORM" = bytes_of_string "UNIFORM")) by done.
    destruct Hv as [-> | ->]; reflexivity.
  - unfold do_distr. cbn [distr set_distr_offset distr_param]. destruct Hv as [-> | ->]; reflexivity.
Qed.

Lemma do_distr_undefined_witness :
  ∃ line, parse_line (State := unit)
      [bytes_of_string "240"; bytes_of_string "0"; bytes_of_string "9999999999"; bytes_of_string "UNIFORM";
       bytes_of_string "4294967295"; bytes_of_string "evping x"] = Some line ∧
    do_distr random0 line globals0 = Crash Undefined.
Proof.
  apply (do_distr_undefined random0 (bytes_of_string "0") (bytes_of_string "9999999999")
           (bytes_of_string "evping x") (bytes_of_string "4294967295") 0 9999999999 globals0);
    [left; reflexivity | vm_compute; reflexivity | vm_compute; reflexivity].
Defined.
