(* ===== verification/Response.v ===== *)
(** * Recorded responses and IPv6 options (probe-busybox/libbb)

    [write_response], [peek_response], [read_response] and their [FILE *]
    variants ([atlas_write_response.c], [atlas_read_response.c]), with which
    measurements record and replay what they receive; and [do_ipv6_option]
    ([atlas_ipv6_option.c]), which builds an IPv6 extension header of padding.

    A file is the list of the bytes that are still to be read.  Integers are
    written in the byte order of the machine, little endian here.  [exit(1)]
    is [Fatal]. *)

From S2P Require Import Prelude.
From S2P Require Import Http2Send.
From stdpp Require Import base list numbers strings.
From Stdlib Require Import ZArith Lia.

Open Scope Z_scope.

(** ** Recorded responses *)

Definition sizeof_int : nat := 4.
Definition sizeof_size_t : nat := 8.

Fixpoint le_bytes (n : nat) (z : Z) : list Z :=
  match n with O => [] | S n' => u8 z :: le_bytes n' (z / 256) end.
Fixpoint le_value (l : list Z) : Z :=
  match l with [] => 0 | b :: l' => b + 256 * le_value l' end.

Definition write_response (file : list Z) (type : Z) (data : list Z) : list Z :=
  file ++ le_bytes sizeof_int type ++ le_bytes sizeof_size_t (zlen data) ++ data.

(** The static variables [got_type] and [stored_type], and the file. *)
Record rstate := RS { stored_type : option Z; rest : list Z }.

(** [read(fd, p, n) != n] is fatal; [fread] likewise. *)
Definition read_n (n : nat) : M rstate (list Z) := λ s,
  if (length (rest s) <? n)%nat then Crash Fatal
  else Done (take n (rest s), RS (stored_type s) (drop n (rest s))).
Definition clear_type : M rstate unit := modify (λ s, RS None (rest s)).

Definition peek_response : M rstate Z :=
  s ← get;
  match stored_type s with
  | Some t => mret t
  | None =>
      bytes ← read_n sizeof_int;
      modify (λ s, RS (Some (s32 (le_value bytes))) (rest s));;
      mret (s32 (le_value bytes))
  end.

(** The same on a [FILE *]: [fread] of one item. *)
Definition peek_response_file : M rstate Z :=
  s ← get;
  match stored_type s with
  | None =>
      bytes ← read_n sizeof_int;
      modify (λ s, RS (Some (s32 (le_value bytes))) (rest s))
  | Some _ => mret tt
  end;;
  s ← get;
  match stored_type s with Some t => mret t | None => mcrash Undefined end.

(** The type of the next record, stored by [peek_response] or read now. *)
Definition next_type : M rstate Z :=
  s ← get;
  match stored_type s with
  | Some t => clear_type;; mret t
  | None => bytes ← read_n sizeof_int; mret (s32 (le_value bytes))
  end.

(** [read_response(fd, type, &size, data)]: [size] is the room there is; the
    result is the data. *)
Definition read_response (type size : Z) : M rstate (list Z) :=
  tmp_type ← next_type;
  if negb (tmp_type =? type) then mcrash Fatal
  else
    bytes ← read_n sizeof_size_t;
    let tmp_size := le_value bytes in
    if size <? tmp_size then mcrash Fatal
    else read_n (Z.to_nat tmp_size).

Definition read_response_file (type size : Z) : M rstate (list Z) :=
  tmp_type ← next_type;
  if negb (tmp_type =? type) then mcrash Fatal
  else
    bytes ← read_n sizeof_size_t;
    let tmp_size := le_value bytes in
    if size <? tmp_size then mcrash Fatal
    else if negb (tmp_size =? 0) then read_n (Z.to_nat tmp_size) else mret [].

(** ** IPv6 options *)

Definition OPT_PAD1 : Z := 0.
Definition OPT_PADN : Z := 1.
Definition PACKET_SIZE : Z := 4096.

(** What [do_ipv6_option] does: one [setsockopt] with the given data ([None]
    is [NULL]), or [errno= EINVAL]. *)
Inductive option_call := SetOpt (dstopts : bool) (data : option (list Z)) | Einval.

(** The loop that fills [packet] with padding options; [i] is the position. *)
Fixpoint pad_loop (fuel : nat) (packet : list Z) (i totsize : Z) : outcome (list Z) :=
  match fuel with
  | O => Crash OutOfFuel
  | S fuel' =>
      if i <? totsize then
        let padlen := totsize - i in
        if padlen =? 1 then pad_loop fuel' (<[Z.to_nat i := OPT_PAD1]> packet) (i + 1) totsize
        else
          let padlen := padlen - 2 in
          let padlen := if 255 <? padlen then 255 else padlen in
          pad_loop fuel' (<[Z.to_nat (i + 1) := padlen]> (<[Z.to_nat i := OPT_PADN]> packet))
            (i + 2 + padlen) totsize
      else Done packet
  end.

(** [size] is an [unsigned], and so is [2 + size]. *)
Definition do_ipv6_option (hbh_dest : bool) (size : Z) : outcome option_call :=
  if size =? 0 then Done (SetOpt hbh_dest None)
  else
    let totsize := u32 (2 + size) in
    let totsize := if negb (totsize `mod` 8 =? 0) then totsize + (8 - totsize `mod` 8) else totsize in
    if PACKET_SIZE <? totsize then Done Einval
    else
      let ehlen := u64 (totsize / 8 - 1) in
      if 255 <? ehlen then Done Einval
      else
        let packet := <[1%nat := ehlen]> (replicate (Z.to_nat totsize) 0) in
        packet ← pad_loop (S (Z.to_nat totsize)) packet 2 totsize;
        Done (SetOpt hbh_dest (Some packet)).

(** ** Recorded responses: facts *)

Lemma le_bytes_length n z : length (le_bytes n z) = n.
Proof. revert z. induction n as [|n IH]; intros z; simpl; [done|]. by rewrite IH. Qed.

Lemma le_value_bytes n z : le_value (le_bytes n z) = z `mod` 256 ^ Z.of_nat n.
Proof.
  revert z. induction n as [|n IH]; intros z; cbn [le_bytes le_value]; [by rewrite Z.mod_1_r|].
  rewrite IH, Nat2Z.inj_succ, Z.pow_succ_r by lia. unfold u8. change (2 ^ 8) with 256.
  rewrite Z.rem_mul_r by lia. lia.
Qed.

Lemma le_int type : - 2 ^ 31 ≤ type < 2 ^ 31 → s32 (le_value (le_bytes sizeof_int type)) = type.
Proof.
  intros Ht. rewrite le_value_bytes. change (256 ^ Z.of_nat sizeof_int) with (2 ^ 32).
  unfold s32. Z.to_euclidean_division_equations. lia.
Qed.

Lemma read_n_app l r t : read_n (length l) (RS t (l ++ r)) = Done (l, RS t r).
Proof.
  unfold read_n. cbn [rest stored_type]. rewrite length_app.
  destruct (Nat.ltb_spec (length l + length r) (length l)); [lia|].
  by rewrite take_app_length, drop_app_length.
Qed.

(** A record at the head of the file. *)
Definition record (type : Z) (data : list Z) : list Z :=
  le_bytes sizeof_int type ++ le_bytes sizeof_size_t (zlen data) ++ data.

Lemma read_body type size data r :
  0 ≤ zlen data ≤ size → zlen data < 2 ^ 64 →
  (bytes ← read_n sizeof_size_t;
   let tmp_size := le_value bytes in
   if size <? tmp_size then mcrash Fatal else read_n (Z.to_nat tmp_size))
    (RS type (le_bytes sizeof_size_t (zlen data) ++ data ++ r)) = Done (data, RS type r).
Proof.
  intros Hs Hz. pose proof (read_n_app (le_bytes sizeof_size_t (zlen data)) (data ++ r) type) as E.
  rewrite le_bytes_length in E. rewrite (M_bind_done _ _ _ _ _ E). cbv zeta.
  rewrite le_value_bytes. change (256 ^ Z.of_nat sizeof_size_t) with (2 ^ 64). rewrite Z.mod_small by lia.
  destruct (Z.ltb_spec size (zlen data)); [lia|]. unfold zlen. rewrite Nat2Z.id. apply read_n_app.
Qed.

(** Reading, with or without the type already peeked at. *)
Lemma read_record (peeked : bool) type size data r :
  - 2 ^ 31 ≤ type < 2 ^ 31 → zlen data ≤ size → zlen data < 2 ^ 64 →
  read_response type size
    (if peeked then RS (Some type) (le_bytes sizeof_size_t (zlen data) ++ data ++ r)
     else RS None (record type data ++ r)) = Done (data, RS None r).
Proof.
  intros Ht Hs Hz. pose proof (zlen_nonneg data). unfold read_response, next_type, record.
  destruct peeked; msimpl; cbn [stored_type].
  - unfold clear_type. msimpl. cbn [rest]. rewrite Z.eqb_refl. cbn [negb]. by apply read_body.
  - msimpl. rewrite <- !app_assoc.
    pose proof (read_n_app (le_bytes sizeof_int type) (le_bytes sizeof_size_t (zlen data) ++ data ++ r) None) as E.
    rewrite le_bytes_length in E. rewrite (M_bind_done _ _ _ _ _ E). msimpl.
    rewrite le_int by done.
    rewrite Z.eqb_refl. cbn [negb]. by apply read_body.
Qed.

(** Peeking at a record. *)
Lemma peek_record type data r :
  - 2 ^ 31 ≤ type < 2 ^ 31 →
  peek_response (RS None (record type data ++ r)) =
  Done (type, RS (Some type) (le_bytes sizeof_size_t (zlen data) ++ data ++ r)).
Proof.
  intros Ht. unfold peek_response, record. msimpl. cbn [stored_type]. rewrite <- !app_assoc.
  pose proof (read_n_app (le_bytes sizeof_int type) (le_bytes sizeof_size_t (zlen data) ++ data ++ r) None) as E.
  rewrite le_bytes_length in E. rewrite (M_bind_done _ _ _ _ _ E). msimpl.
  by rewrite le_int.
Qed.

(** ** Theorems *)

(** Record and replay: what [write_response] appends is read back by
    [read_response] with the same type (into a buffer that is large enough), whether or
    not [peek_response] looked at it before, which then tells the type; the
    position is behind the record afterwards. *)
Theorem response_roundtrip type size data r :
  - 2 ^ 31 ≤ type < 2 ^ 31 → zlen data ≤ size → zlen data < 2 ^ 64 →
  read_response type size (RS None (write_response [] type data ++ r)) = Done (data, RS None r) ∧
  (t ← peek_response; d ← read_response t size; mret (t, d)) (RS None (write_response [] type data ++ r)) =
    Done ((type, data), RS None r).
Proof.
  intros Ht Hs Hz. unfold write_response. cbn [app]. fold (record type data). split.
  - by apply (read_record false).
  - rewrite (M_bind_done _ _ _ _ _ (peek_record type data r Ht)).
    by rewrite (M_bind_done _ _ _ _ _ (read_record true type size data r Ht Hs Hz)).
Qed.

Lemma response_roundtrip_witness :
  read_response 4 10 (RS None (write_response [] 4 [1; 2; 3] ++ [9])) = Done ([1; 2; 3], RS None [9]) ∧
  (t ← peek_response; d ← read_response t 10; mret (t, d)) (RS None (write_response [] 4 [1; 2; 3] ++ [9])) =
    Done ((4, [1; 2; 3]), RS None [9]).
Proof. apply (response_roundtrip 4 10 [1; 2; 3] [9]); unfold zlen; simpl; lia. Defined.

(** the two readers agree: [peek_response_file] and [read_response_file] (on
    a [FILE *]) do the same as [peek_response] and [read_response] (on a file
    descriptor) on every input, errors included. *)
Theorem read_response_file_equiv type size s :
  peek_response_file s = peek_response s ∧
  read_response_file type size s = read_response type size s.
Proof.
  split.
  - unfold peek_response_file, peek_response. msimpl. destruct (stored_type s) eqn:E; msimpl; [by rewrite E|].
    unfold mbind, M_bind. by destruct (read_n sizeof_int s) as [[bytes s1]|c].
  - unfold read_response_file, read_response, mbind, M_bind.
    destruct (next_type s) as [[t s1]|c]; [|done]. destruct (negb (t =? type)); [done|].
    destruct (read_n sizeof_size_t s1) as [[bytes s2]|c]; [|done].
    destruct (size <? le_value bytes); [done|].
    destruct (Z.eqb_spec (le_value bytes) 0) as [->|]; [|done]. simpl. unfold read_n. simpl.
    destruct s2 as [t2 r2]. simpl. by rewrite take_0, drop_0.
Qed.

(** ** IPv6 options: facts *)

(** The options part of an extension header: a sequence of Pad1 and PadN options
    with zeros inside that ends with the data. *)
Fixpoint options_ok (fuel : nat) (l : list Z) : bool :=
  match fuel with
  | O => false
  | S fuel' =>
      match l with
      | [] => true
      | 0 :: l' => options_ok fuel' l'
      | 1 :: n :: l' =>
          (0 <=? n) && (n <=? zlen l') && bool_decide (take (Z.to_nat n) l' = replicate (Z.to_nat n) 0) &&
          options_ok fuel' (drop (Z.to_nat n) l')
      | _ => false
      end
  end.

(** A well-formed padding header for at least [size] bytes of options: next header 0,
    length in units of eight bytes, options that fill it. *)
Definition header_ok (size : Z) (packet : list Z) : Prop :=
  zlen packet `mod` 8 = 0 ∧ 2 + size ≤ zlen packet < 2 + size + 8 ∧
  packet !! 0%nat = Some 0 ∧ packet !! 1%nat = Some (zlen packet / 8 - 1) ∧
  options_ok (length packet) (drop 2 packet) = true.

Lemma insert_here (pre l : list Z) x y : <[length pre := y]> (pre ++ x :: l) = pre ++ y :: l.
Proof. rewrite insert_app_r_alt by lia. by rewrite Nat.sub_diag. Qed.

(** One PadN step of the loop: the option written is [OPT_PADN], its length and
    that many zeros. *)
Lemma pad_loop_padn n fuel pre p :
  p = Nat.min 255 n →
  let pre' := pre ++ OPT_PADN :: Z.of_nat p :: replicate p 0 in
  pad_loop (S fuel) (pre ++ replicate (S (S n)) 0) (zlen pre) (zlen pre + Z.of_nat (S (S n))) =
    pad_loop fuel (pre' ++ replicate (n - p) 0) (zlen pre') (zlen pre' + Z.of_nat (n - p)).
Proof.
  intros Hp. cbv zeta. cbn [pad_loop].
  destruct (Z.ltb_spec (zlen pre) (zlen pre + Z.of_nat (S (S n)))); [|lia].
  rewrite (proj2 (Z.eqb_neq (zlen pre + Z.of_nat (S (S n)) - zlen pre) 1)) by lia.
  set (padlen := if 255 <? _ then 255 else _).
  assert (padlen = Z.of_nat p) as ->.
  { unfold padlen. destruct (Z.ltb_spec 255 (zlen pre + Z.of_nat (S (S n)) - zlen pre - 2)); lia. }
  replace (Z.to_nat (zlen pre)) with (length pre) by (unfold zlen; lia).
  replace (Z.to_nat (zlen pre + 1)) with (length (pre ++ [OPT_PADN]))
    by (rewrite length_app; unfold zlen; simpl; lia).
  cbn [replicate]. rewrite insert_here.
  replace (pre ++ OPT_PADN :: 0 :: replicate n 0) with ((pre ++ [OPT_PADN]) ++ 0 :: replicate n 0)
    by (by rewrite <- app_assoc).
  rewrite insert_here.
  replace (replicate n 0) with (replicate p 0 ++ replicate (n - p) 0)
    by (rewrite <- replicate_add; f_equal; lia).
  f_equal; [by rewrite <- !app_assoc| |]; unfold zlen; rewrite length_app; cbn [length];
    rewrite length_replicate; lia.
Qed.

(** Prefixing well-formed options with a PadN option keeps them well formed. *)
Lemma options_ok_padn f p opts :
  options_ok f opts = true →
  options_ok (S f) (OPT_PADN :: Z.of_nat p :: replicate p 0 ++ opts) = true.
Proof.
  intros Ho. cbn [options_ok]. unfold OPT_PADN. rewrite Nat2Z.id.
  rewrite take_app_length', drop_app_length' by (by rewrite length_replicate).
  rewrite bool_decide_true by done. rewrite Ho.
  rewrite zlen_app. unfold zlen at 1. rewrite length_replicate. pose proof (zlen_nonneg opts).
  rewrite (proj2 (Z.leb_le 0 (Z.of_nat p))) by lia.
  by rewrite (proj2 (Z.leb_le (Z.of_nat p) (Z.of_nat p + zlen opts))) by lia.
Qed.

Lemma pad_loop_ok n fuel pre :
  (n < fuel)%nat →
  ∃ opts, pad_loop fuel (pre ++ replicate n 0) (zlen pre) (zlen pre + Z.of_nat n) = Done (pre ++ opts) ∧
          length opts = n ∧ ∀ f, (n < f)%nat → options_ok f opts = true.
Proof.
  revert fuel pre. induction n as [n IH] using lt_wf_ind. intros [|fuel] pre Hf; [lia|].
  destruct n as [|[|n]].
  - cbn [pad_loop]. destruct (Z.ltb_spec (zlen pre) (zlen pre + Z.of_nat 0)); [lia|].
    exists []. split; [done|]. split; [done|]. by intros [|f]; [lia|].
  - cbn [pad_loop]. destruct (Z.ltb_spec (zlen pre) (zlen pre + Z.of_nat 1)); [|lia].
    rewrite (proj2 (Z.eqb_eq (zlen pre + Z.of_nat 1 - zlen pre) 1)) by lia.
    replace (Z.to_nat (zlen pre)) with (length pre) by (unfold zlen; lia).
    cbn [replicate]. rewrite insert_here.
    destruct (IH 0%nat ltac:(lia) fuel (pre ++ [OPT_PAD1]) ltac:(lia)) as (opts & E & Hl & Ho).
    rewrite zlen_app, app_nil_r in E. change (zlen [OPT_PAD1]) with 1 in E.
    replace (zlen pre + Z.of_nat 1) with (zlen pre + 1 + Z.of_nat 0) by lia.
    rewrite E. exists (OPT_PAD1 :: opts). rewrite <- app_assoc. split; [done|]. split; [simpl; lia|].
    intros [|f] Hf'; [lia|]. simpl. apply Ho. lia.
  - rewrite (pad_loop_padn _ _ _ _ eq_refl). set (p := Nat.min 255 n).
    destruct (IH (n - p)%nat ltac:(lia) fuel (pre ++ OPT_PADN :: Z.of_nat p :: replicate p 0) ltac:(lia))
      as (opts & -> & Hl & Ho).
    exists (OPT_PADN :: Z.of_nat p :: replicate p 0 ++ opts). split; [by rewrite <- app_assoc|].
    split; [cbn [length]; rewrite length_app, length_replicate; lia|].
    intros [|f] Hf'; [lia|]. apply options_ok_padn, Ho. lia.
Qed.

(** The padding header is well formed: for every size from 1 to 2046, the
    data [do_ipv6_option] hands to [setsockopt] is a whole number of eight-byte
    units just large enough, with the right length field, and its options part is
    filled exactly by Pad1 and PadN options; larger sizes (below 2^32-8) are
    refused with [EINVAL]. *)
Theorem do_ipv6_option_wellformed hbh_dest size :
  1 ≤ size < 2 ^ 32 - 8 →
  if size <=? 2046 then
    ∃ packet, do_ipv6_option hbh_dest size = Done (SetOpt hbh_dest (Some packet)) ∧ header_ok size packet
  else do_ipv6_option hbh_dest size = Done Einval.
Proof.
  intros Hs. unfold do_ipv6_option. destruct (Z.eqb_spec size 0); [lia|].
  rewrite u32_small by lia. cbv zeta.
  set (tot := if negb ((2 + size) `mod` 8 =? 0) then _ else _).
  assert (tot `mod` 8 = 0 ∧ 2 + size ≤ tot < 2 + size + 8) as [Hm Ht].
  { unfold tot. destruct (Z.eqb_spec ((2 + size) `mod` 8) 0); cbn [negb];
      Z.to_euclidean_division_equations; lia. }
  clearbody tot. unfold PACKET_SIZE.
  assert (tot / 8 * 8 = tot) as Hd by (Z.to_euclidean_division_equations; lia).
  assert (u64 (tot / 8 - 1) = tot / 8 - 1) as -> by (unfold u64; apply Z.mod_small; lia).
  destruct (Z.leb_spec size 2046).
  - destruct (Z.ltb_spec 4096 tot); [lia|]. destruct (Z.ltb_spec 255 (tot / 8 - 1)); [lia|].
    replace (<[1%nat := tot / 8 - 1]> (replicate (Z.to_nat tot) 0)) with
      ([0; tot / 8 - 1] ++ replicate (Z.to_nat (tot - 2)) 0).
    2: { replace (Z.to_nat tot) with (S (S (Z.to_nat (tot - 2)))) by lia. done. }
    destruct (pad_loop_ok (Z.to_nat (tot - 2)) (S (Z.to_nat tot)) [0; tot / 8 - 1]) as (opts & E & Hl & Ho); [lia|].
    change (zlen [0; tot / 8 - 1]) with 2 in E. rewrite Z2Nat.id in E by lia.
    replace (2 + (tot - 2)) with tot in E by lia. rewrite E. msimpl.
    eexists. split; [done|].
    assert (zlen ([0; tot / 8 - 1] ++ opts) = tot) as Hz.
    { rewrite zlen_app. unfold zlen at 2. rewrite Hl. change (zlen [0; tot / 8 - 1]) with 2. lia. }
    unfold header_ok. rewrite Hz. split; [done|]. split; [lia|]. split; [done|]. split; [done|].
    apply Ho. unfold zlen in Hz. lia.
  - destruct (Z.ltb_spec 4096 tot); [done|]. destruct (Z.ltb_spec 255 (tot / 8 - 1)); [done|lia].
Qed.

Lemma do_ipv6_option_wellformed_witness :
  ∃ packet, do_ipv6_option true 300 = Done (SetOpt true (Some packet)) ∧ header_ok 300 packet.
Proof. apply (do_ipv6_option_wellformed true 300). lia. Defined.
