(* ===== verification/Dns.v ===== *)
(** * DNS messages (probe-busybox/eperd/evtdig.c)

    Names ([ChangetoDnsNameFormat], [ReadName], [dns_namelen]), queries
    ([mk_dns_buff]), the search for an EDNS option in a reply ([get_rr_len],
    [get_edns_opt]), DNS cookies ([update_server_cookie]), the answer section of
    the report ([printReply]) and the matching of replies ([process_reply]).  A
    packet is a block of memory of which the first bytes were received. *)

From stdpp Require Import base list list_numbers numbers option strings.
From Stdlib Require Import ZArith Lia.
From S2P Require Import Prelude.

Open Scope Z_scope.

Definition MAX_DNS_BUF_SIZE : Z := 5120.
Definition MAX_DNS_OUT_BUF_SIZE : Z := 512.
Definition DEFAULT_LINE_LENGTH : nat := 256.
Definition EDNS_OPT_CLIENT_SUBNET : Z := 8.
Definition EDNS_OPT_COOKIE : Z := 10.
Definition DNS_CLIENT_COOKIE_LEN : Z := 8.
Definition DNS_SERVER_COOKIE_MIN_LEN : Z := 8.
Definition DNS_SERVER_COOKIE_MAX_LEN : Z := 32.
Definition MAXNS : Z := 3.

(** From [arpa/nameser.h]. *)
Definition ns_t_opt : Z := 41.
Definition T_SOA : Z := 6.
Definition T_TXT : Z := 16.

(** Sizes of the packed structures. *)
Definition sizeof_DNS_HEADER : Z := 12.
Definition sizeof_QUESTION : Z := 4.
Definition sizeof_EDNS0_HEADER : Z := 10.
Definition sizeof_EDNS_NSID : Z := 4.
Definition sizeof_EDNS_CLIENT_SUBNET : Z := 8.
Definition sizeof_R_DATA : Z := 10.

(** A byte, and a big-endian 16-bit number, of a packet. *)
Definition byte_at (p : blk Z) (i : Z) : outcome Z :=
  if i <? 0 then Crash Undefined else load p (Z.to_nat i).
Definition u16_at (p : blk Z) (i : Z) : outcome Z :=
  a ← byte_at p i; b ← byte_at p (i + 1); mret (Z.lor (a ≪ 8) b).
Definition put (p : blk Z) (i : Z) (l : list Z) : outcome (blk Z) := store p (Z.to_nat i) l.

(** ** Names *)

Definition dot : Z := 46.

(** [strchr(src, '.')]: the label before the first dot and the text behind it. *)
Fixpoint until_dot (src : list Z) : option (list Z * list Z) :=
  match src with
  | [] => None
  | c :: src' => if c =? dot then Some ([], src') else '(l, r) ← until_dot src'; Some (c :: l, r)
  end.

(** The loop over the labels; [None] stands for [return -1].  Every round takes
    a dot off [src]. *)
Fixpoint name_labels (fuel : nat) (src dst : list Z) : outcome (option (list Z)) :=
  match fuel with
  | O => Crash OutOfFuel
  | S fuel' =>
      match src with
      | [] => Done (Some (dst ++ [0]))
      | _ =>
          match until_dot src with
          | None => Done None
          | Some (label, src') =>
              if 63 <? zlen label then Done None
              else if zlen label =? 0 then Done None
              else name_labels fuel' src' (dst ++ [zlen label] ++ label)
          end
      end
  end.

(** [ChangetoDnsNameFormat]: the bytes written.  [dst < dns+maxlen] holds
    throughout because [qrylen+1 <= maxlen]. *)
Definition ChangetoDnsNameFormat (maxlen : Z) (qry : list Z) : outcome (option (list Z)) :=
  if maxlen <? zlen qry + 1 then Done None
  else if bool_decide (qry = [dot]) then Done (Some [0])
  else name_labels (S (length qry)) qry [].

(** [ReadName]: the loop.  [name] is what was copied so far ([p] is its
    length), each label with a dot behind it. *)
Fixpoint read_labels (fuel : nat) (base : blk Z) (size offset : Z) (name : list Z)
    (jumped : bool) (jump_count count : Z) : outcome (option (list Z) * Z) :=
  match fuel with
  | O => Crash OutOfFuel
  | S fuel' =>
      let finish :=
        Done (Some (take (length name - 1) name), if jumped then count else count + 1) in
      if negb (offset <? size) then finish
      else
        len ← byte_at base offset;
        if len =? 0 then finish
        else if negb (Z.land len 0xc0 =? 0) then
          if negb (Z.land len 0xc0 =? 0xc0) then Done (None, -1)
          else
            b ← byte_at base (offset + 1);
            let noffset := Z.lor (Z.land len 0x3f ≪ 8) b in
            if size <=? noffset then Done (None, -1)
            else if 256 <? jump_count then Done (None, -1)
            else
              read_labels fuel' base size noffset name true (jump_count + 1)
                (if jumped then count else count + 2)
        else if size <? offset + len + 1 then Done (None, -1)
        else if 255 <? zlen name + len + 1 then Done (None, -1)
        else
          label ← loadn base (Z.to_nat (offset + 1)) (Z.to_nat len);
          read_labels fuel' base size (offset + len + 1) (name ++ label ++ [dot]) jumped jump_count
            (if jumped then count else count + len + 1)
  end.

(** The name (without the last dot; [None] is [NULL]) and [*count].  257 jumps
    and 127 labels are the most that can happen. *)
Definition ReadName (base : blk Z) (size offset : Z) : outcome (option (list Z) * Z) :=
  read_labels 400 base size offset [] false 0 0.

(** [dns_namelen], -1 on an error. *)
Fixpoint namelen_loop (fuel : nat) (base : blk Z) (offset size : Z) : outcome (option Z) :=
  match fuel with
  | O => Crash OutOfFuel
  | S fuel' =>
      if negb (offset <? size) then Done (Some offset)
      else
        len ← byte_at base offset;
        if negb (Z.land len 0xc0 =? 0) then
          if negb (Z.land len 0xc0 =? 0xc0) then Done None else Done (Some (offset + 1))
        else if size <? offset + len + 1 then Done None
        else if len =? 0 then Done (Some (offset + len + 1))
        else namelen_loop fuel' base (offset + len + 1) size
  end.
Definition dns_namelen (base : blk Z) (offset size : Z) : outcome Z :=
  r ← namelen_loop (S (Z.to_nat (size - offset))) base offset size;
  mret (match r with Some o => o - offset | None => -1 end).

Definition get32b (p : blk Z) (i : Z) : outcome Z :=
  a ← byte_at p i; b ← byte_at p (i + 1); c ← byte_at p (i + 2); d ← byte_at p (i + 3);
  mret (Z.lor (Z.lor (Z.lor (a ≪ 24) (b ≪ 16)) (c ≪ 8)) d).

Definition ldns_write_uint16 (data : Z) : list Z :=
  [Z.land (data ≫ 8) 0xff; Z.land data 0xff].
Definition ldns_read_uint16 (p : list Z) : option Z :=
  match p with a :: b :: _ => Some (Z.lor (a ≪ 8) b) | _ => None end.

(** ** Resource records and EDNS options *)

(** The name of a record: how many bytes it takes; [None] stands for -1. *)
Fixpoint rr_name (fuel : nat) (packet : blk Z) (offset name_len len : Z) : outcome (option Z) :=
  match fuel with
  | O => Crash OutOfFuel
  | S fuel' =>
      if len <=? offset + name_len then Done None
      else
        label_len ← byte_at packet (offset + name_len);
        if 63 <? label_len then
          if label_len <? 192 then Done None else Done (Some (name_len + 2))
        else if label_len =? 0 then Done (Some (name_len + 1))
        else rr_name fuel' packet offset (name_len + label_len + 1) len
  end.

(** [get_rr_len]: the length of the name and of the whole record. *)
Definition get_rr_len (packet : blk Z) (offset len : Z) (question : bool) : outcome (option (Z * Z)) :=
  n ← rr_name (S (Z.to_nat (len - offset))) packet offset 0 len;
  match n with
  | None => Done None
  | Some name_len =>
      if question then Done (Some (name_len, name_len + 2 + 2))
      else
        let rr_len := name_len + 2 + 2 + 4 in
        if len <? offset + rr_len + 2 then Done None
        else
          rdlength ← u16_at packet (offset + rr_len);
          Done (Some (name_len, rr_len + (2 + rdlength)))
  end.

(** The loop over the records: the place and length of the data of the first
    OPT record. *)
Fixpoint find_opt_rr (n : nat) (qcount : Z) (i : Z) (packet : blk Z) (o packlen : Z)
    : outcome (option (Z * Z)) :=
  match n with
  | O => Done None
  | S n' =>
      let is_question := i <? qcount in
      l ← get_rr_len packet o packlen is_question;
      match l with
      | None => Done None
      | Some (namelen, l) =>
          let rr_o := o + namelen in
          let rdata_o := rr_o + 2 + 2 + 4 + 2 in
          let rdlen := o + l - rdata_o in
          let next := find_opt_rr n' qcount (i + 1) packet (o + l) packlen in
          if is_question then next
          else if negb (namelen =? 1) then next
          else
            type ← u16_at packet rr_o;
            if negb (type =? ns_t_opt) then next else Done (Some (rdata_o, rdlen))
      end
  end.

(** The loop over the options of the record. *)
Fixpoint find_option (fuel : nat) (target_code : Z) (packet : blk Z) (rdata_o rdlen opt_o : Z)
    : outcome (option (Z * Z)) :=
  match fuel with
  | O => Crash OutOfFuel
  | S fuel' =>
      if negb (opt_o + 4 <=? rdlen) then Done None
      else
        opt_code ← u16_at packet (rdata_o + opt_o);
        opt_len ← u16_at packet (rdata_o + opt_o + 2);
        if rdlen <? opt_o + 4 + opt_len then Done None
        else if opt_code =? target_code then Done (Some (rdata_o + opt_o + 4, opt_len))
        else find_option fuel' target_code packet rdata_o rdlen (opt_o + 4 + opt_len)
  end.

(** [get_edns_opt]: offset and length of the option, [None] for -1. *)
Definition get_edns_opt (target_code : Z) (packet : blk Z) (packlen : Z) : outcome (option (Z * Z)) :=
  qcount ← u16_at packet 4;
  ancount ← u16_at packet 6;
  nscount ← u16_at packet 8;
  arcount ← u16_at packet 10;
  let recs_to_skip := qcount + ancount + nscount + arcount in
  rr ← find_opt_rr (Z.to_nat recs_to_skip) qcount 0 packet sizeof_DNS_HEADER packlen;
  match rr with
  | None => Done None
  | Some (rdata_o, rdlen) => find_option (S (Z.to_nat rdlen)) target_code packet rdata_o rdlen 0
  end.

(** ** Queries *)

(** [struct dns_cookie_state]; a server cookie is its [len] and the 32 bytes
    of its buffer. *)
Record server_cookie := SC { sc_len : Z; sc_cookie : list Z }.
Record dns_cookie_state := CS {
  client_secret : list Z;
  client_cookie : list Z;
  server_cookies : list server_cookie
}.

(** The fields of [struct query_state] that a query depends on.  [recording]
    tells whether [response_in] or [response_out] is set. *)
Record query_state := Q {
  qryid : Z;
  opt_AF_INET : bool;
  opt_edns0 : Z;
  opt_edns_version : Z;
  opt_edns_flags : Z;
  opt_edns_option : Z;
  opt_dnssec : bool;
  opt_nsid : bool;
  opt_client_subnet : bool;
  opt_cookies : bool;
  opt_resolv_conf : bool;
  opt_rd : bool;
  opt_ad : bool;
  opt_cd : bool;
  opt_prepend_probe_id : bool;
  resolv_i : Z;
  client_cookie_mismatch : bool;
  qtype : Z;
  qclass : Z;
  lookupname : list Z;
  recording : bool;
  pktsize : Z;
  xmit_time : Z;
  cookie_state : dns_cookie_state
}.

Definition set_query (id size : Z) (cs : dns_cookie_state) (q : query_state) : query_state :=
  Q id (opt_AF_INET q) (opt_edns0 q) (opt_edns_version q) (opt_edns_flags q) (opt_edns_option q)
    (opt_dnssec q) (opt_nsid q) (opt_client_subnet q) (opt_cookies q) (opt_resolv_conf q) (opt_rd q)
    (opt_ad q) (opt_cd q) (opt_prepend_probe_id q) (resolv_i q) (client_cookie_mismatch q) (qtype q)
    (qclass q) (lookupname q) (recording q) size (xmit_time q) cs.
Definition set_cookies (mismatch : bool) (cs : dns_cookie_state) (q : query_state) : query_state :=
  Q (qryid q) (opt_AF_INET q) (opt_edns0 q) (opt_edns_version q) (opt_edns_flags q) (opt_edns_option q)
    (opt_dnssec q) (opt_nsid q) (opt_client_subnet q) (opt_cookies q) (opt_resolv_conf q) (opt_rd q)
    (opt_ad q) (opt_cd q) (opt_prepend_probe_id q) (resolv_i q) mismatch (qtype q)
    (qclass q) (lookupname q) (recording q) (pktsize q) (xmit_time q) cs.

(** [struct DNS_HEADER] of a query (its bit fields on a little-endian machine). *)
Definition query_header (q : query_state) (id add_count : Z) : list Z :=
  let b (x : bool) (k : Z) := if x then 1 ≪ k else 0 in
  be16 id ++ [b (opt_resolv_conf q || opt_rd q) 0; b (opt_cd q) 4 + b (opt_ad q) 5] ++
  be16 1 ++ be16 0 ++ be16 0 ++ be16 add_count.

(** Whether the query carries an OPT record. *)
Definition wants_edns (q : query_state) : bool :=
  opt_nsid q || opt_client_subnet q || opt_cookies q || opt_dnssec q || (512 <? opt_edns0 q) ||
  negb (opt_edns_version q =? 0) || negb (opt_edns_flags q =? 0) || negb (opt_edns_option q =? 0).

Section Query.
(** [random()], [get_probe_id()], SHA-256, and the bytes that are hashed for the
    local address and for [&qry->res->ai_addr]. *)
Context (random probe_id : Z) (sha256 : list Z → list Z) (local_addr remote_bytes : list Z).

(** ["%d.%llu.%s"]; the buffer has room for [DEFAULT_LINE_LENGTH] and the
    size of a pointer. *)
Definition prepended_name (q : query_state) : list Z :=
  take (DEFAULT_LINE_LENGTH + 8 - 2)
    (print_dec (Z.max probe_id 0) ++ [dot] ++ print_dec (xmit_time q) ++ [dot] ++ lookupname q).

(** Adds [n] to the length of the data of the OPT record at [e]. *)
Definition grow_rdlen (packet : blk Z) (e n : Z) : outcome (blk Z) :=
  rdlen ← u16_at packet (e + 8);
  put packet (e + 8) (be16 (u16 (rdlen + n))).

(** The server the cookie is for. *)
Definition server_index (q : query_state) : nat :=
  if opt_resolv_conf q then Z.to_nat (resolv_i q) else 0.

(** The cookie option: the packet, its size and the cookies afterwards. *)
Definition put_cookies (q : query_state) (packet : blk Z) (e size : Z) : outcome (blk Z * Z * dns_cookie_state) :=
  let cs := cookie_state q in
  let hash := sha256 (local_addr ++ remote_bytes ++ client_secret cs) in
  let client := drop (length hash - Z.to_nat DNS_CLIENT_COOKIE_LEN) hash in
  packet ← put packet (size + 4) client;
  match server_cookies cs !! server_index q with
  | None => Crash Undefined
  | Some sc =>
      oassert ((0 <=? sc_len sc) && (sc_len sc <=? DNS_SERVER_COOKIE_MAX_LEN));;
      packet ← put packet (size + 12) (take (Z.to_nat (sc_len sc)) (sc_cookie sc));
      let cookie_opt_len := 12 + sc_len sc in
      packet ← grow_rdlen packet e cookie_opt_len;
      packet ← put packet size (be16 EDNS_OPT_COOKIE ++ be16 (cookie_opt_len - 4));
      Done (packet, size + cookie_opt_len, CS (client_secret cs) client (server_cookies cs))
  end.

(** An option without data. *)
Definition put_empty_option (packet : blk Z) (e size code : Z) : outcome (blk Z * Z) :=
  packet ← grow_rdlen packet e sizeof_EDNS_NSID;
  packet ← put packet size (be16 code ++ be16 0);
  Done (packet, size + sizeof_EDNS_NSID).

(** The client subnet option, with an empty prefix. *)
Definition put_client_subnet (q : query_state) (packet : blk Z) (e size : Z) : outcome (blk Z * Z) :=
  packet ← grow_rdlen packet e sizeof_EDNS_CLIENT_SUBNET;
  packet ← put packet size (be16 EDNS_OPT_CLIENT_SUBNET ++ be16 4 ++
                            be16 (if opt_AF_INET q then 1 else 2) ++ [0; 0]);
  Done (packet, size + sizeof_EDNS_CLIENT_SUBNET).

(** The name and the fixed fields of the OPT record; [_edns_ercode] is not
    written. *)
Definition put_opt_header (q : query_state) (packet : blk Z) (size : Z) : outcome (blk Z) :=
  packet ← put packet size [0];
  let e := size + 1 in
  packet ← put packet e (be16 ns_t_opt ++ be16 (opt_edns0 q));
  packet ← put packet (e + 5) [u8 (opt_edns_version q)];
  put packet (e + 6) (be16 (Z.lor (u16 (opt_edns_flags q)) (if opt_dnssec q then 0x8000 else 0)) ++ be16 0).

(** The OPT record behind the question. *)
Definition put_edns (q : query_state) (packet : blk Z) (size : Z) : outcome (blk Z * Z * dns_cookie_state) :=
  packet ← put_opt_header q packet size;
  let e := size + 1 in
  let size := e + sizeof_EDNS0_HEADER in
  '(packet, size) ← (if opt_nsid q then put_empty_option packet e size 3 else Done (packet, size));
  '(packet, size) ← (if opt_client_subnet q then put_client_subnet q packet e size else Done (packet, size));
  '(packet, size, cs) ← (if opt_cookies q then put_cookies q packet e size
                         else Done (packet, size, cookie_state q));
  '(packet, size) ← (if negb (opt_edns_option q =? 0) then put_empty_option packet e size (opt_edns_option q)
                     else Done (packet, size));
  Done (packet, size, cs).

(** [mk_dns_buff]: 0 or -1, the query afterwards and the packet. *)
Definition mk_dns_buff (q : query_state) (packet : blk Z) (packetlen : Z)
    : outcome (Z * query_state * blk Z) :=
  let id := if recording q then 12345 else u16 (Z.rem random 65535) in
  packet ← put packet 0 (query_header q id 0);
  if packetlen <? sizeof_DNS_HEADER + 255 + sizeof_QUESTION + 1 + sizeof_EDNS0_HEADER +
                  sizeof_EDNS_NSID + sizeof_EDNS_CLIENT_SUBNET then Crash Fatal
  else
    qname ← ChangetoDnsNameFormat 255 (if opt_prepend_probe_id q then prepended_name q else lookupname q);
    match qname with
    | None => Done (-1, set_query id (pktsize q) (cookie_state q) q, packet)
    | Some name =>
        packet ← put packet sizeof_DNS_HEADER name;
        let qinfo := sizeof_DNS_HEADER + zlen name in
        packet ← put packet qinfo (be16 (qtype q) ++ be16 (qclass q));
        let size := qinfo + sizeof_QUESTION in
        if wants_edns q then
          '(packet, size, cs) ← put_edns q packet size;
          packet ← put packet 10 (be16 1);
          Done (0, set_query id size cs q, packet)
        else Done (0, set_query id size (cookie_state q) q, packet)
    end.
End Query.

(** ** Replies *)

(** [update_server_cookie] *)
Definition update_server_cookie (q : query_state) (packet : blk Z) (packlen : Z) : outcome query_state :=
  let cs := cookie_state q in
  let ind := server_index q in
  match server_cookies cs !! ind with
  | None => Crash Undefined
  | Some sc =>
      let wiped := CS (client_secret cs) (client_cookie cs) (<[ind := SC 0 (sc_cookie sc)]> (server_cookies cs)) in
      opt ← get_edns_opt EDNS_OPT_COOKIE packet packlen;
      match opt with
      | None => Done (set_cookies (client_cookie_mismatch q) wiped q)
      | Some (optoff, optlen) =>
          if (optlen <? DNS_CLIENT_COOKIE_LEN + DNS_SERVER_COOKIE_MIN_LEN) ||
             (DNS_CLIENT_COOKIE_LEN + DNS_SERVER_COOKIE_MAX_LEN <? optlen) then
            Done (set_cookies (client_cookie_mismatch q) wiped q)
          else
            got ← loadn packet (Z.to_nat optoff) (Z.to_nat DNS_CLIENT_COOKIE_LEN);
            if negb (bool_decide (client_cookie cs = got)) then Done (set_cookies true wiped q)
            else
              let len := optlen - DNS_CLIENT_COOKIE_LEN in
              bytes ← loadn packet (Z.to_nat (optoff + DNS_CLIENT_COOKIE_LEN)) (Z.to_nat len);
              Done (set_cookies (client_cookie_mismatch q)
                      (CS (client_secret cs) (client_cookie cs)
                         (<[ind := SC len (bytes ++ drop (length bytes) (sc_cookie sc))]> (server_cookies cs))) q)
      end
  end.

(** *** The report *)

(** [snprintf(line, DEFAULT_LINE_LENGTH, ...)]: longer text is cut off. *)
Definition sn (text : list Z) : list Z := take (DEFAULT_LINE_LENGTH - 1) text.
Definition str (s : string) : list Z := bytes_of_string s.

(** The macros [JS], [JSDOT], [JU] and [JU_NC]; ["%s"] stops at a NUL. *)
Definition quote : list Z := [34].
Definition JS (key : string) (val : list Z) : list Z :=
  sn (quote ++ str key ++ quote ++ str " : " ++ quote ++ cstr val ++ quote ++ str " , ").
Definition JSDOT (key : string) (val : list Z) : list Z :=
  sn (quote ++ str key ++ quote ++ str " : " ++ quote ++ cstr val ++ [dot] ++ quote ++ str " , ").
Definition JU (key : string) (val : Z) : list Z :=
  sn (quote ++ str key ++ quote ++ str " : " ++ print_dec val ++ str " , ").
Definition JU_NC (key : string) (val : Z) : list Z :=
  sn (quote ++ str key ++ quote ++ str " : " ++ print_dec val).

(** ["\\\\%03d"]: two backslashes and three digits. *)
Definition escaped (c : Z) : list Z := [92; 92; 48 + c / 100; 48 + (c / 10) `mod` 10; 48 + c `mod` 10].
Definition txt_char (c : Z) : list Z :=
  if (c =? 34) || (c =? 92) then escaped c
  else if (32 <=? c) && (c <=? 126) then [c]
  else escaped c.

(** The loop of [print_txt_json]; [len] is -1 when a length byte is next. *)
Fixpoint txt_loop (rdata : list Z) (len : Z) : list Z :=
  match rdata with
  | [] => []
  | c :: rdata' =>
      let sep := if len =? 0 then quote ++ str ", " ++ quote else [] in
      let len := if len =? 0 then -1 else len in
      sep ++ (if len =? -1 then txt_loop rdata' c else txt_char c ++ txt_loop rdata' (len - 1))
  end.
Definition print_txt_json (rdata : list Z) : list Z :=
  quote ++ str "RDATA" ++ quote ++ str " : [ " ++ quote ++ txt_loop rdata (-1) ++ quote ++ str " ] ".

(** One answer at [offset]: what is printed for it ([None] when it is of
    another type) and where the next one starts; [inl] when the packet is cut
    off, with what was printed before. *)
Inductive answer_step := Truncated | Answer (text : option (list Z)) (offset : Z).

Definition read_txt (result : blk Z) (wire_size offset data_len : Z) (name : list Z) (flag : Z)
    : outcome answer_step :=
  if wire_size <? offset + data_len then Done Truncated
  else
    rdata ← loadn result (Z.to_nat offset) (Z.to_nat data_len);
    Done (Answer (Some ((if flag =? 0 then str "," ++ quote ++ str "answers" ++ quote ++ str " : [ {"
                         else str ", {") ++
                        JS "TYPE" (str "TXT") ++ JS "NAME" name ++ print_txt_json rdata ++ str "}"))
                 (offset + data_len)).

Definition read_soa (result : blk Z) (wire_size offset ttl : Z) (name : list Z) (flag : Z)
    : outcome answer_step :=
  '(name1, stop) ← ReadName result wire_size offset;
  match name1 with
  | None => Done Truncated
  | Some name1 =>
      let offset := offset + stop in
      '(name2, stop) ← ReadName result wire_size offset;
      match name2 with
      | None => Done Truncated
      | Some name2 =>
          let offset := offset + stop in
          if wire_size <? offset + 5 * 4 then Done Truncated
          else
            serial ← get32b result offset;
            Done (Answer (Some ((if flag =? 0 then str "," ++ quote ++ str "answers" ++ quote ++ str " : [ { "
                                 else str ",{ ") ++
                                JS "TYPE" (str "SOA") ++ JSDOT "NAME" name ++ JU "TTL" ttl ++
                                JSDOT "MNAME" name1 ++ JSDOT "RNAME" name2 ++ JU_NC "SERIAL" serial ++
                                str " } "))
                         (offset + 4 + 4 * 4))
      end
  end.

Definition read_answer (result : blk Z) (wire_size offset flag : Z) : outcome answer_step :=
  '(name, stop) ← ReadName result wire_size offset;
  match name with
  | None => Done Truncated
  | Some name =>
      let offset := offset + stop in
      if wire_size <? offset + sizeof_R_DATA then Done Truncated
      else
        type ← u16_at result offset;
        ttl ← get32b result (offset + 4);
        data_len ← u16_at result (offset + 8);
        let offset := offset + sizeof_R_DATA in
        if type =? T_TXT then read_txt result wire_size offset data_len name flag
        else if type =? T_SOA then read_soa result wire_size offset ttl name flag
        else if wire_size <? offset + data_len then Done Truncated
        else Done (Answer None (offset + data_len))
  end.

(** The loop over the first [iMax] answers; [flag] counts the answers printed. *)
Fixpoint read_answers (n : nat) (result : blk Z) (wire_size offset flag : Z) : outcome (list Z) :=
  match n with
  | O => Done (if 0 <? flag then str " ]" else [])
  | S n' =>
      a ← read_answer result wire_size offset flag;
      match a with
      | Truncated => Done []
      | Answer None offset => read_answers n' result wire_size offset flag
      | Answer (Some text) offset =>
          rest ← read_answers n' result wire_size offset (flag + 1);
          Done (text ++ rest)
      end
  end.

(** The part of [printReply] that reports on the contents of the reply, from the
    check of its size to the label [truncated]. *)
Definition reply_contents (result : blk Z) (wire_size : Z) : outcome (list Z) :=
  text ←
    (if wire_size <? sizeof_DNS_HEADER then Done []
     else
       id ← u16_at result 0;
       qdcount ← u16_at result 4;
       ancount ← u16_at result 6;
       nscount ← u16_at result 8;
       arcount ← u16_at result 10;
       let head := str "," ++ JU "ID" id ++ JU "ANCOUNT" ancount ++ JU "QDCOUNT" qdcount ++
                   JU "NSCOUNT" nscount ++ JU_NC "ARCOUNT" arcount in
       len ← dns_namelen result sizeof_DNS_HEADER wire_size;
       if len =? -1 then Done head
       else
         let offset := sizeof_DNS_HEADER + len + sizeof_QUESTION in
         if wire_size <? offset then Done head
         else if ancount =? 0 then Done head
         else
           answers ← read_answers (Z.to_nat (Z.min 2 ancount)) result wire_size offset 0;
           Done (head ++ answers));
  Done (text ++ str " }").

(** [process_reply]: the counters of [struct tdig_base] it touches and, when the
    reply is the one that is waited for, the query after its cookie was
    updated; [printReply] is called with the packet then. *)
Record counters := C { recvok : Z; martian : Z; shortpkt : Z; recvbytes : Z }.

Definition process_reply (c : counters) (q : query_state) (packet : blk Z) (nrecv : Z)
    : outcome (counters * option query_state) :=
  if nrecv <? sizeof_DNS_HEADER then
    Done (C (recvok c) (martian c) (u32 (shortpkt c + 1)) (recvbytes c), None)
  else
    let c := C (u32 (recvok c + 1)) (martian c) (shortpkt c) (recvbytes c) in
    id ← u16_at packet 0;
    if negb (id =? qryid q) then
      Done (C (recvok c) (u32 (martian c + 1)) (shortpkt c) (recvbytes c), None)
    else
      let c := C (recvok c) (martian c) (shortpkt c) (u32 (recvbytes c + nrecv)) in
      q ← (if opt_cookies q then update_server_cookie q packet nrecv else Done q);
      Done (c, Some q).
