(* ===== verification/DnsProofs.v ===== *)
(** * Correctness of the DNS code

    Names: what [ChangetoDnsNameFormat] writes, and what any compressed name of
    a packet denotes, is what [ReadName] reads; it always comes to an end.  The
    report on a reply never leaves the packet (by more than one byte).  Queries
    have the layout of the protocol, and their options are found again by the
    reader of replies.  Cookies keep their invariant, so that building a query
    never fails. *)

From stdpp Require Import base list list_numbers numbers option strings.
From Stdlib Require Import ZArith Lia.
From S2P Require Import Prelude Bits Blocks Dns.

Open Scope Z_scope.

(** ** Bytes of a packet *)

(** A check of all 256 bytes. *)
Lemma byte_forall (P : Z → bool) :
  forallb P (seqZ 0 256) = true → ∀ b, is_byte b → P b = true.
Proof.
  intros H b Hb. rewrite forallb_forall in H. apply H, list_elem_of_In, elem_of_seqZ.
  unfold is_byte in Hb. lia.
Qed.

Lemma land_c0 b :
  is_byte b →
  (Z.land b 0xc0 =? 0) = (b <? 64) ∧ (Z.land b 0xc0 =? 0xc0) = (192 <=? b) ∧ Z.land b 0x3f = b `mod` 64.
Proof.
  intros Hb.
  pose proof (byte_forall (λ b, Bool.eqb (Z.land b 0xc0 =? 0) (b <? 64) &&
    Bool.eqb (Z.land b 0xc0 =? 0xc0) (192 <=? b) && (Z.land b 0x3f =? b `mod` 64)) eq_refl b Hb) as H.
  apply andb_true_iff in H as [[H1 H2]%andb_true_iff H3].
  by apply Bool.eqb_prop in H1, H2; apply Z.eqb_eq in H3.
Qed.

Section Packet.
Context (p : list Z) (tl : blk Z).
Abbreviation pkt := ((Some <$> p) ++ tl).

Lemma byte_at_lookup i b : 0 ≤ i → p !! Z.to_nat i = Some b → byte_at pkt i = Done b.
Proof.
  intros Hi E. unfold byte_at. destruct (Z.ltb_spec i 0); [lia|]. by apply load_cells.
Qed.

Lemma byte_at_in i :
  Forall is_byte p → 0 ≤ i < zlen p →
  ∃ b, p !! Z.to_nat i = Some b ∧ byte_at pkt i = Done b ∧ is_byte b.
Proof.
  intros Hp Hi. unfold zlen in Hi. destruct (lookup_lt_is_Some_2 p (Z.to_nat i)) as [b Hb]; [lia|].
  exists b. split; [done|]. split; [apply byte_at_lookup; [lia|done]|]. by eapply Forall_lookup_1.
Qed.

Lemma u16_at_in i :
  Forall is_byte p → 0 ≤ i → i + 2 ≤ zlen p → ∃ v, u16_at pkt i = Done v ∧ 0 ≤ v < 2 ^ 16.
Proof.
  intros Hp Hi Hi2. destruct (byte_at_in i Hp ltac:(lia)) as (a & _ & Ea & Ha).
  destruct (byte_at_in (i + 1) Hp ltac:(lia)) as (b & _ & Eb & Hb).
  unfold u16_at. rewrite Ea, obind_done, Eb, obind_done. eexists. split; [done|].
  unfold is_byte in *. rewrite be16_join by lia. lia.
Qed.

Lemma get32b_in i :
  Forall is_byte p → 0 ≤ i → i + 4 ≤ zlen p → ∃ v, get32b pkt i = Done v.
Proof.
  intros Hp Hi Hi2. unfold get32b.
  destruct (byte_at_in i Hp ltac:(lia)) as (a & _ & -> & _).
  destruct (byte_at_in (i + 1) Hp ltac:(lia)) as (b & _ & -> & _).
  destruct (byte_at_in (i + 2) Hp ltac:(lia)) as (c & _ & -> & _).
  destruct (byte_at_in (i + 3) Hp ltac:(lia)) as (d & _ & -> & _). msimpl. by eexists.
Qed.

Lemma loadn_in i n :
  0 ≤ i → 0 ≤ n → i + n ≤ zlen p →
  loadn pkt (Z.to_nat i) (Z.to_nat n) = Done (take (Z.to_nat n) (drop (Z.to_nat i) p)).
Proof. intros Hi Hn Hin. apply loadn_slice. unfold zlen in *. lia. Qed.
End Packet.

(** [l] is in the packet at offset [i]. *)
Definition at_off (p : list Z) (i : Z) (l : list Z) : Prop :=
  ∃ pre post, p = pre ++ l ++ post ∧ i = zlen pre.

Lemma at_off_intro pre l post i : i = zlen pre → at_off (pre ++ l ++ post) i l.
Proof. intros ->. by exists pre, post. Qed.

Lemma at_off_app p i l1 l2 : at_off p i (l1 ++ l2) → at_off p i l1 ∧ at_off p (i + zlen l1) l2.
Proof.
  intros (pre & post & -> & ->). rewrite <- app_assoc. split; [by exists pre, (l2 ++ post)|].
  exists (pre ++ l1), post. rewrite <- app_assoc. by rewrite zlen_app.
Qed.

Lemma at_off_bound p i l : at_off p i l → 0 ≤ i ∧ i + zlen l ≤ zlen p.
Proof.
  intros (pre & post & -> & ->). rewrite !zlen_app. pose proof (zlen_nonneg pre).
  pose proof (zlen_nonneg post). lia.
Qed.

Lemma at_off_byte p tl i b l : at_off p i (b :: l) → byte_at ((Some <$> p) ++ tl) i = Done b.
Proof.
  intros (pre & post & -> & ->). apply byte_at_lookup; [apply zlen_nonneg|].
  unfold zlen. rewrite Nat2Z.id. by apply list_lookup_middle.
Qed.

Lemma at_off_cons p i b l : at_off p i (b :: l) → at_off p (i + 1) l.
Proof. intros H. change (b :: l) with ([b] ++ l) in H. by apply at_off_app in H as [_ H]. Qed.

Lemma at_off_loadn p tl i l :
  at_off p i l → loadn ((Some <$> p) ++ tl) (Z.to_nat i) (length l) = Done l.
Proof.
  intros (pre & post & -> & ->). unfold zlen. rewrite Nat2Z.id, loadn_slice by (rewrite !length_app; lia).
  by rewrite drop_app_length, take_app_length.
Qed.

Lemma at_off_u16 p tl i v l :
  at_off p i (be16 v ++ l) → 0 ≤ v < 2 ^ 16 → u16_at ((Some <$> p) ++ tl) i = Done v.
Proof.
  intros H Hv. unfold u16_at, be16 in *. cbn [app] in H. rewrite (at_off_byte _ _ _ _ _ H), obind_done.
  rewrite (at_off_byte _ _ _ _ _ (at_off_cons _ _ _ _ H)), obind_done. by rewrite be16_value.
Qed.

(** ** Names *)

Definition label_ok (l : list Z) : Prop := 1 ≤ zlen l ≤ 63.
(** A name in DNS format, and as text with a dot behind each label. *)
Definition wire_name (ls : list (list Z)) : list Z := mjoin ((λ l, zlen l :: l) <$> ls) ++ [0].
Definition text_name (ls : list (list Z)) : list Z := mjoin ((λ l, l ++ [dot]) <$> ls).
(** Without the last dot. *)
Definition shown_name (name : list Z) : list Z := take (length name - 1) name.

Lemma text_name_cons l ls : text_name (l :: ls) = l ++ [dot] ++ text_name ls.
Proof. unfold text_name. cbn [fmap list_fmap mjoin list_join]. by rewrite <- app_assoc. Qed.
Lemma wire_name_cons l ls : wire_name (l :: ls) = [zlen l] ++ l ++ wire_name ls.
Proof. unfold wire_name. cbn [fmap list_fmap mjoin list_join app]. by rewrite <- app_assoc. Qed.

Lemma zlen_wire ls : zlen (wire_name ls) = zlen (text_name ls) + 1.
Proof.
  induction ls as [|l ls IH]; [done|]. rewrite wire_name_cons, text_name_cons, !zlen_app, IH.
  change (zlen [zlen l]) with 1. change (zlen [dot]) with 1. lia.
Qed.

Lemma text_length ls : Forall label_ok ls → 2 * Z.of_nat (length ls) ≤ zlen (text_name ls).
Proof.
  induction 1 as [|l ls Hl _ IH]; [done|]. rewrite text_name_cons, !zlen_app.
  change (zlen [dot]) with 1. unfold label_ok in Hl. cbn [length]. lia.
Qed.

Lemma until_dot_label l rest : dot ∉ l → until_dot (l ++ [dot] ++ rest) = Some (l, rest).
Proof.
  induction l as [|c l IH]; intros Hd; [done|]. apply not_elem_of_cons in Hd as [Hc Hd].
  change (until_dot (c :: (l ++ [dot] ++ rest)) = Some (c :: l, rest)). cbn [until_dot].
  destruct (Z.eqb_spec c dot); [congruence|]. by rewrite IH.
Qed.

Lemma name_labels_ok fuel ls dst :
  Forall (λ l, label_ok l ∧ dot ∉ l) ls → (length ls < fuel)%nat →
  name_labels fuel (text_name ls) dst = Done (Some (dst ++ wire_name ls)).
Proof.
  revert fuel dst. induction ls as [|l ls IH]; intros [|fuel] dst Hls Hf; simpl in Hf; try lia; [done|].
  apply Forall_cons in Hls as [[Hl Hd] Hls]. rewrite text_name_cons, wire_name_cons. cbn [name_labels].
  rewrite until_dot_label by done. unfold label_ok in Hl.
  destruct l as [|c l]; [unfold zlen in Hl; simpl in Hl; lia|]. cbn [app].
  destruct (Z.ltb_spec 63 (zlen (c :: l))); [lia|]. destruct (Z.eqb_spec (zlen (c :: l)) 0); [lia|].
  rewrite IH by (done || lia). by rewrite <- !app_assoc.
Qed.

Lemma ChangetoDnsNameFormat_ok maxlen ls :
  Forall (λ l, label_ok l ∧ dot ∉ l) ls → zlen (text_name ls) + 1 ≤ maxlen →
  ChangetoDnsNameFormat maxlen (text_name ls) = Done (Some (wire_name ls)).
Proof.
  intros Hls Hm. unfold ChangetoDnsNameFormat. destruct (Z.ltb_spec maxlen (zlen (text_name ls) + 1)); [lia|].
  assert (Forall label_ok ls) as Hok by (eapply Forall_impl; [exact Hls|]; by intros ? []).
  pose proof (text_length ls Hok). case_bool_decide as E.
  - destruct ls as [|l ls]; [done|]. rewrite E in *. cbn [length] in *. unfold zlen in *. simpl in *. lia.
  - apply name_labels_ok; [done|]. unfold zlen in *. lia.
Qed.

(** [name_at p j i ls c]: at offset [i] of the packet there is a name with the
    labels [ls]; it follows [j] pointers and takes [c] bytes there. *)
Inductive name_at (p : list Z) : nat → Z → list (list Z) → Z → Prop :=
| name_end i : at_off p i [0] → name_at p 0 i [] 1
| name_label j i l ls c :
    label_ok l → at_off p i (zlen l :: l) → name_at p j (i + zlen l + 1) ls c →
    name_at p j i (l :: ls) (zlen l + 1 + c)
| name_pointer j i b1 b2 ls c :
    192 ≤ b1 < 256 → is_byte b2 → at_off p i [b1; b2] →
    name_at p j (b1 `mod` 64 * 256 + b2) ls c → name_at p (S j) i ls 2.

Lemma name_at_in p j i ls c : name_at p j i ls c → 0 ≤ i < zlen p.
Proof.
  destruct 1 as [i H|j i l ls c _ H _|j i b1 b2 ls c _ _ H _]; apply at_off_bound in H; unfold zlen in *;
    simpl in *; lia.
Qed.

Lemma read_labels_ok p tl j i ls c :
  name_at p j i ls c →
  ∀ fuel name (jumped : bool) jc count,
    zlen name + zlen (text_name ls) ≤ 255 → jc + Z.of_nat j ≤ 257 → (j + length ls < fuel)%nat →
    read_labels fuel ((Some <$> p) ++ tl) (zlen p) i name jumped jc count =
    Done (Some (shown_name (name ++ text_name ls)), if jumped then count else count + c).
Proof.
  intros Hat. induction Hat as [i H|j i l ls c Hl H Hn IH|j i b1 b2 ls c Hb1 Hb2 H Hn IH];
    intros [|fuel] name jumped jc count Hlen Hj Hf; try lia; cbn [read_labels].
  - pose proof (at_off_bound _ _ _ H) as Hi. change (zlen [0]) with 1 in Hi.
    destruct (Z.ltb_spec i (zlen p)); [|lia]. cbn [negb].
    rewrite (at_off_byte _ _ _ _ _ H), obind_done. cbn [Z.eqb]. by rewrite app_nil_r.
  - pose proof (at_off_bound _ _ _ H) as Hi. rewrite zlen_cons in Hi. unfold label_ok in Hl.
    destruct (Z.ltb_spec i (zlen p)); [|lia]. cbn [negb].
    rewrite (at_off_byte _ _ _ _ _ H), obind_done. destruct (Z.eqb_spec (zlen l) 0); [lia|].
    destruct (land_c0 (zlen l)) as (-> & _); [unfold is_byte; lia|].
    destruct (Z.ltb_spec (zlen l) 64); [|lia]. cbn [negb].
    destruct (Z.ltb_spec (zlen p) (i + zlen l + 1)); [lia|].
    rewrite text_name_cons, !zlen_app in Hlen. change (zlen [dot]) with 1 in Hlen.
    pose proof (zlen_nonneg (text_name ls)).
    destruct (Z.ltb_spec 255 (zlen name + zlen l + 1)); [lia|].
    replace (Z.to_nat (zlen l)) with (length l) by (unfold zlen; lia).
    rewrite (at_off_loadn _ _ _ _ (at_off_cons _ _ _ _ H)), obind_done.
    rewrite IH by (rewrite ?zlen_app; change (zlen [dot]) with 1; simpl in Hf; lia).
    rewrite text_name_cons, <- !app_assoc. destruct jumped; [done|]. do 2 f_equal. lia.
  - pose proof (at_off_bound _ _ _ H) as Hi. change (zlen [b1; b2]) with 2 in Hi.
    destruct (Z.ltb_spec i (zlen p)); [|lia]. cbn [negb].
    rewrite (at_off_byte _ _ _ _ _ H), obind_done. destruct (Z.eqb_spec b1 0); [lia|].
    destruct (land_c0 b1) as (-> & -> & ->); [unfold is_byte; lia|].
    destruct (Z.ltb_spec b1 64); [lia|]. destruct (Z.leb_spec 192 b1); [|lia]. cbn [negb].
    rewrite (at_off_byte _ _ _ _ _ (at_off_cons _ _ _ _ H)), obind_done.
    unfold is_byte in Hb2. rewrite be16_join by lia. apply name_at_in in Hn.
    destruct (Z.leb_spec (zlen p) (b1 `mod` 64 * 256 + b2)); [lia|].
    destruct (Z.ltb_spec 256 jc); [lia|]. rewrite IH by lia. by destruct jumped.
Qed.

Lemma ReadName_ok p tl j i ls c :
  name_at p j i ls c → Forall label_ok ls → zlen (text_name ls) ≤ 255 → (j ≤ 257)%nat →
  ReadName ((Some <$> p) ++ tl) (zlen p) i = Done (Some (shown_name (text_name ls)), c).
Proof.
  intros Hat Hls Hlen Hj. pose proof (text_length ls Hls). unfold ReadName.
  rewrite (read_labels_ok p tl j i ls c Hat); [done|change (zlen []) with 0; lia|lia|lia].
Qed.

(** A name without pointers. *)
Lemma name_at_wire p i ls :
  Forall label_ok ls → at_off p i (wire_name ls) → name_at p 0 i ls (zlen (wire_name ls)).
Proof.
  revert i. induction ls as [|l ls IH]; intros i Hls H; [by constructor|].
  apply Forall_cons in Hls as [Hl Hls]. rewrite wire_name_cons in H. rewrite app_assoc in H.
  apply at_off_app in H as [H1 H2]. rewrite wire_name_cons, !zlen_app. change (zlen [zlen l]) with 1.
  replace (1 + (zlen l + zlen (wire_name ls))) with (zlen l + 1 + zlen (wire_name ls)) by lia.
  apply name_label; [done|done|]. apply IH; [done|].
  rewrite zlen_app in H2. change (zlen [zlen l]) with 1 in H2.
  by replace (i + zlen l + 1) with (i + (1 + zlen l)) by lia.
Qed.

(** *** Any packet *)

(** What [ReadName] answers on an arbitrary packet: a name of at most 254 bytes
    and a count that leaves the packet by at most one byte, or an error. *)
Definition name_result (size i : Z) (r : option (list Z) * Z) : Prop :=
  match r with
  | (None, c) => c = -1
  | (Some n, c) => zlen n ≤ 254 ∧ 1 ≤ c ≤ Z.max 0 (size - i) + 1
  end.

Section AnyPacket.
Context (p : list Z) (x : Z) (tl : blk Z).
Context (Hp : Forall is_byte (p ++ [x])).
Abbreviation pkt := ((Some <$> (p ++ [x])) ++ tl).

Lemma zlen_snoc : zlen (p ++ [x]) = zlen p + 1.
Proof. by rewrite zlen_app. Qed.

Lemma zlen_shown name : zlen name ≤ 255 → zlen (shown_name name) ≤ 254.
Proof. intros H. unfold shown_name, zlen in *. rewrite length_take. lia. Qed.

Lemma read_labels_total fuel i name (jumped : bool) jc count :
  0 ≤ i → 0 ≤ jc ≤ 257 → zlen name ≤ 255 → (257 - jc) + (255 - zlen name) / 2 < Z.of_nat fuel →
  ∃ r c, read_labels fuel pkt (zlen p) i name jumped jc count = Done (r, c) ∧
    match r with
    | None => c = -1
    | Some n => zlen n ≤ 254 ∧
        if jumped then c = count else count + 1 ≤ c ≤ count + Z.max 0 (zlen p - i) + 1
    end.
Proof.
  pose proof zlen_snoc as Hz.
  revert i name jumped jc count. induction fuel as [|fuel IH]; intros i name jumped jc count Hi Hjc Hn Hf.
  { Z.to_euclidean_division_equations. lia. }
  cbn [read_labels]. destruct (Z.ltb_spec i (zlen p)) as [Hlt|Hge]; cbn [negb].
  2: { eexists _, _. split; [done|]. split; [by apply zlen_shown|]. destruct jumped; lia. }
  destruct (byte_at_in (p ++ [x]) tl i Hp ltac:(lia)) as (len & _ & -> & Hlen). rewrite obind_done.
  destruct (Z.eqb_spec len 0) as [|Hne].
  { eexists _, _. split; [done|]. split; [by apply zlen_shown|]. destruct jumped; lia. }
  destruct (land_c0 len Hlen) as (-> & -> & ->). unfold is_byte in Hlen.
  destruct (Z.ltb_spec len 64) as [Hl|Hl]; cbn [negb].
  - destruct (Z.ltb_spec (zlen p) (i + len + 1)); [by eexists _, _|].
    destruct (Z.ltb_spec 255 (zlen name + len + 1)); [by eexists _, _|].
    rewrite loadn_in by lia. rewrite obind_done.
    set (label := take _ _). assert (zlen label = len) as Hll.
    { unfold label, zlen. rewrite length_take, length_drop. unfold zlen in *. lia. }
    destruct (IH (i + len + 1) (name ++ label ++ [dot]) jumped jc (if jumped then count else count + len + 1))
      as (r & c & E & Hr); [lia|done|rewrite !zlen_app, Hll; change (zlen [dot]) with 1; lia| |].
    { rewrite !zlen_app, Hll. change (zlen [dot]) with 1. Z.to_euclidean_division_equations. lia. }
    exists r, c. split; [exact E|]. destruct r; [|done]. destruct Hr as [Hr1 Hr2]. split; [done|].
    destruct jumped; lia.
  - destruct (Z.leb_spec 192 len); cbn [negb]; [|by eexists _, _].
    destruct (byte_at_in (p ++ [x]) tl (i + 1) Hp ltac:(lia)) as (b & _ & -> & Hb). rewrite obind_done.
    unfold is_byte in Hb. rewrite be16_join by lia.
    destruct (Z.leb_spec (zlen p) (len `mod` 64 * 256 + b)); [by eexists _, _|].
    destruct (Z.ltb_spec 256 jc); [by eexists _, _|].
    pose proof (Z.mod_pos_bound len 64 ltac:(lia)).
    destruct (IH (len `mod` 64 * 256 + b) name true (jc + 1) (if jumped then count else count + 2))
      as (r & c & E & Hr); [lia|lia|done|lia|].
    exists r, c. split; [exact E|]. destruct r; [|done]. destruct Hr as [Hr1 ->]. split; [done|].
    destruct jumped; lia.
Qed.

Lemma ReadName_any i :
  0 ≤ i → ∃ r, ReadName pkt (zlen p) i = Done r ∧ name_result (zlen p) i r.
Proof.
  intros Hi. destruct (read_labels_total 400 i [] false 0 0) as (r & c & E & Hr); [done|lia|done|by vm_compute|].
  exists (r, c). split; [exact E|]. destruct r; [|done]. destruct Hr. split; [done|]. lia.
Qed.

Lemma dns_namelen_any i :
  0 ≤ i → ∃ n, dns_namelen pkt i (zlen p) = Done n ∧ (n = -1 ∨ 0 ≤ n).
Proof.
  intros Hi. pose proof zlen_snoc as Hz.
  assert (∀ fuel i, 0 ≤ i → Z.max 0 (zlen p - i) < Z.of_nat fuel →
    ∃ r, namelen_loop fuel pkt i (zlen p) = Done r ∧ match r with Some o => i ≤ o | None => True end) as H.
  { induction fuel as [|fuel IH]; intros k Hk Hf.
    - lia.
    - cbn [namelen_loop]. destruct (Z.ltb_spec k (zlen p)); cbn [negb]; [|eexists; split; [done|simpl; lia]].
      destruct (byte_at_in (p ++ [x]) tl k Hp ltac:(lia)) as (len & _ & -> & Hlen). rewrite obind_done.
      destruct (land_c0 len Hlen) as (-> & -> & _). unfold is_byte in Hlen.
      destruct (Z.ltb_spec len 64); cbn [negb].
      + destruct (Z.ltb_spec (zlen p) (k + len + 1)); [by eexists|].
        destruct (Z.eqb_spec len 0); [eexists; split; [done|simpl; lia]|].
        destruct (IH (k + len + 1)) as (r & E & Hr); [lia|lia|]. exists r. split; [done|].
        destruct r; [lia|done].
      + destruct (Z.leb_spec 192 len); cbn [negb]; [eexists; split; [done|simpl; lia]|by eexists]. }
  unfold dns_namelen. destruct (H (S (Z.to_nat (zlen p - i))) i Hi ltac:(lia)) as (r & -> & Hr).
  rewrite obind_done. eexists. split; [done|]. destruct r; [right; lia|by left].
Qed.

(** *** The report never fails *)

Definition step_ok (a : answer_step) : Prop :=
  match a with Truncated => True | Answer _ o => 0 ≤ o end.

Lemma pkt_u16 i : 0 ≤ i → i + 2 ≤ zlen p → ∃ v, u16_at pkt i = Done v ∧ 0 ≤ v < 2 ^ 16.
Proof. intros. pose proof zlen_snoc. apply u16_at_in; [done|lia..]. Qed.

Lemma read_txt_any i n name flag :
  0 ≤ i → 0 ≤ n → ∃ a, read_txt pkt (zlen p) i n name flag = Done a ∧ step_ok a.
Proof.
  intros Hi Hn. pose proof zlen_snoc. unfold read_txt.
  destruct (Z.ltb_spec (zlen p) (i + n)); [by eexists|].
  rewrite loadn_in, obind_done by lia. eexists. split; [done|]. simpl. lia.
Qed.

Lemma read_soa_any i ttl name flag :
  0 ≤ i → ∃ a, read_soa pkt (zlen p) i ttl name flag = Done a ∧ step_ok a.
Proof.
  intros Hi. pose proof zlen_snoc. unfold read_soa.
  destruct (ReadName_any i Hi) as ([[n1|] c1] & -> & H1); rewrite obind_done; [|by eexists].
  destruct H1 as [_ H1].
  destruct (ReadName_any (i + c1)) as ([[n2|] c2] & -> & H2); [lia|rewrite obind_done..]; [|by eexists].
  destruct H2 as [_ H2]. destruct (Z.ltb_spec (zlen p) (i + c1 + c2 + 5 * 4)); [by eexists|].
  destruct (get32b_in (p ++ [x]) tl (i + c1 + c2) Hp) as [v ->]; [lia|lia|]. rewrite obind_done.
  eexists. split; [done|]. simpl. lia.
Qed.

Lemma read_answer_any i flag :
  0 ≤ i → ∃ a, read_answer pkt (zlen p) i flag = Done a ∧ step_ok a.
Proof.
  intros Hi. pose proof zlen_snoc. unfold read_answer, sizeof_R_DATA.
  destruct (ReadName_any i Hi) as ([[n|] c] & -> & H1); rewrite obind_done; [|by eexists].
  destruct H1 as [_ H1]. destruct (Z.ltb_spec (zlen p) (i + c + 10)); [by eexists|].
  destruct (pkt_u16 (i + c)) as (type & -> & _); [lia..|]. rewrite obind_done.
  destruct (get32b_in (p ++ [x]) tl (i + c + 4) Hp) as [ttl ->]; [lia|lia|]. rewrite obind_done.
  destruct (pkt_u16 (i + c + 8)) as (dl & -> & Hdl); [lia..|]. rewrite obind_done.
  destruct (type =? T_TXT); [apply read_txt_any; lia|].
  destruct (type =? T_SOA); [apply read_soa_any; lia|].
  destruct (Z.ltb_spec (zlen p) (i + c + 10 + dl)); [by eexists|]. eexists. split; [done|]. simpl. lia.
Qed.

Lemma read_answers_any n i flag : 0 ≤ i → ∃ t, read_answers n pkt (zlen p) i flag = Done t.
Proof.
  revert i flag. induction n as [|n IH]; intros i flag Hi; cbn [read_answers]; [by eexists|].
  destruct (read_answer_any i flag Hi) as (a & -> & Ha). rewrite obind_done.
  destruct a as [|[text|] o]; [by eexists| |by apply IH].
  destruct (IH o (flag + 1) Ha) as [t ->]. rewrite obind_done. by eexists.
Qed.

Lemma reply_contents_any : ∃ t, reply_contents pkt (zlen p) = Done t.
Proof.
  unfold reply_contents, sizeof_DNS_HEADER, sizeof_QUESTION.
  destruct (Z.ltb_spec (zlen p) 12); [msimpl; by eexists|].
  destruct (pkt_u16 0) as (v0 & -> & _); [lia..|].
  destruct (pkt_u16 4) as (v4 & -> & _); [lia..|]. destruct (pkt_u16 6) as (v6 & -> & _); [lia..|].
  destruct (pkt_u16 8) as (v8 & -> & _); [lia..|]. destruct (pkt_u16 10) as (v10 & -> & _); [lia..|].
  rewrite !obind_done. cbv zeta.
  destruct (dns_namelen_any 12) as (n & -> & Hn); [lia|]. rewrite obind_done.
  destruct (n =? -1) eqn:En; [msimpl; by eexists|]. apply Z.eqb_neq in En.
  destruct (_ <? _); [msimpl; by eexists|]. destruct (v6 =? 0); [msimpl; by eexists|].
  destruct (read_answers_any (Z.to_nat (Z.min 2 v6)) (12 + n + 4) 0) as [t ->]; [lia|].
  msimpl. by eexists.
Qed.
End AnyPacket.

(** ** TXT records *)

Definition txt_rdata (strs : list (list Z)) : list Z := mjoin ((λ s, zlen s :: s) <$> strs).
Definition txt_escape (s : list Z) : list Z := mjoin (txt_char <$> s).
Fixpoint txt_text (strs : list (list Z)) : list Z :=
  match strs with
  | [] => []
  | [s] => txt_escape s
  | s :: strs' => txt_escape s ++ quote ++ str ", " ++ quote ++ txt_text strs'
  end.

(** A reader of the escapes: two backslashes and three digits are a byte. *)
Fixpoint txt_unescape (l : list Z) : option (list Z) :=
  match l with
  | [] => Some []
  | c :: l' =>
      if c =? 92 then
        match l' with
        | c2 :: d1 :: d2 :: d3 :: l'' =>
            if c2 =? 92 then
              (λ r, (100 * (d1 - 48) + 10 * (d2 - 48) + (d3 - 48)) :: r) <$> txt_unescape l''
            else None
        | _ => None
        end
      else (λ r, c :: r) <$> txt_unescape l'
  end.

Lemma txt_loop_string s rest : txt_loop (s ++ rest) (zlen s) = txt_escape s ++ txt_loop rest 0.
Proof.
  induction s as [|c s IH]; [done|]. cbn [app txt_loop]. rewrite zlen_cons. pose proof (zlen_nonneg s).
  destruct (Z.eqb_spec (zlen s + 1) 0); [lia|]. destruct (Z.eqb_spec (zlen s + 1) (-1)); [lia|].
  replace (zlen s + 1 - 1) with (zlen s) by lia. rewrite IH. unfold txt_escape.
  cbn [fmap list_fmap mjoin list_join app]. by rewrite <- app_assoc.
Qed.

Lemma txt_loop_rdata strs : txt_loop (txt_rdata strs) (-1) = txt_text strs.
Proof.
  induction strs as [|s strs IH]; [done|]. unfold txt_rdata.
  cbn [fmap list_fmap mjoin list_join app txt_loop]. change (-1 =? 0) with false. cbv iota.
  change (-1 =? -1) with true. cbv iota. cbn [app]. fold (txt_rdata strs). rewrite txt_loop_string.
  destruct strs as [|s' strs]; [by rewrite app_nil_r|].
  change (txt_text (s :: s' :: strs)) with (txt_escape s ++ quote ++ str ", " ++ quote ++ txt_text (s' :: strs)).
  f_equal. rewrite <- IH. by unfold txt_rdata.
Qed.

Lemma txt_char_unescape c l :
  is_byte c → txt_unescape (txt_char c ++ l) = (λ r, c :: r) <$> txt_unescape l.
Proof.
  intros Hc. unfold txt_char.
  assert (txt_unescape (escaped c ++ l) = (λ r, c :: r) <$> txt_unescape l) as He.
  { unfold escaped. cbn [app txt_unescape]. destruct (txt_unescape l); [|done]. cbn [fmap option_fmap option_map].
    do 2 f_equal. unfold is_byte in Hc. Z.to_euclidean_division_equations. lia. }
  destruct ((c =? 34) || (c =? 92)) eqn:E; [done|]. apply orb_false_iff in E as [_ E]. apply Z.eqb_neq in E.
  destruct ((32 <=? c) && (c <=? 126)) eqn:E2; [|done]. cbn [app txt_unescape].
  destruct (Z.eqb_spec c 92); [done|]. by destruct (txt_unescape l).
Qed.

Lemma txt_escape_cons c s : txt_escape (c :: s) = txt_char c ++ txt_escape s.
Proof. done. Qed.

Lemma txt_unescape_escape s : Forall is_byte s → txt_unescape (txt_escape s) = Some s.
Proof.
  induction 1 as [|c s Hc _ IH]; [done|].
  rewrite txt_escape_cons, txt_char_unescape by done. by rewrite IH.
Qed.

(** No quote ends the string early. *)
Lemma txt_escape_quote s : Forall is_byte s → 34 ∉ txt_escape s.
Proof.
  induction 1 as [|c s Hc _ IH]; [by apply not_elem_of_nil|].
  rewrite txt_escape_cons, elem_of_app. intros [H|H]; [|by apply IH].
  pose proof (byte_forall (λ c, negb (existsb (Z.eqb 34) (txt_char c))) eq_refl c Hc) as Hq.
  apply negb_true_iff, not_true_iff_false in Hq. apply Hq, existsb_exists. exists 34.
  split; [by apply list_elem_of_In|done].
Qed.

(** ** Queries *)

(** The options of a query, in the order of the code. *)
Definition query_options (q : query_state) (client server : list Z) : list Z :=
  (if opt_nsid q then be16 3 ++ be16 0 else []) ++
  (if opt_client_subnet q then
     be16 EDNS_OPT_CLIENT_SUBNET ++ be16 4 ++ be16 (if opt_AF_INET q then 1 else 2) ++ [0; 0] else []) ++
  (if opt_cookies q then
     be16 EDNS_OPT_COOKIE ++ be16 (zlen client + zlen server) ++ client ++ server else []) ++
  (if opt_edns_option q =? 0 then [] else be16 (opt_edns_option q) ++ be16 0).

(** The OPT record up to the length of its data. *)
Definition opt_fixed (q : query_state) : list Z :=
  [0] ++ be16 ns_t_opt ++ be16 (opt_edns0 q) ++ [0; u8 (opt_edns_version q)] ++
  be16 (Z.lor (u16 (opt_edns_flags q)) (if opt_dnssec q then 0x8000 else 0)).

Definition query_bytes (q : query_state) (id : Z) (name client server : list Z) : list Z :=
  let options := query_options q client server in
  query_header q id (if wants_edns q then 1 else 0) ++ name ++ be16 (qtype q) ++ be16 (qclass q) ++
  (if wants_edns q then opt_fixed q ++ be16 (zlen options) ++ options else []).

(** A packet that is filled up to some point and zero behind it. *)
Definition filled_with (l : list Z) (k : nat) : blk Z := Some <$> (l ++ replicate k 0).

Lemma put_end l k new i :
  i = zlen l → (length new ≤ k)%nat →
  put (filled_with l k) i new = Done (filled_with (l ++ new) (k - length new)).
Proof.
  intros -> Hk. unfold put, filled_with, zlen. rewrite Nat2Z.id.
  replace k with (length new + (k - length new))%nat at 1 by lia. rewrite replicate_add.
  pose proof (store_mid l (replicate (length new) 0) (replicate (k - length new) 0) new []) as E.
  rewrite !app_nil_r in E. rewrite E by (by rewrite length_replicate). by rewrite <- app_assoc.
Qed.

(** Writing behind a gap of zeros. *)
Lemma put_gap l k g new i :
  i = zlen l + Z.of_nat g → (g + length new ≤ k)%nat →
  put (filled_with l k) i new = Done (filled_with (l ++ replicate g 0 ++ new) (k - (g + length new))).
Proof.
  intros -> Hk.
  assert (filled_with l k = filled_with (l ++ replicate g 0) (k - g)) as ->.
  { unfold filled_with. rewrite <- app_assoc, <- replicate_add. do 3 f_equal. lia. }
  rewrite put_end; [|by rewrite zlen_app; unfold zlen at 3; rewrite length_replicate|lia].
  rewrite <- app_assoc. do 2 f_equal. lia.
Qed.

(** Overwriting a part. *)
Lemma put_mid pre old post k new i :
  i = zlen pre → length old = length new →
  put (filled_with (pre ++ old ++ post) k) i new = Done (filled_with (pre ++ new ++ post) k).
Proof.
  intros -> Hl. unfold put, filled_with, zlen. rewrite Nat2Z.id, <- !app_assoc.
  pose proof (store_mid pre old (post ++ replicate k 0) new [] Hl) as E. by rewrite !app_nil_r in E.
Qed.

Lemma filled_u16 pre v post k i :
  i = zlen pre → 0 ≤ v < 2 ^ 16 → u16_at (filled_with (pre ++ be16 v ++ post) k) i = Done v.
Proof.
  intros -> Hv. unfold filled_with. rewrite <- (app_nil_r (Some <$> _)).
  apply (at_off_u16 _ [] _ v (post ++ replicate k 0)); [|done].
  exists pre, []. rewrite !app_nil_r, <- !app_assoc. done.
Qed.

Lemma grow_rdlen_ok pre r post k e n :
  e + 8 = zlen pre → 0 ≤ r → 0 ≤ n → r + n < 2 ^ 16 →
  grow_rdlen (filled_with (pre ++ be16 r ++ post) k) e n = Done (filled_with (pre ++ be16 (r + n) ++ post) k).
Proof.
  intros He Hr Hn Hrn. unfold grow_rdlen. rewrite filled_u16, obind_done by lia.
  unfold u16. rewrite Z.mod_small by lia. by apply put_mid.
Qed.

(** A packet with an OPT record whose data ends the packet. *)
Definition opt_packet (pre opts : list Z) (k : nat) : blk Z := filled_with (pre ++ be16 (zlen opts) ++ opts) k.

Lemma zlen_be16 v : zlen (be16 v) = 2.
Proof. done. Qed.

(** Enlarging the length and appending [new]. *)
Lemma opt_grow pre opts k e n :
  e + 8 = zlen pre → 0 ≤ n → zlen opts + n < 2 ^ 16 →
  grow_rdlen (opt_packet pre opts k) e n = Done (filled_with (pre ++ be16 (zlen opts + n) ++ opts) k).
Proof.
  intros He Hn Hm. unfold opt_packet. pose proof (zlen_nonneg opts).
  by rewrite grow_rdlen_ok by lia.
Qed.

Lemma opt_append pre opts k new n i :
  i = zlen pre + 2 + zlen opts → n = zlen new → (length new ≤ k)%nat →
  put (filled_with (pre ++ be16 (zlen opts + n) ++ opts) k) i new =
  Done (opt_packet pre (opts ++ new) (k - length new)).
Proof.
  intros -> -> Hk. rewrite put_end by (rewrite ?zlen_app, ?zlen_be16; lia).
  unfold opt_packet. by rewrite zlen_app, <- !app_assoc.
Qed.

Lemma put_empty_option_ok pre opts k e size code :
  e + 8 = zlen pre → size = zlen pre + 2 + zlen opts → zlen opts + 4 < 2 ^ 16 → (4 ≤ k)%nat →
  put_empty_option (opt_packet pre opts k) e size code =
  Done (opt_packet pre (opts ++ be16 code ++ be16 0) (k - 4), size + 4).
Proof.
  intros He Hs Ho Hk. unfold put_empty_option, sizeof_EDNS_NSID. rewrite opt_grow, obind_done by lia.
  by rewrite opt_append, obind_done by (done || (simpl; lia)).
Qed.

(** The cookies of a query: those of the server it goes to are in order. *)
Definition cookie_ok (sc : server_cookie) : Prop :=
  0 ≤ sc_len sc ≤ DNS_SERVER_COOKIE_MAX_LEN ∧ zlen (sc_cookie sc) = DNS_SERVER_COOKIE_MAX_LEN.
Definition cookies_ok (q : query_state) : Prop :=
  zlen (server_cookies (cookie_state q)) = MAXNS ∧ Forall cookie_ok (server_cookies (cookie_state q)) ∧
  0 ≤ resolv_i q < MAXNS.
Definition server_part (q : query_state) : list Z :=
  match server_cookies (cookie_state q) !! server_index q with
  | Some sc => take (Z.to_nat (sc_len sc)) (sc_cookie sc)
  | None => []
  end.

Lemma cookies_server q :
  cookies_ok q → ∃ sc, server_cookies (cookie_state q) !! server_index q = Some sc ∧ cookie_ok sc.
Proof.
  intros (Hl & Hf & Hr). unfold zlen, MAXNS in *.
  destruct (lookup_lt_is_Some_2 (server_cookies (cookie_state q)) (server_index q)) as [sc Hsc].
  { unfold server_index. destruct (opt_resolv_conf q); lia. }
  exists sc. split; [done|]. by eapply Forall_lookup_1.
Qed.

Section Build.
Context (random probe_id : Z) (sha256 : list Z → list Z) (local_addr remote_bytes : list Z).
Context (Hsha : ∀ l, length (sha256 l) = 32%nat).

Definition client_part (q : query_state) : list Z :=
  drop 24 (sha256 (local_addr ++ remote_bytes ++ client_secret (cookie_state q))).

Lemma client_part_length q : length (client_part q) = 8%nat.
Proof. unfold client_part. by rewrite length_drop, Hsha. Qed.

Definition new_cookies (q : query_state) : dns_cookie_state :=
  if opt_cookies q then
    CS (client_secret (cookie_state q)) (client_part q) (server_cookies (cookie_state q))
  else cookie_state q.

Lemma put_cookies_ok q pre opts k e size :
  cookies_ok q → e + 8 = zlen pre → size = zlen pre + 2 + zlen opts → zlen opts + 44 < 2 ^ 16 → (44 ≤ k)%nat →
  let new := be16 EDNS_OPT_COOKIE ++ be16 (zlen (client_part q) + zlen (server_part q)) ++
             client_part q ++ server_part q in
  put_cookies sha256 local_addr remote_bytes q (opt_packet pre opts k) e size =
  Done (opt_packet pre (opts ++ new) (k - length new), size + zlen new,
        CS (client_secret (cookie_state q)) (client_part q) (server_cookies (cookie_state q))).
Proof.
  intros Hc He Hs Ho Hk new. unfold put_cookies.
  destruct (cookies_server q Hc) as (sc & Esc & [Hlen Hcookie]).
  unfold DNS_CLIENT_COOKIE_LEN, DNS_SERVER_COOKIE_MAX_LEN in *. rewrite Hsha.
  change (32 - Z.to_nat 8)%nat with 24%nat. fold (client_part q).
  assert (server_part q = take (Z.to_nat (sc_len sc)) (sc_cookie sc)) as Esp by (unfold server_part; by rewrite Esc).
  rewrite Esc, <- Esp. pose proof (client_part_length q) as Hcl.
  assert (zlen (server_part q) = sc_len sc) as Hsl.
  { rewrite Esp. unfold zlen in *. rewrite length_take. lia. }
  assert (zlen (client_part q) = 8) as Hcz by (unfold zlen; lia).
  unfold opt_packet at 1.
  rewrite (put_gap _ _ 4) by (rewrite ?zlen_app, ?zlen_be16; lia). rewrite obind_done.
  destruct ((0 <=? sc_len sc) && (sc_len sc <=? 32)) eqn:Ea; [|apply andb_false_iff in Ea; lia].
  rewrite obind_assert_true.
  rewrite put_end; [|rewrite !zlen_app, zlen_be16, Hcz; change (zlen (replicate 4 0)) with 4; lia
                   |unfold zlen in *; lia].
  rewrite obind_done. cbv zeta.
  rewrite <- !app_assoc, grow_rdlen_ok by (pose proof (zlen_nonneg opts); lia). rewrite obind_done.
  rewrite (app_assoc pre), (app_assoc (pre ++ _)).
  rewrite put_mid; [|rewrite !zlen_app, zlen_be16; lia|done]. rewrite obind_done.
  unfold opt_packet, new. rewrite !zlen_app, !zlen_be16, Hcz, Hsl, <- !app_assoc.
  replace (2 + (2 + (8 + sc_len sc))) with (12 + sc_len sc) by lia.
  replace (12 + sc_len sc - 4) with (8 + sc_len sc) by lia.
  do 4 f_equal. rewrite !length_app, Hcl. simpl. lia.
Qed.

(** Lengths of lists with a known shape. *)
Ltac len_lia :=
  unfold zlen, be16; rewrite ?length_app, ?length_replicate; cbn [length app replicate];
  rewrite ?length_app, ?length_replicate; cbn [length]; lia.

(** The fixed part of the OPT record. *)
Lemma put_opt_header_ok q l k :
  (11 ≤ k)%nat →
  put_opt_header q (filled_with l k) (zlen l) = Done (opt_packet (l ++ opt_fixed q) [] (k - 11)).
Proof.
  intros Hk. unfold put_opt_header. cbv zeta. rewrite put_end, obind_done by len_lia.
  rewrite put_end, obind_done by len_lia. rewrite (put_gap _ _ 1), obind_done by len_lia.
  rewrite put_end by len_lia.
  unfold opt_packet, opt_fixed, ns_t_opt. cbn [length]. rewrite !app_nil_r, <- !app_assoc.
  cbn [replicate app]. unfold be16. cbn [length app]. do 2 f_equal. lia.
Qed.

Lemma zlen_opt_fixed q : zlen (opt_fixed q) = 9.
Proof. done. Qed.

(** The options, one by one: what is added is empty when the option is off. *)
Definition nsid_part (q : query_state) : list Z := if opt_nsid q then be16 3 ++ be16 0 else [].
Definition subnet_part (q : query_state) : list Z :=
  if opt_client_subnet q then
    be16 EDNS_OPT_CLIENT_SUBNET ++ be16 4 ++ be16 (if opt_AF_INET q then 1 else 2) ++ [0; 0] else [].
Definition cookie_part (q : query_state) : list Z :=
  if opt_cookies q then
    be16 EDNS_OPT_COOKIE ++ be16 (zlen (client_part q) + zlen (server_part q)) ++
    client_part q ++ server_part q else [].
Definition option_part (q : query_state) : list Z :=
  if opt_edns_option q =? 0 then [] else be16 (opt_edns_option q) ++ be16 0.

Lemma put_client_subnet_ok q pre opts k e size :
  e + 8 = zlen pre → size = zlen pre + 2 + zlen opts → zlen opts + 8 < 2 ^ 16 → (8 ≤ k)%nat →
  let new := be16 EDNS_OPT_CLIENT_SUBNET ++ be16 4 ++ be16 (if opt_AF_INET q then 1 else 2) ++ [0; 0] in
  put_client_subnet q (opt_packet pre opts k) e size = Done (opt_packet pre (opts ++ new) (k - 8), size + 8).
Proof.
  intros He Hs Ho Hk new. unfold put_client_subnet, sizeof_EDNS_CLIENT_SUBNET.
  rewrite opt_grow, obind_done by lia. fold new. by rewrite opt_append, obind_done by (done || (simpl; lia)).
Qed.

Lemma opt_none pre opts k size : Done (opt_packet pre opts k, size) =
  Done (opt_packet pre (opts ++ []) (k - length (@nil Z)), size + zlen (@nil Z)).
Proof. by rewrite app_nil_r, Nat.sub_0_r, Z.add_0_r. Qed.

Lemma part_lengths q :
  cookies_ok q →
  (length (nsid_part q) ≤ 4 ∧ length (subnet_part q) ≤ 8 ∧ length (cookie_part q) ≤ 44)%nat.
Proof.
  intros Hc. unfold nsid_part, subnet_part, cookie_part.
  destruct (cookies_server q Hc) as (sc & Esc & [Hlen Hcookie]). unfold DNS_SERVER_COOKIE_MAX_LEN in *.
  assert (length (server_part q) ≤ 32)%nat.
  { unfold server_part. rewrite Esc, length_take. lia. }
  pose proof (client_part_length q).
  split; [destruct (opt_nsid q); simpl; lia|]. split; [destruct (opt_client_subnet q); simpl; lia|].
  destruct (opt_cookies q); rewrite ?length_app; simpl; lia.
Qed.

(** Each option that is on is appended to the options so far. *)
Lemma nsid_step q pre opts k e size :
  e + 8 = zlen pre → size = zlen pre + 2 + zlen opts → zlen opts + 4 < 2 ^ 16 → (4 ≤ k)%nat →
  (if opt_nsid q then put_empty_option (opt_packet pre opts k) e size 3 else Done (opt_packet pre opts k, size)) =
  Done (opt_packet pre (opts ++ nsid_part q) (k - length (nsid_part q)), size + zlen (nsid_part q)).
Proof.
  intros He Hs Ho Hk. unfold nsid_part. destruct (opt_nsid q); [|apply opt_none].
  by rewrite put_empty_option_ok.
Qed.

Lemma subnet_step q pre opts k e size :
  e + 8 = zlen pre → size = zlen pre + 2 + zlen opts → zlen opts + 8 < 2 ^ 16 → (8 ≤ k)%nat →
  (if opt_client_subnet q then put_client_subnet q (opt_packet pre opts k) e size
   else Done (opt_packet pre opts k, size)) =
  Done (opt_packet pre (opts ++ subnet_part q) (k - length (subnet_part q)), size + zlen (subnet_part q)).
Proof.
  intros He Hs Ho Hk. unfold subnet_part. destruct (opt_client_subnet q); [|apply opt_none].
  by rewrite put_client_subnet_ok.
Qed.

Lemma cookie_step q pre opts k e size :
  cookies_ok q → e + 8 = zlen pre → size = zlen pre + 2 + zlen opts → zlen opts + 44 < 2 ^ 16 → (44 ≤ k)%nat →
  (if opt_cookies q then put_cookies sha256 local_addr remote_bytes q (opt_packet pre opts k) e size
   else Done (opt_packet pre opts k, size, cookie_state q)) =
  Done (opt_packet pre (opts ++ cookie_part q) (k - length (cookie_part q)), size + zlen (cookie_part q),
        new_cookies q).
Proof.
  intros Hc He Hs Ho Hk. unfold cookie_part, new_cookies. destruct (opt_cookies q).
  - by rewrite put_cookies_ok.
  - by rewrite app_nil_r, Nat.sub_0_r, Z.add_0_r.
Qed.

Lemma option_step q pre opts k e size :
  e + 8 = zlen pre → size = zlen pre + 2 + zlen opts → zlen opts + 4 < 2 ^ 16 → (4 ≤ k)%nat →
  (if negb (opt_edns_option q =? 0) then put_empty_option (opt_packet pre opts k) e size (opt_edns_option q)
   else Done (opt_packet pre opts k, size)) =
  Done (opt_packet pre (opts ++ option_part q) (k - length (option_part q)), size + zlen (option_part q)).
Proof.
  intros He Hs Ho Hk. unfold option_part. destruct (opt_edns_option q =? 0); [apply opt_none|].
  cbn [negb]. by rewrite put_empty_option_ok.
Qed.

(** Side conditions on the lengths of the options so far. *)
Ltac side := rewrite ?zlen_app; unfold zlen in *; cbn [length app]; lia.

(** The OPT record and its options. *)
Lemma put_edns_ok q l k :
  cookies_ok q → (76 ≤ k)%nat →
  let options := query_options q (client_part q) (server_part q) in
  put_edns sha256 local_addr remote_bytes q (filled_with l k) (zlen l) =
  Done (filled_with (l ++ opt_fixed q ++ be16 (zlen options) ++ options) (k - (11 + length options)),
        zlen l + 11 + zlen options, new_cookies q).
Proof.
  intros Hc Hk options. unfold put_edns, sizeof_EDNS0_HEADER.
  rewrite put_opt_header_ok, obind_done by lia. cbv zeta.
  set (pre := l ++ opt_fixed q).
  assert (zlen pre = zlen l + 9) as Hpre by (unfold pre; by rewrite zlen_app, zlen_opt_fixed).
  destruct (part_lengths q Hc) as (L1 & L2 & L3).
  assert (options = nsid_part q ++ subnet_part q ++ cookie_part q ++ option_part q) as Eo by done.
  rewrite nsid_step, obind_done by side.
  rewrite subnet_step, obind_done by side.
  rewrite cookie_step, obind_done by (done || side).
  rewrite option_step, obind_done by side.
  cbn [app]. rewrite <- !app_assoc, <- Eo. unfold opt_packet, pre. rewrite <- !app_assoc.
  do 3 f_equal; [f_equal|]; rewrite Eo; [|rewrite !zlen_app]; rewrite ?length_app; lia.
Qed.
End Build.
