(* ===== verification/DnsMain.v ===== *)
(** * DNS measurements: what a query and its reply are

    The packet [mk_dns_buff] builds, the options [get_edns_opt] finds in a
    message, the cookies that are learnt from replies, and the properties of the
    DNS code that build on [DnsProofs]. *)

From stdpp Require Import base list list_numbers numbers option strings.
From Stdlib Require Import ZArith Lia.
From S2P Require Import Prelude Bits Blocks Dns DnsProofs.

Open Scope Z_scope.

(** ** The query *)

(** The name of the question and the query id. *)
Definition query_name (probe_id : Z) (q : query_state) : list Z :=
  if opt_prepend_probe_id q then prepended_name probe_id q else lookupname q.
Definition query_id (random : Z) (q : query_state) : Z :=
  if recording q then 12345 else u16 (Z.rem random 65535).

Section Build.
Context (random probe_id : Z) (sha256 : list Z → list Z) (local_addr remote_bytes : list Z).
Context (Hsha : ∀ l, length (sha256 l) = 32%nat).

Abbreviation client := (client_part sha256 local_addr remote_bytes).

Lemma length_query_header q id n : length (query_header q id n) = 12%nat.
Proof. done. Qed.

(** The count of additional records is the last thing to be written. *)
Lemma query_header_count q id l k :
  put (filled_with (query_header q id 0 ++ l) k) 10 (be16 1) = Done (filled_with (query_header q id 1 ++ l) k).
Proof.
  unfold query_header. set (h := [_; _]). set (pre := be16 id ++ h ++ be16 1 ++ be16 0 ++ be16 0).
  pose proof (put_mid pre (be16 0) l k (be16 1) 10 eq_refl eq_refl) as E. unfold pre in E.
  by rewrite <- !app_assoc in E |- *.
Qed.

Lemma zeroed n : replicate n (Some 0) = filled_with [] n.
Proof. unfold filled_with. by rewrite app_nil_l, fmap_replicate. Qed.

(** The name of the question was accepted: the packet is the header, the
    question and the OPT record if one is wanted. *)
Lemma mk_dns_buff_ok q (n : nat) packetlen name :
  cookies_ok q → (512 ≤ n)%nat → 294 ≤ packetlen → zlen name ≤ 255 →
  ChangetoDnsNameFormat 255 (query_name probe_id q) = Done (Some name) →
  let l := query_bytes q (query_id random q) name (client q) (server_part q) in
  mk_dns_buff random probe_id sha256 local_addr remote_bytes q (replicate n (Some 0)) packetlen =
  Done (0, set_query (query_id random q) (zlen l)
             (if wants_edns q then new_cookies sha256 local_addr remote_bytes q else cookie_state q) q,
        filled_with l (n - length l)).
Proof.
  intros Hc Hn Hp Hname Hq l. unfold mk_dns_buff. rewrite zeroed.
  fold (query_id random q). set (id := query_id random q).
  rewrite put_end by (done || rewrite length_query_header; lia). rewrite obind_done.
  destruct (Z.ltb_spec packetlen
    (sizeof_DNS_HEADER + 255 + sizeof_QUESTION + 1 + sizeof_EDNS0_HEADER + sizeof_EDNS_NSID +
     sizeof_EDNS_CLIENT_SUBNET)) as [Hlt|_].
  { unfold sizeof_DNS_HEADER, sizeof_QUESTION, sizeof_EDNS0_HEADER, sizeof_EDNS_NSID,
      sizeof_EDNS_CLIENT_SUBNET in Hlt. lia. }
  unfold query_name in Hq. rewrite Hq, obind_done. cbn [app]. rewrite length_query_header.
  unfold sizeof_DNS_HEADER, sizeof_QUESTION. unfold zlen in Hname.
  rewrite put_end by (done || lia). rewrite obind_done.
  rewrite put_end; [|by rewrite zlen_app|rewrite length_app; simpl; lia]. rewrite obind_done.
  set (l0 := (query_header q id 0 ++ name) ++ be16 (qtype q) ++ be16 (qclass q)).
  assert (12 + zlen name + 4 = zlen l0) as ->.
  { unfold l0. rewrite !zlen_app, !zlen_be16. change (zlen (query_header q id 0)) with 12. lia. }
  unfold l, query_bytes. destruct (wants_edns q) eqn:Ew.
  - rewrite put_edns_ok by (done || (rewrite length_app; simpl; lia)). rewrite obind_done.
    unfold l0. rewrite <- !app_assoc, query_header_count, obind_done.
    do 3 f_equal.
    + f_equal. rewrite !zlen_app, !zlen_be16, zlen_opt_fixed. change (zlen (query_header q _ 0)) with 12.
      change (zlen (query_header q _ 1)) with 12. lia.
    + rewrite !length_app. simpl. lia.
  - rewrite app_nil_r. unfold l0. rewrite <- !app_assoc. do 3 f_equal. rewrite !length_app. simpl. lia.
Qed.
End Build.

(** ** Messages and their options *)

(** A name in a message: labels, and the root or a pointer behind them. *)
Record dname := DN { dn_labels : list (list Z); dn_pointer : option (Z * Z) }.
Definition dname_bytes (n : dname) : list Z :=
  mjoin ((λ l, zlen l :: l) <$> dn_labels n) ++
  match dn_pointer n with None => [0] | Some (b1, b2) => [b1; b2] end.
Definition dname_ok (n : dname) : Prop :=
  Forall label_ok (dn_labels n) ∧
  match dn_pointer n with None => True | Some (b1, b2) => 192 ≤ b1 < 256 ∧ is_byte b2 end.

(** Questions (with type and class), records and options. *)
Record question := QU { qu_name : dname; qu_fields : list Z }.
Record rr := RR { rr_owner : dname; rr_type : Z; rr_fields : list Z; rr_data : list Z }.
Definition question_bytes (x : question) : list Z := dname_bytes (qu_name x) ++ qu_fields x.
Definition rr_bytes (r : rr) : list Z :=
  dname_bytes (rr_owner r) ++ be16 (rr_type r) ++ rr_fields r ++ be16 (zlen (rr_data r)) ++ rr_data r.
Definition option_bytes (o : Z * list Z) : list Z := be16 o.1 ++ be16 (zlen o.2) ++ o.2.
Definition question_ok (x : question) : Prop := dname_ok (qu_name x) ∧ zlen (qu_fields x) = 4.
Definition rr_ok (r : rr) : Prop :=
  dname_ok (rr_owner r) ∧ 0 ≤ rr_type r < 2 ^ 16 ∧ zlen (rr_fields r) = 6 ∧ zlen (rr_data r) < 2 ^ 16.
Definition option_ok (o : Z * list Z) : Prop := 0 ≤ o.1 < 2 ^ 16 ∧ zlen o.2 < 2 ^ 16.

(** A message: the first four bytes of its header, and its sections. *)
Record message := MSG { m_head : list Z; m_qd : list question; m_an : list rr; m_ns : list rr; m_ar : list rr }.
Definition m_rrs (m : message) : list rr := m_an m ++ m_ns m ++ m_ar m.
Definition message_bytes (m : message) : list Z :=
  m_head m ++ be16 (Z.of_nat (length (m_qd m))) ++ be16 (Z.of_nat (length (m_an m))) ++
  be16 (Z.of_nat (length (m_ns m))) ++ be16 (Z.of_nat (length (m_ar m))) ++
  mjoin (question_bytes <$> m_qd m) ++ mjoin (rr_bytes <$> m_rrs m).
Definition message_ok (m : message) : Prop :=
  zlen (m_head m) = 4 ∧ Forall question_ok (m_qd m) ∧ Forall rr_ok (m_rrs m) ∧
  Z.of_nat (length (m_qd m)) < 2 ^ 16 ∧ Z.of_nat (length (m_an m)) < 2 ^ 16 ∧
  Z.of_nat (length (m_ns m)) < 2 ^ 16 ∧ Z.of_nat (length (m_ar m)) < 2 ^ 16.

(** The OPT record: its owner is the root. *)
Definition is_opt (r : rr) : bool := (zlen (dname_bytes (rr_owner r)) =? 1) && (rr_type r =? ns_t_opt).

Section Records.
Context (p : list Z) (tl : blk Z).
Abbreviation pkt := ((Some <$> p) ++ tl).

Lemma rr_name_ok o nl n fuel :
  dname_ok n → at_off p (o + nl) (dname_bytes n) → (length (dn_labels n) < fuel)%nat →
  rr_name fuel pkt o nl (zlen p) = Done (Some (nl + zlen (dname_bytes n))).
Proof.
  destruct n as [ls ptr]. unfold dname_ok, dname_bytes. cbn [dn_labels dn_pointer].
  intros [Hls Hptr]. revert nl fuel. induction Hls as [|l ls Hl Hls IH]; intros nl [|fuel] H Hf; simpl in Hf; try lia.
  - cbn [fmap list_fmap mjoin list_join app] in *. cbn [rr_name].
    destruct ptr as [[b1 b2]|]; pose proof (at_off_bound _ _ _ H) as Hb; unfold zlen in Hb at 1; simpl in Hb;
      (destruct (Z.leb_spec (zlen p) (o + nl)); [lia|]); rewrite (at_off_byte _ _ _ _ _ H), obind_done.
    + destruct (Z.ltb_spec 63 b1); [|lia]. by destruct (Z.ltb_spec b1 192); [lia|].
    + done.
  - cbn [fmap list_fmap mjoin list_join] in *. rewrite <- app_assoc in H |- *. cbn [rr_name].
    pose proof (at_off_bound _ _ _ H) as Hb. rewrite zlen_app, zlen_cons in Hb. unfold label_ok in Hl.
    set (rest := mjoin _ ++ _) in *. pose proof (zlen_nonneg rest).
    destruct (Z.leb_spec (zlen p) (o + nl)); [lia|].
    rewrite (at_off_byte _ _ _ _ _ H), obind_done.
    destruct (Z.ltb_spec 63 (zlen l)); [lia|]. destruct (Z.eqb_spec (zlen l) 0); [lia|].
    apply at_off_app in H as [_ H]. rewrite zlen_cons in H.
    rewrite IH; [|by replace (o + (nl + zlen l + 1)) with (o + nl + (zlen l + 1)) by lia|lia].
    do 2 f_equal. rewrite zlen_app, zlen_cons. lia.
Qed.

Lemma dname_labels_le n : dname_ok n → Z.of_nat (length (dn_labels n)) < zlen (dname_bytes n).
Proof.
  destruct n as [ls ptr]. unfold dname_ok, dname_bytes. cbn [dn_labels dn_pointer]. intros [Hls _].
  induction Hls as [|l ls Hl _ IH]; [by destruct ptr as [[]|]|].
  cbn [fmap list_fmap mjoin list_join length]. rewrite <- app_assoc, zlen_app, zlen_cons.
  unfold label_ok in Hl. set (rest := mjoin _ ++ _) in *. lia.
Qed.

Lemma get_rr_len_question x o :
  question_ok x → at_off p o (question_bytes x) →
  get_rr_len pkt o (zlen p) true =
  Done (Some (zlen (dname_bytes (qu_name x)), zlen (question_bytes x))).
Proof.
  intros [Hn Hf] H. unfold question_bytes in *. pose proof (at_off_bound _ _ _ H) as Hb.
  rewrite zlen_app in Hb. apply at_off_app in H as [H _]. pose proof (dname_labels_le _ Hn).
  unfold get_rr_len. rewrite (rr_name_ok o 0 (qu_name x)); [|done|by rewrite Z.add_0_r|lia].
  rewrite obind_done, zlen_app. do 3 f_equal. lia.
Qed.

Lemma get_rr_len_rr r o :
  rr_ok r → at_off p o (rr_bytes r) →
  get_rr_len pkt o (zlen p) false =
  Done (Some (zlen (dname_bytes (rr_owner r)), zlen (rr_bytes r))).
Proof.
  intros (Hn & Ht & Hf & Hd) H. unfold rr_bytes in *. pose proof (at_off_bound _ _ _ H) as Hb.
  rewrite !zlen_app, !zlen_be16 in Hb. apply at_off_app in H as [H H2]. pose proof (dname_labels_le _ Hn).
  pose proof (zlen_nonneg (rr_data r)).
  unfold get_rr_len. rewrite (rr_name_ok o 0 (rr_owner r)); [|done|by rewrite Z.add_0_r|lia].
  rewrite obind_done, Z.add_0_l. destruct (Z.ltb_spec (zlen p) (o + (zlen (dname_bytes (rr_owner r)) + 2 + 2 + 4) + 2)); [lia|].
  apply at_off_app in H2 as [_ H2]. apply at_off_app in H2 as [_ H2]. rewrite zlen_be16, Hf in H2.
  rewrite (at_off_u16 p tl _ (zlen (rr_data r)) (rr_data r)), obind_done; [| |lia].
  - rewrite !zlen_app, !zlen_be16. do 3 f_equal. lia.
  - by replace (o + (zlen (dname_bytes (rr_owner r)) + 2 + 2 + 4)) with (o + zlen (dname_bytes (rr_owner r)) + 2 + 6) by lia.
Qed.

(** A record list at an offset, split. *)
Lemma at_off_join {A} (f : A → list Z) o x xs :
  at_off p o (mjoin (f <$> (x :: xs))) → at_off p o (f x) ∧ at_off p (o + zlen (f x)) (mjoin (f <$> xs)).
Proof. rewrite join_cons. apply at_off_app. Qed.

Lemma find_opt_questions qs n qcount i o rest :
  Forall question_ok qs → i + Z.of_nat (length qs) ≤ qcount →
  at_off p o (mjoin (question_bytes <$> qs) ++ rest) →
  find_opt_rr (length qs + n) qcount i pkt o (zlen p) =
  find_opt_rr n qcount (i + Z.of_nat (length qs)) pkt (o + zlen (mjoin (question_bytes <$> qs))) (zlen p).
Proof.
  intros Hqs. revert i o. induction Hqs as [|x qs Hx _ IH]; intros i o Hi H.
  - cbn [length Nat.add]. f_equal; [lia|]. change (zlen (mjoin (question_bytes <$> []))) with 0. lia.
  - cbn [length] in Hi. cbn [length Nat.add find_opt_rr]. destruct (Z.ltb_spec i qcount); [|lia].
    rewrite join_cons in H |- *. rewrite <- app_assoc in H.
    apply at_off_app in H as [H1 H2]. rewrite (get_rr_len_question x), obind_done by done.
    rewrite IH by (done || lia). rewrite zlen_app. f_equal; lia.
Qed.

Definition rr_data_off (o : Z) (r : rr) : Z := o + zlen (dname_bytes (rr_owner r)) + 10.

(** The records before the first OPT record are passed over. *)
Lemma find_opt_skip rs n qcount i o rest :
  Forall rr_ok rs → Forall (λ r, is_opt r = false) rs → qcount ≤ i →
  at_off p o (mjoin (rr_bytes <$> rs) ++ rest) →
  find_opt_rr (length rs + n) qcount i pkt o (zlen p) =
  find_opt_rr n qcount (i + Z.of_nat (length rs)) pkt (o + zlen (mjoin (rr_bytes <$> rs))) (zlen p).
Proof.
  intros Hrs. revert i o. induction Hrs as [|r rs Hr _ IH]; intros i o Hno Hi H.
  - cbn [length Nat.add]. f_equal; [lia|]. change (zlen (mjoin (rr_bytes <$> []))) with 0. lia.
  - apply Forall_cons in Hno as [Hnr Hno]. cbn [length Nat.add find_opt_rr].
    destruct (Z.ltb_spec i qcount); [lia|].
    rewrite join_cons in H |- *. rewrite <- app_assoc in H.
    apply at_off_app in H as [H1 H2]. rewrite (get_rr_len_rr r), obind_done by done.
    rewrite IH by (done || lia). unfold is_opt in Hnr.
    assert (∀ a, o + zlen (rr_bytes r) + a = o + (zlen (rr_bytes r) + a)) as Ea by (intros; lia).
    rewrite zlen_app, Ea. replace (i + 1 + Z.of_nat (length rs)) with (i + Z.of_nat (S (length rs))) by lia.
    destruct (zlen (dname_bytes (rr_owner r)) =? 1); cbn [negb andb] in *; [|done].
    unfold rr_bytes in H1. apply at_off_app in H1 as [_ H1]. destruct Hr as (_ & Ht & _).
    rewrite (at_off_u16 _ _ _ _ _ H1 Ht), obind_done. by rewrite Hnr.
Qed.

Lemma find_opt_here r n qcount i o rest :
  rr_ok r → is_opt r = true → qcount ≤ i → at_off p o (rr_bytes r ++ rest) →
  find_opt_rr (S n) qcount i pkt o (zlen p) = Done (Some (rr_data_off o r, zlen (rr_data r))).
Proof.
  intros Hr Ho Hi [H _]%at_off_app. cbn [find_opt_rr]. destruct (Z.ltb_spec i qcount); [lia|].
  rewrite (get_rr_len_rr r), obind_done by done. unfold is_opt in Ho. apply andb_true_iff in Ho as [E1 E2].
  rewrite E1. cbn [negb]. unfold rr_bytes in H. apply at_off_app in H as [_ H]. destruct Hr as (_ & Ht & Hf & _).
  rewrite (at_off_u16 _ _ _ _ _ H Ht), obind_done, E2. cbn [negb]. unfold rr_data_off, rr_bytes.
  rewrite !zlen_app, !zlen_be16, Hf. do 3 f_equal; lia.
Qed.

(** The options of a record are searched from the first one on. *)
Lemma find_option_skip opts code base rdlen k fuel rest :
  Forall option_ok opts → Forall (λ o, o.1 ≠ code) opts → 0 ≤ k →
  at_off p (base + k) (mjoin (option_bytes <$> opts) ++ rest) →
  k + zlen (mjoin (option_bytes <$> opts)) ≤ rdlen →
  find_option (length opts + fuel) code pkt base rdlen k =
  find_option fuel code pkt base rdlen (k + zlen (mjoin (option_bytes <$> opts))).
Proof.
  intros Hok. revert k. induction Hok as [|[c d] opts [Hc Hd] _ IH]; intros k Hne Hk H Hr.
  - cbn [length Nat.add]. f_equal. change (zlen (mjoin (option_bytes <$> []))) with 0. lia.
  - apply Forall_cons in Hne as [Hn Hne]. cbn [length Nat.add find_option]. cbn [fst snd] in *.
    rewrite join_cons in H, Hr |- *. rewrite zlen_app in Hr |- *.
    assert (zlen (option_bytes (c, d)) = 4 + zlen d) as El.
    { unfold option_bytes. rewrite !zlen_app, !zlen_be16. cbn [snd]. lia. }
    pose proof (zlen_nonneg d). pose proof (zlen_nonneg (mjoin (option_bytes <$> opts))).
    destruct (Z.leb_spec (k + 4) rdlen); [|lia]. cbn [negb].
    rewrite <- app_assoc in H. pose proof H as Hnext. apply at_off_app in Hnext as [_ Hnext]. rewrite El in Hnext.
    unfold option_bytes in H. cbn [fst snd] in H. rewrite <- !app_assoc in H.
    rewrite (at_off_u16 _ _ _ _ _ H Hc), obind_done. apply at_off_app in H as [_ H]. rewrite zlen_be16 in H.
    rewrite (at_off_u16 _ _ _ _ _ H) by lia. rewrite obind_done.
    destruct (Z.ltb_spec rdlen (k + 4 + zlen d)); [lia|]. destruct (Z.eqb_spec c code); [done|].
    rewrite IH; [f_equal; lia|done|lia| |lia].
    by replace (base + (k + 4 + zlen d)) with (base + k + (4 + zlen d)) by lia.
Qed.

Lemma find_option_here code d base rdlen k fuel rest :
  option_ok (code, d) → at_off p (base + k) (option_bytes (code, d) ++ rest) → k + 4 + zlen d ≤ rdlen →
  find_option (S fuel) code pkt base rdlen k = Done (Some (base + k + 4, zlen d)).
Proof.
  intros [Hc Hd] H Hr. cbn [fst snd] in *. pose proof (zlen_nonneg d). cbn [find_option].
  destruct (Z.leb_spec (k + 4) rdlen); [|lia]. cbn [negb].
  unfold option_bytes in H. cbn [fst snd] in H. rewrite <- !app_assoc in H.
  rewrite (at_off_u16 _ _ _ _ _ H Hc), obind_done. apply at_off_app in H as [_ H]. rewrite zlen_be16 in H.
  rewrite (at_off_u16 _ _ _ _ _ H) by lia. rewrite obind_done.
  destruct (Z.ltb_spec rdlen (k + 4 + zlen d)); [lia|]. by rewrite Z.eqb_refl.
Qed.

Lemma find_option_end code base rdlen fuel : find_option (S fuel) code pkt base rdlen rdlen = Done None.
Proof. cbn [find_option]. by destruct (Z.leb_spec (rdlen + 4) rdlen); [lia|]. Qed.

Lemma options_length opts : Z.of_nat (length opts) ≤ zlen (mjoin (option_bytes <$> opts)).
Proof.
  induction opts as [|o opts IH]; [done|]. rewrite join_cons, zlen_app. cbn [length].
  unfold option_bytes at 1. rewrite !zlen_app, !zlen_be16. pose proof (zlen_nonneg o.2).
  lia.
Qed.
End Records.

(** The search as a function on messages. *)
Definition options_bytes (opts : list (Z * list Z)) : list Z := mjoin (option_bytes <$> opts).
Definition lookup_option (code : Z) (opts : list (Z * list Z)) : option (list Z) :=
  snd <$> List.find (λ o, o.1 =? code) opts.
(** The options of a message: those of its first OPT record. *)
Definition has_options (m : message) (opts : list (Z * list Z)) : Prop :=
  Forall option_ok opts ∧
  match List.find is_opt (m_rrs m) with
  | Some r => rr_data r = options_bytes opts
  | None => opts = []
  end.

Lemma find_split {A} (f : A → bool) l :
  match List.find f l with
  | Some x => ∃ l1 l2, l = l1 ++ x :: l2 ∧ Forall (λ y, f y = false) l1 ∧ f x = true
  | None => Forall (λ y, f y = false) l
  end.
Proof.
  induction l as [|y l IH]; [constructor|]. cbn [List.find]. destruct (f y) eqn:E.
  - by exists [], l.
  - destruct (List.find f l) as [x|]; [|by constructor].
    destruct IH as (l1 & l2 & -> & H1 & H2). exists (y :: l1), l2. split; [done|]. split; [by constructor|done].
Qed.

Lemma fmap_join_app {A} (f : A → list Z) l1 l2 : mjoin (f <$> l1 ++ l2) = mjoin (f <$> l1) ++ mjoin (f <$> l2).
Proof.
  induction l1 as [|x l1 IH]; [done|]. change ((x :: l1) ++ l2) with (x :: (l1 ++ l2)).
  by rewrite !join_cons, IH, app_assoc.
Qed.

(** The options of the record at [base]. *)
Lemma find_option_lookup p tl base opts code rest :
  Forall option_ok opts → at_off p base (options_bytes opts ++ rest) →
  let r := find_option (S (Z.to_nat (zlen (options_bytes opts)))) code ((Some <$> p) ++ tl) base
             (zlen (options_bytes opts)) 0 in
  match lookup_option code opts with
  | Some d => ∃ off, r = Done (Some (off, zlen d)) ∧ at_off p off d
  | None => r = Done None
  end.
Proof.
  intros Hok H r. pose proof (eq_refl : r = r) as Er. unfold r in Er at 2. clearbody r.
  pose proof (options_length opts) as Hl. fold (options_bytes opts) in Hl.
  unfold lookup_option. pose proof (find_split (λ o : Z * list Z, o.1 =? code) opts) as Hs.
  destruct (List.find _ opts) as [[c d]|]; cbn [fmap option_fmap option_map snd].
  - destruct Hs as (l1 & l2 & -> & Hn & Ec%Z.eqb_eq). cbn [fst] in Ec. subst c.
    unfold options_bytes in H, Er. rewrite fmap_join_app, join_cons in H, Er.
    apply Forall_app in Hok as [Hok1 Hok2]. apply Forall_cons in Hok2 as [Hd _].
    rewrite <- !app_assoc in H. rewrite length_app in Hl. cbn [length] in Hl.
    set (size := zlen (mjoin _ ++ _)) in Er.
    assert (size = zlen (options_bytes l1) + (4 + zlen d + zlen (options_bytes l2))) as Esize.
    { unfold size. rewrite !zlen_app. unfold option_bytes at 2. rewrite !zlen_app, !zlen_be16.
      unfold options_bytes. cbn [snd]. lia. }
    pose proof (zlen_nonneg d). pose proof (zlen_nonneg (options_bytes l2)). pose proof (zlen_nonneg (options_bytes l1)).
    pose proof (options_length l1) as Hl1. fold (options_bytes l1) in Hl1.
    replace (S (Z.to_nat size)) with (length l1 + S (Z.to_nat size - length l1))%nat in Er by lia.
    rewrite (find_option_skip p tl l1 code base size 0 _ (option_bytes (code, d) ++ options_bytes l2 ++ rest)) in Er;
      [|done| |lia|by rewrite Z.add_0_r|fold (options_bytes l1); lia].
    2: { eapply Forall_impl; [exact Hn|]. cbn. intros o Ho. by apply Z.eqb_neq in Ho. }
    apply at_off_app in H as [_ H]. fold (options_bytes l1) in Er. rewrite Z.add_0_l in Er.
    rewrite (find_option_here p tl code d base size _ _ _ Hd H) in Er by (fold (options_bytes l1); lia). eexists. split; [exact Er|].
    apply at_off_app in H as [H _]. unfold option_bytes in H. cbn [fst snd] in H.
    rewrite app_assoc in H. apply at_off_app in H as [_ H]. rewrite zlen_app, !zlen_be16 in H. done.
  - rewrite Er. replace (S (Z.to_nat (zlen (options_bytes opts)))) with
      (length opts + S (Z.to_nat (zlen (options_bytes opts)) - length opts))%nat by lia.
    rewrite (find_option_skip p tl opts code base _ 0 _ rest);
      [|done| |lia|by rewrite Z.add_0_r|unfold options_bytes; lia].
    2: { eapply Forall_impl; [exact Hs|]. cbn. intros o Ho. by apply Z.eqb_neq in Ho. }
    rewrite Z.add_0_l. apply find_option_end.
Qed.

Lemma message_counts m tl :
  message_ok m →
  let pkt := (Some <$> message_bytes m) ++ tl in
  u16_at pkt 4 = Done (Z.of_nat (length (m_qd m))) ∧ u16_at pkt 6 = Done (Z.of_nat (length (m_an m))) ∧
  u16_at pkt 8 = Done (Z.of_nat (length (m_ns m))) ∧ u16_at pkt 10 = Done (Z.of_nat (length (m_ar m))) ∧
  at_off (message_bytes m) 12 (mjoin (question_bytes <$> m_qd m) ++ mjoin (rr_bytes <$> m_rrs m)).
Proof.
  intros (Hh & _ & _ & L1 & L2 & L3 & L4) pkt. unfold pkt.
  assert (at_off (message_bytes m) 0 (message_bytes m)) as H.
  { exists [], []. by rewrite app_nil_r. }
  unfold message_bytes in H at 2. apply at_off_app in H as [_ H]. rewrite Hh, Z.add_0_l in H.
  split; [apply (at_off_u16 _ _ _ _ _ H); lia|]. apply at_off_app in H as [_ H].
  split; [apply (at_off_u16 _ _ _ _ _ H); lia|]. apply at_off_app in H as [_ H].
  split; [apply (at_off_u16 _ _ _ _ _ H); lia|]. apply at_off_app in H as [_ H].
  split; [apply (at_off_u16 _ _ _ _ _ H); lia|]. by apply at_off_app in H as [_ H].
Qed.

Lemma get_edns_opt_ok m opts code tl :
  message_ok m → has_options m opts →
  let p := message_bytes m in
  match lookup_option code opts with
  | Some d => ∃ off, get_edns_opt code ((Some <$> p) ++ tl) (zlen p) = Done (Some (off, zlen d)) ∧ at_off p off d
  | None => get_edns_opt code ((Some <$> p) ++ tl) (zlen p) = Done None
  end.
Proof.
  intros Hm [Hok Hopts] p. destruct (message_counts m tl Hm) as (E4 & E6 & E8 & E10 & H).
  destruct Hm as (_ & Hqd & Hrr & _). unfold get_edns_opt, sizeof_DNS_HEADER. fold p in E4, E6, E8, E10, H.
  rewrite E4, obind_done, E6, obind_done, E8, obind_done, E10, obind_done. cbv zeta.
  replace (Z.to_nat _) with (length (m_qd m) + length (m_rrs m))%nat
    by (unfold m_rrs; rewrite !length_app; lia).
  rewrite (find_opt_questions p tl (m_qd m) _ (Z.of_nat (length (m_qd m))) 0 12 _ Hqd ltac:(lia) H). apply at_off_app in H as [_ H].
  set (o := 12 + zlen _) in *. pose proof (find_split is_opt (m_rrs m)) as Hs.
  destruct (List.find is_opt (m_rrs m)) as [r|].
  - destruct Hs as (l1 & l2 & El & Hno & Hr). rewrite El, fmap_join_app, join_cons in H.
    rewrite El, length_app. rewrite El in Hrr. apply Forall_app in Hrr as [Hr1 Hr2].
    apply Forall_cons in Hr2 as [Hrok _]. cbn [length].
    rewrite (find_opt_skip p tl l1 _ _ _ o (rr_bytes r ++ mjoin (rr_bytes <$> l2)) Hr1 Hno); [|lia|exact H]. apply at_off_app in H as [_ H].
    rewrite (find_opt_here p tl r _ _ _ _ (mjoin (rr_bytes <$> l2)) Hrok Hr); [|lia|exact H]. rewrite obind_done, Hopts.
    eapply (find_option_lookup p tl _ opts code (mjoin (rr_bytes <$> l2))); [done|].
    rewrite <- Hopts. unfold rr_bytes in H at 2. rewrite <- !app_assoc in H. destruct Hrok as (_ & _ & Hf & _).
    do 4 apply at_off_app in H as [_ H]. rewrite !zlen_be16, Hf in H. unfold rr_data_off.
    by match goal with H : at_off _ ?a _ |- at_off _ ?b _ => replace b with a by lia end.
  - subst opts. rewrite <- (Nat.add_0_r (length (m_rrs m))).
    rewrite <- (app_nil_r (mjoin (rr_bytes <$> m_rrs m))) in H.
    rewrite (find_opt_skip p tl (m_rrs m) 0 _ _ o [] Hrr Hs); [done|lia|exact H].
Qed.

(** ** The query as a message *)

Definition query_opts (q : query_state) (client server : list Z) : list (Z * list Z) :=
  (if opt_nsid q then [(3, [])] else []) ++
  (if opt_client_subnet q then
     [(EDNS_OPT_CLIENT_SUBNET, be16 (if opt_AF_INET q then 1 else 2) ++ [0; 0])] else []) ++
  (if opt_cookies q then [(EDNS_OPT_COOKIE, client ++ server)] else []) ++
  (if opt_edns_option q =? 0 then [] else [(opt_edns_option q, [])]).

(** One question and, when it is wanted, an OPT record. *)
Definition query_message (q : query_state) (id : Z) (ls : list (list Z)) (client server : list Z) : message :=
  MSG (take 4 (query_header q id 0)) [QU (DN ls None) (be16 (qtype q) ++ be16 (qclass q))] [] []
    (if wants_edns q then
       [RR (DN [] None) ns_t_opt
          (be16 (opt_edns0 q) ++ [0; u8 (opt_edns_version q)] ++
           be16 (Z.lor (u16 (opt_edns_flags q)) (if opt_dnssec q then 0x8000 else 0)))
          (options_bytes (query_opts q client server))]
     else []).

Lemma options_bytes_app o1 o2 : options_bytes (o1 ++ o2) = options_bytes o1 ++ options_bytes o2.
Proof. apply fmap_join_app. Qed.

Lemma query_options_bytes q client server :
  query_options q client server = options_bytes (query_opts q client server).
Proof.
  unfold query_opts, query_options. rewrite !options_bytes_app.
  f_equal; [by destruct (opt_nsid q)|]. f_equal; [by destruct (opt_client_subnet q)|].
  f_equal; [|by destruct (opt_edns_option q =? 0)].
  destruct (opt_cookies q); [|done]. unfold options_bytes, option_bytes. cbn [fmap list_fmap mjoin list_join fst snd].
  by rewrite app_nil_r, zlen_app.
Qed.

Lemma query_bytes_message q id ls client server :
  query_bytes q id (wire_name ls) client server = message_bytes (query_message q id ls client server).
Proof.
  unfold query_bytes, message_bytes, query_message, m_rrs. cbn [m_head m_qd m_an m_ns m_ar app length].
  unfold question_bytes, dname_bytes. cbn [fmap list_fmap mjoin list_join qu_name qu_fields dn_labels dn_pointer].
  rewrite query_options_bytes. unfold wire_name. rewrite app_nil_r, <- !app_assoc.
  destruct (wants_edns q); cbn [length fmap list_fmap mjoin list_join]; [|by rewrite app_nil_r].
  unfold rr_bytes, dname_bytes. cbn [rr_owner rr_type rr_fields rr_data dn_labels dn_pointer].
  rewrite app_nil_r. unfold opt_fixed. by rewrite <- !app_assoc.
Qed.

(** The fields that come from the command line fit their width. *)
Definition query_ok (q : query_state) : Prop :=
  cookies_ok q ∧ 0 ≤ opt_edns_option q < 2 ^ 16.

Lemma query_opts_ok q client server :
  0 ≤ opt_edns_option q < 2 ^ 16 → zlen client + zlen server ≤ 40 →
  Forall option_ok (query_opts q client server) ∧ zlen (options_bytes (query_opts q client server)) < 2 ^ 16.
Proof.
  intros Ho Hl. rewrite <- query_options_bytes. unfold query_opts. split.
  - rewrite !Forall_app.
    split; [by destruct (opt_nsid q); repeat constructor|].
    split; [by destruct (opt_client_subnet q); repeat constructor|].
    split; [destruct (opt_cookies q); [|by constructor]|destruct (opt_edns_option q =? 0); [by constructor|]];
      apply Forall_singleton; split; cbn [fst snd]; rewrite ?zlen_app; done || lia.
  - unfold query_options. rewrite !zlen_app.
    assert (zlen (if opt_nsid q then be16 3 ++ be16 0 else []) ≤ 4) by (destruct (opt_nsid q); by vm_compute).
    set (x := zlen (if opt_client_subnet q then _ else _)).
    assert (x ≤ 8) by (unfold x; destruct (opt_client_subnet q); [|done]; destruct (opt_AF_INET q); by vm_compute).
    set (y := zlen (if opt_cookies q then _ else _)).
    assert (y ≤ 44).
    { unfold y. destruct (opt_cookies q); [|done]. rewrite !zlen_app, !zlen_be16. lia. }
    set (z := zlen (if opt_edns_option q =? 0 then _ else _)).
    assert (z ≤ 4) by (unfold z; by destruct (opt_edns_option q =? 0)). lia.
Qed.

Lemma query_message_ok q id ls client server :
  0 ≤ opt_edns_option q < 2 ^ 16 → Forall label_ok ls → zlen client + zlen server ≤ 40 →
  message_ok (query_message q id ls client server) ∧
  (wants_edns q = true → has_options (query_message q id ls client server) (query_opts q client server)).
Proof.
  intros Ho Hls Hl. destruct (query_opts_ok q client server Ho Hl) as [Hok Hlen].
  unfold query_message, has_options, message_ok, m_rrs. cbn [m_head m_qd m_an m_ns m_ar app]. split.
  - split; [done|]. split; [by repeat constructor|].
    destruct (wants_edns q); split; by repeat constructor.
  - intros ->. split; done.
Qed.

(** ** Cookies *)

(** What a reply with these options tells about the cookie of the server. *)
Definition learnt_cookie (q : query_state) (opts : list (Z * list Z)) : list Z :=
  match lookup_option EDNS_OPT_COOKIE opts with
  | Some d =>
      if (16 <=? zlen d) && (zlen d <=? 40) && bool_decide (take 8 d = client_cookie (cookie_state q))
      then drop 8 d else []
  | None => []
  end.

Lemma cookies_ok_insert q b sc :
  cookies_ok q → cookie_ok sc →
  let cs := cookie_state q in
  let q' := set_cookies b (CS (client_secret cs) (client_cookie cs) (<[server_index q := sc]> (server_cookies cs))) q in
  cookies_ok q' ∧ server_part q' = take (Z.to_nat (sc_len sc)) (sc_cookie sc).
Proof.
  intros (Hl & Hf & Hr) Hsc cs q'. unfold cookies_ok, q'. cbn [cookie_state set_cookies server_cookies resolv_i].
  split.
  - split; [unfold zlen; by rewrite length_insert|]. split; [|done]. by apply Forall_insert.
  - unfold server_part. cbn [cookie_state set_cookies server_cookies].
    change (server_index _) with (server_index q).
    rewrite list_lookup_insert_eq; [done|].
    destruct (cookies_server q) as (x & Ex & _); [done|]. by eapply lookup_lt_Some.
Qed.

Lemma update_server_cookie_ok q m opts tl :
  cookies_ok q → message_ok m → has_options m opts →
  ∃ q', update_server_cookie q ((Some <$> message_bytes m) ++ tl) (zlen (message_bytes m)) = Done q' ∧
    cookies_ok q' ∧ server_part q' = learnt_cookie q opts ∧
    client_cookie (cookie_state q') = client_cookie (cookie_state q) ∧
    client_secret (cookie_state q') = client_secret (cookie_state q).
Proof.
  intros Hc Hm Ho. unfold update_server_cookie, DNS_CLIENT_COOKIE_LEN, DNS_SERVER_COOKIE_MIN_LEN,
    DNS_SERVER_COOKIE_MAX_LEN.
  destruct (cookies_server q Hc) as (sc & Esc & [Hlen Hcookie]). rewrite Esc.
  pose proof (get_edns_opt_ok m opts EDNS_OPT_COOKIE tl Hm Ho) as He. cbv zeta in He.
  assert (cookie_ok (SC 0 (sc_cookie sc))) as Hw by (split; cbn [sc_len]; [unfold DNS_SERVER_COOKIE_MAX_LEN; lia|done]).
  pose proof (λ b, cookies_ok_insert q b _ Hc Hw) as Hwiped. cbv zeta in Hwiped. cbn [sc_len Z.to_nat take] in Hwiped.
  unfold learnt_cookie. destruct (lookup_option EDNS_OPT_COOKIE opts) as [d|].
  2: { rewrite He, obind_done. eexists. split; [done|]. destruct (Hwiped (client_cookie_mismatch q)). done. }
  destruct He as (off & -> & Hat). rewrite obind_done. change (8 + 8) with 16. change (8 + 32) with 40.
  pose proof (at_off_bound _ _ _ Hat) as Hoff.
  rewrite Z.ltb_antisym, (Z.ltb_antisym (zlen d) 40). destruct (Z.leb_spec 16 (zlen d)) as [Hd1|]; cbn [negb orb andb].
  2: { eexists. split; [done|]. destruct (Hwiped (client_cookie_mismatch q)). done. }
  destruct (Z.leb_spec (zlen d) 40) as [Hd2|]; cbn [negb].
  2: { eexists. split; [done|]. destruct (Hwiped (client_cookie_mismatch q)). done. }
  assert (d = take 8 d ++ drop 8 d) as Ed by (by rewrite take_drop).
  assert (length (take 8 d) = 8%nat) as Ht by (rewrite length_take; unfold zlen in *; lia).
  rewrite Ed in Hat. apply at_off_app in Hat as [H1 H2].
  pose proof (at_off_loadn _ tl _ _ H1) as L1. rewrite Ht in L1. change (Z.to_nat 8) with 8%nat. rewrite L1, obind_done.
  case_bool_decide as E1; [|rewrite bool_decide_false by congruence]; cbn [negb].
  2: { eexists. split; [done|]. destruct (Hwiped true). done. }
  rewrite bool_decide_true by done. unfold zlen in H2. rewrite Ht in H2.
  pose proof (at_off_loadn _ tl _ _ H2) as L2. rewrite length_drop in L2.
  replace (Z.to_nat (zlen d - 8)) with (length d - 8)%nat by (unfold zlen; lia).
  change (Z.of_nat 8) with 8 in L2. rewrite L2, obind_done. eexists. split; [done|].
  unfold zlen, DNS_SERVER_COOKIE_MAX_LEN in *.
  match goal with |- context [<[_ := ?s]> _] => assert (cookie_ok s) as Hs end.
  { split; cbn [sc_len sc_cookie]; unfold zlen, DNS_SERVER_COOKIE_MAX_LEN; rewrite ?length_app, ?length_drop; lia. }
  destruct (cookies_ok_insert q (client_cookie_mismatch q) _ Hc Hs) as [Hc' Hsp].
  split; [exact Hc'|]. split; [|done]. etrans; [exact Hsp|]. cbn [sc_len sc_cookie].
  rewrite take_app_length'; [done|]. rewrite length_drop. lia.
Qed.

(** ** Properties *)

(** A text of labels that a query can carry. *)
Definition name_ok (ls : list (list Z)) : Prop :=
  Forall (λ l, label_ok l ∧ dot ∉ l) ls ∧ zlen (text_name ls) ≤ 254.

Lemma name_ok_labels ls : name_ok ls → Forall label_ok ls.
Proof. intros [H _]. eapply Forall_impl; [exact H|]. by intros ? []. Qed.

Lemma name_ok_encode ls : name_ok ls → ChangetoDnsNameFormat 255 (text_name ls) = Done (Some (wire_name ls)).
Proof. intros [H1 H2]. apply ChangetoDnsNameFormat_ok; [done|lia]. Qed.

(** Names survive the way over the wire: a name of labels of 1 to 63 bytes
    without dots, of at most 254 bytes as text, is encoded by
    [ChangetoDnsNameFormat], and [ReadName] reads the same labels from wherever
    the encoding is in a packet, with the length of the encoding as count. *)
Theorem dns_name_roundtrip ls pre post tl :
  name_ok ls →
  ∃ w, ChangetoDnsNameFormat 255 (text_name ls) = Done (Some w) ∧
    ReadName ((Some <$> (pre ++ w ++ post)) ++ tl) (zlen (pre ++ w ++ post)) (zlen pre) =
    Done (Some (shown_name (text_name ls)), zlen w).
Proof.
  intros H. exists (wire_name ls). split; [by apply name_ok_encode|].
  eapply ReadName_ok; [|by apply name_ok_labels|destruct H; lia|].
  - apply name_at_wire; [by apply name_ok_labels|]. by apply at_off_intro.
  - lia.
Qed.

Lemma dns_name_roundtrip_witness :
  ∃ w, ChangetoDnsNameFormat 255 (text_name [str "atlas"; str "ripe"; str "net"]) = Done (Some w) ∧
    ReadName ((Some <$> ([1; 2] ++ w ++ [7])) ++ [None]) (zlen ([1; 2] ++ w ++ [7])) (zlen [1; 2]) =
    Done (Some (shown_name (text_name [str "atlas"; str "ripe"; str "net"])), zlen w).
Proof.
  apply (dns_name_roundtrip [str "atlas"; str "ripe"; str "net"] [1; 2] [7] [None]).
  split; [|by vm_compute].
  repeat apply Forall_cons_2; try apply Forall_nil_2; (split; [split; by vm_compute|by apply (bool_decide_unpack _)]).
Defined.

(** Compression: whatever labels a name of a packet denotes, through up to
    257 pointers, [ReadName] returns them, and its count is the length of the
    name where it starts. *)
Theorem dns_name_compressed p tl j i ls c :
  name_at p j i ls c → Forall label_ok ls → zlen (text_name ls) ≤ 255 → (j ≤ 257)%nat →
  ReadName ((Some <$> p) ++ tl) (zlen p) i = Done (Some (shown_name (text_name ls)), c).
Proof. apply ReadName_ok. Qed.

Lemma dns_name_compressed_witness :
  let p := [3; 110; 101; 116; 0; 4; 114; 105; 112; 101; 192; 0] in
  ReadName ((Some <$> p) ++ []) (zlen p) 5 = Done (Some (shown_name (text_name [str "ripe"; str "net"])), 7).
Proof.
  set (p := [3; 110; 101; 116; 0; 4; 114; 105; 112; 101; 192; 0]). cbv zeta.
  apply (dns_name_compressed p [] 1 5 [str "ripe"; str "net"] 7).
  - apply (name_label p 1 5 (str "ripe") [str "net"] 2); [split; by vm_compute|by exists (take 5 p), [192; 0]|].
    apply (name_pointer p 0 10 192 0 [str "net"] 5); [lia|unfold is_byte; lia|by exists (take 10 p), []|].
    apply (name_label p 0 0 (str "net") [] 1); [split; by vm_compute|by exists [], (drop 4 p)|].
    apply name_end. by exists (take 4 p), (drop 5 p).
  - repeat apply Forall_cons_2; try apply Forall_nil_2; split; by vm_compute.
  - by vm_compute.
  - lia.
Defined.

(** C31: the report on a reply ends and stays inside the packet whatever the
    packet holds, provided the byte behind it is initialised: names loop at most
    257 times, and no length in the packet is trusted. *)
Theorem dns_report_total p x tl :
  Forall is_byte (p ++ [x]) →
  (∃ t, reply_contents ((Some <$> (p ++ [x])) ++ tl) (zlen p) = Done t) ∧
  (∀ i, 0 ≤ i → ∃ r, ReadName ((Some <$> (p ++ [x])) ++ tl) (zlen p) i = Done r ∧ name_result (zlen p) i r).
Proof. intros H. split; [by apply reply_contents_any|]. intros i Hi. by apply ReadName_any. Qed.

Lemma dns_report_total_witness :
  let p := [192; 0; 192] in
  (∃ t, reply_contents ((Some <$> (p ++ [0])) ++ []) (zlen p) = Done t) ∧
  (∀ i, 0 ≤ i → ∃ r, ReadName ((Some <$> (p ++ [0])) ++ []) (zlen p) i = Done r ∧ name_result (zlen p) i r).
Proof.
  cbv zeta. apply (dns_report_total [192; 0; 192] 0 []).
  repeat apply Forall_cons_2; try apply Forall_nil_2; split; by vm_compute.
Defined.

(** A name that ends in the first byte of a pointer at the end of the buffer is
    read beyond it. *)
Theorem ReadName_pointer_at_end p :
  byte_at (Some <$> (p ++ [192])) (zlen p) = Done 192 ∧
  ReadName (Some <$> (p ++ [192])) (zlen (p ++ [192])) (zlen p) = Crash Undefined.
Proof.
  assert (at_off (p ++ [192]) (zlen p) [192]) as H by (by exists p, []; rewrite ?app_nil_r).
  rewrite <- (app_nil_r (Some <$> (p ++ [192]))). pose proof (at_off_byte _ [] _ _ _ H) as E.
  split; [done|]. unfold ReadName. change 400%nat with (S 399). generalize 399%nat. intros fuel. cbn [read_labels].
  destruct (Z.ltb_spec (zlen p) (zlen (p ++ [192]))) as [_|Hlt]; [|rewrite zlen_app in Hlt; change (zlen [192]) with 1 in Hlt; lia].
  cbn [negb]. rewrite E, obind_done. change (192 =? 0) with false. change (Z.land 192 0xc0 =? 0) with false.
  change (Z.land 192 0xc0 =? 0xc0) with true. cbn [negb]. unfold byte_at at 1.
  pose proof (zlen_nonneg p). destruct (Z.ltb_spec (zlen p + 1) 0); [lia|]. unfold load.
  rewrite lookup_ge_None_2; [done|]. rewrite app_nil_r, length_fmap, length_app. unfold zlen. simpl. lia.
Qed.

(** The strings of a TXT record are reported as they are: the text between
    the quotes decodes to the bytes of each string, and no byte of them ends the
    quoted text early. *)
Theorem txt_report_faithful strs :
  Forall (Forall is_byte) strs →
  print_txt_json (txt_rdata strs) =
    quote ++ str "RDATA" ++ quote ++ str " : [ " ++ quote ++ txt_text strs ++ quote ++ str " ] " ∧
  Forall (λ s, txt_unescape (txt_escape s) = Some s ∧ 34 ∉ txt_escape s) strs.
Proof.
  intros H. split; [unfold print_txt_json; by rewrite txt_loop_rdata|].
  eapply Forall_impl; [exact H|]. intros s Hs. split; [by apply txt_unescape_escape|by apply txt_escape_quote].
Qed.

Lemma txt_report_faithful_witness :
  print_txt_json (txt_rdata [[34; 92; 7]; str "ok"]) =
    quote ++ str "RDATA" ++ quote ++ str " : [ " ++ quote ++ txt_text [[34; 92; 7]; str "ok"] ++ quote ++ str " ] " ∧
  Forall (λ s, txt_unescape (txt_escape s) = Some s ∧ 34 ∉ txt_escape s) [[34; 92; 7]; str "ok"].
Proof.
  apply (txt_report_faithful [[34; 92; 7]; str "ok"]).
  repeat apply Forall_cons_2; try apply Forall_nil_2; split; by vm_compute.
Defined.

(** C21: the packet [mk_dns_buff] builds in a zeroed buffer of 512 bytes is the
    DNS message that the options ask for (one question, and an OPT record with
    NSID, client subnet, cookie and free option in this order), [pktsize] is its
    length and [qryid] its id; no check fails and nothing is written outside. *)
Theorem mk_dns_buff_message random probe_id sha256 local_addr remote_bytes q ls :
  (∀ l, length (sha256 l) = 32%nat) →
  cookies_ok q → 0 ≤ opt_edns_option q < 2 ^ 16 → name_ok ls → query_name probe_id q = text_name ls →
  let client := client_part sha256 local_addr remote_bytes q in
  let m := query_message q (query_id random q) ls client (server_part q) in
  ∃ q' k, mk_dns_buff random probe_id sha256 local_addr remote_bytes q (replicate 512 (Some 0)) 512 =
    Done (0, q', filled_with (message_bytes m) k) ∧
  pktsize q' = zlen (message_bytes m) ∧ qryid q' = query_id random q ∧
  message_ok m ∧ (wants_edns q = true → has_options m (query_opts q client (server_part q))) ∧ cookies_ok q'.
Proof.
  intros Hsha Hc Ho Hls Hn client m.
  assert (zlen client + zlen (server_part q) ≤ 40) as Hl.
  { pose proof (client_part_length sha256 local_addr remote_bytes Hsha q) as E. unfold client, zlen. rewrite E.
    unfold server_part. destruct (cookies_server q Hc) as (sc & -> & [Hsc _]).
    unfold DNS_SERVER_COOKIE_MAX_LEN in Hsc. rewrite length_take. lia. }
  destruct (query_message_ok q (query_id random q) ls client (server_part q) Ho (name_ok_labels _ Hls) Hl) as [Hm Hopts].
  unfold m. rewrite <- query_bytes_message.
  rewrite (mk_dns_buff_ok random probe_id sha256 local_addr remote_bytes Hsha q 512 512 (wire_name ls));
    [|done|lia|lia|destruct Hls; rewrite zlen_wire; lia|rewrite Hn; by apply name_ok_encode].
  eexists _, _. split; [done|]. split; [done|]. split; [done|]. split; [done|]. split; [done|].
  unfold cookies_ok, new_cookies. cbn [set_query cookie_state resolv_i server_cookies].
  by destruct (wants_edns q); [destruct (opt_cookies q)|].
Qed.

(** The state of a measurement that asks for everything. *)
Definition sample_query : query_state :=
  Q 0 true 4096 0 0 0 true true true true false true false false false 0 false 1 1 (str "ripe.net.") false 0 0
    (CS [] [] (replicate 3 (SC 9 (seqZ 1 32)))).

Lemma sample_query_ok : cookies_ok sample_query.
Proof.
  split; [done|]. split; [|by vm_compute].
  repeat apply Forall_cons_2; try apply Forall_nil_2; split; by vm_compute.
Qed.

Lemma sample_name_ok : name_ok [str "ripe"; str "net"].
Proof.
  split; [|by vm_compute].
  repeat apply Forall_cons_2; try apply Forall_nil_2; (split; [split; by vm_compute|by apply (bool_decide_unpack _)]).
Qed.

Lemma mk_dns_buff_message_witness :
  let sha256 := λ _ : list Z, seqZ 0 32 in
  let client := client_part sha256 [] [] sample_query in
  let m := query_message sample_query (query_id 7 sample_query) [str "ripe"; str "net"] client
             (server_part sample_query) in
  ∃ q' k, mk_dns_buff 7 1 sha256 [] [] sample_query (replicate 512 (Some 0)) 512 =
    Done (0, q', filled_with (message_bytes m) k) ∧
  pktsize q' = zlen (message_bytes m) ∧ qryid q' = query_id 7 sample_query ∧
  message_ok m ∧ (wants_edns sample_query = true → has_options m (query_opts sample_query client (server_part sample_query))) ∧
  cookies_ok q'.
Proof.
  cbv zeta. apply (mk_dns_buff_message 7 1 (λ _, seqZ 0 32) [] [] sample_query [str "ripe"; str "net"]).
  - done.
  - apply sample_query_ok.
  - by vm_compute.
  - apply sample_name_ok.
  - by vm_compute.
Defined.

(** [get_edns_opt] is the lookup in the options of the message: it returns
    the place and the length of the data of the first option with the code in
    the first OPT record, and -1 when there is none. *)
Theorem get_edns_opt_lookup m opts code tl :
  message_ok m → has_options m opts →
  let p := message_bytes m in
  match lookup_option code opts with
  | Some d => ∃ off, get_edns_opt code ((Some <$> p) ++ tl) (zlen p) = Done (Some (off, zlen d)) ∧
                     loadn ((Some <$> p) ++ tl) (Z.to_nat off) (length d) = Done d
  | None => get_edns_opt code ((Some <$> p) ++ tl) (zlen p) = Done None
  end.
Proof.
  intros Hm Ho p. pose proof (get_edns_opt_ok m opts code tl Hm Ho) as H. cbv zeta in H. fold p in H.
  destruct (lookup_option code opts) as [d|]; [|done]. destruct H as (off & E & H).
  exists off. split; [done|]. by apply at_off_loadn.
Qed.

(** A reply to [sample_query] with a cookie behind another option. *)
Definition sample_options : list (Z * list Z) := [(3, [1; 2]); (EDNS_OPT_COOKIE, seqZ 24 8 ++ seqZ 50 16)].
Definition sample_reply : message :=
  MSG [0; 7; 0; 0] [QU (DN [str "ripe"; str "net"] None) [0; 1; 0; 1]]
    [RR (DN [] (Some (192, 12))) 1 [0; 1; 0; 0; 0; 9] [1; 2; 3; 4]] []
    [RR (DN [] None) ns_t_opt [16; 0; 0; 0; 0; 0] (options_bytes sample_options)].

Lemma sample_reply_ok : message_ok sample_reply ∧ has_options sample_reply sample_options.
Proof.
  split.
  - split; [done|]. split; [|split; [|done]].
    + apply Forall_singleton. split; [|done]. split; [|done].
      repeat apply Forall_cons_2; try apply Forall_nil_2; split; by vm_compute.
    + repeat apply Forall_cons_2; try apply Forall_nil_2;
        (split; [split; [by constructor|by vm_compute]|split; [by vm_compute|split; by vm_compute]]).
  - split; [|done]. repeat apply Forall_cons_2; try apply Forall_nil_2; split; by vm_compute.
Qed.

Lemma get_edns_opt_lookup_witness :
  let p := message_bytes sample_reply in
  ∃ off, get_edns_opt EDNS_OPT_COOKIE ((Some <$> p) ++ [None]) (zlen p) = Done (Some (off, 24)) ∧
         loadn ((Some <$> p) ++ [None]) (Z.to_nat off) 24 = Done (seqZ 24 8 ++ seqZ 50 16).
Proof.
  cbv zeta. destruct sample_reply_ok as [H1 H2].
  exact (get_edns_opt_lookup sample_reply sample_options EDNS_OPT_COOKIE [None] H1 H2).
Defined.

Lemma lookup_cookie q client server :
  opt_cookies q = true → lookup_option EDNS_OPT_COOKIE (query_opts q client server) = Some (client ++ server).
Proof.
  intros E. unfold query_opts, lookup_option, EDNS_OPT_COOKIE. rewrite E.
  by destruct (opt_nsid q), (opt_client_subnet q).
Qed.

(** A query after its reply: what is sent does not change but for the cookie. *)
Lemma process_reply_ok c q m opts id rest tl :
  opt_cookies q = true → cookies_ok q → message_ok m → has_options m opts →
  m_head m = be16 id ++ rest → 0 ≤ id < 2 ^ 16 →
  ∃ c' r, process_reply c q ((Some <$> message_bytes m) ++ tl) (zlen (message_bytes m)) = Done (c', r) ∧
  if id =? qryid q then
    ∃ q', r = Some q' ∧ cookies_ok q' ∧ server_part q' = learnt_cookie q opts ∧
      q' = set_cookies (client_cookie_mismatch q') (cookie_state q') q ∧
      client_secret (cookie_state q') = client_secret (cookie_state q)
  else r = None.
Proof.
  intros Hck Hc Hm Ho Hh Hid. unfold process_reply, sizeof_DNS_HEADER.
  assert (12 ≤ zlen (message_bytes m)) as Hlen.
  { destruct (message_counts m tl Hm) as (_ & _ & _ & _ & H). apply at_off_bound in H.
    pose proof (zlen_nonneg (mjoin (question_bytes <$> m_qd m) ++ mjoin (rr_bytes <$> m_rrs m))). lia. }
  destruct (Z.ltb_spec (zlen (message_bytes m)) 12); [lia|]. cbv zeta.
  rewrite (at_off_u16 _ tl 0 id (drop 2 (message_bytes m))), obind_done; [|exists [], []|done].
  2: { split; [|done]. unfold message_bytes. rewrite Hh, <- !app_assoc. by rewrite app_nil_r. }
  destruct (Z.eqb_spec id (qryid q)) as [|]; cbn [negb]; [|by eexists _, _].
  rewrite Hck. destruct (update_server_cookie_ok q m opts tl Hc Hm Ho) as (q' & E & H1 & H2 & _ & H4).
  rewrite E, obind_done. eexists _, _. split; [done|]. exists q'. split; [done|].
  split; [done|]. split; [done|]. split; [|done].
  unfold update_server_cookie in E. destruct (server_cookies (cookie_state q) !! server_index q); [|done].
  destruct (get_edns_opt _ _ _) as [[[off l]|]|]; [|by simplify_eq/=|done].
  rewrite obind_done in E. destruct (_ || _); [by simplify_eq/=|].
  destruct (loadn _ (Z.to_nat off) (Z.to_nat DNS_CLIENT_COOKIE_LEN)) as [got|]; [|done]. rewrite obind_done in E. destruct (negb _); [by simplify_eq/=|].
  cbv zeta in E. destruct (loadn _ (Z.to_nat (off + _)) _); [|done]. rewrite obind_done in E. by simplify_eq/=.
Qed.

(** C20: cookies go back and forth: when the reply to a query echoes its client
    cookie with a server cookie of 8 to 32 bytes, the next query to that server
    carries both; after any other well-formed reply with the id of the query it
    carries the client cookie alone.  A reply with another id is not accepted. *)
Theorem dns_cookie_exchange random probe_id sha256 local_addr remote_bytes c q ls m opts id rest tl :
  (∀ l, length (sha256 l) = 32%nat) →
  opt_cookies q = true → cookies_ok q → 0 ≤ opt_edns_option q < 2 ^ 16 → name_ok ls →
  query_name probe_id q = text_name ls →
  message_ok m → has_options m opts → m_head m = be16 id ++ rest → 0 ≤ id < 2 ^ 16 →
  ∃ c' r, process_reply c q ((Some <$> message_bytes m) ++ tl) (zlen (message_bytes m)) = Done (c', r) ∧
  (id ≠ qryid q → r = None) ∧
  (id = qryid q → ∃ q1 q2 packet off d,
     r = Some q1 ∧
     mk_dns_buff random probe_id sha256 local_addr remote_bytes q1 (replicate 512 (Some 0)) 512 = Done (0, q2, packet) ∧
     get_edns_opt EDNS_OPT_COOKIE packet (pktsize q2) = Done (Some (off, zlen d)) ∧
     loadn packet (Z.to_nat off) (length d) = Done d ∧
     d = client_part sha256 local_addr remote_bytes q ++ learnt_cookie q opts).
Proof.
  intros Hsha Hck Hc Heo Hls Hn Hm Ho Hh Hid.
  destruct (process_reply_ok c q m opts id rest tl Hck Hc Hm Ho Hh Hid) as (c' & r & E & H).
  exists c', r. split; [exact E|]. destruct (Z.eqb_spec id (qryid q)); [|done]. split; [done|]. intros _.
  destruct H as (q1 & -> & Hc1 & Hsp & Eq & Hsec).
  assert (opt_cookies q1 = true ∧ opt_edns_option q1 = opt_edns_option q ∧ query_name probe_id q1 = query_name probe_id q)
    as (Hck1 & Heo1 & Hn1) by (by rewrite Eq).
  rewrite <- Heo1 in Heo. rewrite <- Hn1 in Hn. exists q1.
  assert (client_part sha256 local_addr remote_bytes q1 = client_part sha256 local_addr remote_bytes q) as Ecl
    by (unfold client_part; by rewrite Hsec).
  assert (zlen (client_part sha256 local_addr remote_bytes q1) + zlen (server_part q1) ≤ 40) as Hl.
  { unfold zlen. rewrite (client_part_length _ _ _ Hsha).
    unfold server_part. destruct (cookies_server q1 Hc1) as (sc & -> & [Hsc _]).
    unfold DNS_SERVER_COOKIE_MAX_LEN in Hsc. rewrite length_take. lia. }
  assert (wants_edns q1 = true) as Hw by (unfold wants_edns; rewrite Hck1; by rewrite !orb_true_r).
  destruct (query_message_ok q1 (query_id random q1) ls _ (server_part q1) Heo (name_ok_labels _ Hls) Hl) as [Hm1 Ho1].
  specialize (Ho1 Hw).
  rewrite (mk_dns_buff_ok random probe_id sha256 local_addr remote_bytes Hsha q1 512 512 (wire_name ls));
    [|done|lia|lia|destruct Hls; rewrite zlen_wire; lia|rewrite Hn; by apply name_ok_encode].
  rewrite query_bytes_message. set (m1 := query_message _ _ _ _ _) in *. set (k := (512 - _)%nat).
  pose proof (get_edns_opt_ok m1 _ EDNS_OPT_COOKIE (Some <$> replicate k 0) Hm1 Ho1) as Hg.
  cbv zeta in Hg. rewrite lookup_cookie in Hg by done. destruct Hg as (off & Eg & Hat).
  eexists _, _, off, _. split; [done|]. split; [done|]. unfold filled_with. rewrite fmap_app.
  split; [exact Eg|]. split; [by apply at_off_loadn|]. by rewrite Ecl, Hsp.
Qed.

Definition sample_state : query_state :=
  set_query 7 0 (CS [] (seqZ 24 8) (server_cookies (cookie_state sample_query))) sample_query.

Lemma dns_cookie_exchange_witness :
  let sha256 := λ _ : list Z, seqZ 0 32 in
  ∃ c' r, process_reply (C 0 0 0 0) sample_state ((Some <$> message_bytes sample_reply) ++ [])
    (zlen (message_bytes sample_reply)) = Done (c', r) ∧
  (7 ≠ qryid sample_state → r = None) ∧
  (7 = qryid sample_state → ∃ q1 q2 packet off d,
     r = Some q1 ∧ mk_dns_buff 8 1 sha256 [] [] q1 (replicate 512 (Some 0)) 512 = Done (0, q2, packet) ∧
     get_edns_opt EDNS_OPT_COOKIE packet (pktsize q2) = Done (Some (off, zlen d)) ∧
     loadn packet (Z.to_nat off) (length d) = Done d ∧
     d = client_part sha256 [] [] sample_state ++ learnt_cookie sample_state sample_options) ∧
  learnt_cookie sample_state sample_options = seqZ 50 16.
Proof.
  cbv zeta. destruct sample_reply_ok as [H1 H2]. 
  destruct (dns_cookie_exchange 8 1 (λ _, seqZ 0 32) [] [] (C 0 0 0 0) sample_state [str "ripe"; str "net"]
    sample_reply sample_options 7 [0; 0] []) as (c' & r & E & Hn & Hy);
    [done|done|apply sample_query_ok|by vm_compute|apply sample_name_ok|by vm_compute|done|done|done|lia|].
  exists c', r. split; [exact E|]. split; [exact Hn|]. split; [exact Hy|]. by vm_compute.
Defined.

(** The length of the data of an OPT record is not compared with the length of
    the packet: options beyond the 5120 bytes of the buffer are read. *)
Theorem get_edns_opt_over_read :
  let p := [0; 0; 0; 0; 0; 0; 0; 0; 0; 0; 0; 1; 0; 0; 41; 16; 0; 0; 0; 0; 0; 255; 255] ++
           [0; 0] ++ be16 (MAX_DNS_BUF_SIZE - 27) ++ replicate (Z.to_nat MAX_DNS_BUF_SIZE - 27) 0 in
  zlen p = MAX_DNS_BUF_SIZE ∧ get_edns_opt EDNS_OPT_COOKIE (Some <$> p) (zlen p) = Crash Undefined.
Proof. split; by vm_compute. Qed.

(** A reply that is cut off behind the client cookie is accepted: the server cookie is taken from what the buffer
    holds behind the packet. *)
Theorem dns_cookie_cut_off :
  let b := message_bytes sample_reply in
  let cut := (length b - 16)%nat in
  let stale := replicate 16 119 in
  ∃ c' q1, process_reply (C 0 0 0 0) sample_state ((Some <$> take cut b) ++ (Some <$> stale)) (Z.of_nat cut) = Done (c', Some q1) ∧
    drop cut b = seqZ 50 16 ∧ server_part q1 = stale.
Proof. vm_compute. do 2 eexists. split; [reflexivity|]. split; reflexivity. Qed.
