(* ===== verification/Cstr.v ===== *)
(** * C strings

    The functions of [string.h], [stdlib.h] and [ctype.h] the HTTP and resolver
    code uses, on the bytes before the terminating NUL, and the quoting of text
    in JSON. *)

From stdpp Require Import base list list_numbers numbers option strings.
From Stdlib Require Import ZArith Lia.
From S2P Require Import Prelude Bits.

Open Scope Z_scope.

Abbreviation str := bytes_of_string.

(** [strncasecmp(s, kw, strlen(kw)) == 0] *)
Definition prefix_nocase (kw s : list Z) : bool :=
  bool_decide (tolower <$> take (length kw) s = tolower <$> kw).

(** [strchr(s, c)]: what is before the first [c], and from there on. *)
Fixpoint split_at (c : Z) (s : list Z) : option (list Z * list Z) :=
  match s with
  | [] => None
  | x :: s' => if x =? c then Some ([], s) else '(a, b) ← split_at c s'; Some (x :: a, b)
  end.

(** The longest prefix that satisfies a predicate, and the rest. *)
Fixpoint span (f : Z → bool) (s : list Z) : list Z * list Z :=
  match s with
  | [] => ([], [])
  | x :: s' => if f x then let '(a, b) := span f s' in (x :: a, b) else ([], s)
  end.

Definition digit_value (c : Z) : Z :=
  if isdigit c then c - 48 else if (97 <=? tolower c) && (tolower c <=? 102) then tolower c - 87 else 16.
Definition value_of (base : Z) (ds : list Z) : Z := fold_left (λ a c, base * a + digit_value c) ds 0.

(** [strtoul(s, &check, base)] with a [long] of 64 bits, for base 10 or 16: the
    value and the rest of the string; [None] when there is no number
    ([check == s] and the value is 0). *)
Definition strtoul (base : Z) (s : list Z) : option (Z * list Z) :=
  let '(_, s) := span isspace s in
  let '(neg, s) := match s with 45 :: s' => (true, s') | 43 :: s' => (false, s') | _ => (false, s) end in
  let s := match s with
           | 48 :: x :: d :: s' =>
               if (base =? 16) && (tolower x =? 120) && (digit_value d <? 16) then d :: s' else s
           | _ => s
           end in
  match span (λ c, digit_value c <? base) s with
  | ([], _) => None
  | (ds, rest) =>
      let v := value_of base ds in
      Some (if 2 ^ 64 <=? v then 2 ^ 64 - 1 else if neg : bool then u64 (- v) else v, rest)
  end.

Definition isprint_asciionly (c : Z) : bool := (32 <=? c) && (c <=? 126).

(** ["%0<n>x"] of a value that fits. *)
Definition hex_digit (v : Z) : Z := if v <? 10 then 48 + v else 87 + v.
Fixpoint print_hex (n : nat) (v : Z) : list Z :=
  match n with O => [] | S n' => print_hex n' (v / 16) ++ [hex_digit (v `mod` 16)] end.

(** A byte of a JSON string, as the measurements quote it. *)
Definition quoted (c : Z) : list Z :=
  if (c =? 34) || (c =? 92) then [92; c]
  else if isprint_asciionly c then [c]
  else str "\u" ++ print_hex 4 c.

(** Reading a JSON string of such bytes back. *)
Definition unhex (l : list Z) : option Z :=
  if forallb (λ c, digit_value c <? 16) l then Some (value_of 16 l) else None.
Fixpoint unquote (l : list Z) : option (list Z) :=
  match l with
  | [] => Some []
  | 92 :: 117 :: a :: b :: c :: d :: l' =>
      v ← unhex [a; b; c; d]; r ← unquote l'; Some (v :: r)
  | 92 :: c :: l' => r ← unquote l'; Some (c :: r)
  | c :: l' => if c =? 34 then None else r ← unquote l'; Some (c :: r)
  end.

Definition quote : list Z := [34].
(** The macro [DBQ]. *)
Definition DBQ (s : string) : list Z := quote ++ str s ++ quote.

(** [printf("%d")] *)
Definition print_int (z : Z) : list Z := if z <? 0 then 45 :: print_dec (- z) else print_dec z.

(** ** Lemmas *)

Lemma split_at_app c a b : c ∉ a → split_at c (a ++ c :: b) = Some (a, c :: b).
Proof.
  induction a as [|x a IH]; intros H; cbn [app split_at].
  - by rewrite Z.eqb_refl.
  - apply not_elem_of_cons in H as [H1 H2]. destruct (Z.eqb_spec x c); [congruence|]. by rewrite IH.
Qed.

Lemma split_at_None c s : split_at c s = None ↔ c ∉ s.
Proof.
  induction s as [|x s IH]; cbn [split_at]; [split; [intros _; apply not_elem_of_nil|done]|].
  rewrite not_elem_of_cons. destruct (Z.eqb_spec x c) as [->|Hne]; [split; [done|by intros []]|].
  destruct (split_at c s) as [[a b]|].
  - split; [done|]. intros [_ H]. by apply IH in H.
  - split; [intros _; split; [done|by apply IH]|done].
Qed.

Lemma split_at_Some c s a b : split_at c s = Some (a, b) → s = a ++ b ∧ c ∉ a ∧ head b = Some c.
Proof.
  revert a. induction s as [|x s IH]; intros a; cbn [split_at]; [done|].
  destruct (Z.eqb_spec x c) as [->|Hne].
  - intros [= <- <-]. split; [done|]. split; [apply not_elem_of_nil|done].
  - destruct (split_at c s) as [[a' b']|]; [|done]. cbn [mbind option_bind].
    intros [= <- <-]. destruct (IH a') as (-> & H2 & H3); [done|]. split; [done|].
    split; [|done]. by apply not_elem_of_cons.
Qed.

Lemma span_app f a b :
  forallb f a = true → match b with [] => True | x :: _ => f x = false end → span f (a ++ b) = (a, b).
Proof.
  intros Ha Hb. induction a as [|x a IH]; cbn [app span].
  - destruct b as [|x b]; cbn [span]; [done|]. by rewrite Hb.
  - cbn [forallb] in Ha. apply andb_true_iff in Ha as [Hx Ha]. rewrite Hx. by rewrite IH.
Qed.

Lemma prefix_nocase_app kw s : prefix_nocase kw (kw ++ s) = true.
Proof. unfold prefix_nocase. apply bool_decide_true. by rewrite take_app_length. Qed.

Lemma unquote_quoted c l : is_byte c → unquote (quoted c ++ l) = (r ← unquote l; Some (c :: r)).
Proof.
  intros Hc. unfold quoted.
  assert (unquote ((str "\u" ++ print_hex 4 c) ++ l) = r ← unquote l; Some (c :: r)) as Hu.
  { change ((str "\u" ++ print_hex 4 c) ++ l) with
      (92 :: 117 :: hex_digit ((c / 16 / 16 / 16) `mod` 16) :: hex_digit ((c / 16 / 16) `mod` 16) ::
       hex_digit ((c / 16) `mod` 16) :: hex_digit (c `mod` 16) :: l).
    cbn [unquote]. assert (unhex [hex_digit ((c / 16 / 16 / 16) `mod` 16); hex_digit ((c / 16 / 16) `mod` 16);
       hex_digit ((c / 16) `mod` 16); hex_digit (c `mod` 16)] = Some c) as ->; [|done].
    revert c Hc. assert (forallb (λ c, bool_decide (unhex [hex_digit ((c / 16 / 16 / 16) `mod` 16);
      hex_digit ((c / 16 / 16) `mod` 16); hex_digit ((c / 16) `mod` 16); hex_digit (c `mod` 16)] = Some c))
      (seqZ 0 256) = true) as H by (by vm_compute).
    intros c Hc. rewrite forallb_forall in H. eapply bool_decide_eq_true_1, H, list_elem_of_In, elem_of_seqZ.
    unfold is_byte in Hc. lia. }
  destruct ((c =? 34) || (c =? 92)) eqn:E.
  - apply orb_true_iff in E as [->%Z.eqb_eq| ->%Z.eqb_eq]; done.
  - apply orb_false_iff in E as [E1 E2]. destruct (isprint_asciionly c) eqn:E3; [|exact Hu].
    cbn [app unquote]. apply Z.eqb_neq in E2.
    assert (unquote (c :: l) = if c =? 34 then None else r ← unquote l; Some (c :: r)) as H.
    { cbn [unquote]. destruct c as [|q|q]; try done. by repeat (destruct q as [q|q|]; try done). }
    cbn [unquote] in H. rewrite H. by rewrite E1.
Qed.

(** ** Texts without NUL *)

Definition nonul (l : list Z) : Prop := Forall (λ c, c ≠ 0) l.

Lemma cstr_nonul l : nonul l → cstr l = l.
Proof.
  induction 1 as [|c l Hc _ IH]; [done|]. cbn [cstr]. rewrite (proj2 (Z.eqb_neq _ _)) by done. by rewrite IH.
Qed.
Lemma nonul_app a b : nonul a → nonul b → nonul (a ++ b).
Proof. intros. by apply Forall_app. Qed.
Lemma nonul_str s : forallb (λ c, negb (c =? 0)) (str s) = true → nonul (str s).
Proof.
  intros H. apply Forall_forall. intros c Hc E. subst. rewrite forallb_forall in H.
  specialize (H 0 (proj1 (list_elem_of_In _ _) Hc)). done.
Qed.
Lemma nonul_dec n z : 0 ≤ z → nonul (dec_digits n z).
Proof.
  revert z. induction n as [|n IH]; intros z Hz; cbn [dec_digits]; [constructor|].
  destruct (Z.ltb_spec z 10); [repeat constructor; lia|].
  apply nonul_app; [apply IH; apply Z.div_pos; lia|]. repeat constructor. pose proof (Z.mod_pos_bound z 10). lia.
Qed.
Lemma nonul_print_int z : nonul (print_int z).
Proof.
  unfold print_int, print_dec. destruct (Z.ltb_spec z 0); [constructor; [done|]|]; apply nonul_dec; lia.
Qed.
Lemma nonul_DBQ s : forallb (λ c, negb (c =? 0)) (str s) = true → nonul (DBQ s).
Proof. intros. unfold DBQ, quote. apply nonul_app; [repeat constructor; lia|]. apply nonul_app; [by apply nonul_str|repeat constructor; lia]. Qed.
