(* ===== verification/Packet.v ===== *)
(** * Packets and clocks

    What the measurements share: fields of a packet in either byte order, loads
    and stores at an offset of a block, the Internet checksum
    ([mkcksum] of ping.c, [in_cksum] of traceroute.c), clock readings and their
    difference. *)

From stdpp Require Import base list list_numbers numbers option strings.
From Stdlib Require Import ZArith Lia.
From S2P Require Import Prelude Bits Blocks.

Open Scope Z_scope.

(** ** Little-endian fields *)

Definition le16 (z : Z) : list Z := [u8 z; u8 (z ≫ 8)].
Definition le32 (z : Z) : list Z := le16 z ++ le16 (z ≫ 16).
Definition le64 (z : Z) : list Z := le32 z ++ le32 (z ≫ 32).
Fixpoint le_value (l : list Z) : Z := match l with [] => 0 | b :: l' => b + 256 * le_value l' end.
Definition be_value (l : list Z) : Z := fold_left (λ a b, 256 * a + b) l 0.

(** Loads of [n] bytes of a block at an offset. *)
Definition bytes_at (b : blk Z) (off n : Z) : outcome (list Z) := loadn b (Z.to_nat off) (Z.to_nat n).
Definition le_at (b : blk Z) (off n : Z) : outcome Z := l ← bytes_at b off n; mret (le_value l).
Definition be_at (b : blk Z) (off n : Z) : outcome Z := l ← bytes_at b off n; mret (be_value l).
Definition store_at (b : blk Z) (off : Z) (l : list Z) : outcome (blk Z) := store b (Z.to_nat off) l.

(** The C string in a block. *)
Fixpoint load_cstr (b : blk Z) : outcome (list Z) :=
  match b with
  | Some c :: b' => if c =? 0 then Done [] else l ← load_cstr b'; mret (c :: l)
  | _ => Crash Undefined
  end.

(** ** Clock readings *)

Record timespec := TS { tv_sec : Z; tv_nsec : Z }.

(** The time between two clock readings, with the test the code makes for a
    borrow: it compares nanoseconds with seconds. *)
Definition elapsed (now ts : timespec) : outcome timespec :=
  sec ← chk64 (tv_sec now - tv_sec ts);
  '(sec, nsec) ← (if tv_nsec now <? tv_sec ts then
                    sec ← chk64 (sec - 1); nsec ← chk64 (tv_nsec now + 1000000000); mret (sec, nsec)
                  else mret (sec, tv_nsec now));
  nsec ← chk64 (nsec - tv_nsec ts);
  mret (TS sec nsec).

(** ** The Internet checksum *)

(** The sum of the 16-bit words of a buffer. *)
Fixpoint sum16 (sum : Z) (l : list Z) : Z :=
  match l with
  | a :: b :: l' => sum16 (sum + (a + 256 * b)) l'
  | [a] => sum + a
  | [] => sum
  end.
Definition mkcksum (l : list Z) : Z :=
  let sum := sum16 0 l in
  let sum := (sum ≫ 16) + Z.land sum 0xffff in
  let sum := sum + (sum ≫ 16) in
  u16 (Z.lnot sum).

(** ** Fields *)

Lemma le_value_app a b : le_value (a ++ b) = le_value a + 256 ^ zlen a * le_value b.
Proof.
  induction a as [|x a IH]; cbn [app le_value]; [change (256 ^ zlen []) with 1; lia|].
  rewrite IH, zlen_cons. pose proof (zlen_nonneg a). rewrite Z.pow_add_r by lia. lia.
Qed.

Lemma le16_value z : le_value (le16 z) = z `mod` 2 ^ 16.
Proof.
  unfold le16, u8. cbn [le_value]. rewrite Z.shiftr_div_pow2 by lia.
  change (2 ^ 16) with (2 ^ 8 * 2 ^ 8). rewrite Z.rem_mul_r by lia. lia.
Qed.
Lemma le32_value z : le_value (le32 z) = z `mod` 2 ^ 32.
Proof.
  unfold le32. rewrite le_value_app, !le16_value, Z.shiftr_div_pow2 by lia.
  change (256 ^ zlen (le16 z)) with (2 ^ 16).
  change (2 ^ 32) with (2 ^ 16 * 2 ^ 16). rewrite (Z.rem_mul_r z) by lia. lia.
Qed.
Lemma le64_value z : le_value (le64 z) = z `mod` 2 ^ 64.
Proof.
  unfold le64. rewrite le_value_app, !le32_value, Z.shiftr_div_pow2 by lia.
  change (256 ^ zlen (le32 z)) with (2 ^ 32).
  change (2 ^ 64) with (2 ^ 32 * 2 ^ 32). rewrite (Z.rem_mul_r z) by lia. lia.
Qed.
Lemma be16_value_of z : 0 ≤ z < 2 ^ 16 → be_value (be16 z) = z.
Proof.
  intros Hz. unfold be_value, be16, u8. cbn [fold_left]. rewrite Z.shiftr_div_pow2 by lia.
  change (2 ^ 8) with 256. rewrite (Z.mod_small (z / 256)) by (split; [apply Z.div_pos|apply Z.div_lt_upper_bound]; lia).
  pose proof (Z.div_mod z 256 ltac:(lia)). lia.
Qed.
Lemma be_value_be32 z : 0 ≤ z < 2 ^ 32 → be_value (be32 z) = z.
Proof.
  intros Hz. unfold be_value, be32, u8. cbn [fold_left]. rewrite !Z.shiftr_div_pow2 by lia.
  change (2 ^ 24) with (256 * 256 * 256). change (2 ^ 16) with (256 * 256). change (2 ^ 8) with 256.
  rewrite <- !Z.div_div by lia.
  pose proof (Z.div_mod z 256 ltac:(lia)). pose proof (Z.div_mod (z / 256) 256 ltac:(lia)).
  pose proof (Z.div_mod (z / 256 / 256) 256 ltac:(lia)).
  rewrite (Z.mod_small (z / 256 / 256 / 256)); [lia|].
  rewrite !Z.div_div by lia. split; [apply Z.div_pos; lia|apply Z.div_lt_upper_bound; lia].
Qed.
Lemma s64_u64 z : - 2 ^ 63 ≤ z < 2 ^ 63 → s64 (z `mod` 2 ^ 64) = z.
Proof.
  intros Hz. unfold s64. rewrite Z.add_mod_idemp_l by lia. rewrite Z.mod_small by lia. lia.
Qed.

Lemma be_value_nonneg l : Forall is_byte l → 0 ≤ be_value l.
Proof.
  intros H. unfold be_value. assert (∀ a, 0 ≤ a → 0 ≤ fold_left (λ a b, 256 * a + b) l a) as Hg; [|by apply Hg].
  induction H as [|c l Hc _ IH]; intros a Ha; [done|]. cbn. apply IH. unfold is_byte in Hc. lia.
Qed.

Lemma u8_bytes z : is_byte (u8 z).
Proof. unfold is_byte, u8. apply Z.mod_pos_bound. lia. Qed.
Lemma le16_bytes z : Forall is_byte (le16 z).
Proof. repeat constructor; apply u8_bytes. Qed.
Lemma le32_bytes z : Forall is_byte (le32 z).
Proof. unfold le32. apply Forall_app. split; apply le16_bytes. Qed.
Lemma le64_bytes z : Forall is_byte (le64 z).
Proof. unfold le64. apply Forall_app. split; apply le32_bytes. Qed.
Lemma be16_bytes z : Forall is_byte (be16 z).
Proof. repeat constructor; apply u8_bytes. Qed.
#[export] Hint Resolve u8_bytes le16_bytes le32_bytes le64_bytes be16_bytes : core.

(** [store_at] at the end of a known prefix. *)
Lemma store_at_mid off (pre old post new : list Z) :
  off = zlen pre → length old = length new →
  store_at (Some <$> (pre ++ old ++ post)) off new = Done (Some <$> (pre ++ new ++ post)).
Proof.
  intros -> Hl. unfold store_at, zlen. rewrite Nat2Z.id. rewrite <- (app_nil_r (Some <$> _)).
  rewrite store_mid by done. by rewrite app_nil_r.
Qed.

Lemma store_grown {A} (t x : list A) (tail : blk A) :
  (length x ≤ length tail)%nat →
  store ((Some <$> t) ++ tail) (length t) x = Done ((Some <$> (t ++ x)) ++ drop (length x) tail).
Proof.
  intros Hl. unfold store. rewrite decide_True by (rewrite length_app, length_fmap; lia). f_equal.
  rewrite fmap_app, <- app_assoc. f_equal.
  - by rewrite take_app_length' by (by rewrite length_fmap).
  - f_equal. rewrite drop_app, length_fmap. rewrite drop_ge by (rewrite length_fmap; lia).
    cbn [app]. f_equal. lia.
Qed.

Lemma load_cstr_holds t tail : load_cstr ((Some <$> t) ++ Some 0 :: tail) = Done (cstr t).
Proof.
  induction t as [|c t IH]; [done|]. cbn. destruct (c =? 0); [done|]. cbn in IH. by rewrite IH.
Qed.

(** [n] bytes at an offset, and their values. *)
Definition field (data : list Z) (off n : Z) : list Z := take (Z.to_nat n) (drop (Z.to_nat off) data).

Lemma bytes_at_field (l : list Z) off n :
  0 ≤ off → 0 ≤ n → off + n ≤ zlen l → bytes_at (Some <$> l) off n = Done (field l off n).
Proof.
  intros Ho Hn Hl. unfold bytes_at, field. rewrite <- (app_nil_r (Some <$> l)). apply loadn_slice.
  unfold zlen in Hl. lia.
Qed.

Lemma be_at_field (l : list Z) off n :
  0 ≤ off → 0 ≤ n → off + n ≤ zlen l → be_at (Some <$> l) off n = Done (be_value (field l off n)).
Proof. intros. unfold be_at. by rewrite bytes_at_field. Qed.
Lemma le_at_field (l : list Z) off n :
  0 ≤ off → 0 ≤ n → off + n ≤ zlen l → le_at (Some <$> l) off n = Done (le_value (field l off n)).
Proof. intros. unfold le_at. by rewrite bytes_at_field. Qed.

(** Bytes stored in the middle of a list. *)
Definition put_at (l : list Z) (off : Z) (x : list Z) : list Z :=
  take (Z.to_nat off) l ++ x ++ drop (Z.to_nat off + length x) l.
Lemma store_at_list (l : list Z) off x :
  0 ≤ off → off + zlen x ≤ zlen l → store_at (Some <$> l) off x = Done (Some <$> put_at l off x).
Proof.
  intros Ho Hl. unfold store_at, store, put_at, zlen in *. rewrite decide_True by (rewrite length_fmap; lia).
  by rewrite !fmap_app, fmap_take, fmap_drop.
Qed.
Lemma length_put_at l off x : 0 ≤ off → off + zlen x ≤ zlen l → length (put_at l off x) = length l.
Proof. intros Ho Hl. unfold put_at, zlen in *. rewrite !length_app, length_take, length_drop. lia. Qed.
Lemma put_at_bytes l off x : Forall is_byte l → Forall is_byte x → Forall is_byte (put_at l off x).
Proof. intros Hl Hx. unfold put_at. apply Forall_app. split; [by apply Forall_take|]. apply Forall_app. split; [done|by apply Forall_drop]. Qed.
(** Fields in front of, at and behind the place. *)
Lemma field_put_before l off x o n : 0 ≤ o → 0 ≤ n → o + n ≤ off → off ≤ zlen l → field (put_at l off x) o n = field l o n.
Proof.
  intros Ho Hn Hle Hl. unfold field, put_at, zlen in *. rewrite !take_drop_commute.
  rewrite take_app_le by (rewrite length_take; lia). rewrite take_take. do 2 f_equal. lia.
Qed.
Lemma field_put_same l off x : 0 ≤ off → off ≤ zlen l → field (put_at l off x) off (zlen x) = x.
Proof.
  intros Ho Hl. unfold field, put_at, zlen in *. rewrite drop_app_length' by (rewrite length_take; lia).
  apply take_app_length'. lia.
Qed.
Lemma field_put_after l off x o n : 0 ≤ off → off + zlen x ≤ o → off + zlen x ≤ zlen l → field (put_at l off x) o n = field l o n.
Proof.
  intros Ho Hle Hl. unfold field, put_at, zlen in *. f_equal. rewrite app_assoc, drop_app_ge by (rewrite length_app, length_take; lia).
  rewrite drop_drop, length_app, length_take. f_equal. lia.
Qed.

Lemma field_app (a b : list Z) off n :
  0 ≤ off → 0 ≤ n → off + n ≤ zlen a → field (a ++ b) off n = field a off n.
Proof.
  intros Ho Hn Hl. unfold field, zlen in *. rewrite drop_app_le by lia. apply take_app_le.
  rewrite length_drop. lia.
Qed.

Lemma length_field data off n : 0 ≤ off → 0 ≤ n → off + n ≤ zlen data → length (field data off n) = Z.to_nat n.
Proof. intros Ho Hn Hl. unfold field, zlen in *. rewrite length_take, length_drop. lia. Qed.

(** ** Elapsed times *)

(** A reading of a clock whose differences fit a [long]. *)
Definition sane_time (t : timespec) : Prop := 0 ≤ tv_sec t < 2 ^ 60 ∧ 0 ≤ tv_nsec t < 1000000000.

Lemma chk64_inv z r : chk64 z = Done r → r = z.
Proof. unfold chk64. destruct (_ && _); [by intros [= ->]|done]. Qed.

Lemma chk64_small z : - 2 ^ 63 ≤ z ≤ 2 ^ 62 → chk64 z = Done z.
Proof. intros Hz. unfold chk64, LONG_MAX. by rewrite (proj2 (Z.leb_le _ _)), (proj2 (Z.leb_le _ _)) by lia. Qed.

(** The total is exact although the test for the borrow is wrong. *)
Lemma elapsed_total now ts rtt :
  elapsed now ts = Done rtt →
  tv_sec rtt * 1000000000 + tv_nsec rtt =
  (tv_sec now - tv_sec ts) * 1000000000 + (tv_nsec now - tv_nsec ts).
Proof.
  pose proof chk64_inv as Hc. unfold elapsed. intros E. apply O_bind_inv in E as (sec & ->%Hc & E).
  apply O_bind_inv in E as ([sec' nsec'] & E1 & E). apply O_bind_inv in E as (nsec'' & ->%Hc & [= <-]). cbn.
  destruct (tv_nsec now <? tv_sec ts).
  - apply O_bind_inv in E1 as (? & ->%Hc & E1). apply O_bind_inv in E1 as (? & ->%Hc & [= <- <-]). lia.
  - injection E1 as <- <-. lia.
Qed.

Lemma elapsed_sane now ts : sane_time now → sane_time ts → ∃ rtt, elapsed now ts = Done rtt.
Proof.
  intros [Hn1 Hn2] [Ht1 Ht2].
  pose proof chk64_small as Hc.
  unfold elapsed. rewrite (Hc (tv_sec now - tv_sec ts)) by lia. msimpl. destruct (tv_nsec now <? tv_sec ts).
  - rewrite (Hc (tv_sec now - tv_sec ts - 1)) by lia. msimpl. rewrite (Hc (tv_nsec now + 1000000000)) by lia.
    cbn [mret outcome_ret mbind outcome_bind]. rewrite Hc by lia. by eexists.
  - cbn [mret outcome_ret mbind outcome_bind]. rewrite Hc by lia. by eexists.
Qed.

Lemma elapsed_nsec now ts rtt :
  sane_time now → sane_time ts → elapsed now ts = Done rtt → -1000000000 < tv_nsec rtt < 2000000000.
Proof.
  intros [_ H1] [_ H2]. pose proof chk64_inv as Hc. unfold elapsed. intros E. apply O_bind_inv in E as (sec & ->%Hc & E).
  apply O_bind_inv in E as ([sec' nsec'] & E1 & E). apply O_bind_inv in E as (nsec'' & ->%Hc & [= <-]). cbn.
  destruct (tv_nsec now <? tv_sec ts).
  - apply O_bind_inv in E1 as (? & ->%Hc & E1). apply O_bind_inv in E1 as (? & ->%Hc & [= <- <-]). lia.
  - injection E1 as <- <-. lia.
Qed.

(** ** Properties of the checksum *)

Lemma sum16_acc l sum : sum16 sum l = sum + sum16 0 l.
Proof.
  revert sum. induction l as [l IH] using (induction_ltof1 _ (@length Z)). intros sum.
  destruct l as [|a [|b l]]; cbn [sum16]; [lia|lia|].
  rewrite (IH l ltac:(unfold ltof; cbn; lia)), (IH l ltac:(unfold ltof; cbn; lia) (0 + _)). lia.
Qed.

Lemma sum16_app a b : Nat.Even (length a) → sum16 0 (a ++ b) = sum16 0 a + sum16 0 b.
Proof.
  revert b. induction a as [a IH] using (induction_ltof1 _ (@length Z)). intros b Ha.
  destruct a as [|x [|y a]]; cbn [app sum16]; [lia| |].
  - exfalso. destruct Ha as [k Hk]. cbn in Hk. lia.
  - rewrite (sum16_acc (a ++ b)), (sum16_acc a), IH; [lia|unfold ltof; cbn; lia|].
    destruct Ha as [k Hk]. exists (k - 1)%nat. cbn in Hk. lia.
Qed.

Lemma sum16_bound l : Forall is_byte l → 0 ≤ sum16 0 l ≤ 65535 * ((zlen l + 1) / 2).
Proof.
  induction l as [l IH] using (induction_ltof1 _ (@length Z)). intros Hl.
  destruct l as [|a [|b l]]; cbn [sum16]; [done| |].
  - apply Forall_cons in Hl as [Ha _]. unfold is_byte in Ha. change ((zlen [a] + 1) / 2) with 1. lia.
  - apply Forall_cons in Hl as [Ha Hl]. apply Forall_cons in Hl as [Hb Hl]. unfold is_byte in Ha, Hb.
    rewrite sum16_acc. specialize (IH l ltac:(unfold ltof; cbn; lia) Hl). rewrite !zlen_cons.
    replace (zlen l + 1 + 1 + 1) with (zlen l + 1 + 1 * 2) by lia. rewrite Z.div_add by lia. lia.
Qed.

(** The folded sum: between 1 and 65535 unless the sum is 0, and congruent to
    it modulo 65535. *)
Lemma mkcksum_fold S l :
  sum16 0 l = S → 0 < S < 2 ^ 31 → ∃ f k, mkcksum l = 65535 - f ∧ 1 ≤ f ≤ 65535 ∧ S = f + 65535 * k ∧ 0 ≤ k.
Proof.
  intros E HS. unfold mkcksum. rewrite E.
  change 0xffff with (2 ^ 16 - 1). rewrite land_ones_mod by lia. rewrite !Z.shiftr_div_pow2 by lia.
  pose proof (Z.div_mod S (2 ^ 16) ltac:(lia)). pose proof (Z.mod_pos_bound S (2 ^ 16) ltac:(lia)).
  assert (0 ≤ S / 2 ^ 16 < 2 ^ 15) by (split; [apply Z.div_pos|apply Z.div_lt_upper_bound]; lia).
  set (a := S / 2 ^ 16) in *. set (b := S `mod` 2 ^ 16) in *. unfold u16, Z.lnot.
  destruct (Z.lt_ge_cases (a + b) 65536) as [Hlt|Hge].
  - rewrite (Z.div_small (a + b)) by lia. exists (a + b), a.
    assert (Z.pred (- (a + b + 0)) `mod` 2 ^ 16 = 65535 - (a + b)) as ->
      by (symmetry; apply (Z.mod_unique _ _ (-1)); lia). lia.
  - assert ((a + b) / 2 ^ 16 = 1) as -> by (symmetry; apply (Z.div_unique _ _ _ (a + b - 65536)); lia).
    exists (a + b - 65535), (a + 1).
    assert (Z.pred (- (a + b + 1)) `mod` 2 ^ 16 = 65535 - (a + b - 65535)) as ->
      by (symmetry; apply (Z.mod_unique _ _ (-2)); lia). lia.
Qed.

(** A packet that carries its checksum in an even place sums to zero. *)
Lemma mkcksum_inserted a b :
  Nat.Even (length a) → Forall is_byte a → Forall is_byte b → zlen a + zlen b < 30000 →
  0 < sum16 0 (a ++ [0; 0] ++ b) →
  mkcksum (a ++ le16 (mkcksum (a ++ [0; 0] ++ b)) ++ b) = 0.
Proof.
  intros He Ha Hb Hl Hpos. set (c := mkcksum (a ++ [0; 0] ++ b)).
  assert (∀ w, length w = 2%nat → sum16 0 (a ++ w ++ b) = sum16 0 a + sum16 0 w + sum16 0 b) as Hs.
  { intros w Hw. rewrite sum16_app, sum16_app by (first [done|rewrite Hw; by exists 1%nat]). lia. }
  pose proof (sum16_bound a Ha). pose proof (sum16_bound b Hb). pose proof (zlen_nonneg a). pose proof (zlen_nonneg b).
  pose proof (Z.div_le_upper_bound (zlen a + 1) 2 15001 ltac:(lia) ltac:(lia)).
  pose proof (Z.div_le_upper_bound (zlen b + 1) 2 15001 ltac:(lia) ltac:(lia)).
  rewrite (Hs [0; 0]) in Hpos by done. change (sum16 0 [0; 0]) with 0 in Hpos.
  destruct (mkcksum_fold (sum16 0 a + sum16 0 b) (a ++ [0; 0] ++ b)) as (f & k & Ec & Hf & Hk & Hk0);
    [rewrite Hs by done; change (sum16 0 [0; 0]) with 0; lia|lia|]. fold c in Ec.
  assert (sum16 0 (le16 c) = c) as Hc.
  { pose proof (le16_value c) as Hv. rewrite Z.mod_small in Hv by lia. unfold le16 in *. cbn [le_value] in Hv.
    cbn [sum16]. lia. }
  destruct (mkcksum_fold (sum16 0 a + sum16 0 b + c) (a ++ le16 c ++ b)) as (f' & k' & Ec' & Hf' & Hk' & _);
    [rewrite Hs by done; lia|lia|].
  rewrite Ec'. assert (f' = 65535) by lia. lia.
Qed.
