(* ===== verification/Double.v ===== *)
(** * Times in milliseconds

    The measurements compute an elapsed time as a [double],
    [nsecs= (elapsed.tv_sec * 1e9 + elapsed.tv_nsec)], and print [nsecs/1e6] with
    ["%f"].  The [double] is the binary64 format of [SpecFloat].  The result of
    this file: below 2^50 nanoseconds (13 days) the text is the exact decimal
    number of milliseconds, whichever way the seconds and nanoseconds split the
    time. *)

From stdpp Require Import base list list_numbers numbers option strings.
From Stdlib Require Import ZArith Lia.
From Stdlib Require Import Floats.SpecFloat.
From S2P Require Import Prelude Bits Cstr.

Open Scope Z_scope.

Abbreviation dmul := (SFmul 53 1024).
Abbreviation dadd := (SFadd 53 1024).
Abbreviation ddiv := (SFdiv 53 1024).
(** The conversion of an integer to [double]. *)
Definition dbl (z : Z) : spec_float := binary_normalize 53 1024 z 0 false.

(** [n] units of [10^-k], with [k] decimals. *)
Definition print_scaled (k : nat) (n : Z) : list Z :=
  dec_digits 320 (n / 10 ^ Z.of_nat k) ++ str "." ++
  ((λ j, 48 + (n / 10 ^ j) `mod` 10) <$> reverse (seqZ 0 (Z.of_nat k))).
Abbreviation print_millionths := (print_scaled 6).

(** [m / d], rounded to the nearest integer, ties to even. *)
Definition round_div (m d : Z) : Z :=
  let q := m / d in
  let r := m `mod` d in
  if (2 * r <? d) || ((2 * r =? d) && Z.even q) then q else q + 1.

(** [printf("%.kf")] *)
Definition print_fixed (k : nat) (x : spec_float) : list Z :=
  let minus (s : bool) := if s then str "-" else [] in
  let unit := 10 ^ Z.of_nat k in
  match x with
  | S754_zero s => minus s ++ print_scaled k 0
  | S754_infinity s => minus s ++ str "inf"
  | S754_nan => str "nan"
  | S754_finite s m e =>
      minus s ++ print_scaled k (if 0 <=? e then Zpos m * 2 ^ e * unit else round_div (Zpos m * unit) (2 ^ (- e)))
  end.
(** [printf("%f")] *)
Abbreviation print_f := (print_fixed 6).

(** The text of an elapsed time in milliseconds. *)
Definition msecs (sec nsec : Z) : list Z :=
  print_f (ddiv (dadd (dmul (dbl sec) (dbl 1000000000)) (dbl nsec)) (dbl 1000000)).

Example msecs_example : msecs 1 (-499999999) = str "500.000001".
Proof. vm_compute. reflexivity. Qed.

(** ** Digits and shifts *)

Abbreviation dig := digits2_pos.

Lemma dig_bounds m : 2 ^ (Zpos (dig m) - 1) ≤ Zpos m < 2 ^ Zpos (dig m).
Proof.
  induction m as [m IH|m IH|]; cbn [digits2_pos]; [| |cbn; lia];
    rewrite Pos2Z.inj_succ; (replace (Z.succ (Zpos (dig m)) - 1) with (Z.succ (Zpos (dig m) - 1)) by lia);
    rewrite !Z.pow_succ_r by lia; lia.
Qed.

Lemma dig_unique m d : 0 < d → 2 ^ (d - 1) ≤ Zpos m < 2 ^ d → Zpos (dig m) = d.
Proof.
  intros Hd H. pose proof (dig_bounds m) as B.
  assert (2 ^ (Zpos (dig m) - 1) < 2 ^ d) as H1%Z.pow_lt_mono_r_iff by lia; [|lia|lia].
  assert (2 ^ (d - 1) < 2 ^ Zpos (dig m)) as H2%Z.pow_lt_mono_r_iff by lia; lia.
Qed.

Lemma dig_mul_pow2 m m' k : 0 ≤ k → Zpos m' = Zpos m * 2 ^ k → Zpos (dig m') = Zpos (dig m) + k.
Proof.
  intros Hk E. apply dig_unique; [lia|]. pose proof (dig_bounds m).
  replace (Zpos (dig m) + k - 1) with (Zpos (dig m) - 1 + k) by lia.
  rewrite E, !Z.pow_add_r by lia. split; apply Z.mul_le_mono_pos_r || apply Z.mul_lt_mono_pos_r; lia.
Qed.

Lemma dig_le m d : 0 ≤ d → Zpos m < 2 ^ d → Zpos (dig m) ≤ d.
Proof.
  intros Hd H. pose proof (dig_bounds m).
  assert (2 ^ (Zpos (dig m) - 1) < 2 ^ d) as H1%Z.pow_lt_mono_r_iff by lia; lia.
Qed.

Lemma iter_pos_nat {A} (f : A → A) p x : iter_pos f p x = Nat.iter (Pos.to_nat p) f x.
Proof.
  revert x. induction p as [p IH|p IH|]; intros x; cbn [iter_pos]; [| |done]; rewrite !IH, <- Nat.iter_add.
  - rewrite Pos2Nat.inj_xI, <- Nat.iter_succ_r. f_equal. lia.
  - rewrite Pos2Nat.inj_xO. f_equal. lia.
Qed.

(** The quotient a shift to the right leaves, and when nothing is lost. *)
Lemma shr_1_m m r s : 0 ≤ m → shr_m (shr_1 (Build_shr_record m r s)) = m / 2.
Proof.
  intros Hm. destruct m as [|[p|p|]|p]; cbn [shr_1 shr_m]; [done| | |done|lia].
  - apply (Z.div_unique _ _ _ 1); lia.
  - apply (Z.div_unique _ _ _ 0); lia.
Qed.

Lemma shr_iter_m n mrs : 0 ≤ shr_m mrs → shr_m (Nat.iter n shr_1 mrs) = shr_m mrs / 2 ^ Z.of_nat n.
Proof.
  intros Hm. induction n as [|n IH]; [cbn; by rewrite Z.div_1_r|].
  rewrite Nat.iter_succ. destruct (Nat.iter n shr_1 mrs) as [m r s]. cbn [shr_m] in IH.
  rewrite shr_1_m by (rewrite IH; apply Z.div_pos; lia). rewrite IH, Nat2Z.inj_succ, Z.pow_succ_r by lia.
  rewrite Z.div_div by lia. f_equal. lia.
Qed.

Lemma shr_iter_exact n k : 0 ≤ k →
  Nat.iter n shr_1 (Build_shr_record (k * 2 ^ Z.of_nat n) false false) = Build_shr_record k false false.
Proof.
  intros Hk. induction n as [|n IH]; [cbn; by rewrite Z.mul_1_r|].
  rewrite Nat.iter_succ_r, <- IH. f_equal. rewrite Nat2Z.inj_succ, Z.pow_succ_r by lia.
  set (x := k * 2 ^ Z.of_nat n). replace (k * (2 * 2 ^ Z.of_nat n)) with (2 * x) by (subst x; lia).
  destruct x as [|p|p] eqn:E; [done|done|]. exfalso. assert (0 ≤ k * 2 ^ Z.of_nat n) by lia. lia.
Qed.

Lemma shr_spec mrs e n : 0 ≤ shr_m mrs → 0 ≤ n →
  shr_m (shr mrs e n).1 = shr_m mrs / 2 ^ n ∧ (shr mrs e n).2 = e + n.
Proof.
  intros Hm Hn. destruct n as [|p|p]; cbn [shr fst snd]; [split; [by rewrite Z.div_1_r|lia]| |lia].
  split; [|done]. rewrite iter_pos_nat, shr_iter_m by done. by rewrite positive_nat_Z.
Qed.

Lemma shr_exact k e n : 0 ≤ k → 0 ≤ n →
  shr (Build_shr_record (k * 2 ^ n) false false) e n = (Build_shr_record k false false, e + n).
Proof.
  intros Hk Hn. destruct n as [|p|p]; cbn [shr]; [|f_equal|lia].
  - by rewrite Z.mul_1_r, Z.add_0_r.
  - rewrite iter_pos_nat. rewrite <- (positive_nat_Z p). by apply shr_iter_exact.
Qed.

(** ** Integers of at most 53 bits *)

Definition fl (s : bool) (p : positive) : spec_float :=
  S754_finite s (Z.to_pos (Zpos p * 2 ^ (53 - Zpos (dig p)))) (Zpos (dig p) - 53).
(** An integer as a canonical [double]. *)
Definition fl_Z (z : Z) : spec_float :=
  match z with Z0 => S754_zero false | Zpos p => fl false p | Zneg p => fl true p end.

Lemma fexp_small d : -1000 ≤ d → fexp 53 1024 d = d - 53.
Proof. intros H. unfold fexp, emin. lia. Qed.

Lemma aux_exact s m e p :
  e ≤ 0 → Zpos m = Zpos p * 2 ^ (- e) → e ≤ Zpos (dig p) - 53 → Zpos (dig p) ≤ 53 →
  binary_round_aux 53 1024 s (Zpos m) e loc_Exact = fl s p.
Proof.
  intros He Em Hd Hp.
  assert (Zpos (dig m) = Zpos (dig p) - e) as Dm by (rewrite (dig_mul_pow2 p m (- e)); lia).
  assert (0 < Zpos p * 2 ^ (53 - Zpos (dig p))) as Hk by (apply Z.mul_pos_pos; lia).
  unfold binary_round_aux, shr_fexp at 1. cbn [Zdigits2 shr_record_of_loc].
  rewrite Dm, fexp_small by lia.
  replace (Zpos m) with (Zpos p * 2 ^ (53 - Zpos (dig p)) * 2 ^ (Zpos (dig p) - e + e - 53 - e))
    by (rewrite Em, <- Z.mul_assoc, <- Z.pow_add_r by lia; do 2 f_equal; lia).
  rewrite shr_exact by lia. cbn [shr_m loc_of_shr_record round_nearest_even].
  unfold fl. destruct (Zpos p * 2 ^ (53 - Zpos (dig p))) as [|k|k] eqn:Ek; [lia| |lia].
  assert (Zpos (dig k) = 53) as Dk by (rewrite (dig_mul_pow2 p k (53 - Zpos (dig p))); lia).
  unfold shr_fexp. cbn [Zdigits2 shr_record_of_loc]. rewrite Dk, fexp_small by lia.
  replace (53 + _ - 53 - _) with 0 by lia. cbn [shr shr_m].
  rewrite (proj2 (Z.leb_le _ _)) by lia. f_equal. lia.
Qed.

Lemma shl_align_spec m e e' : e' ≤ e → ∃ m', shl_align m e e' = (m', e') ∧ Zpos m' = Zpos m * 2 ^ (e - e').
Proof.
  intros H. unfold shl_align. destruct (e' - e) as [|d|d] eqn:E; [|lia|].
  - exists m. replace (e - e') with 0 by lia. split; [f_equal; lia|lia].
  - exists (Pos.iter xO m d). split; [done|]. replace (e - e') with (Zpos d) by lia.
    clear. induction d as [|d IH] using Pos.peano_ind; [cbn; lia|].
    rewrite Pos.iter_succ, Pos2Z.inj_succ, Z.pow_succ_r by lia. lia.
Qed.

Lemma round_exact s m e p :
  e ≤ 0 → Zpos m = Zpos p * 2 ^ (- e) → Zpos (dig p) ≤ 53 → binary_round 53 1024 s m e = fl s p.
Proof.
  intros He Em Hp. unfold binary_round.
  assert (Zpos (dig m) = Zpos (dig p) - e) as Dm by (rewrite (dig_mul_pow2 p m (- e)); lia).
  rewrite Dm, fexp_small by lia. set (e' := Zpos (dig p) - e + e - 53).
  destruct (Z.le_gt_cases e' e) as [Hle|Hgt].
  - destruct (shl_align_spec m e e' Hle) as (m' & -> & Em').
    apply aux_exact; [lia| |lia|lia]. rewrite Em', Em, <- Z.mul_assoc, <- Z.pow_add_r by lia.
    do 2 f_equal. lia.
  - unfold shl_align. destruct (e' - e) eqn:E; try lia. by apply aux_exact; lia.
Qed.

Lemma normalize_exact z e y :
  e ≤ 0 → z = y * 2 ^ (- e) → Z.abs y < 2 ^ 53 → binary_normalize 53 1024 z e false = fl_Z y.
Proof.
  intros He -> Hy. pose proof (Z.pow_pos_nonneg 2 (- e)).
  destruct y as [|p|p]; cbn [fl_Z]; [done| |];
    (assert (Zpos (dig p) ≤ 53) as Hd by (apply dig_le; lia)).
  - destruct (Zpos p * 2 ^ (- e)) as [|m|m] eqn:E; [lia| |lia]. by apply round_exact.
  - destruct (Zneg p * 2 ^ (- e)) as [|m|m] eqn:E; [lia|lia|]. apply round_exact; [done|lia|done].
Qed.

Lemma dbl_exact z : Z.abs z < 2 ^ 53 → dbl z = fl_Z z.
Proof. intros Hz. apply normalize_exact; [done|cbn; lia|done]. Qed.

Lemma fl_m p : Zpos (dig p) ≤ 53 →
  Zpos (Z.to_pos (Zpos p * 2 ^ (53 - Zpos (dig p)))) = Zpos p * 2 ^ (53 - Zpos (dig p)).
Proof. intros H. apply Z2Pos.id. apply Z.mul_pos_pos; lia. Qed.

Lemma fl_mul a b p q :
  Zpos (dig p) ≤ 53 → Zpos (dig q) ≤ 53 → Zpos (dig (p * q)) ≤ 53 →
  dmul (fl a p) (fl b q) = fl (xorb a b) (p * q).
Proof.
  intros Hp Hq Hpq. unfold SFmul, fl at 1 2. apply aux_exact; [lia| | |done].
  - rewrite Pos2Z.inj_mul, !fl_m, Pos2Z.inj_mul by done.
    replace (- _) with (53 - Zpos (dig p) + (53 - Zpos (dig q))) by lia. rewrite Z.pow_add_r by lia. lia.
  - assert (Zpos (dig p) + Zpos (dig q) - 1 ≤ Zpos (dig (p * q))); [|lia].
    pose proof (dig_bounds p). pose proof (dig_bounds q). pose proof (dig_bounds (p * q)).
    assert (2 ^ (Zpos (dig p) - 1 + (Zpos (dig q) - 1)) < 2 ^ Zpos (dig (p * q))) as
      ?%Z.pow_lt_mono_r_iff by (rewrite Z.pow_add_r by lia; nia); lia.
Qed.

(** The sum of two integers is exact. *)
Lemma fl_add_aux s1 s2 p q :
  Zpos (dig p) ≤ 53 → Zpos (dig q) ≤ 53 → Z.abs (cond_Zopp s1 (Zpos p) + cond_Zopp s2 (Zpos q)) < 2 ^ 53 →
  dadd (fl s1 p) (fl s2 q) = fl_Z (cond_Zopp s1 (Zpos p) + cond_Zopp s2 (Zpos q)).
Proof.
  intros Hp Hq H. unfold SFadd, fl. set (ez := Z.min _ _).
  destruct (shl_align_spec (Z.to_pos (Zpos p * 2 ^ (53 - Zpos (dig p)))) (Zpos (dig p) - 53) ez)
    as (m1 & -> & E1); [lia|].
  destruct (shl_align_spec (Z.to_pos (Zpos q * 2 ^ (53 - Zpos (dig q)))) (Zpos (dig q) - 53) ez)
    as (m2 & -> & E2); [lia|].
  cbn [fst]. rewrite fl_m in E1, E2 by done. rewrite <- Z.mul_assoc, <- Z.pow_add_r in E1, E2 by lia.
  apply normalize_exact; [lia| |done].
  replace (53 - Zpos (dig p) + _) with (- ez) in E1 by lia.
  replace (53 - Zpos (dig q) + _) with (- ez) in E2 by lia.
  rewrite E1, E2. destruct s1, s2; cbn [cond_Zopp]; lia.
Qed.

Lemma fl_Z_add y z :
  Z.abs y < 2 ^ 53 → Z.abs z < 2 ^ 53 → Z.abs (y + z) < 2 ^ 53 → dadd (fl_Z y) (fl_Z z) = fl_Z (y + z).
Proof.
  intros Hy Hz H. destruct y as [|p|p], z as [|q|q]; try done;
    (assert (Zpos (dig p) ≤ 53) by (apply dig_le; lia)); (assert (Zpos (dig q) ≤ 53) by (apply dig_le; lia));
    cbn [fl_Z]; by rewrite fl_add_aux.
Qed.

Lemma fl_Z_mul y q :
  Z.abs (y * Zpos q) < 2 ^ 53 → dmul (fl_Z y) (fl_Z (Zpos q)) = fl_Z (y * Zpos q).
Proof.
  intros H. destruct y as [|p|p]; [done| |]; cbn [fl_Z]; rewrite fl_mul by (apply dig_le; nia); done.
Qed.

(** ** Division *)

Lemma round_div_near m d p : 2 * Z.abs (m - p * d) < d → round_div m d = p.
Proof.
  intros H. unfold round_div. destruct (Z.le_gt_cases (p * d) m) as [Hle|Hgt].
  - assert (m / d = p) as -> by (symmetry; apply (Z.div_unique _ _ _ (m - p * d)); lia).
    assert (m `mod` d = m - p * d) as -> by (symmetry; apply (Z.mod_unique _ _ p); lia).
    by rewrite (proj2 (Z.ltb_lt _ _)) by lia.
  - assert (m / d = p - 1) as -> by (symmetry; apply (Z.div_unique _ _ _ (m - (p - 1) * d)); lia).
    assert (m `mod` d = m - (p - 1) * d) as -> by (symmetry; apply (Z.mod_unique _ _ (p - 1)); lia).
    rewrite (proj2 (Z.ltb_ge _ _)), (proj2 (Z.eqb_neq _ _)) by lia. cbn [orb andb]. lia.
Qed.

(** Rounding a mantissa of 53 or 54 bits: the result is one of the two
    neighbours on the grid of 53 bits. *)
Lemma aux_neighbours q e l :
  2 ^ 52 ≤ q < 2 ^ 54 → -1000 ≤ e ≤ 900 →
  ∃ n k m' e', 0 ≤ n ≤ 1 ∧ (k = q / 2 ^ n ∨ k = q / 2 ^ n + 1) ∧
    binary_round_aux 53 1024 false q e l = S754_finite false m' e' ∧ Zpos (dig m') = 53 ∧
    ((e' = e + n ∧ Zpos m' = k) ∨ (e' = e + n + 1 ∧ Zpos m' * 2 = k)).
Proof.
  intros Hq He. destruct q as [|q|q]; [lia| |lia].
  assert (53 ≤ Zpos (dig q) ≤ 54) as Hd.
  { split; [|apply dig_le; lia]. pose proof (dig_bounds q).
    assert (2 ^ 52 < 2 ^ Zpos (dig q)) as ?%Z.pow_lt_mono_r_iff by lia; lia. }
  unfold binary_round_aux, shr_fexp at 1. cbn [Zdigits2]. rewrite fexp_small by lia.
  replace (Zpos (dig q) + e - 53 - e) with (Zpos (dig q) - 53) by lia.
  set (n := Zpos (dig q) - 53).
  destruct (shr_spec (shr_record_of_loc (Zpos q) l) e n) as [Hm Hx];
    [destruct l as [|[]]; cbn; lia|lia|].
  assert (shr_m (shr_record_of_loc (Zpos q) l) = Zpos q) as Hr by (by destruct l as [|[]]).
  rewrite Hr in Hm. destruct (shr _ e n) as [mrs e1]. cbn [fst snd] in Hm, Hx. subst e1.
  assert (2 ^ 52 ≤ Zpos q / 2 ^ n < 2 ^ 53) as Hk.
  { pose proof (dig_bounds q). replace (Zpos (dig q) - 1) with (52 + n) in * by lia.
    replace (Zpos (dig q)) with (53 + n) in * by lia.
    rewrite (Z.pow_add_r 2 52), (Z.pow_add_r 2 53) in * by lia.
    split; [apply Z.div_le_lower_bound|apply Z.div_lt_upper_bound]; lia. }
  set (k := round_nearest_even _ _).
  assert (k = Zpos q / 2 ^ n ∨ k = Zpos q / 2 ^ n + 1) as Hkk.
  { subst k. rewrite Hm. destruct (loc_of_shr_record mrs) as [|[]]; cbn [round_nearest_even]; auto.
    destruct (Z.even _); auto. }
  clearbody k. exists n, k. destruct k as [|k|k]; [lia| |lia].
  unfold shr_fexp. cbn [Zdigits2 shr_record_of_loc].
  destruct (Z.eq_dec (Zpos k) (2 ^ 53)) as [E|Hne].
  - assert (Zpos (dig k) = 54) as -> by (apply dig_unique; lia). rewrite fexp_small by lia.
    replace (54 + (e + n) - 53 - (e + n)) with 1 by lia.
    replace (Zpos k) with (2 ^ 52 * 2 ^ 1) by lia. rewrite shr_exact by lia. cbn [shr_m].
    exists (2 ^ 52)%positive, (e + n + 1). rewrite (proj2 (Z.leb_le _ _)) by lia.
    split; [lia|]. split; [lia|]. split; [done|]. split; [done|]. right. lia.
  - assert (Zpos (dig k) = 53) as Hdg by (apply dig_unique; lia). rewrite Hdg, fexp_small by lia.
    replace (53 + (e + n) - 53 - (e + n)) with 0 by lia. cbn [shr shr_m].
    exists k, (e + n). rewrite (proj2 (Z.leb_le _ _)) by lia. split; [lia|]. auto 6.
Qed.

(** A quotient by a million has a mantissa of 53 bits and is off by at most one
    unit in its last place. *)
Lemma div_million p :
  Zpos p < 2 ^ 50 →
  ∃ m e, ddiv (fl_Z (Zpos p)) (dbl 1000000) = S754_finite false m (- e) ∧
    Zpos (dig m) = 53 ∧ 71 - Zpos (dig p) ≤ e ≤ 73 ∧ Z.abs (Zpos m * 1000000 - Zpos p * 2 ^ e) ≤ 1000000.
Proof.
  intros Hp. pose proof (dig_le p 50 ltac:(lia) Hp) as Hd. set (d := Zpos (dig p)) in *.
  change (dbl 1000000) with (S754_finite false (Z.to_pos (1000000 * 2 ^ 33)) (-33)).
  cbn [fl_Z]. unfold fl, SFdiv, SFdiv_core_binary. fold d.
  change (Zdigits2 (Zpos (Z.to_pos (1000000 * 2 ^ 33)))) with 53.
  change (Zpos (Z.to_pos (1000000 * 2 ^ 33))) with (1000000 * 2 ^ 33).
  rewrite fl_m by (fold d; lia). fold d.
  assert (Zdigits2 (Zpos p * 2 ^ (53 - d)) = 53) as ->.
  { rewrite <- fl_m by (fold d; lia). cbn [Zdigits2].
    rewrite (dig_mul_pow2 p _ (53 - d)); [fold d; lia|lia|]. apply fl_m. fold d. lia. }
  rewrite fexp_small by lia.
  replace (Z.min _ _) with (d - 73) by lia. replace (d - 53 - -33 - (d - 73)) with 53 by lia. cbn [xorb].
  rewrite Z.shiftl_mul_pow2, <- Z.mul_assoc, <- Z.pow_add_r by lia.
  replace (53 - d + 53) with (73 - d + 33) by lia. rewrite Z.pow_add_r, Z.mul_assoc by lia.
  destruct (Z.div_eucl _ _) as [q r] eqn:Eq.
  pose proof (Z_div_mod (Zpos p * 2 ^ (73 - d) * 2 ^ 33) (1000000 * 2 ^ 33) ltac:(lia)) as Hdm.
  rewrite Eq in Hdm. destruct Hdm as [Hdm Hr]. clear Eq.
  assert (2 ^ 72 ≤ Zpos p * 2 ^ (73 - d) < 2 ^ 73) as HB.
  { pose proof (dig_bounds p) as B. fold d in B. replace 72 with (d - 1 + (73 - d)) at 1 by lia.
    replace (2 ^ 73) with (2 ^ d * 2 ^ (73 - d)) by (rewrite <- Z.pow_add_r by lia; f_equal; lia).
    rewrite Z.pow_add_r by lia. split; [apply Z.mul_le_mono_nonneg_r|apply Z.mul_lt_mono_pos_r]; lia. }
  destruct (aux_neighbours q (d - 73) (new_location (1000000 * 2 ^ 33) r))
    as (n & k & m' & e' & Hn & Hk & -> & Hdg & Hv); [lia|lia|].
  exists m', (- e'). rewrite Z.opp_involutive. split; [done|]. split; [done|].
  set (E := 73 - d - n). assert (2 ^ (73 - d) = 2 ^ n * 2 ^ E) as HE.
  { rewrite <- Z.pow_add_r by lia. f_equal. lia. }
  assert (Z.abs (k * 1000000 - Zpos p * 2 ^ E) ≤ 1000000) as Habs.
  { rewrite HE in Hdm, HB. assert (n = 0 ∨ n = 1) as [Hn0|Hn1] by lia.
    - rewrite Hn0 in *. rewrite Z.div_1_r in Hk. change (2 ^ 0) with 1 in *. lia.
    - rewrite Hn1 in *. change (2 ^ 1) with 2 in *. pose proof (Z.div_mod q 2 ltac:(lia)).
      pose proof (Z.mod_pos_bound q 2 ltac:(lia)). lia. }
  destruct Hv as [[-> Hv]|[-> Hv]].
  - replace (- (d - 73 + n)) with E by lia. rewrite Hv. lia.
  - replace (- (d - 73 + n + 1)) with (E - 1) by lia.
    assert (2 ^ E = 2 * 2 ^ (E - 1)) by (rewrite <- Z.pow_succ_r by lia; f_equal; lia). lia.
Qed.

(** It prints as the dividend does. *)
Lemma print_div p :
  Zpos p < 2 ^ 50 → print_f (ddiv (fl_Z (Zpos p)) (dbl 1000000)) = print_millionths (Zpos p).
Proof.
  intros Hp. destruct (div_million p Hp) as (m & e & -> & _ & He & Habs).
  pose proof (dig_le p 50 ltac:(lia) Hp).
  cbn [print_fixed app]. change (10 ^ Z.of_nat 6) with 1000000. rewrite (proj2 (Z.leb_gt _ _)) by lia.
  rewrite Z.opp_involutive. f_equal. apply round_div_near.
  assert (2 ^ 21 ≤ 2 ^ e) by (apply Z.pow_le_mono_r; lia). lia.
Qed.

(** The text of an elapsed time is exact. *)
Lemma msecs_exact sec nsec :
  Z.abs sec * 1000000000 < 2 ^ 53 → Z.abs nsec < 2 ^ 53 → 0 ≤ sec * 1000000000 + nsec < 2 ^ 50 →
  msecs sec nsec = print_millionths (sec * 1000000000 + nsec).
Proof.
  intros Hs Hn Ht. unfold msecs. rewrite !(dbl_exact sec), !(dbl_exact nsec), (dbl_exact 1000000000) by lia.
  rewrite fl_Z_mul by lia. rewrite fl_Z_add by lia.
  destruct (sec * 1000000000 + nsec) as [|p|p]; [done| |lia]. apply print_div. lia.
Qed.

(** ** Powers of two *)

(** A mantissa of 53 bits, scaled. *)
Lemma aux_scaled s m k e :
  Zpos (dig m) = 53 → 0 ≤ k → -900 ≤ e ≤ 900 →
  binary_round_aux 53 1024 s (Zpos m * 2 ^ k) (e - k) loc_Exact = S754_finite s m e.
Proof.
  intros Hd Hk He. destruct (Zpos m * 2 ^ k) as [|mk|mk] eqn:Em; [lia| |lia].
  assert (Zpos (dig mk) = 53 + k) as Dm by (rewrite (dig_mul_pow2 m mk k); lia).
  unfold binary_round_aux, shr_fexp at 1. cbn [Zdigits2 shr_record_of_loc]. rewrite Dm, fexp_small by lia.
  replace (53 + k + (e - k) - 53 - (e - k)) with k by lia. rewrite <- Em, shr_exact by lia.
  cbn [shr_m loc_of_shr_record round_nearest_even]. unfold shr_fexp. cbn [Zdigits2 shr_record_of_loc].
  rewrite Hd, fexp_small by lia. replace (53 + (e - k + k) - 53 - (e - k + k)) with 0 by lia. cbn [shr shr_m].
  rewrite (proj2 (Z.leb_le _ _)) by lia. f_equal. lia.
Qed.

(** A power of two as a [double]. *)
Definition fl_pow2 (k : Z) : spec_float := S754_finite false (2 ^ 52) (k - 52).

Lemma mul_pow2 s m e k :
  Zpos (dig m) = 53 → -800 ≤ e ≤ 800 → 0 ≤ k ≤ 64 → dmul (S754_finite s m e) (fl_pow2 k) = S754_finite s m (e + k).
Proof.
  intros Hd He Hk. unfold SFmul, fl_pow2. rewrite xorb_false_r, Pos2Z.inj_mul.
  change (Zpos (2 ^ 52)) with (2 ^ 52). replace (e + (k - 52)) with (e + k - 52) by lia. apply aux_scaled; lia.
Qed.

Lemma div_pow2 s m e k :
  Zpos (dig m) = 53 → -800 ≤ e ≤ 800 → 0 ≤ k ≤ 64 → ddiv (S754_finite s m e) (fl_pow2 k) = S754_finite s m (e - k).
Proof.
  intros Hd He Hk. unfold SFdiv, SFdiv_core_binary, fl_pow2. cbn [Zdigits2]. rewrite Hd.
  change (Zpos (dig (2 ^ 52))) with 53. rewrite fexp_small by lia.
  replace (Z.min _ _) with (e - k - 1) by lia. replace (e - (k - 52) - (e - k - 1)) with 53 by lia.
  rewrite Z.shiftl_mul_pow2 by lia. change (Zpos (2 ^ 52)) with (2 ^ 52).
  replace (Zpos m * 2 ^ 53) with (Zpos m * 2 * 2 ^ 52) by lia.
  pose proof (Z_div_mod (Zpos m * 2 * 2 ^ 52) (2 ^ 52) ltac:(lia)) as Hdm.
  destruct (Z.div_eucl _ _) as [q r]. destruct Hdm as [Hdm Hr].
  assert (r = 0 ∧ q = Zpos m * 2) as [-> ->] by lia.
  rewrite xorb_false_r. change (new_location (2 ^ 52) 0) with loc_Exact.
  change (Zpos m * 2) with (Zpos m * 2 ^ 1). apply aux_scaled; lia.
Qed.

Lemma fl_dig p : Zpos (dig p) ≤ 53 → Zpos (dig (Z.to_pos (Zpos p * 2 ^ (53 - Zpos (dig p))))) = 53.
Proof. intros H. rewrite (dig_mul_pow2 p _ (53 - Zpos (dig p))); [lia|lia|by apply fl_m]. Qed.

Lemma round_div_scale a b c : 0 < b → 0 < c → round_div (a * c) (b * c) = round_div a b.
Proof.
  intros Hb Hc. unfold round_div. rewrite Z.div_mul_cancel_r, Z.mul_mod_distr_r by lia.
  replace (2 * (a `mod` b * c) <? b * c) with (2 * (a `mod` b) <? b)
    by (apply eq_bool_prop_intro; rewrite !Is_true_true, !Z.ltb_lt; nia).
  replace (2 * (a `mod` b * c) =? b * c) with (2 * (a `mod` b) =? b)
    by (apply eq_bool_prop_intro; rewrite !Is_true_true, !Z.eqb_eq; nia).
  done.
Qed.

(** The text of an exact fraction [z / 2^k]. *)
Definition print_ratio (d : nat) (z k : Z) : list Z :=
  (if z <? 0 then str "-" else []) ++ print_scaled d (round_div (Z.abs z * 10 ^ Z.of_nat d) (2 ^ k)).

Lemma print_over_pow2 d s p k :
  Zpos (dig p) ≤ 53 → 0 < k →
  print_fixed d (S754_finite s (Z.to_pos (Zpos p * 2 ^ (53 - Zpos (dig p)))) (Zpos (dig p) - 53 - k)) =
  print_ratio d (if s then Zneg p else Zpos p) k.
Proof.
  intros Hd Hk. cbn [print_fixed]. rewrite (proj2 (Z.leb_gt _ _)) by lia. rewrite fl_m by done.
  unfold print_ratio. f_equal; [by destruct s|]. f_equal.
  replace (- (Zpos (dig p) - 53 - k)) with (k + (53 - Zpos (dig p))) by lia. rewrite Z.pow_add_r by lia.
  replace (Zpos p * 2 ^ (53 - Zpos (dig p)) * 10 ^ Z.of_nat d)
    with (Zpos p * 10 ^ Z.of_nat d * 2 ^ (53 - Zpos (dig p))) by lia.
  rewrite round_div_scale by lia. by destruct s.
Qed.

(** ** The texts *)

Lemma nonul_scaled k n : 0 ≤ n → nonul (print_scaled k n).
Proof.
  intros Hn. unfold print_scaled. apply nonul_app; [apply nonul_dec, Z.div_pos; lia|].
  apply nonul_app; [by apply nonul_str|]. apply Forall_fmap, Forall_forall. intros j _. cbn.
  pose proof (Z.mod_pos_bound (n / 10 ^ j) 10). lia.
Qed.

Lemma length_dec n k z : 0 ≤ z < 10 ^ Z.of_nat k → (length (dec_digits n z) ≤ S k)%nat.
Proof.
  revert k z. induction n as [|n IH]; intros k z Hz; cbn [dec_digits]; [cbn; lia|].
  destruct (Z.ltb_spec z 10); [cbn; lia|]. destruct k as [|k]; [cbn in Hz; lia|].
  rewrite length_app. cbn [length]. rewrite Nat2Z.inj_succ, Z.pow_succ_r in Hz by lia.
  specialize (IH k (z / 10)). assert (length (dec_digits n (z / 10)) ≤ S k)%nat; [|lia].
  apply IH. split; [apply Z.div_pos; lia|apply Z.div_lt_upper_bound; lia].
Qed.

Lemma length_scaled k j n :
  0 ≤ n < 10 ^ Z.of_nat (k + j) → (length (print_scaled k n) ≤ S j + 1 + k)%nat.
Proof.
  intros Hn. unfold print_scaled. rewrite !length_app, length_fmap, length_reverse, length_seqZ.
  change (length (str ".")) with 1%nat. rewrite Nat2Z.inj_add, Z.pow_add_r in Hn by lia.
  pose proof (Z.pow_pos_nonneg 10 (Z.of_nat k)).
  pose proof (length_dec 320 j (n / 10 ^ Z.of_nat k)) as H'.
  assert (length (dec_digits 320 (n / 10 ^ Z.of_nat k)) ≤ S j)%nat; [|lia].
  apply H'. split; [apply Z.div_pos; lia|apply Z.div_lt_upper_bound; lia].
Qed.

(** Texts without NUL, by their parts. *)
Ltac nonuls :=
  repeat lazymatch goal with
  | |- nonul (DBQ _) => by apply nonul_DBQ
  | |- nonul (bytes_of_string _) => by apply nonul_str
  | |- nonul (print_int _) => apply nonul_print_int
  | |- nonul (print_scaled _ _) => by apply nonul_scaled
  | |- nonul (_ ++ _) => apply nonul_app
  | |- nonul (if _ then _ else _) => case_match
  | |- nonul [] => constructor
  end.
