(* ===== verification/Wp.v ===== *)
(** * Weakest preconditions

    Total correctness of computations in the state monad of outcomes: [wp m Q s]
    says that [m] started in [s] returns, with a result and a state that satisfy
    [Q].  The ping model is verified with it. *)

From stdpp Require Import base list option.
From S2P Require Import Prelude.

Definition wp {S A} (m : M S A) (Q : A → S → Prop) (s : S) : Prop :=
  match m s with Done (a, s') => Q a s' | Crash _ => False end.

Section Rules.
Context {S A B : Type}.
Implicit Types (s : S) (m : M S A) (f : A → M S B) (Q : A → S → Prop) (R : B → S → Prop).

Lemma wp_bind m f R s : wp m (λ a, wp (f a) R) s → wp (m ≫= f) R s.
Proof. unfold wp, mbind, M_bind. by destruct (m s) as [[a s']|c]. Qed.
Lemma wp_bind_inv m f R s : wp (m ≫= f) R s → wp m (λ a, wp (f a) R) s.
Proof. unfold wp, mbind, M_bind. by destruct (m s) as [[a s']|c]. Qed.
Lemma wp_ret a Q s : Q a s → wp (mret a) Q s.
Proof. done. Qed.
Lemma wp_get (T : S → S → Prop) s : T s s → wp get T s.
Proof. done. Qed.
Lemma wp_modify (g : S → S) (T : () → S → Prop) s : T tt (g s) → wp (modify g) T s.
Proof. done. Qed.
Lemma wp_lift (o : outcome A) a Q s : o = Done a → Q a s → wp (lift o) Q s.
Proof. by intros ->. Qed.
Lemma wp_mono m Q Q' s : wp m Q s → (∀ a s', Q a s' → Q' a s') → wp m Q' s.
Proof. unfold wp. destruct (m s) as [[a s']|c]; auto. Qed.
Lemma wp_run m Q s : wp m Q s → ∃ a s', m s = Done (a, s') ∧ Q a s'.
Proof. unfold wp. destruct (m s) as [[a s']|c]; [eauto|done]. Qed.
Lemma wp_if (b : bool) m1 m2 Q s :
  (b = true → wp m1 Q s) → (b = false → wp m2 Q s) → wp (if b then m1 else m2) Q s.
Proof. destruct b; auto. Qed.
End Rules.

(** A step through the plumbing; the rest is for the lemmas of a component. *)
Ltac wp_step :=
  lazymatch goal with
  | |- wp (mbind _ _) _ _ => apply wp_bind
  | |- wp get _ _ => apply wp_get
  | |- wp (modify _) _ _ => apply wp_modify
  | |- wp (mret _) _ _ => apply wp_ret
  end.
Ltac wp_steps := repeat wp_step.
