(* ===== verification/Tcp.v ===== *)
(** * TCP connections ([eperd/tcputil.c])

    The layer between the measurements over TCP and libevent.
    [tu_connect_to_name] has a name resolved, [dns_cb] tries the addresses until a
    connection is being made, [eventcb] tells the client what became of
    it, [tu_restart_connect] goes on to the next address and [tu_cleanup] gives
    everything back.  The state is [tu_env] together with the heap of libevent's
    bufferevents and OpenSSL's contexts and the state of the client.

    A client is given by the class [client]: the callbacks it passed to
    [tu_connect_to_name].  A callback may call [tu_restart_connect] or [tu_cleanup]
    itself as the last thing it does; it answers with the list of these calls.
    Such calls nest: [reporterr] takes the depth as fuel.

    libevent does not run callbacks from within [bufferevent_socket_connect]
    (bufferevent_sock.c defers them).  What the system and OpenSSL answer in one
    attempt is [answers], a function of the number of attempts made before. *)

From stdpp Require Import base list list_numbers numbers option strings.
From Stdlib Require Import ZArith Lia.
From S2P Require Import Prelude Cstr Packet Validate.

Open Scope Z_scope.

Inductive tu_err :=
| TU_DNS_ERR | TU_READ_ERR | TU_SOCKET_ERR | TU_CONNECT_ERR | TU_OUT_OF_ADDRS | TU_BAD_ADDR
| TU_SSL_CTX_INIT_ERR | TU_SSL_OBJ_INIT_ERR | TU_SSL_INIT_ERR.

#[export] Instance tu_err_eq_dec : EqDecision tu_err.
Proof. solve_decision. Defined.

Definition BEV_EVENT_READING : Z := 0x01.
Definition BEV_EVENT_ERROR : Z := 0x20.
Definition BEV_EVENT_CONNECTED : Z := 0x80.

(** An address with its length. *)
Abbreviation addrinfo := (sockaddr * Z)%type.

(** The arguments of [tu_connect_to_name]; [infname], [server_name] and [cert_name]
    say whether the string was given. *)
Record tu_params := TP {
  interval : Z * Z; infname : bool; do_tls : bool; do_http2 : bool; server_name : bool; cert_name : bool
}.

(** What OpenSSL, libevent and the system answer in one attempt, and the text of the error
    of a connection that could not be started. *)
Record answers := ANS {
  SSL_CTX_new : bool; SSL_CTX_set_alpn_protos : bool; SSL_CTX_set_default_verify_paths : bool;
  X509_VERIFY_PARAM_set1_host : bool; SSL_CTX_set1_param : bool; SSL_new : bool;
  SSL_set_tlsext_host_name : bool; bufferevent_openssl_socket_new : bool; bufferevent_socket_new : bool;
  socket : bool; bind_interface : bool; F_GETFL : bool; F_SETFL : bool;
  bufferevent_socket_connect : bool; connect_error : list Z
}.

(** [dns_res] is [None] for [NULL], [dns_curr] the rest of the list from the current
    address on; [bev] names a block of the heap. *)
Record tu_env := TU {
  dnsip : bool;
  connecting : bool;
  host_is_literal : bool;
  dns_res : option (list addrinfo);
  dns_curr : list addrinfo;
  bev : option nat;
  tls_ctx : bool;
  timer : option (Z * Z);
  start_time : timespec;
  ttr : timespec
}.

Definition set_dnsip (v : bool) (t : tu_env) : tu_env :=
  TU v (connecting t) (host_is_literal t) (dns_res t) (dns_curr t) (bev t) (tls_ctx t) (timer t) (start_time t) (ttr t).
Definition set_connecting (v : bool) (t : tu_env) : tu_env :=
  TU (dnsip t) v (host_is_literal t) (dns_res t) (dns_curr t) (bev t) (tls_ctx t) (timer t) (start_time t) (ttr t).
Definition set_host_is_literal (v : bool) (t : tu_env) : tu_env :=
  TU (dnsip t) (connecting t) v (dns_res t) (dns_curr t) (bev t) (tls_ctx t) (timer t) (start_time t) (ttr t).
Definition set_dns_res (v : option (list addrinfo)) (t : tu_env) : tu_env :=
  TU (dnsip t) (connecting t) (host_is_literal t) v (dns_curr t) (bev t) (tls_ctx t) (timer t) (start_time t) (ttr t).
Definition set_dns_curr (v : list addrinfo) (t : tu_env) : tu_env :=
  TU (dnsip t) (connecting t) (host_is_literal t) (dns_res t) v (bev t) (tls_ctx t) (timer t) (start_time t) (ttr t).
Definition set_bev (v : option nat) (t : tu_env) : tu_env :=
  TU (dnsip t) (connecting t) (host_is_literal t) (dns_res t) (dns_curr t) v (tls_ctx t) (timer t) (start_time t) (ttr t).
Definition set_tls_ctx (v : bool) (t : tu_env) : tu_env :=
  TU (dnsip t) (connecting t) (host_is_literal t) (dns_res t) (dns_curr t) (bev t) v (timer t) (start_time t) (ttr t).
Definition set_timer (v : option (Z * Z)) (t : tu_env) : tu_env :=
  TU (dnsip t) (connecting t) (host_is_literal t) (dns_res t) (dns_curr t) (bev t) (tls_ctx t) v (start_time t) (ttr t).
Definition set_start_time (v : timespec) (t : tu_env) : tu_env :=
  TU (dnsip t) (connecting t) (host_is_literal t) (dns_res t) (dns_curr t) (bev t) (tls_ctx t) (timer t) v (ttr t).
Definition set_ttr (v : timespec) (t : tu_env) : tu_env :=
  TU (dnsip t) (connecting t) (host_is_literal t) (dns_res t) (dns_curr t) (bev t) (tls_ctx t) (timer t) (start_time t) v.

(** The bufferevents that were made and not freed, the name of the next, and
    the number of SSL contexts. *)
Record heap := HP { bevs : list nat; next_bev : nat; ctxs : nat }.

(** What a callback may ask for before it returns. *)
Inductive request := RestartConnect | CleanUp.

Class client (C : Type) := {
  cl_reporterr : tu_err → list Z → option addrinfo → C → outcome (C * list request);
  cl_reportcount : Z → C → outcome C;
  cl_beforeconnect : addrinfo → C → outcome C;
  cl_connected : C → outcome (C * list request);
  cl_writecb : C → outcome (C * list request);
  cl_timeout : C → outcome (C * list request)
}.

(** [tried]: the addresses given to [bufferevent_socket_connect]. *)
Record world (C : Type) := WORLD {
  tu : tu_env; hp : heap; cl : C; attempts : nat; tried : list addrinfo
}.
Arguments WORLD {C} tu hp cl attempts tried.
Arguments tu {C} w.
Arguments hp {C} w.
Arguments cl {C} w.
Arguments attempts {C} w.
Arguments tried {C} w.

Section Tcp.
Context {C : Type} `{!client C}.
Context (p : tu_params) (sys : nat → answers) (asserts unsafe : bool).

Abbreviation TM := (M (world C)).

Definition upd (f : tu_env → tu_env) : TM unit :=
  modify (λ w, WORLD (f (tu w)) (hp w) (cl w) (attempts w) (tried w)).
Definition upd_hp (h : heap) : TM unit := modify (λ w, WORLD (tu w) h (cl w) (attempts w) (tried w)).
Definition upd_cl (c : C) : TM unit := modify (λ w, WORLD (tu w) (hp w) c (attempts w) (tried w)).

(** *** What is called of libevent *)

(** [NULL] and a block that was freed are not accepted. *)
Definition bufferevent_free : TM unit :=
  w ← get;
  match bev (tu w) with
  | Some b => if bool_decide (b ∈ bevs (hp w))
              then upd_hp (HP (filter (.≠ b) (bevs (hp w))) (next_bev (hp w)) (ctxs (hp w)))
              else mcrash Undefined
  | None => mcrash Undefined
  end.
Definition evutil_freeaddrinfo : TM unit :=
  w ← get;
  match dns_res (tu w) with Some _ => upd (set_dns_res None) | None => mcrash Undefined end.
Definition new_bev : TM nat :=
  w ← get;
  let h := hp w in
  upd_hp (HP (next_bev h :: bevs h) (S (next_bev h)) (ctxs h));;
  mret (next_bev h).

(** The address [dns_curr] points to; it is part of [dns_res]. *)
Definition curr_addr : TM addrinfo :=
  w ← get;
  match dns_res (tu w), dns_curr (tu w) with Some _, a :: _ => mret a | _, _ => mcrash Undefined end.

(** *** The callbacks of the client *)

Definition tu_cleanup : TM unit :=
  w ← get;
  (if bool_decide (is_Some (dns_res (tu w))) then
     evutil_freeaddrinfo;; upd (set_dns_res None);; upd (set_dns_curr [])
   else mret tt);;
  (if tls_ctx (tu w) then
     w ← get;
     upd_hp (HP (bevs (hp w)) (next_bev (hp w)) (ctxs (hp w) - 1));; upd (set_tls_ctx false)
   else mret tt);;
  (if bool_decide (is_Some (bev (tu w))) then bufferevent_free;; upd (set_bev None) else mret tt);;
  upd (set_timer None).

(** The calls a callback ends with. *)
Fixpoint run_requests (restart : TM unit) (l : list request) : TM unit :=
  match l with
  | [] => mret tt
  | RestartConnect :: l' => restart;; run_requests restart l'
  | CleanUp :: l' => tu_cleanup;; run_requests restart l'
  end.

Definition callback (f : C → outcome (C * list request)) (restart : TM unit) : TM unit :=
  w ← get;
  '(c, reqs) ← lift (f (cl w));
  upd_cl c;;
  run_requests restart reqs.

Definition simple_callback (f : C → outcome C) : TM unit :=
  w ← get; c ← lift (f (cl w)); upd_cl c.

(** *** Making a connection *)

Section Attempt.
Context (rep : tu_err → list Z → TM unit).   (* env->reporterr *)

(** The bufferevent for TLS; [None] when the caller has to return -1. *)
Definition ssl_bev (a : answers) : TM (option nat) :=
  if negb (SSL_CTX_new a) then
    upd (set_tls_ctx false);;
    rep TU_SSL_CTX_INIT_ERR (str "SSL_CTX_new call failed");; mret None
  else
    w ← get;
    upd_hp (HP (bevs (hp w)) (next_bev (hp w)) (S (ctxs (hp w))));;
    upd (set_tls_ctx true);;
    let vpm := do_http2 p && cert_name p in
    if do_http2 p && negb (SSL_CTX_set_alpn_protos a) then
      rep TU_SSL_CTX_INIT_ERR (str "SSL_CTX_set_alpn_protos call failed");; mret None
    else if vpm && negb (SSL_CTX_set_default_verify_paths a) then
      rep TU_SSL_CTX_INIT_ERR (str "SSL_CTX_set_default_verify_paths call failed");; mret None
    else if vpm && negb (X509_VERIFY_PARAM_set1_host a) then
      rep TU_SSL_CTX_INIT_ERR (str "X509_VERIFY_PARAM_set1_host call failed");; mret None
    else if vpm && negb (SSL_CTX_set1_param a) then
      rep TU_SSL_CTX_INIT_ERR (str "SSL_CTX_set1_param call failed");; mret None
    else if negb (SSL_new a) then
      rep TU_SSL_OBJ_INIT_ERR (str "SSL_new call failed");; mret None
    else if server_name p && negb (SSL_set_tlsext_host_name a) then
      rep TU_SSL_OBJ_INIT_ERR (str "SSL_set_tlsext_host_name call failed");; mret None
    else if negb (bufferevent_openssl_socket_new a) then
      rep TU_SSL_INIT_ERR (str "bufferevent_openssl_socket_new call failed");; mret None
    else b ← new_bev; mret (Some b).

(** The socket for a given interface; false when the caller has to return -1. *)
Definition bind_bev (a : answers) : TM bool :=
  if negb (infname p) then mret true
  else if negb (socket a) then rep TU_SOCKET_ERR (str "socket call failed");; mret false
  else if negb (bind_interface a) then rep TU_SOCKET_ERR (str "bind_interface failed");; mret false
  else if negb (F_GETFL a) then rep TU_SOCKET_ERR (str "fcntl F_GETFL");; mret false
  else if negb (F_SETFL a) then rep TU_SOCKET_ERR (str "fcntl F_SETFL");; mret false
  else mret true.

(** False for a result of -1. *)
Definition create_bev (a : answers) : TM bool :=
  _ ← curr_addr;
  w ← get;
  (if asserts then massert (negb (tls_ctx (tu w))) else mret tt);;
  b ← (if do_tls p || do_http2 p then ssl_bev a
       else if bufferevent_socket_new a then b ← new_bev; mret (Some b) else mcrash Fatal);
  match b with
  | None => mret false
  | Some b =>
      ok ← bind_bev a;
      if ok : bool then upd (set_bev (Some b));; upd (set_connecting true);; mret true
      else mret false
  end.

(** The body of the loops of [tu_restart_connect] and [dns_cb] up to the call of
    [bufferevent_socket_connect]; true where the function returns. *)
Definition try_connect : TM bool :=
  upd (set_timer (Some (interval p)));;
  ai ← curr_addr;
  if atlas_check_addr unsafe ai.1 ai.2 =? -1 then rep TU_BAD_ADDR [];; mret true
  else
    simple_callback (cl_beforeconnect ai);;
    w ← get;
    (if bool_decide (is_Some (bev (tu w))) then bufferevent_free;; upd (set_bev None) else mret tt);;
    w ← get;
    let a := sys (attempts w) in
    modify (λ w, WORLD (tu w) (hp w) (cl w) (S (attempts w)) (tried w));;
    ok ← create_bev a;
    if negb ok then mret true
    else
      ai ← curr_addr;
      modify (λ w, WORLD (tu w) (hp w) (cl w) (attempts w) (tried w ++ [ai]));;
      mret (bufferevent_socket_connect a).

Definition next_addr : TM unit := _ ← curr_addr; upd (λ t, set_dns_curr (tail (dns_curr t)) t).

(** The loop of [tu_restart_connect]; true where it returns. *)
Fixpoint restart_loop (n : nat) : TM bool :=
  w ← get;
  if bool_decide (dns_curr (tu w) = []) then mret false
  else match n with
       | O => mcrash OutOfFuel
       | S n =>
           stop ← try_connect;
           if stop : bool then mret true
           else
             w ← get;
             if bool_decide (dns_curr (tu w) = []) then mret true
             else next_addr;; restart_loop n
       end.

Definition tu_restart_body : TM unit :=
  w ← get;
  (if bool_decide (dns_curr (tu w) = []) then mret tt else next_addr);;
  w ← get;
  stop ← restart_loop (S (length (dns_curr (tu w))));
  if stop : bool then mret tt
  else
    bufferevent_free;; upd (set_bev None);;
    w ← get;
    (if bool_decide (is_Some (dns_res (tu w))) then
       evutil_freeaddrinfo;; upd (set_dns_res None);; upd (set_dns_curr [])
     else mret tt);;
    rep TU_OUT_OF_ADDRS [].

(** The loop of [dns_cb]. *)
Fixpoint dns_loop (n : nat) : TM bool :=
  w ← get;
  if bool_decide (dns_curr (tu w) = []) then mret false
  else match n with
       | O => mcrash OutOfFuel
       | S n =>
           let a := sys (attempts w) in
           stop ← try_connect;
           if stop : bool then mret true
           else
             w ← get;
             if bool_decide (dns_curr (tu w) = []) then
               if bool_decide (is_Some (dns_res (tu w))) then mcrash Fatal else mret true
             else
               rep TU_CONNECT_ERR (connect_error a);;
               w ← get;
               if bool_decide (dns_curr (tu w) = []) then
                 if bool_decide (is_Some (dns_res (tu w))) then mcrash Fatal else mret true
               else next_addr;; dns_loop n
       end.
End Attempt.

(** [env->reporterr]: the client is told, and what it asks for is done. *)
Fixpoint reporterr (depth : nat) (cause : tu_err) (msg : list Z) : TM unit :=
  match depth with
  | O => mcrash OutOfFuel
  | S d =>
      w ← get;
      callback (cl_reporterr cause msg (head (dns_curr (tu w)))) (tu_restart_body (reporterr d))
  end.

Definition tu_restart_connect (depth : nat) : TM unit := tu_restart_body (reporterr depth).

(** [err] is the text of a non-zero result. *)
Definition dns_cb (depth : nat) (err : option (list Z)) (res : list addrinfo) (now : timespec) : TM unit :=
  w ← get;
  if negb (dnsip (tu w)) then mret tt
  else
    d ← lift (elapsed now (start_time (tu w)));
    upd (set_ttr d);;
    upd (set_dnsip false);;
    match err with
    | Some text => reporterr depth TU_DNS_ERR text
    | None =>
        upd (set_dns_res (if bool_decide (res = []) then None else Some res));;
        upd (set_dns_curr res);;
        simple_callback (cl_reportcount (zlen res));;
        w ← get;
        stop ← dns_loop (reporterr depth) (S (length (dns_curr (tu w))));
        if stop : bool then mret tt
        else
          bufferevent_free;; upd (set_bev None);;
          evutil_freeaddrinfo;; upd (set_dns_res None);; upd (set_dns_curr []);;
          reporterr depth TU_OUT_OF_ADDRS []
    end.

(** [alpn] is what [SSL_get0_alpn_selected] gives, [msg] the text of the error. *)
Definition eventcb (depth : nat) (events : Z) (alpn : option (list Z)) (msg : list Z) : TM unit :=
  w ← get;
  if negb (Z.land events BEV_EVENT_ERROR =? 0) && connecting (tu w) then reporterr depth TU_CONNECT_ERR msg
  else if negb (Z.land events BEV_EVENT_READING =? 0) then reporterr depth TU_READ_ERR []
  else if negb (Z.land events BEV_EVENT_CONNECTED =? 0) then
    upd (set_connecting false);;
    if do_http2 p && bool_decide (alpn = None) then
      reporterr depth TU_CONNECT_ERR (str "server does not offer 'h2' ALPN")
    else if do_http2 p && negb (bool_decide (alpn = Some (str "h2"))) then
      reporterr depth TU_CONNECT_ERR (str "server offers wrong ALPN")
    else
      callback cl_connected (tu_restart_connect depth);;
      callback cl_writecb (tu_restart_connect depth)
  else mret tt.

(** The timer, which calls the client. *)
Definition timer_cb (depth : nat) : TM unit :=
  upd (set_timer None);; callback cl_timeout (tu_restart_connect depth).

(** [numeric]: the name is an address literal. *)
Definition tu_connect_to_name (numeric : bool) (now : timespec) : TM unit :=
  upd (set_dns_res None);; upd (set_bev None);;
  upd (set_host_is_literal numeric);;
  upd (set_dnsip true);; upd (set_connecting false);; upd (set_start_time now).

(** The time of a resolution that is not made, for replayed measurements. *)
Definition tu_fake_ttr (numeric : bool) (start now : timespec) : TM unit :=
  upd (set_host_is_literal numeric);;
  upd (set_start_time start);;
  d ← lift (elapsed now start);
  upd (set_ttr d).

End Tcp.
