(* ===== verification/TcpProofs.v ===== *)
(** * TCP connections: safety

    The invariant of the state of [tcputil.c] between two events: what
    [env->bev] and [env->dns_curr] point to is allocated, and nothing else is.
    A client keeps a small contract, the class [polite]; for such a client
    every event returns and keeps the invariant. *)

From stdpp Require Import base list list_numbers numbers option strings.
From Stdlib Require Import ZArith Lia.
From S2P Require Import Prelude Cstr Packet Wp Validate Tcp.

Open Scope Z_scope.

(** ** The contract of a client

    [waiting]: the client waits for a connection and goes on to the next address when
    the timer runs out.  After every error but a failed connection or a failed read the client
    cleans up; after a failed connection it may also ask for the next address. *)
Definition ssl_err (cause : tu_err) : bool :=
  match cause with TU_SSL_CTX_INIT_ERR | TU_SSL_OBJ_INIT_ERR | TU_SSL_INIT_ERR => true | _ => false end.

Class polite (C : Type) `{!client C} := {
  cl_inv : C → Prop;
  waiting : C → bool;
  pol_reporterr cause msg ai c :
    cl_inv c → ssl_err cause = false →
    ∃ c' l, cl_reporterr cause msg ai c = Done (c', l) ∧ cl_inv c' ∧
      match cause with
      | TU_CONNECT_ERR => l = [RestartConnect] ∨ l = [CleanUp]
      | TU_READ_ERR => l = [CleanUp] ∨ l = [] ∧ waiting c' = waiting c
      | _ => l = [CleanUp]
      end;
  pol_reportcount n c : cl_inv c → ∃ c', cl_reportcount n c = Done c' ∧ cl_inv c';
  pol_beforeconnect ai c : cl_inv c → ∃ c', cl_beforeconnect ai c = Done c' ∧ cl_inv c';
  pol_connected c : cl_inv c → ∃ c', cl_connected c = Done (c', []) ∧ cl_inv c' ∧ waiting c' = false;
  pol_writecb c : cl_inv c →
    ∃ c' l, cl_writecb c = Done (c', l) ∧ cl_inv c' ∧ (l = [CleanUp] ∨ l = [] ∧ waiting c' = waiting c);
  pol_timeout c : cl_inv c →
    ∃ c' l, cl_timeout c = Done (c', l) ∧ cl_inv c' ∧
      (l = [CleanUp] ∨ l = [] ∨ waiting c = true ∧ l = [RestartConnect])
}.

Section Safety.
Context {C : Type} `{!client C} `{!polite C}.
Context (p : tu_params) (sys : nat → answers) (asserts unsafe : bool).

(** OpenSSL works; a second context is an error for [assert] only. *)
Definition ssl_fine (a : answers) : Prop :=
  SSL_CTX_new a = true ∧ SSL_CTX_set_alpn_protos a = true ∧ SSL_CTX_set_default_verify_paths a = true ∧
  X509_VERIFY_PARAM_set1_host a = true ∧ SSL_CTX_set1_param a = true ∧ SSL_new a = true ∧
  SSL_set_tlsext_host_name a = true ∧ bufferevent_openssl_socket_new a = true.
Definition setup_ok : Prop :=
  if do_tls p || do_http2 p then asserts = false ∧ ∀ n, ssl_fine (sys n)
  else ∀ n, bufferevent_socket_new (sys n) = true.

(** ** The invariant *)

(** The bufferevent of the state, and those that were lost when the socket for an
    interface could not be made. *)
Definition heap_ok (w : world C) : Prop :=
  ∃ lost, bevs (hp w) = option_list (bev (tu w)) ++ lost ∧ NoDup (bevs (hp w)) ∧
    Forall (λ b, (b < next_bev (hp w))%nat) (bevs (hp w)) ∧ (infname p = false → lost = []).
Definition dns_ok (t : tu_env) : Prop :=
  match dns_res t with None => dns_curr t = [] | Some l => dns_curr t ≠ [] ∧ dns_curr t `suffix_of` l end.
Definition tls_ok (t : tu_env) : Prop := do_tls p || do_http2 p = false → tls_ctx t = false.
Record inv (w : world C) : Prop := INV {
  inv_heap : heap_ok w;
  inv_dns : dns_ok (tu w);
  inv_tls : tls_ok (tu w);
  inv_cl : cl_inv (cl w);
  inv_timer : timer (tu w) ≠ None → waiting (cl w) = true → is_Some (bev (tu w))
}.

(** A world in which everything was given back. *)
Definition clean (w : world C) : Prop :=
  dns_res (tu w) = None ∧ dns_curr (tu w) = [] ∧ bev (tu w) = None ∧ timer (tu w) = None ∧
  tls_ctx (tu w) = false ∧ (infname p = false → bevs (hp w) = []).

Ltac tsimpl := cbn [tu hp cl attempts tried dnsip connecting host_is_literal dns_res dns_curr bev tls_ctx timer start_time ttr
  set_dnsip set_connecting set_host_is_literal set_dns_res set_dns_curr set_bev set_tls_ctx set_timer set_start_time set_ttr
  bevs next_bev ctxs] in *.
Lemma wp_upd f (Q : () → world C → Prop) w :
  Q tt (WORLD (f (tu w)) (hp w) (cl w) (attempts w) (tried w)) → wp (upd f) Q w.
Proof. done. Qed.
Lemma wp_upd_hp h (Q : () → world C → Prop) w :
  Q tt (WORLD (tu w) h (cl w) (attempts w) (tried w)) → wp (upd_hp h) Q w.
Proof. done. Qed.
Lemma wp_upd_cl c (Q : () → world C → Prop) w :
  Q tt (WORLD (tu w) (hp w) c (attempts w) (tried w)) → wp (upd_cl c) Q w.
Proof. done. Qed.
Ltac wsteps := repeat (first [wp_step | apply wp_upd | apply wp_upd_hp | apply wp_upd_cl]; tsimpl).

Lemma wp_bufferevent_free (Q : () → world C → Prop) w b lost :
  bev (tu w) = Some b → bevs (hp w) = b :: lost → b ∉ lost →
  Q tt (WORLD (tu w) (HP lost (next_bev (hp w)) (ctxs (hp w))) (cl w) (attempts w) (tried w)) → wp bufferevent_free Q w.
Proof.
  intros Hb Hh Hl HQ. unfold bufferevent_free. wsteps. rewrite Hb, Hh, bool_decide_eq_true_2 by left.
  wsteps. rewrite filter_cons_False by (intros H; by apply H).
  replace (filter (.≠ b) lost) with lost; [exact HQ|].
  clear Hh HQ. induction lost as [|x lost IH]; [done|]. apply not_elem_of_cons in Hl as [Hx Hl].
  rewrite filter_cons_True by congruence. by rewrite <- IH.
Qed.

(** The steps of [tu_cleanup]; the loops free the bufferevent in the same way. *)
Lemma wp_drop_bev (b : bool) (Q : () → world C → Prop) w lost :
  b = bool_decide (is_Some (bev (tu w))) →
  bevs (hp w) = option_list (bev (tu w)) ++ lost → NoDup (bevs (hp w)) →
  Q tt (WORLD (set_bev None (tu w)) (HP lost (next_bev (hp w)) (ctxs (hp w))) (cl w) (attempts w) (tried w)) →
  wp (if b then bufferevent_free;; upd (set_bev None) else mret tt) Q w.
Proof.
  intros -> Hh Hn HQ. destruct (bev (tu w)) as [b|] eqn:Hb; tsimpl.
  - rewrite bool_decide_eq_true_2 by eauto. rewrite Hh in Hn. apply NoDup_cons in Hn as [Hn _]. wsteps.
    eapply wp_bufferevent_free; [done|exact Hh|done|]. wsteps. exact HQ.
  - rewrite bool_decide_eq_false_2 by (by intros []). wsteps. cbn in Hh.
    destruct w as [[] [] ? ? ?]; tsimpl. by subst.
Qed.

Lemma wp_drop_dns (b : bool) (Q : () → world C → Prop) w :
  b = bool_decide (is_Some (dns_res (tu w))) → (dns_res (tu w) = None → dns_curr (tu w) = []) →
  Q tt (WORLD (set_dns_curr [] (set_dns_res None (tu w))) (hp w) (cl w) (attempts w) (tried w)) →
  wp (if b then evutil_freeaddrinfo;; upd (set_dns_res None);; upd (set_dns_curr []) else mret tt) Q w.
Proof.
  intros -> Hd HQ. destruct (dns_res (tu w)) as [l|] eqn:Er.
  - rewrite bool_decide_eq_true_2 by eauto. unfold evutil_freeaddrinfo. wsteps. rewrite Er. by wsteps.
  - rewrite bool_decide_eq_false_2 by (by intros []). wsteps. specialize (Hd eq_refl).
    destruct w as [[] ? ? ? ?]; tsimpl. by subst.
Qed.

Lemma wp_drop_ctx (b : bool) (Q : () → world C → Prop) w :
  b = tls_ctx (tu w) →
  (∀ n, Q tt (WORLD (set_tls_ctx false (tu w)) (HP (bevs (hp w)) (next_bev (hp w)) n) (cl w) (attempts w) (tried w))) →
  wp (if b then
        w ← get;
        upd_hp (HP (bevs (hp w)) (next_bev (hp w)) (ctxs (hp w) - 1));; upd (set_tls_ctx false)
      else mret tt) Q w.
Proof.
  intros -> HQ. destruct (tls_ctx (tu w)) eqn:Et; wsteps; [apply HQ|].
  specialize (HQ (ctxs (hp w))). destruct w as [[] [] ? ? ?]; tsimpl. by subst.
Qed.

Lemma wp_cleanup (Q : () → world C → Prop) w :
  heap_ok w → (dns_res (tu w) = None → dns_curr (tu w) = []) →
  (∀ w', clean w' → heap_ok w' → cl w' = cl w → attempts w' = attempts w → tried w' = tried w →
         dnsip (tu w') = dnsip (tu w) → Q tt w') → wp tu_cleanup Q w.
Proof.
  intros (lost & Hh & Hn & Hlt & Hi) Hd HQ. unfold tu_cleanup. wsteps.
  apply wp_drop_dns; [done|done|]. wsteps. apply wp_drop_ctx; [done|]. intros n. wsteps.
  apply (wp_drop_bev _ _ _ lost); [done|done|done|]. wsteps. apply HQ; try done.
  exists lost. tsimpl. rewrite Hh in Hn, Hlt. apply NoDup_app in Hn as (_ & _ & Hn).
  apply Forall_app in Hlt as [_ Hlt]. split_and!; done.
Qed.

(** The client was told that it is over, and has cleaned up. *)
Definition ended (w w' : world C) : Prop :=
  clean w' ∧ heap_ok w' ∧ cl_inv (cl w') ∧ tried w' = tried w.

Lemma ended_inv w w' : ended w w' → inv w'.
Proof.
  intros ((E1 & E2 & E3 & E4 & E5 & _) & Hh & Hc & _). split; [done| |by intros _|done|by rewrite E4].
  unfold dns_ok. by rewrite E1.
Qed.

Definition final (cause : tu_err) : Prop :=
  match cause with TU_DNS_ERR | TU_SOCKET_ERR | TU_OUT_OF_ADDRS | TU_BAD_ADDR => True | _ => False end.
Definition rep_ok (rep : tu_err → list Z → M (world C) unit) : Prop :=
  ∀ cause msg w (Q : () → world C → Prop),
    final cause → heap_ok w → (dns_res (tu w) = None → dns_curr (tu w) = []) → cl_inv (cl w) →
    (∀ w', ended w w' → Q tt w') → wp (rep cause msg) Q w.

Lemma wp_callback_cleanup f restart c (Q : () → world C → Prop) w :
  f (cl w) = Done (c, [CleanUp]) → heap_ok w → (dns_res (tu w) = None → dns_curr (tu w) = []) → cl_inv c →
  (∀ w', ended w w' → cl w' = c → Q tt w') → wp (callback f restart) Q w.
Proof.
  intros Hf Hh Hd Hc HQ. unfold callback. wsteps. eapply wp_lift; [exact Hf|]. wsteps. cbn [run_requests].
  wsteps. apply wp_cleanup; [done|done|]. intros w' H1 H2 H3 H4 H5 H6. wsteps. tsimpl.
  apply HQ; [|done]. by rewrite <- H3 in Hc.
Qed.

Lemma reporterr_ok d : rep_ok (reporterr p sys asserts unsafe (S d)).
Proof.
  intros cause msg w Q Hf Hh Hd Hc HQ. cbn [reporterr]. wsteps.
  destruct (pol_reporterr cause msg (head (dns_curr (tu w))) (cl w) Hc) as (c & l & E & Hc' & Hl).
  { by destruct cause. }
  assert (l = [CleanUp]) as -> by (by destruct cause).
  eapply wp_callback_cleanup; [exact E|done|done|done|]. intros w' He _. by apply HQ.
Qed.

Lemma wp_simple_callback (f : C → outcome C) c (Q : () → world C → Prop) w :
  f (cl w) = Done c → Q tt (WORLD (tu w) (hp w) c (attempts w) (tried w)) → wp (simple_callback f) Q w.
Proof. intros Hf HQ. unfold simple_callback. wsteps. eapply wp_lift; [exact Hf|]. wsteps. exact HQ. Qed.

Lemma wp_curr_addr l ai rest (Q : addrinfo → world C → Prop) w :
  dns_res (tu w) = Some l → dns_curr (tu w) = ai :: rest → Q ai w → wp curr_addr Q w.
Proof. intros E1 E2 HQ. unfold curr_addr. wsteps. rewrite E1, E2. by wsteps. Qed.

(** ** One attempt *)

(** The address is not tried: it is not allowed, or there is no socket for it. *)
Definition refused (ai : addrinfo) (a : answers) : bool :=
  (atlas_check_addr unsafe ai.1 ai.2 =? -1) ||
  (infname p && negb (socket a && bind_interface a && F_GETFL a && F_SETFL a)).

(** The state while a connection to [ai] is being made. *)
Record attempted (ai : addrinfo) (w w' : world C) : Prop := ATT {
  att_heap : heap_ok w';
  att_bev : is_Some (bev (tu w'));
  att_res : dns_res (tu w') = dns_res (tu w);
  att_curr : dns_curr (tu w') = dns_curr (tu w);
  att_tls : tls_ok (tu w');
  att_cl : cl_inv (cl w');
  att_tried : tried w' = tried w ++ [ai];
  att_count : attempts w' = S (attempts w);
  att_conn : connecting (tu w') = true
}.

Lemma heap_new lost n m t c k l :
  NoDup lost → Forall (λ b, (b < n)%nat) lost → (infname p = false → lost = []) → bev t = Some n →
  heap_ok (WORLD t (HP (n :: lost) (S n) m) c k l).
Proof.
  intros Hn Hlt Hi Hb. exists lost. tsimpl. rewrite Hb. split_and!; [done| | |done].
  - apply NoDup_cons. split; [|done]. intros Hin. eapply Forall_forall in Hlt; [|exact Hin]. cbn in Hlt. lia.
  - constructor; [lia|]. eapply Forall_impl; [exact Hlt|]. cbn. lia.
Qed.

Section Attempts.
Context (rep : tu_err → list Z → M (world C) unit) (Hrep : rep_ok rep) (Hset : setup_ok).

(** A bufferevent is made, with or without TLS. *)
Lemma wp_make_bev n lost (Q : option nat → world C → Prop) w :
  bevs (hp w) = lost → (next_bev (hp w) = n) →
  (∀ t m, dns_res t = dns_res (tu w) → dns_curr t = dns_curr (tu w) → tls_ok t → bev t = bev (tu w) →
     timer t = timer (tu w) →
     Q (Some n) (WORLD t (HP (n :: lost) (S n) m) (cl w) (attempts w) (tried w))) →
  tls_ok (tu w) → ∀ k,
  wp (if do_tls p || do_http2 p then ssl_bev p rep (sys k)
      else if bufferevent_socket_new (sys k) then b ← new_bev; mret (Some b) else mcrash Fatal) Q w.
Proof.
  intros <- <- HQ Ht k. unfold setup_ok in Hset. destruct (do_tls p || do_http2 p) eqn:Etls.
  - destruct Hset as [_ Hssl]. destruct (Hssl k) as (A1 & A2 & A3 & A4 & A5 & A6 & A7 & A8).
    unfold ssl_bev. rewrite A1, A2, A3, A4, A5, A6, A7, A8. cbn [negb]. rewrite !andb_false_r.
    unfold new_bev. wsteps. apply HQ; try done. intros H. by rewrite Etls in H.
  - rewrite Hset. unfold new_bev. wsteps. by apply HQ.
Qed.

Lemma wp_bind_bev a (Q : bool → world C → Prop) w :
  (infname p = true → heap_ok w) → (dns_res (tu w) = None → dns_curr (tu w) = []) → cl_inv (cl w) →
  (infname p && negb (socket a && bind_interface a && F_GETFL a && F_SETFL a) = true →
   ∀ w', ended w w' → Q false w') →
  (infname p && negb (socket a && bind_interface a && F_GETFL a && F_SETFL a) = false → Q true w) →
  wp (bind_bev p rep a) Q w.
Proof.
  intros Hh Hd Hc Hf Ht. unfold bind_bev. destruct (infname p); cbn [negb andb] in *; [|wsteps; by apply Ht].
  destruct (socket a), (bind_interface a), (F_GETFL a), (F_SETFL a); cbn [negb andb] in *; wsteps;
    try (by apply Ht); (apply Hrep; [done|by apply Hh|done|done|]; intros w' He; wsteps; by apply Hf).
Qed.

Lemma wp_try_connect l ai rest (Q : bool → world C → Prop) w :
  heap_ok w → dns_res (tu w) = Some l → dns_curr (tu w) = ai :: rest → tls_ok (tu w) → cl_inv (cl w) →
  (refused ai (sys (attempts w)) = true → ∀ w', ended w w' → Q true w') →
  (refused ai (sys (attempts w)) = false →
   ∀ w', attempted ai w w' → Q (bufferevent_socket_connect (sys (attempts w))) w') →
  wp (try_connect p sys asserts unsafe rep) Q w.
Proof.
  intros Hh Hr Hcu Ht Hc Hq1 Hq2. unfold try_connect. wsteps. eapply wp_curr_addr; [done|exact Hcu|].
  unfold refused in *. destruct (_ =? -1) eqn:Echk; cbn [orb] in *.
  { wsteps. apply Hrep; [done|done|tsimpl; congruence|done|]. intros w' He. wsteps. by apply Hq1. }
  wsteps. destruct (pol_beforeconnect ai (cl w) Hc) as (c & Eb & Hc').
  eapply wp_simple_callback; [exact Eb|]. wsteps. destruct Hh as (lost & Hh & Hn & Hlt & Hi).
  apply (wp_drop_bev _ _ _ lost); [done|done|done|]. wsteps.
  rewrite Hh in Hn, Hlt. apply NoDup_app in Hn as (_ & _ & Hn). apply Forall_app in Hlt as [_ Hlt].
  unfold create_bev. wsteps. eapply wp_curr_addr; [done|exact Hcu|]. wsteps.
  assert (∀ Q' (w' : world C), Q' tt w' → tls_ctx (tu w') = tls_ctx (tu w) →
            wp (if asserts then massert (negb (tls_ctx (tu w))) else mret tt) Q' w') as Hassert.
  { intros Q' w' HQ' _. destruct asserts eqn:Ea; [|by wsteps]. unfold setup_ok in Hset. unfold tls_ok in Ht.
    destruct (do_tls p || do_http2 p) eqn:Etls; [destruct Hset; congruence|]. by rewrite Ht. }
  apply Hassert; [|done]. wsteps.
  eapply wp_make_bev; [done|done| |done]. cbn [tu hp cl attempts tried]. intros t m T1 T2 T3 T4 T5.
  wsteps. apply wp_bind_bev; tsimpl.
  - intros Hinf. exists (next_bev (hp w) :: lost). tsimpl. rewrite T4.
    destruct (heap_new lost (next_bev (hp w)) m (set_bev (Some (next_bev (hp w))) t) c 0%nat [] Hn Hlt Hi eq_refl)
      as (lost' & _ & N1 & N2 & _). tsimpl. split_and!; [done|done|done|congruence].
  - congruence.
  - done.
  - intros Hb w' He. wsteps. by apply Hq1.
  - intros Hb. wsteps. cbn [negb]. wsteps. eapply wp_curr_addr; tsimpl; [by rewrite T1|by rewrite T2|]. wsteps.
    apply Hq2; [done|]. split; tsimpl; try done. apply heap_new; done.
Qed.

(** ** Going on to the next address *)

(** Between two callbacks: it is over, or a connection is being made and at
    most [n] addresses are left, with the current one. *)
Definition over (w : world C) : Prop := clean w ∧ heap_ok w ∧ cl_inv (cl w).
Definition settled (n : nat) (w : world C) : Prop :=
  over w ∨ (inv w ∧ is_Some (bev (tu w)) ∧ is_Some (dns_res (tu w)) ∧ (length (dns_curr (tu w)) ≤ n)%nat).

Lemma ended_over w w' : ended w w' → over w'.
Proof. intros (H1 & H2 & H3 & _). done. Qed.
Lemma over_inv w : over w → inv w.
Proof. intros (H1 & H2 & H3). by eapply (ended_inv w). Qed.
Lemma settled_inv n w : settled n w → inv w.
Proof. intros [H|[H _]]; [by apply over_inv|done]. Qed.
Lemma settled_mono n m w : settled n w → (n ≤ m)%nat → settled m w.
Proof. intros [H|(H1 & H2 & H3 & H4)] Hle; [by left|right; split_and!; try done; lia]. Qed.

Lemma attempted_settled ai l w w' :
  attempted ai w w' → dns_res (tu w) = Some l → dns_curr (tu w) ≠ [] → dns_curr (tu w) `suffix_of` l →
  settled (length (dns_curr (tu w))) w'.
Proof.
  intros [H1 H2 H3 H4 H5 H6 H7 H8 H9] Hr Hne Hs. right. rewrite H3, H4, Hr. split; [|eauto].
  split; [done| |done|done|done]. unfold dns_ok. by rewrite H3, Hr, H4.
Qed.

(** The loop: it stops at an address that is not refused at once, and otherwise
    runs through all of them, the last bufferevent being left. *)
Lemma wp_restart_loop l (Q : bool → world C → Prop) n w :
  heap_ok w → is_Some (bev (tu w)) → dns_res (tu w) = Some l → dns_curr (tu w) `suffix_of` l →
  tls_ok (tu w) → cl_inv (cl w) → (length (dns_curr (tu w)) < n)%nat →
  (∀ w', settled (length (dns_curr (tu w))) w' → Q true w') →
  (∀ w', heap_ok w' → is_Some (bev (tu w')) → dns_res (tu w') = Some l → dns_curr (tu w') = [] →
         tls_ok (tu w') → cl_inv (cl w') → Q false w') →
  wp (restart_loop p sys asserts unsafe rep n) Q w.
Proof.
  revert w. induction n as [|n IH]; intros w Hh Hb Hr Hs Ht Hc Hn Hq1 Hq2; [lia|].
  cbn [restart_loop]. wsteps. destruct (dns_curr (tu w)) as [|ai rest] eqn:Ecu.
  { rewrite bool_decide_eq_true_2 by done. wsteps. by apply Hq2. }
  rewrite bool_decide_eq_false_2 by done. wsteps.
  eapply wp_try_connect; [done|exact Hr|exact Ecu|done|done| |].
  { intros _ w' He. wsteps. apply Hq1. left. by eapply ended_over. }
  intros _ w' Hatt. destruct (bufferevent_socket_connect _).
  { wsteps. apply Hq1. rewrite <- Ecu. eapply attempted_settled; [done|exact Hr|by rewrite Ecu|by rewrite Ecu]. }
  destruct Hatt as [H1 H2 H3 H4 H5 H6 H7 H8 H9]. wsteps. rewrite H4, Ecu, bool_decide_eq_false_2 by done. wsteps.
  unfold next_addr. wsteps. eapply wp_curr_addr; [by rewrite H3|by rewrite H4|]. wsteps.
  apply IH; tsimpl; rewrite ?H3, ?H4, ?Ecu; cbn [tail]; try done.
  - by eapply suffix_cons_l.
  - cbn in Hn. lia.
  - intros w2 Hw2. apply Hq1. eapply settled_mono; [exact Hw2|cbn; lia].
Qed.

(** The bufferevent of the state is freed. *)
Lemma wp_free_last (Q : () → world C → Prop) w :
  heap_ok w → is_Some (bev (tu w)) →
  (∀ h, heap_ok (WORLD (set_bev None (tu w)) h (cl w) (attempts w) (tried w)) →
        Q tt (WORLD (tu w) h (cl w) (attempts w) (tried w))) →
  wp bufferevent_free Q w.
Proof.
  intros (lost & L1 & L2 & L3 & L4) [b Hb] HQ. rewrite Hb in L1. cbn in L1.
  rewrite L1 in L2, L3. apply NoDup_cons in L2 as [L2 L2']. apply Forall_cons in L3 as [_ L3].
  eapply wp_bufferevent_free; [done|done|done|]. apply HQ. exists lost. by tsimpl.
Qed.

Lemma wp_restart (Q : () → world C → Prop) w :
  inv w → is_Some (bev (tu w)) → (∀ w', settled (length (dns_curr (tu w)) - 1) w' → Q tt w') →
  wp (tu_restart_body p sys asserts unsafe rep) Q w.
Proof.
  intros [Hh Hd Ht Hc Hti] Hb HQ. unfold tu_restart_body. wsteps.
  assert (∀ w', heap_ok w' → is_Some (bev (tu w')) → (dns_res (tu w') = None → dns_curr (tu w') = []) →
    cl_inv (cl w') →
    wp (bufferevent_free;; upd (set_bev None);;
        w ← get;
        (if bool_decide (is_Some (dns_res (tu w))) then
           evutil_freeaddrinfo;; upd (set_dns_res None);; upd (set_dns_curr [])
         else mret tt);;
        rep TU_OUT_OF_ADDRS []) Q w') as Hend.
  { intros w' K1 K2 K3 K4. wsteps. apply wp_free_last; [done|done|]. intros h Hh'. wsteps.
    apply wp_drop_dns; [done|done|]. wsteps. apply Hrep; [done|exact Hh'|done|done|].
    intros w'' He. apply HQ. left. by eapply ended_over. }
  unfold dns_ok in Hd. destruct (dns_res (tu w)) as [l|] eqn:Hr.
  - destruct Hd as [Hne Hs]. rewrite bool_decide_eq_false_2 by done.
    destruct (dns_curr (tu w)) as [|ai rest] eqn:Ecu; [done|].
    unfold next_addr. wsteps. eapply wp_curr_addr; [done|exact Ecu|]. wsteps. rewrite Ecu. cbn [tail].
    eapply (wp_restart_loop l); tsimpl; try done; [by eapply suffix_cons_l|lia| |].
    { intros w' Hw. apply HQ. eapply settled_mono; [exact Hw|cbn; lia]. }
    intros w' K1 K2 K3 K4 K5 K6. apply Hend; [done|done|congruence|done].
  - rewrite Hd. rewrite bool_decide_eq_true_2 by done. wsteps. rewrite Hd. cbn [length restart_loop].
    wsteps. rewrite Hd, bool_decide_eq_true_2 by done. apply wp_ret, Hend; auto.
Qed.
End Attempts.

(** ** The events *)

Abbreviation rep := (reporterr p sys asserts unsafe).

Section Events.
Context (Hset : setup_ok).

Lemma inv_dns_none w : inv w → dns_res (tu w) = None → dns_curr (tu w) = [].
Proof. intros [_ Hd _ _ _] E. unfold dns_ok in Hd. by rewrite E in Hd. Qed.

(** A failed connection: the client goes on or ends. *)
Lemma wp_connect_err d msg (Q : () → world C → Prop) w :
  inv w → is_Some (bev (tu w)) → (∀ w', settled (length (dns_curr (tu w)) - 1) w' → Q tt w') → wp (rep (S (S d)) TU_CONNECT_ERR msg) Q w.
Proof.
  intros Hi Hb HQ. cbn [reporterr]. wsteps.
  destruct (pol_reporterr TU_CONNECT_ERR msg (head (dns_curr (tu w))) (cl w) (inv_cl w Hi) eq_refl) as (c & l & E & Hc & Hl).
  destruct Hl as [-> | ->].
  - unfold callback. wsteps. eapply wp_lift; [exact E|]. wsteps. cbn [run_requests]. wsteps.
    apply wp_restart; [apply reporterr_ok|done| |done|].
    + destruct Hi as [H1 H2 H3 H4 H5]. by split.
    + intros w' Hw. wsteps. by apply HQ.
  - eapply wp_callback_cleanup; [exact E|by destruct Hi|by apply inv_dns_none|done|].
    intros w' He _. apply HQ. left. by eapply ended_over.
Qed.

Lemma wp_dns_loop d l (Q : bool → world C → Prop) n w :
  heap_ok w → dns_res (tu w) = Some l → dns_curr (tu w) `suffix_of` l →
  (dns_curr (tu w) = [] → is_Some (bev (tu w))) →
  tls_ok (tu w) → cl_inv (cl w) → (length (dns_curr (tu w)) < n)%nat →
  (∀ w', inv w' → Q true w') →
  (∀ w', heap_ok w' → is_Some (bev (tu w')) → is_Some (dns_res (tu w')) → cl_inv (cl w') → Q false w') →
  wp (dns_loop p sys asserts unsafe (rep (S (S d))) n) Q w.
Proof.
  revert l w. induction n as [|n IH]; intros l w Hh Hr Hs Hb Ht Hc Hn Hq1 Hq2; [lia|].
  cbn [dns_loop]. wsteps. destruct (dns_curr (tu w)) as [|ai rest] eqn:Ecu.
  { rewrite bool_decide_eq_true_2 by done. wsteps. apply Hq2; eauto. }
  rewrite bool_decide_eq_false_2 by done. wsteps.
  eapply wp_try_connect; [apply reporterr_ok|done|done|exact Hr|exact Ecu|done|done| |].
  { intros _ w' He. wsteps. apply Hq1. by eapply ended_inv. }
  intros _ w' Hatt.
  assert (inv w') as Hi' by (eapply settled_inv, attempted_settled; [done|exact Hr|by rewrite Ecu|by rewrite Ecu]).
  destruct (bufferevent_socket_connect _); [wsteps; by apply Hq1|].
  destruct Hatt as [H1 H2 H3 H4 H5 H6 H7 H8 H9]. wsteps. rewrite H4, Ecu, bool_decide_eq_false_2 by done. wsteps.
  apply wp_connect_err; [done|done|]. intros w2 Hw2. wsteps. rewrite H4, Ecu in Hw2. cbn [length] in Hw2.
  pose proof (settled_inv _ _ Hw2) as Hi2.
  destruct Hw2 as [((E1 & E2 & _) & _)|(_ & Hb2 & [l2 E] & Hl2)].
  { rewrite E1, E2, bool_decide_eq_true_2, bool_decide_eq_false_2 by (done || by intros []). wsteps. by apply Hq1. }
  destruct Hi2 as [K1 K2 K3 K4 K5]. unfold dns_ok in K2. rewrite E in K2. destruct K2 as [K2 K2'].
  rewrite bool_decide_eq_false_2 by done. destruct (dns_curr (tu w2)) as [|ai2 rest2] eqn:Ecu2; [done|].
  unfold next_addr. wsteps. eapply wp_curr_addr; [done|exact Ecu2|]. wsteps.
  apply (IH l2); tsimpl; rewrite ?Ecu2; cbn [tail]; try done; [by eapply suffix_cons_l|].
  cbn [length] in *. lia.
Qed.

(** The answer of the resolver. *)
Lemma wp_dns_cb d err res now (Q : () → world C → Prop) w :
  inv w → (dnsip (tu w) = true → dns_res (tu w) = None ∧ bev (tu w) = None ∧ timer (tu w) = None) →
  (err = None → res ≠ []) → (∃ rtt, elapsed now (start_time (tu w)) = Done rtt) →
  (∀ w', inv w' → Q tt w') → wp (dns_cb p sys asserts unsafe (S (S d)) err res now) Q w.
Proof.
  intros Hi Hidle Hres [rtt Ertt] HQ. unfold dns_cb. wsteps. destruct (dnsip (tu w)); cbn [negb]; [|wsteps; by apply HQ].
  destruct (Hidle eq_refl) as (I1 & I2 & I3). pose proof (inv_dns_none w Hi I1) as I4.
  destruct Hi as [K1 K2 K3 K4 K5]. wsteps. eapply wp_lift; [exact Ertt|]. wsteps. destruct err as [text|].
  { apply reporterr_ok; try done. intros w' He. apply HQ. by eapply ended_inv. }
  rewrite bool_decide_eq_false_2 by auto. wsteps. destruct (pol_reportcount (zlen res) (cl w) K4) as (c & Ec & Hc).
  eapply wp_simple_callback; [exact Ec|]. wsteps. eapply (wp_dns_loop _ res); tsimpl; try done.
  - intros ->. by destruct Hres.
  - lia.
  - intros w' L1 L2 [l L3] L4. wsteps. apply wp_free_last; [done|done|]. intros h Hh. wsteps.
    unfold evutil_freeaddrinfo. wsteps. rewrite L3. wsteps. apply reporterr_ok; try done.
    intros w'' He. apply HQ. by eapply ended_inv.
Qed.

(** A callback that may clean up and does not start to wait. *)
Definition tame (f : C → outcome (C * list request)) : Prop :=
  ∀ c, cl_inv c → ∃ c' l, f c = Done (c', l) ∧ cl_inv c' ∧ (l = [CleanUp] ∨ l = [] ∧ (waiting c' = true → waiting c = true)).

Lemma wp_tame f restart (Q : () → world C → Prop) w :
  tame f → inv w → (∀ w', inv w' → Q tt w') → wp (callback f restart) Q w.
Proof.
  intros Hf Hi HQ. destruct (Hf (cl w) (inv_cl w Hi)) as (c & l & E & Hc & [-> |[-> Hw]]).
  - eapply wp_callback_cleanup; [exact E|by destruct Hi|by apply inv_dns_none|done|].
    intros w' He _. apply HQ. by eapply ended_inv.
  - unfold callback. wsteps. eapply wp_lift; [exact E|]. wsteps. cbn [run_requests]. wsteps. apply HQ.
    destruct Hi as [K1 K2 K3 K4 K5]. split; tsimpl; try done. auto.
Qed.

Lemma wp_eventcb d events alpn msg (Q : () → world C → Prop) w :
  inv w → is_Some (bev (tu w)) → (∀ w', inv w' → Q tt w') →
  wp (eventcb p sys asserts unsafe (S (S d)) events alpn msg) Q w.
Proof.
  intros Hi Hb HQ. unfold eventcb. wsteps.
  assert (∀ msg w, inv w → is_Some (bev (tu w)) → wp (rep (S (S d)) TU_CONNECT_ERR msg) Q w) as Hce.
  { intros msg' w' H1 H2. apply wp_connect_err; [done|done|]. intros w2 Hw2. by eapply HQ, settled_inv. }
  destruct (negb _ && connecting _); [by apply Hce|]. destruct (negb (Z.land events BEV_EVENT_READING =? 0)).
  { cbn [reporterr]. wsteps. eapply wp_tame; [|done|done]. intros c Hc.
    destruct (pol_reporterr TU_READ_ERR [] (head (dns_curr (tu w))) c Hc eq_refl) as (c' & l & E & Hc' & [-> |[-> Hw]]);
      eexists c', _; split_and!; try done; [by left|right; split; [done|congruence]]. }
  destruct (negb (Z.land events BEV_EVENT_CONNECTED =? 0)); [|wsteps; by apply HQ]. wsteps.
  assert (inv (WORLD (set_connecting false (tu w)) (hp w) (cl w) (attempts w) (tried w))) as Hi'.
  { destruct Hi as [K1 K2 K3 K4 K5]. by split. }
  destruct (do_http2 p && bool_decide (alpn = None)); [by apply Hce|].
  destruct (do_http2 p && negb _); [by apply Hce|]. wsteps.
  eapply wp_tame; [|done|].
  { intros c Hc. destruct (pol_connected c Hc) as (c' & E & Hc' & Hw). exists c', []. split_and!; try done.
    right. split; [done|congruence]. }
  intros w' Hi2. eapply wp_tame; [|done|done].
  intros c Hc. destruct (pol_writecb c Hc) as (c' & l & E & Hc' & [-> |[-> Hw]]);
    eexists c', _; split_and!; try done; [by left|right; split; [done|congruence]].
Qed.

Lemma wp_timer_cb d (Q : () → world C → Prop) w :
  inv w → timer (tu w) ≠ None → (∀ w', inv w' → Q tt w') → wp (timer_cb p sys asserts unsafe (S (S d))) Q w.
Proof.
  intros Hi Ht HQ. unfold timer_cb. wsteps.
  assert (∀ c, cl_inv c → inv (WORLD (set_timer None (tu w)) (hp w) c (attempts w) (tried w))) as Hi'.
  { intros c Hc. destruct Hi as [K1 K2 K3 K4 K5]. by split. }
  destruct (pol_timeout (cl w) (inv_cl w Hi)) as (c & l & E & Hc & [-> |[-> |[Hw ->]]]).
  - eapply wp_callback_cleanup; [exact E|by destruct Hi|by apply (inv_dns_none w)|done|].
    intros w' He _. apply HQ. by eapply ended_inv.
  - unfold callback. wsteps. eapply wp_lift; [exact E|]. wsteps. cbn [run_requests]. wsteps. by apply HQ, Hi'.
  - unfold callback, tu_restart_connect. wsteps. eapply wp_lift; [exact E|]. wsteps. cbn [run_requests].
    apply wp_bind, wp_upd_cl, wp_bind. apply wp_restart; [apply reporterr_ok|done|by apply Hi'|by apply Hi|].
    intros w' Hw'. wsteps. by eapply HQ, settled_inv.
Qed.
End Events.
End Safety.
