(* ===== verification/TcpMain.v ===== *)
(** * TCP connections: the life of a connection

    The events that reach [tcputil.c], the states they lead to, and the order in which
    addresses are tried. *)

From stdpp Require Import base list list_numbers numbers option strings.
From Stdlib Require Import ZArith Lia.
From S2P Require Import Prelude Cstr Packet Wp Validate Tcp TcpProofs.

Open Scope Z_scope.

(** ** What is not touched *)

(** Only [dns_cb] and [tu_connect_to_name] write [dnsip] and [start_time]. *)
Definition asked (t : tu_env) : bool * timespec := (dnsip t, start_time t).
Definition keeps {C A} (m : M (world C) A) : Prop :=
  ∀ w a w', m w = Done (a, w') → asked (tu w') = asked (tu w).

Section Keeps.
Context {C : Type} `{!client C} `{!polite C}.

Lemma keeps_bind {A B} (m : M (world C) A) (f : A → M (world C) B) :
  keeps m → (∀ a, keeps (f a)) → keeps (m ≫= f).
Proof.
  intros Hm Hf w b w' E. apply M_bind_inv in E as (a & w1 & E1 & E2). by rewrite (Hf _ _ _ _ E2), (Hm _ _ _ E1).
Qed.
Lemma keeps_ret {A} (a : A) : keeps (mret a : M (world C) A).
Proof. by intros w a' w' [= <- <-]. Qed.
Lemma keeps_get : keeps (get : M (world C) _).
Proof. by intros w a' w' [= <- <-]. Qed.
Lemma keeps_crash {A} c : keeps (mcrash c : M (world C) A).
Proof. by intros w a w'. Qed.
Lemma keeps_assert b : keeps (massert b : M (world C) _).
Proof. destruct b; [apply keeps_ret|apply keeps_crash]. Qed.
Lemma keeps_lift {A} (m : outcome A) : keeps (lift m : M (world C) A).
Proof. intros w a w' E. by apply lift_inv in E as [_ ->]. Qed.
Lemma keeps_upd f : (∀ t, asked (f t) = asked t) → keeps (upd f : M (world C) _).
Proof. intros H w a w' [= <- <-]. apply H. Qed.
Lemma keeps_upd_hp h : keeps (upd_hp h : M (world C) _).
Proof. by intros w a w' [= <- <-]. Qed.
Lemma keeps_upd_cl c : keeps (upd_cl c : M (world C) _).
Proof. by intros w a w' [= <- <-]. Qed.
Lemma keeps_modify (f : world C → world C) : (∀ w, tu (f w) = tu w) → keeps (modify f).
Proof. intros H w a w' [= <- <-]. by rewrite H. Qed.
End Keeps.

Create HintDb keeps.
#[export] Hint Resolve keeps_ret keeps_get keeps_crash keeps_assert keeps_lift keeps_upd_hp keeps_upd_cl : keeps.

(** Follows the structure of the code. *)
Ltac solve_keeps :=
  repeat first
    [ solve [auto with keeps]
    | apply keeps_bind; [|intros ?]
    | apply keeps_upd; done
    | apply keeps_modify; done
    | match goal with
      | |- keeps (if ?b then _ else _) => destruct b
      | |- keeps (match ?x with _ => _ end) => destruct x
      | |- keeps (let '_ := ?x in _) => destruct x
      end ].

Section Main.
Context {C : Type} `{!client C} `{!polite C}.
Context (p : tu_params) (sys : nat → answers) (asserts unsafe : bool).

Lemma free_keeps : keeps (C := C) bufferevent_free.
Proof. unfold bufferevent_free. solve_keeps. Qed.
Lemma freeaddrinfo_keeps : keeps (C := C) evutil_freeaddrinfo.
Proof. unfold evutil_freeaddrinfo. solve_keeps. Qed.
Lemma new_bev_keeps : keeps (C := C) new_bev.
Proof. unfold new_bev. solve_keeps. Qed.
Lemma curr_addr_keeps : keeps (C := C) curr_addr.
Proof. unfold curr_addr. solve_keeps. Qed.
#[local] Hint Resolve free_keeps freeaddrinfo_keeps new_bev_keeps curr_addr_keeps : keeps.
Lemma cleanup_keeps : keeps (C := C) tu_cleanup.
Proof. unfold tu_cleanup. solve_keeps. Qed.
Lemma requests_keeps restart l : keeps restart → keeps (run_requests (C := C) restart l).
Proof. intros H. induction l as [|[] l IH]; cbn [run_requests]; pose proof cleanup_keeps; solve_keeps. Qed.
Lemma callback_keeps f restart : keeps restart → keeps (callback (C := C) f restart).
Proof. intros H. unfold callback. pose proof requests_keeps. solve_keeps. Qed.
Lemma simple_callback_keeps f : keeps (simple_callback (C := C) f).
Proof. unfold simple_callback. solve_keeps. Qed.
Lemma next_addr_keeps : keeps (C := C) next_addr.
Proof. unfold next_addr. solve_keeps. Qed.
#[local] Hint Resolve simple_callback_keeps next_addr_keeps : keeps.

Lemma try_connect_keeps rep :
  (∀ cause msg, keeps (rep cause msg)) → keeps (C := C) (try_connect p sys asserts unsafe rep).
Proof. intros H. unfold try_connect, create_bev, ssl_bev, bind_bev. solve_keeps. Qed.
Lemma restart_loop_keeps rep n :
  (∀ cause msg, keeps (rep cause msg)) → keeps (C := C) (restart_loop p sys asserts unsafe rep n).
Proof.
  intros H. pose proof (try_connect_keeps rep H). induction n as [|n IH]; cbn [restart_loop]; solve_keeps.
Qed.
Lemma restart_keeps rep : (∀ cause msg, keeps (rep cause msg)) → keeps (C := C) (tu_restart_body p sys asserts unsafe rep).
Proof. intros H. pose proof (λ n, restart_loop_keeps rep n H). unfold tu_restart_body. solve_keeps. Qed.
Lemma reporterr_keeps d : ∀ cause msg, keeps (C := C) (reporterr p sys asserts unsafe d cause msg).
Proof.
  induction d as [|d IH]; intros cause msg; cbn [reporterr]; [apply keeps_crash|].
  apply keeps_bind; [apply keeps_get|]. intros w. by apply callback_keeps, restart_keeps.
Qed.
Lemma tu_restart_keeps d : keeps (C := C) (tu_restart_connect p sys asserts unsafe d).
Proof. apply restart_keeps, reporterr_keeps. Qed.
Lemma eventcb_keeps d events alpn msg : keeps (C := C) (eventcb p sys asserts unsafe d events alpn msg).
Proof.
  unfold eventcb. pose proof (reporterr_keeps d). pose proof (λ f, callback_keeps f _ (tu_restart_keeps d)). solve_keeps.
Qed.
Lemma timer_keeps d : keeps (C := C) (timer_cb p sys asserts unsafe d).
Proof. unfold timer_cb. pose proof (λ f, callback_keeps f _ (tu_restart_keeps d)). solve_keeps. Qed.

(** ** Events *)

(** The depth of nested callbacks: a client asks for the next address after a
    failed connection, and only cleans up after what can go wrong then. *)
Definition depth : nat := 2.

(** [tu_connect_to_name]; the answer of the resolver; a bufferevent reports; the timer; another callback of
    the client, for data that arrived or was written. *)
Inductive event :=
| Start (numeric : bool) (now : timespec)
| Resolved (err : option (list Z)) (res : list addrinfo) (now : timespec)
| Event (events : Z) (alpn : option (list Z)) (msg : list Z)
| Timer
| Transfer (f : C → outcome (C * list request)).

Definition handle (ev : event) : M (world C) unit :=
  match ev with
  | Start numeric now => tu_connect_to_name numeric now
  | Resolved err res now => dns_cb p sys asserts unsafe depth err res now
  | Event events alpn msg => eventcb p sys asserts unsafe depth events alpn msg
  | Timer => timer_cb p sys asserts unsafe depth
  | Transfer f => callback f (tu_restart_connect p sys asserts unsafe depth)
  end.

(** A client starts when it has cleaned up, the resolver answers a successful
    query with an address, and libevent calls what was registered with it. *)
Definition enabled (ev : event) (w : world C) : Prop :=
  match ev with
  | Start _ now => clean p w ∧ dnsip (tu w) = false ∧ sane_time now
  | Resolved err res now => (err = None → res ≠ []) ∧ sane_time now
  | Event _ _ _ => is_Some (bev (tu w))
  | Timer => timer (tu w) ≠ None
  | Transfer f => is_Some (bev (tu w)) ∧ tame f
  end.

Inductive reachable (w0 : world C) : world C → Prop :=
| reach_init : reachable w0 w0
| reach_step w ev w' : reachable w0 w → enabled ev w → handle ev w = Done (tt, w') → reachable w0 w'.

(** Nothing is held while a name is being resolved. *)
Record life (w : world C) : Prop := LIFE {
  life_inv : inv p w;
  life_dns : dnsip (tu w) = true → dns_res (tu w) = None ∧ bev (tu w) = None ∧ timer (tu w) = None;
  life_start : sane_time (start_time (tu w))
}.

Lemma dns_cb_asked d err res now w w' :
  dns_cb p sys asserts unsafe d err res now w = Done (tt, w') → asked (tu w') = (false, start_time (tu w)).
Proof.
  intros E. unfold dns_cb in E. rewrite bind_get in E. destruct (dnsip (tu w)) eqn:Ed; cbn [negb] in E.
  - minv E. apply lift_inv in E0 as [_ ->]. minv E. injection E0 as _ <-. minv E. injection E0 as _ <-.
    match type of E with ?m ?w1 = _ => assert (keeps m) as Hk end.
    { destruct err as [text|]; [apply reporterr_keeps|].
      pose proof (reporterr_keeps d).
      assert (∀ n, keeps (C := C) (dns_loop p sys asserts unsafe (reporterr p sys asserts unsafe d) n)).
      { pose proof (try_connect_keeps _ H).
        induction n as [|n IH]; cbn [dns_loop]; pose proof next_addr_keeps; solve_keeps. }
      pose proof free_keeps. pose proof freeaddrinfo_keeps. pose proof simple_callback_keeps. solve_keeps. }
    apply Hk in E. exact E.
  - injection E as <-. unfold asked. by rewrite Ed.
Qed.

(** Handlers that keep [dnsip] and are called with a bufferevent or a timer. *)
Lemma life_kept (m : M (world C) unit) w w' :
  life w → is_Some (bev (tu w)) ∨ timer (tu w) ≠ None → keeps m → m w = Done (tt, w') → inv p w' → life w'.
Proof.
  intros [Hi Hd Hs] Hb Hk E Hi'. apply Hk in E. unfold asked in E. injection E as E1 E2.
  split; [done| |by rewrite E2]. rewrite E1. intros Hdn. destruct (Hd Hdn) as (_ & H1 & H2).
  rewrite H1, H2 in Hb. by destruct Hb as [[? ?]|].
Qed.

Lemma handle_life ev w : setup_ok p sys asserts → life w → enabled ev w → wp (handle ev) (λ _ w', life w') w.
Proof.
  intros Hset Hl He. pose proof Hl as [Hi Hd Hs].
  assert (∀ m : M (world C) unit, is_Some (bev (tu w)) ∨ timer (tu w) ≠ None → keeps m →
            wp m (λ _ w', inv p w') w → wp m (λ _ w', life w') w) as Hkeep.
  { intros m Hb Hk Hm. apply wp_run in Hm as ([] & w' & E & Hi'). unfold wp. rewrite E. by eapply life_kept. }
  destruct ev as [numeric now|err res now|events alpn msg| |f]; cbn [handle enabled] in *.
  - destruct He as ((E1 & E2 & E3 & E4 & E5 & E6) & Ed & Hn). unfold tu_connect_to_name.
    repeat (first [wp_step | apply wp_upd]). split; cbn; [|by intros _|done].
    destruct Hi as [(lost & L) K2 K3 K4 K5]. split; cbn; try done.
    exists lost. cbn. by rewrite E3 in L.
  - destruct He as [Hr Hn].
    assert (wp (dns_cb p sys asserts unsafe depth err res now) (λ _, inv p) w) as Hm.
    { apply wp_dns_cb; [done|done|done|done|by apply elapsed_sane|done]. }
    apply wp_run in Hm as ([] & w' & E & Hi'). unfold wp. rewrite E. apply dns_cb_asked in E. injection E as E1 E2.
    split; [done|by rewrite E1|by rewrite E2].
  - apply Hkeep; [by left|apply eventcb_keeps|]. by apply wp_eventcb.
  - apply Hkeep; [by right|apply timer_keeps|]. by apply wp_timer_cb.
  - destruct He as [Hb Hf]. apply Hkeep; [by left|apply callback_keeps, tu_restart_keeps|]. by eapply wp_tame.
Qed.

Lemma tcp_reachable_life w0 w : setup_ok p sys asserts → life w0 → reachable w0 w → life w.
Proof.
  intros Hset H0. induction 1 as [|w ev w' _ IH He E]; [done|].
  pose proof (handle_life ev w Hset IH He) as H. unfold wp in H. by rewrite E in H.
Qed.

(** A client that has not started yet. *)
Definition fresh (w : world C) : Prop :=
  clean p w ∧ dnsip (tu w) = false ∧ bevs (hp w) = [] ∧ cl_inv (cl w) ∧ sane_time (start_time (tu w)).

Lemma fresh_life w : fresh w → life w.
Proof.
  intros ((E1 & E2 & E3 & E4 & E5 & _) & Ed & Eb & Hc & Hs). split; [|by rewrite Ed|done].
  split; [exists []; rewrite E3, Eb; split_and!; [done|constructor|constructor|done]|by unfold dns_ok; rewrite E1|by intros _|done|by rewrite E4].
Qed.

(** C11: in every state that a polite client of the TCP layer can reach, every event that can
    come is handled: no bufferevent and no list of addresses is freed twice or used
    after it was freed, no [NULL] is freed.  Polite is a client that answers an error as [polite] asks: with a clean-up, or after a failed connect with the next address; [httpget] for one address is one,
    with [--all] it is not ([tcp_all_frees_null]).  Without an interface to bind to, the bufferevent of
    the state is the only one that is allocated, and none is when the client has cleaned
    up (with an interface one can be lost, [tcp_interface_leak]).  It is assumed that a bufferevent can be made, and with TLS that OpenSSL works and the build is without assertions,
    [-DNDEBUG] of Makefile.flags ([setup_ok]; otherwise see [tls_second_address], [tls_context_lost]). *)
Theorem tcp_safe w0 w ev :
  setup_ok p sys asserts → fresh w0 → reachable w0 w → enabled ev w →
  (∃ w', handle ev w = Done (tt, w')) ∧
  (infname p = false → bevs (hp w) = option_list (bev (tu w))) ∧
  match dns_res (tu w) with Some l => dns_curr (tu w) `suffix_of` l | None => dns_curr (tu w) = [] end.
Proof.
  intros Hset H0 Hr He. assert (life w) as Hl by (eapply tcp_reachable_life, Hr; [done|by apply fresh_life]).
  split.
  { destruct (wp_run _ _ _ (handle_life ev w Hset Hl He)) as ([] & w' & E & _). by exists w'. }
  destruct Hl as [[(lost & L1 & _ & _ & L2) K2 _ _ _] _ _]. split.
  - intros Hi. by rewrite L1, (L2 Hi), app_nil_r.
  - unfold dns_ok in K2. destruct (dns_res (tu w)); [by destruct K2|done].
Qed.
End Main.

(** ** The order of the addresses *)

Section Order.
Context {C : Type} `{!client C} `{!polite C}.
Context (p : tu_params) (sys : nat → answers) (asserts unsafe : bool).

(** A client that goes on as long as there are addresses. *)
Definition persistent : Prop :=
  ∀ msg ai c, cl_inv c → ∃ c', cl_reporterr TU_CONNECT_ERR msg ai c = Done (c', [RestartConnect]) ∧ cl_inv c'.

(** Every address is tried, and the system does not refuse at once. *)
Definition reachable_hosts (res : list addrinfo) : Prop :=
  (∀ ai k, ai ∈ res → refused p unsafe ai (sys k) = false) ∧ ∀ k, bufferevent_socket_connect (sys k) = true.

(** The connection to address number [k] of [res] is being made; [before] was tried earlier. *)
Record at_address (before res : list addrinfo) (k : nat) (w : world C) : Prop := AT {
  at_inv : inv p w;
  at_res : dns_res (tu w) = Some res;
  at_curr : dns_curr (tu w) = drop k res;
  at_tried : tried w = before ++ take (S k) res;
  at_bev : is_Some (bev (tu w));
  at_conn : connecting (tu w) = true
}.

Ltac wsteps := repeat (first [wp_step | apply wp_upd | apply wp_upd_hp | apply wp_upd_cl]; cbn [tu hp cl attempts tried]).

(** One attempt from the middle of the list. *)
Lemma wp_try_at before res k rep (Q : bool → world C → Prop) w :
  rep_ok p rep → setup_ok p sys asserts → reachable_hosts res → (k < length res)%nat →
  heap_ok p w → dns_res (tu w) = Some res → dns_curr (tu w) = drop k res → tls_ok p (tu w) → cl_inv (cl w) →
  tried w = before ++ take k res → (∀ w', at_address before res k w' → Q true w') →
  wp (try_connect p sys asserts unsafe rep) Q w.
Proof.
  intros Hrep Hset [Hres Hconn] Hk Hh Hr Hcu Ht Hc Htr HQ.
  destruct (lookup_lt_is_Some_2 res k Hk) as [ai Hai]. pose proof (drop_S res ai k Hai) as Hd.
  eapply wp_try_connect; [done|done|done|exact Hr|by rewrite Hcu|done|done| |].
  - rewrite Hres by (by eapply list_elem_of_lookup_2). done.
  - intros _ w' Hatt. rewrite Hconn. apply HQ.
    assert (inv p w') as Hi.
    { eapply settled_inv, attempted_settled; [done|exact Hr|by rewrite Hcu, Hd|rewrite Hcu; by apply suffix_drop]. }
    destruct Hatt as [H1 H2 H3 H4 H5 H6 H7 H8 H9]. split; try done; [by rewrite H3|by rewrite H4|].
    rewrite H7, Htr, <- app_assoc. f_equal. symmetry. by apply take_S_r.
Qed.

Lemma at_start before res k w :
  at_address before res k w → (k < length res)%nat → drop k res = default (AF_OTHER 0, 0) (res !! k) :: drop (S k) res.
Proof. intros _ Hk. destruct (lookup_lt_is_Some_2 res k Hk) as [ai Hai]. rewrite Hai. by apply drop_S. Qed.

(** The client is told of a failure and goes on. *)
Lemma wp_rep_restart d msg c (Q : () → world C → Prop) w :
  cl_reporterr TU_CONNECT_ERR msg (head (dns_curr (tu w))) (cl w) = Done (c, [RestartConnect]) →
  wp (tu_restart_body p sys asserts unsafe (reporterr p sys asserts unsafe d)) Q
    (WORLD (tu w) (hp w) c (attempts w) (tried w)) →
  wp (reporterr p sys asserts unsafe (S d) TU_CONNECT_ERR msg) Q w.
Proof.
  intros E HQ. cbn [reporterr]. wsteps. unfold callback. wsteps. eapply wp_lift; [exact E|]. cbv beta iota.
  cbn [run_requests]. wsteps. eapply wp_mono; [exact HQ|]. intros [] w' H. by wsteps.
Qed.

Lemma wp_restart_at before res k d (Q : () → world C → Prop) w :
  setup_ok p sys asserts → reachable_hosts res → (k < length res)%nat → at_address before res k w →
  ((S k < length res)%nat → ∀ w', at_address before res (S k) w' → Q tt w') →
  (S k = length res → ∀ w', over p w' → tried w' = before ++ res → Q tt w') →
  wp (tu_restart_body p sys asserts unsafe (reporterr p sys asserts unsafe (S d))) Q w.
Proof.
  intros Hset Hres Hk Hat Hq1 Hq2. pose proof (at_start _ _ _ _ Hat Hk) as Hd.
  destruct Hat as [[K1 K2 K3 K4 K5] Hr Hcu Htr Hb Hcn].
  unfold tu_restart_body. wsteps. rewrite Hcu, Hd, bool_decide_eq_false_2 by done.
  unfold next_addr. wsteps. eapply wp_curr_addr; cbn [tu]; [done|by rewrite Hcu, Hd|]. wsteps.
  set (w1 := WORLD _ _ _ _ _). assert (dns_curr (tu w1) = drop (S k) res) as Hc1 by (cbn; by rewrite Hcu, Hd).
  change (dns_curr (set_dns_curr _ _)) with (dns_curr (tu w1)). rewrite Hc1.
  assert (heap_ok p w1 ∧ dns_res (tu w1) = Some res ∧ tls_ok p (tu w1) ∧ cl_inv (cl w1) ∧ is_Some (bev (tu w1)) ∧
    tried w1 = before ++ take (S k) res) as (J1 & J2 & J3 & J4 & J5 & J6) by done.
  clearbody w1. clear K1 K2 K3 K4 K5 Hr Hcu Hd Htr Hb Hcn w.
  cbn [restart_loop]. wsteps. rewrite Hc1. destruct (decide (S k < length res)%nat) as [Hlt|Hge].
  - rewrite bool_decide_eq_false_2 by (intros Hn; apply (f_equal length) in Hn; rewrite length_drop in Hn; cbn in Hn; lia).
    wsteps. eapply (wp_try_at before res (S k)); [apply reporterr_ok|done|done|done|done|done|done|done|done|done|].
    intros w' Hat. wsteps. by apply Hq1.
  - rewrite drop_ge, bool_decide_eq_true_2 by (done || lia). wsteps.
    apply (wp_free_last p); [done|done|]. intros h Hh. wsteps. apply wp_drop_dns; [done|cbn; congruence|]. wsteps.
    apply (reporterr_ok p sys asserts unsafe d); [done|done|done|done|]. intros w' He. apply Hq2; [lia| |].
    + by eapply ended_over.
    + destruct He as (_ & _ & _ & Et). rewrite Et. cbn. by rewrite J6, take_ge by lia.
Qed.

(** After a failure the next address is tried; after the last it is over. *)
Lemma wp_fail before res k msg (Q : () → world C → Prop) w :
  persistent → setup_ok p sys asserts → reachable_hosts res → (k < length res)%nat → at_address before res k w →
  ((S k < length res)%nat → ∀ w', at_address before res (S k) w' → Q tt w') →
  (S k = length res → ∀ w', over p w' → tried w' = before ++ res → Q tt w') →
  wp (eventcb p sys asserts unsafe depth BEV_EVENT_ERROR None msg) Q w.
Proof.
  intros Hp Hset Hres Hk Hat Hq1 Hq2. pose proof Hat as [Hi Hr Hcu Htr Hb Hcn].
  destruct (Hp msg (head (dns_curr (tu w))) (cl w) (inv_cl _ _ Hi)) as (c & E & Hc).
  unfold eventcb. wsteps. rewrite Hcn. cbv [depth].
  change (negb (Z.land BEV_EVENT_ERROR BEV_EVENT_ERROR =? 0) && true) with true. cbv iota.
  eapply wp_rep_restart; [exact E|]. eapply wp_restart_at; [done|done|exact Hk| |done|done].
  destruct Hi as [K1 K2 K3 K4 K5]. split; try done.
Qed.

(** The failures [msgs], one after the other. *)
Fixpoint failures (msgs : list (list Z)) : M (world C) unit :=
  match msgs with
  | [] => mret tt
  | msg :: msgs => eventcb p sys asserts unsafe depth BEV_EVENT_ERROR None msg;; failures msgs
  end.

Lemma wp_failures before res msgs : ∀ k w,
  persistent → setup_ok p sys asserts → reachable_hosts res → (k + length msgs ≤ length res)%nat → (k < length res)%nat →
  at_address before res k w →
  wp (failures msgs)
    (λ _ w', if decide (k + length msgs < length res)%nat then at_address before res (k + length msgs) w'
             else over p w' ∧ tried w' = before ++ res) w.
Proof.
  induction msgs as [|msg msgs IH]; intros k w Hp Hset Hres Hle Hk Hat; cbn [failures length].
  - wsteps. rewrite Nat.add_0_r. by rewrite decide_True.
  - cbn [length] in Hle. wsteps. eapply (wp_fail before res k); [done|done|done|done|done| |].
    + intros Hlt w' Hat'. replace (k + S (length msgs))%nat with (S k + length msgs)%nat by lia.
      apply IH; try done. lia.
    + intros Hlast w' Ho Ht. destruct msgs; [|cbn in Hle; lia]. cbn [failures length]. wsteps.
      rewrite decide_False by lia. done.
Qed.

(** A client that does not give up has the addresses of a name tried one after
    the other, in the order of the resolver's answer and each once; when the
    last one failed as well it is told so and everything was given back.
    (Provided that every address is allowed and [connect] does not fail at
    once.) *)
Theorem tcp_addresses_in_order res msgs now w :
  persistent → setup_ok p sys asserts → reachable_hosts res → res ≠ [] → (length msgs ≤ length res)%nat →
  life p w → dnsip (tu w) = true → sane_time now →
  ∃ w', (dns_cb p sys asserts unsafe depth None res now;; failures msgs) w = Done (tt, w') ∧
    tried w' = tried w ++ take (S (length msgs)) res ∧
    if decide (length msgs < length res)%nat
    then dns_curr (tu w') = drop (length msgs) res ∧ is_Some (bev (tu w')) ∧ connecting (tu w') = true
    else clean p w'.
Proof.
  intros Hp Hset Hres Hne Hle [Hi Hd Hs] Hdn Hnow.
  assert (wp (dns_cb p sys asserts unsafe depth None res now;; failures msgs)
    (λ _ w', if decide (0 + length msgs < length res)%nat then at_address (tried w) res (0 + length msgs) w'
             else over p w' ∧ tried w' = tried w ++ res) w) as Hw.
  { assert (0 < length res)%nat by (destruct res; [done|cbn; lia]).
    apply wp_bind. apply (wp_mono _ (λ _ w', at_address (tried w) res 0 w')); [|intros [] w' Hat; by apply wp_failures].
    destruct (Hd Hdn) as (D1 & D2 & D3). destruct (elapsed_sane now _ Hnow Hs) as [rtt Ertt].
    destruct Hi as [K1 K2 K3 K4 K5]. unfold dns_cb. wsteps. rewrite Hdn. cbn [negb]. wsteps.
    eapply wp_lift; [exact Ertt|]. wsteps. rewrite bool_decide_eq_false_2 by done. wsteps.
    destruct (pol_reportcount (zlen res) (cl w) K4) as (c & Ec & Hc).
    eapply wp_simple_callback; [exact Ec|]. wsteps. cbn [dns_curr set_dns_curr dns_loop]. wsteps.
    cbn [dns_curr set_dns_curr]. rewrite bool_decide_eq_false_2 by done. wsteps.
    eapply (wp_try_at (tried w) res 0); [apply reporterr_ok|done|done|done|done|done|done|done|done| |].
    - cbn. by rewrite app_nil_r.
    - intros w' Hat. by wsteps. }
  apply wp_run in Hw as ([] & w' & E & Hw). exists w'. split; [done|]. cbn [Nat.add] in Hw.
  destruct (decide _) as [Hlt|Hge].
  - destruct Hw as [_ A1 A2 A3 A4 A5]. done.
  - destruct Hw as [(Ho & _) Ht]. split; [|done]. by rewrite Ht, take_ge by lia.
Qed.
End Order.
