(* ===== verification/Http1.v ===== *)
(** * HTTP measurements ([eperd/httpget.c])

    A measurement fetches a URL over HTTP/1.  [parse_url] splits the URL;
    [writecb] writes the request, [readcb] is the state machine that reads the
    response in pieces of any size through a line buffer of 2048 bytes;
    [report] prints the result.  The operations are functions on [hgstate] in
    the state monad of outcomes.  What belongs to the connection ([bev]) is its
    input, as a list of bytes not read yet, and its output.  What the state asks
    of [tcputil.c], and the lines printed, are recorded as [action]s.

    The model is of live measurements: [response_in] and [response_out], which
    replay and record packets, are [NULL].  Times enter as the texts that
    [printf("%f")] gives for them. *)

From stdpp Require Import base list list_numbers numbers option strings.
From Stdlib Require Import ZArith Lia.
From S2P Require Import Prelude Bits Blocks Cstr Tcp.

Open Scope Z_scope.

Definition MAX_LINE_LEN : Z := 2048.
Definition POST_BUF_SIZE : nat := 2048.

(** ** URLs *)

Record url := URL { u_host : list Z; u_port : list Z; u_hostport : list Z; u_path : list Z; u_tls : bool }.

Definition slash : Z := 47.
Definition colon : Z := 58.

(** The host and what is behind it in [hostport]; [None] is [goto fail]. *)
Definition split_host (hostport : list Z) : option (list Z * list Z) :=
  let bracket := bool_decide (head hostport = Some 91) in
  np ← (if bracket then
          '(before, np) ← split_at 93 hostport;
          if (length before =? 1)%nat then None else Some (length before)
        else Some 0%nat);
  let '(host, rest) :=
    match split_at colon (drop np hostport) with
    | Some (before, rest) => (take np hostport ++ before, rest)
    | None => (hostport, [])
    end in
  if bool_decide (host = []) then None
  else Some (if bracket then take (length host - 2) (drop 1 host) else host, rest).

(** [parse_url], built with or without HTTPS; [None] for a result of 0. *)
Definition parse_url (https : bool) (u : list Z) : option url :=
  '(len, do_tls) ←
    (if prefix_nocase (str "http://") u then Some (7%nat, false)
     else if https && prefix_nocase (str "https://") u then Some (8%nat, true)
     else None);
  let cp := drop len u in
  let '(hostport, np) := match split_at slash cp with Some hp => hp | None => (cp, []) end in
  if bool_decide (hostport = []) then None
  else
    let path := if bool_decide (np = []) then str "/" else np in
    '(host, rest) ← split_host hostport;
    let port := match rest with
                | [] => if do_tls : bool then str "443" else str "80"
                | _ :: port => port
                end in
    Some (URL host port hostport path do_tls).

(** ** State *)

Inductive readstate_t :=
| READ_FIRST | READ_STATUS | READ_HEADER | READ_BODY | READ_SIMPLE
| READ_CHUNKED | READ_CHUNK_BODY | READ_CHUNK_END | READ_CHUNKED_TRAILER | READ_DONE.
Inductive writestate_t :=
| WRITE_FIRST | WRITE_HEADER | WRITE_POST_HEADER | WRITE_POST_FILE | WRITE_POST_FOOTER | WRITE_DONE.

#[export] Instance readstate_eq_dec : EqDecision readstate_t.
Proof. solve_decision. Defined.
#[export] Instance writestate_eq_dec : EqDecision writestate_t.
Proof. solve_decision. Defined.

(** A line of output; [tu_connect_to_name]; [tu_restart_connect]; [tu_cleanup]
    and the [done] callback. *)
Inductive action := Output (text : list Z) | Connect | Restart | Cleanup.

(** The parameters of a measurement; a file name stands for the name in [files]. *)
Record params := P {
  atlas : option (list Z); bundle : option (list Z);
  do_all : bool; do_combine : bool; do_get : bool; do_head : bool; do_post : bool; do_http10 : bool;
  user_agent : list Z; hostport : list Z; path : list Z;
  post_header : option (list Z); post_file : option (list Z); post_footer : option (list Z);
  max_headers : Z; max_body : Z; etim : Z; read_limit : Z
}.

(** What the machine says: version, state of the clock, addresses and times. *)
Record env := ENV {
  version_str : list Z; timesync : Z; gstart : Z; start_sec : Z; host_is_literal : bool; tu_ttr : list Z;
  af_inet6 : bool; dst_addr : option (list Z); src_addr : list Z;
  resptime : list Z; ttr : list Z; ttc : list Z; ttfb : list Z; now : list Z
}.

(** [struct hgstate]: the line buffer with what is read from the connection
    ([bev]), what is known of the response, the results, the request. *)
Record linebuf := LN {
  line : option (blk Z);
  linemax : Z;
  linelen : Z;
  lineoffset : Z;
  roffset : Z;
  report_roffset : bool;
  bev : option (list Z)
}.
Record response := RP {
  readstate : readstate_t;
  http_result : Z;
  res_major : Z;
  res_minor : Z;
  headers_size : Z;
  tot_headers : Z;
  chunked : bool;
  tot_chunked : Z;
  content_length : Z;
  content_offset : Z;
  read_truncated : bool
}.
Record results := RS {
  busy : bool;
  connecting : bool;
  dnserr : bool;
  subid : Z;
  submax : Z;
  result : list Z;
  result2 : list Z;
  acts : list action;
  in_table : bool
}.
Record writer := WR {
  writestate : writestate_t;
  in_writecb : bool;
  post_fh : option (list Z);
  output : list Z
}.
Record hgstate := HG { ln : linebuf; rp : response; rs : results; wr : writer }.

Definition set_line (v : option (blk Z)) (s : hgstate) : hgstate :=
  HG (let r := ln s in LN v (linemax r) (linelen r) (lineoffset r) (roffset r) (report_roffset r) (bev r)) (rp s) (rs s) (wr s).
Definition set_linemax (v : Z) (s : hgstate) : hgstate :=
  HG (let r := ln s in LN (line r) v (linelen r) (lineoffset r) (roffset r) (report_roffset r) (bev r)) (rp s) (rs s) (wr s).
Definition set_linelen (v : Z) (s : hgstate) : hgstate :=
  HG (let r := ln s in LN (line r) (linemax r) v (lineoffset r) (roffset r) (report_roffset r) (bev r)) (rp s) (rs s) (wr s).
Definition set_lineoffset (v : Z) (s : hgstate) : hgstate :=
  HG (let r := ln s in LN (line r) (linemax r) (linelen r) v (roffset r) (report_roffset r) (bev r)) (rp s) (rs s) (wr s).
Definition set_roffset (v : Z) (s : hgstate) : hgstate :=
  HG (let r := ln s in LN (line r) (linemax r) (linelen r) (lineoffset r) v (report_roffset r) (bev r)) (rp s) (rs s) (wr s).
Definition set_report_roffset (v : bool) (s : hgstate) : hgstate :=
  HG (let r := ln s in LN (line r) (linemax r) (linelen r) (lineoffset r) (roffset r) v (bev r)) (rp s) (rs s) (wr s).
Definition set_bev (v : option (list Z)) (s : hgstate) : hgstate :=
  HG (let r := ln s in LN (line r) (linemax r) (linelen r) (lineoffset r) (roffset r) (report_roffset r) v) (rp s) (rs s) (wr s).
Definition set_readstate (v : readstate_t) (s : hgstate) : hgstate :=
  HG (ln s) (let r := rp s in RP v (http_result r) (res_major r) (res_minor r) (headers_size r) (tot_headers r) (chunked r) (tot_chunked r) (content_length r) (content_offset r) (read_truncated r)) (rs s) (wr s).
Definition set_http_result (v : Z) (s : hgstate) : hgstate :=
  HG (ln s) (let r := rp s in RP (readstate r) v (res_major r) (res_minor r) (headers_size r) (tot_headers r) (chunked r) (tot_chunked r) (content_length r) (content_offset r) (read_truncated r)) (rs s) (wr s).
Definition set_res_major (v : Z) (s : hgstate) : hgstate :=
  HG (ln s) (let r := rp s in RP (readstate r) (http_result r) v (res_minor r) (headers_size r) (tot_headers r) (chunked r) (tot_chunked r) (content_length r) (content_offset r) (read_truncated r)) (rs s) (wr s).
Definition set_res_minor (v : Z) (s : hgstate) : hgstate :=
  HG (ln s) (let r := rp s in RP (readstate r) (http_result r) (res_major r) v (headers_size r) (tot_headers r) (chunked r) (tot_chunked r) (content_length r) (content_offset r) (read_truncated r)) (rs s) (wr s).
Definition set_headers_size (v : Z) (s : hgstate) : hgstate :=
  HG (ln s) (let r := rp s in RP (readstate r) (http_result r) (res_major r) (res_minor r) v (tot_headers r) (chunked r) (tot_chunked r) (content_length r) (content_offset r) (read_truncated r)) (rs s) (wr s).
Definition set_tot_headers (v : Z) (s : hgstate) : hgstate :=
  HG (ln s) (let r := rp s in RP (readstate r) (http_result r) (res_major r) (res_minor r) (headers_size r) v (chunked r) (tot_chunked r) (content_length r) (content_offset r) (read_truncated r)) (rs s) (wr s).
Definition set_chunked (v : bool) (s : hgstate) : hgstate :=
  HG (ln s) (let r := rp s in RP (readstate r) (http_result r) (res_major r) (res_minor r) (headers_size r) (tot_headers r) v (tot_chunked r) (content_length r) (content_offset r) (read_truncated r)) (rs s) (wr s).
Definition set_tot_chunked (v : Z) (s : hgstate) : hgstate :=
  HG (ln s) (let r := rp s in RP (readstate r) (http_result r) (res_major r) (res_minor r) (headers_size r) (tot_headers r) (chunked r) v (content_length r) (content_offset r) (read_truncated r)) (rs s) (wr s).
Definition set_content_length (v : Z) (s : hgstate) : hgstate :=
  HG (ln s) (let r := rp s in RP (readstate r) (http_result r) (res_major r) (res_minor r) (headers_size r) (tot_headers r) (chunked r) (tot_chunked r) v (content_offset r) (read_truncated r)) (rs s) (wr s).
Definition set_content_offset (v : Z) (s : hgstate) : hgstate :=
  HG (ln s) (let r := rp s in RP (readstate r) (http_result r) (res_major r) (res_minor r) (headers_size r) (tot_headers r) (chunked r) (tot_chunked r) (content_length r) v (read_truncated r)) (rs s) (wr s).
Definition set_read_truncated (v : bool) (s : hgstate) : hgstate :=
  HG (ln s) (let r := rp s in RP (readstate r) (http_result r) (res_major r) (res_minor r) (headers_size r) (tot_headers r) (chunked r) (tot_chunked r) (content_length r) (content_offset r) v) (rs s) (wr s).
Definition set_busy (v : bool) (s : hgstate) : hgstate :=
  HG (ln s) (rp s) (let r := rs s in RS v (connecting r) (dnserr r) (subid r) (submax r) (result r) (result2 r) (acts r) (in_table r)) (wr s).
Definition set_connecting (v : bool) (s : hgstate) : hgstate :=
  HG (ln s) (rp s) (let r := rs s in RS (busy r) v (dnserr r) (subid r) (submax r) (result r) (result2 r) (acts r) (in_table r)) (wr s).
Definition set_dnserr (v : bool) (s : hgstate) : hgstate :=
  HG (ln s) (rp s) (let r := rs s in RS (busy r) (connecting r) v (subid r) (submax r) (result r) (result2 r) (acts r) (in_table r)) (wr s).
Definition set_subid (v : Z) (s : hgstate) : hgstate :=
  HG (ln s) (rp s) (let r := rs s in RS (busy r) (connecting r) (dnserr r) v (submax r) (result r) (result2 r) (acts r) (in_table r)) (wr s).
Definition set_submax (v : Z) (s : hgstate) : hgstate :=
  HG (ln s) (rp s) (let r := rs s in RS (busy r) (connecting r) (dnserr r) (subid r) v (result r) (result2 r) (acts r) (in_table r)) (wr s).
Definition set_result (v : list Z) (s : hgstate) : hgstate :=
  HG (ln s) (rp s) (let r := rs s in RS (busy r) (connecting r) (dnserr r) (subid r) (submax r) v (result2 r) (acts r) (in_table r)) (wr s).
Definition set_result2 (v : list Z) (s : hgstate) : hgstate :=
  HG (ln s) (rp s) (let r := rs s in RS (busy r) (connecting r) (dnserr r) (subid r) (submax r) (result r) v (acts r) (in_table r)) (wr s).
Definition set_acts (v : list action) (s : hgstate) : hgstate :=
  HG (ln s) (rp s) (let r := rs s in RS (busy r) (connecting r) (dnserr r) (subid r) (submax r) (result r) (result2 r) v (in_table r)) (wr s).
Definition set_in_table (v : bool) (s : hgstate) : hgstate :=
  HG (ln s) (rp s) (let r := rs s in RS (busy r) (connecting r) (dnserr r) (subid r) (submax r) (result r) (result2 r) (acts r) v) (wr s).
Definition set_writestate (v : writestate_t) (s : hgstate) : hgstate :=
  HG (ln s) (rp s) (rs s) (let r := wr s in WR v (in_writecb r) (post_fh r) (output r)).
Definition set_in_writecb (v : bool) (s : hgstate) : hgstate :=
  HG (ln s) (rp s) (rs s) (let r := wr s in WR (writestate r) v (post_fh r) (output r)).
Definition set_post_fh (v : option (list Z)) (s : hgstate) : hgstate :=
  HG (ln s) (rp s) (rs s) (let r := wr s in WR (writestate r) (in_writecb r) v (output r)).
Definition set_output (v : list Z) (s : hgstate) : hgstate :=
  HG (ln s) (rp s) (rs s) (let r := wr s in WR (writestate r) (in_writecb r) (post_fh r) v).

Abbreviation H := (M hgstate).

(** ** Results *)

Definition add_str (text : list Z) : H unit := modify (λ s, set_result (result (rs s) ++ text) s).
Definition add_str_quoted (text : list Z) : H unit := add_str (mjoin (quoted <$> text)).
Definition add_str2 (text : list Z) : H unit := modify (λ s, set_result2 (result2 (rs s) ++ text) s).
Definition act (a : action) : H unit := modify (λ s, set_acts (acts (rs s) ++ [a]) s).

Section Http.
Context (p : params) (e : env) (files : list Z → option (list Z)).

(** The beginning of the line of output. *)
Definition report_head : list Z :=
  str "RESULT { " ++
  match atlas p with
  | None => []
  | Some a =>
      DBQ "id" ++ str ":" ++ quote ++ a ++ quote ++ str ", " ++ version_str e ++ str ", " ++
      DBQ "lts" ++ str ":" ++ print_int (timesync e) ++ str ", " ++
      DBQ "time" ++ str ":" ++ print_dec (gstart e) ++ str ", " ++
      match bundle p with Some b => DBQ "bundle" ++ str ":" ++ b ++ str ", " | None => [] end ++
      (if host_is_literal e then [] else DBQ "ttr" ++ str ":" ++ tu_ttr e ++ str ", ")
  end ++ DBQ "result" ++ str ":[ ".

Definition report_sub (s : hgstate) : list Z :=
  if do_all p && negb (dnserr (rs s)) then
    take 159 (if do_combine p then DBQ "time" ++ str ":" ++ print_dec (start_sec e) ++ str ", "
              else DBQ "subid" ++ str ":" ++ print_int (subid (rs s)) ++ str ", " ++
                   DBQ "submax" ++ str ":" ++ print_int (submax (rs s)) ++ str ", ")
  else [].

Definition report_method (s : hgstate) : list Z :=
  if negb (dnserr (rs s)) then
    take 159 (DBQ "method" ++ str ":" ++ quote ++
              str (if do_get p then "GET" else if do_head p then "HEAD" else "POST") ++ quote ++ str ", " ++
              DBQ "af" ++ str ": " ++ str (if af_inet6 e then "6" else "4")) ++
    (if read_truncated (rp s) then str ", " ++ DBQ "read-truncated" ++ str ": true" else []) ++
    match dst_addr e with
    | Some a => take 159 (str ", " ++ DBQ "dst_addr" ++ str ":" ++ quote ++ a ++ quote)
    | None => []
    end
  else [].

Definition report_source (s : hgstate) : list Z :=
  if negb (connecting (rs s)) && negb (dnserr (rs s)) then
    take 159 (str ", " ++ DBQ "src_addr" ++ str ":" ++ quote ++ src_addr e ++ quote)
  else [].

Definition report_done (s : hgstate) : list Z :=
  if bool_decide (readstate (rp s) = READ_DONE) then
    take 159 (str ", " ++ DBQ "rt" ++ str ":" ++ resptime e ++
              str ", " ++ DBQ "res" ++ str ":" ++ print_int (http_result (rp s)) ++
              str ", " ++ DBQ "ver" ++ str ":" ++ quote ++ print_int (res_major (rp s)) ++ str "." ++
                print_int (res_minor (rp s)) ++ quote ++
              str ", " ++ DBQ "hsize" ++ str ":" ++ print_int (headers_size (rp s)) ++
              str ", " ++ DBQ "bsize" ++ str ":" ++ print_int (content_offset (rp s))) ++
    (if 1 <=? etim p then
       take 159 (str ", " ++ DBQ "ttr" ++ str ":" ++ ttr e ++ str ", " ++ DBQ "ttc" ++ str ":" ++ ttc e ++
                 str ", " ++ DBQ "ttfb" ++ str ":" ++ ttfb e)
     else [])
  else [].

Definition do_output (s : hgstate) : bool :=
  negb (do_all p && do_combine p && (subid (rs s) <? submax (rs s))).

(** The result of this address is completed. *)
Definition report_result : H unit :=
  s ← get;
  add_str (report_sub s);;
  add_str (report_method s);;
  (if negb (dnserr (rs s)) && (2 <=? etim p) then
     add_str2 (str " ]");;
     s ← get;
     add_str (result2 (rs s));;
     modify (set_result2 [])
   else mret tt);;
  add_str (report_source s);;
  add_str (report_done s);;
  (if negb (dnserr (rs s)) then add_str (str " }") else mret tt);;
  add_str (str (if do_output s then " ]" else ", ")).

Definition report_output : H unit :=
  s ← get;
  if do_output s then
    act (Output (report_head ++ result (rs s) ++ str " }" ++ [10]));;
    modify (set_result [])
  else mret tt.

(** The next address, or the end. *)
Definition report_next : H unit :=
  s ← get;
  if do_all p && (subid (rs s) <? submax (rs s)) then act Restart
  else
    (if negb (linemax (ln s) =? 0) then modify (set_linemax 0);; modify (set_line None) else mret tt);;
    modify (set_bev None);;
    act Cleanup;;
    modify (set_busy false).

Definition report : H unit :=
  modify (λ s, set_subid (subid (rs s) + 1) s);;
  report_result;; report_output;; report_next.

(** [char line[80]] *)
Definition err_line (kind reason : string) : list Z :=
  take 79 (DBQ "err" ++ str ":" ++ quote ++ str kind ++ str reason ++ quote ++ str ", ").

Definition err_status (reason : string) : H unit :=
  add_str (err_line "bad status line: " reason);; report.
Definition err_header (reason : string) : H unit :=
  (if negb (max_headers p =? 0) then add_str (str " ], ") else mret tt);;
  add_str (err_line "bad header line: " reason);; report.
Definition err_chunked (reason : string) : H unit :=
  add_str (err_line "bad chunk line: " reason);; report.

(** ** Reading *)

(** The bytes from [lineoffset] to [linelen]. *)
Definition buffered : H (list Z) :=
  s ← get;
  let l := ln s in
  match line l with
  | Some b =>
      if linelen l <? lineoffset l then mcrash Undefined
      else lift (loadn b (Z.to_nat (lineoffset l)) (Z.to_nat (linelen l - lineoffset l)))
  | None => mcrash Undefined
  end.

(** The parts of [get_input]: the buffer is there, what was not used is at its
    front, and as much as fits is read. *)
Definition allocate : H unit :=
  s ← get;
  if linemax (ln s) =? 0 then
    match line (ln s) with
    | Some _ => mcrash Fatal
    | None =>
        modify (set_linemax MAX_LINE_LEN);;
        modify (set_line (Some (replicate (Z.to_nat MAX_LINE_LEN) None)))
    end
  else mret tt.

Definition compact : H unit :=
  s ← get;
  if negb (lineoffset (ln s) =? 0) then
    (if lineoffset (ln s) <? linelen (ln s) then
       rest ← buffered;
       b ← lift (match line (ln s) with Some b => store b 0 rest | None => Crash Undefined end);
       modify (set_line (Some b));;
       modify (set_linelen (linelen (ln s) - lineoffset (ln s)))
     else modify (set_linelen 0));;
    modify (set_lineoffset 0)
  else mret tt.

Definition receive : H bool :=
  s ← get;
  if linemax (ln s) <=? linelen (ln s) then mret false
  else
    (if (2 <=? etim p) && report_roffset (ln s) then
       (if negb (roffset (ln s) =? 0) then add_str2 (str ",") else mret tt);;
       add_str2 (str " { " ++ DBQ "o" ++ str ": " ++ print_int (roffset (ln s)) ++ str ", " ++
                 DBQ "t" ++ str ": " ++ now e ++ str " }");;
       modify (set_report_roffset false)
     else mret tt);;
    match bev (ln s), line (ln s) with
    | Some input, Some b =>
        let room := Z.to_nat (linemax (ln s) - linelen (ln s)) in
        let data := take room input in
        b ← lift (store b (Z.to_nat (linelen (ln s))) data);
        modify (set_line (Some b));;
        modify (set_bev (Some (drop room input)));;
        modify (set_linelen (linelen (ln s) + zlen data));;
        modify (set_roffset (s32 (roffset (ln s) + zlen data)));;
        mret true
    | _, _ => mcrash Undefined
    end.

(** [false] for -1: the buffer is full. *)
Definition get_input : H bool := allocate;; compact;; receive.

Definition nl : Z := 10.
Definition has_nl (l : list Z) : bool := existsb (Z.eqb nl) l.

(** [true] when a whole line is in the buffer. *)
Definition wait_line : H bool :=
  s ← get;
  ready ← (if linemax (ln s) =? 0 then mret false else d ← buffered; mret (has_nl d));
  if ready : bool then mret true
  else
    r ← get_input;
    if negb r then mret false
    else
      d ← buffered;
      if has_nl d then mret true
      else
        (if MAX_LINE_LEN <=? zlen d then
           add_str (DBQ "err" ++ str ":" ++ DBQ "line too long" ++ str ", ");; report
         else mret tt);;
        mret false.

Definition strip_cr (l : list Z) : list Z :=
  if bool_decide (last l = Some 13) then take (length l - 1) l else l.

(** The line at [lineoffset] without its end, and its length with it;
    [None] when it contains a NUL. *)
Definition take_line : H (option (list Z * Z)) :=
  d ← buffered;
  match split_at nl d with
  | None => mcrash Undefined
  | Some (l, _) =>
      if existsb (Z.eqb 0) l then mret None
      else
        modify (λ s, set_lineoffset (lineoffset (ln s) + (zlen l + 1)) s);;
        mret (Some (strip_cr l, zlen l + 1))
  end.

Inductive flow := Continue | Return.

Definition skip_spaces (s : list Z) : list Z := (span isspace s).2.

Definition s8 (z : Z) : Z := (z + 128) `mod` 256 - 128.

(** The version and the status code of the status line. *)
Definition parse_status (l : list Z) : string + (Z * Z * Z) :=
  if negb (prefix_nocase (str "http/") l) then inl "bad prefix"%string
  else
    match strtoul 10 (drop 5 l) with
    | Some (major, 46 :: cp) =>
        match strtoul 10 cp with
        | Some (minor, c :: check) =>
            if negb (isspace c) then inl "bad minor"%string
            else
              let cp := skip_spaces (c :: check) in
              if negb (isdigit (default 0 (head cp))) then inl "bad status code"%string
              else
                match strtoul 10 cp with
                | Some (code, _) => inr (s32 major, s32 minor, s32 code)
                | None => inl "bad status code"%string
                end
        | _ => inl "bad minor"%string
        end
    | _ => inl "bad major"%string
    end.

Definition read_status : H flow :=
  l ← take_line;
  match l with
  | None => err_status "contains nul";; mret Return
  | Some (l, _) =>
      match parse_status l with
      | inl reason => err_status reason;; mret Return
      | inr (major, minor, code) =>
          modify (set_http_result code);;
          modify (set_res_major (s8 major));;
          modify (set_res_minor (s8 minor));;
          modify (set_readstate READ_HEADER);;
          modify (set_content_length (-1));;
          (if negb (max_headers p =? 0) then add_str (DBQ "header" ++ str ": [") else mret tt);;
          mret Continue
      end
  end.

(** The header line is stored while there is room; a line that does not fit is
    cut, in the buffer too. *)
Definition store_header (l : list Z) : H (list Z) :=
  s ← get;
  let tot := tot_headers (rp s) in
  let len := zlen l in
  let comma := if negb (tot =? 0) then add_str (str ",") else mret tt in
  if u64 (tot + len + 1) <=? u64 (max_headers p) then
    comma;;
    add_str (str " " ++ quote);; add_str_quoted l;; add_str quote;;
    modify (set_tot_headers (s32 (tot + len)));;
    mret l
  else if (tot <=? max_headers p) && negb (max_headers p =? 0) then
    comma;;
    add_str (str " " ++ quote);;
    l ← (if tot <? max_headers p then
           let l := take (Z.to_nat (max_headers p - tot)) l in
           add_str_quoted l;; mret l
         else mret l);
    add_str (str "[...]" ++ quote);;
    modify (set_tot_headers (s32 (tot + (len + 1))));;
    mret l
  else mret l.

(** The value behind the name of a header. *)
Definition header_value (l : list Z) : option (list Z) :=
  let '(_, ncp) := span (λ c, negb (c =? colon) && negb (isspace c)) l in
  match skip_spaces ncp with
  | c :: cp => if c =? colon then Some (skip_spaces cp) else None
  | [] => None
  end.

Inductive header_t := Other | Chunked | Length (n : Z) | Malformed (set_length : option Z) (reason : string).

(** What the header line says about the body. *)
Definition parse_header (l : list Z) : header_t :=
  if bool_decide (skip_spaces l ≠ l) then Other
  else if prefix_nocase (str "Transfer-Encoding") l then
    match header_value l with
    | None => Malformed None "malformed transfer-encoding"
    | Some cp =>
        if negb (prefix_nocase (str "chunked") cp) then Other
        else if isspace (default 0 (cp !! 7%nat)) then Other
        else Chunked
    end
  else if prefix_nocase (str "Content-length") l then
    match header_value l with
    | None => Malformed None "malformed content-length"
    | Some cp =>
        match strtoul 10 cp with
        | None => Malformed (Some 0) "malformed content-length"
        | Some (n, check) =>
            if bool_decide (skip_spaces check = []) then Length (s32 n)
            else Malformed (Some (s32 n)) "malformed content-length"
        end
    end
  else Other.

Definition read_header : H flow :=
  l ← take_line;
  match l with
  | None => err_header "contains nul";; mret Return
  | Some (l, len) =>
      s ← get;
      if bool_decide (l = []) then
        (if (tot_headers (rp s) <=? max_headers p) && negb (max_headers p =? 0) then
           (if negb (tot_headers (rp s) =? 0) then add_str (str ",") else mret tt);;
           add_str (str " " ++ quote ++ quote)
         else mret tt);;
        (if negb (max_headers p =? 0) then add_str (str " ], ") else mret tt);;
        modify (set_readstate READ_BODY);;
        mret Continue
      else
        modify (set_headers_size (s32 (headers_size (rp s) + len)));;
        l ← store_header l;
        match parse_header l with
        | Other => mret Continue
        | Chunked => modify (set_chunked true);; mret Continue
        | Length n => modify (set_content_length n);; mret Continue
        | Malformed n reason =>
            match n with Some n => modify (set_content_length n) | None => mret tt end;;
            err_header reason;; mret Return
        end
  end.

Definition read_body : H flow :=
  s ← get;
  let code := http_result (rp s) in
  (if do_head p || (code =? 204) || (code =? 304) || (Z.quot code 100 =? 1) then modify (set_readstate READ_DONE)
   else if chunked (rp s) then
     modify (set_readstate READ_CHUNKED);; modify (set_content_offset 0);; modify (set_tot_chunked 0)
   else modify (set_readstate READ_SIMPLE);; modify (set_content_offset 0));;
  mret Continue.

Definition read_chunked : H flow :=
  l ← take_line;
  match l with
  | None => err_chunked "contains nul";; mret Return
  | Some (l, _) =>
      match strtoul 16 l with
      | Some (len, check) =>
          if match check with [] => false | c :: _ => negb (isspace c) end then
            err_chunked "not a number";; mret Return
          else if len =? 0 then modify (set_readstate READ_CHUNKED_TRAILER);; mret Continue
          else
            modify (λ s, set_tot_chunked (s32 (tot_chunked (rp s) + len)) s);;
            modify (set_readstate READ_CHUNK_BODY);;
            mret Continue
      | None => err_chunked "not a number";; mret Return
      end
  end.

(** More input when the buffer is used up; [false] when there is none. *)
Definition wait_data : H bool :=
  s ← get;
  if (linemax (ln s) =? 0) || (linelen (ln s) <=? lineoffset (ln s)) then
    r ← get_input;
    if negb r then mret false
    else s ← get; mret (lineoffset (ln s) <? linelen (ln s))
  else mret true.

(** How much of [len] bytes is used at once: no further than to [max_body]. *)
Definition clip_body (s : hgstate) (len : Z) : Z :=
  let off := content_offset (rp s) in
  if u64 (off + len) <=? u64 (max_body p) then len
  else if (off <=? max_body p) && negb (max_body p =? 0) then
    if off <? max_body p then u64 (max_body p - off) else len
  else len.

Definition use_data (len : Z) : H flow :=
  modify (λ s, set_content_offset (s32 (content_offset (rp s) + len)) s);;
  modify (λ s, set_lineoffset (lineoffset (ln s) + len) s);;
  mret Continue.

Definition read_chunk_body : H flow :=
  s ← get;
  if tot_chunked (rp s) <=? content_offset (rp s) then modify (set_readstate READ_CHUNK_END);; mret Continue
  else
    ok ← wait_data;
    if negb ok then mret Return
    else
      s ← get;
      let len := linelen (ln s) - lineoffset (ln s) in
      let len := if u64 (tot_chunked (rp s)) <? u64 (content_offset (rp s) + len)
                 then u64 (s32 (tot_chunked (rp s) - content_offset (rp s))) else len in
      use_data (clip_body s len).

Definition read_chunk_end : H flow :=
  l ← take_line;
  match l with
  | None => err_chunked "contains nul";; mret Return
  | Some (l, _) =>
      if negb (bool_decide (l = [])) then err_chunked "garbage at the end of chunk";; mret Return
      else modify (set_readstate READ_CHUNKED);; mret Continue
  end.

Definition read_trailer : H flow :=
  l ← take_line;
  match l with
  | None => err_chunked "contains nul";; mret Return
  | Some (l, _) =>
      (if bool_decide (l = []) then modify (set_readstate READ_DONE) else mret tt);; mret Continue
  end.

Definition read_simple : H flow :=
  s ← get;
  if (0 <=? content_length (rp s)) && (content_length (rp s) <=? content_offset (rp s)) then
    modify (set_readstate READ_DONE);; mret Continue
  else
    ok ← wait_data;
    if negb ok then mret Return
    else s ← get; use_data (clip_body s (linelen (ln s) - lineoffset (ln s))).

Definition read_done : H flow :=
  s ← get;
  (if bool_decide (bev (ln s) ≠ None) then modify (set_bev None);; report else mret tt);;
  mret Return.

Definition need_line (r : readstate_t) : bool :=
  match r with
  | READ_STATUS | READ_HEADER | READ_CHUNKED | READ_CHUNK_END | READ_CHUNKED_TRAILER => true
  | _ => false
  end.

(** [read_limit]: [true] when the measurement was reported as truncated. *)
Definition check_limit : H bool :=
  s ← get;
  if (0 <? read_limit p) && (read_limit p <=? u64 (roffset (ln s))) then
    modify (set_read_truncated true);;
    match readstate (rp s) with
    | READ_FIRST | READ_STATUS => err_status "read truncated";; mret true
    | READ_HEADER => err_header "read truncated";; mret true
    | _ => modify (set_readstate READ_DONE);; mret false
    end
  else mret false.

Definition read_first : H flow :=
  modify (set_readstate READ_STATUS);;
  modify (set_roffset 0);;
  (if 2 <=? etim p then add_str2 (str ", " ++ DBQ "readtiming" ++ str ": [") else mret tt);;
  mret Continue.

(** The second [switch]. *)
Definition read_dispatch (r : readstate_t) : H flow :=
  match r with
  | READ_FIRST => read_first
  | READ_STATUS => read_status
  | READ_HEADER => read_header
  | READ_BODY => read_body
  | READ_SIMPLE => read_simple
  | READ_CHUNKED => read_chunked
  | READ_CHUNK_BODY => read_chunk_body
  | READ_CHUNK_END => read_chunk_end
  | READ_CHUNKED_TRAILER => read_trailer
  | READ_DONE => read_done
  end.

(** One round of the loop. *)
Definition read_step : H flow :=
  stop ← check_limit;
  if stop : bool then mret Return
  else
    s ← get;
    ok ← (if need_line (readstate (rp s)) then wait_line else mret true);
    if negb ok then mret Return else read_dispatch (readstate (rp s)).

Fixpoint read_loop (fuel : nat) : H unit :=
  match fuel with
  | O => mcrash OutOfFuel
  | S fuel' =>
      f ← read_step;
      match f with Continue => read_loop fuel' | Return => mret tt end
  end.

(** Every third round at the latest uses a byte. *)
Definition readcb : H unit :=
  s ← get;
  modify (set_report_roffset true);;
  read_loop (4 + 3 * (Z.to_nat (linelen (ln s)) + length (default [] (bev (ln s))))).

(** ** The connection *)

Definition err_text (text : string) : list Z := DBQ "err" ++ str ":" ++ DBQ text ++ str ", ".

(** The timer of the connection. *)
Definition timeout_callback : H unit :=
  s ← get;
  if connecting (rs s) then
    add_str (err_text "connect: timeout");;
    if do_all p then report else act Restart
  else
    match readstate (rp s) with
    | READ_FIRST | READ_STATUS => add_str (err_text "timeout reading status");; report
    | READ_HEADER =>
        (if negb (max_headers p =? 0) then add_str (str " ], ") else mret tt);;
        add_str (str ", " ++ DBQ "err" ++ str ":" ++ DBQ "timeout reading headers");; report
    | READ_SIMPLE => add_str (err_text "timeout reading body");; report
    | READ_CHUNKED | READ_CHUNK_BODY =>
        add_str (take 255 (DBQ "err" ++ str ":" ++ quote ++ str "timeout reading chunk: state " ++
          str (if bool_decide (readstate (rp s) = READ_CHUNKED) then "5" else "6") ++
          str " linelen " ++ print_int (linelen (ln s)) ++
          str " lineoffset " ++ print_int (lineoffset (ln s)) ++ quote ++ str ", "));;
        report
    | _ => mret tt
    end.

(** The connection was closed or failed. *)
Definition err_reading : H unit :=
  s ← get;
  match readstate (rp s) with
  | READ_STATUS => add_str (str ", " ++ DBQ "err" ++ str ":" ++ DBQ "error reading status");; report
  | READ_HEADER =>
      (if negb (max_headers p =? 0) then add_str (str " ], ") else mret tt);;
      add_str (err_text "error reading headers");; report
  | READ_SIMPLE =>
      (if content_length (rp s) =? -1 then modify (set_readstate READ_DONE)
       else add_str (err_text "error reading body"));;
      report
  | _ => mret tt
  end.

Definition dnscount (count : Z) : H unit :=
  modify (set_subid 0);; modify (set_submax count).

(** Before each attempt to connect. *)
Definition beforeconnect : H unit :=
  modify (set_connecting true);;
  modify (set_in_writecb false);;
  modify (set_readstate READ_FIRST);;
  modify (set_writestate WRITE_FIRST);;
  modify (set_linelen 0);;
  modify (set_lineoffset 0);;
  modify (set_headers_size 0);;
  modify (set_tot_headers 0);;
  modify (set_roffset 0);;
  modify (set_read_truncated false);;
  (if negb (do_all p) || negb (do_combine p) then modify (set_result []) else mret tt);;
  add_str (str "{ ").

(** The causes [httpget] handles; [msg] is the text of the error. *)

Definition reporterr (cause : tu_err) (msg : list Z) : H unit :=
  match cause with
  | TU_DNS_ERR =>
      add_str (take 159 (str "{ " ++ DBQ "dnserr" ++ str ":" ++ quote ++ msg ++ quote ++ str " }"));;
      modify (set_dnserr true);; report
  | TU_READ_ERR => err_reading
  | TU_SOCKET_ERR =>
      add_str (take 159 (str "{ " ++ DBQ "sockerr" ++ str ":" ++ quote ++ msg ++ quote ++ str ", "));; report
  | TU_CONNECT_ERR =>
      add_str (take 159 (DBQ "err" ++ str ":" ++ quote ++ str "connect: " ++ msg ++ quote ++ str ", "));;
      if do_all p then report else act Restart
  | TU_OUT_OF_ADDRS => report
  | TU_BAD_ADDR =>
      add_str (str "{ " ++ DBQ "error" ++ str ": " ++ DBQ "address not allowed");;
      add_str (take 159 (str ", " ++ DBQ "dst_addr" ++ str ":" ++ quote ++ default [] (dst_addr e) ++ quote ++ str " }"));;
      modify (set_dnserr true);; report
  | _ => mcrash Fatal
  end.

Definition connected : H unit :=
  modify (set_connecting false);; modify (set_bev (Some [])).

Definition httpget_start : H unit :=
  s ← get;
  if busy (rs s) then mret tt
  else
    modify (set_busy true);;
    modify (set_dnserr false);;
    modify (set_connecting false);;
    modify (set_readstate READ_STATUS);;
    modify (set_writestate WRITE_HEADER);;
    act Connect.

(** [httpget_delete]: whether the state was freed and its place in the table
    given up. *)
Definition httpget_delete : H bool :=
  s ← get;
  if busy (rs s) then mret false
  else
    match line (ln s) with
    | Some _ => mcrash Fatal
    | None => if negb (in_table (rs s)) then mcrash Fatal else modify (set_in_table false);; mret true
    end.

(** ** The request *)

Definition http_crlf : list Z := [13; 10].
Definition request_head : list Z :=
  str (if do_get p then "GET" else if do_head p then "HEAD" else "POST") ++ str " " ++ path p ++
  str " HTTP/1." ++ str (if do_http10 p then "0" else "1") ++ http_crlf ++
  str "Host: " ++ hostport p ++ http_crlf ++ str "Connection: close" ++ http_crlf ++
  str "User-Agent: " ++ user_agent p ++ http_crlf.

Definition request : list Z :=
  let size (f : option (list Z)) := match f with Some n => zlen (default [] (files n)) | None => 0 end in
  request_head ++
  (if do_post p then
     str "Content-Type: application/x-www-form-urlencoded" ++ http_crlf ++
     str "Content-Length: " ++ print_dec (size (post_header p) + size (post_file p) + size (post_footer p)) ++ http_crlf
   else []) ++ http_crlf.

Definition send (data : list Z) : H unit := modify (λ s, set_output (output (wr s) ++ data) s).

(** [post_file]: [true] when the file is at its end. *)
Definition do_post_file (name : list Z) : H bool :=
  s ← get;
  match (match post_fh (wr s) with Some fh => Some fh | None => files name end) with
  | None => mret false
  | Some fh =>
      let data := take POST_BUF_SIZE fh in
      if bool_decide (data = []) then modify (set_post_fh None);; mret true
      else modify (set_post_fh (Some (drop POST_BUF_SIZE fh)));; send data;; mret false
  end.

(** One of the three files: [Continue] when it is done or there is none. *)
Definition post_part (file : option (list Z)) (next : writestate_t) : H flow :=
  match file with
  | None => modify (set_writestate next);; mret Continue
  | Some name =>
      ok ← do_post_file name;
      if ok : bool then modify (set_writestate next);; mret Continue else mret Return
  end.

Definition write_step : H flow :=
  s ← get;
  match writestate (wr s) with
  | WRITE_FIRST => modify (set_writestate WRITE_HEADER);; mret Continue
  | WRITE_HEADER =>
      send request;;
      modify (set_writestate (if do_post p then WRITE_POST_HEADER else WRITE_DONE));;
      mret Return
  | WRITE_POST_HEADER => post_part (post_header p) WRITE_POST_FILE
  | WRITE_POST_FILE => post_part (post_file p) WRITE_POST_FOOTER
  | WRITE_POST_FOOTER => post_part (post_footer p) WRITE_DONE
  | WRITE_DONE => mret Return
  end.

Fixpoint write_loop (fuel : nat) : H unit :=
  match fuel with
  | O => mcrash OutOfFuel
  | S fuel' =>
      f ← write_step;
      match f with Continue => write_loop fuel' | Return => mret tt end
  end.

(** There are six states. *)
Definition writecb : H unit :=
  s ← get;
  if in_writecb (wr s) then mret tt
  else
    modify (set_in_writecb true);;
    write_loop 6;;
    modify (set_in_writecb false).
End Http.
