(* ===== verification/Http1Proofs.v ===== *)
(** * Correctness of the HTTP measurements

    The line buffer seen as the list of bytes that were received and not used;
    what each part of [readcb] does to it; [readcb] always returns; a response
    that arrives in pieces of any size is read to its end and reported once;
    URLs, quoted header lines and requests. *)

From stdpp Require Import base list list_numbers numbers option strings.
From Stdlib Require Import ZArith Lia.
From S2P Require Import Prelude Bits Blocks Cstr Http1.

Open Scope Z_scope.

(** ** The line buffer *)

(** [view s data input]: [data] is in the buffer and not used yet, [input] is
    still to be read from the connection. *)
Definition line_view (l : linebuf) (data : list Z) : Prop :=
  (linemax l = 0 ∧ line l = None ∧ linelen l = 0 ∧ lineoffset l = 0 ∧ data = []) ∨
  (linemax l = MAX_LINE_LEN ∧
   ∃ pre tl, line l = Some ((Some <$> (pre ++ data)) ++ tl) ∧
     (length pre + length data + length tl)%nat = 2048%nat ∧
     lineoffset l = zlen pre ∧ linelen l = zlen pre + zlen data).
Definition view (s : hgstate) (data input : list Z) : Prop := line_view (ln s) data ∧ bev (ln s) = Some input.

(** Only the line buffer and [result2] differ. *)
Definition frame (s s' : hgstate) : Prop :=
  rp s' = rp s ∧ wr s' = wr s ∧ rs (set_result2 [] s') = rs (set_result2 [] s).

#[export] Instance frame_preorder : PreOrder frame.
Proof.
  split; [by intros s|]. intros s1 s2 s3 (H1 & H2 & H3) (K1 & K2 & K3). unfold frame.
  rewrite K1, K2, K3. done.
Qed.

Section Buffer.
Context (p : params) (e : env).

Lemma buffered_view s data input :
  view s data input → linemax (ln s) ≠ 0 → buffered s = Done (data, s).
Proof.
  intros [[(E & _)|(_ & pre & tl & E1 & E2 & E3 & E4)] _] Hn; [done|].
  unfold buffered. msimpl. rewrite E1, E3, E4.
  pose proof (zlen_nonneg data). destruct (Z.ltb_spec (zlen pre + zlen data) (zlen pre)); [lia|].
  unfold zlen. replace (Z.to_nat (Z.of_nat (length pre) + Z.of_nat (length data) - Z.of_nat (length pre))) with (length data) by lia.
  rewrite Nat2Z.id, loadn_slice by (rewrite length_app; lia). rewrite drop_app_length, take_ge by lia. done.
Qed.

(** The first half of [get_input]: the buffer exists and starts with the data. *)
Definition compacted (l : linebuf) (data : list Z) : Prop :=
  linemax l = MAX_LINE_LEN ∧ lineoffset l = 0 ∧ linelen l = zlen data ∧
  ∃ tl, line l = Some ((Some <$> data) ++ tl) ∧ (length data + length tl)%nat = 2048%nat.

Lemma compacted_view l data : compacted l data → line_view l data.
Proof.
  intros (E1 & E2 & E3 & tl & E4 & E5). right. split; [done|]. exists [], tl. rewrite E4, E2, E3. done.
Qed.

Lemma compact_view s data input :
  view s data input →
  ∃ s', (allocate;; compact) s = Done (tt, s') ∧ compacted (ln s') data ∧ bev (ln s') = Some input ∧ frame s s'.
Proof.
  intros [[(E1 & E2 & E3 & E4 & ->)|(E1 & pre & tl & E2 & E3 & E4 & E5)] Hb].
  - unfold allocate. msimpl. rewrite E1, E2. change (0 =? 0) with true. msimpl. unfold compact. msimpl.
    cbn [ln set_line set_linemax lineoffset]. rewrite E4. change (negb (0 =? 0)) with false. msimpl.
    eexists. split; [done|]. split; [|done]. split; [done|]. split; [done|].
    split; [by rewrite zlen_nil|]. exists (replicate 2048 None). done.
  - unfold allocate. msimpl. rewrite E1. change (MAX_LINE_LEN =? 0) with false. msimpl.
    unfold compact. msimpl. rewrite E4. pose proof (zlen_nonneg pre). pose proof (zlen_nonneg data).
    destruct (Z.eqb_spec (zlen pre) 0) as [Hp|Hp]; cbn [negb]; msimpl.
    + destruct pre; [|rewrite zlen_cons in Hp; pose proof (zlen_nonneg pre); lia].
      eexists. split; [done|]. split; [|done]. split; [done|]. split; [done|]. split; [by rewrite E5|].
      exists tl. split; [done|]. simpl in E3. lia.
    + rewrite E5. destruct (Z.ltb_spec (zlen pre) (zlen pre + zlen data)) as [Hd|Hd].
      * assert (buffered s = Done (data, s)) as Eb.
        { eapply (buffered_view s data input); [|rewrite E1; done]. split; [|done]. right. by eauto 10. }
        msimpl. rewrite (M_bind_done _ _ _ _ _ Eb), E2. rewrite store_slice by (rewrite length_app; lia). msimpl.
        eexists. split; [done|]. split; [|done]. split; [done|]. split; [done|]. split; [cbn; lia|].
        exists ((Some <$> drop (length data) (pre ++ data)) ++ tl).
        split; [cbn [ln set_lineoffset set_linelen set_line line]; by rewrite take_0, app_nil_l, fmap_app, <- app_assoc|].
        rewrite length_app, length_fmap, length_drop, length_app. lia.
      * assert (data = []) as -> by (destruct data; [done|rewrite zlen_cons in *; pose proof (zlen_nonneg data); lia]).
        msimpl. eexists. split; [done|]. split; [|done]. split; [done|]. split; [done|]. split; [done|].
        exists ((Some <$> (pre ++ [])) ++ tl). split; [done|]. rewrite length_app, length_fmap, app_nil_r. simpl in *. lia.
Qed.

(** [get_input] reads as much as fits. *)
Lemma get_input_view s data input :
  view s data input → (length data < 2048)%nat →
  ∃ s', get_input p e s = Done (true, s') ∧ linemax (ln s') = MAX_LINE_LEN ∧ frame s s' ∧
    view s' (data ++ take (2048 - length data) input) (drop (2048 - length data) input).
Proof.
  intros Hv Hd. unfold get_input. destruct (compact_view s data input Hv) as (s1 & E1 & Hc & Hb & Hf).
  rewrite <- bind_assoc, (M_bind_done _ _ _ _ _ E1). destruct Hc as (C1 & C2 & C3 & tl & C4 & C5).
  unfold receive. msimpl. rewrite C1, C3. unfold MAX_LINE_LEN.
  destruct (Z.leb_spec 2048 (zlen data)) as [Hle|_]; [unfold zlen in Hle; lia|].
  rewrite C4, Hb. replace (Z.to_nat (2048 - zlen data)) with (2048 - length data)%nat by (unfold zlen; lia).
  set (room := (2048 - length data)%nat).
  assert (store ((Some <$> data) ++ tl) (Z.to_nat (zlen data)) (take room input) =
          Done ((Some <$> (data ++ take room input)) ++ drop (length (take room input)) tl)) as Est.
  { unfold store, zlen. rewrite Nat2Z.id, decide_True by (rewrite length_app, length_fmap, length_take; lia).
    rewrite <- (length_fmap Some data), take_app_length, drop_app_add, fmap_app, <- app_assoc.
    done. }
  assert (∀ s2, frame s1 s2 → linemax (ln s2) = MAX_LINE_LEN → lineoffset (ln s2) = 0 →
    ∃ s', (b ← lift (store ((Some <$> data) ++ tl) (Z.to_nat (zlen data)) (take room input));
        modify (set_line (Some b));;
        modify (set_bev (Some (drop room input)));;
        modify (set_linelen (zlen data + zlen (take room input)));;
        modify (set_roffset (s32 (roffset (ln s1) + zlen (take room input))));;
        mret true) s2 = Done (true, s') ∧ linemax (ln s') = MAX_LINE_LEN ∧ frame s s' ∧
    view s' (data ++ take room input) (drop room input)) as Hrest.
  { intros s2 F2 M2 O2. rewrite Est. msimpl. eexists. split; [done|]. split; [done|].
    split; [etrans; [exact Hf|]; etrans; [exact F2|]; done|]. split; [|done]. right. split; [done|].
    exists [], (drop (length (take room input)) tl). split; [done|].
    split; [rewrite !length_app, length_drop, length_take; simpl; lia|]. split; [done|].
    cbn [ln set_roffset set_linelen linelen]. by rewrite zlen_app. }
  assert (∀ s2 x, rp s2 = rp s1 → wr s2 = wr s1 → rs s2 = rs (set_result2 x s1) → frame s1 s2) as Hfr.
  { intros s2 x H1 H2 H3. unfold frame. split; [done|]. split; [done|]. cbn. rewrite H3. done. }
  destruct ((2 <=? etim p) && report_roffset (ln s1)); [|msimpl; apply Hrest; done].
  destruct (negb (roffset (ln s1) =? 0)); msimpl; unfold add_str2; msimpl; apply Hrest; cbn; done.
Qed.

Lemma has_nl_true l : has_nl l = true ↔ nl ∈ l.
Proof.
  unfold has_nl. rewrite existsb_exists. split.
  - intros (x & Hx%list_elem_of_In & ->%Z.eqb_eq). done.
  - intros H. exists nl. split; [by apply list_elem_of_In|apply Z.eqb_refl].
Qed.

Lemma has_nl_false l : has_nl l = false ↔ nl ∉ l.
Proof. rewrite <- not_true_iff_false, has_nl_true. done. Qed.

(** *** Reports *)

Lemma add_str_bind {A} text (k : unit → H A) s : (add_str text ≫= k) s = k tt (set_result (result (rs s) ++ text) s).
Proof. done. Qed.

(** The text [report_result] adds. *)
Definition report_text (s : hgstate) : list Z :=
  report_sub p e s ++ report_method p e s ++
  (if negb (dnserr (rs s)) && (2 <=? etim p) then result2 (rs s) ++ str " ]" else []) ++
  report_source e s.
Definition report_tail (s : hgstate) : list Z :=
  report_done p e s ++ (if dnserr (rs s) then [] else str " }") ++ str (if do_output p s then " ]" else ", ").

Lemma report_result_ok s :
  report_result p e s =
  Done (tt, set_result (result (rs s) ++ report_text s ++ report_tail s)
              (if negb (dnserr (rs s)) && (2 <=? etim p) then set_result2 [] s else s)).
Proof.
  destruct s as [l r [bu co dn si sm re re2 ac it] w]. set (s := HG l r _ w).
  unfold report_result, report_text, report_tail. rewrite bind_get.
  generalize (report_sub p e s) (report_method p e s) (report_source e s) (report_done p e s)
    (str (if do_output p s then " ]" else ", ")).
  intros a b c d f. unfold s. clear s. generalize (str " ]") (str " }"). intros g h.
  unfold get, add_str, add_str2, modify, mbind, M_bind, mret, M_ret.
  destruct dn; [|destruct (2 <=? etim p)]; unfold set_result, set_result2; cbn -[app];
    rewrite ?app_nil_l, <- ?app_assoc; reflexivity.
Qed.

(** Whether another address is tried. *)
Definition more (s : hgstate) : bool := do_all p && (subid (rs s) + 1 <? submax (rs s)).

(** The measurement of this address is over, and the response was as [r]. *)
Definition finished (r : response) (s : hgstate) : Prop :=
  rp s = r ∧ (last (acts (rs s)) = Some Restart ∨ last (acts (rs s)) = Some Cleanup).

Definition report_actions (s : hgstate) : list action :=
  let s1 := set_subid (subid (rs s) + 1) s in
  (if do_output p s1 then
     [Output (report_head p e ++ (result (rs s) ++ report_text s1 ++ report_tail s1) ++ str " }" ++ [10])] else []) ++
  [if more s then Restart else Cleanup].

(** What a report does: its line of output (when it is the last of a combined
    one), and the next address or the end, with the buffer given up. *)
Lemma report_ok s :
  ∃ s', report p e s = Done (tt, s') ∧ finished (rp s) s' ∧ wr s' = wr s ∧
    acts (rs s') = acts (rs s) ++ report_actions s ∧
    busy (rs s') = more s && busy (rs s) ∧
    (more s = false → linemax (ln s') = 0 ∧ bev (ln s') = None ∧
                      (linemax (ln s) ≠ 0 ∨ line (ln s) = None → line (ln s') = None)) ∧
    (more s = true → ln s' = ln s) ∧ in_table (rs s') = in_table (rs s).
Proof.
  unfold report. rewrite bind_modify. set (s1 := set_subid (subid (rs s) + 1) s).
  rewrite (M_bind_done _ _ _ _ _ (report_result_ok s1)).
  set (s2 := set_result _ _).
  assert (do_output p s2 = do_output p s1 ∧ more s = do_all p && (subid (rs s2) <? submax (rs s2)) ∧
    result (rs s2) = result (rs s) ++ report_text s1 ++ report_tail s1 ∧ acts (rs s2) = acts (rs s) ∧
    busy (rs s2) = busy (rs s) ∧ ln s2 = ln s ∧ rp s2 = rp s ∧ wr s2 = wr s ∧ in_table (rs s2) = in_table (rs s))
    as (Ho & Hm & Hr & Ha & Hb & Hl & Hp & Hw & Hit).
  { unfold s2. by destruct (_ && _). }
  clearbody s2. unfold report_actions. fold s1. rewrite <- Hr, <- Ho.
  unfold report_output. rewrite !bind_assoc, bind_get.
  assert (∀ s3, acts (rs s3) = acts (rs s2) ++
      (if do_output p s2 then [Output (report_head p e ++ result (rs s2) ++ str " }" ++ [10])] else []) →
    subid (rs s3) = subid (rs s2) → submax (rs s3) = submax (rs s2) → busy (rs s3) = busy (rs s2) →
    ln s3 = ln s2 → rp s3 = rp s2 → wr s3 = wr s2 → in_table (rs s3) = in_table (rs s2) →
    ∃ s', report_next p s3 = Done (tt, s') ∧ finished (rp s) s' ∧ wr s' = wr s ∧
    acts (rs s') = acts (rs s) ++ ((if do_output p s2 then [Output (report_head p e ++ result (rs s2) ++ str " }" ++ [10])] else []) ++
      [if more s then Restart else Cleanup]) ∧
    busy (rs s') = more s && busy (rs s) ∧
    (more s = false → linemax (ln s') = 0 ∧ bev (ln s') = None ∧
                      (linemax (ln s) ≠ 0 ∨ line (ln s) = None → line (ln s') = None)) ∧
    (more s = true → ln s' = ln s) ∧ in_table (rs s') = in_table (rs s)) as Hnext.
  { intros s3 Ha3 Hs3 Hm3 Hb3 Hl3 Hp3 Hw3 Hit3. unfold report_next. rewrite bind_get, Hs3, Hm3, <- Hm.
    unfold finished. destruct (more s).
    - unfold act. rewrite modify_M. eexists. split; [reflexivity|]. cbn [rs ln rp wr set_acts acts busy].
      rewrite last_snoc, Ha3, <- app_assoc, Hp3, Hp, Ha, Hw3, Hw, Hb3, Hb.
      split; [by auto|]. split; [done|]. split; [done|]. split; [done|]. split; [done|].
      split; [intros _; by rewrite Hl3|]. cbn [in_table]. by rewrite Hit3.
    - rewrite Hl3, Hl. destruct (Z.eqb_spec (linemax (ln s)) 0) as [E0|E0]; cbn [negb]; unfold act; msimpl;
        (eexists; split; [reflexivity|]);
        cbn [rs ln rp wr set_acts set_bev set_busy set_linemax set_line acts busy linemax bev line];
        rewrite last_snoc, Ha3, <- app_assoc, Hp3, Hp, Ha, Hw3, Hw, ?Hl3, ?Hl;
        (split; [by auto|]); (split; [done|]); (split; [done|]); (split; [done|]);
        (split; [intros _; (split; [done|]); (split; [done|]); intros [?|?]; done|split; [done|cbn [in_table]; by rewrite Hit3]]). }
  destruct (do_output p s2).
  - rewrite !bind_assoc. unfold act. rewrite !bind_modify. by apply Hnext.
  - rewrite bind_ret. apply Hnext; rewrite ?app_nil_r; done.
Qed.

(** *** Lines *)

Lemma view_data_empty s data input : view s data input → linemax (ln s) = 0 → data = [].
Proof. intros [[(_ & _ & _ & _ & E)|(E & _)] _] H0; [done|]. by rewrite H0 in E. Qed.

(** Whether a line is ready is decided by the first 2048 bytes there are. *)
Lemma wait_line_split s data input :
  view s data input → (length data < 2048)%nat →
  (nl ∈ data ∧ wait_line p e s = Done (true, s) ∧ linemax (ln s) ≠ 0) ∨
  ((nl ∉ data) ∧ ∃ s', frame s s' ∧ linemax (ln s') ≠ 0 ∧
    view s' (data ++ take (2048 - length data) input) (drop (2048 - length data) input) ∧
    wait_line p e s =
      (if has_nl (data ++ take (2048 - length data) input) then mret true
       else (if MAX_LINE_LEN <=? zlen (data ++ take (2048 - length data) input) then
               add_str (DBQ "err" ++ str ":" ++ DBQ "line too long" ++ str ", ");; report p e
             else mret tt);; mret false) s').
Proof.
  intros Hv Hd. unfold wait_line. rewrite bind_get.
  destruct (get_input_view s data input Hv Hd) as (s' & E & Hm & Hf & Hv').
  assert (linemax (ln s') ≠ 0) as Hm' by (rewrite Hm; done).
  pose proof (buffered_view _ _ _ Hv' Hm') as Eb.
  destruct (Z.eqb_spec (linemax (ln s)) 0) as [E0|E0].
  - right. pose proof (view_data_empty _ _ _ Hv E0) as ->. split; [apply not_elem_of_nil|].
    exists s'. split; [done|]. split; [done|]. split; [done|].
    rewrite bind_ret, (M_bind_done _ _ _ _ _ E). cbn [negb]. by rewrite (M_bind_done _ _ _ _ _ Eb).
  - rewrite bind_assoc, (M_bind_done _ _ _ _ _ (buffered_view _ _ _ Hv E0)), bind_ret.
    destruct (has_nl data) eqn:Enl.
    + left. apply has_nl_true in Enl. done.
    + right. apply has_nl_false in Enl. split; [done|]. exists s'. split; [done|]. split; [done|]. split; [done|].
      rewrite (M_bind_done _ _ _ _ _ E). cbn [negb]. by rewrite (M_bind_done _ _ _ _ _ Eb).
Qed.

(** The first line of what is buffered is the first line there is. *)
Lemma first_line w i l rest :
  w ++ i = l ++ nl :: rest → nl ∉ l → nl ∈ w → ∃ d, w = l ++ nl :: d ∧ d ++ i = rest.
Proof.
  revert w. induction l as [|c l IH]; intros w E Hl Hw; (destruct w as [|x w]; [by apply not_elem_of_nil in Hw|]).
  - cbn [app] in *. simplify_eq. by exists w.
  - cbn [app] in E. injection E as -> E. apply not_elem_of_cons in Hl as [Hc Hl].
    apply elem_of_cons in Hw as [?|Hw]; [done|]. destruct (IH w E Hl Hw) as (d & -> & <-). by exists d.
Qed.

Lemma buffered_prefix (data input : list Z) :
  (data ++ take (2048 - length data) input) ++ drop (2048 - length data) input = data ++ input.
Proof. by rewrite <- app_assoc, take_drop. Qed.

Lemma wait_line_ready s data input l rest :
  view s data input → (length data < 2048)%nat →
  data ++ input = l ++ nl :: rest → nl ∉ l → (length l < 2048)%nat →
  ∃ s' d i, wait_line p e s = Done (true, s') ∧ frame s s' ∧ linemax (ln s') ≠ 0 ∧
    view s' (l ++ nl :: d) i ∧ d ++ i = rest ∧ (length (l ++ nl :: d) ≤ 2048)%nat.
Proof.
  intros Hv Hd Ea Hl Hll.
  destruct (wait_line_split s data input Hv Hd) as [(Hin & E & Hm)|(Hnin & s' & Hf & Hm & Hv' & E)].
  - destruct (first_line data input l rest Ea Hl Hin) as (d & -> & <-). exists s, d, input.
    split; [done|]. split; [done|]. split; [done|]. split; [done|]. split; [done|]. lia.
  - rewrite <- buffered_prefix in Ea.
    assert (nl ∈ data ++ take (2048 - length data) input) as Hin.
    { destruct (decide (nl ∈ data ++ take (2048 - length data) input)) as [|Hn]; [done|]. exfalso.
      assert (length (data ++ take (2048 - length data) input) ≤ length l)%nat as Hle.
      { destruct (decide (length (data ++ take (2048 - length data) input) ≤ length l)%nat) as [|Hgt]; [done|].
        exfalso. apply Hn. eapply (list_elem_of_lookup_2 _ (length l)).
        rewrite <- (lookup_app_l _ (drop (2048 - length data) input)) by lia. rewrite Ea. by apply list_lookup_middle. }
      rewrite length_app, length_take in Hle.
      assert (drop (2048 - length data) input = []) as Ed by (apply drop_ge; lia).
      rewrite Ed, app_nil_r in Ea. apply Hn. rewrite Ea. apply elem_of_app. right. apply elem_of_cons. by left. }
    destruct (first_line _ _ l rest Ea Hl Hin) as (d & Ed & <-).
    exists s', d, (drop (2048 - length data) input). apply has_nl_true in Hin. rewrite E, Hin.
    split; [done|]. split; [done|]. split; [done|]. rewrite <- Ed. split; [done|]. split; [done|].
    rewrite length_app, length_take. lia.
Qed.

Lemma wait_line_wait s data input :
  view s data input → nl ∉ data ++ input → (length (data ++ input) < 2048)%nat →
  ∃ s', wait_line p e s = Done (false, s') ∧ frame s s' ∧ view s' (data ++ input) [].
Proof.
  intros Hv Hn Hlen. rewrite length_app in Hlen.
  destruct (wait_line_split s data input Hv ltac:(lia)) as [(Hin & _)|(_ & s' & Hf & _ & Hv' & E)].
  { exfalso. apply Hn, elem_of_app. by left. }
  rewrite take_ge, drop_ge in * by lia. apply has_nl_false in Hn. rewrite Hn in E.
  destruct (Z.leb_spec MAX_LINE_LEN (zlen (data ++ input))) as [Hle|_].
  { unfold MAX_LINE_LEN, zlen in Hle. rewrite length_app in Hle. lia. }
  rewrite bind_ret in E. by exists s'.
Qed.

(** A line that does not fit ends the measurement. *)
Lemma wait_line_long s data input :
  view s data input → (length data < 2048)%nat → nl ∉ take 2048 (data ++ input) → (2048 ≤ length (data ++ input))%nat →
  ∃ s', wait_line p e s = Done (false, s') ∧ finished (rp s) s'.
Proof.
  intros Hv Hd Hn Hlen. rewrite length_app in Hlen. rewrite take_app, take_ge in Hn by lia.
  destruct (wait_line_split s data input Hv Hd) as [(Hin & _)|(_ & s' & Hf & _ & Hv' & E)].
  { exfalso. apply Hn, elem_of_app. by left. }
  apply has_nl_false in Hn. rewrite Hn in E.
  destruct (Z.leb_spec MAX_LINE_LEN (zlen (data ++ take (2048 - length data) input))) as [_|Hlt].
  2: { unfold MAX_LINE_LEN, zlen in Hlt. rewrite length_app, length_take in Hlt. lia. }
  rewrite bind_assoc in E. unfold add_str in E. rewrite bind_modify in E.
  set (s2 := set_result _ s') in E. destruct (report_ok s2) as (s3 & E3 & Hfin & _).
  rewrite (M_bind_done _ _ _ _ _ E3) in E. exists s3. split; [done|].
  destruct Hf as (Hr & _). unfold s2 in Hfin. cbn [rp set_result] in Hfin. by rewrite Hr in Hfin.
Qed.

Lemma take_line_ok s l d i :
  view s (l ++ nl :: d) i → linemax (ln s) ≠ 0 → nl ∉ l →
  take_line s =
    if existsb (Z.eqb 0) l then Done (None, s)
    else Done (Some (strip_cr l, zlen l + 1), set_lineoffset (lineoffset (ln s) + (zlen l + 1)) s).
Proof.
  intros Hv Hm Hl. unfold take_line. rewrite (M_bind_done _ _ _ _ _ (buffered_view _ _ _ Hv Hm)).
  rewrite split_at_app by done. by destruct (existsb _ l).
Qed.

(** Using up the front of the data. *)
Lemma view_use s a d i n :
  view s (a ++ d) i → linemax (ln s) ≠ 0 → n = zlen a → view (set_lineoffset (lineoffset (ln s) + n) s) d i.
Proof.
  intros [[(E & _)|(E1 & pre & tl & E2 & E3 & E4 & E5)] Hb] Hm ->; [done|]. split; [|done]. right. split; [done|].
  exists (pre ++ a), tl. cbn [ln set_lineoffset line lineoffset linelen]. rewrite E2, E4, E5.
  rewrite <- app_assoc. split; [done|]. rewrite !length_app in *. split; [lia|]. rewrite !zlen_app. split; [done|]. lia.
Qed.

(** *** Body data *)

Lemma wait_data_ok s data input :
  view s data input → (length data < 2048)%nat →
  (data ++ input = [] ∧ ∃ s', wait_data p e s = Done (false, s') ∧ frame s s' ∧ view s' [] []) ∨
  (∃ s' d i, wait_data p e s = Done (true, s') ∧ frame s s' ∧ linemax (ln s') ≠ 0 ∧ view s' d i ∧
     d ++ i = data ++ input ∧ d ≠ [] ∧ (length d ≤ 2048)%nat ∧ linelen (ln s') - lineoffset (ln s') = zlen d).
Proof.
  intros Hv Hd. unfold wait_data. rewrite bind_get.
  assert (∀ s d i, view s d i → linelen (ln s) - lineoffset (ln s) = zlen d) as Hlen.
  { intros ? ? ? [[(_ & _ & -> & -> & ->)|(_ & pre & tl & _ & _ & -> & ->)] _]; [done|lia]. }
  pose proof (Hlen _ _ _ Hv) as El. pose proof (zlen_nonneg data).
  destruct (decide (data = [])) as [->|Hne].
  - destruct (Z.leb_spec (linelen (ln s)) (lineoffset (ln s))) as [_|Hlt]; [|rewrite zlen_nil in El; lia].
    rewrite orb_true_r.
    destruct (get_input_view s [] input Hv Hd) as (s' & E & Hm & Hf & Hv').
    rewrite (M_bind_done _ _ _ _ _ E). cbn [negb]. rewrite bind_get. cbn [app length Nat.sub] in Hv'.
    pose proof (Hlen _ _ _ Hv') as El'. cbn [app].
    destruct input as [|c input].
    + left. split; [done|]. exists s'. destruct (Z.ltb_spec (lineoffset (ln s')) (linelen (ln s'))) as [Hlt|_].
      { change (zlen (take 2048 (@nil Z))) with 0 in El'. lia. }
      by rewrite take_nil, drop_nil in Hv'.
    + right. exists s', (take 2048 (c :: input)), (drop 2048 (c :: input)).
      assert (0 < zlen (take 2048 (c :: input))) as Hpos.
      { change (take 2048 (c :: input)) with (c :: take 2047 input). rewrite zlen_cons.
        pose proof (zlen_nonneg (take 2047 input)). lia. }
      destruct (Z.ltb_spec (lineoffset (ln s')) (linelen (ln s'))) as [_|Hge]; [|lia].
      split; [done|]. split; [done|]. split; [by rewrite Hm|]. split; [done|]. split; [by rewrite take_drop|].
      split; [done|]. split; [rewrite length_take; lia|done].
  - right. exists s, data, input. assert (0 < zlen data) as Hpos.
    { destruct data; [done|]. rewrite zlen_cons. pose proof (zlen_nonneg data). lia. }
    assert (linemax (ln s) ≠ 0) as Hm by (intros E0; by apply (view_data_empty _ _ _ Hv) in E0).
    destruct (Z.eqb_spec (linemax (ln s)) 0); [done|].
    destruct (Z.leb_spec (linelen (ln s)) (lineoffset (ln s))) as [Hle|_]; [lia|].
    split; [done|]. split; [done|]. split; [done|]. split; [done|]. split; [done|]. split; [done|]. split; [lia|done].
Qed.
End Buffer.
