(* ===== verification/Http1Loop.v ===== *)
(** * The loop of [readcb]

    Every round of the loop uses up a byte or gets closer to the end, so that
    [readcb] returns: it waits with all input taken, or the measurement of the
    address is over.  The invariant [reading] holds between rounds. *)

From stdpp Require Import base list list_numbers numbers option strings.
From Stdlib Require Import ZArith Lia.
From S2P Require Import Prelude Bits Blocks Cstr Http1 Http1Proofs.

Open Scope Z_scope.

Section Loop.
Context (p : params) (e : env).

(** ** Every round makes progress *)

(** Inside a body its offset is right; [n] is what there is to read. *)
Definition body_ok (s : hgstate) (n : Z) : Prop :=
  match readstate (rp s) with
  | READ_SIMPLE => 0 ≤ content_offset (rp s) ∧ content_offset (rp s) + n < 2 ^ 31
  | READ_CHUNKED | READ_CHUNK_BODY | READ_CHUNK_END =>
      0 ≤ content_offset (rp s) ∧ content_offset (rp s) + n < 2 ^ 31 ∧ tot_chunked (rp s) < 2 ^ 31
  | _ => True
  end.

(** A measurement that is reading. *)
Definition reading (s : hgstate) (data input : list Z) : Prop :=
  view s data input ∧ (length data < 2048)%nat ∧ zlen (data ++ input) < 2 ^ 31 ∧ body_ok s (zlen (data ++ input)).

Definition rank (r : readstate_t) : nat :=
  match r with READ_BODY => 2 | READ_FIRST | READ_SIMPLE | READ_CHUNK_BODY => 1 | _ => 0 end.
Definition measure (s : hgstate) (data input : list Z) : nat :=
  (3 * length (data ++ input) + rank (readstate (rp s)))%nat.

(** A round ends the measurement of the address, waits with all input taken, or
    gets on. *)
Definition progress (s : hgstate) (n : nat) (r : outcome (flow * hgstate)) : Prop :=
  match r with
  | Done (Return, s') =>
      (∃ r, finished r s') ∨ (∃ data, reading s' data [] ∧ acts (rs s') = acts (rs s))
  | Done (Continue, s') =>
      ∃ data input, reading s' data input ∧ acts (rs s') = acts (rs s) ∧ (measure s' data input < n)%nat
  | Crash _ => False
  end.

Lemma add_report_ok text s : ∃ s', (add_str text;; report p e) s = Done (tt, s') ∧ finished (rp s) s'.
Proof.
  rewrite add_str_bind. destruct (report_ok p e (set_result (result (rs s) ++ text) s)) as (s' & E & Hf & _).
  by exists s'.
Qed.

Lemma err_status_ok r s : ∃ s', err_status p e r s = Done (tt, s') ∧ finished (rp s) s'.
Proof. apply add_report_ok. Qed.
Lemma err_chunked_ok r s : ∃ s', err_chunked p e r s = Done (tt, s') ∧ finished (rp s) s'.
Proof. apply add_report_ok. Qed.
Lemma err_header_ok r s : ∃ s', err_header p e r s = Done (tt, s') ∧ finished (rp s) s'.
Proof.
  unfold err_header. destruct (negb (max_headers p =? 0)).
  - rewrite add_str_bind.
    destruct (add_report_ok (err_line "bad header line: " r) (set_result (result (rs s) ++ str " ], ") s)) as (s' & E & Hf).
    by exists s'.
  - rewrite bind_ret. apply add_report_ok.
Qed.

(** An error ends the round. *)
Lemma progress_err (m : H unit) s0 n s :
  (∃ s', m s = Done (tt, s') ∧ finished (rp s) s') → progress s0 n ((m;; mret Return) s).
Proof. intros (s' & E & Hf). rewrite (M_bind_done _ _ _ _ _ E). left. by eexists. Qed.

Lemma frame_acts s s' : frame s s' → acts (rs s') = acts (rs s).
Proof. intros (_ & _ & H). by apply (f_equal acts) in H. Qed.
Lemma frame_rp s s' : frame s s' → rp s' = rp s.
Proof. by intros []. Qed.

(** After a line was taken, any state without a body may follow. *)
Lemma progress_next s0 n s d i :
  view s d i → (length d < 2048)%nat → zlen (d ++ i) < 2 ^ 31 → body_ok s (zlen (d ++ i)) →
  acts (rs s) = acts (rs s0) → (measure s d i < n)%nat → progress s0 n (Done (Continue, s)).
Proof. intros. exists d, i. split; [done|]. done. Qed.

Lemma zlen_lt_line (l d i : list Z) x : zlen (d ++ i) < zlen ((l ++ x :: d) ++ i).
Proof. rewrite !zlen_app, zlen_cons. pose proof (zlen_nonneg l). lia. Qed.

Lemma length_line (l d i : list Z) x : length ((l ++ x :: d) ++ i) = (length l + 1 + length (d ++ i))%nat.
Proof. rewrite !length_app. simpl. lia. Qed.

Lemma u64_small z : 0 ≤ z < 2 ^ 64 → u64 z = z.
Proof. apply Z.mod_small. Qed.
Lemma s32_small z : - 2 ^ 31 ≤ z < 2 ^ 31 → s32 z = z.
Proof. intros H. unfold s32. rewrite Z.mod_small by lia. lia. Qed.
Lemma s32_bound z : - 2 ^ 31 ≤ s32 z < 2 ^ 31.
Proof. unfold s32. pose proof (Z.mod_pos_bound (z + 2 ^ 31) (2 ^ 32)). lia. Qed.

Lemma clip_body_ok s len :
  0 ≤ content_offset (rp s) → 0 < len → content_offset (rp s) + len < 2 ^ 31 → - 2 ^ 31 ≤ max_body p < 2 ^ 31 →
  0 < clip_body p s len ≤ len.
Proof.
  intros Ho Hl Hs Hm. unfold clip_body. rewrite (u64_small (_ + len)) by lia.
  destruct (Z.leb_spec (content_offset (rp s) + len) (u64 (max_body p))) as [|Hgt]; [lia|].
  assert (content_offset (rp s) + len > max_body p) as Hgt'.
  { destruct (Z.leb_spec 0 (max_body p)); [rewrite u64_small in Hgt by lia; lia|lia]. }
  destruct ((content_offset (rp s) <=? max_body p) && negb (max_body p =? 0)) eqn:E; [|lia].
  apply andb_true_iff in E as [E _]. apply Z.leb_le in E.
  destruct (Z.ltb_spec (content_offset (rp s)) (max_body p)); [|lia]. rewrite u64_small by lia. lia.
Qed.

(** *** Rounds that take a line *)

Section Line.
Context (s0 s : hgstate) (l d i : list Z) (n : nat).
Context (Hv : view s (l ++ nl :: d) i) (Hm : linemax (ln s) ≠ 0) (Hl : nl ∉ l).
Context (Hlen : (length (l ++ nl :: d) ≤ 2048)%nat) (Hz : zlen ((l ++ nl :: d) ++ i) < 2 ^ 31).
Context (Ha : acts (rs s) = acts (rs s0)) (Hn : (3 * length ((l ++ nl :: d) ++ i) ≤ n)%nat).

Abbreviation s1 := (set_lineoffset (lineoffset (ln s) + (zlen l + 1)) s).

Lemma view_line : view s1 d i.
Proof.
  apply (view_use s (l ++ [nl]) d i); [by rewrite <- app_assoc|done|]. by rewrite zlen_app.
Qed.

(** The state afterwards is reading. *)
Lemma progress_line s' :
  ln s' = ln s1 → acts (rs s') = acts (rs s) → body_ok s' (zlen (d ++ i)) → progress s0 n (Done (Continue, s')).
Proof.
  intros El Ea Hb. exists d, i. split; [split; [|split; [|split]]|].
  - destruct view_line. split; by rewrite El.
  - rewrite length_app in Hlen. simpl in Hlen. lia.
  - pose proof (zlen_lt_line l d i nl). lia.
  - done.
  - split; [congruence|]. unfold measure. rewrite length_line in Hn. unfold rank. destruct (readstate (rp s')); lia.
Qed.

Lemma take_line_cases :
  take_line s = Done (None, s) ∨ take_line s = Done (Some (strip_cr l, zlen l + 1), s1).
Proof. rewrite (take_line_ok s l d i Hv Hm Hl). destruct (existsb _ l); auto. Qed.

(** A line with a NUL is an error. *)
Ltac line_or_err H err :=
  destruct take_line_cases as [H|H]; rewrite (M_bind_done _ _ _ _ _ H); [apply progress_err, err|].

Lemma read_status_progress : progress s0 n (read_status p e s).
Proof.
  unfold read_status.
  line_or_err El err_status_ok. destruct (parse_status (strip_cr l)) as [r|[[major minor] code]].
  - apply progress_err, err_status_ok.
  - rewrite !bind_modify. destruct (negb (max_headers p =? 0)); [rewrite add_str_bind|rewrite bind_ret]; by apply progress_line.
Qed.

Lemma store_header_ok h s2 :
  ∃ h' s3, store_header p h s2 = Done (h', s3) ∧ ln s3 = ln s2 ∧ acts (rs s3) = acts (rs s2) ∧
    readstate (rp s3) = readstate (rp s2).
Proof.
  unfold store_header. rewrite bind_get. cbv zeta. unfold add_str_quoted.
  destruct (_ <=? _); [|destruct (_ && _); [|by eexists _, _]].
  - destruct (negb _); [rewrite add_str_bind|rewrite bind_ret]; rewrite !add_str_bind, bind_modify; by eexists _, _.
  - destruct (negb _); [rewrite add_str_bind|rewrite bind_ret]; rewrite add_str_bind;
      (destruct (_ <? _); [rewrite bind_assoc, add_str_bind|]; rewrite bind_ret, add_str_bind, bind_modify; by eexists _, _).
Qed.

Lemma read_header_progress : readstate (rp s) = READ_HEADER → progress s0 n (read_header p e s).
Proof.
  intros Hr. unfold read_header.
  line_or_err El err_header_ok. rewrite bind_get. case_bool_decide as Eh.
  - set (k := (if negb (max_headers p =? 0) then _ else _) ≫= _).
    assert (∀ s2, ln s2 = ln s1 → acts (rs s2) = acts (rs s) → progress s0 n (k s2)) as Hk.
    { intros s2 H1 H2. unfold k. destruct (negb (max_headers p =? 0)); [rewrite add_str_bind|rewrite bind_ret];
        rewrite bind_modify; by apply progress_line. }
    destruct (_ && _); [|rewrite bind_ret; by apply Hk].
    rewrite bind_assoc. destruct (negb (tot_headers (rp s1) =? 0)); [rewrite add_str_bind|rewrite bind_ret]; rewrite add_str_bind; by apply Hk.
  - rewrite bind_modify. set (s2 := set_headers_size _ s1).
    destruct (store_header_ok (strip_cr l) s2) as (h & s3 & E & E1 & E2 & E3). rewrite (M_bind_done _ _ _ _ _ E).
    assert (readstate (rp s3) = READ_HEADER) as Hr3 by (rewrite E3; done).
    destruct (parse_header h) as [| |k|k r].
    + apply progress_line; [done|done|]. unfold body_ok. by rewrite Hr3.
    + rewrite bind_modify. apply progress_line; [done|done|]. unfold body_ok. cbn. by rewrite Hr3.
    + rewrite bind_modify. apply progress_line; [done|done|]. unfold body_ok. cbn. by rewrite Hr3.
    + destruct k; [rewrite bind_modify|rewrite bind_ret]; apply progress_err, err_header_ok.
Qed.

Lemma read_trailer_progress : readstate (rp s) = READ_CHUNKED_TRAILER → progress s0 n (read_trailer p e s).
Proof.
  intros Hr. unfold read_trailer.
  line_or_err El err_chunked_ok. case_bool_decide; [rewrite bind_modify|rewrite bind_ret]; apply progress_line; try done.
  unfold body_ok. cbn. by rewrite Hr.
Qed.

Context (Hb : body_ok s (zlen ((l ++ nl :: d) ++ i))).

Lemma read_chunk_end_progress : readstate (rp s) = READ_CHUNK_END → progress s0 n (read_chunk_end p e s).
Proof.
  intros Hr. unfold read_chunk_end. unfold body_ok in Hb. rewrite Hr in Hb.
  line_or_err El err_chunked_ok. case_bool_decide; cbn [negb]; [|apply progress_err, err_chunked_ok].
  rewrite bind_modify. apply progress_line; [done|done|]. unfold body_ok. cbn.
  pose proof (zlen_lt_line l d i nl). lia.
Qed.

Lemma read_chunked_progress : readstate (rp s) = READ_CHUNKED → progress s0 n (read_chunked p e s).
Proof.
  intros Hr. unfold read_chunked. unfold body_ok in Hb. rewrite Hr in Hb.
  line_or_err El err_chunked_ok. destruct (strtoul 16 (strip_cr l)) as [[len check]|]; [|apply progress_err, err_chunked_ok].
  destruct (match check with [] => _ | _ => _ end); [apply progress_err, err_chunked_ok|].
  destruct (len =? 0); rewrite !bind_modify; apply progress_line; try done.
  unfold body_ok. cbn. pose proof (zlen_lt_line l d i nl). pose proof (s32_bound (tot_chunked (rp s) + len)). lia.
Qed.
End Line.

(** *** The other rounds *)

Context (Hmax : - 2 ^ 31 ≤ max_body p < 2 ^ 31).

Lemma progress_return s0 n s data : reading s data [] → acts (rs s) = acts (rs s0) → progress s0 n (Done (Return, s)).
Proof. intros. right. by exists data. Qed.

Lemma read_body_progress s data input :
  reading s data input → readstate (rp s) = READ_BODY → progress s (measure s data input) (read_body p s).
Proof.
  intros (Hv & Hd & Hz & _) Hr. pose proof (zlen_nonneg (data ++ input)). unfold read_body. rewrite bind_get.
  destruct (do_head p || _ || _ || _); [|destruct (chunked (rp s))]; rewrite ?bind_assoc, !bind_modify;
    (apply (progress_next _ _ _ data input); [done|done|done| |done|unfold measure; rewrite Hr; simpl; lia]);
    unfold body_ok; cbn [rp set_readstate set_content_offset set_tot_chunked readstate content_offset tot_chunked]; lia || done.
Qed.

(** The data is there or the round waits; some of it is used. *)
Lemma use_data_progress s0 s d i len n :
  view s d i → linemax (ln s) ≠ 0 → (length d ≤ 2048)%nat → zlen (d ++ i) < 2 ^ 31 → acts (rs s) = acts (rs s0) →
  body_ok s (zlen (d ++ i)) →
  readstate (rp s) = READ_SIMPLE ∨ readstate (rp s) = READ_CHUNK_BODY →
  0 < len ≤ zlen d → n = (3 * length (d ++ i) + 1)%nat → progress s0 n (use_data len s).
Proof.
  intros Hv Hm Hd Hz Ha Hb Hr Hlen ->. unfold use_data. rewrite !bind_modify.
  assert (d = take (Z.to_nat len) d ++ drop (Z.to_nat len) d) as Ed by (by rewrite take_drop).
  assert (zlen (take (Z.to_nat len) d) = len) as El by (unfold zlen in *; rewrite length_take; lia).
  rewrite Ed in Hv. pose proof (view_use s _ _ i len Hv Hm ltac:(done)) as Hv'.
  assert (zlen ((take (Z.to_nat len) d ++ drop (Z.to_nat len) d) ++ i) = len + zlen (drop (Z.to_nat len) d ++ i)) as Ez.
  { rewrite <- app_assoc, zlen_app, El. done. }
  rewrite <- Ed in Ez. pose proof (zlen_nonneg (drop (Z.to_nat len) d ++ i)).
  apply (progress_next _ _ _ (drop (Z.to_nat len) d) i); [exact Hv'| |lia| |done|].
  - rewrite length_drop. unfold zlen in Hlen. lia.
  - unfold body_ok in *. cbn [rp set_lineoffset set_content_offset readstate content_offset tot_chunked].
    destruct Hr as [Hr|Hr]; rewrite Hr in *; rewrite s32_small; lia.
  - unfold measure. cbn [rp set_lineoffset set_content_offset readstate]. unfold zlen in Ez, Hlen.
    destruct Hr as [Hr|Hr]; rewrite Hr; simpl; lia.
Qed.

(** A frame keeps what is known of the body. *)
Lemma frame_body s s' n : frame s s' → body_ok s n → body_ok s' n.
Proof. intros (E & _) H. unfold body_ok. by rewrite E. Qed.

Lemma reading_wait s s' : frame s s' → view s' [] [] → body_ok s 0 → reading s' [] [].
Proof. intros Hf Hv Hb. split; [done|]. split; [simpl; lia|]. split; [done|]. by eapply frame_body. Qed.

Lemma read_simple_progress s data input :
  reading s data input → readstate (rp s) = READ_SIMPLE → progress s (measure s data input) (read_simple p e s).
Proof.
  intros (Hv & Hd & Hz & Hb) Hr. unfold read_simple. rewrite bind_get.
  destruct (_ && _).
  { rewrite bind_modify. apply (progress_next _ _ _ data input); try done. unfold measure. rewrite Hr. simpl. lia. }
  destruct (wait_data_ok p e s data input Hv Hd) as [(E0 & s' & E & Hf & Hv')|(s' & d & i & E & Hf & Hm & Hv' & Ed & Hne & Hd' & Hl)];
    rewrite (M_bind_done _ _ _ _ _ E); cbn [negb].
  - apply (progress_return _ _ _ []); [|by apply frame_acts]. rewrite E0 in Hb. by apply (reading_wait s).
  - rewrite bind_get, Hl, <- Ed in *. pose proof (frame_rp _ _ Hf) as Erp.
    assert (0 < zlen d) as Hpos by (destruct d; [done|]; rewrite zlen_cons; pose proof (zlen_nonneg d); lia).
    assert (zlen d ≤ zlen (d ++ i)) by (rewrite zlen_app; pose proof (zlen_nonneg i); lia).
    pose proof (frame_body _ _ _ Hf Hb) as Hb'.
    assert (0 < clip_body p s' (zlen d) ≤ zlen d) as Hclip.
    { unfold body_ok in Hb'. rewrite Erp, Hr in Hb'. apply clip_body_ok; [rewrite Erp; lia|lia|rewrite Erp; lia|done]. }
    apply (use_data_progress s s' d i); [done|done|done|done|by apply frame_acts|done|left; by rewrite Erp|done|].
    unfold measure. rewrite Hr, <- Ed. simpl. lia.
Qed.

Lemma read_chunk_body_progress s data input :
  reading s data input → readstate (rp s) = READ_CHUNK_BODY → progress s (measure s data input) (read_chunk_body p e s).
Proof.
  intros (Hv & Hd & Hz & Hb) Hr. unfold read_chunk_body. rewrite bind_get.
  destruct (Z.leb_spec (tot_chunked (rp s)) (content_offset (rp s))) as [Hle|Hlt].
  { rewrite bind_modify. apply (progress_next _ _ _ data input); try done.
    - unfold body_ok in *. rewrite Hr in Hb. done.
    - unfold measure. rewrite Hr. simpl. lia. }
  destruct (wait_data_ok p e s data input Hv Hd) as [(E0 & s' & E & Hf & Hv')|(s' & d & i & E & Hf & Hm & Hv' & Ed & Hne & Hd' & Hl)];
    rewrite (M_bind_done _ _ _ _ _ E); cbn [negb].
  - apply (progress_return _ _ _ []); [|by apply frame_acts]. rewrite E0 in Hb. by apply (reading_wait s).
  - rewrite bind_get, Hl, <- Ed in *. pose proof (frame_rp _ _ Hf) as Erp. cbv zeta.
    assert (0 < zlen d) as Hpos by (destruct d; [done|]; rewrite zlen_cons; pose proof (zlen_nonneg d); lia).
    assert (zlen d ≤ zlen (d ++ i)) by (rewrite zlen_app; pose proof (zlen_nonneg i); lia).
    pose proof (frame_body _ _ _ Hf Hb) as Hb'. pose proof Hb' as Hb2. unfold body_ok in Hb2. rewrite Erp, Hr in Hb2.
    set (len := if _ <? _ then _ else _). assert (0 < len ≤ zlen d) as Hlen.
    { unfold len. rewrite Erp. rewrite !u64_small by lia.
      destruct (Z.ltb_spec (tot_chunked (rp s)) (content_offset (rp s) + zlen d)); [|lia].
      rewrite s32_small, u64_small by lia. lia. }
    assert (0 < clip_body p s' len ≤ len) as Hclip.
    { apply clip_body_ok; [rewrite Erp; lia|lia|rewrite Erp; lia|done]. }
    apply (use_data_progress s s' d i); [done|done|done|done|by apply frame_acts|done|right; by rewrite Erp|lia|].
    unfold measure. rewrite Hr, <- Ed. simpl. lia.
Qed.

Lemma read_done_progress s data input n : view s data input → progress s n (read_done p e s).
Proof.
  intros [_ Hb]. unfold read_done. rewrite bind_get, Hb. rewrite bool_decide_true by done. rewrite bind_assoc, bind_modify.
  destruct (report_ok p e (set_bev None s)) as (s' & E & Hf & _). rewrite (M_bind_done _ _ _ _ _ E). left. by eexists.
Qed.

(** The part of the loop behind the check of the limit. *)
Lemma dispatch_progress s data input :
  reading s data input →
  progress s (measure s data input)
    ((ok ← (if need_line (readstate (rp s)) then wait_line p e else mret true);
      if negb ok then mret Return else read_dispatch p e (readstate (rp s))) s).
Proof.
  intros Hrd. pose proof Hrd as (Hv & Hd & Hz & Hb).
  destruct (need_line (readstate (rp s))) eqn:En.
  2: { rewrite bind_ret. cbn [negb]. destruct (readstate (rp s)) eqn:Er; try done; cbn [read_dispatch].
       - unfold read_first. rewrite !bind_modify.
         assert (∀ s', ln s' = ln s ∨ ln s' = ln (set_roffset 0 s) → readstate (rp s') = READ_STATUS → acts (rs s') = acts (rs s) →
           progress s (measure s data input) (Done (Continue, s'))) as Hk.
         { intros s' Hl Hr Ha. apply (progress_next _ _ _ data input); [|done|done|unfold body_ok; by rewrite Hr|done|].
           - destruct Hl as [Hl|Hl]; unfold view; rewrite Hl; exact Hv.
           - unfold measure. rewrite Hr, Er. simpl. lia. }
         destruct (2 <=? etim p); [unfold add_str2; rewrite bind_modify|rewrite bind_ret]; apply Hk; auto.
       - by apply read_body_progress.
       - by apply read_simple_progress.
       - by apply read_chunk_body_progress.
       - by eapply read_done_progress. }
  destruct (decide (nl ∈ take 2048 (data ++ input))) as [Hin|Hnin].
  - apply list_elem_of_split_l in Hin as (l & r & El & Hl).
    assert (data ++ input = l ++ nl :: (r ++ drop 2048 (data ++ input))) as Ea.
    { rewrite <- (take_drop 2048 (data ++ input)) at 1. by rewrite El, <- app_assoc. }
    assert (length l < 2048)%nat as Hll.
    { assert (length (take 2048 (data ++ input)) ≤ 2048)%nat as Hle by (rewrite length_take; lia).
      rewrite El, length_app in Hle. simpl in Hle. lia. }
    destruct (wait_line_ready p e s data input l _ Hv Hd Ea Hl Hll) as (s' & d & i & E & Hf & Hm & Hv' & Ed & Hlen).
    rewrite (M_bind_done _ _ _ _ _ E). cbn [negb]. pose proof (frame_rp _ _ Hf) as Erp.
    assert ((l ++ nl :: d) ++ i = data ++ input) as Ea' by (rewrite Ea, <- Ed, <- app_assoc; done).
    pose proof (frame_body _ _ _ Hf Hb) as Hb'. pose proof (frame_acts _ _ Hf) as Ha.
    assert (3 * length ((l ++ nl :: d) ++ i) ≤ measure s data input)%nat as Hn by (rewrite Ea'; unfold measure; lia).
    rewrite <- Ea' in Hz, Hb'.
    destruct (readstate (rp s)) eqn:Er; try done; cbn [read_dispatch]; rewrite <- Erp in Er.
    + by apply (read_status_progress s s' l d i).
    + by apply (read_header_progress s s' l d i).
    + by apply (read_chunked_progress s s' l d i).
    + by apply (read_chunk_end_progress s s' l d i).
    + by apply (read_trailer_progress s s' l d i).
  - destruct (decide (length (data ++ input) < 2048)%nat) as [Hlt|Hge].
    + rewrite take_ge in Hnin by lia.
      destruct (wait_line_wait p e s data input Hv Hnin Hlt) as (s' & E & Hf & Hv').
      rewrite (M_bind_done _ _ _ _ _ E). cbn [negb]. apply (progress_return _ _ _ (data ++ input)); [|by apply frame_acts].
      split; [done|]. rewrite app_nil_r. split; [done|]. split; [done|]. by eapply frame_body.
    + destruct (wait_line_long p e s data input Hv Hd Hnin ltac:(lia)) as (s' & E & Hf).
      rewrite (M_bind_done _ _ _ _ _ E). left. by eexists.
Qed.

Lemma read_step_progress s data input :
  reading s data input → progress s (measure s data input) (read_step p e s).
Proof.
  intros Hrd. pose proof Hrd as (Hv & _). unfold read_step, check_limit. rewrite bind_assoc, bind_get.
  destruct (_ && _); [|rewrite bind_ret, bind_get; by apply dispatch_progress].
  rewrite bind_assoc, bind_modify.
  assert (∀ (m : H unit) s', (∃ s'', m s' = Done (tt, s'') ∧ finished (rp s') s'') →
    progress s (measure s data input) (((m;; mret true) ≫= λ stop : bool, if stop then mret Return else
      s ← get; ok ← (if need_line (readstate (rp s)) then wait_line p e else mret true);
      if negb ok then mret Return else read_dispatch p e (readstate (rp s))) s')) as Herr.
  { intros m s' (s'' & E & Hf). rewrite bind_assoc, (M_bind_done _ _ _ _ _ E), bind_ret. left. by eexists. }
  assert (progress s (measure s data input) ((modify (set_readstate READ_DONE);; mret false) ≫= (λ stop : bool, if stop then mret Return else
      s ← get; ok ← (if need_line (readstate (rp s)) then wait_line p e else mret true);
      if negb ok then mret Return else read_dispatch p e (readstate (rp s))) $ set_read_truncated true s)) as Hdone.
  { rewrite bind_assoc, bind_modify, bind_ret, bind_get. cbn [rp set_readstate readstate need_line].
    rewrite bind_ret. cbn [negb read_dispatch].
    set (s2 := set_readstate _ _). assert (view s2 data input) as Hv2 by done.
    pose proof (read_done_progress s2 data input (measure s data input) Hv2) as H. exact H. }
  destruct (readstate (rp s)); first [exact Hdone|apply Herr, err_status_ok|apply Herr, err_header_ok].
Qed.

(** Enough fuel for what there is to read. *)
Lemma read_loop_total fuel s data input :
  reading s data input → (measure s data input < fuel)%nat →
  ∃ s', read_loop p e fuel s = Done (tt, s') ∧
    ((∃ r, finished r s') ∨ (∃ data', reading s' data' [] ∧ acts (rs s') = acts (rs s))).
Proof.
  revert s data input. induction fuel as [|fuel IH]; intros s data input Hrd Hf; [lia|].
  cbn [read_loop]. unfold mbind at 1, M_bind at 1. pose proof (read_step_progress s data input Hrd) as Hp.
  destruct (read_step p e s) as [[[|] s1]|c]; [| |done].
  - destruct Hp as (d & i & H1 & Ha & H2). destruct (IH s1 d i H1 ltac:(lia)) as (s' & E & H).
    exists s'. split; [done|]. by rewrite <- Ha.
  - by exists s1.
Qed.

Lemma readcb_total s data input :
  reading s data input →
  ∃ s', readcb p e s = Done (tt, s') ∧
    ((∃ r, finished r s') ∨ (∃ data', reading s' data' [] ∧ acts (rs s') = acts (rs s))).
Proof.
  intros Hrd. unfold readcb. rewrite bind_get, bind_modify.
  destruct (read_loop_total (4 + 3 * (Z.to_nat (linelen (ln s)) + length (default [] (bev (ln s)))))
    (set_report_roffset true s) data input) as (s' & E & H); [exact Hrd| |by exists s'].
  destruct Hrd as [[Hl Hb] _]. rewrite Hb. change (default [] (Some input)) with input. unfold measure. cbn [rp set_report_roffset].
  assert (length data ≤ Z.to_nat (linelen (ln s)))%nat as Hle.
  { destruct Hl as [(_ & _ & _ & _ & ->)|(_ & pre & tl & _ & _ & _ & ->)]; [simpl; lia|unfold zlen; lia]. }
  rewrite length_app. unfold rank. destruct (readstate (rp s)); lia.
Qed.
End Loop.
