(* ===== verification/Http1Main.v ===== *)
(** * HTTP responses in pieces

    What a server sends, as status line, header lines and a body that is sized,
    chunked or not there, and that [readcb] reads it whatever pieces it arrives
    in; with the other properties of the HTTP code. *)

From stdpp Require Import base list list_numbers numbers option strings.
From Stdlib Require Import ZArith Lia.
From S2P Require Import Prelude Bits Blocks Cstr Http1 Http1Proofs Http1Loop.

Open Scope Z_scope.

(** ** Responses *)

Definition crlf : list Z := [13; nl].
Definition wire_line (l : list Z) : list Z := l ++ crlf.
Definition line_ok (l : list Z) : Prop :=
  (nl ∉ l) ∧ existsb (Z.eqb 0) l = false ∧ last l ≠ Some 13 ∧ (length l ≤ 2046)%nat.

(** A chunk: the line with its size, and its data. *)
Definition size_line (h : list Z) (n : Z) : Prop :=
  line_ok h ∧ ∃ check, strtoul 16 h = Some (n, check) ∧ match check with [] => True | c :: _ => isspace c = true end.
Inductive body :=
| NoBody
| Sized (data : list Z)
| ChunkedBody (chunks : list (list Z * list Z)) (last : list Z) (trailer : list (list Z)).

Record http_response := HR { h_status : list Z; h_headers : list (list Z); h_body : body }.

Definition chunk_bytes (c : list Z * list Z) : list Z := wire_line c.1 ++ c.2 ++ crlf.
Definition trailer_bytes (ts : list (list Z)) : list Z := mjoin (wire_line <$> ts) ++ crlf.
Definition body_bytes (b : body) : list Z :=
  match b with
  | NoBody => []
  | Sized data => data
  | ChunkedBody cs z ts => mjoin (chunk_bytes <$> cs) ++ wire_line z ++ trailer_bytes ts
  end.
Definition response_bytes (r : http_response) : list Z :=
  wire_line (h_status r) ++ mjoin (wire_line <$> h_headers r) ++ crlf ++ body_bytes (h_body r).

(** The length of the contents. *)
Definition chunks_size (cs : list (list Z * list Z)) : Z := zlen (mjoin (snd <$> cs)).
(** The size of the body of a response that has one *)
Definition own_size (r : http_response) : option Z :=
  match h_body r with
  | NoBody => None
  | Sized data => Some (zlen data)
  | ChunkedBody cs _ _ => Some (chunks_size cs)
  end.
Definition headers_length (hs : list (list Z)) : Z := zlen (mjoin (wire_line <$> hs)).

(** What the headers say about the body: chunked, and the length. *)
Definition header_step (f : bool * Z) (l : list Z) : bool * Z :=
  match parse_header l with Chunked => (true, f.2) | Length n => (f.1, n) | _ => f end.
Definition framing (hs : list (list Z)) : bool * Z := foldl header_step (false, -1) hs.

Definition header_ok (l : list Z) : Prop :=
  line_ok l ∧ l ≠ [] ∧ match parse_header l with Malformed _ _ => False | _ => True end.

Section Response.
Context (p : params) (e : env).

Definition no_body (code : Z) : bool := do_head p || (code =? 204) || (code =? 304) || (Z.quot code 100 =? 1).

(** The response is well formed, and its body is what the status and the headers
    announce. *)
Definition body_matches (code : Z) (hs : list (list Z)) (b : body) : Prop :=
  match b with
  | NoBody => no_body code = true
  | Sized data => no_body code = false ∧ framing hs = (false, zlen data)
  | ChunkedBody cs z ts =>
      no_body code = false ∧ (framing hs).1 = true ∧
      Forall (λ c, size_line c.1 (zlen c.2) ∧ c.2 ≠ []) cs ∧ size_line z 0 ∧ Forall (λ l, line_ok l ∧ l ≠ []) ts
  end.
Definition response_ok (r : http_response) (major minor code : Z) : Prop :=
  line_ok (h_status r) ∧ parse_status (h_status r) = inr (major, minor, code) ∧
  Forall header_ok (h_headers r) ∧ body_matches code (h_headers r) (h_body r) ∧
  zlen (response_bytes r) < 2 ^ 31.

(** All header lines are stored, or none. *)
Definition headers_text (hs : list (list Z)) : Z := zlen (mjoin hs).
Definition headers_fit (hs : list (list Z)) : Prop :=
  max_headers p = 0 ∨ headers_text hs + 1 ≤ max_headers p < 2 ^ 31.

(** *** Lines *)

Lemma strip_cr_line l : strip_cr (l ++ [13]) = l.
Proof.
  unfold strip_cr. rewrite last_snoc, bool_decide_true by done.
  rewrite length_app. simpl. rewrite Nat.add_sub. apply take_app_length.
Qed.

(** A complete line is taken, or the part of it that arrived is kept. *)
Lemma line_step s d i fut l rest :
  view s d i → (length d < 2048)%nat → d ++ i ++ fut = wire_line l ++ rest → line_ok l →
  (∃ s1 d1 i1, wait_line p e s = Done (true, s1) ∧ frame s s1 ∧
     take_line s1 = Done (Some (l, zlen l + 2), set_lineoffset (lineoffset (ln s1) + (zlen l + 2)) s1) ∧
     view (set_lineoffset (lineoffset (ln s1) + (zlen l + 2)) s1) d1 i1 ∧ d1 ++ i1 ++ fut = rest ∧
     (length d1 < 2048)%nat ∧ (length (d1 ++ i1) < length (d ++ i))%nat) ∨
  (fut ≠ [] ∧ ∃ s1, wait_line p e s = Done (false, s1) ∧ frame s s1 ∧ view s1 (d ++ i) [] ∧ (length (d ++ i) < 2048)%nat).
Proof.
  intros Hv Hd E (Hnl & H0 & Hcr & Hlen). unfold wire_line, crlf in E.
  rewrite app_assoc in E. change ((l ++ [13; nl]) ++ rest) with ((l ++ [13] ++ [nl]) ++ rest) in E.
  rewrite (app_assoc l), <- (app_assoc (l ++ [13])) in E. cbn [app] in E.
  assert (nl ∉ l ++ [13]) as Hnl'.
  { rewrite elem_of_app. intros [H|H]; [done|]. apply list_elem_of_singleton in H. done. }
  destruct (decide (nl ∈ d ++ i)) as [Hin|Hnin].
  - left. destruct (first_line (d ++ i) fut (l ++ [13]) rest E Hnl' Hin) as (r & Er & <-).
    destruct (wait_line_ready p e s d i (l ++ [13]) r Hv Hd Er Hnl') as (s1 & d1 & i1 & Ew & Hf & Hm & Hv1 & E1 & Hl1).
    { rewrite length_app. simpl. lia. }
    exists s1, d1, i1. split; [done|]. split; [done|].
    assert (zlen (l ++ [13]) + 1 = zlen l + 2) as Ez by (rewrite zlen_app; change (zlen [13]) with 1; lia).
    split; [|split; [|split; [|split]]].
    + rewrite (take_line_ok s1 (l ++ [13]) d1 i1 Hv1 Hm Hnl'), existsb_app, H0. cbn [existsb orb Z.eqb].
      by rewrite strip_cr_line, Ez.
    + apply (view_use s1 ((l ++ [13]) ++ [nl]) d1 i1); [by rewrite <- app_assoc|done|].
      rewrite zlen_app. change (zlen [nl]) with 1. lia.
    + by rewrite <- E1, <- app_assoc.
    + rewrite length_app in Hl1. simpl in Hl1. lia.
    + rewrite Er, <- E1. rewrite (length_app (l ++ [13])). cbn [length]. lia.
  - right. assert (∃ y, d ++ i ++ y = l ++ [13] ∧ fut = y ++ nl :: rest) as (y & Ey & Ef).
    { clear - E Hnin. assert (∀ (w a : list Z) f, w ++ f = a ++ nl :: rest → nl ∉ w → ∃ y, w ++ y = a ∧ f = y ++ nl :: rest) as H.
      { induction w as [|x w IH]; intros a f Ew Hw; [by exists a|]. apply not_elem_of_cons in Hw as [Hx Hw].
        destruct a as [|x' a]; [cbn [app] in Ew; congruence|]. cbn [app] in Ew. injection Ew as -> Ew.
        destruct (IH a f Ew Hw) as (y & <- & ->). by exists y. }
      destruct (H (d ++ i) (l ++ [13]) fut) as (y & Ey & ->); [by rewrite <- app_assoc in E |- *|done|].
      exists y. by rewrite <- app_assoc in Ey. }
    split; [rewrite Ef; by destruct y|].
    assert (length (d ++ i) < 2048)%nat as Hlt.
    { apply (f_equal length) in Ey. rewrite !length_app in Ey. rewrite length_app. simpl in Ey. lia. }
    destruct (wait_line_wait p e s d i Hv Hnin Hlt) as (s1 & Ew & Hf & Hv1). by exists s1.
Qed.

(** *** Positions in the response *)

Context (r : http_response) (major minor code off0 : Z).
Context (Hok : response_ok r major minor code) (Hfit : headers_fit (h_headers r)).
Context (Hlim : read_limit p = 0) (Hmax : - 2 ^ 31 ≤ max_body p < 2 ^ 31).

Inductive pos :=
| PFirst | PStatus
| PHeaders (done hs : list (list Z))
| PBody
| PSimple (off : Z) (data : list Z)
| PChunks (off : Z) (cs : list (list Z * list Z))
| PChunkData (off : Z) (data : list Z) (cs : list (list Z * list Z))
| PChunkEnd (off : Z) (cs : list (list Z * list Z))
| PTrailer (ts : list (list Z))
| PDone.

(** Behind the chunks. *)
Definition tail_bytes : list Z :=
  match h_body r with ChunkedBody _ z ts => wire_line z ++ trailer_bytes ts | _ => [] end.
(** What is still to come. *)
Definition rest_of (x : pos) : list Z :=
  match x with
  | PFirst | PStatus => response_bytes r
  | PHeaders _ hs => mjoin (wire_line <$> hs) ++ crlf ++ body_bytes (h_body r)
  | PBody => body_bytes (h_body r)
  | PSimple _ data => data
  | PChunks _ cs => mjoin (chunk_bytes <$> cs) ++ tail_bytes
  | PChunkData _ data cs => data ++ crlf ++ mjoin (chunk_bytes <$> cs) ++ tail_bytes
  | PChunkEnd _ cs => crlf ++ mjoin (chunk_bytes <$> cs) ++ tail_bytes
  | PTrailer ts => trailer_bytes ts
  | PDone => []
  end.

(** The size that is reported; for a response without a body it is the size of
    the one before. *)
Definition body_size : Z :=
  match h_body r with NoBody => off0 | Sized data => zlen data | ChunkedBody cs _ _ => chunks_size cs end.

Definition status_read (q : response) : Prop :=
  http_result q = code ∧ res_major q = s8 major ∧ res_minor q = s8 minor.
Definition headers_read (q : response) : Prop :=
  status_read q ∧ headers_size q = headers_length (h_headers r).
Definition chunks_left (off : Z) (cs : list (list Z * list Z)) : Prop :=
  (∃ all z ts, h_body r = ChunkedBody all z ts) ∧ 0 ≤ off ∧ off + chunks_size cs = body_size ∧
  Forall (λ c, size_line c.1 (zlen c.2) ∧ c.2 ≠ []) cs.

Definition at_state (x : pos) (q : response) : Prop :=
  match x with
  | PFirst => readstate q = READ_FIRST ∧ headers_size q = 0 ∧ tot_headers q = 0 ∧ chunked q = false ∧ content_offset q = off0
  | PStatus => readstate q = READ_STATUS ∧ headers_size q = 0 ∧ tot_headers q = 0 ∧ chunked q = false ∧ content_offset q = off0
  | PHeaders done hs =>
      readstate q = READ_HEADER ∧ done ++ hs = h_headers r ∧ status_read q ∧ headers_size q = headers_length done ∧
      tot_headers q = (if max_headers p =? 0 then 0 else headers_text done) ∧
      (chunked q, content_length q) = framing done ∧ content_offset q = off0
  | PBody =>
      readstate q = READ_BODY ∧ headers_read q ∧ (chunked q, content_length q) = framing (h_headers r) ∧
      content_offset q = off0
  | PSimple off data =>
      readstate q = READ_SIMPLE ∧ headers_read q ∧ 0 ≤ off ∧ off + zlen data = body_size ∧
      content_length q = body_size ∧ content_offset q = off ∧ body_size < 2 ^ 31
  | PChunks off cs =>
      readstate q = READ_CHUNKED ∧ headers_read q ∧ chunks_left off cs ∧ content_offset q = off ∧ tot_chunked q = off
  | PChunkData off data cs =>
      readstate q = READ_CHUNK_BODY ∧ headers_read q ∧ 0 ≤ off ∧ chunks_left (off + zlen data) cs ∧ content_offset q = off ∧
      tot_chunked q = off + zlen data
  | PChunkEnd off cs =>
      readstate q = READ_CHUNK_END ∧ headers_read q ∧ chunks_left off cs ∧ content_offset q = off ∧ tot_chunked q = off
  | PTrailer ts =>
      readstate q = READ_CHUNKED_TRAILER ∧ headers_read q ∧ Forall (λ l, line_ok l ∧ l ≠ []) ts ∧ content_offset q = body_size
  | PDone => readstate q = READ_DONE ∧ headers_read q ∧ content_offset q = body_size
  end.

(** The state has read up to [x]; [fut] has not arrived yet. *)
Definition at_pos (x : pos) (s : hgstate) (d i fut : list Z) : Prop :=
  view s d i ∧ (length d < 2048)%nat ∧ at_state x (rp s) ∧ d ++ i ++ fut = rest_of x.

(** One round gets on, or waits for what has not arrived. *)
Definition advances (x : pos) (s : hgstate) (d i fut : list Z) : Prop :=
  (∃ s' x' d' i', read_step p e s = Done (Continue, s') ∧ at_pos x' s' d' i' fut ∧ acts (rs s') = acts (rs s) ∧
     (measure s' d' i' < measure s d i)%nat) ∨
  (fut ≠ [] ∧ ∃ s' d', read_step p e s = Done (Return, s') ∧ at_pos x s' d' [] fut ∧ acts (rs s') = acts (rs s)).

Lemma read_step_eq s :
  read_step p e s = (ok ← (if need_line (readstate (rp s)) then wait_line p e else mret true);
                     if negb ok then mret Return else read_dispatch p e (readstate (rp s))) s.
Proof. unfold read_step, check_limit. rewrite bind_assoc, bind_get, Hlim. done. Qed.

(** Lines: [k] is what is done with the line. *)
Lemma advances_line x s d i fut l rest :
  at_pos x s d i fut → need_line (readstate (rp s)) = true → rest_of x = wire_line l ++ rest → line_ok l →
  (∀ s1 d1 i1, frame s s1 → view (set_lineoffset (lineoffset (ln s1) + (zlen l + 2)) s1) d1 i1 →
     d1 ++ i1 ++ fut = rest → (length d1 < 2048)%nat → (length (d1 ++ i1) < length (d ++ i))%nat →
     take_line s1 = Done (Some (l, zlen l + 2), set_lineoffset (lineoffset (ln s1) + (zlen l + 2)) s1) →
     ∃ s' x', read_dispatch p e (readstate (rp s)) s1 = Done (Continue, s') ∧
       ln s' = ln (set_lineoffset (lineoffset (ln s1) + (zlen l + 2)) s1) ∧ acts (rs s') = acts (rs s1) ∧
       at_state x' (rp s') ∧ rest_of x' = rest) →
  advances x s d i fut.
Proof.
  intros (Hv & Hd & Hst & Er) Hn Ex Hl Hk. unfold advances. rewrite read_step_eq, Hn. rewrite Ex in Er.
  destruct (line_step s d i fut l rest Hv Hd Er Hl) as
    [(s1 & d1 & i1 & Ew & Hf & Et & Hv1 & E1 & Hd1 & Hlt)|(Hfut & s1 & Ew & Hf & Hv1 & Hlt)].
  - left. rewrite (M_bind_done _ _ _ _ _ Ew). cbn [negb].
    destruct (Hk s1 d1 i1 Hf Hv1 E1 Hd1 Hlt Et) as (s' & x' & E & El & Ea & Hs' & Ex').
    exists s', x', d1, i1. split; [done|]. split.
    { split; [unfold view; rewrite El; exact Hv1|]. split; [done|]. split; [done|]. by rewrite Ex'. }
    split; [rewrite Ea; by apply frame_acts|]. unfold measure, rank.
    destruct (readstate (rp s')), (readstate (rp s)); try done; lia.
  - right. split; [done|]. rewrite (M_bind_done _ _ _ _ _ Ew). exists s1, (d ++ i). split; [done|].
    split; [|by apply frame_acts]. split; [done|]. split; [done|].
    split; [by rewrite (frame_rp _ _ Hf)|]. by rewrite <- app_assoc, app_nil_l, Ex.
Qed.

(** *** Each position *)

(** A round that only changes the state. *)
Lemma advances_state x x' s s' d i fut :
  at_pos x s d i fut → read_step p e s = Done (Continue, s') → ln s' = ln s ∨ ln s' = ln (set_roffset 0 s) →
  acts (rs s') = acts (rs s) → at_state x' (rp s') → rest_of x' = rest_of x →
  (rank (readstate (rp s')) < rank (readstate (rp s)))%nat → advances x s d i fut.
Proof.
  intros (Hv & Hd & Hst & Er) E El Ea Hs' Ex Hr. left. exists s', x', d, i. split; [done|].
  split; [|split; [done|unfold measure; lia]]. split; [destruct El as [El|El]; unfold view; rewrite El; exact Hv|].
  split; [done|]. split; [done|]. by rewrite Ex.
Qed.

Lemma first_advances s d i fut : at_pos PFirst s d i fut → advances PFirst s d i fut.
Proof.
  intros Hat. pose proof Hat as (_ & _ & (Er & Hrest) & _).
  pose proof (read_step_eq s) as E. rewrite Er in E. cbn [need_line read_dispatch] in E.
  rewrite bind_ret in E. cbn [negb] in E. unfold read_first in E. rewrite !bind_modify in E.
  destruct (2 <=? etim p); [unfold add_str2 in E; rewrite bind_modify in E|]; rewrite ?bind_ret in E;
    (eapply (advances_state PFirst PStatus); [done|exact E|by right|done|done|done|rewrite Er; simpl; lia]).
Qed.

Lemma status_advances s d i fut : at_pos PStatus s d i fut → advances PStatus s d i fut.
Proof.
  intros Hat. pose proof Hat as (_ & _ & (Er & Hh & Ht & Hc & Ho) & _).
  destruct Hok as (Hl & Hp & _).
  apply (advances_line PStatus s d i fut (h_status r) (rest_of (PHeaders [] (h_headers r)))); [done|by rewrite Er|done|done|].
  intros s1 d1 i1 Hf _ _ _ _ Et. pose proof (frame_rp _ _ Hf) as Erp. rewrite Er. cbn [read_dispatch].
  unfold read_status. rewrite (M_bind_done _ _ _ _ _ Et), Hp, !bind_modify.
  destruct (negb (max_headers p =? 0)); [rewrite add_str_bind|rewrite bind_ret];
    (eexists _, (PHeaders [] (h_headers r)); split; [reflexivity|]; split; [done|]; split; [done|]; split; [|done]);
    cbn [at_state rp set_lineoffset set_result set_http_result set_res_major set_res_minor set_readstate set_content_length
         readstate headers_size tot_headers content_length content_offset chunked];
    rewrite Erp, Hh, Ht, Hc, Ho; (split; [done|]); (split; [done|]); (split; [done|]); (split; [done|]);
    (split; [by destruct (max_headers p =? 0)|done]).
Qed.

Lemma join_app {A} (f : A → list Z) xs ys : mjoin (f <$> xs ++ ys) = mjoin (f <$> xs) ++ mjoin (f <$> ys).
Proof.
  induction xs as [|x xs IH]; [done|]. change ((x :: xs) ++ ys) with (x :: (xs ++ ys)).
  by rewrite !join_cons, IH, app_assoc.
Qed.

Lemma headers_length_snoc done l : headers_length (done ++ [l]) = headers_length done + (zlen l + 2).
Proof.
  unfold headers_length. rewrite join_app, zlen_app, join_cons. unfold wire_line at 2. rewrite !zlen_app.
  change (zlen crlf) with 2. change (zlen (mjoin (wire_line <$> []))) with 0. lia.
Qed.
Lemma headers_text_app a b : headers_text (a ++ b) = headers_text a + headers_text b.
Proof.
  unfold headers_text. rewrite <- zlen_app. f_equal. induction a as [|x a IH]; [done|].
  change (mjoin ((x :: a) ++ b)) with (x ++ mjoin (a ++ b)). by rewrite IH, app_assoc.
Qed.
Lemma headers_text_snoc done l : headers_text (done ++ [l]) = headers_text done + zlen l.
Proof. rewrite headers_text_app. unfold headers_text at 2. cbn. by rewrite app_nil_r. Qed.
Lemma framing_snoc done l : framing (done ++ [l]) = header_step (framing done) l.
Proof. unfold framing. by rewrite foldl_app. Qed.

(** The headers are not longer than the response. *)
Lemma headers_length_le done hs : done ++ hs = h_headers r → 0 ≤ headers_length done < 2 ^ 31.
Proof.
  intros E. destruct Hok as (_ & _ & _ & _ & Hlen). unfold response_bytes in Hlen. rewrite <- E, join_app, !zlen_app in Hlen.
  unfold headers_length. pose proof (zlen_nonneg (mjoin (wire_line <$> done))).
  pose proof (zlen_nonneg (wire_line (h_status r))). pose proof (zlen_nonneg (mjoin (wire_line <$> hs))).
  pose proof (zlen_nonneg crlf). pose proof (zlen_nonneg (body_bytes (h_body r))). lia.
Qed.

(** A header line that fits is stored as it is. *)
Lemma store_header_fits l s t :
  0 ≤ t → tot_headers (rp s) = (if max_headers p =? 0 then 0 else t) → zlen l < 2 ^ 31 →
  max_headers p = 0 ∨ t + zlen l + 1 ≤ max_headers p < 2 ^ 31 →
  ∃ s', store_header p l s = Done (l, s') ∧ ln s' = ln s ∧ acts (rs s') = acts (rs s) ∧
    rp s' = rp (set_tot_headers (if max_headers p =? 0 then 0 else t + zlen l) s).
Proof.
  intros Ht Et Hl Hfits. pose proof (zlen_nonneg l). unfold store_header. rewrite bind_get. cbv zeta. rewrite Et.
  destruct (Z.eqb_spec (max_headers p) 0) as [E0|E0].
  - rewrite E0, !u64_small by lia. destruct (Z.leb_spec (0 + zlen l + 1) 0); [lia|]. cbn [Z.leb Z.eqb negb andb].
    change ((0 ?= 0)) with Eq. cbn. eexists. split; [done|]. split; [done|]. split; [done|].
    destruct (rp s) eqn:Er. cbn in *. by subst.
  - destruct Hfits as [?|Hfits]; [done|]. rewrite !u64_small by lia.
    destruct (Z.leb_spec (t + zlen l + 1) (max_headers p)); [|lia]. rewrite s32_small by lia. unfold add_str_quoted.
    destruct (negb (t =? 0)); [rewrite add_str_bind|rewrite bind_ret]; rewrite !add_str_bind, bind_modify; by eexists.
Qed.

Lemma header_advances done l hs s d i fut :
  at_pos (PHeaders done (l :: hs)) s d i fut → advances (PHeaders done (l :: hs)) s d i fut.
Proof.
  intros Hat. pose proof Hat as (_ & _ & (Er & Ehs & (Hs1 & Hs2 & Hs3) & Hh & Ht & Hc & Ho) & _).
  destruct Hok as (_ & _ & Hhs & _). rewrite <- Ehs in Hhs. apply Forall_app in Hhs as [_ Hhs].
  apply Forall_cons in Hhs as [(Hl & Hne & Hp) _].
  apply (advances_line _ s d i fut l (rest_of (PHeaders (done ++ [l]) hs))); [done|by rewrite Er| |done|].
  { cbn [rest_of]. by rewrite join_cons, <- app_assoc. }
  intros s1 d1 i1 Hf _ _ _ _ Et. pose proof (frame_rp _ _ Hf) as Erp. rewrite Er. cbn [read_dispatch].
  unfold read_header. rewrite (M_bind_done _ _ _ _ _ Et), bind_get. rewrite bool_decide_false by done. rewrite bind_modify.
  pose proof (headers_length_le (done ++ [l]) hs ltac:(by rewrite <- app_assoc)) as Hsize. rewrite headers_length_snoc in Hsize.
  set (s2 := set_headers_size _ _).
  assert (rp s2 = rp (set_headers_size (headers_length (done ++ [l])) s)) as Erp2.
  { unfold s2. cbn [rp set_lineoffset set_headers_size]. rewrite Erp, Hh, headers_length_snoc, s32_small by lia. done. }
  assert (zlen l < 2 ^ 31) as Hzl by (destruct Hl as (_ & _ & _ & Hl); unfold zlen; lia).
  destruct (store_header_fits l s2 (headers_text done)) as (s3 & E3 & El3 & Ea3 & Erp3).
  { apply zlen_nonneg. }
  { rewrite Erp2. cbn. by rewrite Ht. }
  { done. }
  { destruct Hfit as [?|Hfits]; [by left|right]. rewrite <- Ehs, headers_text_app in Hfits.
    assert (headers_text (l :: hs) = zlen l + headers_text hs) as E1.
    { unfold headers_text. change (mjoin (l :: hs)) with (l ++ mjoin hs). by rewrite zlen_app. }
    pose proof (zlen_nonneg (mjoin hs)) as Hz. fold (headers_text hs) in Hz. lia. }
  rewrite (M_bind_done _ _ _ _ _ E3).
  assert (∀ s4 f, ln s4 = ln s3 → acts (rs s4) = acts (rs s3) → (chunked (rp s4), content_length (rp s4)) = f →
    f = header_step (framing done) l →
    readstate (rp s4) = readstate (rp s3) ∧ http_result (rp s4) = http_result (rp s3) ∧
    res_major (rp s4) = res_major (rp s3) ∧ res_minor (rp s4) = res_minor (rp s3) ∧
    headers_size (rp s4) = headers_size (rp s3) ∧ tot_headers (rp s4) = tot_headers (rp s3) ∧
    content_offset (rp s4) = content_offset (rp s3) →
    ∃ s' x', Done (Continue, s4) = Done (Continue, s') ∧
      ln s' = ln (set_lineoffset (lineoffset (ln s1) + (zlen l + 2)) s1) ∧ acts (rs s') = acts (rs s1) ∧
      at_state x' (rp s') ∧ rest_of x' = rest_of (PHeaders (done ++ [l]) hs)) as Hend.
  { intros s4 f H1 H2 H3 H4 (R1 & R2 & R3 & R4 & R5 & R6 & R7). exists s4, (PHeaders (done ++ [l]) hs).
    split; [done|]. split; [by rewrite H1, El3|]. split; [by rewrite H2, Ea3|]. split; [|done].
    cbn [at_state]. rewrite R1, R5, R6, R7, H3, framing_snoc, H4, headers_text_snoc. unfold status_read. rewrite R2, R3, R4.
    rewrite Erp3. cbn [rp set_tot_headers readstate http_result res_major res_minor headers_size tot_headers content_offset].
    rewrite Erp2. cbn [rp set_headers_size readstate http_result res_major res_minor headers_size tot_headers content_offset].
    rewrite <- app_assoc. done. }
  assert (chunked (rp s3) = chunked (rp s) ∧ content_length (rp s3) = content_length (rp s)) as [Ec El].
  { rewrite Erp3. cbn [rp set_tot_headers chunked content_length]. rewrite Erp2. done. }
  destruct (parse_header l) as [| |k|k t] eqn:Ep; [| | |done]; rewrite ?bind_modify.
  - apply (Hend s3 (framing done)); [done|done|by rewrite Ec, El, Hc|unfold header_step; by rewrite Ep|done].
  - apply (Hend _ (true, (framing done).2)); [done|done| |unfold header_step; by rewrite Ep|done].
    cbn [rp set_chunked chunked content_length]. rewrite El, <- Hc. done.
  - apply (Hend _ ((framing done).1, k)); [done|done| |unfold header_step; by rewrite Ep|done].
    cbn [rp set_content_length chunked content_length]. rewrite Ec, <- Hc. done.
Qed.

Lemma empty_line_ok : line_ok [].
Proof. split; [apply not_elem_of_nil|]. split; [done|]. split; [done|simpl; lia]. Qed.

Lemma headers_end_advances done s d i fut :
  at_pos (PHeaders done []) s d i fut → advances (PHeaders done []) s d i fut.
Proof.
  intros Hat. pose proof Hat as (_ & _ & (Er & Ehs & Hst & Hh & Ht & Hc & Ho) & _). rewrite app_nil_r in Ehs. subst done.
  apply (advances_line _ s d i fut [] (rest_of PBody)); [done|by rewrite Er|done|apply empty_line_ok|].
  intros s1 d1 i1 Hf _ _ _ _ Et. pose proof (frame_rp _ _ Hf) as Erp. rewrite Er. cbn [read_dispatch].
  unfold read_header. rewrite (M_bind_done _ _ _ _ _ Et), bind_get. rewrite bool_decide_true by done.
  set (s2 := set_lineoffset _ s1). assert (rp s2 = rp s) as Erp2 by exact Erp.
  set (k := (if negb (max_headers p =? 0) then add_str (str " ], ") else mret tt) ≫= _).
  assert (∀ s3, ln s3 = ln s2 → acts (rs s3) = acts (rs s1) → rp s3 = rp s →
    ∃ s' x', k s3 = Done (Continue, s') ∧ ln s' = ln s2 ∧ acts (rs s') = acts (rs s1) ∧ at_state x' (rp s') ∧
      rest_of x' = rest_of PBody) as Hk.
  { intros s3 H1 H2 H3. unfold k.
    destruct (negb (max_headers p =? 0)); [rewrite add_str_bind|rewrite bind_ret]; rewrite bind_modify;
      (eexists _, PBody; split; [done|]; split; [done|]; split; [done|]; split; [|done]);
      cbn [at_state rp set_result set_readstate readstate]; unfold headers_read, status_read;
      cbn [http_result res_major res_minor headers_size chunked content_length content_offset]; rewrite H3; done. }
  destruct (_ && _); [|rewrite bind_ret; by apply Hk]. rewrite bind_assoc.
  destruct (negb (tot_headers (rp s2) =? 0)); [rewrite add_str_bind|rewrite bind_ret]; rewrite add_str_bind; by apply Hk.
Qed.

Lemma sized_bound data : h_body r = Sized data → zlen data < 2 ^ 31.
Proof.
  intros Eb. destruct Hok as (_ & _ & _ & _ & Hlen). unfold response_bytes in Hlen. rewrite Eb in Hlen.
  cbn [body_bytes] in Hlen. rewrite !zlen_app in Hlen.
  pose proof (zlen_nonneg (wire_line (h_status r))). pose proof (zlen_nonneg (mjoin (wire_line <$> h_headers r))).
  pose proof (zlen_nonneg crlf). lia.
Qed.

Lemma body_advances s d i fut : at_pos PBody s d i fut → advances PBody s d i fut.
Proof.
  intros Hat. pose proof Hat as (_ & _ & (Er & Hh & Hc & Ho) & _). pose proof Hh as ((Hcode & _) & _).
  destruct Hok as (_ & _ & _ & Hb & _).
  pose proof (read_step_eq s) as E. rewrite Er in E. cbn [need_line read_dispatch] in E. rewrite bind_ret in E.
  cbn [negb] in E. unfold read_body in E. rewrite bind_get in E. cbv zeta in E. rewrite Hcode in E. fold (no_body code) in E.
  unfold body_matches in Hb. destruct (h_body r) as [|data|cs z ts] eqn:Eb.
  - rewrite Hb, bind_modify in E.
    eapply (advances_state PBody PDone); [done|exact E|by left|done| |cbn; by rewrite Eb|rewrite Er; simpl; lia].
    cbn [at_state]. unfold body_size. rewrite Eb. done.
  - destruct Hb as [Hb Hfr]. rewrite Hfr in Hc. injection Hc as Hc1 Hc2. rewrite Hb, Hc1, bind_assoc, !bind_modify in E.
    eapply (advances_state PBody (PSimple 0 data)); [done|exact E|by left|done| |cbn; by rewrite Eb|rewrite Er; simpl; lia].
    cbn [at_state]. unfold body_size. rewrite Eb. split; [done|]. split; [done|]. split; [lia|]. split; [done|].
    split; [exact Hc2|]. split; [done|]. by apply sized_bound.
  - destruct Hb as (Hb & Hfr & Hcs & _). rewrite <- Hc in Hfr. cbn [fst] in Hfr.
    rewrite Hb, Hfr, !bind_assoc, !bind_modify in E. rewrite ?bind_assoc, ?bind_modify in E.
    eapply (advances_state PBody (PChunks 0 cs)); [done|exact E|by left|done| | |rewrite Er; simpl; lia].
    + cbn [at_state]. split; [done|]. split; [done|]. split; [|done]. split; [by eauto|]. split; [lia|].
      split; [|done]. unfold body_size. by rewrite Eb.
    + cbn. unfold tail_bytes. by rewrite Eb.
Qed.

Lemma trailer_advances ts s d i fut : at_pos (PTrailer ts) s d i fut → advances (PTrailer ts) s d i fut.
Proof.
  intros Hat. pose proof Hat as (_ & _ & (Er & Hh & Hts & Ho) & _).
  destruct ts as [|l ts].
  - apply (advances_line _ s d i fut [] []); [done|by rewrite Er|done|apply empty_line_ok|].
    intros s1 d1 i1 Hf _ _ _ _ Et. pose proof (frame_rp _ _ Hf) as Erp. rewrite Er. cbn [read_dispatch].
    unfold read_trailer. rewrite (M_bind_done _ _ _ _ _ Et). rewrite bool_decide_true by done. rewrite bind_modify.
    eexists _, PDone. split; [done|]. split; [done|]. split; [done|]. split; [|done].
    cbn [at_state rp set_lineoffset set_readstate]. unfold headers_read, status_read.
    cbn [readstate http_result res_major res_minor headers_size content_offset]. by rewrite Erp.
  - apply Forall_cons in Hts as [[Hl Hne] Hts].
    apply (advances_line _ s d i fut l (trailer_bytes ts)); [done|by rewrite Er| |done|].
    { cbn [rest_of]. unfold trailer_bytes. by rewrite join_cons, <- app_assoc. }
    intros s1 d1 i1 Hf _ _ _ _ Et. pose proof (frame_rp _ _ Hf) as Erp. rewrite Er. cbn [read_dispatch].
    unfold read_trailer. rewrite (M_bind_done _ _ _ _ _ Et). rewrite bool_decide_false by done. rewrite bind_ret.
    eexists _, (PTrailer ts). split; [done|]. split; [done|]. split; [done|]. split; [|done].
    cbn [at_state rp set_lineoffset]. rewrite Erp. done.
Qed.

Lemma chunk_end_advances off cs s d i fut :
  at_pos (PChunkEnd off cs) s d i fut → advances (PChunkEnd off cs) s d i fut.
Proof.
  intros Hat. pose proof Hat as (_ & _ & (Er & Hh & Hc & Ho & Ht) & _).
  apply (advances_line _ s d i fut [] (rest_of (PChunks off cs))); [done|by rewrite Er|done|apply empty_line_ok|].
  intros s1 d1 i1 Hf _ _ _ _ Et. pose proof (frame_rp _ _ Hf) as Erp. rewrite Er. cbn [read_dispatch].
  unfold read_chunk_end. rewrite (M_bind_done _ _ _ _ _ Et). rewrite bool_decide_true by done. cbn [negb]. rewrite bind_modify.
  eexists _, (PChunks off cs). split; [done|]. split; [done|]. split; [done|]. split; [|done].
  cbn [at_state rp set_lineoffset set_readstate]. unfold headers_read, status_read.
  cbn [readstate http_result res_major res_minor headers_size content_offset tot_chunked]. by rewrite Erp.
Qed.

Lemma chunks_size_cons c cs : chunks_size (c :: cs) = zlen c.2 + chunks_size cs.
Proof. unfold chunks_size. by rewrite join_cons, zlen_app. Qed.
Lemma chunks_size_le cs : 0 ≤ chunks_size cs ≤ zlen (mjoin (chunk_bytes <$> cs)).
Proof.
  induction cs as [|c cs IH]; [done|]. rewrite chunks_size_cons, join_cons, zlen_app. unfold chunk_bytes at 1.
  rewrite !zlen_app. pose proof (zlen_nonneg c.2). pose proof (zlen_nonneg (wire_line c.1)). pose proof (zlen_nonneg crlf). lia.
Qed.

Lemma chunks_left_bound off cs : chunks_left off cs → 0 ≤ off + chunks_size cs < 2 ^ 31 ∧ 0 ≤ chunks_size cs.
Proof.
  intros ((all & z & ts & Eb) & Ho & Es & _). pose proof (chunks_size_le cs). split; [|lia]. split; [lia|]. rewrite Es.
  destruct Hok as (_ & _ & _ & _ & Hlen). unfold response_bytes, body_size in *. rewrite Eb in *. cbn [body_bytes] in Hlen.
  pose proof (chunks_size_le all). rewrite !zlen_app in Hlen.
  pose proof (zlen_nonneg (wire_line (h_status r))). pose proof (zlen_nonneg (mjoin (wire_line <$> h_headers r))).
  pose proof (zlen_nonneg crlf). pose proof (zlen_nonneg (wire_line z)). pose proof (zlen_nonneg (trailer_bytes ts)). lia.
Qed.

Lemma chunks_advances off cs s d i fut : at_pos (PChunks off cs) s d i fut → advances (PChunks off cs) s d i fut.
Proof.
  intros Hat. pose proof Hat as (_ & _ & (Er & Hh & Hc & Ho & Ht) & _).
  pose proof (chunks_left_bound off cs Hc) as [Hb Hb0]. pose proof Hc as ((all & z & ts & Eb) & Hoff & Es & Hcs).
  destruct cs as [|[h data] cs].
  - destruct Hok as (_ & _ & _ & Hbm & _). unfold body_matches in Hbm. rewrite Eb in Hbm.
    destruct Hbm as (_ & _ & _ & (Hz & check & Est & Hck) & Hts).
    apply (advances_line _ s d i fut z (rest_of (PTrailer ts))); [done|by rewrite Er|cbn; unfold tail_bytes; by rewrite Eb|done|].
    intros s1 d1 i1 Hf _ _ _ _ Et. pose proof (frame_rp _ _ Hf) as Erp. rewrite Er. cbn [read_dispatch].
    unfold read_chunked. rewrite (M_bind_done _ _ _ _ _ Et), Est.
    assert (match check with [] => false | c :: _ => negb (isspace c) end = false) as -> by (destruct check; [done|by rewrite Hck]).
    change (0 =? 0) with true. cbv iota. rewrite bind_modify.
    eexists _, (PTrailer ts). split; [done|]. split; [done|]. split; [done|]. split; [|done].
    cbn [at_state rp set_lineoffset set_readstate]. unfold headers_read, status_read.
    cbn [readstate http_result res_major res_minor headers_size content_offset]. rewrite Erp. split; [done|]. split; [done|].
    split; [done|]. change (chunks_size []) with 0 in Es. lia.
  - apply Forall_cons in Hcs as [[(Hl & check & Est & Hck) Hne] Hcs]. cbn [fst snd] in *.
    rewrite chunks_size_cons in *. cbn [snd] in *.
    assert (0 < zlen data) as Hpos by (destruct data; [done|]; rewrite zlen_cons; pose proof (zlen_nonneg data); lia).
    pose proof (chunks_size_le cs).
    apply (advances_line _ s d i fut h (rest_of (PChunkData off data cs))); [done|by rewrite Er| |done|].
    { cbn [rest_of]. rewrite join_cons. unfold chunk_bytes at 1. cbn [fst snd]. by rewrite <- !app_assoc. }
    intros s1 d1 i1 Hf _ _ _ _ Et. pose proof (frame_rp _ _ Hf) as Erp. rewrite Er. cbn [read_dispatch].
    unfold read_chunked. rewrite (M_bind_done _ _ _ _ _ Et), Est.
    assert (match check with [] => false | c :: _ => negb (isspace c) end = false) as -> by (destruct check; [done|by rewrite Hck]).
    destruct (Z.eqb_spec (zlen data) 0); [lia|]. rewrite !bind_modify.
    eexists _, (PChunkData off data cs). split; [done|]. split; [done|]. split; [done|]. split; [|done].
    cbn [at_state rp set_lineoffset set_readstate set_tot_chunked]. unfold headers_read, status_read.
    cbn [readstate http_result res_major res_minor headers_size content_offset tot_chunked]. rewrite Erp, Ht.
    split; [done|]. split; [done|]. split; [lia|]. split; [|split; [done|apply s32_small; lia]].
    split; [by eauto|]. split; [lia|]. split; [lia|done].
Qed.

(** Data of the body is used as far as it arrived. *)
Lemma advances_data x s s1 d i d1 i1 fut len x' :
  at_pos x s d i fut → frame s s1 → view s1 d1 i1 → linemax (ln s1) ≠ 0 → d1 ++ i1 = d ++ i → (length d1 ≤ 2048)%nat →
  0 < len ≤ zlen d1 →
  read_step p e s = use_data len s1 →
  (readstate (rp s) = READ_SIMPLE ∨ readstate (rp s) = READ_CHUNK_BODY) →
  at_state x' (rp (set_content_offset (s32 (content_offset (rp s) + len)) s)) →
  (∀ f, rest_of x = take (Z.to_nat len) d1 ++ f → rest_of x' = f) →
  advances x s d i fut.
Proof.
  intros (Hv & Hd & Hst & Er) Hf Hv1 Hm Ed Hd1 Hlen E Hr Hx' Hrest. left.
  pose proof (frame_rp _ _ Hf) as Erp. rewrite E. unfold use_data. rewrite !bind_modify.
  assert (d1 = take (Z.to_nat len) d1 ++ drop (Z.to_nat len) d1) as Esp by (by rewrite take_drop).
  rewrite Esp in Hv1.
  pose proof (view_use s1 _ _ i1 len Hv1 Hm ltac:(unfold zlen in *; rewrite length_take; lia)) as Hv2.
  eexists _, x', (drop (Z.to_nat len) d1), i1. split; [done|]. split; [|split].
  - split; [exact Hv2|]. unfold zlen in Hlen. split; [rewrite length_drop; lia|].
    split; [cbn [rp set_lineoffset set_content_offset] in *; by rewrite Erp|].
    symmetry. apply Hrest. by rewrite <- Er, (app_assoc d), <- Ed, <- app_assoc, (app_assoc (take _ _)), take_drop.
  - by apply frame_acts in Hf.
  - unfold measure. cbn [rp set_lineoffset set_content_offset readstate]. rewrite <- Ed, !length_app, length_drop, Erp.
    unfold zlen in Hlen. destruct Hr as [Hr|Hr]; rewrite Hr; simpl; lia.
Qed.

(** Waiting for the body. *)
Lemma advances_wait x s s1 d i fut :
  at_pos x s d i fut → frame s s1 → view s1 [] [] → d ++ i = [] → rest_of x ≠ [] →
  read_step p e s = Done (Return, s1) → advances x s d i fut.
Proof.
  intros (Hv & Hd & Hst & Er) Hf Hv1 E0 Hne E. rewrite app_assoc, E0, app_nil_l in Er. right. split; [congruence|].
  exists s1, []. split; [done|]. split; [|by apply frame_acts].
  split; [done|]. split; [simpl; lia|]. split; [by rewrite (frame_rp _ _ Hf)|done].
Qed.

(** The rest behind the first [len] bytes. *)
Lemma rest_drop (d data more : list Z) (len : Z) f :
  0 ≤ len ≤ zlen data → data ++ more = take (Z.to_nat len) d ++ f → len ≤ zlen d → drop (Z.to_nat len) data ++ more = f.
Proof.
  intros Hlen E Hd. apply (f_equal (drop (Z.to_nat len))) in E. unfold zlen in *.
  rewrite drop_app_le in E by lia. rewrite E. apply drop_app_length'. rewrite length_take. lia.
Qed.

Lemma zlen_drop {A} (l : list A) len : 0 ≤ len ≤ zlen l → zlen (drop (Z.to_nat len) l) = zlen l - len.
Proof. intros H. unfold zlen in *. rewrite length_drop. lia. Qed.

Lemma zlen_pos {A} (l : list A) : l ≠ [] → 0 < zlen l.
Proof. destruct l; [done|]. rewrite zlen_cons. pose proof (zlen_nonneg l). lia. Qed.

Lemma simple_advances off data s d i fut :
  at_pos (PSimple off data) s d i fut → advances (PSimple off data) s d i fut.
Proof.
  intros Hat. pose proof Hat as (Hv & Hd & (Er & Hh & Hoff & Hsz & Hcl & Ho & Hbs) & Erest). cbn [rest_of] in Erest.
  pose proof (zlen_nonneg data) as Hz.
  pose proof (read_step_eq s) as E. rewrite Er in E. cbn [need_line read_dispatch] in E. rewrite bind_ret in E.
  cbn [negb] in E. unfold read_simple in E. rewrite bind_get in E.
  destruct (decide (data = [])) as [->|Hne].
  - change (zlen []) with 0 in Hsz.
    assert ((0 <=? content_length (rp s)) && (content_length (rp s) <=? content_offset (rp s)) = true) as Ec
      by (apply andb_true_iff; split; apply Z.leb_le; lia).
    rewrite Ec, bind_modify in E.
    eapply (advances_state _ PDone); [done|exact E|by left|done| |done|rewrite Er; simpl; lia].
    cbn [at_state]. split; [done|]. split; [done|]. cbn. lia.
  - apply zlen_pos in Hne as Hpos.
    assert ((0 <=? content_length (rp s)) && (content_length (rp s) <=? content_offset (rp s)) = false) as Ec
      by (apply andb_false_iff; right; apply Z.leb_gt; lia).
    rewrite Ec in E.
    destruct (wait_data_ok p e s d i Hv Hd) as [(E0 & s1 & Ew & Hf & Hv1)|(s1 & d1 & i1 & Ew & Hf & Hm & Hv1 & Ed & Hne1 & Hd1 & Hl1)];
      rewrite (M_bind_done _ _ _ _ _ Ew) in E; cbn [negb] in E; [by apply (advances_wait _ s s1)|].
    rewrite bind_get, Hl1 in E. pose proof (frame_rp _ _ Hf) as Erp.
    assert (data = d1 ++ i1 ++ fut) as Edata by (by rewrite (app_assoc d1), Ed, <- app_assoc).
    assert (zlen d1 ≤ zlen data) as Hle by (rewrite Edata, zlen_app; pose proof (zlen_nonneg (i1 ++ fut)); lia).
    apply zlen_pos in Hne1 as Hpos1.
    assert (0 < clip_body p s1 (zlen d1) ≤ zlen d1) as Hclip.
    { apply clip_body_ok; [rewrite Erp; lia|lia|rewrite Erp; lia|done]. }
    set (len := clip_body p s1 (zlen d1)) in *.
    apply (advances_data _ s s1 d i d1 i1 fut len (PSimple (off + len) (drop (Z.to_nat len) data)));
      [done|done|done|done|done|done|done|done|by left| |].
    + cbn [at_state rp set_content_offset]. unfold headers_read, status_read.
      cbn [readstate http_result res_major res_minor headers_size content_length content_offset].
      rewrite zlen_drop by lia. rewrite s32_small by lia. split; [done|]. split; [done|]. split; [lia|]. split; [lia|].
      split; [done|]. split; [lia|done].
    + intros f Ef. cbn [rest_of] in *. rewrite <- (app_nil_r data) in Ef. rewrite <- (app_nil_r (drop _ data)).
      apply (rest_drop d1); [lia|done|lia].
Qed.

Lemma chunk_data_advances off data cs s d i fut :
  at_pos (PChunkData off data cs) s d i fut → advances (PChunkData off data cs) s d i fut.
Proof.
  intros Hat. pose proof Hat as (Hv & Hd & (Er & Hh & Hoff & Hc & Ho & Ht) & Erest). cbn [rest_of] in Erest.
  pose proof (zlen_nonneg data) as Hz. pose proof (chunks_left_bound _ _ Hc) as [Hb Hb0].
  pose proof (read_step_eq s) as E. rewrite Er in E. cbn [need_line read_dispatch] in E. rewrite bind_ret in E.
  cbn [negb] in E. unfold read_chunk_body in E. rewrite bind_get, Ho, Ht in E.
  destruct (decide (data = [])) as [->|Hne].
  - change (zlen []) with 0 in *. rewrite Z.add_0_r in *. rewrite Z.leb_refl, bind_modify in E.
    by eapply (advances_state _ (PChunkEnd off cs)); [done|exact E|by left|done| |done|rewrite Er; simpl; lia].
  - apply zlen_pos in Hne as Hpos. destruct (Z.leb_spec (off + zlen data) off); [lia|].
    destruct (wait_data_ok p e s d i Hv Hd) as [(E0 & s1 & Ew & Hf & Hv1)|(s1 & d1 & i1 & Ew & Hf & Hm & Hv1 & Ed & Hne1 & Hd1 & Hl1)];
      rewrite (M_bind_done _ _ _ _ _ Ew) in E; cbn [negb] in E.
    { apply (advances_wait _ s s1); try done. cbn [rest_of]. by destruct data. }
    rewrite bind_get, Hl1 in E. cbv zeta in E. pose proof (frame_rp _ _ Hf) as Erp. rewrite Erp, Ho, Ht in E.
    apply zlen_pos in Hne1 as Hpos1. assert (zlen d1 ≤ 2048) by (unfold zlen; lia).
    set (len1 := if _ <? _ then _ else _) in E.
    assert (len1 = Z.min (zlen d1) (zlen data)) as Elen1.
    { unfold len1. rewrite !u64_small by lia. destruct (Z.ltb_spec (off + zlen data) (off + zlen d1)); [|lia].
      rewrite s32_small, u64_small by lia. lia. }
    assert (0 < clip_body p s1 len1 ≤ len1) as Hclip.
    { apply clip_body_ok; [rewrite Erp; lia|lia|rewrite Erp; lia|done]. }
    set (len := clip_body p s1 len1) in *.
    apply (advances_data _ s s1 d i d1 i1 fut len (PChunkData (off + len) (drop (Z.to_nat len) data) cs));
      [done|done|done|done|done|done|lia|done|by right| |].
    + cbn [at_state rp set_content_offset]. unfold headers_read, status_read.
      cbn [readstate http_result res_major res_minor headers_size content_length content_offset tot_chunked].
      rewrite zlen_drop by lia. rewrite s32_small by lia. replace (off + len + (zlen data - len)) with (off + zlen data) by lia.
      split; [done|]. split; [done|]. split; [lia|]. split; [done|]. split; [lia|done].
    + intros f Ef. cbn [rest_of] in *. apply (rest_drop d1); [lia|done|lia].
Qed.

(** Every position but the last. *)
Lemma pos_advances x s d i fut : x ≠ PDone → at_pos x s d i fut → advances x s d i fut.
Proof.
  intros Hx Hat. destruct x as [| |dn [|l hs]| | | | | | |]; [..|by destruct Hx].
  - by apply first_advances.
  - by apply status_advances.
  - by apply headers_end_advances.
  - by apply header_advances.
  - by apply body_advances.
  - by apply simple_advances.
  - by apply chunks_advances.
  - by apply chunk_data_advances.
  - by apply chunk_end_advances.
  - by apply trailer_advances.
Qed.

(** *** The whole response *)

(** The response was reported, as it is. *)
Definition reported (a : list action) (s' : hgstate) : Prop :=
  readstate (rp s') = READ_DONE ∧ headers_read (rp s') ∧ content_offset (rp s') = body_size ∧
  ∃ s, rp s = rp s' ∧ acts (rs s') = a ++ report_actions p e s ∧ busy (rs s') = more p s && busy (rs s) ∧
    (more p s = false → linemax (ln s') = 0 ∧ line (ln s') = None).

Lemma done_reported s d i fut :
  at_pos PDone s d i fut → fut = [] ∧ ∃ s', read_step p e s = Done (Return, s') ∧ reported (acts (rs s)) s'.
Proof.
  intros ([Hl Hb] & _ & (Er & Hh & Ho) & Erest). cbn [rest_of] in Erest.
  apply app_eq_nil in Erest as [_ Erest]. apply app_eq_nil in Erest as [_ ->]. split; [done|].
  rewrite read_step_eq, Er. cbn [need_line read_dispatch]. rewrite bind_ret. cbn [negb].
  unfold read_done. rewrite bind_get, Hb. rewrite bool_decide_true by done. rewrite bind_assoc, bind_modify.
  destruct (report_ok p e (set_bev None s)) as (s' & E & (Hrp & _) & _ & Ha & Hbusy & Hend & _).
  rewrite (M_bind_done _ _ _ _ _ E). exists s'. split; [done|]. unfold reported. rewrite Hrp.
  split; [done|]. split; [done|]. split; [done|]. exists (set_bev None s). split; [done|]. split; [done|]. split; [done|].
  intros Hmore. destruct (Hend Hmore) as (E1 & _ & E2). split; [done|]. apply E2.
  cbn [ln set_bev linemax line]. destruct Hl as [(_ & El & _)|(El & _)]; [by right|left; by rewrite El].
Qed.

Lemma loop_pos fuel x s d i fut :
  at_pos x s d i fut → (measure s d i < fuel)%nat →
  ∃ s', read_loop p e fuel s = Done (tt, s') ∧
    ((fut = [] ∧ reported (acts (rs s)) s') ∨
     (fut ≠ [] ∧ ∃ x' d', at_pos x' s' d' [] fut ∧ acts (rs s') = acts (rs s))).
Proof.
  revert x s d i. induction fuel as [|fuel IH]; intros x s d i Hat Hf; [lia|].
  cbn [read_loop]. destruct (decide (rest_of x = [] ∧ readstate (rp s) = READ_DONE)) as [[Ex Er]|Hnd].
  - assert (x = PDone) as -> by (destruct Hat as (_ & _ & Hst & _); destruct x; cbn [at_state] in Hst; destruct Hst; congruence).
    destruct (done_reported s d i fut Hat) as (Hfut & s' & E & Hrep). rewrite (M_bind_done _ _ _ _ _ E).
    exists s'. split; [done|]. by left.
  - assert (x ≠ PDone) as Hx by (intros ->; apply Hnd; split; [done|]; by destruct Hat as (_ & _ & [] & _)).
    destruct (pos_advances x s d i fut Hx Hat) as [(s1 & x1 & d1 & i1 & E & Hat1 & Ha & Hm)|(Hfut & s1 & d1 & E & Hat1 & Ha)];
      rewrite (M_bind_done _ _ _ _ _ E).
    + destruct (IH x1 s1 d1 i1 Hat1 ltac:(lia)) as (s' & E' & H). exists s'. split; [done|]. by rewrite <- Ha.
    + exists s1. split; [done|]. right. split; [done|]. by exists x, d1.
Qed.

Lemma readcb_pos x s d i fut :
  at_pos x s d i fut →
  ∃ s', readcb p e s = Done (tt, s') ∧
    ((fut = [] ∧ reported (acts (rs s)) s') ∨
     (fut ≠ [] ∧ ∃ x' d', at_pos x' s' d' [] fut ∧ acts (rs s') = acts (rs s))).
Proof.
  intros Hat. unfold readcb. rewrite bind_get, bind_modify.
  refine (loop_pos _ x (set_report_roffset true s) d i fut Hat _).
  destruct Hat as ([Hl Hb] & _). rewrite Hb. change (default [] (Some i)) with i.
  unfold measure. cbn [rp set_report_roffset].
  assert (length d ≤ Z.to_nat (linelen (ln s)))%nat as Hle.
  { destruct Hl as [(_ & _ & _ & _ & ->)|(_ & pre & tl & _ & _ & _ & ->)]; [simpl; lia|unfold zlen; lia]. }
  rewrite length_app. unfold rank. destruct (readstate (rp s)); lia.
Qed.

(** A piece of the response arrives and [readcb] is called. *)
Definition deliver (seg : list Z) : H unit :=
  modify (λ s, set_bev ((λ l, l ++ seg) <$> bev (ln s)) s);; readcb p e.
Fixpoint deliver_all (segs : list (list Z)) : H unit :=
  match segs with [] => mret tt | seg :: segs' => deliver seg;; deliver_all segs' end.

Lemma deliver_pos x s d seg fut :
  at_pos x s d [] (seg ++ fut) →
  ∃ s', deliver seg s = Done (tt, s') ∧
    ((fut = [] ∧ reported (acts (rs s)) s') ∨
     (fut ≠ [] ∧ ∃ x' d', at_pos x' s' d' [] fut ∧ acts (rs s') = acts (rs s))).
Proof.
  intros ([Hl Hb] & Hd & Hst & Er). unfold deliver. rewrite bind_modify, Hb. cbn [fmap option_fmap option_map app].
  refine (readcb_pos x (set_bev (Some seg) s) d seg fut _).
  split; [split; [exact Hl|done]|]. split; [done|]. split; [done|]. by rewrite <- Er.
Qed.

Lemma deliver_all_pos segs x s d :
  at_pos x s d [] (mjoin segs) → segs ≠ [] → Forall (λ seg, seg ≠ []) segs →
  ∃ s', deliver_all segs s = Done (tt, s') ∧ reported (acts (rs s)) s'.
Proof.
  revert x s d. induction segs as [|seg segs IH]; intros x s d Hat Hne Hsegs; [done|].
  apply Forall_cons in Hsegs as [Hseg Hsegs]. change (mjoin (seg :: segs)) with (seg ++ mjoin segs) in Hat.
  destruct (deliver_pos x s d seg (mjoin segs) Hat) as (s1 & E & H). cbn [deliver_all]. rewrite (M_bind_done _ _ _ _ _ E).
  destruct segs as [|seg' segs].
  - destruct H as [[_ H]|[H _]]; [|done]. by exists s1.
  - destruct H as [[H _]|(_ & x' & d' & Hat' & Ha)].
    { apply Forall_cons in Hsegs as [Hs' _]. change (mjoin (seg' :: segs)) with (seg' ++ mjoin segs) in H.
      by apply app_eq_nil in H as [H _]. }
    rewrite <- Ha. by apply (IH x' s1 d').
Qed.
End Response.

(** ** Properties *)

(** A measurement that is not running. *)
Definition idle (s : hgstate) : Prop := busy (rs s) = false ∧ linemax (ln s) = 0 ∧ line (ln s) = None.

(** The measurement starts, the name resolves to [count] addresses, and the
    connection to the first is there. *)
Definition open_connection (p : params) (count : Z) : H unit :=
  httpget_start;; dnscount count;; beforeconnect p;; connected.

Lemma open_connection_ok p count s :
  idle s →
  ∃ s', open_connection p count s = Done (tt, s') ∧ view s' [] [] ∧ readstate (rp s') = READ_FIRST ∧
    headers_size (rp s') = 0 ∧ tot_headers (rp s') = 0 ∧ chunked (rp s') = chunked (rp s) ∧
    content_offset (rp s') = content_offset (rp s) ∧ acts (rs s') = acts (rs s) ++ [Connect] ∧ busy (rs s') = true.
Proof.
  intros (Hb & Hm & Hl). unfold open_connection, httpget_start, dnscount, beforeconnect, connected, act, add_str.
  rewrite !bind_assoc, bind_get, Hb. msimpl.
  destruct (negb (do_all p) || negb (do_combine p)); msimpl;
    (eexists; split; [reflexivity|]); (split; [split; [left|]|]); cbn; rewrite ?Hm, ?Hl; done.
Qed.


(** A measurement and a chunked response in pieces of seven bytes. *)
Definition sample_params : params :=
  P (Some (str "1")) None false false true false false false (str "ua") (str "h") (str "/") None None None 100 0 0 0.
Definition sample_env : env :=
  ENV (str "V") 1 2 3 false (str "0.1") true (Some (str "::1")) (str "::2") (str "9.9") (str "1") (str "2") (str "3") (str "4").
Definition sample_state : hgstate :=
  HG (LN None 0 0 0 0 false None) (RP READ_STATUS 0 0 0 0 0 false 0 0 0 false) (RS false false false 0 0 [] [] [] true)
     (WR WRITE_HEADER false None []).
Definition sample_response : http_response :=
  HR (str "HTTP/1.1 200 OK") [str "Transfer-Encoding: chunked"; str "Server: x"]
    (ChunkedBody [(str "5", str "hello"); (str "1 ", str "!")] (str "0") [str "T: y"]).
Fixpoint pieces (fuel : nat) (l : list Z) : list (list Z) :=
  match fuel with O => [] | S f => match l with [] => [] | _ => take 7 l :: pieces f (drop 7 l) end end.

Ltac solve_line := split; [by apply (bool_decide_unpack _)|split; [by vm_compute|split; [by vm_compute|vm_compute; lia]]].

Lemma sample_response_ok : response_ok sample_params sample_response 1 1 200.
Proof.
  split; [solve_line|]. split; [by vm_compute|]. split; [|split; [|by vm_compute]].
  - repeat apply Forall_cons_2; try apply Forall_nil_2; (split; [solve_line|split; [done|by vm_compute]]).
  - split; [done|]. split; [done|]. split; [|split].
    + repeat apply Forall_cons_2; try apply Forall_nil_2;
        (split; [split; [solve_line|]|done]); [by exists []|by exists [32]].
    + split; [solve_line|]. by exists [].
    + repeat apply Forall_cons_2; try apply Forall_nil_2. split; [solve_line|done].
Qed.


(** C32: [readcb] always returns, whatever the server sends: afterwards the
    address is finished (reported, with the next one or the end asked for), or
    all input was taken and the buffer has room for more.  It never reads or
    writes outside the buffer. *)
Theorem readcb_returns p e s data input :
  - 2 ^ 31 ≤ max_body p < 2 ^ 31 → reading s data input →
  ∃ s', readcb p e s = Done (tt, s') ∧
    ((∃ r, finished r s') ∨ (∃ data', reading s' data' [] ∧ acts (rs s') = acts (rs s))).
Proof. intros Hmax Hr. by apply (readcb_total p e Hmax s data input). Qed.

Lemma readcb_returns_witness :
  ∃ s', readcb sample_params sample_env
      (set_bev (Some (replicate 3000 65)) (set_readstate READ_FIRST sample_state)) = Done (tt, s') ∧
    ((∃ r, finished r s') ∨ (∃ data', reading s' data' [] ∧ acts (rs s') = [])).
Proof.
  apply (readcb_returns sample_params sample_env
    (set_bev (Some (replicate 3000 65)) (set_readstate READ_FIRST sample_state)) [] (replicate 3000 65)).
  - done.
  - split; [split; [by left|done]|]. split; [simpl; lia|]. split; [by vm_compute|done].
Defined.

(** a header line in the report can be read back: undoing the quotes of
    [add_str_quoted] gives the bytes of the line. *)
Theorem header_line_quoted l s :
  Forall is_byte l →
  ∃ text, add_str_quoted l s = Done (tt, set_result (result (rs s) ++ text) s) ∧ unquote text = Some l.
Proof.
  intros Hl. exists (mjoin (quoted <$> l)). split; [done|].
  induction Hl as [|c l Hc _ IH]; [done|]. rewrite join_cons, unquote_quoted by done. by rewrite IH.
Qed.

Lemma header_line_quoted_witness :
  ∃ text, add_str_quoted [34; 92; 200; 65] sample_state =
    Done (tt, set_result (result (rs sample_state) ++ text) sample_state) ∧ unquote text = Some [34; 92; 200; 65].
Proof. apply (header_line_quoted [34; 92; 200; 65] sample_state). solve_bytes. Defined.

(** ** URLs *)

(** A URL in its parts; the host may be an IPv6 address. *)
Inductive host_t := Name (n : list Z) | Literal (a : list Z).
Record url_parts := UP { up_tls : bool; up_host : host_t; up_port : option (list Z); up_path : option (list Z) }.
Definition host_text (h : host_t) : list Z := match h with Name n => n | Literal a => [91] ++ a ++ [93] end.
Definition host_name (h : host_t) : list Z := match h with Name n => n | Literal a => a end.
Definition hostport_text (u : url_parts) : list Z :=
  host_text (up_host u) ++ match up_port u with Some n => [colon] ++ n | None => [] end.
Definition url_text (u : url_parts) : list Z :=
  str (if up_tls u then "https://" else "http://") ++ hostport_text u ++
  match up_path u with Some t => [slash] ++ t | None => [] end.
Definition url_ok (u : url_parts) : Prop :=
  (slash ∉ hostport_text u) ∧
  match up_host u with
  | Name n => n ≠ [] ∧ (colon ∉ n) ∧ head n ≠ Some 91
  | Literal a => a ≠ [] ∧ 93 ∉ a
  end.

(** The port with its colon, or nothing. *)
Definition port_text (u : url_parts) : list Z := match up_port u with Some n => colon :: n | None => [] end.

(** What is before the port. *)
Lemma split_port (l : list Z) u :
  colon ∉ l →
  match split_at colon (l ++ port_text u) with
  | Some (before, rest) => before = l ∧ rest = port_text u
  | None => port_text u = []
  end.
Proof.
  intros Hl. unfold port_text. destruct (up_port u) as [n|]; [by rewrite split_at_app|].
  rewrite app_nil_r. apply split_at_None in Hl. by rewrite Hl.
Qed.

Lemma split_host_name n u :
  n ≠ [] → colon ∉ n → head n ≠ Some 91 → split_host (n ++ port_text u) = Some (n, port_text u).
Proof.
  intros Hne Hc Hb. unfold split_host.
  assert (head (n ++ port_text u) ≠ Some 91) as Hb' by (by destruct n).
  rewrite bool_decide_false by done. cbn [mbind option_bind]. rewrite drop_0, take_0.
  pose proof (split_port n u Hc) as Hs. destruct (split_at colon (n ++ port_text u)) as [[b r]|].
  - destruct Hs as [-> ->]. cbn [app]. by rewrite bool_decide_false.
  - rewrite Hs, app_nil_r. by rewrite bool_decide_false.
Qed.

Lemma split_host_literal a u :
  a ≠ [] → 93 ∉ a → split_host ((91 :: a) ++ 93 :: port_text u) = Some (a, port_text u).
Proof.
  intros Hne Hb. unfold split_host. rewrite bool_decide_true by done.
  rewrite split_at_app by (apply not_elem_of_cons; done). cbn [mbind option_bind].
  replace (length (91%Z :: a) =? 1)%nat with false by (destruct a; done).
  cbv beta iota delta [mbind option_bind]. rewrite drop_app_length, take_app_length.
  assert (colon ∉ [93]) as Hc by (by intros H%list_elem_of_singleton).
  assert (∀ rest, (if bool_decide ((91 :: a) ++ [93] = []) then None
     else Some (take (length ((91 :: a) ++ [93]) - 2) (drop 1 ((91 :: a) ++ [93])), rest)) = Some (a, rest : list Z)) as Hfin.
  { intros rest. rewrite bool_decide_false by done. cbn [app drop]. do 2 f_equal.
    replace (length (91%Z :: a ++ [93%Z]) - 2)%nat with (length a) by (cbn [length]; rewrite length_app; simpl; lia).
    apply take_app_length. }
  pose proof (split_port [93] u Hc) as Hs. change ([93] ++ port_text u) with (93 :: port_text u) in Hs.
  destruct (split_at colon (93 :: port_text u)) as [[b r]|].
  - destruct Hs as [-> ->]. apply Hfin.
  - rewrite Hs. apply Hfin.
Qed.

Lemma hostport_port u : hostport_text u = host_text (up_host u) ++ port_text u.
Proof. unfold hostport_text, port_text. by destruct (up_port u). Qed.

Lemma split_host_ok u : url_ok u → split_host (hostport_text u) = Some (host_name (up_host u), port_text u).
Proof.
  intros [_ Hh]. rewrite hostport_port. destruct (up_host u) as [n|a]; cbn [host_text host_name].
  - destruct Hh as (H1 & H2 & H3). by apply split_host_name.
  - destruct Hh as (H1 & H2). rewrite <- !app_assoc. by apply split_host_literal.
Qed.

(** [parse_url] takes a URL apart: scheme, host (a name, or an IPv6
    address in brackets), port and path come out as they went in; a missing
    port is 80 or 443, a missing path is ["/"]. *)
Theorem parse_url_roundtrip u :
  url_ok u →
  parse_url true (url_text u) =
  Some (URL (host_name (up_host u))
            (match up_port u with Some n => n | None => if up_tls u then str "443" else str "80" end)
            (hostport_text u)
            (match up_path u with Some t => slash :: t | None => str "/" end)
            (up_tls u)).
Proof.
  intros Hu. pose proof (split_host_ok u Hu) as Hsp. destruct Hu as [Hs Hh].
  assert (hostport_text u ≠ []) as Hne.
  { unfold hostport_text. destruct (up_host u) as [n|a]; [|done]. destruct Hh as [Hn _]. by destruct n. }
  unfold parse_url, url_text.
  set (rest := hostport_text u ++ _).
  assert ((if prefix_nocase (str "http://") (str (if up_tls u then "https://" else "http://") ++ rest) then Some (7%nat, false)
     else if true && prefix_nocase (str "https://") (str (if up_tls u then "https://" else "http://") ++ rest) then Some (8%nat, true)
     else None) = Some (if up_tls u then (8%nat, true) else (7%nat, false))) as ->.
  { destruct (up_tls u); [|by rewrite prefix_nocase_app]. rewrite (prefix_nocase_app (str "https://")).
    unfold prefix_nocase. by rewrite bool_decide_false. }
  cbn [mbind option_bind].
  assert (match split_at slash rest with Some hp => hp | None => (rest, []) end =
    (hostport_text u, match up_path u with Some t => slash :: t | None => [] end)) as Er.
  { unfold rest. destruct (up_path u) as [t|]; cbn [app]; [by rewrite split_at_app|].
    rewrite app_nil_r. apply split_at_None in Hs. by rewrite Hs. }
  destruct (up_tls u).
  - change (drop 8 (str "https://" ++ rest)) with (drop 0 rest). rewrite drop_0, Er, bool_decide_false by done.
    rewrite Hsp. cbn [mbind option_bind]. unfold port_text. by destruct (up_port u), (up_path u).
  - change (drop 7 (str "http://" ++ rest)) with (drop 0 rest). rewrite drop_0, Er, bool_decide_false by done.
    rewrite Hsp. cbn [mbind option_bind]. unfold port_text. by destruct (up_port u), (up_path u).
Qed.

Lemma parse_url_roundtrip_witness :
  parse_url true (url_text (UP true (Literal (str "2001:db8::1")) (Some (str "8443")) (Some (str "x?y=:z")))) =
  Some (URL (str "2001:db8::1") (str "8443") (str "[2001:db8::1]:8443") (str "/x?y=:z") true).
Proof.
  apply (parse_url_roundtrip (UP true (Literal (str "2001:db8::1")) (Some (str "8443")) (Some (str "x?y=:z")))).
  split; [by apply (bool_decide_unpack _)|]. split; [done|by apply (bool_decide_unpack _)].
Defined.
