(* ===== verification/Http1Post.v ===== *)
(** * Requests

    [writecb] is called when the connection is there and whenever what was
    written has been sent.  It writes the request, and for a POST the three
    files behind it in blocks of 2048 bytes. *)

From stdpp Require Import base list list_numbers numbers option strings.
From Stdlib Require Import ZArith Lia.
From S2P Require Import Prelude Bits Blocks Cstr Http1 Http1Proofs.

Open Scope Z_scope.

Section Post.
Context (p : params) (files : list Z → option (list Z)).

(** The files can be read. *)
Definition readable (f : option (list Z)) : Prop := match f with Some n => is_Some (files n) | None => True end.
Definition contents (f : option (list Z)) : list Z := match f with Some n => default [] (files n) | None => [] end.
Context (Hh : readable (post_header p)) (Hf : readable (post_file p)) (Hg : readable (post_footer p)).

(** What is still to be sent, from the state and the file that is open. *)
Definition open_part (w : writer) (f : option (list Z)) : list Z := default (contents f) (post_fh w).
Definition to_send (w : writer) : list Z :=
  match writestate w with
  | WRITE_FIRST | WRITE_HEADER =>
      request p files ++
      (if do_post p then contents (post_header p) ++ contents (post_file p) ++ contents (post_footer p) else [])
  | WRITE_POST_HEADER => open_part w (post_header p) ++ contents (post_file p) ++ contents (post_footer p)
  | WRITE_POST_FILE => open_part w (post_file p) ++ contents (post_footer p)
  | WRITE_POST_FOOTER => open_part w (post_footer p)
  | WRITE_DONE => []
  end.

(** A file is open only while it is sent. *)
Definition current (w : writestate_t) : option (list Z) :=
  match w with
  | WRITE_POST_HEADER => post_header p | WRITE_POST_FILE => post_file p | WRITE_POST_FOOTER => post_footer p
  | _ => None
  end.
Definition writer_ok (w : writer) : Prop := current (writestate w) = None → post_fh w = None.

(** Some bytes were sent, and the writer is still in order. *)
Definition sent (w w' : writer) (b : list Z) : Prop :=
  output w' = output w ++ b ∧ to_send w = b ++ to_send w' ∧ writer_ok w'.

Lemma post_part_ok f next s :
  readable f → (f = None → post_fh (wr s) = None) →
  (∃ s' b, post_part files f next s = Done (Return, s') ∧ b ≠ [] ∧ rp s' = rp s ∧ rs s' = rs s ∧ ln s' = ln s ∧
     output (wr s') = output (wr s) ++ b ∧ open_part (wr s) f = b ++ open_part (wr s') f ∧
     writestate (wr s') = writestate (wr s) ∧ in_writecb (wr s') = in_writecb (wr s) ∧ f ≠ None) ∨
  (open_part (wr s) f = [] ∧
   post_part files f next s = Done (Continue, set_writestate next (set_post_fh None s))).
Proof.
  intros Hr Hn. unfold post_part, open_part. destruct f as [name|].
  - unfold do_post_file. rewrite bind_assoc, bind_get.
    assert ((match post_fh (wr s) with Some fh => Some fh | None => files name end) =
      Some (default (contents (Some name)) (post_fh (wr s)))) as ->.
    { destruct (post_fh (wr s)); [done|]. destruct Hr as [c Hc]. cbn [contents]. by rewrite Hc. }
    set (fh := default _ _). case_bool_decide as Ed.
    + right. rewrite bind_assoc, bind_modify, bind_ret, bind_modify. split; [|done].
      destruct fh as [|c fh]; [done|]. done.
    + left. unfold send. msimpl.
      eexists _, (take POST_BUF_SIZE fh). split; [done|]. split; [done|]. split; [done|]. split; [done|]. split; [done|].
      split; [done|]. split; [|done]. cbn [wr set_output set_post_fh post_fh default]. symmetry. apply take_drop.
  - right. rewrite (Hn eq_refl). cbn [default contents]. split; [done|]. rewrite bind_modify, ret_M. do 2 f_equal.
    destruct s as [l r q [ws iw fh out]]. cbn in *. by rewrite (Hn eq_refl).
Qed.

(** The loop up to the next return. *)
Lemma write_loop_ok n s :
  writer_ok (wr s) →
  (match writestate (wr s) with
   | WRITE_FIRST => 2 | WRITE_HEADER | WRITE_DONE => 1
   | WRITE_POST_HEADER => 4 | WRITE_POST_FILE => 3 | WRITE_POST_FOOTER => 2 end ≤ n)%nat →
  ∃ s' b, write_loop p files n s = Done (tt, s') ∧ sent (wr s) (wr s') b ∧ rp s' = rp s ∧ rs s' = rs s ∧ ln s' = ln s ∧
    in_writecb (wr s') = in_writecb (wr s) ∧ (b ≠ [] ∨ writestate (wr s') = WRITE_DONE).
Proof.
  revert s. induction n as [|n IH]; intros s Hok Hn; [destruct (writestate (wr s)); lia|].
  cbn [write_loop]. unfold write_step. rewrite bind_assoc, bind_get.
  assert (∀ f next (post : list Z),
    readable f → current (writestate (wr s)) = f → to_send (wr s) = open_part (wr s) f ++ post →
    (∀ w, writestate w = writestate (wr s) → to_send w = open_part w f ++ post) →
    (∀ w, writestate w = next → post_fh w = None → to_send w = post) →
    (match next with WRITE_FIRST => 2 | WRITE_HEADER | WRITE_DONE => 1
      | WRITE_POST_HEADER => 4 | WRITE_POST_FILE => 3 | WRITE_POST_FOOTER => 2 end ≤ n)%nat →
    ∃ s' b, (post_part files f next ≫= λ fl, match fl with Continue => write_loop p files n | Return => mret tt end) s =
      Done (tt, s') ∧ sent (wr s) (wr s') b ∧ rp s' = rp s ∧ rs s' = rs s ∧ ln s' = ln s ∧
      in_writecb (wr s') = in_writecb (wr s) ∧ (b ≠ [] ∨ writestate (wr s') = WRITE_DONE)) as Hpart.
  { intros f next post Hr Hcur Hts Hsame Hnext Hn'.
    destruct (post_part_ok f next s Hr) as [(s' & b & E & Hb & H1 & H2 & H3 & Ho & Hop & Hws & Hiw & Hfn)|[Hop E]].
    { intros ->. by apply Hok. }
    - rewrite (M_bind_done _ _ _ _ _ E). exists s', b. split; [done|]. split; [|by auto 10].
      split; [done|]. split; [by rewrite Hts, (Hsame _ Hws), Hop, <- app_assoc|].
      intros Hc. rewrite Hws in Hc. congruence.
    - rewrite (M_bind_done _ _ _ _ _ E). set (s1 := set_writestate _ _).
      destruct (IH s1) as (s' & b & E' & (Ho & Hs & Hw) & H1 & H2 & H3 & H4 & H5); [by intros _|exact Hn'|].
      exists s', b. split; [done|]. split; [|done]. split; [done|]. split; [|done].
      rewrite Hts, Hop. rewrite <- Hs. symmetry. by apply Hnext. }
  destruct (writestate (wr s)) eqn:Ews.
  - rewrite bind_assoc, bind_modify, bind_ret. set (s1 := set_writestate _ _).
    destruct (IH s1) as (s' & b & E' & (Ho & Hs & Hw) & H); [intros _; apply Hok; by rewrite Ews|simpl; lia|].
    exists s', b. split; [done|]. split; [|done]. split; [done|]. split; [|done].
    rewrite <- Hs. unfold to_send. by rewrite Ews.
  - unfold send. msimpl. eexists _, (request p files). split; [done|].
    assert (request p files ≠ []) as Hne.
    { unfold request, request_head. by destruct (do_get p), (do_head p). }
    split; [|by auto 10]. split; [done|].
    assert (post_fh (wr s) = None) as Hfh by (apply Hok; by rewrite Ews).
    split; [|intros _; exact Hfh]. unfold to_send, open_part. rewrite Ews. cbn [wr set_writestate set_output writestate post_fh].
    rewrite Hfh. by destruct (do_post p).
  - apply (Hpart (post_header p) WRITE_POST_FILE (contents (post_file p) ++ contents (post_footer p))); try done.
    + unfold to_send. by rewrite Ews.
    + intros w E. unfold to_send. by rewrite E.
    + intros w E1 E2. unfold to_send, open_part. by rewrite E1, E2.
    + lia.
  - apply (Hpart (post_file p) WRITE_POST_FOOTER (contents (post_footer p))); try done.
    + unfold to_send. by rewrite Ews.
    + intros w E. unfold to_send. by rewrite E.
    + intros w E1 E2. unfold to_send, open_part. by rewrite E1, E2.
    + lia.
  - apply (Hpart (post_footer p) WRITE_DONE []); try done.
    + unfold to_send. by rewrite Ews, app_nil_r.
    + intros w E. unfold to_send. by rewrite E, app_nil_r.
    + intros w E1 E2. unfold to_send, open_part. by rewrite E1.
    + lia.
  - rewrite bind_ret. exists s, []. split; [done|]. split; [|by auto 10].
    split; [by rewrite app_nil_r|]. split; [|done]. unfold to_send. by rewrite Ews.
Qed.

Lemma writecb_ok s :
  writer_ok (wr s) → in_writecb (wr s) = false →
  ∃ s' b, writecb p files s = Done (tt, s') ∧ sent (wr s) (wr s') b ∧ in_writecb (wr s') = false ∧
    (b ≠ [] ∨ writestate (wr s') = WRITE_DONE).
Proof.
  intros Hok Hin. unfold writecb. rewrite bind_get, Hin, bind_modify.
  destruct (write_loop_ok 6 (set_in_writecb true s)) as (s' & b & E & (Ho & Hs & Hw) & _ & _ & _ & _ & H); [done| |].
  { cbn. destruct (writestate (wr s)); lia. }
  rewrite (M_bind_done _ _ _ _ _ E), modify_M. exists (set_in_writecb false s'), b. split; [done|]. done.
Qed.

(** [n] calls. *)
Fixpoint writecb_times (n : nat) : H unit :=
  match n with O => mret tt | S n' => writecb p files;; writecb_times n' end.

Lemma writecb_times_ok n s :
  writer_ok (wr s) → in_writecb (wr s) = false →
  ∃ s' b, writecb_times n s = Done (tt, s') ∧ sent (wr s) (wr s') b ∧
    ((n ≤ length b)%nat ∨ writestate (wr s') = WRITE_DONE).
Proof.
  revert s. induction n as [|n IH]; intros s Hok Hin.
  - exists s, []. split; [done|]. split; [split; [by rewrite app_nil_r|done]|]. left. simpl. lia.
  - destruct (writecb_ok s Hok Hin) as (s1 & b1 & E1 & (Ho1 & Hs1 & Hw1) & Hi1 & H1).
    destruct (IH s1 Hw1 Hi1) as (s2 & b2 & E2 & (Ho2 & Hs2 & Hw2) & H2).
    cbn [writecb_times]. rewrite (M_bind_done _ _ _ _ _ E1). exists s2, (b1 ++ b2). split; [done|].
    split; [split; [by rewrite Ho2, Ho1, app_assoc|split; [by rewrite Hs1, Hs2, app_assoc|done]]|].
    destruct H2 as [H2|H2]; [|by right]. destruct H1 as [H1|H1].
    + left. rewrite length_app. destruct b1; [done|]. simpl. lia.
    + right. unfold to_send in Hs1, Hs2. rewrite H1 in Hs2. symmetry in Hs2. apply app_eq_nil in Hs2 as [-> Hs2].
      simpl in H2. assert (n = 0%nat) as -> by lia. cbn [writecb_times] in E2. rewrite ret_M in E2. by simplify_eq.
Qed.
End Post.

Lemma request_length p files :
  do_post p = true →
  let post := if do_post p then contents files (post_header p) ++ contents files (post_file p) ++ contents files (post_footer p)
              else [] in
  ∃ a, request p files = a ++ str "Content-Length: " ++ print_dec (zlen post) ++ [13; 10; 13; 10].
Proof.
  intros Hp post. unfold post. rewrite Hp. unfold request. rewrite Hp, !zlen_app.
  assert (∀ f, match f with Some n => zlen (default [] (files n)) | None => 0 end = zlen (contents files f)) as Hs
    by (by intros []).
  rewrite !Hs, Z.add_assoc.
  exists (request_head p ++ str "Content-Type: application/x-www-form-urlencoded" ++ http_crlf).
  generalize (request_head p) (print_dec (zlen (contents files (post_header p)) + zlen (contents files (post_file p)) +
    zlen (contents files (post_footer p)))). intros a b. rewrite <- !app_assoc. done.
Qed.

(** The request reaches the server: from the state before a connection,
    every sequence of calls of [writecb] sends a prefix of the request (and, for
    a POST, of the three files behind it), and when there were more calls than
    bytes everything is sent; the [Content-Length] that is announced is the size
    of the files that follow. *)
Theorem request_sent p files n s :
  readable files (post_header p) → readable files (post_file p) → readable files (post_footer p) →
  writestate (wr s) = WRITE_FIRST → post_fh (wr s) = None → in_writecb (wr s) = false → output (wr s) = [] →
  let post := if do_post p then contents files (post_header p) ++ contents files (post_file p) ++ contents files (post_footer p)
              else [] in
  ∃ s', writecb_times p files n s = Done (tt, s') ∧ output (wr s') `prefix_of` request p files ++ post ∧
    ((length (request p files ++ post) < n)%nat → output (wr s') = request p files ++ post) ∧
    (do_post p = true →
     ∃ a, request p files = a ++ str "Content-Length: " ++ print_dec (zlen post) ++ [13; 10; 13; 10]).
Proof.
  intros Hh Hf Hg Hws Hfh Hin Hout post.
  assert (do_post p = true → ∃ a, request p files = a ++ str "Content-Length: " ++ print_dec (zlen post) ++ [13; 10; 13; 10]) as Hcl.
  { intros Hp. apply request_length. done. }
  destruct (writecb_times_ok p files Hh Hf Hg n s) as (s' & b & E & (Ho & Hs & _) & H); [by intros _|done|].
  rewrite Hout in Ho. assert (to_send p files (wr s) = request p files ++ post) as Ets by (unfold to_send; by rewrite Hws).
  rewrite Ets in Hs. exists s'. split; [done|]. rewrite Ho. cbn [app]. split; [by eexists|].
  split; [|done]. intros Hn.
  destruct H as [H|H].
  - rewrite Hs, length_app in Hn. lia.
  - rewrite Hs. unfold to_send. by rewrite H, app_nil_r.
Qed.

Definition post_params : params :=
  P None None false false false false true false (str "ua") (str "h") (str "/") (Some (str "a")) None (Some (str "b")) 0 0 0 0.
Definition post_files (n : list Z) : option (list Z) :=
  if bool_decide (n = str "a") then Some (replicate 3000 120) else if bool_decide (n = str "b") then Some (str "end") else None.
Definition post_state : hgstate :=
  HG (LN None 0 0 0 0 false None) (RP READ_STATUS 0 0 0 0 0 false 0 0 0 false) (RS false false false 0 0 [] [] [] true)
     (WR WRITE_FIRST false None []).

Lemma request_sent_witness :
  let post := replicate 3000 120 ++ [] ++ str "end" in
  ∃ s', writecb_times post_params post_files 5000 post_state = Done (tt, s') ∧
    output (wr s') `prefix_of` request post_params post_files ++ post ∧
    ((length (request post_params post_files ++ post) < 5000)%nat → output (wr s') = request post_params post_files ++ post) ∧
    (do_post post_params = true →
     ∃ a, request post_params post_files = a ++ str "Content-Length: " ++ print_dec (zlen post) ++ [13; 10; 13; 10]).
Proof.
  apply (request_sent post_params post_files 5000 post_state);
    [by eexists|done|by eexists|done|done|done|done].
Defined.
