(* ===== verification/Http1Life.v ===== *)
(** * The life of an HTTP measurement

    A measurement is started, called back by [tcputil.c] while it is busy, and
    deleted.  The invariant over all such sequences says when it holds a line
    buffer, so that the checks of [get_input] and [httpget_delete] never stop
    the process.  The deviations that the model of [httpget.c] showed are at the
    end. *)

From stdpp Require Import base list list_numbers numbers option strings.
From Stdlib Require Import ZArith Lia.
From S2P Require Import Prelude Bits Blocks Cstr Tcp Http1 Http1Proofs Http1Loop Http1Main.

Open Scope Z_scope.

(** ** Triples *)

(** Partial correctness of a computation. *)
Definition triple {A} (P : hgstate → Prop) (m : H A) (Q : A → hgstate → Prop) : Prop :=
  ∀ s a s', P s → m s = Done (a, s') → Q a s'.

Lemma triple_bind {A B} P (m : H A) (f : A → H B) Q R :
  triple P m Q → (∀ a, triple (Q a) (f a) R) → triple P (m ≫= f) R.
Proof.
  intros Hm Hf s b s' HP E. apply M_bind_inv in E as (a & s1 & E1 & E2). eapply Hf; [|exact E2]. by eapply Hm.
Qed.
Lemma triple_ret {A} (a : A) (P : hgstate → Prop) (Q : A → hgstate → Prop) :
  (∀ s, P s → Q a s) → triple P (mret a) Q.
Proof. intros H s a' s' HP [= <- <-]. by apply H. Qed.
Lemma triple_get P Q : (∀ s, P s → Q s s) → triple P get Q.
Proof. intros H s a' s' HP [= <- <-]. by apply H. Qed.
Lemma triple_modify P f Q : (∀ s, P s → Q tt (f s)) → triple P (modify f) Q.
Proof. intros H s a' s' HP [= <- <-]. by apply H. Qed.
Lemma triple_crash {A} P c (Q : A → hgstate → Prop) : triple P (mcrash c) Q.
Proof. by intros s a s' _ E. Qed.
Lemma triple_lift {A} P (m : outcome A) Q : (∀ a s, m = Done a → P s → Q a s) → triple P (lift m) Q.
Proof. intros H s a s' HP E. apply lift_inv in E as [E ->]. by apply H. Qed.
Lemma triple_conseq {A} (P P' : hgstate → Prop) (m : H A) (Q Q' : A → hgstate → Prop) :
  triple P m Q → (∀ s, P' s → P s) → (∀ a s, Q a s → Q' a s) → triple P' m Q'.
Proof. intros H HP HQ s a s' H' E. apply HQ. eapply H; [|exact E]. by apply HP. Qed.

(** ** The invariant *)

(** The buffer is there exactly when [linemax] says so. *)
Definition buffer_ok (l : linebuf) : Prop :=
  (linemax l = 0 ∧ line l = None) ∨ (linemax l = MAX_LINE_LEN ∧ ∃ b, line l = Some b ∧ length b = Z.to_nat MAX_LINE_LEN).
Definition running (s : hgstate) : Prop := (buffer_ok (ln s) ∧ in_table (rs s) = true) ∧ busy (rs s) = true.
(** A measurement that is not busy has given its buffer back. *)
Definition life (s : hgstate) : Prop :=
  (buffer_ok (ln s) ∧ in_table (rs s) = true) ∧ (busy (rs s) = false → linemax (ln s) = 0).

Lemma running_life s : running s → life s.
Proof. intros [H1 H2]. split; [done|]. congruence. Qed.

(** Computations that leave buffer and [busy] alone. *)
Definition calm {A} (m : H A) : Prop :=
  ∀ s a s', m s = Done (a, s') → line (ln s') = line (ln s) ∧ linemax (ln s') = linemax (ln s) ∧
    busy (rs s') = busy (rs s) ∧ in_table (rs s') = in_table (rs s).

Lemma calm_bind {A B} (m : H A) (f : A → H B) : calm m → (∀ a, calm (f a)) → calm (m ≫= f).
Proof.
  intros Hm Hf s b s' E. apply M_bind_inv in E as (a & s1 & E1 & E2).
  destruct (Hm _ _ _ E1) as (? & ? & ? & ?), (Hf _ _ _ _ E2) as (? & ? & ? & ?). split_and!; congruence.
Qed.
Lemma calm_ret {A} (a : A) : calm (mret a).
Proof. by intros s a' s' [= <- <-]. Qed.
Lemma calm_get : calm get.
Proof. by intros s a' s' [= <- <-]. Qed.
Lemma calm_crash {A} c : calm (A := A) (mcrash c).
Proof. by intros s a' s'. Qed.
Lemma calm_lift {A} (m : outcome A) : calm (lift m).
Proof. intros s a s' E. by apply lift_inv in E as [_ ->]. Qed.
Lemma calm_modify f :
  (∀ s, line (ln (f s)) = line (ln s) ∧ linemax (ln (f s)) = linemax (ln s) ∧ busy (rs (f s)) = busy (rs s) ∧
        in_table (rs (f s)) = in_table (rs s)) → calm (modify f).
Proof. intros H s a' s' [= <- <-]. apply H. Qed.

Lemma calm_running {A} (m : H A) : calm m → triple running m (λ _, running).
Proof.
  intros Hq s a s' [[Hb Ht] Hy] E. destruct (Hq _ _ _ E) as (E1 & E2 & E3 & E4). split; [|congruence].
  unfold buffer_ok. by rewrite E1, E2, E4.
Qed.
Lemma calm_life {A} (m : H A) : calm m → triple life m (λ _, life).
Proof.
  intros Hq s a s' [[Hb Ht] Hy] E. destruct (Hq _ _ _ E) as (E1 & E2 & E3 & E4). split; [|by rewrite E2, E3].
  unfold buffer_ok. by rewrite E1, E2, E4.
Qed.

Create HintDb calm.
#[export] Hint Resolve calm_ret calm_get calm_crash calm_lift : calm.

(** Decides [calm] along the structure of the code. *)
Ltac solve_calm :=
  repeat first
    [ solve [auto with calm]
    | apply calm_bind; [|intros ?]
    | apply calm_modify; intros ?; split; [done|]; split; [done|]; split; done
    | match goal with
      | |- calm (if ?b then _ else _) => destruct b
      | |- calm (match ?x with _ => _ end) => destruct x
      | |- calm (let '_ := ?x in _) => destruct x
      end ].

Lemma add_str_calm text : calm (add_str text).
Proof. unfold add_str. solve_calm. Qed.
Lemma add_str2_calm text : calm (add_str2 text).
Proof. unfold add_str2. solve_calm. Qed.
Lemma add_str_quoted_calm text : calm (add_str_quoted text).
Proof. apply add_str_calm. Qed.
Lemma act_calm a : calm (act a).
Proof. unfold act. solve_calm. Qed.
#[export] Hint Resolve add_str_calm add_str2_calm add_str_quoted_calm act_calm : calm.

Section Life.
Context (p : params) (e : env) (files : list Z → option (list Z)).

Lemma report_life : triple life (report p e) (λ _, life).
Proof.
  intros s a s' [[Hb Ht] Hi] E. destruct (report_ok p e s) as (s1 & E1 & _ & _ & _ & Hbusy & Hend & Hmore & Hit).
  rewrite E1 in E. injection E as _ <-. unfold life. rewrite Hit. destruct (more p s).
  - split; rewrite (Hmore eq_refl); [done|]. rewrite Hbusy. exact Hi.
  - destruct (Hend eq_refl) as (L1 & _ & L2). split; [|by intros _]. split; [|done]. left. split; [done|]. apply L2.
    destruct Hb as [[_ Hb]|[Hb _]]; [by right|left; by rewrite Hb].
Qed.

Lemma add_report_life text : triple life (add_str text;; report p e) (λ _, life).
Proof. eapply triple_bind; [apply calm_life, add_str_calm|]. intros ?. apply report_life. Qed.

Lemma err_header_life r : triple life (err_header p e r) (λ _, life).
Proof.
  unfold err_header. eapply triple_bind; [apply calm_life; destruct (negb _); auto with calm|].
  intros ?. apply add_report_life.
Qed.

(** *** [get_input] *)

Lemma buffered_calm : calm buffered.
Proof. unfold buffered. solve_calm. Qed.
#[local] Hint Resolve buffered_calm : calm.

Lemma store_length (b : blk Z) i l b' : store b i l = Done b' → length b' = length b.
Proof.
  unfold store. destruct (decide _) as [Hle|]; [|done]. intros [= <-].
  rewrite !length_app, length_take, length_fmap, length_drop. lia.
Qed.

Lemma allocate_running : triple running allocate (λ _, running).
Proof.
  intros s a s' [[Hb Ht] Hy] E. unfold allocate in E. rewrite bind_get in E.
  destruct Hb as [[Hm Hl]|[Hm Hb]]; rewrite Hm in E.
  - change (0 =? 0) with true in E. cbv iota in E. rewrite Hl, bind_modify, modify_M in E. injection E as _ <-.
    split; [|done]. split; [|done]. right. split; [done|]. exists (replicate (Z.to_nat MAX_LINE_LEN) None). split; [reflexivity|]. apply length_replicate.
  - change (MAX_LINE_LEN =? 0) with false in E. cbv iota in E. rewrite ret_M in E. injection E as _ <-.
    split; [split; [by right|done]|done].
Qed.

(** A block of the same size in place of the buffer. *)
Lemma running_set_line s b b' :
  running s → line (ln s) = Some b → length b' = length b → running (set_line (Some b') s).
Proof.
  intros [[Hb Ht] Hy] Hl Hlen. split; [|done]. split; [|done]. destruct Hb as [[_ Hn]|[Hm (b0 & E & Hb0)]]; [congruence|].
  right. split; [done|]. exists b'. split; [done|]. rewrite Hl in E. injection E as <-. by rewrite Hlen.
Qed.

Lemma compact_running : triple running compact (λ _, running).
Proof.
  intros s a s' Hr E. unfold compact in E. rewrite bind_get in E.
  destruct (negb _); [|rewrite ret_M in E; by simplify_eq].
  apply M_bind_inv in E as (u & s1 & E1 & E2). rewrite modify_M in E2. injection E2 as _ <-.
  cut (running s1); [done|]. destruct (_ <? _); [|rewrite modify_M in E1; by simplify_eq].
  apply M_bind_inv in E1 as (rest & s2 & E2 & E1). destruct (buffered_calm _ _ _ E2) as (L1 & L2 & L3 & L4).
  apply M_bind_inv in E1 as (b & s3 & E3 & E1). apply lift_inv in E3 as [E3 ->].
  rewrite bind_modify, modify_M in E1. injection E1 as _ <-.
  destruct (line (ln s)) as [b0|] eqn:El; rewrite ?El in E3; [|done].
  cut (running (set_line (Some b) s2)); [done|]. apply (running_set_line s2 b0); [|congruence|by eapply store_length].
  destruct Hr as [[Hb Ht] Hy]. split; [|congruence]. unfold buffer_ok. by rewrite L1, L2, L4, <- El.
Qed.

Lemma receive_running : triple running (receive p e) (λ _, running).
Proof.
  intros s a s' Hr E. unfold receive in E. rewrite bind_get in E.
  destruct (_ <=? _); [rewrite ret_M in E; by simplify_eq|].
  apply M_bind_inv in E as (u & s1 & E1 & E2).
  assert (running s1 ∧ line (ln s1) = line (ln s)) as [Hr1 El1].
  { assert (calm (if (2 <=? etim p) && report_roffset (ln s) then
       (if negb (roffset (ln s) =? 0) then add_str2 (str ",") else mret tt);;
       add_str2 (str " { " ++ DBQ "o" ++ str ": " ++ print_int (roffset (ln s)) ++ str ", " ++
                 DBQ "t" ++ str ": " ++ now e ++ str " }");;
       modify (set_report_roffset false)
     else mret tt)) as Hq by solve_calm.
    destruct (Hq _ _ _ E1) as (L1 & _). split; [by eapply calm_running|done]. }
  destruct (bev (ln s)) as [input|]; [|done]. destruct (line (ln s)) as [b0|]; [|done].
  apply M_bind_inv in E2 as (b & s2 & E3 & E2). apply lift_inv in E3 as [E3 ->].
  rewrite !bind_modify, ret_M in E2. injection E2 as _ <-.
  cut (running (set_line (Some b) s1)); [done|]. apply (running_set_line s1 b0); [done|done|by eapply store_length].
Qed.

Lemma get_input_running : triple running (get_input p e) (λ _, running).
Proof.
  unfold get_input. eapply triple_bind; [apply allocate_running|]. intros ?.
  eapply triple_bind; [apply compact_running|]. intros ?. apply receive_running.
Qed.

(** *** The rounds of [readcb] *)

Definition round (f : flow) (s : hgstate) : Prop := life s ∧ (f = Continue → running s).

Lemma round_err (m : H unit) : triple life m (λ _, life) → triple running (m;; mret Return) round.
Proof.
  intros Hm. eapply triple_bind.
  - eapply triple_conseq; [exact Hm|apply running_life|intros ? ? HQ; exact HQ].
  - intros ?. apply triple_ret. by intros s Hs.
Qed.
Lemma round_calm (m : H unit) : calm m → triple running (m;; mret Continue) round.
Proof.
  intros Hm. eapply triple_bind; [by apply calm_running|]. intros ?. apply triple_ret. intros s Hs.
  split; [by apply running_life|done].
Qed.
Lemma round_continue : triple running (mret Continue) round.
Proof. apply triple_ret. intros s Hs. split; [by apply running_life|done]. Qed.
Lemma running_get (k : hgstate → H flow) : (∀ s, triple running (k s) round) → triple running (get ≫= k) round.
Proof. intros H. apply (triple_bind _ _ _ (λ _, running)); [by apply triple_get|exact H]. Qed.
Lemma running_step (m : H unit) (k : unit → H flow) :
  calm m → triple running (k tt) round → triple running (m ≫= k) round.
Proof. intros Hm Hk. eapply triple_bind; [by apply calm_running|]. by intros []. Qed.

Lemma take_line_calm : calm take_line.
Proof. unfold take_line. solve_calm. Qed.

Lemma wait_line_round :
  triple running (wait_line p e) (λ ok s, life s ∧ (ok = true → running s)).
Proof.
  unfold wait_line. apply (triple_bind _ _ _ (λ _, running)); [by apply triple_get|]. intros s0.
  eapply triple_bind; [apply calm_running; solve_calm|]. intros [|].
  { apply triple_ret. intros s Hs. split; [by apply running_life|done]. }
  eapply triple_bind; [apply get_input_running|]. intros r. destruct (negb r).
  { apply triple_ret. intros s Hs. split; [by apply running_life|done]. }
  eapply triple_bind; [apply calm_running, buffered_calm|]. intros d. destruct (has_nl d).
  { apply triple_ret. intros s Hs. split; [by apply running_life|done]. }
  apply (triple_bind _ _ _ (λ _, life)).
  - apply (triple_conseq life running _ (λ _, life)); [|apply running_life|done].
    destruct (_ <=? _); [apply add_report_life|apply triple_ret; done].
  - intros ?. apply triple_ret. intros s Hs. done.
Qed.

Lemma wait_data_running : triple running (wait_data p e) (λ _, running).
Proof.
  unfold wait_data. apply (triple_bind _ _ _ (λ _, running)); [by apply triple_get|]. intros s0.
  destruct (_ || _); [|by apply triple_ret].
  eapply triple_bind; [apply get_input_running|]. intros r. destruct (negb r); [by apply triple_ret|].
  apply (triple_bind _ _ _ (λ _, running)); [by apply triple_get|]. intros s1. by apply triple_ret.
Qed.

Lemma read_dispatch_round r : triple running (read_dispatch p e r) round.
Proof.
  assert (∀ len, triple running (use_data len) round) as Huse.
  { intros len. unfold use_data. apply running_step; [solve_calm|]. apply running_step; [solve_calm|]. apply round_continue. }
  destruct r; cbn [read_dispatch].
  - unfold read_first. do 3 (apply running_step; [solve_calm|]). apply round_continue.
  - unfold read_status. eapply triple_bind; [apply calm_running, take_line_calm|].
    intros [[l len]|]; [|apply round_err, add_report_life].
    destruct (parse_status l) as [reason|[[major minor] code]]; [apply round_err, add_report_life|].
    do 6 (apply running_step; [solve_calm|]). apply round_continue.
  - unfold read_header. eapply triple_bind; [apply calm_running, take_line_calm|].
    intros [[l len]|]; [|apply round_err, err_header_life]. apply running_get. intros s0. case_bool_decide.
    + do 3 (apply running_step; [solve_calm|]). apply round_continue.
    + apply running_step; [solve_calm|]. apply (triple_bind _ _ _ (λ _, running)).
      * apply calm_running. unfold store_header. solve_calm.
      * intros h. destruct (parse_header h) as [| |n|n reason].
        -- apply round_continue.
        -- apply round_calm. solve_calm.
        -- apply round_calm. solve_calm.
        -- apply running_step; [solve_calm|]. apply round_err, err_header_life.
  - unfold read_body. apply running_get. intros s0. apply running_step; [solve_calm|]. apply round_continue.
  - unfold read_simple. apply running_get. intros s0. destruct (_ && _); [apply round_calm; solve_calm|].
    eapply triple_bind; [apply wait_data_running|]. intros ok. destruct (negb ok).
    + apply triple_ret. intros s Hs. split; [by apply running_life|done].
    + apply running_get. intros s1. apply Huse.
  - unfold read_chunked. eapply triple_bind; [apply calm_running, take_line_calm|].
    intros [[l len]|]; [|apply round_err, add_report_life].
    destruct (strtoul 16 l) as [[n check]|]; [|apply round_err, add_report_life].
    destruct (match check with [] => _ | _ => _ end); [apply round_err, add_report_life|].
    destruct (n =? 0); [apply round_calm; solve_calm|]. do 2 (apply running_step; [solve_calm|]). apply round_continue.
  - unfold read_chunk_body. apply running_get. intros s0. destruct (_ <=? _); [apply round_calm; solve_calm|].
    eapply triple_bind; [apply wait_data_running|]. intros ok. destruct (negb ok).
    + apply triple_ret. intros s Hs. split; [by apply running_life|done].
    + apply running_get. intros s1. apply Huse.
  - unfold read_chunk_end. eapply triple_bind; [apply calm_running, take_line_calm|].
    intros [[l len]|]; [|apply round_err, add_report_life].
    destruct (negb _); [apply round_err, add_report_life|apply round_calm; solve_calm].
  - unfold read_trailer. eapply triple_bind; [apply calm_running, take_line_calm|].
    intros [[l len]|]; [|apply round_err, add_report_life]. apply round_calm. solve_calm.
  - unfold read_done. apply running_get. intros s0. case_bool_decide; [|apply (round_err (mret tt)); by apply triple_ret].
    apply round_err. eapply triple_bind; [apply calm_life; solve_calm|]. intros ?. apply report_life.
Qed.

Lemma check_limit_round : triple running (check_limit p e) (λ stop s, life s ∧ (stop = false → running s)).
Proof.
  unfold check_limit. apply (triple_bind _ _ _ (λ _, running)); [by apply triple_get|]. intros s0.
  destruct (_ && _); [|apply triple_ret; intros s Hs; split; [by apply running_life|done]].
  eapply triple_bind; [apply calm_running; solve_calm|]. intros ?.
  assert (∀ m : H unit, triple life m (λ _, life) →
    triple running (m;; mret true) (λ stop s, life s ∧ (stop = false → running s))) as Herr.
  { intros m Hm. apply (triple_bind _ _ _ (λ _, life)); [by apply (triple_conseq life _ _ (λ _, life)); [|apply running_life|]|].
    intros ?. apply triple_ret. by intros s Hs. }
  assert (triple running (modify (set_readstate READ_DONE);; mret false) (λ stop s, life s ∧ (stop = false → running s))) as Hdone.
  { eapply triple_bind; [apply calm_running; solve_calm|]. intros ?. apply triple_ret. intros s Hs.
    split; [by apply running_life|done]. }
  destruct (readstate (rp s0)); first [exact Hdone|apply Herr, add_report_life|apply Herr, err_header_life].
Qed.

Lemma read_step_round : triple running (read_step p e) round.
Proof.
  unfold read_step. eapply triple_bind; [apply check_limit_round|]. intros [|].
  - apply triple_ret. intros s [Hs _]. split; [done|done].
  - apply (triple_conseq running _ _ round); [|intros s [_ Hs]; by apply Hs|done].
    apply running_get. intros s0.
    apply (triple_bind _ _ _ (λ ok s, life s ∧ (ok = true → running s))).
    + destruct (need_line _); [apply wait_line_round|]. apply triple_ret. intros s Hs. split; [by apply running_life|done].
    + intros [|]; cbn [negb].
      * apply (triple_conseq running _ _ round); [apply read_dispatch_round|intros s [_ Hs]; by apply Hs|done].
      * apply triple_ret. intros s [Hs _]. split; [done|done].
Qed.

Lemma read_loop_life fuel : triple running (read_loop p e fuel) (λ _, life).
Proof.
  induction fuel as [|fuel IH]; cbn [read_loop]; [apply triple_crash|].
  eapply triple_bind; [apply read_step_round|]. intros [|].
  - apply (triple_conseq running _ _ (λ _, life)); [exact IH|intros s [_ Hs]; by apply Hs|done].
  - apply triple_ret. by intros s [Hs _].
Qed.

Lemma readcb_life : triple running (readcb p e) (λ _, life).
Proof.
  unfold readcb. apply (triple_bind _ _ _ (λ _, running)); [by apply triple_get|]. intros s0.
  eapply triple_bind; [apply calm_running; solve_calm|]. intros ?. apply read_loop_life.
Qed.

(** *** The callbacks *)

(** A text, and a report. *)
Lemma calm_report_life (m : H unit) : calm m → triple life (m;; report p e) (λ _, life).
Proof. intros Hm. eapply triple_bind; [by apply calm_life|]. intros ?. apply report_life. Qed.

Lemma timeout_life : triple life (timeout_callback p e) (λ _, life).
Proof.
  unfold timeout_callback. apply (triple_bind _ _ _ (λ _, life)); [by apply triple_get|]. intros s0.
  destruct (connecting (rs s0)).
  - eapply triple_bind; [apply calm_life; auto with calm|]. intros ?.
    destruct (do_all p); [apply report_life|apply calm_life; auto with calm].
  - destruct (readstate (rp s0)); try (by apply triple_ret); try apply add_report_life.
    eapply triple_bind; [apply calm_life; solve_calm|]. intros ?. apply add_report_life.
Qed.

Lemma err_reading_life : triple life (err_reading p e) (λ _, life).
Proof.
  unfold err_reading. apply (triple_bind _ _ _ (λ _, life)); [by apply triple_get|]. intros s0.
  destruct (readstate (rp s0)); try (by apply triple_ret); try apply add_report_life.
  - eapply triple_bind; [apply calm_life; solve_calm|]. intros ?. apply add_report_life.
  - apply calm_report_life. solve_calm.
Qed.

Lemma reporterr_life cause msg : triple life (reporterr p e cause msg) (λ _, life).
Proof.
  destruct cause; cbn [reporterr].
  - eapply triple_bind; [apply calm_life; auto with calm|]. intros ?. apply calm_report_life. solve_calm.
  - apply err_reading_life.
  - apply add_report_life.
  - eapply triple_bind; [apply calm_life; auto with calm|]. intros ?.
    destruct (do_all p); [apply report_life|apply calm_life; auto with calm].
  - apply report_life.
  - do 2 (eapply triple_bind; [apply calm_life; auto with calm|]; intros ?). apply calm_report_life. solve_calm.
  - apply triple_crash.
  - apply triple_crash.
  - apply triple_crash.
Qed.

Lemma writecb_calm : calm (writecb p files).
Proof.
  assert (∀ f next, calm (post_part files f next)) as Hpart.
  { intros f next. unfold post_part, do_post_file, send. solve_calm. }
  assert (∀ n, calm (write_loop p files n)) as Hloop.
  { induction n as [|n IH]; cbn [write_loop]; [auto with calm|]. apply calm_bind; [|intros []; [done|auto with calm]].
    unfold write_step, send. apply calm_bind; [auto with calm|]. intros s.
    destruct (writestate (wr s)); try apply Hpart; solve_calm. }
  unfold writecb. apply calm_bind; [auto with calm|]. intros s. destruct (in_writecb (wr s)); [auto with calm|].
  apply calm_bind; [solve_calm|]. intros ?. apply calm_bind; [apply Hloop|]. intros ?. solve_calm.
Qed.

(** ** Sequences of events *)

(** What can happen to a measurement. *)
Inductive event :=
| Start | Resolved (count : Z) | Attempt | Open | Arrived (seg : list Z) | Writable | Timer
| Failed (cause : tu_err) (msg : list Z).

Definition handle (ev : event) : H unit :=
  match ev with
  | Start => httpget_start
  | Resolved count => dnscount count
  | Attempt => beforeconnect p
  | Open => connected
  | Arrived seg => modify (λ s, set_bev ((λ l, l ++ seg) <$> bev (ln s)) s);; readcb p e
  | Writable => writecb p files
  | Timer => timeout_callback p e
  | Failed cause msg => reporterr p e cause msg
  end.

(** A measurement may be started at any time; the callbacks come while it is
    busy ([tu_cleanup] removes the timer and the connection). *)
Inductive step : hgstate → event → hgstate → Prop :=
| step_start s s' : handle Start s = Done (tt, s') → step s Start s'
| step_callback s ev s' : busy (rs s) = true → handle ev s = Done (tt, s') → step s ev s'.

Inductive reachable (s0 : hgstate) : hgstate → Prop :=
| reach_init : reachable s0 s0
| reach_step s ev s' : reachable s0 s → step s ev s' → reachable s0 s'.

Lemma httpget_start_life : triple life httpget_start (λ _, life).
Proof.
  intros s a s' Hl E. unfold httpget_start in E. rewrite bind_get in E. destruct (busy (rs s)); [rewrite ret_M in E; by simplify_eq|].
  unfold act in E. rewrite !bind_modify, modify_M in E. injection E as _ <-. destruct Hl as [Hb _]. split; [exact Hb|done].
Qed.

Lemma step_life s ev s' : life s → step s ev s' → life s'.
Proof.
  intros Hl Hs. destruct Hs as [s s' E|s ev s' Hb E]; [by eapply httpget_start_life|].
  destruct ev as [|count| | |seg| | |cause msg]; cbn [handle] in E.
  - by eapply httpget_start_life.
  - eapply calm_life; [|exact Hl|exact E]. unfold dnscount. solve_calm.
  - eapply calm_life; [|exact Hl|exact E]. unfold beforeconnect. solve_calm.
  - eapply calm_life; [|exact Hl|exact E]. unfold connected. solve_calm.
  - rewrite bind_modify in E. eapply readcb_life; [|exact E]. destruct Hl as [Hl _]. by split.
  - eapply calm_life; [apply writecb_calm|exact Hl|exact E].
  - by eapply timeout_life.
  - by eapply reporterr_life.
Qed.

Lemma reachable_life s0 s : life s0 → reachable s0 s → life s.
Proof. intros H0. induction 1 as [|s ev s' _ IH Hs]; [done|]. by eapply step_life. Qed.
End Life.

(** C35: whatever happens to a measurement, from its creation on: deleting it
    never stops the process (a measurement that is not busy has no line buffer
    left and is in the table), and [get_input] can always get its buffer. *)
Theorem http_delete_safe p e files s0 s :
  idle s0 → in_table (rs s0) = true → reachable p e files s0 s →
  httpget_delete s = Done (if busy (rs s) then (false, s) else (true, set_in_table false s)) ∧
  is_done (allocate s) = true.
Proof.
  intros (Hb & Hm & Hl) Ht Hr.
  assert (life s0) as H0 by (split; [split; [by left|done]|done]).
  destruct (reachable_life p e files s0 s H0 Hr) as [[Hok Hin] Hi]. split.
  - unfold httpget_delete. rewrite bind_get. destruct (busy (rs s)); [done|]. specialize (Hi eq_refl).
    destruct Hok as [[_ ->]|[Hm' _]]; [by rewrite Hin|]. rewrite Hi in Hm'. done.
  - unfold allocate. rewrite bind_get. destruct Hok as [[-> ->]|[-> _]]; done.
Qed.

Lemma http_delete_safe_witness :
  ∃ s, reachable sample_params sample_env (λ _, None) sample_state s ∧
    httpget_delete s = Done (if busy (rs s) then (false, s) else (true, set_in_table false s)) ∧
    is_done (allocate s) = true.
Proof.
  eexists. match goal with |- ?R ∧ _ => assert R as Hr; [|split; [exact Hr|]] end.
  - eapply reach_step; [eapply reach_step; [apply reach_init|]|].
    + by apply step_start.
    + by apply (step_callback _ _ _ _ (Resolved 1)).
  - by apply (http_delete_safe sample_params sample_env (λ _, None) sample_state _ ltac:(done) eq_refl Hr).
Defined.

(** ** Deviations *)

(** The timer does nothing in four of the states of [readcb]: a measurement
    whose server stops between the data of a chunk and its end, or in the
    trailer, stays busy for good. *)
Theorem timeout_ignored p e s :
  connecting (rs s) = false →
  readstate (rp s) ∈ [READ_BODY; READ_CHUNK_END; READ_CHUNKED_TRAILER; READ_DONE] →
  timeout_callback p e s = Done (tt, s).
Proof.
  intros Hc Hr. unfold timeout_callback. rewrite bind_get, Hc.
  repeat (apply elem_of_cons in Hr as [Hr|Hr]; [by rewrite Hr|]). by apply elem_of_nil in Hr.
Qed.

(** [chunked] is not reset: after a chunked response the next response is read
    as chunks, whatever it announces. *)
Definition sized_response : http_response := HR (str "HTTP/1.1 200 OK") [str "Content-Length: 2"] (Sized (str "ok")).
Definition run_two (first second : http_response) : outcome (unit * hgstate) :=
  (open_connection sample_params 1;; deliver_all sample_params sample_env [response_bytes first];;
   open_connection sample_params 1;; deliver_all sample_params sample_env [response_bytes second]) sample_state.

Theorem chunked_not_reset :
  (∃ s, run_two sized_response sized_response = Done (tt, s) ∧ readstate (rp s) = READ_DONE ∧ content_offset (rp s) = 2) ∧
  (∃ s, run_two sample_response sized_response = Done (tt, s) ∧ readstate (rp s) = READ_CHUNKED).
Proof. split; eexists; split; by vm_compute. Qed.

(** Storing headers changes what is read: the line that does not fit is cut in
    the buffer before it is parsed, and its meaning is lost. *)
Definition with_max_headers (n : Z) : params :=
  P (Some (str "1")) None false false true false false false (str "ua") (str "h") (str "/") None None None n 0 0 0.

Theorem stored_header_cut :
  (∃ s, (open_connection (with_max_headers 0) 1;; deliver_all (with_max_headers 0) sample_env [response_bytes sized_response])
          sample_state = Done (tt, s) ∧ content_length (rp s) = 2 ∧ readstate (rp s) = READ_DONE) ∧
  (∃ s, (open_connection (with_max_headers 10) 1;; deliver_all (with_max_headers 10) sample_env [response_bytes sized_response])
          sample_state = Done (tt, s) ∧ content_length (rp s) = -1 ∧ readstate (rp s) = READ_SIMPLE).
Proof. split; eexists; split; by vm_compute. Qed.

(** The check behind ["chunked"] is the wrong way round. *)
Theorem chunked_suffix :
  parse_header (str "Transfer-Encoding: chunkedx") = Chunked ∧ parse_header (str "Transfer-Encoding: chunked ") = Other.
Proof. split; by vm_compute. Qed.

(** Data behind the announced length is counted when it arrives with it. *)
Theorem length_exceeded :
  ∃ s, (open_connection sample_params 1;;
        deliver_all sample_params sample_env [response_bytes sized_response ++ str "more"]) sample_state = Done (tt, s) ∧
       content_length (rp s) = 2 ∧ content_offset (rp s) = 6.
Proof. eexists. split; by vm_compute. Qed.

(** A connection that is closed before the status line gives a report that is
    not JSON: a comma behind the brace. *)
Theorem error_reading_status_text :
  ∃ s text, (open_connection sample_params 1;; deliver_all sample_params sample_env [str "HTTP"];;
             reporterr sample_params sample_env TU_READ_ERR []) sample_state = Done (tt, s) ∧
    last (take 2 (acts (rs s))) = Some (Output text) ∧
    ∃ a b, text = a ++ str "{ , " ++ b.
Proof.
  eexists _, _. split; [by vm_compute|]. split; [by vm_compute|].
  eexists (str "RESULT { " ++ DBQ "id" ++ str ":" ++ DBQ "1" ++ str ", V, " ++ DBQ "lts" ++ str ":1, " ++
    DBQ "time" ++ str ":2, " ++ DBQ "ttr" ++ str ":0.1, " ++ DBQ "result" ++ str ":[ "), _. by vm_compute.
Qed.
