(* ===== verification/TcpHttp.v ===== *)
(** * The HTTP client on the TCP layer

    [httpget.c] is a client of [tcputil.c]: the callbacks of [Http1] are an instance of
    [client], and without the option to try all addresses the instance keeps the
    contract [polite].  Then the deviations of the layer, found with this client:
    an assertion that fails for a second address over TLS, an address that is
    skipped, and the [NULL] that is freed when all addresses are tried. *)

From stdpp Require Import base list list_numbers numbers option strings.
From Stdlib Require Import ZArith Lia.
From S2P Require Import Prelude Bits Blocks Cstr Packet Wp Validate Tcp TcpProofs TcpMain Http1 Http1Proofs Http1Loop Http1Main.

Open Scope Z_scope.

(** ** The instance *)

(** The calls of the TCP layer among the actions. *)
Definition request_of (a : Http1.action) : list Tcp.request :=
  match a with Restart => [RestartConnect] | Cleanup => [CleanUp] | _ => [] end.
Definition requests_since (s s' : hgstate) : list Tcp.request :=
  mjoin (request_of <$> drop (length (acts (rs s))) (acts (rs s'))).

(** The state of a measurement, with the address of the current attempt ([sin6]). *)
Abbreviation hclient := (hgstate * option addrinfo)%type.

Section Client.
Context (p : params) (env_of : option addrinfo → env) (files : list Z → option (list Z)).

Definition run (m : H unit) (c : hclient) : outcome (hclient * list Tcp.request) :=
  match m c.1 with
  | Done (_, s') => Done ((s', c.2), requests_since c.1 s')
  | Crash e => Crash e
  end.

#[local] Instance http_client : client hclient := {
  cl_reporterr cause msg ai c :=
    run (Http1.reporterr p (env_of (match cause with TU_BAD_ADDR => ai | _ => c.2 end)) cause msg) c;
  cl_reportcount n c := match dnscount n c.1 with Done (_, s') => Done (s', c.2) | Crash e => Crash e end;
  cl_beforeconnect ai c := match beforeconnect p c.1 with Done (_, s') => Done (s', Some ai) | Crash e => Crash e end;
  cl_connected c := run connected c;
  cl_writecb c := run (writecb p files) c;
  cl_timeout c := run (timeout_callback p (env_of c.2)) c
}.

(** ** The contract *)

Lemma requests_app s s' l : acts (rs s') = acts (rs s) ++ l → requests_since s s' = mjoin (request_of <$> l).
Proof. intros E. unfold requests_since. by rewrite E, drop_app_length. Qed.

(** [m] leaves the actions and [connecting] alone. *)
Definition silent (m : H unit) : Prop :=
  ∀ s, ∃ s', m s = Done (tt, s') ∧ acts (rs s') = acts (rs s) ∧ connecting (rs s') = connecting (rs s).

Lemma silent_bind m1 m2 : silent m1 → silent m2 → silent (m1;; m2).
Proof.
  intros H1 H2 s. destruct (H1 s) as (s1 & E1 & A1 & C1), (H2 s1) as (s2 & E2 & A2 & C2). exists s2.
  rewrite (M_bind_done _ _ _ _ _ E1). split; [done|]. split; congruence.
Qed.
Lemma silent_add t : silent (add_str t).
Proof. intros s. by eexists. Qed.
Lemma silent_ret : silent (mret tt).
Proof. intros s. by eexists. Qed.
Lemma silent_modify f : (∀ s, acts (rs (f s)) = acts (rs s) ∧ connecting (rs (f s)) = connecting (rs s)) → silent (modify f).
Proof. intros H s. eexists. split; [reflexivity|]. apply H. Qed.

(** What ends in a report asks for the end. *)
Lemma run_report e m c : do_all p = false → silent m →
  ∃ c', run (m;; report p e) c = Done (c', [CleanUp]).
Proof.
  intros Hall Hm. unfold run. destruct (Hm c.1) as (s1 & E1 & A1 & _).
  destruct (report_ok p e s1) as (s2 & E2 & _ & _ & A2 & _). rewrite (M_bind_done _ _ _ _ _ E1), E2.
  eexists. f_equal. f_equal. rewrite A1 in A2. rewrite (requests_app _ _ _ A2). unfold report_actions, more.
  rewrite Hall. cbn [andb]. rewrite fmap_app. by destruct (do_output _ _).
Qed.
Lemma run_report' e c : do_all p = false → ∃ c', run (report p e) c = Done (c', [CleanUp]).
Proof.
  intros Hall. destruct (run_report e (mret tt) c Hall silent_ret) as [c' E]. exists c'. rewrite <- E.
  unfold run. by rewrite bind_ret.
Qed.
Lemma run_silent m c : silent m → ∃ c', run m c = Done (c', []) ∧ connecting (rs c'.1) = connecting (rs c.1).
Proof.
  intros Hm. unfold run. destruct (Hm c.1) as (s1 & E1 & A1 & C1). rewrite E1. exists (s1, c.2). split; [|exact C1].
  by rewrite (requests_app _ _ []) by (by rewrite app_nil_r).
Qed.
Lemma run_restart m c : silent m → ∃ c', run (m;; act Restart) c = Done (c', [RestartConnect]).
Proof.
  intros Hm. unfold run. destruct (Hm c.1) as (s1 & E1 & A1 & C1). rewrite (M_bind_done _ _ _ _ _ E1).
  unfold act. rewrite modify_M. eexists. f_equal. f_equal. by rewrite (requests_app _ _ [Restart]) by (cbn; by rewrite A1).
Qed.
Lemma run_assoc {A} (m1 : H unit) (m2 : H A) (m3 : H unit) c : run ((m1;; m2);; m3) c = run (m1;; m2;; m3) c.
Proof. unfold run. by rewrite bind_assoc. Qed.

(** The writer neither reports nor starts a connection, and its loop ends. *)
Definition rank (w : writestate_t) : nat :=
  match w with
  | WRITE_FIRST => 5 | WRITE_HEADER => 4 | WRITE_POST_HEADER => 3 | WRITE_POST_FILE => 2 | WRITE_POST_FOOTER => 1
  | WRITE_DONE => 0
  end.
Lemma post_part_total f next s :
  ∃ r s', post_part files f next s = Done (r, s') ∧ rs s' = rs s ∧
    (r = Continue → writestate (wr s') = next) .
Proof.
  unfold post_part. destruct f as [name|]; [|by eexists _, _].
  unfold do_post_file. rewrite bind_assoc, bind_get.
  destruct (match post_fh (wr s) with Some fh => Some fh | None => files name end) as [fh|].
  - case_bool_decide.
    + by eexists _, _.
    + unfold send. by eexists _, _.
  - by eexists _, _.
Qed.
Lemma write_loop_total n s :
  (rank (writestate (wr s)) < n)%nat → ∃ s', write_loop p files n s = Done (tt, s') ∧ rs s' = rs s.
Proof.
  revert s. induction n as [|n IH]; intros s Hn; [lia|]. cbn [write_loop].
  assert (∃ r s', write_step p files s = Done (r, s') ∧ rs s' = rs s ∧
    (r = Continue → (rank (writestate (wr s')) < rank (writestate (wr s)))%nat)) as (r & s1 & E & R & Hr).
  { unfold write_step. rewrite bind_get. destruct (writestate (wr s)) eqn:Ew; cbn [rank].
    - eexists _, _. split; [reflexivity|]. cbn. split; [done|lia].
    - unfold send. by eexists _, _.
    - destruct (post_part_total (post_header p) WRITE_POST_FILE s) as (r & s1 & E & R & Hr).
      exists r, s1. split; [done|]. split; [done|]. intros ->. rewrite Hr by done. cbn. lia.
    - destruct (post_part_total (post_file p) WRITE_POST_FOOTER s) as (r & s1 & E & R & Hr).
      exists r, s1. split; [done|]. split; [done|]. intros ->. rewrite Hr by done. cbn. lia.
    - destruct (post_part_total (post_footer p) WRITE_DONE s) as (r & s1 & E & R & Hr).
      exists r, s1. split; [done|]. split; [done|]. intros ->. rewrite Hr by done. cbn. lia.
    - by eexists _, _. }
  rewrite (M_bind_done _ _ _ _ _ E). destruct r; [|by exists s1].
  destruct (IH s1) as (s2 & E2 & R2); [specialize (Hr eq_refl); lia|]. exists s2. split; [done|congruence].
Qed.
Lemma silent_writecb : silent (writecb p files).
Proof.
  intros s. unfold writecb. rewrite bind_get. destruct (in_writecb (wr s)); [by eexists|]. rewrite bind_modify.
  destruct (write_loop_total 6 (set_in_writecb true s)) as (s1 & E & R); [cbn; destruct (writestate (wr s)); cbn; lia|].
  rewrite (M_bind_done _ _ _ _ _ E), modify_M. eexists. split; [reflexivity|]. cbn. by rewrite R.
Qed.

Lemma run_get (f : hgstate → H unit) c : run (get ≫= f) c = run (f c.1) c.
Proof. done. Qed.

Definition ends (m : H unit) (c : hclient) : Prop := ∃ c', run m c = Done (c', [CleanUp]).

(** [m] ends in a report behind silent steps. *)
Ltac solve_ends Hall :=
  rewrite <- ?run_assoc;
  lazymatch goal with
  | |- ∃ c', run (report _ _) _ = _ => apply (run_report' _ _ Hall)
  | |- ∃ c', run (_ ;; report _ _) _ = _ => apply run_report; [exact Hall|]
  end;
  repeat first [apply silent_bind|apply silent_add|apply silent_ret|apply silent_modify; done
               |match goal with |- silent (if ?b then _ else _) => destruct b end].

Lemma err_reading_asks e c : do_all p = false →
  ends (err_reading p e) c ∨ ∃ c', run (err_reading p e) c = Done (c', []) ∧ connecting (rs c'.1) = connecting (rs c.1).
Proof.
  intros Hall. unfold ends, err_reading. rewrite run_get.
  destruct (readstate (rp c.1));
    lazymatch goal with |- context [run (mret tt) _] => right; apply run_silent, silent_ret | _ => left; solve_ends Hall end.
Qed.

Lemma timeout_asks e c : do_all p = false →
  ends (timeout_callback p e) c ∨ (∃ c', run (timeout_callback p e) c = Done (c', [])) ∨
  (connecting (rs c.1) = true ∧ ∃ c', run (timeout_callback p e) c = Done (c', [RestartConnect])).
Proof.
  intros Hall. unfold ends, timeout_callback. rewrite run_get. destruct (connecting (rs c.1)).
  { right. right. split; [done|]. rewrite Hall. apply run_restart, silent_add. }
  destruct (readstate (rp c.1));
    lazymatch goal with
    | |- context [run (mret tt) _] => right; left; destruct (run_silent _ c silent_ret) as (c' & E & _); by exists c'
    | _ => left; solve_ends Hall
    end.
Qed.

(** Without the option to try all addresses the HTTP client keeps the contract. *)
#[local] Instance http_polite (Hall : do_all p = false) : polite hclient.
Proof.
  refine {| cl_inv _ := True; waiting c := connecting (rs c.1) |}.
  - intros cause msg ai c _ Hs.
    assert (∀ m, ends m c → ∃ c' l, run m c = Done (c', l) ∧ True ∧ l = [CleanUp]) as Hend by (intros m [c' E]; eauto).
    cbn [cl_reporterr http_client]. destruct cause; try done; cbn [Http1.reporterr].
    + apply Hend. unfold ends. solve_ends Hall.
    + destruct (err_reading_asks (env_of c.2) c Hall) as [[c' E]|(c' & E & Hc)]; rewrite E; eauto 10.
    + apply Hend. unfold ends. solve_ends Hall.
    + rewrite Hall. match goal with |- context [add_str ?t] => destruct (run_restart (add_str t) c (silent_add t)) as [c' E] end.
      rewrite E. eauto 10.
    + apply Hend. unfold ends. solve_ends Hall.
    + apply Hend. unfold ends. solve_ends Hall.
  - intros n c _. by eexists.
  - intros ai c _. cbn [cl_beforeconnect http_client]. unfold beforeconnect. rewrite !bind_modify.
    destruct (negb (do_all p) || negb (do_combine p)); by eexists.
  - intros c _. exists (set_bev (Some []) (set_connecting false c.1), c.2). split; [|done].
    cbn [cl_connected http_client]. unfold run, connected. rewrite bind_modify, modify_M.
    rewrite (requests_app _ _ []); [reflexivity|]. cbn. by rewrite app_nil_r.
  - intros c _. destruct (run_silent _ c silent_writecb) as (c' & E & Hc). exists c', []. auto.
  - intros c _. cbn [cl_timeout http_client].
    destruct (timeout_asks (env_of c.2) c Hall) as [[c' E]|[[c' E]|(Hw & c' & E)]]; rewrite E; eauto 10.
Defined.
End Client.

(** ** A measurement over TCP *)

Definition v4 (last : Z) : addrinfo := (AF_INET (193 * 2 ^ 24 + last), sizeof_sockaddr_in).
Definition works : answers := ANS true true true true true true true true true true true true true true [].
Definition no_route : answers :=
  ANS true true true true true true true true true true true true true false (str "Network is unreachable").
Definition all_params : params :=
  P (Some (str "1")) None true false true false false false (str "ua") (str "example.com") (str "/") None None None 0 0 0 0.
Definition tcp_params (tls : bool) : tu_params := TP (5, 0) false tls false false false.
Definition idle_world : world hclient :=
  WORLD (TU false false false None [] None false None (TS 0 0) (TS 0 0)) (HP [] 0 0) (sample_state, None) 0 [].

Section Sample.
Context (p : params).
#[local] Instance sample_client : client hclient := http_client p (λ _, sample_env) (λ _, None).

(** A name with the given addresses is resolved, then the connections fail one after the other. *)
Definition session (tls asserts : bool) (sys : nat → answers) (res : list addrinfo) (n : nat) : M (world hclient) unit :=
  tu_connect_to_name false (TS 1 0);;
  dns_cb (tcp_params tls) sys asserts false depth None res (TS 2 0);;
  failures (tcp_params tls) sys asserts false (replicate n (str "Connection refused")).
End Sample.


Lemma sample_setup tls : setup_ok (tcp_params tls) (λ _, works) false.
Proof. by destruct tls. Qed.

(** A measurement that was not started, and the same while its name is resolved. *)
Definition asking_world : world hclient :=
  WORLD (TU true false false None [] None false None (TS 1 0) (TS 0 0)) (HP [] 0 0) (sample_state, None) 0 [].

Lemma tcp_safe_witness :
  let cl := http_client sample_params (λ _, sample_env) (λ _, None) in
  (∃ w', handle (tcp_params true) (λ _, works) false false (Resolved None [v4 1; v4 2] (TS 2 0)) asking_world = Done (tt, w')) ∧
  (infname (tcp_params true) = false → bevs (hp asking_world) = option_list (Tcp.bev (tu asking_world))) ∧
  match dns_res (tu asking_world) with
  | Some l => dns_curr (tu asking_world) `suffix_of` l | None => dns_curr (tu asking_world) = []
  end.
Proof.
  intros cl. pose (pol := http_polite sample_params (λ _, sample_env) (λ _, None) eq_refl).
  apply (@tcp_safe _ cl pol (tcp_params true) (λ _, works) false false idle_world asking_world).
  - apply sample_setup.
  - unfold fresh, clean. cbn. unfold sane_time. cbn. split_and!; done.
  - eapply (reach_step _ _ _ _ _ idle_world (Start false (TS 1 0))); [apply reach_init| |reflexivity].
    cbn. unfold clean, sane_time. cbn. split_and!; done.
  - cbn. unfold sane_time. cbn. split_and!; done.
Defined.

Lemma tcp_addresses_in_order_witness :
  let cl := http_client sample_params (λ _, sample_env) (λ _, None) in
  ∃ w', (dns_cb (tcp_params true) (λ _, works) false false depth None [v4 1; v4 2] (TS 2 0);;
         failures (tcp_params true) (λ _, works) false false [str "refused"]) asking_world = Done (tt, w') ∧
    tried w' = [v4 1; v4 2] ∧ dns_curr (tu w') = [v4 2] ∧ is_Some (Tcp.bev (tu w')) ∧ Tcp.connecting (tu w') = true.
Proof.
  intros cl. pose (pol := http_polite sample_params (λ _, sample_env) (λ _, None) eq_refl).
  apply (@tcp_addresses_in_order _ cl pol (tcp_params true) (λ _, works) false false [v4 1; v4 2] [str "refused"] (TS 2 0) asking_world).
  - intros msg ai c _. cbn [cl_reporterr cl http_client Http1.reporterr].
    destruct (run_restart (add_str (take 159 (DBQ "err" ++ str ":" ++ quote ++ str "connect: " ++ msg ++ quote ++ str ", "))) c
                (silent_add _)) as [c' E]. by exists c'.
  - apply sample_setup.
  - split; [|done]. intros ai k Hai. rewrite !elem_of_cons, elem_of_nil in Hai. by destruct Hai as [-> |[-> |[]]].
  - done.
  - cbn. lia.
  - split; [|by intros _|cbn; unfold sane_time; cbn; lia].
    split; [|done|done|done|done]. exists []. split_and!; [done|constructor|constructor|done].
  - done.
  - unfold sane_time. cbn. lia.
Defined.

(** ** Deviations *)

(** Over TLS the context of the first attempt is kept, and the attempt for the
    next address fails an assertion. *)
Theorem tls_second_address :
  session sample_params true true (λ _, works) [v4 1; v4 2] 1 idle_world = Crash AssertFail.
Proof. vm_compute. reflexivity. Qed.

(** Without assertions the first context is lost: two are allocated, and one is
    freed in the end. *)
Theorem tls_context_lost :
  ∃ w, session sample_params true false (λ _, works) [v4 1; v4 2] 2 idle_world = Done (tt, w) ∧
    clean (tcp_params true) w ∧ ctxs (hp w) = 1%nat.
Proof. eexists. split; [vm_compute; reflexivity|]. unfold clean. cbn. split_and!; done. Qed.

(** The first address cannot be connected to at once.  The client goes on to the
    second, and the loop of [dns_cb] then goes on as well: the connection to the second address is
    given up before it was made, and the measurement ends. *)
Theorem tcp_address_skipped :
  ∃ w out, session sample_params false true (λ n, if (n =? 0)%nat then no_route else works) [v4 1; v4 2] 0 idle_world = Done (tt, w) ∧
    tried w = [v4 1; v4 2] ∧ clean (tcp_params false) w ∧ acts (rs (cl w).1) = [Restart; Output out; Cleanup].
Proof. eexists _, _. split; [vm_compute; reflexivity|]. split; [reflexivity|]. split; [|reflexivity]. unfold clean. cbn. split_and!; done. Qed.

(** All addresses are measured; two of three cannot be connected to at once.  These are not
    counted, so the report after the last address asks for another one, and
    [NULL] is freed. *)
Theorem tcp_all_frees_null :
  session all_params false true (λ n, if (n =? 0)%nat then works else no_route) [v4 1; v4 2; v4 3] 1 idle_world = Crash Undefined.
Proof. vm_compute. reflexivity. Qed.

(** The socket for an interface cannot be made: the bufferevent is lost. *)
Theorem tcp_interface_leak :
  let cl := http_client sample_params (λ _, sample_env) (λ _, None) in
  let sys := λ _ : nat, ANS true true true true true true true true true false true true true true [] in
  ∃ w, (tu_connect_to_name false (TS 1 0);; dns_cb (TP (5, 0) true false false false false) sys true false depth None [v4 1] (TS 2 0))
         idle_world = Done (tt, w) ∧
    clean (TP (5, 0) true false false false false) w ∧ bevs (hp w) = [0%nat].
Proof. eexists. split; [vm_compute; reflexivity|]. unfold clean. cbn. split_and!; done. Qed.

(** OpenSSL fails: no client knows the cause, and the process ends. *)
Theorem ssl_error_fatal :
  session sample_params true true (λ _, ANS false true true true true true true true true true true true true true []) [v4 1] 0 idle_world
  = Crash Fatal.
Proof. vm_compute. reflexivity. Qed.
