(* ===== verification/Results.v ===== *)
(** * Results of a measurement

    What the measurement engines share: the growing buffer in which a
    measurement collects the text of its results ([add_str] of ping.c, ntp.c and
    traceroute.c), and the table of its kind of measurements, in which a new one takes
    a free entry ([*_init]). *)

From stdpp Require Import base list list_numbers numbers option strings.
From Stdlib Require Import ZArith Lia.
From S2P Require Import Prelude Bits Blocks Cstr Packet Wp Validate.

Open Scope Z_scope.

(** ** The buffer *)

Record result_buf := RB { result : option (blk Z); reslen : Z; resmax : Z }.

Definition add_to (r : result_buf) (text : list Z) : outcome result_buf :=
  let r := if resmax r <? reslen r + zlen text + 1 then
             let resmax := reslen r + zlen text + 1 + 80 in
             RB (Some (realloc (default [] (result r)) (Z.to_nat resmax))) (reslen r) resmax
           else r in
  match result r with
  | None => Crash Undefined
  | Some b => b ← store_at b (reslen r) (text ++ [0]); mret (RB (Some b) (reslen r + zlen text) (resmax r))
  end.

(** A state with such a buffer. *)
Class has_results (S : Type) := { results : S → result_buf; upd_results : result_buf → S → S }.

Definition add_text {S} `{!has_results S} (text : list Z) : M S unit :=
  s ← get; r ← lift (add_to (results s) text); modify (upd_results r).

(** The buffer a measurement starts with: [xmalloc(80)]. *)
Definition fresh_buf : result_buf := RB (Some (replicate 80 None)) 0 80.

(** Texts printed to a buffer of 80 or 160 characters. *)
Definition line80 (text : list Z) : list Z := take 79 text.
Definition line160 (text : list Z) : list Z := take 159 text.

(** ** The table *)

(** The first free entry of the table, which is doubled when it is full. *)
Fixpoint first_free (table : list (option nat)) : nat :=
  match table with Some _ :: table' => S (first_free table') | _ => 0%nat end.
Definition alloc_slot (table : list (option nat)) : nat * list (option nat) :=
  let i := first_free table in
  if (length table <=? i)%nat then (length table, table ++ replicate (length table) None) else (i, table).

(** [None] where a given name is refused. *)
Definition check_name (check : list Z → bool) (name : option (list Z)) : option unit :=
  match name with Some n => if check n then Some tt else None | None => Some tt end.

Definition is_inet6 (sa : sockaddr) : bool := match sa with AF_INET6 _ => true | _ => false end.

(** ** Lemmas *)

(** The buffer holds the text [t]; it ends in a NUL once something was written. *)
Definition holds (r : result_buf) (t : list Z) : Prop :=
  ∃ b tail, result r = Some b ∧ reslen r = zlen t ∧ resmax r = zlen b ∧
    b = (Some <$> t) ++ tail ∧ (t ≠ [] → head tail = Some (Some 0)).

Lemma holds_fresh : holds fresh_buf [].
Proof. by eexists _, (replicate 80 None). Qed.

Lemma store_text t tail x max :
  max = zlen ((Some <$> t) ++ tail) → zlen x + 1 ≤ zlen tail →
  ∃ b, store_at ((Some <$> t) ++ tail) (zlen t) (x ++ [0]) = Done b ∧ holds (RB (Some b) (zlen t + zlen x) max) (t ++ x).
Proof.
  intros -> Hl. eexists. split.
  - unfold store_at, zlen. rewrite Nat2Z.id. apply store_grown. rewrite length_app. unfold zlen in Hl. cbn. lia.
  - eexists _, (Some 0 :: drop (length (x ++ [0])) tail). cbn. split; [done|]. split; [rewrite zlen_app; lia|].
    split; [|split; [|done]].
    + unfold zlen in *. rewrite !length_app, !length_fmap, length_drop, !length_app. cbn. lia.
    + rewrite app_assoc, fmap_app, <- app_assoc. done.
Qed.

Lemma add_to_holds r t x : holds r t → ∃ r', add_to r x = Done r' ∧ holds r' (t ++ x).
Proof.
  intros (b & tail & Er & El & Em & Eb & _). unfold add_to.
  assert (zlen tail = zlen b - zlen t) as Ht by (rewrite Eb; unfold zlen; rewrite length_app, length_fmap; lia).
  pose proof (zlen_nonneg x). pose proof (zlen_nonneg t).
  destruct (Z.ltb_spec (resmax r) (reslen r + zlen x + 1)) as [Hlt|Hge]; cbn [result reslen resmax].
  - set (n := reslen r + zlen x + 1 + 80). rewrite Er. change (default [] (Some b)) with b.
    unfold realloc. rewrite take_ge by (unfold zlen in *; lia). set (k := (Z.to_nat n - length b)%nat).
    rewrite Eb, <- app_assoc, El.
    destruct (store_text t (tail ++ replicate k None) x n) as (b' & -> & H').
    + rewrite app_assoc, <- Eb. unfold zlen. rewrite length_app, length_replicate. unfold k, n, zlen in *. lia.
    + unfold k, n, zlen in *. rewrite length_app, length_replicate. lia.
    + eexists. by split.
  - rewrite Er, Eb, El. destruct (store_text t tail x (resmax r)) as (b' & -> & H'); [by rewrite <- Eb|lia|].
    eexists. by split.
Qed.

(** What is printed of a buffer. *)
Lemma holds_load r t : holds r t → t ≠ [] → ∃ b, result r = Some b ∧ load_cstr b = Done (cstr t).
Proof.
  intros (b & tail & Er & _ & _ & -> & Ht) Hne. eexists. split; [exact Er|].
  specialize (Ht Hne). destruct tail as [|c tail]; [done|]. cbn in Ht. injection Ht as ->. apply load_cstr_holds.
Qed.

Section Text.
Context {S : Type} `{!has_results S}.
Implicit Types (s : S).

Lemma wp_add_text x t (Q : () → S → Prop) s :
  holds (results s) t → (∀ r, holds r (t ++ x) → Q tt (upd_results r s)) → wp (add_text x) Q s.
Proof.
  intros (r & E & Hr)%(add_to_holds _ _ x) HQ. unfold add_text. wp_steps. eapply wp_lift; [exact E|]. wp_steps. by apply HQ.
Qed.
End Text.

Lemma first_free_spec table :
  let i := first_free table in
  (i < length table → table !! i = Some None)%nat ∧ ∀ j o, table !! j = Some (Some o) → j ≠ i.
Proof.
  induction table as [|[o|] table [IH1 IH2]]; cbn [first_free length].
  - split; [lia|done].
  - split; [intros H; cbn; apply IH1; lia|]. intros [|j] o' E; [done|]. cbn in E. intros [= ->]. by eapply IH2.
  - split; [done|]. by intros [|j] o' E.
Qed.

Lemma alloc_slot_spec table i table' :
  table ≠ [] → alloc_slot table = (i, table') →
  (i < length table')%nat ∧ ∀ j o, table !! j = Some (Some o) → j ≠ i ∧ table' !! j = Some (Some o).
Proof.
  intros Hne. unfold alloc_slot. destruct (first_free_spec table) as [_ Hfree].
  destruct (Nat.leb_spec (length table) (first_free table)); intros [= <- <-].
  - rewrite length_app, length_replicate. split; [destruct table; [done|cbn; lia]|].
    intros j o E. pose proof (lookup_lt_Some _ _ _ E). split; [lia|]. by rewrite lookup_app_l.
  - split; [done|]. intros j o E. split; [by eapply Hfree|done].
Qed.

Lemma check_name_Some check name id : check_name check name = Some tt → name = Some id → check id = true.
Proof. intros E ->. cbn in E. by destruct (check id). Qed.

(** ** Entries of an array of objects *)

(** The text in the buffer; [open] says that the last entry may still be
    followed by others in the same place. *)
Definition sep_text : list Z := str " }, { ".
Fixpoint join (l : list (list Z)) : list Z :=
  match l with [] => [] | [x] => x | x :: l' => x ++ sep_text ++ join l' end.
Definition buf_text (es : list (list Z)) (open : bool) : list Z :=
  str "{ " ++ join es ++ (if open || bool_decide (es = []) then [] else sep_text).

Lemma join_sep_snoc es x : join (es ++ [x]) = join es ++ (if bool_decide (es = []) then [] else sep_text) ++ x.
Proof.
  induction es as [|y es IH]; [done|]. cbn [app join]. destruct es as [|z es]; [done|].
  cbn [app] in IH |- *. rewrite IH. rewrite !bool_decide_false by done. by rewrite <- !app_assoc.
Qed.
Lemma buf_text_add es x : buf_text (es ++ [x]) true = buf_text es false ++ x.
Proof. unfold buf_text. rewrite join_sep_snoc. cbn [orb]. by rewrite app_nil_r, <- !app_assoc. Qed.
Lemma buf_text_open es : es ≠ [] → buf_text es true ++ sep_text = buf_text es false.
Proof. intros H. unfold buf_text. cbn [orb]. rewrite bool_decide_false by done. by rewrite app_nil_r, <- !app_assoc. Qed.
