(* ===== verification/Ping.v ===== *)
(** * Ping measurements ([eperd/ping.c])

    A measurement resolves a name, sends ICMP echo requests at a fixed interval
    and prints what came back.  [fmticmp4] and [fmticmp6] fill the packet,
    [ping_xmit] sends it or ends the measurement, [noreply_callback] is the timer,
    [ready_callback4] and [ready_callback6] accept replies, [ping_cb] adds to the
    results, [report] prints them.  The operations are functions on [ping],
    which is [struct pingstate] together with the [struct pingbase] all measurements share;
    [event] says whether libevent watches the socket, [ping_timer] for how long the
    timer is set; what is sent
    and printed is recorded as [action]s.

    The model is of live measurements: in the handlers [response_in] and
    [response_out], which replay and record packets, are [NULL].  What the system
    answers during a callback is in [env].  The machine is little endian. *)

From stdpp Require Import base list list_numbers numbers option strings.
From Stdlib Require Import ZArith Lia.
From S2P Require Import Prelude Bits Cstr Packet Double Wp Validate Results.

Open Scope Z_scope.

Definition DEFAULT_PING_INTERVAL : Z := 1000.
Definition IPHDR : Z := 20.
Definition MAX_DATA_SIZE : Z := 4096 - IPHDR.
Definition ICMP_MINLEN : Z := 8.
Definition ICMP6_HDRSIZE : Z := 8.
Definition sizeof_ip6_hdr : Z := 40.
Definition ICMP_ECHOREPLY : Z := 0.
Definition ICMP_ECHO : Z := 8.
Definition ICMP6_ECHO_REQUEST : Z := 128.
Definition ICMP6_ECHO_REPLY : Z := 129.

Definition PING_ERR_NONE : Z := 0.
Definition PING_ERR_TIMEOUT : Z := 1.
Definition PING_ERR_DUP : Z := 2.
Definition PING_ERR_DONE : Z := 3.
Definition PING_ERR_SENDTO : Z := 4.
Definition PING_ERR_DNS : Z := 5.
Definition PING_ERR_DNS_NO_ADDR : Z := 6.
Definition PING_ERR_BAD_ADDR : Z := 7.

(** ** Packets *)

(** [struct evdata]: the bytes before its padding, and its size. *)
Definition evdata_bytes (ts : timespec) (index : Z) (cookie : list Z) : list Z :=
  le64 (tv_sec ts) ++ le64 (tv_nsec ts) ++ le32 index ++ cookie.
Definition sizeof_evdata : Z := 32.

Definition probe_id_line (probe_id : Z) : list Z :=
  take 79 (str "RIPE Atlas probe " ++ (if probe_id =? -1 then str "<unknown>" else print_int probe_id)).

(** The user data behind a header of [hdr] bytes. *)
Definition put_data (buffer : blk Z) (hdr sizep idx : Z) (cookie : list Z) (include_probe_id : bool)
    (now : timespec) (probe_id : Z) : outcome (blk Z) :=
  buffer ← store_at buffer hdr (evdata_bytes now idx cookie);
  if include_probe_id then
    let line := probe_id_line probe_id in
    let len := if sizep <? sizeof_evdata + zlen line then sizep - sizeof_evdata else zlen line in
    if len =? 0 then mret buffer
    else store_at buffer (hdr + sizeof_evdata) (take (Z.to_nat len) line)
  else mret buffer.

(** The size of the user data, between the smallest and the largest. *)
Definition clamp_size (hdr sizep : Z) : Z :=
  let sizep := if sizep <? sizeof_evdata then sizeof_evdata else sizep in
  if MAX_DATA_SIZE - hdr <? sizep then MAX_DATA_SIZE - hdr else sizep.

Definition fmticmp4 (buffer : blk Z) (sizep seq idx pid : Z) (cookie : list Z) (include_probe_id : bool)
    (now : timespec) (probe_id : Z) : outcome (blk Z * Z) :=
  let sizep := clamp_size ICMP_MINLEN sizep in
  buffer ← store_at buffer 0 (replicate (Z.to_nat (sizep + ICMP_MINLEN)) 0);
  buffer ← store_at buffer 0 [ICMP_ECHO; 0];
  buffer ← store_at buffer 4 (le16 (Z.land 0x0fff pid));
  buffer ← store_at buffer 6 (be16 seq);
  buffer ← put_data buffer ICMP_MINLEN sizep idx cookie include_probe_id now probe_id;
  buffer ← store_at buffer 2 (le16 0);
  icmp ← bytes_at buffer 0 (ICMP_MINLEN + sizep);
  buffer ← store_at buffer 2 (le16 (mkcksum icmp));
  mret (buffer, sizep).

Definition fmticmp6 (buffer : blk Z) (sizep seq idx pid : Z) (cookie : list Z) (include_probe_id : bool)
    (now : timespec) (probe_id : Z) : outcome (blk Z * Z) :=
  let sizep := clamp_size ICMP6_HDRSIZE sizep in
  buffer ← store_at buffer 0 (replicate (Z.to_nat (sizep + ICMP6_HDRSIZE)) 0);
  buffer ← store_at buffer 0 [ICMP6_ECHO_REQUEST; 0];
  buffer ← store_at buffer 4 (le16 (Z.land 0xffff pid));
  buffer ← store_at buffer 6 (be16 seq);
  buffer ← put_data buffer ICMP6_HDRSIZE sizep idx cookie include_probe_id now probe_id;
  buffer ← store_at buffer 2 (le16 0);
  mret (buffer, sizep).

(** Milliseconds as a [struct timeval]. *)
Definition msecstotv (msecs : Z) : Z * Z := (Z.quot msecs 1000, Z.rem msecs 1000 * 1000).

(** ** State *)

(** A packet given to [sendto], a line of results, other text on the standard output, a
    name given to the resolver, the callback [done]. *)
Inductive action :=
| Sent (dst : sockaddr) (data : list Z) | Output (text : list Z) | Stdout (text : list Z)
| Resolve (name : list Z) | DoneCb (error : bool).

(** What [ping_init] sets once; [self] stands for the address of the state. *)
Record params := P {
  self : nat; index : nat; cookie : list Z;
  atlas : option (list Z); bundle_id : option (list Z); hostname : list Z; interface : option (list Z);
  pingcount : Z; out_filename : option (list Z); include_probe_id : bool; delay_name_res : bool; interval : Z;
  af_inet : bool; maxsize : Z; has_done : bool
}.

(** Ancillary data of a received packet. *)
Inductive cmsg := PktInfo (groups : list Z) | HopLimit (hops : Z) | OtherCmsg.

(** What the system says during a callback: the clock when it is called and
    when a packet is made; the probe; the answers of the system calls. *)
Record env := ENV {
  now : timespec; xmit_now : timespec; probe_id : Z;
  sockname : option (sockaddr * Z); sendto : Z; errno : Z;
  socket_ok : bool; bind_ok : bool; connect_ok : bool; append_ok : bool;
  version_str : list Z; timesync : Z; time : Z; host_is_literal : bool; unsafe : bool;
  numeric_host : sockaddr → Z → list Z; strerror : Z → list Z
}.

(** The parts of [struct pingstate] that change. *)
Record last_reply := LR { size : Z; psize : Z; ttl : Z; rcvd_ttl : Z; start_time : timespec; ttr : timespec }.
Record session := SE {
  busy : bool; got_reply : bool; first : bool; no_dst : bool; no_src : bool; error : bool;
  send_error : bool; dnsip : bool; maxpkts : Z; sentpkts : Z; seq : Z; cursize : Z
}.
Record network := NW {
  sin6 : sockaddr; socklen : Z; loc_sin6 : sockaddr; loc_socklen : Z; dns_res : bool; socket : bool;
  event_is_init : bool; event : bool; ping_timer : option (Z * Z)
}.
Record pingbase := PB { pid : Z; table : list (option nat); packet : blk Z }.
(** The measurement with its base. *)
Record ping := PING {
  rb : result_buf; lr : last_reply; se : session; nw : network; base : pingbase; acts : list action
}.

Definition set_result (v : option (blk Z)) (s : ping) : ping :=
  PING (let r := rb s in RB v (reslen r) (resmax r)) (lr s) (se s) (nw s) (base s) (acts s).
Definition set_reslen (v : Z) (s : ping) : ping :=
  PING (let r := rb s in RB (result r) v (resmax r)) (lr s) (se s) (nw s) (base s) (acts s).
Definition set_resmax (v : Z) (s : ping) : ping :=
  PING (let r := rb s in RB (result r) (reslen r) v) (lr s) (se s) (nw s) (base s) (acts s).
Definition set_size (v : Z) (s : ping) : ping :=
  PING (rb s) (let r := lr s in LR v (psize r) (ttl r) (rcvd_ttl r) (start_time r) (ttr r)) (se s) (nw s) (base s) (acts s).
Definition set_psize (v : Z) (s : ping) : ping :=
  PING (rb s) (let r := lr s in LR (size r) v (ttl r) (rcvd_ttl r) (start_time r) (ttr r)) (se s) (nw s) (base s) (acts s).
Definition set_ttl (v : Z) (s : ping) : ping :=
  PING (rb s) (let r := lr s in LR (size r) (psize r) v (rcvd_ttl r) (start_time r) (ttr r)) (se s) (nw s) (base s) (acts s).
Definition set_rcvd_ttl (v : Z) (s : ping) : ping :=
  PING (rb s) (let r := lr s in LR (size r) (psize r) (ttl r) v (start_time r) (ttr r)) (se s) (nw s) (base s) (acts s).
Definition set_start_time (v : timespec) (s : ping) : ping :=
  PING (rb s) (let r := lr s in LR (size r) (psize r) (ttl r) (rcvd_ttl r) v (ttr r)) (se s) (nw s) (base s) (acts s).
Definition set_ttr (v : timespec) (s : ping) : ping :=
  PING (rb s) (let r := lr s in LR (size r) (psize r) (ttl r) (rcvd_ttl r) (start_time r) v) (se s) (nw s) (base s) (acts s).
Definition set_busy (v : bool) (s : ping) : ping :=
  PING (rb s) (lr s) (let r := se s in SE v (got_reply r) (first r) (no_dst r) (no_src r) (error r) (send_error r) (dnsip r) (maxpkts r) (sentpkts r) (seq r) (cursize r)) (nw s) (base s) (acts s).
Definition set_got_reply (v : bool) (s : ping) : ping :=
  PING (rb s) (lr s) (let r := se s in SE (busy r) v (first r) (no_dst r) (no_src r) (error r) (send_error r) (dnsip r) (maxpkts r) (sentpkts r) (seq r) (cursize r)) (nw s) (base s) (acts s).
Definition set_first (v : bool) (s : ping) : ping :=
  PING (rb s) (lr s) (let r := se s in SE (busy r) (got_reply r) v (no_dst r) (no_src r) (error r) (send_error r) (dnsip r) (maxpkts r) (sentpkts r) (seq r) (cursize r)) (nw s) (base s) (acts s).
Definition set_no_dst (v : bool) (s : ping) : ping :=
  PING (rb s) (lr s) (let r := se s in SE (busy r) (got_reply r) (first r) v (no_src r) (error r) (send_error r) (dnsip r) (maxpkts r) (sentpkts r) (seq r) (cursize r)) (nw s) (base s) (acts s).
Definition set_no_src (v : bool) (s : ping) : ping :=
  PING (rb s) (lr s) (let r := se s in SE (busy r) (got_reply r) (first r) (no_dst r) v (error r) (send_error r) (dnsip r) (maxpkts r) (sentpkts r) (seq r) (cursize r)) (nw s) (base s) (acts s).
Definition set_error (v : bool) (s : ping) : ping :=
  PING (rb s) (lr s) (let r := se s in SE (busy r) (got_reply r) (first r) (no_dst r) (no_src r) v (send_error r) (dnsip r) (maxpkts r) (sentpkts r) (seq r) (cursize r)) (nw s) (base s) (acts s).
Definition set_send_error (v : bool) (s : ping) : ping :=
  PING (rb s) (lr s) (let r := se s in SE (busy r) (got_reply r) (first r) (no_dst r) (no_src r) (error r) v (dnsip r) (maxpkts r) (sentpkts r) (seq r) (cursize r)) (nw s) (base s) (acts s).
Definition set_dnsip (v : bool) (s : ping) : ping :=
  PING (rb s) (lr s) (let r := se s in SE (busy r) (got_reply r) (first r) (no_dst r) (no_src r) (error r) (send_error r) v (maxpkts r) (sentpkts r) (seq r) (cursize r)) (nw s) (base s) (acts s).
Definition set_maxpkts (v : Z) (s : ping) : ping :=
  PING (rb s) (lr s) (let r := se s in SE (busy r) (got_reply r) (first r) (no_dst r) (no_src r) (error r) (send_error r) (dnsip r) v (sentpkts r) (seq r) (cursize r)) (nw s) (base s) (acts s).
Definition set_sentpkts (v : Z) (s : ping) : ping :=
  PING (rb s) (lr s) (let r := se s in SE (busy r) (got_reply r) (first r) (no_dst r) (no_src r) (error r) (send_error r) (dnsip r) (maxpkts r) v (seq r) (cursize r)) (nw s) (base s) (acts s).
Definition set_seq (v : Z) (s : ping) : ping :=
  PING (rb s) (lr s) (let r := se s in SE (busy r) (got_reply r) (first r) (no_dst r) (no_src r) (error r) (send_error r) (dnsip r) (maxpkts r) (sentpkts r) v (cursize r)) (nw s) (base s) (acts s).
Definition set_cursize (v : Z) (s : ping) : ping :=
  PING (rb s) (lr s) (let r := se s in SE (busy r) (got_reply r) (first r) (no_dst r) (no_src r) (error r) (send_error r) (dnsip r) (maxpkts r) (sentpkts r) (seq r) v) (nw s) (base s) (acts s).
Definition set_sin6 (v : sockaddr) (s : ping) : ping :=
  PING (rb s) (lr s) (se s) (let r := nw s in NW v (socklen r) (loc_sin6 r) (loc_socklen r) (dns_res r) (socket r) (event_is_init r) (event r) (ping_timer r)) (base s) (acts s).
Definition set_socklen (v : Z) (s : ping) : ping :=
  PING (rb s) (lr s) (se s) (let r := nw s in NW (sin6 r) v (loc_sin6 r) (loc_socklen r) (dns_res r) (socket r) (event_is_init r) (event r) (ping_timer r)) (base s) (acts s).
Definition set_loc_sin6 (v : sockaddr) (s : ping) : ping :=
  PING (rb s) (lr s) (se s) (let r := nw s in NW (sin6 r) (socklen r) v (loc_socklen r) (dns_res r) (socket r) (event_is_init r) (event r) (ping_timer r)) (base s) (acts s).
Definition set_loc_socklen (v : Z) (s : ping) : ping :=
  PING (rb s) (lr s) (se s) (let r := nw s in NW (sin6 r) (socklen r) (loc_sin6 r) v (dns_res r) (socket r) (event_is_init r) (event r) (ping_timer r)) (base s) (acts s).
Definition set_dns_res (v : bool) (s : ping) : ping :=
  PING (rb s) (lr s) (se s) (let r := nw s in NW (sin6 r) (socklen r) (loc_sin6 r) (loc_socklen r) v (socket r) (event_is_init r) (event r) (ping_timer r)) (base s) (acts s).
Definition set_socket (v : bool) (s : ping) : ping :=
  PING (rb s) (lr s) (se s) (let r := nw s in NW (sin6 r) (socklen r) (loc_sin6 r) (loc_socklen r) (dns_res r) v (event_is_init r) (event r) (ping_timer r)) (base s) (acts s).
Definition set_event_is_init (v : bool) (s : ping) : ping :=
  PING (rb s) (lr s) (se s) (let r := nw s in NW (sin6 r) (socklen r) (loc_sin6 r) (loc_socklen r) (dns_res r) (socket r) v (event r) (ping_timer r)) (base s) (acts s).
Definition set_event (v : bool) (s : ping) : ping :=
  PING (rb s) (lr s) (se s) (let r := nw s in NW (sin6 r) (socklen r) (loc_sin6 r) (loc_socklen r) (dns_res r) (socket r) (event_is_init r) v (ping_timer r)) (base s) (acts s).
Definition set_ping_timer (v : option (Z * Z)) (s : ping) : ping :=
  PING (rb s) (lr s) (se s) (let r := nw s in NW (sin6 r) (socklen r) (loc_sin6 r) (loc_socklen r) (dns_res r) (socket r) (event_is_init r) (event r) v) (base s) (acts s).
Definition set_pid (v : Z) (s : ping) : ping :=
  PING (rb s) (lr s) (se s) (nw s) (let r := base s in PB v (table r) (packet r)) (acts s).
Definition set_table (v : list (option nat)) (s : ping) : ping :=
  PING (rb s) (lr s) (se s) (nw s) (let r := base s in PB (pid r) v (packet r)) (acts s).
Definition set_packet (v : blk Z) (s : ping) : ping :=
  PING (rb s) (lr s) (se s) (nw s) (let r := base s in PB (pid r) (table r) v) (acts s).
Definition set_acts (v : list action) (s : ping) : ping :=
  PING (rb s) (lr s) (se s) (nw s) (base s) v.

Abbreviation PM := (M ping).

(** ** Results *)

Definition act (a : action) : PM unit := modify (λ s, set_acts (acts s ++ [a]) s).

#[export] Instance ping_results : has_results ping :=
  { results := rb; upd_results := λ r s, PING r (lr s) (se s) (nw s) (base s) (acts s) }.
Definition add_str (text : list Z) : PM unit := add_text text.

(** A line of at most 255 characters ([char line[256]]). *)
Definition line256 (text : list Z) : list Z := take 255 text.

Section Ping.
Context (p : params) (e : env).

Definition report_text (s : ping) (res : list Z) : list Z :=
  str "RESULT { " ++
  match atlas p with
  | None => []
  | Some a =>
      DBQ "id" ++ str ":" ++ quote ++ a ++ quote ++ str ", " ++ version_str e ++ str ", " ++
      DBQ "lts" ++ str ":" ++ print_int (timesync e) ++ str ", " ++
      DBQ "time" ++ str ":" ++ print_int (time e) ++ str ", " ++
      match bundle_id p with Some b => DBQ "bundle" ++ str ":" ++ b ++ str ", " | None => [] end
  end ++
  DBQ "dst_name" ++ str ":" ++ quote ++ hostname p ++ quote ++
  (if host_is_literal e then []
   else str ", " ++ DBQ "ttr" ++ str ":" ++ msecs (tv_sec (ttr (lr s))) (tv_nsec (ttr (lr s)))) ++
  str ", " ++ DBQ "af" ++ str ":" ++ print_int (if af_inet p then 4 else 6) ++
  (if no_dst (se s) then []
   else str ", " ++ DBQ "dst_addr" ++ str ":" ++ quote ++ numeric_host e (sin6 (nw s)) (socklen (nw s)) ++ quote) ++
  (if negb (no_dst (se s)) && negb (no_src (se s)) then
     str ", " ++ DBQ "src_addr" ++ str ":" ++ quote ++ numeric_host e (loc_sin6 (nw s)) (loc_socklen (nw s)) ++ quote
   else []) ++
  str ", " ++ DBQ "proto" ++ str ":" ++ DBQ "ICMP" ++
  (if got_reply (se s) then str ", " ++ DBQ "ttl" ++ str ":" ++ print_int (ttl (lr s)) else []) ++
  str ", " ++ DBQ "size" ++ str ":" ++ print_int (s32 (size (lr s))) ++
  str ", " ++ DBQ "result" ++ str ": [ " ++ res ++ str " ] }" ++ [10].

Definition report : PM unit :=
  (if bool_decide (is_Some (out_filename p)) && negb (append_ok e) then mcrash Fatal else mret tt);;
  s ← get;
  res ← match result (rb s) with None => mcrash Undefined | Some b => lift (load_cstr b) end;
  act (Output (report_text s res));;
  modify (set_result None);;
  (if event_is_init (nw s) then modify (set_event false) else mret tt);;
  modify (set_socket false);;
  modify (set_busy false).

(** What separates an entry from the one before. *)
Definition sep (s : ping) : list Z := if first (se s) then [] else str ", ".

(** [ping_cb] for a reply or a duplicate. *)
Definition cb_reply (result bytes psz : Z) (loc : sockaddr) (loclen ttl_ : Z) (rtt : timespec) : PM unit :=
  s ← get;
  add_str (line256 (sep s ++ str "{ "));;
  modify (set_first false);;
  (if result =? PING_ERR_DUP then add_str (DBQ "dup" ++ str ":1, ") else mret tt);;
  add_str (line256 (DBQ "rtt" ++ str ":" ++ msecs (tv_sec rtt) (tv_nsec rtt)));;
  (if negb (got_reply (se s)) && negb (result =? PING_ERR_DUP) then
     modify (set_loc_sin6 loc);; modify (set_loc_socklen loclen);; modify (set_got_reply true)
   else mret tt);;
  (if negb (size (lr s) =? u32 bytes) then
     add_str (line256 (str ", " ++ DBQ "size" ++ str ":" ++ print_int bytes));;
     modify (set_size (u32 bytes))
   else mret tt);;
  (if negb (psize (lr s) =? u32 psz) && negb (psz =? -1) then modify (set_psize (u32 psz)) else mret tt);;
  (if negb (ttl (lr s) =? ttl_) then
     add_str (line256 (str ", " ++ DBQ "ttl" ++ str ":" ++ print_int ttl_));;
     modify (set_ttl (u8 ttl_))
   else mret tt);;
  s ← get;
  let namebuf1 := numeric_host e (loc_sin6 (nw s)) (loc_socklen (nw s)) in
  let namebuf2 := numeric_host e loc loclen in
  (if bool_decide (namebuf1 ≠ namebuf2) then
     act (Stdout (str "loc_sin6: " ++ namebuf1 ++ [10]));;
     act (Stdout (str "loc_sa: " ++ namebuf2 ++ [10]));;
     add_str (line256 (str ", " ++ DBQ "src_addr" ++ str ":" ++ quote ++ namebuf2 ++ quote))
   else mret tt);;
  add_str (str " }").

(** The other results. *)
Definition cb_failure (result bytes psz : Z) (sa : list Z) (seq : Z) : PM unit :=
  s ← get;
  if result =? PING_ERR_TIMEOUT then
    add_str (line256 (sep s ++ str "{ " ++ DBQ "x" ++ str ":" ++ DBQ "*"));;
    add_str (str " }");; modify (set_first false)
  else if result =? PING_ERR_SENDTO then
    add_str (line256 (sep s ++ str "{ " ++ DBQ "error" ++ str ":" ++
                      quote ++ str "sendto failed: " ++ strerror e seq ++ quote));;
    add_str (str " }");; modify (set_first false)
  else if result =? PING_ERR_DNS then
    modify (set_size (u32 bytes));; modify (set_psize (u32 psz));;
    add_str (line256 (sep s ++ str "{ " ++ DBQ "error" ++ str ":" ++
                      quote ++ str "dns resolution failed: " ++ sa ++ quote ++ str " }"));;
    report
  else if result =? PING_ERR_BAD_ADDR then
    modify (set_size (u32 bytes));; modify (set_psize (u32 psz));;
    add_str (line256 (sep s ++ str "{ " ++ DBQ "error" ++ str ":" ++ DBQ "address not allowed" ++ str " }"));;
    modify (set_no_dst false);; modify (set_no_src true);;
    report
  else if result =? PING_ERR_DONE then
    modify (set_error (negb (got_reply (se s))));; report
  else mret tt.

(** [loc_sa] and [rtt] are [None] for [NULL]. *)
Definition ping_cb (result bytes psz : Z) (sa : list Z) (loc_sa : option (sockaddr * Z)) (seq ttl_ : Z)
    (rtt : option timespec) : PM unit :=
  s ← get;
  if negb (busy (se s)) then mret tt
  else
    (if first (se s) then
       modify (set_size (u32 bytes));; modify (set_psize (u32 psz));; modify (set_ttl (u8 ttl_))
     else mret tt);;
    if (result =? PING_ERR_NONE) || (result =? PING_ERR_DUP) then
      match loc_sa, rtt with
      | Some (loc, loclen), Some rtt => cb_reply result bytes psz loc loclen ttl_ rtt
      | _, _ => mcrash Undefined
      end
    else cb_failure result bytes psz sa seq.

Definition call_done (err : bool) : PM unit := if has_done p then act (DoneCb err) else mret tt.

(** ** Sending *)

(** [getsockname] into [loc_sin6]. *)
Definition get_sockname : PM unit :=
  modify (set_loc_socklen sizeof_sockaddr_in6);;
  match sockname e with
  | Some (sa, len) => modify (set_loc_sin6 sa);; modify (set_loc_socklen len)
  | None => mret tt
  end.

(** One echo request, for either address family. *)
Definition send_request : PM unit :=
  s ← get;
  let fmticmp := if is_inet6 (sin6 (nw s)) then fmticmp6 else fmticmp4 in
  let hdrsize := if is_inet6 (sin6 (nw s)) then ICMP6_HDRSIZE else ICMP_MINLEN in
  '(buffer, sizep) ← lift (fmticmp (packet (base s)) (cursize (se s)) (seq (se s)) (Z.of_nat (index p))
                             (pid (base s)) (cookie p) (include_probe_id p) (xmit_now e) (probe_id e));
  modify (set_packet buffer);; modify (set_cursize sizep);;
  get_sockname;;
  data ← lift (bytes_at buffer 0 (sizep + hdrsize));
  act (Sent (sin6 (nw s)) data).

Definition ping_xmit : PM unit :=
  s ← get;
  if u64 (maxpkts (se s)) <=? sentpkts (se s) then
    ping_cb PING_ERR_DONE (s32 (cursize (se s))) (s32 (psize (lr s))) []
      (Some (loc_sin6 (nw s), loc_socklen (nw s))) 0 (rcvd_ttl (lr s)) None;;
    modify (set_dns_res false);;
    s ← get;
    call_done (error (se s))
  else
    send_request;;
    s ← get;
    modify (set_sentpkts (u64 (sentpkts (se s) + 1)));;
    (if 0 <? sendto e then mret tt
     else
       modify (set_send_error true);;
       ping_cb PING_ERR_SENDTO (s32 (cursize (se s))) (-1) []
         (Some (loc_sin6 (nw s), loc_socklen (nw s))) (errno e) 0 None);;
    modify (set_ping_timer (Some (msecstotv (interval p)))).

Definition noreply_callback : PM unit :=
  s ← get;
  (if negb (got_reply (se s)) && negb (send_error (se s)) then
     ping_cb PING_ERR_TIMEOUT (s32 (cursize (se s))) (-1) [] None (seq (se s)) (-1) None;;
     modify (λ s, set_seq ((seq (se s) + 1) `mod` 256) s)
   else mret tt);;
  ping_xmit.

(** ** Receiving *)

(** [recvfrom] or [recvmsg] into [base->packet]: what fits is stored. *)
Definition receive (data : list Z) : PM Z :=
  let data := take (Z.to_nat MAX_DATA_SIZE) data in
  s ← get;
  b ← lift (store_at (packet (base s)) 0 data);
  modify (set_packet b);;
  mret (zlen data).

(** The measurement the user data of a packet at [data] is for. *)
Definition is_ours (b : blk Z) (data : Z) : PM bool :=
  s ← get;
  idx ← lift (le_at b (data + 16) 4);
  match table (base s) !! Z.to_nat idx with
  | Some (Some owner) =>
      if (owner =? self p)%nat then
        c ← lift (bytes_at b (data + 20) 8);
        mret (bool_decide (cookie p = c))
      else mret false
  | _ => mret false
  end.

Definition sent_time (b : blk Z) (data : Z) : outcome timespec :=
  sec ← le_at b data 8; nsec ← le_at b (data + 8) 8; mret (TS (s64 sec) (s64 nsec)).

Definition bump_seq : PM unit := modify (λ s, set_seq ((seq (se s) + 1) `mod` 256) s).

(** [recv] is [None] for a negative result. *)
Definition ready_callback4 (recv : option (list Z)) : PM unit :=
  match recv with
  | None => mret tt
  | Some data =>
      nrecv ← receive data;
      s ← get;
      let b := packet (base s) in
      ver_hl ← lift (le_at b 0 1);
      let ip_hl := Z.land ver_hl 15 in
      let hlen := ip_hl * 4 in
      if (nrecv <? hlen + ICMP_MINLEN + sizeof_evdata) || (ip_hl <? 5) then mret tt
      else
        id ← lift (le_at b (hlen + 4) 2);
        if negb (id =? Z.land (pid (base s)) 0x0fff) then mret tt
        else
          ours ← is_ours b (hlen + ICMP_MINLEN);
          if negb ours then mret tt
          else
            type ← lift (le_at b hlen 1);
            if type =? ICMP_ECHO then mret tt
            else if type =? ICMP_ECHOREPLY then
              ts ← lift (sent_time b (hlen + ICMP_MINLEN));
              rtt ← lift (elapsed (now e) ts);
              ip_dst ← lift (be_at b 16 4);
              ip_ttl ← lift (le_at b 8 1);
              modify (set_rcvd_ttl ip_ttl);;
              rseq ← lift (be_at b (hlen + 6) 2);
              let isDup := negb (rseq =? seq (se s)) in
              ping_cb (if isDup then PING_ERR_DUP else PING_ERR_NONE) (nrecv - IPHDR - ICMP_MINLEN) nrecv []
                (Some (AF_INET ip_dst, sizeof_sockaddr_in)) rseq ip_ttl (Some rtt);;
              if negb isDup then modify (set_got_reply true);; bump_seq else mret tt
            else noreply_callback
  end.

(** The destination address and the hop limit in the ancillary data. *)
Definition read_cmsg (c : cmsg) (a : sockaddr * Z) : sockaddr * Z :=
  match c with
  | PktInfo groups => (AF_INET6 groups, a.2)
  | HopLimit hops => (a.1, u8 hops)
  | OtherCmsg => a
  end.

Definition ready_callback6 (recv : option (list Z * list cmsg)) : PM unit :=
  match recv with
  | None => mret tt
  | Some (data, cmsgs) =>
      nrecv ← receive data;
      s ← get;
      let b := packet (base s) in
      if nrecv <? ICMP6_HDRSIZE + sizeof_evdata then mret tt
      else
        id ← lift (le_at b 4 2);
        if negb (id =? Z.land (pid (base s)) 0xffff) then mret tt
        else
          ours ← is_ours b ICMP6_HDRSIZE;
          if negb ours then mret tt
          else
            type ← lift (le_at b 0 1);
            if type =? ICMP6_ECHO_REQUEST then mret tt
            else if type =? ICMP6_ECHO_REPLY then
              ts ← lift (sent_time b ICMP6_HDRSIZE);
              rtt ← lift (elapsed (now e) ts);
              let '(loc, hops) := fold_left (λ a c, read_cmsg c a) cmsgs (AF_OTHER 0, rcvd_ttl (lr s)) in
              modify (set_rcvd_ttl hops);;
              rseq ← lift (be_at b 6 2);
              let isDup := negb (rseq =? seq (se s)) in
              ping_cb (if isDup then PING_ERR_DUP else PING_ERR_NONE) (nrecv - ICMP6_HDRSIZE)
                (nrecv + sizeof_ip6_hdr) [] (Some (loc, sizeof_sockaddr_in6)) rseq hops (Some rtt);;
              bump_seq;;
              if negb isDup then modify (set_got_reply true) else mret tt
            else noreply_callback
  end.

(** ** Starting and stopping *)

(** An error before the first packet. *)
Definition start_error (text : list Z) : PM unit :=
  add_str (line80 (str "{ " ++ DBQ "error" ++ str ":" ++ quote ++ text ++ quote ++ str " }"));;
  report;;
  call_done true.

Definition ping_start2 : PM unit :=
  modify (set_sentpkts 0);; modify (set_cursize (maxsize p));;
  modify (set_send_error false);; modify (set_got_reply false);;
  modify (set_no_dst false);; modify (set_no_src false);; modify (set_error false);;
  if negb (socket_ok e) then start_error (str "socket failed: " ++ strerror e (errno e))
  else
    modify (set_socket true);;
    modify (set_event_is_init true);; modify (set_event false);;
    if bool_decide (is_Some (interface p)) && negb (bind_ok e) then
      start_error (str "bind to interface failed")
    else if negb (connect_ok e) then start_error (str "connect failed: " ++ strerror e (errno e))
    else
      get_sockname;;
      modify (set_event true);;
      ping_xmit.

(** [err] is the text of a non-zero result. *)
Definition dns_cb (err : option (list Z)) (res : list (sockaddr * Z)) : PM unit :=
  s ← get;
  if negb (dnsip (se s)) then mret tt
  else
    rtt ← lift (elapsed (now e) (start_time (lr s)));
    modify (set_ttr rtt);;
    modify (set_dnsip false);;
    match err with
    | Some text =>
        ping_cb PING_ERR_DNS (s32 (maxsize p)) (-1) text None 0 0 None;;
        ping_cb PING_ERR_DONE (s32 (maxsize p)) (-1) [] None 0 0 None;;
        call_done true
    | None =>
        modify (set_dns_res (bool_decide (res ≠ [])));;
        let no_addr :=
          modify (set_dns_res false);;
          ping_cb PING_ERR_DNS_NO_ADDR (s32 (cursize (se s))) (-1) [] None 0 0 None;;
          call_done true in
        match res with
        | [] => no_addr
        | (sa, len) :: _ =>
            modify (set_socklen len);;
            if sizeof_sockaddr_in6 <? len then no_addr
            else
              modify (set_sin6 sa);;
              if atlas_check_addr (unsafe e) sa len =? -1 then
                ping_cb PING_ERR_BAD_ADDR (s32 (maxsize p)) (-1) [] None 0 0 None;;
                ping_cb PING_ERR_DONE (s32 (maxsize p)) (-1) [] None 0 0 None;;
                call_done true
              else ping_start2
        end
    end.

Definition ping_start : PM unit :=
  s ← get;
  if busy (se s) then mret tt
  else
    modify (set_resmax 80);; modify (set_result (Some (replicate 80 None)));; modify (set_reslen 0);;
    modify (set_first true);; modify (set_got_reply false);; modify (set_no_dst true);;
    modify (set_busy true);; modify (set_event_is_init false);;
    modify (set_maxpkts (s32 (pingcount p)));;
    if negb (delay_name_res p) then ping_start2
    else
      modify (set_dnsip true);; modify (set_start_time (now e));;
      act (Resolve (hostname p)).

(** False for a result of 0. *)
Definition ping_delete : PM bool :=
  s ← get;
  if busy (se s) then mret false
  else
    modify (set_ping_timer None);;
    modify (set_table (<[index p := None]> (table (base s))));;
    mret true.

End Ping.

(** ** Creating a measurement *)

(** What [getopt32] leaves in the variables; it refuses other arguments. *)
Record options := OPT {
  opt_4 : bool; opt_e : bool; opt_p : bool;
  o_pingcount : Z; o_size : Z; o_atlas : option (list Z); o_bundle : option (list Z); o_out : option (list Z);
  o_interval : Z; o_interface : option (list Z); o_response_in : option (list Z); o_response_out : option (list Z);
  o_hostname : list Z
}.

(** The base all measurements share, made by the first call. *)
Definition new_base (getpid : Z) : pingbase :=
  PB getpid (replicate 10 None) (replicate (Z.to_nat MAX_DATA_SIZE) (Some 0)).

(** The state as [xzalloc] and the assignments leave it. *)
Definition new_state (base : pingbase) (sa : sockaddr * Z) : ping :=
  PING (RB None 0 0) (LR 0 0 0 0 (TS 0 0) (TS 0 0))
       (SE false false false false false false false false 0 0 1 0)
       (NW sa.1 sa.2 (AF_OTHER 0) 0 false false false false None) base [].

Section Init.
Context (spooldir fuzzing_rel new_rel : list Z).   (* ATLAS_SPOOLDIR, ATLAS_FUZZING_REL, ATLAS_DATA_NEW_REL *)
Context (unsafe_ append_ok_ : bool).

(** [urandom] is [None] when the cookie cannot be read, [lsa] the answer of
    [host_and_af2sockaddr]; [self] is the address [xzalloc] returns. *)
Definition ping_init (base0 : pingbase) (urandom : option (list Z)) (opts : option options)
    (lsa : option (sockaddr * Z)) (self : nat) (done : bool) : option (params * ping) :=
  cookie ← urandom;
  o ← opts;
  if (o_interval o <? 1) || (60000 <? o_interval o) then None
  else
    let fuzzing n := bool_decide (is_Some (rebased_validated_filename unsafe_ spooldir n fuzzing_rel)) in
    _ ← check_name fuzzing (o_response_in o);
    _ ← check_name fuzzing (o_response_out o);
    out ← match o_out o with
          | None => Some None
          | Some n =>
              v ← rebased_validated_filename unsafe_ spooldir n new_rel;
              if append_ok_ then Some (Some v) else None
          end;
    _ ← check_name (λ n, negb (validate_atlas_id n =? 0)) (o_atlas o);
    _ ← check_name (λ n, negb (validate_atlas_id n =? 0)) (o_bundle o);
    let delay := negb (opt_e o) in
    sa ← (if delay then Some (AF_OTHER 0, 0)
          else
            '(sa, len) ← lsa;
            if (sizeof_sockaddr_in6 <? len) || (atlas_check_addr unsafe_ sa len =? -1) then None
            else Some (sa, len));
    let replay := bool_decide (is_Some (o_response_in o)) || bool_decide (is_Some (o_response_out o)) in
    let pid_ := if replay then 42 else pid base0 in
    let cookie := if replay then replicate 8 42 else cookie in
    let '(i, table) := alloc_slot (table base0) in
    let base := PB pid_ (<[i := Some self]> table) (packet base0) in
    Some (P self i cookie (o_atlas o) (o_bundle o) (o_hostname o) (o_interface o) (o_pingcount o) out
            (opt_p o) delay (o_interval o) (opt_4 o) (o_size o) done,
          new_state base sa).
End Init.
