(* ===== verification/PingProofs.v ===== *)
(** * Ping: packets and results

    The bytes [fmticmp4] and [fmticmp6] write and their checksum; the buffer of the
    results; what the handlers do to the state, as weakest preconditions. *)

From stdpp Require Import base list list_numbers numbers option strings.
From Stdlib Require Import ZArith Lia.
From S2P Require Import Prelude Bits Blocks Cstr Packet Double Wp Validate Results Ping.

Open Scope Z_scope.

(** ** Echo requests *)

Definition id_text (size : Z) (include_probe_id : bool) (probe_id : Z) : list Z :=
  if include_probe_id then take (Z.to_nat (size - sizeof_evdata)) (probe_id_line probe_id) else [].

(** The user data of a request: time, index and cookie, the padding of the
    structure, the name of the probe as far as it fits, zeroes. *)
Definition user_data (size : Z) (ts : timespec) (idx : Z) (cookie : list Z) (incl : bool) (probe_id : Z) : list Z :=
  evdata_bytes ts idx cookie ++ replicate 4 0 ++ id_text size incl probe_id ++
  replicate (Z.to_nat (size - sizeof_evdata) - length (id_text size incl probe_id)) 0.

(** An ICMP message: type, code 0, checksum, identifier, sequence number. *)
Definition icmp_msg (type : Z) (cksum : list Z) (id seq : Z) (data : list Z) : list Z :=
  [type; 0] ++ cksum ++ le16 id ++ be16 seq ++ data.

Lemma length_evdata ts idx ck : length ck = 8%nat → length (evdata_bytes ts idx ck) = 28%nat.
Proof. intros H. unfold evdata_bytes. rewrite !length_app, H. done. Qed.

Lemma length_id_text size incl pr : (length (id_text size incl pr) ≤ Z.to_nat (size - 32))%nat.
Proof. unfold id_text. destruct incl; [|cbn; lia]. rewrite length_take. unfold sizeof_evdata. lia. Qed.

Lemma length_user_data size ts idx ck incl pr :
  32 ≤ size → length ck = 8%nat → length (user_data size ts idx ck incl pr) = Z.to_nat size.
Proof.
  intros Hs Hc. unfold user_data. rewrite !length_app, !length_replicate, length_evdata by done.
  pose proof (length_id_text size incl pr). unfold sizeof_evdata. lia.
Qed.

Lemma clamp_bounds sizep : 32 ≤ clamp_size 8 sizep ≤ 4068.
Proof.
  unfold clamp_size, MAX_DATA_SIZE, sizeof_evdata, IPHDR.
  destruct (Z.ltb_spec sizep 32); destruct (Z.ltb_spec (4096 - 20 - 8) (if sizep <? 32 then 32 else sizep));
    repeat case_match; lia.
Qed.

Lemma put_data_spec pre post size ts idx ck incl pr :
  length pre = 8%nat → 32 ≤ size → length ck = 8%nat →
  put_data (Some <$> (pre ++ replicate (Z.to_nat size) 0 ++ post)) 8 size idx ck incl ts pr =
  Done (Some <$> (pre ++ user_data size ts idx ck incl pr ++ post)).
Proof.
  intros Hp Hs Hc. unfold put_data, user_data, id_text. set (n := Z.to_nat (size - sizeof_evdata)).
  assert (replicate (Z.to_nat size) 0 = replicate 28 0 ++ replicate 4 0 ++ replicate n 0) as ->.
  { rewrite <- !replicate_add. f_equal. unfold n, sizeof_evdata. lia. }
  rewrite <- !app_assoc.
  rewrite store_at_mid by (first [unfold zlen; lia|rewrite length_evdata by done; done]). msimpl.
  destruct incl; [|cbn [app length]; rewrite Nat.sub_0_r; done].
  set (line := probe_id_line pr). set (len := if _ <? _ then _ else _).
  assert (length (take n line) = Z.to_nat len ∧ take (Z.to_nat len) line = take n line) as [Hl Ht].
  { unfold n, len, zlen. destruct (Z.ltb_spec size (sizeof_evdata + Z.of_nat (length line))).
    - split; [rewrite length_take; lia|done].
    - rewrite Nat2Z.id. split; [rewrite length_take; lia|]. rewrite !take_ge by lia. done. }
  destruct (Z.eqb_spec len 0) as [H0|H0].
  { rewrite H0 in Hl. destruct (take n line); [|done]. cbn [app length]. rewrite Nat.sub_0_r. done. }
  rewrite Ht. assert (replicate n 0 = replicate (Z.to_nat len) 0 ++ replicate (n - Z.to_nat len) 0) as ->.
  { rewrite <- replicate_add. f_equal. rewrite length_take in Hl. lia. }
  rewrite Hl, <- !app_assoc. set (ev := evdata_bytes ts idx ck).
  assert (∀ X, pre ++ ev ++ replicate 4 0 ++ X = (pre ++ ev ++ replicate 4 0) ++ X) as Hx
    by (intros X; by rewrite <- !app_assoc).
  rewrite !Hx, store_at_mid; [done| |by rewrite length_replicate, Hl].
  unfold zlen. rewrite !length_app, Hp, length_replicate. unfold ev. by rewrite length_evdata.
Qed.

(** Overwrite [old] behind [pre] with [new]. *)
Ltac mid off pre old post new :=
  let E := fresh in
  pose proof (store_at_mid off pre old post new eq_refl eq_refl) as E;
  rewrite <- ?app_assoc in E; cbn [app] in E; rewrite E; clear E; msimpl.

(** The stores both functions make. *)
Definition fmt_stores (buffer : blk Z) (type size id seq idx : Z) (ck : list Z) (incl : bool) (ts : timespec)
    (pr : Z) : outcome (blk Z) :=
  buffer ← store_at buffer 0 (replicate (Z.to_nat (size + 8)) 0);
  buffer ← store_at buffer 0 [type; 0];
  buffer ← store_at buffer 4 (le16 id);
  buffer ← store_at buffer 6 (be16 seq);
  buffer ← put_data buffer 8 size idx ck incl ts pr;
  store_at buffer 2 (le16 0).

Lemma fmt_stores_spec old type size id seq idx ck incl ts pr :
  length old = 4076%nat → 32 ≤ size ≤ 4068 → length ck = 8%nat →
  fmt_stores (Some <$> old) type size id seq idx ck incl ts pr =
  Done (Some <$> (icmp_msg type [0; 0] id seq (user_data size ts idx ck incl pr) ++ drop (Z.to_nat (size + 8)) old)).
Proof.
  intros Ho Hs Hc. unfold fmt_stores. set (post := drop (Z.to_nat (size + 8)) old).
  rewrite <- (take_drop (Z.to_nat (size + 8)) old) at 1. fold post.
  change (take (Z.to_nat (size + 8)) old ++ post) with ([] ++ take (Z.to_nat (size + 8)) old ++ post).
  rewrite store_at_mid by (first [done|rewrite length_replicate, length_take; lia]). msimpl.
  assert (replicate (Z.to_nat (size + 8)) 0 = [0; 0; 0; 0; 0; 0; 0; 0] ++ replicate (Z.to_nat size) 0) as ->.
  { change [0; 0; 0; 0; 0; 0; 0; 0] with (replicate 8 0). rewrite <- replicate_add. f_equal. lia. }
  cbn [app]. set (body := replicate (Z.to_nat size) 0 ++ post).
  mid 0 (@nil Z) [0; 0] (0 :: 0 :: 0 :: 0 :: 0 :: 0 :: body) [type; 0].
  mid 4 [type; 0; 0; 0] [0; 0] (0 :: 0 :: body) (le16 id).
  mid 6 ([type; 0; 0; 0] ++ le16 id) [0; 0] body (be16 seq).
  pose proof (put_data_spec ([type; 0; 0; 0] ++ le16 id ++ be16 seq) post size ts idx ck incl pr eq_refl
                ltac:(lia) Hc) as E. rewrite <- !app_assoc in E. cbn [app] in E. unfold body. rewrite E. msimpl.
  pose proof (store_at_mid 2 [type; 0] [0; 0] (le16 id ++ be16 seq ++ user_data size ts idx ck incl pr ++ post)
                (le16 0) eq_refl eq_refl) as E'. cbn [app] in E'. rewrite E'.
  unfold icmp_msg. by rewrite <- !app_assoc.
Qed.

Lemma length_icmp_msg type cks id seq data :
  length cks = 2%nat → length (icmp_msg type cks id seq data) = (8 + length data)%nat.
Proof. intros H. unfold icmp_msg. rewrite !length_app, H. cbn. lia. Qed.

(** The checksummed message is in the buffer, and the size is within bounds. *)
Lemma fmticmp4_packet old sizep seq idx pid ck incl ts pr :
  length old = 4076%nat → length ck = 8%nat →
  let size := clamp_size 8 sizep in
  let data := user_data size ts idx ck incl pr in
  let id := Z.land 0x0fff pid in
  let cks := le16 (mkcksum (icmp_msg ICMP_ECHO [0; 0] id seq data)) in
  fmticmp4 (Some <$> old) sizep seq idx pid ck incl ts pr =
  Done (Some <$> (icmp_msg ICMP_ECHO cks id seq data ++ drop (Z.to_nat (size + 8)) old), size).
Proof.
  intros Ho Hc size data id cks. pose proof (clamp_bounds sizep) as Hb. fold size in Hb.
  pose proof (fmt_stores_spec old ICMP_ECHO size id seq idx ck incl ts pr Ho Hb Hc) as E.
  assert (length data = Z.to_nat size) as Hd by (apply length_user_data; lia).
  unfold fmt_stores in E. unfold fmticmp4. change ICMP_MINLEN with 8. fold size id.
  repeat (apply O_bind_inv in E as (? & E1 & E); rewrite E1; msimpl; clear E1). rewrite E. msimpl.
  unfold bytes_at. rewrite <- (app_nil_r (Some <$> _)), loadn_slice; fold data.
  2:{ rewrite length_app, length_icmp_msg, Hd by done. lia. }
  msimpl. rewrite drop_0. rewrite take_app_length'.
  2:{ rewrite length_icmp_msg, Hd by done. lia. }
  rewrite app_nil_r. fold cks. unfold icmp_msg at 1. rewrite <- !app_assoc.
  rewrite (store_at_mid 2 [ICMP_ECHO; 0] [0; 0]) by done. msimpl. unfold icmp_msg. by rewrite <- !app_assoc.
Qed.

Lemma fmticmp6_packet old sizep seq idx pid ck incl ts pr :
  length old = 4076%nat → length ck = 8%nat →
  let size := clamp_size 8 sizep in
  fmticmp6 (Some <$> old) sizep seq idx pid ck incl ts pr =
  Done (Some <$> (icmp_msg ICMP6_ECHO_REQUEST [0; 0] (Z.land 0xffff pid) seq (user_data size ts idx ck incl pr) ++
                  drop (Z.to_nat (size + 8)) old), size).
Proof.
  intros Ho Hc size. pose proof (clamp_bounds sizep) as Hb. fold size in Hb.
  pose proof (fmt_stores_spec old ICMP6_ECHO_REQUEST size (Z.land 0xffff pid) seq idx ck incl ts pr Ho Hb Hc) as E.
  unfold fmt_stores in E. unfold fmticmp6. change ICMP6_HDRSIZE with 8. fold size.
  repeat (apply O_bind_inv in E as (? & E1 & E); rewrite E1; msimpl; clear E1). rewrite E. by msimpl.
Qed.

(** The request of a measurement, as it is sent. *)
Definition request (v6 : bool) (pid seq : Z) (data : list Z) : list Z :=
  if v6 then icmp_msg ICMP6_ECHO_REQUEST [0; 0] (Z.land 0xffff pid) seq data
  else let id := Z.land 0x0fff pid in
       icmp_msg ICMP_ECHO (le16 (mkcksum (icmp_msg ICMP_ECHO [0; 0] id seq data))) id seq data.

Lemma length_request v6 pid seq data : length (request v6 pid seq data) = (8 + length data)%nat.
Proof. unfold request. destruct v6; by rewrite length_icmp_msg. Qed.

Lemma fmticmp_packet v6 old sizep seq idx pid ck incl ts pr :
  length old = 4076%nat → length ck = 8%nat →
  let size := clamp_size 8 sizep in
  (if v6 : bool then fmticmp6 else fmticmp4) (Some <$> old) sizep seq idx pid ck incl ts pr =
  Done (Some <$> (request v6 pid seq (user_data size ts idx ck incl pr) ++ drop (Z.to_nat (size + 8)) old), size).
Proof. intros Ho Hc size. destruct v6; [by rewrite fmticmp6_packet|by rewrite fmticmp4_packet]. Qed.

(** ** The buffer of the results *)

Definition upd_rb (r : result_buf) (s : ping) : ping := PING r (lr s) (se s) (nw s) (base s) (acts s).

Lemma wp_add_str x t (Q : () → ping → Prop) s :
  holds (rb s) t → (∀ r, holds r (t ++ x) → Q tt (upd_rb r s)) → wp (add_str x) Q s.
Proof. exact (wp_add_text x t Q s). Qed.

(** A part of an entry that is only printed under a condition, with the
    assignment that goes with it. *)
Lemma wp_opt_str (b : bool) x t (Q : () → ping → Prop) s :
  holds (rb s) t → (∀ r, holds r (t ++ if b then x else []) → Q tt (upd_rb r s)) →
  wp (if b then add_str x else mret tt) Q s.
Proof.
  intros Ht HQ. destruct b; [by eapply wp_add_str|]. apply wp_ret.
  rewrite app_nil_r in HQ. specialize (HQ _ Ht). by destruct s.
Qed.
Lemma wp_opt_set (b : bool) x (f : ping → ping) s' t (Q : () → ping → Prop) s :
  holds (rb s) t → (b = false → s = s') → (b = true → ∀ r, f (upd_rb r s) = upd_rb r s') →
  (∀ r, holds r (t ++ if b then x else []) → Q tt (upd_rb r s')) →
  wp (if b then add_str x;; modify f else mret tt) Q s.
Proof.
  intros Ht H1 H2 HQ. destruct b.
  - apply wp_bind. eapply wp_add_str; [done|]. intros r Hr. apply wp_modify. rewrite H2 by done. by apply HQ.
  - apply wp_ret. rewrite app_nil_r in HQ. specialize (HQ _ Ht). rewrite <- H1 in HQ by done. by destruct s.
Qed.
Lemma wp_opt_modify (b : bool) (f : ping → ping) s' (Q : () → ping → Prop) s :
  (b = true → f s = s') → (b = false → s = s') → Q tt s' → wp (if b then modify f else mret tt) Q s.
Proof. destruct b; intros H1 H2 HQ; [apply wp_modify; by rewrite H1|apply wp_ret; by rewrite H2]. Qed.

(** Run an [add_str] whose buffer is known from [H]. *)
Ltac adds H :=
  wp_steps; eapply wp_add_str; [exact H|]; clear H;
  let r := fresh "r" in intros r H; rewrite <- ?app_assoc in H; wp_steps.

(** ** Handlers *)

(** Compute the fields of a state, and nothing else. *)
Ltac psimpl :=
  cbv beta iota zeta delta [
        rb lr se nw base acts set_acts upd_rb id fst snd result reslen resmax size psize
        ttl rcvd_ttl start_time ttr busy got_reply first no_dst no_src error send_error dnsip
        maxpkts sentpkts seq cursize sin6 socklen loc_sin6 loc_socklen dns_res socket event_is_init
        event ping_timer pid table packet set_result set_reslen set_resmax set_size set_psize
        set_ttl set_rcvd_ttl set_start_time set_ttr set_busy set_got_reply set_first set_no_dst
        set_no_src set_error set_send_error set_dnsip set_maxpkts set_sentpkts set_seq set_cursize
        set_sin6 set_socklen set_loc_sin6 set_loc_socklen set_dns_res set_socket set_event_is_init
        set_event set_ping_timer set_pid set_table set_packet ].
Ltac psimpl_in H :=
  cbv beta iota zeta delta [
        rb lr se nw base acts set_acts upd_rb id fst snd result reslen resmax size psize
        ttl rcvd_ttl start_time ttr busy got_reply first no_dst no_src error send_error dnsip
        maxpkts sentpkts seq cursize sin6 socklen loc_sin6 loc_socklen dns_res socket event_is_init
        event ping_timer pid table packet set_result set_reslen set_resmax set_size set_psize
        set_ttl set_rcvd_ttl set_start_time set_ttr set_busy set_got_reply set_first set_no_dst
        set_no_src set_error set_send_error set_dnsip set_maxpkts set_sentpkts set_seq set_cursize
        set_sin6 set_socklen set_loc_sin6 set_loc_socklen set_dns_res set_socket set_event_is_init
        set_event set_ping_timer set_pid set_table set_packet ] in H.


(** Name the fields of a state. *)
Ltac fields s :=
  let x := fresh s in rename s into x;
  destruct x as [rb0 [sz0 psz0 ttl0 rt0 st0 tr0] [bu0 got0 fi0 nd0 ns0 er0 se0 di0 mp0 sp0 sq0 cs0]
                     [sa0 sl0 loc0 loclen0 dr0 so0 ei0 ev0 pt0] [pid0 tab0 pk0] ac0].

Section Handlers.
Context (p : params) (e : env).

Definition can_append : Prop := out_filename p = None ∨ append_ok e = true.

(** The state after [report] printed [t]. *)
Definition reported (t : list Z) (s : ping) : ping :=
  set_busy false (set_socket false
    ((if event_is_init (nw s) then set_event false else id)
       (set_result None (set_acts (acts s ++ [Output (report_text p e s (cstr t))]) s)))).

Lemma wp_report t (Q : () → ping → Prop) s :
  can_append → holds (rb s) t → t ≠ [] → Q tt (reported t s) → wp (report p e) Q s.
Proof.
  intros Ha Ht Hne HQ. destruct (holds_load _ _ Ht Hne) as (b & Er & El). unfold report. wp_steps.
  destruct (bool_decide _ && _) eqn:Eo.
  { exfalso. apply andb_true_iff in Eo as [E1%bool_decide_eq_true_1 E2]. unfold can_append in Ha.
    destruct Ha as [Ha|Ha]; rewrite Ha in *; [by destruct E1|done]. }
  wp_steps. rewrite Er. eapply wp_lift; [exact El|]. wp_steps. unfold act. wp_steps.
  unfold reported in HQ. destruct (event_is_init (nw s)); wp_steps; exact HQ.
Qed.

(** What [ping_cb] adds for a reply. *)
Definition reply_text (s : ping) (dup : bool) (bytes : Z) (loc : sockaddr) (loclen ttl_ : Z) (rtt : timespec) : list Z :=
  let name1 := if negb (got_reply (se s)) && negb dup then numeric_host e loc loclen
               else numeric_host e (loc_sin6 (nw s)) (loc_socklen (nw s)) in
  let name2 := numeric_host e loc loclen in
  line256 (sep s ++ str "{ ") ++
  (if dup then DBQ "dup" ++ str ":1, " else []) ++
  line256 (DBQ "rtt" ++ str ":" ++ msecs (tv_sec rtt) (tv_nsec rtt)) ++
  (if negb (size (lr s) =? u32 bytes) then line256 (str ", " ++ DBQ "size" ++ str ":" ++ print_int bytes) else []) ++
  (if negb (ttl (lr s) =? ttl_) then line256 (str ", " ++ DBQ "ttl" ++ str ":" ++ print_int ttl_) else []) ++
  (if bool_decide (name1 = name2) then []
   else line256 (str ", " ++ DBQ "src_addr" ++ str ":" ++ quote ++ name2 ++ quote)) ++
  str " }".

(** The rest of the state after a reply. *)
Definition after_reply (s : ping) (dup : bool) (bytes psz : Z) (loc : sockaddr) (loclen ttl_ : Z) : ping :=
  let learn := negb (got_reply (se s)) && negb dup in
  let name1 := numeric_host e (loc_sin6 (nw s)) (loc_socklen (nw s)) in
  let name2 := numeric_host e loc loclen in
  set_ttl ttl_ (set_size (u32 bytes) (set_psize (if psz =? -1 then psize (lr s) else u32 psz)
    (set_first false (set_got_reply (got_reply (se s) || learn)
       (set_loc_sin6 (if learn then loc else loc_sin6 (nw s))
          (set_loc_socklen (if learn then loclen else loc_socklen (nw s))
             (set_acts (acts s ++ if learn || bool_decide (name1 = name2) then []
                                  else [Stdout (str "loc_sin6: " ++ name1 ++ [10]); Stdout (str "loc_sa: " ++ name2 ++ [10])])
                s))))))).

(** The first reply tells the local address. *)
Lemma wp_learn (learn : bool) loc loclen (Q : () → ping → Prop) s :
  Q tt (PING (rb s) (lr s)
          (let r := se s in SE (busy r) (got_reply r || learn) (first r) (no_dst r) (no_src r) (error r)
             (send_error r) (dnsip r) (maxpkts r) (sentpkts r) (seq r) (cursize r))
          (let r := nw s in NW (sin6 r) (socklen r) (if learn then loc else loc_sin6 r)
             (if learn then loclen else loc_socklen r)
             (dns_res r) (socket r) (event_is_init r) (event r) (ping_timer r)) (base s) (acts s)) →
  wp (if learn then modify (set_loc_sin6 loc);; modify (set_loc_socklen loclen);; modify (set_got_reply true)
      else mret tt) Q s.
Proof.
  destruct s as [? ? [] [] ? ?]. intros H. destruct learn; wp_steps; psimpl; psimpl_in H;
    [by rewrite orb_true_r in H|by rewrite orb_false_r in H].
Qed.

Lemma wp_cb_reply t (dup : bool) bytes psz loc loclen ttl_ rtt (Q : () → ping → Prop) s :
  holds (rb s) t → 0 ≤ ttl_ < 256 →
  (∀ r, holds r (t ++ reply_text s dup bytes loc loclen ttl_ rtt) →
        Q tt (upd_rb r (after_reply s dup bytes psz loc loclen ttl_))) →
  wp (cb_reply e (if dup then PING_ERR_DUP else PING_ERR_NONE) bytes psz loc loclen ttl_ rtt) Q s.
Proof.
  intros Ht Httl HQ. unfold cb_reply.
  replace ((if dup then PING_ERR_DUP else PING_ERR_NONE) =? PING_ERR_DUP) with dup by (by destruct dup).
  unfold reply_text, after_reply, sep in HQ. unfold sep.
  destruct s as [rb0 [sz0 psz0 ttl0 rt st tr] [bu got fi nd ns er se0 di mp sp sq cs]
                     [sa sl loc0 loclen0 dr so ei ev pt] ba ac].
  psimpl_in HQ. psimpl_in Ht. wp_steps. psimpl.
  assert (u8 ttl_ = ttl_) as Hu by (unfold u8; apply Z.mod_small; lia).
  adds Ht. psimpl. eapply wp_opt_str; [exact Ht|]. clear Ht. intros r1 Ht. wp_steps. psimpl.
  rewrite <- ?app_assoc in Ht. adds Ht. psimpl.
  set (learn := negb got && negb dup) in *.
  apply wp_learn. wp_steps. psimpl.
  eapply (wp_opt_set _ _ _ (PING r0 (LR (u32 bytes) psz0 ttl0 rt st tr) _ _ ba ac)); [exact Ht| |done|].
  { by intros ->%negb_false_iff%Z.eqb_eq. }
  clear Ht. intros r2 Ht. wp_steps. psimpl. psimpl_in Ht. rewrite <- ?app_assoc in Ht.
  eapply (wp_opt_modify _ _ (PING r2 (LR (u32 bytes) (if psz =? -1 then psz0 else u32 psz) ttl0 rt st tr) _ _ ba ac)).
  { intros [_ ->%negb_true_iff]%andb_true_iff. done. }
  { intros [->%negb_false_iff%Z.eqb_eq| ->%negb_false_iff]%andb_false_iff; by destruct (psz =? -1). }
  wp_steps. psimpl.
  eapply (wp_opt_set _ _ _ (PING r2 (LR (u32 bytes) (if psz =? -1 then psz0 else u32 psz) ttl_ rt st tr) _ _ ba ac));
    [exact Ht| |by rewrite Hu|].
  { by intros ->%negb_false_iff%Z.eqb_eq. }
  clear Ht. intros r3 Ht. wp_steps. psimpl. psimpl_in Ht. rewrite <- ?app_assoc in Ht.
  rewrite bool_decide_not. revert HQ. destruct learn; cbn [orb].
  - rewrite bool_decide_eq_true_2, app_nil_r by done. intros HQ. wp_steps. adds Ht. psimpl. by apply HQ.
  - case_bool_decide; intros HQ; cbn [negb]; wp_steps; unfold act; wp_steps; psimpl; adds Ht.
    + psimpl. rewrite app_nil_r in HQ. by apply HQ.
    + wp_steps. adds Ht. psimpl. rewrite <- app_assoc. by apply HQ.
Qed.

(** The first result fixes the size, the packet size and the TTL. *)
Definition seen (bytes psz ttl_ : Z) (s : ping) : ping :=
  if first (se s) then set_ttl (u8 ttl_) (set_psize (u32 psz) (set_size (u32 bytes) s)) else s.

Lemma seen_rb bytes psz ttl_ s : rb (seen bytes psz ttl_ s) = rb s.
Proof. unfold seen. by destruct (first (se s)). Qed.
Lemma seen_se bytes psz ttl_ s : se (seen bytes psz ttl_ s) = se s.
Proof. unfold seen. by destruct (first (se s)) eqn:E. Qed.
Lemma seen_nw bytes psz ttl_ s : nw (seen bytes psz ttl_ s) = nw s.
Proof. unfold seen. by destruct (first (se s)). Qed.
Lemma seen_base bytes psz ttl_ s : base (seen bytes psz ttl_ s) = base s.
Proof. unfold seen. by destruct (first (se s)). Qed.
Lemma seen_acts bytes psz ttl_ s : acts (seen bytes psz ttl_ s) = acts s.
Proof. unfold seen. by destruct (first (se s)). Qed.

(** [ping_cb] does nothing for a measurement that is not running. *)
Lemma wp_ping_cb_idle result bytes psz sa loc sq ttl_ rtt (Q : () → ping → Prop) s :
  busy (se s) = false → Q tt s → wp (ping_cb p e result bytes psz sa loc sq ttl_ rtt) Q s.
Proof. intros Hb HQ. unfold ping_cb. wp_steps. rewrite Hb. exact HQ. Qed.

Lemma wp_ping_cb_busy result bytes psz sa loc sq ttl_ rtt (Q : () → ping → Prop) s :
  busy (se s) = true →
  wp (if (result =? PING_ERR_NONE) || (result =? PING_ERR_DUP) then
        match loc, rtt with
        | Some (loc, loclen), Some rtt => cb_reply e result bytes psz loc loclen ttl_ rtt
        | _, _ => mcrash Undefined
        end
      else cb_failure p e result bytes psz sa sq) Q (seen bytes psz ttl_ s) →
  wp (ping_cb p e result bytes psz sa loc sq ttl_ rtt) Q s.
Proof.
  intros Hb HQ. unfold ping_cb. wp_steps. rewrite Hb. cbn [negb]. wp_steps. unfold seen in HQ.
  destruct (first (se s)); wp_steps; exact HQ.
Qed.

Lemma wp_ping_cb_reply t (dup : bool) bytes psz sa loc loclen sq ttl_ rtt (Q : () → ping → Prop) s :
  busy (se s) = true → holds (rb s) t → 0 ≤ ttl_ < 256 →
  (∀ r, holds r (t ++ reply_text (seen bytes psz ttl_ s) dup bytes loc loclen ttl_ rtt) →
        Q tt (upd_rb r (after_reply (seen bytes psz ttl_ s) dup bytes psz loc loclen ttl_))) →
  wp (ping_cb p e (if dup then PING_ERR_DUP else PING_ERR_NONE) bytes psz sa (Some (loc, loclen)) sq ttl_ (Some rtt))
    Q s.
Proof.
  intros Hb Ht Httl HQ. apply wp_ping_cb_busy; [done|].
  replace (_ || _) with true by (by destruct dup). eapply wp_cb_reply; [by rewrite seen_rb|done|done].
Qed.

(** A packet that was not answered, or not sent. *)
Definition failure_text (s : ping) (result sq : Z) : list Z :=
  line256 (sep s ++ str "{ " ++
    if result =? PING_ERR_TIMEOUT then DBQ "x" ++ str ":" ++ DBQ "*"
    else DBQ "error" ++ str ":" ++ quote ++ str "sendto failed: " ++ strerror e sq ++ quote) ++ str " }".

Lemma wp_ping_cb_failure t result bytes psz sa loc sq ttl_ rtt (Q : () → ping → Prop) s :
  result = PING_ERR_TIMEOUT ∨ result = PING_ERR_SENDTO → busy (se s) = true → holds (rb s) t →
  (∀ r, holds r (t ++ failure_text s result sq) → Q tt (upd_rb r (set_first false (seen bytes psz ttl_ s)))) →
  wp (ping_cb p e result bytes psz sa loc sq ttl_ rtt) Q s.
Proof.
  intros Hr Hb Ht HQ. apply wp_ping_cb_busy; [done|]. rewrite <- (seen_rb bytes psz ttl_) in Ht.
  unfold cb_failure, failure_text, sep in *. rewrite <- (seen_se bytes psz ttl_ s) in HQ. destruct Hr as [-> | ->].
  - cbn [Z.eqb orb PING_ERR_TIMEOUT PING_ERR_NONE PING_ERR_DUP Pos.eqb] in *. wp_steps. unfold sep. adds Ht. adds Ht.
    apply HQ. exact Ht.
  - cbn [Z.eqb orb PING_ERR_SENDTO PING_ERR_TIMEOUT PING_ERR_NONE PING_ERR_DUP Pos.eqb] in *. wp_steps. unfold sep.
    adds Ht. adds Ht. apply HQ. exact Ht.
Qed.

Lemma wp_ping_cb_done t bytes psz sa loc sq ttl_ rtt (Q : () → ping → Prop) s :
  can_append → busy (se s) = true → holds (rb s) t → t ≠ [] →
  Q tt (reported t (set_error (negb (got_reply (se s))) (seen bytes psz ttl_ s))) →
  wp (ping_cb p e PING_ERR_DONE bytes psz sa loc sq ttl_ rtt) Q s.
Proof.
  intros Ha Hb Ht Hne HQ. apply wp_ping_cb_busy; [done|]. rewrite <- (seen_rb bytes psz ttl_) in Ht.
  unfold cb_failure. cbn [Z.eqb orb PING_ERR_DONE PING_ERR_NONE PING_ERR_DUP Pos.eqb PING_ERR_SENDTO
    PING_ERR_TIMEOUT PING_ERR_DNS PING_ERR_BAD_ADDR]. wp_steps. rewrite seen_se. eapply wp_report; [done|exact Ht|done|].
  exact HQ.
Qed.
End Handlers.
