(* ===== verification/PingRun.v ===== *)
(** * Ping: sending and receiving

    What [ping_xmit], [noreply_callback] and the two callbacks for received packets
    do, in terms of the bytes of the packets. *)

From stdpp Require Import base list list_numbers numbers option strings.
From Stdlib Require Import ZArith Lia.
From S2P Require Import Prelude Bits Blocks Cstr Packet Double Wp Validate Results Ping PingProofs.

Open Scope Z_scope.

(** The buffer for packets is initialised and has its size. *)
Definition packet_ok (s : ping) : Prop := ∃ l, packet (base s) = Some <$> l ∧ length l = 4076%nat.

Section Run.
Context (p : params) (e : env).

(** ** Sending *)

(** [getsockname] *)
Definition named (s : ping) : ping :=
  match sockname e with
  | Some (sa, len) => set_loc_socklen len (set_loc_sin6 sa s)
  | None => set_loc_socklen sizeof_sockaddr_in6 s
  end.

(** The request the state asks for. *)
Definition request_of (s : ping) : list Z :=
  request (is_inet6 (sin6 (nw s))) (pid (base s)) (seq (se s))
    (user_data (clamp_size 8 (cursize (se s))) (xmit_now e) (Z.of_nat (index p)) (cookie p)
       (include_probe_id p) (probe_id e)).

(** The state after [send_request], up to the buffer. *)
Definition requested (s : ping) : ping :=
  set_acts (acts s ++ [Sent (sin6 (nw s)) (request_of s)]) (named (set_cursize (clamp_size 8 (cursize (se s))) s)).

Lemma wp_send_request (Q : () → ping → Prop) s :
  packet_ok s → length (cookie p) = 8%nat →
  (∀ l, length l = 4076%nat → Q tt (set_packet (Some <$> l) (requested s))) → wp (send_request p e) Q s.
Proof.
  intros (l & El & Hl) Hc HQ. unfold send_request. wp_steps. rewrite El.
  replace (if is_inet6 (sin6 (nw s)) then ICMP6_HDRSIZE else ICMP_MINLEN) with 8 by (by destruct (is_inet6 _)).
  eapply wp_lift; [by apply fmticmp_packet|]. cbv beta iota. wp_steps.
  pose proof (clamp_bounds (cursize (se s))) as Hb. set (size := clamp_size 8 (cursize (se s))) in *.
  change (request _ _ _ _) with (request_of s).
  assert (length (request_of s) = Z.to_nat (size + 8)) as Hr.
  { unfold request_of. rewrite length_request. fold size. rewrite length_user_data by (done || lia). lia. }
  set (b := request_of s ++ drop (Z.to_nat (size + 8)) l).
  assert (length b = 4076%nat) as Hlb by (unfold b; rewrite length_app, length_drop, Hr; lia).
  assert (∀ s', wp (get_sockname e) (λ _ s'', s'' = named s') s') as Hn.
  { intros s'. unfold get_sockname, named. wp_steps. destruct (sockname e) as [[sa len]|]; wp_steps; by destruct s'. }
  eapply wp_mono; [apply Hn|]. cbv beta. intros _ s' ->. wp_steps.
  eapply wp_lift; [apply bytes_at_field; unfold zlen; lia|].
  unfold act. wp_steps. specialize (HQ b Hlb).
  replace (field b 0 (size + 8)) with (request_of s).
  2:{ unfold field. rewrite drop_0. unfold b. rewrite take_app_length'; [done|lia]. }
  unfold requested, named in *. fold size in HQ. destruct (sockname e) as [[sa len]|]; exact HQ.
Qed.

(** ** Receiving *)

(** The user data at [off] names this measurement and its cookie. *)
Definition ours (b : pingbase) (data : list Z) (off : Z) : bool :=
  match table b !! Z.to_nat (le_value (field data (off + 16) 4)) with
  | Some (Some owner) => (owner =? self p)%nat && bool_decide (cookie p = field data (off + 20) 8)
  | _ => false
  end.

Lemma wp_receive data (Q : Z → ping → Prop) s :
  packet_ok s → zlen data ≤ 4076 →
  (∀ rest, length (data ++ rest) = 4076%nat → Q (zlen data) (set_packet (Some <$> (data ++ rest)) s)) →
  wp (receive data) Q s.
Proof.
  intros (l & El & Hl) Hd HQ. unfold receive. change MAX_DATA_SIZE with 4076.
  rewrite take_ge by (unfold zlen in Hd; lia). wp_steps.
  apply (wp_lift _ (Some <$> (data ++ drop (length data) l))).
  { rewrite El. rewrite <- (take_drop (length data) l) at 1.
    apply (store_at_mid 0 []); [done|]. rewrite length_take. unfold zlen in Hd. lia. }
  wp_steps. apply HQ. rewrite length_app, length_drop. unfold zlen in Hd. lia.
Qed.

Lemma wp_is_ours data rest off (Q : bool → ping → Prop) s :
  0 ≤ off → off + 28 ≤ zlen data →
  Q (ours (base s) data off) s → wp (is_ours p (Some <$> (data ++ rest)) off) Q s.
Proof.
  intros Ho Hl HQ. unfold is_ours, ours in *. wp_steps.
  eapply wp_lift.
  { unfold le_at. rewrite bytes_at_field, field_app by (rewrite ?zlen_app; pose proof (zlen_nonneg rest); lia).
    by msimpl. }
  cbn beta. destruct (table (base s) !! _) as [[owner|]|]; [|exact HQ|exact HQ].
  destruct (owner =? self p)%nat; [|exact HQ]. wp_steps. eapply wp_lift.
  { rewrite bytes_at_field, field_app by (rewrite ?zlen_app; pose proof (zlen_nonneg rest); lia). done. }
  wp_steps. exact HQ.
Qed.

(** The time stamp of a packet. *)
Definition stamp (data : list Z) (off : Z) : timespec :=
  TS (s64 (le_value (field data off 8))) (s64 (le_value (field data (off + 8) 8))).

(** The length of the IP header in front of an ICMP message. *)
Definition ip_hlen (data : list Z) : Z := Z.land (le_value (field data 0 1)) 15 * 4.

Definition valid4 (b : pingbase) (data : list Z) : bool :=
  (20 <=? ip_hlen data) && (ip_hlen data + 40 <=? zlen data) &&
  (le_value (field data (ip_hlen data + 4) 2) =? Z.land (pid b) 0x0fff) && ours b data (ip_hlen data + 8).
Definition valid6 (b : pingbase) (data : list Z) : bool :=
  (40 <=? zlen data) && (le_value (field data 4 2) =? Z.land (pid b) 0xffff) && ours b data 8.

Lemma ip_hlen_bounds data : 0 ≤ ip_hlen data ≤ 60.
Proof.
  unfold ip_hlen. change 15 with (2 ^ 4 - 1). rewrite land_ones_mod by lia.
  pose proof (Z.mod_pos_bound (le_value (field data 0 1)) (2 ^ 4)). lia.
Qed.

(** Loads within the bytes received. *)
Lemma le_at_received data rest off n :
  0 ≤ off → 0 ≤ n → off + n ≤ zlen data → le_at (Some <$> (data ++ rest)) off n = Done (le_value (field data off n)).
Proof.
  intros Ho Hn Hl. unfold le_at.
  rewrite bytes_at_field, field_app by (rewrite ?zlen_app; pose proof (zlen_nonneg rest); lia). by msimpl.
Qed.
Lemma be_at_received data rest off n :
  0 ≤ off → 0 ≤ n → off + n ≤ zlen data → be_at (Some <$> (data ++ rest)) off n = Done (be_value (field data off n)).
Proof.
  intros Ho Hn Hl. unfold be_at.
  rewrite bytes_at_field, field_app by (rewrite ?zlen_app; pose proof (zlen_nonneg rest); lia). by msimpl.
Qed.
Lemma sent_time_stamp data rest off :
  0 ≤ off → off + 16 ≤ zlen data → sent_time (Some <$> (data ++ rest)) off = Done (stamp data off).
Proof.
  intros Ho Hl. unfold sent_time. rewrite le_at_received by lia. msimpl. rewrite le_at_received by lia. by msimpl.
Qed.

(** What the code does with a reply it accepts. *)
Definition on_reply4 (data : list Z) (rseq : Z) (rtt : timespec) (s : ping) : PM unit :=
  let ip_ttl := le_value (field data 8 1) in
  let dup := negb (rseq =? seq (se s)) in
  ping_cb p e (if dup then PING_ERR_DUP else PING_ERR_NONE) (zlen data - 28) (zlen data) []
    (Some (AF_INET (be_value (field data 16 4)), sizeof_sockaddr_in)) rseq ip_ttl (Some rtt);;
  if negb dup then modify (set_got_reply true);; bump_seq else mret tt.

Lemma wp_ready4 data (Q : () → ping → Prop) s :
  packet_ok s → zlen data ≤ 4076 →
  let h := ip_hlen data in
  let type := le_value (field data h 1) in
  (∀ l : list Z, length l = 4076%nat → let s1 := set_packet (Some <$> l) s in
     (valid4 (base s) data = false ∨ type = ICMP_ECHO → Q tt s1) ∧
     (valid4 (base s) data = true → type = ICMP_ECHOREPLY →
        ∃ rtt, elapsed (now e) (stamp data (h + 8)) = Done rtt ∧
          wp (on_reply4 data (be_value (field data (h + 6) 2)) rtt s1) Q
             (set_rcvd_ttl (le_value (field data 8 1)) s1)) ∧
     (valid4 (base s) data = true → type ≠ ICMP_ECHO → type ≠ ICMP_ECHOREPLY → wp (noreply_callback p e) Q s1)) →
  wp (ready_callback4 p e (Some data)) Q s.
Proof.
  intros Hp Hd h type HQ. unfold ready_callback4. wp_steps. apply wp_receive; [done|done|]. intros rest Hrest. wp_steps.
  specialize (HQ (data ++ rest) Hrest). cbv zeta in HQ. destruct HQ as (Hno & Hre & Hot).
  change (packet (base (set_packet ?b s))) with b. pose proof (ip_hlen_bounds data) as Hh. fold h in Hh.
  assert (∃ v, le_at (Some <$> (data ++ rest)) 0 1 = Done v ∧ (1 ≤ zlen data → v = le_value (field data 0 1)))
    as (v & Ev & Hv).
  { destruct (Z.le_gt_cases 1 (zlen data)); [rewrite le_at_received by lia; eauto|].
    unfold le_at. rewrite bytes_at_field by (unfold zlen; lia). msimpl. eexists. split; [done|lia]. }
  eapply wp_lift; [exact Ev|].
  assert ((zlen data <? Z.land v 15 * 4 + ICMP_MINLEN + sizeof_evdata) || (Z.land v 15 <? 5) =
          negb ((20 <=? h) && (h + 40 <=? zlen data))) as ->.
  { change (ICMP_MINLEN) with 8. change sizeof_evdata with 32. unfold h, ip_hlen in *.
    destruct (Z.le_gt_cases 1 (zlen data)) as [H1|H1]; [rewrite Hv by done; lia|].
    assert (data = []) as -> by (destruct data; [done|rewrite zlen_cons in H1; pose proof (zlen_nonneg data); lia]).
    pose proof (Z.land_nonneg v 15) as [_ Hl]. specialize (Hl ltac:(lia)). cbn. lia. }
  unfold valid4 in Hno, Hre, Hot. fold h in Hno, Hre, Hot.
  destruct ((20 <=? h) && (h + 40 <=? zlen data)) eqn:Elen; cbn [negb andb] in *; [|wp_steps; apply Hno; by left].
  apply andb_true_iff in Elen as [E1%Z.leb_le E2%Z.leb_le]. rewrite Hv by lia.
  change (Z.land (le_value (field data 0 1)) 15 * 4) with h. change ICMP_MINLEN with 8. change IPHDR with 20.
  wp_steps. eapply wp_lift; [apply le_at_received; lia|]. change (pid (base (set_packet _ s))) with (pid (base s)).
  destruct (_ =? Z.land (pid (base s)) 4095); cbn [negb andb] in *; [|wp_steps; apply Hno; by left].
  wp_steps. apply wp_is_ours; [lia|lia|]. change (base (set_packet ?b s)) with (PB (pid (base s)) (table (base s)) b).
  change (ours (PB _ _ _) data (h + 8)) with (ours (base s) data (h + 8)).
  destruct (ours (base s) data (h + 8)); cbn [negb] in *; [|wp_steps; apply Hno; by left].
  wp_steps. eapply wp_lift; [apply le_at_received; lia|]. change (le_value (field data h 1)) with type.
  destruct (Z.eqb_spec type ICMP_ECHO); [wp_steps; apply Hno; by right|].
  destruct (Z.eqb_spec type ICMP_ECHOREPLY) as [Et|Et]; [|by apply Hot].
  destruct (Hre eq_refl Et) as (rtt & Ee & Hrun). wp_steps.
  eapply wp_lift; [apply sent_time_stamp; lia|]. wp_steps. eapply wp_lift; [exact Ee|].
  wp_steps. eapply wp_lift; [apply be_at_received; lia|]. wp_steps. eapply wp_lift; [apply le_at_received; lia|].
  wp_steps. eapply wp_lift; [apply be_at_received; lia|].
  replace (zlen data - 20 - 8) with (zlen data - 28) by lia. exact Hrun.
Qed.

(** The same for IPv6. *)
Definition on_reply6 (data : list Z) (cmsgs : list cmsg) (rseq : Z) (rtt : timespec) (s : ping) : PM unit :=
  let '(loc, hops) := fold_left (λ a c, read_cmsg c a) cmsgs (AF_OTHER 0, rcvd_ttl (lr s)) in
  let dup := negb (rseq =? seq (se s)) in
  ping_cb p e (if dup then PING_ERR_DUP else PING_ERR_NONE) (zlen data - 8) (zlen data + 40) []
    (Some (loc, sizeof_sockaddr_in6)) rseq hops (Some rtt);;
  bump_seq;;
  if negb dup then modify (set_got_reply true) else mret tt.

Definition hop_limit (cmsgs : list cmsg) (s : ping) : Z :=
  (fold_left (λ a c, read_cmsg c a) cmsgs (AF_OTHER 0, rcvd_ttl (lr s))).2.

Lemma wp_ready6 data cmsgs (Q : () → ping → Prop) s :
  packet_ok s → zlen data ≤ 4076 →
  let type := le_value (field data 0 1) in
  (∀ l : list Z, length l = 4076%nat → let s1 := set_packet (Some <$> l) s in
     (valid6 (base s) data = false ∨ type = ICMP6_ECHO_REQUEST → Q tt s1) ∧
     (valid6 (base s) data = true → type = ICMP6_ECHO_REPLY →
        ∃ rtt, elapsed (now e) (stamp data 8) = Done rtt ∧
          wp (on_reply6 data cmsgs (be_value (field data 6 2)) rtt s1) Q (set_rcvd_ttl (hop_limit cmsgs s) s1)) ∧
     (valid6 (base s) data = true → type ≠ ICMP6_ECHO_REQUEST → type ≠ ICMP6_ECHO_REPLY →
        wp (noreply_callback p e) Q s1)) →
  wp (ready_callback6 p e (Some (data, cmsgs))) Q s.
Proof.
  intros Hp Hd type HQ. unfold ready_callback6. wp_steps. apply wp_receive; [done|done|]. intros rest Hrest. wp_steps.
  specialize (HQ (data ++ rest) Hrest). cbv zeta in HQ. destruct HQ as (Hno & Hre & Hot).
  change (packet (base (set_packet ?b s))) with b. unfold valid6 in Hno, Hre, Hot.
  change (ICMP6_HDRSIZE + sizeof_evdata) with 40. change ICMP6_HDRSIZE with 8. rewrite Z.ltb_antisym.
  destruct (Z.leb_spec 40 (zlen data)) as [H40|]; cbn [negb andb] in *; [|wp_steps; apply Hno; by left].
  wp_steps. eapply wp_lift; [apply le_at_received; lia|]. change (pid (base (set_packet _ s))) with (pid (base s)).
  destruct (_ =? Z.land (pid (base s)) 65535); cbn [negb andb] in *; [|wp_steps; apply Hno; by left].
  wp_steps. apply wp_is_ours; [lia|lia|]. change (base (set_packet ?b s)) with (PB (pid (base s)) (table (base s)) b).
  change (ours (PB _ _ _) data 8) with (ours (base s) data 8).
  destruct (ours (base s) data 8); cbn [negb] in *; [|wp_steps; apply Hno; by left].
  wp_steps. eapply wp_lift; [apply le_at_received; lia|]. change (le_value (field data 0 1)) with type.
  destruct (Z.eqb_spec type ICMP6_ECHO_REQUEST); [wp_steps; apply Hno; by right|].
  destruct (Z.eqb_spec type ICMP6_ECHO_REPLY) as [Et|Et]; [|by apply Hot].
  destruct (Hre eq_refl Et) as (rtt & Ee & Hrun). wp_steps.
  eapply wp_lift; [apply sent_time_stamp; lia|]. wp_steps. eapply wp_lift; [exact Ee|].
  unfold on_reply6, hop_limit in Hrun. change (lr (set_packet _ s)) with (lr s) in *.
  destruct (fold_left _ cmsgs _) as [loc hops]. wp_steps. eapply wp_lift; [apply be_at_received; lia|]. exact Hrun.
Qed.
End Run.
