(* ===== verification/PingLife.v ===== *)
(** * Ping: the life of a measurement

    The callbacks libevent may make, as a relation on states; the invariant of
    the states that can be reached; what a callback does to the number of packets
    sent and lines printed. *)

From stdpp Require Import base list list_numbers numbers option strings.
From Stdlib Require Import ZArith Lia.
From S2P Require Import Prelude Bits Blocks Cstr Packet Double Wp Validate Results Ping PingProofs PingRun.

Open Scope Z_scope.

Definition outputs (l : list action) : nat :=
  sum_list_with (λ a, match a with Output _ => 1%nat | _ => 0%nat end) l.
Definition resolves (l : list action) : nat :=
  sum_list_with (λ a, match a with Resolve _ => 1%nat | _ => 0%nat end) l.

(** The packets sent since the last start. *)
Definition requests (l : list action) : Z :=
  fold_left (λ n a, match a with Resolve _ => 0 | Sent _ _ => n + 1 | _ => n end) l 0.

(** ** Events *)

Inductive event_t :=
| Start
| Resolved (err : option (list Z)) (res : list (sockaddr * Z))
| Timer
| Ready4 (recv : option (list Z))
| Ready6 (recv : option (list Z * list cmsg)).

Section Life.
Context (p : params).

Definition handle (ev : event_t) (e : env) : PM unit :=
  match ev with
  | Start => ping_start p e
  | Resolved err res => dns_cb p e err res
  | Timer => modify (set_ping_timer None);; noreply_callback p e
  | Ready4 recv => ready_callback4 p e recv
  | Ready6 recv => ready_callback6 p e recv
  end.

(** The parameters [ping_init] accepts, with at least one packet to send. *)
Definition params_ok : Prop :=
  length (cookie p) = 8%nat ∧ 1 ≤ pingcount p < 2 ^ 31 ∧ delay_name_res p = true.

Definition env_ok (e : env) : Prop := can_append p e ∧ sane_time (now e).

(** The time stamp of a packet, 36 thousand million years around 1970. *)
Definition stamp_fits (ts : timespec) : Prop :=
  - 2 ^ 61 ≤ tv_sec ts < 2 ^ 61 ∧ - 2 ^ 61 ≤ tv_nsec ts < 2 ^ 61.

(** Any bytes may be received that fit the buffer; those that carry the identifier, the
    index and the cookie of the measurement ([ours]) carry a time stamp in range. *)
Definition recv_ok (ours : bool) (data : list Z) (off : Z) : Prop :=
  Forall is_byte data ∧ zlen data ≤ 4076 ∧ (ours = true → stamp_fits (stamp data off)).

(** When the event loop makes a callback.  A measurement is not started while the
    timer of its last run is still set. *)
Definition enabled (ev : event_t) (e : env) (s : ping) : Prop :=
  env_ok e ∧
  match ev with
  | Start => ping_timer (nw s) = None
  | Resolved _ _ => True
  | Timer => ping_timer (nw s) ≠ None
  | Ready4 recv => event (nw s) = true ∧ ∀ data, recv = Some data → recv_ok (valid4 p (base s) data) data (ip_hlen data + 8)
  | Ready6 recv => event (nw s) = true ∧ ∀ data cmsgs, recv = Some (data, cmsgs) → recv_ok (valid6 p (base s) data) data 8
  end.

Definition base_ok (b : pingbase) : Prop := ∃ l : list Z, packet b = Some <$> l ∧ length l = 4076%nat.

(** The other measurements change the shared base between the callbacks. *)
Inductive reachable : ping → Prop :=
| reach_new b sa : base_ok b → reachable (new_state b sa)
| reach_base s b : reachable s → base_ok b → reachable (PING (rb s) (lr s) (se s) (nw s) b (acts s))
| reach_step s ev e s' : reachable s → enabled ev e s → handle ev e s = Done (tt, s') → reachable s'.

(** ** The invariant *)

Record inv (s : ping) : Prop := Inv {
  inv_base : base_ok (base s);
  inv_sent : 0 ≤ sentpkts (se s) ≤ pingcount p;
  inv_max : 0 ≤ maxpkts (se s) ≤ pingcount p ∧ (busy (se s) = true → maxpkts (se s) = pingcount p);
  inv_text : busy (se s) = true →
    ∃ t, holds (rb s) t ∧
         (event (nw s) = true → got_reply (se s) = true ∨ send_error (se s) = true → t ≠ []);
  inv_event : event (nw s) = true → busy (se s) = true ∧ event_is_init (nw s) = true ∧ dnsip (se s) = false;
  inv_timer : busy (se s) = true → ping_timer (nw s) ≠ None → event (nw s) = true;
  inv_dns : dnsip (se s) = true → busy (se s) = true;
  inv_once : (outputs (acts s) + (if busy (se s) then 1 else 0) = resolves (acts s))%nat;
  inv_seq : 0 ≤ seq (se s) < 256;
  inv_ttl : is_byte (rcvd_ttl (lr s));
  inv_start : sane_time (start_time (lr s));
  inv_reqs : requests (acts s) ≤ pingcount p ∧
    (dnsip (se s) = true → requests (acts s) = 0 ∧ ping_timer (nw s) = None) ∧
    (event (nw s) = true ∨ ping_timer (nw s) ≠ None → requests (acts s) = sentpkts (se s))
}.

Lemma outputs_app a b : outputs (a ++ b) = (outputs a + outputs b)%nat.
Proof. apply sum_list_with_app. Qed.
Lemma resolves_app a b : resolves (a ++ b) = (resolves a + resolves b)%nat.
Proof. apply sum_list_with_app. Qed.

Lemma outputs_one a : outputs [a] = match a with Output _ => 1%nat | _ => 0%nat end.
Proof. by destruct a. Qed.
Lemma resolves_one a : resolves [a] = match a with Resolve _ => 1%nat | _ => 0%nat end.
Proof. by destruct a. Qed.

Lemma requests_one a x : requests (a ++ [x]) = match x with Resolve _ => 0 | Sent _ _ => requests a + 1 | _ => requests a end.
Proof. unfold requests. by rewrite fold_left_app. Qed.
(** Neither packets nor starts. *)
Definition no_request (l : list action) : Prop :=
  Forall (λ a, match a with Resolve _ | Sent _ _ => False | _ => True end) l.
Lemma requests_more a l : no_request l → requests (a ++ l) = requests a.
Proof.
  intros H. revert a. induction H as [|x l Hx _ IH]; intros a; [by rewrite app_nil_r|].
  rewrite (assoc_L (++) a [x] l : a ++ x :: l = _), IH, requests_one. by destruct x.
Qed.

Lemma elapsed_fits now ts : sane_time now → stamp_fits ts → ∃ rtt, elapsed now ts = Done rtt.
Proof.
  intros [Hn1 Hn2] [Ht1 Ht2]. pose proof chk64_small as Hc.
  unfold elapsed. rewrite (Hc (tv_sec now - tv_sec ts)) by lia. msimpl. destruct (tv_nsec now <? tv_sec ts).
  - rewrite (Hc (tv_sec now - tv_sec ts - 1)) by lia. msimpl. rewrite (Hc (tv_nsec now + 1000000000)) by lia.
    cbn [mret outcome_ret mbind outcome_bind]. rewrite Hc by lia. by eexists.
  - cbn [mret outcome_ret mbind outcome_bind]. rewrite Hc by lia. by eexists.
Qed.

#[local] Arguments request_of : simpl never.
#[local] Arguments requests : simpl never.
#[local] Arguments report_text : simpl never.
#[local] Arguments outputs : simpl never.
#[local] Arguments resolves : simpl never.
#[local] Arguments u64 : simpl never.

Context (Hp : params_ok).

Lemma inv_new b sa : base_ok b → inv (new_state b sa).
Proof.
  destruct Hp as (_ & ? & _). intros Hb. constructor; cbn; try done; try lia; unfold is_byte, sane_time; cbn; try lia.
  change (requests []) with 0. split; [lia|]. split; [done|]. by intros [].
Qed.

Lemma small_u64 z : 0 ≤ z < 2 ^ 31 → u64 z = z.
Proof. intros H. unfold u64. apply Z.mod_small. lia. Qed.

(** A callback sent one more packet, or there was nothing left to send and a
    running measurement printed its line. *)
Definition advanced (s s' : ping) : Prop :=
  (busy (se s') = busy (se s) ∧ event (nw s') = event (nw s) ∧ sentpkts (se s') = sentpkts (se s) + 1 ∧
   outputs (acts s') = outputs (acts s) ∧ ping_timer (nw s') ≠ None) ∨
  (busy (se s') = false ∧ event (nw s') = false ∧ sentpkts (se s') = sentpkts (se s) ∧ maxpkts (se s) ≤ sentpkts (se s) ∧
   outputs (acts s') = (outputs (acts s) + if busy (se s) then 1 else 0)%nat).

Lemma done_inv e t s bytes psz ttl_ more :
  inv s → busy (se s) = true → event (nw s) = true → outputs more = 0%nat → resolves more = 0%nat → no_request more →
  let s1 := set_dns_res false (reported p e t (set_error (negb (got_reply (se s))) (seen bytes psz ttl_ s))) in
  let s2 := set_acts (acts s1 ++ more) s1 in
  inv s2 ∧ busy (se s2) = false ∧ event (nw s2) = false ∧ sentpkts (se s2) = sentpkts (se s) ∧
  outputs (acts s2) = (outputs (acts s) + 1)%nat.
Proof.
  intros [] Hb He Ho Hr Hq. fields s. unfold reported, seen. cbn in *. subst bu0 ev0.
  specialize (inv_event0 eq_refl) as (_ & -> & ->).
  assert (∀ x, outputs ((ac0 ++ [Output x]) ++ more) = (outputs ac0 + 1)%nat) as Ho'
    by (intros x; rewrite !outputs_app, Ho, outputs_one; lia).
  assert (∀ x, resolves ((ac0 ++ [Output x]) ++ more) = resolves ac0) as Hr'
    by (intros x; rewrite !resolves_app, Hr, resolves_one; lia).
  assert (∀ x, requests ((ac0 ++ [Output x]) ++ more) = requests ac0) as Hq'
    by (intros x; by rewrite requests_more, requests_one).
  destruct fi0; psimpl; rewrite Ho'; (split; [|done]); constructor; psimpl; try done; try tauto; rewrite ?Ho', ?Hr', ?Hq'; try lia; intuition congruence.
Qed.

(** ** Sending *)

Lemma xmit_done_inv e s t :
  env_ok e → inv s → (busy (se s) = true → event (nw s) = true ∧ holds (rb s) t ∧ t ≠ []) →
  maxpkts (se s) ≤ sentpkts (se s) → wp (ping_xmit p e) (λ _ s', inv s' ∧ advanced s s') s.
Proof.
  intros [Ha _] Hi Hb Hm. unfold ping_xmit. wp_steps.
  assert (u64 (maxpkts (se s)) = maxpkts (se s)) as ->.
  { destruct Hp as (_ & ? & _), Hi. apply small_u64. lia. }
  rewrite (proj2 (Z.leb_le _ _)) by done. wp_steps.
  assert (∀ b (s' : ping), wp (call_done p b)
            (λ _ s'', ∃ more, outputs more = 0%nat ∧ resolves more = 0%nat ∧ no_request more ∧ s'' = set_acts (acts s' ++ more) s') s') as Hd.
  { intros b s'. unfold call_done, act. destruct (has_done p); wp_steps; [exists [DoneCb b]; repeat split; by repeat constructor|].
    exists []. rewrite app_nil_r. split; [done|]. split; [done|]. split; [constructor|by destruct s']. }
  destruct (busy (se s)) eqn:Eb.
  - destruct (Hb eq_refl) as (He & Ht & Hne). eapply wp_ping_cb_done; [done|done|exact Ht|done|]. wp_steps.
    eapply wp_mono; [apply Hd|]. cbv beta. intros _ s'' (more & Ho & Hr & Hq & ->).
    destruct (done_inv e t s (s32 (cursize (se s))) (s32 (psize (lr s))) (rcvd_ttl (lr s)) more Hi Eb He Ho Hr Hq)
      as (H1 & H2 & H3 & H4 & H5).
    split; [exact H1|]. right. rewrite Eb. auto.
  - apply wp_ping_cb_idle; [done|]. wp_steps. eapply wp_mono; [apply Hd|]. cbv beta. intros _ s'' (more & Ho & Hr & Hq & ->).
    destruct Hi. unfold advanced. rewrite Eb. fields s. cbn in *. rewrite outputs_app, Ho, Nat.add_0_r. split.
    + constructor; psimpl; try done; rewrite ?outputs_app, ?resolves_app, ?(requests_more _ _ Hq), ?Ho, ?Hr; rewrite Eb in *; [lia|done].
    + right. repeat split; try done. destruct ev0; [|done]. destruct (inv_event0 eq_refl). congruence.
Qed.

Lemma failure_text_ne e t s r q : t ++ failure_text e s r q ≠ [].
Proof. unfold failure_text. intros [_ [_ [=]]%app_eq_nil]%app_eq_nil. Qed.
Lemma reply_text_ne e t s dup b loc n ttl_ rtt : t ++ reply_text e s dup b loc n ttl_ rtt ≠ [].
Proof. unfold reply_text. rewrite !app_assoc. intros [_ [=]]%app_eq_nil. Qed.

(** A packet was sent and its timer is not yet set. *)
Definition went (s s' : ping) : Prop :=
  busy (se s') = busy (se s) ∧ event (nw s') = event (nw s) ∧ sentpkts (se s') = sentpkts (se s) + 1 ∧
  outputs (acts s') = outputs (acts s) ∧ dnsip (se s') = false ∧ requests (acts s') = sentpkts (se s').

(** A packet is sent: the invariant before the result is known. *)
Lemma requested_inv e s l :
  inv s → sentpkts (se s) < maxpkts (se s) → length l = 4076%nat → dnsip (se s) = false → requests (acts s) = sentpkts (se s) →
  let s' := set_sentpkts (sentpkts (se s) + 1) (set_packet (Some <$> l) (requested p e s)) in
  inv s' ∧ went s s'.
Proof.
  intros [] Hm Hl Hd Hr0. set (q := request_of p e s). unfold requested. fold q. clearbody q. unfold named, went.
  fields s. cbn in *.
  assert (∀ d, outputs (ac0 ++ [Sent d q]) = outputs ac0) as Ho by (intros d; rewrite outputs_app, outputs_one; lia).
  assert (∀ d, resolves (ac0 ++ [Sent d q]) = resolves ac0) as Hr by (intros d; rewrite resolves_app, resolves_one; lia).
  assert (∀ d, requests (ac0 ++ [Sent d q]) = requests ac0 + 1) as Hq' by (intros d; by rewrite requests_one).
  destruct (sockname e) as [[]|]; psimpl; rewrite Ho, Hq', Hr0; (split; [|done]); constructor; psimpl; rewrite ?Ho, ?Hr, ?Hq', ?Hr0;
    try done; try lia; try (by exists l); (split; [lia|]; by rewrite Hd).
Qed.

(** A result was added to the text. *)
Lemma texted_inv s r t b bytes psz ttl_ :
  inv s → busy (se s) = true → holds r t → t ≠ [] →
  inv (upd_rb r (set_first false (seen bytes psz ttl_ (set_send_error b s)))).
Proof.
  intros [] Hb Ht Hne. fields s. unfold seen. cbn in *.
  destruct fi0; constructor; psimpl; try done; intros; by exists t.
Qed.

Lemma timer_inv s t :
  inv s → (busy (se s) = true → event (nw s) = true) → dnsip (se s) = false → requests (acts s) = sentpkts (se s) →
  inv (set_ping_timer t s).
Proof. intros [] Hb Hd Hq. fields s. cbn in *. constructor; psimpl; try done; auto. rewrite Hd. split; [lia|]. by split. Qed.

Lemma xmit_send_inv e s :
  env_ok e → inv s → (busy (se s) = true → event (nw s) = true) → requests (acts s) = sentpkts (se s) →
  sentpkts (se s) < maxpkts (se s) → wp (ping_xmit p e) (λ _ s', inv s' ∧ advanced s s') s.
Proof.
  intros [Ha _] Hi Hb Hq Hm. unfold ping_xmit. wp_steps. pose proof Hp as (Hc & Hpc & _).
  assert (dnsip (se s) = false) as Hd.
  { destruct (dnsip (se s)) eqn:E; [|done]. destruct (inv_event _ Hi (Hb (inv_dns _ Hi E))) as (_ & _ & ?). congruence. }
  assert (u64 (maxpkts (se s)) = maxpkts (se s)) as ->.
  { destruct Hi. apply small_u64. lia. }
  rewrite (proj2 (Z.leb_gt _ _)) by done. wp_steps.
  apply wp_send_request; [by apply Hi|done|]. intros l Hl. wp_steps.
  assert (sentpkts (se (requested p e s)) = sentpkts (se s)) as Es.
  { unfold requested, named. by destruct (sockname e) as [[]|]. }
  change (sentpkts (se (set_packet _ ?x))) with (sentpkts (se x)). rewrite Es, small_u64 by (destruct Hi; lia).
  destruct (requested_inv e s l Hi Hm Hl Hd Hq) as (Hi' & Hw). set (s2 := set_sentpkts _ _) in *.
  apply (wp_mono _ (λ _ s', inv s' ∧ went s s')).
  2:{ intros _ s' (H1 & H2 & H3 & H4 & H5 & H6 & H7). wp_steps. split; [|by left]. apply timer_inv; [done| |done|done].
      intros H8. rewrite H3. apply Hb. congruence. }
  pose proof (proj1 Hw) as Eb. destruct (0 <? sendto e).
  - wp_steps. by split.
  - wp_steps. destruct (busy (se s)) eqn:Ebs.
    + destruct (inv_text _ Hi' Eb) as (t & Ht & _).
      eapply wp_ping_cb_failure; [by right|done|exact Ht|]. intros r Hr. split.
      * eapply texted_inv; [done|done|exact Hr|]. apply failure_text_ne.
      * unfold went, seen in *. by destruct (first _).
    + apply wp_ping_cb_idle; [done|]. split; [|exact Hw]. clear Hw.
      destruct Hi'. clearbody s2. fields s2. cbn in *. constructor; psimpl; try done. intros Hb'. congruence.
Qed.

(** Nothing was sent or printed. *)
Definition still (s s' : ping) : Prop :=
  busy (se s') = busy (se s) ∧ event (nw s') = event (nw s) ∧ sentpkts (se s') = sentpkts (se s) ∧
  maxpkts (se s') = maxpkts (se s) ∧ outputs (acts s') = outputs (acts s) ∧ ping_timer (nw s') = ping_timer (nw s) ∧
  requests (acts s') = requests (acts s).

Lemma still_advanced s s1 s' : still s s1 → advanced s1 s' → advanced s s'.
Proof. intros (E1 & E2 & E3 & E4 & E5 & _). unfold advanced. rewrite E1, E2, E3, E4, E5. done. Qed.

(** With a non-empty text, [ping_xmit] is safe whatever is left to send. *)
Lemma xmit_inv e s :
  env_ok e → inv s → requests (acts s) = sentpkts (se s) → (busy (se s) = true → event (nw s) = true ∧ ∃ t, holds (rb s) t ∧ t ≠ []) →
  wp (ping_xmit p e) (λ _ s', inv s' ∧ advanced s s') s.
Proof.
  intros He Hi Hq Hb. destruct (Z.lt_ge_cases (sentpkts (se s)) (maxpkts (se s))).
  - apply xmit_send_inv; [done|done| |done|done]. intros H'. by apply Hb.
  - destruct (busy (se s)) eqn:Eb.
    + destruct (Hb eq_refl) as (? & t & ? & ?). eapply (xmit_done_inv e s t); auto; lia.
    + eapply (xmit_done_inv e s []); [done|done|congruence|lia].
Qed.

Lemma noreply_inv e s :
  env_ok e → inv s → (busy (se s) = true → event (nw s) = true) → requests (acts s) = sentpkts (se s) →
  wp (noreply_callback p e) (λ _ s', inv s' ∧ advanced s s') s.
Proof.
  intros He Hi Hb Hq. unfold noreply_callback. wp_steps.
  apply (wp_mono _ (λ _ s1, inv s1 ∧ still s s1 ∧
                    (busy (se s1) = true → event (nw s1) = true ∧ ∃ t, holds (rb s1) t ∧ t ≠ []))).
  2:{ intros _ s1 (H1 & H2 & H3). eapply wp_mono; [apply xmit_inv; try done; by unfold still in H2; intuition congruence|]. intros _ s' [H4 H5].
      eauto using still_advanced. }
  destruct (negb (got_reply (se s)) && negb (send_error (se s))) eqn:Eg; wp_steps.
  - assert (∀ s1, inv s1 → inv (set_seq ((seq (se s1) + 1) `mod` 256) s1)) as Hseq.
    { intros s1 []. fields s1. cbn in *. constructor; psimpl; try done. apply Z.mod_pos_bound. lia. }
    destruct (busy (se s)) eqn:Eb.
    + destruct (inv_text _ Hi Eb) as (t & Ht & _). specialize (Hb eq_refl).
      eapply wp_ping_cb_failure; [by left|done|exact Ht|]. intros r Hr. wp_steps.
      pose proof (texted_inv s r _ (send_error (se s)) (s32 (cursize (se s))) (-1) (-1) Hi Eb Hr
                    (failure_text_ne _ _ _ _ _)) as Hi'.
      replace (set_send_error (send_error (se s)) s) with s in Hi' by (by destruct s as [? ? [] ? ? ?]).
      specialize (Hseq _ Hi'). split; [exact Hseq|]. clear Hi' Hseq.
      split; [unfold still, seen; by destruct (first (se s))|]. intros _.
      split; [unfold seen; by destruct (first (se s))|]. exists (t ++ failure_text e s PING_ERR_TIMEOUT (seq (se s))).
      split; [exact Hr|apply failure_text_ne].
    + apply wp_ping_cb_idle; [done|]. wp_steps. split; [by apply Hseq|]. split; [done|]. cbn. congruence.
  - split; [done|]. split; [done|]. intros Eb. destruct (inv_text _ Hi Eb) as (t & Ht & Hne).
    split; [by apply Hb|]. exists t. split; [done|]. apply Hne; [by apply Hb|].
    apply andb_false_iff in Eg as [Eg|Eg]; apply negb_false_iff in Eg; auto.
Qed.

(** ** Receiving *)

Lemma replied_inv e s r t dup bytes psz loc n ttl_ :
  inv s → busy (se s) = true → holds r t → t ≠ [] →
  let s' := upd_rb r (after_reply e (seen bytes psz ttl_ s) dup bytes psz loc n ttl_) in
  inv s' ∧ still s s' ∧ holds (rb s') t.
Proof.
  intros [] Hb Ht Hne. unfold after_reply.
  set (more := if _ || bool_decide _ then [] else _).
  assert (∀ l, outputs (l ++ more) = outputs l) as Ho
    by (intros l; rewrite outputs_app; unfold more, outputs; destruct (_ || _); cbn [sum_list_with]; lia).
  assert (∀ l, resolves (l ++ more) = resolves l) as Hr
    by (intros l; rewrite resolves_app; unfold more, resolves; destruct (_ || _); cbn [sum_list_with]; lia).
  assert (∀ l, requests (l ++ more) = requests l) as Hq
    by (intros l; apply requests_more; unfold more; destruct (_ || _); by repeat constructor).
  clearbody more. unfold still, seen. fields s. cbn in *.
  destruct fi0; psimpl; rewrite ?Ho, ?Hq; (split; [|done]); constructor; psimpl; rewrite ?Ho, ?Hr, ?Hq; try done; intros; by exists t.
Qed.

(** A reply was got with a non-empty text, and the next number is expected. *)
Lemma got_reply_inv s t : inv s → (busy (se s) = true → holds (rb s) t ∧ t ≠ []) → inv (set_got_reply true s).
Proof.
  intros [] Ht. fields s. cbn in *. constructor; psimpl; try done. intros Hb. destruct (Ht Hb). by exists t.
Qed.
Lemma bump_inv s : inv s → inv (set_seq ((seq (se s) + 1) `mod` 256) s).
Proof. intros []. fields s. cbn in *. constructor; psimpl; try done. apply Z.mod_pos_bound. lia. Qed.
Lemma packet_inv s l ttl_ :
  inv s → length l = 4076%nat → is_byte ttl_ → inv (set_rcvd_ttl ttl_ (set_packet (Some <$> l) s)).
Proof. intros [] Hl Ht. fields s. cbn in *. constructor; psimpl; try done. by exists l. Qed.

Lemma byte_field data off : Forall is_byte data → is_byte (le_value (field data off 1)).
Proof.
  intros H. unfold field. change (Z.to_nat 1) with 1%nat. destruct (drop (Z.to_nat off) data) as [|b l] eqn:E; [done|].
  assert (is_byte b) as Hb by (apply (Forall_drop _ (Z.to_nat off)) in H; rewrite E in H; by inversion H).
  change (is_byte (b + 256 * 0)). unfold is_byte in *. lia.
Qed.

Lemma ready4_inv e recv s :
  enabled (Ready4 recv) e s → inv s →
  wp (ready_callback4 p e recv) (λ _ s', inv s' ∧ (still s s' ∨ advanced s s')) s.
Proof.
  intros (He & Hev & Hok) Hi. destruct recv as [data|]; [|wp_steps; split; [done|by left]].
  destruct (Hok data eq_refl) as (Hby & Hlen & Hrtt). destruct (inv_event _ Hi Hev) as (Hb & _).
  apply wp_ready4; [by apply Hi|done|]. intros l Hl. cbv zeta.
  assert (inv (set_packet (Some <$> l) s)) as Hi1.
  { replace (set_packet (Some <$> l) s) with (set_rcvd_ttl (rcvd_ttl (lr s)) (set_packet (Some <$> l) s))
      by (by destruct s as [? [] ? ? ? ?]). apply packet_inv; [done|done|apply Hi]. }
  split; [|split].
  - intros _. split; [done|]. by left.
  - intros Hv _. destruct (elapsed_fits (now e) _ (proj2 He) (Hrtt Hv)) as (rtt & Hr0). exists rtt. split; [exact Hr0|]. unfold on_reply4. wp_steps.
    pose proof (byte_field data 8 Hby) as Httl. set (ttl_ := le_value _) in *.
    pose proof (packet_inv s l ttl_ Hi Hl Httl) as Hi2. set (s2 := set_rcvd_ttl _ _) in *.
    destruct (inv_text _ Hi2 Hb) as (t & Ht & _). set (dup := negb _).
    eapply wp_ping_cb_reply; [done|exact Ht|exact Httl|]. intros r Hr.
    destruct (replied_inv e s2 r _ dup (zlen data - 28) (zlen data) (AF_INET (be_value (field data 16 4))) sizeof_sockaddr_in
                ttl_ Hi2 Hb Hr (reply_text_ne _ _ _ _ _ _ _ _ _)) as (Hi3 & Hs3 & Ht3).
    set (s3 := upd_rb r _) in *.
    destruct (negb dup); wp_steps; [|split; [done|by left]].
    split; [apply bump_inv; eapply got_reply_inv; [exact Hi3|]; intros _; split; [exact Ht3|apply reply_text_ne]|].
    left. exact Hs3.
  - intros _ _ _. eapply wp_mono; [apply noreply_inv; [done|done|done|apply (inv_reqs _ Hi1); by left]|]. intros _ s' [H1 H2]. split; [done|]. by right.
Qed.

Lemma read_cmsg_byte cmsgs sa ttl_ : is_byte ttl_ → is_byte (fold_left (λ a c, read_cmsg c a) cmsgs (sa, ttl_)).2.
Proof.
  revert sa ttl_. induction cmsgs as [|c cmsgs IH]; intros sa ttl_ Ht; [done|]. cbn [fold_left].
  destruct c; cbn [read_cmsg fst snd]; apply IH; auto.
Qed.

Lemma ready6_inv e recv s :
  enabled (Ready6 recv) e s → inv s →
  wp (ready_callback6 p e recv) (λ _ s', inv s' ∧ (still s s' ∨ advanced s s')) s.
Proof.
  intros (He & Hev & Hok) Hi. destruct recv as [[data cmsgs]|]; [|wp_steps; split; [done|by left]].
  destruct (Hok data cmsgs eq_refl) as (Hby & Hlen & Hrtt). destruct (inv_event _ Hi Hev) as (Hb & _).
  apply wp_ready6; [by apply Hi|done|]. intros l Hl. cbv zeta.
  assert (inv (set_packet (Some <$> l) s)) as Hi1.
  { replace (set_packet (Some <$> l) s) with (set_rcvd_ttl (rcvd_ttl (lr s)) (set_packet (Some <$> l) s))
      by (by destruct s as [? [] ? ? ? ?]). apply packet_inv; [done|done|apply Hi]. }
  split; [|split].
  - intros _. split; [done|]. by left.
  - intros Hv _. destruct (elapsed_fits (now e) _ (proj2 He) (Hrtt Hv)) as (rtt & Hr0). exists rtt. split; [exact Hr0|]. unfold on_reply6, hop_limit.
    pose proof (read_cmsg_byte cmsgs (AF_OTHER 0) (rcvd_ttl (lr s)) (inv_ttl _ Hi)) as Httl.
    change (lr (set_packet _ s)) with (lr s).
    destruct (fold_left _ cmsgs _) as [loc ttl_]. cbn [snd] in *. wp_steps.
    pose proof (packet_inv s l ttl_ Hi Hl Httl) as Hi2. set (s2 := set_rcvd_ttl _ _) in *.
    destruct (inv_text _ Hi2 Hb) as (t & Ht & _). set (dup := negb _).
    eapply wp_ping_cb_reply; [done|exact Ht|exact Httl|]. intros r Hr.
    destruct (replied_inv e s2 r _ dup (zlen data - 8) (zlen data + 40) loc sizeof_sockaddr_in6
                ttl_ Hi2 Hb Hr (reply_text_ne _ _ _ _ _ _ _ _ _)) as (Hi3 & Hs3 & Ht3).
    set (s3 := upd_rb r _) in *. unfold bump_seq. wp_steps.
    destruct (negb dup); wp_steps; (split; [|left; exact Hs3]); [|by apply bump_inv].
    eapply got_reply_inv; [by apply bump_inv|]. intros _. split; [exact Ht3|apply reply_text_ne].
  - intros _ _ _. eapply wp_mono; [apply noreply_inv; [done|done|done|apply (inv_reqs _ Hi1); by left]|]. intros _ s' [H1 H2]. split; [done|]. by right.
Qed.

(** ** Starting *)

Lemma reported_inv e t s :
  inv s → busy (se s) = true → dnsip (se s) = false → event (nw s) = false →
  inv (reported p e t s) ∧ outputs (acts (reported p e t s)) = (outputs (acts s) + 1)%nat.
Proof.
  intros [] Hb Hd He. unfold reported. set (x := report_text _ _ _ _). clearbody x. fields s. cbn in *. subst. cbn iota in *.
  assert (outputs (ac0 ++ [Output x]) = (outputs ac0 + 1)%nat) as Ho by (rewrite outputs_app, outputs_one; lia).
  assert (resolves (ac0 ++ [Output x]) = resolves ac0) as Hr by (rewrite resolves_app, resolves_one; lia).
  assert (requests (ac0 ++ [Output x]) = requests ac0) as Hq by (by rewrite requests_one).
  destruct ei0; psimpl; (split; [|done]); constructor; psimpl; rewrite ?Ho, ?Hr, ?Hq; try done; try tauto; lia.
Qed.

Lemma call_done_inv b (Q : ping → Prop) s :
  inv s → (∀ l, outputs l = outputs (acts s) → inv (set_acts l s) → Q (set_acts l s)) →
  wp (call_done p b) (λ _, Q) s.
Proof.
  intros Hi HQ. unfold call_done, act.
  assert (∀ l, outputs l = outputs (acts s) → resolves l = resolves (acts s) → requests l = requests (acts s) → Q (set_acts l s)) as H.
  { intros l H1 H2 H3. apply HQ; [done|]. destruct Hi. fields s. cbn in *. constructor; psimpl; try done; by rewrite ?H1, ?H2, ?H3. }
  destruct (has_done p); wp_steps.
  - apply H; [rewrite outputs_app, outputs_one|rewrite resolves_app, resolves_one|by rewrite requests_one]; lia.
  - specialize (H (acts s) eq_refl eq_refl eq_refl). by destruct s.
Qed.

(** A text was added and the line printed. *)
Definition finished (s s' : ping) : Prop :=
  inv s' ∧ busy (se s') = false ∧ outputs (acts s') = (outputs (acts s) + 1)%nat.

(** A change that concerns neither the text nor the events. *)
Definition quiet (f : ping → ping) : Prop :=
  ∀ s, rb (f s) = rb s ∧ busy (se (f s)) = busy (se s) ∧ dnsip (se (f s)) = dnsip (se s) ∧
       event (nw (f s)) = event (nw s) ∧ acts (f s) = acts s ∧ (inv s → inv (f s)).

Lemma quiet_id : quiet id.
Proof. by intros s. Qed.
Lemma quiet_addr nd ns : quiet (λ s, set_no_src ns (set_no_dst nd s)).
Proof.
  intros s. do 5 (split; [done|]). intros []. fields s. cbn in *. constructor; psimpl; done.
Qed.

Lemma add_report_inv e f x s :
  quiet f → env_ok e → inv s → busy (se s) = true → dnsip (se s) = false → event (nw s) = false → x ≠ [] →
  wp (add_str x) (λ _ s1, wp (report p e) (λ _ s', finished s s') (f s1)) s.
Proof.
  intros Hf [Ha _] Hi Hb Hd He Hx. destruct (inv_text _ Hi Hb) as (t & Ht & _).
  eapply wp_add_str; [exact Ht|]. intros r Hr.
  assert (inv (upd_rb r s)) as Hi'.
  { destruct Hi. fields s. cbn in *. constructor; psimpl; try done. intros _. eexists. split; [exact Hr|]. congruence. }
  destruct (Hf (upd_rb r s)) as (F1 & F2 & F3 & F4 & F5 & F6).
  eapply wp_report; [done|rewrite F1; exact Hr|by intros [_ ?]%app_eq_nil|].
  destruct (reported_inv e (t ++ x) (f (upd_rb r s))) as [H1 H2]; [auto|rewrite F2; exact Hb|rewrite F3; exact Hd|rewrite F4; exact He|].
  split; [done|]. rewrite H2, F5. split; [|done]. unfold reported. by destruct (event_is_init _).
Qed.

Lemma take_ne {A} n (x : A) l : take (S n) (x :: l) ≠ [].
Proof. done. Qed.

Lemma start_error_inv e text s :
  env_ok e → inv s → busy (se s) = true → dnsip (se s) = false → event (nw s) = false →
  wp (start_error p e text) (λ _ s', finished s s') s.
Proof.
  intros He Hi Hb Hd Hev. unfold start_error. wp_steps. unfold line80.
  change (str "{ ") with [123; 32]. cbn [app].
  eapply wp_mono; [apply (add_report_inv e id _ s quiet_id He Hi Hb Hd Hev), take_ne|]. cbv beta. intros _ s1 H1.
  wp_steps. eapply wp_mono; [exact H1|]. cbv beta. intros _ s2 (Hi2 & Hb2 & Ho2).
  apply call_done_inv; [done|]. intros l Hl Hi3. split; [done|]. split; [done|]. cbn. lia.
Qed.

(** While the socket is watched the timer is set. *)
Definition armed (s : ping) : Prop := event (nw s) = true → ping_timer (nw s) ≠ None.

Lemma over_armed s : inv s → busy (se s) = false → armed s.
Proof. intros Hi Hb He. destruct (inv_event _ Hi He). congruence. Qed.
Lemma finished_armed s s' : finished s s' → inv s' ∧ armed s'.
Proof. intros (H1 & H2 & _). auto using over_armed. Qed.

Lemma start2_inv e s :
  env_ok e → inv s → busy (se s) = true → dnsip (se s) = false → event (nw s) = false →
  requests (acts s) = 0 → ping_timer (nw s) = None →
  wp (ping_start2 p e) (λ _ s', inv s' ∧ armed s') s.
Proof.
  intros He Hi Hb Hd Hev Hq Htm. unfold ping_start2. wp_steps. pose proof Hp as (Hc & Hpc & _).
  assert (∀ so ei, inv (set_event false (set_event_is_init ei (set_socket so (set_error false (set_no_src false
            (set_no_dst false (set_got_reply false (set_send_error false (set_cursize (maxsize p)
              (set_sentpkts 0 s))))))))))) as Hi1.
  { intros so ei. destruct Hi. fields s. cbn in *. subst. constructor; psimpl; try done; try lia.
    intros _. destruct (inv_text0 eq_refl) as (t & Ht & _). by exists t. }
  destruct (socket_ok e); cbn [negb]; wp_steps.
  2:{ eapply wp_mono; [apply start_error_inv; [done| |done|done|done]|by intros ? ? ?%finished_armed].
      specialize (Hi1 (socket (nw s)) (event_is_init (nw s))). destruct s as [? ? [] [] ? ?]. cbn in *. subst. exact Hi1. }
  specialize (Hi1 true true). set (s1 := set_event false _) in *.
  destruct (bool_decide _ && _); [eapply wp_mono; [by apply start_error_inv|by intros ? ? ?%finished_armed]|].
  destruct (connect_ok e); cbn [negb]; [|eapply wp_mono; [by apply start_error_inv|by intros ? ? ?%finished_armed]].
  wp_steps. unfold get_sockname. wp_steps.
  assert (∀ n sa, wp (ping_xmit p e) (λ _ s', inv s' ∧ armed s') (set_event true (set_loc_socklen n (set_loc_sin6 sa s1)))) as Hgo.
  { intros n sa. eapply wp_mono; [apply xmit_send_inv; [done| |done|exact Hq|]|].
    - destruct Hi1. unfold s1 in *. clear s1. fields s. cbn in *. subst. constructor; psimpl; try done.
      intros _. destruct (inv_text0 eq_refl) as (t & Ht & _). exists t. split; [done|]. by intros _ [].
      rewrite Hq. split; [lia|]. by split.
    - destruct Hi. cbn. rewrite (proj2 inv_max0 Hb). lia.
    - intros _ s' [H1 [(_ & _ & _ & _ & H2)|(H2 & _)]]; (split; [done|]); [by intros _|by apply over_armed]. }
  clearbody s1. destruct (sockname e) as [[sa n]|]; wp_steps;
    [specialize (Hgo n sa)|specialize (Hgo sizeof_sockaddr_in6 (loc_sin6 (nw s1)))];
    by destruct s1 as [? ? ? [] ? ?].
Qed.

(** A failure before the first packet: the size is recorded, the line printed, and
    the second call of [ping_cb] finds nothing to do. *)
Lemma dns_failure_inv e result text s :
  result = PING_ERR_DNS ∨ result = PING_ERR_BAD_ADDR →
  env_ok e → inv s → busy (se s) = true → dnsip (se s) = false → event (nw s) = false →
  wp (ping_cb p e result (s32 (maxsize p)) (-1) text None 0 0 None)
     (λ _, wp (ping_cb p e PING_ERR_DONE (s32 (maxsize p)) (-1) [] None 0 0 None;; call_done p true) (λ _ s, inv s ∧ armed s)) s.
Proof.
  intros Hr He Hi Hb Hd Hev. apply wp_ping_cb_busy; [done|].
  assert (∀ f x s', quiet f → inv s' → busy (se s') = true → dnsip (se s') = false → event (nw s') = false → x ≠ [] →
            wp (add_str x) (λ _ s1, wp (report p e) (λ _, wp (ping_cb p e PING_ERR_DONE (s32 (maxsize p)) (-1) [] None 0 0 None;;
              call_done p true) (λ _ s, inv s ∧ armed s)) (f s1)) s') as Hrep.
  { intros f x s' Hf Hi' Hb' Hd' Hev' Hx. eapply wp_mono; [by apply (add_report_inv e f x s')|]. cbv beta. intros _ s1 H1.
    eapply wp_mono; [exact H1|]. cbv beta. intros _ s2 (Hi2 & Hb2 & _). wp_steps.
    apply wp_ping_cb_idle; [done|]. apply call_done_inv; [done|]. intros l _ H. split; [done|by apply over_armed]. }
  set (s1 := set_psize (u32 (-1)) (set_size (u32 (s32 (maxsize p))) (seen (s32 (maxsize p)) (-1) 0 s))) in *.
  assert (inv s1) as Hi'.
  { unfold s1, seen. destruct Hi. fields s. cbn in *. subst. destruct fi0; constructor; psimpl; try done; lia. }
  assert (busy (se s1) = true ∧ dnsip (se s1) = false ∧ event (nw s1) = false) as (Hb' & Hd' & Hev')
    by (unfold s1, seen; by destruct (first (se s))).
  assert (∀ x, line256 (sep (seen (s32 (maxsize p)) (-1) 0 s) ++ str "{ " ++ x) ≠ []) as Hne.
  { intros x. unfold sep. rewrite seen_se. by destruct (first (se s)). }
  unfold cb_failure. destruct Hr as [-> | ->].
  - cbn [Z.eqb orb PING_ERR_DNS PING_ERR_NONE PING_ERR_DUP Pos.eqb PING_ERR_TIMEOUT PING_ERR_SENDTO]. wp_steps.
    apply (Hrep id _ s1 quiet_id Hi' Hb' Hd' Hev'), Hne.
  - cbn [Z.eqb orb PING_ERR_BAD_ADDR PING_ERR_DNS PING_ERR_NONE PING_ERR_DUP Pos.eqb PING_ERR_TIMEOUT PING_ERR_SENDTO].
    wp_steps. apply (Hrep _ _ s1 (quiet_addr false true) Hi' Hb' Hd' Hev'), Hne.
Qed.

Lemma dns_cb_inv e err res s : env_ok e → inv s → armed s → wp (dns_cb p e err res) (λ _ s, inv s ∧ armed s) s.
Proof.
  intros He Hi Har. unfold dns_cb. wp_steps. destruct (dnsip (se s)) eqn:Ed; cbn [negb]; wp_steps; [|done].
  pose proof (inv_dns _ Hi Ed) as Hb.
  assert (event (nw s) = false) as Hev.
  { destruct (event (nw s)) eqn:E; [|done]. destruct (inv_event _ Hi E) as (_ & _ & ?). congruence. }
  destruct (elapsed_sane (now e) (start_time (lr s))) as (rtt & Hrtt); [apply He|apply Hi|].
  eapply wp_lift; [exact Hrtt|]. wp_steps.
  assert (∀ dr n sa, inv (set_sin6 sa (set_socklen n (set_dns_res dr (set_dnsip false (set_ttr rtt s)))))) as Hi'.
  { intros dr n sa. destruct Hi. fields s. cbn in *. constructor; psimpl; try done.
    - intros H. destruct (inv_event0 H) as (? & ? & ?). congruence.
    - split; [apply inv_reqs0|]. split; [done|apply inv_reqs0]. }
  destruct err as [text|]; wp_steps.
  - apply dns_failure_inv; try done; [by left|].
    specialize (Hi' (dns_res (nw s)) (socklen (nw s)) (sin6 (nw s))). by destruct s as [? ? [] [] ? ?].
  - assert (∀ n sa, wp (modify (set_dns_res false);; ping_cb p e PING_ERR_DNS_NO_ADDR (s32 (cursize (se s))) (-1) [] None 0 0 None;;
              call_done p true) (λ _ s, inv s ∧ armed s) (set_socklen n (set_dns_res sa (set_dnsip false (set_ttr rtt s))))) as Hno.
    { intros n b. wp_steps. specialize (Hi' false n (sin6 (nw s))). apply wp_ping_cb_busy; [done|].
      cbn [Z.eqb orb PING_ERR_DNS_NO_ADDR PING_ERR_NONE PING_ERR_DUP Pos.eqb]. unfold cb_failure. wp_steps.
      cbn [Z.eqb orb PING_ERR_DNS_NO_ADDR PING_ERR_NONE PING_ERR_DUP Pos.eqb PING_ERR_DNS PING_ERR_TIMEOUT
           PING_ERR_SENDTO PING_ERR_BAD_ADDR PING_ERR_DONE]. wp_steps. apply call_done_inv.
      2:{ intros l _ H. split; [done|]. unfold armed, seen. cbn. destruct (first (se s)); cbn; congruence. }
      destruct Hi'. unfold seen. fields s. cbn in *. destruct fi0; constructor; psimpl; try done. }
    destruct res as [|[sa n] res].
    + specialize (Hno (socklen (nw s)) false). by destruct s as [? ? [] [] ? ?].
    + wp_steps. destruct (sizeof_sockaddr_in6 <? n); [apply Hno|]. wp_steps.
      destruct (_ =? -1); wp_steps; [apply dns_failure_inv; try done; by right|].
      destruct (proj1 (proj2 (inv_reqs _ Hi)) Ed). apply start2_inv; try done.
Qed.

Lemma start_inv e s : enabled Start e s → inv s → armed s → wp (ping_start p e) (λ _ s, inv s ∧ armed s) s.
Proof.
  intros [[_ He] Ht] Hi Har. unfold ping_start. wp_steps. pose proof Hp as (_ & Hpc & Hdr).
  destruct (busy (se s)) eqn:Eb; wp_steps; [done|]. rewrite Hdr. cbn [negb]. wp_steps. unfold act. wp_steps.
  assert (s32 (pingcount p) = pingcount p) as -> by (unfold s32; rewrite Z.mod_small; lia).
  destruct Hi. fields s. cbn in *. subst bu0 pt0.
  assert (ev0 = false) as -> by (destruct ev0; [by destruct (inv_event0 eq_refl)|done]).
  split; [|done]. constructor; psimpl; try done; try lia.
  - intros _. exists []. split; [apply holds_fresh|done].
  - rewrite outputs_app, outputs_one, resolves_app, resolves_one. lia.
  - rewrite requests_one. split; [lia|]. split; [done|]. by intros [].
Qed.

Lemma timer_event_inv e s :
  enabled Timer e s → inv s → wp (handle Timer e) (λ _ s', inv s' ∧ advanced s s') s.
Proof.
  intros [He Ht] Hi. cbn [handle]. wp_steps. destruct (inv_reqs _ Hi) as (_ & Hd & Hq).
  assert (dnsip (se s) = false) as Ed by (destruct (dnsip (se s)); [by destruct (Hd eq_refl)|done]).
  apply (noreply_inv e (set_ping_timer None s)); [done| |intros Hb; by apply (inv_timer _ Hi)|by apply Hq; right].
  apply timer_inv; [done|intros Hb; by apply (inv_timer _ Hi)|done|by apply Hq; right].
Qed.

Lemma moved_armed s s' : armed s → inv s' → still s s' ∨ advanced s s' → armed s'.
Proof.
  intros Ha Hi [(_ & He & _ & _ & _ & Ht & _)|[(_ & _ & _ & _ & Ht)|(_ & He & _)]]; unfold armed in *;
    [by rewrite He, Ht|done|by rewrite He].
Qed.

(** Every callback the event loop makes returns, and keeps the invariant. *)
Lemma handle_inv ev e s :
  enabled ev e s → inv s → armed s → wp (handle ev e) (λ _ s', inv s' ∧ armed s') s.
Proof.
  intros Hen Hi Ha. destruct ev as [|err res| |recv|recv]; cbn [handle].
  - by apply start_inv.
  - apply dns_cb_inv; [apply Hen|done|done].
  - eapply wp_mono; [by apply (timer_event_inv e s)|]. intros _ s' [H1 H2]. eauto using moved_armed.
  - eapply wp_mono; [by apply ready4_inv|]. intros _ s' [H1 H2]. eauto using moved_armed.
  - eapply wp_mono; [by apply ready6_inv|]. intros _ s' [H1 H2]. eauto using moved_armed.
Qed.

Lemma reachable_inv s : reachable s → inv s ∧ armed s.
Proof.
  induction 1 as [b sa Hb|s b _ [[] Ha] Hb|s ev e s' _ [Hi Ha] Hen Hrun]; [split; [by apply inv_new|done]|split; [by constructor|exact Ha]|].
  pose proof (handle_inv ev e s Hen Hi Ha) as H. unfold wp in H. by rewrite Hrun in H.
Qed.

(** What a callback does while packets are sent: nothing that counts, unless the
    timer fired; or it sent the next packet; or it was the last. *)
Lemma sending_step ev e s :
  enabled ev e s → ev ≠ Start → inv s → event (nw s) = true →
  wp (handle ev e) (λ _ s', inv s' ∧ ((ev ≠ Timer ∧ still s s') ∨ advanced s s')) s.
Proof.
  intros Hen Hns Hi Hev. destruct ev as [|err res| |recv|recv]; cbn [handle]; [done| | | |].
  - unfold dns_cb. wp_steps. destruct (inv_event _ Hi Hev) as (_ & _ & ->). wp_steps. split; [done|]. by left.
  - eapply wp_mono; [by apply (timer_event_inv e s)|]. intros _ s' [H1 H2]. auto.
  - eapply wp_mono; [by apply ready4_inv|]. intros _ s' [H1 [|]]; auto.
  - eapply wp_mono; [by apply ready6_inv|]. intros _ s' [H1 [|]]; auto.
Qed.
End Life.
