(* ===== verification/PingMeasure.v ===== *)
(** * Ping: a whole measurement

    The reply of a host that echoes a request is recognised, with its time
    stamp, its sequence number and the fields of the IP header; from there, what a
    measurement reports about a sequence of packets that are answered or lost. *)

From stdpp Require Import base list list_numbers numbers option strings.
From Stdlib Require Import ZArith Lia.
From S2P Require Import Prelude Bits Blocks Cstr Packet Double Wp Validate Results Ping PingProofs PingRun PingLife.

Open Scope Z_scope.

(** ** Echoes *)

Lemma field_mid (a b c : list Z) off n : off = zlen a → n = zlen b → field (a ++ b ++ c) off n = b.
Proof.
  intros -> ->. unfold field, zlen. rewrite !Nat2Z.id, drop_app_length, take_app_length. done.
Qed.

Lemma zlen_le64 z : zlen (le64 z) = 8.
Proof. done. Qed.
Lemma zlen_le32 z : zlen (le32 z) = 4.
Proof. done. Qed.
Ltac zlens := rewrite ?zlen_app, ?zlen_le64, ?zlen_le32, ?zlen_nil; lia.

(** An echo request with another type and checksum, behind an IP header. *)
Definition echo (type : Z) (hdr cks q : list Z) : list Z := hdr ++ [type; 0] ++ cks ++ drop 4 q.

Lemma echo_msg type hdr cks t c id seq data :
  length c = 2%nat → echo type hdr cks (icmp_msg t c id seq data) = hdr ++ icmp_msg type cks id seq data.
Proof. intros Hc. unfold echo, icmp_msg. by destruct c as [|? [|? [|]]]. Qed.

(** The fields of such a message. *)
Section Fields.
Context (hdr cks ck more : list Z) (type id q idx : Z) (ts : timespec).
Context (Hcks : length cks = 2%nat) (Hck : length ck = 8%nat).
Let data := hdr ++ icmp_msg type cks id q (evdata_bytes ts idx ck ++ more).
Let h := zlen hdr.

Lemma msg_type : field data h 1 = [type].
Proof. exact (field_mid hdr [type] (0 :: cks ++ le16 id ++ be16 q ++ evdata_bytes ts idx ck ++ more) h 1 eq_refl eq_refl). Qed.
Lemma msg_id : field data (h + 4) 2 = le16 id.
Proof.
  unfold data, icmp_msg. rewrite (app_assoc hdr), (app_assoc (hdr ++ _)). apply field_mid; [|done].
  unfold h, zlen. rewrite !length_app, Hcks. change (length (le16 id)) with 2%nat. cbn [length]. lia.
Qed.
Lemma msg_seq : field data (h + 6) 2 = be16 q.
Proof.
  unfold data, icmp_msg. rewrite (app_assoc hdr), (app_assoc (hdr ++ _)), (app_assoc (_ ++ cks)). apply field_mid; [|done].
  unfold h, zlen. rewrite !length_app, Hcks. change (length (le16 id)) with 2%nat. cbn [length]. lia.
Qed.

Lemma msg_split a b c off n :
  evdata_bytes ts idx ck = a ++ b ++ c → off = h + 8 + zlen a → n = zlen b → field data off n = b.
Proof.
  intros E -> ->. unfold data, icmp_msg. rewrite E. rewrite <- !app_assoc.
  replace (hdr ++ _) with ((hdr ++ [type; 0] ++ cks ++ le16 id ++ be16 q ++ a) ++ b ++ (c ++ more))
    by (by rewrite <- !app_assoc).
  apply field_mid; [|done]. unfold h, zlen. rewrite !length_app, Hcks. change (length (le16 id)) with 2%nat.
  change (length (be16 q)) with 2%nat. cbn [length]. lia.
Qed.

Lemma msg_stamp : - 2 ^ 63 ≤ tv_sec ts < 2 ^ 63 → - 2 ^ 63 ≤ tv_nsec ts < 2 ^ 63 → stamp data (h + 8) = ts.
Proof.
  intros H1 H2. unfold stamp.
  rewrite (msg_split [] (le64 (tv_sec ts)) (le64 (tv_nsec ts) ++ le32 idx ++ ck) (h + 8) 8) by (done || zlens).
  rewrite (msg_split (le64 (tv_sec ts)) (le64 (tv_nsec ts)) (le32 idx ++ ck) (h + 8 + 8) 8) by (done || zlens).
  rewrite !le64_value, !s64_u64 by done. by destruct ts.
Qed.
Lemma msg_index : 0 ≤ idx < 2 ^ 32 → le_value (field data (h + 8 + 16) 4) = idx.
Proof.
  intros Hi. rewrite (msg_split (le64 (tv_sec ts) ++ le64 (tv_nsec ts)) (le32 idx) ck (h + 8 + 16) 4)
    by (first [unfold evdata_bytes; by rewrite <- !app_assoc|done|zlens]).
  rewrite le32_value. by apply Z.mod_small.
Qed.
Lemma msg_cookie : field data (h + 8 + 20) 8 = ck.
Proof.
  apply (msg_split (le64 (tv_sec ts) ++ le64 (tv_nsec ts) ++ le32 idx) ck []); [|zlens|unfold zlen; lia].
  unfold evdata_bytes. by rewrite <- !app_assoc, app_nil_r.
Qed.
Lemma msg_length : zlen data = h + 36 + zlen more.
Proof. unfold data. rewrite zlen_app. unfold zlen at 2. rewrite length_icmp_msg, length_app, length_evdata by done. unfold h, zlen. lia. Qed.
End Fields.

(** An IP header: the length in its first byte is its length. *)
Definition ip_header (hdr : list Z) : Prop :=
  20 ≤ zlen hdr ∧ Z.land (le_value (field hdr 0 1)) 15 * 4 = zlen hdr.

Lemma ip_header_hlen hdr more : ip_header hdr → ip_hlen (hdr ++ more) = zlen hdr.
Proof. intros [H1 H2]. unfold ip_hlen. rewrite field_app by lia. done. Qed.

Lemma land_small a : 0 ≤ Z.land 0xfff a < 2 ^ 16 ∧ Z.land 0xfff a = Z.land a 0xfff.
Proof.
  rewrite Z.land_comm. split; [|done]. change 0xfff with (2 ^ 12 - 1). rewrite land_ones_mod by lia.
  pose proof (Z.mod_pos_bound a (2 ^ 12)). lia.
Qed.

(** The echo of a request is recognised. *)
Lemma echo_valid4 p b hdr cks ts q more :
  ip_header hdr → length cks = 2%nat → length (cookie p) = 8%nat → Z.of_nat (index p) < 2 ^ 32 →
  table b !! index p = Some (Some (self p)) → 4 ≤ zlen more →
  valid4 p b (hdr ++ icmp_msg ICMP_ECHOREPLY cks (Z.land 0x0fff (pid b)) q
                       (evdata_bytes ts (Z.of_nat (index p)) (cookie p) ++ more)) = true.
Proof.
  intros Hh Hc Hck Hi Ht Hm. unfold valid4. rewrite ip_header_hlen by done.
  rewrite msg_length, msg_id by done. rewrite le16_value. destruct (land_small (pid b)) as [Hl1 Hl2].
  rewrite Z.mod_small, Hl2, Z.eqb_refl by done.
  unfold ours. rewrite msg_index, Nat2Z.id, Ht, Nat.eqb_refl by (done || lia). rewrite msg_cookie by done.
  destruct Hh as [Hh _]. rewrite bool_decide_eq_true_2 by done.
  rewrite (proj2 (Z.leb_le _ _)), (proj2 (Z.leb_le _ _)) by lia. done.
Qed.

(** ** A measurement over IPv4 *)

(** A packet is sent; the host answers with an echo behind a header, or not. *)
Record round := R { r_env : env; r_reply : option (env * list Z * list Z) }.

Definition last_sent (s : ping) : list Z :=
  match last (acts s) with Some (Sent _ q) => q | _ => [] end.

(** Each packet is answered or not, then the timer fires; [e_end] is the system when
    the timer fires for the last time. *)
Fixpoint play (p : params) (rs : list round) (e_end : env) : PM unit :=
  match rs with
  | [] => mret tt
  | r :: rs' =>
      s ← get;
      match r_reply r with
      | Some (e, hdr, cks) => ready_callback4 p e (Some (echo ICMP_ECHOREPLY hdr cks (last_sent s)))
      | None => mret tt
      end;;
      noreply_callback p (match rs' with r' :: _ => r_env r' | [] => e_end end);;
      play p rs' e_end
  end.

(** What is printed about the packets: a reply with its time, exactly; a star for
    a packet that is lost before the first reply, nothing for one that is lost
    later.  The TTL is printed in the first reply when packets were lost before. *)
Definition nsecs (a b : timespec) : Z := (tv_sec b - tv_sec a) * 1000000000 + (tv_nsec b - tv_nsec a).
Definition reply_entry (ttl_ : Z) (late : bool) (sent received : timespec) : list Z :=
  str "{ " ++ DBQ "rtt" ++ str ":" ++ print_millionths (nsecs sent received) ++
  (if late && negb (ttl_ =? 255) then str ", " ++ DBQ "ttl" ++ str ":" ++ print_int ttl_ else []) ++ str " }".
Definition lost_entry : list Z := str "{ " ++ DBQ "x" ++ str ":" ++ DBQ "*" ++ str " }".

Fixpoint entries (ttl_ : Z) (got lost : bool) (rs : list round) : list (list Z) :=
  match rs with
  | [] => []
  | r :: rs' =>
      match r_reply r with
      | Some (e, _, _) => reply_entry ttl_ (lost && negb got) (xmit_now (r_env r)) (now e) :: entries ttl_ true lost rs'
      | None => if got then entries ttl_ got lost rs' else lost_entry :: entries ttl_ false true rs'
      end
  end.

(** The elements of a JSON array. *)
Definition join_entries (es : list (list Z)) : list Z :=
  match es with [] => [] | x :: es' => x ++ mjoin ((λ y, str ", " ++ y) <$> es') end.

Lemma join_snoc es x :
  join_entries (es ++ [x]) = join_entries es ++ (if bool_decide (es = []) then [] else str ", ") ++ x.
Proof.
  destruct es as [|y es]; [cbn; by rewrite app_nil_r|]. rewrite bool_decide_eq_false_2 by done.
  unfold join_entries. cbn [app]. rewrite fmap_app, join_app. cbn [fmap list_fmap mjoin list_join].
  by rewrite app_nil_r, <- app_assoc.
Qed.

(** ** Texts without NUL *)

Lemma nonul_reply_entry t l a b : 0 ≤ nsecs a b → nonul (reply_entry t l a b).
Proof. intros H. unfold reply_entry. nonuls. Qed.
Lemma nonul_lost_entry : nonul lost_entry.
Proof. unfold lost_entry. nonuls. Qed.

(** An entry is a text that is not empty. *)
Definition good_entry (x : list Z) : Prop := x ≠ [] ∧ nonul x.
Lemma good_reply_entry t l a b : 0 ≤ nsecs a b → good_entry (reply_entry t l a b).
Proof. intros H. split; [done|by apply nonul_reply_entry]. Qed.
Lemma good_lost_entry : good_entry lost_entry.
Proof. split; [done|apply nonul_lost_entry]. Qed.
Lemma nonul_join es : Forall good_entry es → nonul (join_entries es).
Proof.
  destruct 1 as [|x es [_ Hx] Hes]; [constructor|]. cbn [join_entries]. apply nonul_app; [done|].
  induction Hes as [|y es [_ Hy] _ IH]; [constructor|]. rewrite join_cons. apply nonul_app; [|done].
  apply nonul_app; [by apply nonul_str|done].
Qed.
Lemma join_ne es : Forall good_entry es → es ≠ [] → join_entries es ≠ [].
Proof. destruct 1 as [|x es [Hx _] _]; [done|]. intros _ E. by apply app_eq_nil in E as [E _]. Qed.

(** ** Exact round-trip times *)


Lemma rtt_text ts now rtt :
  sane_time now → sane_time ts → 0 ≤ nsecs ts now < 2 ^ 50 → elapsed now ts = Done rtt →
  msecs (tv_sec rtt) (tv_nsec rtt) = print_millionths (nsecs ts now).
Proof.
  intros H1 H2 H3 E. pose proof (elapsed_total _ _ _ E) as Ht. pose proof (elapsed_nsec _ _ _ H1 H2 E).
  unfold nsecs in *. rewrite msecs_exact by lia. f_equal. lia.
Qed.

(** Short lines are not cut. *)
Lemma line256_short l : (length l ≤ 255)%nat → line256 l = l.
Proof. intros H. unfold line256. by apply take_ge. Qed.
Lemma rtt_line n : 0 ≤ n < 2 ^ 50 →
  line256 (DBQ "rtt" ++ str ":" ++ print_millionths n) = DBQ "rtt" ++ str ":" ++ print_millionths n.
Proof.
  intros Hn. apply line256_short. rewrite !length_app. change (length (DBQ "rtt")) with 5%nat.
  change (length (str ":")) with 1%nat. pose proof (length_scaled 6 16 n ltac:(lia)). lia.
Qed.
Lemma ttl_line t : 0 ≤ t < 256 →
  line256 (str ", " ++ DBQ "ttl" ++ str ":" ++ print_int t) = str ", " ++ DBQ "ttl" ++ str ":" ++ print_int t.
Proof.
  intros Ht. apply line256_short. unfold print_int, print_dec. rewrite (proj2 (Z.ltb_ge _ _)) by lia.
  rewrite !length_app. pose proof (length_dec 20 3 t ltac:(lia)). change (length (DBQ "ttl")) with 5%nat.
  change (length (str ":")) with 1%nat. change (length (str ", ")) with 2%nat. lia.
Qed.

(** ** The rounds of a measurement *)

Lemma clamp_idem x : clamp_size 8 (clamp_size 8 x) = clamp_size 8 x.
Proof.
  pose proof (clamp_bounds x). unfold clamp_size at 1. unfold MAX_DATA_SIZE, sizeof_evdata, IPHDR.
  rewrite (proj2 (Z.ltb_ge (clamp_size 8 x) 32)) by lia. by rewrite (proj2 (Z.ltb_ge _ _)) by lia.
Qed.

Section Measure.
Context (p : params) (PID T : Z) (d : sockaddr) (nh : sockaddr → Z → list Z) (L : list Z) (acts0 : list action).
Context (Hck : length (cookie p) = 8%nat) (Hidx : Z.of_nat (index p) < 2 ^ 32) (Hcount : 1 ≤ pingcount p < 2 ^ 31).
Context (HT : 0 ≤ T < 256) (Hd : is_inet6 d = false) (Hmax : maxsize p ≤ 4048).

Let csize : Z := clamp_size 8 (maxsize p).

(** The packet is sent, from a local address that prints as [L]. *)
Definition send_ok (e : env) : Prop :=
  0 < sendto e ∧ sane_time (xmit_now e) ∧ ∃ la n, sockname e = Some (la, n) ∧ nh la n = L.
(** The reply has a plain header, the TTL [T], the same local address and comes
    within 2^50 nanoseconds. *)
Definition reply_ok (r : round) (e : env) (hdr cks : list Z) : Prop :=
  numeric_host e = nh ∧ ip_header hdr ∧ zlen hdr = 20 ∧ length cks = 2%nat ∧
  le_value (field hdr 8 1) = T ∧ nh (AF_INET (be_value (field hdr 16 4))) sizeof_sockaddr_in = L ∧
  sane_time (now e) ∧ 0 ≤ nsecs (xmit_now (r_env r)) (now e) < 2 ^ 50.
Definition round_ok (r : round) : Prop :=
  send_ok (r_env r) ∧ ∀ e hdr cks, r_reply r = Some (e, hdr, cks) → reply_ok r e hdr cks.

(** [k] packets were sent, [es] is printed; [got] a reply came, [lost] a packet
    was reported lost. *)
Record waiting (got lost : bool) (es : list (list Z)) (k : Z) (s : ping) : Prop := Waiting {
  wa_packet : packet_ok s;
  wa_base : pid (base s) = PID ∧ table (base s) !! index p = Some (Some (self p));
  wa_flags : busy (se s) = true ∧ event_is_init (nw s) = true ∧ send_error (se s) = false ∧
             got_reply (se s) = got ∧ first (se s) = bool_decide (es = []);
  wa_text : holds (rb s) (join_entries es) ∧ Forall good_entry es ∧ (got || lost) = negb (bool_decide (es = []));
  wa_pkts : maxpkts (se s) = pingcount p ∧ sentpkts (se s) = k ∧ 0 ≤ k ∧ 0 ≤ seq (se s) < 256;
  wa_size : clamp_size 8 (cursize (se s)) = csize ∧ (es ≠ [] → size (lr s) = u32 csize ∧ cursize (se s) = csize);
  wa_ttl : (got = true → ttl (lr s) = T) ∧ (got = false → lost = true → ttl (lr s) = 255);
  wa_addr : sin6 (nw s) = d ∧ nh (loc_sin6 (nw s)) (loc_socklen (nw s)) = L;
  wa_acts : ∃ reqs, acts s = acts0 ++ (Sent d <$> reqs) ∧ zlen reqs = k
}.

Definition request_in (e : env) (s : ping) : list Z :=
  request false PID (seq (se s))
    (user_data csize (xmit_now e) (Z.of_nat (index p)) (cookie p) (include_probe_id p) (probe_id e)).

(** The last request is on its way. *)
Definition running (r : round) (got lost : bool) (es : list (list Z)) (k : Z) (s : ping) : Prop :=
  waiting got lost es k s ∧ cursize (se s) = csize ∧ last_sent s = request_in (r_env r) s.

Lemma xmit_step r got lost es k s :
  waiting got lost es k s → k < pingcount p → send_ok (r_env r) →
  wp (ping_xmit p (r_env r)) (λ _ s', running r got lost es (k + 1) s') s.
Proof.
  intros [] Hk (Hsend & Hx & la & n & Hsn & HL). unfold ping_xmit. wp_steps.
  destruct wa_pkts0 as (Em & Es & Hk0 & Hsq). rewrite Em, Es, small_u64 by lia.
  rewrite (proj2 (Z.leb_gt _ _)) by done. wp_steps. apply wp_send_request; [done|done|]. intros l Hl. wp_steps.
  rewrite (proj2 (Z.ltb_lt _ _)) by done. wp_steps.
  assert (request_of p (r_env r) s = request_in (r_env r) s) as Eq.
  { unfold request_of, request_in. destruct wa_addr0 as [-> _], wa_base0 as [-> _], wa_size0 as [-> _]. by rewrite Hd. }
  unfold requested, named. rewrite Hsn, Eq. set (q := request_in _ _) in *.
  assert (u64 (sentpkts (se s) + 1) = k + 1) as Eu by (unfold u64; rewrite Es; apply Z.mod_small; lia).
  destruct wa_acts0 as (reqs & Ea & Hreqs), wa_addr0 as [Ed _], wa_size0 as [Ec Ez].
  split; [|split].
  - destruct wa_base0. clear Eq. clearbody q. fields s. cbn in *. subst.
    constructor; psimpl; try done.
    + by exists l.
    + split; [done|]. split; [exact Eu|]. lia.
    + rewrite clamp_idem, Ec. split; [done|]. intros Hne. destruct (Ez Hne). done.
    + exists (reqs ++ [q]). rewrite fmap_app, zlen_app. split; [by rewrite app_assoc|]. done.
  - exact Ec.
  - transitivity q; [|by destruct s as [? ? [] ? ? ?]]. clear Eq. clearbody q. fields s. unfold last_sent. psimpl.
    by rewrite last_snoc.
Qed.

Lemma csize_bounds : 32 ≤ csize ≤ 4048.
Proof.
  pose proof (clamp_bounds (maxsize p)). unfold csize in *. split; [lia|]. unfold clamp_size, MAX_DATA_SIZE, sizeof_evdata, IPHDR in *.
  destruct (Z.ltb_spec (maxsize p) 32); destruct (Z.ltb_spec (4096 - 20 - 8) (if maxsize p <? 32 then 32 else maxsize p));
    repeat case_match; lia.
Qed.

(** What is added for a reply that is not a duplicate. *)
Lemma reply_text_entry r got lost es k s e loc n rtt l :
  waiting got lost es k s → numeric_host e = nh → nh loc n = L →
  msecs (tv_sec rtt) (tv_nsec rtt) = print_millionths (nsecs (xmit_now (r_env r)) (now e)) →
  0 ≤ nsecs (xmit_now (r_env r)) (now e) < 2 ^ 50 →
  reply_text e (seen csize (csize + 28) T (set_rcvd_ttl T (set_packet l s))) false csize loc n T rtt =
  (if bool_decide (es = []) then [] else str ", ") ++
  reply_entry T (lost && negb got) (xmit_now (r_env r)) (now e).
Proof.
  intros [] Hnh Hloc Hrtt Hns. unfold reply_text, reply_entry. rewrite Hrtt, Hnh, rtt_line, ttl_line by done.
  rewrite Hloc. unfold seen, sep.
  destruct wa_flags0 as (_ & _ & _ & Eg & Ef), wa_addr0 as [_ EL], wa_size0 as [_ Ez], wa_ttl0 as [Et1 Et2],
    wa_text0 as (_ & _ & Ees). fields s. cbn in Eg, Ef, EL, Ez, Et1, Et2. subst got0 fi0.
  assert (u8 T = T) as Hu by (unfold u8; apply Z.mod_small; lia).
  destruct (bool_decide_reflect (es = [])) as [He|He]; psimpl; rewrite EL;
    rewrite (bool_decide_eq_true_2 ((if (_ : bool) then L else L) = L)) by (by destruct (_ && _)).
  - rewrite Hu, !Z.eqb_refl. cbn [negb]. destruct got, lost; done.
  - destruct (Ez He) as [-> _]. rewrite Z.eqb_refl. cbn [negb].
    destruct got; [rewrite (Et1 eq_refl), Z.eqb_refl; cbn [negb]; rewrite andb_false_r; done|].
    destruct lost; [|done]. rewrite (Et2 eq_refl eq_refl), (Z.eqb_sym 255 T). cbn [andb negb].
    by destruct (T =? 255).
Qed.

Lemma replied_waiting got lost es k s e loc n x r l :
  waiting got lost es k s → cursize (se s) = csize → numeric_host e = nh → nh loc n = L →
  holds r (join_entries (es ++ [x])) → good_entry x → length l = 4076%nat →
  let s' := upd_rb r (after_reply e (seen csize (csize + 28) T (set_rcvd_ttl T (set_packet (Some <$> l) s)))
                        false csize (csize + 28) loc n T) in
  waiting true lost (es ++ [x]) k (set_seq ((seq (se s') + 1) `mod` 256) (set_got_reply true s')).
Proof.
  intros [] Hcs Hnh Hloc Hr Hx Hl. unfold after_reply. rewrite Hnh, Hloc.
  destruct wa_flags0 as (? & ? & ? & ? & ?), wa_base0, wa_text0 as (? & ? & ?), wa_pkts0 as (? & ? & ? & ?),
    wa_size0 as [? ?], wa_addr0 as [? EL], wa_acts0 as (reqs & ? & ?).
  fields s. cbn in *. subst. unfold seen.
  assert (bool_decide (es ++ [x] = []) = false) as Hne by (apply bool_decide_eq_false_2; by destruct es).
  destruct (bool_decide (es = [])); psimpl; rewrite EL, (bool_decide_eq_true_2 (L = L)), orb_true_r, !app_nil_r by done;
    constructor; psimpl; rewrite ?Hne, ?orb_true_l; try done;
    try (by exists l); try (split; [done|]; split; [|done]; apply Forall_app; auto);
    try (split; [done|]; split; [done|]; split; [done|]; apply Z.mod_pos_bound; lia);
    try (split; [done|]; by destruct (negb got && _)); try (by exists reqs).
Qed.

Lemma reply_step r got lost es k s e hdr cks :
  running r got lost es k s → send_ok (r_env r) → reply_ok r e hdr cks →
  wp (ready_callback4 p e (Some (echo ICMP_ECHOREPLY hdr cks (last_sent s))))
     (λ _ s', waiting true lost (es ++ [reply_entry T (lost && negb got) (xmit_now (r_env r)) (now e)]) k s') s.
Proof.
  intros (Hw & Hcs & Hq) (_ & Hx & _) (Hnh & Hhdr & Hh20 & Hcks & Httl & Hloc & Hnow & Hns).
  pose proof csize_bounds as Hcb. rewrite Hq. unfold request_in, request. rewrite echo_msg by done.
  unfold user_data. set (more := replicate 4 0 ++ _). set (data := hdr ++ _).
  assert (zlen more = csize - 28) as Hmore.
  { unfold more, zlen. rewrite !length_app, !length_replicate.
    pose proof (length_id_text csize (include_probe_id p) (probe_id (r_env r))). unfold sizeof_evdata. lia. }
  destruct (wa_base _ _ _ _ _ Hw) as [Hpid Htab].
  assert (valid4 p (base s) data = true) as Hv.
  { unfold data. rewrite <- Hpid. apply echo_valid4; auto. lia. }
  assert (zlen data = csize + 28) as Hlen by (unfold data; rewrite msg_length by done; lia).
  assert (ip_hlen data = 20) as Hhl by (unfold data; rewrite ip_header_hlen by done; done).
  apply wp_ready4; [apply Hw|lia|]. intros l Hl. cbv zeta. rewrite Hv, Hhl, <- Hh20.
  replace (field data (zlen hdr) 1) with [ICMP_ECHOREPLY] by (symmetry; apply msg_type).
  split; [by intros [|]|]. split; [|by intros _ _ []]. intros _ _.
  replace (stamp data (zlen hdr + 8)) with (xmit_now (r_env r))
    by (symmetry; destruct Hx; apply msg_stamp; lia).
  destruct (elapsed_sane (now e) (xmit_now (r_env r)) Hnow Hx) as (rtt & Ertt). exists rtt. split; [done|].
  replace (field data (zlen hdr + 6) 2) with (be16 (seq (se s))) by (symmetry; by apply msg_seq).
  rewrite be16_value_of by (destruct (wa_pkts _ _ _ _ _ Hw); lia).
  unfold on_reply4. cbv zeta.
  replace (field data 8 1) with (field hdr 8 1) by (unfold data; rewrite field_app by lia; done).
  replace (field data 16 4) with (field hdr 16 4) by (unfold data; rewrite field_app by lia; done).
  clearbody data more. rewrite Httl, Hlen. replace (csize + 28 - 28) with csize by lia.
  change (seq (se (set_packet _ s))) with (seq (se s)). rewrite Z.eqb_refl. cbn [negb]. wp_steps.
  destruct (wa_flags _ _ _ _ _ Hw) as (Hb & Hei & Hse & Hg & Hf). destruct (wa_text _ _ _ _ _ Hw) as (Ht & Hnn & Hes).
  eapply (wp_ping_cb_reply p e _ false); [exact Hb|exact Ht|done|]. intros rr Hr. unfold bump_seq. wp_steps.
  rewrite (reply_text_entry r got lost es k) in Hr by (done || by apply rtt_text).
  set (x := reply_entry _ _ _ _) in *. assert (good_entry x) as Hx' by (apply good_reply_entry; lia).
  rewrite <- join_snoc in Hr. clearbody x. exact (replied_waiting got lost es k s e _ _ _ rr l Hw Hcs Hnh Hloc Hr Hx' Hl).
Qed.

(** A packet was not answered and there was no reply before. *)
Lemma lost_step lost es k s e (Q : () → ping → Prop) :
  waiting false lost es k s → cursize (se s) = csize →
  (∀ s', waiting false true (es ++ [lost_entry]) k s' → cursize (se s') = csize → wp (ping_xmit p e) Q s') →
  wp (noreply_callback p e) Q s.
Proof.
  intros Hw Hcs HQ. pose proof csize_bounds as Hcb. unfold noreply_callback. wp_steps.
  destruct (wa_flags _ _ _ _ _ Hw) as (Hb & Hei & Hse & Hg & Hf). destruct (wa_text _ _ _ _ _ Hw) as (Ht & Hnn & Hes).
  rewrite Hg, Hse. cbn [negb andb]. wp_steps. rewrite Hcs.
  eapply wp_ping_cb_failure; [by left|exact Hb|exact Ht|]. intros r Hr. wp_steps.
  replace (failure_text e s PING_ERR_TIMEOUT (seq (se s)))
    with ((if bool_decide (es = []) then [] else str ", ") ++ lost_entry) in Hr.
  2:{ unfold failure_text, sep. rewrite Hf. by destruct (bool_decide (es = [])). }
  rewrite <- join_snoc in Hr.
  assert (u32 (s32 csize) = u32 csize) as Hu.
  { unfold s32. rewrite (Z.mod_small (csize + 2 ^ 31)) by lia. f_equal. lia. }
  destruct Hw, wa_base0, wa_pkts0 as (? & ? & ? & ?), wa_size0 as [? Hsz], wa_addr0 as [? ?], wa_acts0 as (reqs & ? & ?),
    wa_ttl0 as [_ Htt].
  assert (bool_decide (es ++ [lost_entry] = []) = false) as Hne by (apply bool_decide_eq_false_2; by destruct es).
  pose proof good_lost_entry as Hx. set (x := lost_entry) in *. clearbody x.
  apply HQ; unfold seen; fields s; cbn in *; subst; [|by destruct (bool_decide (es = []))].
  destruct (bool_decide_reflect (es = [])) as [He|He]; constructor; psimpl; rewrite ?Hne; try done;
    try (split; [done|]; split; [|done]; apply Forall_app; auto);
    try (split; [done|]; split; [done|]; split; [done|]; apply Z.mod_pos_bound; lia); try (by exists reqs).
  all: split; [done|]; intros _; first [split; [exact Hu|done]|split; [by apply Hsz|done]|intros _; by apply Htt].
Qed.

(** A reply was got before: a packet that is not answered leaves no trace. *)
Lemma silent_step lost es k s e (Q : () → ping → Prop) :
  waiting true lost es k s → wp (ping_xmit p e) Q s → wp (noreply_callback p e) Q s.
Proof.
  intros Hw HQ. unfold noreply_callback. wp_steps. destruct (wa_flags _ _ _ _ _ Hw) as (_ & _ & _ & Hg & _).
  rewrite Hg. cbn [negb andb]. wp_steps. exact HQ.
Qed.

(** The line is printed. *)
Definition final (e : env) (got : bool) (es : list (list Z)) (s' : ping) : Prop :=
  busy (se s') = false ∧
  ∃ sf reqs,
    acts s' = acts0 ++ (Sent d <$> reqs) ++ Output (report_text p e sf (join_entries es)) ::
              (if has_done p then [DoneCb (negb got)] else []) ∧
    zlen reqs = pingcount p ∧
    got_reply (se sf) = got ∧ size (lr sf) = u32 csize ∧ (got = true → ttl (lr sf) = T) ∧
    sin6 (nw sf) = d ∧ nh (loc_sin6 (nw sf)) (loc_socklen (nw sf)) = L.

Lemma done_step got lost es s e :
  waiting got lost es (pingcount p) s → es ≠ [] → can_append p e →
  wp (ping_xmit p e) (λ _ s', final e got es s') s.
Proof.
  intros Hw Hne Ha. unfold ping_xmit. wp_steps. destruct (wa_pkts _ _ _ _ _ Hw) as (Em & Es & _).
  rewrite Em, Es, small_u64, Z.leb_refl by lia. wp_steps.
  destruct (wa_flags _ _ _ _ _ Hw) as (Hb & Hei & Hse & Hg & Hf). destruct (wa_text _ _ _ _ _ Hw) as (Ht & Hnn & Hes).
  eapply wp_ping_cb_done; [done|exact Hb|exact Ht|by apply join_ne|]. wp_steps. rewrite Hg.
  destruct (wa_size _ _ _ _ _ Hw) as [_ Hsz], (wa_ttl _ _ _ _ _ Hw) as [Htt _], (wa_addr _ _ _ _ _ Hw) as [Hsa HL],
    (wa_acts _ _ _ _ _ Hw) as (reqs & Hacts & Hreqs). specialize (Hsz Hne) as [Hsz _].
  rewrite (bool_decide_eq_false_2 _ Hne) in Hf. unfold seen. rewrite Hf. unfold reported.
  rewrite cstr_nonul by (by apply nonul_join). set (sf := set_error _ s). set (text := report_text _ _ _ _).
  assert (final e got es (set_dns_res false (set_busy false (set_socket false (set_event false (set_result None
            (set_acts (acts s ++ Output text :: if has_done p then [DoneCb (negb got)] else []) sf))))))) as Hfin.
  { split; [done|]. exists sf, reqs. cbn [acts set_dns_res set_busy set_socket set_event set_result set_acts].
    rewrite Hacts, <- app_assoc. auto 10. }
  change (event_is_init (nw sf)) with (event_is_init (nw s)). rewrite Hei.
  unfold call_done, act. destruct (has_done p); wp_steps; [|exact Hfin].
  revert Hfin. clearbody text. unfold sf. fields s. psimpl. rewrite <- app_assoc. done.
Qed.

Definition replied (rs : list round) : bool := existsb (λ r, bool_decide (is_Some (r_reply r))) rs.
Definition next_env (rs : list round) (e_end : env) : env := match rs with r :: _ => r_env r | [] => e_end end.

(** The rest of the measurement, from a timer on. *)
Definition completes (rs : list round) (e_end : env) : Prop :=
  ∀ got lost es k s, waiting got lost es k s → es ≠ [] → k + zlen rs = pingcount p →
    wp (ping_xmit p (next_env rs e_end))
       (λ _, wp (play p rs e_end) (λ _ s', final e_end (got || replied rs) (es ++ entries T got lost rs) s')) s.

Lemma round_step r rs e_end got lost es k s :
  running r got lost es k s → round_ok r → completes rs e_end → k + zlen rs = pingcount p →
  wp (play p (r :: rs) e_end) (λ _ s', final e_end (got || replied (r :: rs)) (es ++ entries T got lost (r :: rs)) s') s.
Proof.
  intros Hr [Hsend Hrep] Hnext Hk. cbn [play entries]. wp_steps. fold (next_env rs e_end).
  unfold replied. cbn [existsb]. fold (replied rs).
  destruct (r_reply r) as [[[e hdr] cks]|].
  - eapply wp_mono; [eapply reply_step; [exact Hr|done|by apply Hrep]|]. cbv beta. intros _ s1 Hw1. wp_steps.
    apply (silent_step lost _ k s1 _ _ Hw1). rewrite bool_decide_eq_true_2 by done. rewrite orb_true_r.
    eapply wp_mono; [apply (Hnext _ _ _ _ _ Hw1); [by destruct es|done]|]. cbv beta. intros _ s2 H2.
    by rewrite <- app_assoc in H2.
  - rewrite bool_decide_eq_false_2 by (by intros []). cbn [orb]. wp_steps.
    destruct Hr as (Hw & Hcs & _). destruct got.
    + apply (silent_step lost _ k s _ _ Hw). apply (Hnext _ _ _ _ _ Hw); [|done].
      destruct (wa_text _ _ _ _ _ Hw) as (_ & _ & E). by destruct es.
    + eapply (lost_step lost); [done|done|]. intros s1 Hw1 _.
      eapply wp_mono; [apply (Hnext _ _ _ _ _ Hw1); [by destruct es|done]|]. cbv beta. intros _ s2 H2.
      by rewrite <- app_assoc in H2.
Qed.

Lemma all_complete rs e_end : Forall round_ok rs → can_append p e_end → completes rs e_end.
Proof.
  intros Hrs Ha. induction Hrs as [|r rs Hr Hrs IH]; intros got lost es k s Hw Hne Hk.
  - rewrite zlen_nil, Z.add_0_r in Hk. subst k. eapply wp_mono; [by eapply done_step|]. cbv beta. intros _ s' Hf.
    cbn [play entries]. wp_steps. by rewrite orb_false_r, app_nil_r.
  - rewrite zlen_cons in Hk. pose proof (zlen_nonneg rs). cbn [next_env].
    eapply wp_mono; [apply xmit_step; [exact Hw|lia|apply Hr]|]. cbv beta. intros _ s' Hrun.
    apply (round_step r rs e_end got lost es (k + 1) s'); auto. lia.
Qed.
End Measure.
