(* ===== verification/PingMain.v ===== *)
(** * Ping: theorems *)

From stdpp Require Import base list list_numbers numbers option strings.
From Stdlib Require Import ZArith Lia.
From S2P Require Import Prelude Bits Blocks Cstr Packet Double Wp Validate Results Ping PingProofs PingRun PingLife PingMeasure.

Open Scope Z_scope.

(** ** Safety *)


(** A sequence of callbacks. *)
Inductive steps (p : params) : ping → list (event_t * env) → ping → Prop :=
| steps_nil s : steps p s [] s
| steps_cons s ev e s1 tr s' :
    enabled p ev e s → handle p ev e s = Done (tt, s1) → steps p s1 tr s' → steps p s ((ev, e) :: tr) s'.

Definition no_start (tr : list (event_t * env)) : Prop := Forall (λ x, x.1 ≠ Start) tr.
(** How often the timer fired. *)
Definition is_timer (ev : event_t) : bool := match ev with Timer => true | _ => false end.
Definition timeouts (tr : list (event_t * env)) : Z := zlen (filter (λ x, is_timer x.1 = true) tr).

Lemma timeouts_cons ev e tr :
  timeouts ((ev, e) :: tr) = (if is_timer ev then 1 else 0) + timeouts tr.
Proof. unfold timeouts. rewrite filter_cons. cbn. destruct (is_timer ev); [rewrite decide_True by done|rewrite decide_False by done];
    rewrite ?zlen_cons; lia. Qed.

(** A measurement that is over stays over; a timer that was left set does nothing. *)
Lemma over_steps p s tr s' :
  params_ok p → inv p s → busy (se s) = false → sentpkts (se s) = pingcount p → no_start tr → steps p s tr s' →
  busy (se s') = false ∧ outputs (acts s') = outputs (acts s).
Proof.
  intros Hp Hi Hb Hs Hn Htr. induction Htr as [|s ev e s1 tr s' Hen Hh _ IH]; [done|].
  apply Forall_cons in Hn as [Hns Hn]. cbn in Hns.
  assert (event (nw s) = false) as Hev by (destruct (event (nw s)) eqn:E; [by destruct (inv_event _ _ Hi E); congruence|done]).
  destruct ev as [|err res| |recv|recv]; [done| | | |].
  2:{ pose proof (timer_event_inv p Hp e s Hen Hi) as H. unfold wp in H. rewrite Hh in H.
      destruct H as [Hi1 [(_ & _ & H1 & _)|(H1 & _ & H2 & _ & H3)]]; [destruct Hi1; lia|].
      rewrite Hb, Nat.add_0_r in H3. rewrite <- H3. apply IH; [done|done|congruence|done]. }
  2,3: destruct Hen as (_ & H & _); congruence.
  assert (dnsip (se s) = false) as Hd by (destruct (dnsip (se s)) eqn:E; [pose proof (inv_dns _ _ Hi E); congruence|done]).
  cbn [handle] in Hh. assert (wp (dns_cb p e err res) (λ _ s2, s2 = s) s) as H by (unfold dns_cb; wp_steps; by rewrite Hd).
  unfold wp in H. rewrite Hh in H. subst s1. by apply IH.
Qed.

(** C33: A measurement that is sending ends, in whatever order packets arrive and the timer
    fires: either it is over and has printed its line, or the socket is watched, its timer is set and has fired
    at most as often as there are packets left to send. *)
Theorem ping_ends p s tr s' :
  params_ok p → reachable p s → event (nw s) = true → no_start tr → steps p s tr s' →
  (busy (se s') = false ∧ outputs (acts s') = (outputs (acts s) + 1)%nat) ∨
  (busy (se s') = true ∧ event (nw s') = true ∧ ping_timer (nw s') ≠ None ∧ outputs (acts s') = outputs (acts s) ∧
   timeouts tr ≤ pingcount p - sentpkts (se s)).
Proof.
  intros Hp Hr Hev Hn Htr. destruct (reachable_inv p Hp s Hr) as [Hi Ha]. clear Hr.
  induction Htr as [s|s ev e s1 tr s' Hen Hh Htr IH].
  { right. change (timeouts []) with 0. destruct (inv_event _ _ Hi Hev), (inv_sent _ _ Hi). split_and!; try done; [by apply Ha|lia]. }
  apply Forall_cons in Hn as [Hns Hn]. cbn in Hns. destruct (inv_event _ _ Hi Hev) as (Hb & _).
  pose proof (sending_step p Hp ev e s Hen Hns Hi Hev) as H. unfold wp in H. rewrite Hh in H. destruct H as [Hi1 Hmv].
  assert (armed s1) as Ha1 by (eapply moved_armed; [exact Ha|exact Hi1|tauto]). rewrite timeouts_cons.
  destruct Hmv as [[Hnt (_ & He1 & Hs1 & _ & Ho1 & _)]|[(_ & He1 & Hs1 & Ho1 & _)|(Hb1 & _ & Hs1 & Hm & Ho1)]].
  - assert (is_timer ev = false) as -> by (by destruct ev). rewrite <- Hs1, <- Ho1. apply IH; [congruence|done|done|done].
  - destruct IH as [|(? & ? & ? & ? & ?)]; [congruence|done|done|done|left; by rewrite <- Ho1|].
    right. split_and!; try done; [congruence|]. destruct (is_timer ev); lia.
  - left. rewrite Hb in Ho1. rewrite <- Ho1. eapply over_steps; try done.
    destruct (inv_max _ _ Hi) as [_ Hmx]. specialize (Hmx Hb). destruct (inv_sent _ _ Hi). lia.
Qed.

(** ** A whole measurement *)

(** The first packet goes out. *)
Lemma start_running p r rs d dlen nh L T e_end s :
  length (cookie p) = 8%nat → Z.of_nat (index p) < 2 ^ 32 → 1 ≤ pingcount p < 2 ^ 31 → 0 ≤ T < 256 →
  maxsize p ≤ 4048 → is_inet6 d = false →
  Forall (round_ok T nh L) (r :: rs) → zlen (r :: rs) = pingcount p → can_append p e_end →
  socket_ok (r_env r) = true → bind_ok (r_env r) = true → connect_ok (r_env r) = true →
  packet_ok s → table (base s) !! index p = Some (Some (self p)) →
  busy (se s) = true → holds (rb s) [] → first (se s) = true → maxpkts (se s) = pingcount p → 0 ≤ seq (se s) < 256 →
  wp (ping_start2 p (r_env r)) (λ _, wp (play p (r :: rs) e_end) (λ _ s',
        final p T d nh L (acts s) e_end (replied (r :: rs)) (entries T false false (r :: rs)) s'))
     (set_sin6 d (set_socklen dlen s)).
Proof.
  intros Hck Hidx Hcount HT Hmax Hd Hrs Hlen Ha Hso Hbi Hco Hpk Htab Hb Ht Hf Hmx Hsq.
  apply Forall_cons in Hrs as [Hr Hrs]. pose proof Hr as [(Hsend & Hx & la & n & Hsn & HL) _].
  unfold ping_start2. wp_steps. rewrite Hso. cbn [negb]. wp_steps. rewrite Hbi, andb_false_r. rewrite Hco. cbn [negb].
  wp_steps. unfold get_sockname. wp_steps. rewrite Hsn. wp_steps.
  rewrite zlen_cons in Hlen. pose proof (zlen_nonneg rs).
  eapply wp_mono; [eapply (xmit_step p (pid (base s)) T d nh L (acts s) Hck Hcount Hd r false false [] 0)|].
  - fields s. cbn in *. subst.
    constructor; psimpl; try done. exists []. split; [by rewrite app_nil_r|done].
  - lia.
  - apply Hr.
  - cbv beta. intros _ s1 Hrun.
    apply (round_step p (pid (base s)) T d nh L (acts s) Hck Hidx HT Hmax r rs e_end false false [] (0 + 1) s1); try done; [|lia].
    by apply all_complete.
Qed.

(** C5: A measurement over IPv4 in which every packet is sent and answered or not: it
    sends [pingcount] packets and prints one line.  The array of results has, in
    order, the exact round-trip time of every reply, and a star for each packet
    that was lost before the first reply; the line has the address, the size and
    the TTL of the replies. *)
Theorem ping_measurement p e0 r rs d dlen nh L T e_end s0 :
  length (cookie p) = 8%nat → Z.of_nat (index p) < 2 ^ 32 → 1 ≤ pingcount p < 2 ^ 31 → 0 ≤ T < 256 →
  maxsize p ≤ 4048 → delay_name_res p = true → is_inet6 d = false → dlen ≤ sizeof_sockaddr_in6 →
  atlas_check_addr (unsafe (r_env r)) d dlen ≠ -1 →
  Forall (round_ok T nh L) (r :: rs) → zlen (r :: rs) = pingcount p → can_append p e_end →
  sane_time (now e0) → sane_time (now (r_env r)) →
  socket_ok (r_env r) = true → bind_ok (r_env r) = true → connect_ok (r_env r) = true →
  packet_ok s0 → table (base s0) !! index p = Some (Some (self p)) → busy (se s0) = false → 0 ≤ seq (se s0) < 256 →
  ∃ s', (ping_start p e0;; dns_cb p (r_env r) None [(d, dlen)];; play p (r :: rs) e_end) s0 = Done (tt, s') ∧
    final p T d nh L (acts s0 ++ [Resolve (hostname p)]) e_end (replied (r :: rs))
      (entries T false false (r :: rs)) s'.
Proof.
  intros Hck Hidx Hcount HT Hmax Hdn Hd Hdl Hchk Hrs Hlen Ha He0 He1 Hso Hbi Hco Hpk Htab Hb Hsq.
  enough (wp (ping_start p e0;; dns_cb p (r_env r) None [(d, dlen)];; play p (r :: rs) e_end)
            (λ _ s', final p T d nh L (acts s0 ++ [Resolve (hostname p)]) e_end (replied (r :: rs))
                       (entries T false false (r :: rs)) s') s0) as H.
  { apply wp_run in H as ([] & s' & E & H). eauto. }
  wp_steps. unfold ping_start. wp_steps. rewrite Hb, Hdn. cbn [negb]. wp_steps. unfold act. wp_steps.
  unfold dns_cb. wp_steps. cbn [dnsip se set_acts set_start_time set_dnsip negb]. wp_steps.
  destruct (elapsed_sane (now (r_env r)) (now e0) He1 He0) as (rtt & Ertt).
  eapply wp_lift; [exact Ertt|]. wp_steps. rewrite (proj2 (Z.ltb_ge _ _)) by done. wp_steps.
  rewrite (proj2 (Z.eqb_neq _ _)) by done.
  assert (s32 (pingcount p) = pingcount p) as Hs by (unfold s32; rewrite Z.mod_small; lia).
  apply (start_running p r rs d dlen nh L T e_end); try done. apply holds_fresh.
Qed.

(** ** Packets *)

(** A packet that is too short, or does not carry the identifier, the index and the
    cookie of the measurement, changes nothing but the receive buffer; and no
    packet is for two measurements. *)
Theorem ping_isolation p e data s :
  packet_ok s → zlen data ≤ 4076 →
  (valid4 p (base s) data = false →
     ∃ l : list Z, ready_callback4 p e (Some data) s = Done (tt, set_packet (Some <$> l) s)) ∧
  (valid6 p (base s) data = false →
     ∀ cmsgs, ∃ l : list Z, ready_callback6 p e (Some (data, cmsgs)) s = Done (tt, set_packet (Some <$> l) s)) ∧
  (∀ p', valid4 p (base s) data = true → valid4 p' (base s) data = true → self p = self p' ∧ cookie p = cookie p').
Proof.
  intros Hpk Hl. split; [|split].
  - intros Hv.
    assert (wp (ready_callback4 p e (Some data)) (λ _ s', ∃ l : list Z, s' = set_packet (Some <$> l) s) s) as H.
    { apply wp_ready4; [done|done|]. intros l _. rewrite Hv. split; [eauto|done]. }
    apply wp_run in H as ([] & s' & E & l & ->). eauto.
  - intros Hv cmsgs.
    assert (wp (ready_callback6 p e (Some (data, cmsgs))) (λ _ s', ∃ l : list Z, s' = set_packet (Some <$> l) s) s) as H.
    { apply wp_ready6; [done|done|]. intros l _. rewrite Hv. split; [eauto|done]. }
    apply wp_run in H as ([] & s' & E & l & ->). eauto.
  - intros p' H1 H2. unfold valid4, ours in H1, H2.
    apply andb_true_iff in H1 as [_ H1], H2 as [_ H2]. destruct (table (base s) !! _) as [[owner|]|]; [|done|done].
    apply andb_true_iff in H1 as [->%Nat.eqb_eq H1%bool_decide_eq_true_1], H2 as [H2%Nat.eqb_eq H3%bool_decide_eq_true_1].
    split; congruence.
Qed.

Lemma str_bytes s : Forall is_byte (str s).
Proof.
  induction s as [|c s IH]; cbn [bytes_of_string]; constructor; [|done]. unfold is_byte.
  pose proof (Ascii.N_ascii_bounded c). lia.
Qed.
Lemma dec_bytes n z : 0 ≤ z → Forall is_byte (dec_digits n z).
Proof.
  revert z. induction n as [|n IH]; intros z Hz; cbn [dec_digits]; [constructor|].
  destruct (Z.ltb_spec z 10); [repeat constructor; lia|].
  apply Forall_app. split; [apply IH, Z.div_pos; lia|]. repeat constructor; pose proof (Z.mod_pos_bound z 10); lia.
Qed.
Lemma user_data_bytes size ts idx ck incl pr :
  Forall is_byte ck → Forall is_byte (user_data size ts idx ck incl pr).
Proof.
  intros Hck. unfold user_data, evdata_bytes, id_text, probe_id_line, print_int, print_dec.
  assert (∀ n, Forall is_byte (replicate n 0)) as Hrep by (intros n; apply Forall_replicate; unfold is_byte; lia).
  repeat apply Forall_app_2; auto. destruct incl; [|constructor]. apply Forall_take, Forall_take, Forall_app_2; [apply str_bytes|].
  destruct (pr =? -1); [apply str_bytes|]. destruct (Z.ltb_spec pr 0); [constructor; [unfold is_byte; lia|]|]; apply dec_bytes; lia.
Qed.

(** [fmticmp4] writes an echo request whose checksum is right: the 16-bit sum of the
    message, checksum included, is zero.  The message has the size asked
    for, within the limits, and its data begins with time, index and cookie. *)
Theorem fmticmp4_checksum old sizep seq idx pid ck incl ts pr :
  length old = 4076%nat → length ck = 8%nat → Forall is_byte ck →
  ∃ msg, fmticmp4 (Some <$> old) sizep seq idx pid ck incl ts pr =
           Done (Some <$> (msg ++ drop (length msg) old), clamp_size 8 sizep) ∧
    mkcksum msg = 0 ∧ zlen msg = clamp_size 8 sizep + 8 ∧ 32 ≤ clamp_size 8 sizep ≤ 4068 ∧
    ∃ cks more, msg = [ICMP_ECHO; 0] ++ cks ++ le16 (Z.land 0xfff pid) ++ be16 seq ++ evdata_bytes ts idx ck ++ more.
Proof.
  intros Ho Hck Hcb. pose proof (clamp_bounds sizep) as Hb. set (size := clamp_size 8 sizep) in *.
  set (data := user_data size ts idx ck incl pr). set (id := Z.land 0xfff pid).
  assert (length data = Z.to_nat size) as Hd by (apply length_user_data; [lia|done]).
  exists (request false pid seq data). rewrite fmticmp4_packet by done. fold size. fold data.
  split; [|split; [|split; [|split; [done|]]]].
  - rewrite length_request, Hd. replace (8 + Z.to_nat size)%nat with (Z.to_nat (size + 8)) by lia. done.
  - unfold request, icmp_msg. fold id.
    set (rest := le16 id ++ be16 seq ++ data).
    assert (Forall is_byte rest) as Hr.
    { unfold rest. apply Forall_app_2; [auto|]. apply Forall_app_2; [auto|]. by apply user_data_bytes. }
    assert (zlen rest = size + 4) as Hl by (unfold rest, zlen; rewrite !length_app, Hd; cbn; lia).
    apply (mkcksum_inserted [ICMP_ECHO; 0] rest); [by exists 1%nat|unfold ICMP_ECHO; solve_bytes|done|rewrite Hl; change (zlen [ICMP_ECHO; 0]) with 2; lia|].
    rewrite sum16_app, sum16_app by (by exists 1%nat). pose proof (sum16_bound rest Hr). cbn [sum16]. unfold ICMP_ECHO. lia.
  - unfold zlen. rewrite length_request, Hd. lia.
  - unfold request, icmp_msg, data, user_data. by eexists _, _.
Qed.

(** ** Creation *)

(** A measurement gets an entry of the table of its own and leaves those of the
    others; it is only made with an interval between a millisecond and a
    minute, valid identifiers, and an output file below the directory for new
    results. *)
Theorem ping_init_slot spool fz new uns app base0 urandom o lsa me done_ p s :
  table base0 ≠ [] → ping_init spool fz new uns app base0 urandom (Some o) lsa me done_ = Some (p, s) →
  table (base s) !! index p = Some (Some me) ∧ self p = me ∧
  (∀ j owner, table base0 !! j = Some (Some owner) → j ≠ index p ∧ table (base s) !! j = Some (Some owner)) ∧
  1 ≤ interval p ≤ 60000 ∧
  (∀ id, atlas p = Some id ∨ bundle_id p = Some id → validate_atlas_id id ≠ 0) ∧
  (∀ fn, out_filename p = Some fn → ∃ n, rebased_validated_filename uns spool n new = Some fn) ∧
  busy (se s) = false ∧ seq (se s) = 1 ∧ packet (base s) = packet base0.
Proof.
  intros Hne E. unfold ping_init in E. destruct urandom as [ck|]; [|done]. cbn [mbind option_bind] in E.
  destruct (_ || _) eqn:Ei; [done|]. apply orb_false_iff in Ei as [Ei1%Z.ltb_ge Ei2%Z.ltb_ge].
  apply bind_Some in E as ([] & _ & E). apply bind_Some in E as ([] & _ & E). apply bind_Some in E as (out & Eo & E).
  apply bind_Some in E as ([] & Ea & E). apply bind_Some in E as ([] & Eb & E). apply bind_Some in E as (sa & _ & E).
  destruct (alloc_slot (table base0)) as [i table'] eqn:Et. injection E as <- <-. cbn.
  destruct (alloc_slot_spec _ _ _ Hne Et) as [Hi Hj].
  split; [by apply list_lookup_insert_eq|]. split; [done|].
  split; [intros j owner E; destruct (Hj j owner E); split; [done|]; by rewrite list_lookup_insert_ne|].
  split; [done|]. split; [|split; [|done]].
  - intros id [E|E]; [apply (check_name_Some _ _ id Ea) in E|apply (check_name_Some _ _ id Eb) in E];
      apply negb_true_iff, Z.eqb_neq in E; done.
  - intros fn ->. destruct (o_out o) as [n|]; [|done]. apply bind_Some in Eo as (v & Ev & Eo).
    destruct app; [|done]. injection Eo as ->. eauto.
Qed.
