(* ===== verification/PingCases.v ===== *)
(** * Ping: cases

    Concrete measurements at which the theorems apply, and the inputs on which
    the code does not do what it means to. *)

From stdpp Require Import base list list_numbers numbers option strings.
From Stdlib Require Import ZArith Lia.
From S2P Require Import Prelude Bits Blocks Cstr Packet Double Wp Validate Results Ping PingProofs PingRun PingLife PingMeasure PingMain.

Open Scope Z_scope.

(** ** A measurement *)

Definition ex_cookie : list Z := [1; 2; 3; 4; 5; 6; 7; 8].
Definition ex_params (count size : Z) : params :=
  P 7 0 ex_cookie (Some (str "1001")) None (str "host") None count None true true 1000 true size true.
Definition ex_host (sa : sockaddr) (_ : Z) : list Z :=
  match sa with AF_INET a => print_dec a | _ => str "::" end.
Definition ex_env (t : Z) : env :=
  ENV (TS t 500) (TS t 1000) 42 (Some (AF_INET 0x01020304, 16)) 1 0 true true true true
      (str "V") 1 2 false false ex_host (λ _, str "error").
Definition ex_state : ping := new_state (PB 0x12345 [Some 7%nat] (replicate 4076 (Some 0))) (AF_OTHER 0, 0).
Definition ex_dst : sockaddr := AF_INET 0x08080808.

(** A plain IP header with TTL 64 and a destination. *)
Definition ex_header : list Z := [69; 0; 0; 0; 0; 0; 0; 0; 64; 1; 0; 0; 8; 8; 8; 8; 1; 2; 3; 4].

Definition state_of (d : ping) (o : outcome (unit * ping)) : ping :=
  match o with Done (_, s) => s | Crash _ => d end.

Lemma ex_params_ok n size : 1 ≤ n < 2 ^ 31 → params_ok (ex_params n size).
Proof. done. Qed.
Lemma ex_env_ok n size t : 0 ≤ t < 2 ^ 60 → env_ok (ex_params n size) (ex_env t).
Proof. intros H. split; [by left|]. split; [done|cbn; lia]. Qed.
Lemma ex_packet_ok : packet_ok ex_state.
Proof. exists (replicate 4076 0). by rewrite fmap_replicate. Qed.
Lemma ex_reachable p : reachable p ex_state.
Proof. apply reach_new. exact ex_packet_ok. Qed.

(** The state in which the first packet was sent. *)
Definition ex_started : ping := state_of ex_state (handle (ex_params 3 0) Start (ex_env 10) ex_state).
Definition ex_sending : ping :=
  state_of ex_started (handle (ex_params 3 0) (Resolved None [(ex_dst, 16)]) (ex_env 11) ex_started).

Lemma ex_sending_reachable : reachable (ex_params 3 0) ex_sending.
Proof.
  apply (reach_step _ ex_started (Resolved None [(ex_dst, 16)]) (ex_env 11)).
  - apply (reach_step _ ex_state Start (ex_env 10)); [apply ex_reachable|split; [by apply ex_env_ok|done]|].
    vm_compute. reflexivity.
  - split; [by apply ex_env_ok|done].
  - vm_compute. reflexivity.
Qed.


(** The first packet is lost, the second answered and the third lost: the timer fires three times. *)
Definition ex_next (ev : event_t) (t : Z) (s : ping) : ping := state_of s (handle (ex_params 3 0) ev (ex_env t) s).
Definition ex_second : ping := ex_next Timer 12 ex_sending.
Definition ex_answer : list Z := echo 0 ex_header [0; 0] (last_sent ex_second).
Definition ex_answered : ping := ex_next (Ready4 (Some ex_answer)) 12 ex_second.
Definition ex_third : ping := ex_next Timer 13 ex_answered.
Definition ex_over : ping := ex_next Timer 14 ex_third.
Definition ex_trace : list (event_t * env) :=
  [(Timer, ex_env 12); (Ready4 (Some ex_answer), ex_env 12); (Timer, ex_env 13); (Timer, ex_env 14)].

Lemma ex_answer_ok : recv_ok (valid4 (ex_params 3 0) (base ex_second) ex_answer) ex_answer (ip_hlen ex_answer + 8).
Proof.
  split; [|split; [vm_compute; discriminate|intros _; vm_compute; repeat split; discriminate]].
  apply (bool_decide_unpack (Forall (λ b, 0 ≤ b < 256) ex_answer)). vm_compute. exact I.
Qed.

Lemma ex_trace_steps : steps (ex_params 3 0) ex_sending ex_trace ex_over.
Proof.
  apply (steps_cons _ _ _ _ ex_second); [split; [by apply ex_env_ok|vm_compute; discriminate]|vm_compute; reflexivity|].
  apply (steps_cons _ _ _ _ ex_answered); [split; [by apply ex_env_ok|]|vm_compute; reflexivity|].
  { split; [vm_compute; reflexivity|]. intros data [= <-]. exact ex_answer_ok. }
  apply (steps_cons _ _ _ _ ex_third); [split; [by apply ex_env_ok|vm_compute; discriminate]|vm_compute; reflexivity|].
  apply (steps_cons _ _ _ _ ex_over); [split; [by apply ex_env_ok|vm_compute; discriminate]|vm_compute; reflexivity|].
  constructor.
Qed.

Lemma ping_ends_witness :
  timeouts ex_trace = 3 ∧
  ((busy (se ex_over) = false ∧ outputs (acts ex_over) = (outputs (acts ex_sending) + 1)%nat) ∨
   (busy (se ex_over) = true ∧ event (nw ex_over) = true ∧ ping_timer (nw ex_over) ≠ None ∧
    outputs (acts ex_over) = outputs (acts ex_sending) ∧ timeouts ex_trace ≤ 3 - sentpkts (se ex_sending))).
Proof.
  split; [reflexivity|]. apply (ping_ends (ex_params 3 0) ex_sending).
  - by apply ex_params_ok.
  - apply ex_sending_reachable.
  - vm_compute. reflexivity.
  - unfold ex_trace. repeat (constructor; [done|]). constructor.
  - exact ex_trace_steps.
Defined.

Example ex_trace_over : busy (se ex_over) = false ∧ requests (acts ex_over) = 3 ∧ outputs (acts ex_over) = 1%nat.
Proof. vm_compute. auto. Qed.

(** A packet that is answered after 1.9995 ms and one that is lost. *)
Definition ex_reply : env := ENV (TS 11 2000500) (TS 11 2000500) 42 None 1 0 true true true true
  (str "V") 1 2 false false ex_host (λ _, str "error").
Definition ex_rounds : list round := [R (ex_env 11) (Some (ex_reply, ex_header, [0; 0])); R (ex_env 12) None].

Example ex_entries : entries 64 false false ex_rounds = [str "{ " ++ DBQ "rtt" ++ str ":1.999500 }"].
Proof. vm_compute. reflexivity. Qed.

Lemma ex_rounds_ok : Forall (round_ok 64 ex_host (print_dec 0x01020304)) ex_rounds.
Proof.
  assert (∀ t, 0 ≤ t < 2 ^ 60 → send_ok ex_host (print_dec 0x01020304) (ex_env t)) as Hsend.
  { intros t Ht. split; [done|]. split; [split; [done|cbn; lia]|]. by exists (AF_INET 0x01020304), 16. }
  constructor; [|constructor; [|constructor]]; (split; [by apply Hsend|]); [|done].
  intros e hdr cks [= <- <- <-]. repeat split; vm_compute; done.
Qed.

Lemma ping_measurement_witness :
  ∃ s', (ping_start (ex_params 2 0) (ex_env 10);; dns_cb (ex_params 2 0) (ex_env 11) None [(ex_dst, 16)];;
         play (ex_params 2 0) ex_rounds (ex_env 13)) ex_state = Done (tt, s') ∧
    final (ex_params 2 0) 64 ex_dst ex_host (print_dec 0x01020304) (acts ex_state ++ [Resolve (hostname (ex_params 2 0))])
      (ex_env 13) (replied ex_rounds) (entries 64 false false ex_rounds) s'.
Proof.
  refine (ping_measurement (ex_params 2 0) (ex_env 10) (R (ex_env 11) (Some (ex_reply, ex_header, [0; 0])))
            [R (ex_env 12) None] ex_dst 16 ex_host (print_dec 0x01020304) 64 (ex_env 13) ex_state
            eq_refl _ _ _ _ eq_refl eq_refl _ _ ex_rounds_ok eq_refl (or_introl eq_refl) _ _ eq_refl eq_refl eq_refl
            ex_packet_ok eq_refl eq_refl _); try done; cbn; lia.
Defined.

Lemma ping_isolation_witness :
  ∃ l : list Z, ready_callback4 (ex_params 3 0) (ex_env 12) (Some [69; 0; 0]) ex_state =
                Done (tt, set_packet (Some <$> l) ex_state).
Proof. apply (ping_isolation (ex_params 3 0) (ex_env 12) [69; 0; 0] ex_state); [apply ex_packet_ok|done|done]. Defined.

Lemma fmticmp4_checksum_witness :
  ∃ msg, fmticmp4 (Some <$> replicate 4076 0) 0 1 0 0x12345 ex_cookie true (TS 11 1000) 42 =
           Done (Some <$> (msg ++ drop (length msg) (replicate 4076 0)), clamp_size 8 0) ∧ mkcksum msg = 0.
Proof.
  destruct (fmticmp4_checksum (replicate 4076 0) 0 1 0 0x12345 ex_cookie true (TS 11 1000) 42) as (msg & H1 & H2 & _).
  - reflexivity.
  - reflexivity.
  - unfold ex_cookie. solve_bytes.
  - exists msg. split; [exact H1|exact H2].
Defined.

Definition ex_options : options :=
  OPT true false true 3 0 (Some (str "1001")) None None 1000 None None None (str "host").
Definition ex_made : params * ping :=
  default (ex_params 3 0, ex_state)
    (ping_init (str "/var/spool") (str "data") (str "data/new") false true (new_base 0x12345) (Some ex_cookie)
       (Some ex_options) None 7 true).

Lemma ping_init_slot_witness :
  table (base ex_made.2) !! index ex_made.1 = Some (Some 7%nat) ∧ 1 ≤ interval ex_made.1 ≤ 60000.
Proof.
  destruct (ping_init_slot (str "/var/spool") (str "data") (str "data/new") false true (new_base 0x12345) (Some ex_cookie)
              ex_options None 7 true ex_made.1 ex_made.2) as (H1 & _ & _ & H2 & _).
  - discriminate.
  - vm_compute. reflexivity.
  - split; [exact H1|exact H2].
Defined.

(** ** Departures *)

(** With [-c 0] nothing is written before the line is printed: the result buffer is read
    uninitialised. *)
Theorem ping_zero_packets :
  (ping_start (ex_params 0 0) (ex_env 10);; dns_cb (ex_params 0 0) (ex_env 11) None [(ex_dst, 16)]) ex_state =
  Crash Undefined.
Proof. vm_compute. reflexivity. Qed.

(** A successful resolution without an address leaves the measurement busy for
    ever: no event is pending, it cannot be started and cannot be deleted. *)
Theorem ping_no_address_stuck :
  let p := ex_params 3 0 in
  let s := state_of ex_state ((ping_start p (ex_env 10);; dns_cb p (ex_env 11) None []) ex_state) in
  busy (se s) = true ∧ dnsip (se s) = false ∧ event (nw s) = false ∧ ping_timer (nw s) = None ∧
  outputs (acts s) = 0%nat ∧ ping_start p (ex_env 12) s = Done (tt, s) ∧ ping_delete p s = Done (false, s).
Proof. vm_compute. auto 10. Qed.

(** After the first reply, packets that are lost leave no trace in the results. *)
Theorem late_losses_unreported T lost rs :
  Forall (λ r, r_reply r = None) rs → entries T true lost rs = [].
Proof. induction 1 as [|r rs Hr _ IH]; [done|]. cbn [entries]. by rewrite Hr. Qed.

Lemma late_losses_unreported_witness : entries 64 true false [R (ex_env 12) None; R (ex_env 13) None] = [].
Proof. apply late_losses_unreported. repeat constructor. Defined.

(** Over IPv6 a duplicate moves the expected sequence number on, so that the
    reply to the packet that was just sent counts as a duplicate too. *)
Definition ex_params6 : params :=
  P 7 0 ex_cookie None None (str "host") None 3 None false true 1000 false 0 true.
Definition ex_sending6 : ping :=
  state_of ex_state ((ping_start ex_params6 (ex_env 10);;
                      dns_cb ex_params6 (ex_env 11) None [(AF_INET6 [0x2001; 0xdb8; 0; 0; 0; 0; 0; 1], 28)]) ex_state).
Definition ex_late : list Z := take 6 (echo ICMP6_ECHO_REPLY [] [0; 0] (last_sent ex_sending6)) ++ [0; 0] ++
                               drop 8 (echo ICMP6_ECHO_REPLY [] [0; 0] (last_sent ex_sending6)).
Theorem ping6_duplicate_shifts :
  let s := state_of ex_state
    ((ready_callback6 ex_params6 (ex_env 12) (Some (ex_late, [HopLimit 64]));;
      ready_callback6 ex_params6 (ex_env 12)
        (Some (echo ICMP6_ECHO_REPLY [] [0; 0] (last_sent ex_sending6), [HopLimit 64]))) ex_sending6) in
  seq (se ex_sending6) = 1 ∧ seq (se s) = 3 ∧ got_reply (se s) = false ∧
  ∃ b t1 t2, result (rb s) = Some b ∧
    load_cstr b = Done (str "{ " ++ DBQ "dup" ++ str ":1, " ++ t1 ++ str " }, { " ++ DBQ "dup" ++ str ":1, " ++ t2 ++ str " }").
Proof.
  split; [vm_compute; reflexivity|]. split; [vm_compute; reflexivity|]. split; [vm_compute; reflexivity|].
  eexists _, (DBQ "rtt" ++ str ":999.999500, " ++ DBQ "src_addr" ++ str ":" ++ DBQ "::"),
            (DBQ "rtt" ++ str ":999.999500, " ++ DBQ "src_addr" ++ str ":" ++ DBQ "::").
  split; vm_compute; reflexivity.
Qed.

(** A reply of a type that is neither a request nor a reply ends the wait for
    the current packet but leaves its timer set.  When the measurement is started
    again before that timer fires, the timer ends it: a line is printed although the
    name was not resolved and no packet sent. *)
Theorem ping_stale_timer :
  let p := ex_params 1 0 in
  let s1 := state_of ex_state ((ping_start p (ex_env 10);; dns_cb p (ex_env 11) None [(ex_dst, 16)]) ex_state) in
  let s2 := state_of ex_state (ready_callback4 p (ex_env 12) (Some (echo 3 ex_header [0; 0] (last_sent s1))) s1) in
  let s3 := state_of ex_state ((ping_start p (ex_env 12);; handle p Timer (ex_env 12)) s2) in
  busy (se s2) = false ∧ ping_timer (nw s2) ≠ None ∧ outputs (acts s2) = 1%nat ∧
  busy (se s3) = false ∧ dnsip (se s3) = true ∧ outputs (acts s3) = 2%nat.
Proof. vm_compute. repeat split; discriminate. Qed.

(** The buffer for replies is smaller than the largest reply: for more than 4048
    bytes of data the size that is reported is not the size that was sent. *)
Theorem ping_large_reply :
  let p := ex_params 1 4068 in
  let s1 := state_of ex_state ((ping_start p (ex_env 10);; dns_cb p (ex_env 11) None [(ex_dst, 16)]) ex_state) in
  let s2 := state_of ex_state (ready_callback4 p (ex_env 12) (Some (echo 0 ex_header [0; 0] (last_sent s1))) s1) in
  cursize (se s2) = 4068 ∧ got_reply (se s2) = true ∧ size (lr s2) = 4048.
Proof. vm_compute. auto. Qed.

(** The time stamp of a reply is taken as it comes: one that was changed on the
    way makes the subtraction overflow. *)
Theorem ping_stamp_overflow :
  let q := last_sent ex_sending in
  let forged := echo 0 ex_header [0; 0] (take 8 q ++ le64 (- 2 ^ 63) ++ drop 16 q) in
  ready_callback4 (ex_params 3 0) (ex_env 12) (Some forged) ex_sending = Crash Undefined.
Proof. vm_compute. reflexivity. Qed.
