(* ===== verification/NtpFormat.v ===== *)
(** * NTP: packets and texts ([eperd/ntp.c])

    The header of an NTP packet and how its fields are printed: [format_li],
    [format_mode], [format_stratum], [format_8bit], [format_short_ts],
    [format_ref_id], [format_ts], and the times [ready_callback] computes.  Times
    are [double]s, as in the code; [printf] rounds to the nearest decimal. *)

From stdpp Require Import base list list_numbers numbers option strings.
From Stdlib Require Import ZArith Lia.
From Stdlib Require Import Floats.SpecFloat.
From S2P Require Import Prelude Bits Blocks Cstr Packet Double Wp Validate Results.

Open Scope Z_scope.

Definition NTP_LI_MASK : Z := 0xC0.
Definition NTP_LI_SHIFT : Z := 6.
Definition NTP_VERSION : Z := 4.
Definition NTP_VERSION_MASK : Z := 0x38.
Definition NTP_VERSION_SHIFT : Z := 3.
Definition NTP_MODE_CLIENT : Z := 3.
Definition NTP_MODE_MASK : Z := 0x7.
Definition STRATUM_INVALID : Z := 0.
Definition STRATUM_UNSYNCHRONIZED : Z := 16.
Definition NTP_1970 : Z := 2208988800.
Definition NTP_4G : Z := 4294967296.
Definition NTP_EXT_REQUEST : Z := 0x0000.
Definition NTP_EXT_MESSAGE : Z := 0x0002.
Definition NTP_EXT_NOOP : Z := 0x0000.

(** ** Headers *)

(** [struct ntp_ts], in host byte order. *)
Record ntp_ts := NTS { ntp_seconds : Z; ntp_fraction : Z }.
#[export] Instance ntp_ts_eq_dec : EqDecision ntp_ts.
Proof. solve_decision. Defined.

(** [struct ntphdr], with its numbers in host byte order; the reference id is
    the four bytes in the order of the packet. *)
Record ntphdr := NH {
  ntp_flags : Z; ntp_stratum : Z; ntp_poll : Z; ntp_precision : Z;
  ntp_root_delay : Z; ntp_root_dispersion : Z; ntp_reference_id : list Z;
  ntp_reference_ts : ntp_ts; ntp_origin_ts : ntp_ts; ntp_receive_ts : ntp_ts; ntp_transmit_ts : ntp_ts
}.
Definition sizeof_ntphdr : Z := 48.

Definition ts_at (b : blk Z) (off : Z) : outcome ntp_ts :=
  sec ← be_at b off 4; frac ← be_at b (off + 4) 4; mret (NTS sec frac).

(** The header at the beginning of a packet. *)
Definition load_hdr (b : blk Z) : outcome ntphdr :=
  flags ← be_at b 0 1; stratum ← be_at b 1 1; poll ← be_at b 2 1; precision ← be_at b 3 1;
  delay ← be_at b 4 4; dispersion ← be_at b 8 4; id ← bytes_at b 12 4;
  reference ← ts_at b 16; origin ← ts_at b 24; receive ← ts_at b 32; transmit ← ts_at b 40;
  mret (NH flags stratum (s8 poll) (s8 precision) delay dispersion id reference origin receive transmit).

(** ** Numbers *)

Fixpoint drop_zeroes (l : list Z) : list Z :=
  match l with 48 :: l' => drop_zeroes l' | _ => l end.
(** Trailing zeroes of a decimal fraction, and the point when nothing is left behind it. *)
Definition strip (l : list Z) : list Z :=
  reverse (match drop_zeroes (reverse l) with 46 :: l' => l' | l' => l' end).

(** [printf("%g")] of the positive number [num / den]: six significant digits. *)
Definition below_pow10 (num den x : Z) : bool :=
  num * 10 ^ Z.max 0 (- x) <? den * 10 ^ Z.max 0 x.
Fixpoint exponent10 (fuel : nat) (num den x : Z) : Z :=
  match fuel with
  | O => x
  | S fuel' => if below_pow10 num den (x + 1) then x else exponent10 fuel' num den (x + 1)
  end.
Definition print_g (num den : Z) : list Z :=
  if num =? 0 then str "0"
  else
    let x := exponent10 90 num den (-45) in
    let m := round_div (num * 10 ^ Z.max 0 (5 - x)) (den * 10 ^ Z.max 0 (x - 5)) in
    let '(x, m) := if m =? 10 ^ 6 then (x + 1, 10 ^ 5) else (x, m) in
    if (-4 <=? x) && (x <? 6) then strip (print_scaled (Z.to_nat (5 - x)) m)
    else
      strip (print_scaled 5 m) ++ str "e" ++ (if x <? 0 then str "-" else str "+") ++
      (if Z.abs x <? 10 then str "0" else []) ++ print_dec (Z.abs x).

(** The integer part of a [double] that is not negative, as the conversion to
    [uint32_t] gives it. *)
Definition trunc (x : spec_float) : Z :=
  match x with
  | S754_finite false m e => if 0 <=? e then Zpos m * 2 ^ e else Zpos m / 2 ^ (- e)
  | _ => 0
  end.

(** ** The fields *)

Section Format.
Definition label (s : string) : list Z := DBQ s ++ str ": ".

Definition li_text (flags : Z) : list Z :=
  match Z.land flags NTP_LI_MASK ≫ NTP_LI_SHIFT with
  | 0 => str "no" | 1 => str "61" | 2 => str "59" | _ => str "unknown"
  end.
Definition format_li (flags : Z) : list Z := line80 (label "li" ++ quote ++ li_text flags ++ quote).

Definition mode_text (flags : Z) : list Z :=
  match Z.land flags NTP_MODE_MASK with
  | 0 => str "reserved" | 1 => str "sym. active" | 2 => str "sym. passive" | 3 => str "client"
  | 4 => str "server" | 5 => str "broadcast" | 6 => str "control" | _ => str "private"
  end.
Definition format_mode (flags : Z) : list Z := line80 (label "mode" ++ quote ++ mode_text flags ++ quote).

Definition format_stratum (stratum : Z) : list Z :=
  if stratum =? STRATUM_INVALID then line80 (label "stratum" ++ DBQ "invalid")
  else if stratum =? STRATUM_UNSYNCHRONIZED then line80 (label "stratum" ++ DBQ "unsynchronized")
  else if stratum <? STRATUM_UNSYNCHRONIZED then line80 (label "stratum" ++ print_int stratum)
  else line80 (label "stratum" ++ quote ++ str "reserved (" ++ print_int stratum ++ str ")" ++ quote).

Definition format_8bit (l : string) (value : Z) : list Z :=
  if (0 <=? value) && (value <? 32) then line80 (label l ++ print_int (1 ≪ value))
  else line80 (label l ++ (if 0 <=? value then print_g (2 ^ value) 1 else print_g 1 (2 ^ (- value)))).

Definition format_short_ts (l : string) (value : Z) : list Z := line80 (label l ++ print_g value 65536).

(** A byte of a reference id that is a text. *)
Definition id_char (c : Z) : list Z :=
  if (c <? 32) || (c =? 34) || (c =? 92) || (127 <=? c) then str "\\x" ++ print_hex 2 c else [c].
Definition format_ref_id (value : list Z) (stratum : Z) : list Z :=
  if (stratum =? 0) || (stratum =? 1) then
    line80 (label "ref-id" ++ quote ++ take 39 (concat (id_char <$> cstr value)) ++ quote)
  else line80 (label "ref-id" ++ quote ++ print_hex 8 (be_value value) ++ quote).

(** The time in seconds. *)
Definition ts_double (ts : ntp_ts) : spec_float :=
  dadd (dbl (ntp_seconds ts)) (ddiv (dbl (ntp_fraction ts)) (dbl NTP_4G)).
Definition format_ts (l : string) (ts : ntp_ts) : list Z := line80 (label l ++ print_fixed 9 (ts_double ts)).
End Format.

(** ** Times *)

Record timeval := TV { tv_secs : Z; tv_usec : Z }.

(** The time of day in the format of NTP. *)
Definition ntp_time (tv : timeval) : ntp_ts :=
  NTS (u32 (tv_secs tv + NTP_1970)) (u32 (trunc (dmul (ddiv (dbl (tv_usec tv)) (dbl 1000000)) (dbl NTP_4G)))).

(** The 64 bits of a time stamp. *)
Definition bits (ts : ntp_ts) : Z := Z.lor (ntp_seconds ts ≪ 32) (ntp_fraction ts).

Definition rtt_double (t1 t2 t3 t4 : Z) : outcome spec_float :=
  d ← chk64 (s64 (u64 (t4 - t1)) - s64 (u64 (t3 - t2))); mret (ddiv (dbl d) (dbl NTP_4G)).
Definition offset_double (t1 t2 t3 t4 : Z) : outcome spec_float :=
  d ← chk64 (s64 (u64 (t2 - t1)) + s64 (u64 (t3 - t4))); mret (ddiv (ddiv (dbl d) (dbl 2)) (dbl NTP_4G)).

Example print_g_small : print_g 1 (2 ^ 20) = str "9.53674e-07". Proof. vm_compute. reflexivity. Qed.
Example print_g_large : print_g (2 ^ 40) 1 = str "1.09951e+12". Proof. vm_compute. reflexivity. Qed.
Example print_g_fraction : print_g 1234 65536 = str "0.0188293". Proof. vm_compute. reflexivity. Qed.
Example print_g_integer : print_g (3 * 65536) 65536 = str "3". Proof. vm_compute. reflexivity. Qed.
Example ntp_time_example : ntp_time (TV 1700000000 500000) = NTS 3908988800 (2 ^ 31). Proof. vm_compute. reflexivity. Qed.
