(* ===== verification/Ntp.v ===== *)
(** * NTP measurements ([eperd/ntp.c])

    A measurement resolves a name and asks the server for the time [count] times, with a
    pause of at least [gap] between requests.  [send_pkt] sends a request or
    ends the measurement, [ready_callback] adds a reply to the results,
    [noreply_callback] a request without one, [gap_callback] goes on when the pause is over,
    [report] prints the results.  The operations are functions on [ntpstate], which is
    [struct ntpstate] with the [struct ntpbase] all measurements share; the timers are
    the time they are set for, [event_socket] says whether libevent watches the
    socket; what is sent and printed is recorded as [action]s.

    The model is of live measurements: in the handlers [response_in] and
    [response_out], which replay and record packets, are [NULL].  What the
    system answers during a callback is in [env].  Ports are not part of addresses.
    The machine is little endian and [char] is signed. *)

From stdpp Require Import base list list_numbers numbers option strings.
From Stdlib Require Import ZArith Lia.
From Stdlib Require Import Floats.SpecFloat.
From S2P Require Import Prelude Bits Blocks Cstr Packet Double Wp Validate Results NtpFormat.

Open Scope Z_scope.

Definition NTP_GAP_MIN_MS : Z := 2000.
Definition NTP_GAP_DEFAULT_MS : Z := 4000.
Definition NTP_GAP_MAX_MS : Z := 60000.
Definition MAX_DATA_SIZE : Z := 4096.

Definition EACCES : Z := 13.
Definition EMSGSIZE : Z := 90.
Definition ECONNREFUSED : Z := 111.

(** ** State *)

(** A packet given to [sendto], a line of results, a name given to the resolver, the
    callback [done]. *)
Inductive action :=
| Sent (dst : sockaddr) (data : list Z) | Output (text : list Z) | Resolve (name : list Z) | DoneCb.

(** What [ntp_init] sets once; [self] stands for the address of the state. *)
Record params := P {
  self : nat; index : nat; atlas : option (list Z); bundle : option (list Z); hostname : list Z;
  out_filename : option (list Z); interface : option (list Z); do_v6 : bool;
  count : Z; size : Z; timeout : Z; gap : Z; has_done : bool
}.

(** What the system says during a callback.  [sendto] and [connect] are the error
    or [None], [sockname] is [None] when [getsockname] fails. *)
Record env := ENV {
  now : timespec; tod : timeval; xmit_tod : timeval;
  sendto : option Z; xsocket : bool; bind_interface : bool; connect : option Z; sockname : option (sockaddr * Z);
  append_ok : bool; version_str : list Z; timesync : Z; time : Z; host_is_literal : bool; unsafe : bool;
  numeric_host : sockaddr → Z → list Z; strerror : Z → list Z
}.

(** The parts of [struct ntpstate] that change; [ref] has the fields of the first
    reply. *)
Record session := SE {
  sent : Z; seq : Z; first : bool; busy : bool; gotresp : bool; dnsip : bool; report_dst : bool; open_result : bool; starttime : Z; xmit_time : timeval; start_time : timespec; ttr : timespec
}.
Record network := NW {
  sin6 : sockaddr; socklen : Z; loc_sin6 : sockaddr; loc_socklen : Z; dns_res : bool; socket : bool; event_socket : bool; timer_timeout : option (Z * Z); timer_gap : option (Z * Z)
}.
Record ntpbase := NB {
  table : list (option nat); packet : blk Z
}.
Record ntpstate := NS { rb : result_buf; ref : ntphdr; se : session; nw : network; base : ntpbase; acts : list action }.

Definition set_rb (v : result_buf) (s : ntpstate) : ntpstate :=
  NS v (ref s) (se s) (nw s) (base s) (acts s).
Definition set_ref (v : ntphdr) (s : ntpstate) : ntpstate :=
  NS (rb s) v (se s) (nw s) (base s) (acts s).
Definition set_sent (v : Z) (s : ntpstate) : ntpstate :=
  NS (rb s) (ref s) (let r := se s in SE v (seq r) (first r) (busy r) (gotresp r) (dnsip r) (report_dst r) (open_result r) (starttime r) (xmit_time r) (start_time r) (ttr r)) (nw s) (base s) (acts s).
Definition set_seq (v : Z) (s : ntpstate) : ntpstate :=
  NS (rb s) (ref s) (let r := se s in SE (sent r) v (first r) (busy r) (gotresp r) (dnsip r) (report_dst r) (open_result r) (starttime r) (xmit_time r) (start_time r) (ttr r)) (nw s) (base s) (acts s).
Definition set_first (v : bool) (s : ntpstate) : ntpstate :=
  NS (rb s) (ref s) (let r := se s in SE (sent r) (seq r) v (busy r) (gotresp r) (dnsip r) (report_dst r) (open_result r) (starttime r) (xmit_time r) (start_time r) (ttr r)) (nw s) (base s) (acts s).
Definition set_busy (v : bool) (s : ntpstate) : ntpstate :=
  NS (rb s) (ref s) (let r := se s in SE (sent r) (seq r) (first r) v (gotresp r) (dnsip r) (report_dst r) (open_result r) (starttime r) (xmit_time r) (start_time r) (ttr r)) (nw s) (base s) (acts s).
Definition set_gotresp (v : bool) (s : ntpstate) : ntpstate :=
  NS (rb s) (ref s) (let r := se s in SE (sent r) (seq r) (first r) (busy r) v (dnsip r) (report_dst r) (open_result r) (starttime r) (xmit_time r) (start_time r) (ttr r)) (nw s) (base s) (acts s).
Definition set_dnsip (v : bool) (s : ntpstate) : ntpstate :=
  NS (rb s) (ref s) (let r := se s in SE (sent r) (seq r) (first r) (busy r) (gotresp r) v (report_dst r) (open_result r) (starttime r) (xmit_time r) (start_time r) (ttr r)) (nw s) (base s) (acts s).
Definition set_report_dst (v : bool) (s : ntpstate) : ntpstate :=
  NS (rb s) (ref s) (let r := se s in SE (sent r) (seq r) (first r) (busy r) (gotresp r) (dnsip r) v (open_result r) (starttime r) (xmit_time r) (start_time r) (ttr r)) (nw s) (base s) (acts s).
Definition set_open_result (v : bool) (s : ntpstate) : ntpstate :=
  NS (rb s) (ref s) (let r := se s in SE (sent r) (seq r) (first r) (busy r) (gotresp r) (dnsip r) (report_dst r) v (starttime r) (xmit_time r) (start_time r) (ttr r)) (nw s) (base s) (acts s).
Definition set_starttime (v : Z) (s : ntpstate) : ntpstate :=
  NS (rb s) (ref s) (let r := se s in SE (sent r) (seq r) (first r) (busy r) (gotresp r) (dnsip r) (report_dst r) (open_result r) v (xmit_time r) (start_time r) (ttr r)) (nw s) (base s) (acts s).
Definition set_xmit_time (v : timeval) (s : ntpstate) : ntpstate :=
  NS (rb s) (ref s) (let r := se s in SE (sent r) (seq r) (first r) (busy r) (gotresp r) (dnsip r) (report_dst r) (open_result r) (starttime r) v (start_time r) (ttr r)) (nw s) (base s) (acts s).
Definition set_start_time (v : timespec) (s : ntpstate) : ntpstate :=
  NS (rb s) (ref s) (let r := se s in SE (sent r) (seq r) (first r) (busy r) (gotresp r) (dnsip r) (report_dst r) (open_result r) (starttime r) (xmit_time r) v (ttr r)) (nw s) (base s) (acts s).
Definition set_ttr (v : timespec) (s : ntpstate) : ntpstate :=
  NS (rb s) (ref s) (let r := se s in SE (sent r) (seq r) (first r) (busy r) (gotresp r) (dnsip r) (report_dst r) (open_result r) (starttime r) (xmit_time r) (start_time r) v) (nw s) (base s) (acts s).
Definition set_sin6 (v : sockaddr) (s : ntpstate) : ntpstate :=
  NS (rb s) (ref s) (se s) (let r := nw s in NW v (socklen r) (loc_sin6 r) (loc_socklen r) (dns_res r) (socket r) (event_socket r) (timer_timeout r) (timer_gap r)) (base s) (acts s).
Definition set_socklen (v : Z) (s : ntpstate) : ntpstate :=
  NS (rb s) (ref s) (se s) (let r := nw s in NW (sin6 r) v (loc_sin6 r) (loc_socklen r) (dns_res r) (socket r) (event_socket r) (timer_timeout r) (timer_gap r)) (base s) (acts s).
Definition set_loc_sin6 (v : sockaddr) (s : ntpstate) : ntpstate :=
  NS (rb s) (ref s) (se s) (let r := nw s in NW (sin6 r) (socklen r) v (loc_socklen r) (dns_res r) (socket r) (event_socket r) (timer_timeout r) (timer_gap r)) (base s) (acts s).
Definition set_loc_socklen (v : Z) (s : ntpstate) : ntpstate :=
  NS (rb s) (ref s) (se s) (let r := nw s in NW (sin6 r) (socklen r) (loc_sin6 r) v (dns_res r) (socket r) (event_socket r) (timer_timeout r) (timer_gap r)) (base s) (acts s).
Definition set_dns_res (v : bool) (s : ntpstate) : ntpstate :=
  NS (rb s) (ref s) (se s) (let r := nw s in NW (sin6 r) (socklen r) (loc_sin6 r) (loc_socklen r) v (socket r) (event_socket r) (timer_timeout r) (timer_gap r)) (base s) (acts s).
Definition set_socket (v : bool) (s : ntpstate) : ntpstate :=
  NS (rb s) (ref s) (se s) (let r := nw s in NW (sin6 r) (socklen r) (loc_sin6 r) (loc_socklen r) (dns_res r) v (event_socket r) (timer_timeout r) (timer_gap r)) (base s) (acts s).
Definition set_event_socket (v : bool) (s : ntpstate) : ntpstate :=
  NS (rb s) (ref s) (se s) (let r := nw s in NW (sin6 r) (socklen r) (loc_sin6 r) (loc_socklen r) (dns_res r) (socket r) v (timer_timeout r) (timer_gap r)) (base s) (acts s).
Definition set_timer_timeout (v : option (Z * Z)) (s : ntpstate) : ntpstate :=
  NS (rb s) (ref s) (se s) (let r := nw s in NW (sin6 r) (socklen r) (loc_sin6 r) (loc_socklen r) (dns_res r) (socket r) (event_socket r) v (timer_gap r)) (base s) (acts s).
Definition set_timer_gap (v : option (Z * Z)) (s : ntpstate) : ntpstate :=
  NS (rb s) (ref s) (se s) (let r := nw s in NW (sin6 r) (socklen r) (loc_sin6 r) (loc_socklen r) (dns_res r) (socket r) (event_socket r) (timer_timeout r) v) (base s) (acts s).
Definition set_table (v : list (option nat)) (s : ntpstate) : ntpstate :=
  NS (rb s) (ref s) (se s) (nw s) (let r := base s in NB v (packet r)) (acts s).
Definition set_packet (v : blk Z) (s : ntpstate) : ntpstate :=
  NS (rb s) (ref s) (se s) (nw s) (let r := base s in NB (table r) v) (acts s).
Definition set_acts (v : list action) (s : ntpstate) : ntpstate :=
  NS (rb s) (ref s) (se s) (nw s) (base s) v.

Abbreviation NM := (M ntpstate).

#[export] Instance ntp_results : has_results ntpstate := { results := rb; upd_results := set_rb }.

Definition act (a : action) : NM unit := modify (λ s, set_acts (acts s ++ [a]) s).
Definition add_str (text : list Z) : NM unit := add_text text.

(** Microseconds as a [struct timeval]. *)
Definition usecstotv (usecs : Z) : Z * Z := (usecs / 1000000, usecs `mod` 1000000).

Section Ntp.
Context (p : params) (e : env).

(** ** The report *)

(** The fields of the first reply. *)
Definition ref_text (h : ntphdr) : list Z :=
  str ", " ++ format_li (ntp_flags h) ++
  str ", " ++ DBQ "version" ++ str ": " ++ print_int (Z.land (ntp_flags h) NTP_VERSION_MASK ≫ NTP_VERSION_SHIFT) ++
  str ", " ++ format_mode (ntp_flags h) ++
  str ", " ++ format_stratum (ntp_stratum h) ++
  str ", " ++ format_8bit "poll" (ntp_poll h) ++
  str ", " ++ format_8bit "precision" (ntp_precision h) ++
  str ", " ++ format_short_ts "root-delay" (ntp_root_delay h) ++
  str ", " ++ format_short_ts "root-dispersion" (ntp_root_dispersion h) ++
  str ", " ++ format_ref_id (ntp_reference_id h) (ntp_stratum h) ++
  str ", " ++ format_ts "ref-ts" (ntp_reference_ts h).

Definition report_text (s : ntpstate) (res : list Z) : list Z :=
  str "RESULT { " ++
  match atlas p with
  | None => []
  | Some a =>
      DBQ "id" ++ str ":" ++ quote ++ a ++ quote ++ str ", " ++ version_str e ++
      str ", " ++ DBQ "lts" ++ str ":" ++ print_int (timesync e) ++
      str ", " ++ DBQ "time" ++ str ":" ++ print_int (starttime (se s)) ++ str ", " ++
      match bundle p with Some b => DBQ "bundle" ++ str ":" ++ b ++ str ", " | None => [] end
  end ++
  DBQ "dst_name" ++ str ":" ++ quote ++ hostname p ++ quote ++
  (if host_is_literal e then []
   else str ", " ++ DBQ "ttr" ++ str ":" ++ msecs (tv_sec (ttr (se s))) (tv_nsec (ttr (se s)))) ++
  (if negb (dnsip (se s)) || report_dst (se s) then
     str ", " ++ DBQ "dst_addr" ++ str ":" ++ quote ++ numeric_host e (sin6 (nw s)) (socklen (nw s)) ++ quote ++
     (if loc_socklen (nw s) =? 0 then []
      else str ", " ++ DBQ "src_addr" ++ str ":" ++ quote ++
           numeric_host e (loc_sin6 (nw s)) (loc_socklen (nw s)) ++ quote)
   else []) ++
  str ", " ++ DBQ "proto" ++ str ":" ++ DBQ "UDP" ++
  str ", " ++ DBQ "af" ++ str ": " ++
  print_int (if dnsip (se s) then (if do_v6 p then 6 else 4) else if is_inet6 (sin6 (nw s)) then 6 else 4) ++
  (if negb (first (se s)) && negb (dnsip (se s)) then ref_text (ref s) else []) ++
  str ", " ++ DBQ "result" ++ str ": [ " ++ res ++ str " ] }" ++ [10].

Definition report : NM unit :=
  modify (set_timer_timeout None);; modify (set_timer_gap None);;
  (if bool_decide (is_Some (out_filename p)) && negb (append_ok e) then mcrash Fatal else mret tt);;
  s ← get;
  res ← match result (rb s) with None => mcrash Undefined | Some b => lift (load_cstr b) end;
  act (Output (report_text s res));;
  modify (set_rb (RB None (reslen (rb s)) (resmax (rb s))));;
  (if socket (nw s) then modify (set_event_socket false);; modify (set_socket false) else mret tt);;
  modify (set_busy false);;
  (if has_done p then act DoneCb else mret tt).

(** ** Requests *)

(** The bytes of a request; [size] is that of the extension, 0 for none. *)
Definition put_request (b : blk Z) (tv : timeval) : outcome (blk Z * Z) :=
  let len := sizeof_ntphdr in
  b ← store_at b 0 (replicate (Z.to_nat len) 0);
  '(b, len) ← (if 0 <? size p then
                 b ← store_at b len (replicate (Z.to_nat (size p)) 0);
                 b ← store_at b len (be16 (Z.lor (Z.lor NTP_EXT_MESSAGE NTP_EXT_REQUEST) NTP_EXT_NOOP));
                 b ← store_at b (len + 2) (be16 (size p));
                 mret (b, len + size p)
               else mret (b, len));
  b ← store_at b 0 [Z.lor (NTP_VERSION ≪ NTP_VERSION_SHIFT) NTP_MODE_CLIENT];
  b ← store_at b 12 (str "RIPE");
  b ← store_at b 40 (be32 (ntp_seconds (ntp_time tv)));
  b ← store_at b 44 (be32 (ntp_fraction (ntp_time tv)));
  mret (b, len).

(** The errors of [sendto] that count as sent. *)
Definition ignored (v6 : bool) (err : Z) : bool :=
  if v6 then (err =? EACCES) || (err =? ECONNREFUSED) || (err =? EMSGSIZE) else err =? EMSGSIZE.

Definition send_error (s : ntpstate) (err : Z) : list Z :=
  line80 ((if sent (se s) =? 0 then [] else str " }, ") ++
          str "{ " ++ DBQ "error" ++ str ":" ++ quote ++ str "sendto failed: " ++ strerror e err ++ quote ++ str " } ] }").

Definition send_pkt : NM unit :=
  modify (set_gotresp false);;
  s ← get;
  if count p <=? sent (se s) then add_str (str " }");; report
  else
    modify (set_seq (u16 (seq (se s) + 1)));;
    modify (set_xmit_time (xmit_tod e));;
    '(b, len) ← lift (put_request (packet (base s)) (xmit_tod e));
    modify (set_packet b);;
    data ← lift (bytes_at b 0 len);
    act (Sent (sin6 (nw s)) data);;
    match sendto e with
    | Some err => if ignored (is_inet6 (sin6 (nw s))) err then mret true
                  else add_str (send_error s err);; report;; mret false
    | None => mret true
    end ≫= λ go : bool,
    if negb go then mret tt
    else
      (if open_result (se s) then add_str (str " }, ") else mret tt);;
      add_str (str "{ ");;
      modify (set_open_result false);;
      modify (set_sent (sent (se s) + 1));;
      modify (set_timer_timeout (Some (usecstotv (timeout p))));;
      modify (set_timer_gap (Some (usecstotv (gap p)))).

(** Send when the pause is over, or end when nothing is left to send. *)
Definition go_on : NM unit :=
  s ← get;
  if bool_decide (timer_gap (nw s) = None) || (count p <=? sent (se s)) then send_pkt else mret tt.

(** ** Replies *)

(** A field that differs from the first reply; [head] says that nothing was
    written for this reply yet. *)
Definition diff (head differs : bool) (text : list Z) : NM bool :=
  if differs then (if head then mret tt else add_str (str ", "));; add_str text;; mret false
  else mret head.

Definition add_diffs (h f : ntphdr) : NM bool :=
  let masked m := negb (Z.land (ntp_flags h) m =? Z.land (ntp_flags f) m) in
  head ← (if masked NTP_LI_MASK then add_str (format_li (ntp_flags h));; mret false else mret true);
  head ← (if masked NTP_VERSION_MASK then
            add_str (line80 (str ", " ++ DBQ "version" ++ str ": " ++
                             print_int (Z.land (ntp_flags h) NTP_VERSION_MASK ≫ NTP_VERSION_SHIFT)));;
            mret false
          else mret head);
  head ← diff head (masked NTP_MODE_MASK) (format_mode (ntp_flags h));
  head ← diff head (negb (ntp_stratum h =? ntp_stratum f)) (format_stratum (ntp_stratum h));
  head ← diff head (negb (ntp_poll h =? ntp_poll f)) (format_8bit "poll" (ntp_poll h));
  head ← diff head (negb (ntp_precision h =? ntp_precision f)) (format_8bit "precision" (ntp_precision h));
  head ← diff head (negb (ntp_root_delay h =? ntp_root_delay f)) (format_short_ts "root-delay" (ntp_root_delay h));
  head ← diff head (negb (ntp_root_dispersion h =? ntp_root_dispersion f))
           (format_short_ts "root-dispersion" (ntp_root_dispersion h));
  head ← diff head (bool_decide (ntp_reference_id h ≠ ntp_reference_id f))
           (format_ref_id (ntp_reference_id h) (ntp_stratum h));
  diff head (bool_decide (ntp_reference_ts h ≠ ntp_reference_ts f)) (format_ts "ref-ts" (ntp_reference_ts h)).

(** The four times of an exchange and what follows from them. *)
Definition add_times (head : bool) (h : ntphdr) (final_ts : ntp_ts) : NM unit :=
  add_str (line80 ((if head then [] else str ", ") ++ label "origin-ts" ++ print_fixed 9 (ts_double (ntp_origin_ts h))));;
  add_str (line80 (str ", " ++ label "receive-ts" ++ print_fixed 9 (ts_double (ntp_receive_ts h))));;
  add_str (line80 (str ", " ++ label "transmit-ts" ++ print_fixed 9 (ts_double (ntp_transmit_ts h))));;
  add_str (line80 (str ", " ++ label "final-ts" ++ print_fixed 9 (ts_double final_ts)));;
  let t1 := bits (ntp_origin_ts h) in
  let t2 := bits (ntp_receive_ts h) in
  let t3 := bits (ntp_transmit_ts h) in
  let t4 := bits final_ts in
  d ← lift (rtt_double t1 t2 t3 t4);
  add_str (line80 (str ", " ++ label "rtt" ++ print_f d));;
  d ← lift (offset_double t1 t2 t3 t4);
  add_str (line80 (str ", " ++ label "offset" ++ print_f d)).

(** [recv] is [None] when nothing can be read. *)
Definition ready_callback (recv : option (list Z)) : NM unit :=
  match recv with
  | None => mret tt
  | Some data =>
      let data := take (Z.to_nat MAX_DATA_SIZE) data in
      s ← get;
      b ← lift (store_at (packet (base s)) 0 data);
      modify (set_packet b);;
      if zlen data <? sizeof_ntphdr then mret tt
      else if negb (busy (se s)) then mret tt
      else
        (if open_result (se s) then add_str (str " }, { ") else mret tt);;
        h ← lift (load_hdr b);
        head ← (if first (se s) then modify (set_ref h);; modify (set_first false);; mret true
                else add_diffs h (ref s));
        add_times head h (ntp_time (tod e));;
        modify (set_open_result true);;
        modify (set_gotresp true);;
        modify (set_timer_timeout None);;
        go_on
  end.

Definition noreply_callback : NM unit :=
  s ← get;
  (if open_result (se s) then add_str (str " }, { ") else mret tt);;
  add_str (DBQ "x" ++ str ":" ++ DBQ "*");;
  modify (set_open_result true);;
  go_on.

Definition gap_callback : NM unit :=
  s ← get;
  if gotresp (se s) || bool_decide (timer_timeout (nw s) = None) then send_pkt else mret tt.

(** ** Starting and stopping *)

(** An error before the first request. *)
Definition start_error (text : list Z) : NM unit :=
  add_str (line80 (str "{ " ++ DBQ "error" ++ str ":" ++ quote ++ text ++ quote ++ str " }"));; report.

(** False for a result of -1. *)
Definition create_socket : NM bool :=
  (if xsocket e then modify (set_socket true) else mcrash Fatal);;
  if bool_decide (is_Some (interface p)) && negb (bind_interface e) then
    start_error (str "bind_interface failed");; mret false
  else
    match connect e with
    | Some err => start_error (str "connect failed: " ++ strerror e err);; mret false
    | None =>
        match sockname e with
        | None => mcrash Fatal
        | Some (sa, len) =>
            modify (set_loc_sin6 sa);; modify (set_loc_socklen len);;
            modify (set_event_socket true);; mret true
        end
    end.

Definition ntp_start2 : NM unit :=
  s ← get;
  if negb (busy (se s)) then mret tt
  else
    modify (set_sent 0);; modify (set_seq 0);; modify (set_first true);;
    modify (set_rb fresh_buf);;
    modify (set_open_result false);; modify (set_starttime (time e));;
    ok ← create_socket;
    if ok : bool then send_pkt else mret tt.

(** A result that is an error of the resolution. *)
Definition dns_error (text : list Z) : NM unit :=
  modify (set_rb fresh_buf);;
  modify (set_starttime (time e));;
  add_str (line160 (str "{ " ++ DBQ "error" ++ str ":" ++ quote ++ text ++ quote ++ str " }")).

(** [err] is the text of a non-zero result. *)
Definition dns_cb (err : option (list Z)) (res : list (sockaddr * Z)) : NM unit :=
  s ← get;
  if negb (dnsip (se s)) then mret tt
  else
    d ← lift (elapsed (now e) (start_time (se s)));
    modify (set_ttr d);;
    match err with
    | Some text => dns_error (str "name resolution failed: " ++ text);; report
    | None =>
        modify (set_dnsip false);; modify (set_report_dst false);;
        modify (set_dns_res (bool_decide (res ≠ [])));;
        let no_addr :=
          (if bool_decide (res = []) then mcrash Undefined else modify (set_dns_res false));;
          s ← get;
          add_str (line160 ((if sent (se s) =? 0 then [] else str " }, ") ++ str "{ " ++ DBQ "error" ++ str ":" ++
                            DBQ "name resolution failed: out of addresses" ++ str " } ] }"));;
          report in
        match res with
        | [] => no_addr
        | (sa, len) :: _ =>
            modify (set_socklen len);;
            if sizeof_sockaddr_in6 <? len then no_addr
            else
              modify (set_sin6 sa);;
              if atlas_check_addr (unsafe e) sa len =? -1 then
                dns_error (str "address not allowed");;
                modify (set_dnsip true);; modify (set_report_dst true);; report
              else ntp_start2;; modify (set_dns_res false)
        end
    end.

Definition ntp_start : NM unit :=
  s ← get;
  if busy (se s) then mret tt
  else
    modify (set_busy true);; modify (set_socket false);;
    modify (set_dnsip true);; modify (set_start_time (now e));;
    act (Resolve (hostname p)).

(** False for a result of 0. *)
Definition ntp_delete : NM bool :=
  s ← get;
  if busy (se s) then mret false
  else
    match table (base s) !! index p with
    | Some (Some owner) =>
        if (owner =? self p)%nat then
          modify (set_table (<[index p := None]> (table (base s))));;
          modify (set_timer_timeout None);; modify (set_timer_gap None);;
          mret true
        else mcrash Fatal
    | Some None => mcrash Fatal
    | None => mcrash Undefined
    end.

End Ntp.

(** ** Creating a measurement *)

(** What [getopt32] leaves in the variables; it refuses other arguments. *)
Record options := OPT {
  opt_6 : bool; o_count : Z; o_interface : option (list Z); o_size : Z; o_timeout : Z; o_gap : Z;
  o_atlas : option (list Z); o_bundle : option (list Z); o_out : option (list Z);
  o_response_in : option (list Z); o_response_out : option (list Z); o_hostname : list Z
}.

(** The base all measurements share. *)
Definition ntp_base_new : ntpbase := NB (replicate 10 None) (replicate (Z.to_nat MAX_DATA_SIZE) (Some 0)).

(** The state as [xzalloc] and the assignments leave it. *)
Definition new_state (b : ntpbase) : ntpstate :=
  NS (RB None 0 0) (NH 0 0 0 0 0 0 [0; 0; 0; 0] (NTS 0 0) (NTS 0 0) (NTS 0 0) (NTS 0 0))
     (SE 0 0 false false false false false false 0 (TV 0 0) (TS 0 0) (TS 0 0))
     (NW (AF_OTHER 0) 0 (AF_OTHER 0) 0 false false false None None) b [].

Section Init.
Context (spooldir fuzzing_rel new_rel : list Z).   (* ATLAS_SPOOLDIR, ATLAS_FUZZING_REL, SAFE_PREFIX_REL *)
Context (unsafe_ append_ok_ : bool).

Definition bad_size (size : Z) : bool :=
  (MAX_DATA_SIZE - sizeof_ntphdr <? size) || (1184 <? size) || ((0 <? size) && (size <? 28)) ||
  negb (size `mod` 4 =? 0).

Definition ntp_init (base0 : ntpbase) (opts : option options) (self : nat) (done : bool) : option (params * ntpstate) :=
  o ← opts;
  if (o_gap o <? NTP_GAP_MIN_MS) || (NTP_GAP_MAX_MS <? o_gap o) then None
  else
    let fuzzing n := bool_decide (is_Some (rebased_validated_filename unsafe_ spooldir n fuzzing_rel)) in
    _ ← check_name fuzzing (o_response_in o);
    _ ← check_name fuzzing (o_response_out o);
    out ← match o_out o with
          | None => Some None
          | Some n =>
              v ← rebased_validated_filename unsafe_ spooldir n new_rel;
              if append_ok_ then Some (Some v) else None
          end;
    _ ← check_name (λ n, negb (validate_atlas_id n =? 0)) (o_atlas o);
    _ ← check_name (λ n, negb (validate_atlas_id n =? 0)) (o_bundle o);
    if bad_size (o_size o) then None
    else
      let '(i, table) := alloc_slot (table base0) in
      Some (P self i (o_atlas o) (o_bundle o) (o_hostname o) out (o_interface o) (opt_6 o)
              (s8 (o_count o)) (u16 (o_size o)) (u32 (o_timeout o * 1000)) (u32 (o_gap o * 1000)) done,
            new_state (NB (<[i := Some self]> table) (packet base0))).
End Init.
