(* ===== verification/NtpProofs.v ===== *)
(** * NTP: requests, replies and results

    The bytes of a request, the header of a reply, the text a reply adds to the results, and what the
    handlers do to the state, as weakest preconditions. *)

From stdpp Require Import base list list_numbers numbers option strings.
From Stdlib Require Import ZArith Lia.
From Stdlib Require Import Floats.SpecFloat.
From S2P Require Import Prelude Bits Blocks Cstr Packet Double Wp Validate Results NtpFormat NtpTime Ntp.

Open Scope Z_scope.

(** ** Requests *)

(** An extension field of [n] bytes: a request that does nothing. *)
Definition extension (n : Z) : list Z :=
  if 0 <? n then [0; 2] ++ be16 n ++ replicate (Z.to_nat (n - 4)) 0 else [].

Definition request (p : params) (tv : timeval) : list Z :=
  [0x23; 0; 0; 0] ++ replicate 8 0 ++ str "RIPE" ++ replicate 24 0 ++
  be32 (ntp_seconds (ntp_time tv)) ++ be32 (ntp_fraction (ntp_time tv)) ++ extension (size p).

Definition size_ok (n : Z) : Prop := n = 0 ∨ 28 ≤ n ≤ 1184.

Lemma length_extension n : size_ok n → zlen (extension n) = n.
Proof.
  intros [->|H]; [done|]. unfold extension. rewrite (proj2 (Z.ltb_lt _ _)) by lia.
  unfold zlen. rewrite !length_app, length_replicate. cbn. lia.
Qed.

Lemma ntp_length_request p tv : size_ok (size p) → zlen (request p tv) = 48 + size p.
Proof.
  intros H. unfold request. rewrite !zlen_app, (length_extension (size p)) by done.
  change (zlen (str "RIPE")) with 4. change (zlen (replicate 8 0)) with 8. change (zlen (replicate 24 0)) with 24.
  change (zlen [0x23; 0; 0; 0]) with 4. change (zlen (be32 (ntp_seconds (ntp_time tv)))) with 4.
  change (zlen (be32 (ntp_fraction (ntp_time tv)))) with 4. lia.
Qed.

(** Overwrite [old] behind [pre] with [new]. *)
Ltac mid off pre old post new :=
  let E := fresh in
  pose proof (store_at_mid off pre old post new eq_refl eq_refl) as E;
  rewrite <- ?app_assoc in E; cbn [app] in E; rewrite E; clear E; msimpl.

Lemma put_extension pre post n :
  length pre = 48%nat → 28 ≤ n ≤ 1184 → n ≤ zlen post →
  (b ← store_at (Some <$> (pre ++ post)) 48 (replicate (Z.to_nat n) 0);
   b ← store_at b 48 (be16 2); store_at b (48 + 2) (be16 n)) =
  Done (Some <$> (pre ++ extension n ++ drop (Z.to_nat n) post)).
Proof.
  intros Hp Hn Hl. unfold extension. rewrite (proj2 (Z.ltb_lt _ _)) by lia.
  rewrite <- (take_drop (Z.to_nat n) post) at 1. set (post' := drop (Z.to_nat n) post).
  rewrite store_at_mid by (unfold zlen in *; rewrite ?length_take, ?length_replicate; lia). msimpl.
  assert (replicate (Z.to_nat n) 0 = [0; 0] ++ [0; 0] ++ replicate (Z.to_nat (n - 4)) 0) as ->.
  { change [0; 0] with (replicate 2 0). rewrite <- !replicate_add. f_equal. lia. }
  rewrite <- !app_assoc. rewrite (store_at_mid 48 pre [0; 0]) by (unfold zlen; cbn; lia || done). msimpl.
  rewrite (app_assoc pre (be16 2)).
  rewrite (store_at_mid (48 + 2) (pre ++ be16 2) [0; 0]) by (unfold zlen; rewrite ?length_app; cbn; lia || done).
  by rewrite <- !app_assoc.
Qed.

Lemma put_request_spec p old tv :
  length old = 4096%nat → size_ok (size p) →
  put_request p (Some <$> old) tv =
  Done (Some <$> (request p tv ++ drop (length (request p tv)) old), 48 + size p).
Proof.
  intros Ho Hs. pose proof (ntp_length_request p tv Hs) as Hlen. unfold put_request.
  change (Z.to_nat sizeof_ntphdr) with 48%nat. change sizeof_ntphdr with 48.
  set (post := drop 48 old). assert (length post = 4048%nat) as Hpost by (unfold post; rewrite length_drop; lia).
  rewrite <- (take_drop 48 old) at 1. fold post.
  change (take 48 old ++ post) with ([] ++ take 48 old ++ post).
  rewrite (store_at_mid 0 []) by (first [done|rewrite length_replicate, length_take; lia]). msimpl. cbn [app].
  set (tail := extension (size p) ++ drop (Z.to_nat (size p)) post).
  assert ((if 0 <? size p then
             b ← store_at (Some <$> (replicate 48 0 ++ post)) 48 (replicate (Z.to_nat (size p)) 0);
             b ← store_at b 48 (be16 (Z.lor (Z.lor NTP_EXT_MESSAGE NTP_EXT_REQUEST) NTP_EXT_NOOP));
             b ← store_at b (48 + 2) (be16 (size p)); mret (b, 48 + size p)
           else mret (Some <$> (replicate 48 0 ++ post), 48)) =
          Done (Some <$> (replicate 48 0 ++ tail), 48 + size p)) as ->.
  { destruct Hs as [Hs|Hs].
    - unfold tail. rewrite Hs. done.
    - rewrite (proj2 (Z.ltb_lt _ _)) by lia.
      pose proof (put_extension (replicate 48 0) post (size p) eq_refl Hs ltac:(unfold zlen; lia)) as E.
      unfold tail. change (Z.lor (Z.lor NTP_EXT_MESSAGE NTP_EXT_REQUEST) NTP_EXT_NOOP) with 2.
      destruct (store_at _ 48 (replicate _ 0)) as [b1|]; [|done]. cbn [mbind outcome_bind] in E |- *.
      destruct (store_at b1 48 (be16 2)) as [b2|]; [|done]. cbn [mbind outcome_bind] in E |- *. by rewrite E. }
  msimpl. change (replicate 48 0) with ([0] ++ replicate 11 0 ++ replicate 4 0 ++ replicate 24 0 ++ replicate 4 0 ++ replicate 4 0).
  rewrite <- !app_assoc.
  cbn [app].   change (Z.lor (NTP_VERSION ≪ NTP_VERSION_SHIFT) NTP_MODE_CLIENT) with 0x23.
  mid 0 (@nil Z) [0] (replicate 11 0 ++ replicate 4 0 ++ replicate 24 0 ++ replicate 4 0 ++ replicate 4 0 ++ tail) [0x23].
  mid 12 ([0x23] ++ replicate 11 0) (replicate 4 0) (replicate 24 0 ++ replicate 4 0 ++ replicate 4 0 ++ tail) (str "RIPE").
  mid 40 ([0x23] ++ replicate 11 0 ++ str "RIPE" ++ replicate 24 0) (replicate 4 0) (replicate 4 0 ++ tail)
    (be32 (ntp_seconds (ntp_time tv))).
  mid 44 ([0x23] ++ replicate 11 0 ++ str "RIPE" ++ replicate 24 0 ++ be32 (ntp_seconds (ntp_time tv))) (replicate 4 0) tail
    (be32 (ntp_fraction (ntp_time tv))).
  assert (length (request p tv) = 48 + Z.to_nat (size p))%nat as -> by (unfold zlen in Hlen; destruct Hs; lia).
  rewrite <- drop_drop. fold post. unfold request, tail. rewrite <- !app_assoc. done.
Qed.

(** ** Headers *)

Definition ts_of (data : list Z) (off : Z) : ntp_ts :=
  NTS (be_value (field data off 4)) (be_value (field data (off + 4) 4)).
Definition hdr_of (data : list Z) : ntphdr :=
  let f off n := be_value (field data off n) in
  NH (f 0 1) (f 1 1) (s8 (f 2 1)) (s8 (f 3 1)) (f 4 4) (f 8 4) (field data 12 4)
     (ts_of data 16) (ts_of data 24) (ts_of data 32) (ts_of data 40).

Lemma ts_at_of (l : list Z) off : 0 ≤ off → off + 8 ≤ zlen l → ts_at (Some <$> l) off = Done (ts_of l off).
Proof. intros. unfold ts_at. rewrite !be_at_field by lia. done. Qed.

Lemma load_hdr_of data rest : 48 ≤ zlen data → load_hdr (Some <$> (data ++ rest)) = Done (hdr_of data).
Proof.
  intros H. pose proof (zlen_nonneg rest). unfold load_hdr.
  rewrite !be_at_field, bytes_at_field, !ts_at_of by (rewrite ?zlen_app; lia). msimpl.
  unfold hdr_of, ts_of. by rewrite !field_app by lia.
Qed.

(** ** Texts *)

(** What a reply adds: the fields that differ from the first reply, and the times. *)
Definition diff_text (head differs : bool) (text : list Z) : list Z * bool :=
  if differs then ((if head then [] else str ", ") ++ text, false) else ([], head).

(** The differing fields of [h], in order, with the text of each. *)
Definition diff_list (h f : ntphdr) : list (bool * list Z) :=
  [ (negb (Z.land (ntp_flags h) NTP_MODE_MASK =? Z.land (ntp_flags f) NTP_MODE_MASK), format_mode (ntp_flags h));
    (negb (ntp_stratum h =? ntp_stratum f), format_stratum (ntp_stratum h));
    (negb (ntp_poll h =? ntp_poll f), format_8bit "poll" (ntp_poll h));
    (negb (ntp_precision h =? ntp_precision f), format_8bit "precision" (ntp_precision h));
    (negb (ntp_root_delay h =? ntp_root_delay f), format_short_ts "root-delay" (ntp_root_delay h));
    (negb (ntp_root_dispersion h =? ntp_root_dispersion f), format_short_ts "root-dispersion" (ntp_root_dispersion h));
    (bool_decide (ntp_reference_id h ≠ ntp_reference_id f), format_ref_id (ntp_reference_id h) (ntp_stratum h));
    (bool_decide (ntp_reference_ts h ≠ ntp_reference_ts f), format_ts "ref-ts" (ntp_reference_ts h)) ].

Fixpoint diffs (head : bool) (l : list (bool * list Z)) : list Z * bool :=
  match l with
  | [] => ([], head)
  | (differs, text) :: l' =>
      let '(a, head) := diff_text head differs text in
      let '(b, head) := diffs head l' in (a ++ b, head)
  end.

Definition version_line (h : ntphdr) : list Z :=
  line80 (str ", " ++ DBQ "version" ++ str ": " ++ print_int (Z.land (ntp_flags h) NTP_VERSION_MASK ≫ NTP_VERSION_SHIFT)).

Definition diffs_text (h f : ntphdr) : list Z * bool :=
  let masked m := negb (Z.land (ntp_flags h) m =? Z.land (ntp_flags f) m) in
  let '(rest, head) := diffs (negb (masked NTP_LI_MASK) && negb (masked NTP_VERSION_MASK)) (diff_list h f) in
  ((if masked NTP_LI_MASK then format_li (ntp_flags h) else []) ++
   (if masked NTP_VERSION_MASK then version_line h else []) ++ rest, head).

Definition print_outcome (o : outcome spec_float) : list Z := match o with Done d => print_f d | Crash _ => [] end.

Definition times_text (head : bool) (h : ntphdr) (t4 : ntp_ts) : list Z :=
  let b1 := bits (ntp_origin_ts h) in let b2 := bits (ntp_receive_ts h) in
  let b3 := bits (ntp_transmit_ts h) in let b4 := bits t4 in
  line80 ((if head then [] else str ", ") ++ label "origin-ts" ++ print_fixed 9 (ts_double (ntp_origin_ts h))) ++
  line80 (str ", " ++ label "receive-ts" ++ print_fixed 9 (ts_double (ntp_receive_ts h))) ++
  line80 (str ", " ++ label "transmit-ts" ++ print_fixed 9 (ts_double (ntp_transmit_ts h))) ++
  line80 (str ", " ++ label "final-ts" ++ print_fixed 9 (ts_double t4)) ++
  line80 (str ", " ++ label "rtt" ++ print_outcome (rtt_double b1 b2 b3 b4)) ++
  line80 (str ", " ++ label "offset" ++ print_outcome (offset_double b1 b2 b3 b4)).

(** An observation: a reply and the time it arrived, or none in time. *)
Inductive obs := Got (h : ntphdr) (t4 : ntp_ts) | Lost.

(** The text of an observation; [r] is the first reply, when there was one. *)
Definition entry (r : option ntphdr) (o : obs) : list Z :=
  match o, r with
  | Lost, _ => DBQ "x" ++ str ":" ++ DBQ "*"
  | Got h t4, None => times_text true h t4
  | Got h t4, Some f => (diffs_text h f).1 ++ times_text (diffs_text h f).2 h t4
  end.
Definition next_ref (r : option ntphdr) (o : obs) : option ntphdr :=
  match r, o with None, Got h _ => Some h | _, _ => r end.
Fixpoint entries (r : option ntphdr) (l : list obs) : list (list Z) :=
  match l with [] => [] | o :: l' => entry r o :: entries (next_ref r o) l' end.
Definition ref_after (l : list obs) : option ntphdr := fold_left next_ref l None.

Lemma entries_app r a b : entries r (a ++ b) = entries r a ++ entries (fold_left next_ref a r) b.
Proof. revert r. induction a as [|o a IH]; intros r; [done|]. cbn. by rewrite IH. Qed.
Lemma entries_snoc a o : entries None (a ++ [o]) = entries None a ++ [entry (ref_after a) o].
Proof. by rewrite entries_app. Qed.
Lemma ref_after_snoc a o : ref_after (a ++ [o]) = next_ref (ref_after a) o.
Proof. unfold ref_after. by rewrite fold_left_app. Qed.

(** The array of a finished measurement. *)
Definition results_text (l : list obs) : list Z := str "{ " ++ join (entries None l) ++ str " }".

(** ** Handlers *)

(** Compute the fields of a state, and nothing else. *)
Ltac nsimpl :=
  cbv beta iota zeta delta [rb ref se nw base acts sent seq first busy gotresp dnsip report_dst open_result starttime
    xmit_time start_time ttr sin6 socklen loc_sin6 loc_socklen dns_res socket event_socket timer_timeout timer_gap
    table packet set_rb set_ref set_sent set_seq set_first set_busy set_gotresp set_dnsip set_report_dst
    set_open_result set_starttime set_xmit_time set_start_time set_ttr set_sin6 set_socklen set_loc_sin6
    set_loc_socklen set_dns_res set_socket set_event_socket set_timer_timeout set_timer_gap set_table set_packet
    set_acts id fst snd].
Ltac nsimpl_in H :=
  cbv beta iota zeta delta [rb ref se nw base acts sent seq first busy gotresp dnsip report_dst open_result starttime
    xmit_time start_time ttr sin6 socklen loc_sin6 loc_socklen dns_res socket event_socket timer_timeout timer_gap
    table packet set_rb set_ref set_sent set_seq set_first set_busy set_gotresp set_dnsip set_report_dst
    set_open_result set_starttime set_xmit_time set_start_time set_ttr set_sin6 set_socklen set_loc_sin6
    set_loc_socklen set_dns_res set_socket set_event_socket set_timer_timeout set_timer_gap set_table set_packet
    set_acts id fst snd] in H.

Lemma ntp_wp_add_str x t (Q : () → ntpstate → Prop) s :
  holds (rb s) t → (∀ r, holds r (t ++ x) → Q tt (set_rb r s)) → wp (add_str x) Q s.
Proof. exact (wp_add_text x t Q s). Qed.

(** Run an [add_str] whose buffer is known from [H]. *)
Ltac adds H :=
  wp_steps; eapply ntp_wp_add_str; [exact H|]; clear H;
  let r := fresh "r" in intros r H; rewrite <- ?app_assoc in H; wp_steps.

Lemma set_rb_same s : set_rb (rb s) s = s.
Proof. by destruct s. Qed.

Lemma ntp_wp_opt_str (b : bool) x t (Q : () → ntpstate → Prop) s :
  holds (rb s) t → (∀ r, holds r (t ++ if b then x else []) → Q tt (set_rb r s)) →
  wp (if b then add_str x else mret tt) Q s.
Proof.
  intros Ht HQ. destruct b; [by eapply ntp_wp_add_str|]. apply wp_ret.
  rewrite app_nil_r in HQ. specialize (HQ _ Ht). by rewrite set_rb_same in HQ.
Qed.

Lemma wp_diff head differs text t (Q : bool → ntpstate → Prop) s :
  holds (rb s) t →
  (∀ r a head', diff_text head differs text = (a, head') → holds r (t ++ a) → Q head' (set_rb r s)) →
  wp (diff head differs text) Q s.
Proof.
  intros Ht HQ. unfold diff, diff_text in *. destruct differs.
  - wp_steps. destruct head.
    + wp_steps. eapply ntp_wp_add_str; [exact Ht|]. intros r Hr. wp_steps. by eapply HQ.
    + adds Ht. eapply ntp_wp_add_str; [exact Ht|]. intros r' Hr. wp_steps. eapply (HQ r'); [done|].
      by rewrite <- app_assoc in Hr.
  - wp_steps. specialize (HQ (rb s) [] head eq_refl). rewrite set_rb_same, app_nil_r in HQ. auto.
Qed.

Lemma wp_add_diffs h f t (Q : bool → ntpstate → Prop) s :
  holds (rb s) t →
  (∀ r, holds r (t ++ (diffs_text h f).1) → Q (diffs_text h f).2 (set_rb r s)) → wp (add_diffs h f) Q s.
Proof.
  intros Ht HQ. unfold add_diffs.
  set (li := negb (Z.land (ntp_flags h) NTP_LI_MASK =? _)). set (ver := negb (Z.land (ntp_flags h) NTP_VERSION_MASK =? _)).
  assert (∀ r, holds r (t ++ (if li then format_li (ntp_flags h) else []) ++ (if ver then version_line h else [])) →
    wp (diff (negb li && negb ver) (negb (Z.land (ntp_flags h) NTP_MODE_MASK =? Z.land (ntp_flags f) NTP_MODE_MASK))
          (format_mode (ntp_flags h)) ≫= λ head,
        diff head (negb (ntp_stratum h =? ntp_stratum f)) (format_stratum (ntp_stratum h)) ≫= λ head,
        diff head (negb (ntp_poll h =? ntp_poll f)) (format_8bit "poll" (ntp_poll h)) ≫= λ head,
        diff head (negb (ntp_precision h =? ntp_precision f)) (format_8bit "precision" (ntp_precision h)) ≫= λ head,
        diff head (negb (ntp_root_delay h =? ntp_root_delay f)) (format_short_ts "root-delay" (ntp_root_delay h)) ≫= λ head,
        diff head (negb (ntp_root_dispersion h =? ntp_root_dispersion f))
          (format_short_ts "root-dispersion" (ntp_root_dispersion h)) ≫= λ head,
        diff head (bool_decide (ntp_reference_id h ≠ ntp_reference_id f))
          (format_ref_id (ntp_reference_id h) (ntp_stratum h)) ≫= λ head,
        diff head (bool_decide (ntp_reference_ts h ≠ ntp_reference_ts f)) (format_ts "ref-ts" (ntp_reference_ts h)))
      Q (set_rb r s)) as Hgo.
  { intros r Hr. unfold diffs_text, diff_list in HQ. fold li ver in HQ.
    do 7 (wp_steps; eapply wp_diff; [exact Hr|]; clear Hr;
          intros ? ? ? ? Hr; rewrite <- ?app_assoc in Hr; cbn [diffs] in HQ;
          match goal with E : diff_text _ _ _ = _ |- _ => rewrite E in HQ; clear E end).
    eapply wp_diff; [exact Hr|]. intros r' a' h' E Hr'. cbn [diffs] in HQ. rewrite E in HQ. cbn [fst snd] in HQ.
    rewrite <- ?app_assoc in Hr'. rewrite app_nil_r in HQ. rewrite <- ?app_assoc in HQ. by apply HQ. }
  clear HQ. destruct li, ver; cbn [negb andb] in Hgo |- *; wp_steps.
  - adds Ht. adds Ht. by apply wp_bind_inv, (Hgo r0).
  - adds Ht. rewrite app_nil_r in Hgo. by apply wp_bind_inv, (Hgo r).
  - adds Ht. by apply wp_bind_inv, (Hgo r).
  - rewrite app_nil_r in Hgo. specialize (Hgo (rb s) Ht). rewrite set_rb_same in Hgo. by apply wp_bind_inv.
Qed.

(** The differences of the times of a reply do not overflow. *)
Definition no_overflow (h : ntphdr) (t4 : ntp_ts) : Prop :=
  let b1 := bits (ntp_origin_ts h) in let b2 := bits (ntp_receive_ts h) in
  let b3 := bits (ntp_transmit_ts h) in let b4 := bits t4 in
  - 2 ^ 63 ≤ s64 (u64 (b4 - b1)) - s64 (u64 (b3 - b2)) < 2 ^ 63 ∧
  - 2 ^ 63 ≤ s64 (u64 (b2 - b1)) + s64 (u64 (b3 - b4)) < 2 ^ 63.

Lemma chk64_range z : - 2 ^ 63 ≤ z < 2 ^ 63 → chk64 z = Done z.
Proof. intros H. unfold chk64, LONG_MAX. by rewrite (proj2 (Z.leb_le _ _)), (proj2 (Z.leb_le _ _)) by lia. Qed.

Lemma wp_add_times head h t4 t (Q : () → ntpstate → Prop) s :
  holds (rb s) t → no_overflow h t4 → (∀ r, holds r (t ++ times_text head h t4) → Q tt (set_rb r s)) →
  wp (add_times head h t4) Q s.
Proof.
  intros Ht [H1%chk64_range H2%chk64_range] HQ.
  assert (∃ d, rtt_double (bits (ntp_origin_ts h)) (bits (ntp_receive_ts h)) (bits (ntp_transmit_ts h)) (bits t4) = Done d) as [d Hd]
    by (unfold rtt_double; rewrite H1; by eexists).
  assert (∃ d, offset_double (bits (ntp_origin_ts h)) (bits (ntp_receive_ts h)) (bits (ntp_transmit_ts h)) (bits t4) = Done d) as [d' Hd']
    by (unfold offset_double; rewrite H2; by eexists). unfold times_text in HQ. cbv zeta in *. rewrite Hd, Hd' in HQ. cbn [print_outcome] in HQ.
  unfold add_times. cbv zeta. adds Ht. adds Ht. adds Ht. adds Ht. eapply wp_lift; [exact Hd|]. adds Ht.
  eapply wp_lift; [exact Hd'|]. eapply ntp_wp_add_str; [exact Ht|]. intros r' Hr. rewrite <- !app_assoc in Hr. by apply (HQ r').
Qed.

Section Handlers.
Context (p : params) (e : env).

Definition can_append : Prop := out_filename p = None ∨ append_ok e = true.

(** The state after [report] printed [t]. *)
Definition reported (t : list Z) (s : ntpstate) : ntpstate :=
  set_acts (acts s ++ [Output (report_text p e s (cstr t))] ++ (if has_done p then [DoneCb] else []))
    (set_busy false (set_socket false (set_event_socket (event_socket (nw s) && negb (socket (nw s)))
       (set_timer_gap None (set_timer_timeout None (set_rb (RB None (reslen (rb s)) (resmax (rb s))) s)))))).

Lemma ntp_wp_report t (Q : () → ntpstate → Prop) s :
  can_append → holds (rb s) t → t ≠ [] → Q tt (reported t s) → wp (report p e) Q s.
Proof.
  intros Ha Ht Hne HQ. destruct (holds_load _ _ Ht Hne) as (b & Er & El). clear Ht. unfold report. wp_steps.
  destruct (bool_decide _ && _) eqn:Eo.
  { exfalso. apply andb_true_iff in Eo as [E1%bool_decide_eq_true_1 E2].
    destruct Ha as [Ha|Ha]; rewrite Ha in *; [by destruct E1|done]. }
  wp_steps. change (rb (set_timer_gap None (set_timer_timeout None s))) with (rb s). rewrite Er.
  eapply wp_lift; [exact El|]. wp_steps. unfold act. wp_steps.
  change (socket (nw (set_timer_gap None (set_timer_timeout None s)))) with (socket (nw s)).
  assert (report_text p e (set_timer_gap None (set_timer_timeout None s)) = report_text p e s) as -> by done.
  unfold reported in HQ. set (line := report_text p e s (cstr t)) in *. clearbody line.
  destruct s as [rb0 ref0 se0 [? ? ? ? ? sock ev ? ?] base0 acts0]. nsimpl_in HQ. nsimpl.
  destruct sock; wp_steps; destruct (has_done p); unfold act; wp_steps; nsimpl; rewrite ?app_nil_r in HQ;
    destruct ev; cbn [andb negb] in HQ; rewrite <- ?app_assoc; exact HQ.
Qed.
End Handlers.
