(* ===== verification/NtpText.v ===== *)
(** * NTP: the texts of the results

    No text a reply adds to the results has a NUL, so that the buffer is printed
    as a whole. *)

From stdpp Require Import base list list_numbers numbers option strings.
From Stdlib Require Import ZArith Lia.
From Stdlib Require Import Floats.SpecFloat.
From S2P Require Import Prelude Bits Blocks Cstr Packet Double Wp Validate Results NtpFormat NtpTime Ntp NtpProofs.

Open Scope Z_scope.

(** ** Texts without NUL *)

Lemma nonul_take n l : nonul l → nonul (take n l).
Proof. apply Forall_take. Qed.
Lemma nonul_cstr l : nonul (cstr l).
Proof.
  induction l as [|c l IH]; cbn [cstr]; [constructor|]. destruct (Z.eqb_spec c 0); [constructor|]. by constructor.
Qed.
Lemma nonul_reverse l : nonul l → nonul (reverse l).
Proof. intros H. unfold nonul. by rewrite Forall_reverse. Qed.
Lemma nonul_hex n v : nonul (print_hex n v).
Proof.
  revert v. induction n as [|n IH]; intros v; cbn [print_hex]; [constructor|]. apply nonul_app; [apply IH|].
  unfold hex_digit. pose proof (Z.mod_pos_bound v 16). repeat constructor. case_match; lia.
Qed.
Lemma nonul_strip l : nonul l → nonul (strip l).
Proof.
  intros H%nonul_reverse. unfold strip. apply nonul_reverse.
  assert (∀ l, nonul l → nonul (drop_zeroes l)) as Hd.
  { clear. induction l as [|c l IH]; intros H; [done|]. cbn [drop_zeroes].
    apply Forall_cons in H as [Hc H]. repeat case_match; try (by constructor). by apply IH. }
  apply Hd in H. destruct (drop_zeroes _) as [|c l']; [constructor|]. apply Forall_cons in H as [Hc H].
  repeat case_match; try (by constructor); done.
Qed.
Lemma round_div_nonneg m d : 0 ≤ m → 0 < d → 0 ≤ round_div m d.
Proof. intros Hm Hd. unfold round_div. pose proof (Z.div_pos m d Hm Hd). case_match; lia. Qed.
Lemma nonul_fixed k x : nonul (print_fixed k x).
Proof.
  assert (∀ s : bool, nonul (if s then str "-" else [])) as Hs by (intros []; [by apply nonul_str|constructor]).
  destruct x as [s|s| |s m e]; cbn [print_fixed]; try apply nonul_app; try apply Hs; try (by apply nonul_str); nonuls.
  apply nonul_scaled. assert (0 < 10 ^ Z.of_nat k) by (apply Z.pow_pos_nonneg; lia).
  destruct (Z.leb_spec 0 e); [|apply round_div_nonneg; [|apply Z.pow_pos_nonneg]; lia].
  assert (0 < 2 ^ e) by (apply Z.pow_pos_nonneg; lia). nia.
Qed.
Lemma nonul_g num den : 0 ≤ num → 0 < den → nonul (print_g num den).
Proof.
  intros Hn Hd. unfold print_g. destruct (num =? 0); [by apply nonul_str|].
  set (x := exponent10 _ _ _ _). set (m := round_div _ _).
  assert (0 ≤ m) as Hm.
  { assert (∀ z, 0 < 10 ^ Z.max 0 z) as H10 by (intros z; apply Z.pow_pos_nonneg; lia).
    apply round_div_nonneg; [apply Z.mul_nonneg_nonneg|apply Z.mul_pos_pos]; auto. specialize (H10 (5 - x)). lia. }
  assert (∀ x' m', 0 ≤ m' → nonul (if (-4 <=? x') && (x' <? 6) then strip (print_scaled (Z.to_nat (5 - x')) m')
    else strip (print_scaled 5 m') ++ str "e" ++ (if x' <? 0 then str "-" else str "+") ++
      (if Z.abs x' <? 10 then str "0" else []) ++ print_dec (Z.abs x'))) as Hgo.
  { intros x' m' Hm'. case_match; [by apply nonul_strip, nonul_scaled|].
    apply nonul_app; [by apply nonul_strip, nonul_scaled|]. nonuls. apply nonul_dec. lia. }
  destruct (m =? 10 ^ 6); apply Hgo; lia.
Qed.

Ltac nonuls' :=
  repeat first
    [ progress nonuls
    | lazymatch goal with
      | |- nonul (line80 _) => apply nonul_take
      | |- nonul (take _ _) => apply nonul_take
      | |- nonul (label _) => unfold label
      | |- nonul quote => repeat constructor; lia
      | |- nonul (print_fixed _ _) => apply nonul_fixed
      | |- nonul (print_hex _ _) => apply nonul_hex
      | |- nonul (print_g _ _) => apply nonul_g
      end ].

Lemma nonul_li f : nonul (format_li f).
Proof. unfold format_li. nonuls'. unfold li_text. repeat case_match; by apply nonul_str. Qed.
Lemma nonul_mode f : nonul (format_mode f).
Proof. unfold format_mode. nonuls'. unfold mode_text. repeat case_match; by apply nonul_str. Qed.
Lemma nonul_stratum f : nonul (format_stratum f).
Proof. unfold format_stratum. nonuls'. Qed.
Lemma nonul_8bit l v : nonul (DBQ l) → nonul (format_8bit l v).
Proof.
  intros H. unfold format_8bit. case_match; apply nonul_take, nonul_app; try (by apply nonul_app; [|by apply nonul_str]).
  - nonuls'.
  - destruct (Z.leb_spec 0 v); apply nonul_g; try lia; apply Z.pow_nonneg || apply Z.pow_pos_nonneg; lia.
Qed.
Lemma nonul_short l v : nonul (DBQ l) → 0 ≤ v → nonul (format_short_ts l v).
Proof.
  intros H Hv. unfold format_short_ts. apply nonul_take, nonul_app; [by apply nonul_app; [|by apply nonul_str]|].
  by apply nonul_g.
Qed.
Lemma nonul_id_char c : c ≠ 0 → nonul (id_char c).
Proof. intros H. unfold id_char. case_match; [|by repeat constructor]. apply nonul_app; [by apply nonul_str|apply nonul_hex]. Qed.
Lemma nonul_ref_id v st : nonul (format_ref_id v st).
Proof.
  unfold format_ref_id. case_match; nonuls'.
  apply Forall_concat, Forall_fmap. eapply Forall_impl; [apply nonul_cstr|]. intros c Hc. by apply nonul_id_char.
Qed.
Lemma nonul_ts l ts : nonul (DBQ l) → nonul (format_ts l ts).
Proof.
  intros H. unfold format_ts. apply nonul_take, nonul_app; [by apply nonul_app; [|by apply nonul_str]|apply nonul_fixed].
Qed.

(** ** Observations *)

Definition obs_ok (o : obs) : Prop :=
  match o with Got h _ => 0 ≤ ntp_root_delay h ∧ 0 ≤ ntp_root_dispersion h | Lost => True end.

Lemma nonul_times head h t4 : nonul (times_text head h t4).
Proof.
  unfold times_text. cbv zeta.
  assert (∀ o, nonul (print_outcome o)) as Ho by (intros []; cbn [print_outcome]; [apply nonul_fixed|constructor]).
  nonuls'; apply Ho.
Qed.

Lemma nonul_diffs head l : Forall (λ x, nonul x.2) l → nonul (diffs head l).1.
Proof.
  revert head. induction l as [|[d t] l IH]; intros head Hl; cbn [diffs]; [constructor|].
  apply Forall_cons in Hl as [Ht Hl]. cbn in Ht. unfold diff_text. destruct d.
  - specialize (IH false Hl). destruct (diffs false l). cbn [fst] in *.
    apply nonul_app; [|done]. apply nonul_app; [nonuls|done].
  - specialize (IH head Hl). destruct (diffs head l). done.
Qed.

Lemma nonul_diffs_text h f :
  0 ≤ ntp_root_delay h → 0 ≤ ntp_root_dispersion h → nonul (diffs_text h f).1.
Proof.
  intros Hd Hr. unfold diffs_text. cbv zeta.
  pose proof (nonul_diffs (negb (negb (Z.land (ntp_flags h) NTP_LI_MASK =? Z.land (ntp_flags f) NTP_LI_MASK)) &&
    negb (negb (Z.land (ntp_flags h) NTP_VERSION_MASK =? Z.land (ntp_flags f) NTP_VERSION_MASK))) (diff_list h f)) as H.
  destruct (diffs _ (diff_list h f)) as [rest hd]. cbn [fst] in *.
  assert (nonul rest).
  { apply H. unfold diff_list.
    apply Forall_cons_2; [apply nonul_mode|]. apply Forall_cons_2; [apply nonul_stratum|].
    apply Forall_cons_2; [by apply nonul_8bit, nonul_DBQ|]. apply Forall_cons_2; [by apply nonul_8bit, nonul_DBQ|].
    apply Forall_cons_2; [by apply nonul_short; [apply nonul_DBQ|]|].
    apply Forall_cons_2; [by apply nonul_short; [apply nonul_DBQ|]|].
    apply Forall_cons_2; [apply nonul_ref_id|]. apply Forall_cons_2; [by apply nonul_ts, nonul_DBQ|]. constructor. }
  apply nonul_app; [case_match; [apply nonul_li|constructor]|]. apply nonul_app; [|done].
  case_match; [|constructor]. unfold version_line. nonuls'.
Qed.

Lemma nonul_entry r o : obs_ok o → nonul (entry r o).
Proof.
  destruct o as [h t4|]; cbn [obs_ok entry].
  - intros [Hd Hr]. destruct r as [f|]; [|apply nonul_times]. apply nonul_app; [by apply nonul_diffs_text|apply nonul_times].
  - intros _. destruct r; nonuls.
Qed.

Lemma nonul_results l : Forall obs_ok l → nonul (results_text l).
Proof.
  intros Hl. unfold results_text. nonuls.
  assert (∀ r, Forall nonul (entries r l)) as He.
  { induction Hl as [|o l Ho _ IH]; intros r; cbn; constructor; [by apply nonul_entry|apply IH]. }
  specialize (He None). induction (entries None l) as [|x es IH]; [constructor|].
  apply Forall_cons in He as [Hx He]. cbn [join]. destruct es as [|y es]; [done|].
  apply nonul_app; [done|]. apply nonul_app; [by apply nonul_str|]. by apply IH.
Qed.

Lemma hdr_obs_ok data t4 : Forall is_byte data → obs_ok (Got (hdr_of data) t4).
Proof.
  intros H. cbn. split; apply be_value_nonneg; unfold field; by apply Forall_take, Forall_drop.
Qed.
