(* ===== verification/NtpLife.v ===== *)
(** * NTP: the life of a measurement

    The callbacks libevent may make, as a relation on states; the invariant of a
    running measurement, which ties the text in its buffer to the list of what
    was observed; what each callback does to it. *)

From stdpp Require Import base list list_numbers numbers option strings.
From Stdlib Require Import ZArith Lia.
From Stdlib Require Import Floats.SpecFloat.
From S2P Require Import Prelude Bits Blocks Cstr Packet Double Wp Validate Results NtpFormat NtpTime Ntp NtpProofs NtpText.

Open Scope Z_scope.

#[local] Arguments buf_text : simpl never.
#[local] Arguments entries : simpl never.
#[local] Arguments report_text : simpl never.
#[local] Arguments request : simpl never.
#[local] Arguments ref_after : simpl never.

(** ** Events *)

Inductive event_t :=
| Start
| Resolved (err : option (list Z)) (res : list (sockaddr * Z))
| Timeout
| Gap
| Ready (recv : option (list Z)).

Section Life.
Context (p : params).

Definition handle (ev : event_t) (e : env) : NM unit :=
  match ev with
  | Start => ntp_start p e
  | Resolved err res => dns_cb p e err res
  | Timeout => modify (set_timer_timeout None);; noreply_callback p e
  | Gap => modify (set_timer_gap None);; gap_callback p e
  | Ready recv => ready_callback p e recv
  end.

(** The parameters [ntp_init] accepts, with at least one request to send and
    no more than a [char] can count. *)
Definition params_ok : Prop := 1 ≤ count p ≤ 127 ∧ size_ok (size p).

(** The files can be written, the clocks are sane, sockets can be made. *)
Definition env_ok (e : env) : Prop :=
  can_append p e ∧ sane_time (now e) ∧ sane_tv (tod e) ∧ xsocket e = true ∧ is_Some (sockname e).

(** What a packet of [recv] tells. *)
Definition observed1 (ev : event_t) (e : env) : list obs :=
  match ev with
  | Timeout => [Lost]
  | Ready (Some data) =>
      let data := take (Z.to_nat MAX_DATA_SIZE) data in
      if zlen data <? 48 then [] else [Got (hdr_of data) (ntp_time (tod e))]
  | _ => []
  end.

Definition recv_ok (e : env) (data : list Z) : Prop :=
  Forall is_byte data ∧ (48 ≤ zlen data → no_overflow (hdr_of (take (Z.to_nat MAX_DATA_SIZE) data)) (ntp_time (tod e))).

(** When the event loop makes a callback.  The resolver answers once for each
    request, with a non-empty list of addresses or an error. *)
Definition enabled (ev : event_t) (e : env) (s : ntpstate) : Prop :=
  env_ok e ∧
  match ev with
  | Start => True
  | Resolved err res =>
      busy (se s) = true ∧ dnsip (se s) = true ∧
      (err = None → ∃ sa len more, res = (sa, len) :: more ∧ len ≤ sizeof_sockaddr_in6)
  | Timeout => timer_timeout (nw s) ≠ None
  | Gap => timer_gap (nw s) ≠ None
  | Ready recv => event_socket (nw s) = true ∧ ∀ data, recv = Some data → recv_ok e data
  end.

Definition base_ok (b : ntpbase) : Prop := ∃ l : list Z, packet b = Some <$> l ∧ length l = 4096%nat.

(** ** Phases *)

Record idle (s : ntpstate) : Prop := Idle {
  i_busy : busy (se s) = false; i_base : base_ok (base s); i_event : event_socket (nw s) = false;
  i_timeout : timer_timeout (nw s) = None; i_gap : timer_gap (nw s) = None
}.

Record resolving (s : ntpstate) : Prop := Resolving {
  v_busy : busy (se s) = true; v_dnsip : dnsip (se s) = true; v_base : base_ok (base s);
  v_event : event_socket (nw s) = false; v_timeout : timer_timeout (nw s) = None; v_gap : timer_gap (nw s) = None;
  v_start : sane_time (start_time (se s))
}.

(** A request may be sent, or the measurement ended. *)
Record due (l : list obs) (s : ntpstate) : Prop := Due {
  d_busy : busy (se s) = true; d_dnsip : dnsip (se s) = false; d_base : base_ok (base s);
  d_event : event_socket (nw s) = true; d_socket : socket (nw s) = true;
  d_text : if open_result (se s) then l ≠ [] ∧ holds (rb s) (buf_text (entries None l) true)
           else l = [] ∧ holds (rb s) [] ∧ sent (se s) = 0;
  d_ref : ref_after l = if first (se s) then None else Some (ref s);
  d_obs : Forall obs_ok l;
  d_sent : 0 ≤ sent (se s) ≤ count p
}.

(** The measurement waits for a reply, or for the pause to be over. *)
Record running (l : list obs) (s : ntpstate) : Prop := Running {
  r_busy : busy (se s) = true; r_dnsip : dnsip (se s) = false; r_base : base_ok (base s);
  r_event : event_socket (nw s) = true; r_socket : socket (nw s) = true;
  r_text : holds (rb s) (buf_text (entries None l) (open_result (se s)));
  r_ref : ref_after l = if first (se s) then None else Some (ref s);
  r_obs : Forall obs_ok l;
  r_sent : 1 ≤ sent (se s) ≤ count p;
  r_open : open_result (se s) = true → l ≠ [];
  r_wait : timer_timeout (nw s) = None → open_result (se s) = true ∧ timer_gap (nw s) ≠ None ∧ sent (se s) < count p;
  r_pending : timer_timeout (nw s) ≠ None → open_result (se s) = false;
  r_got : gotresp (se s) = true → timer_timeout (nw s) = None
}.

(** What a line is made of besides the results. *)
Definition static (s : ntpstate) :=
  (starttime (se s), ttr (se s), report_dst (se s), (sin6 (nw s), socklen (nw s)), (loc_sin6 (nw s), loc_socklen (nw s))).

(** The line of a measurement that observed [l]. *)
Definition line (e : env) (s : ntpstate) (l : list obs) : list Z :=
  report_text p e (set_dnsip false (set_first (bool_decide (ref_after l = None)) (set_ref (default (ref s) (ref_after l)) s)))
    (results_text l).

Lemma report_text_ext e s s' res :
  static s = static s' → dnsip (se s) = dnsip (se s') → first (se s) = first (se s') →
  (first (se s) = false → ref s = ref s') → report_text p e s res = report_text p e s' res.
Proof.
  unfold static. intros [= Hs Ht Hr H1 H2 H3 H4] Hd Hf Href. unfold report_text.
  rewrite Hs, Ht, Hr, H1, H2, H3, H4, Hd, Hf in *. destruct (first (se s')); [done|]. by rewrite Href.
Qed.

Lemma line_static e s s' l : static s = static s' → line e s l = line e s' l.
Proof.
  intros H. apply report_text_ext; [exact H|done|done|]. cbn. intros E%bool_decide_eq_false_1.
  by destruct (ref_after l).
Qed.

(** Callbacks print at most one line; [DoneCb] follows when there is a callback. *)
Definition printed (text : list Z) : list action := Output text :: if has_done p then [DoneCb] else [].

Definition sendable (e : env) (s : ntpstate) : Prop :=
  match sendto e with None => True | Some err => ignored (is_inet6 (sin6 (nw s))) err = true end.

Context (Hp : params_ok).

Lemma packet_stored (l : list Z) data :
  length l = 4096%nat → (length data ≤ 4096)%nat →
  store_at (Some <$> l) 0 data = Done (Some <$> (data ++ drop (length data) l)).
Proof.
  intros Hl Hd. rewrite <- (take_drop (length data) l) at 1.
  change (take (length data) l ++ drop (length data) l) with ([] ++ take (length data) l ++ drop (length data) l).
  rewrite store_at_mid by (first [done|rewrite length_take; lia]). done.
Qed.

Lemma buf_text_nonempty es b : buf_text es b ≠ [].
Proof. unfold buf_text. done. Qed.

(** The end of a measurement. *)
Lemma ntp_wp_finish l e (Q : () → ntpstate → Prop) s s1 :
  due l s → open_result (se s) = true → env_ok e → s1 = set_gotresp false s →
  (∀ s', idle s' → static s' = static s → acts s' = acts s ++ printed (line e s l) → Q tt s') →
  wp (add_str (str " }");; report p e) Q s1.
Proof.
  intros [] Eo (Ha & _) -> HQ. rewrite Eo in d_text0. destruct d_text0 as [Hl Ht].
  wp_steps. eapply ntp_wp_add_str; [exact Ht|]. intros r Hr.
  assert (buf_text (entries None l) true ++ str " }" = results_text l) as Et.
  { unfold buf_text, results_text. cbn [orb]. by rewrite app_nil_r, <- app_assoc. }
  rewrite Et in Hr. eapply ntp_wp_report; [done|exact Hr|done|].
  unfold reported. rewrite cstr_nonul by (by apply nonul_results).
  assert (report_text p e (set_rb r (set_gotresp false s)) (results_text l) = line e s l) as El.
  { apply report_text_ext; [done|done| |]; cbn; rewrite d_ref0; destruct (first (se s)); done. }
  rewrite El. apply HQ; [|done|done]. constructor; cbn; try done. rewrite d_socket0. by rewrite andb_false_r.
Qed.

(** After a request is sent, the place for its results is opened. *)
Lemma wp_opened l (Q : () → ntpstate → Prop) s s1 :
  due l s → sent (se s) < count p → rb s1 = rb s →
  (∀ r, holds r (buf_text (entries None l) false) →
     Q tt (set_timer_gap (Some (usecstotv (gap p))) (set_timer_timeout (Some (usecstotv (timeout p)))
             (set_sent (sent (se s) + 1) (set_open_result false (set_rb r s1)))))) →
  wp ((if open_result (se s) then add_str (str " }, ") else mret tt);;
      add_str (str "{ ");; modify (set_open_result false);; modify (set_sent (sent (se s) + 1));;
      modify (set_timer_timeout (Some (usecstotv (timeout p))));; modify (set_timer_gap (Some (usecstotv (gap p))))) Q s1.
Proof.
  intros [] Hlt Erb HQ. rewrite <- Erb in d_text0. destruct (open_result (se s)); wp_steps.
  - destruct d_text0 as [Hl Ht]. adds Ht. eapply ntp_wp_add_str; [exact Ht|]. intros r' Hr. wp_steps.
    apply (HQ r'). rewrite <- app_assoc in Hr. rewrite <- buf_text_open; [exact Hr|]. by destruct l.
  - destruct d_text0 as (-> & Ht & _). eapply ntp_wp_add_str; [exact Ht|]. intros r Hr. wp_steps. by apply (HQ r).
Qed.

(** [send_pkt] sends, ends the measurement, or gives up. *)
Lemma wp_send l e (Q : () → ntpstate → Prop) s :
  due l s → env_ok e →
  (sent (se s) < count p → sendable e s → ∀ s', running l s' → static s' = static s → sent (se s') = sent (se s) + 1 →
     timer_timeout (nw s') ≠ None → timer_gap (nw s') ≠ None →
     acts s' = acts s ++ [Sent (sin6 (nw s)) (request p (xmit_tod e))] → Q tt s') →
  (sent (se s) = count p → ∀ s', idle s' → static s' = static s → acts s' = acts s ++ printed (line e s l) → Q tt s') →
  (sent (se s) < count p → ¬ sendable e s → ∀ s' text, idle s' →
     acts s' = acts s ++ [Sent (sin6 (nw s)) (request p (xmit_tod e))] ++ printed text → Q tt s') →
  wp (send_pkt p e) Q s.
Proof.
  intros Hs He Hsend Hend Hfail. destruct Hp as [Hc Hsz]. pose proof Hs as [].
  unfold send_pkt. wp_steps. change (sent (se (set_gotresp false s))) with (sent (se s)).
  destruct (Z.leb_spec (count p) (sent (se s))) as [Hle|Hlt].
  { destruct (open_result (se s)) eqn:Eo; [|lia]. eapply ntp_wp_finish; try done. intros s' ? ?. apply Hend; [lia|done|done]. }
  destruct d_base0 as (old & Eold & Hold). wp_steps.
  change (packet (base (set_gotresp false s))) with (packet (base s)).
  eapply wp_lift; [rewrite Eold; apply put_request_spec; done|]. cbv beta iota. wp_steps.
  set (req := request p (xmit_tod e)). pose proof (ntp_length_request p (xmit_tod e) Hsz) as Hlen. fold req in Hlen.
  eapply wp_lift.
  { rewrite bytes_at_field; [reflexivity|lia| |rewrite zlen_app; pose proof (zlen_nonneg (drop (length req) old)); lia].
    destruct Hsz; lia. }
  assert (field (req ++ drop (length req) old) 0 (48 + size p) = req) as ->.
  { unfold field. change (drop (Z.to_nat 0) ?x) with x. rewrite take_app_length'; [done|]. unfold zlen in Hlen. lia. }
  unfold act. wp_steps.
  assert (base_ok (NB (table (base s)) (Some <$> (req ++ drop (length req) old)))) as Hbase.
  { eexists. split; [done|]. rewrite length_app, length_drop. unfold zlen in Hlen. destruct Hsz; lia. }
  change (sin6 (nw (set_gotresp false s))) with (sin6 (nw s)).
  change (open_result (se (set_gotresp false s))) with (open_result (se s)). set (s1 := set_acts _ _).
  destruct (sendto e) as [err|] eqn:Es; [destruct (ignored (is_inet6 (sin6 (nw s))) err) eqn:Ei|].
  - wp_steps. eapply wp_opened; try done. intros r Hr. apply Hsend; try done; [unfold sendable; by rewrite Es|].
    constructor; cbn; try done. lia.
  - assert (∃ t, holds (rb s) t) as [t Ht] by (destruct (open_result (se s)); destruct d_text0 as [? Ht]; [|destruct Ht]; eauto).
    wp_steps. eapply ntp_wp_add_str; [exact Ht|]. intros r Hr. wp_steps. eapply ntp_wp_report; [apply He|exact Hr| |].
    { intros [_ E]%app_eq_nil. unfold send_error in E. destruct (sent _ =? 0); done. }
    wp_steps. eapply Hfail; [done|unfold sendable; rewrite Es, Ei; done| |].
    2: { unfold reported, s1. cbn. rewrite <- app_assoc. reflexivity. }
    constructor; cbn; try done. by rewrite d_socket0, andb_false_r.
  - wp_steps. eapply wp_opened; try done. intros r Hr. apply Hsend; try done; [unfold sendable; by rewrite Es|].
    constructor; cbn; try done. lia.
Qed.

(** ** Callbacks of a running measurement *)

Definition pending (s : ntpstate) : Z :=
  (match timer_timeout (nw s) with Some _ => 1 | None => 0 end) + (match timer_gap (nw s) with Some _ => 1 | None => 0 end).
(** Bounds the number of timers that can still fire. *)
Definition measure (s : ntpstate) : Z := 2 * (count p - sent (se s)) + pending s.

Definition is_timer (ev : event_t) : bool := match ev with Timeout | Gap => true | _ => false end.

(** What a callback does: nothing, send the next request when the pause is over, end
    the measurement with the line of all observations, or end it because the
    request cannot be sent. *)
Inductive outcome_of (ev : event_t) (e : env) (l : list obs) (s s' : ntpstate) : Prop :=
| waits : running l s' → static s' = static s → sent (se s') = sent (se s) → acts s' = acts s →
    measure s' + (if is_timer ev then 1 else 0) ≤ measure s → outcome_of ev e l s s'
| sends : running l s' → static s' = static s → sendable e s → sent (se s') = sent (se s) + 1 →
    acts s' = acts s ++ [Sent (sin6 (nw s)) (request p (xmit_tod e))] →
    timer_gap (nw s) = None ∨ ev = Gap → measure s' + 1 ≤ measure s → outcome_of ev e l s s'
| ends : idle s' → static s' = static s → sent (se s) = count p → acts s' = acts s ++ printed (line e s l) → outcome_of ev e l s s'
| fails text : idle s' → sent (se s) < count p → ¬ sendable e s →
    acts s' = acts s ++ [Sent (sin6 (nw s)) (request p (xmit_tod e))] ++ printed text →
    timer_gap (nw s) = None ∨ ev = Gap → outcome_of ev e l s s'.

(** [send_pkt] after the state [s] of the beginning became [s1]. *)
Lemma wp_send_outcome ev l e s s1 :
  due l s1 → env_ok e → static s1 = static s → sent (se s1) = sent (se s) → acts s1 = acts s → 1 ≤ pending s →
  timer_gap (nw s) = None ∨ ev = Gap ∨ sent (se s) = count p →
  wp (send_pkt p e) (λ _, outcome_of ev e l s) s1.
Proof.
  intros Hd He Hst Hse Hac Hpe Hgap.
  assert (sin6 (nw s1) = sin6 (nw s)) as Hsin by (by injection Hst).
  eapply wp_send; [exact Hd|done| | |]; rewrite ?Hse, ?Hac, ?Hsin.
  - intros Hlt Hsd s' Hr Hs' Hn Ht Hg Ha. eapply sends; try done; [congruence|unfold sendable in *; by rewrite <- Hsin|intuition lia|].
    unfold measure. rewrite Hn. unfold pending at 1. destruct (timer_timeout (nw s')), (timer_gap (nw s')); try done. lia.
  - intros Hc s' Hi Hst' Ha. apply ends; try done; [congruence|]. by rewrite (line_static e s s1) by done.
  - intros Hlt Hsd s' text Hi Ha. eapply fails; try done; [unfold sendable in *; by rewrite <- Hsin|intuition lia].
Qed.

Lemma wp_go_on ev l e s s1 :
  due l s1 → env_ok e → static s1 = static s → sent (se s1) = sent (se s) → acts s1 = acts s →
  open_result (se s1) = true → 1 ≤ sent (se s) → timer_timeout (nw s1) = None → timer_gap (nw s1) = timer_gap (nw s) →
  1 ≤ pending s → (if is_timer ev then timer_timeout (nw s) ≠ None else True) →
  wp (go_on p e) (λ _, outcome_of ev e l s) s1.
Proof.
  intros Hd He Hst Hse Hac Ho Hs1 Ht Hg Hpe Hev. unfold go_on. wp_steps.
  destruct (bool_decide _ || _) eqn:Eb.
  - apply wp_send_outcome; try done. apply orb_true_iff in Eb as [Eb%bool_decide_eq_true_1|Eb%Z.leb_le].
    + left. congruence.
    + right. right. destruct Hd. lia.
  - apply orb_false_iff in Eb as [E1%bool_decide_eq_false_1 E2%Z.leb_gt]. wp_steps. destruct Hd.
    apply waits; try done.
    + constructor; try done; try lia; [by rewrite Ho in d_text0 |- *; destruct d_text0|by rewrite Ho in d_text0; intros _; destruct d_text0].
    + unfold measure, pending. rewrite Ht, Hg, Hse. destruct (is_timer ev); destruct (timer_timeout (nw s)); try done; lia.
Qed.

(** The separator in front of another result in the same place. *)
Lemma wp_separator l (Q : () → ntpstate → Prop) s s1 :
  running l s → rb s1 = rb s → (∀ r, holds r (buf_text (entries None l) false) → Q tt (set_rb r s1)) →
  wp (if open_result (se s) then add_str (str " }, { ") else mret tt) Q s1.
Proof.
  intros [] Erb HQ. rewrite <- Erb in r_text0. eapply ntp_wp_opt_str; [exact r_text0|]. intros r Hr. apply HQ.
  destruct (open_result (se s)); [|by rewrite app_nil_r in Hr].
  rewrite <- buf_text_open; [exact Hr|]. specialize (r_open0 eq_refl). by destruct l.
Qed.

Lemma running_pending l s : running l s → 1 ≤ pending s.
Proof.
  intros []. unfold pending. destruct (timer_timeout (nw s)) eqn:E; [destruct (timer_gap (nw s)); lia|].
  destruct (r_wait0 eq_refl) as (_ & H & _). by destruct (timer_gap (nw s)).
Qed.

Lemma timeout_step l e s :
  running l s → enabled Timeout e s → wp (handle Timeout e) (λ _, outcome_of Timeout e (l ++ [Lost]) s) s.
Proof.
  intros Hr [He Ht]. cbn [handle]. unfold noreply_callback. wp_steps.
  change (open_result (se (set_timer_timeout None s))) with (open_result (se s)).
  eapply wp_separator; [exact Hr|done|]. intros r Htx. adds Htx. pose proof (running_pending l s Hr). destruct Hr.
  apply wp_go_on; try done; cbn; try lia.
  constructor; cbn; try done; [|by rewrite ref_after_snoc, r_ref0; cbn; destruct (first (se s))|by apply Forall_app_2; [|repeat constructor]|lia].
  split; [by destruct l|]. rewrite entries_snoc, buf_text_add.
  destruct (ref_after l); exact Htx.
Qed.

Lemma gap_step l e s :
  running l s → enabled Gap e s → wp (handle Gap e) (λ _, outcome_of Gap e l s) s.
Proof.
  intros Hr [He Hg]. cbn [handle]. unfold gap_callback. wp_steps. pose proof (running_pending l s Hr). destruct Hr.
  change (gotresp (se (set_timer_gap None s))) with (gotresp (se s)).
  change (timer_timeout (nw (set_timer_gap None s))) with (timer_timeout (nw s)).
  destruct (bool_decide (timer_timeout (nw s) = None)) eqn:Eb.
  - apply bool_decide_eq_true_1 in Eb. rewrite orb_true_r. destruct (r_wait0 Eb) as (Ho & _ & Hlt).
    apply wp_send_outcome; try done; [|by right; left].
    rewrite Ho in r_text0. constructor; cbn; try done; [|lia]. rewrite Ho. auto.
  - apply bool_decide_eq_false_1 in Eb. rewrite orb_false_r.
    destruct (gotresp (se s)) eqn:Eg; [by destruct Eb; apply r_got0|]. wp_steps. apply waits; try done.
    + constructor; cbn; try done. by rewrite Eg.
    + unfold measure, pending. cbn. destruct (timer_gap (nw s)); [|done]. lia.
Qed.

Lemma ready_step l recv e s :
  running l s → enabled (Ready recv) e s →
  wp (handle (Ready recv) e) (λ _, outcome_of (Ready recv) e (l ++ observed1 (Ready recv) e) s) s.
Proof.
  intros Hr (He & _ & Hrecv). cbn [handle]. unfold ready_callback. pose proof (running_pending l s Hr) as Hpe.
  destruct recv as [data|].
  2: { wp_steps. cbn [observed1]. rewrite app_nil_r. apply waits; try done. cbn. lia. }
  cbn [observed1]. set (d := take (Z.to_nat MAX_DATA_SIZE) data) in *. cbv zeta.
  destruct (Hrecv data eq_refl) as [Hb Hov]. fold d in Hov.
  pose proof (r_base _ _ Hr) as (old & Eold & Hold). wp_steps.
  assert (length d ≤ 4096)%nat as Hd by (unfold d; rewrite length_take; change (Z.to_nat MAX_DATA_SIZE) with 4096%nat; lia).
  eapply wp_lift; [rewrite Eold; by apply packet_stored|]. wp_steps.
  assert (base_ok (NB (table (base s)) (Some <$> (d ++ drop (length d) old)))) as Hbase.
  { eexists. split; [done|]. rewrite length_app, length_drop. lia. }
  change sizeof_ntphdr with 48. destruct (Z.ltb_spec (zlen d) 48) as [Hlt|Hge].
  { wp_steps. rewrite app_nil_r. pose proof Hr as []. apply waits; try done. cbn [is_timer]. rewrite Z.add_0_r. apply Z.le_refl. }
  rewrite (r_busy _ _ Hr). cbn [negb]. wp_steps. eapply wp_separator; [exact Hr|done|]. intros r Htx. wp_steps.
  eapply wp_lift; [by apply load_hdr_of|]. set (h := hdr_of d) in *.
  assert (no_overflow h (ntp_time (tod e))) as Hno.
  { apply Hov. unfold d, zlen in Hge. rewrite length_take in Hge. unfold zlen. lia. }
  assert (Forall obs_ok (l ++ [Got h (ntp_time (tod e))])) as Hok.
  { apply Forall_app_2; [apply Hr|]. apply Forall_singleton, (hdr_obs_ok d (ntp_time (tod e))). by apply Forall_take. }
  wp_steps. set (s1 := set_rb r _). pose proof (r_ref _ _ Hr) as Href.
  assert (∀ r' s2, s2 = set_rb r' (set_first false (set_ref (if first (se s) then h else ref s) s1)) →
    holds r' (buf_text (entries None (l ++ [Got h (ntp_time (tod e))])) true) →
    wp (modify (set_open_result true);; modify (set_gotresp true);; modify (set_timer_timeout None);; go_on p e)
      (λ _, outcome_of (Ready (Some data)) e (l ++ [Got h (ntp_time (tod e))]) s) s2) as Hgo.
  { intros r' s2 -> Hr'. wp_steps. destruct Hr. apply wp_go_on; try done; cbn; try lia.
    constructor; cbn; try done; [split; [by destruct l|done]| |lia].
    rewrite ref_after_snoc, Href. by destruct (first (se s)). }
  rewrite entries_snoc, buf_text_add, Href in Hgo. destruct (first (se s)) eqn:Ef; wp_steps.
  - eapply wp_add_times; [exact Htx|done|]. intros r' Hr'. apply (Hgo r'); [|done].
    by destruct s as [? ? [] ? ? ?].
  - eapply wp_add_diffs; [exact Htx|]. intros r1 Hr1. wp_steps. eapply wp_add_times; [exact Hr1|done|].
    intros r' Hr'. apply (Hgo r'); [|by rewrite <- app_assoc in Hr'].
    destruct s as [? ? [] ? ? ?]. cbn in Ef. by subst.
Qed.

End Life.
