(* ===== verification/NtpMain.v ===== *)
(** * NTP measurements: the theorems

    Over every sequence of callbacks a measurement returns, prints one line per start,
    sends no more requests than asked for and none before the pause is over; it
    ends; its line lists exactly what was observed. *)

From stdpp Require Import base list list_numbers numbers option strings.
From Stdlib Require Import ZArith Lia.
From Stdlib Require Import Floats.SpecFloat.
From S2P Require Import Prelude Bits Blocks Cstr Packet Double Wp Validate Results NtpFormat NtpTime Ntp NtpProofs NtpText NtpLife.

Open Scope Z_scope.

#[local] Arguments buf_text : simpl never.
#[local] Arguments entries : simpl never.
#[local] Arguments report_text : simpl never.
#[local] Arguments request : simpl never.
#[local] Arguments ref_after : simpl never.

(** ** Counting *)

Definition outputs (l : list action) : nat := sum_list_with (λ a, match a with Output _ => 1%nat | _ => 0%nat end) l.
Definition resolves (l : list action) : nat := sum_list_with (λ a, match a with Resolve _ => 1%nat | _ => 0%nat end) l.
(** The requests since the last start. *)
Definition requests (l : list action) : Z :=
  fold_left (λ n a, match a with Resolve _ => 0 | Sent _ _ => n + 1 | _ => n end) l 0.

Lemma ntp_outputs_app a b : outputs (a ++ b) = (outputs a + outputs b)%nat.
Proof. apply sum_list_with_app. Qed.
Lemma ntp_resolves_app a b : resolves (a ++ b) = (resolves a + resolves b)%nat.
Proof. apply sum_list_with_app. Qed.
Lemma requests_snoc a x : requests (a ++ [x]) = match x with Resolve _ => 0 | Sent _ _ => requests a + 1 | _ => requests a end.
Proof. unfold requests. by rewrite fold_left_app. Qed.

Section Main.
Context (p : params).

Lemma outputs_printed t : outputs (printed p t) = 1%nat.
Proof. unfold printed. by destruct (has_done p). Qed.
Lemma resolves_printed t : resolves (printed p t) = 0%nat.
Proof. unfold printed. by destruct (has_done p). Qed.
Lemma requests_printed a t : requests (a ++ printed p t) = requests a.
Proof.
  unfold printed. destruct (has_done p).
  - change (a ++ _) with (a ++ [Output t] ++ [DoneCb]). by rewrite app_assoc, !requests_snoc.
  - by rewrite requests_snoc.
Qed.

(** ** Reachable states *)

(** The other measurements change the shared base between the callbacks. *)
Inductive reachable : ntpstate → Prop :=
| reach_new b : base_ok b → reachable (new_state b)
| reach_base s b : reachable s → base_ok b → reachable (NS (rb s) (ref s) (se s) (nw s) b (acts s))
| reach_step s ev e s' : reachable s → enabled p ev e s → handle p ev e s = Done (tt, s') → reachable s'.

Inductive phase (s : ntpstate) : Prop :=
| in_idle : idle s → requests (acts s) ≤ count p → phase s
| in_resolving : resolving s → requests (acts s) = 0 → phase s
| in_running l : running p l s → requests (acts s) = sent (se s) → phase s.

Record inv (s : ntpstate) : Prop := Inv {
  inv_phase : phase s;
  inv_once : (outputs (acts s) + (if busy (se s) then 1 else 0) = resolves (acts s))%nat
}.

Context (Hp : params_ok p).

Lemma ntp_inv_new b : base_ok b → inv (new_state b).
Proof. destruct Hp. intros Hb. constructor; [|done]. apply in_idle; [by constructor|cbn; lia]. Qed.

Lemma inv_base s b : inv s → base_ok b → inv (NS (rb s) (ref s) (se s) (nw s) b (acts s)).
Proof.
  intros [Hph Ho] Hb. constructor; [|done]. destruct Hph as [[] Hn|[] Hn|l [] Hn].
  - apply in_idle; [by constructor|done].
  - apply in_resolving; [by constructor|done].
  - apply (in_running _ l); [by constructor|done].
Qed.

(** A line is printed and the measurement is over. *)
Lemma inv_over s s' text reqs :
  inv s → busy (se s) = true → idle s' → acts s' = acts s ++ reqs ++ printed p text →
  (∀ a, outputs (a ++ reqs) = outputs a ∧ resolves (a ++ reqs) = resolves a) → requests (acts s ++ reqs) ≤ count p →
  inv s'.
Proof.
  intros [_ Ho] Hb Hi Ha Hreq Hn. rewrite Hb in Ho. constructor.
  - apply in_idle; [done|]. by rewrite Ha, app_assoc, requests_printed.
  - rewrite (i_busy _ Hi), Ha, app_assoc, ntp_outputs_app, ntp_resolves_app, outputs_printed, resolves_printed.
    destruct (Hreq (acts s)) as [-> ->]. lia.
Qed.

Lemma reqs_nil a : outputs (a ++ []) = outputs a ∧ resolves (a ++ []) = resolves a.
Proof. by rewrite app_nil_r. Qed.
Lemma reqs_one a d r : outputs (a ++ [Sent d r]) = outputs a ∧ resolves (a ++ [Sent d r]) = resolves a.
Proof. rewrite ntp_outputs_app, ntp_resolves_app. cbn. lia. Qed.

Lemma inv_outcome ev e l' s s' :
  inv s → (∃ l, running p l s) → requests (acts s) = sent (se s) → outcome_of p ev e l' s s' → inv s'.
Proof.
  intros Hi [l Hr] Hn Ho. pose proof (r_sent _ _ _ Hr). pose proof (r_busy _ _ _ Hr) as Hb.
  destruct Ho as [Hr' Hst Hs Ha _|Hr' Hst Hsd Hs Ha _ _|Hi' Hst Hs Ha|text Hi' Hlt Hsd Ha _].
  - constructor; [apply (in_running _ l'); [done|congruence]|]. rewrite (r_busy _ _ _ Hr'), Ha. destruct Hi as [_ Ho].
    by rewrite Hb in Ho.
  - constructor; [apply (in_running _ l'); [done|rewrite Ha, requests_snoc; lia]|].
    rewrite (r_busy _ _ _ Hr'), Ha. destruct (reqs_one (acts s) (sin6 (nw s)) (request p (xmit_tod e))) as [-> ->].
    destruct Hi as [_ Ho]. by rewrite Hb in Ho.
  - eapply (inv_over s s' _ []); [done|done|done|exact Ha|apply reqs_nil|]. rewrite app_nil_r. lia.
  - eapply (inv_over s s'); [done|done|done|exact Ha|intros; apply reqs_one|]. rewrite requests_snoc. lia.
Qed.

(** ** Starting *)

Lemma ntp_start_inv e s : inv s → env_ok p e → wp (ntp_start p e) (λ _ s', inv s' ∧
   (busy (se s) = false → resolving s' ∧ static s' = static s ∧ acts s' = acts s ++ [Resolve (hostname p)])) s.
Proof.
  intros Hi (_ & Ht & _). pose proof Hi as [Hph Ho]. unfold ntp_start. wp_steps. destruct (busy (se s)) eqn:Eb; wp_steps; [done|].
  unfold act. wp_steps. destruct Hph as [[] _|[] _|l [] _]; [|congruence|congruence]. set (s' := set_acts _ _).
  assert (resolving s') as Hr by (by constructor). split; [|done]. constructor.
  - apply in_resolving; [done|]. change (requests (acts s ++ [Resolve (hostname p)]) = 0). by rewrite requests_snoc.
  - change (outputs (acts s ++ [Resolve (hostname p)]) + 1 = resolves (acts s ++ [Resolve (hostname p)]))%nat.
    rewrite ntp_outputs_app, ntp_resolves_app. cbn. lia.
Qed.

Lemma start_busy e s : busy (se s) = true → wp (ntp_start p e) (λ _ s', s' = s) s.
Proof. intros Hb. unfold ntp_start. wp_steps. rewrite Hb. wp_steps. done. Qed.

(** The line of an error before the first request. *)
Lemma wp_error_line e text (Q : () → ntpstate → Prop) s :
  can_append p e → busy (se s) = true → base_ok (base s) → holds (rb s) [] → text ≠ [] →
  (event_socket (nw s) = true → socket (nw s) = true) →
  (∀ s' t, idle s' → acts s' = acts s ++ [] ++ printed p t → Q tt s') →
  wp (add_str text;; report p e) Q s.
Proof.
  intros Ha Hb Hba Ht Hne Hev HQ. wp_steps. eapply ntp_wp_add_str; [exact Ht|]. intros r Hr.
  eapply ntp_wp_report; [done|exact Hr|done|]. eapply HQ; [|done]. constructor; cbn; try done.
  destruct (event_socket (nw s)); [by rewrite Hev|done].
Qed.

(** The socket cannot be bound or connected. *)
Definition unconnected (e : env) : Prop :=
  bool_decide (is_Some (interface p)) && negb (bind_interface e) = true ∨ connect e ≠ None.

(** The first request. *)
Lemma start2_outcome e (Q : () → ntpstate → Prop) s :
  env_ok p e → busy (se s) = true → dnsip (se s) = false → base_ok (base s) → event_socket (nw s) = false →
  (∀ s' t, idle s' → unconnected e → acts s' = acts s ++ [] ++ printed p t → Q tt s') →
  (∀ s' t, idle s' → ¬ sendable e s → acts s' = acts s ++ [Sent (sin6 (nw s)) (request p (xmit_tod e))] ++ printed p t → Q tt s') →
  (∀ s' sa len, running p [] s' → sockname e = Some (sa, len) →
     static s' = (time e, ttr (se s), report_dst (se s), (sin6 (nw s), socklen (nw s)), (sa, len)) → sent (se s') = 1 →
     acts s' = acts s ++ [Sent (sin6 (nw s)) (request p (xmit_tod e))] → Q tt s') →
  wp (ntp_start2 p e) Q s.
Proof.
  intros He Hb Hd Hba Hev Herr Hfail Hrun. pose proof He as (Ha & _ & _ & Hx & [[sa len] Hsn]).
  unfold ntp_start2. wp_steps. rewrite Hb. cbn [negb]. wp_steps. unfold create_socket. wp_steps. rewrite Hx. wp_steps.
  assert (∀ text s1, rb s1 = fresh_buf → busy (se s1) = true → base s1 = base s → event_socket (nw s1) = false → acts s1 = acts s → unconnected e →
    wp (start_error p e text) (λ _, Q tt) s1) as Hse.
  { intros text s1 E1 E2 E3 E4 E5 Hu. unfold start_error. eapply wp_error_line; try done; [by rewrite E3|by rewrite E1; apply holds_fresh|congruence|].
    rewrite E5. intros s' t Hi Ha'. by eapply Herr. }
  destruct (bool_decide _ && _) eqn:Eb; [|destruct (connect e) as [err|] eqn:Ec].
  - wp_steps. eapply wp_mono; [apply Hse; try done; by left|]. cbv beta. intros _ s1 HQ. wp_steps. done.
  - wp_steps. eapply wp_mono; [apply Hse; try done; right; by rewrite Ec|]. cbv beta. intros _ s1 HQ. wp_steps. done.
  - rewrite Hsn. wp_steps. set (s1 := set_event_socket _ _).
    assert (due p [] s1) as Hdue.
    { constructor; cbn; try done; [|destruct Hp; lia]. split; [done|]. split; [apply holds_fresh|done]. }
    eapply (wp_send p Hp []); [exact Hdue|done| | |].
    + intros _ _ s' Hr Hst Hs _ _ Hac. eapply Hrun; [exact Hr|exact Hsn|exact Hst|exact Hs|exact Hac].
    + intros E. destruct Hp. cbn in E. lia.
    + intros _ Hsd s' text Hi Hac. eapply Hfail; [exact Hi|exact Hsd|exact Hac].
Qed.

Definition good_address (e : env) (d : sockaddr) (dlen : Z) : Prop :=
  dlen ≤ sizeof_sockaddr_in6 ∧ atlas_check_addr (unsafe e) d dlen ≠ -1.

Lemma resolved_inv e err res s :
  inv s → resolving s → requests (acts s) = 0 → enabled p (Resolved err res) e s → wp (dns_cb p e err res) (λ _, inv) s.
Proof.
  intros Hi Hr Hn (He & _ & _ & Hres). pose proof He as (Ha & Ht & _). pose proof Hr as [].
  unfold dns_cb. wp_steps. rewrite v_dnsip. cbn [negb].
  destruct (elapsed_sane (now e) (start_time (se s)) Ht v_start) as [d Ed]. wp_steps. eapply wp_lift; [exact Ed|]. wp_steps.
  assert (∀ s' t, idle s' → acts s' = acts s ++ [] ++ printed p t → inv s') as Hover.
  { intros s' t Hidle Hac. eapply (inv_over s s' t []); try done; [apply reqs_nil|rewrite app_nil_r]. destruct Hp; lia. }
  destruct err as [text|].
  { unfold dns_error. wp_steps. eapply wp_bind_inv, wp_error_line; try done; [apply holds_fresh|]. cbn. congruence. }
  destruct (Hres eq_refl) as (sa & len & more & -> & Hlen). wp_steps. rewrite (proj2 (Z.ltb_ge _ _)) by done. wp_steps.
  destruct (atlas_check_addr (unsafe e) sa len =? -1).
  - unfold dns_error. wp_steps. eapply ntp_wp_add_str; [apply holds_fresh|]. intros r Hr'. wp_steps.
    eapply ntp_wp_report; [done|exact Hr'|done|]. eapply Hover; [|done]. constructor; cbn; try done. by rewrite v_event.
  - wp_steps. eapply start2_outcome; try done.
    + intros s' t Hidle _ Hac. wp_steps. eapply Hover; [by destruct Hidle|exact Hac].
    + intros s' t Hidle _ Hac. wp_steps.
      eapply (inv_over s _ t [Sent sa (request p (xmit_tod e))]); [done|done|by destruct Hidle|exact Hac|intros; apply reqs_one|].
      rewrite requests_snoc. destruct Hp; lia.
    + intros s' sa' len' Hrun _ Hst Hs Hac. wp_steps. cbn in Hac. destruct Hrun. constructor.
      * apply (in_running _ []); [by constructor|]. change (requests (acts s') = sent (se s')). rewrite Hac, requests_snoc. lia.
      * change (outputs (acts s') + (if busy (se s') then 1 else 0) = resolves (acts s'))%nat. rewrite r_busy, Hac. destruct (reqs_one (acts s) sa (request p (xmit_tod e))) as [-> ->]. destruct Hi as [_ Ho].
        by rewrite v_busy in Ho.
Qed.

(** The name resolves to an allowed address and the first request is sent. *)
Lemma resolved_running e d dlen s :
  resolving s → env_ok p e → interface p = None ∨ bind_interface e = true → connect e = None → sendto e = None →
  good_address e d dlen →
  wp (dns_cb p e None [(d, dlen)]) (λ _ s2, running p [] s2 ∧ sent (se s2) = 1 ∧ sin6 (nw s2) = d ∧
     Some (loc_sin6 (nw s2), loc_socklen (nw s2)) = sockname e ∧ acts s2 = acts s ++ [Sent d (request p (xmit_tod e))]) s.
Proof.
  intros [] He Hif Hco Hsd [Hdl Hok]. pose proof He as (Ha & Ht & _). unfold dns_cb. wp_steps. rewrite v_dnsip. cbn [negb].
  destruct (elapsed_sane (now e) (start_time (se s)) Ht v_start) as [t Et]. wp_steps. eapply wp_lift; [exact Et|]. wp_steps.
  rewrite (proj2 (Z.ltb_ge _ _)), (proj2 (Z.eqb_neq _ _)) by done. wp_steps. eapply start2_outcome; try done.
  - intros s' tx _ [E|E] _; [|done]. exfalso. apply andb_true_iff in E as [[x E1]%bool_decide_eq_true_1 E2].
    destruct Hif as [Hif|Hif]; rewrite Hif in *; done.
  - intros s' tx _ Hns _. destruct Hns. unfold sendable. by rewrite Hsd.
  - intros s' sa len Hrun Hsn Hst Hs Hac. wp_steps. cbn in Hac. unfold static in Hst. injection Hst as _ _ _ Hsin _ Hl1 Hl2.
    destruct Hrun. split; [by constructor|]. split; [done|]. split; [done|]. split; [cbn; congruence|done].
Qed.

(** ** Every callback keeps the invariant *)

Lemma ntp_running_step ev e l s :
  running p l s → enabled p ev e s → ev ≠ Start →
  wp (handle p ev e) (λ _, outcome_of p ev e (l ++ observed1 ev e) s) s.
Proof.
  intros Hr Hen Hns. destruct ev as [|err res| | |recv]; [done| | | |].
  - destruct Hen as (_ & _ & Hd & _). destruct Hr. congruence.
  - by apply timeout_step.
  - cbn [observed1]. rewrite app_nil_r. by apply gap_step.
  - by apply ready_step.
Qed.

Lemma ntp_handle_inv ev e s : inv s → enabled p ev e s → wp (handle p ev e) (λ _, inv) s.
Proof.
  intros Hi Hen. pose proof Hen as [He Hev].
  assert (ev = Start ∨ ev ≠ Start) as [->|Hns] by (destruct ev; auto).
  { eapply wp_mono; [by apply ntp_start_inv|]. by intros _ s' [? _]. }
  destruct (inv_phase _ Hi) as [[] _|Hr Hn|l Hr Hn].
  - exfalso. destruct ev; intuition congruence.
  - destruct ev as [|err res| | |recv]; [done|by apply resolved_inv| | |]; exfalso; destruct Hr; intuition congruence.
  - eapply wp_mono; [by apply ntp_running_step|]. cbv beta. intros _ s' Ho. by eapply inv_outcome; [|exists l| |].
Qed.

Lemma ntp_reachable_inv s : reachable s → inv s.
Proof.
  induction 1 as [b Hb|s b _ IH Hb|s ev e s' _ IH Hen Hh]; [by apply ntp_inv_new|by apply inv_base|].
  pose proof (ntp_handle_inv ev e s IH Hen) as H. unfold wp in H. by rewrite Hh in H.
Qed.

(** ** Traces *)

Inductive steps : ntpstate → list (event_t * env) → ntpstate → Prop :=
| steps_nil s : steps s [] s
| steps_cons s ev e s1 tr s' :
    enabled p ev e s → handle p ev e s = Done (tt, s1) → steps s1 tr s' → steps s ((ev, e) :: tr) s'.

Definition observed (tr : list (event_t * env)) : list obs := tr ≫= λ x, observed1 x.1 x.2.
Definition timers (tr : list (event_t * env)) : Z := zlen (filter (λ x, is_timer x.1 = true) tr).
Definition no_start (tr : list (event_t * env)) : Prop := Forall (λ x, x.1 ≠ Start) tr.

Lemma idle_steps s tr s' : idle s → no_start tr → steps s tr s' → tr = [] ∧ s' = s.
Proof.
  intros Hi Hn Hs. destruct Hs as [|s ev e s1 tr s' [_ Hen] _ _]; [done|]. exfalso.
  apply Forall_cons in Hn as [Hns _]. destruct Hi, ev; cbn in *; intuition congruence.
Qed.

Lemma step_running ev e l s s1 :
  running p l s → enabled p ev e s → ev ≠ Start → handle p ev e s = Done (tt, s1) →
  outcome_of p ev e (l ++ observed1 ev e) s s1.
Proof.
  intros Hr Hen Hns Hh. pose proof (ntp_running_step ev e l s Hr Hen Hns) as H. unfold wp in H. by rewrite Hh in H.
Qed.

(** A run that has not ended goes on; at the end it has printed one line. *)
Lemma steps_phase l s tr s' :
  running p l s → no_start tr → steps s tr s' →
  ((∃ l', running p l' s') ∧ outputs (acts s') = outputs (acts s)) ∨
  (idle s' ∧ outputs (acts s') = (outputs (acts s) + 1)%nat).
Proof.
  intros Hr Hn Hs. revert l Hr Hn. induction Hs as [s|s ev e s1 tr s' Hen Hh Hs IH]; intros l Hr Hn; [left; eauto|].
  apply Forall_cons in Hn as [Hns Hn].
  destruct (step_running ev e l s s1 Hr Hen Hns Hh) as [Hr' _ _ Ha _|Hr' _ _ _ Ha _ _|Hi _ _ Ha|text Hi _ _ Ha _].
  - rewrite <- Ha. by eapply IH.
  - specialize (IH _ Hr' Hn). rewrite Ha in IH. destruct (reqs_one (acts s) (sin6 (nw s)) (request p (xmit_tod e))) as [E _].
    by rewrite E in IH.
  - destruct (idle_steps _ _ _ Hi Hn Hs) as [_ ->]. right. by rewrite Ha, ntp_outputs_app, outputs_printed.
  - destruct (idle_steps _ _ _ Hi Hn Hs) as [_ ->]. right.
    by rewrite Ha, !ntp_outputs_app, outputs_printed.
Qed.

Lemma measure_pos l s : running p l s → 1 ≤ measure p s ≤ 2 * count p.
Proof.
  intros Hr. pose proof (running_pending p l s Hr). destruct Hr. unfold measure.
  assert (pending s ≤ 2) by (unfold pending; destruct (timer_timeout _), (timer_gap _); lia). lia.
Qed.

(** Within a run every timer that fires lowers the measure. *)
Lemma steps_measure l s tr s' :
  running p l s → no_start tr → steps s tr s' →
  timers tr + (if busy (se s') then measure p s' else 0) ≤ measure p s.
Proof.
  intros Hr Hn Hs. revert l Hr Hn. induction Hs as [s|s ev e s1 tr s' Hen Hh Hs IH]; intros l Hr Hn.
  { change (timers []) with 0. rewrite (r_busy _ _ _ Hr). lia. }
  apply Forall_cons in Hn as [Hns Hn]. pose proof (step_running ev e l s s1 Hr Hen Hns Hh) as Ho.
  assert (timers ((ev, e) :: tr) = (if is_timer ev then 1 else 0) + timers tr) as ->.
  { unfold timers. rewrite filter_cons. cbn. destruct (is_timer ev); [rewrite decide_True by done|rewrite decide_False by done];
      rewrite ?zlen_cons; lia. }
  pose proof (measure_pos _ _ Hr). assert (timers [] = 0) as Hnil by done.
  destruct Ho as [Hr' _ _ _ Hm|Hr' _ _ _ _ _ Hm|Hi _ _ _|text Hi _ _ _ _].
  - specialize (IH _ Hr' Hn). lia.
  - specialize (IH _ Hr' Hn). destruct (is_timer ev); lia.
  - destruct (idle_steps _ _ _ Hi Hn Hs) as [-> ->]. rewrite (i_busy _ Hi), Hnil. destruct (is_timer ev); lia.
  - destruct (idle_steps _ _ _ Hi Hn Hs) as [-> ->]. rewrite (i_busy _ Hi), Hnil. destruct (is_timer ev); lia.
Qed.

(** The times at which the callbacks would send. *)
Definition send_times (tr : list (event_t * env)) : list timeval := (λ x, xmit_tod x.2) <$> tr.

Lemma last_later {A} (x : A) l y : last l = Some y → last (x :: l) = Some y.
Proof. intros H. by rewrite last_cons, H. Qed.

(** A run without failing [sendto] ends with the line of what was observed, printed by its last callback. *)
Lemma steps_line l s tr s' :
  running p l s → no_start tr → Forall (λ x, sendto x.2 = None) tr → steps s tr s' → busy (se s') = false →
  ∃ ev e tvs, last tr = Some (ev, e) ∧ sublist tvs (send_times tr) ∧
    acts s' = acts s ++ (Sent (sin6 (nw s)) ∘ request p <$> tvs) ++ printed p (line p e s (l ++ observed tr)) ∧
    static s' = static s ∧ zlen tvs = count p - sent (se s).
Proof.
  intros Hr Hn Hok Hs Hb. revert l Hr Hn Hok Hb. induction Hs as [s|s ev e s1 tr s' Hen Hh Hs IH]; intros l Hr Hn Hok Hb.
  { destruct Hr. congruence. }
  apply Forall_cons in Hn as [Hns Hn]. apply Forall_cons in Hok as [Hsd Hok]. cbn in Hns, Hsd.
  change (observed ((ev, e) :: tr)) with (observed1 ev e ++ observed tr). rewrite app_assoc.
  pose proof (step_running ev e l s s1 Hr Hen Hns Hh) as Ho. set (l' := l ++ observed1 ev e) in *.
  destruct Ho as [Hr' Hst Hse Ha _|Hr' Hst _ Hse Ha _ _|Hi Hst Hse Ha|text Hi _ Hf _ _].
  - destruct (IH _ Hr' Hn Hok Hb) as (ev' & e' & tvs & Hlast & Hsub & Ha' & Hst' & Hl). exists ev', e', tvs.
    split; [by apply last_later|]. split; [by apply sublist_cons|].
    assert (sin6 (nw s1) = sin6 (nw s)) as <- by (by injection Hst).
    rewrite (line_static p e' s s1) by done. rewrite <- Ha, <- Hse. split; [done|]. split; [congruence|done].
  - destruct (IH _ Hr' Hn Hok Hb) as (ev' & e' & tvs & Hlast & Hsub & Ha' & Hst' & Hl). exists ev', e', (xmit_tod e :: tvs).
    split; [by apply last_later|]. split; [by apply sublist_skip|].
    assert (sin6 (nw s1) = sin6 (nw s)) as Hsin by (by injection Hst). rewrite Hsin, Ha, <- app_assoc in Ha'.
    rewrite (line_static p e' s s1) by done. split; [done|]. split; [congruence|]. rewrite zlen_cons. lia.
  - destruct (idle_steps _ _ _ Hi Hn Hs) as [-> ->]. exists ev, e, []. cbn [observed mbind list_bind]. rewrite app_nil_r.
    split; [done|]. split; [apply sublist_nil_l|].
    split; [done|]. split; [done|]. rewrite Hse, zlen_nil. lia.
  - destruct Hf. unfold sendable. by rewrite Hsd.
Qed.

End Main.


(** A measurement that is sending ends, in whatever order replies arrive and timers
    fire: either it is over and has printed its line, or fewer than
    [2 * count] timers have fired and another one is set. *)
Theorem ntp_ends p s tr s' :
  params_ok p → reachable p s → event_socket (nw s) = true → no_start tr → steps p s tr s' →
  (busy (se s') = false ∧ outputs (acts s') = (outputs (acts s) + 1)%nat ∧ timers tr ≤ 2 * count p) ∨
  (busy (se s') = true ∧ (timer_timeout (nw s') ≠ None ∨ timer_gap (nw s') ≠ None) ∧ timers tr < 2 * count p).
Proof.
  intros Hp Hr Hev Hn Hs. pose proof (ntp_reachable_inv p Hp s Hr) as Hi.
  destruct (inv_phase _ _ Hi) as [[] _|[] _|l Hrun _]; [congruence|congruence|].
  pose proof (steps_measure p Hp l s tr s' Hrun Hn Hs) as Hm. pose proof (measure_pos p l s Hrun).
  destruct (steps_phase p Hp l s tr s' Hrun Hn Hs) as [[[l' Hrun'] _]|[Hidle Ho]]; [right|left].
  - pose proof (measure_pos p l' s' Hrun'). pose proof (running_pending p l' s' Hrun') as Hpe. destruct Hrun'.
    rewrite r_busy in *. split; [done|]. split; [|lia]. unfold pending in Hpe.
    destruct (timer_timeout (nw s')); [by left|]. destruct (timer_gap (nw s')); [by right|lia].
  - rewrite (i_busy _ Hidle) in *. split; [done|]. split; [done|]. lia.
Qed.

(** C6: A measurement whose name resolves to an allowed address and whose requests can be
    sent: when it is over it has sent exactly [count] requests to that address, each made from the time
    of the callback that sent it, in the order of the callbacks, and printed one line, with the name and the times of its last callback.  The array of the line has, in the order of the callbacks, one entry for
    each packet of at least 48 bytes that was received and one for each time-out, whatever the order and number
    of the replies and timers in between: what the reply held and the time of its receipt, or a star.  A reply is not compared with a request (see [ntp_late_reply], [ntp_reply_unmatched]), so that
    there need not be one entry for each request. *)
Theorem ntp_measurement p s0 e0 e1 d dlen tr s' :
  params_ok p → reachable p s0 → busy (se s0) = false →
  (interface p = None ∨ bind_interface e1 = true) → connect e1 = None → sendto e1 = None →
  good_address e1 d dlen → no_start tr → Forall (λ x, sendto x.2 = None) tr →
  steps p s0 ((Start, e0) :: (Resolved None [(d, dlen)], e1) :: tr) s' → busy (se s') = false →
  ∃ ev e tvs, last tr = Some (ev, e) ∧ sublist tvs (xmit_tod e1 :: send_times tr) ∧
           acts s' = acts s0 ++ [Resolve (hostname p)] ++ (Sent d ∘ request p <$> tvs) ++
                     printed p (line p e s' (observed tr)) ∧
           zlen tvs = count p ∧ sin6 (nw s') = d ∧ Some (loc_sin6 (nw s'), loc_socklen (nw s')) = sockname e1.
Proof.
  intros Hp Hr Hb Hif Hco Hsd [Hdl Hok] Hn Hsend Hs Hb'. pose proof (ntp_reachable_inv p Hp s0 Hr) as Hi.
  inversion Hs as [|? ? ? s1 ? ? [He0 _] Hh0 Hs1]; subst. inversion Hs1 as [|? ? ? s2 ? ? Hen1 Hh1 Hs2]; subst.
  pose proof (ntp_start_inv p e0 s0 Hi He0) as H. unfold wp in H. cbn [handle] in Hh0. rewrite Hh0 in H.
  destruct H as [Hi1 Hres]. destruct (Hres Hb) as (Hres1 & _ & Ha1). clear Hres. pose proof Hen1 as (He1 & _).
  assert (wp (dns_cb p e1 None [(d, dlen)]) (λ _ s2, running p [] s2 ∧ sent (se s2) = 1 ∧ sin6 (nw s2) = d ∧
            Some (loc_sin6 (nw s2), loc_socklen (nw s2)) = sockname e1 ∧
            acts s2 = acts s1 ++ [Sent d (request p (xmit_tod e1))]) s1) as H.
  { by apply resolved_running. }
  unfold wp in H. cbn [handle] in Hh1. rewrite Hh1 in H. destruct H as (Hrun & Hse & Hsin & Hloc & Ha2).
  destruct (steps_line p Hp [] s2 tr s' Hrun Hn Hsend Hs2 Hb') as (ev & e & tvs & Hlast & Hsub & Ha & Hst & Hl).
  exists ev, e, (xmit_tod e1 :: tvs). split; [done|]. split; [by apply sublist_skip|]. rewrite (line_static p e s' s2) by done. rewrite Hsin in Ha. rewrite Ha, Ha2, Ha1, <- !app_assoc.
  split; [done|]. rewrite zlen_cons. split; [lia|]. unfold static in Hst. split; [congruence|]. rewrite <- Hloc. congruence.
Qed.

(** ** Requests *)

(** The request [send_pkt] writes, whatever was in the shared buffer: a client request of
    version 4 with reference id "RIPE" and the time it is sent as transmit time, all
    other fields zero; and, when a size was given, an extension field of that
    size, whose length field is right. *)
Theorem ntp_request_wellformed p old tv :
  length old = 4096%nat → size_ok (size p) →
  ∃ b, put_request p (Some <$> old) tv = Done (b, 48 + size p) ∧
    load_hdr b = Done (NH (4 * 8 + 3) 0 0 0 0 0 (str "RIPE") (NTS 0 0) (NTS 0 0) (NTS 0 0) (ntp_time tv)) ∧
    (0 < size p → be_at b 48 2 = Done NTP_EXT_MESSAGE ∧ be_at b 50 2 = Done (size p)).
Proof.
  intros Ho Hs. rewrite put_request_spec by done. eexists. split; [done|].
  pose proof (ntp_length_request p tv Hs) as Hl. set (post := drop _ old).
  assert (0 ≤ size p) by (destruct Hs; lia). rewrite load_hdr_of by lia. split.
  - assert (∀ tv, be_value (be32 (ntp_seconds (ntp_time tv))) = ntp_seconds (ntp_time tv)) as E1
      by (intros; apply be_value_be32; unfold ntp_time; cbn; apply Z.mod_pos_bound; lia).
    assert (∀ tv, be_value (be32 (ntp_fraction (ntp_time tv))) = ntp_fraction (ntp_time tv)) as E2
      by (intros; apply be_value_be32; unfold ntp_time; cbn [ntp_fraction]; apply Z.mod_pos_bound; lia).
    transitivity (Done (NH (4 * 8 + 3) 0 0 0 0 0 (str "RIPE") (NTS 0 0) (NTS 0 0) (NTS 0 0)
      (NTS (be_value (be32 (ntp_seconds (ntp_time tv)))) (be_value (be32 (ntp_fraction (ntp_time tv))))))); [reflexivity|].
    by rewrite E1, E2.
  - intros Hp. pose proof (zlen_nonneg post).
    assert (∀ k, 48 ≤ k → field (request p tv ++ post) k 2 = field (extension (size p) ++ post) (k - 48) 2) as Hf.
    { intros k Hk. unfold field. f_equal. replace (Z.to_nat k) with (48 + Z.to_nat (k - 48))%nat by lia.
      rewrite <- drop_drop. by f_equal. }
    rewrite !be_at_field by (rewrite ?zlen_app; destruct Hs; lia). rewrite !Hf by lia.
    destruct Hs as [Hs|Hs]; [lia|]. unfold extension. rewrite (proj2 (Z.ltb_lt _ _)) by lia. split; [reflexivity|].
    change (field _ (50 - 48) 2) with (be16 (size p)). by rewrite be16_value_of by lia.
Qed.

(** ** Creation *)

(** A measurement gets an entry of the table of its own and leaves those of the others; it
    is only made with a pause of two to sixty seconds, an extension that is empty or
    a multiple of four bytes between 28 and 1184, valid identifiers, and an output
    file below the directory for new results. *)
Theorem ntp_init_checked spool fz new uns app base0 o me done_ p s :
  table base0 ≠ [] → 0 ≤ o_size o → ntp_init spool fz new uns app base0 (Some o) me done_ = Some (p, s) →
  table (base s) !! index p = Some (Some me) ∧ self p = me ∧
  (∀ j owner, table base0 !! j = Some (Some owner) → j ≠ index p ∧ table (base s) !! j = Some (Some owner)) ∧
  2000000 ≤ gap p ≤ 60000000 ∧ size_ok (size p) ∧ size p `mod` 4 = 0 ∧
  (∀ id, atlas p = Some id ∨ bundle p = Some id → validate_atlas_id id ≠ 0) ∧
  (∀ fn, out_filename p = Some fn → ∃ n, rebased_validated_filename uns spool n new = Some fn) ∧
  s = new_state (base s).
Proof.
  intros Hne Hsz E. unfold ntp_init in E. cbn [mbind option_bind] in E.
  destruct (_ || _) eqn:Eg; [done|]. apply orb_false_iff in Eg as [Eg1%Z.ltb_ge Eg2%Z.ltb_ge].
  unfold NTP_GAP_MIN_MS, NTP_GAP_MAX_MS in *.
  apply bind_Some in E as ([] & _ & E). apply bind_Some in E as ([] & _ & E). apply bind_Some in E as (out & Eo & E).
  apply bind_Some in E as ([] & Ea & E). apply bind_Some in E as ([] & Eb & E).
  destruct (bad_size (o_size o)) eqn:Es; [done|]. unfold bad_size in Es.
  apply orb_false_iff in Es as [Es Es4%negb_false_iff%Z.eqb_eq]. apply orb_false_iff in Es as [Es Es3].
  apply orb_false_iff in Es as [_ Es2%Z.ltb_ge].
  destruct (alloc_slot (table base0)) as [i table'] eqn:Et. injection E as <- <-. cbn.
  destruct (alloc_slot_spec _ _ _ Hne Et) as [Hi Hj].
  split; [by apply list_lookup_insert_eq|]. split; [done|].
  split; [intros j owner E; destruct (Hj j owner E); split; [done|]; by rewrite list_lookup_insert_ne|].
  assert (u32 (o_gap o * 1000) = o_gap o * 1000) as -> by (apply Z.mod_small; lia). split; [lia|].
  assert (u16 (o_size o) = o_size o) as -> by (apply Z.mod_small; lia).
  split; [|split; [done|split; [|split; [|done]]]].
  - unfold size_ok. apply andb_false_iff in Es3 as [H%Z.ltb_ge|H%Z.ltb_ge]; lia.
  - intros id [E|E]; [apply (check_name_Some _ _ id Ea) in E|apply (check_name_Some _ _ id Eb) in E];
      apply negb_true_iff, Z.eqb_neq in E; done.
  - intros fn ->. destruct (o_out o) as [n|]; [|done]. apply bind_Some in Eo as (v & Ev & Eo).
    destruct app; [|done]. injection Eo as ->. eauto.
Qed.
