(* ===== verification/NtpCases.v ===== *)
(** * NTP: cases

    Concrete measurements at which the theorems apply, and the inputs on which
    the code does not do what it means to. *)

From stdpp Require Import base list list_numbers numbers option strings.
From Stdlib Require Import ZArith Lia.
From Stdlib Require Import Floats.SpecFloat.
From S2P Require Import Prelude Bits Blocks Cstr Packet Double Wp Validate Results NtpFormat NtpTime Ntp NtpProofs NtpText NtpLife NtpMain.

Open Scope Z_scope.

(** ** A measurement *)

Definition ex_params (count size : Z) : params :=
  P 7 0 (Some (str "1001")) None (str "host") None None false count size 1000000 4000000 true.
Definition ex_host (sa : sockaddr) (_ : Z) : list Z :=
  match sa with AF_INET a => print_dec a | _ => str "::" end.
Definition ex_env (t : Z) : env :=
  ENV (TS t 500) (TV (1700000000 + t) 250000) (TV (1700000000 + t) 250000) None true true None
      (Some (AF_INET 0x01020304, 16)) true (str "V") 1 2 false false ex_host (λ _, str "error").
Definition ex_state : ntpstate := new_state (NB [Some 7%nat] (replicate 4096 (Some 0))).
Definition ex_dst : sockaddr := AF_INET 0x08080808.

(** A server reply: stratum 1, times half a second after the request of time [t]. *)
Definition ex_reply (flags t : Z) : list Z :=
  [flags; 1; 6; 0xec] ++ be32 0 ++ be32 0x10 ++ str "GPS" ++ [0] ++ be32 3908988000 ++ be32 0 ++
  be32 (3908988800 + t) ++ be32 (2 ^ 30) ++ be32 (3908988800 + t) ++ be32 (3 * 2 ^ 30) ++
  be32 (3908988800 + t) ++ be32 (3 * 2 ^ 30 + 2 ^ 20).

Definition state_of (d : ntpstate) (o : outcome (unit * ntpstate)) : ntpstate :=
  match o with Done (_, s) => s | Crash _ => d end.
(** The state after some callbacks. *)
Definition after (p : params) (tr : list (event_t * env)) (s : ntpstate) : ntpstate :=
  fold_left (λ s x, state_of s (handle p x.1 x.2 s)) tr s.

Lemma ntp_ex_params_ok n : 1 ≤ n ≤ 127 → params_ok (ex_params n 0).
Proof. intros H. split; [done|by left]. Qed.
Lemma ntp_ex_env_ok n t : 0 ≤ t < 2 ^ 60 → env_ok (ex_params n 0) (ex_env t).
Proof. intros H. split; [by left|]. split; [done|]. split; [done|]. by split; [|eexists]. Qed.
Lemma ntp_ex_reachable p : reachable p ex_state.
Proof. apply reach_new. exists (replicate 4096 0). by rewrite fmap_replicate. Qed.

Definition ex_begin : list (event_t * env) := [(Start, ex_env 10); (Resolved None [(ex_dst, 16)], ex_env 10)].
Definition ex_sending (n : Z) : ntpstate := after (ex_params n 0) ex_begin ex_state.

Lemma ex_resolved n s : busy (se s) = true → dnsip (se s) = true → enabled (ex_params n 0) (Resolved None [(ex_dst, 16)]) (ex_env 10) s.
Proof. intros Hb Hd. split; [by apply ntp_ex_env_ok|]. split; [done|]. split; [done|]. intros _. by eexists _, _, _. Qed.

Lemma ntp_ex_sending_reachable : reachable (ex_params 2 0) (ex_sending 2).
Proof.
  apply (reach_step _ (after (ex_params 2 0) [(Start, ex_env 10)] ex_state) (Resolved None [(ex_dst, 16)]) (ex_env 10)).
  - apply (reach_step _ ex_state Start (ex_env 10)); [apply ntp_ex_reachable|split; [by apply ntp_ex_env_ok|done]|].
    vm_compute. reflexivity.
  - apply ex_resolved; vm_compute; reflexivity.
  - vm_compute. reflexivity.
Qed.


Lemma ntp_ends_witness :
  let s' := after (ex_params 2 0) [(Timeout, ex_env 11); (Gap, ex_env 14); (Timeout, ex_env 15)] (ex_sending 2) in
  (busy (se s') = false ∧ outputs (acts s') = (outputs (acts (ex_sending 2)) + 1)%nat ∧
     timers [(Timeout, ex_env 11); (Gap, ex_env 14); (Timeout, ex_env 15)] ≤ 2 * 2) ∨
  (busy (se s') = true ∧ (timer_timeout (nw s') ≠ None ∨ timer_gap (nw s') ≠ None) ∧
     timers [(Timeout, ex_env 11); (Gap, ex_env 14); (Timeout, ex_env 15)] < 2 * 2).
Proof.
  apply (ntp_ends (ex_params 2 0) (ex_sending 2)).
  - by apply ntp_ex_params_ok.
  - apply ntp_ex_sending_reachable.
  - vm_compute. reflexivity.
  - by repeat constructor.
  - repeat (eapply steps_cons; [split; [by apply ntp_ex_env_ok|vm_compute; discriminate]|vm_compute; reflexivity|]).
    apply steps_nil.
Defined.

(** The two time differences of the reply do not overflow. *)
Lemma ex_reply_ok : recv_ok (ex_env 11) (ex_reply 0x24 10).
Proof.
  split.
  - unfold ex_reply. rewrite !Forall_app. repeat split; try apply Forall_cons_2; auto; repeat constructor; unfold is_byte; cbn; lia.
  - intros _. split; vm_compute; split; congruence.
Qed.

Definition ex_trace : list (event_t * env) := [(Ready (Some (ex_reply 0x24 10)), ex_env 11)].
Definition ex_done : ntpstate := after (ex_params 1 0) ex_trace (ex_sending 1).

Lemma ntp_measurement_witness :
  ∃ ev e tvs, last ex_trace = Some (ev, e) ∧ sublist tvs (xmit_tod (ex_env 10) :: send_times ex_trace) ∧
           acts ex_done = acts ex_state ++ [Resolve (str "host")] ++ (Sent ex_dst ∘ request (ex_params 1 0) <$> tvs) ++
                     printed (ex_params 1 0) (line (ex_params 1 0) e ex_done (observed ex_trace)) ∧
           zlen tvs = 1 ∧ sin6 (nw ex_done) = ex_dst ∧
           Some (loc_sin6 (nw ex_done), loc_socklen (nw ex_done)) = sockname (ex_env 10).
Proof.
  apply (ntp_measurement (ex_params 1 0) ex_state (ex_env 10) (ex_env 10) ex_dst 16 ex_trace ex_done).
  - by apply ntp_ex_params_ok.
  - apply ntp_ex_reachable.
  - done.
  - by left.
  - done.
  - done.
  - split; [done|]. vm_compute. discriminate.
  - by repeat constructor.
  - by repeat constructor.
  - eapply steps_cons; [split; [by apply ntp_ex_env_ok|done]|vm_compute; reflexivity|].
    eapply steps_cons; [apply ex_resolved; vm_compute; reflexivity|vm_compute; reflexivity|].
    eapply steps_cons; [|vm_compute; reflexivity|apply steps_nil].
    split; [by apply ntp_ex_env_ok|]. split; [vm_compute; reflexivity|]. intros data [= <-]. apply ex_reply_ok.
  - vm_compute. reflexivity.
Defined.

(** The array of its line. *)
Example ex_results :
  results_text (observed ex_trace) =
  str "{ " ++ DBQ "origin-ts" ++ str ": 3908988810.250000000, " ++ DBQ "receive-ts" ++ str ": 3908988810.750000000, " ++
  DBQ "transmit-ts" ++ str ": 3908988810.750244141, " ++ DBQ "final-ts" ++ str ": 3908988811.250000000, " ++
  DBQ "rtt" ++ str ": 0.999756, " ++ DBQ "offset" ++ str ": 0.000122 }".
Proof. vm_compute. reflexivity. Qed.

Lemma ntp_request_wellformed_witness :
  ∃ b, put_request (ex_params 1 32) (Some <$> replicate 4096 7) (TV 1700000000 250000) = Done (b, 48 + 32) ∧
    load_hdr b = Done (NH (4 * 8 + 3) 0 0 0 0 0 (str "RIPE") (NTS 0 0) (NTS 0 0) (NTS 0 0) (ntp_time (TV 1700000000 250000))) ∧
    (0 < 32 → be_at b 48 2 = Done NTP_EXT_MESSAGE ∧ be_at b 50 2 = Done 32).
Proof. apply (ntp_request_wellformed (ex_params 1 32)); [done|]. right. cbn. lia. Defined.

(** ** Creation *)

Definition ex_options (count : Z) : options :=
  OPT false count None 32 1000 4000 (Some (str "1001")) None None None None (str "host").
Definition ex_created (count : Z) : option (params * ntpstate) :=
  ntp_init (str "/spool") (str "data") (str "new") false true ntp_base_new (Some (ex_options count)) 7 true.

Definition ex_made : params * ntpstate := default (ex_params 0 0, ex_state) (ex_created 3).

Lemma ntp_init_checked_witness :
  let p := ex_made.1 in let s := ex_made.2 in
  table (base s) !! index p = Some (Some 7%nat) ∧ self p = 7%nat ∧
  (∀ j owner, table ntp_base_new !! j = Some (Some owner) → j ≠ index p ∧ table (base s) !! j = Some (Some owner)) ∧
  2000000 ≤ gap p ≤ 60000000 ∧ size_ok (size p) ∧ size p `mod` 4 = 0 ∧
  (∀ id, atlas p = Some id ∨ bundle p = Some id → validate_atlas_id id ≠ 0) ∧
  (∀ fn, out_filename p = Some fn → ∃ n, rebased_validated_filename false (str "/spool") n (str "new") = Some fn) ∧
  s = new_state (base s).
Proof.
  apply (ntp_init_checked (str "/spool") (str "data") (str "new") false true ntp_base_new (ex_options 3) 7 true ex_made.1 ex_made.2).
  - done.
  - cbn. lia.
  - vm_compute. reflexivity.
Defined.

(** ** Where the code departs from what it means to do *)

(** The last line printed by a run. *)
Definition printed_lines (s : ntpstate) : list (list Z) := omap (λ a, match a with Output t => Some t | _ => None end) (acts s).

(** [-c 200] is accepted, but the count is kept in a [char]: nothing is sent, and the array of the line is
    not JSON. *)
Theorem ntp_count_wraps :
  (count <$> (fst <$> ex_created 200)) = Some (-56) ∧
  let s := after (ex_params (s8 200) 0) ex_begin ex_state in
  requests (acts s) = 0 ∧
  (reverse <$> (take 19 ∘ reverse <$> printed_lines s)) = [DBQ "result" ++ str ": [  } ] }" ++ [10]].
Proof. vm_compute. split; [reflexivity|]. split; reflexivity. Qed.

(** A reply is not compared with the request: one that was made for another time counts, and its
    round-trip time is negative. *)
Theorem ntp_reply_unmatched :
  let s := after (ex_params 1 0) [(Ready (Some (ex_reply 0x24 3600)), ex_env 11)] (ex_sending 1) in
  busy (se s) = false ∧
  observed [(Ready (Some (ex_reply 0x24 3600)), ex_env 11)] = [Got (hdr_of (ex_reply 0x24 3600)) (ntp_time (tod (ex_env 11)))] ∧
  ntp_origin_ts (hdr_of (ex_reply 0x24 3600)) = NTS (3908988800 + 3600) (2 ^ 30) ∧
  print_outcome (rtt_double (bits (NTS (3908988800 + 3600) (2 ^ 30))) (bits (NTS (3908988800 + 3600) (3 * 2 ^ 30)))
    (bits (NTS (3908988800 + 3600) (3 * 2 ^ 30 + 2 ^ 20))) (bits (ntp_time (tod (ex_env 11))))) = str "-3589.000244".
Proof. vm_compute. split; [reflexivity|]. split; [reflexivity|]. split; reflexivity. Qed.

(** The times of a reply are trusted: it can make the difference of the differences overflow. *)
Definition ex_hostile : list Z :=
  [0x24; 1; 6; 0xec] ++ replicate 20 0 ++ be32 (u32 ((bits (ntp_time (tod (ex_env 11))) - (2 ^ 63 - 1)) ≫ 32)) ++
  be32 (u32 (bits (ntp_time (tod (ex_env 11))) - (2 ^ 63 - 1))) ++ replicate 7 0 ++ [1] ++ replicate 8 0.
Theorem ntp_rtt_overflow :
  ready_callback (ex_params 1 0) (ex_env 11) (Some ex_hostile) (ex_sending 1) = Crash Undefined.
Proof. vm_compute. reflexivity. Qed.

(** A reply of another version than the first begins with a comma: the line is not JSON. *)
Theorem ntp_version_comma :
  take 14 (entry (Some (hdr_of (ex_reply 0x24 10))) (Got (hdr_of (ex_reply 0x1c 10)) (ntp_time (tod (ex_env 11))))) =
  str ", " ++ DBQ "version" ++ str ": 3".
Proof. vm_compute. reflexivity. Qed.

(** When a request cannot be sent, the array and the line are closed twice. *)
Definition ex_unreachable (e : env) : env :=
  ENV (now e) (tod e) (xmit_tod e) (Some 101) (xsocket e) (bind_interface e) (connect e) (sockname e) (append_ok e)
      (version_str e) (timesync e) (time e) (host_is_literal e) (unsafe e) (numeric_host e) (strerror e).
Theorem ntp_send_error_text :
  let s := after (ex_params 2 0) [(Start, ex_env 10); (Resolved None [(ex_dst, 16)], ex_unreachable (ex_env 10))] ex_state in
  (reverse <$> (take 33 ∘ reverse <$> printed_lines s)) = [quote ++ str "sendto failed: error" ++ quote ++ str " } ] } ] }" ++ [10]] ∧
  busy (se s) = false.
Proof. vm_compute. split; reflexivity. Qed.

(** A late reply to the first request counts as the reply to the second. *)
Theorem ntp_late_reply :
  let s := after (ex_params 2 0) [(Timeout, ex_env 11); (Gap, ex_env 14); (Ready (Some (ex_reply 0x24 10)), ex_env 14)]
             (ex_sending 2) in
  busy (se s) = false ∧ requests (acts s) = 2.
Proof. vm_compute. split; reflexivity. Qed.
