(* ===== verification/Local.v ===== *)
(** * Local configuration

    What the measurements read from the probe itself: the resolvers of
    [/etc/resolv.conf] ([eperd/readresolv.c]), the number of the probe
    ([libbb/atlas_probe.c]), and the macros in the names of DNS queries that are replaced by
    the number, the time and random digits ([libbb/atlas_name_macro.c]).
    A file is the list of its bytes. *)

From stdpp Require Import base list list_numbers numbers option strings.
From Stdlib Require Import ZArith Lia.
From S2P Require Import Prelude Bits Blocks Cstr Packet Wp.

Open Scope Z_scope.

Definition nl : Z := 10.

(** [fgets(buf, size, fp)]: at most [n = size - 1] bytes, up to a newline, and the rest of the file. *)
Fixpoint fgets (n : nat) (file : list Z) : list Z * list Z :=
  match n, file with
  | O, _ | _, [] => ([], file)
  | S n', c :: file' => if c =? nl then ([c], file') else let '(l, rest) := fgets n' file' in (c :: l, rest)
  end.

(** ** Resolvers *)
Module Resolv.

Definition MAXNS : nat := 3.
Definition INET6_ADDRSTRLEN : nat := 46.
Definition LINEL : nat := INET6_ADDRSTRLEN * 2.
Definition RESOLV_CONF : list Z := str "/etc/resolv.conf".

Definition is_delim (c : Z) : bool := (c =? 32) || (c =? 9).

(** [strtok_r] with the delimiters [" \t"]: the next token and what is left. *)
Definition strtok_r (s : list Z) : option (list Z * list Z) :=
  match span (λ c, negb (is_delim c)) (span is_delim s).2 with
  | ([], _) => None
  | (tok, rest) => Some (tok, drop 1 rest)
  end.

(** The name server of a line; [None] for a result of 0. *)
Definition resolv_conf_parse_line (line : list Z) : option (list Z) :=
  '(first_token, state) ← strtok_r line;
  if bool_decide (first_token = str "nameserver") then
    '(nameserver, _) ← strtok_r state;
    Some (if bool_decide (last nameserver = Some nl) then take (length nameserver - 1) nameserver else nameserver)
  else None.

(** The loop over the lines; [fuel] bounds their number. *)
Fixpoint read_lines (fuel : nat) (file : list Z) (nslist : list (list Z)) : list (list Z) :=
  match fuel with
  | O => nslist
  | S fuel' =>
      let '(buf, rest) := fgets (LINEL - 1) file in
      if bool_decide (buf = []) then nslist
      else if (MAXNS <=? length nslist)%nat then nslist
      else read_lines fuel' rest (match resolv_conf_parse_line (cstr buf) with
                                  | Some ns => nslist ++ [ns]
                                  | None => nslist
                                  end)
  end.

(** [files] is the file system; the result is [nslist] up to [*resolv_max]. *)
Definition get_local_resolvers (files : list Z → option (list Z)) (ifname : option (list Z)) : list (list Z) :=
  let filename :=
    match ifname with
    | Some i =>
        let f := take 79 (RESOLV_CONF ++ str "." ++ i) in
        if bool_decide (is_Some (files f)) then f else RESOLV_CONF
    | None => RESOLV_CONF
    end in
  match files filename with
  | Some content => read_lines (S (length content)) content []
  | None => []
  end.
End Resolv.

(** ** The number of the probe *)
Module Probe.

(** [strtol] to a [long] in base 10, converted to [int]. *)
Definition strtol_int (s : list Z) : Z :=
  let '(_, s) := span isspace s in
  let '(neg, s) := match s with 45 :: s' => (true, s') | 43 :: s' => (false, s') | _ => (false, s) end in
  let v := value_of 10 (span isdigit s).1 in
  let v := if neg : bool then - v else v in
  s32 (if v <? - 2 ^ 63 then - 2 ^ 63 else if LONG_MAX <? v then LONG_MAX else v).

Definition key : list Z := str "PROBE_ID ".

Fixpoint find_id (fuel : nat) (file : list Z) : Z :=
  match fuel with
  | O => -1
  | S fuel' =>
      let '(buf, rest) := fgets 79 file in
      if bool_decide (buf = []) then -1
      else
        let buf := cstr buf in
        if bool_decide (nl ∉ buf) then find_id fuel' rest
        else if bool_decide (take (length key) buf ≠ key) || (length buf <=? length key)%nat then find_id fuel' rest
        else strtol_int (drop (length key) buf)
  end.

(** [probe_id] is the static variable; the result, and its new value. *)
Definition get_probe_id (reg_init_reply : option (list Z)) (probe_id : Z) : Z * Z :=
  if 0 <? probe_id then (probe_id, probe_id)
  else match reg_init_reply with
       | None => (-1, probe_id)
       | Some content => let id := find_id (S (length content)) content in (id, id)
       end.
End Probe.

(** ** Macros in names *)
Module Macro.

Definition sizeof_buf : Z := 256.
Definition hex_chars : list Z := str "0123456789abcdef".
Definition dollar : Z := 36.

(** [snprintf] and [strlcpy] into the buffer at [out]: what fits, and a NUL. *)
Definition put_text (buf : blk Z) (out : Z) (text : list Z) : outcome (blk Z) :=
  let room := sizeof_buf - out in
  if room <=? 0 then Done buf
  else store_at buf out (take (Z.to_nat (room - 1)) text ++ [0]).

(** Two digits per byte. *)
Fixpoint put_random (buf : blk Z) (out : Z) (bytes : list Z) : outcome (blk Z * Z) :=
  match bytes with
  | [] => Done (buf, out)
  | c :: bytes' =>
      buf ← store_at buf out [default 0 (hex_chars !! Z.to_nat (Z.land (c ≫ 4) 0xf));
                              default 0 (hex_chars !! Z.to_nat (Z.land c 0xf))];
      put_random buf (out + 2) bytes'
  end.

(** [strlen] of the string at [out]. *)
Definition strlen_at (buf : blk Z) (out : Z) : outcome Z := l ← load_cstr (drop (Z.to_nat out) buf); mret (zlen l).

(** What [get_probe_id], [time] and [/dev/urandom] answer at the [k]-th macro of the name, from 0; [None] when the device cannot be
    opened or read. *)
Section Expand.
Context (probe_id now : nat → Z) (urandom : nat → option (list Z)).

(** [random_buf] after the attempt to read; without a result it keeps what it held, at first nothing. *)
Definition read_random (k : nat) (random_buf : blk Z) : blk Z :=
  match urandom k with
  | Some l => (Some <$> take 8 l) ++ drop (length (take 8 l)) random_buf
  | None => random_buf
  end.

(** One macro; [None] for [return NULL]. *)
Definition put_macro (k : nat) (c : option Z) (random_buf buf : blk Z) (out : Z) : outcome (option (blk Z * blk Z * Z)) :=
  match c with
  | Some 112 => buf ← put_text buf out (print_int (probe_id k)); mret (Some (random_buf, buf, out))
  | Some 116 => buf ← put_text buf out (print_int (now k)); mret (Some (random_buf, buf, out))
  | Some 114 =>
      if sizeof_buf - out <? 8 * 2 + 1 then mret None
      else
        let random_buf := read_random k random_buf in
        bytes ← loadn random_buf 0 8;
        '(buf, out) ← put_random buf out bytes;
        buf ← store_at buf out [0];
        mret (Some (random_buf, buf, out))
  | _ => mret None
  end.

(** The loop; [fuel] bounds the rounds, every one of which uses two characters or is the last. *)
Fixpoint expand_loop (fuel k : nat) (inp : list Z) (random_buf buf : blk Z) (out : Z) : outcome (option (list Z)) :=
  match fuel with
  | O => Crash OutOfFuel
  | S fuel' =>
      match inp with
      | [] => l ← load_cstr buf; mret (Some l)
      | _ =>
          match split_at dollar inp with
          | None => buf ← put_text buf out inp; l ← load_cstr buf; mret (Some l)
          | Some (before, p) =>
              let len := zlen before in
              r ← (if bool_decide (before = []) then mret (Some (buf, out))
                   else if sizeof_buf - out <? len + 1 then mret None
                   else buf ← store_at buf out (before ++ [0]); mret (Some (buf, out + len)));
              match r with
              | None => mret None
              | Some (buf, out) =>
                  r ← put_macro k (p !! 1%nat) random_buf buf out;
                  match r with
                  | None => mret None
                  | Some (random_buf, buf, out) =>
                      n ← strlen_at buf out;
                      expand_loop fuel' (S k) (drop 2 p) random_buf buf (out + n)
                  end
              end
          end
      end
  end.

(** [None] for [NULL]. *)
Definition atlas_name_macro (s : list Z) : outcome (option (list Z)) :=
  if bool_decide (dollar ∉ s) then Done (Some s)
  else expand_loop (S (length s)) 0 s (replicate 8 None) (replicate (Z.to_nat sizeof_buf) None) 0.
End Expand.
End Macro.
