(* ===== verification/LocalProofs.v ===== *)
(** * Local configuration: proofs

    [atlas_name_macro] stays within its buffer and expands macros as they
    are described; the resolvers are those of the lines of the file. *)

From stdpp Require Import base list list_numbers numbers option strings.
From Stdlib Require Import ZArith Lia.
From S2P Require Import Prelude Bits Blocks Cstr Packet Wp Local.

Open Scope Z_scope.

(** ** Macros in names *)
Section Macros.
Import Macro.
Context (probe_id now : nat → Z) (urandom : nat → option (list Z)).

Definition hex2 (c : Z) : list Z :=
  [default 0 (hex_chars !! Z.to_nat (Z.land (c ≫ 4) 0xf)); default 0 (hex_chars !! Z.to_nat (Z.land c 0xf))].

(** The text of the [k]-th macro. *)
Definition macro_text (k : nat) (c : Z) : option (list Z) :=
  if c =? 112 then Some (print_int (probe_id k))
  else if c =? 116 then Some (print_int (now k))
  else if c =? 114 then bytes ← urandom k; Some (mjoin (hex2 <$> bytes))
  else None.

(** The device gives eight bytes each time. *)
Definition urandom_ok : Prop := ∀ k, ∃ l, urandom k = Some l ∧ length l = 8%nat ∧ Forall is_byte l.

(** What a name stands for, with [k] macros before it; [None] when a macro is not known. *)
Fixpoint expansion (k : nat) (s : list Z) : option (list Z) :=
  match s with
  | [] => Some []
  | c :: s' =>
      if c =? dollar then
        match s' with
        | m :: s'' => t ← macro_text k m; e ← expansion (S k) s''; Some (t ++ e)
        | [] => None
        end
      else e ← expansion k s'; Some (c :: e)
  end.

Lemma expansion_app k a s : dollar ∉ a → expansion k (a ++ s) = (e ← expansion k s; Some (a ++ e)).
Proof.
  induction a as [|c a IH]; intros Ha; cbn [app expansion].
  - by destruct (expansion k s).
  - apply not_elem_of_cons in Ha as [Hc Ha]. rewrite IH by done.
    destruct (Z.eqb_spec c dollar); [congruence|]. by destruct (expansion k s).
Qed.

(** The buffer holds [t]; [term]: and a NUL behind it. *)
Record held (buf : blk Z) (t : list Z) (term : bool) : Prop := HELD {
  held_len : length buf = 256%nat;
  held_fits : zlen t ≤ 255;
  held_nz : nonul t;
  held_text : ∃ tail, buf = (Some <$> t) ++ tail ∧ (term = true → head tail = Some (Some 0))
}.

Lemma put_held buf t term x : held buf t term → nonul x → zlen t + zlen x ≤ 255 →
  ∃ buf', store_at buf (zlen t) (x ++ [0]) = Done buf' ∧ held buf' (t ++ x) true.
Proof.
  intros [Hl Hf Hz (tail & Eb & _)] Hx Hfit. rewrite Eb in Hl.
  assert (length tail = 256 - length t)%nat as Ht by (rewrite length_app, length_fmap in Hl; lia).
  unfold store_at. rewrite Eb. unfold zlen in *. rewrite Nat2Z.id.
  rewrite store_grown by (rewrite length_app; cbn; lia). eexists. split; [done|].
  assert ((Some <$> t ++ x ++ [0]) ++ drop (length (x ++ [0])) tail =
          (Some <$> t ++ x) ++ Some 0 :: drop (length (x ++ [0])) tail) as ->
    by (rewrite app_assoc, !fmap_app, <- !app_assoc; done).
  split.
  - rewrite length_app, length_fmap. cbn. rewrite length_drop, !length_app. cbn. lia.
  - unfold zlen. rewrite length_app. lia.
  - by apply nonul_app.
  - by eexists.
Qed.

Lemma load_text t tail : nonul t → load_cstr ((Some <$> t) ++ Some 0 :: tail) = Done t.
Proof. intros Hz. by rewrite load_cstr_holds, cstr_nonul. Qed.
Lemma held_load buf t : held buf t true → load_cstr buf = Done t.
Proof.
  intros [_ _ Hz (tail & -> & Ht)]. specialize (Ht eq_refl). destruct tail as [|c tail]; [done|].
  cbn in Ht. injection Ht as ->. by apply load_text.
Qed.

(** [strlen(out)] after [x] was added. *)
Lemma held_strlen buf t x : held buf (t ++ x) true → strlen_at buf (zlen t) = Done (zlen x).
Proof.
  intros [Hl Hf Hz (tail & -> & Ht)]. unfold strlen_at, zlen. rewrite Nat2Z.id, fmap_app, <- app_assoc.
  rewrite drop_app_length' by (by rewrite length_fmap). apply Forall_app in Hz as [_ Hz].
  specialize (Ht eq_refl). destruct tail as [|c tail]; [done|]. cbn in Ht. injection Ht as ->. by rewrite load_text.
Qed.

Lemma put_text_held buf t term x : held buf t term → nonul x →
  ∃ buf', put_text buf (zlen t) x = Done buf' ∧ held buf' (t ++ take (255 - length t) x) true.
Proof.
  intros Hh Hx. pose proof (held_fits _ _ _ Hh). unfold put_text, sizeof_buf.
  destruct (Z.leb_spec (256 - zlen t) 0); [lia|].
  replace (Z.to_nat (256 - zlen t - 1)) with (255 - length t)%nat by (unfold zlen; lia).
  apply (put_held _ _ term); [done|by apply Forall_take|].
  unfold zlen in *. rewrite length_take. lia.
Qed.

Lemma nonul_hex2 c : nonul (hex2 c).
Proof.
  assert (∀ k, 0 ≤ k < 16 → default 0 (hex_chars !! Z.to_nat k) ≠ 0) as Hk.
  { intros k Hk. assert (Forall (λ i, default 0 (hex_chars !! i) ≠ 0) (seq 0 16)) as HF
      by (by apply (bool_decide_unpack _)). rewrite Forall_forall in HF. apply HF, elem_of_seq. lia. }
  unfold hex2. change 0xf with (2 ^ 4 - 1). rewrite !land_ones_mod by lia.
  repeat constructor; apply Hk, Z.mod_pos_bound; lia.
Qed.
Lemma nonul_random l : nonul (mjoin (hex2 <$> l)).
Proof. induction l as [|c l IH]; [constructor|]. rewrite join_cons. by apply nonul_app; [apply nonul_hex2|]. Qed.
Lemma length_random l : length (mjoin (hex2 <$> l)) = (2 * length l)%nat.
Proof. induction l as [|c l IH]; [done|]. rewrite join_cons, length_app, IH. cbn. lia. Qed.

Lemma put_random_held l : ∀ buf t term, held buf t term → Forall is_byte l → zlen t + 2 * zlen l ≤ 255 →
  ∃ buf', put_random buf (zlen t) l = Done (buf', zlen t + 2 * zlen l) ∧ held buf' (t ++ mjoin (hex2 <$> l)) false.
Proof.
  induction l as [|c l IH]; intros buf t term Hh Hl Hf.
  - exists buf. cbn. rewrite app_nil_r. split; [do 2 f_equal; unfold zlen; cbn; lia|].
    destruct Hh as [H1 H2 H3 (tail & H4 & _)]. split; try done. by exists tail.
  - apply Forall_cons in Hl as [Hc Hl]. rewrite zlen_cons in Hf. cbn [put_random]. fold (hex2 c).
    destruct Hh as [H1 H2 H3 (tail & H4 & _)]. rewrite H4 in H1. rewrite length_app, length_fmap in H1.
    pose proof (nonul_hex2 c) as Hz.
    assert (store_at buf (zlen t) (hex2 c) = Done ((Some <$> (t ++ hex2 c)) ++ drop 2 tail)) as E.
    { unfold store_at. rewrite H4. unfold zlen. rewrite Nat2Z.id. apply store_grown. unfold zlen in *. cbn. lia. }
    rewrite E. msimpl.
    destruct (IH ((Some <$> (t ++ hex2 c)) ++ drop 2 tail) (t ++ hex2 c) false) as (buf' & E' & Hh').
    + split.
      * rewrite length_app, length_fmap, length_app, length_drop. unfold zlen in *. cbn. lia.
      * rewrite zlen_app. change (zlen (hex2 c)) with 2. pose proof (zlen_nonneg l). lia.
      * by apply nonul_app.
      * by eexists.
    + done.
    + rewrite zlen_app. change (zlen (hex2 c)) with 2. lia.
    + exists buf'. rewrite zlen_app in E'. change (zlen (hex2 c)) with 2 in E'. rewrite zlen_cons.
      split; [rewrite E'; do 2 f_equal; lia|]. by rewrite join_cons, app_assoc.
Qed.


(** One macro: its text is added as far as there is room, or the call fails. *)
Lemma put_macro_held k rb buf t term c :
  held buf t term → length rb = 8%nat → urandom_ok →
  (∃ rb' buf' out x, put_macro probe_id now urandom k (Some c) rb buf (zlen t) = Done (Some (rb', buf', out)) ∧ length rb' = 8%nat ∧
     macro_text k c = Some x ∧ (out = zlen t ∨ out = zlen (t ++ x)) ∧ held buf' (take 255 (t ++ x)) true ∧
     strlen_at buf' out = Done (zlen (take 255 (t ++ x)) - out)) ∨
  (put_macro probe_id now urandom k (Some c) rb buf (zlen t) = Done None ∧
     ∀ x, macro_text k c = Some x → 255 < zlen (t ++ x)).
Proof.
  intros Hh Hlr Hok. pose proof (held_fits _ _ _ Hh) as Hf.
  assert (∀ x, nonul x → ∃ buf', put_text buf (zlen t) x = Done buf' ∧ held buf' (take 255 (t ++ x)) true ∧
            strlen_at buf' (zlen t) = Done (zlen (take 255 (t ++ x)) - zlen t)) as Htext.
  { intros x Hx. destruct (put_text_held buf t term x Hh Hx) as (buf' & E & Hh'). exists buf'.
    assert (take 255 (t ++ x) = t ++ take (255 - length t) x) as -> by (rewrite take_app, take_ge; [done|unfold zlen in Hf; lia]).
    split; [done|]. split; [done|]. rewrite (held_strlen _ _ _ Hh'), zlen_app. f_equal. lia. }
  unfold macro_text. destruct (Z.eqb_spec c 112) as [->|N1].
  { left. destruct (Htext _ (nonul_print_int (probe_id k))) as (buf' & E & Hh' & Es).
    exists rb, buf', (zlen t), (print_int (probe_id k)). cbn [put_macro]. rewrite E. msimpl. split_and!; auto. }
  destruct (Z.eqb_spec c 116) as [->|N2].
  { left. destruct (Htext _ (nonul_print_int (now k))) as (buf' & E & Hh' & Es).
    exists rb, buf', (zlen t), (print_int (now k)). cbn [put_macro]. rewrite E. msimpl. split_and!; auto. }
  destruct (Z.eqb_spec c 114) as [->|N3].
  - destruct (Hok k) as (random_buf & Eu & Hl8 & Hbr). rewrite Eu. cbn [mbind option_bind].
    cbn [put_macro]. unfold sizeof_buf, read_random. rewrite Eu, take_ge by lia. assert (zlen (mjoin (hex2 <$> random_buf)) = 16) as Hx
      by (unfold zlen; rewrite length_random, Hl8; done).
    destruct (Z.ltb_spec (256 - zlen t) (8 * 2 + 1)) as [Hlt|Hge].
    { right. split; [done|]. intros x [= <-]. rewrite zlen_app, Hx. lia. }
    rewrite (drop_ge rb), app_nil_r by lia.
    assert (loadn (Some <$> random_buf) 0 8 = Done random_buf) as -> by (rewrite <- (app_nil_r (Some <$> random_buf)), loadn_slice by lia; by rewrite drop_0, take_ge by lia).
    msimpl. left. destruct (put_random_held random_buf buf t term Hh Hbr) as (buf1 & E1 & H1); [unfold zlen in *; lia|].
    rewrite E1. msimpl. set (x := mjoin (hex2 <$> random_buf)) in *.
    assert (zlen t + 2 * zlen random_buf = zlen (t ++ x)) as -> by (rewrite zlen_app, Hx; unfold zlen; lia).
    destruct (put_held buf1 (t ++ x) false [] H1) as (buf2 & E2 & H2); [apply Forall_nil_2; exact I|rewrite zlen_app, Hx; change (zlen (@nil Z)) with 0; lia|].
    cbn [app] in E2. rewrite E2. msimpl. rewrite app_nil_r in H2.
    assert (take 255 (t ++ x) = t ++ x) as Htk by (apply take_ge; unfold zlen in *; rewrite length_app; lia).
    exists (Some <$> random_buf), buf2, (zlen (t ++ x)), x. rewrite Htk. split; [done|]. split; [by rewrite length_fmap|]. split; [done|]. split; [by right|]. split; [done|].
    rewrite (held_strlen buf2 (t ++ x) []); [f_equal; rewrite zlen_nil; lia|by rewrite app_nil_r].
  - right. assert (put_macro probe_id now urandom k (Some c) rb buf (zlen t) = Done None) as ->; [|done].
    unfold put_macro. destruct c as [|c|]; try done. do 7 (destruct c as [c|c|]; try done).
Qed.

(** The loop: the expansion cut at 255 characters, or [NULL] for an unknown macro or where
    there is no room. *)
Lemma expand_loop_ok fuel : ∀ k inp rb buf t term,
  held buf t term → (term = true ∨ inp ≠ []) → nonul inp → (length inp < fuel)%nat →
  length rb = 8%nat → urandom_ok →
  ∃ r, expand_loop probe_id now urandom fuel k inp rb buf (zlen t) = Done r ∧
    match r with
    | Some u => ∃ e, expansion k inp = Some e ∧ u = take 255 (t ++ e)
    | None => ∀ e, expansion k inp = Some e → 255 < zlen (t ++ e)
    end.
Proof.
  induction fuel as [|fuel IH]; intros k inp rb buf t term Hh Ht Hn Hl Hlr Hok; [lia|]. cbn [expand_loop].
  pose proof (held_fits _ _ _ Hh) as Hf.
  destruct inp as [|c0 inp0]; [|set (inp := c0 :: inp0) in *].
  { destruct Ht as [->|]; [|done]. rewrite (held_load _ _ Hh). msimpl. exists (Some t). split; [done|].
    exists []. split; [done|]. rewrite app_nil_r, take_ge; [done|unfold zlen in Hf; lia]. }
  destruct (split_at dollar inp) as [[before p]|] eqn:Esp.
  - apply split_at_Some in Esp as (Einp & Hb & Hp). destruct p as [|d p]; [done|]. injection Hp as ->.
    rewrite Einp, expansion_app by done. rewrite Einp in Hn. apply Forall_app in Hn as [Hnb Hnp].
    assert (∃ r, (if bool_decide (before = []) then mret (Some (buf, zlen t))
                  else if sizeof_buf - zlen t <? zlen before + 1 then mret None
                  else buf ← store_at buf (zlen t) (before ++ [0]); mret (Some (buf, zlen t + zlen before))) = Done r ∧
              match r with
              | Some (buf1, out) => out = zlen (t ++ before) ∧ ∃ term1, held buf1 (t ++ before) term1
              | None => 255 < zlen (t ++ before)
              end) as (r & Er & Hr).
    { case_bool_decide as Ebe.
      - exists (Some (buf, zlen t)). split; [done|]. subst. rewrite app_nil_r. eauto.
      - unfold sizeof_buf. destruct (Z.ltb_spec (256 - zlen t) (zlen before + 1)).
        + exists None. split; [done|]. rewrite zlen_app. lia.
        + destruct (put_held buf t term before Hh Hnb) as (buf1 & E1 & H1); [lia|].
          rewrite E1. msimpl. exists (Some (buf1, zlen t + zlen before)). split; [done|]. rewrite zlen_app. eauto. }
    rewrite Er. msimpl. destruct r as [[buf1 out]|].
    2:{ exists None. split; [done|]. intros e He. destruct (expansion k (dollar :: p)) as [e'|]; [|done].
        cbn in He. injection He as <-. rewrite app_assoc, (zlen_app (t ++ before)). pose proof (zlen_nonneg e'). lia. }
    destruct Hr as [-> [term1 H1]]. cbn [expansion]. change (dollar =? dollar) with true. cbv iota.
    change ((dollar :: p) !! 1%nat) with (p !! 0%nat). destruct p as [|m p].
    { exists None. split; [done|]. by intros e He. }
    change ((m :: p) !! 0%nat) with (Some m). change (drop 2 (dollar :: m :: p)) with p.
    destruct (put_macro_held k rb buf1 (t ++ before) term1 m H1 Hlr Hok) as
      [(rb2 & buf2 & out & x & E2 & Hlr2 & Ex & _ & H2 & Es)|[E2 Ex]]; rewrite E2; msimpl.
    + rewrite Es. msimpl. set (u := take 255 ((t ++ before) ++ x)) in *.
      replace (out + (zlen u - out)) with (zlen u) by lia. rewrite Ex. cbn [mbind option_bind].
      destruct (IH (S k) p rb2 buf2 u true H2) as (r & Er' & Hr); [by left| | |done|done|].
      * by apply Forall_cons in Hnp as [_ [_ Hnp]%Forall_cons].
      * rewrite Einp in Hl. rewrite length_app in Hl. cbn in Hl. lia.
      * exists r. split; [done|].
        assert (∀ e, take 255 (u ++ e) = take 255 (t ++ before ++ x ++ e)) as Hu.
        { intros e. unfold u. rewrite !app_assoc. set (y := (t ++ before) ++ x). rewrite !(take_app _ e).
          rewrite take_take, Nat.min_id. do 2 f_equal. rewrite length_take. lia. }
        destruct r as [v|].
        -- destruct Hr as (e & Ee & ->). rewrite Ee. cbn [mbind option_bind]. eexists. split; [done|]. apply Hu.
        -- intros e He. destruct (expansion (S k) p) as [e'|]; [|done]. cbn in He. injection He as <-. specialize (Hr e' eq_refl).
           unfold zlen, u in *. rewrite !length_app, length_take, !length_app in *. lia.
    + exists None. split; [done|]. intros e He. destruct (macro_text k m) as [x|]; [|done]. cbn in He.
      destruct (expansion (S k) p) as [e'|]; [|done]. cbn in He. injection He as <-. specialize (Ex x eq_refl).
      rewrite app_assoc, (app_assoc _ x). rewrite zlen_app. pose proof (zlen_nonneg e'). lia.
  - apply split_at_None in Esp. destruct (put_text_held buf t term inp Hh Hn) as (buf1 & E1 & H1).
    rewrite E1. msimpl. rewrite (held_load _ _ H1). msimpl. eexists. split; [done|]. exists inp. split.
    + rewrite <- (app_nil_r inp) at 1. rewrite expansion_app by done. cbn. by rewrite app_nil_r.
    + rewrite take_app, (take_ge t); [done|unfold zlen in Hf; lia].
Qed.

Lemma fresh_held : held (replicate (Z.to_nat sizeof_buf) None) [] false.
Proof. split; [done|done|constructor|]. by exists (replicate 256 None). Qed.


(** C37: when [/dev/urandom] can be read, [atlas_name_macro] stays within its buffer of 256 bytes on every name; its
    result is the name with each [$p], [$t] and [$r] replaced by the number of the probe,
    the time and sixteen hexadecimal digits of random bytes of its own, cut off at 255 characters if it has a macro; it is
    [NULL] only for an unknown macro or when the expansion has more than 255 (which the code finds out only before a
    macro [$r] or before text in front of a macro). *)
Theorem atlas_name_macro_correct s :
  nonul s → urandom_ok →
  ∃ r, atlas_name_macro probe_id now urandom s = Done r ∧
    match r with
    | Some u => ∃ e, expansion 0 s = Some e ∧ u = if bool_decide (dollar ∈ s) then take 255 e else e
    | None => ∀ e, expansion 0 s = Some e → 255 < zlen e
    end.
Proof.
  intros Hn Hok. unfold atlas_name_macro. case_bool_decide as Ed.
  - exists (Some s). split; [done|]. exists s. rewrite bool_decide_false by done. split; [|done].
    rewrite <- (app_nil_r s) at 1. rewrite expansion_app by done. cbn. by rewrite app_nil_r.
  - destruct (expand_loop_ok (S (length s)) 0 s (replicate 8 None) _ [] false fresh_held) as (r & E & Hr); try done; [|lia|].
    { right. intros ->. by apply not_elem_of_nil in Ed. }
    exists r. split; [exact E|]. destruct r as [u|]; [|done]. destruct Hr as (e & Ee & ->). exists e. split; [done|].
    by rewrite bool_decide_true.
Qed.
End Macros.

(** [$r.$p.$r] on probe 42: the two random parts are different. *)
Definition ex_urandom (k : nat) : option (list Z) := Some (replicate 8 (Z.of_nat k)).
Lemma ex_urandom_ok k : (k < 256)%nat → ∃ l, ex_urandom k = Some l ∧ length l = 8%nat ∧ Forall is_byte l.
Proof. intros Hk. exists (replicate 8 (Z.of_nat k)). split; [done|]. split; [done|]. apply Forall_replicate. unfold is_byte. lia. Qed.
Lemma atlas_name_macro_correct_witness :
  let urandom k := ex_urandom (k mod 256) in
  ∃ r, Macro.atlas_name_macro (λ _, 42) (λ _, 1700000000) urandom (str "$r.$p.$r") = Done r ∧
    match r with
    | Some u => ∃ e, expansion (λ _, 42) (λ _, 1700000000) urandom 0 (str "$r.$p.$r") = Some e ∧
                  u = if bool_decide (Macro.dollar ∈ str "$r.$p.$r") then take 255 e else e
    | None => ∀ e, expansion (λ _, 42) (λ _, 1700000000) urandom 0 (str "$r.$p.$r") = Some e → 255 < zlen e
    end.
Proof.
  apply (atlas_name_macro_correct (λ _, 42) (λ _, 1700000000) (λ k, ex_urandom (k mod 256))); [by apply nonul_str|].
  intros k. apply ex_urandom_ok. apply Nat.mod_upper_bound. lia.
Defined.
Example ex_macro :
  Macro.atlas_name_macro (λ _, 42) (λ _, 1700000000) ex_urandom (str "$r.$p.$r") = Done (Some (str "0000000000000000.42.0202020202020202")).
Proof. vm_compute. reflexivity. Qed.

(** Errors of the device are ignored: without random bytes the buffer is read uninitialised. *)
Theorem atlas_name_macro_uninitialised : Macro.atlas_name_macro (λ _, 42) (λ _, 1700000000) (λ _, None) (str "$r") = Crash Undefined.
Proof. vm_compute. reflexivity. Qed.

(** ** Resolvers *)
Section Resolvers.
Import Resolv.

(** The words of a line. *)
Fixpoint words_of (fuel : nat) (line : list Z) : list (list Z) :=
  match fuel with
  | O => []
  | S n => match strtok_r line with None => [] | Some (w, rest) => w :: words_of n rest end
  end.
Definition words (line : list Z) : list (list Z) := words_of (S (length line)) line.

(** The address of a line of [resolv.conf], which begins with the word [nameserver]. *)
Definition nameserver_of (line : list Z) : option (list Z) :=
  match words line with
  | kw :: addr :: _ => if bool_decide (kw = str "nameserver") then Some addr else None
  | _ => None
  end.

(** A line that fits the buffer. *)
Definition fits (line : list Z) : Prop := (length line < LINEL - 1)%nat ∧ (nl ∉ line) ∧ nonul line.
Definition text_of (lines : list (list Z)) : list Z := mjoin ((λ l, l ++ [nl]) <$> lines).

Lemma fgets_line n l rest : nl ∉ l → (length l < n)%nat → fgets n (l ++ nl :: rest) = (l ++ [nl], rest).
Proof.
  revert n. induction l as [|c l IH]; intros n Hl Hn; (destruct n as [|n]; [cbn in Hn; lia|]); cbn [app fgets].
  - done.
  - apply not_elem_of_cons in Hl as [Hc Hl]. destruct (Z.eqb_spec c nl); [congruence|].
    rewrite IH by (done || cbn in Hn; lia). done.
Qed.

(** A line whose last character is not a blank: the newline is part of its last word. *)
Definition trimmed (line : list Z) : Prop := match last line with Some c => is_delim c = false | None => True end.

Lemma span_app_all f a b : Forall (λ c, f c = true) a → (match b with x :: _ => f x = false | [] => True end) → span f (a ++ b) = (a, b).
Proof.
  induction 1 as [|c a Hc _ IH]; intros Hb; cbn [app]; [destruct b; cbn [span]; [done|]; by rewrite Hb|]. cbn [span].
  by rewrite Hc, IH.
Qed.
Lemma span_spec f s : ∃ a b, span f s = (a, b) ∧ s = a ++ b ∧ Forall (λ c, f c = true) a ∧
  (match b with x :: _ => f x = false | [] => True end).
Proof.
  induction s as [|c s (a & b & E & -> & Ha & Hb)]; [by exists [], []|]. cbn [span]. rewrite E.
  destruct (f c) eqn:Ec; [exists (c :: a), b; by repeat constructor|by exists [], (c :: a ++ b)].
Qed.

(** The first word with the newline that ends the line: either it is in the
    rest, or it belongs to the word. *)
Lemma strtok_newline line : trimmed line →
  match strtok_r line with
  | None => line = []
  | Some (w, rest) =>
      w ≠ [] ∧ (last w ≠ Some nl ∨ nl ∈ line) ∧ (length rest < length line)%nat ∧ trimmed rest ∧ (∀ x, x ∈ rest → x ∈ line) ∧
      ((rest = [] ∧ strtok_r (line ++ [nl]) = Some (w ++ [nl], [])) ∨
       (rest ≠ [] ∧ strtok_r (line ++ [nl]) = Some (w, rest ++ [nl])))
  end.
Proof.
  intros Ht. unfold strtok_r.
  destruct (span_spec is_delim line) as (d & s & -> & El & Hd & Hs). cbn [snd].
  destruct (span_spec (λ c, negb (is_delim c)) s) as (w & r & -> & Es & Hw & Hr).
  assert (span is_delim (line ++ [nl]) = (d, s ++ [nl])) as ->.
  { rewrite El, <- app_assoc. apply span_app_all; [done|]. destruct s; [done|]. exact Hs. }
  cbn [snd]. subst s. destruct w as [|c w].
  { destruct r as [|c r]; [|cbn in Hs; rewrite Hs in Hr; done]. cbn in El. rewrite app_nil_r in El. subst line.
    destruct d as [|x d _] using rev_ind; [done|]. unfold trimmed in Ht. rewrite last_snoc in Ht.
    apply Forall_app in Hd as [_ Hd]. apply Forall_cons in Hd as [Hd _]. congruence. }
  split; [done|]. split.
  { destruct (decide (last (c :: w) = Some nl)) as [E|E]; [right|by left]. subst line. apply elem_of_app. right.
    apply elem_of_app. left. apply last_Some in E as [l ->]. apply elem_of_app. right. left. }
  destruct r as [|x r].
  - rewrite app_nil_r in *. cbn [drop].
    split; [subst line; rewrite length_app; cbn; lia|]. split; [done|]. split; [intros x Hx; by apply elem_of_nil in Hx|].
    left. split; [done|].
    pose proof (span_app_all (λ c, negb (is_delim c)) ((c :: w) ++ [nl]) []) as E. rewrite app_nil_r in E.
    rewrite E; [done| |done]. apply Forall_app. split; [done|]. by repeat constructor.
  - cbn [drop]. rewrite drop_0. assert (r ≠ []) as Hne.
    { intros ->. unfold trimmed in Ht. rewrite El, last_app, last_snoc in Ht. cbn in Hr. by rewrite Ht in Hr. }
    split; [apply (f_equal length) in El; rewrite !length_app in El; cbn [length] in El; lia|]. split.
    { unfold trimmed in *. rewrite El in Ht. rewrite app_assoc in Ht.
      destruct r as [|z r _] using rev_ind; [done|]. rewrite last_snoc. by rewrite app_comm_cons, app_assoc, last_snoc in Ht. }
    split; [intros z Hz; rewrite El; rewrite !elem_of_app; do 2 right; by right|].
    right. split; [done|]. rewrite <- app_assoc, span_app_all; [done|done|exact Hr].
Qed.

Lemma words_unfold line : words line = match strtok_r line with None => [] | Some (w, rest) => w :: words rest end.
Proof.
  assert (∀ l w rest, strtok_r l = Some (w, rest) → (length rest < length l)%nat) as Hsh.
  { intros l w rest E. unfold strtok_r in E. destruct (span_spec is_delim l) as (d & s & Hd & -> & _). rewrite Hd in E. cbn in E.
    destruct (span_spec (λ c, negb (is_delim c)) s) as (u & r & Hu & -> & _). rewrite Hu in E.
    destruct u as [|c u]; [done|]. injection E as <- <-. rewrite !length_app, length_drop. cbn [length]. lia. }
  assert (∀ n m l, (length l < n)%nat → (length l < m)%nat → words_of n l = words_of m l) as Hf.
  { induction n as [|n IH]; intros m l Hn Hm; [lia|]. destruct m as [|m]; [lia|]. cbn [words_of].
    destruct (strtok_r l) as [[w rest]|] eqn:E; [|done]. apply Hsh in E. f_equal. apply IH; lia. }
  unfold words at 1. cbn [words_of]. destruct (strtok_r line) as [[w rest]|] eqn:E; [|done].
  apply Hsh in E. f_equal. unfold words. apply Hf; lia.
Qed.

(** The parser on a line with its newline. *)
Lemma parse_line_ok line : trimmed line → (nl ∉ line) → resolv_conf_parse_line (line ++ [nl]) = nameserver_of line.
Proof.
  intros Ht Hnl. unfold resolv_conf_parse_line, nameserver_of. rewrite words_unfold.
  pose proof (strtok_newline line Ht) as H. destruct (strtok_r line) as [[w rest]|]; [|by subst].
  destruct H as (Hw & Hlw & _ & Htr & Hin & [[-> E]|[Hr E]]); rewrite E; cbn [mbind option_bind].
  { rewrite words_unfold. change (strtok_r []) with (@None (list Z * list Z)). cbv iota.
    case_bool_decide as Ekw; [|done]. exfalso. apply (f_equal last) in Ekw. by rewrite last_snoc in Ekw. }
  rewrite words_unfold. case_bool_decide as Ekw; [|by destruct (strtok_r rest) as [[? ?]|]].
  pose proof (strtok_newline rest Htr) as H. destruct (strtok_r rest) as [[a rest']|] eqn:Er; [|done].
  destruct H as (Ha & Hla & _ & _ & Hin' & [[-> E']|[Hr' E']]); rewrite E'; cbn [mbind option_bind].
  - rewrite last_snoc, bool_decide_eq_true_2 by done. rewrite length_app, Nat.add_sub, take_app_length. done.
  - rewrite bool_decide_eq_false_2; [done|]. destruct Hla as [Hla|Hla]; [done|]. by apply Hin in Hla.
Qed.

Lemma read_lines_ok lines : ∀ fuel nslist,
  Forall fits lines → Forall trimmed lines → (length (text_of lines) < fuel)%nat → (length nslist ≤ MAXNS)%nat →
  read_lines fuel (text_of lines) nslist = take MAXNS (nslist ++ omap nameserver_of lines).
Proof.
  induction lines as [|l lines IH]; intros fuel nslist Hf Ht Hn Hm; (destruct fuel as [|fuel]; [lia|]).
  - cbn. by rewrite app_nil_r, firstn_all2.
  - apply Forall_cons in Hf as [(Hl & Hnl & Hz) Hf]. apply Forall_cons in Ht as [Htl Ht].
    unfold text_of in *. rewrite join_cons in *. rewrite <- app_assoc. cbn [app read_lines].
    rewrite fgets_line by done. rewrite bool_decide_eq_false_2 by (by destruct l).
    destruct (Nat.leb_spec MAXNS (length nslist)) as [Hge|Hlt].
    { rewrite take_app_le by lia. by rewrite firstn_all2 by lia. }
    rewrite cstr_nonul by (apply nonul_app; [done|by repeat constructor]). rewrite parse_line_ok by done.
    rewrite !length_app in Hn. cbn [length] in Hn.
    cbn [omap list_omap]. destruct (nameserver_of l) as [ns|].
    + rewrite IH; try done; [by rewrite <- app_assoc|lia|rewrite length_app; cbn [length]; lia].
    + apply IH; try done. lia.
Qed.
End Resolvers.

(** The resolvers are the addresses of the first three [nameserver] lines of the
    resolver file, that of the interface if there is one.  (For lines of at most 90
    characters that do not end in a blank.) *)
Theorem get_local_resolvers_correct files ifname lines :
  let file := match ifname with
              | Some i => let f := take 79 (Resolv.RESOLV_CONF ++ str "." ++ i) in
                          if bool_decide (is_Some (files f)) then f else Resolv.RESOLV_CONF
              | None => Resolv.RESOLV_CONF
              end in
  files file = Some (text_of lines) → Forall fits lines → Forall trimmed lines →
  Resolv.get_local_resolvers files ifname = take 3 (omap nameserver_of lines).
Proof.
  intros file Hf Hl Ht. unfold Resolv.get_local_resolvers. fold file. rewrite Hf.
  rewrite read_lines_ok; [done|done|done|lia|cbn; lia].
Qed.

Lemma get_local_resolvers_correct_witness :
  let lines := [str "# generated"; str "search example.org"; str "nameserver 193.0.0.1"; str "options x"; str "nameserver ::1"] in
  Resolv.get_local_resolvers (λ f, if bool_decide (f = str "/etc/resolv.conf") then Some (text_of lines) else None) (Some (str "eth0")) =
  [str "193.0.0.1"; str "::1"].
Proof.
  intros lines.
  apply (get_local_resolvers_correct (λ f, if bool_decide (f = str "/etc/resolv.conf") then Some (text_of lines) else None) (Some (str "eth0")) lines).
  - reflexivity.
  - repeat constructor; cbn; try lia; by apply (bool_decide_unpack _).
  - by repeat constructor.
Defined.

(** A blank at the end of a line makes the newline a word: an empty name is entered. *)
Theorem resolv_trailing_blank :
  Resolv.get_local_resolvers (λ _, Some (str "nameserver " ++ [nl])) None = [[]].
Proof. reflexivity. Qed.

(** A long line is read in parts, and the parts are parsed as lines: a comment can
    set a resolver. *)
Theorem resolv_long_line :
  Resolv.get_local_resolvers (λ _, Some (str "#" ++ replicate 90 32 ++ str "nameserver 10.0.0.1" ++ [nl])) None = [str "10.0.0.1"].
Proof. vm_compute. reflexivity. Qed.
