(* ===== verification/Ooq.v ===== *)
(** * The one-off queue ([eperd/eooqd.c])

    The daemon takes measurements from a queue file, runs up to ten of them at a time and hands
    their results to [httppost].  [checkQueue] moves the queue file away and
    reads it line by line ([add_line]): a line starts a built-in test in a free slot,
    asks for results to be posted, for the resolver configuration to be read again, or
    is a barrier, behind which nothing starts before everything in front of it is
    done.  [cmddone] is called by a test that has finished; [post_results] moves the result
    files to the directory that is posted.

    The file system is a finite map from names to contents; directories are not
    modelled.  What the system answers is in [env]: which operations on files
    fail, what [httppost] does, whether a test accepts its arguments ([init]) and is
    over before [start] returns, and whether it can be deleted.  The state a test is
    given is the number of the call that made it.  Messages on the standard error are
    left out. *)

From stdpp Require Import base list list_numbers numbers option strings gmap.
From Stdlib Require Import ZArith Lia.
From S2P Require Import Prelude Bits Blocks Cstr Wp Validate Eperd Local.

Open Scope Z_scope.

Abbreviation files := (gmap (list Z) (list Z)).

Definition SUFFIX : list Z := str ".curr".
Definition OOQD_NEW_PREFIX_REL : list Z := str "data/new/ooq".
Definition OOQD_OUT_PREFIX_REL : list Z := str "data/out/ooq".
Definition ATLAS_SESSION_FILE_REL : list Z := str "status/con_session_id.txt".
Definition SAFE_PREFIX_REL : list Z := str "data/new".
Definition BARRIER_CMD : list Z := str "barrier".
Definition POST_CMD : list Z := str "post".
Definition RELOAD_RESOLV_CONF_CMD : list Z := str "reload_resolv_conf".
Definition max_busy : nat := 10.

(** [EVTLSSCAN] is not part of the configuration. *)
Definition builtin_cmds : list (list Z) :=
  str <$> ["evhttpget"; "evntp"; "evping"; "evtdig"; "evsslgetcert"; "evtraceroute"].

(** What happens besides the changes of files: a line was read, a test was started in a slot, a test
    was deleted, a barrier was read, a barrier was passed, the resolvers were read again, [httppost] ran. *)
Inductive action :=
| Looking (cmdline : list Z) | Started (slot id : nat) (argv : list (list Z)) | Finished (id : nat)
| BarrierSet | BarrierMade | Reloaded | Posted (url : list Z).

Record params := P {
  atlas_id : option (list Z); queue_id : list Z; queue_file : list Z;
  spooldir : list Z; rundir : list Z   (* ATLAS_SPOOLDIR, ATLAS_RUNDIR *)
}.

Record env := ENV {
  unlink_ok : list Z → bool; rename_ok : list Z → list Z → bool; open_ok : list Z → bool;
  httppost_main : files → files * Z;
  init : nat → list Z → list (list Z) → bool; start_done : nat → bool; test_delete : nat → bool;
  get_probe_id : Z; version_str : list Z; now : Z; unsafe : bool;
  resolv_mtime : option Z; resolv_parse : Z
}.

Record ooqd := OOQ {
  curr_file : option (list Z); curr_busy : Z; curr_index : nat; slots : list (option (nat * list Z)); barrier : bool; barrier_file : option (list Z); last_time : Z; fs : files; calls : nat; acts : list action
}.

Definition set_curr_file (v : option (list Z)) (s : ooqd) : ooqd :=
  OOQ v (curr_busy s) (curr_index s) (slots s) (barrier s) (barrier_file s) (last_time s) (fs s) (calls s) (acts s).
Definition set_curr_busy (v : Z) (s : ooqd) : ooqd :=
  OOQ (curr_file s) v (curr_index s) (slots s) (barrier s) (barrier_file s) (last_time s) (fs s) (calls s) (acts s).
Definition set_curr_index (v : nat) (s : ooqd) : ooqd :=
  OOQ (curr_file s) (curr_busy s) v (slots s) (barrier s) (barrier_file s) (last_time s) (fs s) (calls s) (acts s).
Definition set_slots (v : list (option (nat * list Z))) (s : ooqd) : ooqd :=
  OOQ (curr_file s) (curr_busy s) (curr_index s) v (barrier s) (barrier_file s) (last_time s) (fs s) (calls s) (acts s).
Definition set_barrier (v : bool) (s : ooqd) : ooqd :=
  OOQ (curr_file s) (curr_busy s) (curr_index s) (slots s) v (barrier_file s) (last_time s) (fs s) (calls s) (acts s).
Definition set_barrier_file (v : option (list Z)) (s : ooqd) : ooqd :=
  OOQ (curr_file s) (curr_busy s) (curr_index s) (slots s) (barrier s) v (last_time s) (fs s) (calls s) (acts s).
Definition set_last_time (v : Z) (s : ooqd) : ooqd :=
  OOQ (curr_file s) (curr_busy s) (curr_index s) (slots s) (barrier s) (barrier_file s) v (fs s) (calls s) (acts s).
Definition set_fs (v : files) (s : ooqd) : ooqd :=
  OOQ (curr_file s) (curr_busy s) (curr_index s) (slots s) (barrier s) (barrier_file s) (last_time s) v (calls s) (acts s).
Definition set_calls (v : nat) (s : ooqd) : ooqd :=
  OOQ (curr_file s) (curr_busy s) (curr_index s) (slots s) (barrier s) (barrier_file s) (last_time s) (fs s) v (acts s).
Definition set_acts (v : list action) (s : ooqd) : ooqd :=
  OOQ (curr_file s) (curr_busy s) (curr_index s) (slots s) (barrier s) (barrier_file s) (last_time s) (fs s) (calls s) v.

Abbreviation OM := (M ooqd).

Definition act (a : action) : OM unit := modify (λ s, set_acts (acts s ++ [a]) s).

(** ** Files *)

(** Slashes in a row are one slash: files are known by their names in this form. *)
Fixpoint squeeze (l : list Z) : list Z :=
  match l with
  | [] => []
  | c :: l' => if (c =? 47) && (char_of l' 0 =? 47) then squeeze l' else c :: squeeze l'
  end.

Definition file_at (fn : list Z) (s : ooqd) : option (list Z) := fs s !! squeeze fn.
Definition put_file (fn content : list Z) (s : ooqd) : ooqd := set_fs (<[squeeze fn := content]> (fs s)) s.

Definition exists_file (fn : list Z) : OM bool := s ← get; mret (bool_decide (is_Some (file_at fn s))).

(** [fopen(fn, "a")], [fprintf], [fclose] *)
Definition append (fn text : list Z) : OM unit :=
  modify (λ s, put_file fn (default [] (file_at fn s) ++ text) s).

Section Ooq.
Context (p : params) (e : env).

(** True for a result of 0. *)
Definition rename (from to : list Z) : OM bool :=
  s ← get;
  match file_at from s with
  | Some content =>
      if rename_ok e from to then
        modify (set_fs (<[squeeze to := content]> (delete (squeeze from) (fs s))));; mret true
      else mret false
  | None => mret false
  end.

(** Names of files, in buffers of 80 characters. *)
Definition name80 (l : list Z) : list Z := take 79 l.
Definition slash : list Z := str "/".
Definition new_file (i : nat) : list Z :=
  name80 (spooldir p ++ slash ++ OOQD_NEW_PREFIX_REL ++ queue_id p ++ str "." ++ print_int (Z.of_nat i)).
Definition out_file (i : nat) : list Z :=
  name80 (spooldir p ++ slash ++ OOQD_OUT_PREFIX_REL ++ queue_id p ++ slash ++ print_int (Z.of_nat i)).
(** The name [cmddone] uses has another slash. *)
Definition done_file (i : nat) : list Z :=
  name80 (spooldir p ++ slash ++ OOQD_OUT_PREFIX_REL ++ slash ++ queue_id p ++ slash ++ print_int (Z.of_nat i)).
Definition error_file : list Z := name80 (spooldir p ++ slash ++ OOQD_NEW_PREFIX_REL ++ queue_id p).
Definition error_out_file : list Z := name80 (spooldir p ++ slash ++ OOQD_OUT_PREFIX_REL ++ queue_id p ++ str "/ooq").
Definition output_filename : list Z := name80 (spooldir p ++ slash ++ OOQD_OUT_PREFIX_REL ++ queue_id p ++ str "/ooq.out").
Definition curr_qfile : list Z := queue_file p ++ SUFFIX.

(** ** Posting results *)

(** The text behind the last blank of the second line; [None] for [NULL]. *)
Definition get_session_id : OM (option (list Z)) :=
  s ← get;
  match file_at (rundir p ++ slash ++ ATLAS_SESSION_FILE_REL) s with
  | None => mret None
  | Some content =>
      let '(_, rest) := fgets 79 content in
      let '(l, _) := fgets 79 rest in
      if bool_decide (l = []) then mret None
      else
        let l := (span (λ c, negb (c =? nl)) (cstr l)).1 in
        match split_at 32 (reverse l) with
        | None => mret None
        | Some (tail, _) => mret (Some (reverse tail))
        end
  end.

(** The result file of a slot is moved where it will be posted; whether there is something to post. *)
Definition collect (i : nat) : OM bool :=
  out ← exists_file (out_file i);
  if out : bool then mret true
  else
    new ← exists_file (new_file i);
    if new : bool then _ ← rename (new_file i) (out_file i); mret true else mret false.

Fixpoint collect_all (i n : nat) (need_post : bool) : OM bool :=
  match n with
  | O => mret need_post
  | S n' => r ← collect i; collect_all (S i) n' (need_post || r)
  end.

Definition collect_errors : OM bool :=
  out ← exists_file error_out_file;
  if out : bool then mret true
  else
    new ← exists_file error_file;
    if new : bool then rename error_file error_out_file else mret false.

Definition post_url (probe_id : Z) (session_id : list Z) : list Z :=
  take 199 (str "http://127.0.0.1:8080/?PROBE_ID=" ++ print_int probe_id ++ str "&SESSION_ID=" ++ session_id ++
            str "&SRC=oneoff").

(** The loop of [post_results], [n] rounds at most. *)
Fixpoint post_rounds (n : nat) (force_post : bool) : OM unit :=
  match n with
  | O => mret tt
  | S n' =>
      errors ← collect_errors;
      need_post ← collect_all 0 max_busy (force_post || errors);
      if negb need_post then mret tt
      else if get_probe_id e =? -1 then mret tt
      else
        session ← get_session_id;
        match session with
        | None => mret tt
        | Some session_id =>
            s ← get;
            let '(fs', r) := httppost_main e (fs s) in
            modify (set_fs fs');;
            act (Posted (post_url (get_probe_id e) session_id));;
            if negb (r =? 0) then mret tt else post_rounds n' false
        end
  end.
Definition post_results (force_post : bool) : OM unit := post_rounds 5 force_post.
Definition re_post : OM unit := post_results false.

(** ** The resolver configuration *)

Definition id_text : list Z :=
  match atlas_id p with Some a => DBQ "id" ++ str ":" ++ quote ++ a ++ quote ++ str ", " | None => [] end.
Definition time_text : list Z := version_str e ++ str ", " ++ DBQ "time" ++ str ":" ++ print_int (now e) ++ str ", ".

Definition check_resolv_conf2 : OM unit :=
  s ← get;
  match resolv_mtime e with
  | None => mret tt
  | Some mtime =>
      if mtime =? last_time s then mret tt
      else
        act Reloaded;;
        (if negb (resolv_parse e =? 0) || negb (last_time s =? -1) then
           if open_ok e output_filename then
             append output_filename (str "RESULT { " ++ id_text ++ time_text ++ DBQ "event" ++ str ": " ++
               DBQ "load resolv.conf" ++ str ", " ++ DBQ "result" ++ str ": " ++ print_int (resolv_parse e) ++ str " }" ++ [nl])
           else mcrash Fatal
         else mret tt);;
        modify (set_last_time mtime)
  end.

(** ** Tests *)

Fixpoint find_slot (id : nat) (l : list (option (nat * list Z))) (i : nat) : option (nat * (nat * list Z)) :=
  match l with
  | [] => None
  | Some (id', cmd) :: l' => if (id' =? id)%nat then Some (i, (id', cmd)) else find_slot id l' (S i)
  | None :: l' => find_slot id l' (S i)
  end.

(** A test has finished. *)
Definition cmddone (id : nat) : OM unit :=
  s ← get;
  match find_slot id (slots s) 0 with
  | None => mret tt
  | Some (i, _) =>
      (if test_delete e id then
         modify (set_slots (<[i := None]> (slots s)));; modify (set_curr_busy (curr_busy s - 1));; act (Finished id)
       else mret tt);;
      busy ← exists_file (done_file i);
      (if busy : bool then mret tt else _ ← rename (new_file i) (done_file i); mret tt);;
      s ← get;
      if curr_busy s =? 0 then post_results false else mret tt
  end.

(** The next free slot behind [curr_index], or the slot looked at last. *)
Fixpoint free_slot (s : ooqd) (n skip : nat) : nat :=
  let slot := ((curr_index s + skip) mod max_busy)%nat in
  match n with
  | O => slot
  | S n' => if bool_decide (slots s !! slot = Some None) then slot else free_slot s n' (S skip)
  end.

(** The record of a line that is not a command. *)
Definition error_text (reason : option string) (cmdline : list Z) : list Z :=
  str "RESULT { " ++ id_text ++ time_text ++
  match reason with Some r => DBQ "reason" ++ str ":" ++ DBQ r ++ str ", " | None => [] end ++
  DBQ "cmd" ++ str ": " ++ quote ++ concat (quoted <$> cmdline) ++ quote ++ str " }" ++ [nl].

Definition line_error (reason : option string) (cmdline : list Z) : OM unit :=
  if negb (open_ok e error_file) then mcrash Fatal
  else
    append error_file (error_text reason cmdline);;
    out ← exists_file error_out_file;
    (if out : bool then mret tt
     else new ← exists_file error_file; if new : bool then _ ← rename error_file error_out_file; mret tt else mret tt);;
    post_results false.

Definition find_builtin (cmdline : list Z) : option (list Z) :=
  find (λ cmd, bool_decide (take (length cmd) cmdline = cmd) && (char_of cmdline (length cmd) =? 32)) builtin_cmds.

(** The test is given its arguments and the file for its results. *)
Definition run_command (bp cmdline : list Z) (argv : list (list Z)) : OM unit :=
  s ← get;
  let slot := free_slot s (max_busy - 1) 1 in
  if negb (bool_decide (slots s !! slot = Some None)) then mcrash Fatal
  else
    let argv := argv ++ [str "-O"; new_file slot] in
    let id := calls s in
    modify (set_calls (S id));;
    if init e id bp argv then
      modify (set_slots (<[slot := Some (id, bp)]> (slots s)));;
      modify (set_curr_index slot);; modify (set_curr_busy (curr_busy s + 1));;
      act (Started slot id argv);;
      if start_done e id then cmddone id else mret tt
    else line_error None cmdline.

Definition start_command (cmdline : list Z) : OM unit :=
  match find_builtin cmdline with
  | None => line_error (Some "command not found"%string) cmdline
  | Some bp =>
      r ← lift (split_cmdline cmdline);
      match r with
      | inl reason => line_error (Some reason) cmdline
      | inr argv =>
          if (ATLAS_NARGS - 2 <=? length argv)%nat then line_error (Some "too many arguments"%string) cmdline
          else run_command bp cmdline argv
      end
  end.

(** ** The queue *)

Definition is_barrier (cmdline : list Z) : bool :=
  bool_decide (take (length BARRIER_CMD) cmdline = BARRIER_CMD) && (char_of cmdline (length BARRIER_CMD) =? 32).

(** The barrier is passed when no test is running; false for a result of -1. *)
Definition pass_barrier : OM bool :=
  s ← get;
  if negb (barrier s) then mret true
  else if 0 <? curr_busy s then mret false
  else
    match barrier_file s with
    | Some fn => if open_ok e fn then modify (λ s, put_file fn (default [] (file_at fn s)) s) else mret tt
    | None => mret tt   (* open(NULL) fails *)
    end;;
    modify (set_barrier_file None);; modify (set_barrier false);; act BarrierMade;; mret true.

(** A line that was read. *)
Definition handle_line (cmdline : list Z) : OM unit :=
  if bool_decide (cmdline = POST_CMD) then post_results true
  else if is_barrier cmdline then
    let fn := (span (λ c, c =? 32) (drop (length BARRIER_CMD) cmdline)).2 in
    modify (set_barrier true);;
    modify (set_barrier_file (rebased_validated_filename (unsafe e) (spooldir p) fn SAFE_PREFIX_REL));;
    act BarrierSet
  else if bool_decide (cmdline = RELOAD_RESOLV_CONF_CMD) then check_resolv_conf2
  else start_command cmdline.

(** False for a result of -1. *)
Definition add_line : OM bool :=
  ok ← pass_barrier;
  if negb ok then mret false
  else
    s ← get;
    match curr_file s with
    | None => mcrash Undefined
    | Some file =>
        let '(buf, rest) := fgets 255 file in
        if bool_decide (buf = []) then modify (set_curr_file None);; mret true
        else
          modify (set_curr_file (Some rest));;
          let cmdline := (span (λ c, negb (c =? nl)) (cstr buf)).1 in
          act (Looking cmdline);;
          handle_line cmdline;; mret true
    end.

(** [while (state->curr_file && state->curr_busy < state->max_busy)] *)
Fixpoint add_lines (fuel : nat) : OM unit :=
  s ← get;
  if bool_decide (curr_file s = None) || (Z.of_nat max_busy <=? curr_busy s) then mret tt
  else
    match fuel with
    | O => mcrash OutOfFuel
    | S fuel' => r ← add_line; if r : bool then add_lines fuel' else mret tt
    end.

(** The queue file becomes [curr_file]; false where [checkQueue] returns. *)
Definition open_queue : OM bool :=
  s ← get;
  if bool_decide (is_Some (curr_file s)) then mret true
  else if bool_decide (file_at (queue_file p) s = None) then mret false
  else if bool_decide (is_Some (file_at curr_qfile s)) && negb (unlink_ok e curr_qfile) then mret false
  else
    modify (λ s, set_fs (delete (squeeze curr_qfile) (fs s)) s);;
    ok ← rename (queue_file p) curr_qfile;
    if negb ok then mret false
    else if negb (open_ok e curr_qfile) then mret false
    else modify (λ s, set_curr_file (file_at curr_qfile s) s);; mret true.

Definition checkQueue : OM unit :=
  ok ← open_queue;
  if negb ok then mret tt
  else
    s ← get;
    add_lines (S (length (default [] (curr_file s))));;
    check_resolv_conf2.
End Ooq.

(** [eooqd_main] with its arguments read. *)
Definition start_state (fs0 : files) : ooqd := OOQ None 0 0 (replicate max_busy None) false None (-1) fs0 0 [].

(** What happens to the daemon: the two timers, the end of a test, and files changed by others. *)
Inductive event := CheckQueue | RePost | TestDone (id : nat) | FilesChanged (f : files).
Definition handle (p : params) (e : env) (ev : event) : OM unit :=
  match ev with
  | CheckQueue => checkQueue p e
  | RePost => re_post p e
  | TestDone id => cmddone p e id
  | FilesChanged f => modify (set_fs f)
  end.
Fixpoint eooqd_loop (p : params) (l : list (env * event)) : OM unit :=
  match l with
  | [] => mret tt
  | (e, ev) :: l' => handle p e ev;; eooqd_loop p l'
  end.
