(* ===== verification/OoqProofs.v ===== *)
(** * The one-off queue: what the operations keep

    The slots and the number of busy tests, the order of starts, ends and
    barriers, and the lines that were read, as invariants of the operations. *)

From stdpp Require Import base list list_numbers numbers option strings gmap sets.
From Stdlib Require Import ZArith Lia.
From S2P Require Import Prelude Bits Blocks Cstr Wp Validate Eperd EperdProofs Local Ooq.

Open Scope Z_scope.

(** ** Names of files *)

Lemma squeeze_app l c l' : c ≠ 47 → squeeze (l ++ c :: l') = squeeze l ++ squeeze (c :: l').
Proof.
  intros Hc. induction l as [|a l IH]; [done|]. cbn [app squeeze].
  replace (char_of (l ++ c :: l') 0 =? 47) with (char_of l 0 =? 47).
  - destruct ((a =? 47) && (char_of l 0 =? 47)); by rewrite IH.
  - destruct l; cbn; [symmetry; by apply Z.eqb_neq|done].
Qed.

(** ** The order of starts, ends and barriers *)

(** An observer of the actions: the tests that are running, and whether a barrier was read and not
    passed.  Nothing is started behind a barrier, and a barrier is only passed when
    nothing is running; [None] for a violation. *)
Definition observe1 (st : option (gset nat * bool)) (a : action) : option (gset nat * bool) :=
  match st with
  | None => None
  | Some (live, waiting) =>
      match a with
      | Started _ id _ => if waiting || bool_decide (id ∈ live) then None else Some ({[id]} ∪ live, waiting)
      | Finished id => if bool_decide (id ∈ live) then Some (live ∖ {[id]}, waiting) else None
      | BarrierSet => if waiting then None else Some (live, true)
      | BarrierMade => if waiting && bool_decide (live = ∅) then Some (∅, false) else None
      | Looking _ => if waiting then None else Some (live, waiting)
      | Reloaded | Posted _ => Some (live, waiting)
      end
  end.
Definition observe (l : list action) : option (gset nat * bool) := fold_left observe1 l (Some (∅, false)).

Lemma observe_snoc l a : observe (l ++ [a]) = observe1 (observe l) a.
Proof. unfold observe. by rewrite fold_left_app. Qed.

(** The lines that were read. *)
Definition looked (l : list action) : list (list Z) := omap (λ a, match a with Looking c => Some c | _ => None end) l.
Lemma looked_app a b : looked (a ++ b) = looked a ++ looked b.
Proof. apply omap_app. Qed.

(** ** Slots *)

Definition ids (l : list (option (nat * list Z))) : list nat := fst <$> omap id l.

Lemma ids_insert_some l i id cmd :
  l !! i = Some None → ids (<[i := Some (id, cmd)]> l) ≡ₚ id :: ids l.
Proof.
  revert i. induction l as [|x l IH]; intros [|i] E; try done.
  - cbn in E. injection E as ->. done.
  - cbn in E |- *. unfold ids in *. cbn. destruct x as [[id' cmd']|]; cbn; rewrite IH by done; [apply perm_swap|done].
Qed.
Lemma ids_insert_none l i id cmd : l !! i = Some (Some (id, cmd)) → ids l ≡ₚ id :: ids (<[i := None]> l).
Proof.
  revert i. induction l as [|x l IH]; intros [|i] E; try done.
  - cbn in E. injection E as ->. done.
  - cbn in E |- *. unfold ids in *. cbn. destruct x as [[id' cmd']|]; cbn; rewrite IH by done; [apply perm_swap|done].
Qed.
Lemma ids_full l : (length l ≤ length (ids l))%nat → ∀ i x, l !! i = Some x → x ≠ None.
Proof.
  assert (∀ l, length (ids l) ≤ length l)%nat as Hle.
  { induction l0 as [|[[]|] l0 IH]; unfold ids in *; cbn in *; lia. }
  induction l as [|y l IH]; [done|]. intros Hl i x E. unfold ids in *. cbn in *. specialize (Hle l).
  destruct y as [[id' cmd']|]; cbn in *; [|lia]. destruct i as [|i]; cbn in E; [congruence|]. eapply IH; [lia|exact E].
Qed.

Lemma find_slot_spec id l k i x :
  find_slot id l k = Some (i, x) → (k ≤ i)%nat ∧ l !! (i - k)%nat = Some (Some (id, x.2)).
Proof.
  revert k. induction l as [|[[id' cmd]|] l IH]; intros k; cbn [find_slot]; [done| |].
  - destruct (Nat.eqb_spec id' id) as [->|Hne].
    + intros [= <- <-]. split; [done|]. by rewrite Nat.sub_diag.
    + intros E. destruct (IH _ E) as [H1 H2]. split; [lia|]. replace (i - k)%nat with (S (i - S k)) by lia. done.
  - intros E. destruct (IH _ E) as [H1 H2]. split; [lia|]. replace (i - k)%nat with (S (i - S k)) by lia. done.
Qed.

Lemma find_slot_none id l k : find_slot id l k = None → id ∉ ids l.
Proof.
  revert k. induction l as [|[[id' cmd]|] l IH]; intros k; cbn [find_slot]; unfold ids in *; cbn; [set_solver| |apply IH].
  destruct (Nat.eqb_spec id' id); [done|]. intros E. apply IH in E. set_solver.
Qed.

(** A free slot is found when there is one. *)
Lemma free_slot_free s n skip :
  (∃ j, j ≤ n ∧ slots s !! ((curr_index s + (skip + j)) mod max_busy)%nat = Some None)%nat →
  slots s !! free_slot s n skip = Some None.
Proof.
  revert skip. induction n as [|n IH]; intros skip (j & Hj & E); cbn [free_slot].
  - replace j with 0%nat in E by lia. by rewrite Nat.add_0_r in E.
  - case_bool_decide as Hs; [done|]. apply IH. destruct j as [|j]; [by rewrite Nat.add_0_r in E|].
    exists j. split; [lia|]. by replace (S skip + j)%nat with (skip + S j)%nat by lia.
Qed.

(** ** The invariant *)

Record inv (s : ooqd) : Prop := Inv {
  inv_slots : length (slots s) = max_busy;
  inv_ids : NoDup (ids (slots s));
  inv_fresh : Forall (λ id, id < calls s)%nat (ids (slots s));
  inv_busy : curr_busy s = Z.of_nat (length (ids (slots s)));
  inv_order : observe (acts s) = Some (list_to_set (ids (slots s)), barrier s)
}.

Lemma some_free s : inv s → curr_busy s < Z.of_nat max_busy → slots s !! free_slot s (max_busy - 1) 1 = Some None.
Proof.
  intros [] Hlt. assert (∃ i, slots s !! i = Some None) as [i Hi].
  { destruct (decide (None ∈ slots s)) as [Hin|Hn]; [by apply list_elem_of_lookup_1|]. exfalso.
    assert (∀ l : list (option (nat * list Z)), Forall (λ x, x ≠ None) l → length (ids l) = length l) as Hall.
    { clear. induction 1 as [|[[]|] l Hx _ IH]; unfold ids in *; cbn in *; [done|lia|done]. }
    rewrite inv_busy0, Hall, inv_slots0 in Hlt; [lia|]. apply Forall_forall. by intros x Hx ->. }
  pose proof (lookup_lt_Some _ _ _ Hi) as Hlt'. rewrite inv_slots0 in Hlt'. unfold max_busy in *.
  apply free_slot_free. exists ((i + 19 - curr_index s mod 10) mod 10)%nat. split; [pose proof (Nat.mod_upper_bound (i + 19 - curr_index s mod 10) 10); lia|].
  rewrite <- Hi. f_equal. pose proof (Nat.mod_upper_bound (curr_index s) 10 ltac:(lia)).
  pose proof (Nat.div_mod_eq (curr_index s) 10) as Hc. pose proof (Nat.div_mod_eq (i + 19 - curr_index s mod 10) 10) as Hd.
  set (q := (curr_index s / 10)%nat) in *. set (r := (curr_index s mod 10)%nat) in *.
  set (q' := ((i + 19 - r) / 10)%nat) in *. set (r' := ((i + 19 - r) mod 10)%nat) in *.
  symmetry. apply (Nat.mod_unique _ 10 (q + 2 - q')); lia.
Qed.

(** ** Operations that start and end nothing *)

Definition quiet_act (a : action) : Prop := match a with Reloaded | Posted _ => True | _ => False end.

(** Only files and the log have changed. *)
Definition quiet (s s' : ooqd) : Prop :=
  slots s' = slots s ∧ calls s' = calls s ∧ curr_busy s' = curr_busy s ∧ barrier s' = barrier s ∧
  curr_file s' = curr_file s ∧ curr_index s' = curr_index s ∧ ∃ l, acts s' = acts s ++ l ∧ Forall quiet_act l.

(** Nothing was added to the log. *)
Ltac quiet := repeat split; try done; exists []; by rewrite app_nil_r.

Lemma quiet_refl s : quiet s s.
Proof. quiet. Qed.
Lemma quiet_trans s1 s2 s3 : quiet s1 s2 → quiet s2 s3 → quiet s1 s3.
Proof.
  intros (? & ? & ? & ? & ? & ? & l & Hl & Fl) (? & ? & ? & ? & ? & ? & l' & Hl' & Fl').
  repeat split; try congruence. exists (l ++ l'). split; [by rewrite Hl', Hl, app_assoc|by apply Forall_app_2].
Qed.
Lemma quiet_fs s f : quiet s (set_fs f s).
Proof. quiet. Qed.
Lemma quiet_one s a : quiet_act a → quiet s (set_acts (acts s ++ [a]) s).
Proof. intros H. repeat split. exists [a]. by repeat constructor. Qed.

Lemma observe_quiet l l' : Forall quiet_act l' → observe (l ++ l') = observe l.
Proof.
  intros H. revert l. induction H as [|a l' Ha _ IH]; intros l; [by rewrite app_nil_r|].
  change (l ++ a :: l') with (l ++ [a] ++ l'). rewrite app_assoc, IH, observe_snoc.
  destruct a; try done; by destruct (observe l) as [[]|].
Qed.
Lemma looked_quiet l : Forall quiet_act l → looked l = [].
Proof. induction 1 as [|a l Ha _ IH]; [done|]. by destruct a. Qed.
Lemma quiet_looked s s' : quiet s s' → looked (acts s') = looked (acts s).
Proof. intros (_ & _ & _ & _ & _ & _ & l & -> & Hl). by rewrite looked_app, (looked_quiet l), app_nil_r. Qed.

Lemma inv_quiet s s' : inv s → quiet s s' → inv s'.
Proof.
  intros [] (E1 & E2 & E3 & E4 & _ & _ & l & E5 & Hl).
  constructor; rewrite ?E1, ?E2, ?E3, ?E4; try done. by rewrite E5, observe_quiet.
Qed.

(** A computation that changes nothing but files. *)
Definition keeps {A} (m : OM A) : Prop := ∀ s, wp m (λ _, quiet s) s.

Lemma quiet_keeps_ret {A} (a : A) : keeps (mret a).
Proof. intros s. apply wp_ret, quiet_refl. Qed.
Lemma quiet_keeps_bind {A B} (m : OM A) (f : A → OM B) : keeps m → (∀ a, keeps (f a)) → keeps (m ≫= f).
Proof.
  intros Hm Hf s. apply wp_bind. eapply wp_mono; [apply Hm|]. cbv beta. intros a s1 H1.
  eapply wp_mono; [apply Hf|]. cbv beta. intros b s2 H2. by eapply quiet_trans.
Qed.
Lemma quiet_keeps_get {B} (f : ooqd → OM B) : (∀ s, keeps (f s)) → keeps (get ≫= f).
Proof. intros H s. wp_steps. apply H. Qed.
Lemma keeps_if {A} (b : bool) (m1 m2 : OM A) : keeps m1 → keeps m2 → keeps (if b then m1 else m2).
Proof. by destruct b. Qed.
Lemma keeps_fs f : keeps (modify (λ s, set_fs (f s) s)).
Proof. intros s. wp_steps. apply quiet_fs. Qed.
Lemma keeps_act a : quiet_act a → keeps (act a).
Proof. intros H s. unfold act. wp_steps. by apply quiet_one. Qed.

Ltac keeps :=
  repeat lazymatch goal with
  | |- keeps (get ≫= _) => apply quiet_keeps_get; intros ?
  | |- keeps (_ ≫= _) => apply quiet_keeps_bind; [|intros ?]
  | |- keeps (mret _) => apply quiet_keeps_ret
  | |- keeps (if _ then _ else _) => apply keeps_if
  | |- keeps (match ?x with Some _ => _ | None => _ end) => destruct x
  | |- keeps (match ?x with (_, _) => _ end) => destruct x
  | |- keeps (let '(_, _) := ?x in _) => destruct x
  | |- keeps (modify (set_fs _)) => apply (keeps_fs (λ _, _))
  | |- keeps (modify (λ s, set_fs _ s)) => apply keeps_fs
  | |- keeps (modify (λ s, put_file _ _ s)) => apply keeps_fs
  | |- keeps (act _) => by apply keeps_act
  end.

Section Keeps.
Context (p : params) (e : env).

Lemma keeps_exists fn : keeps (exists_file fn).
Proof. unfold exists_file. keeps. Qed.
Lemma keeps_append fn t : keeps (append fn t).
Proof. unfold append. keeps. Qed.
Lemma keeps_rename a b : keeps (rename e a b).
Proof. unfold rename. keeps. Qed.
Lemma keeps_collect i : keeps (collect p e i).
Proof. unfold collect. keeps; try apply keeps_exists. apply keeps_rename. Qed.
Lemma keeps_collect_all n i b : keeps (collect_all p e i n b).
Proof. revert i b. induction n as [|n IH]; intros i b; cbn [collect_all]; keeps; [apply keeps_collect|apply IH]. Qed.
Lemma keeps_collect_errors : keeps (collect_errors p e).
Proof. unfold collect_errors. keeps; try apply keeps_exists. apply keeps_rename. Qed.
Lemma keeps_session : keeps (get_session_id p).
Proof.
  unfold get_session_id. apply quiet_keeps_get. intros s. destruct (file_at _ s); [|apply quiet_keeps_ret].
  destruct (fgets 79 _), (fgets 79 _). keeps.
Qed.
Lemma keeps_post_rounds n b : keeps (post_rounds p e n b).
Proof.
  revert b. induction n as [|n IH]; intros b; cbn [post_rounds]; keeps;
    first [apply keeps_collect_errors|apply keeps_collect_all|apply keeps_session|apply IH].
Qed.
Lemma keeps_post b : keeps (post_results p e b).
Proof. apply keeps_post_rounds. Qed.
End Keeps.
