(* ===== verification/OoqMain.v ===== *)
(** * The one-off queue: the theorems

    Lines are taken from the queue in order, each at most once; barriers separate the
    tests before them from those behind; slots are never overbooked; result files
    are moved and never overwritten. *)

From stdpp Require Import base list list_numbers numbers option strings gmap sets.
From Stdlib Require Import ZArith Lia.
From S2P Require Import Prelude Bits Blocks Cstr Wp Validate Eperd EperdProofs Local Ooq OoqProofs.

Open Scope Z_scope.

#[local] Arguments ids : simpl never.
#[local] Arguments observe : simpl never.
#[local] Arguments looked : simpl never.

(** ** The lines of a file *)

Definition cmdline_of (buf : list Z) : list Z := (span (λ c, negb (c =? nl)) (cstr buf)).1.
Fixpoint lines_of (fuel : nat) (file : list Z) : list (list Z) :=
  match fuel with
  | O => []
  | S fuel' =>
      let '(buf, rest) := fgets 255 file in
      if bool_decide (buf = []) then [] else cmdline_of buf :: lines_of fuel' rest
  end.
(** What is left of the queue. *)
Definition lines (file : option (list Z)) : list (list Z) :=
  match file with Some f => lines_of (S (length f)) f | None => [] end.

Lemma fgets_app n f : (fgets n f).1 ++ (fgets n f).2 = f.
Proof.
  revert f. induction n as [|n IH]; intros [|c f]; try done. cbn [fgets]. destruct (c =? nl); [done|].
  specialize (IH f). destruct (fgets n f). cbn in *. by rewrite IH.
Qed.
Lemma fgets_shorter n f buf rest : fgets n f = (buf, rest) → buf ≠ [] → (length rest < length f)%nat.
Proof.
  intros E Hne. pose proof (fgets_app n f) as H. rewrite E in H. cbn in H. rewrite <- H, length_app.
  destruct buf; [done|]. cbn. lia.
Qed.
Lemma lines_of_fuel n m f : (length f < n → length f < m → lines_of n f = lines_of m f)%nat.
Proof.
  revert m f. induction n as [|n IH]; intros [|m] f Hn Hm; try lia. cbn [lines_of].
  destruct (fgets 255 f) as [buf rest] eqn:E. case_bool_decide as Hb; [done|]. f_equal.
  pose proof (fgets_shorter _ _ _ _ E Hb). apply IH; lia.
Qed.
Lemma lines_step f buf rest :
  fgets 255 f = (buf, rest) → lines (Some f) = if bool_decide (buf = []) then [] else cmdline_of buf :: lines (Some rest).
Proof.
  intros E. unfold lines. cbn [lines_of]. rewrite E. case_bool_decide as Hb; [done|]. f_equal.
  pose proof (fgets_shorter _ _ _ _ E Hb). change (lines_of (length f) rest = lines_of (S (length rest)) rest).
  apply lines_of_fuel; lia.
Qed.

Section Main.
Context (p : params) (e : env).

(** The files the daemon appends to can be opened. *)
Definition env_ok : Prop := open_ok e (error_file p) = true ∧ open_ok e (output_filename p) = true.
Context (He : env_ok).

Lemma keeps_last_time t : keeps (modify (set_last_time t)).
Proof. intros s. wp_steps. quiet. Qed.

Lemma keeps_resolv : keeps (check_resolv_conf2 p e).
Proof.
  destruct He as [_ Ho]. unfold check_resolv_conf2. rewrite Ho.
  keeps; first [apply keeps_append|apply keeps_last_time].
Qed.

Lemma keeps_line_error reason l : keeps (line_error p e reason l).
Proof.
  destruct He as [Ho _]. unfold line_error. rewrite Ho. cbn [negb].
  keeps; first [apply keeps_append|apply keeps_exists|apply keeps_rename|apply keeps_post].
Qed.

(** ** Tests *)

Ltac five := split; [|split; [|split; [|split]]].

(** Tests may have ended. *)
Definition settled (s s' : ooqd) : Prop :=
  inv s' ∧ barrier s' = barrier s ∧ curr_file s' = curr_file s ∧ looked (acts s') = looked (acts s) ∧ curr_busy s' ≤ curr_busy s.

Lemma settled_quiet s s' : inv s → quiet s s' → settled s s'.
Proof.
  intros Hi Hq. split; [by eapply inv_quiet|]. pose proof (quiet_looked _ _ Hq). destruct Hq as (_ & _ & E & ? & ? & _).
  split; [done|]. split; [done|]. split; [done|]. lia.
Qed.
Lemma settled_trans s1 s2 s3 : settled s1 s2 → settled s2 s3 → settled s1 s3.
Proof. intros (_ & ? & ? & ? & ?) (? & ? & ? & ? & ?). five; congruence || lia || done. Qed.

(** The end of the test in slot [i]. *)
Lemma inv_finished s i id cmd :
  inv s → slots s !! i = Some (Some (id, cmd)) →
  inv (set_acts (acts s ++ [Finished id]) (set_curr_busy (curr_busy s - 1) (set_slots (<[i := None]> (slots s)) s))).
Proof.
  intros [] Hs. pose proof (ids_insert_none _ _ _ _ Hs) as Hp. constructor; cbn.
  - by rewrite length_insert.
  - rewrite Hp in inv_ids. by apply NoDup_cons in inv_ids as [_ ?].
  - rewrite Hp in inv_fresh. by apply Forall_cons in inv_fresh as [_ ?].
  - rewrite inv_busy, (Permutation_length Hp). cbn [length]. lia.
  - rewrite observe_snoc, inv_order. cbn. rewrite Hp in inv_ids. apply NoDup_cons in inv_ids as [Hnin _].
    rewrite bool_decide_true by (rewrite Hp; set_solver). do 2 f_equal. rewrite Hp. set_solver.
Qed.

(** What the end of a test leaves running. *)
Definition ended (id : nat) (s s' : ooqd) : Prop :=
  settled s s' ∧ ids (slots s) ≡ₚ (if test_delete e id && bool_decide (id ∈ ids (slots s)) then [id] else []) ++ ids (slots s').

Lemma ended_quiet id s1 s2 s3 : ended id s1 s2 → quiet s2 s3 → ended id s1 s3.
Proof.
  intros [H1 H2] Hq. split; [eapply settled_trans; [exact H1|]; by apply settled_quiet; [apply H1|]|].
  destruct Hq as [-> _]. done.
Qed.

Lemma wp_cmddone id s : inv s → wp (cmddone p e id) (λ _, ended id s) s.
Proof.
  intros Hi. unfold cmddone. wp_steps. destruct (find_slot id (slots s) 0) as [[i x]|] eqn:Ef.
  2: { wp_steps. split; [by apply settled_quiet, quiet_refl|].
       by rewrite (bool_decide_false _ (find_slot_none _ _ _ Ef)), andb_false_r. }
  apply find_slot_spec in Ef as [_ Hs]. rewrite Nat.sub_0_r in Hs. pose proof (ids_insert_none _ _ _ _ Hs) as Hp.
  set (m := busy ← exists_file (done_file p i);
      (if busy : bool then mret tt else _ ← rename e (new_file p i) (done_file p i); mret tt);;
      s ← get; if curr_busy s =? 0 then post_results p e false else mret tt).
  assert (keeps m) as Hk by (unfold m; keeps; first [apply keeps_exists|apply keeps_rename|apply keeps_post]).
  assert (∀ s1, ended id s s1 → wp m (λ _, ended id s) s1) as Hgo.
  { intros s1 Hst. eapply wp_mono; [apply Hk|]. cbv beta. intros _ s2 Hq. by eapply ended_quiet. }
  assert (id ∈ ids (slots s)) as Hin by (rewrite Hp; set_solver).
  destruct (test_delete e id) eqn:Et; wp_steps; [unfold act; wp_steps|]; apply Hgo; unfold ended; rewrite Et.
  - rewrite bool_decide_true by done. split; [|exact Hp]. split; [exact (inv_finished s i id x.2 Hi Hs)|]. cbn.
    rewrite looked_app, app_nil_r. repeat split. lia.
  - split; [by apply settled_quiet, quiet_refl|done].
Qed.

(** The start of a test in slot [i]. *)
Lemma inv_started s i bp argv :
  inv s → slots s !! i = Some None → barrier s = false →
  inv (set_acts (acts s ++ [Started i (calls s) argv]) (set_curr_busy (curr_busy s + 1) (set_curr_index i
        (set_slots (<[i := Some (calls s, bp)]> (slots s)) (set_calls (S (calls s)) s))))).
Proof.
  intros [] Hs Hb. pose proof (ids_insert_some _ _ (calls s) bp Hs) as Hp.
  assert (calls s ∉ ids (slots s)) as Hnin.
  { intros Hin. rewrite Forall_forall in inv_fresh. specialize (inv_fresh _ Hin). cbn in inv_fresh. lia. }
  constructor; cbn.
  - by rewrite length_insert.
  - rewrite Hp. by apply NoDup_cons.
  - rewrite Hp. constructor; [lia|]. eapply Forall_impl; [exact inv_fresh|]. cbn. lia.
  - rewrite inv_busy, (Permutation_length Hp). cbn [length]. lia.
  - rewrite observe_snoc, inv_order, Hb. cbn. rewrite bool_decide_false by set_solver. do 2 f_equal. rewrite Hp. set_solver.
Qed.

(** A test was started, or the line was refused. *)
Definition started (s s' : ooqd) : Prop :=
  inv s' ∧ barrier s' = barrier s ∧ curr_file s' = curr_file s ∧ looked (acts s') = looked (acts s) ∧ curr_busy s' ≤ curr_busy s + 1.

Lemma started_settled s s' : settled s s' → started s s'.
Proof. intros (? & ? & ? & ? & ?). five; done || lia. Qed.

Lemma wp_run_command bp l argv s :
  inv s → curr_busy s < Z.of_nat max_busy → barrier s = false → wp (run_command p e bp l argv) (λ _, started s) s.
Proof.
  intros Hi Hlt Hb. pose proof (some_free s Hi Hlt) as Hfree. unfold run_command. wp_steps.
  rewrite bool_decide_true by done. cbn [negb]. wp_steps. set (i := free_slot s _ _) in *.
  set (s1 := set_calls (S (calls s)) s).
  assert (inv s1) as Hi1.
  { destruct Hi. constructor; try done. cbn. eapply Forall_impl; [exact inv_fresh|]. cbn. lia. }
  destruct (init e (calls s) bp (argv ++ [str "-O"; new_file p i])).
  - wp_steps. unfold act. wp_steps. cbn [acts set_curr_busy set_curr_index set_slots set_calls s1].
    pose proof (inv_started s i bp (argv ++ [str "-O"; new_file p i]) Hi Hfree Hb) as Hi2. set (s2 := set_acts _ _) in *.
    assert (started s s2) as Hs2.
    { split; [done|]. cbn. rewrite looked_app, app_nil_r. repeat split. lia. }
    destruct (start_done e (calls s)); wp_steps; [|done].
    eapply wp_mono; [by apply wp_cmddone|]. cbv beta. intros _ s3 [(? & ? & ? & ? & ?) _]. destruct Hs2 as (_ & ? & ? & ? & ?).
    five; done || congruence || lia.
  - eapply wp_mono; [apply keeps_line_error|]. cbv beta. intros _ s2 Hq.
    destruct (settled_quiet s1 s2 Hi1 Hq) as (? & ? & ? & ? & ?). apply started_settled. by five.
Qed.

Lemma wp_start_command l s :
  inv s → curr_busy s < Z.of_nat max_busy → barrier s = false → wp (start_command p e l) (λ _, started s) s.
Proof.
  intros Hi Hlt Hb.
  assert (∀ reason, wp (line_error p e reason l) (λ _, started s) s) as Herr.
  { intros reason. eapply wp_mono; [apply keeps_line_error|]. cbv beta. intros _ s2 Hq. by apply started_settled, settled_quiet. }
  unfold start_command. destruct (find_builtin l) as [bp|]; [|apply Herr].
  destruct (split_cmdline_total l) as [r Er]. wp_steps. eapply wp_lift; [exact Er|].
  destruct r as [reason|argv]; [apply Herr|]. case_match; [apply Herr|]. by apply wp_run_command.
Qed.
(** ** The queue *)

(** Lines went from the queue to the log, in order and none of them twice. *)
Definition took (s s' : ooqd) : Prop :=
  looked (acts s') ++ lines (curr_file s') = looked (acts s) ++ lines (curr_file s).

Lemma inv_act s s' a :
  inv s → slots s' = slots s → calls s' = calls s → curr_busy s' = curr_busy s → acts s' = acts s ++ [a] →
  observe1 (Some (list_to_set (ids (slots s)), barrier s)) a = Some (list_to_set (ids (slots s)), barrier s') → inv s'.
Proof. intros [] E1 E2 E3 E4 E5. constructor; rewrite ?E1, ?E2, ?E3, ?E4; try done. by rewrite observe_snoc, inv_order. Qed.

Lemma busy_ids s : inv s → curr_busy s = 0 → ids (slots s) = [].
Proof. intros [] E. apply length_zero_iff_nil. lia. Qed.

(** The barrier stays while tests are running. *)
Lemma wp_pass_barrier s :
  inv s →
  wp (pass_barrier e) (λ r s', inv s' ∧ curr_file s' = curr_file s ∧ looked (acts s') = looked (acts s) ∧ curr_busy s' = curr_busy s ∧
    if r then barrier s' = false else s' = s ∧ barrier s = true ∧ 0 < curr_busy s) s.
Proof.
  intros Hi. unfold pass_barrier. wp_steps. destruct (barrier s) eqn:Eb; cbn [negb]; [|wp_steps; by five].
  destruct (Z.ltb_spec 0 (curr_busy s)) as [Hlt|Hle]; [wp_steps; by five|].
  assert (curr_busy s = 0) as Hz by (destruct Hi; lia). pose proof (busy_ids s Hi Hz) as Hids.
  set (m := match barrier_file s with Some _ => _ | None => _ end).
  assert (keeps m) as Hk by (unfold m; keeps).
  wp_steps. eapply wp_mono; [apply Hk|]. cbv beta. intros _ s1 Hq. wp_steps. unfold act. wp_steps.
  pose proof (settled_quiet s s1 Hi Hq) as (Hi1 & Hb1 & Hf1 & Hl1 & Hc1). destruct Hq as (Hs1 & _ & Hc & _).
  five; [| |cbn; by rewrite looked_app, app_nil_r| |]; try done.
  apply (inv_act s1 _ BarrierMade); try done. cbn. by rewrite Hs1, Hids, Hb1, Eb.
Qed.

(** A line does something to the tests or the files, not to the queue. *)
Lemma wp_handle_line c s :
  inv s → curr_busy s < Z.of_nat max_busy → barrier s = false →
  wp (handle_line p e c) (λ _ s', inv s' ∧ curr_file s' = curr_file s ∧ looked (acts s') = looked (acts s)) s.
Proof.
  intros Hi Hlt Hb.
  assert (∀ m : OM unit, keeps m → wp m (λ _ s', inv s' ∧ curr_file s' = curr_file s ∧ looked (acts s') = looked (acts s)) s) as Hk.
  { intros m Hm. eapply wp_mono; [apply Hm|]. cbv beta. intros [] s3 Hq. by destruct (settled_quiet _ _ Hi Hq) as (? & ? & ? & ? & ?). }
  unfold handle_line. case_bool_decide; [by apply Hk, keeps_post|]. case_match.
  - wp_steps. unfold act. wp_steps. split; [|split]; [|done|cbn; by rewrite looked_app, app_nil_r].
    apply (inv_act s _ BarrierSet); try done. cbn. by rewrite Hb.
  - case_bool_decide; [by apply Hk, keeps_resolv|].
    eapply wp_mono; [by apply wp_start_command|]. cbv beta. intros _ s3 (? & ? & ? & ? & ?). done.
Qed.

(** The outcome of [add_line]: a line was taken, the end of the file was seen, or a barrier is in the way. *)
Definition added (s : ooqd) (f : list Z) (r : bool) (s' : ooqd) : Prop :=
  inv s' ∧ took s s' ∧
  if r then (curr_file s' = None ∧ looked (acts s') = looked (acts s)) ∨
    (length (looked (acts s')) = S (length (looked (acts s))) ∧ ∃ f', curr_file s' = Some f' ∧ length f' < length f)%nat
  else s' = s ∧ barrier s = true ∧ 0 < curr_busy s.

Lemma wp_add_line s f :
  inv s → curr_busy s < Z.of_nat max_busy → curr_file s = Some f → wp (add_line p e) (added s f) s.
Proof.
  intros Hi Hlt Hf. unfold add_line. wp_steps. eapply wp_mono; [by apply wp_pass_barrier|]. cbv beta.
  intros [] s1 (Hi1 & Hf1 & Hl1 & Hc1 & Hr); cbn [negb].
  2: { wp_steps. destruct Hr as (-> & ? & ?). done. }
  wp_steps. rewrite Hf1, Hf. destruct (fgets 255 f) as [buf rest] eqn:Eg. pose proof (lines_step f buf rest Eg) as Hlines.
  unfold added, took. rewrite Hf, Hlines. case_bool_decide as Hb; wp_steps.
  { split; [by destruct Hi1|]. cbn. rewrite Hl1. auto. }
  unfold act. wp_steps. fold (cmdline_of buf). set (c := cmdline_of buf). set (s2 := set_acts _ _).
  assert (inv s2) as Hi2 by (apply (inv_act s1 _ (Looking c)); try done; cbn; by rewrite Hr).
  assert (looked (acts s2) = looked (acts s) ++ [c]) as Hl2 by (cbn; by rewrite looked_app, Hl1).
  eapply wp_mono; [apply wp_handle_line; [done|by rewrite <- Hc1 in Hlt|done]|].
  cbv beta. intros _ s3 (Hi3 & Hf3 & Hl3). wp_steps. rewrite Hl3, Hl2, Hf3, <- app_assoc. split; [done|]. split; [done|].
  right. rewrite length_app. split; [cbn; lia|]. exists rest. split; [done|by eapply fgets_shorter].
Qed.

(** Why the loop stops. *)
Definition stopped (s : ooqd) : Prop :=
  curr_file s = None ∨ curr_busy s = Z.of_nat max_busy ∨ (barrier s = true ∧ 0 < curr_busy s).

Lemma busy_bound s : inv s → 0 ≤ curr_busy s ≤ Z.of_nat max_busy.
Proof.
  intros [Hs _ _ Hb _]. rewrite Hb, <- Hs. split; [lia|]. apply inj_le. unfold ids. rewrite length_fmap.
  clear. induction (slots s) as [|[x|] l IH]; cbn; lia.
Qed.

Lemma wp_add_lines fuel s :
  inv s → (length (default [] (curr_file s)) < fuel)%nat →
  wp (add_lines p e fuel) (λ _ s', inv s' ∧ took s s' ∧ stopped s' ∧
    (length (looked (acts s)) ≤ length (looked (acts s')))%nat ∧
    (curr_busy s = 0 → curr_file s' = None ∨ (length (looked (acts s)) < length (looked (acts s')))%nat)) s.
Proof.
  revert s. induction fuel as [|fuel IH]; intros s Hi Hfuel; [lia|]. cbn [add_lines]. wp_steps.
  pose proof (busy_bound s Hi) as Hbd.
  case_bool_decide as Hf; cbn [orb]; [wp_steps; five; [done..|by left|done|by left]|].
  destruct (Z.leb_spec (Z.of_nat max_busy) (curr_busy s)) as [Hge|Hlt].
  { wp_steps. five; [done..|right; left; lia|done|unfold max_busy in Hge; lia]. }
  destruct (curr_file s) as [f|] eqn:Ef; [|done]. cbn in Hfuel. wp_steps.
  eapply wp_mono; [by apply wp_add_line|]. cbv beta. intros [] s1 (Hi1 & Ht1 & Hr).
  - destruct Hr as [[Hn Hl]|(Hl & f' & Hf1 & Hlen)].
    + destruct fuel; cbn [add_lines]; wp_steps; rewrite bool_decide_true by done; cbn [orb]; wp_steps; (five; [done..|by left|by rewrite Hl|by left]).
    + eapply wp_mono; [apply IH; [done|rewrite Hf1; cbn; lia]|]. cbv beta.
      intros _ s2 (Hi2 & Ht2 & Hst & Hle & Hprog). five; [done|by unfold took in *; rewrite Ht2|done|lia|right; lia].
  - destruct Hr as (-> & Hb & Hbusy). wp_steps. five; [done..|by right; right|done|lia].
Qed.
(** What [checkQueue] reads from: the file that is open, or the queue file if it can be had. *)
Definition taken (s : ooqd) : option (list Z) :=
  match curr_file s with
  | Some f => Some f
  | None =>
      if bool_decide (is_Some (file_at (curr_qfile p) s)) && negb (unlink_ok e (curr_qfile p)) then None
      else if rename_ok e (queue_file p) (curr_qfile p) && open_ok e (curr_qfile p) then file_at (queue_file p) s
      else None
  end.

Lemma curr_qfile_other : squeeze (curr_qfile p) ≠ squeeze (queue_file p).
Proof.
  unfold curr_qfile. change SUFFIX with (46 :: str "curr"). rewrite squeeze_app by done.
  intros E. apply (f_equal length) in E. rewrite length_app in E. cbn in E. lia.
Qed.

(** Only [curr_file] and files have changed. *)
Definition opened (s : ooqd) (r : bool) (s' : ooqd) : Prop :=
  curr_file s' = taken s ∧ quiet s (set_curr_file (curr_file s) s') ∧ r = bool_decide (is_Some (curr_file s')).

Lemma opened_fs s f : curr_file s = None → taken s = None → opened s false (set_fs f s).
Proof. intros E1 E2. split; [by rewrite E2|]. split; [quiet|]. cbn. by rewrite E1. Qed.
Lemma opened_same s : curr_file s = None → taken s = None → opened s false s.
Proof. intros E1 E2. split; [by rewrite E2|]. split; [quiet|]. by rewrite E1. Qed.

Lemma wp_open_queue s : wp (open_queue p e) (opened s) s.
Proof.
  unfold open_queue. wp_steps. case_bool_decide as Hc; wp_steps.
  { destruct Hc as [f Hf]. split; [unfold taken; by rewrite Hf|]. split; [quiet|]. by rewrite Hf. }
  apply eq_None_not_Some in Hc.
  case_bool_decide as Hq; wp_steps.
  { apply opened_same; [done|]. unfold taken. rewrite Hc. by repeat case_match. }
  case_match eqn:Eu; wp_steps; [apply opened_same; [done|]; unfold taken; by rewrite Hc, Eu|].
  unfold rename. wp_steps. unfold file_at at 1. cbn [fs set_fs]. rewrite lookup_delete_ne by apply curr_qfile_other.
  fold (file_at (queue_file p) s). destruct (file_at (queue_file p) s) as [content|] eqn:Ef; [|done].
  assert (taken s = if rename_ok e (queue_file p) (curr_qfile p) && open_ok e (curr_qfile p) then Some content else None) as Ht
    by (unfold taken; by rewrite Hc, Eu, Ef).
  destruct (rename_ok e _ _); wp_steps; cbn [negb andb] in *; wp_steps; [|by apply opened_fs].
  destruct (open_ok e (curr_qfile p)); wp_steps; cbn [negb] in *; wp_steps; [|by refine (opened_fs s _ Hc Ht)].
  unfold opened. rewrite Ht. cbn. unfold file_at. cbn [fs set_fs]. rewrite lookup_insert_eq. split; [done|].
  split; [|done]. quiet.
Qed.

Lemma wp_checkQueue s :
  inv s →
  wp (checkQueue p e) (λ _ s', inv s' ∧ looked (acts s') ++ lines (curr_file s') = looked (acts s) ++ lines (taken s) ∧ stopped s' ∧
    (length (looked (acts s)) ≤ length (looked (acts s')))%nat ∧
    (curr_busy s = 0 → curr_file s' = None ∨ (length (looked (acts s)) < length (looked (acts s')))%nat)) s.
Proof.
  intros Hi. unfold checkQueue. wp_steps. eapply wp_mono; [apply wp_open_queue|]. cbv beta. intros r s1 (Hf & Hq & ->).
  assert (inv s1) as Hi1 by (destruct (inv_quiet _ _ Hi Hq); by constructor).
  assert (looked (acts s1) = looked (acts s)) as Hl by apply (quiet_looked _ _ Hq).
  assert (curr_busy s1 = curr_busy s) as Hb by apply Hq. rewrite <- Hl, <- Hf, <- Hb.
  case_bool_decide as Hc; cbn [negb]; wp_steps.
  - eapply wp_mono; [apply wp_add_lines; [done|lia]|]. cbv beta. intros _ s2 (Hi2 & Ht & Hst & Hle & Hpr).
    eapply wp_mono; [apply keeps_resolv|]. cbv beta. intros _ s3 Hq3. pose proof (quiet_looked _ _ Hq3) as Hl3.
    destruct (settled_quiet _ _ Hi2 Hq3) as (? & Hb3 & Hf3 & _). destruct Hq3 as (_ & _ & Hc3 & _).
    unfold stopped. rewrite Hl3, Hf3, Hb3, Hc3. by five.
  - apply eq_None_not_Some in Hc. five; try done; by left.
Qed.
End Main.

(** ** The daemon *)

Lemma inv_start fs0 : inv (start_state fs0).
Proof. constructor; try done; cbn; constructor. Qed.

Lemma wp_handle p e ev s : env_ok p e → inv s → wp (handle p e ev) (λ _, inv) s.
Proof.
  intros He Hi. destruct ev; cbn [handle].
  - eapply wp_mono; [by apply wp_checkQueue|]. by intros _ s' (? & _).
  - eapply wp_mono; [apply keeps_post|]. cbv beta. intros _ s' Hq. by eapply inv_quiet.
  - eapply wp_mono; [by apply wp_cmddone|]. by intros _ s' [(? & _) _].
  - wp_steps. eapply inv_quiet; [exact Hi|apply quiet_fs].
Qed.

Lemma wp_loop p l s : Forall (λ x, env_ok p x.1) l → inv s → wp (eooqd_loop p l) (λ _, inv) s.
Proof.
  intros Hl. revert s. induction Hl as [|[e ev] l He _ IH]; intros s Hi; cbn [eooqd_loop]; wp_steps; [done|].
  eapply wp_mono; [by apply wp_handle|]. cbv beta. intros _ s' Hi'. by apply IH.
Qed.

(** C10: whatever happens, and in whatever order - queue checks, reposts, ends of tests, changes to
    files by others -, the daemon does not stop for want of a slot: at most ten tests run, each in its own slot, and the
    log of what was done is one in which every test is started once and ended after its start, nothing is read or started
    behind a barrier that was not passed, and a barrier is passed only when no test is running. *)
Theorem ooq_safe p fs0 l :
  Forall (λ x, env_ok p x.1) l →
  ∃ s, eooqd_loop p l (start_state fs0) = Done (tt, s) ∧
    0 ≤ curr_busy s ≤ Z.of_nat max_busy ∧ curr_busy s = Z.of_nat (length (ids (slots s))) ∧ NoDup (ids (slots s)) ∧
    observe (acts s) = Some (list_to_set (ids (slots s)), barrier s).
Proof.
  intros Hl. destruct (wp_run _ _ _ (wp_loop p l _ Hl (inv_start fs0))) as ([] & s & E & Hi).
  exists s. pose proof (busy_bound s Hi). by destruct Hi.
Qed.

(** C24: a queue check takes lines from the front of the queue, in order, each once: what was read before, followed by
    what is in the open file or the queue file, is what has been read afterwards, followed by what is left.
    It goes on until nothing is left, ten tests are running, or a barrier is waiting for tests to end. *)
Theorem ooq_queue_order p e s :
  env_ok p e → inv s →
  ∃ s', checkQueue p e s = Done (tt, s') ∧ inv s' ∧
    looked (acts s') ++ lines (curr_file s') = looked (acts s) ++ lines (taken p e s) ∧
    (curr_file s' = None ∨ curr_busy s' = Z.of_nat max_busy ∨ (barrier s' = true ∧ 0 < curr_busy s')).
Proof.
  intros He Hi. destruct (wp_run _ _ _ (wp_checkQueue p e He s Hi)) as ([] & s' & E & ? & ? & ? & _). by exists s'.
Qed.

(** *** Draining the queue *)

Fixpoint finish (p : params) (e : env) (l : list nat) : OM unit :=
  match l with [] => mret tt | id :: l' => cmddone p e id;; finish p e l' end.
(** A queue check, after which the tests that run come to their ends. *)
Definition round (p : params) (e : env) : OM unit := checkQueue p e;; s ← get; finish p e (ids (slots s)).
Fixpoint rounds (p : params) (e : env) (n : nat) : OM unit :=
  match n with O => mret tt | S n' => round p e;; rounds p e n' end.

Lemma wp_finish_all p e l s :
  env_ok p e → (∀ id, test_delete e id = true) → inv s → ids (slots s) ≡ₚ l →
  wp (finish p e l) (λ _ s', settled s s' ∧ curr_busy s' = 0) s.
Proof.
  intros He Hd. revert s. induction l as [|id l IH]; intros s Hi Hl; cbn [finish]; wp_steps.
  - split; [by apply settled_quiet, quiet_refl|]. rewrite (inv_busy s Hi), (Permutation_length Hl). done.
  - eapply wp_mono; [by apply wp_cmddone|]. cbv beta. intros _ s1 [Hst Hp].
    rewrite Hd, bool_decide_true in Hp by (rewrite Hl; set_solver). rewrite Hl in Hp. apply Permutation_cons_inv in Hp.
    eapply wp_mono; [apply IH; [apply Hst|done]|]. cbv beta. intros _ s2 [Hst2 Hz]. split; [by eapply settled_trans|done].
Qed.

Lemma wp_round p e s f :
  env_ok p e → (∀ id, test_delete e id = true) → inv s → curr_busy s = 0 → curr_file s = Some f →
  wp (round p e) (λ _ s', inv s' ∧ curr_busy s' = 0 ∧ took s s' ∧
    (curr_file s' = None ∨ (length (lines (curr_file s')) < length (lines (Some f)))%nat)) s.
Proof.
  intros He Hd Hi Hz Hf. unfold round. wp_steps. eapply wp_mono; [by apply wp_checkQueue|]. cbv beta.
  intros _ s1 (Hi1 & Ht & _ & _ & Hpr). wp_steps. eapply wp_mono; [by apply wp_finish_all|]. cbv beta.
  intros _ s2 [(Hi2 & _ & Hf2 & Hl2 & _) Hz2]. unfold took. rewrite Hf2, Hl2, Ht, Hf. unfold taken. rewrite Hf.
  split; [done|]. split; [done|]. split; [done|]. destruct (Hpr Hz) as [?|Hlt]; [by left|right].
  unfold taken in Ht. rewrite Hf in Ht. apply (f_equal length) in Ht. rewrite !length_app in Ht. lia.
Qed.

(** C25: the queue is worked off: if the tests that run come to their ends between queue checks, then after
    at most one round more than there are lines every line has been read, in order, and nothing is running. *)
Theorem ooq_drains p e s f :
  env_ok p e → (∀ id, test_delete e id = true) → inv s → curr_busy s = 0 → curr_file s = Some f →
  ∃ n s', (n ≤ S (length (lines (Some f))))%nat ∧ rounds p e n s = Done (tt, s') ∧
    curr_file s' = None ∧ curr_busy s' = 0 ∧ looked (acts s') = looked (acts s) ++ lines (Some f).
Proof.
  intros He Hd. remember (length (lines (Some f))) as k eqn:Ek. revert s f Ek.
  induction (lt_wf k) as [k _ IH]. intros s f -> Hi Hz Hf.
  destruct (wp_run _ _ _ (wp_round p e s f He Hd Hi Hz Hf)) as ([] & s1 & E1 & Hi1 & Hz1 & Ht & Hc). unfold took in Ht. rewrite Hf in Ht.
  destruct (curr_file s1) as [f1|] eqn:Ef1.
  - destruct Hc as [?|Hlt]; [done|]. destruct (IH _ Hlt s1 f1 eq_refl Hi1 Hz1 Ef1) as (n & s' & Hn & En & ? & ? & Hl).
    exists (S n), s'. split; [lia|]. cbn [rounds]. unfold mbind, M_bind. rewrite E1, En. by rewrite Hl, Ht.
  - exists 1%nat, s1. split; [lia|]. cbn [rounds]. unfold mbind, M_bind. rewrite E1. cbn in Ht. by rewrite app_nil_r in Ht.
Qed.
