(* ===== verification/OoqFiles.v ===== *)
(** * The one-off queue: result files

    Results are moved to where they are posted from, and never over results that are waiting there;
    a line that is not a command is kept in the record that reports it. *)

From stdpp Require Import base list list_numbers numbers option strings gmap.
From Stdlib Require Import ZArith Lia.
From S2P Require Import Prelude Bits Blocks Cstr Wp Validate Eperd Local Ooq OoqProofs.

Open Scope Z_scope.

(** ** Names *)

Lemma squeeze_snoc l c : c ≠ 47 → squeeze (l ++ [c]) = squeeze l ++ [c].
Proof.
  intros Hc. rewrite squeeze_app by done. cbn. rewrite (proj2 (Z.eqb_neq c 47) Hc). done.
Qed.

Lemma print_digit (i : nat) : (i < max_busy)%nat → print_int (Z.of_nat i) = [48 + Z.of_nat i].
Proof. unfold max_busy. intros H. do 10 (destruct i as [|i]; [done|]). lia. Qed.

(** The names fit in the 80 characters there are for them. *)
Definition names_fit (p : params) : Prop := (length (spooldir p) + length (queue_id p) ≤ 60)%nat.

Section Names.
Context (p : params) (Hfit : names_fit p).

Definition at_data (l : list Z) : list Z := squeeze (spooldir p ++ slash ++ str "data/" ++ l).
Lemma at_data_app c l : c ≠ 47 → at_data (c :: l) = squeeze (spooldir p ++ slash ++ str "data/") ++ squeeze (c :: l).
Proof. intros Hc. unfold at_data. rewrite <- squeeze_app by done. f_equal. by rewrite <- !app_assoc. Qed.

Lemma new_name i : (i < max_busy)%nat →
  squeeze (new_file p i) = at_data (str "new/ooq" ++ queue_id p ++ str ".") ++ [48 + Z.of_nat i].
Proof.
  intros Hi. unfold new_file, name80, OOQD_NEW_PREFIX_REL, at_data. rewrite print_digit by done.
  rewrite take_ge by (rewrite !length_app; unfold names_fit in Hfit; cbn; lia).
  rewrite <- squeeze_snoc by lia. f_equal. by rewrite <- !app_assoc.
Qed.
Lemma out_name i : (i < max_busy)%nat →
  squeeze (out_file p i) = at_data (str "out/ooq" ++ queue_id p ++ slash) ++ [48 + Z.of_nat i].
Proof.
  intros Hi. unfold out_file, name80, OOQD_OUT_PREFIX_REL, at_data. rewrite print_digit by done.
  rewrite take_ge by (rewrite !length_app; unfold names_fit in Hfit; cbn; lia).
  rewrite <- squeeze_snoc by lia. f_equal. by rewrite <- !app_assoc.
Qed.

Lemma new_name_inj i j : (i < max_busy)%nat → (j < max_busy)%nat → squeeze (new_file p i) = squeeze (new_file p j) → i = j.
Proof. intros Hi Hj. rewrite !new_name by done. intros E. apply app_inj_2 in E as [_ E]; [|done]. injection E. lia. Qed.
Lemma out_name_inj i j : (i < max_busy)%nat → (j < max_busy)%nat → squeeze (out_file p i) = squeeze (out_file p j) → i = j.
Proof. intros Hi Hj. rewrite !out_name by done. intros E. apply app_inj_2 in E as [_ E]; [|done]. injection E. lia. Qed.
Lemma new_out i j : (i < max_busy)%nat → (j < max_busy)%nat → squeeze (new_file p i) ≠ squeeze (out_file p j).
Proof.
  intros Hi Hj. rewrite new_name, out_name by done. intros E. apply app_inj_2 in E as [E _]; [|done].
  change (str "new/ooq") with (110 :: str "ew/ooq") in E. change (str "out/ooq") with (111 :: str "ut/ooq") in E.
  cbn [app] in E. rewrite !at_data_app in E by done. apply app_inv_head in E. by cbn in E.
Qed.
End Names.

(** ** Collecting results *)

Section Collect.
Context (p : params) (e : env) (Hfit : names_fit p).

Definition present (i : nat) (s : ooqd) : bool :=
  bool_decide (is_Some (file_at (out_file p i) s)) || bool_decide (is_Some (file_at (new_file p i) s)).

(** Where the two files of slot [i] are afterwards: results that wait to be posted stay. *)
Definition collected (i : nat) (s : ooqd) : option (list Z) * option (list Z) :=
  match file_at (out_file p i) s, file_at (new_file p i) s with
  | None, Some content => if rename_ok e (new_file p i) (out_file p i) then (Some content, None) else (None, Some content)
  | out, new => (out, new)
  end.
Definition kept_files (i : nat) (s s' : ooqd) : Prop := (file_at (out_file p i) s', file_at (new_file p i) s') = collected i s.

Definition same_at (fn : list Z) (s s' : ooqd) : Prop := fs s' !! fn = fs s !! fn.

Lemma wp_collect i s :
  (i < max_busy)%nat →
  wp (collect p e i) (λ r s', r = present i s ∧ kept_files i s s' ∧
    ∀ fn, fn ≠ squeeze (out_file p i) → fn ≠ squeeze (new_file p i) → same_at fn s s') s.
Proof.
  intros Hi. pose proof (new_out p Hfit i i Hi Hi) as Hne. unfold collect, exists_file, rename, present, kept_files, collected.
  wp_steps. destruct (file_at (out_file p i) s) as [o|] eqn:Eo; cbn.
  { wp_steps. by rewrite Eo. }
  wp_steps. destruct (file_at (new_file p i) s) as [n|] eqn:En; cbn; wp_steps; [|by rewrite Eo, En].
  rewrite En.
  destruct (rename_ok e _ _); wp_steps; [|by rewrite Eo, En].
  unfold file_at, same_at. cbn. rewrite lookup_insert_eq, lookup_insert_ne, lookup_delete_eq by done.
  split; [done|]. split; [done|]. intros fn Ho Hn. by rewrite lookup_insert_ne, lookup_delete_ne.
Qed.

Lemma wp_collect_all k n b s :
  (k + n ≤ max_busy)%nat →
  wp (collect_all p e k n b) (λ r s', r = b || existsb (λ i, present i s) (seq k n) ∧
    (∀ i, i ∈ seq k n → kept_files i s s') ∧
    ∀ fn, (∀ i, i ∈ seq k n → fn ≠ squeeze (out_file p i) ∧ fn ≠ squeeze (new_file p i)) → same_at fn s s') s.
Proof.
  revert k b s. induction n as [|n IH]; intros k b s Hk; cbn [collect_all seq existsb]; wp_steps.
  { rewrite orb_false_r. split; [done|]. split; [|done]. intros i Hi. by apply elem_of_nil in Hi. }
  eapply wp_mono; [apply wp_collect; lia|]. cbv beta. intros r s1 (-> & Hk1 & Hs1).
  assert (∀ i, i ∈ seq (S k) n → same_at (squeeze (out_file p i)) s s1 ∧ same_at (squeeze (new_file p i)) s s1) as Hlater.
  { intros i Hi. apply elem_of_seq in Hi. split; apply Hs1; intros E.
    - apply out_name_inj in E; lia || done.
    - apply eq_sym, new_out in E; lia || done.
    - apply new_out in E; lia || done.
    - apply new_name_inj in E; lia || done. }
  eapply wp_mono; [apply IH; lia|]. cbv beta. intros r s2 (-> & Hk2 & Hs2).
  split; [|split].
  - rewrite <- orb_assoc. f_equal. f_equal. clear -Hlater. induction (seq (S k) n) as [|i l IH]; [done|]. cbn.
    rewrite IH by (intros; apply Hlater; by apply list_elem_of_further). f_equal. destruct (Hlater i) as [H1 H2]; [apply list_elem_of_here|].
    unfold present, file_at. by rewrite H1, H2.
  - intros i Hi. apply elem_of_cons in Hi as [->|Hi].
    + unfold kept_files in *. rewrite <- Hk1. unfold file_at. f_equal; apply Hs2; intros j Hj; apply elem_of_seq in Hj; split; intros E.
      * apply out_name_inj in E; lia || done.
      * apply eq_sym, new_out in E; lia || done.
      * apply new_out in E; lia || done.
      * apply new_name_inj in E; lia || done.
    + specialize (Hk2 i Hi). destruct (Hlater i Hi) as [H1 H2]. unfold kept_files, collected, file_at in *. by rewrite <- H1, <- H2.
  - intros fn Hfn. unfold same_at. rewrite Hs2 by (intros i Hi; apply Hfn; by apply list_elem_of_further).
    apply Hs1; apply Hfn, list_elem_of_here.
Qed.
End Collect.

(** C28: collecting results loses and overwrites nothing: for each of the ten slots, results that wait to be posted stay as they
    are and newer results stay where they were written; otherwise the new results are now the ones to be
    posted (or stay, if they cannot be moved).  No other file changes, and the caller is told
    whether there is anything to post. *)
Theorem ooq_results_kept p e b s :
  names_fit p →
  ∃ s', collect_all p e 0 max_busy b s = Done (b || existsb (λ i, present p i s) (seq 0 max_busy), s') ∧
    (∀ i, (i < max_busy)%nat → (file_at (out_file p i) s', file_at (new_file p i) s') = collected p e i s) ∧
    ∀ fn, (∀ i, (i < max_busy)%nat → fn ≠ squeeze (out_file p i) ∧ fn ≠ squeeze (new_file p i)) → fs s' !! fn = fs s !! fn.
Proof.
  intros Hfit. destruct (wp_run _ _ _ (wp_collect_all p e Hfit 0 max_busy b s (le_n _))) as (r & s' & E & -> & Hk & Hs).
  exists s'. split; [done|]. split; [intros i Hi; apply Hk, elem_of_seq; lia|].
  intros fn Hfn. apply Hs. intros i Hi. apply Hfn. apply elem_of_seq in Hi. lia.
Qed.
