(* ===== verification/OoqCases.v ===== *)
(** * The one-off queue: examples and cases

    The hypotheses of the theorems hold in real runs; runs in which the code departs from what it means to do. *)

From stdpp Require Import base list list_numbers numbers option strings gmap.
From Stdlib Require Import ZArith Lia.
From S2P Require Import Prelude Bits Blocks Cstr Wp Validate Eperd Local Ooq OoqProofs OoqMain OoqFiles.

Open Scope Z_scope.

Definition ex_params (queue : string) : params := P None (str queue) (str "/q/oneoff") (str "/spool") (str "/run").
(** Everything works; a test runs on after [start]. *)
Definition ex_env : env :=
  ENV (λ _, true) (λ _ _, true) (λ _, true) (λ f, (f, 1)) (λ _ _ _, true) (λ _, false) (λ _, true)
      1001 (str "5080") 1000 false (Some 7) 0.
Definition ex_queue : list Z :=
  str "evping -4 a" ++ [nl] ++ str "evping -4 b" ++ [nl] ++ str "barrier /tmp/b" ++ [nl] ++ str "evntp c" ++ [nl].
Definition ex_files : files := {[ str "/q/oneoff" := ex_queue ]}.

Lemma ex_ooq_env_ok q : env_ok (ex_params q) ex_env.
Proof. done. Qed.

(** The state after some events. *)
Definition after (q : string) (l : list event) : ooqd :=
  match eooqd_loop (ex_params q) ((ex_env,.) <$> l) (start_state ex_files) with Done (_, s) => s | Crash _ => start_state ∅ end.

(** Two tests are running and the barrier is waiting. *)
Definition ex_waiting : ooqd := after "" [CheckQueue].
Lemma ex_waiting_inv : inv ex_waiting.
Proof.
  constructor; try (vm_compute; reflexivity).
  - vm_compute. repeat (constructor; [set_solver|]). constructor.
  - vm_compute. repeat constructor.
Qed.
Definition ex_idle : ooqd := after "" [CheckQueue; TestDone 1; TestDone 0].
Lemma ex_idle_inv : inv ex_idle.
Proof.
  constructor; try (vm_compute; reflexivity); vm_compute; constructor.
Qed.

(** The first two tests run, the third waits for both to end. *)
Example ex_barrier :
  curr_busy ex_waiting = 2 ∧ barrier ex_waiting = true ∧ lines (curr_file ex_waiting) = [str "evntp c"] ∧
  curr_busy (after "" [CheckQueue; TestDone 1; CheckQueue]) = 1 ∧
  slots (after "" [CheckQueue; TestDone 1; TestDone 0; CheckQueue]) !! 3%nat = Some (Some (2%nat, str "evntp")).
Proof. vm_compute. repeat split. Qed.

Lemma ooq_safe_witness :
  ∃ s, eooqd_loop (ex_params "") [(ex_env, CheckQueue); (ex_env, RePost); (ex_env, TestDone 0)] (start_state ex_files) = Done (tt, s) ∧
    0 ≤ curr_busy s ≤ Z.of_nat max_busy ∧ curr_busy s = Z.of_nat (length (ids (slots s))) ∧ NoDup (ids (slots s)) ∧
    observe (acts s) = Some (list_to_set (ids (slots s)), barrier s).
Proof. apply ooq_safe. repeat constructor. Defined.

Lemma ooq_queue_order_witness :
  ∃ s', checkQueue (ex_params "") ex_env ex_waiting = Done (tt, s') ∧ inv s' ∧
    looked (acts s') ++ lines (curr_file s') = looked (acts ex_waiting) ++ lines (taken (ex_params "") ex_env ex_waiting) ∧
    (curr_file s' = None ∨ curr_busy s' = Z.of_nat max_busy ∨ (barrier s' = true ∧ 0 < curr_busy s')).
Proof. apply ooq_queue_order; [apply ex_ooq_env_ok|apply ex_waiting_inv]. Defined.

Lemma ooq_drains_witness :
  ∃ n s', (n ≤ S (length (lines (Some (str "evntp c" ++ [nl])))))%nat ∧ rounds (ex_params "") ex_env n ex_idle = Done (tt, s') ∧
    curr_file s' = None ∧ curr_busy s' = 0 ∧ looked (acts s') = looked (acts ex_idle) ++ lines (Some (str "evntp c" ++ [nl])).
Proof.
  apply ooq_drains; [apply ex_ooq_env_ok|done|apply ex_idle_inv|vm_compute; reflexivity|vm_compute; reflexivity].
Defined.

(** Slot 0 has results that wait and newer ones, slot 1 has new results. *)
Definition ex_results : ooqd :=
  start_state (<[str "/spool/data/out/ooq/0" := [1]]> (<[str "/spool/data/new/ooq.0" := [2]]>
    (<[str "/spool/data/new/ooq.1" := [3]]> ∅))).
Lemma ooq_results_kept_witness :
  ∃ s', collect_all (ex_params "") ex_env 0 max_busy false ex_results =
      Done (false || existsb (λ i, present (ex_params "") i ex_results) (seq 0 max_busy), s') ∧
    (∀ i, (i < max_busy)%nat →
       (file_at (out_file (ex_params "") i) s', file_at (new_file (ex_params "") i) s') = collected (ex_params "") ex_env i ex_results) ∧
    ∀ fn, (∀ i, (i < max_busy)%nat → fn ≠ squeeze (out_file (ex_params "") i) ∧ fn ≠ squeeze (new_file (ex_params "") i)) →
      fs s' !! fn = fs ex_results !! fn.
Proof. apply ooq_results_kept. unfold names_fit. cbn. lia. Defined.
Example ex_collected :
  collected (ex_params "") ex_env 0 ex_results = (Some [1], Some [2]) ∧ collected (ex_params "") ex_env 1 ex_results = (Some [3], None).
Proof. vm_compute. split; reflexivity. Qed.

(** ** Where the code departs from what it means to do *)

(** The end of a test moves its results to a file of another name than [post_results]: with a queue
    id the two are in different directories. *)
Theorem ooq_done_elsewhere :
  squeeze (done_file (ex_params "") 3) = squeeze (out_file (ex_params "") 3) ∧
  done_file (ex_params "10") 3 = str "/spool/data/out/ooq/10/3" ∧ out_file (ex_params "10") 3 = str "/spool/data/out/ooq10/3".
Proof. vm_compute. split; [reflexivity|]. split; reflexivity. Qed.

(** A barrier with a file that is not allowed is a barrier all the same; no file is made for it. *)
Theorem ooq_insecure_barrier :
  barrier ex_waiting = true ∧ barrier_file ex_waiting = None ∧
  fs (after "" [CheckQueue; TestDone 1; TestDone 0; CheckQueue]) !! str "/tmp/b" = None.
Proof. vm_compute. split; [reflexivity|]. split; reflexivity. Qed.

(** A line of more than 255 characters is taken for two: the second part is a command of its own. *)
Theorem ooq_long_line :
  lines (Some (str "evping " ++ replicate 248 120 ++ str "evntp c" ++ [nl])) = [str "evping " ++ replicate 248 120; str "evntp c"].
Proof. vm_compute. reflexivity. Qed.
