(* ===== verification/TrtPacket.v ===== *)
(** * Traceroute: packets ([eperd/traceroute.c])

    The probes of a traceroute, of six kinds: TCP, ICMP and UDP over IPv4 and IPv6.  They are
    built in the packet buffer all measurements share and carry the index and the
    sequence number of the probe; a Paris traceroute (RIPE Atlas: [parismod]) changes two bytes of the data so that
    the checksum, which routers may hash, has a chosen value. *)

From stdpp Require Import base list list_numbers numbers option strings.
From Stdlib Require Import ZArith Lia.
From S2P Require Import Prelude Bits Blocks Cstr Packet Validate.

Open Scope Z_scope.

Definition IPHDR : Z := 20.
Definition ICMP_MINLEN : Z := 8.
Definition ICMP6_HDR : Z := 8.
Definition sizeof_tcphdr : Z := 20.
Definition sizeof_udphdr : Z := 8.
Definition sizeof_ip6_hdr : Z := 40.
Definition sizeof_v6info : Z := 32.
Definition BASE_PORT : Z := 0x8000 + 666.
Definition SRC_BASE_PORT : Z := 20480.
Definition MAX_DATA_SIZE : Z := 4096.
(** [sizeof(base->packet)] *)
Definition sizeof_packet : Z := MAX_DATA_SIZE + 128.

Definition IPPROTO_HOPOPTS : Z := 0.
Definition IPPROTO_ICMP : Z := 1.
Definition IPPROTO_TCP : Z := 6.
Definition IPPROTO_UDP : Z := 17.
Definition IPPROTO_FRAGMENT : Z := 44.
Definition IPPROTO_ICMPV6 : Z := 58.
Definition IPPROTO_DSTOPTS : Z := 60.

Definition id_string : list Z := str "http://atlas.ripe.net Atlas says Hi!".

(** ** Checksums *)

Definition fold_sum (sum : Z) : Z :=
  let sum := (sum ≫ 16) + Z.land sum 0xffff in
  let sum := sum + (sum ≫ 16) in
  u16 (Z.lnot sum).
Definition in_cksum (buf : list Z) : Z := fold_sum (sum16 0 buf).
(** [udp] is empty for [NULL]. *)
Definition in_cksum_udp (v4_ph udp buf : list Z) : Z := fold_sum (sum16 (sum16 (sum16 0 v4_ph) udp) buf).
Definition in_cksum_icmp6 (v6_ph buf : list Z) : Z := fold_sum (sum16 (sum16 0 v6_ph) buf).

(** [struct v4_ph] and [struct v6_ph] *)
Definition v4_ph (src dst : list Z) (proto len : Z) : list Z := src ++ dst ++ [0; proto] ++ be16 len.
Definition v6_ph (src dst : list Z) (nxt len : Z) : list Z := src ++ dst ++ be32 len ++ [0; 0; 0; nxt].

Definition ntohs (z : Z) : Z := be_value (le16 z).

(** The two bytes that make the checksum [val], where it is [sum] without them. *)
Definition fudge (sum val : Z) : Z :=
  let usum := ntohs sum + (0xffff - val) in
  u16 (usum + (usum ≫ 16)).

(** ** Building probes *)

(** [memset] of [n] bytes and [strcpy] of the text. *)
Definition fill (b : blk Z) (off n : Z) : outcome (blk Z) :=
  if 0 <? n then
    b ← store_at b off (replicate (Z.to_nat n) 0);
    store_at b off (id_string ++ [0])
  else mret b.

(** The bytes of the address in a [struct sockaddr]. *)
Definition addr_bytes (v6 : bool) (sa : sockaddr) : outcome (list Z) :=
  match sa with
  | AF_INET a => if v6 then Crash Undefined else Done (be32 a)
  | AF_INET6 groups => if v6 then Done (groups ≫= be16) else Crash Undefined
  | AF_OTHER _ => Crash Undefined
  end.

(** The results are the buffer, the length of the probe and the size of its data, which grows to the
    smallest there can be ([state->curpacksize]). *)
Definition put_tcp (b : blk Z) (seqno sport dport size : Z) (ph : Z → list Z) : outcome (blk Z * Z * Z) :=
  b ← store_at b 0 (replicate (Z.to_nat sizeof_tcphdr) 0);
  b ← store_at b 4 (be32 seqno);
  b ← store_at b 12 [(sizeof_tcphdr / 4) ≪ 4; 2];
  if sizeof_packet <? sizeof_tcphdr + size then Crash Fatal
  else
    b ← fill b sizeof_tcphdr size;
    let len := sizeof_tcphdr + size in
    b ← store_at b 0 (be16 sport ++ be16 dport);
    data ← bytes_at b 0 len;
    b ← store_at b 16 (le16 (in_cksum_udp (ph len) [] data));
    mret (b, len, size).

Definition put_icmp4 (b : blk Z) (id seq size : Z) (paris : option Z) : outcome (blk Z * Z * Z) :=
  b ← store_at b 0 ([8; 0; 0; 0] ++ be16 id ++ be16 seq ++ [0; 0]);
  let len := ICMP_MINLEN + 2 in
  let size := if ICMP_MINLEN + size <? len then len - ICMP_MINLEN else size in
  if sizeof_packet <? ICMP_MINLEN + size then Crash Fatal
  else
    b ← fill b len (ICMP_MINLEN + size - len);
    let len := ICMP_MINLEN + size in
    b ← match paris with
        | Some paris =>
            data ← bytes_at b 0 len;
            store_at b 8 (be16 (fudge (in_cksum data) paris))
        | None => mret b
        end;
    data ← bytes_at b 0 len;
    b ← store_at b 2 (le16 (in_cksum data));
    mret (b, len, size).

(** [struct v6info] at an offset; two bytes behind [fuzz] are padding. *)
Definition put_v6info (b : blk Z) (off pid id seq : Z) (tv : timespec) : outcome (blk Z) :=
  b ← store_at b off [0; 0];
  store_at b (off + 4) (be32 pid ++ be32 id ++ be32 seq ++ le64 (tv_sec tv) ++ le64 (tv_nsec tv)).

Definition put_icmp6 (b : blk Z) (pid id seq size : Z) (tv : timespec) (paris : option Z) (ph : Z → list Z) :
  outcome (blk Z * Z * Z) :=
  b ← store_at b 0 ([128; 0; 0; 0] ++ be16 pid ++ be16 seq);
  b ← put_v6info b ICMP6_HDR pid id seq tv;
  let len := sizeof_v6info in
  let size := if size <? len then len else size in
  if sizeof_packet <? ICMP6_HDR + size then Crash Fatal
  else
    b ← fill b (ICMP6_HDR + len) (size - len);
    let len := size + ICMP6_HDR in
    b ← match paris with
        | Some paris =>
            data ← bytes_at b 0 len;
            store_at b ICMP6_HDR (be16 (fudge (in_cksum_icmp6 (ph len) data) (u16 (paris + 1))))
        | None => mret b
        end;
    mret (b, len, size).

Definition put_udp4 (b : blk Z) (sport dport size val : Z) (ph : Z → list Z) : outcome (blk Z * Z * Z) :=
  b ← store_at b 0 [0; 0];
  let len := 2 in
  let size := if size <? len then len else size in
  b ← fill b len (size - len);
  let len := size in
  let udp := be16 sport ++ be16 dport ++ be16 (sizeof_udphdr + len) ++ [0; 0] in
  data ← bytes_at b 0 len;
  b ← store_at b 0 (be16 (fudge (in_cksum_udp (ph (sizeof_udphdr + len)) udp data) val));
  mret (b, len, size).

Definition put_udp6 (b : blk Z) (pid id seq size : Z) (tv : timespec) : outcome (blk Z * Z * Z) :=
  b ← put_v6info b 0 pid id seq tv;
  let len := sizeof_v6info in
  let size := if size <? len then len else size in
  b ← fill b len (size - len);
  mret (b, size, size).
