(* ===== verification/TrtParis.v ===== *)
(** * Traceroute: the bytes of a probe

    What each kind of probe holds, and that a Paris traceroute gets the checksum it asks for: routers that
    choose a path by the first bytes of a packet see the same bytes in every
    probe of a measurement. *)

From stdpp Require Import base list list_numbers numbers option strings.
From Stdlib Require Import ZArith Lia.
From S2P Require Import Prelude Bits Blocks Cstr Packet Validate TrtPacket.

Open Scope Z_scope.

(** ** Checksums *)

Lemma in_cksum_mk l : in_cksum l = mkcksum l.
Proof. done. Qed.
Lemma in_cksum_udp_mk ph udp l :
  Nat.Even (length ph) → Nat.Even (length udp) → in_cksum_udp ph udp l = mkcksum (ph ++ udp ++ l).
Proof.
  intros H1 H2. unfold in_cksum_udp, mkcksum. rewrite (sum16_acc l), (sum16_acc udp), !sum16_app by done.
  by rewrite <- Z.add_assoc.
Qed.
Lemma in_cksum_icmp6_mk ph l : Nat.Even (length ph) → in_cksum_icmp6 ph l = mkcksum (ph ++ l).
Proof. intros H. unfold in_cksum_icmp6, mkcksum. by rewrite (sum16_acc l), sum16_app. Qed.

Lemma ntohs_swap c : 0 ≤ c < 2 ^ 16 → ∃ hi lo, 0 ≤ hi < 256 ∧ 0 ≤ lo < 256 ∧ c = 256 * hi + lo ∧ ntohs c = 256 * lo + hi.
Proof.
  intros Hc. exists (c / 256), (c `mod` 256). pose proof (Z.mod_pos_bound c 256). pose proof (Z.div_mod c 256).
  assert (0 ≤ c / 256 < 256) by (split; [apply Z.div_pos|apply Z.div_lt_upper_bound]; lia).
  split; [done|]. split; [lia|]. split; [lia|]. unfold ntohs, le16, be_value, u8. cbn [fold_left].
  rewrite Z.shiftr_div_pow2 by lia. change (2 ^ 8) with 256. rewrite (Z.mod_small (c / 256)) by lia. lia.
Qed.

Lemma le16_ntohs v : 0 ≤ v < 2 ^ 16 → le16 (ntohs v) = be16 v.
Proof.
  intros Hv. destruct (ntohs_swap v Hv) as (hi & lo & Hhi & Hlo & -> & ->). unfold le16, be16, u8.
  rewrite !Z.shiftr_div_pow2 by lia. change (2 ^ 8) with 256.
  rewrite !(Z.mul_comm 256), !Z.div_add_l, !Z.div_small by lia.
  rewrite !(Z.add_comm (_ * 256)), !Z.mod_add, !Z.mod_small by lia. by rewrite !Z.add_0_r.
Qed.

(** The bytes that [fudge] computes give the checksum asked for. *)
Lemma fudge_correct a b val :
  Nat.Even (length a) → Forall is_byte a → Forall is_byte b → zlen a + zlen b < 30000 → 0 ≤ val < 65535 →
  0 < sum16 0 (a ++ [0; 0] ++ b) →
  mkcksum (a ++ be16 (fudge (mkcksum (a ++ [0; 0] ++ b)) val) ++ b) = ntohs val.
Proof.
  intros He Ha Hb Hl Hv Hpos. set (c := mkcksum (a ++ [0; 0] ++ b)).
  assert (∀ w, length w = 2%nat → sum16 0 (a ++ w ++ b) = sum16 0 a + sum16 0 w + sum16 0 b) as Hs.
  { intros w Hw. rewrite sum16_app, sum16_app by (first [done|rewrite Hw; by exists 1%nat]). lia. }
  pose proof (sum16_bound a Ha). pose proof (sum16_bound b Hb). pose proof (zlen_nonneg a). pose proof (zlen_nonneg b).
  pose proof (Z.div_le_upper_bound (zlen a + 1) 2 15001 ltac:(lia) ltac:(lia)).
  pose proof (Z.div_le_upper_bound (zlen b + 1) 2 15001 ltac:(lia) ltac:(lia)).
  rewrite (Hs [0; 0]) in Hpos by done. change (sum16 0 [0; 0]) with 0 in Hpos.
  destruct (mkcksum_fold (sum16 0 a + sum16 0 b) (a ++ [0; 0] ++ b)) as (f & k & Ec & Hf & Hk & Hk0);
    [rewrite Hs by done; change (sum16 0 [0; 0]) with 0; lia|lia|]. fold c in Ec.
  destruct (ntohs_swap c ltac:(lia)) as (c1 & c0 & Hc1 & Hc0 & Hc & Hsw).
  destruct (ntohs_swap val ltac:(lia)) as (v1 & v0 & Hv1 & Hv0 & Hval & Hsv).
  assert (∃ j, 0 ≤ j ≤ 1 ∧ fudge c val = ntohs c + (65535 - val) - 65535 * j ∧ 1 ≤ fudge c val ≤ 65535) as (j & Hj & HF & HFb).
  { unfold fudge. set (u := ntohs c + (0xffff - val)). rewrite Z.shiftr_div_pow2 by lia. unfold u16.
    destruct (Z.lt_ge_cases u 65536) as [Hlt|Hge].
    - exists 0. rewrite (Z.div_small u) by lia. rewrite Z.mod_small by lia. lia.
    - exists 1. assert (u / 2 ^ 16 = 1) as -> by (symmetry; apply (Z.div_unique _ _ _ (u - 65536)); lia).
      assert ((u + 1) `mod` 2 ^ 16 = u - 65535) as -> by (symmetry; apply (Z.mod_unique _ _ 1); lia). lia. }
  set (F := fudge c val) in *. destruct (ntohs_swap F ltac:(lia)) as (F1 & F0 & HF1 & HF0 & EF & _).
  assert (sum16 0 (be16 F) = 256 * F0 + F1) as HsF.
  { unfold be16, u8. cbn [sum16]. rewrite Z.shiftr_div_pow2 by lia. change (2 ^ 8) with 256. rewrite EF.
    rewrite (Z.mul_comm 256 F1), Z.div_add_l, (Z.div_small F0), Z.add_0_r, (Z.mod_small F1) by lia.
    rewrite (Z.add_comm (F1 * 256)), Z.mod_add, Z.mod_small by lia. lia. }
  destruct (mkcksum_fold (sum16 0 a + sum16 0 b + (256 * F0 + F1)) (a ++ be16 F ++ b)) as (f' & k' & Ec' & Hf' & Hk' & _);
    [rewrite Hs by done; lia|lia|].
  rewrite Ec', Hsv. lia.
Qed.

(** ** The buffer *)

Definition buf_ok (l : list Z) : Prop := length l = Z.to_nat sizeof_packet ∧ Forall is_byte l.

Lemma buf_zlen l : buf_ok l → zlen l = 4224.
Proof. intros [H _]. unfold zlen. by rewrite H. Qed.
Lemma field_bytes l o n : Forall is_byte l → Forall is_byte (field l o n).
Proof. intros H. by apply Forall_take, Forall_drop. Qed.
Lemma field_split l o n m : 0 ≤ o → 0 ≤ n → 0 ≤ m → field l o (n + m) = field l o n ++ field l (o + n) m.
Proof.
  intros Ho Hn Hm. unfold field. rewrite !Z2Nat.inj_add, <- drop_drop by lia. set (X := drop (Z.to_nat o) l).
  rewrite (take_drop_commute X). rewrite <- (take_drop (Z.to_nat n) (take (Z.to_nat n + Z.to_nat m) X)) at 1.
  rewrite take_take. f_equal. f_equal. lia.
Qed.

(** The buffer after [x] was written at [off]. *)
Record wrote (l : list Z) (off : Z) (x l' : list Z) : Prop := Wrote {
  w_ok : buf_ok l';
  w_before : ∀ o n, 0 ≤ o → 0 ≤ n → o + n ≤ off → field l' o n = field l o n;
  w_same : field l' off (zlen x) = x;
  w_after : ∀ o n, off + zlen x ≤ o → field l' o n = field l o n
}.
Lemma store_buf l off x :
  buf_ok l → Forall is_byte x → 0 ≤ off → off + zlen x ≤ 4224 →
  ∃ l', store_at (Some <$> l) off x = Done (Some <$> l') ∧ wrote l off x l'.
Proof.
  intros Hl Hx Ho Hn. pose proof (buf_zlen l Hl) as Hz. destruct Hl as [Hl Hb]. pose proof (zlen_nonneg x).
  exists (put_at l off x). split; [apply store_at_list; lia|]. constructor.
  - split; [rewrite length_put_at; lia|by apply put_at_bytes].
  - intros o n ? ? ?. apply field_put_before; lia.
  - apply field_put_same; lia.
  - intros o n ?. apply field_put_after; lia.
Qed.

(** [fill] changes nothing in front of its place. *)
Definition filled (l : list Z) (off : Z) (l' : list Z) : Prop :=
  buf_ok l' ∧ ∀ o n, 0 ≤ o → 0 ≤ n → o + n ≤ off → field l' o n = field l o n.
Lemma fill_buf l off n :
  buf_ok l → 0 ≤ off ≤ 100 → n ≤ 4096 → ∃ l', fill (Some <$> l) off n = Done (Some <$> l') ∧ filled l off l'.
Proof.
  intros Hl Ho Hn. unfold fill. destruct (Z.ltb_spec 0 n) as [Hpos|_]; [|by exists l].
  destruct (store_buf l off (replicate (Z.to_nat n) 0)) as (l1 & E1 & [H1 B1 _ _]); [done|..].
  { apply Forall_replicate. unfold is_byte. lia. }
  { lia. }
  { unfold zlen. rewrite length_replicate. lia. }
  rewrite E1. msimpl. destruct (store_buf l1 off (id_string ++ [0])) as (l2 & E2 & [H2 B2 _ _]); [done|..].
  { vm_compute. repeat (constructor; [done|]). constructor. }
  { lia. }
  { change (zlen (id_string ++ [0])) with 37. lia. }
  rewrite E2. exists l2. split; [done|]. split; [done|]. intros o m ? ? ?. rewrite B2, B1 by lia. done.
Qed.

(** Run a store or [fill] whose buffer is known. *)
Ltac bytes :=
  repeat first [apply Forall_app; split|apply Forall_cons; split|apply Forall_replicate|apply Forall_nil_2];
  first [by auto|unfold is_byte; lia|by vm_compute|idtac].
Ltac store l W :=
  lazymatch goal with
  | |- context [store_at (Some <$> ?b) ?off ?x] =>
      let E := fresh in
      destruct (store_buf b off x) as (l & E & W);
      [by eauto using w_ok|bytes|lia|rewrite ?zlen_app; vm_compute; by repeat constructor|rewrite E; clear E; msimpl]
  end.

Lemma be32_bytes z : Forall is_byte (be32 z).
Proof. repeat constructor; apply u8_bytes. Qed.
#[export] Hint Resolve be32_bytes : core.

Lemma sum16_pos x y (l : list Z) : 0 < x → 0 ≤ y → Forall is_byte l → 0 < sum16 0 (x :: y :: l).
Proof. intros Hx Hy H. cbn [sum16]. rewrite sum16_acc. apply sum16_bound in H. lia. Qed.

Lemma field_cut l o n m k o' : 0 ≤ o → 0 ≤ n → 0 ≤ m → k = n + m → o' = o + n → field l o k = field l o n ++ field l o' m.
Proof. intros ? ? ? -> ->. by apply field_split. Qed.

(** A field of a field that is known. *)
Lemma field_sub l o n x k b : field l o n = x → 0 ≤ o ≤ k → 0 ≤ b → k + b ≤ o + n → field l k b = field x (k - o) b.
Proof.
  intros <- Ho Hb Hn. set (a := k - o). replace k with (o + a) by lia. unfold field. rewrite Z2Nat.inj_add, <- drop_drop by lia. set (X := drop (Z.to_nat o) l).
  replace (Z.to_nat n) with (Z.to_nat a + Z.to_nat (n - a))%nat by lia. rewrite <- take_drop_commute, take_take. f_equal. lia.
Qed.

(** The place of the checksum in an ICMP message, and that of the two bytes that are changed. *)
Lemma icmp4_parts l n : 0 ≤ n →
  field l 0 (10 + n) = (field l 0 2 ++ field l 2 2 ++ field l 4 4) ++ field l 8 2 ++ field l 10 n.
Proof.
  intros Hn. rewrite (field_split l 0 10 n), (field_cut l 0 8 2 10 8), (field_cut l 0 4 4 8 4), (field_cut l 0 2 2 4 2) by lia.
  by rewrite <- !app_assoc.
Qed.

Lemma length_fieldn l o n : buf_ok l → 0 ≤ o → 0 ≤ n → o + n ≤ 4224 → length (field l o n) = Z.to_nat n.
Proof. intros Hl Ho Hn Hle. apply length_field; [done|done|]. rewrite (buf_zlen l Hl). lia. Qed.

(** An echo request: the identifier and sequence number, a right checksum, and with Paris the checksum that was asked for. *)
Lemma put_icmp4_spec l id seq size paris :
  buf_ok l → 0 ≤ size ≤ 4096 → match paris with Some v => 0 ≤ v < 65535 | None => True end →
  ∃ l', put_icmp4 (Some <$> l) id seq size paris = Done (Some <$> l', 8 + Z.max 2 size, Z.max 2 size) ∧ buf_ok l' ∧
    field l' 0 2 = [8; 0] ∧ field l' 4 4 = be16 id ++ be16 seq ∧
    mkcksum (field l' 0 (8 + Z.max 2 size)) = 0 ∧
    match paris with Some v => field l' 2 2 = be16 v | None => True end.
Proof.
  intros Hl Hs Hp. unfold put_icmp4, ICMP_MINLEN, sizeof_packet, MAX_DATA_SIZE. store l1 W1.
  replace (if 8 + size <? 8 + 2 then 8 + 2 - 8 else size) with (Z.max 2 size) by (destruct (Z.ltb_spec (8 + size) (8 + 2)); lia).
  rewrite (proj2 (Z.ltb_ge _ _)) by lia. assert (2 ≤ Z.max 2 size ≤ 4096) as Hsz by lia. generalize dependent (Z.max 2 size). intros sz Hsz.
  destruct (fill_buf l1 (8 + 2) (8 + sz - (8 + 2))) as (l2 & E2 & H2 & B2); [by apply W1|lia|lia|]. rewrite E2. msimpl. clear E2.
  assert (field l2 0 2 = [8; 0] ∧ field l2 2 2 = [0; 0] ∧ field l2 4 4 = be16 id ++ be16 seq ∧ field l2 8 2 = [0; 0]) as (F0 & F2 & F4 & F8).
  { pose proof (w_same _ _ _ _ W1) as Hsame. change (zlen _) with 10 in Hsame. rewrite !B2 by lia.
    by rewrite !(field_sub l1 0 10 _ _ _ Hsame) by lia. }
  set (rest := field l2 10 (sz - 2)).
  assert (Forall is_byte rest) as Hrest by (apply field_bytes, H2).
  assert (length rest = Z.to_nat (sz - 2)) as Hlrest by (apply length_fieldn; [done|lia..]).
  assert (field l2 0 (8 + sz) = ([8; 0] ++ [0; 0] ++ be16 id ++ be16 seq) ++ [0; 0] ++ rest) as Hdata.
  { replace (8 + sz) with (10 + (sz - 2)) by lia. by rewrite icmp4_parts, F0, F2, F4, F8 by lia. }
  assert (∃ w l3, Forall is_byte w ∧ length w = 2%nat ∧
    match paris with
    | Some paris => data ← bytes_at (Some <$> l2) 0 (8 + sz); store_at (Some <$> l2) 8 (be16 (fudge (in_cksum data) paris))
    | None => mret (Some <$> l2)
    end = Done (Some <$> l3) ∧ wrote l2 8 w l3 ∧
    match paris with Some v => mkcksum (([8; 0] ++ [0; 0] ++ be16 id ++ be16 seq) ++ w ++ rest) = ntohs v | None => True end)
    as (w & l3 & Hw & Hlw & E3 & W3 & Hv).
  { destruct paris as [v|].
    - rewrite bytes_at_field by (rewrite ?(buf_zlen l2 H2); lia). msimpl. rewrite Hdata. store l3 W3. eexists _, l3.
      split; [apply be16_bytes|]. split; [done|]. split; [done|]. split; [exact W3|].
      apply fudge_correct; [by exists 4%nat|bytes|done|unfold zlen; rewrite Hlrest; cbn; lia|done|].
      apply sum16_pos; [lia|lia|bytes].
    - eexists [0; 0], l2. split; [bytes|]. split; [done|]. split; [done|]. split; [|done].
      constructor; [done|done|done|done]. }
  rewrite E3. clear E3. msimpl.
  assert (field l3 0 2 = [8; 0] ∧ field l3 4 4 = be16 id ++ be16 seq) as [G0 G4] by (by rewrite !(w_before _ _ _ _ W3) by lia).
  assert (field l3 0 (8 + sz) = [8; 0] ++ [0; 0] ++ (be16 id ++ be16 seq) ++ w ++ rest) as Hdata3.
  { pose proof (w_same _ _ _ _ W3) as G8. replace (zlen w) with 2 in G8 by (unfold zlen; by rewrite Hlw).
    replace (8 + sz) with (10 + (sz - 2)) by lia. rewrite icmp4_parts, G0, G4, G8 by lia.
    rewrite (w_before _ _ _ _ W3 2 2), F2 by lia. rewrite (w_after _ _ _ _ W3 10 (sz - 2)) by (unfold zlen; rewrite Hlw; lia). done. }
  rewrite bytes_at_field by (rewrite ?(buf_zlen l3 (w_ok _ _ _ _ W3)); lia). msimpl. rewrite Hdata3, in_cksum_mk.
  set (c := mkcksum _). store l4 W4. exists l4. split; [done|]. split; [apply W4|].
  split; [by rewrite (w_before _ _ _ _ W4) by lia|]. split; [by rewrite (w_after _ _ _ _ W4) by (vm_compute; done)|].
  assert (field l4 2 2 = le16 c) as G2 by exact (w_same _ _ _ _ W4). split.
  - replace (8 + sz) with (4 + (4 + sz)) by lia. rewrite (field_split l4 0 4 (4 + sz)), (field_cut l4 0 2 2 4 2) by lia.
    rewrite G2, (w_before _ _ _ _ W4), (w_after _ _ _ _ W4), G0 by (try lia; vm_compute; done).
    replace (8 + sz) with (4 + (4 + sz)) in Hdata3 by lia. rewrite (field_split l3 0 4 (4 + sz)), (field_cut l3 0 2 2 4 2), G0 in Hdata3 by lia.
    rewrite (w_before _ _ _ _ W3 2 2), F2 in Hdata3 by lia. rewrite <- app_assoc in Hdata3. do 2 apply app_inv_head in Hdata3.
    rewrite Hdata3. clear Hdata3. unfold c. rewrite <- app_assoc. apply mkcksum_inserted.
    + by exists 1%nat.
    + bytes.
    + bytes.
    + unfold zlen. rewrite !length_app, Hlw, Hlrest. cbn. lia.
    + apply sum16_pos; [lia|lia|bytes].
  - destruct paris as [v|]; [|done]. rewrite G2. unfold c. rewrite <- (le16_ntohs v) by lia. by rewrite <- Hv.
Qed.

(** A TCP segment: the index and sequence number in the sequence number of the segment. *)
Lemma put_tcp_spec l seqno sport dport size ph :
  buf_ok l → 0 ≤ size ≤ 4096 →
  ∃ l', put_tcp (Some <$> l) seqno sport dport size ph = Done (Some <$> l', 20 + size, size) ∧ buf_ok l' ∧
    field l' 0 4 = be16 sport ++ be16 dport ∧ field l' 4 4 = be32 seqno.
Proof.
  intros Hl Hs. unfold put_tcp, sizeof_tcphdr, sizeof_packet, MAX_DATA_SIZE. store l1 W1. store l2 W2. store l3 W3.
  rewrite (proj2 (Z.ltb_ge _ _)) by lia.
  destruct (fill_buf l3 20 size) as (l4 & E4 & H4 & B4); [by apply W3|lia|lia|]. rewrite E4. msimpl. clear E4.
  store l5 W5. rewrite bytes_at_field by (rewrite ?(buf_zlen l5 (w_ok _ _ _ _ W5)); lia). msimpl.
  store l6 W6. exists l6. split; [done|]. split; [apply W6|].
  split; [rewrite (w_before _ _ _ _ W6) by lia; exact (w_same _ _ _ _ W5)|].
  rewrite (w_before _ _ _ _ W6), (w_after _ _ _ _ W5), B4, (w_before _ _ _ _ W3) by (try lia; vm_compute; done).
  exact (w_same _ _ _ _ W2).
Qed.

(** The fields of [struct v6info]. *)
Lemma put_v6info_spec l off pid id seq tv :
  buf_ok l → 0 ≤ off ≤ 100 →
  ∃ l', put_v6info (Some <$> l) off pid id seq tv = Done (Some <$> l') ∧ buf_ok l' ∧
    field l' off 2 = [0; 0] ∧ field l' (off + 4) 28 = be32 pid ++ be32 id ++ be32 seq ++ le64 (tv_sec tv) ++ le64 (tv_nsec tv) ∧
    ∀ o n, 0 ≤ o → 0 ≤ n → o + n ≤ off → field l' o n = field l o n.
Proof.
  intros Hl Ho. unfold put_v6info.
  destruct (store_buf l off [0; 0]) as (l1 & E1 & W1); [done|bytes|lia|change (zlen [0; 0]) with 2; lia|]. rewrite E1. msimpl.
  destruct (store_buf l1 (off + 4) (be32 pid ++ be32 id ++ be32 seq ++ le64 (tv_sec tv) ++ le64 (tv_nsec tv))) as (l2 & E2 & W2);
    [apply W1|bytes|lia|change (zlen _) with 28; lia|].
  rewrite E2. exists l2. split; [done|]. split; [apply W2|].
  split; [rewrite (w_before _ _ _ _ W2) by lia; exact (w_same _ _ _ _ W1)|]. split; [exact (w_same _ _ _ _ W2)|].
  intros o n ? ? ?. rewrite (w_before _ _ _ _ W2), (w_before _ _ _ _ W1) by lia. done.
Qed.

(** An ICMPv6 echo request; with Paris, the checksum the system computes is the one that was asked for. *)
Lemma put_icmp6_spec l pid id seq size tv paris ph :
  buf_ok l → 0 ≤ size ≤ 4096 → match paris with Some v => 0 ≤ v < 65534 | None => True end →
  (∀ n, Nat.Even (length (ph n)) ∧ (length (ph n) ≤ 100)%nat ∧ Forall is_byte (ph n)) →
  ∃ l', put_icmp6 (Some <$> l) pid id seq size tv paris ph = Done (Some <$> l', Z.max 32 size + 8, Z.max 32 size) ∧ buf_ok l' ∧
    field l' 0 8 = [128; 0; 0; 0] ++ be16 pid ++ be16 seq ∧
    field l' 12 28 = be32 pid ++ be32 id ++ be32 seq ++ le64 (tv_sec tv) ++ le64 (tv_nsec tv) ∧
    match paris with
    | Some v => in_cksum_icmp6 (ph (Z.max 32 size + 8)) (field l' 0 (Z.max 32 size + 8)) = ntohs (v + 1)
    | None => True
    end.
Proof.
  intros Hl Hs Hp Hph. unfold put_icmp6, ICMP6_HDR, sizeof_v6info, sizeof_packet, MAX_DATA_SIZE. store l1 W1.
  destruct (put_v6info_spec l1 8 pid id seq tv) as (l2 & E2 & H2 & F8 & F12 & B2); [apply W1|lia|]. rewrite E2. msimpl. clear E2.
  assert (field l2 0 8 = [128; 0; 0; 0] ++ be16 pid ++ be16 seq) as F0 by (rewrite B2 by lia; exact (w_same _ _ _ _ W1)).
  replace (if size <? 32 then 32 else size) with (Z.max 32 size) by (destruct (Z.ltb_spec size 32); lia).
  rewrite (proj2 (Z.ltb_ge _ _)) by lia. assert (32 ≤ Z.max 32 size ≤ 4096) as Hsz by lia. generalize dependent (Z.max 32 size). intros sz Hsz.
  destruct (fill_buf l2 (8 + 32) (sz - 32)) as (l3 & E3 & H3 & B3); [done|lia|lia|]. rewrite E3. msimpl. clear E3.
  change (8 + 4) with 12 in F12. rewrite <- (B3 0 8) in F0 by lia. rewrite <- (B3 8 2) in F8 by lia. rewrite <- (B3 12 28) in F12 by lia.
  destruct paris as [v|]; msimpl; [|by exists l3].
  assert (field l3 0 (sz + 8) = ([128; 0; 0; 0] ++ be16 pid ++ be16 seq) ++ [0; 0] ++ field l3 10 (sz - 2)) as Hd.
  { rewrite (field_cut l3 0 10 (sz - 2) (sz + 8) 10), (field_cut l3 0 8 2 10 8), F0, F8 by lia. by rewrite <- !app_assoc. }
  rewrite bytes_at_field by (rewrite ?(buf_zlen l3 H3); lia). msimpl. store l4 W4. exists l4. split; [done|]. split; [apply W4|].
  assert (field l4 0 8 = [128; 0; 0; 0] ++ be16 pid ++ be16 seq) as G0 by (by rewrite (w_before _ _ _ _ W4) by lia).
  split; [done|]. split; [by rewrite (w_after _ _ _ _ W4) by (vm_compute; done)|].
  pose proof (w_same _ _ _ _ W4) as G8. change (zlen (be16 _)) with 2 in G8.
  rewrite (field_cut l4 0 10 (sz - 2) (sz + 8) 10), (field_cut l4 0 8 2 10 8), G0, G8, (w_after _ _ _ _ W4) by (try lia; vm_compute; done).
  destruct (Hph (sz + 8)) as (He & Hlp & Hbp). rewrite !in_cksum_icmp6_mk by done. rewrite Hd.
  rewrite <- !app_assoc. assert (u16 (v + 1) = v + 1) as -> by (apply Z.mod_small; lia).
  pose proof (fudge_correct (ph (sz + 8) ++ [128; 0; 0; 0] ++ be16 pid ++ be16 seq) (field l3 10 (sz - 2)) (v + 1)) as Hf.
  rewrite <- !app_assoc in Hf. apply Hf.
  - destruct He as [k Hk]. exists (k + 4)%nat. rewrite length_app, Hk. cbn. lia.
  - bytes.
  - apply field_bytes, H3.
  - unfold zlen. rewrite length_app, length_fieldn by (done || lia). cbn. lia.
  - lia.
  - rewrite sum16_app by done. pose proof (sum16_bound _ Hbp).
    pose proof (sum16_pos 128 0 ([0; 0] ++ (be16 pid ++ be16 seq) ++ [0; 0] ++ field l3 10 (sz - 2))) as Hpos.
    rewrite <- !app_assoc in Hpos. cbn [app] in Hpos |- *.
    assert (0 < sum16 0 (128 :: 0 :: 0 :: 0 :: be16 pid ++ be16 seq ++ 0 :: 0 :: field l3 10 (sz - 2))); [|lia].
    apply Hpos; [lia|lia|]. change (0 :: 0 :: ?x) with ([0; 0] ++ x). bytes. apply field_bytes, H3.
Qed.

(** A UDP probe over IPv4: the checksum the system computes is the one that was asked for. *)
Lemma put_udp4_spec l sport dport size val ph :
  buf_ok l → 0 ≤ size ≤ 4096 →
  (∀ n, Nat.Even (length (ph n)) ∧ (length (ph n) ≤ 100)%nat ∧ Forall is_byte (ph n)) →
  ∃ l', put_udp4 (Some <$> l) sport dport size val ph = Done (Some <$> l', Z.max 2 size, Z.max 2 size) ∧ buf_ok l' ∧
    (0 ≤ val < 65535 → in_cksum_udp (ph (8 + Z.max 2 size)) (be16 sport ++ be16 dport ++ be16 (8 + Z.max 2 size) ++ [0; 0])
      (field l' 0 (Z.max 2 size)) = ntohs val).
Proof.
  intros Hl Hs Hph. unfold put_udp4, sizeof_udphdr. store l1 W1.
  replace (if size <? 2 then 2 else size) with (Z.max 2 size) by (destruct (Z.ltb_spec size 2); lia).
  assert (2 ≤ Z.max 2 size ≤ 4096) as Hsz by lia. generalize dependent (Z.max 2 size). intros sz Hsz.
  destruct (fill_buf l1 2 (sz - 2)) as (l2 & E2 & H2 & B2); [apply W1|lia|lia|]. rewrite E2. msimpl. clear E2.
  assert (field l2 0 2 = [0; 0]) as F0 by (rewrite B2 by lia; exact (w_same _ _ _ _ W1)).
  rewrite bytes_at_field by (rewrite ?(buf_zlen l2 H2); lia). msimpl. store l3 W3. exists l3. split; [done|]. split; [apply W3|]. intros Hv.
  pose proof (w_same _ _ _ _ W3) as G0. change (zlen (be16 _)) with 2 in G0.
  rewrite (field_cut l3 0 2 (sz - 2) sz 2), G0, (w_after _ _ _ _ W3) by (try lia; vm_compute; done).
  rewrite (field_cut l2 0 2 (sz - 2) sz 2), F0 by lia.
  destruct (Hph (8 + sz)) as (He & Hlp & Hbp). set (udp := be16 sport ++ be16 dport ++ be16 (8 + sz) ++ [0; 0]).
  assert (Nat.Even (length udp)) as Heu by (by exists 4%nat). assert (Forall is_byte udp) as Hbu by (unfold udp; bytes).
  rewrite !in_cksum_udp_mk by done. rewrite !(app_assoc (ph (8 + sz)) udp). apply fudge_correct.
  - rewrite length_app. destruct He as [a ->], Heu as [b ->]. exists (a + b)%nat. lia.
  - bytes.
  - apply field_bytes, H2.
  - unfold zlen. rewrite length_app, length_fieldn by (done || lia). cbn. lia.
  - done.
  - rewrite <- app_assoc, sum16_app by done. pose proof (sum16_bound _ Hbp). rewrite sum16_app by done.
    assert (0 ≤ sum16 0 ([0; 0] ++ field l2 2 (sz - 2))) by (apply sum16_bound; bytes; apply field_bytes, H2).
    assert (0 < sum16 0 udp); [|lia]. unfold udp. cbn [app be16 sum16].
    pose proof (u8_bytes (sport ≫ 8)). pose proof (u8_bytes sport). pose proof (u8_bytes (dport ≫ 8)).
    pose proof (u8_bytes dport). pose proof (u8_bytes ((8 + sz) ≫ 8)). pose proof (u8_bytes (8 + sz)).
    pose proof (be16_value_of (8 + sz) ltac:(lia)) as Hbe. unfold be16, be_value in Hbe. cbn [fold_left] in Hbe.
    unfold is_byte in *. lia.
Qed.

Lemma put_udp6_spec l pid id seq size tv :
  buf_ok l → 0 ≤ size ≤ 4096 →
  ∃ l', put_udp6 (Some <$> l) pid id seq size tv = Done (Some <$> l', Z.max 32 size, Z.max 32 size) ∧ buf_ok l' ∧
    field l' 4 28 = be32 pid ++ be32 id ++ be32 seq ++ le64 (tv_sec tv) ++ le64 (tv_nsec tv).
Proof.
  intros Hl Hs. unfold put_udp6, sizeof_v6info.
  destruct (put_v6info_spec l 0 pid id seq tv) as (l2 & E2 & H2 & _ & F12 & _); [done|lia|]. rewrite E2. msimpl. clear E2.
  replace (if size <? 32 then 32 else size) with (Z.max 32 size) by (destruct (Z.ltb_spec size 32); lia).
  destruct (fill_buf l2 32 (Z.max 32 size - 32)) as (l3 & E3 & H3 & B3); [done|lia|lia|]. rewrite E3. msimpl. exists l3.
  split; [done|]. split; [done|]. by rewrite B3 by lia.
Qed.
