(* ===== verification/Trt.v ===== *)
(** * Traceroute ([eperd/traceroute.c])

    A measurement resolves a name and sends [trtcount] probes for each hop limit from [firsthop] on.
    [send_pkt] sends a probe, moves on to the next hop or ends the
    measurement: after [maxhops], after a hop from which the target answered, or when [gaplimit] hops did not answer, where one last hop
    of 255 is tried.  [ready_callback4], [ready_callback6], [ready_tcp4] and [ready_tcp6] match replies to the
    probe and add them to the results, [noreply_callback] stands for a probe without reply, and
    [report] prints the results.  The operations are functions on [trtstate], which is
    [struct trtstate] with the [struct trtbase] all measurements share; the timer is the
    time it is set for, events say whether libevent watches a socket; what is sent and printed
    is recorded as [action]s.

    The model is of live measurements: [response_in] and [response_out], which replay and
    record packets, are [NULL].  What the system answers during a callback is in [env]; of socket
    options, the hop limit and the don't-fragment bit are part of a probe.  The callback [done] may delete the
    measurement: [freed] is set then, and the places where the code uses the state afterwards test it
    ([alive]).  Messages on the standard output are left out.  The machine is little endian and [char] is signed. *)

From stdpp Require Import base list list_numbers numbers option strings.
From Stdlib Require Import ZArith Lia.
From Stdlib Require Import Floats.SpecFloat.
From S2P Require Import Prelude Bits Blocks Cstr Packet Double Wp Validate Results TrtPacket.

Open Scope Z_scope.

Definition TRT_ICMP4_INSTANCE_ID_SHIFT : Z := 12.
Definition TRT_ICMP4_INSTANCE_ID_MASK : Z := 0xf000.
Definition ICMPEXT_VERSION_SHIFT : Z := 4.
Definition ICMPEXT_MPLS : Z := 1.
Definition ICMPEXT_MPLS_IN : Z := 1.
Definition MPLS_LABEL_SHIFT : Z := 12.
Definition MPLS_EXT_SHIFT : Z := 9.
Definition MPLS_EXT_MASK : Z := 0x7.
Definition MPLS_S_BIT : Z := 0x100.
Definition MPLS_TTL_MASK : Z := 0xff.

Definition EACCES : Z := 13.
Definition EMSGSIZE : Z := 90.
Definition ECONNREFUSED : Z := 111.

(** ** State *)

(** A probe given to [sendto] with its hop limit and its port, a line of results, a name given to the
    resolver, the callback [done]. *)
Inductive action :=
| Probe (hops : Z) (dont_fragment : bool) (dst : sockaddr) (port : Z) (data : list Z)
| Output (text : list Z) | Resolve (name : list Z) | DoneCb.

(** The callback [done]: none ([eperd]), one that leaves the measurement alone ([evtraceroute]), one that
    deletes it ([cmddone] of [eooqd]). *)
Inductive done_t := NoDone | DoneKeeps | DoneDeletes.

(** What [traceroute_init] sets once; [self] stands for the address of the state. *)
Record params := P {
  self : nat; index : nat; instance_id : Z; atlas : option (list Z); bundle_id : option (list Z); hostname : list Z;
  out_filename : option (list Z); interface : option (list Z);
  do_icmp : bool; do_tcp : bool; do_udp : bool; do_v6 : bool; dont_frag : bool;
  trtcount : Z; maxpacksize : Z; firsthop : Z; maxhops : Z; gaplimit : Z; parismod : Z; parisbase : Z;
  duptimeout : Z; timeout : Z; tos : Z; on_done : done_t
}.

(** What the system says during a callback.  [sendto], [bind] and [connect] are the error or [None];
    the calls of [bind_interface] and [connect] in a callback are numbered. *)
Record env := ENV {
  now : timespec; xmit_now : timespec; socket_ok : bool; tos_ok : bool; bind : option Z; sendto : option Z; errno_later : Z;
  xsocket : bool; bind_interface : nat → bool; connect : nat → option Z; sockname : option (sockaddr * Z);
  append_ok : bool; version_str : list Z; timesync : Z; time : Z; atlas_time : Z; host_is_literal : bool; unsafe : bool;
  numeric_host : sockaddr → Z → list Z; inet_ntop : list Z → list Z; strerror : Z → list Z
}.

Record session := SE {
  sent : Z; hop : Z; paris : Z; seq : Z; curpacksize : Z; last_response_hop : Z; done : bool; not_done : bool; lastditch : bool; busy : bool; gotresp : bool; dnsip : bool; no_src : bool; open_result : bool; starttime : Z; xmit_time : timespec; start_time : timespec; ttr : timespec
}.
Record network := NW {
  sin6 : sockaddr; socklen : Z; dport : Z; loc_sin6 : sockaddr; loc_socklen : Z; lport : Z; dns_res : bool; socket_icmp : bool; event_icmp : bool; socket_tcp : bool; event_tcp : bool; timer : option (Z * Z)
}.
Record trtbase := TB {
  table : list (option nat); my_pid : Z; packet : blk Z
}.
Record trtstate := TRT { rb : result_buf; se : session; nw : network; base : trtbase; freed : bool; acts : list action }.

Definition set_rb (v : result_buf) (s : trtstate) : trtstate :=
  TRT v (se s) (nw s) (base s) (freed s) (acts s).
Definition set_sent (v : Z) (s : trtstate) : trtstate :=
  TRT (rb s) (let r := se s in SE v (hop r) (paris r) (seq r) (curpacksize r) (last_response_hop r) (done r) (not_done r) (lastditch r) (busy r) (gotresp r) (dnsip r) (no_src r) (open_result r) (starttime r) (xmit_time r) (start_time r) (ttr r)) (nw s) (base s) (freed s) (acts s).
Definition set_hop (v : Z) (s : trtstate) : trtstate :=
  TRT (rb s) (let r := se s in SE (sent r) v (paris r) (seq r) (curpacksize r) (last_response_hop r) (done r) (not_done r) (lastditch r) (busy r) (gotresp r) (dnsip r) (no_src r) (open_result r) (starttime r) (xmit_time r) (start_time r) (ttr r)) (nw s) (base s) (freed s) (acts s).
Definition set_paris (v : Z) (s : trtstate) : trtstate :=
  TRT (rb s) (let r := se s in SE (sent r) (hop r) v (seq r) (curpacksize r) (last_response_hop r) (done r) (not_done r) (lastditch r) (busy r) (gotresp r) (dnsip r) (no_src r) (open_result r) (starttime r) (xmit_time r) (start_time r) (ttr r)) (nw s) (base s) (freed s) (acts s).
Definition set_seq (v : Z) (s : trtstate) : trtstate :=
  TRT (rb s) (let r := se s in SE (sent r) (hop r) (paris r) v (curpacksize r) (last_response_hop r) (done r) (not_done r) (lastditch r) (busy r) (gotresp r) (dnsip r) (no_src r) (open_result r) (starttime r) (xmit_time r) (start_time r) (ttr r)) (nw s) (base s) (freed s) (acts s).
Definition set_curpacksize (v : Z) (s : trtstate) : trtstate :=
  TRT (rb s) (let r := se s in SE (sent r) (hop r) (paris r) (seq r) v (last_response_hop r) (done r) (not_done r) (lastditch r) (busy r) (gotresp r) (dnsip r) (no_src r) (open_result r) (starttime r) (xmit_time r) (start_time r) (ttr r)) (nw s) (base s) (freed s) (acts s).
Definition set_last_response_hop (v : Z) (s : trtstate) : trtstate :=
  TRT (rb s) (let r := se s in SE (sent r) (hop r) (paris r) (seq r) (curpacksize r) v (done r) (not_done r) (lastditch r) (busy r) (gotresp r) (dnsip r) (no_src r) (open_result r) (starttime r) (xmit_time r) (start_time r) (ttr r)) (nw s) (base s) (freed s) (acts s).
Definition set_done (v : bool) (s : trtstate) : trtstate :=
  TRT (rb s) (let r := se s in SE (sent r) (hop r) (paris r) (seq r) (curpacksize r) (last_response_hop r) v (not_done r) (lastditch r) (busy r) (gotresp r) (dnsip r) (no_src r) (open_result r) (starttime r) (xmit_time r) (start_time r) (ttr r)) (nw s) (base s) (freed s) (acts s).
Definition set_not_done (v : bool) (s : trtstate) : trtstate :=
  TRT (rb s) (let r := se s in SE (sent r) (hop r) (paris r) (seq r) (curpacksize r) (last_response_hop r) (done r) v (lastditch r) (busy r) (gotresp r) (dnsip r) (no_src r) (open_result r) (starttime r) (xmit_time r) (start_time r) (ttr r)) (nw s) (base s) (freed s) (acts s).
Definition set_lastditch (v : bool) (s : trtstate) : trtstate :=
  TRT (rb s) (let r := se s in SE (sent r) (hop r) (paris r) (seq r) (curpacksize r) (last_response_hop r) (done r) (not_done r) v (busy r) (gotresp r) (dnsip r) (no_src r) (open_result r) (starttime r) (xmit_time r) (start_time r) (ttr r)) (nw s) (base s) (freed s) (acts s).
Definition set_busy (v : bool) (s : trtstate) : trtstate :=
  TRT (rb s) (let r := se s in SE (sent r) (hop r) (paris r) (seq r) (curpacksize r) (last_response_hop r) (done r) (not_done r) (lastditch r) v (gotresp r) (dnsip r) (no_src r) (open_result r) (starttime r) (xmit_time r) (start_time r) (ttr r)) (nw s) (base s) (freed s) (acts s).
Definition set_gotresp (v : bool) (s : trtstate) : trtstate :=
  TRT (rb s) (let r := se s in SE (sent r) (hop r) (paris r) (seq r) (curpacksize r) (last_response_hop r) (done r) (not_done r) (lastditch r) (busy r) v (dnsip r) (no_src r) (open_result r) (starttime r) (xmit_time r) (start_time r) (ttr r)) (nw s) (base s) (freed s) (acts s).
Definition set_dnsip (v : bool) (s : trtstate) : trtstate :=
  TRT (rb s) (let r := se s in SE (sent r) (hop r) (paris r) (seq r) (curpacksize r) (last_response_hop r) (done r) (not_done r) (lastditch r) (busy r) (gotresp r) v (no_src r) (open_result r) (starttime r) (xmit_time r) (start_time r) (ttr r)) (nw s) (base s) (freed s) (acts s).
Definition set_no_src (v : bool) (s : trtstate) : trtstate :=
  TRT (rb s) (let r := se s in SE (sent r) (hop r) (paris r) (seq r) (curpacksize r) (last_response_hop r) (done r) (not_done r) (lastditch r) (busy r) (gotresp r) (dnsip r) v (open_result r) (starttime r) (xmit_time r) (start_time r) (ttr r)) (nw s) (base s) (freed s) (acts s).
Definition set_open_result (v : bool) (s : trtstate) : trtstate :=
  TRT (rb s) (let r := se s in SE (sent r) (hop r) (paris r) (seq r) (curpacksize r) (last_response_hop r) (done r) (not_done r) (lastditch r) (busy r) (gotresp r) (dnsip r) (no_src r) v (starttime r) (xmit_time r) (start_time r) (ttr r)) (nw s) (base s) (freed s) (acts s).
Definition set_starttime (v : Z) (s : trtstate) : trtstate :=
  TRT (rb s) (let r := se s in SE (sent r) (hop r) (paris r) (seq r) (curpacksize r) (last_response_hop r) (done r) (not_done r) (lastditch r) (busy r) (gotresp r) (dnsip r) (no_src r) (open_result r) v (xmit_time r) (start_time r) (ttr r)) (nw s) (base s) (freed s) (acts s).
Definition set_xmit_time (v : timespec) (s : trtstate) : trtstate :=
  TRT (rb s) (let r := se s in SE (sent r) (hop r) (paris r) (seq r) (curpacksize r) (last_response_hop r) (done r) (not_done r) (lastditch r) (busy r) (gotresp r) (dnsip r) (no_src r) (open_result r) (starttime r) v (start_time r) (ttr r)) (nw s) (base s) (freed s) (acts s).
Definition set_start_time (v : timespec) (s : trtstate) : trtstate :=
  TRT (rb s) (let r := se s in SE (sent r) (hop r) (paris r) (seq r) (curpacksize r) (last_response_hop r) (done r) (not_done r) (lastditch r) (busy r) (gotresp r) (dnsip r) (no_src r) (open_result r) (starttime r) (xmit_time r) v (ttr r)) (nw s) (base s) (freed s) (acts s).
Definition set_ttr (v : timespec) (s : trtstate) : trtstate :=
  TRT (rb s) (let r := se s in SE (sent r) (hop r) (paris r) (seq r) (curpacksize r) (last_response_hop r) (done r) (not_done r) (lastditch r) (busy r) (gotresp r) (dnsip r) (no_src r) (open_result r) (starttime r) (xmit_time r) (start_time r) v) (nw s) (base s) (freed s) (acts s).
Definition set_sin6 (v : sockaddr) (s : trtstate) : trtstate :=
  TRT (rb s) (se s) (let r := nw s in NW v (socklen r) (dport r) (loc_sin6 r) (loc_socklen r) (lport r) (dns_res r) (socket_icmp r) (event_icmp r) (socket_tcp r) (event_tcp r) (timer r)) (base s) (freed s) (acts s).
Definition set_socklen (v : Z) (s : trtstate) : trtstate :=
  TRT (rb s) (se s) (let r := nw s in NW (sin6 r) v (dport r) (loc_sin6 r) (loc_socklen r) (lport r) (dns_res r) (socket_icmp r) (event_icmp r) (socket_tcp r) (event_tcp r) (timer r)) (base s) (freed s) (acts s).
Definition set_dport (v : Z) (s : trtstate) : trtstate :=
  TRT (rb s) (se s) (let r := nw s in NW (sin6 r) (socklen r) v (loc_sin6 r) (loc_socklen r) (lport r) (dns_res r) (socket_icmp r) (event_icmp r) (socket_tcp r) (event_tcp r) (timer r)) (base s) (freed s) (acts s).
Definition set_loc_sin6 (v : sockaddr) (s : trtstate) : trtstate :=
  TRT (rb s) (se s) (let r := nw s in NW (sin6 r) (socklen r) (dport r) v (loc_socklen r) (lport r) (dns_res r) (socket_icmp r) (event_icmp r) (socket_tcp r) (event_tcp r) (timer r)) (base s) (freed s) (acts s).
Definition set_loc_socklen (v : Z) (s : trtstate) : trtstate :=
  TRT (rb s) (se s) (let r := nw s in NW (sin6 r) (socklen r) (dport r) (loc_sin6 r) v (lport r) (dns_res r) (socket_icmp r) (event_icmp r) (socket_tcp r) (event_tcp r) (timer r)) (base s) (freed s) (acts s).
Definition set_lport (v : Z) (s : trtstate) : trtstate :=
  TRT (rb s) (se s) (let r := nw s in NW (sin6 r) (socklen r) (dport r) (loc_sin6 r) (loc_socklen r) v (dns_res r) (socket_icmp r) (event_icmp r) (socket_tcp r) (event_tcp r) (timer r)) (base s) (freed s) (acts s).
Definition set_dns_res (v : bool) (s : trtstate) : trtstate :=
  TRT (rb s) (se s) (let r := nw s in NW (sin6 r) (socklen r) (dport r) (loc_sin6 r) (loc_socklen r) (lport r) v (socket_icmp r) (event_icmp r) (socket_tcp r) (event_tcp r) (timer r)) (base s) (freed s) (acts s).
Definition set_socket_icmp (v : bool) (s : trtstate) : trtstate :=
  TRT (rb s) (se s) (let r := nw s in NW (sin6 r) (socklen r) (dport r) (loc_sin6 r) (loc_socklen r) (lport r) (dns_res r) v (event_icmp r) (socket_tcp r) (event_tcp r) (timer r)) (base s) (freed s) (acts s).
Definition set_event_icmp (v : bool) (s : trtstate) : trtstate :=
  TRT (rb s) (se s) (let r := nw s in NW (sin6 r) (socklen r) (dport r) (loc_sin6 r) (loc_socklen r) (lport r) (dns_res r) (socket_icmp r) v (socket_tcp r) (event_tcp r) (timer r)) (base s) (freed s) (acts s).
Definition set_socket_tcp (v : bool) (s : trtstate) : trtstate :=
  TRT (rb s) (se s) (let r := nw s in NW (sin6 r) (socklen r) (dport r) (loc_sin6 r) (loc_socklen r) (lport r) (dns_res r) (socket_icmp r) (event_icmp r) v (event_tcp r) (timer r)) (base s) (freed s) (acts s).
Definition set_event_tcp (v : bool) (s : trtstate) : trtstate :=
  TRT (rb s) (se s) (let r := nw s in NW (sin6 r) (socklen r) (dport r) (loc_sin6 r) (loc_socklen r) (lport r) (dns_res r) (socket_icmp r) (event_icmp r) (socket_tcp r) v (timer r)) (base s) (freed s) (acts s).
Definition set_timer (v : option (Z * Z)) (s : trtstate) : trtstate :=
  TRT (rb s) (se s) (let r := nw s in NW (sin6 r) (socklen r) (dport r) (loc_sin6 r) (loc_socklen r) (lport r) (dns_res r) (socket_icmp r) (event_icmp r) (socket_tcp r) (event_tcp r) v) (base s) (freed s) (acts s).
Definition set_table (v : list (option nat)) (s : trtstate) : trtstate :=
  TRT (rb s) (se s) (nw s) (let r := base s in TB v (my_pid r) (packet r)) (freed s) (acts s).
Definition set_my_pid (v : Z) (s : trtstate) : trtstate :=
  TRT (rb s) (se s) (nw s) (let r := base s in TB (table r) v (packet r)) (freed s) (acts s).
Definition set_packet (v : blk Z) (s : trtstate) : trtstate :=
  TRT (rb s) (se s) (nw s) (let r := base s in TB (table r) (my_pid r) v) (freed s) (acts s).
Definition set_freed (v : bool) (s : trtstate) : trtstate :=
  TRT (rb s) (se s) (nw s) (base s) v (acts s).
Definition set_acts (v : list action) (s : trtstate) : trtstate :=
  TRT (rb s) (se s) (nw s) (base s) (freed s) v.

Abbreviation TM := (M trtstate).

#[export] Instance trt_results : has_results trtstate := { results := rb; upd_results := set_rb }.

Definition act (a : action) : TM unit := modify (λ s, set_acts (acts s ++ [a]) s).
Definition add_str (text : list Z) : TM unit := add_text text.
Fixpoint add_strs (l : list (list Z)) : TM unit :=
  match l with [] => mret tt | x :: l' => add_str x;; add_strs l' end.

(** The state is used again after a call that may have ended the measurement. *)
Definition alive : TM unit := s ← get; if freed s then mcrash Undefined else mret tt.

(** Microseconds as a [struct timeval]. *)
Definition usecstotv (usecs : Z) : Z * Z := (usecs / 1000000, usecs `mod` 1000000).
Definition line256 (text : list Z) : list Z := take 255 text.

(** [inet_ntoa] *)
Definition inet_ntoa (a : list Z) : list Z :=
  match a with [] => [] | x :: a' => print_int x ++ (a' ≫= λ y, str "." ++ print_int y) end.

Definition label (name : string) : list Z := DBQ name ++ str ":".

(** Milliseconds between two clock readings. *)
Definition ms_double (now ts : timespec) : outcome spec_float :=
  sec ← chk64 (tv_sec now - tv_sec ts);
  msec ← chk64 (sec * 1000);
  nsec ← chk64 (tv_nsec now - tv_nsec ts);
  mret (dadd (dbl msec) (ddiv (dbl nsec) (dbl 1000000))).

Section Trt.
Context (p : params) (e : env).

(** ** The report *)

Definition proto_name : string := if do_icmp p then "ICMP" else if do_tcp p then "TCP" else "UDP".

Definition report_text (s : trtstate) (res : list Z) : list Z :=
  str "RESULT { " ++
  match atlas p with
  | None => []
  | Some a =>
      label "id" ++ quote ++ a ++ quote ++ str ", " ++ version_str e ++
      str ", " ++ label "lts" ++ print_int (timesync e) ++
      str ", " ++ label "time" ++ print_int (u64 (starttime (se s))) ++
      str ", " ++ label "endtime" ++ print_int (u64 (atlas_time e)) ++ str ", " ++
      match bundle_id p with Some b => label "bundle" ++ b ++ str ", " | None => [] end
  end ++
  label "dst_name" ++ quote ++ hostname p ++ quote ++
  (if host_is_literal e then [] else str ", " ++ label "ttr" ++ msecs (tv_sec (ttr (se s))) (tv_nsec (ttr (se s)))) ++
  (if dnsip (se s) then []
   else str ", " ++ label "dst_addr" ++ quote ++ numeric_host e (sin6 (nw s)) (socklen (nw s)) ++ quote) ++
  (if dnsip (se s) || no_src (se s) then []
   else str ", " ++ label "src_addr" ++ quote ++ numeric_host e (loc_sin6 (nw s)) (loc_socklen (nw s)) ++ quote) ++
  str ", " ++ label "proto" ++ DBQ proto_name ++ str ", " ++ label "af" ++ str " " ++
  print_int (if dnsip (se s) then (if do_v6 p then 6 else 4) else if is_inet6 (sin6 (nw s)) then 6 else 4) ++
  str ", " ++ label "size" ++ print_int (maxpacksize p) ++
  (if parismod p =? 0 then [] else str ", " ++ label "paris_id" ++ print_int (paris (se s))) ++
  str ", " ++ label "result" ++ str " [ " ++ res ++ str " ] }" ++ [10].

(** False for a result of 0. *)
Definition traceroute_delete : TM bool :=
  s ← get;
  if busy (se s) then mret false
  else
    match table (base s) !! index p with
    | Some (Some owner) =>
        if (owner =? self p)%nat then
          modify (set_table (<[index p := None]> (table (base s))));; modify (set_timer None);; modify (set_freed true);; mret true
        else mcrash Fatal
    | Some None => mcrash Fatal
    | None => mcrash Undefined
    end.

Definition report : TM unit :=
  modify (set_timer None);;
  (if bool_decide (is_Some (out_filename p)) && negb (append_ok e) then mcrash Fatal else mret tt);;
  s ← get;
  res ← match result (rb s) with None => mcrash Undefined | Some b => lift (load_cstr b) end;
  act (Output (report_text s res));;
  modify (set_rb (RB None (reslen (rb s)) (resmax (rb s))));;
  (if socket_icmp (nw s) then modify (set_event_icmp false);; modify (set_socket_icmp false) else mret tt);;
  (if socket_tcp (nw s) then modify (set_event_tcp false);; modify (set_socket_tcp false) else mret tt);;
  modify (set_busy false);;
  match on_done p with
  | NoDone => mret tt
  | DoneKeeps => act DoneCb
  | DoneDeletes => act DoneCb;; _ ← traceroute_delete; mret tt
  end.

(** ** Probes *)

Definition error (text : list Z) : list Z := label "error" ++ quote ++ text ++ quote.

(** False for a result of -1. *)
Definition set_tos (v6 inner : bool) : TM bool :=
  if tos p =? 0 then mret true
  else if tos_ok e then mret true
  else
    s ← get;
    add_str (line80 ((if inner then (if sent (se s) =? 0 then str "{ " else str " }, { ") else str ", ") ++
                     error (str "setting " ++ (if v6 then str "traffic class" else str "ToS") ++ str " failed") ++
                     (if inner then str " } ] }" else str " }")));;
    report;; mret false.

(** The probe cannot be sent. *)
Definition probe_error (text : list Z) : TM bool :=
  s ← get;
  add_str (line80 ((if sent (se s) =? 0 then [] else str " }, ") ++ str "{ " ++ error text ++ str " } ] }"));;
  report;; mret false.

(** A socket for one probe, bound to the source address. *)
Definition with_socket (v6 : bool) (k : TM bool) : TM bool :=
  if negb (socket_ok e) then mcrash Fatal
  else
    ok ← set_tos v6 true;
    if negb ok then mret false
    else match bind e with Some err => probe_error (str "bind failed: " ++ strerror e err) | None => k end.

(** The errors of [sendto] that count as sent. *)
Definition ignored (v6 : bool) (err : Z) : bool :=
  if v6 && negb (do_icmp p && negb (do_tcp p)) then (err =? EACCES) || (err =? ECONNREFUSED) || (err =? EMSGSIZE)
  else err =? EMSGSIZE.
(** Over IPv4, TCP and UDP probes report [errno] as it is after [close]. *)
Definition sent_ok (v6 later : bool) : TM bool :=
  match sendto e with
  | Some err => if ignored v6 err then mret true
                else probe_error (str "sendto failed: " ++ strerror e (if later then errno_later e else err))
  | None => mret true
  end.

Definition put (r : blk Z * Z * Z) (dst : sockaddr) (port : Z) : TM unit :=
  s ← get;
  let '(b, len, size) := r in
  modify (set_packet b);; modify (set_curpacksize size);;
  data ← lift (bytes_at b 0 len);
  act (Probe (hop (se s)) (dont_frag p) dst port data).

Definition paris_opt (s : trtstate) : option Z := if parismod p =? 0 then None else Some (paris (se s)).

Definition send_tcp (v6 : bool) : TM bool :=
  with_socket v6 (
    s ← get;
    src ← lift (addr_bytes v6 (loc_sin6 (nw s)));
    dst ← lift (addr_bytes v6 (sin6 (nw s)));
    let ph len := if v6 then v6_ph src dst IPPROTO_TCP len else v4_ph src dst IPPROTO_TCP len in
    r ← lift (put_tcp (packet (base s)) (Z.lor (Z.of_nat (index p) ≪ 16) (seq (se s))) (lport (nw s)) (dport (nw s))
                (curpacksize (se s)) ph);
    put r (sin6 (nw s)) (if v6 then 0 else dport (nw s));;
    sent_ok v6 (negb v6)).

Definition send_icmp (v6 : bool) : TM bool :=
  s ← get;
  if v6 then
    src ← lift (addr_bytes v6 (loc_sin6 (nw s)));
    dst ← lift (addr_bytes v6 (sin6 (nw s)));
    r ← lift (put_icmp6 (packet (base s)) (my_pid (base s)) (Z.of_nat (index p)) (seq (se s)) (curpacksize (se s)) (xmit_time (se s))
                (paris_opt s) (v6_ph src dst IPPROTO_ICMPV6));
    put r (sin6 (nw s)) 0;;
    sent_ok v6 false
  else
    r ← lift (put_icmp4 (packet (base s)) (Z.lor (Z.of_nat (index p)) (instance_id p ≪ TRT_ICMP4_INSTANCE_ID_SHIFT)) (seq (se s))
                (curpacksize (se s)) (paris_opt s));
    put r (sin6 (nw s)) (dport (nw s));;
    sent_ok v6 false.

Definition send_udp (v6 : bool) : TM bool :=
  with_socket v6 (
    modify (λ s, set_dport (u16 (BASE_PORT + if parismod p =? 0 then seq (se s) else paris (se s))) s);;
    s ← get;
    if v6 then
      r ← lift (put_udp6 (packet (base s)) (my_pid (base s)) (Z.of_nat (index p)) (seq (se s)) (curpacksize (se s)) (xmit_time (se s)));
      put r (sin6 (nw s)) (dport (nw s));;
      sent_ok v6 false
    else
      src ← lift (addr_bytes v6 (loc_sin6 (nw s)));
      dst ← lift (addr_bytes v6 (sin6 (nw s)));
      (if negb (parismod p =? 0) && (seq (se s) =? 0) then modify (set_seq 1) else mret tt);;
      s ← get;
      r ← lift (put_udp4 (packet (base s)) (lport (nw s)) (dport (nw s)) (curpacksize (se s))
                  (if parismod p =? 0 then u16 (Z.of_nat (index p) + 1) else seq (se s)) (v4_ph src dst IPPROTO_UDP));
      put r (sin6 (nw s)) (dport (nw s));;
      sent_ok v6 true).

(** False where [send_pkt] returns because the measurement has ended. *)
Definition probe : TM bool :=
  s ← get;
  let v6 := is_inet6 (sin6 (nw s)) in
  if do_tcp p then send_tcp v6
  else if do_icmp p then send_icmp v6
  else if do_udp p then send_udp v6
  else mret true.

Definition hop_text (h : Z) : list Z := str ", { " ++ label "hop" ++ print_int h ++ str ", " ++ label "result" ++ str " [ ".

(** The probes of a hop are sent: go on to the next; false at the end of the measurement. *)
Definition next_hop : TM bool :=
  add_str (str " } ] }");;
  s ← get;
  if (maxhops p <=? hop (se s)) || (done (se s) && negb (not_done (se s))) then report;; mret false
  else
    modify (set_hop (u8 (hop (se s) + 1)));; modify (set_sent 0);; modify (set_done false);; modify (set_not_done false);;
    s ← get;
    let gap := gaplimit p <? hop (se s) - last_response_hop (se s) in
    if gap && lastditch (se s) then report;; mret false
    else
      (if gap then modify (set_lastditch true);; modify (set_hop 255) else mret tt);;
      s ← get;
      add_str (line80 (hop_text (hop (se s))));;
      modify (set_open_result false);;
      mret true.

Definition send_pkt : TM unit :=
  modify (set_gotresp false);;
  s ← get;
  go ← (if trtcount p <=? sent (se s) then next_hop else mret true);
  if negb go then mret tt
  else
    modify (λ s, set_seq (u16 (seq (se s) + 1)) s);;
    modify (set_xmit_time (xmit_now e));;
    ok ← probe;
    if negb ok then mret tt
    else
      s ← get;
      (if open_result (se s) then add_str (str " }, ") else mret tt);;
      add_str (str "{ ");;
      modify (set_open_result false);;
      modify (set_sent (sent (se s) + 1));;
      modify (set_timer (Some (usecstotv (timeout p)))).

(** ** Extensions of ICMP messages *)

Fixpoint mpls_texts (first : bool) (l : list Z) : list (list Z) :=
  match l with
  | a :: b :: c :: d :: l' =>
      let v := be_value [a; b; c; d] in
      line256 ((if first then [] else str ",") ++ str " { " ++ label "label" ++ print_int (v ≫ MPLS_LABEL_SHIFT) ++
               str ", " ++ label "exp" ++ print_int (Z.land (v ≫ MPLS_EXT_SHIFT) MPLS_EXT_MASK) ++
               str ", " ++ label "s" ++ (if Z.land v MPLS_S_BIT =? 0 then str "0" else str "1") ++
               str ", " ++ label "ttl" ++ print_int (Z.land v MPLS_TTL_MASK) ++ str " }") :: mpls_texts false l'
  | _ => []
  end.
Definition do_mpls (l : list Z) : list (list Z) := [str ", " ++ label "mpls" ++ str " ["] ++ mpls_texts true l ++ [str " ]"].

(** The objects of an extension; [l] is what is left of it. *)
Fixpoint ext_objects (fuel : nat) (first : bool) (l : list Z) : list (list Z) :=
  match fuel with
  | O => []
  | S fuel' =>
      if zlen l <=? 4 then []
      else
        let len := be_value (field l 0 2) in
        let class := be_value (field l 2 1) in
        let ctype := be_value (field l 3 1) in
        line256 ((if first then [] else str ",") ++ str " { " ++ label "class" ++ print_int class ++ str ", " ++ label "type" ++ print_int ctype) ::
        if (len <? 4) || (zlen l <? len) then [str " }"]
        else
          (if (class =? ICMPEXT_MPLS) && (ctype =? ICMPEXT_MPLS_IN) then do_mpls (field l 4 (len - 4)) else []) ++
          [str " }"] ++ ext_objects fuel' false (drop (Z.to_nat len) l)
  end.

Definition do_icmp_multi (l : list Z) (pre_rfc4884 : bool) : list (list Z) :=
  if zlen l <? 4 then []
  else if negb (in_cksum l =? 0) then []
  else
    [line256 (str ", " ++ label "icmpext" ++ str " { " ++ label "version" ++ print_int (be_value (field l 0 1) ≫ ICMPEXT_VERSION_SHIFT) ++
              str ", " ++ label "rfc4884" ++ if pre_rfc4884 then str "0" else str "1");
     str ", " ++ label "obj" ++ str " ["] ++ ext_objects (length l) true (drop 4 l) ++ [str " ] }"].

(** The extension at [offset], if there is one. *)
Definition ext_at (b : blk Z) (nrecv offset : Z) (pre_rfc4884 : bool) : outcome (list (list Z)) :=
  if offset <? nrecv then l ← bytes_at b offset (nrecv - offset); mret (do_icmp_multi l pre_rfc4884) else mret [].

(** ** Replies *)

(** Whether a reply is late or a duplicate; [None] for a reply to a probe that was not sent. *)
Definition judge (mismatch : bool) (n : Z) (dup : list Z) : TM (option (bool * bool)) :=
  s ← get;
  (if open_result (se s) then add_str (str " }, { ") else mret tt);;
  if mismatch then
    if seq (se s) <? n then mret None
    else add_str (line80 (label "late" ++ print_int (seq (se s) - n)));; mret (Some (true, false))
  else if gotresp (se s) then add_str dup;; mret (Some (false, true))
  else mret (Some (false, false)).

(** The end of a reply: the next probe, at once or when no duplicate came in time. *)
Definition replied (late isDup : bool) : TM unit :=
  modify (set_open_result true);;
  if late || isDup then mret tt
  else if duptimeout p =? 0 then send_pkt
  else modify (set_gotresp true);; modify (set_timer (Some (usecstotv (duptimeout p)))).

Definition from_text (late isDup : bool) (addr : list Z) : list Z :=
  line80 ((if late || isDup then str ", " else []) ++ label "from" ++ quote ++ addr ++ quote).
Definition num_text (name : string) (z : Z) : list Z := line80 (str ", " ++ label name ++ print_int z).
Definition ttl_size (ttl size : Z) : list Z := line80 (str ", " ++ label "ttl" ++ print_int ttl ++ str ", " ++ label "size" ++ print_int size).
Definition rtt_text (ms : spec_float) : list Z := line80 (str ", " ++ label "rtt" ++ print_fixed 3 ms).
Definition when (b : bool) (l : list (list Z)) : list (list Z) := if b then l else [].

Definition DUP : list Z := label "dup" ++ str "true".

(** The probe is reduced to what fits the link. *)
Definition shrink (late : bool) (nextmtu headers : Z) : TM unit :=
  s ← get;
  (if negb late && (headers <=? nextmtu) && (nextmtu - headers <? curpacksize (se s))
   then modify (set_curpacksize (nextmtu - headers)) else mret tt);;
  (if late then mret tt else modify (set_not_done true)).

(** ** ICMP errors over IPv4 *)

Inductive kind := K_TCP | K_UDP | K_ICMP.

Definition tabsiz (s : trtstate) : Z := zlen (table (base s)).
Definition has_family (v6 : bool) (sa : sockaddr) : bool :=
  match sa with AF_INET _ => negb v6 | AF_INET6 _ => v6 | AF_OTHER _ => false end.
Definition mine (s : trtstate) (ind : Z) (v6 : bool) : bool :=
  (ind =? Z.of_nat (index p)) && has_family v6 (sin6 (nw s)) && busy (se s).

(** The probe an ICMP error is about, whose header is at [q]; its kind and sequence number, or [None] where it is not ours. *)
Definition quote_tcp (s : trtstate) (b : blk Z) (nrecv q : Z) : outcome (option (kind * Z)) :=
  if nrecv <? q + 8 then mret None
  else
    srcport ← be_at b q 2;
    n ← be_at b (q + 4) 4;
    if (srcport <? SRC_BASE_PORT) || (SRC_BASE_PORT + tabsiz s <=? srcport) then mret None
    else if mine s (n ≫ 16) false && do_tcp p then mret (Some (K_TCP, Z.land n 0xffff)) else mret None.

Definition quote_udp (s : trtstate) (b : blk Z) (nrecv q : Z) : outcome (option (kind * Z)) :=
  if nrecv <? q + sizeof_udphdr then mret None
  else
    sport ← be_at b q 2;
    port ← be_at b (q + 2) 2;
    sum ← be_at b (q + 6) 2;
    if mine s (sport - SRC_BASE_PORT) false && negb (do_icmp p) then
      mret (Some (K_UDP, if parismod p =? 0 then u32 (port - BASE_PORT) else if seq (se s) <? sum then seq (se s) else sum))
    else mret None.

Definition quote_icmp (s : trtstate) (b : blk Z) (nrecv q : Z) : outcome (option (kind * Z)) :=
  if nrecv <? q + ICMP_MINLEN then mret None
  else
    type ← be_at b q 1;
    code ← be_at b (q + 1) 1;
    id ← be_at b (q + 4) 2;
    n ← be_at b (q + 6) 2;
    if negb (type =? 8) || negb (code =? 0) || negb (id ≫ TRT_ICMP4_INSTANCE_ID_SHIFT =? instance_id p) then mret None
    else
      let ind := Z.land id (Z.lnot TRT_ICMP4_INSTANCE_ID_MASK) in
      if (ind <? tabsiz s) && mine s ind false && do_icmp p then mret (Some (K_ICMP, n)) else mret None.

Definition match4 (s : trtstate) (b : blk Z) (nrecv proto q : Z) : outcome (option (kind * Z)) :=
  if proto =? IPPROTO_TCP then quote_tcp s b nrecv q
  else if proto =? IPPROTO_UDP then quote_udp s b nrecv q
  else if proto =? IPPROTO_ICMP then quote_icmp s b nrecv q
  else mret None.

(** What is reported of an error: [ip] is at 0, the header of the probe at [eip]. *)
Definition error_texts4 (s : trtstate) (b : blk Z) (nrecv eip : Z) (late isDup : bool) (from : list Z) : outcome (list (list Z)) :=
  ms ← ms_double (now e) (xmit_time (se s));
  ttl ← be_at b 8 1;
  ittl ← be_at b (eip + 8) 1;
  itos ← be_at b (eip + 1) 1;
  edst ← bytes_at b (eip + 16) 4;
  dst ← addr_bytes false (sin6 (nw s));
  mret ([from_text late isDup (inet_ntoa from); ttl_size ttl (nrecv - IPHDR - ICMP_MINLEN)] ++
        when (negb late) [rtt_text ms] ++
        when (negb (ittl =? 1)) [num_text "ittl" ittl] ++
        when (negb (itos =? 0) || negb (tos p =? 0)) [num_text "itos" itos] ++
        when (bool_decide (edst ≠ dst)) [line80 (str ", " ++ label "edst" ++ quote ++ inet_ntoa edst ++ quote)]).

Definition err_text (t : string) : list Z := str ", " ++ label "err" ++ DBQ t.

Definition unreach4 (k : kind) (late : bool) (code nextmtu : Z) : TM unit :=
  (if late then mret tt else modify (set_done true));;
  if code =? 0 then add_str (err_text "N")
  else if code =? 1 then add_str (err_text "H")
  else if code =? 2 then add_str (err_text "P")
  else if code =? 3 then match k with K_ICMP => add_str (err_text "p") | _ => mret tt end
  else if code =? 4 then
    add_str (num_text "mtu" nextmtu);;
    shrink late nextmtu (IPHDR + match k with K_TCP => sizeof_tcphdr | K_UDP => sizeof_udphdr | K_ICMP => ICMP_MINLEN end)
  else if code =? 13 then add_str (err_text "A")
  else add_str (num_text "err" code).

(** An ICMP error of type [type], whose header is at [hlen]. *)
Definition icmp_error4 (b : blk Z) (nrecv hlen type : Z) (from : list Z) : TM unit :=
  s ← get;
  let eip := hlen + ICMP_MINLEN in
  hl ← lift (be_at b eip 1);
  let ehl := Z.land hl 15 in
  if (nrecv <? eip + ehl * 4) || (ehl <? 5) then mret tt
  else
    proto ← lift (be_at b (eip + 9) 1);
    m ← lift (match4 s b nrecv proto (eip + ehl * 4));
    match m with
    | None => mret tt
    | Some (k, n) =>
        v ← judge (negb (n =? seq (se s))) n (match k with K_ICMP => DUP | _ => str " " ++ DUP end);
        match v with
        | None => mret tt
        | Some (late, isDup) =>
            (if late || isDup then mret tt else modify (set_last_response_hop (hop (se s))));;
            texts ← lift (error_texts4 s b nrecv eip late isDup from);
            add_strs texts;;
            code ← lift (be_at b (hlen + 1) 1);
            nextmtu ← lift (be_at b (hlen + 6) 2);
            (if type =? 11 then
               if late || (match k with K_ICMP => isDup | _ => false end) then mret tt else modify (set_not_done true)
             else unreach4 k late code nextmtu);;
            pm ← lift (be_at b (hlen + 5) 1);
            ext ← lift (if pm * 4 =? 0 then ext_at b nrecv (eip + 128) true else ext_at b nrecv (eip + pm * 4) false);
            add_strs ext;;
            replied late isDup
        end
    end.

Definition echo_reply4 (b : blk Z) (nrecv hlen : Z) (from : list Z) : TM unit :=
  s ← get;
  code ← lift (be_at b (hlen + 1) 1);
  id ← lift (be_at b (hlen + 4) 2);
  n ← lift (be_at b (hlen + 6) 2);
  let ind := Z.land id (Z.lnot TRT_ICMP4_INSTANCE_ID_MASK) in
  if negb (code =? 0) || negb (id ≫ TRT_ICMP4_INSTANCE_ID_SHIFT =? instance_id p) || negb (ind <? tabsiz s) || negb (mine s ind false)
  then mret tt
  else
    v ← judge (negb (n =? seq (se s))) n DUP;
    match v with
    | None => mret tt
    | Some (late, isDup) =>
        ms ← lift (ms_double (now e) (xmit_time (se s)));
        ttl ← lift (be_at b 8 1);
        itos ← lift (be_at b 1 1);
        add_strs ([from_text late isDup (inet_ntoa from); ttl_size ttl (nrecv - IPHDR - ICMP_MINLEN)] ++
                  when (negb (itos =? 0) || negb (tos p =? 0)) [num_text "tos" itos] ++ when (negb late) [rtt_text ms]);;
        modify (set_done true);;
        replied late isDup
    end.

(** A packet in the buffer: its length and the buffer. *)
Definition receive (data : list Z) : TM (Z * blk Z) :=
  let data := take (Z.to_nat sizeof_packet) data in
  s ← get;
  b ← lift (store_at (packet (base s)) 0 data);
  modify (set_packet b);;
  mret (zlen data, b).

(** [recv] is [None] when nothing can be read, otherwise the packet and the address it is from. *)
Definition ready_callback4 (recv : option (list Z * list Z)) : TM unit :=
  match recv with
  | None => mret tt
  | Some (data, from) =>
      '(nrecv, b) ← receive data;
      vhl ← lift (be_at b 0 1);
      let hl := Z.land vhl 15 in
      let hlen := hl * 4 in
      if (nrecv <? hlen + ICMP_MINLEN) || (hl <? 5) then mret tt
      else
        type ← lift (be_at b hlen 1);
        if (type =? 11) || (type =? 3) then icmp_error4 b nrecv hlen type from
        else if type =? 0 then echo_reply4 b nrecv hlen from
        else mret tt
  end.

(** ** Replies to TCP probes *)

(** The options from [o] to [e]; [fuel] bounds their number. *)
Fixpoint hdropts (fuel : nat) (b : blk Z) (first : bool) (o e : Z) : outcome (list (list Z)) :=
  match fuel with
  | O => mret []
  | S fuel' =>
      if e <=? o then mret []
      else
        let comma := if first then [] else str ", " in
        opt ← be_at b o 1;
        if opt =? 2 then
          len ← be_at b (o + 1) 1;
          if (len <? 4) || (e <? o + len) then mret []
          else
            mss ← be_at b (o + 2) 2;
            rest ← hdropts fuel' b false (o + len) e;
            mret (line80 (comma ++ str "{ " ++ label "mss" ++ print_int mss ++ str " }") :: rest)
        else mret [line80 (comma ++ str "{ " ++ label "unknown-opt" ++ print_int opt ++ str " }")]
  end.
Definition report_hdropts (b : blk Z) (s e : Z) : outcome (list (list Z)) :=
  l ← hdropts (Z.to_nat (e - s)) b true s e;
  mret ([str ", " ++ label "hdropts" ++ str " [ "] ++ l ++ [str " ]"]).

Definition flags_text (f : Z) : list Z :=
  line80 (str ", " ++ label "flags" ++ quote ++
    concat (zip_with (λ c k, if Z.testbit f k then str c else []) ["F"; "S"; "R"; "P"; "A"; "U"]%string [0; 1; 2; 3; 4; 5]) ++ quote).

(** A TCP segment at [th] from a host whose name is [addr]. *)
Definition tcp_reply (v6 : bool) (b : blk Z) (nrecv th : Z) (ttl tclass size : Z) (addr : list Z) : TM unit :=
  s ← get;
  doff ← lift (be_at b (th + 12) 1);
  let tcp_hlen := (doff ≫ 4) * 4 in
  if (nrecv <? th + tcp_hlen) || (doff ≫ 4 <? 5) then mret tt
  else
    myport ← lift (be_at b (th + 2) 2);
    ack ← lift (be_at b (th + 8) 4);
    if (myport <? SRC_BASE_PORT) || (SRC_BASE_PORT + tabsiz s <=? myport) || negb (mine s (ack ≫ 16) v6 && do_tcp p) then mret tt
    else
      let n := Z.land ack 0xffff in
      v ← judge (0x2000 <? u32 (n - seq (se s))) n DUP;
      match v with
      | None => mret tt
      | Some (late, isDup) =>
          ms ← lift (ms_double (now e) (xmit_time (se s)));
          flags ← lift (be_at b (th + 13) 1);
          opts ← lift (if sizeof_tcphdr <? tcp_hlen then report_hdropts b (th + sizeof_tcphdr) (th + tcp_hlen) else mret []);
          add_strs ([from_text late isDup addr; ttl_size ttl size] ++
                    when (negb (tclass =? 0) || negb (tos p =? 0)) [num_text "tos" tclass] ++
                    [flags_text flags] ++ opts ++ when (negb late) [rtt_text ms]);;
          modify (set_done true);;
          replied late isDup
      end.

Definition ready_tcp4 (recv : option (list Z * list Z)) : TM unit :=
  match recv with
  | None => mret tt
  | Some (data, from) =>
      '(nrecv, b) ← receive data;
      vhl ← lift (be_at b 0 1);
      let hl := Z.land vhl 15 in
      let hlen := hl * 4 in
      if (nrecv <? hlen + sizeof_tcphdr) || (hl <? 5) then mret tt
      else
        ttl ← lift (be_at b 8 1);
        itos ← lift (be_at b 1 1);
        tcp_reply false b nrecv hlen ttl itos (nrecv - IPHDR - sizeof_tcphdr) (inet_ntoa from)
  end.

(** ** IPv6 *)

(** What [recvmsg] says besides the packet. *)
Inductive cmsg := HopLimit (v : Z) | TClass (v : Z) | OtherCmsg.
(** [rcvdttl] and [rcvdtclass] *)
Definition read_cmsgs (l : list cmsg) : Z * Z :=
  fold_left (λ a c, match c with HopLimit v => (v, a.2) | TClass v => (a.1, v) | OtherCmsg => a end) l (-42, -42).

Definition ready_tcp6 (recv : option (list Z * list Z * list cmsg)) : TM unit :=
  match recv with
  | None => mret tt
  | Some (data, from, cmsgs) =>
      '(nrecv, b) ← receive data;
      let '(ttl, tclass) := read_cmsgs cmsgs in
      tcp_reply true b nrecv 0 ttl tclass (nrecv - sizeof_tcphdr) (inet_ntop e from)
  end.

(** An option header at [o]: the next header, its size and its end. *)
Definition opt_header (b : blk Z) (nrecv o : Z) : outcome (option (Z * Z * Z)) :=
  if nrecv <? o + 2 then mret None
  else
    nxt ← be_at b o 1;
    len ← be_at b (o + 1) 1;
    if nrecv <? o + (8 * len + 8) then mret None else mret (Some (nxt, 8 * len, o + (8 * len + 8))).

(** The headers between that of IPv6 and that of the probe: the protocol, where it starts, and the sizes of
    hop-by-hop and destination options. *)
Definition skip_headers (b : blk Z) (nrecv nxt o : Z) : outcome (option (Z * Z * Z * Z)) :=
  h ← (if nxt =? IPPROTO_HOPOPTS then opt_header b nrecv o else mret (Some (nxt, 0, o)));
  match h with
  | None => mret None
  | Some (nxt, hbh, o) =>
      f ← (if nxt =? IPPROTO_FRAGMENT then
             if nrecv <? o + 8 then mret None
             else
               offlg ← be_at b (o + 2) 2;
               n ← be_at b o 1;
               if negb (Z.land offlg (Z.lnot 3) =? 0) then mret None else mret (Some (n, o + 8))
           else mret (Some (nxt, o)));
      match f with
      | None => mret None
      | Some (nxt, o) =>
          d ← (if nxt =? IPPROTO_DSTOPTS then opt_header b nrecv o else mret (Some (nxt, 0, o)));
          match d with
          | None => mret None
          | Some (nxt, dst, o) => mret (Some (nxt, o, hbh, dst))
          end
      end
  end.

Definition kind6 (nxt : Z) : kind := if nxt =? IPPROTO_TCP then K_TCP else if nxt =? IPPROTO_UDP then K_UDP else K_ICMP.
Definition header6 (k : kind) : Z :=
  match k with K_TCP => sizeof_tcphdr | K_UDP => sizeof_udphdr | K_ICMP => ICMP6_HDR end.
Definition does (k : kind) : bool := match k with K_TCP => do_tcp p | K_UDP => do_udp p | K_ICMP => do_icmp p end.

(** The sequence number and the time in the data of a probe at [o]. *)
Definition v6info_at (b : blk Z) (o : Z) : outcome (Z * Z * Z * timespec) :=
  pid ← be_at b (o + 4) 4;
  id ← be_at b (o + 8) 4;
  n ← be_at b (o + 12) 4;
  sec ← le_at b (o + 16) 8;
  nsec ← le_at b (o + 24) 8;
  mret (pid, id, n, TS (s64 sec) (s64 nsec)).

(** The probe an error is about, at [o]: its sequence number and, but for TCP, the time it was sent. *)
Definition match6 (s : trtstate) (b : blk Z) (nrecv : Z) (k : kind) (o : Z) : outcome (option (Z * option timespec)) :=
  match k with
  | K_TCP =>
      if nrecv <? o + sizeof_tcphdr then mret None
      else
        n ← be_at b (o + 4) 4;
        if mine s (n ≫ 16) true && do_tcp p then mret (Some (Z.land n 0xffff, None)) else mret None
  | _ =>
      if nrecv <? o + header6 k + sizeof_v6info then mret None
      else
        '(pid, id, n, tv) ← v6info_at b (o + header6 k);
        if negb (pid =? my_pid (base s)) then mret None
        else if mine s (s32 id) true && does k then mret (Some (n, Some tv)) else mret None
  end.

Definition ms6 (s : trtstate) (late : bool) (tv : option timespec) : outcome spec_float :=
  if negb late then ms_double (now e) (xmit_time (se s))
  else match tv with Some t => ms_double (now e) t | None => mret (dbl (-42)) end.

Definition ttl_rtt_size (ttl : Z) (ms : spec_float) (size : Z) : list Z :=
  line80 (str ", " ++ label "ttl" ++ print_int ttl ++ str ", " ++ label "rtt" ++ print_fixed 3 ms ++ str ", " ++ label "size" ++ print_int size).

Definition error_texts6 (s : trtstate) (b : blk Z) (nrecv ttl hbh dst : Z) (late isDup : bool) (tv : option timespec) (from : list Z) :
  outcome (list (list Z)) :=
  ms ← ms6 s late tv;
  hops ← be_at b (ICMP6_HDR + 7) 1;
  flow ← be_at b ICMP6_HDR 4;
  let itos := Z.land (flow ≫ 20) 0xff in
  mret ([from_text late isDup (inet_ntop e from); ttl_rtt_size ttl ms (nrecv - ICMP6_HDR)] ++
        when (negb (hops =? 1)) [num_text "ittl" hops] ++
        when (negb (itos =? 0) || negb (tos p =? 0)) [num_text "itos" itos] ++
        when (negb (hbh =? 0)) [num_text "hbhoptsize" hbh] ++
        when (negb (dst =? 0)) [num_text "dstoptsize" dst]).

Definition too_big6 (k : kind) (late : bool) (mtu : Z) : TM unit :=
  add_str (num_text "mtu" (s32 mtu));;
  shrink late (if mtu <? 1200 then 1200 else mtu) (sizeof_ip6_hdr + header6 k).

Definition unreach6 (late : bool) (code : Z) : TM unit :=
  (if late then mret tt else modify (set_done true));;
  if code =? 0 then add_str (err_text "N")
  else if code =? 1 then add_str (err_text "A")
  else if code =? 2 then add_str (err_text "h")
  else if code =? 3 then add_str (err_text "H")
  else if code =? 4 then mret tt
  else add_str (num_text "err" code).

Definition icmp_error6 (b : blk Z) (nrecv type ttl : Z) (from : list Z) : TM unit :=
  s ← get;
  if nrecv <? ICMP6_HDR + sizeof_ip6_hdr then mret tt
  else
    nxt ← lift (be_at b (ICMP6_HDR + 6) 1);
    if negb (bool_decide (nxt ∈ [IPPROTO_FRAGMENT; IPPROTO_HOPOPTS; IPPROTO_DSTOPTS; IPPROTO_TCP; IPPROTO_UDP; IPPROTO_ICMPV6])) then mret tt
    else
      h ← lift (skip_headers b nrecv nxt (ICMP6_HDR + sizeof_ip6_hdr));
      match h with
      | None => mret tt
      | Some (nxt, o, hbh, dst) =>
          let k := kind6 nxt in
          m ← lift (match6 s b nrecv k o);
          match m with
          | None => mret tt
          | Some (n, tv) =>
              v ← judge (negb (n =? seq (se s))) n DUP;
              match v with
              | None => mret tt
              | Some (late, isDup) =>
                  (if late || isDup then mret tt else modify (set_last_response_hop (hop (se s))));;
                  texts ← lift (error_texts6 s b nrecv ttl hbh dst late isDup tv from);
                  add_strs texts;;
                  code ← lift (be_at b 1 1);
                  mtu ← lift (be_at b 4 4);
                  (if type =? 3 then (if late || isDup then mret tt else modify (set_not_done true))
                   else if type =? 2 then too_big6 k late mtu
                   else unreach6 late code);;
                  pm ← lift (be_at b 4 1);
                  ext ← lift (if pm * 8 =? 0 then ext_at b nrecv (ICMP6_HDR + 128) true
                              else ext_at b nrecv (ICMP6_HDR + pm * 8) false);
                  add_strs ext;;
                  replied late isDup
              end
          end
      end.

Definition echo_reply6 (b : blk Z) (nrecv ttl tclass : Z) (from : list Z) : TM unit :=
  s ← get;
  if nrecv <? ICMP6_HDR + sizeof_v6info then mret tt
  else
    '(pid, id, n, tv) ← lift (v6info_at b ICMP6_HDR);
    if negb (pid =? my_pid (base s)) || negb (mine s (s32 id) true && do_icmp p) then mret tt
    else
      v ← judge (negb (n =? seq (se s))) n DUP;
      match v with
      | None => mret tt
      | Some (late, isDup) =>
          (if late || isDup then mret tt else modify (set_last_response_hop (hop (se s)));; modify (set_done true));;
          ms ← lift (ms6 s late (Some tv));
          add_strs ([from_text late isDup (inet_ntop e from); ttl_rtt_size ttl ms (nrecv - ICMP6_HDR)] ++
                    when (negb (tclass =? 0) || negb (tos p =? 0)) [num_text "itos" tclass]);;
          replied late isDup
      end.

Definition ready_callback6 (recv : option (list Z * list Z * list cmsg)) : TM unit :=
  match recv with
  | None => mret tt
  | Some (data, from, cmsgs) =>
      '(nrecv, b) ← receive data;
      let '(ttl, tclass) := read_cmsgs cmsgs in
      if nrecv <? ICMP6_HDR then mret tt
      else
        type ← lift (be_at b 0 1);
        if (type =? 1) || (type =? 2) || (type =? 3) then icmp_error6 b nrecv type ttl from
        else if type =? 129 then echo_reply6 b nrecv ttl tclass from
        else mret tt
  end.

(** ** Timer *)

Definition noreply_callback : TM unit :=
  s ← get;
  (if gotresp (se s) then mret tt
   else
     (if open_result (se s) then add_str (str " }, { ") else mret tt);;
     add_str (DBQ "x" ++ str ":" ++ DBQ "*");;
     modify (set_open_result true));;
  send_pkt.

(** ** Starting and stopping *)

(** An error before the first probe; false for a result of -1. *)
Definition start_error (text : list Z) : TM bool :=
  add_str (line80 (str ", " ++ error text ++ str " }"));; report;; mret false.

(** The call [n] of [bind_interface], if there is an interface. *)
Definition bind_if (n : nat) : bool := bool_decide (interface p = None) || bind_interface e n.

Definition create_tcp_socket : TM bool :=
  (if xsocket e then modify (set_socket_tcp true) else mcrash Fatal);;
  if negb (bind_if 2) then start_error (str "bind_interface failed")
  else
    match connect e 1%nat with
    | Some err => start_error (str "connect failed: " ++ strerror e err)
    | None => modify (set_event_tcp true);; mret true
    end.

Definition create_socket (tcp : bool) : TM bool :=
  (if xsocket e then modify (set_socket_icmp true) else mcrash Fatal);;
  if negb (bind_if 0) then start_error (str "bind_interface failed")
  else
    match connect e 0%nat with
    | Some err => start_error (str "connect failed: " ++ strerror e err)
    | None =>
        match sockname e with
        | None => mcrash Fatal
        | Some (sa, len) =>
            modify (set_loc_sin6 sa);; modify (set_loc_socklen len);;
            if negb (bind_if 1) then start_error (str "bind_interface failed")
            else
              ok ← set_tos (do_v6 p) false;
              if negb ok then mret false
              else
                modify (set_event_icmp true);;
                if tcp then create_tcp_socket else mret true
        end
    end.

Definition traceroute_start2 : TM unit :=
  s ← get;
  if negb (busy (se s)) then mret tt
  else
    modify (set_hop (firsthop p));; modify (set_sent 0);; modify (set_seq 0);;
    (if parismod p =? 0 then mret tt
     else modify (set_paris (u16 (Z.rem (paris (se s) - parisbase p + 1 + parismod p) (parismod p) + parisbase p))));;
    modify (set_last_response_hop (if 1 <? firsthop p then firsthop p - 1 else 0));;
    modify (set_done false);; modify (set_not_done false);; modify (set_lastditch false);;
    modify (set_curpacksize (maxpacksize p));;
    modify (set_rb fresh_buf);; modify (set_open_result false);; modify (set_starttime (atlas_time e));;
    modify (set_socket_tcp false);;
    add_str (line80 (str "{ " ++ label "hop" ++ print_int (firsthop p)));;
    ok ← (if do_icmp p then create_socket false
          else if do_udp p then
            ok ← create_socket false;
            (if ok : bool then modify (set_lport (u16 (SRC_BASE_PORT + Z.of_nat (index p)))) else mret tt);; mret ok
          else if do_tcp p then
            ok ← create_socket true;
            (if ok : bool then modify (set_lport (u16 (SRC_BASE_PORT + Z.of_nat (index p)))) else mret tt);; mret ok
          else mret true);
    if negb ok then mret tt
    else
      add_str (str ", " ++ label "result" ++ str " [ ");;
      send_pkt;;
      alive.

(** A result that is an error of the resolution. *)
Definition dns_error (text : list Z) : TM unit :=
  modify (set_rb fresh_buf);;
  modify (set_starttime (time e));;
  add_str (line160 (str "{ " ++ error text ++ str " }")).

(** [err] is the text of a non-zero result; an address comes with its port and its length. *)
Definition dns_cb (err : option (list Z)) (res : list (sockaddr * Z * Z)) : TM unit :=
  s ← get;
  if negb (dnsip (se s)) then mret tt
  else
    d ← lift (elapsed (now e) (start_time (se s)));
    modify (set_ttr d);;
    match err with
    | Some text => dns_error (str "name resolution failed: " ++ text);; report
    | None =>
        modify (set_dnsip false);; modify (set_no_src false);;
        modify (set_dns_res (bool_decide (res ≠ [])));;
        let no_addr :=
          (if bool_decide (res = []) then mcrash Undefined else modify (set_dns_res false));;
          s ← get;
          add_str (line160 ((if sent (se s) =? 0 then [] else str " }, ") ++ str "{ " ++
                            error (str "name resolution failed: out of addresses") ++ str " } ] }"));;
          report in
        match res with
        | [] => no_addr
        | (sa, port, len) :: _ =>
            modify (set_socklen len);;
            if sizeof_sockaddr_in6 <? len then no_addr
            else
              modify (set_sin6 sa);; modify (set_dport port);;
              if atlas_check_addr (unsafe e) sa len =? -1 then
                dns_error (str "address not allowed");; modify (set_no_src true);; report
              else traceroute_start2;; alive;; modify (set_dns_res false)
        end
    end.

Definition traceroute_start : TM unit :=
  s ← get;
  if busy (se s) then mret tt
  else
    modify (set_busy true);; modify (set_socket_icmp false);;
    modify (set_start_time (now e));; modify (set_dnsip true);;
    act (Resolve (hostname p)).

End Trt.

(** ** Creating a measurement *)

(** What [getopt32] leaves in the variables; it refuses other arguments. *)
Record options := OPT {
  opt_6 : bool; opt_I : bool; opt_F : bool; opt_T : bool;
  o_parismod : Z; o_parisbase : Z; o_count : Z; o_firsthop : Z; o_gaplimit : Z; o_interface : option (list Z); o_maxhops : Z;
  o_tos : Z; o_timeout : Z; o_duptimeout : Z; o_atlas : option (list Z); o_bundle : option (list Z); o_out : option (list Z);
  o_maxpacksize : Z; o_response_in : option (list Z); o_response_out : option (list Z); o_hostname : list Z
}.

(** The base all measurements share. *)
Definition traceroute_base_new (pid : Z) : trtbase := TB (replicate 10 None) pid (replicate (Z.to_nat sizeof_packet) (Some 0)).

(** The state as [xzalloc] and the assignments leave it. *)
Definition new_state (b : trtbase) (parisbase : Z) : trtstate :=
  TRT (RB None 0 0) (SE 0 0 parisbase 0 0 0 false false false false false false false false 0 (TS 0 0) (TS 0 0) (TS 0 0))
      (NW (AF_OTHER 0) 0 0 (AF_OTHER 0) 0 0 false false false false false None) b false [].

Section Init.
Context (spooldir fuzzing_rel new_rel : list Z).   (* ATLAS_SPOOLDIR, ATLAS_FUZZING_REL, SAFE_PREFIX_REL *)
Context (unsafe_ append_ok_ : bool).

Definition traceroute_init (base0 : trtbase) (opts : option options) (self : nat) (instance : Z) (done : done_t) :
  option (params * trtstate) :=
  o ← opts;
  if MAX_DATA_SIZE <? o_maxpacksize o then None
  else
    let fuzzing n := bool_decide (is_Some (rebased_validated_filename unsafe_ spooldir n fuzzing_rel)) in
    _ ← check_name fuzzing (o_response_in o);
    _ ← check_name fuzzing (o_response_out o);
    out ← match o_out o with
          | None => Some None
          | Some n =>
              v ← rebased_validated_filename unsafe_ spooldir n new_rel;
              if append_ok_ then Some (Some v) else None
          end;
    _ ← check_name (λ n, negb (validate_atlas_id n =? 0)) (o_atlas o);
    _ ← check_name (λ n, negb (validate_atlas_id n =? 0)) (o_bundle o);
    let '(i, table) := alloc_slot (table base0) in
    let pid := if bool_decide (is_Some (o_response_in o)) || bool_decide (is_Some (o_response_out o)) then 42 else my_pid base0 in
    Some (P self i instance (o_atlas o) (o_bundle o) (o_hostname o) out (o_interface o)
            (opt_I o) (opt_T o) (negb (opt_I o || opt_T o)) (opt_6 o) (opt_F o)
            (s8 (o_count o)) (u16 (o_maxpacksize o)) (u8 (o_firsthop o)) (u8 (o_maxhops o)) (u8 (o_gaplimit o))
            (u8 (o_parismod o)) (u8 (o_parisbase o)) (u32 (o_duptimeout o * 1000)) (u32 (o_timeout o * 1000)) (o_tos o) done,
          new_state (TB (<[i := Some self]> table) pid (packet base0)) (u8 (o_parisbase o))).
End Init.
