(* ===== verification/TrtProofs.v ===== *)
(** * Traceroute: what the operations do

    Texts and buffers, the report, the six kinds of probes, and the step to the next hop. *)

From stdpp Require Import base list list_numbers numbers option strings.
From Stdlib Require Import ZArith Lia.
From Stdlib Require Import Floats.SpecFloat.
From S2P Require Import Prelude Bits Blocks Cstr Packet Double Wp Validate Results TrtPacket TrtParis Trt.

Open Scope Z_scope.

(** Compute the fields of a state, and nothing else. *)
Ltac tsimpl :=
  cbv beta iota zeta delta [rb se nw base freed acts sent hop paris seq curpacksize last_response_hop done not_done lastditch busy
    gotresp dnsip no_src open_result starttime xmit_time start_time ttr sin6 socklen dport loc_sin6 loc_socklen
    lport dns_res socket_icmp event_icmp socket_tcp event_tcp timer table my_pid packet set_rb set_sent set_hop
    set_paris set_seq set_curpacksize set_last_response_hop set_done set_not_done set_lastditch set_busy
    set_gotresp set_dnsip set_no_src set_open_result set_starttime set_xmit_time set_start_time set_ttr set_sin6
    set_socklen set_dport set_loc_sin6 set_loc_socklen set_lport set_dns_res set_socket_icmp set_event_icmp
    set_socket_tcp set_event_tcp set_timer set_table set_my_pid set_packet set_freed set_acts id fst snd].
Ltac tsimpl_in H :=
  cbv beta iota zeta delta [rb se nw base freed acts sent hop paris seq curpacksize last_response_hop done not_done lastditch busy
    gotresp dnsip no_src open_result starttime xmit_time start_time ttr sin6 socklen dport loc_sin6 loc_socklen
    lport dns_res socket_icmp event_icmp socket_tcp event_tcp timer table my_pid packet set_rb set_sent set_hop
    set_paris set_seq set_curpacksize set_last_response_hop set_done set_not_done set_lastditch set_busy
    set_gotresp set_dnsip set_no_src set_open_result set_starttime set_xmit_time set_start_time set_ttr set_sin6
    set_socklen set_dport set_loc_sin6 set_loc_socklen set_lport set_dns_res set_socket_icmp set_event_icmp
    set_socket_tcp set_event_tcp set_timer set_table set_my_pid set_packet set_freed set_acts id fst snd] in H.

(** The same for a state that is not known. *)
Ltac tcbn := cbn [rb se nw base freed acts sent hop paris seq curpacksize last_response_hop done not_done lastditch busy
    gotresp dnsip no_src open_result starttime xmit_time start_time ttr sin6 socklen dport loc_sin6 loc_socklen
    lport dns_res socket_icmp event_icmp socket_tcp event_tcp timer table my_pid packet set_rb set_sent set_hop
    set_paris set_seq set_curpacksize set_last_response_hop set_done set_not_done set_lastditch set_busy
    set_gotresp set_dnsip set_no_src set_open_result set_starttime set_xmit_time set_start_time set_ttr set_sin6
    set_socklen set_dport set_loc_sin6 set_loc_socklen set_lport set_dns_res set_socket_icmp set_event_icmp
    set_socket_tcp set_event_tcp set_timer set_table set_my_pid set_packet set_freed set_acts id fst snd].

(** ** Texts *)

Lemma trt_wp_add_str x t (Q : () → trtstate → Prop) s :
  holds (rb s) t → (∀ r, holds r (t ++ x) → Q tt (set_rb r s)) → wp (add_str x) Q s.
Proof. exact (wp_add_text x t Q s). Qed.

Lemma trt_set_rb_same s : set_rb (rb s) s = s.
Proof. by destruct s. Qed.

Lemma wp_add_strs l t (Q : () → trtstate → Prop) s :
  holds (rb s) t → (∀ r, holds r (t ++ concat l) → Q tt (set_rb r s)) → wp (add_strs l) Q s.
Proof.
  revert t s. induction l as [|x l IH]; intros t s Ht HQ; cbn [add_strs]; wp_steps.
  - specialize (HQ (rb s)). cbn in HQ. rewrite app_nil_r, trt_set_rb_same in HQ. by apply HQ.
  - eapply trt_wp_add_str; [exact Ht|]. intros r Hr. eapply IH; [exact Hr|]. intros r' Hr'. cbn in Hr'. rewrite <- app_assoc in Hr'.
    by apply HQ.
Qed.

Lemma trt_wp_opt_str (b : bool) x t (Q : () → trtstate → Prop) s :
  holds (rb s) t → (∀ r, holds r (t ++ if b then x else []) → Q tt (set_rb r s)) →
  wp (if b then add_str x else mret tt) Q s.
Proof.
  intros Ht HQ. destruct b; [by eapply trt_wp_add_str|]. apply wp_ret.
  rewrite app_nil_r in HQ. specialize (HQ _ Ht). by rewrite trt_set_rb_same in HQ.
Qed.

(** What is told of a hop: a probe without reply, an empty entry (for a reply to a probe that was not
    sent yet), the reply to the probe, a reply to the probe [k] probes before, another reply to the same probe. *)
Inductive entry :=
| Star | Blank | Reply (addr rest : list Z) | Late (k : Z) (addr rest : list Z) | Dup (space : bool) (addr rest : list Z).

Definition late_text (k : Z) : list Z := line80 (label "late" ++ print_int k).
Definition dup_text (space : bool) : list Z := (if space then str " " else []) ++ DUP.
Definition star_text : list Z := DBQ "x" ++ str ":" ++ DBQ "*".
Definition entry_text (x : entry) : list Z :=
  match x with
  | Star => star_text
  | Blank => []
  | Reply a r => from_text false false a ++ r
  | Late k a r => late_text k ++ from_text true false a ++ r
  | Dup sp a r => dup_text sp ++ from_text false true a ++ r
  end.
(** An entry for each probe; a reply of any kind. *)
Definition is_answer (x : entry) : bool := match x with Star | Reply _ _ => true | _ => false end.
Definition is_reply (x : entry) : bool := match x with Star | Blank => false | _ => true end.
Definition answers (l : list entry) : Z := zlen (filter (λ x, is_answer x = true) l).

(** A hop with the entries of its replies, and a measurement with its hops. *)
Definition hop_head (h : Z) : list Z := str "{ " ++ label "hop" ++ print_int h ++ str ", " ++ label "result" ++ str " [ ".
Definition hop_done (x : Z * list entry) : list Z := hop_head x.1 ++ buf_text (entry_text <$> x.2) true ++ str " } ] }".
Definition done_hops (hops : list (Z * list entry)) : list Z := hops ≫= λ x, hop_done x ++ str ", ".
Definition run_text (hops : list (Z * list entry)) (h : Z) (cur : list entry) (open : bool) : list Z :=
  done_hops hops ++ hop_head h ++ buf_text (entry_text <$> cur) open.
(** All the results. *)
Definition hops_text (hops : list (Z * list entry)) (last : Z * list entry) : list Z := done_hops hops ++ hop_done last.

Lemma hop_text_head h : 0 ≤ h ≤ 255 → line80 (hop_text h) = str ", " ++ hop_head h.
Proof.
  intros Hh. unfold line80. apply take_ge. change (hop_text h) with (str ", " ++ hop_head h). unfold hop_head. rewrite !length_app. unfold print_int.
  rewrite (proj2 (Z.ltb_ge h 0)) by lia. pose proof (length_dec 20 3 h ltac:(lia)). unfold print_dec in *.
  change (length (label "hop")) with 6%nat. change (length (label "result")) with 9%nat. cbn [length str bytes_of_string]. lia.
Qed.

(** ** The report *)

Section Proofs.
Context (p : params) (e : env).

Definition can_append : Prop := out_filename p = None ∨ append_ok e = true.

(** The state after [report] printed [t]. *)
Definition reported (t : list Z) (s : trtstate) : trtstate :=
  set_acts (acts s ++ [Output (report_text p e s (cstr t))] ++ (match on_done p with NoDone => [] | _ => [DoneCb] end))
    (set_busy false (set_socket_tcp false (set_event_tcp (event_tcp (nw s) && negb (socket_tcp (nw s)))
       (set_socket_icmp false (set_event_icmp (event_icmp (nw s) && negb (socket_icmp (nw s)))
          (set_timer None (set_rb (RB None (reslen (rb s)) (resmax (rb s))) s))))))).

Lemma trt_wp_report t (Q : () → trtstate → Prop) s :
  can_append → on_done p ≠ DoneDeletes → holds (rb s) t → t ≠ [] → Q tt (reported t s) → wp (report p e) Q s.
Proof.
  intros Ha Hd Ht Hne HQ. destruct (holds_load _ _ Ht Hne) as (b & Er & El). clear Ht. unfold report. wp_steps.
  destruct (bool_decide _ && _) eqn:Eo.
  { exfalso. apply andb_true_iff in Eo as [E1%bool_decide_eq_true_1 E2].
    destruct Ha as [Ha|Ha]; rewrite Ha in *; [by destruct E1|done]. }
  wp_steps. change (rb (set_timer None s)) with (rb s). rewrite Er.
  eapply wp_lift; [exact El|]. wp_steps. unfold act. wp_steps.
  change (socket_icmp (nw (set_timer None s))) with (socket_icmp (nw s)).
  change (socket_tcp (nw (set_timer None s))) with (socket_tcp (nw s)).
  assert (report_text p e (set_timer None s) = report_text p e s) as -> by done.
  unfold reported in HQ. set (line := report_text p e s (cstr t)) in *. clearbody line.
  destruct s as [rb0 se0 [? ? ? ? ? ? ? si ei stc et tm] base0 fr0 acts0]. tsimpl_in HQ. tsimpl.
  destruct si; wp_steps; destruct stc; wp_steps; destruct (on_done p); try done; unfold act; wp_steps; tsimpl; rewrite ?app_nil_r in HQ;
    destruct ei, et; cbn [andb negb] in HQ; rewrite <- ?app_assoc; exact HQ.
Qed.

(** ** Probes *)

Definition base_ok (b : trtbase) : Prop := ∃ l, packet b = Some <$> l ∧ buf_ok l.
Definition addr_ok (v6 : bool) (sa : sockaddr) : Prop :=
  match sa with AF_INET _ => v6 = false | AF_INET6 g => v6 = true ∧ length g = 8%nat | AF_OTHER _ => False end.

(** Nothing stands in the way of a probe. *)
Definition sendable : Prop := sendto e = None ∧ bind e = None ∧ (tos p = 0 ∨ tos_ok e = true).

(** The index and the number [n] in a probe, where errors quote them.  For UDP over IPv4 these are the destination port
    and the checksum, which is set by the first two bytes of the data: the number and the index plus one, or for Paris
    the fixed port and the number. *)
Definition carries (s : trtstate) (n port : Z) (data : list Z) : Prop :=
  let i := Z.of_nat (index p) in
  let v6 := is_inet6 (sin6 (nw s)) in
  if do_tcp p then ∃ dp, field data 0 8 = be16 (lport (nw s)) ++ be16 dp ++ be32 (Z.lor (i ≪ 16) n)
  else if do_icmp p then
    if v6 then field data 16 8 = be32 i ++ be32 n
    else field data 0 2 = [8; 0] ∧ field data 4 4 = be16 (Z.lor i (instance_id p ≪ 12)) ++ be16 n
  else if v6 then field data 8 8 = be32 i ++ be32 n
  else
    let v := if parismod p =? 0 then u16 (i + 1) else n in
    port = u16 (BASE_PORT + if parismod p =? 0 then n else paris (se s)) ∧
    (v < 65535 →
     ∃ src dst, addr_bytes false (loc_sin6 (nw s)) = Done src ∧ addr_bytes false (sin6 (nw s)) = Done dst ∧
       in_cksum_udp (v4_ph src dst IPPROTO_UDP (8 + zlen data)) (be16 (lport (nw s)) ++ be16 port ++ be16 (8 + zlen data) ++ [0; 0]) data = ntohs v).

(** A probe was sent. *)
Definition probed (s s' : trtstate) : Prop :=
  ∃ d z l port data,
    s' = set_acts (acts s ++ [Probe (hop (se s)) (dont_frag p) (sin6 (nw s)) port data])
           (set_packet (Some <$> l) (set_curpacksize z (set_dport d s))) ∧
    buf_ok l ∧ 0 ≤ z ≤ 4096 ∧ carries s (seq (se s)) port data.

Context (Hap : can_append) (Hnd : on_done p ≠ DoneDeletes).

Lemma wp_probe_error text t (Q : bool → trtstate → Prop) s :
  holds (rb s) t → (∀ r t', Q false (reported t' (set_rb r s))) → wp (probe_error p e text) Q s.
Proof.
  intros Ht HQ. unfold probe_error. wp_steps. eapply trt_wp_add_str; [exact Ht|]. intros r Hr.
  wp_steps. eapply trt_wp_report; [done|done|exact Hr| |wp_steps; apply HQ].
  intros [_ E]%app_eq_nil. destruct (sent (se s) =? 0); done.
Qed.

Lemma wp_set_tos v6 inner t (Q : bool → trtstate → Prop) s :
  holds (rb s) t → Q true s → (¬ sendable → ∀ r t', Q false (reported t' (set_rb r s))) → wp (set_tos p e v6 inner) Q s.
Proof.
  intros Ht Hok Hno. unfold set_tos. destruct (tos p =? 0) eqn:E0; [wp_steps; done|]. destruct (tos_ok e) eqn:E1; [wp_steps; done|].
  wp_steps. eapply trt_wp_add_str; [exact Ht|]. intros r Hr. wp_steps. eapply trt_wp_report; [done|done|exact Hr| |wp_steps; apply Hno].
  - intros [_ E]%app_eq_nil. destruct inner, (sent (se s) =? 0); done.
  - intros (_ & _ & [H|H]); [apply Z.eqb_neq in E0; done|congruence].
Qed.

Lemma wp_with_socket v6 k t (Q : bool → trtstate → Prop) s :
  socket_ok e = true → holds (rb s) t → wp k Q s → (¬ sendable → ∀ r t', Q false (reported t' (set_rb r s))) →
  wp (with_socket p e v6 k) Q s.
Proof.
  intros Hs Ht Hk Hno. unfold with_socket. rewrite Hs. cbn [negb]. wp_steps. eapply wp_set_tos; [exact Ht| |].
  - cbn [negb]. destruct (bind e) as [err|] eqn:Eb; [|done]. eapply wp_probe_error; [exact Ht|]. apply Hno. intros (_ & H & _). congruence.
  - intros Hn r t'. cbn [negb]. wp_steps. by apply Hno.
Qed.

Lemma wp_sent_ok v6 later t (Q : bool → trtstate → Prop) s :
  holds (rb s) t → Q true s → (¬ sendable → ∀ r t', Q false (reported t' (set_rb r s))) → wp (sent_ok p e v6 later) Q s.
Proof.
  intros Ht Hok Hno. unfold sent_ok. destruct (sendto e) as [err|] eqn:Es; [|by wp_steps].
  destruct (ignored p v6 err); [by wp_steps|]. eapply wp_probe_error; [exact Ht|]. apply Hno. intros (H & _). congruence.
Qed.

(** The end of a probe: the packet is in the buffer. *)
Lemma wp_put_sent l len z dst port v6 later t (Q : bool → trtstate → Prop) s :
  buf_ok l → 0 ≤ len ≤ 4224 → holds (rb s) t →
  (let s1 := set_acts (acts s ++ [Probe (hop (se s)) (dont_frag p) dst port (field l 0 len)]) (set_curpacksize z (set_packet (Some <$> l) s)) in
   Q true s1 ∧ (¬ sendable → ∀ r t', Q false (reported t' (set_rb r s1)))) →
  wp (put p (Some <$> l, len, z) dst port;; sent_ok p e v6 later) Q s.
Proof.
  intros Hl Hlen Ht [Hok Hno]. unfold put. wp_steps. eapply wp_lift; [apply bytes_at_field; rewrite ?(buf_zlen l Hl); lia|].
  unfold act. wp_steps. eapply wp_sent_ok; [exact Ht|exact Hok|exact Hno].
Qed.

Lemma addr_bytes_ok v6 sa :
  addr_ok v6 sa → ∃ l, addr_bytes v6 sa = Done l ∧ Nat.Even (length l) ∧ (length l ≤ 16)%nat ∧ Forall is_byte l.
Proof.
  destruct sa as [a|g|]; cbn; [intros ->|intros [-> Hg]|done]; eexists; (split; [done|]).
  - split; [by exists 2%nat|]. split; [cbn; lia|apply be32_bytes].
  - assert (length (g ≫= be16) = 2 * length g)%nat as Hlen by (clear; induction g; cbn; [done|]; lia).
    rewrite Hlen. split; [by exists (length g)|]. split; [lia|]. clear. induction g as [|x g IH]; [constructor|].
    cbn [mbind list_bind]. apply Forall_app. split; [apply be16_bytes|done].
Qed.

(** What a probe needs. *)
Record ready (s : trtstate) : Prop := Ready {
  rd_base : base_ok (base s);
  rd_proto : do_tcp p = true ∨ do_icmp p = true ∨ do_udp p = true;
  rd_sin6 : addr_ok (is_inet6 (sin6 (nw s))) (sin6 (nw s));
  rd_loc : addr_ok (is_inet6 (sin6 (nw s))) (loc_sin6 (nw s));
  rd_size : 0 ≤ curpacksize (se s) ≤ 4096;
  rd_seq : 0 < seq (se s) < 2 ^ 16;
  rd_paris : 0 ≤ paris (se s) ≤ 510
}.

Definition bad_end (s : trtstate) (Q : bool → trtstate → Prop) : Prop :=
  ¬ sendable → ∀ s1 r t', s1 = s ∨ probed s s1 → Q false (reported t' (set_rb r s1)).

Lemma probed_intro s z l port len :
  buf_ok l → 0 ≤ z ≤ 4096 → carries s (seq (se s)) port (field l 0 len) →
  probed s (set_acts (acts s ++ [Probe (hop (se s)) (dont_frag p) (sin6 (nw s)) port (field l 0 len)])
              (set_curpacksize z (set_packet (Some <$> l) s))).
Proof. intros Hl Hz Hc. exists (dport (nw s)), z, l, port, (field l 0 len). destruct s as [? ? [] [] ? ?]. done. Qed.

Lemma ph_ok v6 src dst proto :
  Nat.Even (length src) → (length src ≤ 16)%nat → Forall is_byte src → Nat.Even (length dst) → (length dst ≤ 16)%nat → Forall is_byte dst →
  is_byte proto → ∀ n, let ph := if v6 : bool then v6_ph src dst proto n else v4_ph src dst proto n in
  Nat.Even (length ph) ∧ (length ph ≤ 100)%nat ∧ Forall is_byte ph.
Proof.
  intros [a Ha] Ha' Hb1 [b Hb] Hb' Hb2 Hp n. destruct v6; unfold v6_ph, v4_ph; cbv zeta; rewrite !length_app; cbn [length be16 be32 app].
  - split; [exists (a + b + 4)%nat; lia|]. split; [lia|]. do 2 (apply Forall_app; split; [done|]).
    repeat (constructor; [first [done|apply u8_bytes]|]). constructor.
  - split; [exists (a + b + 2)%nat; lia|]. split; [lia|]. do 2 (apply Forall_app; split; [done|]).
    repeat (constructor; [first [done|apply u8_bytes]|]). constructor.
Qed.

Context (Hsock : socket_ok e = true).

Lemma field_front l n o k : 0 ≤ o → 0 ≤ k → o + k ≤ n → field (field l 0 n) o k = field l o k.
Proof. intros Ho Hk Hn. rewrite (field_sub l 0 n _ o k eq_refl) by lia. f_equal. lia. Qed.

Lemma wp_send_tcp t (Q : bool → trtstate → Prop) s :
  do_tcp p = true → ready s → holds (rb s) t → (∀ s', probed s s' → Q true s') → bad_end s Q →
  wp (send_tcp p e (is_inet6 (sin6 (nw s)))) Q s.
Proof.
  intros Htcp [(l & Eb & Hl) _ H1 H2 Hz _ _] Ht Hok Hno. unfold send_tcp. eapply wp_with_socket; [done|exact Ht| |].
  2: { intros Hn r t'. by apply Hno; [|left]. }
  destruct (addr_bytes_ok _ _ H1) as (dst & E1 & _). destruct (addr_bytes_ok _ _ H2) as (src & E2 & _).
  wp_steps. eapply wp_lift; [exact E2|]. wp_steps. eapply wp_lift; [exact E1|]. wp_steps. rewrite Eb.
  destruct (put_tcp_spec l (Z.lor (Z.of_nat (index p) ≪ 16) (seq (se s))) (lport (nw s)) (dport (nw s)) (curpacksize (se s))
    (λ len, if is_inet6 (sin6 (nw s)) then v6_ph src dst IPPROTO_TCP len else v4_ph src dst IPPROTO_TCP len) Hl Hz) as (l' & E & Hl' & Hf0 & Hf).
  eapply wp_lift; [exact E|]. eapply wp_put_sent; [done|lia|exact Ht|]. cbv zeta.
  set (port := if is_inet6 _ then 0 else _). assert (probed s (set_acts (acts s ++ [Probe (hop (se s)) (dont_frag p) (sin6 (nw s)) port
    (field l' 0 (20 + curpacksize (se s)))]) (set_curpacksize (curpacksize (se s)) (set_packet (Some <$> l') s)))) as Hp.
  { apply probed_intro; [done|done|]. unfold carries. rewrite Htcp. exists (dport (nw s)). rewrite field_front by lia.
    by rewrite (field_cut l' 0 4 4 8 4), Hf0, Hf by lia. }
  split; [by apply Hok|]. intros Hn r t'. apply Hno; [done|by right].
Qed.


Lemma wp_send_icmp t (Q : bool → trtstate → Prop) s :
  do_tcp p = false → do_icmp p = true → ready s → holds (rb s) t → (∀ s', probed s s' → Q true s') → bad_end s Q →
  wp (send_icmp p e (is_inet6 (sin6 (nw s)))) Q s.
Proof.
  intros Htcp Hicmp [(l & Eb & Hl) _ H1 H2 Hz _ Hpar] Ht Hok Hno. unfold send_icmp. wp_steps.
  assert (match paris_opt p s with Some v => 0 ≤ v < 65534 | None => True end) as Hpo by (unfold paris_opt; destruct (_ =? _); [done|lia]).
  destruct (is_inet6 (sin6 (nw s))) eqn:E6.
  - destruct (addr_bytes_ok _ _ H1) as (dst & E1 & D1 & D2 & D3). destruct (addr_bytes_ok _ _ H2) as (src & E2 & S1 & S2 & S3).
    wp_steps. eapply wp_lift; [exact E2|]. wp_steps. eapply wp_lift; [exact E1|]. wp_steps. rewrite Eb.
    destruct (put_icmp6_spec l (my_pid (base s)) (Z.of_nat (index p)) (seq (se s)) (curpacksize (se s)) (xmit_time (se s)) (paris_opt p s)
      (v6_ph src dst IPPROTO_ICMPV6) Hl Hz Hpo) as (l' & E & Hl' & _ & Hf & _); [by apply (ph_ok true)|].
    eapply wp_lift; [exact E|]. eapply wp_put_sent; [done|lia|exact Ht|]. cbv zeta.
    match goal with |- Q true ?x ∧ _ => assert (probed s x) as Hp end.
    { apply probed_intro; [done|lia|]. unfold carries. rewrite Htcp, Hicmp, E6.
      rewrite field_front by lia.
      by rewrite (field_sub l' 12 28 _ 16 8 Hf) by lia. }
    split; [by apply Hok|]. intros Hn r t'. apply Hno; [done|by right].
  - wp_steps. rewrite Eb.
    destruct (put_icmp4_spec l (Z.lor (Z.of_nat (index p)) (instance_id p ≪ TRT_ICMP4_INSTANCE_ID_SHIFT)) (seq (se s)) (curpacksize (se s))
      (paris_opt p s) Hl Hz) as (l' & E & Hl' & Hf0 & Hf & _); [by destruct (paris_opt p s); [lia|]|].
    eapply wp_lift; [exact E|]. eapply wp_put_sent; [done|lia|exact Ht|]. cbv zeta.
    match goal with |- Q true ?x ∧ _ => assert (probed s x) as Hp end.
    { apply probed_intro; [done|lia|]. unfold carries. rewrite Htcp, Hicmp, E6.
      by rewrite !field_front by lia. }
    split; [by apply Hok|]. intros Hn r t'. apply Hno; [done|by right].
Qed.

Lemma wp_send_udp t (Q : bool → trtstate → Prop) s :
  do_tcp p = false → do_icmp p = false → ready s → holds (rb s) t → (∀ s', probed s s' → Q true s') → bad_end s Q →
  wp (send_udp p e (is_inet6 (sin6 (nw s)))) Q s.
Proof.
  intros Htcp Hicmp [(l & Eb & Hl) _ H1 H2 Hz Hseq Hpar] Ht Hok Hno. unfold send_udp. eapply wp_with_socket; [done|exact Ht| |].
  2: { intros Hn r t'. by apply Hno; [|left]. }
  wp_steps. set (d := u16 _). set (s0 := set_dport d s).
  change (packet (base s0)) with (packet (base s)). change (se s0) with (se s). change (sin6 (nw s0)) with (sin6 (nw s)).
  change (loc_sin6 (nw s0)) with (loc_sin6 (nw s)).
  assert (holds (rb s0) t) as Ht0 by exact Ht.
  destruct (is_inet6 (sin6 (nw s))) eqn:E6.
  - wp_steps. rewrite Eb.
    destruct (put_udp6_spec l (my_pid (base s0)) (Z.of_nat (index p)) (seq (se s)) (curpacksize (se s)) (xmit_time (se s)) Hl Hz)
      as (l' & E & Hl' & Hf).
    eapply wp_lift; [exact E|]. eapply wp_put_sent; [done|lia|exact Ht0|]. cbv zeta.
    match goal with |- Q true ?x ∧ _ => assert (probed s x) as Hp end.
    { eexists d, _, l', _, _. split; [reflexivity|]. split; [done|]. split; [lia|]. unfold carries. rewrite Htcp, Hicmp, E6.
      rewrite field_front by lia.
      by rewrite (field_sub l' 4 28 _ 8 8 Hf) by lia. }
    split; [by apply Hok|]. intros Hn r t'. apply Hno; [done|by right].
  - destruct (addr_bytes_ok _ _ H1) as (dst & E1 & D1 & D2 & D3). destruct (addr_bytes_ok _ _ H2) as (src & E2 & S1 & S2 & S3).
    wp_steps. eapply wp_lift; [exact E2|]. wp_steps. eapply wp_lift; [exact E1|]. wp_steps.
    rewrite (proj2 (Z.eqb_neq (seq (se s)) 0)) by lia. rewrite andb_false_r. wp_steps.
    change (packet (base s0)) with (packet (base s)). change (se s0) with (se s). rewrite Eb.
    destruct (put_udp4_spec l (lport (nw s0)) (dport (nw s0)) (curpacksize (se s))
      (if parismod p =? 0 then u16 (Z.of_nat (index p) + 1) else seq (se s)) (v4_ph src dst IPPROTO_UDP) Hl Hz) as (l' & E & Hl' & Hf);
      [by apply (ph_ok false)|].
    eapply wp_lift; [exact E|]. eapply wp_put_sent; [done|lia|exact Ht0|]. cbv zeta.
    match goal with |- Q true ?x ∧ _ => assert (probed s x) as Hp end.
    { eexists d, _, l', _, _. split; [reflexivity|]. split; [done|]. split; [lia|]. unfold carries. rewrite Htcp, Hicmp, E6.
      split; [done|]. intros Hv. exists src, dst. split; [done|]. split; [done|].
      assert (zlen (field l' 0 (Z.max 2 (curpacksize (se s)))) = Z.max 2 (curpacksize (se s))) as ->
        by (unfold zlen; rewrite length_fieldn; [lia|done|lia..]).
      apply Hf. destruct (parismod p =? 0); [unfold u16 in *; pose proof (Z.mod_pos_bound (Z.of_nat (index p) + 1) (2 ^ 16)); lia|lia]. }
    split; [by apply Hok|]. intros Hn r t'. apply Hno; [done|by right].
Qed.

Lemma wp_probe t (Q : bool → trtstate → Prop) s :
  ready s → holds (rb s) t → (∀ s', probed s s' → Q true s') → bad_end s Q → wp (probe p e) Q s.
Proof.
  intros Hr Ht Hok Hno. pose proof (rd_proto s Hr) as Hp. unfold probe. wp_steps. destruct (do_tcp p) eqn:Et; [by eapply wp_send_tcp|].
  destruct (do_icmp p) eqn:Ei; [by eapply wp_send_icmp|]. destruct Hp as [|[|Eu]]; [done..|]. rewrite Eu. by eapply wp_send_udp.
Qed.
End Proofs.
