(* ===== verification/TrtRun.v ===== *)
(** * Traceroute: hops and probes

    The phases of a measurement; a running one is described by the hops that are done and the entries of
    the hop that is probed, which its buffer spells out.  [send_pkt] is shown to send the next probe
    in order, to go on to the next hop, or to end the measurement with its line. *)

From stdpp Require Import base list list_numbers numbers option strings.
From Stdlib Require Import ZArith Lia.
From S2P Require Import Prelude Bits Blocks Cstr Packet Double Wp Validate Results TrtPacket TrtParis Trt TrtProofs.

Open Scope Z_scope.

#[global] Arguments buf_text : simpl never.
#[global] Arguments report_text : simpl never.
#[global] Arguments hop_head : simpl never.
#[global] Arguments run_text : simpl never.
#[global] Arguments done_hops : simpl never.
#[global] Arguments line80 : simpl never.
#[global] Arguments hop_text : simpl never.

(** ** Texts *)

Lemma answers_snoc l x : answers (l ++ [x]) = answers l + if is_answer x then 1 else 0.
Proof.
  unfold answers. rewrite filter_app, zlen_app, filter_cons. destruct (is_answer x); [rewrite decide_True by done|rewrite decide_False by done]; done.
Qed.

Lemma run_text_add hops h cur x :
  run_text hops h (cur ++ [x]) true = run_text hops h cur false ++ entry_text x.
Proof. unfold run_text. rewrite fmap_app. cbn [fmap list_fmap]. by rewrite buf_text_add, <- !app_assoc. Qed.
Lemma run_text_open hops h cur : cur ≠ [] → run_text hops h cur true ++ sep_text = run_text hops h cur false.
Proof. intros Hc. unfold run_text. rewrite <- !app_assoc, buf_text_open; [done|]. by intros ->%fmap_nil_inv. Qed.
Lemma run_text_done hops h cur : run_text hops h cur true ++ str " } ] }" = hops_text hops (h, cur).
Proof. unfold run_text, hops_text, hop_done. by rewrite <- !app_assoc. Qed.
Lemma hops_text_next hops h cur h' :
  0 ≤ h' ≤ 255 → hops_text hops (h, cur) ++ line80 (hop_text h') = done_hops (hops ++ [(h, cur)]) ++ hop_head h'.
Proof.
  intros Hh. rewrite hop_text_head by done. unfold hops_text, done_hops. rewrite bind_app. cbn [mbind list_bind]. by rewrite app_nil_r, <- !app_assoc.
Qed.
Lemma run_text_first hops h : (done_hops hops ++ hop_head h) ++ str "{ " = run_text hops h [] false.
Proof. unfold run_text. by rewrite <- app_assoc. Qed.

Section Run.
Context (p : params).

(** The parameters: at least one probe per hop and no more than a [char] can count, sizes that fit the buffer; [done]
    does not delete the measurement. *)
Record params_ok : Prop := Params_ok {
  p_count : 1 ≤ trtcount p ≤ 127;
  p_size : 0 ≤ maxpacksize p ≤ 4096;
  p_first : 0 ≤ firsthop p ≤ 255;
  p_max : 0 ≤ maxhops p ≤ 255;
  p_parismod : 0 ≤ parismod p ≤ 255;
  p_parisbase : 0 ≤ parisbase p ≤ 255;
  p_proto : do_tcp p = true ∨ do_icmp p = true ∨ do_udp p = true;
  p_done : on_done p ≠ DoneDeletes
}.

(** A reading of a clock whose differences in milliseconds fit a [long]. *)
Definition clock_ok (t : timespec) : Prop := 0 ≤ tv_sec t < 2 ^ 50 ∧ 0 ≤ tv_nsec t < 1000000000.

(** The files can be written, the clocks are sane, sockets can be made. *)
Record env_ok (e : env) : Prop := Env_ok {
  e_append : can_append p e;
  e_now : clock_ok (now e);
  e_xmit : clock_ok (xmit_now e);
  e_socket : socket_ok e = true;
  e_xsocket : xsocket e = true;
  e_name : ∃ sa len, sockname e = Some (sa, len) ∧ addr_ok (do_v6 p) sa
}.

(** ** Phases *)

Definition paris_ok (z : Z) : Prop := parisbase p ≤ z ≤ 510.

(** What holds of a measurement in every phase. *)
Record whole (s : trtstate) : Prop := Whole {
  w_freed : freed s = false; w_base : base_ok (base s); w_paris : paris_ok (paris (se s));
  w_icmp : event_icmp (nw s) = true → socket_icmp (nw s) = true; w_tcp : event_tcp (nw s) = true → socket_tcp (nw s) = true
}.

Record idle (s : trtstate) : Prop := Idle {
  i_whole : whole s; i_busy : busy (se s) = false; i_icmp : event_icmp (nw s) = false; i_tcp : event_tcp (nw s) = false; i_timer : timer (nw s) = None
}.

Record resolving (s : trtstate) : Prop := Resolving {
  v_whole : whole s; v_busy : busy (se s) = true; v_dnsip : dnsip (se s) = true;
  v_icmp : event_icmp (nw s) = false; v_tcp : event_tcp (nw s) = false; v_timer : timer (nw s) = None;
  v_start : clock_ok (start_time (se s))
}.

(** The session of a measurement that sends probes. *)
Record live (s : trtstate) : Prop := Live {
  l_whole : whole s; l_busy : busy (se s) = true; l_dnsip : dnsip (se s) = false;
  l_sin6 : addr_ok (do_v6 p) (sin6 (nw s)); l_loc : addr_ok (do_v6 p) (loc_sin6 (nw s));
  l_size : 0 ≤ curpacksize (se s) ≤ 4096;
  l_lport : do_icmp p = false → lport (nw s) = u16 (SRC_BASE_PORT + Z.of_nat (index p))
}.

(** [hops] are done: their numbers and answers, and where the measurement is. *)
Record counts (hops : list (Z * list entry)) (s : trtstate) : Prop := Counts {
  c_hops : hops.*1 = seqZ (firsthop p) (zlen hops);
  c_full : Forall (λ x, answers x.2 = trtcount p) hops;
  c_max : hops = [] ∨ firsthop p + zlen hops ≤ maxhops p;
  c_hop : hop (se s) = if lastditch (se s) then 255 else firsthop p + zlen hops;
  c_seq : seq (se s) = trtcount p * zlen hops + sent (se s)
}.

Definition told_done (cur : list entry) (s : trtstate) : Prop := done (se s) = true → Exists (λ x, is_reply x = true) cur.

(** A probe may be sent, or the measurement ended. *)
Record due (hops : list (Z * list entry)) (cur : list entry) (s : trtstate) : Prop := Due {
  d_live : live s;
  d_counts : counts hops s;
  d_sent : 0 ≤ sent (se s) ≤ trtcount p;
  d_text : if open_result (se s) then cur ≠ [] ∧ holds (rb s) (run_text hops (hop (se s)) cur true)
           else cur = [] ∧ holds (rb s) (done_hops hops ++ hop_head (hop (se s)));
  d_answers : answers cur = sent (se s);
  d_done : told_done cur s
}.

(** A probe is under way. *)
Record running (hops : list (Z * list entry)) (cur : list entry) (s : trtstate) : Prop := Running {
  r_live : live s;
  r_counts : counts hops s;
  r_sent : 1 ≤ sent (se s) ≤ trtcount p;
  r_text : holds (rb s) (run_text hops (hop (se s)) cur (open_result (se s)));
  r_open : open_result (se s) = true → cur ≠ [];
  r_got : gotresp (se s) = true → open_result (se s) = true;
  r_answers : answers cur = sent (se s) - if gotresp (se s) then 0 else 1;
  r_done : told_done cur s;
  r_timer : timer (nw s) ≠ None;
  r_clock : clock_ok (xmit_time (se s))
}.

(** What a line is made of besides the results. *)
Definition static (s : trtstate) :=
  (starttime (se s), ttr (se s), no_src (se s), (sin6 (nw s), socklen (nw s)), (loc_sin6 (nw s), loc_socklen (nw s)), lport (nw s), paris (se s)).

Definition line (e : env) (s : trtstate) (hops : list (Z * list entry)) (last : Z * list entry) : list Z :=
  report_text p e (set_dnsip false s) (cstr (hops_text hops last)).

Lemma trt_line_static e s s' hops last : static s = static s' → line e s hops last = line e s' hops last.
Proof. unfold static. intros [= H1 H2 H3 H4 H5 H6 H7 H8 H9]. unfold line, report_text. cbn. by rewrite H1, H2, H3, H4, H5, H6, H7, H9. Qed.

Lemma static_sin6 s s' : static s = static s' → sin6 (nw s) = sin6 (nw s').
Proof. unfold static. congruence. Qed.

Definition printed (text : list Z) : list action := [Output text] ++ match on_done p with NoDone => [] | _ => [DoneCb] end.

(** The probes of a run, at most this many. *)
Definition total : Z := trtcount p * (Z.max 0 (maxhops p - firsthop p) + 1).

Context (Hp : params_ok).

Lemma counts_bound hops s : counts hops s → firsthop p ≤ firsthop p + zlen hops ≤ 255 ∧ (zlen hops ≤ Z.max 0 (maxhops p - firsthop p)).
Proof. destruct Hp. intros []. pose proof (zlen_nonneg hops). destruct c_max0 as [->|]; [rewrite zlen_nil in *|]; lia. Qed.

Lemma seq_bound hops s : counts hops s → 0 ≤ sent (se s) ≤ trtcount p → 0 ≤ seq (se s) ≤ total ∧ seq (se s) < 32768.
Proof.
  intros Hc Hs. destruct (counts_bound hops s Hc) as [H1 H2]. rewrite (c_seq _ _ Hc). unfold total. pose proof (zlen_nonneg hops).
  destruct Hp as [Hn _ Hf _ _ _ _ _]. nia.
Qed.

Lemma seq_lt_total hops s : counts hops s → 0 ≤ sent (se s) < trtcount p → seq (se s) < total.
Proof.
  intros Hc Hs. destruct (counts_bound hops s Hc) as [H1 H2]. rewrite (c_seq _ _ Hc). unfold total. pose proof (zlen_nonneg hops). nia.
Qed.

Lemma whole_reported e t s : whole s → idle (reported p e t s).
Proof.
  intros [Hf Hb Hpa Hi Ht]. constructor; [constructor|..]; try done; cbn.
  - destruct (event_icmp (nw s)); [by rewrite Hi|done].
  - destruct (event_tcp (nw s)); [by rewrite Ht|done].
  - destruct (event_icmp (nw s)); [by rewrite Hi|done].
  - destruct (event_tcp (nw s)); [by rewrite Ht|done].
Qed.

Lemma live_ready s : live s → 0 < seq (se s) < 2 ^ 16 → ready p s.
Proof.
  intros [[] _ _ H1 H2 H3 _] Hs. assert (is_inet6 (sin6 (nw s)) = do_v6 p) as E by (destruct (sin6 (nw s)), (do_v6 p); cbn in H1; intuition congruence).
  destruct Hp. constructor; rewrite ?E; try done. unfold paris_ok in *. lia.
Qed.

(** ** The next probe *)

(** The hop of the next probe, with the hops that are done then. *)
Definition advance (hops : list (Z * list entry)) (cur : list entry) (s : trtstate) : list (Z * list entry) * list entry :=
  if trtcount p <=? sent (se s) then (hops ++ [(hop (se s), cur)], []) else (hops, cur).

(** What [send_pkt] may do: send the next probe, end the measurement with its line, or give up with an error. *)
Inductive sends (e : env) (hops : list (Z * list entry)) (cur : list entry) (s s' : trtstate) : Prop :=
| Sends_probe port data :
    running (advance hops cur s).1 (advance hops cur s).2 s' → static s' = static s → seq (se s') = seq (se s) + 1 →
    (sent (se s) < trtcount p → hop (se s') = hop (se s)) →
    acts s' = acts s ++ [Probe (hop (se s')) (dont_frag p) (sin6 (nw s)) port data] → carries p s' (seq (se s')) port data →
    sends e hops cur s s'
| Sends_end :
    idle s' → static s' = static s → sent (se s) = trtcount p → answers cur = trtcount p →
    maxhops p ≤ hop (se s) ∨ Exists (λ x, is_reply x = true) cur →
    acts s' = acts s ++ printed (line e s hops (hop (se s), cur)) → sends e hops cur s s'
| Sends_error l text :
    ¬ sendable p e → idle s' → (∀ a, a ∈ l → ∃ h port data, a = Probe h (dont_frag p) (sin6 (nw s)) port data) → (length l ≤ 1)%nat →
    seq (se s) < total → acts s' = acts s ++ l ++ printed text → sends e hops cur s s'.

Context (e : env) (He : env_ok e).

Lemma live_ext s s' :
  live s → freed s' = freed s → base s' = base s → paris (se s') = paris (se s) → busy (se s') = busy (se s) → dnsip (se s') = dnsip (se s) →
  curpacksize (se s') = curpacksize (se s) → nw s' = nw s → live s'.
Proof. intros [[] ? ? ? ? ? ?] E1 E2 E3 E4 E5 E6 E7. constructor; [constructor|..]; by rewrite ?E1, ?E2, ?E3, ?E4, ?E5, ?E6, ?E7. Qed.

(** The state in which the next hop starts. *)
Lemma due_next hops cur s r r' (ld : bool) h' :
  live s → counts hops s → sent (se s) = trtcount p → answers cur = sent (se s) →
  hop (se s) = firsthop p + zlen hops → hop (se s) < maxhops p → h' = (if ld then 255 else hop (se s) + 1) →
  holds r' (done_hops (hops ++ [(hop (se s), cur)]) ++ hop_head h') →
  due (hops ++ [(hop (se s), cur)]) []
    (set_open_result false (set_rb r' (set_lastditch ld (set_hop h' (set_not_done false (set_done false (set_sent 0 (set_rb r s)))))))).
Proof.
  intros Hl [] Es Ha Eh Hlt -> Hr'. pose proof (p_count Hp). assert (zlen (hops ++ [(hop (se s), cur)]) = zlen hops + 1) as El by by rewrite zlen_app.
  constructor; cbn; [|constructor; cbn; rewrite ?El| |done|done|by intros ?].
  - by eapply live_ext; [exact Hl|..].
  - rewrite fmap_app, c_hops0, seqZ_app by (pose proof (zlen_nonneg hops); lia). f_equal. cbn. by rewrite Eh.
  - apply Forall_app. split; [done|]. constructor; [|constructor]. cbn. lia.
  - right. lia.
  - destruct ld; lia.
  - lia.
  - lia.
Qed.

(** The next hop, or the end. *)
Lemma wp_next_hop hops cur (Q : bool → trtstate → Prop) s :
  due hops cur s → sent (se s) = trtcount p →
  (∀ s', due (hops ++ [(hop (se s), cur)]) [] s' → sent (se s') = 0 → static s' = static s → seq (se s') = seq (se s) → gotresp (se s') = gotresp (se s) →
     acts s' = acts s → Q true s') →
  (∀ s', sends e hops cur s s' → Q false s') →
  wp (next_hop p e) Q s.
Proof.
  intros [Hl Hc Hs Ht Ha Hd] Es Hok Hend. pose proof (p_count Hp) as Hn. unfold next_hop. wp_steps.
  destruct (open_result (se s)); [destruct Ht as [Hne Ht]|destruct Ht as [-> _]; change (answers []) with 0 in Ha; lia].
  eapply trt_wp_add_str; [exact Ht|]. rewrite run_text_done. intros r Hr. wp_steps.
  change (hop (se (set_rb r s))) with (hop (se s)). change (done (se (set_rb r s))) with (done (se s)).
  change (not_done (se (set_rb r s))) with (not_done (se s)).
  assert (whole (set_rb r s)) as Hw by (by destruct (l_whole _ Hl)).
  assert (∀ s1, s1 = set_rb r s → maxhops p ≤ hop (se s) ∨ Exists (λ x, is_reply x = true) cur → wp (report p e) (λ _, wp (mret false) Q) s1) as Hrep.
  { intros s1 -> Hwhy. eapply trt_wp_report; [apply He|apply Hp|exact Hr|by intros [_ ?]%app_eq_nil|]. wp_steps. apply Hend.
    apply Sends_end; [by apply whole_reported|done|done|lia|done|]. cbn. unfold printed, line, report_text. cbn.
    by rewrite (l_dnsip _ Hl). }
  destruct (_ || _) eqn:Estop.
  { wp_steps. apply Hrep; [done|]. apply orb_true_iff in Estop as [E|E]; [left; by apply Z.leb_le|right]. apply Hd. by destruct (done (se s)). }
  apply orb_false_iff in Estop as [Emax Edone]. apply Z.leb_gt in Emax. wp_steps.
  assert (lastditch (se s) = false) as Eld.
  { destruct Hc. destruct (lastditch (se s)); [|done]. pose proof (p_max Hp). lia. }
  assert (hop (se s) = firsthop p + zlen hops) as Eh by (destruct Hc; by rewrite Eld in *).
  destruct (counts_bound hops s Hc) as [Hb1 Hb2]. pose proof (p_max Hp) as Hmax.
  assert (u8 (hop (se s) + 1) = hop (se s) + 1) as Eu by (unfold u8; apply Z.mod_small; pose proof (p_first Hp); lia).
  tcbn. rewrite Eu, Eld, andb_false_r. wp_steps.
  match goal with |- context [gaplimit p <? ?x] => set (gap := gaplimit p <? x) end.
  assert (∀ s1 (ld : bool) h', h' = (if ld then 255 else hop (se s) + 1) →
    s1 = set_lastditch ld (set_hop h' (set_not_done false (set_done false (set_sent 0 (set_rb r s))))) →
    wp (add_str (line80 (hop_text (hop (se s1))))) (λ _, wp (modify (set_open_result false) ;; mret true) Q) s1) as Hgo.
  { intros s1 ld h' Eh' ->. pose proof (p_first Hp). assert (0 ≤ h' ≤ 255) by (destruct ld; lia).
    eapply trt_wp_add_str; [exact Hr|]. change (hop (se (set_lastditch _ _))) with h'. rewrite hops_text_next by done. intros r' Hr'. wp_steps.
    apply Hok; [|done..]. by apply due_next. }
  destruct gap; wp_steps.
  - by apply (Hgo _ true 255).
  - apply (Hgo _ false (hop (se s) + 1)); [done|]. unfold set_lastditch, set_hop. tcbn. by rewrite Eld.
Qed.

Lemma probed_static s s' : probed p s s' → static s' = static s ∧ rb s' = rb s ∧
  (∃ z, 0 ≤ z ≤ 4096 ∧ se s' = se (set_curpacksize z s)) ∧ (∃ d, nw s' = nw (set_dport d s)) ∧
  freed s' = freed s ∧ base_ok (base s') ∧
  ∃ port data, acts s' = acts s ++ [Probe (hop (se s)) (dont_frag p) (sin6 (nw s)) port data] ∧ carries p s (seq (se s)) port data.
Proof.
  intros (d & z & l & port & data & -> & Hl & Hz & Hca). split; [done|]. split; [done|]. split; [by exists z|]. split; [by exists d|].
  split; [done|]. split; [by exists l|]. by exists port, data.
Qed.

Lemma whole_probed s s1 r : whole s → s1 = s ∨ probed p s s1 → whole (set_rb r s1).
Proof.
  intros [] [->|(_ & _ & (z & _ & Ese) & (d & Enw) & Ef & Hb & _)%probed_static]; [by constructor|].
  constructor; cbn; rewrite ?Ese, ?Enw, ?Ef; done.
Qed.

(** The probe is sent. *)
Definition shoot : TM unit :=
  modify (λ s, set_seq (u16 (seq (se s) + 1)) s);;
  modify (set_xmit_time (xmit_now e));;
  ok ← probe p e;
  if negb ok then mret tt
  else
    s ← get;
    (if open_result (se s) then add_str (str " }, ") else mret tt);;
    add_str (str "{ ");;
    modify (set_open_result false);;
    modify (set_sent (sent (se s) + 1));;
    modify (set_timer (Some (usecstotv (timeout p)))).
Lemma send_pkt_shoot :
  send_pkt p e = (modify (set_gotresp false);; s ← get;
                  go ← (if trtcount p <=? sent (se s) then next_hop p e else mret true); if negb go then mret tt else shoot).
Proof. done. Qed.

Lemma wp_shoot hops cur (Q : () → trtstate → Prop) s :
  due hops cur s → sent (se s) < trtcount p → gotresp (se s) = false →
  (∀ s' port data, running hops cur s' → static s' = static s → seq (se s') = seq (se s) + 1 → hop (se s') = hop (se s) →
     acts s' = acts s ++ [Probe (hop (se s')) (dont_frag p) (sin6 (nw s)) port data] → carries p s' (seq (se s')) port data → Q tt s') →
  (∀ s' l text, ¬ sendable p e → idle s' → (∀ a, a ∈ l → ∃ h port data, a = Probe h (dont_frag p) (sin6 (nw s)) port data) → (length l ≤ 1)%nat →
     seq (se s) < total → acts s' = acts s ++ l ++ printed text → Q tt s') →
  wp shoot Q s.
Proof.
  intros [Hl Hc Hs Ht Ha Hd] Hlt Eg Hok Herr. unfold shoot. wp_steps.
  destruct (seq_bound hops s Hc Hs) as [Hq1 Hq2]. pose proof (seq_lt_total hops s Hc ltac:(lia)) as Htot. unfold u16. rewrite Z.mod_small by lia.
  set (s0 := set_xmit_time _ _). assert (live s0) as Hl0 by (by eapply live_ext; [exact Hl|..]).
  assert (∃ t, holds (rb s0) t) as [t Ht0] by (destruct (open_result (se s)); destruct Ht as [_ Ht]; by eexists).
  eapply (wp_probe p e (e_append _ He) (p_done Hp) (e_socket _ He) t); [apply live_ready; [done|cbn; lia]|done| |].
  - intros s1 (Hst & Erb & (z & Hz & Ese) & (d & Enw) & Ef & Hb & port & data & Eac & Hca)%probed_static. cbn [negb]. wp_steps.
    assert (open_result (se s1) = open_result (se s)) as Eo by by rewrite Ese. rewrite Eo.
    assert (∀ r, holds r (run_text hops (hop (se s)) cur false) →
      Q tt (set_timer (Some (usecstotv (timeout p))) (set_sent (sent (se s1) + 1) (set_open_result false (set_rb r s1))))) as HQ.
    { intros r Hr. eapply (Hok _ port data); [|exact Hst|cbn; by rewrite Ese|cbn; by rewrite Ese| |].
      - destruct Hl0 as [[] ? ? ? ? ? ?]. destruct Hc.
        constructor; [constructor; [constructor|..]|constructor|..]; cbn; rewrite ?Ese, ?Enw, ?Ef; cbn; try done; try lia.
        + by rewrite Eg.
        + rewrite Eg. lia.
        + unfold told_done. cbn. rewrite Ese. exact Hd.
        + apply He.
      - cbn. rewrite Eac, Ese. done.
      - assert (sin6 (nw s1) = sin6 (nw s) ∧ loc_sin6 (nw s1) = loc_sin6 (nw s) ∧ lport (nw s1) = lport (nw s)) as (E1 & E2 & E3) by (by rewrite Enw).
        unfold carries in *. cbn in *. rewrite E1, E2, E3, Ese. exact Hca. }
    destruct (open_result (se s)) eqn:Eop; destruct Ht as [Hc0 Ht].
    + wp_steps. eapply trt_wp_add_str; [rewrite Erb; exact Ht|]. intros r Hr. wp_steps. eapply trt_wp_add_str; [exact Hr|]. intros r' Hr'. wp_steps.
      apply (HQ r'). rewrite <- run_text_open by done. by rewrite <- app_assoc in Hr'.
    + wp_steps. eapply trt_wp_add_str; [rewrite Erb; exact Ht|]. intros r Hr. wp_steps. apply (HQ r). subst cur. by rewrite <- run_text_first.
  - intros Hn s1 r t' Hs1. cbn [negb]. wp_steps. assert (idle (reported p e t' (set_rb r s1))) as Hidle.
    { apply whole_reported. by eapply whole_probed; [apply Hl0|]. }
    destruct Hs1 as [->|(_ & _ & _ & _ & _ & _ & port & data & Eac & _)%probed_static].
    + eapply (Herr _ []); [done|done|by intros a ?%elem_of_nil|cbn; lia|done|done].
    + eapply (Herr _ [_]); [done|done| |cbn; lia|done|cbn; rewrite Eac, <- app_assoc; done].
      intros a ->%list_elem_of_singleton. by eexists _, _, _.
Qed.

Lemma due_gotresp hops cur s b : due hops cur s → due hops cur (set_gotresp b s).
Proof. intros [Hl [] ? ? ? ?]. constructor; try done. by eapply live_ext; [exact Hl|..]. Qed.

Lemma wp_send_pkt hops cur s : due hops cur s → wp (send_pkt p e) (λ _, sends e hops cur s) s.
Proof.
  intros Hdue%(due_gotresp _ _ _ false). rewrite send_pkt_shoot. wp_steps. pose proof (d_sent _ _ _ Hdue) as Hs.
  set (s0 := set_gotresp false s) in *. destruct (Z.leb_spec (trtcount p) (sent (se s0))) as [Hge|Hlt].
  - eapply wp_next_hop; [exact Hdue|lia| |].
    + intros s1 Hd1 Es1 Hst Hsq Hg Hac. cbn [negb]. pose proof (static_sin6 _ _ Hst) as Hsin. change (sin6 (nw s0)) with (sin6 (nw s)) in Hsin.
      pose proof (p_count Hp). eapply wp_shoot; [exact Hd1|lia|exact Hg| |].
      * intros s' port data Hr Hst' Hsq' Hho' Hac' Hca. eapply Sends_probe; [|by rewrite Hst', Hst|by rewrite Hsq', Hsq|intros; cbn in Hge; lia|by rewrite Hac', Hac, Hsin|done].
        unfold advance. rewrite (proj2 (Z.leb_le _ _)) by done. done.
      * intros s' l text Hn Hi Hin Hlen Hlt' Hac'. eapply Sends_error; [done|done| |exact Hlen|by rewrite Hsq in Hlt'|rewrite Hac', Hac; done].
        by rewrite Hsin in Hin.
    + intros s' Hse. cbn [negb]. wp_steps. destruct Hse as [| |]; [by eapply Sends_probe|by apply Sends_end|by eapply Sends_error].
  - wp_steps. cbn [negb]. eapply wp_shoot; [exact Hdue|done|done| |].
    + intros s' port data Hr Hst' Hsq' Hho' Hac' Hca. eapply Sends_probe; [|done..]. unfold advance. by rewrite (proj2 (Z.leb_gt _ _)) by done.
    + intros s' l text Hn Hi Hin Hlen Hlt' Hac'. by eapply Sends_error.
Qed.
End Run.
