(* ===== verification/TrtReply.v ===== *)
(** * Traceroute: what is read of a reply

    Every read of a received packet stays within the packet buffer, whatever the packet says, and the texts of
    a reply start with the address it came from. *)

From stdpp Require Import base list list_numbers numbers option strings.
From Stdlib Require Import ZArith Lia.
From Stdlib Require Import Floats.SpecFloat.
From S2P Require Import Prelude Bits Blocks Cstr Packet Double Wp Validate Results TrtPacket TrtParis Trt TrtProofs TrtRun.

Open Scope Z_scope.

(** ** Outcomes *)

Definition ends {A} (o : outcome A) (P : A → Prop) : Prop := match o with Done a => P a | Crash _ => False end.

Lemma ends_bind {A B} (o : outcome A) (f : A → outcome B) P : ends o (λ a, ends (f a) P) → ends (o ≫= f) P.
Proof. by destruct o. Qed.
Lemma ends_mono {A} (o : outcome A) (P P' : A → Prop) : ends o P → (∀ a, P a → P' a) → ends o P'.
Proof. destruct o; cbn; auto. Qed.
Lemma ends_if {A} (b : bool) (o1 o2 : outcome A) P : (b = true → ends o1 P) → (b = false → ends o2 P) → ends (if b then o1 else o2) P.
Proof. destruct b; auto. Qed.
Lemma wp_lift_ends {S A} (o : outcome A) (Q : A → S → Prop) s : ends o (λ a, Q a s) → wp (lift o) Q s.
Proof. destruct o; [|done]. intros H. by eapply wp_lift. Qed.

Section Reads.
Context (l : list Z) (Hl : buf_ok l).

Lemma ends_be_at o n (P : Z → Prop) :
  0 ≤ o → 0 ≤ n → o + n ≤ 4224 → (∀ v, v = be_value (field l o n) → 0 ≤ v → P v) → ends (be_at (Some <$> l) o n) P.
Proof.
  intros Ho Hn Hle HP. rewrite be_at_field by (rewrite ?(buf_zlen l Hl); done). apply HP; [done|].
  by apply be_value_nonneg, field_bytes, Hl.
Qed.

(** A byte. *)
Lemma ends_byte o (P : Z → Prop) :
  0 ≤ o < 4224 → (∀ v, v = be_value (field l o 1) → 0 ≤ v < 256 → P v) → ends (be_at (Some <$> l) o 1) P.
Proof.
  intros Ho HP. apply ends_be_at; [lia..|]. intros v Ev _. apply HP; [done|]. subst v.
  pose proof (length_fieldn l o 1 Hl ltac:(lia) ltac:(lia) ltac:(lia)) as Hlen. pose proof (field_bytes l o 1 (proj2 Hl)) as Hb.
  destruct (field l o 1) as [|x [|]]; [done| |done]. apply Forall_cons in Hb as [Hx _]. unfold is_byte in Hx. cbn. lia.
Qed.

Lemma ends_bytes o n (P : list Z → Prop) : 0 ≤ o → 0 ≤ n → o + n ≤ 4224 → P (field l o n) → ends (bytes_at (Some <$> l) o n) P.
Proof. intros Ho Hn Hle HP. by rewrite bytes_at_field by (rewrite ?(buf_zlen l Hl); done). Qed.
End Reads.

(** Steps through reads; the side conditions are left to [lia]. *)
Ltac ends_step :=
  lazymatch goal with
  | |- ends (mbind _ _) _ => apply ends_bind
  | |- ends (mret _) _ => cbn [ends mret outcome_ret]
  | |- ends (be_at _ _ 1) _ => apply ends_byte; [done|lia|intros ? ? ?]
  | |- ends (be_at _ _ _) _ => apply ends_be_at; [done|lia|lia|lia|intros ? ? ?]
  end.
Ltac ends_steps := repeat ends_step.

Lemma ms_double_ok now ts : clock_ok now → clock_ok ts → ∃ ms, ms_double now ts = Done ms.
Proof.
  intros [H1 H2] [H3 H4]. unfold ms_double. rewrite (chk64_small (tv_sec now - tv_sec ts)) by lia. msimpl.
  rewrite chk64_small by lia. msimpl. rewrite chk64_small by lia. by eexists.
Qed.

Lemma clock_elapsed now ts : clock_ok now → clock_ok ts → ∃ d, elapsed now ts = Done d.
Proof. intros [H1 H2] [H3 H4]. apply elapsed_sane; split; lia. Qed.

Lemma land_bounds a n : 0 ≤ n → 0 ≤ Z.land a (2 ^ n - 1) < 2 ^ n.
Proof. intros Hn. rewrite land_ones_mod by done. apply Z.mod_pos_bound. lia. Qed.

Section Parse.
Context (p : params) (e : env) (l : list Z) (Hl : buf_ok l) (nrecv : Z) (Hn : 0 ≤ nrecv ≤ 4224).

Lemma ends_ext_at o b : 0 ≤ o → ends (ext_at (Some <$> l) nrecv o b) (λ _, True).
Proof. intros Ho. unfold ext_at. destruct (Z.ltb_spec o nrecv); ends_steps; [|done]. apply ends_bytes; [done|lia..|]. done. Qed.

Lemma ends_hdropts fuel first o e' : 0 ≤ o → e' ≤ 4000 → ends (hdropts fuel (Some <$> l) first o e') (λ _, True).
Proof.
  intros Ho He. revert first o Ho. induction fuel as [|fuel IH]; intros first o Ho; [done|]. cbn [hdropts].
  destruct (Z.leb_spec e' o); [done|]. ends_steps. destruct (_ =? 2); [|done]. ends_steps.
  destruct (Z.ltb_spec v0 4); [done|]. destruct (Z.ltb_spec e' (o + v0)); [done|]. cbn [orb]. ends_steps.
  eapply ends_mono; [apply IH; lia|]. done.
Qed.
Lemma ends_report_hdropts a e' : 0 ≤ a → e' ≤ 4000 → ends (report_hdropts (Some <$> l) a e') (λ _, True).
Proof. intros Ha He. unfold report_hdropts. ends_steps. by eapply ends_mono; [apply ends_hdropts|]. Qed.

Lemma ends_match4 s proto q :
  0 ≤ q ≤ 200 → 0 ≤ seq (se s) →
  ends (match4 p s (Some <$> l) nrecv proto q) (λ m, match m with Some (_, n) => 0 ≤ n | None => True end).
Proof.
  intros Hq Hs. unfold match4, quote_tcp, quote_udp, quote_icmp. pose proof (λ v, land_bounds v 16 ltac:(lia)) as Hland.
  destruct (_ =? IPPROTO_TCP); [|destruct (_ =? IPPROTO_UDP); [|destruct (_ =? IPPROTO_ICMP); [|done]]].
  - destruct (_ <? _); [done|]. ends_steps. destruct (_ || _); [done|]. destruct (_ && _); [|done]. apply Hland.
  - destruct (_ <? _); [done|]. ends_steps. destruct (_ && _); [|done]. cbn.
    destruct (_ =? 0); [unfold u32; apply Z.mod_pos_bound; lia|]. by destruct (_ <? _).
  - destruct (_ <? _); [done|]. ends_steps. destruct (_ || _); [done|]. by destruct (_ && _).
Qed.

Lemma ends_error_texts4 s eip late isDup from :
  clock_ok (now e) → clock_ok (xmit_time (se s)) → addr_ok false (sin6 (nw s)) → 0 ≤ eip ≤ 100 →
  ends (error_texts4 p e s (Some <$> l) nrecv eip late isDup from) (λ t, ∃ rest, t = from_text late isDup (inet_ntoa from) :: rest).
Proof.
  intros H1 H2 H3 Heip. unfold error_texts4. destruct (ms_double_ok _ _ H1 H2) as [ms ->]. destruct (addr_bytes_ok _ _ H3) as (d & Ed & _).
  ends_steps. cbn [ends]. ends_steps. apply ends_bytes; [done|lia..|]. ends_steps. rewrite Ed. cbn [ends]. ends_steps. by eexists.
Qed.

Lemma ends_opt_header o :
  0 ≤ o → ends (opt_header (Some <$> l) nrecv o) (λ h, match h with Some (_, _, o') => 0 ≤ o' ≤ nrecv | None => True end).
Proof.
  intros Ho. unfold opt_header. destruct (Z.ltb_spec nrecv (o + 2)); [done|]. ends_steps.
  destruct (Z.ltb_spec nrecv (o + (8 * v0 + 8))); [done|]. cbn. lia.
Qed.
Lemma ends_skip_headers nxt o :
  0 ≤ o ≤ nrecv → ends (skip_headers (Some <$> l) nrecv nxt o) (λ h, match h with Some (_, o', _, _) => 0 ≤ o' ≤ nrecv | None => True end).
Proof.
  intros Ho. unfold skip_headers. ends_steps.
  apply ends_mono with (λ h, match h with Some (_, _, o') => 0 ≤ o' ≤ nrecv | None => True end).
  { destruct (_ =? _); [apply ends_opt_header; lia|done]. }
  intros [[[nxt1 hbh] o1]|] Ho1; [|done]. ends_steps.
  apply ends_mono with (λ h, match h with Some (_, o') => 0 ≤ o' ≤ nrecv | None => True end).
  { destruct (_ =? _); [|done]. destruct (Z.ltb_spec nrecv (o1 + 8)); [done|]. ends_steps. destruct (negb _); [done|]. cbn. lia. }
  intros [[nxt2 o2]|] Ho2; [|done]. ends_steps.
  apply ends_mono with (λ h, match h with Some (_, _, o') => 0 ≤ o' ≤ nrecv | None => True end).
  { destruct (_ =? _); [apply ends_opt_header; lia|done]. }
  by intros [[[nxt3 dst] o3]|] Ho3.
Qed.

(** A packet that says it is about a probe of this measurement has a time in it that the measurement can have
    sent. *)
Definition stamp_at (data : list Z) (o : Z) : timespec :=
  TS (s64 (le_value (field data (o + 16) 8))) (s64 (le_value (field data (o + 24) 8))).
Definition honest (s : trtstate) (data : list Z) : Prop :=
  ∀ o, 0 ≤ o → o + sizeof_v6info ≤ zlen data → be_value (field data (o + 4) 4) = my_pid (base s) →
    s32 (be_value (field data (o + 8) 4)) = Z.of_nat (index p) → clock_ok (stamp_at data o).

Context (data : list Z) (Hd : field l 0 nrecv = data).

Lemma field_data o n : 0 ≤ o → 0 ≤ n → o + n ≤ nrecv → field l o n = field data o n.
Proof. intros Ho Hn' Hle. rewrite <- Hd. by rewrite field_front. Qed.

Lemma ends_v6info o :
  0 ≤ o → o + sizeof_v6info ≤ nrecv →
  ends (v6info_at (Some <$> l) o) (λ r, let '(pid, id, n, tv) := r in
    pid = be_value (field data (o + 4) 4) ∧ id = be_value (field data (o + 8) 4) ∧ 0 ≤ n ∧ tv = stamp_at data o).
Proof.
  unfold sizeof_v6info. intros Ho Hle. unfold v6info_at, stamp_at. ends_steps.
  rewrite le_at_field by (rewrite ?(buf_zlen l Hl); lia). cbn [ends]. ends_steps.
  rewrite le_at_field by (rewrite ?(buf_zlen l Hl); lia). cbn [ends]. ends_steps.
  rewrite !field_data in * by lia. done.
Qed.

Lemma mine_index s ind v6 : mine p s ind v6 = true → ind = Z.of_nat (index p).
Proof. unfold mine. rewrite !andb_true_iff. intros [[H _] _]. by apply Z.eqb_eq. Qed.

Definition match6_ok (m : option (Z * option timespec)) : Prop :=
  match m with Some (n, tv) => 0 ≤ n ∧ ∀ t, tv = Some t → clock_ok t | None => True end.

Lemma ends_match6 s k o :
  0 ≤ o ≤ nrecv → honest s data → ends (match6 p s (Some <$> l) nrecv k o) match6_ok.
Proof.
  intros Ho Hh. assert (zlen data = nrecv) as Hz by (rewrite <- Hd; unfold zlen; rewrite length_fieldn; [lia|done|lia..]).
  assert (∀ k', k' ≠ K_TCP →
    ends (if nrecv <? o + header6 k' + sizeof_v6info then mret None
          else '(pid, id, n, tv) ← v6info_at (Some <$> l) (o + header6 k');
            if negb (pid =? my_pid (base s)) then mret None
            else if mine p s (s32 id) true && does p k' then mret (Some (n, Some tv)) else mret None) match6_ok) as Hinfo.
  { intros k' Hk. assert (0 ≤ header6 k') as H0 by by destruct k'. destruct (Z.ltb_spec nrecv (o + header6 k' + sizeof_v6info)); [done|]. ends_steps.
    eapply ends_mono; [apply ends_v6info; lia|]. intros [[[pid id] n] tv] (-> & -> & Hn0 & ->).
    destruct (negb _) eqn:Ep; [done|]. apply negb_false_iff, Z.eqb_eq in Ep. destruct (_ && _) eqn:Em; [|done].
    apply andb_true_iff in Em as [Hi%mine_index _]. cbn. split; [done|]. intros t [= <-]. apply Hh; [lia|rewrite Hz; lia|done|done]. }
  destruct k; [|by apply Hinfo..]. cbn [match6]. unfold sizeof_tcphdr. destruct (Z.ltb_spec nrecv (o + 20)); [done|]. ends_steps.
  destruct (_ && _); [|done]. cbn. split; [apply (land_bounds _ 16); lia|done].
Qed.

Lemma ends_ms6 s late tv :
  clock_ok (now e) → clock_ok (xmit_time (se s)) → (∀ t, tv = Some t → clock_ok t) → ends (ms6 e s late tv) (λ _, True).
Proof.
  intros H1 H2 H3. unfold ms6. destruct (negb late).
  - by destruct (ms_double_ok _ _ H1 H2) as [ms ->].
  - destruct tv as [t|]; [|done]. by destruct (ms_double_ok _ _ H1 (H3 t eq_refl)) as [ms ->].
Qed.

Lemma ends_error_texts6 s ttl hbh dst late isDup tv from :
  clock_ok (now e) → clock_ok (xmit_time (se s)) → (∀ t, tv = Some t → clock_ok t) →
  ends (error_texts6 p e s (Some <$> l) nrecv ttl hbh dst late isDup tv from)
    (λ t, ∃ rest, t = from_text late isDup (inet_ntop e from) :: rest).
Proof.
  intros H1 H2 H3. unfold error_texts6, ICMP6_HDR. ends_steps. eapply ends_mono; [by apply ends_ms6|]. intros ms _. ends_steps. by eexists.
Qed.
End Parse.

(** ** Fuel *)

(** More rounds than bytes change nothing: both loops have enough. *)
Lemma ext_objects_fuel n m first l : (length l ≤ n)%nat → (n ≤ m)%nat → ext_objects m first l = ext_objects n first l.
Proof.
  revert m first l. induction n as [|n IH]; intros [|m] first l Hl Hm; cbn [ext_objects]; try lia; [done|destruct l; [done|cbn in Hl; lia]|].
  destruct (Z.leb_spec (zlen l) 4) as [|Hlen]; [done|]. f_equal. set (len := be_value _).
  destruct (Z.ltb_spec len 4) as [|Hge]; [done|]. destruct (zlen l <? len); [done|]. cbn [orb]. do 2 f_equal.
  apply IH; [rewrite length_drop; unfold zlen in *; lia|lia].
Qed.
Lemma hdropts_fuel n m b first o e : (Z.to_nat (e - o) ≤ n)%nat → (n ≤ m)%nat → hdropts m b first o e = hdropts n b first o e.
Proof.
  revert m first o. induction n as [|n IH]; intros [|m] first o Hl Hm; cbn [hdropts]; try lia; [done|by rewrite (proj2 (Z.leb_le e o)) by lia|].
  destruct (Z.leb_spec e o); [done|]. destruct (be_at b o 1) as [opt|]; [|done]. msimpl. destruct (opt =? 2); [|done].
  destruct (be_at b (o + 1) 1) as [len|]; [|done]. msimpl. destruct (Z.ltb_spec len 4); [done|]. destruct (e <? o + len); [done|]. cbn [orb].
  destruct (be_at b (o + 2) 2) as [mss|]; [|done]. msimpl. by rewrite (IH m) by lia.
Qed.
