(* ===== verification/TrtStep.v ===== *)
(** * Traceroute: the callbacks of a running measurement

    A reply adds one entry to the current hop, which starts with the address it came from; the timer
    adds an entry for a probe without reply.  What follows is what [send_pkt] does. *)

From stdpp Require Import base list list_numbers numbers option strings.
From Stdlib Require Import ZArith Lia.
From Stdlib Require Import Floats.SpecFloat.
From S2P Require Import Prelude Bits Blocks Cstr Packet Double Wp Validate Results TrtPacket TrtParis Trt TrtProofs TrtRun TrtReply.

Open Scope Z_scope.

#[global] Arguments late_text : simpl never.
#[global] Arguments from_text : simpl never.

(** What a reply is found to be. *)
Inductive verdict := New | IsLate (k : Z) | IsDup (space : bool).
Definition v_late (v : verdict) : bool := match v with IsLate _ => true | _ => false end.
Definition v_dup (v : verdict) : bool := match v with IsDup _ => true | _ => false end.
Definition v_text (v : verdict) : list Z := match v with New => [] | IsLate k => late_text k | IsDup sp => dup_text sp end.
Definition v_entry (v : verdict) (addr rest : list Z) : entry :=
  match v with New => Reply addr rest | IsLate k => Late k addr rest | IsDup sp => Dup sp addr rest end.
Lemma v_entry_text v a rest : entry_text (v_entry v a rest) = v_text v ++ from_text (v_late v) (v_dup v) a ++ rest.
Proof. by destruct v. Qed.
Lemma v_entry_answer v a rest : is_answer (v_entry v a rest) = negb (v_late v || v_dup v).
Proof. by destruct v. Qed.

Create HintDb trt_grow.

Section Step.
Context (p : params) (Hp : params_ok p) (e : env) (He : env_ok p e).

(** An entry is being written: [x] is there already. *)
Record mid (hops : list (Z * list entry)) (cur : list entry) (x : list Z) (s : trtstate) : Prop := Mid {
  m_live : live p s;
  m_counts : counts p hops s;
  m_sent : 1 ≤ sent (se s) ≤ trtcount p;
  m_text : holds (rb s) (run_text hops (hop (se s)) cur false ++ x);
  m_answers : answers cur = sent (se s) - if gotresp (se s) then 0 else 1;
  m_timer : timer (nw s) ≠ None;
  m_clock : clock_ok (xmit_time (se s))
}.

(** What no reply changes before the next probe. *)
Definition core (s : trtstate) := (static s, seq (se s), sent (se s), hop (se s), acts s).
Definition keeps (s s' : trtstate) : Prop := core s' = core s ∧ gotresp (se s') = gotresp (se s).
Lemma core_inv s s0 : core s = core s0 →
  static s = static s0 ∧ seq (se s) = seq (se s0) ∧ sent (se s) = sent (se s0) ∧ hop (se s) = hop (se s0) ∧ acts s = acts s0.
Proof. unfold core. intros H. do 4 apply pair_eq in H as [H ?]. done. Qed.
Lemma keeps_trans s1 s2 s3 : keeps s1 s2 → keeps s2 s3 → keeps s1 s3.
Proof. intros [H1 H2] [H3 H4]. split; congruence. Qed.

Lemma sends_core hops cur s0 s s' : core s = core s0 → sends p e hops cur s s' → sends p e hops cur s0 s'.
Proof.
  intros (Hst & Hsq & Hse & Hho & Hac)%core_inv. pose proof (static_sin6 _ _ Hst) as Hsin.
  intros [port data Hr H1 H2 Hho' H3 Hca|Hi H1 H2 Hans H3 H4|l text Hn Hi Hin Hlen Hlt H1].
  - eapply (Sends_probe p e hops cur s0 s' port data); [unfold advance in *; by rewrite <- Hse, <- Hho|congruence|congruence|by rewrite <- Hse, <- Hho|congruence|done].
  - apply Sends_end; [done|congruence|congruence|done|by rewrite <- Hho|].
    rewrite H4, Hac, Hho. do 2 f_equal. by apply trt_line_static.
  - eapply Sends_error; [done|done|by rewrite <- Hsin|exact Hlen|by rewrite <- Hsq|by rewrite H1, Hac].
Qed.

(** A part of the code that adds to the entry. *)
Definition grows (m : TM unit) : Prop := ∀ hops cur x s,
  mid hops cur x s → wp m (λ _ s', ∃ y, mid hops cur (x ++ y) s' ∧ keeps s s') s.

Lemma grows_ret : grows (mret tt).
Proof. intros hops cur x s Hm. exists []. by rewrite app_nil_r. Qed.
Lemma grows_bind m1 m2 : grows m1 → grows m2 → grows (m1;; m2).
Proof.
  intros H1 H2 hops cur x s Hm. wp_steps. eapply wp_mono; [by apply H1|]. intros _ s1 (y1 & Hm1 & Hk1).
  eapply wp_mono; [by apply H2|]. intros _ s2 (y2 & Hm2 & Hk2). exists (y1 ++ y2). rewrite app_assoc. split; [done|by eapply keeps_trans].
Qed.
Lemma grows_if (b : bool) m1 m2 : grows m1 → grows m2 → grows (if b then m1 else m2).
Proof. by destruct b. Qed.
Lemma grows_get (f : trtstate → TM unit) : (∀ s hops cur x, mid hops cur x s → wp (f s) (λ _ s', ∃ y, mid hops cur (x ++ y) s' ∧ keeps s s') s) → grows (s ← get; f s).
Proof. intros H hops cur x s Hm. wp_steps. by apply H. Qed.

Lemma mid_text hops cur x y r s : mid hops cur x s → holds r ((run_text hops (hop (se s)) cur false ++ x) ++ y) → mid hops cur (x ++ y) (set_rb r s).
Proof. intros [Hl [] ? ? ? ? ?] Hr. constructor; try done; [by eapply live_ext; [exact Hl|..]|]. by rewrite <- app_assoc in Hr. Qed.

Lemma grows_add_strs l : grows (add_strs l).
Proof.
  intros hops cur x s Hm. eapply wp_add_strs; [apply Hm|]. intros r Hr. exists (concat l). split; [by apply mid_text|done].
Qed.
Lemma grows_add_str t : grows (add_str t).
Proof.
  intros hops cur x s Hm. eapply trt_wp_add_str; [apply Hm|]. intros r Hr. exists t. split; [by apply mid_text|done].
Qed.

(** A part of the code that adds nothing. *)
Definition quiet (m : TM unit) : Prop := ∀ hops cur x s,
  mid hops cur x s → wp m (λ _ s', mid hops cur x s' ∧ keeps s s') s.
Lemma trt_quiet_ret : quiet (mret tt).
Proof. by intros hops cur x s Hm. Qed.
Lemma trt_quiet_bind m1 m2 : quiet m1 → quiet m2 → quiet (m1;; m2).
Proof.
  intros H1 H2 hops cur x s Hm. wp_steps. eapply wp_mono; [by apply H1|]. intros _ s1 (Hm1 & Hk1).
  eapply wp_mono; [by apply H2|]. intros _ s2 (Hm2 & Hk2). split; [done|by eapply keeps_trans].
Qed.
Lemma quiet_if (b : bool) m1 m2 : quiet m1 → quiet m2 → quiet (if b then m1 else m2).
Proof. by destruct b. Qed.
Lemma quiet_grows m : quiet m → grows m.
Proof. intros H hops cur x s Hm. eapply wp_mono; [by apply H|]. cbv beta. intros _ s1 Hm1. exists []. by rewrite app_nil_r. Qed.

Ltac quiet_set :=
  intros hops cur x s [Hl [] ? ? ? ? ?]; wp_steps; split; [|done]; constructor; try done; by eapply live_ext; [exact Hl|..].
Lemma quiet_set_done b : quiet (modify (set_done b)).
Proof. quiet_set. Qed.
Lemma quiet_set_not_done b : quiet (modify (set_not_done b)).
Proof. quiet_set. Qed.
Lemma quiet_set_last h : quiet (modify (set_last_response_hop h)).
Proof. quiet_set. Qed.

#[local] Hint Resolve trt_quiet_ret trt_quiet_bind quiet_if quiet_set_done quiet_set_not_done quiet_set_last : trt_grow.

Lemma mid_shrunk hops cur x z s : mid hops cur x s → 0 ≤ z < curpacksize (se s) → mid hops cur x (set_curpacksize z s).
Proof.
  intros [[[] ? ? ? ? ? ?] [] ? ? ? ? ?] Hz. constructor; [constructor; [constructor|..]|constructor|..]; try done. cbn. lia.
Qed.
Lemma grows_shrink late nextmtu headers : grows (shrink late nextmtu headers).
Proof.
  unfold shrink. apply grows_get. intros s hops cur x Hm. wp_steps.
  assert (∀ s1, mid hops cur x s1 → keeps s s1 → wp (if late then mret tt else modify (set_not_done true))
    (λ _ s', ∃ y, mid hops cur (x ++ y) s' ∧ keeps s s') s1) as Hrest.
  { intros s1 Hm1 Hk. eapply wp_mono; [eapply quiet_grows; [|exact Hm1]; auto with trt_grow|].
    intros _ s2 (y & Hm2 & Hk2). exists y. split; [done|by eapply keeps_trans]. }
  destruct (_ && _) eqn:E; wp_steps; [|by apply Hrest]. apply Hrest; [|done]. apply andb_true_iff in E as [E E2%Z.ltb_lt].
  apply andb_true_iff in E as [_ E1%Z.leb_le]. apply mid_shrunk; [done|lia].
Qed.

#[local] Hint Resolve quiet_grows grows_bind grows_if grows_add_str grows_add_strs grows_shrink : trt_grow.

Lemma grows_unreach4 k late code nextmtu : grows (unreach4 k late code nextmtu).
Proof. unfold unreach4. destruct k; auto 20 with trt_grow. Qed.
Lemma grows_unreach6 late code : grows (unreach6 late code).
Proof. unfold unreach6. auto 20 with trt_grow. Qed.
Lemma grows_too_big6 k late mtu : grows (too_big6 k late mtu).
Proof. unfold too_big6. auto with trt_grow. Qed.
#[local] Hint Resolve grows_unreach4 grows_unreach6 grows_too_big6 : trt_grow.

(** ** What a callback does *)

(** The entries a callback may add; [addr] is where the packet is from. *)
Definition told (from : option (list Z)) (x : entry) : Prop :=
  match from, x with
  | None, Star => True
  | Some _, Blank => True
  | Some a, (Reply a' _ | Dup _ a' _) => a = a'
  | Some a, Late k a' _ => a = a' ∧ 1 ≤ k
  | _, _ => False
  end.

(** The measurement waits on or does what [send_pkt] does; only a packet leaves it waiting. *)
Inductive goes (from : option (list Z)) (hops : list (Z * list entry)) (cur : list entry) (s s' : trtstate) : Prop :=
| Goes_on : is_Some from → running p hops cur s' → core s' = core s → goes from hops cur s s'
| Goes_send : sends p e hops cur s s' → goes from hops cur s s'.

Definition stepped (from : option (list Z)) (hops : list (Z * list entry)) (cur : list entry) (s s' : trtstate) : Prop :=
  ∃ l, (length l ≤ 1)%nat ∧ Forall (told from) l ∧ goes from hops (cur ++ l) s s'.

Lemma stepped_none a hops cur s s' : running p hops cur s' → core s' = core s → stepped (Some a) hops cur s s'.
Proof. intros Hr Hc. exists []. rewrite app_nil_r. split; [cbn; lia|]. split; [constructor|]. by apply Goes_on. Qed.

Lemma wp_judge hops cur mismatch n sp (Q : option (bool * bool) → trtstate → Prop) s :
  running p hops cur s → 0 ≤ n → (mismatch = true → n ≠ seq (se s)) →
  (∀ s' l, running p hops (cur ++ l) s' → l = [] ∨ l = [Blank] → core s' = core s → Q None s') →
  (∀ v r, mid hops cur (v_text v) (set_rb r s) → (v = New → gotresp (se s) = false) → (∀ k, v = IsLate k → 1 ≤ k) →
     Q (Some (v_late v, v_dup v)) (set_rb r s)) →
  wp (judge mismatch n (dup_text sp)) Q s.
Proof.
  intros Hr Hn Hmis HNone HSome. unfold judge. wp_steps.
  eapply (trt_wp_opt_str _ (str " }, { ")); [apply Hr|]. intros r Hr1.
  assert (holds r (run_text hops (hop (se s)) cur false)) as Ht.
  { pose proof (r_open _ _ _ _ Hr) as Ho. destruct (open_result (se s)); [|by rewrite app_nil_r in Hr1]. rewrite <- run_text_open by (by apply Ho). exact Hr1. }
  assert (∀ v r', holds r' (run_text hops (hop (se s)) cur false ++ v_text v) → mid hops cur (v_text v) (set_rb r' s)) as Hmid.
  { intros v r' Hr'. destruct Hr as [Hl [] ? ? ? ? ? ? ? ?]. constructor; try done. by eapply live_ext; [exact Hl|..]. }
  destruct mismatch.
  - destruct (Z.ltb_spec (seq (se s)) n) as [Hlt|Hge]; wp_steps.
    + apply (HNone _ (if open_result (se s) then [Blank] else [])); [|by destruct (open_result (se s)); auto|done].
      destruct Hr as [Hl [] ? Htx Hop ? Ha Hdn ? ?]. constructor; try done; cbn.
      * by eapply live_ext; [exact Hl|..].
      * destruct (open_result (se s)); [|by rewrite app_nil_r]. rewrite run_text_add. cbn. by rewrite app_nil_r.
      * destruct (open_result (se s)); [|done]. by intros _ [_ ?]%app_eq_nil.
      * destruct (open_result (se s)); [|by rewrite app_nil_r]. by rewrite answers_snoc, Z.add_0_r.
      * intros H. specialize (Hdn H). apply Exists_app. by left.
    + eapply trt_wp_add_str; [exact Ht|]. intros r' Hr'. wp_steps. specialize (Hmis eq_refl).
      eapply (HSome (IsLate (seq (se s) - n)) r'); [by apply Hmid|done|]. intros k [= <-]. lia.
  - destruct (gotresp (se s)) eqn:Eg; wp_steps.
    + eapply trt_wp_add_str; [exact Ht|]. intros r' Hr'. wp_steps. eapply (HSome (IsDup sp) r'); [by apply Hmid|done|done].
    + eapply (HSome New r); [|done|done]. apply Hmid. cbn. by rewrite app_nil_r.
Qed.

Definition v_ok (v : verdict) (s : trtstate) : Prop := (v = New → gotresp (se s) = false) ∧ (∀ k, v = IsLate k → 1 ≤ k).

Lemma told_entry v a rest s : v_ok v s → told (Some a) (v_entry v a rest) ∧ is_reply (v_entry v a rest) = true.
Proof. intros [_ H]. destruct v; cbn; [done|split; [split; [done|by apply H]|done]|done]. Qed.

(** The entry is complete. *)
Lemma mid_running hops cur v a rest s tm g :
  mid hops cur (entry_text (v_entry v a rest)) s → v_ok v s → tm ≠ None → g = (if v_late v || v_dup v then gotresp (se s) else true) →
  running p hops (cur ++ [v_entry v a rest]) (set_timer tm (set_gotresp g (set_open_result true s))).
Proof.
  intros [Hl [] Hs Ht Ha Htm Hc] Hv Htm' Eg. destruct (told_entry v a rest s Hv) as [_ Hrep].
  assert (Exists (λ x, is_reply x = true) (cur ++ [v_entry v a rest])) as Hex by (apply Exists_app; right; by constructor).
  constructor; try done; cbn.
  - destruct Hl as [[] ? ? ? ? ? ?]. by constructor; [constructor|..].
  - by rewrite run_text_add.
  - by intros _ [_ ?]%app_eq_nil.
  - rewrite answers_snoc, v_entry_answer, Ha, Eg. destruct (v_late v || v_dup v) eqn:Ev; cbn; [lia|].
    destruct Hv as [Hv _]. rewrite Hv; [lia|]. by destruct v.
  - by intros _.
Qed.

Lemma mid_due hops cur a rest s :
  mid hops cur (entry_text (Reply a rest)) s → gotresp (se s) = false → due p hops (cur ++ [Reply a rest]) (set_open_result true s).
Proof.
  intros [Hl [] Hs Ht Ha Htm Hc] Eg. constructor; try done; cbn.
  - by eapply live_ext; [exact Hl|..].
  - lia.
  - split; [by intros [_ ?]%app_eq_nil|]. by rewrite run_text_add.
  - rewrite answers_snoc, Ha, Eg. cbn. lia.
  - intros _. apply Exists_app. right. by constructor.
Qed.

Lemma wp_replied hops cur v a rest s0 s :
  mid hops cur (entry_text (v_entry v a rest)) s → core s = core s0 → v_ok v s →
  wp (replied p e (v_late v) (v_dup v)) (λ _, stepped (Some a) hops cur s0) s.
Proof.
  intros Hm Hk Hv. destruct (told_entry v a rest s Hv) as [Htold _]. unfold replied. wp_steps.
  assert (∀ s', goes (Some a) hops (cur ++ [v_entry v a rest]) s0 s' → stepped (Some a) hops cur s0 s') as Hst.
  { intros s' Hg. exists [v_entry v a rest]. split; [cbn; lia|]. split; [by constructor|done]. }
  destruct (v_late v || v_dup v) eqn:Ev.
  - wp_steps. apply Hst, Goes_on; [done| |done]. pose proof (mid_running hops cur v a rest s (timer (nw s)) (gotresp (se s)) Hm Hv (m_timer _ _ _ _ Hm)) as H.
    rewrite Ev in H. specialize (H eq_refl). by destruct s as [? [] [] ? ? ?].
  - assert (v = New) as -> by by destruct v. destruct (duptimeout p =? 0); wp_steps.
    + eapply wp_mono; [eapply wp_send_pkt; [done|done|]; apply mid_due; [exact Hm|by apply Hv]|]. cbv beta. intros _ s' Hse. apply Hst, Goes_send.
      by eapply sends_core; [|exact Hse].
    + apply Hst, Goes_on; [done| |done]. by apply (mid_running hops cur New).
Qed.

(** The texts of a reply, the rest of the entry and the end. *)
Lemma wp_told hops cur v a texts rest (m : TM unit) s0 s :
  mid hops cur (v_text v) s → core s = core s0 → v_ok v s → texts = from_text (v_late v) (v_dup v) a :: rest →
  (∀ y s1, mid hops cur (entry_text (v_entry v a y)) s1 → core s1 = core s0 → v_ok v s1 → wp m (λ _, stepped (Some a) hops cur s0) s1) →
  wp (add_strs texts;; m) (λ _, stepped (Some a) hops cur s0) s.
Proof.
  intros Hm Hk Hv -> Hrest. wp_steps. eapply wp_add_strs; [apply Hm|]. intros r Hr. apply (Hrest (concat rest)); [|done|done].
  rewrite v_entry_text. by apply mid_text.
Qed.

Lemma wp_grow hops cur v a y (m m' : TM unit) s0 s :
  grows m → mid hops cur (entry_text (v_entry v a y)) s → core s = core s0 → v_ok v s →
  (∀ y s1, mid hops cur (entry_text (v_entry v a y)) s1 → core s1 = core s0 → v_ok v s1 → wp m' (λ _, stepped (Some a) hops cur s0) s1) →
  wp (m;; m') (λ _, stepped (Some a) hops cur s0) s.
Proof.
  intros Hg Hm Hk Hv Hrest. wp_steps. eapply wp_mono; [by apply Hg|]. cbv beta. intros _ s1 (z & Hm1 & Hk1 & Hgr). apply (Hrest (y ++ z)).
  - rewrite v_entry_text, <- !app_assoc in *. done.
  - congruence.
  - unfold v_ok. by rewrite Hgr.
Qed.
End Step.

#[export] Hint Resolve trt_quiet_ret trt_quiet_bind quiet_if quiet_set_done quiet_set_not_done quiet_set_last quiet_grows grows_bind grows_if
  grows_add_str grows_add_strs grows_shrink grows_unreach4 grows_unreach6 grows_too_big6 : trt_grow.
