(* ===== verification/TrtHandle.v ===== *)
(** * Traceroute: packets that arrive

    Each of the callbacks for packets, on a running measurement: it returns, whatever the packet, and
    has added at most one entry. *)

From stdpp Require Import base list list_numbers numbers option strings.
From Stdlib Require Import ZArith Lia.
From Stdlib Require Import Floats.SpecFloat.
From S2P Require Import Prelude Bits Blocks Cstr Packet Double Wp Validate Results TrtPacket TrtParis Trt TrtProofs TrtRun TrtReply TrtStep.

Open Scope Z_scope.

Ltac trt_read := apply wp_lift_ends; ends_step.

Section Handle.
Context (p : params) (Hp : params_ok p) (e : env) (He : env_ok p e).
#[local] Abbreviation stepped := (stepped p e).

Lemma running_packet hops cur l s : running p hops cur s → buf_ok l → running p hops cur (set_packet (Some <$> l) s).
Proof.
  intros [[[] ? ? ? ? ? ?] [] ? ? ? ? ? ? ? ?] Hl. constructor; [constructor; [constructor|..]|constructor|..]; try done. by exists l.
Qed.

(** The packet is in the buffer. *)
Lemma trt_wp_receive data hops cur (Q : Z * blk Z → trtstate → Prop) s :
  running p hops cur s → Forall is_byte data →
  (∀ l, let data' := take (Z.to_nat sizeof_packet) data in
     buf_ok l → field l 0 (zlen data') = data' → 0 ≤ zlen data' ≤ 4224 → Q (zlen data', Some <$> l) (set_packet (Some <$> l) s)) →
  wp (receive data) Q s.
Proof.
  intros Hr Hb HQ. unfold receive. set (data' := take _ data) in *. assert (zlen data' ≤ 4224) as Hz.
  { unfold zlen, data'. rewrite length_take. unfold sizeof_packet, MAX_DATA_SIZE. lia. }
  pose proof (zlen_nonneg data'). destruct (w_base _ _ (l_whole _ _ (r_live _ _ _ _ Hr))) as (l & El & Hl). wp_steps. rewrite El.
  destruct (store_buf l 0 data') as (l' & E' & [Hl' _ Hf _]); [done|by apply Forall_take|lia|lia|].
  eapply wp_lift; [exact E'|]. wp_steps. by apply HQ.
Qed.

(** A reply is judged: it is skipped, or an entry is begun for it. *)
Lemma wp_judged hops cur mismatch n sp a (k : option (bool * bool) → TM unit) s :
  running p hops cur s → 0 ≤ n → (mismatch = true → n ≠ seq (se s)) → k None = mret tt →
  (∀ v s', mid p hops cur (v_text v) s' → core s' = core s → v_ok v s' → 
     wp (k (Some (v_late v, v_dup v))) (λ _, stepped (Some a) hops cur s) s') →
  wp (v ← judge mismatch n (dup_text sp); k v) (λ _, stepped (Some a) hops cur s) s.
Proof.
  intros Hr Hn Hm HNone HSome. wp_steps. eapply wp_judge; [exact Hr|done|done| |].
  - intros s' l Hr' Hl Hc. rewrite HNone. wp_steps. exists l. split; [destruct Hl as [-> | ->]; cbn; lia|].
    split; [destruct Hl as [-> | ->]; [constructor|by constructor]|]. by apply Goes_on.
  - intros v r Hmid H1 H2. by apply HSome.
Qed.

Lemma wp_quiet hops cur x v (m m' : TM unit) Q s0 s :
  quiet p m → mid p hops cur x s → core s = core s0 → v_ok v s →
  (∀ s1, mid p hops cur x s1 → core s1 = core s0 → v_ok v s1 → wp m' Q s1) → wp (m;; m') Q s.
Proof.
  intros Hq Hm Hk Hv Hrest. wp_steps. eapply wp_mono; [by apply Hq|]. cbv beta. intros _ s1 (Hm1 & Hk1 & Hg).
  apply Hrest; [done|congruence|]. unfold v_ok. by rewrite Hg.
Qed.

Lemma mismatch_neq n q : negb (n =? q) = true → n ≠ q.
Proof. intros H%negb_true_iff. by apply Z.eqb_neq. Qed.

Lemma dup_text_kind k : match k with K_ICMP => DUP | _ => str " " ++ DUP end = dup_text (match k with K_ICMP => false | _ => true end).
Proof. by destruct k. Qed.

(** ** IPv4 *)

Lemma wp_icmp_error4 hops cur l nrecv hlen type from s :
  running p hops cur s → do_v6 p = false → buf_ok l → 0 ≤ nrecv ≤ 4224 → 0 ≤ hlen ≤ 60 →
  wp (icmp_error4 p e (Some <$> l) nrecv hlen type from) (λ _, stepped (Some (inet_ntoa from)) hops cur s) s.
Proof.
  intros Hr H6 Hl Hn Hh. pose proof (seq_bound p Hp hops s (r_counts _ _ _ _ Hr) ltac:(pose proof (r_sent _ _ _ _ Hr); lia)) as [Hq _].
  pose proof (l_sin6 _ _ (r_live _ _ _ _ Hr)) as Hsin. rewrite H6 in Hsin. pose proof (r_clock _ _ _ _ Hr) as Hcl. pose proof (e_now _ _ He) as Hnow.
  unfold icmp_error4, ICMP_MINLEN. wp_steps. trt_read. pose proof (land_bounds v 4 ltac:(lia)) as Hland. change (2 ^ 4 - 1) with 15 in Hland.
  destruct (_ || _); [wp_steps; by apply stepped_none|]. wp_steps. trt_read. wp_steps. apply wp_lift_ends.
  eapply ends_mono; [apply ends_match4; [done|lia|lia]|]. cbv beta. intros [[k n]|] Hn0; [|wp_steps; by apply stepped_none].
  rewrite dup_text_kind. eapply wp_judged; [exact Hr|done|apply mismatch_neq|done|]. intros vd s1 Hm Hk Hv. cbv beta iota.
  eapply wp_quiet; [auto with trt_grow|exact Hm|exact Hk|exact Hv|]. clear s1 Hm Hk Hv. intros s1 Hm Hk Hv. apply wp_bind, wp_lift_ends.
  eapply ends_mono; [by apply ends_error_texts4; [..|lia]|]. cbv beta. intros texts [rest Et].
  eapply wp_told; [exact Hm|exact Hk|exact Hv|exact Et|]. clear s1 Hm Hk Hv. intros y s1 Hm Hk Hv. wp_step. trt_read. wp_step. trt_read.
  eapply wp_grow; [|exact Hm|exact Hk|exact Hv|].
  { apply grows_if; [|auto with trt_grow]. destruct k; auto with trt_grow. }
  clear y s1 Hm Hk Hv. intros y s1 Hm Hk Hv. wp_step. trt_read. wp_step. apply wp_lift_ends.
  eapply ends_mono; [destruct (_ =? 0); apply ends_ext_at; [done|lia..|done|lia|lia]|]. intros ext _.
  eapply wp_grow; [auto with trt_grow|exact Hm|exact Hk|exact Hv|]. clear y s1 Hm Hk Hv. intros y s1 Hm Hk Hv. by eapply wp_replied.
Qed.

Lemma wp_echo_reply4 hops cur l nrecv hlen from s :
  running p hops cur s → buf_ok l → 0 ≤ hlen ≤ 60 →
  wp (echo_reply4 p e (Some <$> l) nrecv hlen from) (λ _, stepped (Some (inet_ntoa from)) hops cur s) s.
Proof.
  intros Hr Hl Hh. destruct (ms_double_ok _ _ (e_now _ _ He) (r_clock _ _ _ _ Hr)) as [ms Hms].
  unfold echo_reply4. wp_steps. trt_read. wp_steps. trt_read. wp_steps. trt_read.
  destruct (_ || _); [wp_steps; by apply stepped_none|]. change DUP with (dup_text false).
  eapply wp_judged; [exact Hr|done|apply mismatch_neq|done|]. intros vd s1 Hm Hk Hv. cbv beta iota.
  wp_step. eapply wp_lift; [exact Hms|]. wp_step. trt_read. wp_step. trt_read.
  eapply wp_told; [exact Hm|exact Hk|exact Hv|reflexivity|]. clear s1 Hm Hk Hv. intros y s1 Hm Hk Hv.
  eapply wp_grow; [auto with trt_grow|exact Hm|exact Hk|exact Hv|]. clear y s1 Hm Hk Hv. intros y s1 Hm Hk Hv. by eapply wp_replied.
Qed.

Lemma stepped_packet from hops cur l s s' :
  stepped from hops cur (set_packet l s) s' → stepped from hops cur s s'.
Proof.
  intros (x & Hlen & Hx & Hg). exists x. split; [done|]. split; [done|]. destruct Hg as [Hf Hr Hc|Hs]; [by apply Goes_on|].
  apply Goes_send. by eapply sends_core; [|exact Hs].
Qed.

(** A packet is received and what it says is handled. *)
Lemma wp_received data hops cur a (k : Z * blk Z → TM unit) s :
  running p hops cur s → Forall is_byte data →
  (∀ l, let data' := take (Z.to_nat sizeof_packet) data in let s1 := set_packet (Some <$> l) s in
     running p hops cur s1 → buf_ok l → field l 0 (zlen data') = data' → 0 ≤ zlen data' ≤ 4224 →
     wp (k (zlen data', Some <$> l)) (λ _, stepped (Some a) hops cur s1) s1) →
  wp (x ← receive data; k x) (λ _, stepped (Some a) hops cur s) s.
Proof.
  intros Hr Hb HQ. wp_steps. eapply trt_wp_receive; [exact Hr|done|]. cbv zeta. intros l Hl Hf Hz.
  eapply wp_mono; [apply HQ; [by apply running_packet|done..]|]. cbv beta. intros _ s' Hs. by eapply stepped_packet.
Qed.

Lemma trt_wp_ready4 hops cur data from s :
  running p hops cur s → do_v6 p = false → Forall is_byte data →
  wp (ready_callback4 p e (Some (data, from))) (λ _, stepped (Some (inet_ntoa from)) hops cur s) s.
Proof.
  intros Hr H6 Hb. unfold ready_callback4. eapply wp_received; [exact Hr|done|]. cbv zeta. set (n := zlen _).
  intros l Hr1 Hl _ Hn. cbv beta iota. wp_step. trt_read. pose proof (land_bounds v 4 ltac:(lia)) as Hland. change (2 ^ 4 - 1) with 15 in Hland.
  destruct (_ || _); [wp_steps; by apply stepped_none|]. wp_step. trt_read.
  destruct (_ || _); [apply wp_icmp_error4; [done|done|done|lia|lia]|]. destruct (_ =? 0); [apply wp_echo_reply4; [done|done|lia]|].
  wp_steps. by apply stepped_none.
Qed.

(** ** TCP *)

Lemma wp_tcp_reply v6 hops cur l nrecv th ttl tclass size a s :
  running p hops cur s → buf_ok l → 0 ≤ nrecv ≤ 4224 → 0 ≤ th ≤ 60 →
  wp (tcp_reply p e v6 (Some <$> l) nrecv th ttl tclass size a) (λ _, stepped (Some a) hops cur s) s.
Proof.
  intros Hr Hl Hn Hth. destruct (ms_double_ok _ _ (e_now _ _ He) (r_clock _ _ _ _ Hr)) as [ms Hms].
  unfold tcp_reply, sizeof_tcphdr. wp_steps. trt_read.
  assert (0 ≤ v ≫ 4 < 16) as Hd by (rewrite Z.shiftr_div_pow2 by lia; split; [apply Z.div_pos|apply Z.div_lt_upper_bound]; lia).
  destruct (_ || _); [wp_steps; by apply stepped_none|]. wp_steps. trt_read. wp_steps. trt_read.
  destruct (_ || _); [wp_steps; by apply stepped_none|]. change DUP with (dup_text false).
  eapply wp_judged; [exact Hr|apply (land_bounds _ 16); lia| |done|].
  { intros Hm E. rewrite E in Hm. by rewrite Z.sub_diag in Hm. }
  intros vd s1 Hm Hk Hv. cbv beta iota. wp_step. eapply wp_lift; [exact Hms|]. wp_step. trt_read. wp_step. apply wp_lift_ends.
  eapply ends_mono; [destruct (_ <? _); [apply ends_report_hdropts; [done|lia..]|done]|]. intros opts _.
  eapply wp_told; [exact Hm|exact Hk|exact Hv|reflexivity|]. clear s1 Hm Hk Hv. intros y s1 Hm Hk Hv.
  eapply wp_grow; [auto with trt_grow|exact Hm|exact Hk|exact Hv|]. clear y s1 Hm Hk Hv. intros y s1 Hm Hk Hv. by eapply wp_replied.
Qed.

Lemma wp_ready_tcp4 hops cur data from s :
  running p hops cur s → Forall is_byte data →
  wp (ready_tcp4 p e (Some (data, from))) (λ _, stepped (Some (inet_ntoa from)) hops cur s) s.
Proof.
  intros Hr Hb. unfold ready_tcp4. eapply wp_received; [exact Hr|done|]. cbv zeta. set (n := zlen _).
  intros l Hr1 Hl _ Hn. cbv beta iota. wp_step. trt_read. pose proof (land_bounds v 4 ltac:(lia)) as Hland. change (2 ^ 4 - 1) with 15 in Hland.
  destruct (_ || _); [wp_steps; by apply stepped_none|]. wp_step. trt_read. wp_step. trt_read. apply wp_tcp_reply; [done|done|lia|lia].
Qed.

Lemma wp_ready_tcp6 hops cur data from cmsgs s :
  running p hops cur s → Forall is_byte data →
  wp (ready_tcp6 p e (Some (data, from, cmsgs))) (λ _, stepped (Some (inet_ntop e from)) hops cur s) s.
Proof.
  intros Hr Hb. unfold ready_tcp6. eapply wp_received; [exact Hr|done|]. cbv zeta. set (n := zlen _).
  intros l Hr1 Hl _ Hn. cbv beta iota. destruct (read_cmsgs cmsgs) as [ttl tclass]. apply wp_tcp_reply; [done|done|lia|lia].
Qed.

(** ** IPv6 *)

Section V6.
Context (l : list Z) (Hl : buf_ok l) (nrecv : Z) (Hn : 0 ≤ nrecv ≤ 4224) (data : list Z) (Hd : field l 0 nrecv = data).

Lemma wp_icmp_error6 hops cur type ttl from s :
  running p hops cur s → honest p s data →
  wp (icmp_error6 p e (Some <$> l) nrecv type ttl from) (λ _, stepped (Some (inet_ntop e from)) hops cur s) s.
Proof.
  intros Hr Hh. pose proof (r_clock _ _ _ _ Hr) as Hcl. pose proof (e_now _ _ He) as Hnow.
  unfold icmp_error6, ICMP6_HDR, sizeof_ip6_hdr. wp_steps. destruct (Z.ltb_spec nrecv (8 + 40)); [wp_steps; by apply stepped_none|]. wp_steps. trt_read.
  destruct (negb _); [wp_steps; by apply stepped_none|]. wp_steps. apply wp_lift_ends.
  eapply ends_mono; [apply ends_skip_headers; [done|lia|lia]|]. cbv beta. intros [[[[nxt o] hbh] dst]|] Ho; [|wp_steps; by apply stepped_none].
  cbv zeta. wp_steps. apply wp_lift_ends. eapply ends_mono; [by eapply ends_match6|]. cbv beta.
  intros [[n tv]|] Hm0; [|wp_steps; by apply stepped_none]. destruct Hm0 as [Hn0 Htv]. change DUP with (dup_text false).
  eapply wp_judged; [exact Hr|done|apply mismatch_neq|done|]. intros vd s1 Hm Hk Hv. cbv beta iota.
  eapply wp_quiet; [auto with trt_grow|exact Hm|exact Hk|exact Hv|]. clear s1 Hm Hk Hv. intros s1 Hm Hk Hv. apply wp_bind, wp_lift_ends.
  eapply ends_mono; [by apply ends_error_texts6|]. cbv beta. intros texts [rest Et].
  eapply wp_told; [exact Hm|exact Hk|exact Hv|exact Et|]. clear s1 Hm Hk Hv. intros y s1 Hm Hk Hv. wp_step. trt_read. wp_step. trt_read.
  eapply wp_grow; [auto with trt_grow|exact Hm|exact Hk|exact Hv|].
  clear y s1 Hm Hk Hv. intros y s1 Hm Hk Hv. wp_step. trt_read. wp_step. apply wp_lift_ends.
  eapply ends_mono; [destruct (_ =? 0); apply ends_ext_at; [done|lia..|done|lia|lia]|]. intros ext _.
  eapply wp_grow; [auto with trt_grow|exact Hm|exact Hk|exact Hv|]. clear y s1 Hm Hk Hv. intros y s1 Hm Hk Hv. by eapply wp_replied.
Qed.

Lemma wp_echo_reply6 hops cur ttl tclass from s :
  running p hops cur s → honest p s data →
  wp (echo_reply6 p e (Some <$> l) nrecv ttl tclass from) (λ _, stepped (Some (inet_ntop e from)) hops cur s) s.
Proof.
  intros Hr Hh. pose proof (r_clock _ _ _ _ Hr) as Hcl. pose proof (e_now _ _ He) as Hnow.
  assert (zlen data = nrecv) as Hz by (rewrite <- Hd; unfold zlen; rewrite length_fieldn; [lia|done|lia..]).
  unfold echo_reply6, ICMP6_HDR. wp_steps. destruct (Z.ltb_spec nrecv (8 + sizeof_v6info)); [wp_steps; by apply stepped_none|]. wp_steps.
  apply wp_lift_ends. eapply ends_mono; [by eapply ends_v6info; [| |exact Hd|..]|]. cbv beta. intros [[[pid id] n] tv] (-> & -> & Hn0 & ->).
  destruct (negb _) eqn:Ep; [wp_steps; by apply stepped_none|]. destruct (negb (_ && _)) eqn:Em; [wp_steps; by apply stepped_none|]. cbn [orb].
  apply negb_false_iff, Z.eqb_eq in Ep. apply negb_false_iff, andb_true_iff in Em as [Hi%mine_index _].
  assert (clock_ok (stamp_at data 8)) as Hst by (apply Hh; [lia|rewrite Hz; lia|done|done]).
  change DUP with (dup_text false). eapply wp_judged; [exact Hr|done|apply mismatch_neq|done|]. intros vd s1 Hm Hk Hv. cbv beta iota.
  eapply wp_quiet; [auto with trt_grow|exact Hm|exact Hk|exact Hv|]. clear s1 Hm Hk Hv. intros s1 Hm Hk Hv. apply wp_bind, wp_lift_ends.
  eapply ends_mono; [apply ends_ms6; [done|done|by intros t [= <-]]|]. intros ms _.
  eapply wp_told; [exact Hm|exact Hk|exact Hv|reflexivity|]. clear s1 Hm Hk Hv. intros y s1 Hm Hk Hv. by eapply wp_replied.
Qed.
End V6.

Lemma trt_wp_ready6 hops cur data from cmsgs s :
  running p hops cur s → Forall is_byte data → honest p s (take (Z.to_nat sizeof_packet) data) →
  wp (ready_callback6 p e (Some (data, from, cmsgs))) (λ _, stepped (Some (inet_ntop e from)) hops cur s) s.
Proof.
  intros Hr Hb Hh. unfold ready_callback6. eapply wp_received; [exact Hr|done|]. cbv zeta. 
  intros l Hr1 Hl Hf Hn. cbv beta iota. destruct (read_cmsgs cmsgs) as [ttl tclass].
  destruct (Z.ltb_spec (zlen (take (Z.to_nat sizeof_packet) data)) ICMP6_HDR); [wp_steps; by apply stepped_none|]. wp_step. trt_read.
  destruct (_ || _); [by eapply wp_icmp_error6|]. destruct (_ =? 129); [by eapply wp_echo_reply6|]. wp_steps. by apply stepped_none.
Qed.

(** ** The timer *)

(** The timer is not set while its callback runs. *)
Lemma live_timer tm s : live p s → live p (set_timer tm s).
Proof. intros [[] ? ? ? ? ? ?]. by constructor; [constructor|..]. Qed.

Lemma wp_noreply hops cur s :
  running p hops cur s → wp (noreply_callback p e) (λ _, stepped None hops cur s) (set_timer None s).
Proof.
  intros [Hl%(live_timer None) [] Hs Ht Hop Hgo Ha Hdn Htm Hc]. unfold noreply_callback. wp_steps. tcbn. destruct (gotresp (se s)) eqn:Eg.
  - wp_steps. eapply wp_mono; [eapply (wp_send_pkt p Hp e He hops cur)|].
    + specialize (Hgo eq_refl). rewrite Hgo in *. constructor; tcbn; [done|by constructor|lia|rewrite Hgo; by split; [apply Hop|]|lia|done].
    + cbv beta. intros _ s' Hse. exists []. rewrite app_nil_r. split; [cbn; lia|]. split; [constructor|]. apply Goes_send. by eapply sends_core; [|exact Hse].
  - wp_steps. eapply (trt_wp_opt_str _ (str " }, { ")); [apply Ht|]. intros r Hr1.
    assert (holds r (run_text hops (hop (se s)) cur false)) as Hr2.
    { destruct (open_result (se s)); [|by rewrite app_nil_r in Hr1]. rewrite <- run_text_open by (by apply Hop). exact Hr1. }
    wp_steps. eapply trt_wp_add_str; [exact Hr2|]. intros r' Hr'. wp_steps. eapply wp_mono; [eapply (wp_send_pkt p Hp e He hops (cur ++ [Star]))|].
    + constructor; cbn; [by eapply live_ext; [exact Hl|..]|by constructor|lia| | |].
      * split; [by intros [_ ?]%app_eq_nil|]. by rewrite run_text_add.
      * rewrite answers_snoc, Ha. cbn. lia.
      * intros H. specialize (Hdn H). apply Exists_app. by left.
    + cbv beta. intros _ s' Hse. exists [Star]. split; [cbn; lia|]. split; [by constructor|]. apply Goes_send. by eapply sends_core; [|exact Hse].
Qed.
End Handle.
