(* ===== verification/TrtStart.v ===== *)
(** * Traceroute: starting a measurement

    From [traceroute_start] over the answer of the resolver to the first probe. *)

From stdpp Require Import base list list_numbers numbers option strings.
From Stdlib Require Import ZArith Lia.
From Stdlib Require Import Floats.SpecFloat.
From S2P Require Import Prelude Bits Blocks Cstr Packet Double Wp Validate Results TrtPacket TrtParis Trt TrtProofs TrtRun TrtReply.

Open Scope Z_scope.

Section Start.
Context (p : params) (Hp : params_ok p) (e : env) (He : env_ok p e).

(** The sockets can be bound and connected. *)
Definition connected : Prop :=
  (∀ n, bind_if p e n = true) ∧ (∀ n, connect e n = None) ∧ (tos p = 0 ∨ tos_ok e = true).

Lemma unbound n : bind_if p e n = false → ¬ connected.
Proof. intros E (H & _). by rewrite H in E. Qed.
Lemma unconnected n err : connect e n = Some err → ¬ connected.
Proof. intros E (_ & H & _). by rewrite H in E. Qed.

Lemma wp_start_error text t (Q : bool → trtstate → Prop) s :
  whole p s → holds (rb s) t → (∀ s' t', idle p s' → acts s' = acts s ++ printed p t' → Q false s') → wp (start_error p e text) Q s.
Proof.
  intros Hw Ht HQ. unfold start_error. wp_steps. eapply trt_wp_add_str; [exact Ht|]. intros r Hr. wp_steps.
  eapply trt_wp_report; [apply He|apply Hp|exact Hr|by intros [_ ?]%app_eq_nil|]. wp_steps. eapply HQ; [|done]. apply whole_reported. by destruct Hw.
Qed.

(** The sockets are made. *)
Record made (s s' : trtstate) : Prop := Made {
  k_rb : rb s' = rb s; k_se : se s' = se s; k_base : base s' = base s; k_freed : freed s' = freed s; k_acts : acts s' = acts s;
  k_sin6 : sin6 (nw s') = sin6 (nw s); k_socklen : socklen (nw s') = socklen (nw s);
  k_loc : sockname e = Some (loc_sin6 (nw s'), loc_socklen (nw s'));
  k_whole : whole p s'
}.

Lemma wp_create_socket tcp t (Q : bool → trtstate → Prop) s :
  whole p s → event_icmp (nw s) = false → event_tcp (nw s) = false → holds (rb s) t → t ≠ [] →
  (∀ s' t', ¬ connected → idle p s' → acts s' = acts s ++ printed p t' → Q false s') → (∀ s', made s s' → Q true s') →
  wp (create_socket p e tcp) Q s.
Proof.
  intros Hw Hei Het Ht Hne Herr Hok. unfold create_socket. destruct (e_name _ _ He) as (sa & len & Hsn & _). rewrite (e_xsocket _ _ He). wp_steps.
  assert (∀ text s1, ¬ connected → rb s1 = rb s → acts s1 = acts s → whole p s1 → wp (start_error p e text) Q s1) as Hse.
  { intros text s1 Hn E1 E2 Hw1. eapply (wp_start_error text t); [done|by rewrite E1|]. rewrite E2. intros s' t' Hi Ha. by eapply Herr. }
  assert (¬ connected → ∀ r t' s1, acts s1 = acts s → whole p s1 → Q false (reported p e t' (set_rb r s1))) as Hrep.
  { intros Hn r t' s1 E1 Hw1. eapply Herr; [done|apply whole_reported; by destruct Hw1|]. cbn. by rewrite E1. }
  destruct (bind_if p e 0) eqn:E0; cbn [negb]; [|apply Hse; [by apply (unbound 0)|done|done|by destruct Hw]].
  destruct (connect e 0) as [err|] eqn:E1; [apply Hse; [by apply (unconnected 0 err)|done|done|by destruct Hw]|].
  rewrite Hsn. wp_steps.
  destruct (bind_if p e 1) eqn:E2; cbn [negb]; [|apply Hse; [by apply (unbound 1)|done|done|by destruct Hw]].
  set (s1 := set_loc_socklen _ _). assert (whole p s1) as Hw1 by by destruct Hw.
  wp_steps. assert (∀ Q' : bool → trtstate → Prop, Q' true s1 → (¬ connected → ∀ r t', Q' false (reported p e t' (set_rb r s1))) → wp (set_tos p e (do_v6 p) false) Q' s1) as Htos.
  { intros Q' H1 H2. unfold set_tos. destruct (tos p =? 0) eqn:F0; [wp_steps; done|]. destruct (tos_ok e) eqn:F1; [wp_steps; done|].
    wp_steps. eapply trt_wp_add_str; [exact Ht|]. intros r Hr. wp_steps.
    eapply trt_wp_report; [apply He|apply Hp|exact Hr|by intros [? _]%app_eq_nil|]. wp_steps. apply H2.
    intros (_ & _ & [H|H]); [apply Z.eqb_neq in F0; done|congruence]. }
  apply Htos; cbn [negb]; [|intros Hn r t'; wp_steps; by apply Hrep].
  wp_steps. destruct tcp; wp_steps; [|apply Hok; constructor; try done; by destruct Hw1].
  unfold create_tcp_socket. rewrite (e_xsocket _ _ He). wp_steps.
  destruct (bind_if p e 2) eqn:E4; cbn [negb]; [|apply Hse; [by apply (unbound 2)|done|done|by destruct Hw1]].
  destruct (connect e 1) as [err|] eqn:E5; [apply Hse; [by apply (unconnected 1 err)|done|done|by destruct Hw1]|].
  wp_steps. apply Hok. constructor; try done; by destruct Hw1.
Qed.

(** ** The first probe *)

Definition next_paris (z : Z) : Z :=
  if parismod p =? 0 then z else u16 (Z.rem (z - parisbase p + 1 + parismod p) (parismod p) + parisbase p).
Lemma next_paris_ok z : paris_ok p z → paris_ok p (next_paris z).
Proof.
  unfold paris_ok, next_paris. intros Hz. destruct (Z.eqb_spec (parismod p) 0) as [|Hne]; [done|].
  pose proof (p_parismod _ Hp). pose proof (p_parisbase _ Hp).
  pose proof (Z.rem_bound_pos (z - parisbase p + 1 + parismod p) (parismod p) ltac:(lia) ltac:(lia)).
  unfold u16. rewrite Z.mod_small by lia. lia.
Qed.

Lemma first_hop_text r :
  holds r ((([] ++ line80 (str "{ " ++ label "hop" ++ print_int (firsthop p)))) ++ str ", " ++ label "result" ++ str " [ ") →
  holds r (done_hops [] ++ hop_head (firsthop p)).
Proof.
  intros H. cbn [app done_hops mbind list_bind] in *. replace (line80 (str "{ " ++ label "hop" ++ print_int (firsthop p))) with (str "{ " ++ label "hop" ++ print_int (firsthop p)) in H.
  - unfold hop_head. by rewrite <- !app_assoc in H.
  - symmetry. unfold line80. apply take_ge. rewrite !length_app. unfold print_int. pose proof (p_first _ Hp).
    rewrite (proj2 (Z.ltb_ge _ 0)) by lia. pose proof (length_dec 20 3 (firsthop p) ltac:(lia)). unfold print_dec in *.
    change (length (label "hop")) with 6%nat. cbn [length str bytes_of_string]. lia.
Qed.

(** The state in which the first probe is due. *)
Record began (s s1 : trtstate) : Prop := Began {
  g_due : due p [] [] s1; g_acts : acts s1 = acts s; g_seq : seq (se s1) = 0; g_sent : sent (se s1) = 0; g_sin6 : sin6 (nw s1) = sin6 (nw s);
  g_loc : sockname e = Some (loc_sin6 (nw s1), loc_socklen (nw s1)); g_paris : paris (se s1) = next_paris (paris (se s))
}.

Lemma wp_start2 (Q : () → trtstate → Prop) s :
  whole p s → busy (se s) = true → dnsip (se s) = false → event_icmp (nw s) = false → event_tcp (nw s) = false → addr_ok (do_v6 p) (sin6 (nw s)) →
  (∀ s' t, ¬ connected → idle p s' → acts s' = acts s ++ printed p t → Q tt s') →
  (∀ s1 s', began s s1 → sends p e [] [] s1 s' → Q tt s') →
  wp (traceroute_start2 p e) Q s.
Proof.
  intros Hw Hb Hd Hei Het Hsin Herr Hok. unfold traceroute_start2. wp_steps. rewrite Hb. cbn [negb]. wp_steps.
  eapply wp_mono; [instantiate (1 := λ _ s1, s1 = set_paris (next_paris (paris (se s))) (set_seq 0 (set_sent 0 (set_hop (firsthop p) s))))|].
  { unfold next_paris. destruct (parismod p =? 0); wp_steps; [by destruct s as [? [] ? ? ? ?]|done]. }
  intros _ ? ->. wp_steps. eapply trt_wp_add_str; [apply holds_fresh|]. intros r Hr. set (s0 := set_rb r _). cbv beta in s0.
  assert (whole p s0) as Hw0.
  { destruct Hw. constructor; try done; [by apply next_paris_ok|]. cbn. congruence. }
  set (t := [] ++ _) in Hr. assert (t ≠ []) as Hne by done.
  assert (∀ s2, made s0 s2 → ∀ lp, (do_icmp p = false → lp = u16 (SRC_BASE_PORT + Z.of_nat (index p))) →
    wp (add_str (str ", " ++ label "result" ++ str " [ ");; send_pkt p e;; alive) Q (set_lport lp s2)) as Hgo.
  { intros s2 [E1 E2 E3 E4 E5 E6 E7 Hloc Hw2] lp Hlp. wp_steps. eapply trt_wp_add_str; [cbn; rewrite E1; exact Hr|]. intros r' Hr'%first_hop_text. wp_steps.
    set (s3 := set_rb r' _). destruct (e_name _ _ He) as (sa & len & Hsn & Hsa). rewrite Hsn in Hloc. injection Hloc as -> ->.
    assert (due p [] [] s3) as Hdue.
    { destruct Hw2. destruct Hp. constructor; [constructor; [constructor|..]|constructor|..]; cbn; rewrite ?E2, ?E6; try done; cbn; rewrite ?zlen_nil; try lia.
      - by rewrite E2 in w_paris.
      - by left.
      - change (0 = trtcount p * 0 + 0). lia.
      - intros H. cbn in H. by rewrite E2 in H. }
    assert (began s s3) as Hbg by (constructor; cbn; rewrite ?E2, ?E5, ?E6; done).
    eapply wp_mono; [by eapply wp_send_pkt|]. cbv beta. intros _ s' Hse. unfold alive. wp_steps.
    assert (freed s' = false) as ->; [|wp_steps; by eapply Hok].
    destruct Hse as [port data Hr1 _ _ _ _ _|Hi _ _ _ _ _|? ? _ Hi _ _ _ _]; [apply (r_live _ _ _ _ Hr1)|apply (i_whole _ _ Hi)..]. }
  assert (∀ tcp, wp (create_socket p e tcp) (λ ok, wp ((if ok : bool then modify (set_lport (u16 (SRC_BASE_PORT + Z.of_nat (index p)))) else mret tt);; mret ok)
    (λ ok, wp (if negb ok then mret tt else add_str (str ", " ++ label "result" ++ str " [ ");; send_pkt p e;; alive) Q)) s0) as Hport.
  { intros tcp. eapply (wp_create_socket tcp t); [done|done|done|exact Hr|done| |].
    - intros s' t' Hn Hi Ha. wp_steps. by eapply Herr.
    - intros s2 Hm. wp_steps. cbn [negb]. by apply Hgo. }
  wp_steps. destruct (do_icmp p) eqn:Ei; [|destruct (do_udp p) eqn:Eu; [wp_steps; apply Hport|]; destruct (do_tcp p) eqn:Et; [wp_steps; apply Hport|]].
  - eapply (wp_create_socket false t); [done|done|done|exact Hr|done| |].
    + intros s' t' Hn Hi Ha. wp_steps. by eapply Herr.
    + intros s2 Hm. cbn [negb]. specialize (Hgo s2 Hm (lport (nw s2)) ltac:(congruence)). by destruct s2 as [? ? [] ? ? ?].
  - destruct (p_proto _ Hp) as [|[|]]; congruence.
Qed.
End Start.
