(* ===== verification/TrtLife.v ===== *)
(** * Traceroute: the life of a measurement

    The callbacks libevent may make, as a relation on states, and the invariant they keep: one line per start, and
    probes that are in order and carry what replies are matched with. *)

From stdpp Require Import base list list_numbers numbers option strings.
From Stdlib Require Import ZArith Lia.
From Stdlib Require Import Floats.SpecFloat.
From S2P Require Import Prelude Bits Blocks Cstr Packet Double Wp Validate Results TrtPacket TrtParis Trt TrtProofs TrtRun TrtReply TrtStep TrtHandle TrtStart.

Open Scope Z_scope.

(** ** Events *)

Inductive event_t :=
| Start
| Resolved (err : option (list Z)) (res : list (sockaddr * Z * Z))
| Ready4 (recv : option (list Z * list Z)) | Tcp4 (recv : option (list Z * list Z))
| Ready6 (recv : option (list Z * list Z * list cmsg)) | Tcp6 (recv : option (list Z * list Z * list cmsg))
| Timer.

Section Main.
Context (p : params).

Definition handle (ev : event_t) (e : env) : TM unit :=
  match ev with
  | Start => traceroute_start p e
  | Resolved err res => dns_cb p e err res
  | Ready4 recv => ready_callback4 p e recv
  | Tcp4 recv => ready_tcp4 p e recv
  | Ready6 recv => ready_callback6 p e recv
  | Tcp6 recv => ready_tcp6 p e recv
  | Timer => modify (set_timer None);; noreply_callback p e
  end.

(** Where a packet is from, as it is printed; [None] is the timer. *)
Definition from_of (ev : event_t) (e : env) : option (list Z) :=
  match ev with
  | Ready4 (Some (_, from)) | Tcp4 (Some (_, from)) => Some (inet_ntoa from)
  | Ready6 (Some (_, from, _)) | Tcp6 (Some (_, from, _)) => Some (inet_ntop e from)
  | Timer => None
  | _ => Some []
  end.

(** When the event loop makes a callback.  The resolver answers once for each
    request, with an error or with addresses of the family that was asked for. *)
Definition enabled (ev : event_t) (e : env) (s : trtstate) : Prop :=
  env_ok p e ∧
  match ev with
  | Start => True
  | Resolved err res =>
      busy (se s) = true ∧ dnsip (se s) = true ∧
      (err = None → ∃ sa port len more, res = (sa, port, len) :: more ∧ len ≤ sizeof_sockaddr_in6 ∧ addr_ok (do_v6 p) sa)
  | Ready4 recv => event_icmp (nw s) = true ∧ do_v6 p = false ∧ ∀ data from, recv = Some (data, from) → Forall is_byte data
  | Tcp4 recv => event_tcp (nw s) = true ∧ do_v6 p = false ∧ ∀ data from, recv = Some (data, from) → Forall is_byte data
  | Ready6 recv => event_icmp (nw s) = true ∧ do_v6 p = true ∧ ∀ data from cmsgs, recv = Some (data, from, cmsgs) →
      Forall is_byte data ∧ honest p s (take (Z.to_nat sizeof_packet) data)
  | Tcp6 recv => event_tcp (nw s) = true ∧ do_v6 p = true ∧ ∀ data from cmsgs, recv = Some (data, from, cmsgs) → Forall is_byte data
  | Timer => timer (nw s) ≠ None
  end.

(** ** Counting *)

Definition outputs (l : list action) : nat := sum_list_with (λ a, match a with Output _ => 1%nat | _ => 0%nat end) l.
Definition resolves (l : list action) : nat := sum_list_with (λ a, match a with Resolve _ => 1%nat | _ => 0%nat end) l.
(** The probes since the last start. *)
Definition probes (l : list action) : list action :=
  fold_left (λ n a, match a with Resolve _ => [] | Probe _ _ _ _ _ => n ++ [a] | _ => n end) l [].

Lemma trt_outputs_app a b : outputs (a ++ b) = (outputs a + outputs b)%nat.
Proof. apply sum_list_with_app. Qed.
Lemma trt_resolves_app a b : resolves (a ++ b) = (resolves a + resolves b)%nat.
Proof. apply sum_list_with_app. Qed.
Lemma probes_snoc a x : probes (a ++ [x]) = match x with Resolve _ => [] | Probe _ _ _ _ _ => probes a ++ [x] | _ => probes a end.
Proof. unfold probes. by rewrite fold_left_app. Qed.
Lemma probes_printed a t : probes (a ++ printed p t) = probes a.
Proof.
  unfold printed. destruct (on_done p); cbn [app]; [by rewrite probes_snoc|..]; change [Output t; DoneCb] with ([Output t] ++ [DoneCb]);
    by rewrite app_assoc, !probes_snoc.
Qed.
Lemma trt_outputs_printed t : outputs (printed p t) = 1%nat.
Proof. unfold printed. by destruct (on_done p). Qed.
Lemma trt_resolves_printed t : resolves (printed p t) = 0%nat.
Proof. unfold printed. by destruct (on_done p). Qed.

(** ** Reachable states *)

(** The other measurements change the shared base between the callbacks. *)
Inductive reachable : trtstate → Prop :=
| reach_new b : base_ok b → reachable (new_state b (parisbase p))
| reach_base s b : reachable s → base_ok b → reachable (TRT (rb s) (se s) (nw s) b (freed s) (acts s))
| reach_step s ev e s' : reachable s → enabled ev e s → handle ev e s = Done (tt, s') → reachable s'.

(** The probes of a running measurement: the hop limit, the destination and what each carries. *)
Definition shots (hops : list (Z * list entry)) (s : trtstate) : Prop :=
  zlen (probes (acts s)) = seq (se s) ∧
  ∀ i a, probes (acts s) !! i = Some a → ∃ h port data,
    a = Probe h (dont_frag p) (sin6 (nw s)) port data ∧ carries p s (Z.of_nat i + 1) port data ∧
    h = if Z.of_nat i <? trtcount p * zlen hops then firsthop p + Z.of_nat i / trtcount p else hop (se s).

Inductive phase (s : trtstate) : Prop :=
| in_idle : idle p s → zlen (probes (acts s)) ≤ total p → phase s
| in_resolving : resolving p s → probes (acts s) = [] → phase s
| in_running hops cur : running p hops cur s → shots hops s → phase s.

Record inv (s : trtstate) : Prop := Inv {
  inv_phase : phase s;
  inv_once : (outputs (acts s) + (if busy (se s) then 1 else 0) = resolves (acts s))%nat
}.

Context (Hp : params_ok p).

Lemma total_nonneg : 0 ≤ total p.
Proof. unfold total. destruct Hp. nia. Qed.

Lemma trt_inv_new b : base_ok b → inv (new_state b (parisbase p)).
Proof.
  intros Hb. constructor; [|done]. apply in_idle; [|cbn; apply total_nonneg]. constructor; [constructor|..]; try done. cbn. destruct Hp. unfold paris_ok. lia.
Qed.

Lemma trt_inv_base s b : inv s → base_ok b → inv (TRT (rb s) (se s) (nw s) b (freed s) (acts s)).
Proof.
  intros [Hph Ho] Hb. constructor; [|done]. destruct Hph as [[[] ? ? ?] Hn|[[] ? ? ? ? ? ?] Hn|hops cur [[[] ? ? ? ? ? ?] [] ? ? ? ? ? ? ? ?] Hn].
  - apply in_idle; [|done]. by constructor; [constructor|..].
  - apply in_resolving; [|done]. by constructor; [constructor|..].
  - apply (in_running _ hops cur); [|done]. by constructor; [constructor; [constructor|..]|constructor|..].
Qed.

(** A line is printed and the measurement is over. *)
Lemma trt_inv_over s s' l text :
  (outputs (acts s) + 1 = resolves (acts s))%nat → idle p s' → acts s' = acts s ++ l ++ printed p text →
  (∀ a, a ∈ l → ∃ h df d port data, a = Probe h df d port data) → zlen (probes (acts s)) + zlen l ≤ total p → inv s'.
Proof.
  intros Ho Hi Ha Hl Hn.
  assert (outputs (acts s ++ l) = outputs (acts s) ∧ resolves (acts s ++ l) = resolves (acts s) ∧ zlen (probes (acts s ++ l)) ≤ zlen (probes (acts s)) + zlen l) as (E1 & E2 & E3).
  { clear Ha Hn. induction l as [|x l IH] using rev_ind; [rewrite app_nil_r, zlen_nil; split; [done|]; split; [done|lia]|].
    destruct IH as (E1 & E2 & E3); [intros a Hin; apply Hl, elem_of_app; by left|].
    destruct (Hl x) as (h & df & d & port & data & ->); [apply elem_of_app; right; by apply list_elem_of_singleton|].
    rewrite app_assoc, probes_snoc, trt_outputs_app, trt_resolves_app, !zlen_app, E1, E2. change (zlen [_]) with 1. cbn. lia. }
  constructor.
  - apply in_idle; [done|]. rewrite Ha, app_assoc, probes_printed. lia.
  - rewrite (i_busy _ _ Hi), Ha, app_assoc, trt_outputs_app, trt_resolves_app, trt_outputs_printed, trt_resolves_printed, E1, E2. lia.
Qed.

Lemma carries_static s s' n port data : static s = static s' → carries p s n port data → carries p s' n port data.
Proof.
  unfold static. intros [= _ _ _ E1 _ E2 _ E3 E4]. unfold carries. by rewrite E1, E2, E3, E4.
Qed.

(** The next probe is one more of them. *)
Lemma shots_next hops cur s s' port data :
  counts p hops s → 0 ≤ sent (se s) ≤ trtcount p → shots hops s → running p (advance p hops cur s).1 (advance p hops cur s).2 s' → static s' = static s →
  seq (se s') = seq (se s) + 1 → (sent (se s) < trtcount p → hop (se s') = hop (se s)) →
  acts s' = acts s ++ [Probe (hop (se s')) (dont_frag p) (sin6 (nw s)) port data] →
  carries p s' (seq (se s')) port data → shots (advance p hops cur s).1 s'.
Proof.
  intros Hc Hs [Hn Hi] Hr Hst Hsq Hho Ha Hca. unfold shots. rewrite Ha, probes_snoc, zlen_app. split; [change (zlen [_]) with 1; lia|].
  pose proof (p_count _ Hp) as Htc. pose proof (c_seq _ _ _ Hc) as Eq. pose proof (zlen_nonneg hops) as Hnn.
  pose proof (r_counts _ _ _ _ Hr) as Hc'. intros i a Hia. apply lookup_app_Some in Hia as [Hia|[Hge Hia]].
  - pose proof (lookup_lt_Some _ _ _ Hia) as Hlt. destruct (Hi i a Hia) as (h & port' & data' & -> & Hca' & Eh). exists h, port', data'.
    split; [by rewrite (static_sin6 _ _ Hst)|]. split; [by eapply carries_static|]. subst h. unfold advance in *.
    assert (Z.of_nat i < seq (se s)) as His by (rewrite <- Hn; unfold zlen; lia).
    destruct (Z.leb_spec (trtcount p) (sent (se s))) as [Hle|Hgt]; cbn [fst snd] in *.
    + rewrite (proj2 (Z.ltb_lt (Z.of_nat i) (trtcount p * zlen (hops ++ _)))) by (rewrite zlen_app; change (zlen [_]) with 1; nia).
      destruct (Z.ltb_spec (Z.of_nat i) (trtcount p * zlen hops)) as [|Hge]; [done|].
      pose proof (c_hops _ _ _ Hc') as Eh. rewrite fmap_app, zlen_app, seqZ_app, (c_hops _ _ _ Hc) in Eh by (done || lia).
      apply app_inv_head in Eh. change (zlen [_]) with 1 in Eh. cbn in Eh.
      assert (hop (se s) = firsthop p + zlen hops) as -> by (injection Eh; lia). f_equal.
      apply (Z.div_unique _ _ _ (Z.of_nat i - trtcount p * zlen hops)); lia.
    + destruct (_ <? _); [done|]. symmetry. by apply Hho.
  - apply list_lookup_singleton_Some in Hia as [Hi0 <-].
    assert (Z.of_nat i = seq (se s)) as Ei by (rewrite <- Hn; unfold zlen; lia). eexists _, _, _. rewrite (static_sin6 _ _ Hst), Ei, <- Hsq.
    split; [done|]. split; [done|]. rewrite (proj2 (Z.ltb_ge _ _)); [done|]. pose proof (c_seq _ _ _ Hc') as E. pose proof (r_sent _ _ _ _ Hr). lia.
Qed.

(** ** Every callback keeps the invariant *)

Lemma sends_inv e hops cur s s' :
  (outputs (acts s) + 1 = resolves (acts s))%nat → counts p hops s → 0 ≤ sent (se s) ≤ trtcount p → shots hops s → sends p e hops cur s s' → inv s'.
Proof.
  intros Ho Hc Hs Hsh Hse. pose proof (proj1 Hsh) as Hn. destruct (seq_bound p Hp hops s Hc Hs) as [Hq _].
  destruct Hse as [port data Hr Hst Hsq Hho Ha Hca|Hidle Hst Es Hans Hwhy Ha|l text Hns Hidle Hl Hlen Hlt Ha].
  - constructor; [eapply in_running; [exact Hr|by eapply shots_next]|]. rewrite (l_busy _ _ (r_live _ _ _ _ Hr)), Ha, trt_outputs_app, trt_resolves_app. cbn. lia.
  - eapply (trt_inv_over s s' []); [done|done|exact Ha|by intros a ?%elem_of_nil|rewrite zlen_nil; lia].
  - eapply (trt_inv_over s s' l); [done|done|exact Ha| |rewrite Hn; unfold zlen; lia].
    intros a (h & port & data & ->)%Hl. by eexists _, _, _, _, _.
Qed.

Lemma sends_dns_res e hops cur s s' : sends p e hops cur s s' → sends p e hops cur s (set_dns_res false s').
Proof.
  intros [port data [[[] ? ? ? ? ? ?] [] ? ? ? ? ? ? ? ?] Hst Hsq Hho Ha Hca|[[] ? ? ?] Hst Es Hans Hwhy Ha|l text Hns [[] ? ? ?] Hl Hlen Hlt Ha].
  - eapply (Sends_probe p e hops cur s _ port data); [by constructor; [constructor; [constructor|..]|constructor|..]|done..].
  - apply Sends_end; [by constructor; [constructor|..]|done..].
  - eapply Sends_error; [done|by constructor; [constructor|..]|exact Hl|done..].
Qed.

Lemma trt_start_inv e s : inv s → env_ok p e → wp (traceroute_start p e) (λ _ s', inv s' ∧
   (busy (se s) = false → resolving p s' ∧ acts s' = acts s ++ [Resolve (hostname p)])) s.
Proof.
  intros Hi He. pose proof Hi as [Hph Ho]. unfold traceroute_start. wp_steps. destruct (busy (se s)) eqn:Eb; wp_steps; [done|].
  unfold act. wp_steps. destruct Hph as [[[] ? ? ?] _|[] _|hops cur Hr _]; [|congruence|destruct (r_live _ _ _ _ Hr); congruence].
  set (s' := set_acts _ _). assert (resolving p s') as Hr.
  { constructor; [constructor|..]; try done; [|apply He]. cbn. congruence. }
  split; [|done]. constructor.
  - apply in_resolving; [done|]. change (probes (acts s ++ [Resolve (hostname p)]) = []). by rewrite probes_snoc.
  - change (outputs (acts s ++ [Resolve (hostname p)]) + 1 = resolves (acts s ++ [Resolve (hostname p)]))%nat.
    rewrite trt_outputs_app, trt_resolves_app. cbn. lia.
Qed.

(** A line is printed instead of the results. *)
Lemma wp_dns_line e text s0 (Q : () → trtstate → Prop) s :
  env_ok p e → whole p s → holds (rb s) [] → text ≠ [] → acts s = acts s0 →
  (∀ s' t, idle p s' → acts s' = acts s0 ++ printed p t → Q tt s') → wp (add_str text;; report p e) Q s.
Proof.
  intros He Hw Ht Hne Ha HQ. wp_steps. eapply trt_wp_add_str; [exact Ht|]. intros r Hr.
  eapply trt_wp_report; [apply He|apply Hp|exact Hr|done|]. eapply HQ; [apply whole_reported; by destruct Hw|]. cbn. by rewrite Ha.
Qed.

Definition good_address (e : env) (d : sockaddr) (dlen : Z) : Prop :=
  dlen ≤ sizeof_sockaddr_in6 ∧ addr_ok (do_v6 p) d ∧ atlas_check_addr (unsafe e) d dlen ≠ -1.

(** The answer of the resolver: an error is printed, or the first probe is sent. *)
Lemma trt_wp_dns_cb e err res s (Q : () → trtstate → Prop) :
  resolving p s → enabled (Resolved err res) e s →
  (∀ s' t, (err = None → ∀ d port dlen more, res = (d, port, dlen) :: more → good_address e d dlen → ¬ connected p e) → idle p s' →
     acts s' = acts s ++ printed p t → Q tt s') →
  (∀ s1 s' d port dlen more, res = (d, port, dlen) :: more → good_address e d dlen → began p e (set_sin6 d s) s1 → sends p e [] [] s1 s' → Q tt s') →
  wp (dns_cb p e err res) Q s.
Proof.
  intros [Hw Hb Hd Hi Ht Htm Hst] (He & _ & _ & Hres) Herr Hok. unfold dns_cb. wp_steps. rewrite Hd. cbn [negb].
  destruct (clock_elapsed (now e) (start_time (se s)) (e_now _ _ He) Hst) as [d Ed]. wp_steps. eapply wp_lift; [exact Ed|]. wp_steps.
  destruct err as [text|].
  { unfold dns_error. wp_steps. eapply wp_bind_inv, (wp_dns_line e _ s); [done|by destruct Hw|apply holds_fresh|done|done|]. intros s' t Hidle Ha. eapply Herr; [done|done|exact Ha]. }
  destruct (Hres eq_refl) as (sa & port & len & more & -> & Hlen & Hsa). wp_steps. rewrite (proj2 (Z.ltb_ge _ _)) by done. wp_steps.
  destruct (Z.eqb_spec (atlas_check_addr (unsafe e) sa len) (-1)) as [Hbad|Hgood].
  - unfold dns_error. wp_steps. eapply trt_wp_add_str; [apply holds_fresh|]. intros r Hr. wp_steps.
    eapply trt_wp_report; [apply He|apply Hp|exact Hr|done|]. eapply Herr; [|apply whole_reported; by destruct Hw|done].
    intros _ d' port' dlen' more' [= <- <- <- <-] (_ & _ & H). done.
  - wp_steps. eapply (wp_start2 p Hp e He); try done; [by destruct Hw| |].
    + intros s' t Hn Hidle Ha. unfold alive. wp_steps. rewrite (w_freed _ _ (i_whole _ _ Hidle)). wp_steps.
      eapply Herr; [done|by destruct Hidle as [[] ? ? ?]; constructor; [constructor|..]|exact Ha].
    + intros s1 s' Hbg Hse%sends_dns_res. unfold alive. wp_steps.
      assert (freed (set_dns_res false s') = false) as Hf.
      { destruct Hse as [port' data Hr1 _ _ _ _ _|Hidle _ _ _ _ _|? ? _ Hidle _ _ _ _]; [apply (r_live _ _ _ _ Hr1)|apply (i_whole _ _ Hidle)..]. }
      cbn in Hf. rewrite Hf. wp_steps. eapply Hok; [done|by split| |exact Hse]. by destruct Hbg; constructor.
Qed.

Lemma trt_resolved_inv e err res s : inv s → resolving p s → probes (acts s) = [] → enabled (Resolved err res) e s → wp (dns_cb p e err res) (λ _, inv) s.
Proof.
  intros [_ Ho] Hr Hn Hen. rewrite (v_busy _ _ Hr) in Ho. eapply trt_wp_dns_cb; [done|exact Hen| |].
  - intros s' t _ Hidle Ha. eapply (trt_inv_over s s' []); [done|done|exact Ha|by intros a ?%elem_of_nil|].
    rewrite Hn. apply total_nonneg.
  - intros s1 s' d port dlen more _ _ [Hdue Ha Hsq Hse _ _ _] Hs. cbn in Ha. eapply sends_inv; [by rewrite Ha|apply Hdue|apply Hdue| |exact Hs].
    split; [by rewrite Ha, Hn, Hsq|]. rewrite Ha, Hn. intros i a Hia. by rewrite lookup_nil in Hia.
Qed.

Lemma trt_running_step ev e hops cur s :
  running p hops cur s → enabled ev e s → ev ≠ Start →
  wp (handle ev e) (λ _, stepped p e (from_of ev e) hops cur s) s.
Proof.
  intros Hr [He Hen] Hns. destruct ev as [|err res|recv|recv|recv|recv|]; [done|..]; cbn [handle from_of].
  - destruct Hen as (_ & Hd & _). destruct (r_live _ _ _ _ Hr). congruence.
  - destruct Hen as (_ & H6 & Hb). destruct recv as [[data from]|]; [apply trt_wp_ready4; eauto|wp_steps; by apply stepped_none].
  - destruct Hen as (_ & H6 & Hb). destruct recv as [[data from]|]; [apply wp_ready_tcp4; eauto|wp_steps; by apply stepped_none].
  - destruct Hen as (_ & H6 & Hb). destruct recv as [[[data from] cmsgs]|]; [|wp_steps; by apply stepped_none].
    destruct (Hb _ _ _ eq_refl). by apply trt_wp_ready6.
  - destruct Hen as (_ & H6 & Hb). destruct recv as [[[data from] cmsgs]|]; [|wp_steps; by apply stepped_none]. apply wp_ready_tcp6; eauto.
  - wp_steps. by apply wp_noreply.
Qed.

Lemma stepped_inv e from hops cur s s' : inv s → running p hops cur s → shots hops s → stepped p e from hops cur s s' → inv s'.
Proof.
  intros [_ Ho] Hr Hsh (l & _ & _ & Hg). rewrite (l_busy _ _ (r_live _ _ _ _ Hr)) in Ho. destruct Hg as [_ Hr' Hc|Hs].
  - apply core_inv in Hc as (Hst & Hsq & _ & Hho & Ha). constructor.
    + eapply in_running; [exact Hr'|]. destruct Hsh as [H1 H2]. split; [by rewrite Ha, Hsq|]. rewrite Ha, Hho. intros i a Hia.
      destruct (H2 i a Hia) as (h & port & data & E1 & E2 & E3). exists h, port, data. rewrite (static_sin6 _ _ Hst).
      split; [done|]. split; [by eapply carries_static|done].
    + by rewrite (l_busy _ _ (r_live _ _ _ _ Hr')), Ha.
  - eapply sends_inv; [done|apply Hr|pose proof (r_sent _ _ _ _ Hr); lia|exact Hsh|exact Hs].
Qed.

Lemma trt_handle_inv ev e s : inv s → enabled ev e s → wp (handle ev e) (λ _, inv) s.
Proof.
  intros Hi Hen. pose proof Hen as [He Hev]. assert (ev = Start ∨ ev ≠ Start) as [->|Hns] by (destruct ev; auto).
  { eapply wp_mono; [by apply trt_start_inv|]. by intros _ s' [? _]. }
  destruct (inv_phase _ Hi) as [[] _|Hr Hn|hops cur Hr Hsh].
  - exfalso. destruct ev; intuition congruence.
  - destruct ev as [|err res|recv|recv|recv|recv|]; [done|by apply trt_resolved_inv|..]; exfalso; destruct Hr; intuition congruence.
  - eapply wp_mono; [by apply trt_running_step|]. cbv beta. intros _ s' Hs. by eapply stepped_inv.
Qed.

Lemma trt_reachable_inv s : reachable s → inv s.
Proof.
  induction 1 as [b Hb|s b _ IH Hb|s ev e s' _ IH Hen Hh]; [by apply trt_inv_new|by apply trt_inv_base|].
  pose proof (trt_handle_inv ev e s IH Hen) as H. unfold wp in H. by rewrite Hh in H.
Qed.
End Main.
