(* ===== verification/TrtMain.v ===== *)
(** * Traceroute: the theorems

    Over every sequence of callbacks a measurement returns, prints one line per start and sends its probes in order;
    it ends; its line lists the hops and what was observed of each. *)

From stdpp Require Import base list list_numbers numbers option strings.
From Stdlib Require Import ZArith Lia.
From S2P Require Import Prelude Bits Blocks Cstr Packet Double Wp Validate Results TrtPacket TrtParis Trt TrtProofs TrtRun TrtReply TrtStep TrtHandle TrtStart TrtLife.

Open Scope Z_scope.

Section Traces.
Context (p : params).

Inductive steps : trtstate → list (event_t * env) → trtstate → Prop :=
| steps_nil s : steps s [] s
| steps_cons s ev e s1 tr s' :
    enabled p ev e s → handle p ev e s = Done (tt, s1) → steps s1 tr s' → steps s ((ev, e) :: tr) s'.

Definition no_start (tr : list (event_t * env)) : Prop := Forall (λ x, x.1 ≠ Start) tr.
Definition is_timer (ev : event_t) : bool := match ev with Timer => true | _ => false end.
Definition timers (tr : list (event_t * env)) : Z := zlen (filter (λ x, is_timer x.1 = true) tr).

Lemma timers_cons ev e tr : timers ((ev, e) :: tr) = (if is_timer ev then 1 else 0) + timers tr.
Proof.
  unfold timers. rewrite filter_cons. cbn. destruct (is_timer ev); [rewrite decide_True by done|rewrite decide_False by done];
    rewrite ?zlen_cons; lia.
Qed.

(** The entries of all hops. *)
Definition entries (hops : list (Z * list entry)) (cur : list entry) : list entry := (hops ≫= snd) ++ cur.
(** Each callback told at most one entry. *)
Definition tells (x : event_t * env) (l : list entry) : Prop := (length l ≤ 1)%nat ∧ Forall (told (from_of x.1 x.2)) l.

Context (Hp : params_ok p).

Lemma trt_idle_steps s tr s' : idle p s → no_start tr → steps s tr s' → tr = [] ∧ s' = s.
Proof.
  intros Hi Hn Hs. destruct Hs as [|s ev e s1 tr s' [_ Hen] _ _]; [done|]. exfalso.
  apply Forall_cons in Hn as [Hns _]. destruct Hi, ev; cbn in *; intuition congruence.
Qed.

Lemma trt_step_running ev e hops cur s s1 :
  running p hops cur s → enabled p ev e s → ev ≠ Start → handle p ev e s = Done (tt, s1) → stepped p e (from_of ev e) hops cur s s1.
Proof.
  intros Hr Hen Hns Hh. pose proof (trt_running_step p Hp ev e hops cur s Hr Hen Hns) as H. unfold wp in H. by rewrite Hh in H.
Qed.

Lemma running_seq hops cur s : running p hops cur s → 1 ≤ seq (se s) ≤ total p.
Proof.
  intros Hr. pose proof (r_sent _ _ _ _ Hr) as Hs. destruct (seq_bound p Hp hops s (r_counts _ _ _ _ Hr) ltac:(lia)) as [Hb _].
  pose proof (c_seq _ _ _ (r_counts _ _ _ _ Hr)). pose proof (zlen_nonneg hops). pose proof (p_count _ Hp). nia.
Qed.

(** A run that has not ended goes on, with a probe more for each timer; at the end it has printed one line. *)
Lemma trt_steps_phase hops cur s tr s' :
  running p hops cur s → no_start tr → steps s tr s' →
  (∃ hops' cur', running p hops' cur' s' ∧ outputs (acts s') = outputs (acts s) ∧ timers tr ≤ seq (se s') - seq (se s)) ∨
  (idle p s' ∧ outputs (acts s') = (outputs (acts s) + 1)%nat ∧ timers tr ≤ total p + 1 - seq (se s)).
Proof.
  intros Hr Hn Hs. revert hops cur Hr Hn. induction Hs as [s|s ev e s1 tr s' Hen Hh Hs IH]; intros hops cur Hr Hn.
  { left. exists hops, cur. split; [done|]. split; [done|]. change (timers []) with 0. lia. }
  apply Forall_cons in Hn as [Hns Hn]. rewrite timers_cons. pose proof (running_seq _ _ _ Hr) as Hq.
  destruct (trt_step_running ev e hops cur s s1 Hr Hen Hns Hh) as (l & _ & _ & Hg).
  destruct Hg as [[a Hf] Hr' (_ & Hsq & _ & _ & Ha)%core_inv|[port data Hr' _ Hsq _ Ha _|Hi _ _ _ _ Ha|acs text _ Hi Hl _ _ Ha]].
  - assert (is_timer ev = false) as -> by by destruct ev. rewrite <- Ha, <- Hsq. by eapply IH.
  - assert (outputs (acts s1) = outputs (acts s)) as Ho by (rewrite Ha, trt_outputs_app; cbn; lia).
    specialize (IH _ _ Hr' Hn). rewrite Ho, Hsq in IH.
    destruct IH as [(h' & c' & Hr'' & E1 & E2)|(Hi & E1 & E2)]; [left; exists h', c'|right]; (split; [done|]; split; [done|]); destruct (is_timer ev); lia.
  - destruct (trt_idle_steps _ _ _ Hi Hn Hs) as [-> ->]. right. split; [done|]. change (timers []) with 0.
    rewrite Ha, trt_outputs_app, trt_outputs_printed. split; [lia|]. destruct (is_timer ev); lia.
  - destruct (trt_idle_steps _ _ _ Hi Hn Hs) as [-> ->]. right. split; [done|]. change (timers []) with 0.
    rewrite Ha, !trt_outputs_app, trt_outputs_printed. split; [|destruct (is_timer ev); lia].
    assert (outputs acs = 0%nat) as ->; [|lia]. clear -Hl. induction acs as [|x acs IH]; [done|].
    destruct (Hl x) as (h & port & data & ->); [by left|]. cbn. apply IH. intros a Hin. apply Hl. by right.
Qed.

(** ** The line *)

(** The hops of a measurement that is over. *)
Record complete (hops : list (Z * list entry)) (last : Z * list entry) : Prop := Complete {
  m_hops : hops.*1 = seqZ (firsthop p) (zlen hops);
  m_last : last.1 = firsthop p + zlen hops ∨ last.1 = 255;
  m_full : Forall (λ x, answers x.2 = trtcount p) (hops ++ [last]);
  m_why : maxhops p ≤ last.1 ∨ Exists (λ x, is_reply x = true) last.2
}.

(** The probes of these hops to [d], from the one after the first [n] on; the hop limits are those of [all]. *)
Definition volley (s : trtstate) (n : Z) (all : list (Z * list entry)) (l : list action) : Prop :=
  zlen l = trtcount p * zlen all - n ∧
  ∀ i a, l !! i = Some a → ∃ h port data x,
    a = Probe h (dont_frag p) (sin6 (nw s)) port data ∧ carries p s (n + Z.of_nat i + 1) port data ∧
    all !! Z.to_nat ((n + Z.of_nat i) / trtcount p) = Some (h, x).

Lemma volley_cons s s1 n all h port data x l :
  static s1 = static s → 0 ≤ n → carries p s1 (n + 1) port data → all !! Z.to_nat (n / trtcount p) = Some (h, x) →
  volley s1 (n + 1) all l → volley s n all (Probe h (dont_frag p) (sin6 (nw s)) port data :: l).
Proof.
  intros Hst Hn Hca Hall [Hlen Hl]. split; [rewrite zlen_cons; lia|]. intros [|i] a Hia.
  - injection Hia as <-. exists h, port, data, x. rewrite Z.add_0_r. split; [done|]. split; [by eapply carries_static|done].
  - destruct (Hl i a Hia) as (h' & port' & data' & x' & -> & Hca' & Hall'). exists h', port', data', x'.
    replace (n + Z.of_nat (S i)) with (n + 1 + Z.of_nat i) by lia. rewrite (static_sin6 _ _ Hst). split; [done|]. split; [by eapply carries_static|done].
Qed.

Lemma entries_advance hops cur s : entries (advance p hops cur s).1 (advance p hops cur s).2 = entries hops cur.
Proof.
  unfold advance. destruct (_ <=? _); [|done]. unfold entries. cbn [fst snd]. rewrite bind_app. cbn. by rewrite !app_nil_r.
Qed.

Lemma running_group hops cur s : running p hops cur s → (seq (se s) - 1) / trtcount p = zlen hops.
Proof.
  intros Hr. rewrite (c_seq _ _ _ (r_counts _ _ _ _ Hr)). pose proof (r_sent _ _ _ _ Hr). symmetry.
  apply (Z.div_unique _ _ _ (sent (se s) - 1)); lia.
Qed.

Lemma counts_complete hops cur s :
  counts p hops s → answers cur = trtcount p → maxhops p ≤ hop (se s) ∨ Exists (λ x, is_reply x = true) cur → complete hops (hop (se s), cur).
Proof.
  intros [] Ha Hwhy. constructor; [done| |by apply Forall_app; split; [|constructor]|done]. cbn. destruct (lastditch (se s)); auto.
Qed.

(** A run without failing system calls ends with the line of its hops. *)
Lemma trt_steps_line hops cur s tr s' :
  running p hops cur s → no_start tr → Forall (λ x, sendable p x.2) tr → steps s tr s' → busy (se s') = false →
  ∃ e hops' last l ls x, acts s' = acts s ++ l ++ printed p (line p e s' hops' last) ∧ static s' = static s ∧
    complete hops' last ∧ volley s (seq (se s)) (hops' ++ [last]) l ∧
    Forall2 tells tr ls ∧ entries hops' last.2 = entries hops cur ++ concat ls ∧ (hops ++ [(hop (se s), x)]) `prefix_of` (hops' ++ [last]).
Proof.
  intros Hr Hn Hok Hs Hb. revert hops cur Hr Hn Hok Hb. induction Hs as [s|s ev e s1 tr s' Hen Hh Hs IH]; intros hops cur Hr Hn Hok Hb.
  { destruct (r_live _ _ _ _ Hr). congruence. }
  apply Forall_cons in Hn as [Hns Hn]. apply Forall_cons in Hok as [Hsd Hok]. cbn in Hns, Hsd.
  destruct (trt_step_running ev e hops cur s s1 Hr Hen Hns Hh) as (l1 & Hlen1 & Htold & Hg).
  assert (tells (ev, e) l1) as Htells by done. pose proof (running_seq _ _ _ Hr) as Hq.
  destruct Hg as [_ Hr' (Hst & Hsq & _ & Hho & Ha)%core_inv|Hse].
  - destruct (IH _ _ Hr' Hn Hok Hb) as (e' & hops' & last & l & ls & x & Ha' & Hst' & Hcm & Hv & Hls & Hent & Hpre).
    exists e', hops', last, l, (l1 :: ls), x. rewrite <- Ha, <- Hho, <- Hsq. split; [done|]. split; [congruence|]. split; [done|].
    split; [|split; [by constructor|split; [|done]]].
    + destruct Hv as [Hv1 Hv2]. split; [done|]. rewrite <- (static_sin6 _ _ Hst). intros i a Hia.
      destruct (Hv2 i a Hia) as (h & port & data & y & E1 & E2 & E3). exists h, port, data, y. split; [done|]. split; [by eapply carries_static|done].
    + rewrite Hent. unfold entries. cbn [concat]. by rewrite <- !app_assoc.
  - destruct Hse as [port data Hr' Hst Hsq Hho Ha Hca|Hi Hst Es Hans Hwhy Ha|acs text Hf _ _ _ _ _]; [| |done].
    + destruct (IH _ _ Hr' Hn Hok Hb) as (e' & hops' & last & l & ls & x & Ha' & Hst' & Hcm & Hv & Hls & Hent & Hpre).
      pose proof (running_group _ _ _ Hr') as Hgr. rewrite Hsq in Hgr, Hca, Hv. replace (seq (se s) + 1 - 1) with (seq (se s)) in Hgr by lia.
      rewrite entries_advance in Hent.
      assert ((hops' ++ [last]) !! Z.to_nat (seq (se s) / trtcount p) = Some (hop (se s1), x)) as Hlk.
      { eapply prefix_lookup_Some; [|exact Hpre]. rewrite Hgr. unfold zlen. rewrite Nat2Z.id. by apply list_lookup_middle. }
      exists e', hops', last, (Probe (hop (se s1)) (dont_frag p) (sin6 (nw s)) port data :: l), (l1 :: ls).
      assert (∃ y, (hops ++ [(hop (se s), y)]) `prefix_of` (hops' ++ [last])) as [y Hy].
      { unfold advance in Hpre. destruct (Z.leb_spec (trtcount p) (sent (se s))) as [Hle|Hgt]; cbn [fst snd] in Hpre.
        - exists (cur ++ l1). etrans; [|exact Hpre]. by apply prefix_app_r.
        - exists x. by rewrite <- Hho by done. }
      exists y. split; [rewrite Ha', Ha, <- app_assoc; done|]. split; [congruence|]. split; [done|].
      split; [eapply volley_cons; [exact Hst|lia|exact Hca|exact Hlk|exact Hv]|]. split; [by constructor|]. split; [|done].
      rewrite Hent. unfold entries. cbn [concat]. by rewrite <- !app_assoc.
    + destruct (trt_idle_steps _ _ _ Hi Hn Hs) as [-> ->]. exists e, hops, (hop (se s), cur ++ l1), [], [l1], (cur ++ l1).
      pose proof (r_counts _ _ _ _ Hr) as Hc. split; [by rewrite (trt_line_static p e s1 s)|]. split; [done|].
      split; [by eapply counts_complete|]. split.
      * split; [rewrite zlen_app, zlen_nil, (c_seq _ _ _ Hc); change (zlen [_]) with 1; lia|]. intros i a Hia. by rewrite lookup_nil in Hia.
      * split; [constructor; [done|constructor]|]. split; [|done]. unfold entries. cbn. by rewrite app_nil_r, <- !app_assoc.
Qed.
End Traces.

(** C8: Over every sequence of starts and callbacks, every callback of a traceroute with 1 to 127 probes per hop and a done callback that
    does not delete it ([params_ok]; otherwise see [trt_use_after_free]) returns, whatever packets arrive over IPv4, and over IPv6 whatever packets arrive in which a probe of the measurement
    is quoted, if at all, with a sane time stamp ([honest]; otherwise see [trt_stamp_overflow]).  At every moment it has printed one line for each time it was started, less
    the one that is running; it has sent at most [trtcount] probes for each hop from [firsthop] to [maxhops] since its last
    start; and while its sockets are watched its timer is set. *)
Theorem trt_safe p s ev e :
  params_ok p → reachable p s → enabled p ev e s →
  ∃ s', handle p ev e s = Done (tt, s') ∧
    (outputs (acts s') + (if busy (se s') then 1 else 0) = resolves (acts s'))%nat ∧
    zlen (probes (acts s')) ≤ trtcount p * (Z.max 0 (maxhops p - firsthop p) + 1) ∧
    (event_icmp (nw s') = true ∨ event_tcp (nw s') = true → timer (nw s') ≠ None) ∧ freed s' = false.
Proof.
  intros Hp Hr Hen. pose proof (trt_reachable_inv p Hp s Hr) as Hi.
  pose proof (trt_handle_inv p Hp ev e s Hi Hen) as H. apply wp_run in H as ([] & s' & E & [Hph Ho]). exists s'.
  split; [done|]. split; [done|]. fold (total p). destruct Hph as [[[] ? ? ?] Hn|[[] ? ? ? ? ? ?] Hn|hops cur Hrun [Hn _]].
  - split; [done|]. split; [intros [|]; congruence|done].
  - rewrite Hn. split; [by apply total_nonneg|]. split; [intros [|]; congruence|done].
  - rewrite Hn. pose proof (running_seq p Hp _ _ _ Hrun). split; [lia|]. split; [intros _; apply Hrun|apply Hrun].
Qed.

(** C14: The probes since the last start, while the measurement runs: all go to the address the name resolved to; the first
    [trtcount] have the hop limit [firsthop], the next [trtcount] one more, and so on, but for the probes of the last hop, which may have a limit of 255; and
    the [i]-th one carries its number [i] and the index of the measurement where replies quote them ([carries]): for TCP in the source port and
    the sequence number, for ICMP in the identifier and the sequence number or over IPv6 in the data, for UDP over IPv6 in the data, and for UDP over IPv4 in the
    destination port, the checksum and the source port.  TCP and UDP probes go out from the port of the measurement. *)
Theorem trt_probes p s i a :
  params_ok p → reachable p s → busy (se s) = true → probes (acts s) !! i = Some a →
  (do_icmp p = false → lport (nw s) = u16 (SRC_BASE_PORT + Z.of_nat (index p))) ∧
  ∃ h port data, a = Probe h (dont_frag p) (sin6 (nw s)) port data ∧ carries p s (Z.of_nat i + 1) port data ∧
    (h = firsthop p + Z.of_nat i / trtcount p ∨
     (h = 255 ∧ zlen (probes (acts s)) ≤ trtcount p * (Z.of_nat i / trtcount p + 1))).
Proof.
  intros Hp Hr Hb Hia. pose proof (trt_reachable_inv p Hp s Hr) as [Hph _]. pose proof (p_count _ Hp) as Htc.
  destruct Hph as [Hidle _|_ Hn|hops cur Hrun [Hn Hi]]; [destruct Hidle; congruence|by rewrite Hn, lookup_nil in Hia|].
  split; [apply (r_live _ _ _ _ Hrun)|].
  destruct (Hi i a Hia) as (h & port & data & -> & Hca & ->). eexists _, port, data. split; [done|]. split; [done|].
  destruct (Z.ltb_spec (Z.of_nat i) (trtcount p * zlen hops)) as [|Hge]; [by left|].
  pose proof (r_counts _ _ _ _ Hrun) as Hc. pose proof (r_sent _ _ _ _ Hrun). pose proof (c_seq _ _ _ Hc) as Eq.
  apply lookup_lt_Some in Hia. assert (Z.of_nat i < seq (se s)) by (rewrite <- Hn; unfold zlen; lia).
  assert (Z.of_nat i / trtcount p = zlen hops) as -> by (symmetry; apply (Z.div_unique _ _ _ (Z.of_nat i - trtcount p * zlen hops)); lia).
  rewrite (c_hop _ _ _ Hc). destruct (lastditch (se s)); [right; split; [done|]; lia|by left].
Qed.

(** C34: A traceroute that is sending ends, in whatever order replies arrive and timers
    fire: either it is over and has printed its line, or its timer is set and has fired fewer times
    than there are probes to send, [trtcount] for each hop from [firsthop] to [maxhops]. *)
Theorem trt_ends p s tr s' :
  params_ok p → reachable p s → event_icmp (nw s) = true → no_start tr → steps p s tr s' →
  (busy (se s') = false ∧ outputs (acts s') = (outputs (acts s) + 1)%nat ∧ timers tr ≤ trtcount p * (Z.max 0 (maxhops p - firsthop p) + 1)) ∨
  (busy (se s') = true ∧ timer (nw s') ≠ None ∧ timers tr < trtcount p * (Z.max 0 (maxhops p - firsthop p) + 1)).
Proof.
  intros Hp Hr Hev Hn Hs. pose proof (trt_reachable_inv p Hp s Hr) as Hi. fold (total p).
  destruct (inv_phase _ _ Hi) as [[] _|[] _|hops cur Hrun _]; [congruence|congruence|]. pose proof (running_seq p Hp _ _ _ Hrun) as Hq.
  destruct (trt_steps_phase p Hp hops cur s tr s' Hrun Hn Hs) as [(hops' & cur' & Hrun' & _ & Ht)|(Hidle & Ho & Ht)].
  - right. pose proof (running_seq p Hp _ _ _ Hrun') as Hq'. split; [apply Hrun'|]. split; [apply Hrun'|lia].
  - left. split; [apply Hidle|]. split; [done|lia].
Qed.

(** C7: A traceroute whose name resolves to an allowed address and whose probes can be
    sent: when it is over it has printed one line, whose array has the hops from [firsthop] on, one after the other (the last may be
    255), and each hop has exactly [trtcount] answers, each a reply or a star, besides
    late replies and duplicates; it has sent exactly the probes of these hops, in their order.  The entries of the line are
    in order those of the callbacks, each named after the host its packet came from.  Its last hop is the limit or was
    answered. *)
Theorem trt_measurement p s0 e0 e1 d port dlen tr s' :
  params_ok p → reachable p s0 → busy (se s0) = false →
  connected p e1 → sendable p e1 → good_address p e1 d dlen → no_start tr → Forall (λ x, sendable p x.2) tr →
  steps p s0 ((Start, e0) :: (Resolved None [(d, port, dlen)], e1) :: tr) s' → busy (se s') = false →
  ∃ e hops last l ls,
    acts s' = acts s0 ++ [Resolve (hostname p)] ++ l ++ printed p (line p e s' hops last) ∧
    sin6 (nw s') = d ∧ complete p hops last ∧ volley p s' 0 (hops ++ [last]) l ∧
    Forall2 tells tr ls ∧ entries hops last.2 = concat ls.
Proof.
  intros Hp Hr Hb Hco Hsd Hgood Hn Hok Hs Hb'. pose proof (trt_reachable_inv p Hp s0 Hr) as Hi.
  inversion Hs as [|? ? ? s1 ? ? [He0 _] Hh0 Hs1]; subst. inversion Hs1 as [|? ? ? s2 ? ? Hen1 Hh1 Hs2]; subst.
  pose proof (trt_start_inv p e0 s0 Hi He0) as H. unfold wp in H. cbn [handle] in Hh0. rewrite Hh0 in H.
  destruct H as [_ Hres]. destruct (Hres Hb) as [Hres1 Ha1]. clear Hres.
  assert (wp (dns_cb p e1 None [(d, port, dlen)]) (λ _ s2, ∃ sb, began p e1 (set_sin6 d s1) sb ∧ sends p e1 [] [] sb s2) s1) as H.
  { eapply trt_wp_dns_cb; [done|exact Hres1|exact Hen1| |].
    - intros s t Hn' _ _. exfalso. by eapply Hn'.
    - intros sb s d' port' dlen' more [= <- <- <- <-] _ Hbg Hse. by exists sb. }
  unfold wp in H. cbn [handle] in Hh1. rewrite Hh1 in H. destruct H as (sb & [Hdue Hab Hsq Hsent Hsin _ _] & Hse). cbn in Hab, Hsin.
  pose proof (p_count _ Hp) as Htc. destruct Hse as [prt data Hrun Hst Hsq' Hho Ha Hca|_ _ Es _ _ _|acs text Hf _ _ _ _ _]; [|lia|done].
  unfold advance in Hrun. rewrite (proj2 (Z.leb_gt _ _)) in Hrun by lia. cbn [fst snd] in Hrun.
  destruct (trt_steps_line p Hp [] [] s2 tr s' Hrun Hn Hok Hs2 Hb') as (e & hops & last & l & ls & x & Ha' & Hst' & Hcm & Hv & Hls & Hent & Hpre).
  exists e, hops, last, (Probe (hop (se s2)) (dont_frag p) d prt data :: l), ls.
  assert (static s' = static sb) as Hst2 by (by rewrite Hst'). pose proof (static_sin6 _ _ Hst2) as Hsin'. rewrite Hsin in Hsin'.
  split; [rewrite Ha', Ha, Hab, Ha1, Hsin, <- !app_assoc; done|]. split; [done|]. split; [done|]. split; [|done].
  rewrite <- Hsin'. eapply (volley_cons p s' s2 0 _ _ _ _ x); [by rewrite Hst'|done|by rewrite Hsq, Z.add_0_l in Hsq'; rewrite Hsq' in Hca| |by rewrite Hsq' , Hsq in Hv].
  eapply prefix_lookup_Some; [|exact Hpre]. rewrite Z.div_0_l by lia. done.
Qed.

(** ** Creation *)

(** C38: [traceroute_init] accepts only options that fit and gives the measurement an entry of the table of its own, which no other has; with at least one
    probe per hop and no more than 127, and a done callback that does not delete the measurement, it is one the other theorems are about ([params_ok], [reachable]);
    other numbers are accepted too and wrap ([trt_count_wraps]). *)
Theorem trt_init_ok spooldir fuzz rel unsafe ok base0 o self inst don p s :
  traceroute_init spooldir fuzz rel unsafe ok base0 (Some o) self inst don = Some (p, s) →
  base_ok base0 → table base0 ≠ [] → don ≠ DoneDeletes → 1 ≤ o_count o ≤ 127 → 0 ≤ o_maxpacksize o →
  params_ok p ∧ reachable p s ∧ table (base s) !! index p = Some (Some self) ∧
  (∀ j other, table base0 !! j = Some (Some other) → j ≠ index p ∧ table (base s) !! j = Some (Some other)).
Proof.
  intros E Hb Ht Hd Hc Hm. unfold traceroute_init in E. cbn [mbind option_bind] in E.
  destruct (Z.ltb_spec MAX_DATA_SIZE (o_maxpacksize o)) as [|Hle]; [done|]. unfold MAX_DATA_SIZE in Hle.
  destruct (check_name _ (o_response_in o)); [|done]. destruct (check_name _ (o_response_out o)); [|done].
  destruct (match o_out o with None => _ | Some _ => _ end) as [out|]; [|done].
  destruct (check_name _ (o_atlas o)); [|done]. destruct (check_name _ (o_bundle o)); [|done].
  destruct (alloc_slot (table base0)) as [i tbl] eqn:Ea. injection E as <- <-. destruct (alloc_slot_spec _ _ _ Ht Ea) as [Hi Ho].
  assert (∀ z, 0 ≤ u8 z ≤ 255) as Hu8 by (intros z; unfold u8; pose proof (Z.mod_pos_bound z (2 ^ 8)); lia).
  split; [|split; [|split]].
  - constructor; cbn; try apply Hu8; try done.
    + unfold s8. rewrite Z.mod_small by lia. lia.
    + unfold u16. rewrite Z.mod_small by lia. lia.
    + destruct (opt_T o); [by left|]. right. destruct (opt_I o); [by left|by right].
  - apply reach_new. exact Hb.
  - cbn. by apply list_lookup_insert_eq.
  - cbn. intros j other Hj. destruct (Ho j other Hj) as [Hne Hj']. split; [done|]. by rewrite list_lookup_insert_ne.
Qed.
