(* ===== verification/TrtMatch.v ===== *)
(** * Traceroute: probes and the errors that quote them

    A router returns the first bytes of a probe.  What is found there is the measurement and the number of the
    probe, for each kind of probe over IPv4. *)

From stdpp Require Import base list list_numbers numbers option strings.
From Stdlib Require Import ZArith Lia.
From S2P Require Import Prelude Bits Blocks Cstr Packet Double Wp Validate Results TrtPacket TrtParis Trt TrtProofs TrtRun TrtLife.

Open Scope Z_scope.

(** ** Numbers that are put together *)

Lemma lor_parts hi lo n : 0 ≤ n → 0 ≤ lo < 2 ^ n → Z.lor (hi ≪ n) lo = hi * 2 ^ n + lo.
Proof.
  intros Hn Hl. rewrite (lor_add _ _ n) by (rewrite ?Z.shiftl_mul_pow2, ?Z.mod_mul by lia; done || lia). by rewrite Z.shiftl_mul_pow2.
Qed.
Lemma parts_shiftr hi lo n : 0 ≤ n → 0 ≤ lo < 2 ^ n → (hi * 2 ^ n + lo) ≫ n = hi.
Proof. intros Hn Hl. rewrite Z.shiftr_div_pow2 by done. rewrite Z.div_add_l by lia. rewrite Z.div_small by done. lia. Qed.
Lemma parts_land hi lo n : 0 ≤ n → 0 ≤ lo < 2 ^ n → Z.land (hi * 2 ^ n + lo) (2 ^ n - 1) = lo.
Proof. intros Hn Hl. rewrite land_ones_mod by done. rewrite Z.add_comm, Z.mod_add by lia. by apply Z.mod_small. Qed.

(** The index in the identifier of an echo request. *)
Lemma id_index i inst : 0 ≤ i < 2 ^ 12 → 0 ≤ inst < 2 ^ 4 → Z.land (Z.lor i (inst ≪ 12)) (Z.lnot TRT_ICMP4_INSTANCE_ID_MASK) = i.
Proof.
  intros Hi Hinst. change TRT_ICMP4_INSTANCE_ID_MASK with (Z.ones 4 ≪ 12). apply Z.bits_inj'. intros k Hk.
  rewrite Z.land_spec, Z.lor_spec, Z.lnot_spec, !Z.shiftl_spec by lia.
  destruct (Z.lt_ge_cases k 12).
  - rewrite !(Z.testbit_neg_r _ (k - 12)) by lia. by rewrite orb_false_r, andb_true_r.
  - rewrite (Z.bits_above_log2 i k); [|lia|]. 
    2: { destruct (Z.eq_dec i 0) as [->|]; [cbn; lia|]. assert (Z.log2 i < 12) by (apply Z.log2_lt_pow2; lia). lia. }
    cbn [orb]. destruct (Z.lt_ge_cases (k - 12) 4).
    + rewrite Z.ones_spec_low by lia. by rewrite andb_false_r.
    + rewrite (Z.bits_above_log2 inst); [done|lia|]. destruct (Z.eq_dec inst 0) as [->|]; [cbn; lia|].
      assert (Z.log2 inst < 4) by (apply Z.log2_lt_pow2; lia). lia.
Qed.

Lemma ntohs_ntohs v : 0 ≤ v < 2 ^ 16 → ntohs (ntohs v) = v.
Proof.
  intros Hv. destruct (ntohs_swap v Hv) as (hi & lo & H1 & H2 & -> & ->). unfold ntohs, le16, be_value, u8. cbn [fold_left].
  rewrite Z.shiftr_div_pow2 by lia. change (2 ^ 8) with 256. rewrite (Z.mul_comm 256 lo), Z.div_add_l, Z.div_small by lia.
  rewrite Z.add_0_r, (Z.mod_small lo) by lia.
  assert ((lo * 256 + hi) `mod` 256 = hi) as -> by (rewrite Z.add_comm, Z.mod_add, Z.mod_small by lia; done). lia.
Qed.

Section Match.
Context (p : params) (s : trtstate).

Definition probe_kind : kind := if do_tcp p then K_TCP else if do_icmp p then K_ICMP else K_UDP.
Definition probe_proto : Z := if do_tcp p then IPPROTO_TCP else if do_icmp p then IPPROTO_ICMP else IPPROTO_UDP.

(** The first eight bytes behind the IP header: those of the probe, or for UDP the header the system makes. *)
Definition quoted (port : Z) (data x : list Z) : Prop :=
  if do_tcp p || do_icmp p then x = field data 0 8
  else ∃ src dst, addr_bytes false (loc_sin6 (nw s)) = Done src ∧ addr_bytes false (sin6 (nw s)) = Done dst ∧
    let len := be16 (8 + zlen data) in
    x = be16 (lport (nw s)) ++ be16 port ++ len ++
        le16 (in_cksum_udp (v4_ph src dst IPPROTO_UDP (8 + zlen data)) (be16 (lport (nw s)) ++ be16 port ++ len ++ [0; 0]) data).

Context (l : list Z) (Hl : buf_ok l) (nrecv q : Z) (Hq : 0 ≤ q) (Hn : q + 8 ≤ nrecv ≤ 4224).

Lemma read_quote x o n : field l q 8 = x → 0 ≤ o → 0 ≤ n → o + n ≤ 8 → be_at (Some <$> l) (q + o) n = Done (be_value (field x o n)).
Proof.
  intros Hx Ho Hn' Hle. rewrite be_at_field by (rewrite ?(buf_zlen l Hl); lia). rewrite (field_sub l q 8 x (q + o) n Hx) by lia.
  do 3 f_equal. lia.
Qed.
Lemma read_quote_0 x n : field l q 8 = x → 0 ≤ n ≤ 8 → be_at (Some <$> l) q n = Done (be_value (field x 0 n)).
Proof. intros Hx Hn'. rewrite <- (read_quote x 0 n Hx) by lia. by rewrite Z.add_0_r. Qed.

Context (Hbusy : busy (se s) = true) (H4 : is_inet6 (sin6 (nw s)) = false) (Hsin : addr_ok false (sin6 (nw s)))
  (Htab : Z.of_nat (index p) < tabsiz s) (Hidx : Z.of_nat (index p) < 2 ^ 12) (Hinst : 0 ≤ instance_id p < 2 ^ 4)
  (Hport : do_icmp p = false → lport (nw s) = u16 (SRC_BASE_PORT + Z.of_nat (index p))).

Lemma mine_ours : mine p s (Z.of_nat (index p)) false = true.
Proof. unfold mine. rewrite Z.eqb_refl, Hbusy, andb_true_r. destruct (sin6 (nw s)) as [a|g|]; [done|by destruct Hsin|done]. Qed.

Lemma our_port : do_icmp p = false → lport (nw s) = SRC_BASE_PORT + Z.of_nat (index p) ∧ 0 ≤ lport (nw s) < 2 ^ 16.
Proof. intros Hi. rewrite (Hport Hi). unfold u16, SRC_BASE_PORT. rewrite Z.mod_small by lia. lia. Qed.

Lemma match4_tcp data n :
  do_tcp p = true → do_icmp p = false → 0 ≤ n < 2 ^ 16 → field l q 8 = field data 0 8 →
  (∃ dp, field data 0 8 = be16 (lport (nw s)) ++ be16 dp ++ be32 (Z.lor (Z.of_nat (index p) ≪ 16) n)) →
  match4 p s (Some <$> l) nrecv IPPROTO_TCP q = Done (Some (K_TCP, n)).
Proof.
  intros Ht Hi Hn0 Hf [dp Hd]. rewrite Hd in Hf. unfold match4, quote_tcp, quote_udp, quote_icmp. rewrite (proj2 (Z.ltb_ge nrecv (q + 8))) by lia.
  rewrite (read_quote_0 _ _ Hf), !(read_quote _ _ _ Hf) by lia. cbn [Z.eqb IPPROTO_TCP]. msimpl.
  destruct (our_port Hi) as [Ep Hp]. change (field _ 0 2) with (be16 (lport (nw s))). rewrite be16_value_of by done.
  change (field _ 4 4) with (be32 (Z.lor (Z.of_nat (index p) ≪ 16) n)). rewrite lor_parts by lia. rewrite be_value_be32 by lia.
  rewrite (proj2 (Z.ltb_ge _ _)), (proj2 (Z.leb_gt _ _)) by lia. cbn [orb]. rewrite parts_shiftr by lia. rewrite mine_ours, Ht. cbn [andb].
  change 0xffff with (2 ^ 16 - 1). by rewrite parts_land.
Qed.

Lemma match4_icmp data n :
  do_icmp p = true → 0 ≤ n < 2 ^ 16 → field l q 8 = field data 0 8 →
  field data 0 2 = [8; 0] → field data 4 4 = be16 (Z.lor (Z.of_nat (index p)) (instance_id p ≪ 12)) ++ be16 n →
  match4 p s (Some <$> l) nrecv IPPROTO_ICMP q = Done (Some (K_ICMP, n)).
Proof.
  intros Hi Hn0 Hf Hd1 Hd2. unfold match4, quote_tcp, quote_udp, quote_icmp. cbn [Z.eqb IPPROTO_ICMP IPPROTO_TCP IPPROTO_UDP Pos.eqb]. unfold ICMP_MINLEN.
  rewrite (proj2 (Z.ltb_ge nrecv (q + 8))) by lia. rewrite (read_quote_0 _ _ Hf), !(read_quote _ _ _ Hf) by lia. msimpl.
  rewrite !field_front by lia.
  rewrite (field_sub data 0 2 _ 0 1 Hd1), (field_sub data 0 2 _ 1 1 Hd1), (field_sub data 4 4 _ 4 2 Hd2), (field_sub data 4 4 _ 6 2 Hd2) by lia.
  set (id := Z.lor (Z.of_nat (index p)) (instance_id p ≪ 12)) in *.
  change (field _ (4 - 4) 2) with (be16 id). change (field _ (6 - 4) 2) with (be16 n). change (be_value (field [8; 0] (0 - 0) 1)) with 8.
  change (be_value (field [8; 0] (1 - 0) 1)) with 0.
  assert (id = instance_id p * 2 ^ 12 + Z.of_nat (index p)) as Eid by (unfold id; rewrite Z.lor_comm; apply lor_parts; lia).
  rewrite !be16_value_of by lia. cbn [Z.eqb Pos.eqb negb orb].
  change TRT_ICMP4_INSTANCE_ID_SHIFT with 12. rewrite Eid at 1. rewrite parts_shiftr by lia. rewrite Z.eqb_refl. cbn [negb].
  unfold id. rewrite id_index by lia. rewrite mine_ours, Hi, (proj2 (Z.ltb_lt _ _)) by lia. done.
Qed.

Lemma match4_udp port data n src dst :
  do_icmp p = false → 1 ≤ n ≤ seq (se s) → seq (se s) < 32102 →
  port = u16 (BASE_PORT + if parismod p =? 0 then n else paris (se s)) →
  (parismod p ≠ 0 → in_cksum_udp (v4_ph src dst IPPROTO_UDP (8 + zlen data)) (be16 (lport (nw s)) ++ be16 port ++ be16 (8 + zlen data) ++ [0; 0]) data = ntohs n) →
  field l q 8 = be16 (lport (nw s)) ++ be16 port ++ be16 (8 + zlen data) ++
    le16 (in_cksum_udp (v4_ph src dst IPPROTO_UDP (8 + zlen data)) (be16 (lport (nw s)) ++ be16 port ++ be16 (8 + zlen data) ++ [0; 0]) data) →
  match4 p s (Some <$> l) nrecv IPPROTO_UDP q = Done (Some (K_UDP, n)).
Proof.
  intros Hi Hn0 Hs Ep Hck Hf. unfold match4, quote_tcp, quote_udp, quote_icmp. cbn [Z.eqb IPPROTO_TCP IPPROTO_UDP Pos.eqb]. unfold sizeof_udphdr.
  rewrite (proj2 (Z.ltb_ge nrecv (q + 8))) by lia. rewrite (read_quote_0 _ _ Hf), !(read_quote _ _ _ Hf) by lia. msimpl.
  set (c := in_cksum_udp _ _ _) in *. change (field _ 0 2) with (be16 (lport (nw s))). change (field _ 2 2) with (be16 port).
  change (field _ 6 2) with (le16 c). destruct (our_port Hi) as [Elp Hlp]. rewrite !be16_value_of by (done || rewrite Ep; unfold u16; apply Z.mod_pos_bound; lia).
  rewrite Elp. replace (SRC_BASE_PORT + Z.of_nat (index p) - SRC_BASE_PORT) with (Z.of_nat (index p)) by lia. rewrite mine_ours, Hi. cbn [andb negb].
  destruct (Z.eqb_spec (parismod p) 0) as [E0|E0].
  - rewrite Ep. unfold u16, u32, BASE_PORT. rewrite (Z.mod_small (_ + n)) by lia. rewrite Z.mod_small by lia. do 3 f_equal. lia.
  - change (be_value (le16 c)) with (ntohs c). rewrite (Hck E0), ntohs_ntohs by lia. rewrite (proj2 (Z.ltb_ge _ _)) by lia. done.
Qed.
End Match.

(** C13: An ICMP error over IPv4 that quotes a probe of the measurement is found to be about that probe: for TCP, ICMP and UDP, Paris or
    not, what is read from the eight bytes a router returns is the measurement and the number of the probe. *)
Theorem trt_quoted p s i h df dst port data l nrecv q x :
  params_ok p → reachable p s → busy (se s) = true → do_v6 p = false → do_tcp p && do_icmp p = false →
  probes (acts s) !! i = Some (Probe h df dst port data) →
  Z.of_nat (index p) < tabsiz s → Z.of_nat (index p) < 2 ^ 12 → 0 ≤ instance_id p < 2 ^ 4 → total p < 32102 →
  buf_ok l → 0 ≤ q → q + 8 ≤ nrecv ≤ 4224 → field l q 8 = x → quoted p s port data x →
  match4 p s (Some <$> l) nrecv (probe_proto p) q = Done (Some (probe_kind p, Z.of_nat i + 1)).
Proof.
  intros Hp Hr Hb H6 Hone Hia Htab Hidx Hinst Htot Hl Hq Hn Hx Hquo. pose proof (trt_reachable_inv p Hp s Hr) as [Hph _].
  destruct Hph as [Hidle _|_ E|hops cur Hrun [Hnp Hi]]; [destruct Hidle; congruence|by rewrite E, lookup_nil in Hia|].
  destruct (Hi i _ Hia) as (h' & port' & data' & [= -> -> -> -> ->] & Hca & _).
  pose proof (r_sent _ _ _ _ Hrun) as Hs. destruct (seq_bound p Hp hops s (r_counts _ _ _ _ Hrun) ltac:(lia)) as [Hsq _].
  assert (1 ≤ Z.of_nat i + 1 ≤ seq (se s)) as Hin by (apply lookup_lt_Some in Hia; rewrite <- Hnp; unfold zlen; lia).
  pose proof (r_live _ _ _ _ Hrun) as [_ _ _ Hsin _ _ Hlp]. rewrite H6 in Hsin.
  assert (is_inet6 (sin6 (nw s)) = false) as E6 by (destruct (sin6 (nw s)); [done|by destruct Hsin|done]).
  unfold carries in Hca. rewrite E6 in Hca. unfold quoted in Hquo. unfold probe_kind, probe_proto. destruct (do_tcp p) eqn:Et; cbn [orb] in Hquo.
  { subst x. by apply match4_tcp with data'; [done|lia|done..|lia|congruence|]. }
  destruct (do_icmp p) eqn:Ei.
  { subst x. destruct Hca as [Hc1 Hc2]. by apply match4_icmp with data'; [done|lia|done..|lia|congruence| |]. }
  destruct Hquo as (src & dst' & Hs1 & Hs2 & Ex). destruct Hca as [Ep Hck]. rewrite Ex in Hx.
  eapply match4_udp; try done; [by intros _; apply Hlp|lia|].
  intros Hpm. rewrite (proj2 (Z.eqb_neq _ 0) Hpm) in Hck. destruct (Hck ltac:(lia)) as (src1 & dst1 & E1 & E2 & E3). congruence.
Qed.
