(* ===== verification/TrtCases.v ===== *)
(** * Traceroute: cases

    Concrete measurements at which the theorems apply, and the inputs on which
    the code does not do what it means to. *)

From stdpp Require Import base list list_numbers numbers option strings.
From Stdlib Require Import ZArith Lia.
From Stdlib Require Import Floats.SpecFloat.
From S2P Require Import Prelude Bits Blocks Cstr Packet Double Wp Validate Results TrtPacket TrtParis Trt TrtProofs TrtRun TrtReply TrtStep TrtHandle TrtStart TrtLife TrtMain TrtMatch.

Open Scope Z_scope.

(** ** A measurement *)

Inductive ex_proto := ICMP | UDP | TCP.
Definition ex_params (k : ex_proto) (count maxhops gap paris dup : Z) (on_done : done_t) : params :=
  P 7 1 2 (Some (str "5001")) None (str "host") None None
    (match k with ICMP => true | _ => false end) (match k with TCP => true | _ => false end) (match k with UDP => true | _ => false end)
    false false count 40 1 maxhops gap paris 0 dup 1000000 0 on_done.
Definition ex_addr (l : list Z) : list Z := match l with [] => [] | _ => inet_ntoa l end.
Definition ex_host (sa : sockaddr) (_ : Z) : list Z :=
  match sa with AF_INET a => inet_ntoa (be32 a) | _ => str "::" end.
Definition ex_env_of (sendto : option Z) (t : Z) : env :=
  ENV (TS t 500) (TS t 500) true true None sendto 9 true (λ _, true) (λ _, None) (Some (AF_INET 0x01020304, 16))
      true (str "V") 1 (1700000000 + t) (1700000000 + t) false false ex_host ex_addr (λ _, str "error").
Definition ex_env : Z → env := ex_env_of None.
Definition ex_state : trtstate := new_state (TB [None; Some 7%nat] 99 (replicate 4224 (Some 0))) 0.
Definition ex_dst : sockaddr := AF_INET 0x08080808.

(** An IP header, an error of type [type] that quotes the bytes [q] of a probe, an echo reply. *)
Definition ex_ip (proto ttl : Z) : list Z := [0x45; 0; 0; 0; 0; 0; 0; 0; ttl; proto; 0; 0] ++ be32 0x0a000001 ++ be32 0x01020304.
Definition ex_error (type proto : Z) (q : list Z) : list Z :=
  ex_ip 1 60 ++ [type; 0; 0; 0; 0; 0; 0; 0] ++ [0x45; 0; 0; 0; 0; 0; 0; 0; 1; proto; 0; 0] ++ be32 0x01020304 ++ be32 0x08080808 ++ q.
Definition ex_echo (n : Z) : list Z := [8; 0; 0; 0] ++ be16 (1 + 2 * 4096) ++ be16 n.
Definition ex_exceeded (n : Z) : option (list Z * list Z) := Some (ex_error 11 1 (ex_echo n), [10; 0; 0; n]).
Definition ex_answer (n : Z) : option (list Z * list Z) := Some (ex_ip 1 60 ++ [0; 0; 0; 0] ++ be16 (1 + 2 * 4096) ++ be16 n, [8; 8; 8; 8]).

Definition state_of (d : trtstate) (o : outcome (unit * trtstate)) : trtstate :=
  match o with Done (_, s) => s | Crash _ => d end.
(** The state after some callbacks, and the lines they print. *)
Definition after (p : params) (tr : list (event_t * env)) (s : trtstate) : trtstate :=
  fold_left (λ s x, state_of s (handle p x.1 x.2 s)) tr s.
Definition lines (s : trtstate) : list (list Z) := acts s ≫= λ a, match a with Output t => [t] | _ => [] end.
Definition limits (s : trtstate) : list Z := acts s ≫= λ a, match a with Probe h _ _ _ _ => [h] | _ => [] end.

Lemma trt_ex_params_ok k n m g q d od : 1 ≤ n ≤ 127 → 0 ≤ m ≤ 255 → 0 ≤ q ≤ 255 → od ≠ DoneDeletes → params_ok (ex_params k n m g q d od).
Proof. intros H1 H2 H3 H4. constructor; cbn; try lia; [|done]. destruct k; auto. Qed.
Lemma trt_ex_env_ok k n m g q d od t : 0 ≤ t < 2 ^ 50 → env_ok (ex_params k n m g q d od) (ex_env t).
Proof. intros H. constructor; try done; [by left|]. by eexists _, _. Qed.
Lemma trt_ex_reachable k n m g q d od : reachable (ex_params k n m g q d od) ex_state.
Proof. apply reach_new. exists (replicate 4224 0). split; [by rewrite fmap_replicate|]. split; [by rewrite length_replicate|]. apply Forall_replicate. done. Qed.

Definition ex_resolved : event_t := Resolved None [(ex_dst, 80, 16)].
Definition ex_begin : list (event_t * env) := [(Start, ex_env 10); (ex_resolved, ex_env 10)].

Lemma trt_ex_resolved k n m g q d od s :
  busy (se s) = true → dnsip (se s) = true → enabled (ex_params k n m g q d od) ex_resolved (ex_env 10) s.
Proof. intros Hb Hd. split; [by apply trt_ex_env_ok|]. split; [done|]. split; [done|]. intros _. by eexists _, _, _, _. Qed.

(** Three hops: a router, one that does not answer, the target. *)
Definition ex_p : params := ex_params ICMP 1 30 5 16 0 DoneKeeps.
Definition ex_sending : trtstate := after ex_p ex_begin ex_state.
Definition ex_trace : list (event_t * env) := [(Ready4 (ex_exceeded 1), ex_env 11); (Timer, ex_env 12); (Ready4 (ex_answer 3), ex_env 13)].
Definition ex_done : trtstate := after ex_p ex_trace ex_sending.

Lemma trt_ex_bytes data : forallb (λ z, (0 <=? z) && (z <=? 255)) data = true → Forall is_byte data.
Proof.
  induction data as [|z data IH]; cbn; [constructor|]. rewrite !andb_true_iff, !Z.leb_le. intros [[H1 H2] H3].
  constructor; [unfold is_byte; lia|by apply IH].
Qed.

Lemma trt_ex_begin_reachable k :
  let p := ex_params k 1 30 5 16 0 DoneKeeps in reachable p (after p ex_begin ex_state).
Proof.
  intros p. apply (reach_step _ (after p [(Start, ex_env 10)] ex_state) ex_resolved (ex_env 10)).
  - apply (reach_step _ ex_state Start (ex_env 10)); [apply trt_ex_reachable|split; [by apply trt_ex_env_ok|done]|].
    destruct k; vm_compute; reflexivity.
  - apply trt_ex_resolved; destruct k; vm_compute; reflexivity.
  - destruct k; vm_compute; reflexivity.
Qed.
Lemma trt_ex_sending_reachable : reachable ex_p ex_sending.
Proof. apply (trt_ex_begin_reachable ICMP). Qed.

Lemma trt_ex_ready data from t s :
  event_icmp (nw s) = true → 0 ≤ t < 2 ^ 50 → forallb (λ z, (0 <=? z) && (z <=? 255)) data = true → enabled ex_p (Ready4 (Some (data, from))) (ex_env t) s.
Proof.
  intros He Ht Hd. split; [by apply trt_ex_env_ok|]. split; [done|]. split; [done|]. intros ? ? [= <- <-]. by apply trt_ex_bytes.
Qed.
Lemma trt_ex_timer t s : timer (nw s) ≠ None → 0 ≤ t < 2 ^ 50 → enabled ex_p Timer (ex_env t) s.
Proof. intros Hs Ht. by split; [apply trt_ex_env_ok|]. Qed.

Lemma trt_ex_run : steps ex_p ex_sending ex_trace ex_done.
Proof.
  eapply steps_cons; [by apply trt_ex_ready; vm_compute|vm_compute; reflexivity|].
  eapply steps_cons; [by apply trt_ex_timer; vm_compute|vm_compute; reflexivity|].
  eapply steps_cons; [by apply trt_ex_ready; vm_compute|vm_compute; reflexivity|]. apply steps_nil.
Qed.

Lemma trt_safe_witness :
  ∃ s', handle ex_p Timer (ex_env 11) ex_sending = Done (tt, s') ∧
    (outputs (acts s') + (if busy (se s') then 1 else 0) = resolves (acts s'))%nat ∧
    zlen (probes (acts s')) ≤ trtcount ex_p * (Z.max 0 (maxhops ex_p - firsthop ex_p) + 1) ∧
    (event_icmp (nw s') = true ∨ event_tcp (nw s') = true → timer (nw s') ≠ None) ∧ freed s' = false.
Proof.
  apply (trt_safe ex_p ex_sending Timer (ex_env 11)).
  - by apply trt_ex_params_ok.
  - apply trt_ex_sending_reachable.
  - by apply trt_ex_timer; vm_compute.
Defined.

Lemma trt_ends_witness :
  (busy (se ex_done) = false ∧ outputs (acts ex_done) = (outputs (acts ex_sending) + 1)%nat ∧
     timers ex_trace ≤ trtcount ex_p * (Z.max 0 (maxhops ex_p - firsthop ex_p) + 1)) ∨
  (busy (se ex_done) = true ∧ timer (nw ex_done) ≠ None ∧ timers ex_trace < trtcount ex_p * (Z.max 0 (maxhops ex_p - firsthop ex_p) + 1)).
Proof.
  apply (trt_ends ex_p ex_sending ex_trace ex_done).
  - by apply trt_ex_params_ok.
  - apply trt_ex_sending_reachable.
  - vm_compute. reflexivity.
  - by repeat constructor.
  - apply trt_ex_run.
Defined.

Definition ex_udp : params := ex_params UDP 1 30 5 16 0 DoneKeeps.
Definition ex_udp_sending : trtstate := after ex_udp ex_begin ex_state.
Definition ex_udp_probe : action := default DoneCb (probes (acts ex_udp_sending) !! 0%nat).
Definition ex_probe : action := default DoneCb (probes (acts ex_sending) !! 0%nat).

Lemma trt_probes_witness :
  lport (nw ex_udp_sending) = SRC_BASE_PORT + Z.of_nat (index ex_udp) ∧
  ∃ h port data, ex_udp_probe = Probe h false ex_dst port data ∧ carries ex_udp ex_udp_sending (Z.of_nat 0 + 1) port data ∧
    (h = firsthop ex_udp + Z.of_nat 0 / trtcount ex_udp ∨
     (h = 255 ∧ zlen (probes (acts ex_udp_sending)) ≤ trtcount ex_udp * (Z.of_nat 0 / trtcount ex_udp + 1))).
Proof.
  assert (Hpr : _) by (apply (trt_probes ex_udp ex_udp_sending 0 ex_udp_probe);
    [by apply trt_ex_params_ok|apply (trt_ex_begin_reachable UDP)|vm_compute; reflexivity|vm_compute; reflexivity]).
  destruct Hpr as [Hl Hpr]. split; [|exact Hpr]. apply Hl. vm_compute. reflexivity.
Defined.

Lemma trt_measurement_witness :
  ∃ e hops last l ls,
    acts ex_done = acts ex_state ++ [Resolve (str "host")] ++ l ++ printed ex_p (line ex_p e ex_done hops last) ∧
    sin6 (nw ex_done) = ex_dst ∧ complete ex_p hops last ∧ volley ex_p ex_done 0 (hops ++ [last]) l ∧
    Forall2 tells ex_trace ls ∧ entries hops last.2 = concat ls.
Proof.
  apply (trt_measurement ex_p ex_state (ex_env 10) (ex_env 10) ex_dst 80 16 ex_trace ex_done).
  - by apply trt_ex_params_ok.
  - apply trt_ex_reachable.
  - done.
  - split; [done|]. split; [done|by left].
  - split; [done|]. split; [done|by left].
  - split; [done|]. split; [done|]. vm_compute. discriminate.
  - by repeat constructor.
  - repeat (constructor; [split; [done|]; split; [done|by left]|]). constructor.
  - eapply steps_cons; [split; [by apply trt_ex_env_ok|done]|vm_compute; reflexivity|].
    eapply steps_cons; [apply trt_ex_resolved; vm_compute; reflexivity|vm_compute; reflexivity|]. exact trt_ex_run.
  - vm_compute. reflexivity.
Defined.

(** The array of its line. *)
Example trt_ex_line :
  hops_text [(1, [Reply (str "10.0.0.1") (concat [ttl_size 60 28; rtt_text (dbl 1000)])]); (2, [Star])]
    (3, [Reply (str "8.8.8.8") (concat [ttl_size 60 0; rtt_text (dbl 1000)])]) =
  str "{ " ++ DBQ "hop" ++ str ":1, " ++ DBQ "result" ++ str ": [ { " ++ DBQ "from" ++ str ":" ++ DBQ "10.0.0.1" ++ str ", " ++
  DBQ "ttl" ++ str ":60, " ++ DBQ "size" ++ str ":28, " ++ DBQ "rtt" ++ str ":1000.000 } ] }, { " ++ DBQ "hop" ++ str ":2, " ++
  DBQ "result" ++ str ": [ { " ++ DBQ "x" ++ str ":" ++ DBQ "*" ++ str " } ] }, { " ++ DBQ "hop" ++ str ":3, " ++ DBQ "result" ++
  str ": [ { " ++ DBQ "from" ++ str ":" ++ DBQ "8.8.8.8" ++ str ", " ++ DBQ "ttl" ++ str ":60, " ++ DBQ "size" ++ str ":0, " ++
  DBQ "rtt" ++ str ":1000.000 } ] }" ∧
  limits ex_done = [1; 2; 3] ∧ length (lines ex_done) = 1%nat.
Proof. vm_compute. auto. Qed.

(** A packet whose bytes from 48 on are those of the probe. *)
Definition ex_quote (x : list Z) : list Z := replicate 48 0 ++ x ++ replicate (4224 - 48 - length x) 0.
Definition ex_data : list Z := match ex_probe with Probe _ _ _ _ data => data | _ => [] end.

Lemma trt_quoted_witness :
  match4 ex_p ex_sending (Some <$> ex_quote (field ex_data 0 8)) 56 (probe_proto ex_p) 48 = Done (Some (probe_kind ex_p, Z.of_nat 0 + 1)).
Proof.
  apply (trt_quoted ex_p ex_sending 0 1 false ex_dst 80 ex_data (ex_quote (field ex_data 0 8)) 56 48 (field ex_data 0 8)).
  - by apply trt_ex_params_ok.
  - apply trt_ex_sending_reachable.
  - vm_compute. reflexivity.
  - done.
  - done.
  - vm_compute. reflexivity.
  - vm_compute. reflexivity.
  - vm_compute. reflexivity.
  - vm_compute. split; [discriminate|reflexivity].
  - vm_compute. reflexivity.
  - split; [vm_compute; reflexivity|]. apply trt_ex_bytes. vm_compute. reflexivity.
  - lia.
  - lia.
  - vm_compute. reflexivity.
  - reflexivity.
Defined.

Definition ex_options (count : Z) : options :=
  OPT false true false false 16 0 count 1 5 None 32 0 1000 0 (Some (str "5001")) None None 40 None None (str "host").
Definition ex_base : trtbase := TB [Some 3%nat; None] 99 (replicate 4224 (Some 0)).
Definition ex_created (count : Z) : option (params * trtstate) :=
  traceroute_init (str "/var") (str "fuzzing") (str "new") false true ex_base (Some (ex_options count)) 7 2 DoneKeeps.
Definition ex_new (count : Z) : params * trtstate := default (ex_p, ex_state) (ex_created count).

Lemma trt_init_ok_witness :
  params_ok (ex_new 3).1 ∧ reachable (ex_new 3).1 (ex_new 3).2 ∧ table (base (ex_new 3).2) !! index (ex_new 3).1 = Some (Some 7%nat) ∧
  (∀ j other, table ex_base !! j = Some (Some other) → j ≠ index (ex_new 3).1 ∧ table (base (ex_new 3).2) !! j = Some (Some other)).
Proof.
  apply (trt_init_ok (str "/var") (str "fuzzing") (str "new") false true ex_base (ex_options 3) 7 2 DoneKeeps).
  - vm_compute. reflexivity.
  - exists (replicate 4224 0). split; [vm_compute; reflexivity|]. split; [vm_compute; reflexivity|]. apply trt_ex_bytes. vm_compute. reflexivity.
  - done.
  - done.
  - cbn. lia.
  - cbn. lia.
Defined.

(** ** No answers *)

(** When [gaplimit] hops do not answer, one more hop is tried, with a limit of 255. *)
Example trt_silent :
  limits (after (ex_params ICMP 2 30 2 0 0 DoneKeeps) (ex_begin ++ replicate 6 (Timer, ex_env 12)) ex_state) = [1; 1; 2; 2; 255; 255].
Proof. vm_compute. reflexivity. Qed.

(** ** Deviations *)

Fixpoint contains (x l : list Z) : bool :=
  bool_decide (take (length x) l = x) || match l with [] => false | _ :: l' => contains x l' end.
Definition line_has (x : list Z) (s : trtstate) : bool := existsb (contains x) (lines s).

(** When [done] deletes the measurement (eooqd) and the first probe cannot be sent, the code goes on with the freed state. *)
Example trt_use_after_free :
  let p := ex_params ICMP 1 30 5 0 0 DoneDeletes in
  handle p ex_resolved (ex_env_of (Some 1) 10) (after p [(Start, ex_env 10)] ex_state) = Crash Undefined.
Proof. vm_compute. reflexivity. Qed.

(** A SYN-ACK acknowledges the sequence number plus one: a late reply to the first probe is taken for a reply to the second. *)
Definition ex_synack (n : Z) : option (list Z * list Z) :=
  Some (ex_ip 6 60 ++ be16 80 ++ be16 (20480 + 1) ++ be32 5 ++ be32 (65536 + n + 1) ++ [0x50; 0x12; 0; 0; 0; 0; 0; 0], [8; 8; 8; 8]).
Example trt_tcp_late_reply :
  let s := after (ex_params TCP 2 1 2 0 0 DoneKeeps) (ex_begin ++ [(Timer, ex_env 11); (Tcp4 (ex_synack 1), ex_env 12)]) ex_state in
  line_has (str "[ { " ++ star_text ++ str " }, { " ++ DBQ "from" ++ str ":" ++ DBQ "8.8.8.8") s = true ∧ line_has (DBQ "late") s = false.
Proof. vm_compute. auto. Qed.

(** A reply with the number of a probe that was not sent leaves an empty object. *)
Example trt_empty_object :
  line_has (str " }, {  }, { ")
    (after (ex_params ICMP 1 1 2 0 1000 DoneKeeps)
       (ex_begin ++ [(Ready4 (ex_exceeded 1), ex_env 11); (Ready4 (ex_exceeded 9), ex_env 11); (Ready4 (ex_exceeded 1), ex_env 11); (Timer, ex_env 12)])
       ex_state) = true.
Proof. vm_compute. reflexivity. Qed.

(** A late echo reply ends the measurement at a hop from which nothing was heard. *)
Example trt_late_reply_ends :
  let s := after (ex_params ICMP 1 30 5 0 0 DoneKeeps) (ex_begin ++ [(Timer, ex_env 11); (Ready4 (ex_answer 1), ex_env 11); (Timer, ex_env 12)]) ex_state in
  limits s = [1; 2] ∧ busy (se s) = false.
Proof. vm_compute. auto. Qed.

(** An error about a UDP packet counts as an answer to a TCP probe. *)
Example trt_udp_error_for_tcp :
  line_has (DBQ "err" ++ str ":" ++ DBQ "N")
    (after (ex_params TCP 1 30 5 0 0 DoneKeeps)
       (ex_begin ++ [(Ready4 (Some (ex_error 3 17 (be16 (20480 + 1) ++ be16 (33434 + 1) ++ [0; 8; 0; 0]), [10; 0; 0; 9])), ex_env 11)]) ex_state) = true.
Proof. vm_compute. reflexivity. Qed.

(** The number of probes is kept in a [char]. *)
Example trt_count_wraps : trtcount (ex_new 200).1 = -56.
Proof. vm_compute. reflexivity. Qed.

(** The time in a late reply over IPv6 is trusted: the subtraction overflows. *)
Definition ex_p6 : params :=
  P 7 1 2 None None (str "host") None None true false false true false 1 40 1 30 5 0 0 0 1000000 0 DoneKeeps.
Definition ex_env6 (t : Z) : env :=
  ENV (TS t 500) (TS t 500) true true None None 9 true (λ _, true) (λ _, None) (Some (AF_INET6 [0x2001; 0; 0; 0; 0; 0; 0; 1], 28))
      true (str "V") 1 (1700000000 + t) (1700000000 + t) false false ex_host ex_addr (λ _, str "error").
Definition ex_answer6 (n sec : Z) : option (list Z * list Z * list cmsg) :=
  Some ([129; 0; 0; 0; 0; 0; 0; 0] ++ [0; 0; 0; 0] ++ be32 99 ++ be32 1 ++ be32 n ++ le64 sec ++ le64 0, [0x20; 1], [HopLimit 60]).
Definition ex_sending6 : trtstate :=
  after ex_p6 [(Start, ex_env6 10); (Resolved None [(AF_INET6 [0x2a00; 0; 0; 0; 0; 0; 0; 8], 0, 28)], ex_env6 10); (Timer, ex_env6 11)] ex_state.
Example trt_stamp_overflow :
  handle ex_p6 (Ready6 (ex_answer6 1 (- 2 ^ 63))) (ex_env6 12) ex_sending6 = Crash Undefined ∧
  match handle ex_p6 (Ready6 (ex_answer6 1 10)) (ex_env6 12) ex_sending6 with Done (_, s) => seq (se s) = 2 | Crash _ => False end.
Proof. vm_compute. auto. Qed.
