(* ===== verification/Condmv.v ===== *)
(** * Moving result files ([eperd/condmv.c], [coreutils/condmv.c])

    Measurements append their results to files below [data/new].  The built-in test [condmv] of [eperd] and the
    applet [condmv] of busybox move such files to where they are posted from, and
    not over a file that is waiting there.  The applet can also move the contents of a directory ([do_dir]), by
    copying where the two are on different file systems ([do_cprm]).

    The file system is a finite map from resolved names to objects; there are no
    links.  What can go wrong in a call of the system is in [env]: [stat] with an error other
    than [ENOENT], files that cannot be opened, renamed or removed, writes that stop after some bytes, and what
    [readdir] returns.  Options are given as [getopt32] returns them.
    Messages are left out. *)

From stdpp Require Import base list list_numbers numbers option strings gmap.
From Stdlib Require Import ZArith Lia.
From S2P Require Import Prelude Bits Cstr Wp Validate.

Open Scope Z_scope.

(** ** Files *)

Abbreviation key := (list (list Z)).
Inductive obj := Regular (content : list Z) (mtime : Z) | Directory | Special.
Abbreviation files := (gmap key obj).
Abbreviation CM := (M files).

#[export] Instance obj_eq_dec : EqDecision obj.
Proof. solve_decision. Defined.

(** [*_fail] is the number of bytes that got into the file when the call fails. *)
Record env := ENV {
  now : Z; later : Z;   (* the first and the second call of time *)
  stat_fails : list Z → bool; open_ok : list Z → bool;
  rename_ok : list Z → list Z → bool; unlink_ok : list Z → bool;
  print_fail : option nat; close_fail : list Z → option nat;
  read_fail : list Z → option nat; write_fail : list Z → option nat; special_data : list Z → list Z;
  readdir : list Z → option (list (list Z))
}.

Inductive errno := ENOENT | EOTHER.

(** What a file holds after writing: only regular files hold anything. *)
Definition put_file (k : key) (content : list Z) (time : Z) (fs : files) : files :=
  match fs !! k with
  | Some Directory | Some Special => fs
  | _ => <[k := Regular content time]> fs
  end.
Definition content (fs : files) (k : key) : list Z :=
  match fs !! k with Some (Regular c _) => c | _ => [] end.

(** A directory moves with everything below it. *)
Definition relocate (a b k : key) : key := if bool_decide (a `prefix_of` k) then b ++ drop (length a) k else k.
Definition rename_dir (a b : key) (fs : files) : option files :=
  if bool_decide (a `prefix_of` b) then None
  else if existsb (λ k, bool_decide (b `prefix_of` k) && negb (bool_decide (k = b))) (map_to_list fs).*1 then None
  else Some (list_to_map (prod_map (relocate a b) id <$> map_to_list (delete b fs))).

Section Calls.
Context (e : env).

Definition stat (fn : list Z) : CM (errno + obj) :=
  fs ← get;
  mret (if stat_fails e fn then inl EOTHER
        else match fs !! resolve fn with Some o => inr o | None => inl ENOENT end).

(** True for a result of 0. *)
Definition rename (from to : list Z) : CM bool :=
  fs ← get;
  let a := resolve from in
  let b := resolve to in
  match fs !! a with
  | None => mret false
  | Some o =>
      if negb (rename_ok e from to) then mret false
      else if bool_decide (a = b) then mret true
      else
        match o, fs !! b with
        | Directory, Some (Regular _ _) | Directory, Some Special => mret false
        | Directory, _ =>
            match rename_dir a b fs with Some fs' => modify (λ _, fs');; mret true | None => mret false end
        | _, Some Directory => mret false
        | _, _ => modify (λ _, <[b := o]> (delete a fs));; mret true
        end
  end.

Definition unlink (fn : list Z) : CM unit :=
  fs ← get;
  match fs !! resolve fn with
  | Some Directory => mret tt
  | _ => if unlink_ok e fn then modify (delete (resolve fn)) else mret tt
  end.

(** [fopen] for writing: false for [NULL]. *)
Definition open_write (fn : list Z) : CM bool :=
  fs ← get; mret (open_ok e fn && negb (bool_decide (fs !! resolve fn = Some Directory))).

(** [fopen(fn, "a")], [fprintf] and [fclose] with their tests; false where the code gives up. *)
Definition append_line (fn text : list Z) : CM bool :=
  ok ← open_write fn;
  if negb ok then mret false
  else
    fs ← get;
    let put l := modify (put_file (resolve fn) (content fs (resolve fn) ++ l) (later e)) in
    match print_fail e with
    | Some n => put (take n text);; mret false
    | None =>
        match close_fail e fn with
        | Some n => put (take n text);; mret false
        | None => put text;; mret true
        end
    end.

(** ["%s %llu %s\n"] *)
Definition line_text (add name : list Z) : list Z :=
  add ++ str " " ++ print_dec (u64 (later e)) ++ str " " ++ name ++ [10].
End Calls.

(** ** Numbers in any base *)

(** [strtol] and [strtoul] with base 0: sign, value, rest; [None] when there is no number. *)
Definition number0 (s : list Z) : option (bool * Z * list Z) :=
  let '(_, s) := span isspace s in
  let '(neg, s) := match s with 45 :: s' => (true, s') | 43 :: s' => (false, s') | _ => (false, s) end in
  let '(base, s) :=
    match s with
    | 48 :: x :: d :: s' => if (tolower x =? 120) && (digit_value d <? 16) then (16, d :: s') else (8, s)
    | 48 :: _ => (8, s)
    | _ => (10, s)
    end in
  match span (λ c, digit_value c <? base) s with
  | ([], _) => None
  | (ds, rest) => Some (neg, value_of base ds, rest)
  end.
Definition strtoul0 (s : list Z) : Z * list Z :=
  match number0 s with
  | None => (0, s)
  | Some (neg, v, rest) => (if 2 ^ 64 <=? v then 2 ^ 64 - 1 else if neg : bool then u64 (- v) else v, rest)
  end.
Definition strtol0 (s : list Z) : Z * list Z :=
  match number0 s with
  | None => (0, s)
  | Some (neg, v, rest) =>
      let v := if neg : bool then - v else v in
      (if v <? - 2 ^ 63 then - 2 ^ 63 else if LONG_MAX <? v then LONG_MAX else v, rest)
  end.

Definition ATLAS_DATA_NEW_REL : list Z := str "data/new".
Definition ATLAS_DATA_OUT_REL : list Z := str "data/out".
Definition ATLAS_DATA_STORAGE_REL : list Z := str "data/storage".

(** [ATLAS_SPOOLDIR] and the answer of [atlas_unsafe]. *)
Record params := P { spooldir : list Z; unsafe : bool }.

(** ** The test of eperd *)
Module Test.

Definition DEFAULT_INTERVAL : Z := 60.
Record condmv_options := OPT { opt_add : option (list Z); opt_force : bool; opt_interval : option (list Z); args : list (list Z) }.
Record condmvstate := CS { from : list Z; to : list Z; atlas : option (list Z); force : bool; interval : Z }.

(** [None] for [NULL]; the argument is [None] when [getopt32] fails. *)
Definition condmv_init (p : params) (opt : option condmv_options) : option condmvstate :=
  o ← opt;
  match args o with
  | [f; t] =>
      let interval := match opt_interval o with Some l => s32 (strtoul0 l).1 | None => DEFAULT_INTERVAL end in
      if interval <=? 0 then None
      else
        rebased_from ← rebased_validated_filename (unsafe p) (spooldir p) f ATLAS_DATA_NEW_REL;
        rebased_to ← rebased_validated_filename (unsafe p) (spooldir p) t ATLAS_DATA_OUT_REL;
        Some (CS rebased_from rebased_to (opt_add o) (opt_force o) interval)
  | _ => None
  end.

(** The name with the number of the interval, in a buffer of 20 characters more than [to]. *)
Definition to_name (s : condmvstate) (time : Z) : list Z :=
  take (length (to s) + 19) (to s ++ str "." ++ print_dec (u64 time / interval s)).

Definition condmv_start (e : env) (s : condmvstate) : CM unit :=
  let to := to_name s (now e) in
  st ← stat e to;
  if (match st with inr _ => true | inl _ => false end) && negb (force s) then mret tt
  else
    ok ← match atlas s with Some a => append_line e (from s) (line_text e a (from s)) | None => mret true end;
    if negb ok then mret tt else _ ← rename e (from s) to; mret tt.

(** The state is freed. *)
Definition condmv_delete (_ : condmvstate) : option condmvstate * Z := (None, 1).

End Test.

(** ** The applet *)
Module Applet.

Record main_options := OPT {
  opt_add : option (list Z); opt_age : option (list Z); D_FLAG : bool; f_FLAG : bool; t_FLAG : bool; x_FLAG : bool;
  args : list (list Z)
}.

Section Applet.
Context (e : env).

(** The loop of [do_cprm]: what is read in parts of 1024 bytes is written; the flag is false for a short write. *)
Fixpoint copy (fuel : nat) (limit : option nat) (data out : list Z) : list Z * bool :=
  match fuel with
  | O => (out, true)
  | S fuel' =>
      let buf := take 1024 data in
      if bool_decide (buf = []) then (out, true)
      else
        match limit with
        | Some n =>
            if (n <? length out + length buf)%nat then (take n (out ++ buf), false)
            else copy fuel' limit (drop 1024 data) (out ++ buf)
        | None => copy fuel' limit (drop 1024 data) (out ++ buf)
        end
  end.

(** What can be read, and whether reading ends with an error. *)
Definition readable (fn : list Z) (o : option obj) : list Z * bool :=
  match o with
  | Some (Regular c _) => match read_fail e fn with Some n => (take n c, true) | None => (c, false) end
  | Some Special => (special_data e fn, false)
  | _ => ([], true)
  end.

Definition do_cprm (from_file to_file : list Z) : CM Z :=
  fs ← get;
  if bool_decide (fs !! resolve from_file = None) || negb (open_ok e from_file) then mret 1
  else
    ok ← open_write e to_file;
    if negb ok then mret 1
    else
      modify (put_file (resolve to_file) [] (now e));;
      fs ← get;
      let '(data, ferror) := readable from_file (fs !! resolve from_file) in
      let '(out, complete) := copy (S (length data)) (write_fail e to_file) data [] in
      if negb complete || ferror then
        modify (put_file (resolve to_file) out (now e));;
        unlink e to_file;; mret 1
      else
        (* the result of fclose is not tested *)
        modify (put_file (resolve to_file) (match close_fail e to_file with Some n => take n out | None => out end) (now e));;
        unlink e from_file;; mret 0.

(** [snprintf] into a buffer of [len] bytes *)
Definition bounded (len : nat) (l : list Z) : list Z := take (len - 1) l.

Section Dir.
Context (age_value : Z) (cross_filesystems append_timestamp : bool) (from_dir to_dir : list Z).

Definition too_young (mtime : Z) : CM bool :=
  if age_value =? 0 then mret false else t ← lift (chk64 (mtime + age_value)); mret (now e <? t).

Definition move (from_file to_file : list Z) : CM bool :=
  if cross_filesystems then r ← do_cprm from_file to_file; mret (r =? 0) else rename e from_file to_file.

Definition to_text (d_name : list Z) : list Z :=
  to_dir ++ str "/" ++ d_name ++ (if append_timestamp then str "." ++ print_dec (u64 (now e)) else []).
Definition to_len (d_name : list Z) : nat :=
  (length to_dir + 1 + length d_name + (if append_timestamp then 16 else 0) + 1)%nat.

(** The loop over what [readdir] returns, with the sizes of the two buffers. *)
Fixpoint dir_loop (l : list (list Z)) (from_file_len to_file_len : nat) : CM Z :=
  match l with
  | [] => mret 0
  | d_name :: l' =>
      let from_file_len := (from_file_len `max` (length from_dir + 1 + length d_name + 1))%nat in
      let from_file := bounded from_file_len (from_dir ++ str "/" ++ d_name) in
      st ← stat e from_file;
      match st with
      | inl _ => mret 1
      | inr (Regular _ mtime) =>
          young ← too_young mtime;
          if young : bool then dir_loop l' from_file_len to_file_len
          else
            let to_file_len := (to_file_len `max` to_len d_name)%nat in
            let to_file := bounded to_file_len (to_text d_name) in
            st ← stat e to_file;
            match st with
            | inl ENOENT =>
                ok ← move from_file to_file;
                if ok : bool then dir_loop l' from_file_len to_file_len else mret 1
            | _ => dir_loop l' from_file_len to_file_len
            end
      | inr _ => dir_loop l' from_file_len to_file_len
      end
  end.

Definition do_dir : CM Z :=
  match readdir e from_dir with None => mret 1 | Some l => dir_loop l 0 0 end.
End Dir.

(** The first prefix that accepts the name. *)
Fixpoint first_valid (p : params) (name : list Z) (prefixes : list (list Z)) : option (list Z) :=
  match prefixes with
  | [] => None
  | q :: prefixes' =>
      match rebased_validated_filename (unsafe p) (spooldir p) name q with
      | Some r => Some r
      | None => first_valid p name prefixes'
      end
  end.

(** [None] for a bad age *)
Definition parse_age (o : main_options) : option Z :=
  match opt_age o with
  | None => Some 0
  | Some l => let '(v, check) := strtol0 l in
              if negb (bool_decide (check = [])) || (v <=? 0) then None else Some v
  end.

(** Without [-D]; [name] is the source as it was given. *)
Definition move_one (o : main_options) (name rebased_from rebased_to : list Z) : CM Z :=
  st ← stat e rebased_to;
  if (match st with inr _ => true | inl _ => false end) && negb (f_FLAG o) then mret 1
  else
    ok ← match opt_add o with Some a => append_line e rebased_from (line_text e a name) | None => mret true end;
    if negb ok then mret 1
    else
      st ← stat e rebased_from;
      match st with
      | inl ENOENT => mret 1
      | _ => ok ← rename e rebased_from rebased_to; mret (if ok : bool then 0 else 1)
      end.

Definition condmv_main (p : params) (opt : option main_options) : CM Z :=
  match opt with
  | None => mret 1
  | Some o =>
      match args o with
      | [f; t] =>
          match first_valid p f [ATLAS_DATA_NEW_REL; ATLAS_DATA_OUT_REL] with
          | None => mret 1
          | Some rebased_from =>
              match first_valid p t [ATLAS_DATA_OUT_REL; ATLAS_DATA_STORAGE_REL; ATLAS_DATA_NEW_REL] with
              | None => mret 1
              | Some rebased_to =>
                  match parse_age o with
                  | None => mret 1
                  | Some age_value =>
                      if D_FLAG o then do_dir age_value (x_FLAG o) (t_FLAG o) rebased_from rebased_to
                      else move_one o f rebased_from rebased_to
                  end
              end
          end
      | _ => mret 1
      end
  end.
End Applet.
End Applet.
