(* ===== verification/CondmvProofs.v ===== *)
(** * Moving result files: no file is lost or overwritten *)

From stdpp Require Import base list list_numbers numbers option strings gmap.
From Stdlib Require Import ZArith Lia.
From S2P Require Import Prelude Bits Cstr Packet Double Wp Validate Condmv.

Open Scope Z_scope.

(** ** Specification *)

(** Every object of [fs] is still in [fs'], no two in the same place: under its name, or
    where [R] allows it to be moved; its contents as [D] says. *)
Definition kept (R : key → key → Prop) (D : key → obj → obj → Prop) (fs fs' : files) : Prop :=
  ∃ f : key → key,
    (∀ k1 k2, is_Some (fs !! k1) → is_Some (fs !! k2) → f k1 = f k2 → k1 = k2) ∧
    (∀ k o, fs !! k = Some o → (f k = k ∨ R k (f k)) ∧ ∃ o', fs' !! f k = Some o' ∧ D k o o').

(** The same contents; copying changes the time. *)
Definition same_data (o o' : obj) : Prop :=
  match o, o' with Regular c _, Regular c' _ => c = c' | _, _ => o = o' end.

Lemma same_data_refl o : same_data o o.
Proof. by destruct o. Qed.
Lemma same_data_trans o1 o2 o3 : same_data o1 o2 → same_data o2 o3 → same_data o1 o3.
Proof. destruct o1, o2, o3; cbn; congruence. Qed.
#[export] Hint Resolve same_data_refl : core.

Lemma kept_stay R D fs fs' :
  (∀ k o, fs !! k = Some o → ∃ o', fs' !! k = Some o' ∧ D k o o') → kept R D fs fs'.
Proof. intros H. exists (λ k, k). split; [done|]. intros k o E. split; [by left|by apply H]. Qed.

Lemma kept_subseteq R fs fs' : fs ⊆ fs' → kept R (λ _, same_data) fs fs'.
Proof. intros H. apply kept_stay. intros k o E. exists o. split; [|done]. by eapply lookup_weaken. Qed.

Lemma kept_trans (R : key → key → Prop) D1 D2 D3 fs1 fs2 fs3 :
  (∀ a b c, R a b → R b c → R a c) →
  (∀ k k' o1 o2 o3, D1 k o1 o2 → D2 k' o2 o3 → D3 k o1 o3) →
  kept R D1 fs1 fs2 → kept R D2 fs2 fs3 → kept R D3 fs1 fs3.
Proof.
  intros HR HD (f & Hf & Kf) (g & Hg & Kg). exists (g ∘ f). split.
  - intros k1 k2 [o1 E1] [o2 E2] E. destruct (Kf _ _ E1) as [_ (o1' & E1' & _)], (Kf _ _ E2) as [_ (o2' & E2' & _)].
    apply Hf; [by eexists..|]. apply Hg; [by eexists..|done].
  - intros k o E. destruct (Kf _ _ E) as [H1 (o1 & E1 & ?)]. destruct (Kg _ _ E1) as [H2 (o2 & E2 & ?)].
    split; [|eauto]. cbn. destruct H1 as [H1|H1], H2 as [H2|H2]; rewrite ?H1 in *; rewrite ?H2 in *; eauto.
Qed.
(** When only names that keep their place come first. *)
Lemma kept_after R D1 D2 D3 fs1 fs2 fs3 :
  (∀ k o1 o2 o3, D1 k o1 o2 → D2 k o2 o3 → D3 k o1 o3) →
  (∀ k o, fs1 !! k = Some o → ∃ o', fs2 !! k = Some o' ∧ D1 k o o') → kept R D2 fs2 fs3 → kept R D3 fs1 fs3.
Proof.
  intros HD H1 (g & Hg & Kg). exists g. split.
  - intros k1 k2 [o1 E1] [o2 E2] E. destruct (H1 _ _ E1) as (? & ? & _), (H1 _ _ E2) as (? & ? & _). apply Hg; [by eexists..|done].
  - intros k o E. destruct (H1 _ _ E) as (o1 & E1 & ?). destruct (Kg _ _ E1) as [? (o2 & E2 & ?)]. eauto.
Qed.

(** One object moves to a free place. *)
Lemma kept_move R D fs a b o o' :
  fs !! a = Some o → fs !! b = None → R a b → D a o o' → (∀ k o, D k o o) →
  kept R D fs (<[b := o']> (delete a fs)).
Proof.
  intros Ea Eb HR HD Hrefl. exists (λ k, if bool_decide (k = a) then b else k). split.
  - intros k1 k2 [o1 E1] [o2 E2]. repeat case_bool_decide; intros; simplify_eq; congruence.
  - intros k x E. case_bool_decide as Hk.
    + subst. simplify_eq. split; [by right|]. rewrite lookup_insert_eq. eauto.
    + split; [by left|]. exists x. split; [|done]. rewrite lookup_insert_ne by congruence. by rewrite lookup_delete_ne.
Qed.

(** ** Copying *)

Lemma put_file_free k c t fs : fs !! k = None → put_file k c t fs = <[k := Regular c t]> fs.
Proof. intros E. unfold put_file. by rewrite E. Qed.
Lemma put_file_again k c t c' t' fs : put_file k c t (<[k := Regular c' t']> fs) = <[k := Regular c t]> fs.
Proof. unfold put_file. by rewrite lookup_insert_eq, insert_insert_eq. Qed.

Lemma copy_complete fuel limit data out r :
  (length data < fuel)%nat → Applet.copy fuel limit data out = (r, true) → r = out ++ data.
Proof.
  revert data out. induction fuel as [|fuel IH]; intros data out Hl; [lia|]. cbn [Applet.copy].
  case_bool_decide as Hb.
  { intros [= <-]. destruct data as [|x data]; [by rewrite app_nil_r|done]. }
  assert (length (drop 1024 data) < fuel)%nat as Hd.
  { rewrite length_drop. destruct data; [done|]. cbn [length] in *. lia. }
  assert (Applet.copy fuel limit (drop 1024 data) (out ++ take 1024 data) = (r, true) → r = out ++ data) as Hgo.
  { intros E. apply IH in E; [|done]. by rewrite E, <- app_assoc, take_drop. }
  destruct limit as [n|]; [|exact Hgo]. destruct (n <? _)%nat; [done|exact Hgo].
Qed.

Lemma copy_all fuel data out : (length data < fuel)%nat → Applet.copy fuel None data out = (out ++ data, true).
Proof.
  intros Hl. destruct (Applet.copy fuel None data out) as [r c] eqn:E.
  assert (c = true) as ->; [|by rewrite (copy_complete _ _ _ _ _ Hl E)].
  revert data out Hl E. induction fuel as [|fuel IH]; intros data out Hl; [lia|]. cbn [Applet.copy].
  case_bool_decide as Hb; [by intros [= _ <-]|]. apply IH. rewrite length_drop. destruct data; [done|]. cbn [length] in *. lia.
Qed.

(** What becomes of a file [a] with contents [c] that is moved to the free name [b]: nothing, it is
    there too (perhaps in part), or it is there. *)
Inductive moving (e : env) (a b : key) (c : list Z) (m : Z) (fs : files) : files → Prop :=
| moving_none : moving e a b c m fs fs
| moving_part x : moving e a b c m fs (<[b := Regular x (now e)]> fs)
| moving_all m' : m' = m ∨ m' = now e → moving e a b c m fs (<[b := Regular c m']> (delete a fs)).
#[export] Hint Constructors moving : core.

(** No call fails. *)
Record smooth (e : env) : Prop := Smooth {
  smooth_stat fn : stat_fails e fn = false; smooth_open fn : open_ok e fn = true;
  smooth_rename a b : rename_ok e a b = true; smooth_unlink fn : unlink_ok e fn = true;
  smooth_print : print_fail e = None; smooth_close fn : close_fail e fn = None;
  smooth_read fn : read_fail e fn = None; smooth_write fn : write_fail e fn = None
}.

(** [do_cprm] onto a free name: a failure leaves everything, success leaves the
    contents in the new place. *)
Lemma wp_do_cprm e a b c m fs :
  fs !! resolve a = Some (Regular c m) → fs !! resolve b = None → close_fail e b = None →
  wp (Applet.do_cprm e a b)
    (λ r fs', moving e (resolve a) (resolve b) c m fs fs' ∧
       (smooth e → r = 0 ∧ fs' = <[resolve b := Regular c (now e)]> (delete (resolve a) fs))) fs.
Proof.
  intros Ea Eb Hc. assert (resolve a ≠ resolve b) as Hne by congruence.
  unfold Applet.do_cprm, open_write. wp_steps. rewrite Ea, (bool_decide_false (_ = None)) by done. cbn [orb].
  destruct (open_ok e a) eqn:E1; cbn [negb orb]; wp_steps; [|split; [done|]; intros []; congruence].
  rewrite Eb, (bool_decide_false (None = _)) by done.
  destruct (open_ok e b) eqn:E2; cbn [andb negb]; wp_steps; [|split; [done|]; intros []; congruence].
  rewrite (put_file_free _ _ _ _ Eb), lookup_insert_ne, Ea by done.
  destruct (Applet.readable e a (Some (Regular c m))) as [data err] eqn:Er.
  destruct (Applet.copy _ _ data []) as [out complete] eqn:Ec.
  destruct (negb complete || err) eqn:Efail; wp_steps; rewrite put_file_again; unfold unlink; wp_steps.
  - assert (¬ smooth e) as Hns.
    { intros []. cbn in Er. rewrite smooth_read0 in Er. injection Er as <- <-.
      rewrite smooth_write0, copy_all in Ec by lia. by injection Ec as _ <-. }
    rewrite lookup_insert_eq. destruct (unlink_ok e b); wp_steps; split; done || auto. by rewrite delete_insert_id.
  - apply orb_false_iff in Efail as [? ->]. destruct complete; [|done]. apply copy_complete in Ec; [|lia]. cbn in Ec. subst out.
    assert (data = c) as -> by (cbn in Er; by destruct (read_fail e a); simplify_eq).
    rewrite Hc. rewrite lookup_insert_ne, Ea by done.
    destruct (unlink_ok e a) eqn:E3; wp_steps; [|split; [done|]; intros []; congruence].
    rewrite delete_insert_ne by done. auto.
Qed.

(** [rename] of a regular file to a free name *)
Lemma wp_rename_free e a b c m fs :
  fs !! resolve a = Some (Regular c m) → fs !! resolve b = None →
  wp (rename e a b) (λ r fs', r = rename_ok e a b ∧
    fs' = if rename_ok e a b then <[resolve b := Regular c m]> (delete (resolve a) fs) else fs) fs.
Proof.
  intros Ea Eb. unfold rename. wp_steps. rewrite Ea. destruct (rename_ok e a b); cbn [negb]; wp_steps; [|done].
  rewrite bool_decide_false by congruence. rewrite Eb. by wp_steps.
Qed.

Lemma wp_move e x a b c m fs :
  fs !! resolve a = Some (Regular c m) → fs !! resolve b = None → (x = true → close_fail e b = None) →
  wp (Applet.move e x a b)
    (λ r fs', moving e (resolve a) (resolve b) c m fs fs' ∧
       (smooth e → r = true ∧ ∃ m', fs' = <[resolve b := Regular c m']> (delete (resolve a) fs))) fs.
Proof.
  intros Ea Eb Hc. unfold Applet.move. destruct x.
  - apply wp_bind. eapply wp_mono; [by apply wp_do_cprm; auto|]. cbv beta. intros r fs' [Hm Hs]. wp_steps.
    split; [done|]. intros H. destruct (Hs H) as [-> ->]. eauto.
  - eapply wp_mono; [by apply wp_rename_free|]. cbv beta. intros r fs' [-> ->].
    destruct (rename_ok e a b) eqn:E; (split; [by auto|]); [by eauto|]. intros []. congruence.
Qed.

Lemma moving_kept (R : key → key → Prop) e a b c m fs fs' :
  fs !! a = Some (Regular c m) → fs !! b = None → R a b → moving e a b c m fs fs' → kept R (λ _, same_data) fs fs'.
Proof.
  intros Ea Eb HR H. destruct H.
  - by apply kept_subseteq.
  - by apply kept_subseteq, insert_subseteq.
  - by eapply kept_move.
Qed.

(** ** Moving the contents of a directory *)

(** Times are those of a clock that does not overflow when an age is added. *)
Definition times_ok (fs : files) : Prop := ∀ k c m, fs !! k = Some (Regular c m) → - 2 ^ 61 ≤ m < 2 ^ 61.

Lemma moving_times e a b c m fs fs' :
  times_ok fs → fs !! a = Some (Regular c m) → - 2 ^ 61 ≤ now e < 2 ^ 61 → moving e a b c m fs fs' → times_ok fs'.
Proof.
  intros Ht Ea Hn H. destruct H as [|x|m' Hm]; [done|..]; intros k y t E.
  - apply lookup_insert_Some in E as [[_ [= _ <-]]|[_ E]]; [done|eauto].
  - apply lookup_insert_Some in E as [[_ [= _ <-]]|[_ E]].
    + destruct Hm as [->| ->]; eauto.
    + apply lookup_delete_Some in E as [_ E]. eauto.
Qed.

Section Dir.
Context (e : env) (age : Z) (x t : bool) (from_dir to_dir : list Z).
Context (Hage : 0 ≤ age < 2 ^ 61) (Hnow : 0 ≤ now e < 10 ^ 14).

Definition src (d : list Z) : key := resolve (from_dir ++ str "/" ++ d).
Definition dst (d : list Z) : key := resolve (Applet.to_text e t to_dir d).

(** The buffers are large enough. *)
Lemma from_file_fits n d :
  Applet.bounded (n `max` (length from_dir + 1 + length d + 1)) (from_dir ++ str "/" ++ d) = from_dir ++ str "/" ++ d.
Proof. unfold Applet.bounded. apply take_ge. rewrite !length_app. change (length (str "/")) with 1%nat. lia. Qed.
Lemma to_file_fits n d : Applet.bounded (n `max` Applet.to_len t to_dir d) (Applet.to_text e t to_dir d) = Applet.to_text e t to_dir d.
Proof.
  unfold Applet.bounded, Applet.to_text, Applet.to_len. apply take_ge. rewrite !length_app. change (length (str "/")) with 1%nat.
  destruct t; [|cbn [length]; lia]. rewrite length_app. change (length (str ".")) with 1%nat.
  assert (length (print_dec (u64 (now e))) ≤ 15)%nat; [|lia].
  apply (length_dec 20 14). unfold u64. rewrite Z.mod_small by lia. done.
Qed.

(** A file the age does not keep here *)
Definition old (m : Z) : Prop := age = 0 ∨ m + age ≤ now e.

Lemma wp_too_young m fs : - 2 ^ 61 ≤ m < 2 ^ 61 → wp (Applet.too_young e age m) (λ r fs', fs' = fs ∧ (r = false ↔ old m)) fs.
Proof.
  intros Hm. unfold Applet.too_young, old. destruct (Z.eqb_spec age 0) as [->|Hne]; wp_steps; [split; [done|]; tauto|].
  eapply wp_lift; [apply chk64_small; lia|]. wp_steps. split; [done|]. rewrite Z.ltb_ge. intuition lia.
Qed.

(** The moves of the names in [l] *)
Definition moves (l : list (list Z)) (a b : key) : Prop := (∃ d, d ∈ l ∧ a = src d) ∧ (∃ d, d ∈ l ∧ b = dst d).

Lemma wp_dir_loop_kept all l fl tl fs :
  (x = true → ∀ fn, close_fail e fn = None) → times_ok fs → (∀ d, d ∈ l → d ∈ all) →
  wp (Applet.dir_loop e age x t from_dir to_dir l fl tl) (λ _ fs', kept (moves all) (λ _, same_data) fs fs') fs.
Proof.
  intros Hx. revert fl tl fs. induction l as [|d l IH]; intros fl tl fs Ht Hl; cbn [Applet.dir_loop]; unfold stat.
  { wp_steps. by apply kept_subseteq. }
  assert (∀ d, d ∈ l → d ∈ all) as Hl' by (intros; apply Hl; by right).
  rewrite from_file_fits. wp_steps. destruct (stat_fails e _); [wp_steps; by apply kept_subseteq|].
  fold (src d). destruct (fs !! src d) as [[c m| |]|] eqn:Es; [|by apply IH..|wp_steps; by apply kept_subseteq].
  wp_steps. eapply wp_mono; [by eapply wp_too_young, Ht|]. cbv beta. intros young ? [-> _].
  destruct young; [by apply IH|]. rewrite to_file_fits. wp_steps. fold (dst d).
  destruct (stat_fails e _); [by apply IH|]. destruct (fs !! dst d) eqn:Ed; [by apply IH|].
  wp_steps. eapply wp_mono; [apply (wp_move e x _ _ c m); auto|]. cbv beta. intros ok fs' [Hm _].
  assert (kept (moves all) (λ _, same_data) fs fs') as Hk.
  { eapply moving_kept; [exact Es|exact Ed| |exact Hm]. split; exists d; (split; [apply Hl; by left|done]). }
  destruct ok; wp_steps; [|done]. eapply wp_mono; [apply IH; [|done]|].
  { eapply moving_times; [exact Ht|exact Es| |exact Hm]. lia. }
  cbv beta. intros _ fs'' Hk'. eapply (kept_trans _ (λ _, same_data) (λ _, same_data)); [| |exact Hk|exact Hk'].
  - by intros ??? [H1 _] [_ H2].
  - intros ? ? ???. apply same_data_trans.
Qed.

(** *** Nothing in the way *)

Definition plain (d : list Z) : Prop := d ≠ [] ∧ d ≠ [46] ∧ d ≠ dotdot ∧ slash ∉ d.
(** A regular file to be moved *)
Definition due (fs : files) (d : list Z) : Prop := ∃ c m, fs !! src d = Some (Regular c m) ∧ old m ∧ fs !! dst d = None.
(** The files of [l] that are due were moved, and nothing else changed. *)
Definition dir_moved (l : list (list Z)) (fs fs' : files) : Prop :=
  (∀ d, d ∈ l → due fs d → fs' !! src d = None ∧ ∃ m', fs' !! dst d = Some (Regular (content fs (src d)) m')) ∧
  (∀ k, (∀ d, d ∈ l → due fs d → k ≠ src d ∧ k ≠ dst d) → fs' !! k = fs !! k).
End Dir.

(** ** Names *)

Lemma components_plain d : slash ∉ d → components d = [d].
Proof.
  induction d as [|c d IH]; [done|]. intros H. apply not_elem_of_cons in H as [H1 H2]. cbn [components].
  destruct (Z.eqb_spec c slash); [congruence|]. by rewrite IH.
Qed.
Lemma resolve_plain dir d : plain d → resolve (dir ++ str "/" ++ d) = resolve dir ++ [d].
Proof.
  intros (H1 & H2 & H3 & H4). change (dir ++ str "/" ++ d) with (dir ++ slash :: d).
  unfold resolve. rewrite components_app, fold_left_app, components_plain by done. cbn [fold_left]. unfold resolve1 at 1.
  rewrite !bool_decide_false; tauto.
Qed.

Lemma dec_digits_digit n z : 0 ≤ z → Forall (λ c, 48 ≤ c ≤ 57) (dec_digits n z).
Proof.
  revert z. induction n as [|n IH]; intros z Hz; cbn [dec_digits]; [constructor|].
  destruct (Z.ltb_spec z 10); [repeat constructor; lia|]. apply Forall_app. split; [apply IH, Z.div_pos; lia|].
  pose proof (Z.mod_pos_bound z 10). repeat constructor; lia.
Qed.
Lemma print_dec_digit z : 0 ≤ z → Forall (λ c, 48 ≤ c ≤ 57) (print_dec z) ∧ print_dec z ≠ [].
Proof.
  intros Hz. split; [by apply dec_digits_digit|]. unfold print_dec. generalize 19%nat. intros n. cbn [dec_digits].
  destruct (z <? 10); [done|]. by destruct (dec_digits n (z / 10)).
Qed.

Lemma plain_stamp d z : plain d → 0 ≤ z → plain (d ++ str "." ++ print_dec z).
Proof.
  intros (H1 & _ & _ & H4) Hz. destruct (print_dec_digit z Hz) as [Hd Hn]. destruct d as [|c d]; [done|]. destruct (print_dec z) as [|v l] eqn:E; [done|].
  unfold plain, dotdot, slash in *. split_and!; [done|by destruct d|destruct d as [|? [|]]; done|].
  rewrite !elem_of_app. intros [?|[H|H]]; [done|..].
  - change (str ".") with [46] in H. apply list_elem_of_singleton in H. lia.
  - rewrite Forall_forall in Hd. apply Hd in H. lia.
Qed.

Section DirMoves.
Context (e : env) (age : Z) (x t : bool) (from_dir to_dir : list Z).
Context (Hage : 0 ≤ age < 2 ^ 61) (Hnow : 0 ≤ now e < 10 ^ 14) (Hne : resolve from_dir ≠ resolve to_dir) (He : smooth e).

Let S := src from_dir.
Let T := dst e t to_dir.

Lemma src_name d : plain d → S d = resolve from_dir ++ [d].
Proof. apply resolve_plain. Qed.
Lemma dst_name d : plain d → T d = resolve to_dir ++ [d ++ (if t then str "." ++ print_dec (now e) else [])].
Proof.
  intros Hd. unfold T, dst, Applet.to_text. unfold u64. rewrite Z.mod_small by lia. apply resolve_plain.
  destruct t; [by apply plain_stamp; [|lia]|by rewrite app_nil_r].
Qed.
Lemma src_inj d d' : plain d → plain d' → S d = S d' → d = d'.
Proof. intros H H'. rewrite !src_name by done. intros E. by simplify_list_eq. Qed.
Lemma dst_inj d d' : plain d → plain d' → T d = T d' → d = d'.
Proof. intros H H'. rewrite !dst_name by done. intros E. by simplify_list_eq. Qed.
Lemma src_dst d d' : plain d → plain d' → S d ≠ T d'.
Proof. intros H H'. rewrite src_name, dst_name by done. intros E. apply app_inj_2 in E as [E _]; done. Qed.

(** What [readdir] returns: names of files, and the two directories. *)
Definition entry_ok (fs : files) (d : list Z) : Prop :=
  is_Some (fs !! S d) ∧ (plain d ∨ fs !! S d = Some Directory).

Abbreviation due := (due e age t from_dir to_dir).
Abbreviation dir_moved := (dir_moved e age t from_dir to_dir).

Lemma due_plain fs d : entry_ok fs d → due fs d → plain d.
Proof. intros [_ [?|E]] (c & m & E' & _); [done|]. unfold S in E. congruence. Qed.

Lemma dir_moved_skip d l fs fs' : ¬ due fs d → dir_moved l fs fs' → dir_moved (d :: l) fs fs'.
Proof.
  intros Hd [H1 H2]. split.
  - intros d' [->|Hin]%elem_of_cons Hdue; [done|by apply H1].
  - intros k Hk. apply H2. intros d' Hin. apply Hk. by right.
Qed.

(** Moving [d] does not concern the other names. *)
Lemma moved_others d d' c m m' fs fs1 :
  plain d → d ≠ d' → fs !! S d = Some (Regular c m) → fs !! T d = None → entry_ok fs d' →
  fs1 = <[T d := Regular c m']> (delete (S d) fs) →
  fs1 !! S d' = fs !! S d' ∧ (due fs1 d' ↔ due fs d') ∧ (due fs d' → S d' ≠ S d ∧ S d' ≠ T d ∧ T d' ≠ S d ∧ T d' ≠ T d).
Proof.
  intros Hd Hdd Es Et Hd' ->.
  assert (S d' ≠ S d ∧ S d' ≠ T d) as [N1 N2].
  { destruct Hd' as [[o Eo] [Hp|E]]; (split; [|congruence]); intros E'; [|congruence]. apply Hdd. symmetry. by apply src_inj. }
  assert (<[T d:=Regular c m']> (delete (S d) fs) !! S d' = fs !! S d') as E.
  { by rewrite lookup_insert_ne, lookup_delete_ne. }
  split; [done|].
  assert (plain d' → T d' ≠ S d ∧ T d' ≠ T d) as N3.
  { intros Hp. split; [intros E'; by apply eq_sym, src_dst in E'|]. intros E'. apply Hdd. symmetry. by apply dst_inj. }
  split; [|intros H; apply due_plain in H; [|done]; destruct (N3 H); done].
  unfold CondmvProofs.due. fold S T. rewrite E. destruct Hd' as [_ [Hp|Ed]].
  - destruct (N3 Hp). by rewrite (lookup_insert_ne _ (T d)), lookup_delete_ne.
  - rewrite Ed. split; by intros (? & ? & ? & _).
Qed.

Lemma wp_dir_loop_moves l fl tl fs :
  times_ok fs → NoDup l → (∀ d, d ∈ l → entry_ok fs d) →
  wp (Applet.dir_loop e age x t from_dir to_dir l fl tl) (λ r fs', r = 0 ∧ dir_moved l fs fs') fs.
Proof.
  revert fl tl fs. induction l as [|d l IH]; intros fl tl fs Ht Hnd Hl; cbn [Applet.dir_loop]; unfold stat.
  { wp_steps. split; [done|]. split; [|done]. intros d Hd. by apply elem_of_nil in Hd. }
  apply NoDup_cons in Hnd as [Hd Hnd]. pose proof (Hl d ltac:(by left)) as Hent.
  assert (∀ d, d ∈ l → entry_ok fs d) as Hl' by (intros; apply Hl; by right).
  assert (∀ fl tl, ¬ due fs d →
    wp (Applet.dir_loop e age x t from_dir to_dir l fl tl) (λ r fs', r = 0 ∧ dir_moved (d :: l) fs fs') fs) as Hskip.
  { intros fl' tl' Hnot. eapply wp_mono; [by apply IH|]. cbv beta. intros r fs' [-> H]. split; [done|]. by apply dir_moved_skip. }
  rewrite from_file_fits. wp_steps. rewrite (smooth_stat e He). fold (src from_dir d) (S d).
  destruct (fs !! S d) as [[c m| |]|] eqn:Es;
    [|apply Hskip; intros (? & ? & E & _); unfold S in *; congruence..|by destruct Hent as [[] _]; congruence].
  wp_steps. eapply wp_mono; [by eapply wp_too_young, Ht|]. cbv beta. intros young ? [-> Hy].
  destruct young. { apply Hskip. intros (? & ? & E & Hold & _). unfold S in Es. simplify_eq. by apply Hy in Hold. }
  rewrite to_file_fits by done. wp_steps. rewrite (smooth_stat e He). fold (dst e t to_dir d) (T d).
  destruct (fs !! T d) eqn:Ed. { apply Hskip. intros (? & ? & _ & _ & E). unfold T in *. congruence. }
  wp_steps. eapply wp_mono; [apply (wp_move e x _ _ c m); [done|done|intros _; apply He]|]. cbv beta.
  intros ok fs1 [Hm Hs]. destruct (Hs He) as [-> (m' & E1)]. fold (src from_dir d) (S d) (dst e t to_dir d) (T d) in E1, Hm.
  assert (plain d) as Hp by (destruct Hent as [_ [?|?]]; [done|congruence]).
  assert (∀ d', d' ∈ l → fs1 !! S d' = fs !! S d' ∧ (due fs1 d' ↔ due fs d') ∧
            (due fs d' → S d' ≠ S d ∧ S d' ≠ T d ∧ T d' ≠ S d ∧ T d' ≠ T d)) as Ho.
  { intros d' Hin. eapply moved_others; [done| |exact Es|exact Ed|by apply Hl'|exact E1]. by intros ->. }
  eapply wp_mono; [apply IH; [by eapply moving_times; [exact Ht|exact Es| |exact Hm]; lia|done|]|].
  { intros d' Hin. destruct (Hl' d' Hin) as [Ha Hb]. destruct (Ho d' Hin) as [E _]. unfold entry_ok. by rewrite E. }
  cbv beta. intros r fs' [-> [H1 H2]]. split; [done|]. split.
  - intros d' [->|Hin]%elem_of_cons Hdue.
    + fold (S d) (T d). assert (∀ d', d' ∈ l → due fs1 d' → S d' ≠ S d ∧ S d' ≠ T d ∧ T d' ≠ S d ∧ T d' ≠ T d) as Hn.
      { intros d' Hin Hd'. destruct (Ho d' Hin) as (_ & Hiff & Hn). by apply Hn, Hiff. }
      rewrite !H2 by (intros d' Hin Hd'; destruct (Hn d' Hin Hd') as (? & ? & ? & ?); split; by apply not_eq_sym).
      subst fs1. rewrite lookup_insert_eq, lookup_insert_ne, lookup_delete_eq by (intros E; by apply eq_sym, src_dst in E).
      unfold content. rewrite Es. eauto.
    + destruct (Ho d' Hin) as (E & Hiff & _). destruct (H1 d' Hin) as [Ha Hb]; [by apply Hiff|]. split; [done|].
      unfold content in *. unfold S in E. by rewrite <- E.
  - intros k Hk. rewrite H2.
    + destruct (Hk d) as [Ka Kb]; [by left| |]. { exists c, m. split_and!; [done|by apply Hy|done]. }
      subst fs1. by rewrite lookup_insert_ne, lookup_delete_ne.
    + intros d' Hin Hdue. apply Hk; [by right|]. by apply Ho.
Qed.
End DirMoves.
