(* ===== verification/CondmvMain.v ===== *)
(** * Moving result files: whole runs

    The applet [condmv]: without [-f] no file is lost or overwritten, and with [-D] everything that can be
    moved is moved.  The test of eperd over time: measurements append to the source, the test moves it to a name with the number of the
    interval, and others take the moved files away. *)

From stdpp Require Import base list list_numbers numbers option strings gmap.
From Stdlib Require Import ZArith Lia.
From S2P Require Import Prelude Bits Cstr Packet Double Wp Validate Condmv CondmvProofs.

Open Scope Z_scope.

(** ** [rename] to a free name *)

(** The object [a] and what is below it, if it is a directory, become [b]. *)
Definition below (a b k k' : key) : Prop := ∃ rest, k = a ++ rest ∧ k' = b ++ rest.

Lemma relocate_inj (a b : key) (fs : files) (k1 k2 : key) :
  fs !! b = None → existsb (λ k, bool_decide (b `prefix_of` k) && negb (bool_decide (k = b))) (map_to_list fs).*1 = false →
  is_Some (fs !! k1) → is_Some (fs !! k2) → relocate a b k1 = relocate a b k2 → k1 = k2.
Proof.
  intros Hb Hex [o1 E1] [o2 E2].
  assert (∀ k o, fs !! k = Some o → ¬ b `prefix_of` k) as Hno.
  { intros k o E Hp. apply not_true_iff_false in Hex. apply Hex, existsb_exists. exists k. split.
    - apply list_elem_of_In, list_elem_of_fmap. exists (k, o). split; [done|]. by apply elem_of_map_to_list.
    - rewrite bool_decide_true by done. cbn. apply negb_true_iff, bool_decide_eq_false. congruence. }
  unfold relocate. case_bool_decide as Hp; case_bool_decide as Hp2; intros E.
  - destruct Hp as [r1 ->], Hp2 as [r2 ->].
    rewrite !drop_app_length in E. by simplify_list_eq.
  - exfalso. eapply Hno; [exact E2|]. rewrite <- E. by apply prefix_app_r.
  - exfalso. eapply Hno; [exact E1|]. rewrite E. by apply prefix_app_r.
  - done.
Qed.

Lemma rename_dir_kept (a b : key) (fs fs' : files) :
  fs !! b = None → rename_dir a b fs = Some fs' → kept (below a b) (λ _, eq) fs fs'.
Proof.
  intros Hb. unfold rename_dir. case_bool_decide; [done|]. destruct (existsb _ _) eqn:Hex; [done|]. intros [= <-].
  exists (relocate a b). split; [intros; by eapply relocate_inj|]. intros k o E. split.
  - unfold relocate, below. case_bool_decide as Hp; [|by left]. right. destruct Hp as [r ->]. exists r. by rewrite drop_app_length.
  - exists o. split; [|done]. rewrite delete_id by done. apply elem_of_list_to_map_1.
    + rewrite <- list_fmap_compose. change (fst ∘ prod_map (relocate a b) id) with (relocate a b ∘ @fst key obj).
      rewrite list_fmap_compose. apply NoDup_fmap_2_strong; [|apply NoDup_fst_map_to_list].
      intros k1 k2 ([? o1] & -> & H1%elem_of_map_to_list)%list_elem_of_fmap ([? o2] & -> & H2%elem_of_map_to_list)%list_elem_of_fmap.
      by eapply relocate_inj.
    + apply list_elem_of_fmap. exists (k, o). split; [done|]. by apply elem_of_map_to_list.
Qed.

Lemma kept_same (R : key → key → Prop) (D : key → obj → obj → Prop) (fs : files) : (∀ k o, D k o o) → kept R D fs fs.
Proof. intros. apply kept_stay. eauto. Qed.

Lemma wp_rename_kept e a b fs :
  resolve a = resolve b ∨ fs !! resolve b = None →
  wp (rename e a b) (λ _ fs', kept (below (resolve a) (resolve b)) (λ _, eq) fs fs') fs.
Proof.
  intros Hb. unfold rename. wp_steps. destruct (fs !! resolve a) as [o|] eqn:Ea; wp_steps; [|by apply kept_same].
  destruct (negb _); wp_steps; [by apply kept_same|]. case_bool_decide as Hab; wp_steps; [by apply kept_same|].
  destruct Hb as [|Hb]; [done|]. rewrite Hb.
  assert (below (resolve a) (resolve b) (resolve a) (resolve b)) as Hr by (exists []; by rewrite !app_nil_r).
  destruct o; wp_steps; [by eapply kept_move| |by eapply kept_move].
  destruct (rename_dir _ _ fs) eqn:E; wp_steps; [by eapply rename_dir_kept|by apply kept_same].
Qed.

(** ** Appending *)

Definition grown (o o' : obj) : Prop := ∃ c c' m m', o = Regular c m ∧ o' = Regular (c ++ c') m'.

Definition appended (k : key) (text : list Z) (fs fs' : files) : Prop :=
  ∃ l time, l `prefix_of` text ∧ fs' = put_file k (content fs k ++ l) time fs.

Lemma wp_append_line e fn text fs :
  wp (append_line e fn text) (λ r fs', (fs' = fs ∨ appended (resolve fn) text fs fs') ∧
    (fs !! resolve fn ≠ Some Directory → smooth e →
     r = true ∧ fs' = put_file (resolve fn) (content fs (resolve fn) ++ text) (later e) fs)) fs.
Proof.
  unfold append_line, open_write. wp_steps. destruct (open_ok e fn) eqn:E1; cbn [andb negb]; wp_steps;
    [|split; [by left|]; intros _ []; congruence].
  case_bool_decide; cbn [negb]; wp_steps; [by split; [left|]|].
  assert (∀ n, take n text `prefix_of` text) as Ht by (intros n; exists (drop n text); by rewrite take_drop).
  unfold appended.
  destruct (print_fail e) eqn:E2; wp_steps; [split; [by eauto 6|]; intros _ []; congruence|].
  destruct (close_fail e fn) eqn:E3; wp_steps; [split; [by eauto 6|]; intros _ Hs|split; [by eauto 6|done]].
  by rewrite (smooth_close e Hs) in E3.
Qed.

Lemma appended_kept k text fs fs' : appended k text fs fs' →
  ∀ k' o, fs !! k' = Some o → ∃ o', fs' !! k' = Some o' ∧ (o = o' ∨ k' = k ∧ grown o o').
Proof.
  intros (l & time & _ & ->) k' o E. unfold put_file, content.
  destruct (decide (k' = k)) as [->|Hne].
  - rewrite E. destruct o as [c m| |]; eauto. exists (Regular (c ++ l) time). rewrite lookup_insert_eq. split; [done|].
    right. split; [done|]. by exists c, l, m, time.
  - destruct (fs !! k) as [[]|]; eauto; exists o; rewrite lookup_insert_ne by done; auto.
Qed.
Lemma appended_free k k' text fs fs' : appended k text fs fs' → k' ≠ k → fs' !! k' = fs !! k'.
Proof.
  intros (l & time & _ & ->) Hne. unfold put_file. destruct (fs !! k) as [[]|]; try done; by rewrite lookup_insert_ne.
Qed.

(** ** The applet *)

Definition main_change (o : Applet.main_options) (a : list Z) (k : key) (o1 o2 : obj) : Prop :=
  if Applet.D_FLAG o then same_data o1 o2
  else o1 = o2 ∨ Applet.opt_add o ≠ None ∧ k = resolve a ∧ grown o1 o2.
Definition main_moves (e : env) (o : Applet.main_options) (a b : list Z) : key → key → Prop :=
  if Applet.D_FLAG o then moves e (Applet.t_FLAG o) a b (default [] (readdir e a))
  else below (resolve a) (resolve b).

Lemma wp_move_one e o name a b fs :
  Applet.f_FLAG o = false → Applet.D_FLAG o = false → stat_fails e b = false →
  wp (Applet.move_one e o name a b) (λ _ fs', kept (main_moves e o a b) (main_change o a) fs fs') fs.
Proof.
  intros Hf HD Hs. unfold Applet.move_one, stat, main_moves, main_change. rewrite HD, Hf. wp_steps. rewrite Hs.
  destruct (fs !! resolve b) eqn:Eb; cbn [andb negb]; wp_steps; [apply kept_same; auto|].
  set (D := λ k o1 o2, o1 = o2 ∨ Applet.opt_add o ≠ None ∧ k = resolve a ∧ grown o1 o2).
  assert (∀ fs1, (∀ k o, fs !! k = Some o → ∃ o', fs1 !! k = Some o' ∧ D k o o') →
            (resolve a = resolve b ∨ fs1 !! resolve b = None) →
            ∀ r, wp (if negb r then mret 1
                     else st ← (get ≫= λ fs, mret (if stat_fails e a then inl EOTHER
                                    else match fs !! resolve a with Some o => inr o | None => inl ENOENT end));
                          match st with
                          | inl ENOENT => mret 1
                          | _ => ok ← rename e a b; mret (if ok : bool then 0 else 1)
                          end)
                    (λ _ fs', kept (below (resolve a) (resolve b)) D fs fs') fs1) as Hgo.
  { intros fs1 H1 Hb r. destruct r; cbn [negb]; wp_steps; [|by apply kept_stay].
    assert (wp (ok ← rename e a b; mret (if ok : bool then 0 else 1))
              (λ _ fs', kept (below (resolve a) (resolve b)) D fs fs') fs1) as Hren.
    { wp_steps. eapply wp_mono; [by apply wp_rename_kept|]. cbv beta. intros ok fs' Hk. wp_steps.
      eapply (kept_after _ D (λ _, eq)); [|exact H1|exact Hk]. by intros ? ? ? ? ? ->. }
    destruct (stat_fails e a); [done|]. destruct (fs1 !! resolve a); [done|]. wp_steps. by apply kept_stay. }
  destruct (Applet.opt_add o) as [add|] eqn:Eadd; wp_steps.
  - eapply wp_mono; [apply wp_append_line|]. cbv beta. intros r fs1 [[->|Happ] _]; apply Hgo.
    + intros k x E. exists x. split; [done|by left].
    + by right.
    + intros k x E. destruct (appended_kept _ _ _ _ Happ k x E) as (x' & E' & [?|[??]]); exists x'; (split; [done|]); [by left|by right].
    + destruct (decide (resolve a = resolve b)) as [|Hne]; [by left|right]. by rewrite (appended_free _ _ _ _ _ Happ).
  - apply Hgo; [|by right]. intros k x E. exists x. split; [done|by left].
Qed.

(** C29: the applet [condmv] loses and overwrites nothing: without [-f], for any other options and names, and when calls of the system fail other than those named below, it
    returns, and every file, directory and device there was is still there, no two in one place: under its
    own name, or, if it was the source (below it, if that is a directory; one of its entries with [-D]), at the corresponding
    place of the destination; with its contents, to which only [-A] has appended and
    only to the source.  Assumed are an age and times whose sum does not overflow ([condmv_age_overflow] is the other case), that [stat] tells whether a single
    destination exists ([condmv_stat_error]), and that closing a copy ([-x]) succeeds ([condmv_copy_lost]). *)
Theorem condmv_keeps p e o fs :
  Applet.f_FLAG o = false →
  times_ok fs → 0 ≤ now e < 10 ^ 14 → (∀ age, Applet.parse_age o = Some age → age < 2 ^ 61) →
  (Applet.D_FLAG o = false → ∀ fn, stat_fails e fn = false) →
  (Applet.x_FLAG o = true → ∀ fn, close_fail e fn = None) →
  ∃ r fs', Applet.condmv_main e p (Some o) fs = Done (r, fs') ∧
    (r = 1 ∧ fs' = fs ∨
     ∃ f t a b, Applet.args o = [f; t] ∧
       Applet.first_valid p f [ATLAS_DATA_NEW_REL; ATLAS_DATA_OUT_REL] = Some a ∧
       Applet.first_valid p t [ATLAS_DATA_OUT_REL; ATLAS_DATA_STORAGE_REL; ATLAS_DATA_NEW_REL] = Some b ∧
       kept (main_moves e o a b) (main_change o a) fs fs').
Proof.
  intros Hf Ht Hnow Hage Hst Hx. apply wp_run. unfold Applet.condmv_main.
  destruct (Applet.args o) as [|f [|t [|]]]; wp_steps; auto.
  destruct (Applet.first_valid p f _) as [a|] eqn:Ea; wp_steps; auto.
  destruct (Applet.first_valid p t _) as [b|] eqn:Eb; wp_steps; auto.
  destruct (Applet.parse_age o) as [age|] eqn:Eage; wp_steps; auto.
  assert (∀ m, wp m (λ _ fs', kept (main_moves e o a b) (main_change o a) fs fs') fs →
    wp m (λ (r : Z) fs', r = 1 ∧ fs' = fs ∨ ∃ f0 t0 a0 b0, [f; t] = [f0; t0] ∧
       Applet.first_valid p f0 [ATLAS_DATA_NEW_REL; ATLAS_DATA_OUT_REL] = Some a0 ∧
       Applet.first_valid p t0 [ATLAS_DATA_OUT_REL; ATLAS_DATA_STORAGE_REL; ATLAS_DATA_NEW_REL] = Some b0 ∧
       kept (main_moves e o a0 b0) (main_change o a0) fs fs') fs) as Hgo.
  { intros m Hm. eapply wp_mono; [exact Hm|]. cbv beta. intros r fs' Hk. right. exists f, t, a, b. auto. }
  destruct (Applet.D_FLAG o) eqn:ED.
  - apply Hgo. unfold Applet.do_dir, main_moves, main_change. rewrite ED.
    destruct (readdir e a) as [l|]; wp_steps; [|by apply kept_same].
    apply wp_dir_loop_kept; auto. specialize (Hage age eq_refl). split; [|done].
    unfold Applet.parse_age in Eage. destruct (Applet.opt_age o) as [s|]; [|by injection Eage as <-].
    destruct (strtol0 s) as [v check]. destruct (negb _); [done|]. cbn in Eage. destruct (Z.leb_spec v 0); [done|]. injection Eage as <-. lia.
  - apply Hgo, wp_move_one; auto.
Qed.

(** C30: [condmv -D] moves everything there is to move: when no call of the system fails and [readdir] returns each name of the source directory
    once, the applet returns 0, every regular file that is old enough and whose name (with the time
    appended for [-t]) is free in the destination directory is there, with its contents, and no longer in the
    source directory, and nothing else has changed; the copies of [-x] included. *)
Theorem condmv_dir_moves p e o f t a b age l fs :
  Applet.args o = [f; t] → Applet.D_FLAG o = true →
  Applet.first_valid p f [ATLAS_DATA_NEW_REL; ATLAS_DATA_OUT_REL] = Some a →
  Applet.first_valid p t [ATLAS_DATA_OUT_REL; ATLAS_DATA_STORAGE_REL; ATLAS_DATA_NEW_REL] = Some b →
  Applet.parse_age o = Some age → 0 ≤ age < 2 ^ 61 → 0 ≤ now e < 10 ^ 14 → times_ok fs →
  smooth e → resolve a ≠ resolve b → readdir e a = Some l → NoDup l → (∀ d, d ∈ l → entry_ok a fs d) →
  ∃ fs', Applet.condmv_main e p (Some o) fs = Done (0, fs') ∧ dir_moved e age (Applet.t_FLAG o) a b l fs fs'.
Proof.
  intros Hargs HD Ha Hb Hage Hage' Hnow Ht He Hne Hl Hnd Hent.
  assert (wp (Applet.condmv_main e p (Some o)) (λ r fs', r = 0 ∧ dir_moved e age (Applet.t_FLAG o) a b l fs fs') fs) as H.
  { unfold Applet.condmv_main. rewrite Hargs, Ha, Hb, Hage, HD. unfold Applet.do_dir. rewrite Hl. by apply wp_dir_loop_moves. }
  apply wp_run in H as (r & fs' & E & -> & H). eauto.
Qed.

(** ** The test of eperd *)

(** *** Names *)

Lemma components_suffix s x : slash ∉ x →
  ∃ ys y, components s = ys ++ [y] ∧ components (s ++ x) = ys ++ [y ++ x].
Proof.
  intros Hx. induction s as [|c s (ys & y & E1 & E2)]; cbn [app components].
  - exists [], []. by rewrite components_plain.
  - rewrite E1, E2. destruct (c =? slash); [by exists ([] :: ys), y|].
    destruct ys as [|z ys]; [by exists [], (c :: y)|by exists ((c :: z) :: ys), y].
Qed.

(** A dot and digits behind a name make no parent component. *)
Lemma no_dotdot_suffix s ds :
  dotdot ∉ components s → ds ≠ [] → Forall (λ c, 48 ≤ c ≤ 57) ds → dotdot ∉ components (s ++ 46 :: ds).
Proof.
  intros Hs Hne Hd.
  assert (slash ∉ 46 :: ds) as Hsl.
  { apply not_elem_of_cons. split; [done|]. intros Hin. rewrite Forall_forall in Hd. apply Hd in Hin. unfold slash in Hin. lia. }
  destruct (components_suffix s _ Hsl) as (ys & y & E1 & E2). rewrite E1 in Hs. rewrite E2.
  rewrite !elem_of_app, !list_elem_of_singleton in *. intros [H|H]; [tauto|].
  unfold dotdot in H. destruct y as [|? [|? y]].
  - destruct ds as [|? [|]]; [done| |done]. injection H as <-. inversion Hd. lia.
  - destruct ds; [done|]. cbn in H. discriminate.
  - destruct y; discriminate.
Qed.

Lemma resolve_data base s : resolve (base ++ slash :: str "data/" ++ s) = fold_left resolve1 (components s) (resolve base ++ [str "data"]).
Proof.
  change (str "data/" ++ s) with (str "data" ++ slash :: s). unfold resolve at 1.
  rewrite components_app, components_app, !fold_left_app. fold (resolve base). done.
Qed.
Lemma resolve_data_dir base s t :
  plain s → dotdot ∉ components t → (resolve base ++ [str "data"; s]) `prefix_of` resolve ((base ++ slash :: str "data/" ++ s) ++ slash :: t).
Proof.
  intros Hs Ht. etransitivity; [|by apply resolve_under]. rewrite resolve_data.
  destruct Hs as (H1 & H2 & H3 & H4). rewrite components_plain by done. cbn [fold_left]. unfold resolve1.
  rewrite !bool_decide_false by tauto. by rewrite <- app_assoc.
Qed.

Lemma to_name_eq s time : ∃ ds, Test.to_name s time = Test.to s ++ 46 :: ds ∧
  (0 < Test.interval s → ds ≠ [] ∧ Forall (λ c, 48 ≤ c ≤ 57) ds).
Proof.
  exists (take 18 (print_dec (u64 time / Test.interval s))). split.
  - unfold Test.to_name. rewrite take_app_add. done.
  - intros Hi. assert (0 ≤ u64 time / Test.interval s) as Hz.
    { apply Z.div_pos; [|done]. unfold u64. pose proof (Z.mod_pos_bound time (2 ^ 64)). lia. }
    destruct (print_dec_digit _ Hz) as [Hd Hn]. split; [by destruct (print_dec _)|by apply Forall_take].
Qed.

Lemma init_names p o s time :
  Test.condmv_init p (Some o) = Some s → unsafe p = false → Forall (λ l, 0 ∉ l) (Test.args o) →
  resolve (Test.from s) ≠ resolve (Test.to_name s time).
Proof.
  intros Hi Hu Hargs. unfold Test.condmv_init in Hi. cbn [mbind option_bind] in Hi.
  destruct (Test.args o) as [|f [|t [|]]]; try done. rewrite !Forall_cons in Hargs. destruct Hargs as (Hf & Ht & _).
  destruct (Z.leb_spec (match Test.opt_interval o with Some l => s32 (strtoul0 l).1 | None => Test.DEFAULT_INTERVAL end) 0) as [|Hint]; [done|].
  rewrite Hu in Hi. apply bind_Some in Hi as (a & Ea & Hi). apply bind_Some in Hi as (b & Eb & Hi). injection Hi as <-.
  unfold rebased_validated_filename in Ea, Eb.
  destruct (validated_shape _ _ _ _ _ Hf Ea) as (ta & Ea' & [[ra ->]|[? _]] & Hda); [|done].
  destruct (validated_shape _ _ _ _ _ Ht Eb) as (tb & Eb' & [[rb ->]|[? _]] & Hdb); [|done].
  match goal with |- _ ≠ resolve (Test.to_name ?s _) => destruct (to_name_eq s time) as (ds & -> & Hds) end.
  cbn [Test.from Test.to Test.interval] in *. destruct (Hds Hint) as [Hne Hdig]. rewrite Ea', Eb'. rewrite <- app_assoc.
  change ((slash :: rb) ++ 46 :: ds) with (slash :: (rb ++ 46 :: ds)).
  assert (plain (str "new") ∧ plain (str "out")) as [Pn Po]
    by (unfold plain; split; (split_and!; [done..|by apply (bool_decide_unpack _)])).
  destruct (resolve_data_dir (spooldir p) (str "new") ra Pn) as [x Hx]; [by apply Hda|].
  destruct (resolve_data_dir (spooldir p) (str "out") (rb ++ 46 :: ds) Po) as [y Hy]; [by apply no_dotdot_suffix; [apply Hdb|..]|].
  change (confined_to (spooldir p) ATLAS_DATA_NEW_REL) with (spooldir p ++ slash :: str "data/" ++ str "new").
  change (confined_to (spooldir p) ATLAS_DATA_OUT_REL) with (spooldir p ++ slash :: str "data/" ++ str "out").
  rewrite Hx, Hy. rewrite <- !app_assoc. intros E. apply app_inv_head in E. discriminate.
Qed.

(** *** Runs *)

(** A measurement appends, the test is started, a file is taken away. *)
Inductive op := Write (text : list Z) (time : Z) | Start (e : env) | Fetch (k : key).

Section Run.
Context (s : Test.condmvstate).
Let source := resolve (Test.from s).
Definition target (e : env) : key := resolve (Test.to_name s (now e)).

(** The file that appeared under the name of this interval *)
Definition delivered (e : env) (fs fs' : files) : list (list Z) :=
  match fs !! target e, fs' !! target e with None, Some (Regular c _) => [c] | _, _ => [] end.

Definition op_step (a : op) (fs : files) : outcome (files * list (list Z)) :=
  match a with
  | Write text time => Done (put_file source (content fs source ++ text) time fs, [])
  | Start e => match Test.condmv_start e s fs with Done (_, fs') => Done (fs', delivered e fs fs') | Crash c => Crash c end
  | Fetch k => Done (delete k fs, [])
  end.
(** The files at the end, and what was delivered, in this order *)
Fixpoint run (ops : list op) (fs : files) : outcome (files * list (list Z)) :=
  match ops with
  | [] => Done (fs, [])
  | a :: ops' =>
      '(fs1, ds1) ← op_step a fs; '(fs2, ds2) ← run ops' fs1; Done (fs2, ds1 ++ ds2)
  end.

Definition op_ok (a : op) : Prop :=
  match a with
  | Write _ _ => True
  | Start e => stat_fails e (Test.to_name s (now e)) = false
  | Fetch k => k ≠ source
  end.
Definition source_ok (fs : files) : Prop := match fs !! source with Some Directory | Some Special => False | _ => True end.

Context (Hforce : Test.force s = false) (Hne : ∀ time, source ≠ resolve (Test.to_name s time)).

Lemma put_source fs c time : source_ok fs → put_file source c time fs = <[source := Regular c time]> fs.
Proof. unfold source_ok, put_file. by destruct (fs !! source) as [[]|]. Qed.
Lemma content_put fs c time : content (<[source := Regular c time]> fs) source = c.
Proof. unfold content. by rewrite lookup_insert_eq. Qed.

(** What a start does: the source may get (part of) a line, and is moved if its name is free. *)
Definition line_of (e : env) : list Z :=
  match Test.atlas s with Some a => line_text e a (Test.from s) | None => [] end.
Definition started (e : env) (fs fs' : files) : Prop :=
  ∃ l, l `prefix_of` line_of e ∧
    (content fs' source = content fs source ++ l ∧ delivered e fs fs' = [] ∨
     fs' !! source = None ∧ delivered e fs fs' = [content fs source ++ l]).

Lemma start_renames e fs l :
  source_ok fs → fs !! target e = None → l `prefix_of` line_of e → (l = [] ∨ is_Some (fs !! source)) →
  ∀ fs0, fs0 !! target e = None → content fs source = content fs0 source ++ l →
    (∀ k, k ≠ source → fs !! k = fs0 !! k) →
  wp (_ ← rename e (Test.from s) (Test.to_name s (now e)); mret tt)
    (λ _ fs', started e fs0 fs' ∧ source_ok fs' ∧ (∀ k, k ≠ source → k ≠ target e → fs' !! k = fs0 !! k) ∧
       (smooth e → is_Some (fs !! source) → fs' !! source = None ∧ delivered e fs0 fs' = [content fs source])) fs.
Proof.
  intros Hok Hfree Hl Hl' fs0 Hfree0 Ec Hk. wp_steps. fold (target e) in *.
  assert (target e ≠ source) as Hts by (intros E; by apply (Hne (now e))).
  destruct (fs !! source) as [[c m| |]|] eqn:Es; [|by unfold source_ok in Hok; rewrite Es in Hok..|].
  - eapply wp_mono; [by apply (wp_rename_free e _ _ c m)|]. cbv beta. intros r fs' [-> ->]. wp_steps. fold (target e) source.
    assert (content fs source = c) as Ecs by (unfold content; by rewrite Es). rewrite Ecs in *.
    destruct (rename_ok e _ _) eqn:Er.
    + assert (delivered e fs0 (<[target e:=Regular c m]> (delete source fs)) = [c]) as Hd
        by (unfold delivered; by rewrite Hfree0, lookup_insert_eq).
      assert (<[target e:=Regular c m]> (delete source fs) !! source = None) as Hs
        by (by rewrite lookup_insert_ne, lookup_delete_eq).
      split; [|split; [|split]]; [| | |done].
      * exists l. split; [done|]. right. split; [done|]. by rewrite Hd, Ec.
      * unfold source_ok. by rewrite Hs.
      * intros k Hk1 Hk2. rewrite lookup_insert_ne, lookup_delete_ne by done. by apply Hk.
    + split; [|split; [done|split]].
      * exists l. split; [done|]. left. unfold delivered. rewrite Hfree0, Hfree. by rewrite Ecs.
      * intros k Hk1 _. by apply Hk.
      * intros []. congruence.
  - unfold rename. wp_steps. fold source. rewrite Es. wp_steps. split; [|split; [done|split]].
    + exists l. split; [done|]. left. unfold delivered. by rewrite Hfree0, Hfree.
    + intros k Hk1 _. by apply Hk.
    + intros _ [? [=]].
Qed.

Lemma wp_condmv_start e fs :
  source_ok fs → stat_fails e (Test.to_name s (now e)) = false →
  wp (Test.condmv_start e s) (λ _ fs', started e fs fs' ∧ source_ok fs' ∧
    (∀ k o, fs !! k = Some o → k ≠ source → fs' !! k = Some o) ∧
    (smooth e → is_Some (fs !! source) → fs !! target e = None →
     fs' !! source = None ∧ delivered e fs fs' = [content fs source ++ line_of e])) fs.
Proof.
  intros Hok Hst. unfold Test.condmv_start, stat. wp_steps. rewrite Hst, Hforce. fold (target e).
  assert (∀ l : list Z, [] `prefix_of` l) as Hnil by (intros l; apply prefix_nil).
  destruct (fs !! target e) as [o|] eqn:Et; cbn [andb negb]; wp_steps.
  { split; [|done]. exists []. split; [apply Hnil|]. left. rewrite app_nil_r. unfold delivered. by rewrite Et. }
  assert (target e ≠ source) as Hts by (intros E; by apply (Hne (now e))).
  assert (∀ fs' : files, (∀ k, k ≠ source → k ≠ target e → fs' !! k = fs !! k) →
            ∀ k o, fs !! k = Some o → k ≠ source → fs' !! k = Some o) as Hkeep.
  { intros fs' H k o Ek Hk. rewrite H; [done|done|congruence]. }
  destruct (Test.atlas s) as [a|] eqn:Ea; wp_steps.
  2: { cbn [negb]. eapply wp_mono; [apply (start_renames e fs []) with (fs0 := fs); auto; by rewrite app_nil_r|]. cbv beta.
       intros _ fs' (H1 & H2 & H3 & H4). split_and!; [done|done|by apply Hkeep|]. intros Hs Hsrc _. unfold line_of. rewrite Ea, app_nil_r. auto. }
  eapply wp_mono; [apply wp_append_line|]. cbv beta. fold source. intros r fs1 [Happ Hsm].
  assert (line_of e = line_text e a (Test.from s)) as El by (unfold line_of; by rewrite Ea).
  assert (∃ l, l `prefix_of` line_of e ∧ source_ok fs1 ∧ content fs1 source = content fs source ++ l ∧
            (∀ k, k ≠ source → fs1 !! k = fs !! k) ∧ (l = [] ∨ is_Some (fs1 !! source))) as (l & Hl & Hok1 & Ec1 & Hk1 & Hex1).
  { destruct Happ as [->|(l & time & Hl & ->)].
    - exists []. rewrite app_nil_r. split_and!; auto.
    - exists l. rewrite El, put_source, content_put by done. unfold source_ok. rewrite lookup_insert_eq.
      split_and!; [done|done|done|intros k Hk; by rewrite lookup_insert_ne|right; by eexists]. }
  destruct r; cbn [negb].
  - eapply wp_mono; [apply (start_renames e fs1 l) with (fs0 := fs); auto; by rewrite Hk1|]. cbv beta.
    intros _ fs' (H1 & H2 & H3 & H4). split_and!; [done|done|by apply Hkeep|]. intros Hs Hsrc _.
    destruct Hsm as [_ Hfs1]; [by unfold source_ok in Hok; destruct (fs !! source) as [[]|]|done|].
    rewrite put_source in Hfs1 by done. destruct (H4 Hs) as [Ha Hb]; [by rewrite Hfs1, lookup_insert_eq|]. split; [done|].
    by rewrite Hb, Hfs1, content_put, El.
  - wp_steps. split; [|split; [done|split]].
    + exists l. split; [done|]. left. split; [done|]. unfold delivered. by rewrite Hk1, Et.
    + intros k o Ek Hk. by rewrite Hk1.
    + intros Hs. destruct Hsm as [? _]; [by unfold source_ok in Hok; destruct (fs !! source) as [[]|]|done|done].
Qed.

(** What an operation adds to the data: its text, or for a start some of the line of [-A]. *)
Definition adds (a : op) (l : list Z) : Prop :=
  match a with Write text _ => l = text | Start e => l `prefix_of` line_of e | Fetch _ => l = [] end.

(** All that was at the source and all that was added to it, and nothing else, was delivered or is at the source. *)
Definition accounted (ops : list op) (fs fs' : files) (ds : list (list Z)) : Prop :=
  ∃ ls, Forall2 adds ops ls ∧ concat ds ++ content fs' source = content fs source ++ concat ls.

Lemma accounted_one a l fs fs' ds :
  adds a l → concat ds ++ content fs' source = content fs source ++ l → accounted [a] fs fs' ds.
Proof. intros Ha E. exists [l]. split; [by constructor|]. cbn. by rewrite app_nil_r. Qed.

Lemma accounted_trans ops1 ops2 fs1 fs2 fs3 ds1 ds2 :
  accounted ops1 fs1 fs2 ds1 → accounted ops2 fs2 fs3 ds2 → accounted (ops1 ++ ops2) fs1 fs3 (ds1 ++ ds2).
Proof.
  intros (ls1 & A1 & B1) (ls2 & A2 & B2). exists (ls1 ++ ls2). split; [by apply Forall2_app|].
  by rewrite !concat_app, app_assoc, <- B1, <- !app_assoc, B2.
Qed.

Lemma started_accounted e fs fs' : started e fs fs' → accounted [Start e] fs fs' (delivered e fs fs').
Proof.
  intros (l & Hl & Hc). apply (accounted_one _ l); [exact Hl|]. destruct Hc as [[-> ->]|[E ->]]; [done|].
  unfold content at 2. rewrite E. cbn [concat]. by rewrite !app_nil_r.
Qed.

Lemma op_step_ok a fs :
  source_ok fs → op_ok a →
  ∃ fs' ds, op_step a fs = Done (fs', ds) ∧ source_ok fs' ∧ accounted [a] fs fs' ds ∧
    (∀ k o, fs !! k = Some o → k ≠ source → a ≠ Fetch k → fs' !! k = Some o).
Proof.
  intros Hok Ha. destruct a as [text time|e|k]; cbn [op_step op_ok] in *.
  - rewrite put_source by done. do 2 eexists. split; [done|]. split; [|split].
    + unfold source_ok. by rewrite lookup_insert_eq.
    + apply (accounted_one _ text); [done|]. by rewrite content_put.
    + intros k o E Hk _. by rewrite lookup_insert_ne.
  - destruct (wp_run _ _ _ (wp_condmv_start e fs Hok Ha)) as ([] & fs' & -> & H1 & H2 & H3 & _).
    do 2 eexists. split; [done|]. split; [done|]. split; [by apply started_accounted|]. eauto.
  - do 2 eexists. split; [done|]. split; [|split].
    + unfold source_ok. by rewrite lookup_delete_ne.
    + apply (accounted_one _ []); [done|]. unfold content. rewrite lookup_delete_ne by done. by rewrite app_nil_r.
    + intros k' o E Hk Hf. rewrite lookup_delete_ne; [done|]. by intros ->.
Qed.

Lemma run_ok ops fs :
  source_ok fs → Forall op_ok ops →
  ∃ fs' ds, run ops fs = Done (fs', ds) ∧ source_ok fs' ∧ accounted ops fs fs' ds ∧
    (∀ k o, fs !! k = Some o → k ≠ source → Fetch k ∉ ops → fs' !! k = Some o).
Proof.
  intros Hok Hops. revert fs Hok. induction Hops as [|a ops Ha Hops IH]; intros fs Hok; cbn [run].
  - do 2 eexists. split; [done|]. split; [done|]. split; [|done]. exists []. split; [constructor|]. cbn. by rewrite app_nil_r.
  - destruct (op_step_ok a fs Hok Ha) as (fs1 & ds1 & -> & Hok1 & Hacc1 & Hk1). cbn [mbind outcome_bind].
    destruct (IH fs1 Hok1) as (fs2 & ds2 & -> & Hok2 & Hacc2 & Hk2). cbn [mbind outcome_bind].
    do 2 eexists. split; [done|]. split; [done|]. split; [by apply (accounted_trans [a] ops fs fs1)|].
    intros k o E Hk [Hf1 Hf2]%not_elem_of_cons. apply Hk2; auto.
Qed.

Lemma run_snoc ops a fs fs' ds fs'' ds' :
  run ops fs = Done (fs', ds) → op_step a fs' = Done (fs'', ds') → run (ops ++ [a]) fs = Done (fs'', ds ++ ds').
Proof.
  revert fs ds. induction ops as [|b ops IH]; intros fs ds; cbn [run app].
  - intros [= <- <-] E. rewrite E. cbn. by rewrite app_nil_r.
  - destruct (op_step b fs) as [[fs1 ds1]|]; [|done]. cbn [mbind outcome_bind].
    destruct (run ops fs1) as [[fs2 ds2]|] eqn:E; [|done]. cbn [mbind outcome_bind]. intros [= <- <-] Ha.
    rewrite (IH fs1 ds2 E Ha). cbn. by rewrite app_assoc.
Qed.
End Run.

(** C15: the test [condmv] of [eperd] loses nothing that was written: for a test that was accepted by [condmv_init] without [-f], and every sequence of
    measurements writing to its source, starts and moved files being taken away, the contents of the moved files in the order of their moves, followed by what is still at the
    source, are exactly what was there at first and all that was written, in order and once, with at each start some beginning of the line
    of [-A] between them ([accounted]); no file but the source is changed by it; and a start at
    which no call fails and the name of the interval is free delivers all that is
    pending, with the line of [-A] at its end.  At the starts [open], [write], [close] and [rename] may fail, but not the [stat] of the target ([op_ok]; if it fails
    a file that waits there is overwritten), and a start whose target is taken delivers nothing. *)
Theorem condmv_rotates p o s ops fs :
  Test.condmv_init p (Some o) = Some s → unsafe p = false → Forall (λ l, 0 ∉ l) (Test.args o) → Test.force s = false →
  source_ok s fs → Forall (op_ok s) ops →
  ∃ fs' ds, run s ops fs = Done (fs', ds) ∧
    accounted s ops fs fs' ds ∧
    (∀ k o, fs !! k = Some o → k ≠ resolve (Test.from s) → Fetch k ∉ ops → fs' !! k = Some o) ∧
    (∀ e, smooth e → is_Some (fs' !! resolve (Test.from s)) → fs' !! target s e = None →
       ∃ fs'', run s (ops ++ [Start e]) fs = Done (fs'', ds ++ [content fs' (resolve (Test.from s)) ++ line_of s e]) ∧
               fs'' !! resolve (Test.from s) = None).
Proof.
  intros Hi Hu Ha Hf Hok Hops. pose proof (λ time, init_names p o s time Hi Hu Ha) as Hne.
  destruct (run_ok s Hf Hne ops fs Hok Hops) as (fs' & ds & E & Hok' & Hacc & Hk). exists fs', ds. split_and!; [done..|].
  intros e He Hsrc Hfree.
  destruct (wp_run _ _ _ (wp_condmv_start s Hf Hne e fs' Hok' (smooth_stat e He _))) as ([] & fs'' & E' & _ & _ & _ & H).
  destruct (H He Hsrc Hfree) as [H1 H2]. exists fs''. split; [|done]. eapply run_snoc; [done|]. cbn [op_step]. rewrite E'. by rewrite H2.
Qed.
