(* ===== verification/CondmvCases.v ===== *)
(** * Moving result files: examples, and where the code departs from its purpose *)

From stdpp Require Import base list list_numbers numbers option strings gmap.
From Stdlib Require Import ZArith Lia.
From S2P Require Import Prelude Bits Cstr Wp Validate Condmv CondmvProofs CondmvMain.

Open Scope Z_scope.

Definition ex_params : params := P (str "/var/spool") false.
(** Nothing fails; [readdir] returns [l]. *)
Definition ex_env (time : Z) (l : list (list Z)) : env :=
  ENV time time (λ _, false) (λ _, true) (λ _ _, true) (λ _, true) None (λ _, None) (λ _, None) (λ _, None) (λ _, []) (λ _, Some l).

Lemma ex_env_smooth time l : smooth (ex_env time l).
Proof. by split. Qed.

(** ** The test of eperd *)

Definition ex_opt : Test.condmv_options := Test.OPT None false (Some (str "300")) [str "/home/atlas/data/new/7"; str "/home/atlas/data/out/7"].
Definition ex_state : Test.condmvstate := Test.CS (str "/var/spool/data/new/7") (str "/var/spool/data/out/7") None false 300.
Definition ex_ops : list op :=
  [Write (str "one ") 1000; Start (ex_env 1200 []); Write (str "two ") 1300; Start (ex_env 1400 []);
   Fetch (resolve (str "/var/spool/data/out/7.4")); Write (str "three ") 1600].

Example ex_run :
  match run ex_state ex_ops ∅ with Done (fs, ds) => ds = [str "one "] ∧ content fs (resolve (Test.from ex_state)) = str "two three " | Crash _ => False end.
Proof. vm_compute. done. Qed.

Lemma condmv_rotates_witness :
  ∃ fs' ds, run ex_state ex_ops ∅ = Done (fs', ds) ∧
    accounted ex_state ex_ops ∅ fs' ds ∧
    (∃ fs'', run ex_state (ex_ops ++ [Start (ex_env 1900 [])]) ∅ = Done (fs'', ds ++ [str "two three "]) ∧
             fs'' !! resolve (Test.from ex_state) = None).
Proof.
  destruct (condmv_rotates ex_params ex_opt ex_state ex_ops ∅) as (fs' & ds & E & Hacc & _ & Hlast).
  - vm_compute. reflexivity.
  - reflexivity.
  - repeat constructor; apply (bool_decide_unpack _); vm_compute; exact I.
  - reflexivity.
  - exact I.
  - repeat constructor; apply (bool_decide_unpack _); vm_compute; exact I.
  - exists fs', ds. split; [exact E|]. split; [exact Hacc|].
    assert (match run ex_state ex_ops ∅ with
            | Done (f, _) => bool_decide (f !! resolve (Test.from ex_state) = Some (Regular (str "two three ") 1600)) &&
                             bool_decide (f !! target ex_state (ex_env 1900 []) = None)
            | Crash _ => false end = true) as Hlook by (vm_compute; reflexivity).
    rewrite E in Hlook. apply andb_true_iff in Hlook as [H1%bool_decide_eq_true H2%bool_decide_eq_true].
    destruct (Hlast (ex_env 1900 [])) as (fs'' & E'' & Hs).
    + apply ex_env_smooth.
    + rewrite H1. eexists. reflexivity.
    + exact H2.
    + exists fs''. split; [|exact Hs]. rewrite E''. unfold content. rewrite H1. reflexivity.
Defined.

(** ** The applet *)

Definition ex_args : list (list Z) := [str "/home/atlas/data/new/a"; str "/home/atlas/data/out/b"].
Definition ex_fs : files :=
  list_to_map [(resolve (str "/var/spool/data/new/a"), Directory);
               (resolve (str "/var/spool/data/new/a/x"), Regular (str "xx") 100);
               (resolve (str "/var/spool/data/new/a/y"), Regular (str "yy") 100);
               (resolve (str "/var/spool/data/out/b/y"), Regular (str "waiting") 50)].
Definition ex_dir (x : bool) : Applet.main_options := Applet.OPT None None true false false x ex_args.
Definition ex_entries : list (list Z) := [str "."; str "x"; str "y"].

Lemma ex_times : times_ok ex_fs.
Proof.
  intros k c m E. apply elem_of_list_to_map_2 in E.
  repeat (apply elem_of_cons in E as [E|E]; [simplify_eq; lia|]). by apply elem_of_nil in E.
Qed.

Lemma condmv_keeps_witness :
  ∃ r fs', Applet.condmv_main (ex_env 200 ex_entries) ex_params (Some (ex_dir true)) ex_fs = Done (r, fs') ∧
    (r = 1 ∧ fs' = ex_fs ∨
     ∃ f t a b, ex_args = [f; t] ∧
       Applet.first_valid ex_params f [ATLAS_DATA_NEW_REL; ATLAS_DATA_OUT_REL] = Some a ∧
       Applet.first_valid ex_params t [ATLAS_DATA_OUT_REL; ATLAS_DATA_STORAGE_REL; ATLAS_DATA_NEW_REL] = Some b ∧
       kept (main_moves (ex_env 200 ex_entries) (ex_dir true) a b) (main_change (ex_dir true) a) ex_fs fs').
Proof.
  apply (condmv_keeps ex_params (ex_env 200 ex_entries) (ex_dir true) ex_fs).
  - reflexivity.
  - exact ex_times.
  - cbn. lia.
  - intros age E. vm_compute in E. injection E as <-. lia.
  - discriminate.
  - reflexivity.
Defined.

Lemma condmv_dir_moves_witness :
  ∃ fs', Applet.condmv_main (ex_env 200 ex_entries) ex_params (Some (ex_dir true)) ex_fs = Done (0, fs') ∧
    dir_moved (ex_env 200 ex_entries) 0 false (str "/var/spool/data/new/a") (str "/var/spool/data/out/b") ex_entries ex_fs fs'.
Proof.
  apply (condmv_dir_moves ex_params (ex_env 200 ex_entries) (ex_dir true) (str "/home/atlas/data/new/a") (str "/home/atlas/data/out/b")).
  - reflexivity.
  - reflexivity.
  - vm_compute. reflexivity.
  - vm_compute. reflexivity.
  - reflexivity.
  - lia.
  - cbn. lia.
  - exact ex_times.
  - apply ex_env_smooth.
  - vm_compute. discriminate.
  - reflexivity.
  - apply (bool_decide_unpack _). vm_compute. exact I.
  - intros d Hd. unfold entry_ok, src, plain.
    repeat (apply elem_of_cons in Hd as [->|Hd]; [split; [apply (bool_decide_unpack _); vm_compute; exact I|]|]).
    + right. reflexivity.
    + left. repeat split; apply (bool_decide_unpack _); vm_compute; exact I.
    + left. repeat split; apply (bool_decide_unpack _); vm_compute; exact I.
    + by apply elem_of_nil in Hd.
Defined.

Example ex_dir_moved :
  match Applet.condmv_main (ex_env 200 ex_entries) ex_params (Some (ex_dir false)) ex_fs with
  | Done (r, fs) => r = 0 ∧ content fs (resolve (str "/var/spool/data/out/b/x")) = str "xx" ∧
      content fs (resolve (str "/var/spool/data/out/b/y")) = str "waiting" ∧ content fs (resolve (str "/var/spool/data/new/a/y")) = str "yy"
  | Crash _ => False
  end.
Proof. vm_compute. done. Qed.

(** ** Deviations *)

(** [do_cprm] removes the source although closing the copy failed, and reports success: the data is lost. *)
Theorem condmv_copy_lost :
  let e := ENV 200 200 (λ _, false) (λ _, true) (λ _ _, true) (λ _, true) None (λ _, Some 0%nat) (λ _, None) (λ _, None) (λ _, [])
             (λ _, Some ex_entries) in
  match Applet.condmv_main e ex_params (Some (ex_dir true)) ex_fs with
  | Done (r, fs) => r = 0 ∧ fs !! resolve (str "/var/spool/data/new/a/x") = None ∧ fs !! resolve (str "/var/spool/data/out/b/x") = Some (Regular [] 200)
  | Crash _ => False
  end.
Proof. vm_compute. done. Qed.

(** A destination for which [stat] fails with another error than [ENOENT] is overwritten without [-f]. *)
Theorem condmv_stat_error :
  let e := ENV 200 200 (λ _, true) (λ _, true) (λ _ _, true) (λ _, true) None (λ _, None) (λ _, None) (λ _, None) (λ _, []) (λ _, None) in
  let o := Applet.OPT None None false false false false [str "/home/atlas/data/new/a/y"; str "/home/atlas/data/out/b/y"] in
  match Applet.condmv_main e ex_params (Some o) ex_fs with
  | Done (r, fs) => r = 0 ∧ fs !! resolve (str "/var/spool/data/out/b/y") = Some (Regular (str "yy") 100)
  | Crash _ => False
  end.
Proof. vm_compute. done. Qed.

(** Text behind the number of the interval is ignored. *)
Theorem condmv_interval_text :
  Test.interval <$> Test.condmv_init ex_params
    (Some (Test.OPT None false (Some (str "5 minutes")) [str "/home/atlas/data/new/7"; str "/home/atlas/data/out/7"])) = Some 5.
Proof. vm_compute. done. Qed.

(** The largest age overflows when it is added to the time of a file. *)
Theorem condmv_age_overflow :
  Applet.condmv_main (ex_env 200 ex_entries) ex_params
    (Some (Applet.OPT None (Some (str "9223372036854775807")) true false false false ex_args)) ex_fs = Crash Undefined.
Proof. vm_compute. reflexivity. Qed.
