(* ===== verification/Post.v ===== *)
(** * Posting results ([networking/httppost.c])

    [httppost] sends files to the controller with one HTTP POST: a header, a file, the files of a directory and a footer.  It
    reads the response, copies its body to the output, and removes what it has posted when the body
    is the text OK.  It can compare the time of the server with its own.

    The file system is that of [Condmv].  A connection is what was sent, what can still be read of
    the response, and what was copied to the output.  What the system answers is in [env]: the calls for files in
    [sys], the addresses of the server and which attempts to connect succeed, after how many bytes writing to the connection or to
    the output fails, the response and whether it ends with an error.  [gm_time] is [strptime] with the
    format of the code followed by [timegm]; it is [None] when [strptime] stops before all fields are filled in.  Signals (the
    alarm that ends a connection after a time) and messages are left out. *)

From stdpp Require Import base list list_numbers numbers option strings gmap.
From Stdlib Require Import ZArith Lia.
From Stdlib Require Import Floats.SpecFloat.
From S2P Require Import Prelude Bits Cstr Wp Validate Double Http1 Local Condmv.

Open Scope Z_scope.

Definition MAX_FILES : Z := 1000.
Definition OK_STR : list Z := str "OK" ++ [10].
Definition ATLAS_STATUS_REL : list Z := str "status".
Definition ATLAS_DATA_OOQ_OUT_REL : list Z := str "data/ooq.out".
Definition ATLAS_TIMESYNC_FILE_REL : list Z := str "data/new/timesync.vol".

(** What else happens: an attempt to connect, the clock is set, the clock is found to be wrong, the
    round trip took long. *)
Inductive action := Tried (addr : Z) | TimeSet (time : Z) | NotInSync (local remote : Z) | Slow (rtt : spec_float).

Record params := P { spooldir : list Z; rundir : list Z; unsafe : bool; allow_stime : bool }.
Record options := OPT {
  atlas_id : option (list Z); output_file : option (list Z); delete_file : bool;
  post_dir : option (list Z); post_header : option (list Z); post_footer : option (list Z);
  maxpostsizestr : option (list Z); post_file : option (list Z); time_tolerance : option (list Z);
  timeoutstr : option (list Z); local_time : bool; args : list (list Z)
}.
Record env := ENV {
  sys : Condmv.env;
  getaddrinfo : option (list Z); connect_ok : nat → Z → bool; fdopen_ok : bool;
  write_limit : option nat; out_limit : option nat;
  reply : list Z; reply_error : bool; gm_time : list Z → option Z;
  start_sec : Z; start_usec : Z; end_sec : Z; end_usec : Z; clock : Z
}.
Record post := ST { fs : files; sent : list Z; inp : list Z; out : list Z; acts : list action }.

Definition set_fs (v : files) (s : post) : post := ST v (sent s) (inp s) (out s) (acts s).
Definition set_sent (v : list Z) (s : post) : post := ST (fs s) v (inp s) (out s) (acts s).
Definition set_inp (v : list Z) (s : post) : post := ST (fs s) (sent s) v (out s) (acts s).
Definition set_out (v : list Z) (s : post) : post := ST (fs s) (sent s) (inp s) v (acts s).
Definition set_acts (v : list action) (s : post) : post := ST (fs s) (sent s) (inp s) (out s) v.

Abbreviation PM := (M post).

Definition act (a : action) : PM unit := modify (λ s, set_acts (acts s ++ [a]) s).

(** A call for files *)
Definition onfs {A} (m : M files A) : PM A := λ s,
  match m (fs s) with Done (a, f) => Done (a, set_fs f s) | Crash c => Crash c end.

(** ** URLs *)

(** The code is that of httpget.c, without https. *)
Definition parse_url (u : list Z) : option url := Http1.parse_url false u.

Section Post.
Context (p : params) (e : env).

(** ** Files *)

(** The first directory that accepts the name. *)
Fixpoint validated (f : list Z → list Z → list Z → option (list Z)) (name : list Z) (l : list (list Z * list Z)) : option (list Z) :=
  match l with
  | [] => None
  | (base, prefix) :: l' => match f base name prefix with Some r => Some r | None => validated f name l' end
  end.
Definition valid_filename := validated (rebased_validated_filename (unsafe p)).
Definition valid_dir := validated (rebased_validated_dir (unsafe p)).

(** An open file: its name and its contents. *)
Abbreviation fd := (list Z * list Z)%type.

(** [open] and the test for a regular file. *)
Definition open_regular (fn : list Z) : PM (option fd) :=
  s ← get;
  mret (match fs s !! resolve fn with
        | Some (Regular c _) => if open_ok (sys e) fn then Some (fn, c) else None
        | _ => None
        end).

(** A part of the message that is one file: [None] where the code gives up, nothing when it was not asked for. *)
Definition open_part (name : option (list Z)) (rebase : bool) : PM (option (option fd)) :=
  match name with
  | None => mret (Some None)
  | Some n =>
      match valid_filename n [(spooldir p, ATLAS_DATA_OUT_REL); (rundir p, ATLAS_STATUS_REL)] with
      | None => mret None
      | Some rebased_fn =>
          r ← open_regular (if rebase then rebased_fn else n);
          mret (match r with Some f => Some (Some f) | None => None end)
      end
  end.
Definition size_of (part : option fd) : Z := match part with Some (_, c) => zlen c | None => 0 end.

(** The loop of [do_dir]: the total size so far, the number of files, and the sizes of the list of names and of its memory.
    The result is the names and the sum of their sizes, or [None] for [NULL]. *)
Fixpoint scan (dir_name : list Z) (max_size : Z) (l : list (list Z)) (curr_tot_size file_count currsize allocsize : Z)
    : PM (option (list (list Z) * Z)) :=
  match l with
  | [] => mret (Some ([], 0))
  | d_name :: l' =>
      let len := zlen dir_name + 1 + zlen d_name + 1 in
      let allocsize := if allocsize <? currsize + len then allocsize + 4096 else allocsize in
      if allocsize <=? currsize then mcrash Undefined
      else
        let path := take (Z.to_nat (allocsize - currsize - 1)) (dir_name ++ str "/" ++ d_name) in
        st ← onfs (stat (sys e) path);
        match st with
        | inl _ => mret None
        | inr (Regular c _) =>
            if max_size <? curr_tot_size + zlen c then
              (if Z.quot max_size 2 <? zlen c then onfs (unlink (sys e) path) else mret tt);;
              scan dir_name max_size l' curr_tot_size file_count currsize allocsize
            else if MAX_FILES <=? file_count + 1 then mret (Some ([path], zlen c))
            else
              r ← scan dir_name max_size l' (curr_tot_size + zlen c) (file_count + 1) (currsize + len) allocsize;
              mret (match r with Some (names, n) => Some (path :: names, zlen c + n) | None => None end)
        | inr _ => scan dir_name max_size l' curr_tot_size file_count currsize allocsize
        end
  end.
Definition do_dir (dir_name : list Z) (curr_tot_size max_size : Z) : PM (option (list (list Z) * Z)) :=
  match readdir (sys e) dir_name with
  | None => mret None
  | Some l => scan dir_name max_size l curr_tot_size 0 0 0
  end.

Definition open_dir (max_size curr_size : Z) (name : option (list Z)) : PM (option (list (list Z) * Z)) :=
  match name with
  | None => mret (Some ([], 0))
  | Some n =>
      match valid_dir n [(spooldir p, ATLAS_DATA_OUT_REL); (spooldir p, ATLAS_DATA_STORAGE_REL)] with
      | None => mret None
      | Some rebased_fn => do_dir rebased_fn curr_size max_size
      end
  end.

(** ** The connection *)

(** The loop goes through the addresses but always uses the first. *)
Fixpoint try_connect (res : Z) (n i : nat) : PM bool :=
  match n with
  | O => mret false
  | S n' => act (Tried res);; if connect_ok e i res then mret true else try_connect res n' (S i)
  end.
Definition connect_to_name : PM bool :=
  match getaddrinfo e with
  | Some (res :: l) => try_connect res (S (length l)) 0
  | _ => mret false
  end.

Definition limited (limit : option nat) (l : list Z) : list Z := match limit with Some n => take n l | None => l end.
Definition beyond (limit : option nat) (l : list Z) : bool := match limit with Some n => (n <? length l)%nat | None => false end.

(** [fprintf], not tested *)
Definition print_tcp (l : list Z) : PM unit := modify (λ s, set_sent (limited (write_limit e) (sent s ++ l)) s).
(** [fwrite] *)
Definition fwrite_tcp (l : list Z) : PM bool :=
  s ← get;
  modify (set_sent (limited (write_limit e) (sent s ++ l)));;
  mret (negb (beyond (write_limit e) (sent s ++ l))).
Definition fwrite_out (l : list Z) : PM bool :=
  s ← get;
  modify (set_out (limited (out_limit e) (out s ++ l)));;
  mret (negb (beyond (out_limit e) (out s ++ l))).

Fixpoint send_loop (fuel : nat) (data : list Z) : PM bool :=
  match fuel with
  | O => mcrash OutOfFuel
  | S fuel' =>
      let buffer := take 1024 data in
      if bool_decide (buffer = []) then mret true
      else ok ← fwrite_tcp buffer; if ok : bool then send_loop fuel' (drop 1024 data) else mret false
  end.
(** True for a result of 1. *)
Definition write_to_tcp_fd (f : fd) : PM bool :=
  let data := match read_fail (sys e) f.1 with Some n => take n f.2 | None => f.2 end in
  ok ← send_loop (S (length data)) data;
  mret (ok && bool_decide (read_fail (sys e) f.1 = None)).
Definition write_part (f : option fd) : PM bool := match f with Some f => write_to_tcp_fd f | None => mret true end.

(** [open] without a test of the kind of file *)
Definition open_any (fn : list Z) : PM (option fd) :=
  s ← get;
  mret (if open_ok (sys e) fn then
          match fs s !! resolve fn with
          | Some (Regular c _) => Some (fn, c)
          | Some Special => Some (fn, special_data (sys e) fn)
          | Some Directory => Some (fn, [])
          | None => None
          end
        else None).
Fixpoint write_files (filelist : list (list Z)) : PM bool :=
  match filelist with
  | [] => mret true
  | fn :: l =>
      match valid_filename fn [(spooldir p, ATLAS_DATA_OUT_REL); (spooldir p, ATLAS_DATA_OOQ_OUT_REL); (spooldir p, ATLAS_DATA_STORAGE_REL)] with
      | None => mret false
      | Some _ =>
          f ← open_any fn;
          match f with
          | None => mret false
          | Some f => ok ← write_to_tcp_fd f; if ok : bool then write_files l else mret false
          end
      end
  end.

Definition crnl : list Z := [13; 10].
Definition request_text (o : options) (u : url) (cLength : Z) : list Z :=
  str "POST " ++ u_path u ++ str " HTTP/1.1" ++ crnl ++
  str "Host: " ++ u_host u ++ crnl ++
  str "Connection: close" ++ crnl ++
  str "User-Agent: httppost for atlas.ripe.net" ++ crnl ++
  str "Content-Type: application/x-www-form-urlencoded" ++ crnl ++
  (if local_time o then str "Unix-Date: " ++ print_int (clock e) ++ crnl else []) ++
  str "Content-Length: " ++ print_dec cLength ++ crnl ++ crnl.

(** ** The response *)

(** [fgets] into 1024 bytes and the search for the end of the line: [inl] where [fgets] returns [NULL]
    or there is no end. *)
Definition get_line : PM (option (list Z)) :=
  s ← get;
  let '(buffer, rest) := fgets 1023 (inp s) in
  modify (set_inp rest);;
  mret ('(line, _) ← split_at 10 (cstr buffer); Some (strip_cr line)).

(** True for a result of 1. *)
Definition status_ok (line : list Z) : bool :=
  if negb (prefix_nocase (str "http/") line) then false
  else
    match strtoul 10 (drop 5 line) with
    | Some (_, 46 :: cp) =>
        match strtoul 10 cp with
        | Some (_, c :: check) =>
            isspace c && match (span isspace (c :: check)).2 with d :: _ => d =? 50 | [] => false end
        | _ => false
        end
    | _ => false
    end.
Definition check_result : PM bool :=
  l ← get_line;
  mret (match l with Some line => status_ok line | None => false end).

Record headers := HD { chunked : bool; content_length : Z; server_time : Z }.

Definition skip_spaces (l : list Z) : list Z := (span isspace l).2.
(** What follows the colon of a header line, behind its name. *)
Definition header_value (line : list Z) : option (list Z) :=
  match skip_spaces (span (λ c, negb (c =? 58) && negb (isspace c)) line).2 with
  | 58 :: v => Some (skip_spaces v)
  | _ => None
  end.
(** A header line but [Date]: [None] where the code gives up. *)
Definition header_line (line : list Z) (h : headers) : option headers :=
  if bool_decide (skip_spaces line ≠ line) then Some h
  else if prefix_nocase (str "Transfer-Encoding") line then
    v ← header_value line;
    Some (if negb (prefix_nocase (str "chunked") v) then h
          else if match drop 7 v with c :: _ => isspace c | [] => false end then h
          else HD true (content_length h) (server_time h))
  else if prefix_nocase (str "Content-length") line then
    v ← header_value line;
    '(n, check) ← strtoul 10 v;
    if bool_decide (skip_spaces check = []) then Some (HD (chunked h) (s32 n) (server_time h)) else None
  else Some h.
Definition header_date (line : list Z) (h : headers) : PM headers :=
  if bool_decide (take 6 line = str "Date: ") then
    match gm_time e (drop 6 line) with
    | Some t => mret (HD (chunked h) (content_length h) t)
    | None => mcrash Undefined
    end
  else mret h.
Fixpoint eat_headers (fuel : nat) (h : headers) : PM (option headers) :=
  match fuel with
  | O => mcrash OutOfFuel
  | S fuel' =>
      l ← get_line;
      match l with
      | None => mret None
      | Some [] => mret (Some h)
      | Some line =>
          h ← header_date line h;
          match header_line line h with None => mret None | Some h => eat_headers fuel' h end
      end
  end.

(** The pointer into [OK_STR]: what is left of it, [None] for [NULL]. *)
Fixpoint match_ok (okp : option (list Z)) (buffer : list Z) : option (list Z) :=
  match buffer with
  | [] => okp
  | b :: buffer' =>
      match okp with
      | Some (c :: rest) => if c =? b then match_ok (Some rest) buffer' else None
      | _ => None
      end
  end.
Definition ok_found (okp : option (list Z)) : bool := bool_decide (okp = Some []).

(** [while (offset < len)] of [copy_chunked] and [copy_bytes]; [len] is what is left.  [None] where the code gives up. *)
Fixpoint copy_data (fuel : nat) (len : Z) (okp : option (list Z)) : PM (option (option (list Z))) :=
  if len <=? 0 then mret (Some okp)
  else
    match fuel with
    | O => mcrash OutOfFuel
    | S fuel' =>
        let size := Z.to_nat (Z.min len 1024) in
        s ← get;
        if (length (inp s) <? size)%nat then modify (set_inp []);; mret None
        else
          let buffer := take size (inp s) in
          modify (set_inp (drop size (inp s)));;
          ok ← fwrite_out buffer;
          if ok : bool then copy_data fuel' (len - Z.of_nat size) (match_ok okp buffer) else mret None
    end.

(** The lines behind the last chunk *)
Fixpoint skip_trailer (fuel : nat) : PM bool :=
  match fuel with
  | O => mcrash OutOfFuel
  | S fuel' =>
      l ← get_line;
      match l with None => mret false | Some [] => mret true | Some _ => skip_trailer fuel' end
  end.
(** [None] for a result of 0, the value of [found_ok] otherwise *)
Fixpoint copy_chunks (fuel : nat) (okp : option (list Z)) : PM (option bool) :=
  match fuel with
  | O => mcrash OutOfFuel
  | S fuel' =>
      l ← get_line;
      match l with
      | None => mret None
      | Some line =>
          let '(len, check) := default (0, line) (strtoul 16 line) in
          if match check with c :: _ => negb (isspace c) | [] => false end then mret None
          else if len =? 0 then
            s ← get;
            ok ← skip_trailer (S (length (inp s)));
            mret (if ok : bool then Some (ok_found okp) else None)
          else
            s ← get;
            r ← copy_data (S (length (inp s))) len okp;
            match r with
            | None => mret None
            | Some okp =>
                l ← get_line;
                match l with Some [] => copy_chunks fuel' okp | _ => mret None end
            end
      end
  end.
Definition copy_chunked : PM (option bool) := s ← get; copy_chunks (S (length (inp s))) (Some OK_STR).
Definition copy_bytes (len : Z) : PM (option bool) :=
  s ← get;
  r ← copy_data (S (length (inp s))) len (Some OK_STR);
  mret (ok_found <$> r).
Fixpoint copy_rest (fuel : nat) (okp : option (list Z)) : PM (option (option (list Z))) :=
  match fuel with
  | O => mcrash OutOfFuel
  | S fuel' =>
      s ← get;
      let buffer := take 1024 (inp s) in
      if bool_decide (buffer = []) then mret (Some okp)
      else
        modify (set_inp (drop 1024 (inp s)));;
        ok ← fwrite_out buffer;
        if ok : bool then copy_rest fuel' (match_ok okp buffer) else mret None
  end.
Definition copy_all : PM (option bool) :=
  s ← get;
  r ← copy_rest (S (length (inp s))) (Some OK_STR);
  mret (if reply_error e then None else ok_found <$> r).

(** ** The time of the server *)

Definition rtt : spec_float :=
  let r := dadd (dbl (end_sec e - start_sec e)) (ddiv (dbl (end_usec e - start_usec e)) (dbl 1000000)) in
  if SFltb r (dbl 0) then dbl 0 else r.
Definition record_timesync : PM unit :=
  let fn := spooldir p ++ str "/" ++ ATLAS_TIMESYNC_FILE_REL in
  let fn_new := fn ++ str ".new" in
  ok ← onfs (open_write (sys e) fn_new);
  if ok : bool then
    onfs (modify (put_file (resolve fn_new) (print_dec (u64 (end_sec e)) ++ [10]) (end_sec e)));;
    _ ← onfs (rename (sys e) fn_new fn); mret tt
  else mret tt.
Definition check_time (o : options) (tolerance server_time : Z) : PM unit :=
  if (tolerance =? 0) || (server_time <=? 0) then mret tt
  else
    early ← lift (chk64 (server_time - tolerance));
    late ← lift (chk64 (server_time + tolerance));
    let need_set_time := SFltb (dbl (end_sec e)) (SFsub 53 1024 (dbl early) rtt) || SFltb (dadd (dbl late) rtt) (dbl (end_sec e)) in
    if need_set_time then
      if allow_stime p then act (TimeSet server_time)
      else if bool_decide (is_Some (atlas_id o)) then act (NotInSync (end_sec e) server_time) else mret tt
    else if SFleb rtt (dbl 1) then record_timesync
    else if bool_decide (is_Some (atlas_id o)) then act (Slow rtt) else mret tt.

(** ** The program *)

Definition parse_max (o : options) : option Z :=
  match maxpostsizestr o with
  | None => Some 1000000
  | Some l => let '(v, check) := strtoul0 l in if bool_decide (check = []) then Some (s64 v) else None
  end.
Definition timeout_ok (o : options) : bool :=
  match timeoutstr o with None => true | Some l => bool_decide ((strtoul0 l).2 = []) end.
Definition parse_tolerance (o : options) : option Z :=
  match time_tolerance o with
  | None => Some 0
  | Some l => let '(v, check) := default (0, l) (strtoul 10 l) in if bool_decide (check = []) then Some (s64 v) else None
  end.

(** The file for the body of the response: [None] where the code gives up, nothing for the standard output. *)
Definition open_output (o : options) : PM (option (option key)) :=
  match output_file o with
  | None => mret (Some None)
  | Some n =>
      match valid_filename n [(spooldir p, ATLAS_DATA_NEW_REL)] with
      | None => mret None
      | Some rebased_fn =>
          ok ← onfs (open_write (sys e) rebased_fn);
          if ok : bool then onfs (modify (put_file (resolve rebased_fn) [] (clock e)));; mret (Some (Some (resolve rebased_fn)))
          else mret None
      end
  end.
(** What was written to it *)
Definition store_output (k : option key) : PM unit :=
  match k with None => mret tt | Some k => s ← get; onfs (modify (put_file k (out s) (clock e))) end.

Fixpoint unlink_all (l : list (list Z)) : PM unit :=
  match l with [] => mret tt | fn :: l' => onfs (unlink (sys e) fn);; unlink_all l' end.
(** The files that were posted are removed; false where the code gives up. *)
Definition delete_files (o : options) (filelist : list (list Z)) : PM bool :=
  ok ← match post_file o with
       | None => mret true
       | Some n =>
           match valid_filename n [(spooldir p, ATLAS_DATA_OUT_REL)] with
           | None => mret false
           | Some rebased_fn => onfs (unlink (sys e) rebased_fn);; mret true
           end
       end;
  if ok : bool then unlink_all filelist;; mret true else mret false.

(** What is sent: header, file, files of the directory, footer. *)
Record parts := PT { header : option fd; file : option fd; footer : option fd; filelist : list (list Z); dir_length : Z }.
Definition total (t : parts) : Z := size_of (header t) + size_of (file t) + dir_length t + size_of (footer t).

(** The files are opened before the connection is made. *)
Definition open_parts (o : options) (maxpostsize : Z) : PM (option parts) :=
  h ← open_part (post_header o) true;
  match h with
  | None => mret None
  | Some h =>
      t ← open_part (post_footer o) true;
      match t with
      | None => mret None
      | Some t =>
          f ← open_part (post_file o) false;
          match f with
          | None => mret None
          | Some f =>
              d ← open_dir maxpostsize (size_of h + size_of t + size_of f) (post_dir o);
              mret (match d with None => None | Some (names, n) => Some (PT h f t names n) end)
          end
      end
  end.

Definition send_parts (t : parts) : PM bool :=
  ok ← write_part (header t);
  if negb ok then mret false
  else
    ok ← write_part (file t);
    if negb ok then mret false
    else
      ok ← write_files (filelist t);
      if negb ok then mret false else write_part (footer t).

Definition send_post (o : options) (u : url) (t : parts) : PM bool :=
  ok ← connect_to_name;
  if negb (ok && fdopen_ok e) then mret false
  else print_tcp (request_text o u (total t));; send_parts t.

(** The value of [found_ok] *)
Definition copy_body (h : headers) : PM (option bool) :=
  if chunked h then copy_chunked
  else if 0 <=? content_length h then copy_bytes (content_length h)
  else copy_all.

Definition get_reply (o : options) (tolerance : Z) : PM (option bool) :=
  ok ← check_result;
  if negb ok then mret None
  else
    s ← get;
    h ← eat_headers (S (length (inp s))) (HD false (-1) 0);
    match h with
    | None => mret None
    | Some h =>
        check_time o tolerance (server_time h);;
        k ← open_output o;
        match k with
        | None => mret None
        | Some k => r ← copy_body h; store_output k;; mret r
        end
    end.

Definition httppost_main (opt : option options) : PM Z :=
  match opt with
  | None => mret 1
  | Some o =>
      match args o with
      | [u] =>
          if match atlas_id o with Some l => validate_atlas_id l =? 0 | None => false end then mret 1
          else
            match parse_max o, timeout_ok o, parse_tolerance o, parse_url u with
            | Some maxpostsize, true, Some tolerance, Some u =>
                t ← open_parts o maxpostsize;
                match t with
                | None => mret 1
                | Some t =>
                    ok ← send_post o u t;
                    if negb ok then mret 1
                    else
                      found_ok ← get_reply o tolerance;
                      match found_ok with
                      | None => mret 1
                      | Some found_ok =>
                          ok ← (if delete_file o && found_ok then delete_files o (filelist t) else mret true);
                          mret (if ok : bool then 0 else 1)
                      end
                end
            | _, _, _, _ => mret 1
            end
      | _ => mret 1
      end
  end.
End Post.

Definition post_start (e : env) (f : files) : post := ST f [] (reply e) [] [].
