(* ===== verification/PostProofs.v ===== *)
(** * Posting results: the parts of the program *)

From stdpp Require Import base list list_numbers numbers option strings gmap.
From Stdlib Require Import ZArith Lia.
From S2P Require Import Prelude Bits Cstr Wp Validate Packet Double Http1 Local Condmv CondmvProofs CondmvMain Post.

Open Scope Z_scope.

Lemma wp_onfs {A} (m : M files A) Q s : wp m (λ a f, Q a (set_fs f s)) (fs s) → wp (onfs m) Q s.
Proof. unfold wp, onfs. by destruct (m (fs s)) as [[a f]|c]. Qed.

(** Only files differ; all but files are the same; all but what was read. *)
Definition same_conn (s s' : post) : Prop := sent s' = sent s ∧ inp s' = inp s ∧ out s' = out s.
Definition same_files (s s' : post) : Prop := fs s' = fs s.

(** ** Lines *)

Section Proofs.
Context (p : params) (e : env).

Lemma fgets_length n l : (length (fgets n l).2 + length (fgets n l).1 = length l)%nat.
Proof.
  revert l. induction n as [|n IH]; intros l; [cbn; lia|]. destruct l as [|c l]; [done|]. cbn [fgets length].
  destruct (c =? nl); cbn [length fst snd]; [lia|]. specialize (IH l). destruct (fgets n l). cbn [fst snd length] in *. lia.
Qed.

(** Reading a line changes only what is left to read, which gets shorter. *)
Definition took (s s' : post) : Prop := fs s' = fs s ∧ sent s' = sent s ∧ out s' = out s.
Lemma took_trans s1 s2 s3 : took s1 s2 → took s2 s3 → took s1 s3.
Proof. unfold took. intuition congruence. Qed.

Lemma wp_get_line s :
  wp get_line (λ r s', took s s' ∧ inp s' = (fgets 1023 (inp s)).2 ∧
    (r ≠ None → (length (inp s') < length (inp s))%nat)) s.
Proof.
  unfold get_line. wp_steps. pose proof (fgets_length 1023 (inp s)) as Hlen. destruct (fgets 1023 (inp s)) as [buf rest]. wp_steps.
  split; [done|]. split; [done|]. cbn [fst snd set_inp inp] in *. intros Hr. destruct buf; [done|]. cbn [length] in Hlen. lia.
Qed.

(** ** Copying the body *)

Lemma match_ok_None l : match_ok None l = None.
Proof. by destruct l. Qed.
Lemma match_ok_app okp a b : match_ok okp (a ++ b) = match_ok (match_ok okp a) b.
Proof.
  revert okp. induction a as [|c a IH]; intros okp; [done|]. cbn [app match_ok].
  destruct okp as [[|d r]|]; [by rewrite match_ok_None| |by rewrite match_ok_None].
  destruct (d =? c); [apply IH|by rewrite match_ok_None].
Qed.
Lemma match_ok_text okp l r : match_ok (Some okp) l = Some r ↔ okp = l ++ r.
Proof.
  revert okp. induction l as [|b l IH]; intros okp; cbn [match_ok app]; [naive_solver|].
  destruct okp as [|c okp]; [done|]. destruct (Z.eqb_spec c b) as [->|Hne]; [rewrite IH|]; naive_solver.
Qed.
Lemma ok_found_text l : ok_found (match_ok (Some OK_STR) l) = bool_decide (l = OK_STR).
Proof.
  unfold ok_found. apply bool_decide_ext. rewrite match_ok_text, app_nil_r. naive_solver.
Qed.

(** Some of the response was copied to the output. *)
Definition copied (s s' : post) (body : list Z) : Prop := fs s' = fs s ∧ sent s' = sent s ∧ out s' = out s ++ body.
Lemma copied_trans s1 s2 s3 a b : copied s1 s2 a → copied s2 s3 b → copied s1 s3 (a ++ b).
Proof. intros (E1 & E2 & E3) (F1 & F2 & F3). unfold copied. rewrite F1, F2, F3, E1, E2, E3. by rewrite <- app_assoc. Qed.
Lemma copied_took s1 s2 s3 a : took s1 s2 → copied s2 s3 a → copied s1 s3 a.
Proof. intros (E1 & E2 & E3) (F1 & F2 & F3). unfold copied. by rewrite F1, F2, F3, E1, E2, E3. Qed.
Lemma took_copied s s' : took s s' → copied s s' [].
Proof. intros (E1 & E2 & E3). unfold copied. by rewrite E1, E2, E3, app_nil_r. Qed.

(** Files and connection stay, and a result says what was copied. *)
Definition kept_conn (s s' : post) : Prop := fs s' = fs s ∧ sent s' = sent s.

Lemma wp_fwrite_out l s :
  wp (fwrite_out e l) (λ ok s', kept_conn s s' ∧ inp s' = inp s ∧ (ok = true → out s' = out s ++ l) ∧ (out_limit e = None → ok = true)) s.
Proof.
  unfold fwrite_out, kept_conn. wp_steps. split_and!; [done..| |]; unfold beyond, limited; destruct (out_limit e); cbn; intros H; try done.
  apply take_ge. apply negb_true_iff, Nat.ltb_ge in H. done.
Qed.

Lemma wp_copy_data fuel len okp s :
  (length (inp s) < fuel)%nat →
  wp (copy_data e fuel len okp) (λ r s', kept_conn s s' ∧ (length (inp s') ≤ length (inp s))%nat ∧
    (∀ okp', r = Some okp' → ∃ body, copied s s' body ∧ okp' = match_ok okp body) ∧
    (∀ data rest, out_limit e = None → inp s = data ++ rest → zlen data = len →
       r = Some (match_ok okp data) ∧ copied s s' data ∧ inp s' = rest)) s.
Proof.
  revert len okp s. induction fuel as [|fuel IH]; intros len okp s Hf; [lia|]. cbn [copy_data].
  destruct (Z.leb_spec len 0) as [Hlen|Hlen].
  { wp_steps. split; [done|]. split; [done|]. split.
    - intros okp' [= <-]. exists []. split; [|done]. by apply took_copied.
    - intros data rest _ Ei Hd. destruct data; [|unfold zlen in Hd; cbn in Hd; lia]. split; [done|]. split; [by apply took_copied|by rewrite Ei]. }
  wp_steps. set (size := Z.to_nat (Z.min len 1024)). assert (0 < size)%nat as Hs by lia.
  destruct (Nat.ltb_spec (length (inp s)) size) as [Hshort|Hlong]; wp_steps.
  { split; [done|]. split; [cbn; lia|]. split; [done|]. intros data rest _ Ei Hd. rewrite Ei, length_app in Hshort. unfold zlen in Hd. lia. }
  eapply wp_mono; [apply wp_fwrite_out|]. cbv beta. intros ok s1 (K1 & I1 & O1 & Ok1). cbn [set_inp inp out fs sent] in *.
  assert (kept_conn s s1) as K1' by exact K1.
  destruct ok; [|wp_steps; split; [done|]; split; [rewrite I1, length_drop; lia|]; split; [done|]; intros ? ? H; by apply Ok1 in H].
  eapply wp_mono; [apply IH; rewrite I1, length_drop; lia|]. cbv beta. intros r s2 (K2 & L2 & R2 & D2).
  assert (copied s s1 (take size (inp s))) as C1 by (destruct K1; split_and!; [done|done|by apply O1]).
  split; [destruct K1', K2; split; congruence|]. split; [rewrite I1, length_drop in L2; lia|]. split.
  - intros okp' E. destruct (R2 okp' E) as (body & C2 & ->). exists (take size (inp s) ++ body). split; [by eapply copied_trans|].
    by rewrite match_ok_app.
  - intros data rest Hlim Ei Hd. unfold zlen in Hd.
    assert (take size (inp s) = take size data) as Et by (rewrite Ei; apply take_app_le; lia).
    destruct (D2 (drop size data) rest Hlim) as (-> & C2 & E2).
    + rewrite I1, Ei. apply drop_app_le. lia.
    + unfold zlen. rewrite length_drop. lia.
    + rewrite <- match_ok_app, Et, take_drop. split; [done|]. split; [|done].
      rewrite <- (take_drop size data). rewrite Et in C1. by eapply copied_trans.
Qed.

Lemma wp_copy_rest fuel okp s :
  (length (inp s) < fuel)%nat →
  wp (copy_rest e fuel okp) (λ r s', kept_conn s s' ∧
    (∀ okp', r = Some okp' → copied s s' (inp s) ∧ okp' = match_ok okp (inp s)) ∧ (out_limit e = None → r ≠ None)) s.
Proof.
  revert okp s. induction fuel as [|fuel IH]; intros okp s Hf; [lia|]. cbn [copy_rest]. wp_steps.
  case_bool_decide as Hb; wp_steps.
  { destruct (inp s) as [|c l] eqn:E; [|done]. split; [done|]. split; [|done]. intros okp' [= <-]. split; [by apply took_copied|done]. }
  eapply wp_mono; [apply wp_fwrite_out|]. cbv beta. intros ok s1 (K1 & I1 & O1 & Ok1). cbn [set_inp inp out fs sent] in *.
  destruct ok; [|wp_steps; split; [done|]; split; [done|]; intros H; by apply Ok1 in H].
  assert (0 < length (inp s))%nat by (destruct (inp s); [done|cbn; lia]).
  eapply wp_mono; [apply IH; rewrite I1, length_drop; lia|]. cbv beta. intros r s2 (K2 & R2 & N2).
  split; [destruct K1, K2; split; cbn in *; congruence|]. split; [|done]. intros okp' E. destruct (R2 okp' E) as [C2 ->]. rewrite I1 in *.
  rewrite <- match_ok_app, take_drop. split; [|done]. rewrite <- (take_drop 1024 (inp s)) at 1.
  eapply copied_trans; [|exact C2]. destruct K1. split_and!; [done|done|by apply O1].
Qed.

Lemma wp_skip_trailer fuel s : (length (inp s) < fuel)%nat → wp (skip_trailer fuel) (λ _ s', took s s') s.
Proof.
  revert s. induction fuel as [|fuel IH]; intros s Hf; [lia|]. cbn [skip_trailer]. wp_steps.
  eapply wp_mono; [apply wp_get_line|]. cbv beta. intros r s1 (T1 & _ & L1). destruct r as [[|c l]|]; wp_steps; [done| |done].
  eapply wp_mono; [apply IH; specialize (L1 ltac:(done)); lia|]. cbv beta. intros _ s2 T2. by eapply took_trans.
Qed.

Lemma wp_copy_chunks fuel okp s :
  (length (inp s) < fuel)%nat →
  wp (copy_chunks e fuel okp) (λ r s', kept_conn s s' ∧
    ∀ b, r = Some b → ∃ body, copied s s' body ∧ b = ok_found (match_ok okp body)) s.
Proof.
  revert okp s. induction fuel as [|fuel IH]; intros okp s Hf; [lia|]. cbn [copy_chunks]. wp_steps.
  eapply wp_mono; [apply wp_get_line|]. cbv beta. intros r s1 (T1 & _ & L1).
  assert (kept_conn s s1) as K1 by (by destruct T1 as (? & ? & _)).
  destruct r as [line|]; wp_steps; [|done]. specialize (L1 ltac:(done)).
  destruct (default (0, line) (strtoul 16 line)) as [len check]. destruct (match check with c :: _ => _ | [] => _ end); wp_steps; [done|].
  destruct (len =? 0); wp_steps.
  - eapply wp_mono; [apply wp_skip_trailer; lia|]. cbv beta. intros ok s2 T2. wp_steps.
    pose proof (took_trans _ _ _ T1 T2) as T. split; [by destruct T as (? & ? & _)|]. destruct ok; [|done]. intros b [= <-]. exists [].
    split; [by apply took_copied|done].
  - eapply wp_mono; [apply wp_copy_data; lia|]. cbv beta. intros r s2 (K2 & L2 & R2 & _).
    assert (kept_conn s s2) as K12 by (destruct K1, K2; split; congruence).
    destruct r as [okp'|]; wp_steps; [|done]. destruct (R2 okp' eq_refl) as (body & C2 & ->).
    eapply wp_mono; [apply wp_get_line|]. cbv beta. intros r s3 (T3 & _ & L3).
    assert (kept_conn s s3) as K13 by (destruct K12, T3 as (? & ? & _); split; congruence).
    destruct r as [[|c l]|]; wp_steps; [|done..]. specialize (L3 ltac:(done)).
    eapply wp_mono; [apply IH; lia|]. cbv beta. intros r s4 (K4 & R4).
    split; [destruct K13, K4; split; congruence|]. intros b E. destruct (R4 b E) as (body' & C4 & ->).
    exists (body ++ body'). rewrite match_ok_app. split; [|done].
    eapply copied_trans; [by eapply copied_took|]. by eapply copied_took.
Qed.

(** Whatever the response: the text was found if and only if it is what was copied. *)
Lemma wp_copy_body h s :
  wp (copy_body e h) (λ r s', kept_conn s s' ∧
    ∀ b, r = Some b → ∃ body, copied s s' body ∧ b = bool_decide (body = OK_STR)) s.
Proof.
  unfold copy_body. destruct (chunked h); [|destruct (0 <=? content_length h)].
  - unfold copy_chunked. wp_steps. eapply wp_mono; [apply wp_copy_chunks; lia|]. cbv beta. intros r s' [K R]. split; [done|].
    intros b E. destruct (R b E) as (body & C & ->). exists body. by rewrite ok_found_text.
  - unfold copy_bytes. wp_steps. eapply wp_mono; [apply wp_copy_data; lia|]. cbv beta. intros r s' (K & _ & R & _). wp_steps. split; [done|].
    destruct r as [okp|]; [|done]. intros b [= <-]. destruct (R okp eq_refl) as (body & C & ->). exists body. by rewrite ok_found_text.
  - unfold copy_all. wp_steps. eapply wp_mono; [apply wp_copy_rest; lia|]. cbv beta. intros r s' (K & R & _). wp_steps. split; [done|].
    destruct (reply_error e); [done|]. destruct r as [okp|]; [|done]. intros b [= <-]. destruct (R okp eq_refl) as (C & ->). exists (inp s).
    by rewrite ok_found_text.
Qed.

(** ** Headers *)

(** The library reads every date, as a time that is not at the end of the range. *)
Definition dates_ok : Prop := ∀ l, ∃ t, gm_time e l = Some t ∧ - 2 ^ 61 ≤ t < 2 ^ 61.
Definition time_ok (h : headers) : Prop := - 2 ^ 61 ≤ server_time h < 2 ^ 61.

Lemma header_line_time line h h' : header_line line h = Some h' → server_time h' = server_time h.
Proof.
  unfold header_line. repeat case_bool_decide; [by intros [= <-]|].
  destruct (prefix_nocase (str "Transfer-Encoding") line).
  { intros (v & _ & E)%bind_Some. injection E as <-. repeat case_match; done. }
  destruct (prefix_nocase (str "Content-length") line); [|by intros [= <-]].
  intros (v & _ & E)%bind_Some. apply bind_Some in E as ([n check] & _ & E). case_bool_decide; [by injection E as <-|done].
Qed.

Lemma wp_header_date line h s :
  dates_ok → time_ok h → wp (header_date e line h) (λ h' s', s' = s ∧ time_ok h' ∧
    (take 6 line ≠ str "Date: " → h' = h)) s.
Proof.
  intros Hd Ht. unfold header_date. case_bool_decide; [|by wp_steps].
  destruct (Hd (drop 6 line)) as (t & -> & Hb). by wp_steps.
Qed.

Lemma wp_eat_headers fuel h s :
  dates_ok → time_ok h → (length (inp s) < fuel)%nat →
  wp (eat_headers e fuel h) (λ r s', took s s' ∧ (length (inp s') ≤ length (inp s))%nat ∧ ∀ h', r = Some h' → time_ok h') s.
Proof.
  intros Hd. revert h s. induction fuel as [|fuel IH]; intros h s Ht Hf; [lia|]. cbn [eat_headers]. wp_steps.
  eapply wp_mono; [apply wp_get_line|]. cbv beta. intros r s1 (T1 & I1 & L1).
  assert (length (inp s1) ≤ length (inp s))%nat as L1' by (rewrite I1; pose proof (fgets_length 1023 (inp s)); lia).
  destruct r as [line|]; [|by wp_steps]. specialize (L1 ltac:(done)).
  destruct line as [|c line]; [wp_steps; split; [done|]; split; [done|]; by intros h' [= <-]|].
  wp_steps. eapply wp_mono; [by apply wp_header_date|]. cbv beta. intros h1 ? (-> & Ht1 & _).
  destruct (header_line (c :: line) h1) as [h2|] eqn:Eh; [|by wp_steps].
  eapply wp_mono; [apply IH; [|lia]|].
  { unfold time_ok. by rewrite (header_line_time _ _ _ Eh). }
  cbv beta. intros r s2 (T2 & L2 & R2). split; [by eapply took_trans|]. split; [lia|done].
Qed.

(** ** Sending *)

(** Only the connection is concerned. *)
Definition only_sent (s s' : post) : Prop := fs s' = fs s ∧ inp s' = inp s ∧ out s' = out s.
Lemma only_sent_trans s1 s2 s3 : only_sent s1 s2 → only_sent s2 s3 → only_sent s1 s3.
Proof. unfold only_sent. intuition congruence. Qed.

(** When the call succeeds, [l] was sent. *)
Definition sends (l : list Z) (m : PM bool) : Prop := ∀ s,
  wp m (λ ok s', only_sent s s' ∧ (ok = true → sent s' = sent s ++ l)) s.

Lemma sends_nil : sends [] (mret true).
Proof. intros s. wp_steps. split; [done|]. by rewrite app_nil_r. Qed.
Lemma sends_fwrite l : sends l (fwrite_tcp e l).
Proof.
  intros s. unfold fwrite_tcp. wp_steps. split; [done|]. unfold beyond, limited. destruct (write_limit e); cbn; [|done].
  intros H. apply take_ge. apply negb_true_iff, Nat.ltb_ge in H. done.
Qed.

Lemma sends_loop fuel data : (length data < fuel)%nat → sends data (send_loop e fuel data).
Proof.
  revert data. induction fuel as [|fuel IH]; intros data Hf; [lia|]. cbn [send_loop].
  case_bool_decide as Hb. { destruct data; [apply sends_nil|done]. }
  assert (0 < length data)%nat by (destruct data; [done|cbn; lia]).
  rewrite <- (take_drop 1024 data) at 1. intros s. wp_steps. eapply wp_mono; [apply sends_fwrite|]. cbv beta.
  intros ok s1 [O1 S1]. destruct ok; [|by wp_steps].
  eapply wp_mono; [apply IH; rewrite length_drop; lia|]. cbv beta. intros ok s2 [O2 S2].
  split; [by eapply only_sent_trans|]. intros H'. by rewrite (S2 H'), (S1 eq_refl), app_assoc.
Qed.

Lemma sends_fd (f : list Z * list Z) : sends f.2 (write_to_tcp_fd e f).
Proof.
  intros s. unfold write_to_tcp_fd. wp_steps. eapply wp_mono; [by apply sends_loop; lia|]. cbv beta. intros ok s1 [O1 S1]. wp_steps.
  split; [done|]. intros [-> H%bool_decide_eq_true]%andb_true_iff. rewrite H in S1. auto.
Qed.
Definition part_data (f : option (list Z * list Z)) : list Z := match f with Some f => f.2 | None => [] end.
Lemma sends_part f : sends (part_data f) (write_part e f).
Proof. destruct f as [f|]; [apply sends_fd|apply sends_nil]. Qed.

Definition file_data (f : files) (fn : list Z) : list Z :=
  match f !! resolve fn with Some (Regular c _) => c | Some Special => special_data (sys e) fn | _ => [] end.

Lemma wp_write_files l s :
  wp (write_files p e l) (λ ok s', only_sent s s' ∧ (ok = true → sent s' = sent s ++ concat (file_data (fs s) <$> l))) s.
Proof.
  revert s. induction l as [|fn l IH]; intros s; cbn [write_files fmap list_fmap concat]; [apply sends_nil|].
  destruct (valid_filename p fn _); [|by wp_steps]. unfold open_any. wp_steps.
  destruct (open_ok (sys e) fn); [|by wp_steps].
  assert (∀ f, file_data (fs s) fn = f.2 →
    wp (ok ← write_to_tcp_fd e f; if ok : bool then write_files p e l else mret false)
      (λ ok s', only_sent s s' ∧ (ok = true → sent s' = sent s ++ file_data (fs s) fn ++ concat (file_data (fs s) <$> l))) s) as Hgo.
  { intros f ->. wp_steps. eapply wp_mono; [apply sends_fd|]. cbv beta. intros ok s1 [O1 S1]. destruct ok; [|by wp_steps].
    eapply wp_mono; [apply IH|]. cbv beta. intros ok s2 [O2 S2]. split; [by eapply only_sent_trans|]. intros H.
    rewrite (S2 H), (S1 eq_refl). destruct O1 as (-> & _). by rewrite <- app_assoc. }
  unfold file_data in *. destruct (fs s !! resolve fn) as [[c m| |]|] eqn:E; [by apply Hgo..|by wp_steps].
Qed.

Lemma wp_connect s : wp (connect_to_name e) (λ _ s', only_sent s s' ∧ sent s' = sent s) s.
Proof.
  unfold connect_to_name. destruct (getaddrinfo e) as [[|res l]|]; [by wp_steps| |by wp_steps].
  generalize (S (length l)) as n, 0%nat as i. intros n. revert s. induction n as [|n IH]; intros s i; cbn [try_connect]; [by wp_steps|].
  unfold act. wp_steps. destruct (connect_ok e i res); [by wp_steps|].
  eapply wp_mono; [apply IH|]. done.
Qed.

(** The body of the request *)
Definition body_of (t : parts) (f : files) : list Z :=
  part_data (header t) ++ part_data (file t) ++ concat (file_data f <$> filelist t) ++ part_data (footer t).

Lemma wp_send_post o u t s :
  wp (send_post p e o u t) (λ ok s', only_sent s s' ∧
    (ok = true → sent s' = limited (write_limit e) (sent s ++ request_text e o u (total t)) ++ body_of t (fs s))) s.
Proof.
  unfold send_post. wp_steps. eapply wp_mono; [apply wp_connect|]. cbv beta. intros ok s1 [O1 S1].
  destruct (negb _); [by wp_steps|]. unfold print_tcp. wp_steps. unfold send_parts.
  match goal with |- wp _ _ ?s => set (s2 := s) end.
  assert (only_sent s s2) as O2 by exact O1.
  wp_steps. eapply wp_mono; [apply sends_part|]. cbv beta. intros ok1 s3 [O3 S3]. destruct ok1; cbn [negb]; [|wp_steps; split; [by eapply only_sent_trans|done]].
  wp_steps. eapply wp_mono; [apply sends_part|]. cbv beta. intros ok2 s4 [O4 S4].
  pose proof (only_sent_trans _ _ _ O2 O3) as O23. pose proof (only_sent_trans _ _ _ O23 O4) as O24.
  destruct ok2; cbn [negb]; [|by wp_steps].
  wp_steps. eapply wp_mono; [apply wp_write_files|]. cbv beta. intros ok3 s5 [O5 S5]. pose proof (only_sent_trans _ _ _ O24 O5) as O25.
  destruct ok3; cbn [negb]; [|by wp_steps].
  eapply wp_mono; [apply sends_part|]. cbv beta. intros ok4 s6 [O6 S6]. split; [by eapply only_sent_trans|]. intros H.
  rewrite (S6 H), (S5 eq_refl), (S4 eq_refl), (S3 eq_refl). destruct O24 as (-> & _). unfold body_of, s2. cbn [set_sent sent]. rewrite S1.
  by rewrite <- !app_assoc.
Qed.
End Proofs.
