(* ===== verification/PostMain.v ===== *)
(** * Posting results: what is removed *)

From stdpp Require Import base list list_numbers numbers option strings gmap.
From Stdlib Require Import ZArith Lia.
From Stdlib Require Import Floats.SpecFloat.
From S2P Require Import Prelude Bits Cstr Wp Validate Packet Double Http1 Local Condmv CondmvProofs CondmvMain Post PostProofs.

Open Scope Z_scope.

Section Main.
Context (p : params) (e : env).

(** ** The files of a directory *)

Definition path_of (dir d : list Z) : list Z := dir ++ str "/" ++ d.
(** The names fit into what is allocated at a time. *)
Definition names_fit (dir : list Z) (l : list (list Z)) : Prop := ∀ d, d ∈ l → zlen dir + 1 + zlen d + 1 ≤ 4096.

(** A file of the directory that is larger than half of what may be sent: one that may be removed when it does not fit
    behind the files listed before it *)
Definition over_half (max : Z) (dir : list Z) (l : list (list Z)) (k : key) (o : obj) : Prop :=
  ∃ d c m, d ∈ l ∧ k = resolve (path_of dir d) ∧ o = Regular c m ∧ Z.quot max 2 < zlen c.

(** Only files larger than half of what may be sent are removed. *)
Definition pruned (max : Z) (dir : list Z) (l : list (list Z)) (f f' : files) : Prop :=
  f' ⊆ f ∧ ∀ k o, f !! k = Some o → f' !! k = Some o ∨ over_half max dir l k o.

Lemma pruned_refl max dir l f : pruned max dir l f f.
Proof. split; [done|]. by left. Qed.
Lemma pruned_cons max dir d l f1 f2 f3 :
  f2 ⊆ f1 → (∀ k o, f1 !! k = Some o → f2 !! k = Some o ∨ over_half max dir (d :: l) k o) →
  pruned max dir l f2 f3 → pruned max dir (d :: l) f1 f3.
Proof.
  intros H12 H1 [H23 H2]. split; [by etransitivity|]. intros k o E. destruct (H1 k o E) as [E2|]; [|by right].
  destruct (H2 k o E2) as [|(d' & c & m & Hd & ?)]; [by left|right]. exists d', c, m. split; [by right|done].
Qed.

(** What is listed: names of the directory with their regular files *)
Definition listed (dir : list Z) (l : list (list Z)) (f : files) (r : option (list (list Z) * Z)) : Prop :=
  ∀ names n, r = Some (names, n) → ∀ fn, fn ∈ names → ∃ d c m, d ∈ l ∧ fn = path_of dir d ∧ f !! resolve fn = Some (Regular c m).

Lemma wp_unlink_removes (en : Condmv.env) fn f :
  wp (unlink en fn) (λ _ f', f' = f ∨ f' = delete (resolve fn) f) f.
Proof.
  unfold unlink. wp_steps. destruct (f !! resolve fn) as [[]|]; [|by wp_steps; left| |];
    (destruct (unlink_ok en fn); wp_steps; [by right|by left]).
Qed.

Lemma path_fits dir d currsize allocsize :
  0 ≤ currsize ≤ allocsize → zlen dir + 1 + zlen d + 1 ≤ 4096 →
  let a := if allocsize <? currsize + (zlen dir + 1 + zlen d + 1) then allocsize + 4096 else allocsize in
  currsize + (zlen dir + 1 + zlen d + 1) ≤ a ∧ take (Z.to_nat (a - currsize - 1)) (path_of dir d) = path_of dir d.
Proof.
  intros Hc Hl a. assert (currsize + (zlen dir + 1 + zlen d + 1) ≤ a) as Ha.
  { unfold a. destruct (Z.ltb_spec allocsize (currsize + (zlen dir + 1 + zlen d + 1))); lia. }
  split; [done|]. apply take_ge. unfold path_of. rewrite !length_app. change (length (str "/")) with 1%nat. unfold zlen in *. lia.
Qed.

Lemma wp_scan dir max l tot count currsize allocsize s :
  names_fit dir l → 0 ≤ currsize ≤ allocsize →
  wp (scan e dir max l tot count currsize allocsize)
    (λ r s', same_conn s s' ∧ pruned max dir l (fs s) (fs s') ∧ listed dir l (fs s) r) s.
Proof.
  revert tot count currsize allocsize s. induction l as [|d l IH]; intros tot count currsize allocsize s Hfit Hc; cbn [scan].
  { wp_steps. split; [done|]. split; [apply pruned_refl|]. intros names n [= <- <-] fn Hin. by apply elem_of_nil in Hin. }
  destruct (path_fits dir d currsize allocsize Hc) as [Ha Hp]; [apply Hfit; by left|]. fold (path_of dir d). rewrite Hp.
  set (a := if allocsize <? _ then _ else _) in *.
  assert (names_fit dir l) as Hfit' by (intros d' Hd; apply Hfit; by right).
  assert (0 ≤ zlen dir ∧ 0 ≤ zlen d) as [Hz1 Hz2] by (unfold zlen; lia).
  destruct (Z.leb_spec a currsize); [lia|].
  assert (∀ tot count cs al s1, 0 ≤ cs ≤ al → same_conn s s1 → fs s1 ⊆ fs s →
            (∀ k o, fs s !! k = Some o → fs s1 !! k = Some o ∨ over_half max dir (d :: l) k o) →
            wp (scan e dir max l tot count cs al)
              (λ r s', same_conn s s' ∧ pruned max dir (d :: l) (fs s) (fs s') ∧ listed dir (d :: l) (fs s) r) s1) as Hgo.
  { intros tot' count' cs al s1 Hcs Hsame Hsub Hk. eapply wp_mono; [by apply IH|]. cbv beta. intros r s' (S' & P' & L').
    split_and!; [unfold same_conn in *; intuition congruence|by eapply pruned_cons|].
    intros names n E fn Hin. destruct (L' names n E fn Hin) as (d' & c & m & Hd & -> & Hl). exists d', c, m.
    split_and!; [by right|done|by eapply lookup_weaken]. }
  wp_steps. apply wp_onfs. unfold stat. wp_steps. destruct (stat_fails (sys e) _).
  { wp_steps. split; [done|]. split; [apply pruned_refl|]. by intros names n. }
  destruct (fs s !! resolve (path_of dir d)) as [[c m| |]|] eqn:Es.
  2-3: (eapply wp_mono; [apply Hgo; [lia|done|done|by left]|cbv beta; tauto]).
  2: { wp_steps. split; [done|]. split; [apply pruned_refl|]. by intros names n. }
  destruct (max <? tot + zlen c).
  - wp_steps. destruct (Z.ltb_spec (Z.quot max 2) (zlen c)) as [Hbig|_].
    + apply wp_onfs. eapply wp_mono; [apply wp_unlink_removes|]. cbv beta. intros _ f' Hf'.
      eapply wp_mono; [apply Hgo; [lia|done|..]|cbv beta; tauto]; cbn [set_fs fs] in *.
      * destruct Hf' as [->| ->]; [done|apply delete_subseteq].
      * intros k o Ek. destruct Hf' as [->| ->]; [by left|]. destruct (decide (k = resolve (path_of dir d))) as [->|Hne].
        -- right. exists d, c, m. split_and!; [by left|done|congruence|done].
        -- left. by rewrite lookup_delete_ne.
    + wp_steps. eapply wp_mono; [apply Hgo; [lia|done|done|by left]|cbv beta; tauto].
  - destruct (MAX_FILES <=? count + 1); wp_steps.
    + split; [done|]. split; [apply pruned_refl|]. intros names n [= <- <-] fn Hin. apply list_elem_of_singleton in Hin as ->.
      exists d, c, m. split_and!; [by left|done..].
    + eapply wp_mono; [apply Hgo; [lia|done|done|by left]|]. cbv beta. intros r s' (S' & P' & L'). wp_steps. split_and!; [done..|].
      destruct r as [[names n]|]; [|done].
      intros ? ? [= <- <-] fn [->|Hin]%elem_of_cons; [exists d, c, m; split_and!; [by left|done..]|by eapply L'].
Qed.

(** ** The message *)

Lemma wp_open_part name rebase s :
  wp (open_part p e name rebase) (λ r s', s' = s ∧
    ∀ part, r = Some part →
      match name with
      | None => part = None
      | Some n => ∃ rebased c m,
          valid_filename p n [(spooldir p, ATLAS_DATA_OUT_REL); (rundir p, ATLAS_STATUS_REL)] = Some rebased ∧
          let fn := if rebase : bool then rebased else n in part = Some (fn, c) ∧ fs s !! resolve fn = Some (Regular c m)
      end) s.
Proof.
  unfold open_part. destruct name as [n|]; wp_steps; [|split; [done|by intros part [= <-]]].
  destruct (valid_filename p n _) as [rebased|] eqn:Ev; [|by wp_steps]. unfold open_regular. wp_steps. split; [done|].
  destruct (fs s !! _) as [[c m| |]|] eqn:Ef; try done. destruct (open_ok _ _); [|done]. intros part [= <-]. by exists rebased, c, m.
Qed.

Definition the_dir (o : options) : option (list Z) :=
  n ← post_dir o; valid_dir p n [(spooldir p, ATLAS_DATA_OUT_REL); (spooldir p, ATLAS_DATA_STORAGE_REL)].
Definition the_entries (dir : list Z) : list (list Z) := default [] (readdir (sys e) dir).
(** A file of the directory that is larger than half of what may be sent *)
Definition oversized (o : options) (max : Z) (k : key) (ob : obj) : Prop :=
  ∃ dir, the_dir o = Some dir ∧ over_half max dir (the_entries dir) k ob.

Definition parts_ok (o : options) (f : files) (t : parts) : Prop :=
  match post_file o with
  | None => file t = None
  | Some n => ∃ c m, file t = Some (n, c) ∧ f !! resolve n = Some (Regular c m)
  end ∧
  ∀ fn, fn ∈ filelist t → ∃ c m, f !! resolve fn = Some (Regular c m).

Lemma wp_open_parts o max s :
  (∀ dir, the_dir o = Some dir → names_fit dir (the_entries dir)) →
  wp (open_parts p e o max) (λ r s', same_conn s s' ∧ fs s' ⊆ fs s ∧
    (∀ k ob, fs s !! k = Some ob → fs s' !! k = Some ob ∨ oversized o max k ob) ∧
    ∀ t, r = Some t → parts_ok o (fs s) t) s.
Proof.
  intros Hfit. unfold open_parts. wp_steps.
  eapply wp_mono; [apply wp_open_part|]. cbv beta. intros h ? [-> _]. destruct h as [h|]; wp_steps; [|split_and!; [done|done|by left|done]].
  eapply wp_mono; [apply wp_open_part|]. cbv beta. intros t ? [-> _]. destruct t as [t|]; wp_steps; [|split_and!; [done|done|by left|done]].
  eapply wp_mono; [apply wp_open_part|]. cbv beta. intros f ? [-> Hf]. destruct f as [f|]; wp_steps; [|split_and!; [done|done|by left|done]].
  assert (match post_file o with None => f = None | Some n => ∃ c m, f = Some (n, c) ∧ fs s !! resolve n = Some (Regular c m) end) as Hfile.
  { specialize (Hf f eq_refl). destruct (post_file o); [|done]. destruct Hf as (_ & c & m & _ & ? & ?). eauto. }
  clear Hf. unfold open_dir. destruct (post_dir o) as [n|] eqn:En; wp_steps.
  2: { split_and!; [done|done|by left|]. intros t' [= <-]. split; [done|]. intros fn Hin. by apply elem_of_nil in Hin. }
  destruct (valid_dir p n _) as [dir|] eqn:Ed; wp_steps; [|split_and!; [done|done|by left|done]].
  unfold do_dir. destruct (readdir (sys e) dir) as [l|] eqn:El; wp_steps; [|split_and!; [done|done|by left|done]].
  assert (the_dir o = Some dir) as Edir by (unfold the_dir; by rewrite En).
  specialize (Hfit dir Edir). unfold the_entries in Hfit. rewrite El in Hfit. cbn in Hfit.
  eapply wp_mono; [apply wp_scan; [done|lia]|]. cbv beta. intros r s1 (S1 & [P1 P2] & L1). wp_steps. split_and!; [done|done| |].
  - intros k ob E. destruct (P2 k ob E) as [|Hb]; [by left|right]. exists dir. split; [done|]. unfold the_entries. by rewrite El.
  - destruct r as [[names m]|]; [|done]. intros t' [= <-]. split; [done|]. intros fn Hin.
    destruct (L1 names m eq_refl fn Hin) as (_ & c & m' & _ & _ & ?). eauto.
Qed.

(** ** The response *)

(** What may be overwritten: the output, and the record of the time *)
Definition timesync : list Z := spooldir p ++ str "/" ++ ATLAS_TIMESYNC_FILE_REL.
Definition touched (o : options) (k : key) : Prop :=
  k = resolve timesync ∨ k = resolve (timesync ++ str ".new") ∨
  ∃ n rebased, output_file o = Some n ∧ valid_filename p n [(spooldir p, ATLAS_DATA_NEW_REL)] = Some rebased ∧ k = resolve rebased.
Definition frame (o : options) (f f' : files) : Prop := ∀ k, touched o k ∨ f' !! k = f !! k.
Lemma frame_refl o f : frame o f f.
Proof. intros k. by right. Qed.
Lemma frame_trans o f1 f2 f3 : frame o f1 f2 → frame o f2 f3 → frame o f1 f3.
Proof. intros H1 H2 k. destruct (H1 k), (H2 k); [by left..|right; congruence]. Qed.
Lemma same_frame s o : same_conn s s ∧ frame o (fs s) (fs s).
Proof. split; [done|apply frame_refl]. Qed.
#[local] Hint Resolve frame_refl same_frame : core.

Lemma put_file_other k k' c t f : k' ≠ k → put_file k c t f !! k' = f !! k'.
Proof. intros H. unfold put_file. destruct (f !! k) as [[]|]; try done; by rewrite lookup_insert_ne. Qed.

Lemma wp_rename_other (en : Condmv.env) a b f :
  f !! resolve a ≠ Some Directory →
  wp (rename en a b) (λ _ f', ∀ k, k ≠ resolve a → k ≠ resolve b → f' !! k = f !! k) f.
Proof.
  intros Hd. unfold rename. wp_steps. destruct (f !! resolve a) as [o|]; [|by wp_steps].
  destruct (negb _); [by wp_steps|]. case_bool_decide; [by wp_steps|].
  destruct o; [|done|]; (destruct (f !! resolve b) as [[]|]; wp_steps; try done;
    intros k H1 H2; by rewrite lookup_insert_ne, lookup_delete_ne).
Qed.

Lemma wp_check_time o tolerance time s :
  0 ≤ tolerance < 2 ^ 61 → - 2 ^ 61 ≤ time < 2 ^ 61 →
  wp (check_time p e o tolerance time) (λ _ s', same_conn s s' ∧ frame o (fs s) (fs s')) s.
Proof.
  intros Ht Hs. unfold check_time, act. destruct (_ || _); [by wp_steps; auto|]. wp_steps.
  eapply wp_lift; [apply chk64_small; lia|]. wp_steps. eapply wp_lift; [apply chk64_small; lia|].
  destruct (_ || _).
  { destruct (allow_stime p); [by wp_steps; auto|]. case_bool_decide; by wp_steps; auto. }
  destruct (SFleb _ _); [|by case_bool_decide; wp_steps; auto].
  unfold record_timesync. fold timesync. wp_steps. apply wp_onfs. unfold open_write. wp_steps.
  case_bool_decide as Hdir; [rewrite andb_false_r; by wp_steps; auto|].
  destruct (open_ok _ _); cbn [andb negb]; [|by wp_steps; auto]. wp_steps. apply wp_onfs. wp_steps. apply wp_onfs.
  eapply wp_mono; [apply wp_rename_other|]; cbn [set_fs fs].
  - unfold put_file. destruct (fs s !! resolve _) as [[]|] eqn:E; try congruence; rewrite lookup_insert_eq; done.
  - cbv beta. intros _ f' Hf'. wp_steps. split; [done|]. intros k. cbn [set_fs fs]. unfold touched.
    destruct (decide (k = resolve timesync)) as [->|K1]; [by left; left|].
    destruct (decide (k = resolve (timesync ++ str ".new"))) as [->|K2]; [by left; right; left|].
    right. rewrite Hf' by done. by apply put_file_other.
Qed.

Lemma wp_open_output o s :
  wp (open_output p e o) (λ r s', same_conn s s' ∧ frame o (fs s) (fs s') ∧ ∀ k, r = Some (Some k) → touched o k) s.
Proof.
  unfold open_output. destruct (output_file o) as [n|] eqn:En; [|by wp_steps; auto].
  destruct (valid_filename p n _) as [rebased|] eqn:Ev; [|by wp_steps; auto].
  assert (touched o (resolve rebased)) as Ht by (right; right; by exists n, rebased).
  wp_steps. apply wp_onfs. unfold open_write. wp_steps. destruct (_ && _); [|by wp_steps; auto].
  wp_steps. apply wp_onfs. wp_steps. split; [done|]. split.
  - intros k. cbn [set_fs fs]. destruct (decide (k = resolve rebased)) as [->|]; [by left|right; by apply put_file_other].
  - by intros k [= <-].
Qed.

Lemma wp_store_output o k s :
  (∀ k', k = Some k' → touched o k') → wp (store_output e k) (λ _ s', same_conn s s' ∧ frame o (fs s) (fs s')) s.
Proof.
  intros Hk. unfold store_output. destruct k as [k|]; wp_steps; [|auto]. apply wp_onfs. wp_steps. split; [done|].
  intros k'. cbn [set_fs fs]. destruct (decide (k' = k)) as [->|]; [left; by apply Hk|right; by apply put_file_other].
Qed.

Definition reply_line (l : list Z) : option (list Z) := '(line, _) ← split_at 10 (cstr (fgets 1023 l).1); Some (strip_cr line).
(** The server has accepted what was posted. *)
Definition acknowledged (s : post) : Prop :=
  out s = OK_STR ∧ ∃ line, reply_line (reply e) = Some line ∧ status_ok line = true.

Lemma wp_get_reply o tolerance s :
  dates_ok e → 0 ≤ tolerance < 2 ^ 61 → inp s = reply e → out s = [] →
  wp (get_reply p e o tolerance) (λ r s', sent s' = sent s ∧ frame o (fs s) (fs s') ∧ (r = Some true → acknowledged s')) s.
Proof.
  intros Hd Ht Hi Ho. unfold get_reply, check_result. wp_steps.
  assert (wp get_line (λ r s', took s s' ∧ r = reply_line (inp s)) s) as Hl.
  { unfold get_line, reply_line. wp_steps. destruct (fgets 1023 (inp s)) as [b l]. by wp_steps. }
  eapply wp_mono; [exact Hl|]. cbv beta. intros line s1 [T1 E1]. wp_steps.
  assert (sent s1 = sent s ∧ frame o (fs s) (fs s1) ∧ out s1 = []) as (S1 & F1 & O1).
  { destruct T1 as (E & ? & ?). split_and!; [done| |congruence]. by rewrite E. }
  destruct (negb _) eqn:Est; wp_steps; [done|]. apply negb_false_iff in Est.
  assert (∃ l, reply_line (reply e) = Some l ∧ status_ok l = true) as Hline.
  { destruct line as [l|]; [|done]. exists l. by rewrite <- Hi, <- E1. }
  eapply wp_mono; [apply wp_eat_headers; [done|unfold time_ok; cbn; lia|lia]|]. cbv beta. intros h s2 (T2 & _ & H2).
  assert (sent s2 = sent s ∧ frame o (fs s) (fs s2) ∧ out s2 = []) as (S2 & F2 & O2).
  { destruct T2 as (E & ? & ?). split_and!; [congruence| |congruence]. by rewrite E. }
  destruct h as [h|]; wp_steps; [|done].
  eapply wp_mono; [apply wp_check_time; [done|by apply H2]|]. cbv beta. intros _ s3 ((S3 & _ & O3) & F3). wp_steps.
  eapply wp_mono; [apply wp_open_output|]. cbv beta. intros k s4 ((S4 & _ & O4) & F4 & K4).
  pose proof (frame_trans _ _ _ _ (frame_trans _ _ _ _ F2 F3) F4) as F24.
  destruct k as [k|]; wp_steps; [|split_and!; [congruence|done|done]].
  eapply wp_mono; [apply wp_copy_body|]. cbv beta. intros r s5 ((Ef & S5) & R5). wp_steps.
  eapply wp_mono; [apply (wp_store_output o); intros k' ->; by apply K4|]. cbv beta. intros _ s6 ((S6 & _ & O6) & F6). wp_steps.
  split_and!; [congruence| |].
  - eapply frame_trans; [exact F24|]. by rewrite <- Ef.
  - intros ->. destruct (R5 true eq_refl) as (body & (_ & _ & C5) & Hb). symmetry in Hb. apply bool_decide_eq_true in Hb as ->.
    split; [|done]. rewrite O6, C5, O4, O3, O2. done.
Qed.

(** ** Removal *)

Lemma wp_unlink_all l s :
  wp (unlink_all e l) (λ _ s', same_conn s s' ∧
    ∀ k o, fs s !! k = Some o → fs s' !! k = Some o ∨ ∃ fn, fn ∈ l ∧ k = resolve fn) s.
Proof.
  revert s. induction l as [|fn l IH]; intros s; cbn [unlink_all]; wp_steps; [split; [done|by left]|].
  apply wp_onfs. eapply wp_mono; [apply wp_unlink_removes|]. cbv beta. intros _ f' Hf'.
  eapply wp_mono; [apply IH|]. cbv beta. intros _ s' [S' K']. split; [done|]. intros k o E.
  destruct (decide (k = resolve fn)) as [->|Hne]; [right; exists fn; split; [by left|done]|].
  destruct (K' k o) as [|(fn' & Hin & ->)].
  - cbn [set_fs fs]. destruct Hf' as [->| ->]; [done|]. by rewrite lookup_delete_ne.
  - by left.
  - right. exists fn'. split; [by right|done].
Qed.

Definition deletable (o : options) (names : list (list Z)) (k : key) : Prop :=
  (∃ n rebased, post_file o = Some n ∧ valid_filename p n [(spooldir p, ATLAS_DATA_OUT_REL)] = Some rebased ∧ k = resolve rebased) ∨
  ∃ fn, fn ∈ names ∧ k = resolve fn.

Lemma wp_delete_files o names s :
  wp (delete_files p e o names) (λ _ s', same_conn s s' ∧
    ∀ k ob, fs s !! k = Some ob → fs s' !! k = Some ob ∨ deletable o names k) s.
Proof.
  unfold delete_files. wp_steps.
  assert (∀ s1, same_conn s s1 → (∀ k ob, fs s !! k = Some ob → fs s1 !! k = Some ob ∨ deletable o names k) →
            wp (unlink_all e names;; mret true) (λ _ s', same_conn s s' ∧
              ∀ k ob, fs s !! k = Some ob → fs s' !! k = Some ob ∨ deletable o names k) s1) as Hgo.
  { intros s1 S1 K1. wp_steps. eapply wp_mono; [apply wp_unlink_all|]. cbv beta. intros _ s2 [S2 K2]. wp_steps.
    split; [unfold same_conn in *; intuition congruence|]. intros k ob E. destruct (K1 k ob E) as [E1|]; [|by right].
    destruct (K2 k ob E1); [by left|by right; right]. }
  destruct (post_file o) as [n|] eqn:En; [|apply wp_ret, Hgo; [done|by left]].
  destruct (valid_filename p n _) as [rebased|] eqn:Ev; [|wp_steps; split; [done|by left]].
  wp_steps. apply wp_onfs. eapply wp_mono; [apply wp_unlink_removes|]. cbv beta. intros _ f' Hf'. apply wp_ret, Hgo; [done|].
  intros k ob E. cbn [set_fs fs]. destruct (decide (k = resolve rebased)) as [->|Hne]; [right; left; by exists n, rebased|].
  left. destruct Hf' as [->| ->]; [done|]. by rewrite lookup_delete_ne.
Qed.

Lemma concat_split (g : list Z → list Z) (l : list (list Z)) x : x ∈ l → ∃ a b, concat (g <$> l) = a ++ g x ++ b.
Proof.
  intros (a & b & ->)%list_elem_of_split. exists (concat (g <$> a)), (concat (g <$> b)). rewrite fmap_app, concat_app. done.
Qed.

(** The contents were sent. *)
Definition posted (ob : obj) (s : post) : Prop := ∃ c m a b, ob = Regular c m ∧ sent s = a ++ c ++ b.

(** The code opens the file to be posted under the name that was given and removes the rebased name: if these are not the same
    place, [k] is the second. *)
Definition other_file (o : options) (k : key) : Prop :=
  ∃ n rebased, post_file o = Some n ∧ valid_filename p n [(spooldir p, ATLAS_DATA_OUT_REL)] = Some rebased ∧
    k = resolve rebased ∧ resolve rebased ≠ resolve n.

Lemma posted_body o f t k ob a :
  parts_ok o f t → deletable o (filelist t) k → f !! k = Some ob →
  ∀ f1, f1 !! k = Some ob → ∀ s, sent s = a ++ body_of e t f1 → posted ob s ∨ other_file o k.
Proof.
  intros [Hfile Hlist] [(n & rebased & En & Ev & ->)|(fn & Hin & ->)] Ek f1 E1 s Hs; unfold body_of in Hs.
  - destruct (decide (resolve rebased = resolve n)) as [Hsame|Hne]; [left|right; by exists n, rebased].
    rewrite En in Hfile. destruct Hfile as (c & m & Ef & El). rewrite Hsame, El in Ek. injection Ek as <-.
    rewrite Ef in Hs. cbn [part_data snd] in Hs. exists c, m, (a ++ part_data (header t)), (concat (file_data e f1 <$> filelist t) ++ part_data (footer t)).
    split; [done|]. rewrite Hs. by rewrite <- !app_assoc.
  - left. destruct (Hlist fn Hin) as (c & m & El). rewrite El in Ek. injection Ek as <-.
    destruct (concat_split (file_data e f1) (filelist t) fn Hin) as (x & y & Exy). rewrite Exy in Hs.
    assert (file_data e f1 fn = c) as Ec by (unfold file_data; by rewrite E1). rewrite Ec in Hs.
    exists c, m, (a ++ part_data (header t) ++ part_data (file t) ++ x), (y ++ part_data (footer t)). split; [done|].
    rewrite Hs. by rewrite <- !app_assoc.
Qed.
End Main.

