(* ===== verification/PostDeliver.v ===== *)
(** * Posting results: a post that succeeds *)

From stdpp Require Import base list list_numbers numbers option strings gmap.
From Stdlib Require Import ZArith Lia.
From S2P Require Import Prelude Bits Cstr Wp Validate Packet Double Http1 Http1Main Local LocalProofs Condmv CondmvProofs CondmvMain Post PostProofs PostMain.

Open Scope Z_scope.

(** ** Responses *)

(** A line that fits into the buffer with its end. *)
Definition short_line (l : list Z) : Prop := (10 ∉ l) ∧ nonul l ∧ (length l ≤ 1021)%nat.

Lemma wp_get_short l rest s :
  short_line l → inp s = wire_line l ++ rest → wp get_line (λ r s', r = Some l ∧ took s s' ∧ inp s' = rest) s.
Proof.
  intros (H1 & H2 & H3) E. unfold get_line. wp_steps. rewrite E.
  assert (wire_line l ++ rest = (l ++ [13]) ++ Local.nl :: rest) as -> by (unfold wire_line, crlf; by rewrite <- !app_assoc).
  assert (10 ∉ l ++ [13]) as Hnl by (rewrite elem_of_app, list_elem_of_singleton; intros [?|?]; [done|lia]).
  rewrite fgets_line; [|done|rewrite length_app; cbn; lia]. wp_steps. split; [|done].
  rewrite cstr_nonul.
  2: { apply nonul_app; [apply nonul_app; [done|]|]; repeat constructor; unfold Local.nl; lia. }
  rewrite (split_at_app Local.nl) by done. cbn [mbind option_bind]. by rewrite strip_cr_line.
Qed.

(** The header lines, read one after the other. *)
Section Reply.
Context (p : params) (e : env).

Definition header_step (line : list Z) (h : headers) : option headers :=
  h ← (if bool_decide (take 6 line = str "Date: ") then
         match gm_time e (drop 6 line) with Some t => Some (HD (chunked h) (content_length h) t) | None => None end
       else Some h);
  header_line line h.
Fixpoint header_lines (ls : list (list Z)) (h : headers) : option headers :=
  match ls with [] => Some h | l :: ls' => h ← header_step l h; header_lines ls' h end.

Lemma wp_eat_lines ls rest fuel h h' s :
  Forall (λ l, short_line l ∧ l ≠ []) ls → header_lines ls h = Some h' → (length ls < fuel)%nat →
  inp s = mjoin (wire_line <$> ls) ++ wire_line [] ++ rest →
  wp (eat_headers e fuel h) (λ r s', r = Some h' ∧ took s s' ∧ inp s' = rest) s.
Proof.
  intros Hls. revert fuel h s. induction Hls as [|l ls [Hl Hne] _ IH]; intros fuel h s Eh Hf Ei; (destruct fuel as [|fuel]; [lia|]);
    cbn [eat_headers header_lines fmap list_fmap mjoin list_join] in *; wp_steps.
  { injection Eh as <-. eapply wp_mono; [apply (wp_get_short [] rest)|]; [|done|].
    - split_and!; [apply not_elem_of_nil|constructor|cbn; lia].
    - cbv beta. intros r s1 (-> & T1 & I1). by wp_steps. }
  rewrite <- app_assoc in Ei. eapply wp_mono; [by apply wp_get_short|]. cbv beta. intros r s1 (-> & T1 & I1).
  destruct l as [|c l]; [done|]. wp_steps.
  apply bind_Some in Eh as (h1 & Eh1 & Eh). unfold header_step in Eh1. apply bind_Some in Eh1 as (h0 & Eh0 & Eh1).
  assert (header_date e (c :: l) h s1 = Done (h0, s1)) as Ed.
  { unfold header_date. case_bool_decide; [|by injection Eh0 as <-]. destruct (gm_time e _); [by injection Eh0 as <-|done]. }
  unfold wp at 1. rewrite Ed. rewrite Eh1.
  eapply wp_mono; [apply IH; [done|cbn in Hf; lia|done]|]. cbv beta. intros r s2 (-> & T2 & I2). split; [done|]. split; [by eapply took_trans|done].
Qed.

(** A chunk: the line with its size, and its data. *)
Definition chunk_ok (c : list Z * list Z) : Prop :=
  short_line c.1 ∧ ∃ check, strtoul 16 c.1 = Some (zlen c.2, check) ∧ match check with [] => True | x :: _ => isspace x = true end.

(** The ways to send a body *)
Inductive coded (h : headers) : list Z → list Z → Prop :=
| coded_chunks cs z ts :
    chunked h = true → Forall (λ c, chunk_ok c ∧ c.2 ≠ []) cs → chunk_ok (z, []) → Forall (λ l, short_line l ∧ l ≠ []) ts →
    coded h (mjoin (snd <$> cs)) (mjoin (chunk_bytes <$> cs) ++ wire_line z ++ mjoin (wire_line <$> ts) ++ wire_line [])
| coded_length body rest : chunked h = false → content_length h = zlen body → coded h body (body ++ rest)
| coded_end body : chunked h = false → content_length h < 0 → coded h body body.

Lemma empty_line : short_line [].
Proof. split_and!; [apply not_elem_of_nil|constructor|cbn; lia]. Qed.

Lemma wp_skip_lines ts fuel s :
  Forall (λ l, short_line l ∧ l ≠ []) ts → (length ts < fuel)%nat → inp s = mjoin (wire_line <$> ts) ++ wire_line [] →
  wp (skip_trailer fuel) (λ r s', r = true ∧ took s s') s.
Proof.
  intros Hts. revert fuel s. induction Hts as [|l ts [Hl Hne] _ IH]; intros fuel s Hf Ei; (destruct fuel as [|fuel]; [lia|]);
    cbn [skip_trailer fmap list_fmap mjoin list_join] in *; wp_steps.
  - eapply wp_mono; [apply (wp_get_short [] []); [apply empty_line|by rewrite Ei, app_nil_r]|]. cbv beta. intros r s1 (-> & T1 & _). by wp_steps.
  - rewrite <- app_assoc in Ei. eapply wp_mono; [by apply wp_get_short|]. cbv beta. intros r s1 (-> & T1 & I1). destruct l as [|c l]; [done|].
    eapply wp_mono; [apply IH; [cbn in Hf; lia|done]|]. cbv beta. intros r s2 [-> T2]. split; [done|by eapply took_trans].
Qed.

Lemma length_wire (ls : list (list Z)) : (length ls ≤ length (mjoin (wire_line <$> ls)))%nat.
Proof.
  induction ls as [|l ls IH]; [cbn; lia|]. change (mjoin (wire_line <$> l :: ls)) with (wire_line l ++ mjoin (wire_line <$> ls)). rewrite length_app. unfold wire_line at 1. rewrite length_app.
  change (length crlf) with 2%nat. cbn [length]. lia.
Qed.

Lemma wp_copy_chunks_exact cs z ts fuel okp s :
  out_limit e = None → Forall (λ c, chunk_ok c ∧ c.2 ≠ []) cs → chunk_ok (z, []) → Forall (λ l, short_line l ∧ l ≠ []) ts →
  (length cs < fuel)%nat →
  inp s = mjoin (chunk_bytes <$> cs) ++ wire_line z ++ mjoin (wire_line <$> ts) ++ wire_line [] →
  wp (copy_chunks e fuel okp) (λ r s', r = Some (ok_found (match_ok okp (mjoin (snd <$> cs)))) ∧ copied s s' (mjoin (snd <$> cs))) s.
Proof.
  intros Hlim Hcs (Hz & check & Ez & Hck) Hts. revert fuel okp s.
  induction Hcs as [|[hd data] cs [(Hl & ck & Ec & Hc) Hne] _ IH]; intros fuel okp s Hf Ei; (destruct fuel as [|fuel]; [lia|]);
    cbn [copy_chunks fmap list_fmap mjoin list_join fst snd app] in *; wp_steps.
  - eapply wp_mono; [by apply wp_get_short|]. cbv beta. intros r s1 (-> & T1 & I1). replace (default (0, z) (strtoul 16 z)) with (0, check) by (by rewrite Ez).
    assert (match check with x :: _ => negb (isspace x) | [] => false end = false) as -> by (destruct check; [done|by rewrite Hck]).
    change (0 =? 0) with true. cbv iota. wp_steps. eapply wp_mono; [apply (wp_skip_lines ts); [done| |done]|].
    { rewrite I1, length_app. pose proof (length_wire ts). lia. }
    cbv beta. intros r s2 [-> T2]. wp_steps. split; [done|]. apply took_copied. by eapply took_trans.
  - unfold chunk_bytes in Ei at 1. cbn [fst snd] in Ei. rewrite <- !app_assoc in Ei.
    eapply wp_mono; [apply (wp_get_short hd _ s Hl Ei)|]. cbv beta. intros r s1 (-> & T1 & I1). replace (default (0, hd) (strtoul 16 hd)) with (zlen data, ck) by (by rewrite Ec).
    assert (match ck with x :: _ => negb (isspace x) | [] => false end = false) as -> by (destruct ck; [done|by rewrite Hc]).
    destruct (Z.eqb_spec (zlen data) 0) as [H0|_]; [destruct data; [done|unfold zlen in H0; cbn in H0; lia]|]. wp_steps.
    eapply wp_mono; [apply wp_copy_data; lia|]. cbv beta. intros r s2 (_ & _ & _ & D2).
    destruct (D2 data _ Hlim I1 eq_refl) as (-> & C2 & I2). wp_steps.
    eapply wp_mono; [apply (wp_get_short []); [apply empty_line|exact I2]|]. cbv beta. intros r s3 (-> & T3 & I3).
    eapply wp_mono; [apply IH; [cbn in Hf; lia|exact I3]|]. cbv beta. intros r s4 [-> C4]. rewrite match_ok_app. split; [done|].
    eapply copied_trans; [by eapply copied_took|]. by eapply copied_took.
Qed.

Lemma length_chunks (cs : list (list Z * list Z)) : (length cs ≤ length (mjoin (chunk_bytes <$> cs)))%nat.
Proof.
  induction cs as [|c cs IH]; [cbn; lia|]. change (mjoin (chunk_bytes <$> c :: cs)) with (chunk_bytes c ++ mjoin (chunk_bytes <$> cs)). rewrite length_app. unfold chunk_bytes at 1, wire_line.
  rewrite !length_app. change (length crlf) with 2%nat. cbn [length]. lia.
Qed.

Lemma wp_copy_coded h body wire s :
  out_limit e = None → reply_error e = false → coded h body wire → inp s = wire →
  wp (copy_body e h) (λ r s', r = Some (bool_decide (body = OK_STR)) ∧ copied s s' body) s.
Proof.
  intros Hlim Herr Hc Ei. unfold copy_body. destruct Hc as [cs z ts Hch Hcs Hz Hts|body rest Hch Hlen|body Hch Hlen]; rewrite Hch.
  - unfold copy_chunked. wp_steps. eapply wp_mono; [apply (wp_copy_chunks_exact cs z ts); [done..| |done]|].
    + rewrite Ei, length_app. pose proof (length_chunks cs). lia.
    + cbv beta. intros r s' [-> C]. by rewrite ok_found_text.
  - rewrite Hlen. destruct (Z.leb_spec 0 (zlen body)); [|unfold zlen in *; lia]. unfold copy_bytes. wp_steps.
    eapply wp_mono; [apply wp_copy_data; lia|]. cbv beta. intros r s' (_ & _ & _ & D). wp_steps.
    destruct (D body rest Hlim Ei eq_refl) as (-> & C & _). cbn. by rewrite ok_found_text.
  - destruct (Z.leb_spec 0 (content_length h)); [lia|]. unfold copy_all. wp_steps.
    eapply wp_mono; [apply wp_copy_rest; lia|]. cbv beta. intros r s' (_ & R & N). wp_steps. rewrite Herr.
    destruct r as [okp|]; [|by specialize (N Hlim)]. destruct (R okp eq_refl) as [C ->]. rewrite Ei in *. cbn. by rewrite ok_found_text.
Qed.
End Reply.

Lemma wp_and {S A} (m : M S A) (Q R : A → S → Prop) s : wp m Q s → wp m R s → wp m (λ a s', Q a s' ∧ R a s') s.
Proof. unfold wp. by destruct (m s) as [[a s']|]. Qed.

(** ** A whole post *)

Lemma set_fs_same s : set_fs (fs s) s = s.
Proof. by destruct s. Qed.

Section Deliver.
Context (p : params) (e : env).

(** No call fails, and the server answers. *)
Record fine : Prop := Fine {
  fine_sys : smooth (sys e); fine_dates : dates_ok e;
  fine_addr : ∃ res l, getaddrinfo e = Some (res :: l) ∧ connect_ok e 0 res = true;
  fine_fdopen : fdopen_ok e = true; fine_write : write_limit e = None; fine_out : out_limit e = None; fine_reply : reply_error e = false
}.
Context (Hfine : fine).

Lemma wp_send_loop_ok fuel data s : (length data < fuel)%nat → wp (send_loop e fuel data) (λ ok _, ok = true) s.
Proof.
  revert data s. induction fuel as [|fuel IH]; intros data s Hf; [lia|]. cbn [send_loop]. case_bool_decide; [by wp_steps|].
  assert (0 < length data)%nat by (destruct data; [done|cbn; lia]).
  unfold fwrite_tcp. wp_steps. unfold beyond. rewrite (fine_write Hfine). cbn [negb]. apply IH. rewrite length_drop. lia.
Qed.
Lemma wp_fd_ok f s : wp (write_to_tcp_fd e f) (λ ok _, ok = true) s.
Proof.
  unfold write_to_tcp_fd. rewrite (smooth_read _ (fine_sys Hfine)). wp_steps.
  eapply wp_mono; [by apply wp_send_loop_ok; lia|]. cbv beta. intros ok s' ->. wp_steps. done.
Qed.
Lemma wp_part_ok f s : wp (write_part e f) (λ ok _, ok = true) s.
Proof. destruct f; [apply wp_fd_ok|done]. Qed.

(** A name of the list that can be opened *)
Definition readable (f : files) (fn : list Z) : Prop :=
  is_Some (valid_filename p fn [(spooldir p, ATLAS_DATA_OUT_REL); (spooldir p, ATLAS_DATA_OOQ_OUT_REL); (spooldir p, ATLAS_DATA_STORAGE_REL)]) ∧
  is_Some (f !! resolve fn).

Lemma wp_write_files_ok l s : (∀ fn, fn ∈ l → readable (fs s) fn) → wp (write_files p e l) (λ ok _, ok = true) s.
Proof.
  revert s. induction l as [|fn l IH]; intros s Hl; cbn [write_files]; [done|].
  destruct (Hl fn) as [[r ->] [ob Eo]]; [by left|]. unfold open_any. wp_steps. rewrite (smooth_open _ (fine_sys Hfine)), Eo.
  destruct ob; wp_steps; (eapply wp_mono; [apply wp_and; [apply wp_fd_ok|apply sends_fd]|]; cbv beta;
    intros ok s1 [-> [(E1 & _) _]]; apply IH; intros fn' Hin; rewrite E1; apply Hl; by right).
Qed.

Lemma wp_send_post_ok o u t s :
  (∀ fn, fn ∈ filelist t → readable (fs s) fn) → wp (send_post p e o u t) (λ ok _, ok = true) s.
Proof.
  intros Hl. destruct (fine_addr Hfine) as (res & l & Ea & Ec). unfold send_post, connect_to_name. rewrite Ea. cbn [try_connect].
  unfold act. wp_steps. rewrite Ec. wp_steps. rewrite (fine_fdopen Hfine). cbn [andb negb]. unfold print_tcp. wp_steps. unfold send_parts. wp_steps.
  eapply wp_mono; [apply wp_and; [apply wp_part_ok|apply sends_part]|]. cbv beta. intros ok s1 [-> [(E1 & _) _]]. cbn [negb]. wp_steps.
  eapply wp_mono; [apply wp_and; [apply wp_part_ok|apply sends_part]|]. cbv beta. intros ok s2 [-> [(E2 & _) _]]. cbn [negb]. wp_steps.
  eapply wp_mono; [apply wp_write_files_ok|]; [intros fn Hin; rewrite E2, E1; by apply Hl|]. cbv beta. intros ok s3 ->. cbn [negb].
  apply wp_part_ok.
Qed.

(** *** The message *)

Definition part_ready (f : files) (name : option (list Z)) (rebase : bool) (part : option (list Z * list Z)) : Prop :=
  match name with
  | None => part = None
  | Some n => ∃ rebased c m,
      valid_filename p n [(spooldir p, ATLAS_DATA_OUT_REL); (rundir p, ATLAS_STATUS_REL)] = Some rebased ∧
      let fn := if rebase : bool then rebased else n in part = Some (fn, c) ∧ f !! resolve fn = Some (Regular c m)
  end.
Lemma wp_part_ready name rebase part s :
  part_ready (fs s) name rebase part → wp (open_part p e name rebase) (λ r s', r = Some part ∧ s' = s) s.
Proof.
  unfold part_ready, open_part. destruct name as [n|]; [|by intros ->]. intros (rebased & c & m & Ev & Ep & Ef). rewrite Ev.
  unfold open_regular. wp_steps. rewrite Ef, (smooth_open _ (fine_sys Hfine)). by rewrite Ep.
Qed.

(** The regular files of a directory with their contents *)
Definition dir_files (f : files) (dir : list Z) (l : list (list Z)) : list (list Z * list Z) :=
  omap (λ d, match f !! resolve (path_of dir d) with Some (Regular c _) => Some (path_of dir d, c) | _ => None end) l.
Definition dir_size (f : files) (dir : list Z) (l : list (list Z)) : Z := zlen (concat (dir_files f dir l).*2).

Lemma wp_scan_all dir max l tot count currsize allocsize s :
  names_fit dir l → 0 ≤ currsize ≤ allocsize → (∀ d, d ∈ l → is_Some (fs s !! resolve (path_of dir d))) →
  tot + dir_size (fs s) dir l ≤ max → count + zlen l < MAX_FILES →
  wp (scan e dir max l tot count currsize allocsize)
    (λ r s', r = Some ((dir_files (fs s) dir l).*1, dir_size (fs s) dir l) ∧ s' = s) s.
Proof.
  unfold dir_size. revert tot count currsize allocsize. induction l as [|d l IH]; intros tot count currsize allocsize Hfit Hc Hex Hmax Hcount; cbn [scan]; [done|].
  destruct (path_fits dir d currsize allocsize Hc) as [Ha Hp]; [apply Hfit; by left|]. fold (path_of dir d). rewrite Hp.
  set (a := if allocsize <? _ then _ else _) in *.
  assert (0 ≤ zlen dir ∧ 0 ≤ zlen d ∧ 0 ≤ zlen l) as (Hz1 & Hz2 & Hz3) by (unfold zlen; lia).
  assert (names_fit dir l) as Hfit' by (intros d' Hd; apply Hfit; by right).
  assert (∀ d, d ∈ l → is_Some (fs s !! resolve (path_of dir d))) as Hex' by (intros; apply Hex; by right).
  assert (zlen (d :: l) = zlen l + 1) as Ezl by (unfold zlen; cbn [length]; lia). rewrite Ezl in Hcount.
  destruct (Z.leb_spec a currsize); [lia|]. wp_steps. apply wp_onfs. unfold stat. wp_steps. rewrite (smooth_stat _ (fine_sys Hfine)).
  rewrite set_fs_same. destruct (Hex d) as [ob Eo]; [by left|]. unfold dir_files in *. cbn [omap list_omap] in *. rewrite Eo in *.
  destruct ob as [c m| |]; [|by apply IH; [|lia|..|lia]..].
  cbn [fmap list_fmap fst snd concat] in *. rewrite zlen_app in *.
  match goal with |- context [zlen c + zlen ?x] => assert (0 ≤ zlen x) by (unfold zlen; lia) end.
  destruct (Z.ltb_spec max (tot + zlen c)); [lia|]. destruct (Z.leb_spec MAX_FILES (count + 1)); [lia|]. wp_steps.
  eapply wp_mono; [apply IH; [done|lia|done|lia|lia]|]. cbv beta. intros r s' [-> ->]. done.
Qed.

Definition dir_ready (f : files) (o : options) (max size : Z) (names : list (list Z)) (n : Z) : Prop :=
  match post_dir o with
  | None => names = [] ∧ n = 0
  | Some name => ∃ dir l,
      valid_dir p name [(spooldir p, ATLAS_DATA_OUT_REL); (spooldir p, ATLAS_DATA_STORAGE_REL)] = Some dir ∧ readdir (sys e) dir = Some l ∧
      names_fit dir l ∧ (∀ d, d ∈ l → is_Some (f !! resolve (path_of dir d))) ∧ zlen l < MAX_FILES ∧
      names = (dir_files f dir l).*1 ∧ n = dir_size f dir l ∧ size + n ≤ max
  end.

(** The parts of the message are there and fit. *)
Record parts_ready (o : options) (max : Z) (f : files) (t : parts) : Prop := PartsReady {
  ready_header : part_ready f (post_header o) true (header t);
  ready_footer : part_ready f (post_footer o) true (footer t);
  ready_file : part_ready f (post_file o) false (file t);
  ready_dir : dir_ready f o max (size_of (header t) + size_of (footer t) + size_of (file t)) (filelist t) (dir_length t);
  ready_names : ∀ fn, fn ∈ filelist t → readable f fn
}.

Lemma wp_parts_ready o max t s :
  parts_ready o max (fs s) t → wp (open_parts p e o max) (λ r s', r = Some t ∧ s' = s) s.
Proof.
  intros [Hh Hft Hf Hd _]. unfold open_parts. wp_steps.
  eapply wp_mono; [by apply wp_part_ready|]. cbv beta. intros r ? [-> ->]. wp_steps.
  eapply wp_mono; [by apply wp_part_ready|]. cbv beta. intros r ? [-> ->]. wp_steps.
  eapply wp_mono; [by apply wp_part_ready|]. cbv beta. intros r ? [-> ->]. wp_steps. unfold open_dir, dir_ready in *.
  destruct (post_dir o) as [name|].
  - destruct Hd as (dir & l & Ev & El & Hfit & Hex & Hcnt & En & Es & Hmax). rewrite Ev. unfold do_dir. rewrite El.
    eapply wp_mono; [apply wp_scan_all; [done|lia|done|by rewrite <- Es|done]|]. cbv beta. intros r ? [-> ->]. wp_steps.
    rewrite <- En, <- Es. by destruct t.
  - destruct Hd as [En Es]. wp_steps. rewrite <- En, <- Es. by destruct t.
Qed.

Lemma dir_files_data f dir l : concat (file_data e f <$> (dir_files f dir l).*1) = concat (dir_files f dir l).*2.
Proof.
  induction l as [|d l IH]; [done|]. unfold dir_files in *. cbn [omap list_omap].
  destruct (f !! resolve (path_of dir d)) as [[c m| |]|] eqn:E; [|done..].
  cbn [fmap list_fmap fst snd concat]. rewrite IH. unfold file_data. by rewrite E.
Qed.

(** The announced length is that of the body. *)
Lemma total_body o max f t : parts_ready o max f t → total t = zlen (body_of e t f).
Proof.
  intros [_ _ _ Hd _]. unfold total, body_of. rewrite !zlen_app.
  assert (∀ q, size_of q = zlen (part_data q)) as Hs by (intros [[]|]; done). rewrite !Hs.
  assert (dir_length t = zlen (concat (file_data e f <$> filelist t))) as ->; [|lia].
  unfold dir_ready in Hd. destruct (post_dir o); [|by destruct Hd as [-> ->]].
  destruct Hd as (dir & l' & _ & _ & _ & _ & _ & -> & -> & _). by rewrite dir_files_data.
Qed.

(** *** The response and the removal *)

(** A status line, header lines, and the body in the coding they announce *)
Definition good_reply (body : list Z) : Prop :=
  ∃ status ls h wire, short_line status ∧ status_ok status = true ∧
    Forall (λ l, short_line l ∧ l ≠ []) ls ∧ header_lines e ls (HD false (-1) 0) = Some h ∧ coded h body wire ∧
    reply e = wire_line status ++ mjoin (wire_line <$> ls) ++ wire_line [] ++ wire.
(** The output can be opened. *)
Definition output_ready (o : options) (f : files) : Prop :=
  match output_file o with
  | None => True
  | Some n => ∃ rebased, valid_filename p n [(spooldir p, ATLAS_DATA_NEW_REL)] = Some rebased ∧ f !! resolve rebased ≠ Some Directory
  end.

Lemma wp_open_output_ok o s : output_ready o (fs s) → wp (open_output p e o) (λ r s', r ≠ None ∧ same_conn s s') s.
Proof.
  unfold output_ready, open_output. destruct (output_file o) as [n|]; [|done]. intros (r & Er & Hd). rewrite Er. wp_steps. apply wp_onfs.
  unfold open_write. wp_steps. rewrite (smooth_open _ (fine_sys Hfine)), bool_decide_false by done. cbn [andb negb].
  wp_steps. apply wp_onfs. by wp_steps.
Qed.

Lemma wp_get_reply_ok o body s :
  good_reply body → output_ready o (fs s) → inp s = reply e → out s = [] →
  wp (get_reply p e o 0) (λ r s', r = Some (bool_decide (body = OK_STR)) ∧ out s' = body) s.
Proof.
  intros (status & ls & h & wire & Hst & Hok & Hls & Hh & Hc & Er) Ho Ei Eo. rewrite Er in Ei. unfold get_reply, check_result. wp_steps.
  eapply wp_mono; [by apply wp_get_short|]. cbv beta. intros r s1 (-> & T1 & I1). wp_steps. rewrite Hok. cbn [negb]. wp_steps.
  eapply wp_mono; [apply (wp_eat_lines e ls wire); [done|exact Hh| |exact I1]|].
  { rewrite I1, length_app. pose proof (length_wire ls). lia. }
  cbv beta. intros r s2 (-> & T2 & I2). wp_steps.
  assert (fs s2 = fs s ∧ out s2 = []) as [F2 O2] by (destruct T1 as (? & _ & ?), T2 as (? & _ & ?); split; congruence).
  unfold check_time. cbn [Z.eqb orb]. wp_steps.
  eapply wp_mono; [apply wp_open_output_ok; by rewrite F2|]. cbv beta. intros k s3 [Hk (S3 & I3 & O3)]. destruct k as [k|]; [|done]. wp_steps.
  eapply wp_mono; [apply (wp_copy_coded e h body wire); [apply Hfine|apply Hfine|done|congruence]|]. cbv beta. intros r s4 [-> (_ & _ & C4)]. wp_steps.
  unfold store_output. destruct k as [k|]; wp_steps.
  - apply wp_onfs. wp_steps. split; [done|]. cbn [set_fs out]. by rewrite C4, O3, O2.
  - split; [done|]. by rewrite C4, O3, O2.
Qed.

Lemma wp_unlink_gone fn f : f !! resolve fn ≠ Some Directory → wp (unlink (sys e) fn) (λ _ f', f' = delete (resolve fn) f) f.
Proof.
  intros Hd. unfold unlink. wp_steps. rewrite (smooth_unlink _ (fine_sys Hfine)). destruct (f !! resolve fn) as [[]|]; by wp_steps.
Qed.

Lemma wp_unlink_all_gone l s :
  (∀ fn, fn ∈ l → fs s !! resolve fn ≠ Some Directory) →
  wp (unlink_all e l) (λ _ s', same_conn s s' ∧ ∀ k, fs s' !! k = if bool_decide (k ∈ resolve <$> l) then None else fs s !! k) s.
Proof.
  revert s. induction l as [|fn l IH]; intros s Hl; cbn [unlink_all]; wp_steps; [done|].
  apply wp_onfs. eapply wp_mono; [apply wp_unlink_gone, Hl; by left|]. cbv beta. intros _ f' ->.
  eapply wp_mono; [apply IH|].
  { intros fn' Hin. cbn [set_fs fs]. destruct (decide (resolve fn' = resolve fn)) as [->|].
    - by rewrite lookup_delete_eq.
    - rewrite lookup_delete_ne by done. apply Hl. by right. }
  cbv beta. intros _ s' [S' K']. split; [done|]. intros k. rewrite K'. cbn [set_fs fs fmap list_fmap].
  destruct (decide (k ∈ resolve <$> l)) as [Hin|Hnin].
  - rewrite !bool_decide_true; [done|by right|done].
  - rewrite bool_decide_false by done. destruct (decide (k = resolve fn)) as [->|Hne].
    + rewrite lookup_delete_eq, bool_decide_true by (by left). done.
    + rewrite lookup_delete_ne by done. rewrite bool_decide_false; [done|]. by rewrite elem_of_cons; intros [?|?].
Qed.

(** The posted files are not the output, and the one that is given by name may be removed and is not moved by its validation. *)
Definition removable (o : options) (t : parts) (f : files) : Prop :=
  (∀ fn, fn ∈ filelist t → (¬ touched p o (resolve fn)) ∧ f !! resolve fn ≠ Some Directory) ∧
  match post_file o with
  | None => True
  | Some n => ∃ rebased, valid_filename p n [(spooldir p, ATLAS_DATA_OUT_REL)] = Some rebased ∧
                resolve rebased = resolve n ∧ (¬ touched p o (resolve n)) ∧ f !! resolve n ≠ Some Directory
  end.

(** What was opened and sent is gone: the file that was given by name and the files of the directory. *)
Definition is_removed (o : options) (t : parts) (f : files) : Prop :=
  (∀ fn, fn ∈ filelist t → f !! resolve fn = None) ∧ (∀ n, post_file o = Some n → f !! resolve n = None).

Lemma wp_delete_gone o t f s :
  removable o t f → frame p o f (fs s) →
  wp (delete_files p e o (filelist t)) (λ ok s', ok = true ∧ same_conn s s' ∧ is_removed o t (fs s')) s.
Proof.
  intros [Hl Hf] Hfr.
  assert (∀ k, (¬ touched p o k) ∧ f !! k ≠ Some Directory → fs s !! k ≠ Some Directory) as Hnd.
  { intros k [Hk Hd]. destruct (Hfr k) as [|E]; [done|by rewrite E]. }
  unfold delete_files, is_removed. destruct (post_file o) as [n|]; wp_steps.
  - destruct Hf as (rebased & Ev & En & Hr). rewrite <- En in Hr. rewrite Ev. wp_steps. apply wp_onfs.
    eapply wp_mono; [by apply wp_unlink_gone, Hnd|]. cbv beta. intros _ f' ->. wp_steps.
    eapply wp_mono; [apply wp_unlink_all_gone|].
    { intros fn Hin. cbn [set_fs fs]. destruct (decide (resolve fn = resolve rebased)) as [->|].
      - by rewrite lookup_delete_eq.
      - rewrite lookup_delete_ne by done. by apply Hnd, Hl. }
    cbv beta. intros _ s' [S' K']. wp_steps. split; [done|]. split; [done|]. split.
    + intros fn Hin. rewrite K', bool_decide_true; [done|]. apply list_elem_of_fmap. eauto.
    + intros n' [= <-]. rewrite <- En, K'. cbn [set_fs fs].
      case_bool_decide; [done|]. apply lookup_delete_eq.
  - eapply wp_mono; [apply wp_unlink_all_gone; intros fn Hin; by apply Hnd, Hl|]. cbv beta. intros _ s' [S' K']. wp_steps.
    split; [done|]. split; [done|]. split; [|done]. intros fn Hin. rewrite K', bool_decide_true; [done|]. apply list_elem_of_fmap. eauto.
Qed.
End Deliver.

