(* ===== verification/PostCases.v ===== *)
(** * Posting results: examples, and where the code departs from its purpose *)

From stdpp Require Import base list list_numbers numbers option strings gmap.
From Stdlib Require Import ZArith Lia.
From S2P Require Import Prelude Bits Cstr Wp Validate Packet Double Http1 Http1Main Local LocalProofs Condmv CondmvProofs CondmvMain Post PostProofs PostMain PostDeliver.

Open Scope Z_scope.

(** ** A post *)

Definition ex_params : params := P (str "/var/spool") (str "/var/run") false false.
Definition ex_sys : Condmv.env :=
  Condmv.ENV 200 200 (λ _, false) (λ _, true) (λ _ _, true) (λ _, true) None (λ _, None) (λ _, None) (λ _, None) (λ _, [])
    (λ d, if bool_decide (d = str "/var/spool/data/out/d") then Some [str "."; str "a"; str "b"] else None).
Definition ex_lines : list (list Z) := [str "Date: today"; str "Transfer-Encoding: chunked"].
Definition ex_wire : list Z := wire_line (str "2") ++ str "OK" ++ crlf ++ wire_line (str "1") ++ [10] ++ crlf ++ wire_line (str "0") ++ wire_line [].
Definition ex_reply : list Z := wire_line (str "HTTP/1.1 200 OK") ++ mjoin (wire_line <$> ex_lines) ++ wire_line [] ++ ex_wire.
Definition ex_env (addrs : list Z) (ok : nat → Z → bool) (date : option Z) : env :=
  ENV ex_sys (Some addrs) ok true None None ex_reply false (λ _, date) 100 0 100 0 100.
Definition ex_good : env := ex_env [7] (λ _ _, true) (Some 1000).
Definition ex_opt (file : list Z) : options :=
  OPT None None true (Some (str "/home/atlas/data/out/d")) None None None (Some file) None None false [str "http://[::1]:8080/x?y"].

Definition ex_fs : files :=
  list_to_map [(resolve (str "/var/spool/data/out/d"), Directory);
               (resolve (str "/var/spool/data/out/d/a"), Regular (str "aa") 1);
               (resolve (str "/var/spool/data/out/d/b"), Regular (str "bbb") 1);
               (resolve (str "/var/spool/data/out/v"), Regular (str "vvvv") 1);
               (resolve (str "/var/run/status/s"), Regular (str "ss") 1);
               (resolve (str "/home/atlas/data/out/v"), Regular (str "other") 1)].

Example ex_post :
  match httppost_main ex_params ex_good (Some (ex_opt (str "/var/spool/data/out/v"))) (post_start ex_good ex_fs) with
  | Done (r, s) => r = 0 ∧ out s = OK_STR ∧ drop (length (sent s) - 13) (sent s) = crnl ++ crnl ++ str "vvvvaabbb" ∧
      fs s !! resolve (str "/var/spool/data/out/d/a") = None ∧ fs s !! resolve (str "/var/spool/data/out/v") = None
  | Crash _ => False
  end.
Proof. vm_compute. done. Qed.

Lemma ex_fine : fine ex_good.
Proof.
  split; try done.
  - intros l. exists 1000. split; [done|lia].
  - by exists 7, [].
Qed.

Definition ex_parts : parts :=
  PT None (Some (str "/var/spool/data/out/v", str "vvvv")) None [str "/var/spool/data/out/d/a"; str "/var/spool/data/out/d/b"] 5.

Lemma ex_dir_entries d (P : list Z → Prop) : P (str ".") → P (str "a") → P (str "b") → d ∈ [str "."; str "a"; str "b"] → P d.
Proof. intros H1 H2 H3 Hd. repeat (apply elem_of_cons in Hd as [->|Hd]; [done|]). by apply elem_of_nil in Hd. Qed.

Lemma ex_ready : parts_ready ex_params ex_good (ex_opt (str "/var/spool/data/out/v")) 1000000 ex_fs ex_parts.
Proof.
  split; [done|done| | |].
  - exists (str "/var/spool/data/out/v"), (str "vvvv"), 1. split; [vm_compute; reflexivity|]. split; [reflexivity|vm_compute; reflexivity].
  - exists (str "/var/spool/data/out/d"), [str "."; str "a"; str "b"]. split; [vm_compute; reflexivity|]. split; [vm_compute; reflexivity|].
    split; [|split; [|split; [by vm_compute|split; [vm_compute; reflexivity|split; [vm_compute; reflexivity|by vm_compute]]]]].
    + intros d. apply (ex_dir_entries d (λ d, zlen (str "/var/spool/data/out/d") + 1 + zlen d + 1 ≤ 4096)); by vm_compute.
    + intros d. apply (ex_dir_entries d (λ d, is_Some (ex_fs !! resolve (path_of (str "/var/spool/data/out/d") d))));
        apply (bool_decide_unpack _); vm_compute; exact I.
  - intros fn Hin. repeat (apply elem_of_cons in Hin as [->|Hin]; [split; apply (bool_decide_unpack _); vm_compute; exact I|]).
    by apply elem_of_nil in Hin.
Qed.

Lemma ex_short l : bool_decide (10 ∉ l) && forallb (λ c, negb (c =? 0)) l && (length l <=? 1021)%nat = true → short_line l.
Proof.
  intros [[H1%bool_decide_eq_true H2]%andb_true_iff H3%Nat.leb_le]%andb_true_iff. split_and!; [done| |done].
  apply Forall_forall. intros c Hc ->. rewrite forallb_forall in H2. by specialize (H2 0 (proj1 (list_elem_of_In _ _) Hc)).
Qed.

Lemma ex_good_reply : good_reply ex_good OK_STR.
Proof.
  exists (str "HTTP/1.1 200 OK"), ex_lines, (HD true (-1) 1000), ex_wire. split; [by apply ex_short|]. split; [by vm_compute|].
  split; [repeat constructor; done || by apply ex_short|]. split; [by vm_compute|]. split; [|done].
  apply (coded_chunks (HD true (-1) 1000) [(str "2", str "OK"); (str "1", [10])] (str "0") []); [done| | |done].
  - assert (∀ h d, short_line h → strtoul 16 h = Some (zlen d, []) → chunk_ok (h, d)) as Hc by (intros h d H1 H2; split; [done|by exists []]).
    repeat constructor; try done; cbn [snd]; apply Hc; by apply ex_short || by vm_compute.
  - split; [by apply ex_short|]. exists []. by vm_compute.
Qed.

Lemma ex_not_touched file k : bool_decide (k ≠ resolve (timesync ex_params)) && bool_decide (k ≠ resolve (timesync ex_params ++ str ".new")) = true →
  ¬ touched ex_params (ex_opt file) k.
Proof. intros [H1%bool_decide_eq_true H2%bool_decide_eq_true]%andb_true_iff [?|[?|(? & ? & ? & _)]]; done. Qed.

Lemma ex_removable : removable ex_params (ex_opt (str "/var/spool/data/out/v")) ex_parts ex_fs.
Proof.
  split.
  - intros fn Hin. repeat (apply elem_of_cons in Hin as [->|Hin]; [split; [by apply ex_not_touched|by vm_compute]|]). by apply elem_of_nil in Hin.
  - exists (str "/var/spool/data/out/v"). split; [by vm_compute|]. split; [done|]. split; [by apply ex_not_touched|by vm_compute].
Qed.



(** ** Deviations *)

(** The file is opened under the name that was given and removed under the rebased name: one file is
    posted and another one is lost. *)
Theorem httppost_removes_other :
  match httppost_main ex_params ex_good (Some (ex_opt (str "/home/atlas/data/out/v"))) (post_start ex_good ex_fs) with
  | Done (r, s) => r = 0 ∧ drop (length (sent s) - 10) (sent s) = str "otheraabbb" ∧
      fs s !! resolve (str "/home/atlas/data/out/v") = Some (Regular (str "other") 1) ∧ fs s !! resolve (str "/var/spool/data/out/v") = None
  | Crash _ => False
  end.
Proof. vm_compute. done. Qed.

(** A file that is larger than half of the maximum is removed when it does not fit behind the files listed before it, although it
    could be posted alone: with a maximum of 4 bytes and files of 2 and 3 bytes the second is gone before the server
    is reached, and where the first is not there it is posted. *)
Definition ex_max4 : options :=
  OPT None None true (Some (str "/home/atlas/data/out/d")) None None (Some (str "4")) None None None false [str "http://[::1]:8080/x?y"].
Theorem httppost_drops_postable :
  let e := ex_env [7] (λ _ _, false) (Some 1000) in
  let b := resolve (str "/var/spool/data/out/d/b") in
  match httppost_main ex_params e (Some ex_max4) (post_start e ex_fs) with
  | Done (r, s) => r = 1 ∧ sent s = [] ∧ ex_fs !! b = Some (Regular (str "bbb") 1) ∧ fs s !! b = None
  | Crash _ => False
  end ∧
  match httppost_main ex_params ex_good (Some ex_max4)
          (post_start ex_good (<[resolve (str "/var/spool/data/out/d/a") := Directory]> ex_fs)) with
  | Done (r, s) => r = 0 ∧ drop (length (sent s) - 3) (sent s) = str "bbb"
  | Crash _ => False
  end.
Proof. vm_compute. done. Qed.

(** Only the first address of the server is ever tried. *)
Theorem httppost_first_address :
  let e := ex_env [7; 8] (λ _ a, a =? 8) (Some 1000) in
  match httppost_main ex_params e (Some (ex_opt (str "/var/spool/data/out/v"))) (post_start e ex_fs) with
  | Done (r, s) => r = 1 ∧ acts s = [Tried 7; Tried 7]
  | Crash _ => False
  end.
Proof. vm_compute. done. Qed.

(** A date that cannot be read is computed from fields that were not set. *)
Theorem httppost_bad_date :
  let e := ex_env [7] (λ _ _, true) None in
  httppost_main ex_params e (Some (ex_opt (str "/var/spool/data/out/v"))) (post_start e ex_fs) = Crash Undefined.
Proof. vm_compute. reflexivity. Qed.

(** A file of the status directory can be posted but not removed: the program fails after the server has accepted it, and
    leaves the files of the directory to be posted again. *)
Theorem httppost_status_file :
  match httppost_main ex_params ex_good (Some (ex_opt (str "/var/run/status/s"))) (post_start ex_good ex_fs) with
  | Done (r, s) => r = 1 ∧ out s = OK_STR ∧ fs s !! resolve (str "/var/spool/data/out/d/a") = Some (Regular (str "aa") 1)
  | Crash _ => False
  end.
Proof. vm_compute. done. Qed.

(** The test behind the word chunked is inverted, and a length beyond the range of an [int] counts as none. *)
Theorem httppost_headers :
  header_line (str "Transfer-Encoding: chunkedx") (HD false (-1) 0) = Some (HD true (-1) 0) ∧
  header_line (str "Transfer-Encoding: chunked ") (HD false (-1) 0) = Some (HD false (-1) 0) ∧
  header_line (str "Content-Length: 4294967295") (HD false (-1) 0) = Some (HD false (-1) 0).
Proof. vm_compute. done. Qed.
